(* ===== verification/_CoqProject ===== *)
-Q . S2P
Prelude.v
ProgramLogic.v
Json.v
Text.v
Models.v
ToolCatalog.v
Servers.v
Policy.v
RateLimit.v
Approval.v
DataPolicy.v
Discovery.v
Gateway.v
Identity.v
Endpoints.v
Cells.v
Execution.v
Investigations.v
Fallback.v
Playbooks.v
Config.v
LLMRegistry.v
Conversation.v
AgentApi.v
StructuredLLM.v
AgentScript.v
Investigator.v
InvestigatorFacts.v
Conclusions.v
Progress.v
Orchestrator.v
OrchestratorFacts.v
Digest.v
Alerts.v
ToolClient.v
Channels.v
ChannelFacts.v
EndToEnd.v
AgentApp.v
Credentials.v
AdapterSql.v
Adapters.v
AdapterFacts.v
Connections.v
DiscoverySql.v
Crawlers.v
CrawlerFacts.v
Gemini.v
OfflinePlanner.v
Prompts.v
Vendors.v
Wire.v
ExecutionApi.v
Startup.v
Migrations.v
Routing.v
GatewayApp.v
Services.v
Histories.v
