(* ===== verification/Prelude.v ===== *)
(** Verification library of the Numi DBA agent.

    * The program

    Numi lets a DBA talk to an agent in Slack or Teams.  Channels
    (src/numi/channels) authenticate the webhook, the Agent (src/numi/agent)
    runs an LLM over an investigation, and the Gateway (src/numi/gateway) is the
    only way from the Agent to a database: it re-resolves the human identity,
    validates the call, authorizes, rate-limits, applies the policy, assesses the
    risk, asks for approvals and audits.  The Execution Service
    (src/numi/execution) holds the credentials and runs one typed adapter method
    per request.  Shared models are in src/numi/common; the control database is
    brought to its tables by migrations/versions.

    * The files, and what they model

    Foundations
    Prelude          results, the state-and-error monad [M], Python strings and
                     dictionaries, decidable membership; the hint database
                     [numi] and the rewrite database [numi_rw]
    ProgramLogic     record update, triples and relations kept along a run,
                     computations that never raise, loops with a measure
    Json             JSON values and json.dumps(sort_keys=True), whose text
                     determines the value up to key order
    Text             str.split, int(), replacement and the fragment of re in use
    Models           common/models/*.py: failures, identity, risk, target, tool,
                     execution, catalog

    The Gateway
    ToolCatalog      common/models/tool_arguments.py, gateway/domain/tool_catalog.py
                     and tool_registry.py: argument models, the catalog, the registry
    Servers          common/server_reference.py, gateway/domain/servers.py and
                     target_validation.py
    Policy           gateway/domain/authorization.py, policy_engine.py, risk_engine.py
    RateLimit        common/rate_limit_backend.py, gateway/domain/rate_limiter.py:
                     the class [RateLimitBackend], two backends, the limiter
    Approval         gateway/domain/approval.py: every operation of the engine on
                     the control database, and a step relation [System]/[step] of
                     requests, decisions, verifications and executions in any
                     interleaving, with its invariant [Inv]
    DataPolicy       gateway/domain/data_policy.py, query_scrubber.py, sql_validator.py
    Discovery        gateway/domain/catalog.py, discovery.py and
                     infrastructure/catalog_store.py: the class [CatalogStore]
                     with laws, two implementations, the orchestrator
    Gateway          gateway/domain/audit.py, tool_call_handler.py: the pipeline
                     over one state [World] (approvals, logs, rate limits,
                     catalog, requests sent to the execution service)
    Identity         common/identity/provider.py, oidc_provider.py: the class
                     [IdentityProvider], the mock and the OIDC/SCIM provider
    Endpoints        common/service_auth.py, gateway/api/deps.py and the tool-call,
                     tool, approval and catalog routers, with commit and rollback
    Investigations   gateway/domain/investigation_store.py, investigation_memory.py,
                     decision_events.py and their routers: the class
                     [InvestigationStore] with laws, its implementation, recall
    Config           common/config.py: the settings, their bounds, the production gate
    Startup          common/identity/factory.py, what create_app of the Gateway and of
                     the Execution Service chooses, common/observability.py's redaction
    Migrations       gateway/infrastructure/db/models.py and migrations/versions:
                     schemas as maps of tables, the revisions as operations on them

    The models behind the Agent
    Fallback         agent/llm/fallback.py: the provider walk under one deadline
    LLMRegistry      agent/llm/registry.py: the choice of a provider and a model
    StructuredLLM    agent/llm/base.py and the chain of providers: prompts, retries
                     under the deadline, validation of completions
    Gemini           agent/llm/gemini_provider.py: versions, cooldowns, the cleaning
                     of schemas, the walk over the models
    OfflinePlanner   agent/llm/mock.py
    Prompts          the constant prompts and schemas of agent/llm/base.py
    Vendors          agent/llm/anthropic_provider.py, openai_provider.py and the
                     requests of Gemini, each an instance of [StructuredLLM.Vendor]

    The Agent
    Playbooks        agent/playbooks: the library, matching, the steps
    Conversation     agent/context_manager.py, planner/actions.py: the state of a
                     conversation and the actions of a model
    AgentApi         what the Agent asks of its surroundings: the classes
                     [GatewayClient], [LLMProvider], [AgentRuntime], the trace [Ag]
    AgentScript      a scripted world for concrete runs
    Investigator     agent/orchestrator.py: the investigation loop
    InvestigatorFacts, Conclusions, Progress   its bounds, its endings, its liveness
    Orchestrator     agent/orchestrator.py: commands, intents, approvals, unattended
                     runs; OrchestratorFacts its theorems
    Digest           agent/scheduled_report.py
    Alerts           agent/alert_trigger.py
    ToolClient       agent/tool_client.py, over the class [GatewayHttp]
    AgentApp         agent/api/app.py, and the way of an alert from the webhook to the
                     execution service

    The Channels
    Channels         channels: signatures, cards, deduplication, the webhooks, over the
                     classes [AgentService] and [MessagingApi]; ChannelFacts its theorems
    EndToEnd         the client, the network and the Gateway's endpoints as one world
                     the Agent runs in

    The Execution Service
    Cells            the values of a driver where the models say [Any]: JSON values and
                     other Python objects, and the JSON form of the records with them
    Execution        execution/service.py and the inherited methods of adapters/base.py,
                     over the class [ExecutionBackend]
    Credentials      execution/credentials/provider.py, over the class [SecretSdk]
    AdapterSql       the constant statements of the three engines
    Adapters         execution/adapters/sqlserver.py, postgresql.py, mysql.py, over the
                     class [QueryExecutor]; AdapterFacts their theorems
    Connections      execution/adapters/connections.py, over the class [DatabaseDriver]:
                     executors, and [engine_backend], the service over its own parts
    DiscoverySql, Crawlers, CrawlerFacts       execution/discovery
    Wire             common/models/execution.py and catalog.py as JSON, written through
                     the JSON form of every cell
    ExecutionApi     execution/api/app.py and gateway/infrastructure/execution_client.py

    The processes together
    Routing          tables of routes, their guards and the search of a request in them,
                     over the classes [PathRouting], [ClientPaths] and [QueryInts]
    GatewayApp       gateway/api/app.py and all its routers on raw requests, the audit
                     and investigation reads included
    Services         create_app of the four processes, their routes, the tokens of the
                     hops between them, infrastructure/db/session.py, the lifespan
    Histories        any sequence of raw requests to the Gateway, and where everything
                     it executed comes from

    Definitions keep the names of the source, with a prefix where several parts
    share one ([approval_decide], [policy_evaluate], [registry_get]).  Records
    keep the fields of the models under a two-letter prefix.  A call that raises
    is [Err e] with [e : exn], a NumiError or another Python exception by name.
    State reached before an exception is kept unless the session rolls it back
    ([Endpoints.rollback]).

    * What the theorems show

    Approvals (Approval): in every reachable state an execution that began had
    all the approvals its record demands, by distinct people who are not the
    requester for dual approval; a verification succeeds only for a live record
    with the hash of exactly the action; the hash binds the eight fields; what an
    operation does to a record refines a small specification; rejection is final;
    an executed approval can be decided and executed again.
    Gateway (Gateway, Endpoints): at most one request is sent per call and only
    past every gate, for an identity the provider resolved and a caller with a
    service token; every answered call leaves one audit event of its kind; an
    approval is consumed exactly by a successful execution; an unhandled exception
    erases the records; the approver's own authorization is never effective;
    enrichment never supplies the object.
    A policy document allows what it lists as ALLOW, or what it does not list when
    it states that default itself ([Policy.policy_fails_closed]).
    Gates (Policy, Servers, ToolCatalog, RateLimit, DataPolicy, Identity):
    functional characterisations of authorization, policy, risk, windows,
    resolution and validation, limits, minimisation, the SQL gate, SCIM literals
    and directory identities.
    Agent (InvestigatorFacts, Conclusions, Progress, OrchestratorFacts): the loop
    ends, a turn never proposes more than its bounds, a conclusion says what was
    verified, what an approval resubmits is what was proposed, and a run with
    nobody there submits reads only.
    Models (StructuredLLM, Gemini, OfflinePlanner, Vendors, Prompts): decisions are
    in time, of an offered tool, and what a provider answered to this prompt; every
    vendor is asked the same and forced to the same tool; the offline planner does
    not read the text of results and terminates only what it was told or shown.
    From end to end (EndToEnd, AgentApp, ChannelFacts, Digest, Alerts): deliveries
    act once, and each path passes on only what it checks, which is not the same
    everywhere: a Slack click is not signed and a development decision is looked up
    nowhere ([ChannelFacts.unsigned_click_decides], [dev_decision_is_unchecked]);
    whatever a model proposes, an unattended run, a
    digest or an alert makes the databases execute reads only.
    Execution (Execution, Credentials, AdapterFacts, Connections, CrawlerFacts,
    ExecutionApi, Wire): the service always answers; what the catalog calls a read
    is a read in every engine; a statement is one of fixed templates, whatever the
    identifiers; sessions of a discovery are closed; a credential
    is complete and that of the secret read, and what may be raised otherwise is
    listed, the exceptions the code leaves uncaught included; an operation runs at
    most once per call, for a service token only, and its result crosses the wire
    with every value in its JSON form, or not at all where one has none
    ([ExecutionApi.unwritable_answer_is_a_500]).
    Applications (GatewayApp, Services, Histories): along any history of requests,
    what was executed answers to a posted call of a known account and, where the
    policy asks for it, to DBAs who approved that action before; nobody but the
    Agent is answered, the health checks and the framework's documentation pages
    ([Routing.docs_router]) apart; the audit log only grows, and what the Agent is told is in
    it; each request of the client reaches the endpoint it means; the token of a
    hop opens one door and moves nothing at the others.
    Control (Migrations, Startup): migrations bring every deployed database to the
    models; what a production process starts with.

    * Interfaces

    Theorems about a client are proved against a class and its laws, and the
    implementation is an instance: [RateLimitBackend], [CatalogStore],
    [InvestigationStore], [IdentityProvider], [GatewayClient], [LLMProvider],
    [AgentRuntime], [GatewayHttp], [DigestPublisher], [AgentService],
    [MessagingApi], [ExecutionLog], [ExecutionBackend], [QueryExecutor],
    [DatabaseDriver], [SecretSdk], [Wire], [PathRouting], [ClientPaths],
    [QueryInts].

    * Bounds and fuel

    The investigation loop may pass once more than there are turns
    ([S MAX_INVESTIGATION_TURNS]): [InvestigatorFacts.loop_terminates] shows that
    this is never used up, by a measure every pass lowers, and that a larger bound
    gives the same run.  [Alerts.py_format] has the length of its text as fuel,
    which is never what ends it ([format_fuel]); [Orchestrator.strip_leading] has
    the length of its text too, and each pass shortens it.
    [Gemini.clean_schema] has the depth of Python's recursion, and raises beyond it
    as Python does; a schema no deeper never raises that
    ([Gemini.clean_schema_fits_gemini]).  Every other recursion is structural.

    * Idealisations

    Integers of Python are Z.  Instants and durations are Z in microseconds,
    except in the files of the models, where they are rational seconds.  Strings
    are byte strings; lower case and word characters are those of ASCII, and the
    length of a text is its bytes.  JSON numbers are integers; sizes in megabytes
    are rounded where they are printed.  Bodies of HTTP requests are typed, except
    on the way to the Execution Service ([Wire]); the Gateway's raw requests have a
    method, a path and the texts of the query, and the model made of the body.
    What a URL does to a path is [ClientPaths]: paths of plain segments stay.
    Identifiers and clock readings are arguments; each stage of a call has its own
    clock reading ([Gateway.CallInputs]).  A request runs in one database session;
    two requests interleave at the granularity of the operations of
    [Approval.step], and a history of Histories is sequential.  
    A cell of a driver that is no JSON value is a [Cells.pyobject]: its [str], its
    truth, what pydantic's [str] and [int] read it as, and its JSON form, if any;
    a float is one of them.  The Gateway's pipeline is the one over HTTP, where rows
    are JSON.  Sizes are added as integers, a name given as bytes is used as its
    text, keys of a dict built from rows are strings, and a columns argument that is
    no list of texts raises where Python would take a text letter by letter.

    * Parameters

    Code outside the repository is a parameter: sha256 and HMAC, [json.loads] with
    the exceptions it raises, the time zone
    database, pydantic's conversions and error texts, sqlglot ([SqlGlot],
    [SqlStatements]), Redis commands ([RedisOps]), itsdangerous
    ([TimedSerializer]), HTTP ([HttpClient]), the SDKs of the secrets managers and
    of the model vendors ([Vendors.Sdk]), database drivers ([DatabaseDriver]).
    Classes state the documented behaviour the code relies on, and the witnesses
    instantiate them.

    * Not modelled

    The configuration of structlog and OpenTelemetry and the launcher of the
    Execution Service: they only call libraries.  SQLAlchemy's engine and sessions:
    a session is its commit and its rollback.  The framework's parsing of a body
    into its model, and the abstract classes that only declare methods: the classes
    of the development stand for them.  Reading the settings from the
    environment and the YAML files from disk: the settings and their contents are
    arguments.  The JSON schema pydantic derives from the intent model: a parameter
    of [Vendors]. *)
From Stdlib Require Export ZArith Lia Ascii String ssreflect.
From stdpp Require Export base strings list gmap option numbers pretty fin_maps.

#[export] Set Warnings "-rewrite-rw,-clear-no-such-hyp".
#[export] Set Warnings "-register-all".

#[global] Open Scope general_if_scope.
#[global] Arguments String.append : simpl nomatch.

Declare Scope py_scope.
Delimit Scope py_scope with py.

(* ------------------------------------------------------------------ *)
(** ** Results and the state-and-error monad *)

(** What a Python call gives: a value, or a raised exception. *)
Inductive res (E A : Type) : Type :=
| Ok (a : A)
| Err (e : E).
Arguments Ok {E A} a.
Arguments Err {E A} e.

#[export] Instance res_eq_dec {E A} `{EqDecision E, EqDecision A} : EqDecision (res E A).
Proof. solve_decision. Defined.

#[export] Instance res_ret {E} : MRet (res E) := λ A a, Ok a.
#[export] Instance res_bind {E} : MBind (res E) := λ A B k m,
  match m with Ok a => k a | Err e => Err e end.
#[export] Instance res_fmap {E} : FMap (res E) := λ A B f m,
  match m with Ok a => Ok (f a) | Err e => Err e end.

(** Effectful code over a state [S] raising [E].  The state reached is kept
    when an exception is raised: a Python [raise] undoes no assignment. *)
Definition M (S E A : Type) : Type := S → res E A * S.

#[export] Instance M_ret {S E} : MRet (M S E) := λ A a s, (Ok a, s).
#[export] Instance M_bind {S E} : MBind (M S E) := λ A B k m s,
  match m s with
  | (Ok a, s') => k a s'
  | (Err e, s') => (Err e, s')
  end.

Definition raise {S E A} (e : E) : M S E A := λ s, (Err e, s).
Definition get_state {S E} : M S E S := λ s, (Ok s, s).
Definition modify {S E} (f : S → S) : M S E unit := λ s, (Ok tt, f s).
Definition lift_res {S E A} (r : res E A) : M S E A := λ s, (r, s).
(** [try: m except e: h(e)] *)
Definition try_except {S E A} (m : M S E A) (h : E → M S E A) : M S E A := λ s,
  match m s with
  | (Ok a, s') => (Ok a, s')
  | (Err e, s') => h e s'
  end.

Notation "'raise_if' b 'then_raise' e ;; k" :=
  (if b then raise e else k)
  (at level 100, b at level 99, e at level 99, k at level 200, only parsing) : py_scope.

Section monad_laws.
Context {S E : Type}.

Lemma M_bind_ok {A B} (m : M S E A) (k : A → M S E B) s a s' :
  m s = (Ok a, s') → (m ≫= k) s = k a s'.
Proof. unfold mbind, M_bind. by intros ->. Qed.

Lemma M_bind_err {A B} (m : M S E A) (k : A → M S E B) s e s' :
  m s = (Err e, s') → (m ≫= k) s = (Err e, s').
Proof. unfold mbind, M_bind. by intros ->. Qed.

Lemma M_bind_inv_ok {A B} (m : M S E A) (k : A → M S E B) s b s' :
  (m ≫= k) s = (Ok b, s') → ∃ a s1, m s = (Ok a, s1) ∧ k a s1 = (Ok b, s').
Proof.
  unfold mbind, M_bind. destruct (m s) as [[a|e] s1]; [eauto|done].
Qed.
End monad_laws.

(** a computation that moves the state only along [R], whatever its outcome *)
Section preserves.
Context {S E : Type} (R : relation S) `{!PreOrder R}.

Definition preserves {A} (m : M S E A) : Prop := ∀ s, R s (m s).2.

Lemma preserves_ret {A} (a : A) : preserves (mret a).
Proof. intros s. cbn. reflexivity. Qed.
Lemma preserves_lift {A} (r : res E A) : preserves (lift_res r).
Proof. intros s. cbn. reflexivity. Qed.
Lemma preserves_raise {A} (e : E) : preserves (raise e : M S E A).
Proof. intros s. cbn. reflexivity. Qed.
Lemma preserves_bind {A B} (m : M S E A) (k : A → M S E B) :
  preserves m → (∀ a, preserves (k a)) → preserves (m ≫= k).
Proof.
  intros Hm Hk s. specialize (Hm s). unfold mbind, M_bind.
  destruct (m s) as [[a|e] s']; [|done]. etrans; [exact Hm|apply Hk].
Qed.
Lemma preserves_if {A} (b : bool) (m1 m2 : M S E A) :
  preserves m1 → preserves m2 → preserves (if b then m1 else m2).
Proof. by destruct b. Qed.
Lemma preserves_try {A} (m : M S E A) (h : E → M S E A) :
  preserves m → (∀ e, preserves (h e)) → preserves (try_except m h).
Proof.
  intros Hm Hh s. specialize (Hm s). unfold try_except.
  destruct (m s) as [[a|e] s']; [done|]. etrans; [exact Hm|apply Hh].
Qed.
End preserves.

(** One step of inversion on a monadic run, and its repetition. *)
Ltac inv_bind :=
  match goal with
  | H : (_ ≫= _) _ = (Ok _, _) |- _ =>
      apply M_bind_inv_ok in H; destruct H as (? & ? & ? & H)
  end.

(** Case analysis on every match of a definition that has been unfolded. *)
Ltac break_matches := repeat (case_match; simplify_eq/=; try done).

(* ------------------------------------------------------------------ *)
(** ** Python strings *)

Definition ascii_lower (c : ascii) : ascii :=
  let n := Ascii.N_of_ascii c in
  if (65 <=? n)%N && (n <=? 90)%N then Ascii.ascii_of_N (n + 32) else c.

Fixpoint str_map (f : ascii → ascii) (s : string) : string :=
  match s with
  | EmptyString => EmptyString
  | String c s => String (f c) (str_map f s)
  end.

(** [s.lower()] *)
Definition str_lower : string → string := str_map ascii_lower.

(** ASCII whitespace, as [str.isspace] *)
Definition is_ws (c : ascii) : bool :=
  let n := Ascii.N_of_ascii c in
  (n =? 32)%N || ((9 <=? n)%N && (n <=? 13)%N) || ((28 <=? n)%N && (n <=? 31)%N).

Fixpoint str_lstrip (s : string) : string :=
  match s with
  | EmptyString => EmptyString
  | String c s' => if is_ws c then str_lstrip s' else s
  end.

Fixpoint str_rstrip (s : string) : string :=
  match s with
  | EmptyString => EmptyString
  | String c s' =>
      let t := str_rstrip s' in
      if is_ws c && bool_decide (t = "") then "" else String c t
  end.

(** [s.strip()] *)
Definition str_strip (s : string) : string := str_rstrip (str_lstrip s).

(** [needle in hay] *)
Fixpoint str_contains (needle hay : string) : bool :=
  String.prefix needle hay ||
  match hay with
  | EmptyString => false
  | String _ hay' => str_contains needle hay'
  end.

(** the truth value of a [str], and of a [str | None] *)
Definition truthy (s : string) : bool := negb (bool_decide (s = "")).
Definition opt_truthy (o : option string) : bool :=
  match o with Some s => truthy s | None => false end.
(** [o or d] for [o : str | None] *)
Definition str_or (o : option string) (d : string) : string :=
  match o with Some s => if truthy s then s else d | None => d end.

(** [sep.join(xs)] *)
Definition str_join (sep : string) (xs : list string) : string := String.concat sep xs.
(** [s[:n]] *)
Definition str_take (n : nat) (s : string) : string := String.substring 0 n s.

Fixpoint str_split_go (sep : ascii) (acc s : string) : list string :=
  match s with
  | EmptyString => [String.rev acc]
  | String c s' =>
      if bool_decide (c = sep) then String.rev acc :: str_split_go sep "" s'
      else str_split_go sep (String c acc) s'
  end.
(** [s.split(sep)] for a one-character separator *)
Definition str_split (sep : ascii) (s : string) : list string := str_split_go sep "" s.

(** the double quote, the backslash and the newline *)
Definition dquote : ascii := Ascii.ascii_of_nat 34.
Definition bslash : ascii := Ascii.ascii_of_nat 92.
Definition newline : ascii := Ascii.ascii_of_nat 10.

Lemma str_app_cons c (s t : string) : String c s +:+ t = String c (s +:+ t).
Proof. reflexivity. Qed.

Lemma ascii_lower_idemp c : ascii_lower (ascii_lower c) = ascii_lower c.
Proof. destruct c as [[] [] [] [] [] [] [] []]; vm_compute; reflexivity. Qed.

Lemma str_lower_idemp s : str_lower (str_lower s) = str_lower s.
Proof.
  unfold str_lower. induction s as [|c s IH]; cbn; [done|]. by rewrite ascii_lower_idemp IH.
Qed.

Lemma str_lower_app s t : str_lower (s +:+ t) = str_lower s +:+ str_lower t.
Proof. unfold str_lower. induction s as [|c s IH]; [done|]. by rewrite /= IH. Qed.

Lemma str_prefix_spec s t : String.prefix s t = true ↔ ∃ u, t = s +:+ u.
Proof.
  revert t. induction s as [|c s IH]; intros t; cbn.
  - destruct t; split; eauto.
  - destruct t as [|d t]; cbn.
    + split; [done|]. by intros [u Hu].
    + destruct (Ascii.ascii_dec c d) as [->|Hne].
      * rewrite IH. split; intros [u Hu]; exists u; congruence.
      * split; [done|]. intros [u Hu]. congruence.
Qed.

Lemma str_contains_spec n h : str_contains n h = true ↔ ∃ a b, h = a +:+ n +:+ b.
Proof.
  induction h as [|c h IH].
  - change (str_contains n "") with (String.prefix n "" || false).
    rewrite orb_false_r str_prefix_spec. split.
    + intros [u Hu]. by exists "", u.
    + intros (a & b & Hab). exists b. by destruct a.
  - change (str_contains n (String c h))
      with (String.prefix n (String c h) || str_contains n h).
    rewrite orb_true_iff str_prefix_spec IH. split.
    + intros [[u Hu]|(a & b & Hab)]; [by exists "", u|].
      exists (String c a), b. cbn. by rewrite Hab.
    + intros ([|d a] & b & Hab); cbn in Hab; [left; eauto|right].
      injection Hab as -> ->. eauto.
Qed.

Lemma str_rstrip_idemp s : str_rstrip (str_rstrip s) = str_rstrip s.
Proof.
  induction s as [|c s IH]; cbn; [done|].
  destruct (is_ws c && bool_decide (str_rstrip s = "")) eqn:E; [done|].
  cbn. by rewrite IH E.
Qed.

Lemma str_app_assoc (a b c : string) : (a +:+ b) +:+ c = a +:+ (b +:+ c).
Proof. induction a as [|x a IH]; cbn; [done|]. by f_equal. Qed.

Lemma str_app_nil_r (a : string) : a +:+ "" = a.
Proof. induction a as [|x a IH]; cbn; [done|]. by rewrite IH. Qed.

Lemma truthy_spec s : truthy s = true ↔ s ≠ "".
Proof. unfold truthy. rewrite negb_true_iff bool_decide_eq_false. done. Qed.

Lemma str_or_truthy o d : opt_truthy o = true → o = Some (str_or o d).
Proof. destruct o as [s|]; cbn; [|done]. by intros ->. Qed.

(* ------------------------------------------------------------------ *)
(** ** Python dictionaries in insertion order *)

Section dict.
Context {K V : Type} `{EqDecision K}.

Fixpoint dict_get (k : K) (d : list (K * V)) : option V :=
  match d with
  | [] => None
  | (k', v) :: d => if decide (k = k') then Some v else dict_get k d
  end.

(** [d[k] = v]: an existing key keeps its position *)
Fixpoint dict_set (k : K) (v : V) (d : list (K * V)) : list (K * V) :=
  match d with
  | [] => [(k, v)]
  | (k', v') :: d => if decide (k = k') then (k, v) :: d else (k', v') :: dict_set k v d
  end.

Definition dict_pop (k : K) (d : list (K * V)) : list (K * V) :=
  List.filter (λ kv, negb (bool_decide (k = kv.1))) d.

Lemma dict_get_set_eq k v d : dict_get k (dict_set k v d) = Some v.
Proof.
  induction d as [|[k' v'] d IH]; cbn; [by rewrite decide_True|].
  destruct (decide (k = k')); cbn; [by rewrite decide_True|by rewrite decide_False].
Qed.

Lemma dict_get_set_ne k k' v d : k ≠ k' → dict_get k (dict_set k' v d) = dict_get k d.
Proof.
  intros Hne. induction d as [|[k1 v1] d IH]; cbn; [by rewrite decide_False|].
  destruct (decide (k' = k1)) as [->|]; cbn.
  - by rewrite !decide_False.
  - destruct (decide (k = k1)); done.
Qed.

Lemma dict_get_elem k v d : dict_get k d = Some v → (k, v) ∈ d.
Proof.
  induction d as [|[k' v'] d IH]; cbn; [done|].
  destruct (decide (k = k')) as [->|]; intros Hk; [injection Hk as ->; left|right; auto].
Qed.

Lemma dict_get_none k d : dict_get k d = None ↔ k ∉ d.*1.
Proof.
  induction d as [|[k' v'] d IH]; cbn; [set_solver|].
  rewrite not_elem_of_cons. destruct (decide (k = k')); cbn in *; intuition congruence.
Qed.
End dict.

(** [next((x for x in l if p(x)), None)] *)
Definition first_where {A} (p : A → bool) (l : list A) : option A := List.find p l.

Lemma first_where_some {A} (p : A → bool) l x :
  first_where p l = Some x → x ∈ l ∧ p x = true.
Proof. intros H. apply find_some in H as [? ?]. by rewrite list_elem_of_In. Qed.

Lemma first_where_none {A} (p : A → bool) l x :
  first_where p l = None → x ∈ l → p x = false.
Proof. intros H ?. eapply find_none; [exact H|]. by apply list_elem_of_In. Qed.

Lemma filter_elem_of {A} (p : A → bool) l x :
  x ∈ List.filter p l ↔ x ∈ l ∧ p x = true.
Proof. by rewrite !list_elem_of_In filter_In. Qed.

(** membership of a decidable element as a [bool] *)
Definition mem {A} `{EqDecision A} (x : A) (l : list A) : bool := bool_decide (x ∈ l).
(** non-empty intersection, as [set(a) & set(b)] is tested *)
Definition intersects {A} `{EqDecision A} (a b : list A) : bool :=
  existsb (λ x, mem x b) a.

Lemma intersects_spec {A} `{EqDecision A} (a b : list A) :
  intersects a b = true ↔ ∃ x, x ∈ a ∧ x ∈ b.
Proof.
  unfold intersects, mem. rewrite existsb_exists. split.
  - intros (x & Hx & ?%bool_decide_eq_true). exists x. by rewrite list_elem_of_In.
  - intros (x & Hx & Hb). exists x. rewrite -list_elem_of_In. by rewrite bool_decide_eq_true.
Qed.

#[global] Arguments str_strip : simpl never.
#[global] Arguments str_lower : simpl never.
#[global] Arguments str_contains : simpl never.

Create HintDb numi discriminated.
#[export] Hint Resolve dict_get_set_eq dict_get_elem : numi.
#[export] Hint Resolve preserves_ret preserves_lift preserves_raise preserves_bind preserves_if
  preserves_try : numi.
Create Rewrite HintDb numi_rw.
#[export] Hint Rewrite str_lower_idemp str_rstrip_idemp str_app_nil_r str_app_assoc : numi_rw.
