(* ===== verification/ProgramLogic.v ===== *)
(** Record update and a small program logic for the monad [M]: a triple bounds the
    outcome and the final state of a run by its initial state, a relation
    [preserves] composes along a run, and a loop with a measure always ends. *)
From S2P Require Import Prelude.

(* ------------------------------------------------------------------ *)
(** ** Updating one field of a record *)

(** a record type lists its fields once, as the identity rebuilt from them *)
Class Rebuild (R : Type) : Type := rebuild : R → R.
Class FieldUpdate {R T : Type} (proj : R → T) : Type := field_update : (T → T) → R → R.
#[global] Arguments field_update {R T} proj {_} f r /.

Ltac solve_field_update :=
  match goal with
  | |- @FieldUpdate ?R ?T ?proj =>
      let e := eval cbv beta delta [rebuild] in (rebuild : R → R) in
      let e := match e with
               | ?h => let h' := eval red in h in
                       match eval pattern proj in h' with ?g _ => g end
               end in
      let u := eval cbv beta in (λ (f : T → T) (r : R), e (λ r' : R, f (proj r')) r) in
      exact u
  end.
#[export] Hint Extern 1 (FieldUpdate _) => solve_field_update : typeclass_instances.

Notation "r <| proj := v |>" := (field_update proj (λ _, v) r)
  (at level 1, left associativity, format "r <| proj := v |>").
Notation "r <| proj ::= f |>" := (field_update proj f r)
  (at level 1, left associativity, format "r <| proj ::= f |>").

(* ------------------------------------------------------------------ *)
(** ** Triples *)

Section triples.
Context {S E : Type}.

(** run from a state of [P], the computation gives an outcome and a state of [Q] *)
Definition triple {A} (P : S → Prop) (m : M S E A) (Q : res E A → S → Prop) : Prop :=
  ∀ s, P s → Q (m s).1 (m s).2.

Lemma triple_conseq {A} (P P' : S → Prop) (m : M S E A) (Q Q' : res E A → S → Prop) :
  triple P' m Q' → (∀ s, P s → P' s) → (∀ r s, Q' r s → Q r s) → triple P m Q.
Proof. intros Hm HP HQ s Hs. by apply HQ, Hm, HP. Qed.

Lemma triple_ret {A} (a : A) (Q : res E A → S → Prop) : triple (Q (Ok a)) (mret a) Q.
Proof. by intros s. Qed.
Lemma triple_raise {A} (e : E) (Q : res E A → S → Prop) : triple (Q (Err e)) (raise e) Q.
Proof. by intros s. Qed.
Lemma triple_lift {A} (r : res E A) (Q : res E A → S → Prop) : triple (Q r) (lift_res r) Q.
Proof. by intros s. Qed.
Lemma triple_get (Q : res E S → S → Prop) : triple (λ s, Q (Ok s) s) get_state Q.
Proof. by intros s. Qed.
Lemma triple_modify (f : S → S) (Q : res E unit → S → Prop) :
  triple (λ s, Q (Ok tt) (f s)) (modify f) Q.
Proof. by intros s. Qed.

Lemma triple_bind {A B} (P : S → Prop) (R : A → S → Prop) (m : M S E A) (k : A → M S E B) Q :
  triple P m (λ r s, match r with Ok a => R a s | Err e => Q (Err e) s end) →
  (∀ a, triple (R a) (k a) Q) → triple P (m ≫= k) Q.
Proof.
  intros Hm Hk s Hs. specialize (Hm s Hs). unfold mbind, M_bind.
  destruct (m s) as [[a|e] s']; [by apply Hk|done].
Qed.

Lemma triple_try {A} (P : S → Prop) (R : E → S → Prop) (m : M S E A) (h : E → M S E A) Q :
  triple P m (λ r s, match r with Ok a => Q (Ok a) s | Err e => R e s end) →
  (∀ e, triple (R e) (h e) Q) → triple P (try_except m h) Q.
Proof.
  intros Hm Hh s Hs. specialize (Hm s Hs). unfold try_except.
  destruct (m s) as [[a|e] s']; [done|by apply Hh].
Qed.

Lemma triple_if {A} (b : bool) (P : S → Prop) (m1 m2 : M S E A) Q :
  (b = true → triple P m1 Q) → (b = false → triple P m2 Q) → triple P (if b then m1 else m2) Q.
Proof. destruct b; auto. Qed.

(** a relation along a run is a triple from every state *)
Lemma preserves_triple {A} (R : relation S) (m : M S E A) :
  preserves R m ↔ ∀ s0, triple (λ s, s = s0) m (λ _ s, R s0 s).
Proof. split; [intros Hm s0 s ->; apply Hm|intros Hm s; by apply (Hm s)]. Qed.

Lemma preserves_get (R : relation S) `{!PreOrder R} : preserves R (get_state (E := E)).
Proof. intros s. cbn. reflexivity. Qed.
Lemma preserves_modify (R : relation S) (f : S → S) :
  (∀ s, R s (f s)) → preserves R (modify (E := E) f).
Proof. by intros Hf s. Qed.
Lemma preserves_sub {A} (R R' : relation S) (m : M S E A) :
  (∀ s s', R s s' → R' s s') → preserves R m → preserves R' m.
Proof. intros HR Hm s. apply HR, Hm. Qed.
End triples.

(* ------------------------------------------------------------------ *)
(** ** Computations that never raise, and predicates kept along a run *)

Section total.
Context {S E : Type}.

Definition total {A} (m : M S E A) : Prop := ∀ s, ∃ a s', m s = (Ok a, s').

Lemma total_ret {A} (a : A) : total (mret a).
Proof. intros s. by eexists _, _. Qed.
Lemma total_get : total get_state.
Proof. intros s. by eexists _, _. Qed.
Lemma total_modify (f : S → S) : total (modify f).
Proof. intros s. by eexists _, _. Qed.
Lemma total_bind {A B} (m : M S E A) (k : A → M S E B) :
  total m → (∀ a, total (k a)) → total (m ≫= k).
Proof.
  intros Hm Hk s. destruct (Hm s) as (a & s' & E1). rewrite (M_bind_ok _ _ _ _ _ E1). apply Hk.
Qed.
Lemma total_if {A} (b : bool) (m1 m2 : M S E A) : total m1 → total m2 → total (if b then m1 else m2).
Proof. by destruct b. Qed.
Lemma total_try {A} (m : M S E A) (h : E → M S E A) : (∀ e, total (h e)) → total (try_except m h).
Proof.
  intros Hh s. unfold try_except. destruct (m s) as [[a|e] s']; [by eexists _, _|apply Hh].
Qed.

(** [P] is an invariant of the run *)
Definition keeps (P : S → Prop) : relation S := λ s s', P s → P s'.
#[export] Instance keeps_preorder P : PreOrder (keeps P).
Proof. split; unfold keeps; [by intros s|by intros s t u ? ? ?; auto]. Qed.
End total.

(* ------------------------------------------------------------------ *)
(** ** Loops *)

(** one pass of a [while] loop: go round again, or leave with a value *)
Inductive pass (A : Type) : Type := Again | Leave (a : A).
Arguments Again {A}.
Arguments Leave {A} a.

Section loops.
Context {S E A : Type}.
Context (body : M S E (pass A)).

(** [fuel] passes at most; [None] when it runs out *)
Fixpoint loop (fuel : nat) : M S E (option A) :=
  match fuel with
  | O => mret None
  | Datatypes.S fuel =>
      p ← body;
      match p with Leave a => mret (Some a) | Again => loop fuel end
  end.

(** every pass that goes round again lowers the measure *)
Context (measure : S → nat).
Hypothesis lowers : ∀ s s', body s = (Ok Again, s') → (measure s' < measure s)%nat.

Lemma loop_ends fuel s : (measure s < fuel)%nat → (loop fuel s).1 ≠ Ok None.
Proof.
  revert s. induction fuel as [|fuel IH]; intros s Hf; [lia|]. cbn. unfold mbind, M_bind.
  destruct (body s) as [[[|a]|e] s'] eqn:Eb; cbn; [|done|done].
  apply IH. specialize (lowers _ _ Eb). lia.
Qed.

Lemma loop_more fuel s more : (measure s < fuel)%nat → loop (fuel + more) s = loop fuel s.
Proof.
  revert s. induction fuel as [|fuel IH]; intros s Hf; [lia|]. cbn. unfold mbind, M_bind.
  destruct (body s) as [[[|a]|e] s'] eqn:Eb; [|done|done].
  apply IH. specialize (lowers _ _ Eb). lia.
Qed.
End loops.

Section loop_rules.
Context {S E A : Type} (R : relation S) `{!PreOrder R}.

Lemma preserves_loop (body : M S E (pass A)) fuel : preserves R body → preserves R (loop body fuel).
Proof.
  intros Hb. induction fuel as [|fuel IH]; cbn; [by apply preserves_ret|].
  apply preserves_bind; [done..|]. intros [|a]; [done|by apply preserves_ret].
Qed.
End loop_rules.

Lemma triple_loop {S E A} (I : S → Prop) (body : M S E (pass A)) fuel (Q : res E (option A) → S → Prop) :
  triple I body (λ r s, match r with
                        | Ok Again => I s
                        | Ok (Leave a) => Q (Ok (Some a)) s
                        | Err e => Q (Err e) s end) →
  (∀ s, I s → Q (Ok None) s) → triple I (loop body fuel) Q.
Proof.
  intros Hb Hn. induction fuel as [|fuel IH]; cbn; [by intros s Hs; apply Hn|].
  eapply triple_bind with (R := λ p s, match p with Again => I s | Leave a => Q (Ok (Some a)) s end).
  - eapply triple_conseq; [exact Hb|done|]. intros [[|a]|e] s; done.
  - intros [|a]; [exact IH|by apply triple_ret].
Qed.

#[export] Hint Resolve preserves_get preserves_modify preserves_loop : numi.
#[export] Hint Resolve total_ret total_get total_modify total_bind total_if total_try : numi.

(** go through a computation part by part, down to the operations the hints know *)
Ltac walk_step :=
  match goal with
  | |- preserves _ (_ ≫= _) => apply preserves_bind; [apply _| |intros ?]
  | |- preserves _ (if _ then _ else _) => apply preserves_if
  | |- preserves _ (match ?x with _ => _ end) => destruct x
  | |- preserves _ (try_except _ _) => apply preserves_try; [apply _| |intros ?]
  | |- preserves _ (let _ := _ in _) => cbv zeta
  | |- preserves _ (loop _ _) => apply preserves_loop; [apply _|]
  | |- preserves _ _ => solve [eauto with numi typeclass_instances]
  | |- total (_ ≫= _) => apply total_bind; [|intros ?]
  | |- total (if _ then _ else _) => apply total_if
  | |- total (match ?x with _ => _ end) => destruct x
  | |- total (try_except _ _) => apply total_try; intros ?
  | |- total (let _ := _ in _) => cbv zeta
  | |- total _ => solve [eauto with numi]
  end.
Ltac walk := repeat walk_step.
