(* ===== verification/Json.v ===== *)
(** JSON values as Python's [dict]/[list]/[str]/[int]/[bool]/[None], and
    [json.dumps(v, sort_keys=True, separators=(",", ":"))], the canonical text
    [gateway/domain/approval.py] hashes.  The main lemma is that this text
    determines the value up to the order of object keys. *)
From S2P Require Import Prelude.

Inductive json : Type :=
| JNull
| JBool (b : bool)
| JInt (n : Z)
| JStr (s : string)
| JArr (l : list json)
| JObj (l : list (string * json)).

Section json_ind'.
Variable P : json → Prop.
Hypothesis Hnull : P JNull.
Hypothesis Hbool : ∀ b, P (JBool b).
Hypothesis Hint_ : ∀ n, P (JInt n).
Hypothesis Hstr : ∀ s, P (JStr s).
Hypothesis Harr : ∀ l, Forall P l → P (JArr l).
Hypothesis Hobj : ∀ l, Forall (λ kv, P kv.2) l → P (JObj l).

(** induction that goes through the nested lists *)
Fixpoint json_ind' (v : json) : P v :=
  match v with
  | JNull => Hnull
  | JBool b => Hbool b
  | JInt n => Hint_ n
  | JStr s => Hstr s
  | JArr l => Harr l
      ((fix go (l : list json) : Forall P l :=
         match l with
         | [] => Forall_nil_2 P
         | x :: l => Forall_cons_2 P x l (json_ind' x) (go l)
         end) l)
  | JObj l => Hobj l
      ((fix go (l : list (string * json)) : Forall (λ kv, P kv.2) l :=
         match l with
         | [] => Forall_nil_2 _
         | kv :: l => Forall_cons_2 (λ kv, P kv.2) kv l (json_ind' kv.2) (go l)
         end) l)
  end.
End json_ind'.

Fixpoint json_eqb (v w : json) : bool :=
  match v, w with
  | JNull, JNull => true
  | JBool a, JBool b => bool_decide (a = b)
  | JInt a, JInt b => bool_decide (a = b)
  | JStr a, JStr b => bool_decide (a = b)
  | JArr l, JArr m =>
      (fix go (l m : list json) : bool :=
         match l, m with
         | [], [] => true
         | x :: l, y :: m => json_eqb x y && go l m
         | _, _ => false
         end) l m
  | JObj l, JObj m =>
      (fix go (l m : list (string * json)) : bool :=
         match l, m with
         | [], [] => true
         | (k, x) :: l, (k', y) :: m => bool_decide (k = k') && json_eqb x y && go l m
         | _, _ => false
         end) l m
  | _, _ => false
  end.

Lemma json_eqb_spec v w : json_eqb v w = true ↔ v = w.
Proof.
  revert w. induction v as [|b|n|s|l IH|l IH] using json_ind'; intros [|b'|n'|s'|l'|l'];
    cbn; rewrite ?bool_decide_eq_true; try (split; congruence).
  - revert l'. induction IH as [|x l Hx _ IHl]; intros [|y l']; try (split; congruence).
    cbn in Hx |- *. rewrite andb_true_iff Hx. specialize (IHl l').
    split; [intros [-> ?%IHl]|intros [= -> ->]]; [congruence|]. split; [done|by apply IHl].
  - revert l'. induction IH as [|[k x] l Hx _ IHl]; intros [|[k' y] l']; try (split; congruence).
    cbn in Hx |- *. rewrite !andb_true_iff bool_decide_eq_true Hx. specialize (IHl l').
    split; [intros [[-> ->] ?%IHl]|intros [= -> -> ->]]; [congruence|].
    split; [done|by apply IHl].
Qed.

#[export] Instance json_eq_dec : EqDecision json.
Proof.
  intros v w. destruct (json_eqb v w) eqn:E.
  - left. by apply json_eqb_spec.
  - right. intros H%json_eqb_spec. congruence.
Defined.

(* ------------------------------------------------------------------ *)
(** ** [json.dumps] *)

Definition hex_digit (n : nat) : ascii :=
  if (n <? 10)%nat then Ascii.ascii_of_nat (48 + n) else Ascii.ascii_of_nat (87 + n).

(** [ESCAPE_ASCII]: every character of a JSON string literal is written as
    itself, as a two-character escape, or as [\u00XX] *)
Definition json_escape (c : ascii) : string :=
  let n := Ascii.nat_of_ascii c in
  if (n =? 34)%nat then String bslash (String dquote "")
  else if (n =? 92)%nat then String bslash (String bslash "")
  else if (n =? 10)%nat then String bslash "n"
  else if (n =? 13)%nat then String bslash "r"
  else if (n =? 9)%nat then String bslash "t"
  else if (n =? 12)%nat then String bslash "f"
  else if (n =? 8)%nat then String bslash "b"
  else if (32 <=? n)%nat && (n <=? 126)%nat then String c ""
  else String bslash ("u00" +:+
    String (hex_digit (n / 16)) (String (hex_digit (n mod 16)) "")).

Fixpoint json_escape_all (s : string) : string :=
  match s with
  | EmptyString => ""
  | String c s => json_escape c +:+ json_escape_all s
  end.

Definition json_str (s : string) : string :=
  String dquote (json_escape_all s +:+ String dquote "").

(** the text of a value whose objects are already in key order *)
Fixpoint json_print (v : json) : string :=
  match v with
  | JNull => "null"
  | JBool true => "true"
  | JBool false => "false"
  | JInt n => pretty n
  | JStr s => json_str s
  | JArr l => "[" +:+ str_join "," (map json_print l) +:+ "]"
  | JObj l =>
      "{" +:+ str_join "," (map (λ kv, json_str kv.1 +:+ ":" +:+ json_print kv.2) l) +:+ "}"
  end.

(** insertion sort of an object's items by key, as [sorted(d.items())] *)
Fixpoint insert_item {V} (k : string) (v : V) (l : list (string * V)) : list (string * V) :=
  match l with
  | [] => [(k, v)]
  | (k', v') :: l' => if String.leb k k' then (k, v) :: l else (k', v') :: insert_item k v l'
  end.
Definition sort_items {V} (l : list (string * V)) : list (string * V) :=
  foldr (λ kv acc, insert_item kv.1 kv.2 acc) [] l.

(** [sort_keys=True], at every depth *)
Fixpoint json_canon (v : json) : json :=
  match v with
  | JArr l => JArr (map json_canon l)
  | JObj l => JObj (sort_items (map (λ kv, (kv.1, json_canon kv.2)) l))
  | _ => v
  end.

Definition json_dumps (v : json) : string := json_print (json_canon v).

Example json_dumps_ex :
  json_dumps (JObj [("b", JArr [JInt (-3); JNull]); ("a", JStr "x")])
  = "{" +:+ json_str "a" +:+ ":" +:+ json_str "x" +:+ "," +:+ json_str "b" +:+ ":[-3,null]}".
Proof. vm_compute. reflexivity. Qed.

(* ------------------------------------------------------------------ *)
(** ** The printed text determines the value *)

(** characters of a printed integer, and texts that cannot continue one *)
Definition numchar (c : ascii) : bool :=
  let n := Ascii.nat_of_ascii c in ((48 <=? n)%nat && (n <=? 57)%nat) || (n =? 45)%nat.
Fixpoint str_all (p : ascii → bool) (s : string) : bool :=
  match s with EmptyString => true | String c s => p c && str_all p s end.
Definition delim (r : string) : Prop :=
  match r with EmptyString => True | String c _ => numchar c = false end.
Lemma str_all_app p s t : str_all p (s +:+ t) = str_all p s && str_all p t.
Proof. induction s as [|c s IH]; cbn; [done|]. by rewrite IH andb_assoc. Qed.
Lemma str_all_impl (p q : ascii → bool) s : (∀ c, p c = true → q c = true) →
  str_all p s = true → str_all q s = true.
Proof.
  intros Hpq. induction s as [|c s IH]; cbn; [done|]. intros [Hc Hs]%andb_true_iff.
  rewrite Hpq //. by apply IH.
Qed.

Lemma numchar_split s t r1 r2 :
  str_all numchar s = true → str_all numchar t = true → delim r1 → delim r2 →
  s +:+ r1 = t +:+ r2 → s = t ∧ r1 = r2.
Proof.
  revert t. induction s as [|c s IH]; intros [|d t]; cbn.
  - done.
  - intros _ [Hd _]%andb_true_iff H1 _ ->. cbn in H1. congruence.
  - intros [Hc _]%andb_true_iff _ _ H2 <-. cbn in H2. congruence.
  - intros [_ Hs]%andb_true_iff [_ Ht]%andb_true_iff H1 H2 [= -> Heq].
    destruct (IH t Hs Ht H1 H2 Heq) as [-> ->]. done.
Qed.

Lemma pretty_N_go_numchar x s :
  str_all numchar s = true → str_all numchar (pretty_N_go x s) = true.
Proof.
  revert s. induction (N.lt_wf_0 x) as [x _ IH]. intros s Hs.
  destruct (decide (0 < x)%N) as [Hx|Hx].
  - rewrite pretty_N_go_step //. apply IH; [by apply N.div_lt|].
    cbn. rewrite Hs andb_true_r. unfold pretty_N_char. repeat case_match; reflexivity.
  - assert (x = 0%N) as -> by lia. by rewrite pretty_N_go_0.
Qed.

Lemma pretty_N_numchar (x : N) : str_all numchar (pretty x) = true.
Proof.
  unfold pretty, pretty_N. case_decide; [reflexivity|]. by apply pretty_N_go_numchar.
Qed.

Lemma pretty_Z_numchar (x : Z) : str_all numchar (pretty x) = true.
Proof.
  destruct x as [|p|p]; [reflexivity|apply (pretty_N_numchar (Npos p))|].
  apply (pretty_N_numchar (Npos p)).
Qed.

Lemma pretty_Z_nonempty (x : Z) : pretty x ≠ "".
Proof.
  destruct x as [|p|p]; [done| |done]. intros H.
  assert (pretty (N.pos p) = "") as H' by exact H.
  unfold pretty, pretty_N in H'. case_decide; [done|].
  rewrite pretty_N_go_step // in H'.
  assert (∀ (y : N) s, s ≠ "" → pretty_N_go y s ≠ "") as Hne.
  { intros y. induction (N.lt_wf_0 y) as [y _ IH]. intros s Hs.
    destruct (decide (0 < y)%N) as [Hy|Hy].
    - rewrite pretty_N_go_step //. apply IH; [apply N.div_lt; lia|done].
    - assert (y = 0%N) as -> by lia. by rewrite pretty_N_go_0. }
  by apply (Hne _ _) in H'.
Qed.

(** reading one escaped character back *)
Definition json_unescape (s : string) : option (ascii * string) :=
  match s with
  | EmptyString => None
  | String c s =>
      if bool_decide (c = dquote) then None
      else if negb (bool_decide (c = bslash)) then Some (c, s)
      else match s with
           | String "n" s => Some (newline, s)
           | String "r" s => Some (Ascii.ascii_of_nat 13, s)
           | String "t" s => Some (Ascii.ascii_of_nat 9, s)
           | String "f" s => Some (Ascii.ascii_of_nat 12, s)
           | String "b" s => Some (Ascii.ascii_of_nat 8, s)
           | String "u" (String _ (String _ (String a (String b s)))) =>
               let v (c : ascii) : nat := let n := Ascii.nat_of_ascii c in
                          if (n <? 58)%nat then (n - 48)%nat else (n - 87)%nat in
               Some (Ascii.ascii_of_nat (16 * v a + v b), s)
           | String c s => Some (c, s)
           | EmptyString => None
           end
  end.

Lemma json_unescape_escape c s : json_unescape (json_escape c +:+ s) = Some (c, s).
Proof. destruct c as [[] [] [] [] [] [] [] []]; reflexivity. Qed.

Lemma json_str_inj s t r1 r2 : json_str s +:+ r1 = json_str t +:+ r2 → s = t ∧ r1 = r2.
Proof.
  unfold json_str. cbn. intros [= H]. rewrite !str_app_assoc in H.
  change (String dquote "" +:+ r1) with (String dquote r1) in H.
  change (String dquote "" +:+ r2) with (String dquote r2) in H.
  revert t H. induction s as [|c s IH]; intros [|d t]; cbn; rewrite ?str_app_assoc; intros H.
  - by injection H as ->.
  - by apply (f_equal json_unescape) in H; rewrite json_unescape_escape in H.
  - by apply (f_equal json_unescape) in H; rewrite json_unescape_escape in H.
  - apply (f_equal json_unescape) in H. rewrite !json_unescape_escape in H.
    injection H as -> H. destruct (IH t H) as [-> ->]. done.
Qed.

Lemma json_print_head v : ∃ c s, json_print v = String c s ∧ c ≠ "]"%char ∧ c ≠ "}"%char.
Proof.
  destruct v as [|[]|n|s|l|l]; cbn; try (do 2 eexists; split; [reflexivity|done]).
  destruct (pretty n) as [|c s] eqn:E; [by apply pretty_Z_nonempty in E|].
  exists c, s. pose proof (pretty_Z_numchar n) as Hn. rewrite E in Hn. cbn in Hn.
  apply andb_true_iff in Hn as [Hn _]. split; [done|split; intros ->; done].
Qed.

Section print_list.
Context {A : Type} (p : A → string) (close : ascii).
Hypothesis close_not_num : numchar close = false.
Hypothesis close_not_comma : close ≠ ","%char.
Hypothesis p_head : ∀ x, ∃ c s, p x = String c s ∧ c ≠ close.

Definition prefix_inj_at (x : A) : Prop := ∀ y r1 r2,
  delim r1 → delim r2 → p x +:+ r1 = p y +:+ r2 → x = y ∧ r1 = r2.

Definition list_tail (l : list A) (r : string) : string :=
  match l with
  | [] => String close r
  | _ => "," +:+ str_join "," (map p l) +:+ String close r
  end.

Lemma join_cons x l r :
  str_join "," (map p (x :: l)) +:+ String close r = p x +:+ list_tail l r.
Proof. destruct l as [|y l]; cbn; [done|]. by rewrite !str_app_assoc. Qed.

Lemma list_tail_delim l r : delim (list_tail l r).
Proof. destruct l; cbn; done. Qed.

Lemma print_list_inj l l' r1 r2 :
  Forall prefix_inj_at l →
  str_join "," (map p l) +:+ String close r1 = str_join "," (map p l') +:+ String close r2 →
  l = l' ∧ r1 = r2.
Proof.
  intros HF. revert l'. induction HF as [|x l Hx _ IH]; intros [|y l'].
  - cbn. by intros [= ->].
  - rewrite join_cons. destruct (p_head y) as (c & s & -> & ?). cbn. congruence.
  - rewrite join_cons. destruct (p_head x) as (c & s & -> & ?). cbn. congruence.
  - rewrite !join_cons. intros H.
    apply Hx in H as [-> H]; [|apply list_tail_delim..].
    destruct l as [|a l], l' as [|b l']; cbn in H; [|congruence..|].
    + by injection H as ->.
    + injection H as H. apply (IH (b :: l')) in H as [-> ->]. done.
Qed.
End print_list.

(** the first character tells the kind of value *)
Definition head_kind (c : ascii) : nat :=
  if bool_decide (c = "n"%char) then 0
  else if bool_decide (c = "t"%char) || bool_decide (c = "f"%char) then 1
  else if numchar c then 2
  else if bool_decide (c = dquote) then 3
  else if bool_decide (c = "["%char) then 4 else 5.
Definition json_kind (v : json) : nat :=
  match v with
  | JNull => 0 | JBool _ => 1 | JInt _ => 2 | JStr _ => 3 | JArr _ => 4 | JObj _ => 5
  end.

Lemma json_print_kind v : ∃ c s, json_print v = String c s ∧ head_kind c = json_kind v.
Proof.
  destruct v as [|[]|n|s|l|l]; cbn; try (do 2 eexists; split; reflexivity).
  destruct (pretty n) as [|c s] eqn:E; [by apply pretty_Z_nonempty in E|].
  exists c, s. split; [done|]. pose proof (pretty_Z_numchar n) as Hn. rewrite E in Hn.
  cbn in Hn. apply andb_true_iff in Hn as [Hn _]. unfold head_kind. rewrite Hn.
  repeat case_bool_decide; subst; try discriminate Hn; reflexivity.
Qed.

Lemma json_print_same_kind v w r1 r2 :
  json_print v +:+ r1 = json_print w +:+ r2 → json_kind v = json_kind w.
Proof.
  destruct (json_print_kind v) as (c & s & -> & <-).
  destruct (json_print_kind w) as (d & t & -> & <-). cbn. congruence.
Qed.

Lemma item_prefix_inj k v :
  (∀ w r1 r2, delim r1 → delim r2 → json_print v +:+ r1 = json_print w +:+ r2 →
              v = w ∧ r1 = r2) →
  prefix_inj_at (λ kv : string * json, json_str kv.1 +:+ ":" +:+ json_print kv.2) (k, v).
Proof.
  intros IH [k' w] r1 r2 D1 D2. cbn [fst snd]. rewrite !str_app_assoc. intros H.
  apply json_str_inj in H as [-> H]. cbn in H. injection H as H.
  apply IH in H as [-> ->]; done.
Qed.

Lemma json_print_prefix_inj v w r1 r2 :
  delim r1 → delim r2 → json_print v +:+ r1 = json_print w +:+ r2 → v = w ∧ r1 = r2.
Proof.
  revert w r1 r2. induction v as [|b|n|s|l IH|l IH] using json_ind'; intros w r1 r2 D1 D2 H;
    pose proof (json_print_same_kind _ _ _ _ H) as K; destruct w as [|b'|n'|s'|l'|l'];
    try discriminate K; clear K.
  - cbn in H. by injection H as ->.
  - destruct b, b'; cbn in H; try discriminate H; by injection H as ->.
  - cbn in H. apply numchar_split in H as [H ->]; auto using pretty_Z_numchar.
    by apply (inj pretty) in H as ->.
  - by apply json_str_inj in H as [-> ->].
  - cbn in H. injection H as H. rewrite !str_app_assoc in H.
    apply print_list_inj in H as [-> ->]; try done.
    intros x. destruct (json_print_head x) as (c & s & -> & ? & ?). eauto.
  - cbn in H. injection H as H. rewrite !str_app_assoc in H.
    apply print_list_inj in H as [-> ->]; try done.
    + intros [k x]. exists dquote. eexists. cbn. split; [reflexivity|done].
    + eapply Forall_impl; [exact IH|]. intros [k x] Hx. by apply item_prefix_inj.
Qed.

(** the canonical text is the same only for values equal up to key order *)
Lemma json_dumps_inj v w : json_dumps v = json_dumps w → json_canon v = json_canon w.
Proof.
  unfold json_dumps. intros H. apply (json_print_prefix_inj _ _ "" ""); [done..|].
  by rewrite !str_app_nil_r.
Qed.

Lemma insert_item_perm {V} k (v : V) l : insert_item k v l ≡ₚ (k, v) :: l.
Proof.
  induction l as [|[k' v'] l IH]; cbn; [done|]. case_match; [done|].
  rewrite IH. apply Permutation_swap.
Qed.

Lemma sort_items_perm {V} (l : list (string * V)) : sort_items l ≡ₚ l.
Proof.
  unfold sort_items. induction l as [|[k v] l IH]; cbn; [done|].
  by rewrite insert_item_perm IH.
Qed.

#[export] Hint Resolve json_dumps_inj : numi.

(** the truth value of a JSON value *)
Definition json_truthy (v : json) : bool :=
  match v with
  | JNull => false
  | JBool b => b
  | JInt n => negb (bool_decide (n = 0%Z))
  | JStr s => truthy s
  | JArr l => negb (bool_decide (length l = 0%nat))
  | JObj l => negb (bool_decide (length l = 0%nat))
  end.
