(* ===== verification/Text.v ===== *)
(** Text: character classes, the regular expressions of the sources, words and
    Python's [repr].  [\w] and [\b] are those of ASCII: a byte of a multi-byte
    character is not a word character. *)
From S2P Require Import Prelude Json.

(* ------------------------------------------------------------------ *)
(** ** Characters *)

Definition is_digit (c : ascii) : bool :=
  let n := Ascii.N_of_ascii c in (48 <=? n)%N && (n <=? 57)%N.
Definition is_alnum (c : ascii) : bool :=
  let n := Ascii.N_of_ascii c in ((97 <=? n)%N && (n <=? 122)%N) || is_digit c.

Definition ascii_upper (c : ascii) : ascii :=
  let n := Ascii.N_of_ascii c in
  if (97 <=? n)%N && (n <=? 122)%N then Ascii.ascii_of_N (n - 32) else c.
(** [s.upper()] *)
Definition str_upper : string → string := str_map ascii_upper.

(** *** [int] of a text *)

(** the digits of Python's [int]: groups separated by single underscores *)
Fixpoint py_digits (acc : option Z) (s : string) : option Z :=
  match s with
  | EmptyString => acc
  | String c s =>
      if is_digit c then
        py_digits (Some (default 0 acc * 10 + Z.of_N (Ascii.N_of_ascii c - 48))%Z) s
      else if bool_decide (c = "_"%char) then
        match acc, s with
        | Some _, String d _ => if is_digit d then py_digits acc s else None
        | _, _ => None
        end
      else None
  end.
(** [int(text)] *)
Definition py_int (text : string) : option Z :=
  match str_strip text with
  | String "-" s => Z.opp <$> py_digits None s
  | String "+" s => py_digits None s
  | s => py_digits None s
  end.

(** the text after a prefix *)
Fixpoint after_prefix (p s : string) : option string :=
  match p, s with
  | EmptyString, _ => Some s
  | String c p, String d s => if bool_decide (c = d) then after_prefix p s else None
  | String _ _, EmptyString => None
  end.

(* ------------------------------------------------------------------ *)
(** ** Regular expressions *)

(** the fragment of [re] the patterns use: a class is [.], [\w], [\s] or [\d] *)
Inductive char_class : Type := AnyChar | WordChar | SpaceChar | DigitChar.
Inductive regex : Type :=
| REps
| RChars (chars : list ascii)
| RClass (cls : char_class)
| RMany (cls : char_class)
| RSeq (r s : regex)
| RAlt (r s : regex)
| ROpt (r : regex)
| RBegin
| REnd
| RWordBoundary.

(** [\w] *)
Definition is_word (c : ascii) : bool :=
  is_alnum (ascii_lower c) || bool_decide (c = "_"%char).
Definition in_class (cls : char_class) (c : ascii) : bool :=
  match cls with
  | AnyChar => negb (bool_decide (c = newline))
  | WordChar => is_word c
  | SpaceChar => is_ws c
  | DigitChar => is_digit c
  end.
Definition opt_word (o : option ascii) : bool :=
  match o with Some c => is_word c | None => false end.
Definition str_head (s : string) : option ascii :=
  match s with String c _ => Some c | EmptyString => None end.

(** match at a position, given by the character before it and the text after;
    characters are compared under [fold], the identity or, for [re.IGNORECASE],
    the lower case; alternatives are tried in order *)
Fixpoint rmatch_with (fold : ascii → ascii) (r : regex) (prev : option ascii) (s : string)
    (k : option ascii → string → bool) : bool :=
  match r with
  | REps => k prev s
  | RChars cs =>
      match s with
      | String c s' => mem (fold c) (map fold cs) && k (Some c) s'
      | EmptyString => false
      end
  | RClass cls =>
      match s with
      | String c s' => in_class cls c && k (Some c) s'
      | EmptyString => false
      end
  | RMany cls =>
      (fix many (prev : option ascii) (s : string) : bool :=
         match s with
         | String c s' => in_class cls c && many (Some c) s'
         | EmptyString => false
         end || k prev s) prev s
  | RSeq r1 r2 => rmatch_with fold r1 prev s (λ p t, rmatch_with fold r2 p t k)
  | RAlt r1 r2 => rmatch_with fold r1 prev s k || rmatch_with fold r2 prev s k
  | ROpt r1 => rmatch_with fold r1 prev s k || k prev s
  | RBegin => bool_decide (prev = None) && k prev s
  | REnd => (bool_decide (s = "") || bool_decide (s = String newline "")) && k prev s
  | RWordBoundary => xorb (opt_word prev) (opt_word (str_head s)) && k prev s
  end.

(** [bool(re.compile(r).search(s))] *)
Fixpoint rsearch_from (fold : ascii → ascii) (r : regex) (prev : option ascii) (s : string) : bool :=
  rmatch_with fold r prev s (λ _ _, true) ||
  match s with
  | EmptyString => false
  | String c s' => rsearch_from fold r (Some c) s'
  end.
Definition rsearch_with (fold : ascii → ascii) (r : regex) (s : string) : bool :=
  rsearch_from fold r None s.
Definition rsearch : regex → string → bool := rsearch_with ascii_lower.

Fixpoint rlit (s : string) : regex :=
  match s with
  | EmptyString => REps
  | String c EmptyString => RChars [c]
  | String c s => RSeq (RChars [c]) (rlit s)
  end.
(** ["|".join(patterns)]: the empty pattern for an empty list *)
Fixpoint ralts (l : list regex) : regex :=
  match l with
  | [] => REps
  | [r] => r
  | r :: l => RAlt r (ralts l)
  end.

Definition whole_word (s : string) : regex :=
  RSeq RWordBoundary (RSeq (rlit s) RWordBoundary).

(** *** A whole word in a text *)

(** [prev] before, [s] after: the position is a word boundary *)
Definition boundary (prev : option ascii) (s : string) : bool :=
  xorb (opt_word prev) (opt_word (str_head s)).

(** the last character of [s] read after [prev] *)
Fixpoint last_char (prev : option ascii) (s : string) : option ascii :=
  match s with
  | EmptyString => prev
  | String c s => last_char (Some c) s
  end.

Lemma last_char_app prev s t : last_char prev (s +:+ t) = last_char (last_char prev s) t.
Proof. revert prev. induction s as [|c s IH]; intros prev; [done|]. apply IH. Qed.

Lemma rmatch_lit fold w prev s k :
  rmatch_with fold (rlit w) prev s k = true ↔
  ∃ v t, s = v +:+ t ∧ str_map fold v = str_map fold w ∧ k (last_char prev v) t = true.
Proof.
  revert prev s. induction w as [|c w IH]; intros prev s.
  - cbn. split.
    + intros Hk. by exists "", s.
    + intros ([|d v] & t & -> & Hv & Hk); [done|discriminate Hv].
  - assert (rmatch_with fold (rlit (String c w)) prev s k = true ↔
      ∃ d s', s = String d s' ∧ fold d = fold c ∧ rmatch_with fold (rlit w) (Some d) s' k = true) as ->.
    { destruct w as [|c' w]; destruct s as [|d s]; cbn;
        (rewrite ?andb_true_iff; unfold mem; rewrite ?bool_decide_eq_true;
         rewrite ?list_elem_of_singleton; split;
         [try done; intros [Hd Hk]; by exists d, s
         |intros (d' & s' & [=] & Hd & Hk); simplify_eq; done]). }
    split.
    + intros (d & s' & -> & Hd & (v & t & -> & Hv & Hk)%IH).
      exists (String d v), t. cbn. by rewrite Hd Hv.
    + intros ([|d v] & t & -> & Hv & Hk); [discriminate Hv|]. cbn in Hv. injection Hv as Hd Hv.
      exists d, (v +:+ t). split_and!; [done..|]. apply IH. by exists v, t.
Qed.

Lemma rsearch_from_spec fold r prev s :
  rsearch_from fold r prev s = true ↔
  ∃ a b, s = a +:+ b ∧ rmatch_with fold r (last_char prev a) b (λ _ _, true) = true.
Proof.
  revert prev. induction s as [|c s IH]; intros prev;
    [change (rsearch_from fold r prev "") with (rmatch_with fold r prev "" (λ _ _, true) || false)
    |change (rsearch_from fold r prev (String c s)) with
       (rmatch_with fold r prev (String c s) (λ _ _, true) || rsearch_from fold r (Some c) s)].
  - rewrite orb_false_r. split.
    + intros Hm. by exists "", "".
    + intros ([|d a] & b & Hab & Hm); [|discriminate Hab]. cbn in Hab. by subst b.
  - rewrite orb_true_iff IH. split.
    + intros [Hm|(a & b & -> & Hm)]; [by exists "", (String c s)|by exists (String c a), b].
    + intros ([|d a] & b & Hab & Hm); cbn in Hab; [left; by subst b|right].
      injection Hab as -> ->. by exists a, b.
Qed.

(** what searching for a whole word decides *)
Lemma whole_word_spec fold w s :
  rsearch_with fold (whole_word w) s = true ↔
  ∃ a v b, s = a +:+ v +:+ b ∧ str_map fold v = str_map fold w ∧
    boundary (last_char None a) (v +:+ b) = true ∧ boundary (last_char None (a +:+ v)) b = true.
Proof.
  unfold rsearch_with. rewrite rsearch_from_spec. unfold whole_word. cbn [rmatch_with]. split.
  - intros (a & t & -> & [Hb Hm]%andb_true_iff).
    apply rmatch_lit in Hm as (v & b & -> & Hv & Hk). exists a, v, b.
    rewrite last_char_app. rewrite andb_true_r in Hk. done.
  - intros (a & v & b & -> & Hv & H1 & H2). exists a, (v +:+ b). split; [done|].
    apply andb_true_iff. split; [exact H1|]. apply rmatch_lit. exists v, b.
    rewrite last_char_app in H2. by rewrite andb_true_r.
Qed.

(* ------------------------------------------------------------------ *)
(** ** Words *)

Fixpoint words_go (acc s : string) : list string :=
  match s with
  | EmptyString => if truthy acc then [String.rev acc] else []
  | String c s =>
      if is_word c then words_go (String c acc) s
      else if truthy acc then String.rev acc :: words_go "" s else words_go "" s
  end.
(** the maximal runs of word characters, the only substrings that a pattern
    [\b...\b] of word characters can match *)
Definition words (s : string) : list string := words_go "" s.

Fixpoint ws_split_go (acc s : string) : list string :=
  match s with
  | EmptyString => if truthy acc then [String.rev acc] else []
  | String c s =>
      if is_ws c then (if truthy acc then String.rev acc :: ws_split_go "" s else ws_split_go "" s)
      else ws_split_go (String c acc) s
  end.
(** [s.split()] *)
Definition ws_split (s : string) : list string := ws_split_go "" s.

(** [s.split(maxsplit=1)]: the second part keeps its inner whitespace *)
Fixpoint until_ws (s : string) : string * string :=
  match s with
  | EmptyString => ("", "")
  | String c s' => if is_ws c then ("", s) else let '(w, r) := until_ws s' in (String c w, r)
  end.
Definition ws_split1 (s : string) : list string :=
  let '(w, r) := until_ws (str_lstrip s) in
  if truthy w then if truthy (str_lstrip r) then [w; str_lstrip r] else [w] else [].

Definition starts_with (p s : string) : bool := String.prefix p s.

(* ------------------------------------------------------------------ *)
(** ** [repr] and [str] of the values of JSON *)

Definition hex2 (n : nat) : string := String (hex_digit (n / 16)) (String (hex_digit (n mod 16)) "").

(** one character of a quoted [repr]; [q] is the quote in use *)
Definition repr_char (q c : ascii) : string :=
  let n := Ascii.nat_of_ascii c in
  if bool_decide (c = bslash) then String bslash (String bslash "")
  else if bool_decide (c = q) then String bslash (String q "")
  else if (n =? 10)%nat then String bslash "n"
  else if (n =? 13)%nat then String bslash "r"
  else if (n =? 9)%nat then String bslash "t"
  else if (n <? 32)%nat || (n =? 127)%nat then String bslash ("x" +:+ hex2 n)
  else String c "".
Fixpoint repr_chars (q : ascii) (s : string) : string :=
  match s with
  | EmptyString => ""
  | String c s => repr_char q c +:+ repr_chars q s
  end.
Definition squote : ascii := "'"%char.
Definition repr_str (s : string) : string :=
  let q := if str_contains (String squote "") s && negb (str_contains (String dquote "") s)
           then dquote else squote in
  String q (repr_chars q s +:+ String q "").
Definition repr_list (l : list string) : string :=
  "[" +:+ str_join ", " (map repr_str l) +:+ "]".

Fixpoint repr_json (v : json) : string :=
  match v with
  | JNull => "None"
  | JBool b => if b then "True" else "False"
  | JInt z => pretty z
  | JStr s => repr_str s
  | JArr l => "[" +:+ str_join ", " (map repr_json l) +:+ "]"
  | JObj d => "{" +:+ str_join ", " (map (λ kv, repr_str kv.1 +:+ ": " +:+ repr_json kv.2) d) +:+ "}"
  end.
(** [str(v)] *)
Definition str_json (v : json) : string := match v with JStr s => s | _ => repr_json v end.

Example words_ex : words "why is CoreBanking slow? (db_1)" = ["why"; "is"; "CoreBanking"; "slow"; "db_1"].
Proof. vm_compute. reflexivity. Qed.
Example ws_split_ex : ws_split "  /model  gemini x " = ["/model"; "gemini"; "x"].
Proof. vm_compute. reflexivity. Qed.
Example ws_split1_ex : ws_split1 "/catalog  sql dev " = ["/catalog"; "sql dev "].
Proof. vm_compute. reflexivity. Qed.
Example repr_ex : repr_json (JObj [("a", JArr [JStr "it's"; JNull; JInt 3])])
  = "{'a': [" +:+ String dquote ("it's" +:+ String dquote ", None, 3]}").
Proof. vm_compute. reflexivity. Qed.
Example whole_word_ex : map (rsearch_with id (whole_word "lock")) ["a deadlock"; "row lock!"] = [false; true].
Proof. vm_compute. reflexivity. Qed.

#[global] Arguments words : simpl never.
#[global] Arguments ws_split : simpl never.
#[global] Arguments repr_str : simpl never.
