(* ===== verification/Models.v ===== *)
(** The shared data model: [common/models/*.py].  Enumerations keep the
    source's constructors and their [.value] strings, pydantic models are
    records, [NumiError] is a value of the exception type [exn]. *)
From S2P Require Import Prelude Json.

(* ------------------------------------------------------------------ *)
(** ** common/models/failures.py *)

Inductive FailureCode : Type :=
| AUTHENTICATION_FAILED | UNAUTHORIZED | TOOL_NOT_FOUND | TOOL_NOT_AVAILABLE
| INVALID_ARGUMENTS | INVALID_TARGET | POLICY_DENIED | APPROVAL_REQUIRED
| APPROVAL_EXPIRED | APPROVAL_INVALID | APPROVAL_MISMATCH | APPROVAL_ALREADY_DECIDED
| SEPARATION_OF_DUTIES_VIOLATION | DUAL_APPROVAL_REQUIRED | RATE_LIMITED
| DATABASE_UNAVAILABLE | EXECUTION_TIMEOUT | EXECUTION_FAILED | VERIFICATION_FAILED
| RESULT_TRUNCATED | SECURITY_BLOCKED | PREFLIGHT_FAILED
| STATE_CHANGED_REAPPROVAL_REQUIRED | DEPENDENCY_UNAVAILABLE | CHANGE_TICKET_REQUIRED.

#[export] Instance FailureCode_eq_dec : EqDecision FailureCode.
Proof. solve_decision. Defined.

Definition all_failure_codes : list FailureCode :=
  [AUTHENTICATION_FAILED; UNAUTHORIZED; TOOL_NOT_FOUND; TOOL_NOT_AVAILABLE;
   INVALID_ARGUMENTS; INVALID_TARGET; POLICY_DENIED; APPROVAL_REQUIRED;
   APPROVAL_EXPIRED; APPROVAL_INVALID; APPROVAL_MISMATCH; APPROVAL_ALREADY_DECIDED;
   SEPARATION_OF_DUTIES_VIOLATION; DUAL_APPROVAL_REQUIRED; RATE_LIMITED;
   DATABASE_UNAVAILABLE; EXECUTION_TIMEOUT; EXECUTION_FAILED; VERIFICATION_FAILED;
   RESULT_TRUNCATED; SECURITY_BLOCKED; PREFLIGHT_FAILED;
   STATE_CHANGED_REAPPROVAL_REQUIRED; DEPENDENCY_UNAVAILABLE; CHANGE_TICKET_REQUIRED].

(** [code.value] *)
Definition failure_value (c : FailureCode) : string :=
  match c with
  | AUTHENTICATION_FAILED => "AUTHENTICATION_FAILED"
  | UNAUTHORIZED => "UNAUTHORIZED"
  | TOOL_NOT_FOUND => "TOOL_NOT_FOUND"
  | TOOL_NOT_AVAILABLE => "TOOL_NOT_AVAILABLE"
  | INVALID_ARGUMENTS => "INVALID_ARGUMENTS"
  | INVALID_TARGET => "INVALID_TARGET"
  | POLICY_DENIED => "POLICY_DENIED"
  | APPROVAL_REQUIRED => "APPROVAL_REQUIRED"
  | APPROVAL_EXPIRED => "APPROVAL_EXPIRED"
  | APPROVAL_INVALID => "APPROVAL_INVALID"
  | APPROVAL_MISMATCH => "APPROVAL_MISMATCH"
  | APPROVAL_ALREADY_DECIDED => "APPROVAL_ALREADY_DECIDED"
  | SEPARATION_OF_DUTIES_VIOLATION => "SEPARATION_OF_DUTIES_VIOLATION"
  | DUAL_APPROVAL_REQUIRED => "DUAL_APPROVAL_REQUIRED"
  | RATE_LIMITED => "RATE_LIMITED"
  | DATABASE_UNAVAILABLE => "DATABASE_UNAVAILABLE"
  | EXECUTION_TIMEOUT => "EXECUTION_TIMEOUT"
  | EXECUTION_FAILED => "EXECUTION_FAILED"
  | VERIFICATION_FAILED => "VERIFICATION_FAILED"
  | RESULT_TRUNCATED => "RESULT_TRUNCATED"
  | SECURITY_BLOCKED => "SECURITY_BLOCKED"
  | PREFLIGHT_FAILED => "PREFLIGHT_FAILED"
  | STATE_CHANGED_REAPPROVAL_REQUIRED => "STATE_CHANGED_REAPPROVAL_REQUIRED"
  | DEPENDENCY_UNAVAILABLE => "DEPENDENCY_UNAVAILABLE"
  | CHANGE_TICKET_REQUIRED => "CHANGE_TICKET_REQUIRED"
  end.

(** [FailureCode(s)]: [None] where Python raises [ValueError] *)
Definition failure_of_value (s : string) : option FailureCode :=
  first_where (λ c, bool_decide (failure_value c = s)) all_failure_codes.

Lemma all_failure_codes_complete c : c ∈ all_failure_codes.
Proof. destruct c; cbn; repeat (apply list_elem_of_here || apply list_elem_of_further). Qed.

Lemma failure_of_value_value c : failure_of_value (failure_value c) = Some c.
Proof. destruct c; vm_compute; reflexivity. Qed.

(** [NumiError(code, detail, internal_detail=...)], and the exceptions of the
    language the code can let escape ([KeyError], [ValueError], ...) *)
Inductive exn : Type :=
| NumiError (code : FailureCode) (detail : string) (internal_detail : string)
| PyError (kind : string) (text : string).

#[export] Instance exn_eq_dec : EqDecision exn.
Proof. solve_decision. Defined.

(** [NumiError(code, detail)]: [internal_detail or detail] *)
Definition numi_error (code : FailureCode) (detail : string) : exn :=
  NumiError code detail detail.

Definition exn_code (e : exn) : option FailureCode :=
  match e with NumiError c _ _ => Some c | PyError _ _ => None end.

(* ------------------------------------------------------------------ *)
(** ** common/models/identity.py *)

Inductive DBARole : Type := DBA_L1 | DBA_L2 | DBA_L3 | DBA_MANAGER.

#[export] Instance DBARole_eq_dec : EqDecision DBARole.
Proof. solve_decision. Defined.

Definition role_value (r : DBARole) : string :=
  match r with
  | DBA_L1 => "DBA_L1" | DBA_L2 => "DBA_L2" | DBA_L3 => "DBA_L3" | DBA_MANAGER => "DBA_MANAGER"
  end.

Definition ROLE_RANK (r : DBARole) : Z :=
  match r with DBA_L1 => 1 | DBA_L2 => 2 | DBA_L3 => 3 | DBA_MANAGER => 4 end.

Record VerifiedIdentity : Type := {
  vi_subject_id : string;
  vi_email : string;
  vi_display_name : string;
  vi_enterprise_groups : list string;
  vi_dba_roles : list DBARole;
  vi_mfa_satisfied : bool;
  vi_authenticated_at : string
}.

Definition is_dba (i : VerifiedIdentity) : bool := (0 <? length (vi_dba_roles i))%nat.
Definition has_role (i : VerifiedIdentity) (r : DBARole) : bool := mem r (vi_dba_roles i).

(** [max(roles, key=rank)]: the first of the maximal ones *)
Fixpoint max_role (best : DBARole) (l : list DBARole) : DBARole :=
  match l with
  | [] => best
  | r :: l => max_role (if ROLE_RANK best <? ROLE_RANK r then r else best)%Z l
  end.
Definition highest_role (i : VerifiedIdentity) : option DBARole :=
  match vi_dba_roles i with [] => None | r :: l => Some (max_role r l) end.

Lemma max_role_spec best l :
  max_role best l ∈ best :: l ∧
  (∀ r, r ∈ best :: l → ROLE_RANK r ≤ ROLE_RANK (max_role best l))%Z.
Proof.
  revert best. induction l as [|a l IH]; intros best; cbn.
  - split; [left|]. intros r Hr. apply list_elem_of_singleton in Hr as ->. lia.
  - destruct (IH (if ROLE_RANK best <? ROLE_RANK a then a else best)%Z) as [Hin Hmax].
    assert (ROLE_RANK best ≤ ROLE_RANK (if ROLE_RANK best <? ROLE_RANK a then a else best) ∧
            ROLE_RANK a ≤ ROLE_RANK (if ROLE_RANK best <? ROLE_RANK a then a else best))%Z
      as [Hb Ha] by (destruct (ROLE_RANK best <? ROLE_RANK a)%Z eqn:E; lia).
    pose proof (Hmax _ (list_elem_of_here _ _)) as Hm. split.
    + apply elem_of_cons in Hin as [-> | Hin]; [|right; right; done].
      destruct (ROLE_RANK best <? ROLE_RANK a)%Z; [right|]; left.
    + intros r Hr. apply elem_of_cons in Hr as [-> | Hr]; [lia|].
      apply elem_of_cons in Hr as [-> | Hr]; [lia|]. apply Hmax. by right.
Qed.

(** the role the policy is evaluated for is one the identity holds, and the
    most privileged of them *)
Lemma highest_role_spec i r : highest_role i = Some r →
  r ∈ vi_dba_roles i ∧ ∀ r', r' ∈ vi_dba_roles i → (ROLE_RANK r' ≤ ROLE_RANK r)%Z.
Proof.
  unfold highest_role. destruct (vi_dba_roles i) as [|a l]; [done|].
  intros [= <-]. apply max_role_spec.
Qed.

Lemma highest_role_is_dba i : is_dba i = true → ∃ r, highest_role i = Some r.
Proof. unfold is_dba, highest_role. destruct (vi_dba_roles i); [done|eauto]. Qed.

(* ------------------------------------------------------------------ *)
(** ** common/models/risk.py *)

Inductive RiskLevel : Type := LOW | MEDIUM | HIGH | CRITICAL.
Inductive BlastRadius : Type :=
| SINGLE_QUERY | SINGLE_SESSION | SINGLE_OBJECT | SINGLE_DATABASE
| MULTIPLE_OBJECTS | MULTIPLE_DATABASES | CLUSTER | ENTERPRISE.
Inductive ReasonCode : Type :=
| R_PRODUCTION | R_NON_PRODUCTION | R_CRITICAL_DATABASE | R_HIGH_CRITICALITY_DATABASE
| R_WRITE_OPERATION | R_READ_OPERATION | R_IRREVERSIBLE | R_AVAILABILITY_IMPACT
| R_OUTSIDE_MAINTENANCE_WINDOW | R_INSIDE_MAINTENANCE_WINDOW | R_HIGH_CURRENT_LOAD
| R_LARGE_BLAST_RADIUS | R_MANY_AFFECTED_SESSIONS | R_MANY_AFFECTED_OBJECTS
| R_PRIVILEGED_OPERATION.

#[export] Instance RiskLevel_eq_dec : EqDecision RiskLevel.
Proof. solve_decision. Defined.
#[export] Instance BlastRadius_eq_dec : EqDecision BlastRadius.
Proof. solve_decision. Defined.
#[export] Instance ReasonCode_eq_dec : EqDecision ReasonCode.
Proof. solve_decision. Defined.

Definition risk_value (r : RiskLevel) : string :=
  match r with
  | LOW => "LOW" | MEDIUM => "MEDIUM" | HIGH => "HIGH" | CRITICAL => "CRITICAL"
  end.

Record RiskAssessment : Type := {
  ra_risk_level : RiskLevel;
  ra_score : Z;
  ra_blast_radius : BlastRadius;
  ra_reversible : bool;
  ra_availability_impact : bool;
  ra_reason_codes : list ReasonCode
}.

(* ------------------------------------------------------------------ *)
(** ** common/models/target.py *)

Inductive Environment : Type := DEVELOPMENT | UAT | PRODUCTION.
Inductive Platform : Type := SQLSERVER | POSTGRESQL | MYSQL | ORACLE | MARIADB.

#[export] Instance Environment_eq_dec : EqDecision Environment.
Proof. solve_decision. Defined.
#[export] Instance Platform_eq_dec : EqDecision Platform.
Proof. solve_decision. Defined.

Definition env_value (e : Environment) : string :=
  match e with DEVELOPMENT => "development" | UAT => "uat" | PRODUCTION => "production" end.
Definition env_of_value (s : string) : option Environment :=
  first_where (λ e, bool_decide (env_value e = s)) [DEVELOPMENT; UAT; PRODUCTION].
Definition platform_value (p : Platform) : string :=
  match p with
  | SQLSERVER => "sqlserver" | POSTGRESQL => "postgresql" | MYSQL => "mysql"
  | ORACLE => "oracle" | MARIADB => "mariadb"
  end.
Definition platform_of_value (s : string) : option Platform :=
  first_where (λ p, bool_decide (platform_value p = s))
    [SQLSERVER; POSTGRESQL; MYSQL; ORACLE; MARIADB].

Record DatabaseTarget : Type := {
  dt_environment : Environment;
  dt_platform : option Platform;
  dt_cluster : option string;
  dt_instance : option string;
  dt_database : option string;
  dt_schema_name : option string;
  dt_object_name : option string;
  dt_session_id : option string;
  dt_query_id : option string
}.

#[export] Instance DatabaseTarget_eq_dec : EqDecision DatabaseTarget.
Proof. solve_decision. Defined.

(** [target.scope_key()] *)
Definition scope_key (t : DatabaseTarget) : string :=
  str_join ":" [env_value (dt_environment t); str_or (dt_instance t) "*";
    str_or (dt_database t) "*"; str_or (dt_schema_name t) "*"; str_or (dt_object_name t) "*"].

Definition json_opt (o : option string) : json :=
  match o with Some s => JStr s | None => JNull end.

(** [target.model_dump(mode="json")]: by field name, every field present *)
Definition target_dump (t : DatabaseTarget) : json := JObj [
  ("environment", JStr (env_value (dt_environment t)));
  ("platform", json_opt (platform_value <$> dt_platform t));
  ("cluster", json_opt (dt_cluster t));
  ("instance", json_opt (dt_instance t));
  ("database", json_opt (dt_database t));
  ("schema_name", json_opt (dt_schema_name t));
  ("object_name", json_opt (dt_object_name t));
  ("session_id", json_opt (dt_session_id t));
  ("query_id", json_opt (dt_query_id t))].

(** an optional [str] field of a request *)
Definition opt_str_field (k : string) (d : list (string * json)) : option (option string) :=
  match dict_get k d with
  | None | Some JNull => Some None
  | Some (JStr s) => Some (Some s)
  | Some _ => None
  end.

Definition target_field_names : list string :=
  ["environment"; "platform"; "cluster"; "instance"; "database"; "schema"; "object";
   "session_id"; "query_id"].

(** [DatabaseTarget.model_validate(d)]: the aliases [schema]/[object] are the
    accepted keys, [extra="forbid"] rejects any other key, [environment] is
    required; [None] where pydantic raises [ValidationError] *)
Definition target_validate (d : list (string * json)) : option DatabaseTarget :=
  if forallb (λ kv, mem kv.1 target_field_names) d then
    environment ← match dict_get "environment" d with
                  | Some (JStr s) => env_of_value s | _ => None end;
    platform ← match dict_get "platform" d with
               | None | Some JNull => Some None
               | Some (JStr s) => Some <$> platform_of_value s
               | Some _ => None end;
    cluster ← opt_str_field "cluster" d;
    instance ← opt_str_field "instance" d;
    database ← opt_str_field "database" d;
    schema_name ← opt_str_field "schema" d;
    object_name ← opt_str_field "object" d;
    session_id ← opt_str_field "session_id" d;
    query_id ← opt_str_field "query_id" d;
    Some {| dt_environment := environment; dt_platform := platform; dt_cluster := cluster;
            dt_instance := instance; dt_database := database; dt_schema_name := schema_name;
            dt_object_name := object_name; dt_session_id := session_id;
            dt_query_id := query_id |}
  else None.

Lemma env_of_value_value e : env_of_value (env_value e) = Some e.
Proof. destruct e; reflexivity. Qed.
Lemma platform_of_value_value p : platform_of_value (platform_value p) = Some p.
Proof. destruct p; reflexivity. Qed.
Lemma env_value_inj e e' : env_value e = env_value e' → e = e'.
Proof. by destruct e, e'. Qed.
Lemma risk_value_inj e e' : risk_value e = risk_value e' → e = e'.
Proof. by destruct e, e'. Qed.
#[export] Hint Rewrite env_of_value_value platform_of_value_value failure_of_value_value : numi_rw.
#[export] Hint Resolve env_value_inj risk_value_inj : numi.

(* ------------------------------------------------------------------ *)
(** ** common/models/tool.py *)

Inductive OperationType : Type := READ | WRITE | PRIVILEGED.

#[export] Instance OperationType_eq_dec : EqDecision OperationType.
Proof. solve_decision. Defined.

Definition optype_value (o : OperationType) : string :=
  match o with READ => "READ" | WRITE => "WRITE" | PRIVILEGED => "PRIVILEGED" end.

(** The JSON Schemas of arguments and results are generated from the models
    of [ToolCatalog] and are not fields of this record. *)
Record ToolDefinition : Type := {
  td_tool_id : string;
  td_version : string;
  td_description : string;
  td_operation_type : OperationType;
  td_risk_level : RiskLevel;
  td_reversible : bool;
  td_availability_impact : bool;
  td_data_modification : bool;
  td_requires_approval : bool;
  td_allowed_roles : list DBARole;
  td_allowed_environments : list Environment;
  td_required_target_scope : list string;
  td_max_execution_time : Z;
  td_max_result_rows : Z;
  td_audit_required : bool;
  td_enabled : bool;
  td_requires_change_ticket : bool;
  td_requires_dual_approval : bool
}.

Record ToolCallRequest : Type := {
  tr_tool_id : string;
  tr_tool_version : option string;
  tr_arguments : list (string * json);
  tr_target : list (string * json);
  tr_reason : string;
  tr_conversation_id : string;
  tr_investigation_id : option string;
  tr_request_id : string;
  tr_channel : string;
  tr_channel_account_id : string;
  tr_approval_id : option string;
  tr_change_id : option string
}.

Inductive ToolCallStatus : Type :=
| TC_EXECUTED | TC_APPROVAL_REQUIRED | TC_DENIED | TC_FAILED.

#[export] Instance ToolCallStatus_eq_dec : EqDecision ToolCallStatus.
Proof. solve_decision. Defined.

Record ToolCallResponse : Type := {
  rs_status : ToolCallStatus;
  rs_execution_id : option string;
  rs_approval_id : option string;
  rs_result : option json;
  rs_failure_code : option string;
  rs_message : string;
  rs_risk : option RiskAssessment;
  rs_policy_decision : option string
}.

(* ------------------------------------------------------------------ *)
(** ** common/models/execution.py *)

Record ExecutionRequest : Type := {
  er_execution_id : string;
  er_tool_id : string;
  er_tool_version : string;
  er_platform : Platform;
  er_server_id : string;
  er_database : string;
  er_schema_name : option string;
  er_object_name : option string;
  er_session_id : option string;
  er_query_id : option string;
  er_arguments : list (string * json);
  er_max_execution_time : Z;
  er_max_result_rows : Z
}.

(** [rows] and [affected] hold [Any]: the values of a driver where the result is made
    ([Cells.cell]), JSON values once it has been read from a response *)
Record ExecutionResultOf (V : Type) : Type := {
  ex_execution_id : string;
  ex_success : bool;
  ex_columns : list string;
  ex_rows : list (list (string * V));
  ex_row_count : Z;
  ex_truncated : bool;
  ex_affected : list (string * V);
  ex_error_code : option string;
  ex_error_detail : option string;
  ex_verification_status : string;
  ex_verification_detail : string;
  ex_duration_ms : Z
}.
#[global] Arguments Build_ExecutionResultOf {V}.
#[global] Arguments ex_execution_id {V}.
#[global] Arguments ex_success {V}.
#[global] Arguments ex_columns {V}.
#[global] Arguments ex_rows {V}.
#[global] Arguments ex_row_count {V}.
#[global] Arguments ex_truncated {V}.
#[global] Arguments ex_affected {V}.
#[global] Arguments ex_error_code {V}.
#[global] Arguments ex_error_detail {V}.
#[global] Arguments ex_verification_status {V}.
#[global] Arguments ex_verification_detail {V}.
#[global] Arguments ex_duration_ms {V}.
(** a result the Gateway has read *)
Definition ExecutionResult : Type := ExecutionResultOf json.

(* ------------------------------------------------------------------ *)
(** ** common/models/catalog.py *)

(** its [properties] hold [Any], like those of the records over it *)
Record DiscoveredObjectOf (V : Type) : Type := {
  do_schema_name : string;
  do_name : string;
  do_kind : string;
  do_row_estimate : option Z;
  do_size_bytes : option Z;
  do_properties : list (string * V)
}.
#[global] Arguments Build_DiscoveredObjectOf {V}.
#[global] Arguments do_schema_name {V}.
#[global] Arguments do_name {V}.
#[global] Arguments do_kind {V}.
#[global] Arguments do_row_estimate {V}.
#[global] Arguments do_size_bytes {V}.
#[global] Arguments do_properties {V}.
Definition DiscoveredObject : Type := DiscoveredObjectOf json.

Record DiscoveredExtension : Type := {
  de_name : string;
  de_installed_version : option string;
  de_default_version : option string;
  de_available : bool
}.

Record DiscoveredDatabaseOf (V : Type) : Type := {
  dd_name : string;
  dd_state : string;
  dd_size_bytes : option Z;
  dd_options : list (string * V);
  dd_objects : list (DiscoveredObjectOf V);
  dd_extensions : list DiscoveredExtension
}.
#[global] Arguments Build_DiscoveredDatabaseOf {V}.
#[global] Arguments dd_name {V}.
#[global] Arguments dd_state {V}.
#[global] Arguments dd_size_bytes {V}.
#[global] Arguments dd_options {V}.
#[global] Arguments dd_objects {V}.
#[global] Arguments dd_extensions {V}.
Definition DiscoveredDatabase : Type := DiscoveredDatabaseOf json.

Record LeastPrivilegeFinding : Type := {
  lp_checked : bool;
  lp_login : string;
  lp_has_user_table_select : bool;
  lp_granted_object_count : Z;
  lp_count_is_lower_bound : bool;
  lp_sample_objects : list string;
  lp_scope_note : string
}.

(** [finding.warning_text()] *)
Definition warning_text (f : LeastPrivilegeFinding) : option string :=
  if negb (lp_checked f) || negb (lp_has_user_table_select f) then None
  else
    let approx := if lp_count_is_lower_bound f then "at least " else "" in
    let plural := if bool_decide (lp_granted_object_count f = 1%Z) then "" else "s" in
    let detail := match lp_sample_objects f with
                  | [] => ""
                  | _ => " (e.g. " +:+ str_join ", " (take 3 (lp_sample_objects f)) +:+ ")"
                  end in
    Some ("⚠️ This server's diagnostic login (" +:+ str_or (Some (lp_login f)) "unknown"
      +:+ ") has SELECT on " +:+ approx +:+ pretty (lp_granted_object_count f)
      +:+ " user table/view" +:+ plural +:+ detail
      +:+ " — should be revoked for least-privilege; Numi never needs to read table data.").

(** the instance's properties hold values, or tables of values *)
Record ServerCatalogOf (V P : Type) : Type := {
  sc_server_id : string;
  sc_discovered_at : option Z;
  sc_engine_version : string;
  sc_engine_edition : string;
  sc_instance_properties : list (string * P);
  sc_databases : list (DiscoveredDatabaseOf V);
  sc_warnings : list string;
  sc_least_privilege : option LeastPrivilegeFinding
}.
#[global] Arguments Build_ServerCatalogOf {V P}.
#[global] Arguments sc_server_id {V P}.
#[global] Arguments sc_discovered_at {V P}.
#[global] Arguments sc_engine_version {V P}.
#[global] Arguments sc_engine_edition {V P}.
#[global] Arguments sc_instance_properties {V P}.
#[global] Arguments sc_databases {V P}.
#[global] Arguments sc_warnings {V P}.
#[global] Arguments sc_least_privilege {V P}.
(** a catalog the Gateway has read *)
Definition ServerCatalog : Type := ServerCatalogOf json json.

(** [catalog.database(name)] *)
Definition catalog_database (c : ServerCatalog) (name : string) : option DiscoveredDatabase :=
  let lowered := str_lower (str_strip name) in
  first_where (λ d, bool_decide (str_lower (dd_name d) = lowered)) (sc_databases c).
Definition database_names {V P} (c : ServerCatalogOf V P) : list string := map dd_name (sc_databases c).

Lemma catalog_database_spec c n d : catalog_database c n = Some d →
  d ∈ sc_databases c ∧ str_lower (dd_name d) = str_lower (str_strip n).
Proof. intros [? ?%bool_decide_eq_true]%first_where_some. done. Qed.

(** [new_id(prefix)] of common/ids.py; the ULID is drawn by the caller *)
Definition new_id (prefix ulid : string) : string := prefix +:+ "_" +:+ ulid.
#[global] Arguments new_id : simpl never.
