(* ===== verification/ToolCatalog.v ===== *)
(** The tool contracts: [common/models/tool_arguments.py] (one list of declared
    fields per argument model, with pydantic's [extra="forbid"] validation),
    [gateway/domain/tool_catalog.py] and [gateway/domain/tool_registry.py]. *)
From S2P Require Import Prelude Json Models.

(* ------------------------------------------------------------------ *)
(** ** common/models/tool_arguments.py *)

(** the declared type of a field with its [Field(...)] constraints *)
Inductive ArgType : Type :=
| TStr (min_length max_length : nat)
| TStrPattern (alternatives : list string)
| TInt (ge le : Z)
| TBool
| TStrList (min_length max_length : nat).

Record ArgField : Type := {
  af_name : string;
  af_alias : option string;
  af_type : ArgType;
  af_default : option json
}.

Definition req (n : string) (t : ArgType) : ArgField :=
  {| af_name := n; af_alias := None; af_type := t; af_default := None |}.
Definition dflt (n : string) (t : ArgType) (d : json) : ArgField :=
  {| af_name := n; af_alias := None; af_type := t; af_default := Some d |}.
(** a field with an alias, under [populate_by_name=True] *)
Definition aliased (n a : string) (t : ArgType) : ArgField :=
  {| af_name := n; af_alias := Some a; af_type := t; af_default := None |}.

Definition reason_field : ArgField := req "reason" (TStr 5 500).
Definition schema_field : ArgField := aliased "schema_name" "schema" (TStr 1 128).

Definition NoArgs : list ArgField := [].
Definition TopQueriesArgs : list ArgField :=
  [dflt "order_by" (TStrPattern ["cpu"; "duration"; "reads"; "writes"; "executions"]) (JStr "cpu");
   dflt "limit" (TInt 1 100) (JInt 10)].
Definition QueryPlanArgs : list ArgField := [req "query_id" (TStr 1 128)].
Definition ErrorLogArgs : list ArgField :=
  [dflt "since_minutes" (TInt 1 1440) (JInt 60); dflt "limit" (TInt 1 1000) (JInt 100)].
Definition ReadOnlySqlArgs : list ArgField := [req "sql" (TStr 1 4000)].
Definition CancelQueryArgs : list ArgField := [req "session_id" (TStr 1 64); reason_field].
Definition KillSessionArgs : list ArgField := [req "session_id" (TStr 1 64); reason_field].
Definition UpdateStatisticsArgs : list ArgField :=
  [schema_field; req "table" (TStr 1 128); reason_field].
Definition CreateIndexArgs : list ArgField :=
  [schema_field; req "table" (TStr 1 128); req "columns" (TStrList 1 16);
   req "name" (TStr 1 128); dflt "unique" TBool (JBool false); reason_field].
Definition RebuildIndexArgs : list ArgField :=
  [schema_field; req "table" (TStr 1 128); req "index_name" (TStr 1 128); reason_field].
Definition ModifyConfigurationArgs : list ArgField :=
  [req "parameter" (TStr 1 128); req "value" (TStr 1 256); reason_field].
Definition RestartInstanceArgs : list ArgField := [reason_field].
Definition FailoverArgs : list ArgField := [req "target_instance" (TStr 1 128); reason_field].
Definition ExecuteSqlArgs : list ArgField := [req "sql" (TStr 1 4000); reason_field].
Definition RestoreDatabaseArgs : list ArgField := [req "backup_id" (TStr 1 128); reason_field].
Definition CreateDatabaseArgs : list ArgField := [req "database_name" (TStr 1 128); reason_field].
Definition DropDatabaseArgs : list ArgField := [req "database_name" (TStr 1 128); reason_field].
Definition TruncateTableArgs : list ArgField :=
  [schema_field; req "table" (TStr 1 128); reason_field].
Definition BulkDeleteArgs : list ArgField :=
  [schema_field; req "table" (TStr 1 128); req "predicate_description" (TStr 1 500); reason_field].

(** pydantic's lax conversions to [int] and [bool]; that a value of the right
    type is kept is its documented behaviour *)
Class PydanticLax : Type := {
  lax_int : json → option Z;
  lax_bool : json → option bool;
  lax_int_int : ∀ n, lax_int (JInt n) = Some n;
  lax_bool_bool : ∀ b, lax_bool (JBool b) = Some b
}.

(** the strict instance, for evaluation *)
Definition strict_lax : PydanticLax.
Proof.
  refine {| lax_int := λ v, match v with JInt n => Some n | _ => None end;
            lax_bool := λ v, match v with JBool b => Some b | _ => None end |}; reflexivity.
Defined.

Definition json_is_str (v : json) : bool := match v with JStr _ => true | _ => false end.

(** what a validated value of a declared type looks like *)
Definition arg_ok (t : ArgType) (v : json) : bool :=
  match t, v with
  | TStr lo hi, JStr s => (lo <=? String.length s)%nat && (String.length s <=? hi)%nat
  | TStrPattern alts, JStr s => mem s alts
  | TInt lo hi, JInt n => (lo <=? n)%Z && (n <=? hi)%Z
  | TBool, JBool _ => true
  | TStrList lo hi, JArr l =>
      forallb json_is_str l && (lo <=? length l)%nat && (length l <=? hi)%nat
  | _, _ => false
  end.

Section validate.
Context `{PydanticLax}.

(** conversion followed by the constraints *)
Definition arg_convert (t : ArgType) (v : json) : option json :=
  let v' := match t with
            | TInt _ _ => JInt <$> lax_int v
            | TBool => JBool <$> lax_bool v
            | _ => Some v
            end in
  v' ← v'; if arg_ok t v' then Some v' else None.

(** the key of the input a field is read from: its alias, else its name *)
Definition field_key (d : list (string * json)) (f : ArgField) : option string :=
  match af_alias f with
  | Some a => match dict_get a d with
              | Some _ => Some a
              | None => (λ _, af_name f) <$> dict_get (af_name f) d
              end
  | None => (λ _, af_name f) <$> dict_get (af_name f) d
  end.

Definition validate_field (d : list (string * json)) (f : ArgField) : option (string * json) :=
  match field_key d f with
  | Some k => v ← dict_get k d; v' ← arg_convert (af_type f) v; Some (af_name f, v')
  | None => v ← af_default f; Some (af_name f, v)
  end.

(** [Model.model_validate(d)] followed by [.model_dump(mode="json")] *)
Definition model_validate (fields : list ArgField) (d : list (string * json))
    : option (list (string * json)) :=
  if forallb (λ kv, bool_decide (Some kv.1 ∈ map (field_key d) fields)) d
  then mapM (validate_field d) fields
  else None.
End validate.

(* ------------------------------------------------------------------ *)
(** ** gateway/domain/tool_catalog.py *)

Definition ALL_ENVS : list Environment := [DEVELOPMENT; UAT; PRODUCTION].
Definition ALL_ROLES : list DBARole := [DBA_L1; DBA_L2; DBA_L3; DBA_MANAGER].
Definition WRITE_ROLES : list DBARole := [DBA_L2; DBA_L3; DBA_MANAGER].
Definition ADVANCED_ROLES : list DBARole := [DBA_L3; DBA_MANAGER].

Definition ARGUMENT_MODELS : list (string * list ArgField) :=
  [("database.get_health", NoArgs);
   ("database.get_version", NoArgs);
   ("database.get_sessions", NoArgs);
   ("database.get_blocking_sessions", NoArgs);
   ("database.get_deadlocks", NoArgs);
   ("database.get_running_queries", NoArgs);
   ("database.get_wait_statistics", NoArgs);
   ("database.get_query_plan", QueryPlanArgs);
   ("database.get_top_queries", TopQueriesArgs);
   ("database.get_indexes", NoArgs);
   ("database.get_statistics", NoArgs);
   ("database.get_tables", NoArgs);
   ("database.get_storage", NoArgs);
   ("database.get_transaction_log", NoArgs);
   ("database.get_replication_status", NoArgs);
   ("database.get_backup_status", NoArgs);
   ("database.get_configuration", NoArgs);
   ("database.get_error_logs", ErrorLogArgs);
   ("database.cancel_query", CancelQueryArgs);
   ("database.kill_session", KillSessionArgs);
   ("database.update_statistics", UpdateStatisticsArgs);
   ("database.create_index", CreateIndexArgs);
   ("database.rebuild_index", RebuildIndexArgs);
   ("database.modify_configuration", ModifyConfigurationArgs);
   ("database.restart_instance", RestartInstanceArgs);
   ("database.failover", FailoverArgs);
   ("database.execute_readonly_sql", ReadOnlySqlArgs);
   ("database.execute_sql", ExecuteSqlArgs);
   ("database.restore_database", RestoreDatabaseArgs);
   ("database.create_database", CreateDatabaseArgs);
   ("database.drop_database", DropDatabaseArgs);
   ("database.truncate_table", TruncateTableArgs);
   ("database.bulk_delete", BulkDeleteArgs)].

(** [_read_tool] *)
Definition read_tool (tool_id description : string) (required_scope : list string)
    (max_result_rows : Z) : ToolDefinition :=
  {| td_tool_id := tool_id; td_version := "1.0.0"; td_description := description;
     td_operation_type := READ; td_risk_level := LOW; td_reversible := true;
     td_availability_impact := false; td_data_modification := false;
     td_requires_approval := false; td_allowed_roles := ALL_ROLES;
     td_allowed_environments := ALL_ENVS; td_required_target_scope := required_scope;
     td_max_execution_time := 30; td_max_result_rows := max_result_rows;
     td_audit_required := true; td_enabled := true; td_requires_change_ticket := false;
     td_requires_dual_approval := false |}.

(** [_write_tool] *)
Definition write_tool (tool_id description : string) (risk_level : RiskLevel)
    (reversible availability_impact : bool) (required_scope : list string)
    (requires_dual_approval : bool) (allowed_roles : list DBARole) (enabled : bool)
    : ToolDefinition :=
  {| td_tool_id := tool_id; td_version := "1.0.0"; td_description := description;
     td_operation_type := WRITE; td_risk_level := risk_level; td_reversible := reversible;
     td_availability_impact := availability_impact; td_data_modification := true;
     td_requires_approval := true; td_allowed_roles := allowed_roles;
     td_allowed_environments := ALL_ENVS; td_required_target_scope := required_scope;
     td_max_execution_time := 60; td_max_result_rows := 1; td_audit_required := true;
     td_enabled := enabled; td_requires_change_ticket := false;
     td_requires_dual_approval := requires_dual_approval |}.

(** [_restricted_tool] *)
Definition restricted_tool (tool_id description : string) (enabled : bool)
    (risk_level : RiskLevel) (reversible : bool) : ToolDefinition :=
  {| td_tool_id := tool_id; td_version := "1.0.0"; td_description := description;
     td_operation_type := PRIVILEGED; td_risk_level := risk_level; td_reversible := reversible;
     td_availability_impact := true; td_data_modification := true;
     td_requires_approval := true; td_allowed_roles := ADVANCED_ROLES;
     td_allowed_environments := ALL_ENVS;
     td_required_target_scope := ["environment"; "instance"; "database"];
     td_max_execution_time := 30; td_max_result_rows := 100; td_audit_required := true;
     td_enabled := enabled; td_requires_change_ticket := false;
     td_requires_dual_approval := true |}.

(** the settings [build_tool_catalog] reads *)
Record ToolFlags : Type := {
  enable_readonly_sql_tool : bool;
  enable_execute_sql_tool : bool;
  enable_restore_database_tool : bool;
  enable_create_database_tool : bool;
  enable_drop_database_tool : bool;
  enable_truncate_table_tool : bool;
  enable_bulk_delete_tool : bool
}.

Definition INSTANCE_WIDE_SCOPE : list string := ["environment"; "instance"].

(** read-only diagnostics *)
Definition read_only_tools : list ToolDefinition :=
  [read_tool "database.get_health"
     "Overall instance/database health snapshot."
     INSTANCE_WIDE_SCOPE 100;
   read_tool "database.get_version"
     "Engine version and edition/build info."
     INSTANCE_WIDE_SCOPE 100;
   read_tool "database.get_sessions"
     "Active session list."
     INSTANCE_WIDE_SCOPE 100;
   read_tool "database.get_blocking_sessions"
     "Current blocking chains."
     INSTANCE_WIDE_SCOPE 100;
   read_tool "database.get_deadlocks"
     "Recent deadlock graphs."
     INSTANCE_WIDE_SCOPE 100;
   read_tool "database.get_running_queries"
     "Currently executing queries."
     INSTANCE_WIDE_SCOPE 100;
   read_tool "database.get_wait_statistics"
     "Aggregated wait statistics."
     INSTANCE_WIDE_SCOPE 100;
   read_tool "database.get_query_plan"
     "Execution plan for a specific query id."
     ["environment"; "instance"; "database"; "query_id"] 100;
   read_tool "database.get_top_queries"
     "Top resource-consuming queries."
     ["environment"; "instance"; "database"] 100;
   read_tool "database.get_indexes"
     "Index metadata for a schema/table."
     ["environment"; "instance"; "database"; "schema_name"; "object_name"] 100;
   read_tool "database.get_statistics"
     "Statistics metadata/staleness for a schema/table."
     ["environment"; "instance"; "database"; "schema_name"; "object_name"] 100;
   read_tool "database.get_tables"
     "Table inventory for a database."
     ["environment"; "instance"; "database"] 100;
   read_tool "database.get_storage"
     "Storage/space utilization."
     INSTANCE_WIDE_SCOPE 100;
   read_tool "database.get_transaction_log"
     "Transaction log / WAL usage."
     ["environment"; "instance"; "database"] 100;
   read_tool "database.get_replication_status"
     "Replication / Always On / streaming status."
     INSTANCE_WIDE_SCOPE 100;
   read_tool "database.get_backup_status"
     "Recent backup history and status."
     INSTANCE_WIDE_SCOPE 100;
   read_tool "database.get_configuration"
     "Server/database configuration parameters."
     INSTANCE_WIDE_SCOPE 100;
   read_tool "database.get_error_logs"
     "Recent error log entries."
     INSTANCE_WIDE_SCOPE 200].

(** controlled write tools *)
Definition controlled_write_tools : list ToolDefinition :=
  [write_tool "database.cancel_query"
     "Cancel (soft-abort) a single running query without dropping the session."
     LOW true false
     ["environment"; "instance"; "database"; "session_id"] false WRITE_ROLES true;
   write_tool "database.kill_session"
     "Terminate a database session."
     MEDIUM false true
     ["environment"; "instance"; "database"; "session_id"] false WRITE_ROLES true;
   write_tool "database.update_statistics"
     "Refresh optimizer statistics for a table."
     LOW true false
     ["environment"; "instance"; "database"; "schema_name"; "object_name"] false WRITE_ROLES true;
   write_tool "database.create_index"
     "Create a new index on a table."
     MEDIUM true true
     ["environment"; "instance"; "database"; "schema_name"; "object_name"] false WRITE_ROLES true;
   write_tool "database.rebuild_index"
     "Rebuild an existing index."
     MEDIUM true true
     ["environment"; "instance"; "database"; "schema_name"; "object_name"] false WRITE_ROLES true;
   write_tool "database.modify_configuration"
     "Change a server/database configuration parameter."
     HIGH true true
     ["environment"; "instance"; "database"] false (ADVANCED_ROLES) true;
   write_tool "database.restart_instance"
     "Restart a database instance."
     CRITICAL false true
     ["environment"; "instance"] true (ADVANCED_ROLES ++ [DBA_MANAGER]) true;
   write_tool "database.failover"
     "Force a cluster/Always On failover to another instance."
     CRITICAL false true
     ["environment"; "cluster"] true ([DBA_L3; DBA_MANAGER]) true].

(** restricted tools, disabled by default *)
Definition restricted_tools (settings : ToolFlags) : list ToolDefinition :=
  [restricted_tool "database.execute_readonly_sql"
     "Execute a parsed, validated, single read-only statement. Disabled by default."
     (enable_readonly_sql_tool settings) MEDIUM true;
   restricted_tool "database.execute_sql"
     "Execute arbitrary SQL. Disabled by default and NOT recommended to enable."
     (enable_execute_sql_tool settings) CRITICAL false;
   restricted_tool "database.restore_database"
     "Restore a database from backup. Disabled by default."
     (enable_restore_database_tool settings) CRITICAL false;
   restricted_tool "database.create_database"
     "Create a new database. Disabled by default."
     (enable_create_database_tool settings) CRITICAL false;
   restricted_tool "database.drop_database"
     "Drop a database. Disabled by default."
     (enable_drop_database_tool settings) CRITICAL false;
   restricted_tool "database.truncate_table"
     "Truncate a table. Disabled by default."
     (enable_truncate_table_tool settings) CRITICAL false;
   restricted_tool "database.bulk_delete"
     "Bulk-delete rows matching a predicate. Disabled by default."
     (enable_bulk_delete_tool settings) CRITICAL false].

Definition build_tool_catalog (settings : ToolFlags) : list ToolDefinition :=
  read_only_tools ++ controlled_write_tools ++ restricted_tools settings.

(* ------------------------------------------------------------------ *)
(** ** gateway/domain/tool_registry.py *)

(** [ToolRegistry.__init__]: a dict keyed by tool id *)
Definition registry_tools (settings : ToolFlags) : list (string * ToolDefinition) :=
  foldl (λ d t, dict_set (td_tool_id t) t d) [] (build_tool_catalog settings).

Definition registry_all (settings : ToolFlags) : list ToolDefinition :=
  map snd (registry_tools settings).

(** [ToolRegistry.get] *)
Definition registry_get (tools : list (string * ToolDefinition)) (tool_id : string)
    (tool_version : option string) : res exn ToolDefinition :=
  match dict_get tool_id tools with
  | None => Err (numi_error TOOL_NOT_FOUND ("Unknown tool '" +:+ tool_id +:+ "'."))
  | Some tool =>
      match tool_version with
      | Some v =>
          if bool_decide (v ≠ td_version tool) then
            Err (numi_error TOOL_NOT_FOUND ("Tool '" +:+ tool_id +:+ "' version '" +:+ v
                  +:+ "' not found (latest is '" +:+ td_version tool +:+ "')."))
          else if negb (td_enabled tool) then
            Err (numi_error TOOL_NOT_AVAILABLE
                  ("Tool '" +:+ tool_id +:+ "' is disabled by platform configuration."))
          else Ok tool
      | None =>
          if negb (td_enabled tool) then
            Err (numi_error TOOL_NOT_AVAILABLE
                  ("Tool '" +:+ tool_id +:+ "' is disabled by platform configuration."))
          else Ok tool
      end
  end.

(** [ToolRegistry.tools_for_role] *)
Definition tools_for_role (tools : list (string * ToolDefinition)) (role : DBARole)
    : list ToolDefinition :=
  List.filter (λ t, td_enabled t && mem role (td_allowed_roles t)) (map snd tools).

(* ------------------------------------------------------------------ *)
(** ** Argument validation *)

(** the declared models are coherent: distinct names, no alias that is also
    a name or another field's alias, defaults that satisfy their own constraints *)
Definition fields_wf (fields : list ArgField) : bool :=
  bool_decide (NoDup (map af_name fields)) &&
  forallb (λ f, match af_alias f with
                | Some a => negb (mem a (map af_name fields)) | None => true end) fields &&
  forallb (λ f, match af_default f with
                | Some v => arg_ok (af_type f) v | None => true end) fields.

Lemma argument_models_wf n fields : (n, fields) ∈ ARGUMENT_MODELS → fields_wf fields = true.
Proof.
  intros Hin. assert (forallb (λ p, fields_wf p.2) ARGUMENT_MODELS = true) as Hall
    by (vm_compute; reflexivity).
  rewrite forallb_forall in Hall. apply (Hall (n, fields)). by apply list_elem_of_In.
Qed.

Section validate_facts.
Context `{PydanticLax}.

Lemma arg_convert_ok t v v' : arg_convert t v = Some v' → arg_ok t v' = true.
Proof.
  unfold arg_convert. intros (w & _ & Hw)%bind_Some. by case_match; simplify_eq.
Qed.

Lemma arg_convert_id t v : arg_ok t v = true → arg_convert t v = Some v.
Proof.
  intros Hv. unfold arg_convert.
  assert (match t with TInt _ _ => JInt <$> lax_int v | TBool => JBool <$> lax_bool v
          | _ => Some v end = Some v) as ->.
  { destruct t; try done; destruct v; try discriminate Hv; cbn;
      by rewrite ?lax_int_int ?lax_bool_bool. }
  cbn. by rewrite Hv.
Qed.

Lemma field_key_declared d f k :
  field_key d f = Some k → k = af_name f ∨ af_alias f = Some k.
Proof.
  unfold field_key. destruct (af_alias f) as [a|].
  - destruct (dict_get a d); intros Hk; [simplify_eq; auto|].
    apply fmap_Some in Hk as (? & _ & ->). auto.
  - intros (? & _ & ->)%fmap_Some. auto.
Qed.

Lemma validate_field_ok d f kv :
  match af_default f with Some v => arg_ok (af_type f) v = true | None => True end →
  validate_field d f = Some kv → kv.1 = af_name f ∧ arg_ok (af_type f) kv.2 = true.
Proof.
  unfold validate_field. intros Hd. destruct (field_key d f) as [k|].
  - intros (v & _ & (v' & Hc & [= <-])%bind_Some)%bind_Some.
    split; [done|]. by eapply arg_convert_ok.
  - intros (v & Hv & [= <-])%bind_Some. by rewrite Hv in Hd.
Qed.

Lemma fields_wf_default fields f : fields_wf fields = true → f ∈ fields →
  match af_default f with Some v => arg_ok (af_type f) v = true | None => True end.
Proof.
  unfold fields_wf. intros [_ Hd]%andb_true_iff Hf.
  rewrite forallb_forall in Hd. specialize (Hd f (proj1 (list_elem_of_In _ _) Hf)).
  by destruct (af_default f).
Qed.

Lemma model_validate_sound fields d out :
  fields_wf fields = true → model_validate fields d = Some out →
  Forall2 (λ f kv, kv.1 = af_name f ∧ arg_ok (af_type f) kv.2 = true) fields out.
Proof.
  unfold model_validate. intros Hwf. case_match eqn:E; [clear E|done]. intros Ho%mapM_Some.
  assert (∀ f, f ∈ fields →
    match af_default f with Some v => arg_ok (af_type f) v = true | None => True end) as Hd
    by (intros f; by apply fields_wf_default). clear Hwf.
  induction Ho as [|f kv fields out Hf _ IH]; constructor.
  - eapply validate_field_ok; [|exact Hf]. apply Hd. left.
  - apply IH. intros g Hg. apply Hd. by right.
Qed.

Lemma model_validate_no_extra fields d out k :
  model_validate fields d = Some out → k ∈ d.*1 →
  ∃ f, f ∈ fields ∧ (k = af_name f ∨ af_alias f = Some k).
Proof.
  unfold model_validate. case_match eqn:E; [|done]. intros _ Hk.
  apply list_elem_of_fmap in Hk as ([k' v] & -> & Hin).
  rewrite forallb_forall in E. specialize (E _ (proj1 (list_elem_of_In _ _) Hin)).
  apply bool_decide_eq_true in E. apply list_elem_of_fmap in E as (f & Hf & Hin').
  exists f. split; [done|]. by apply field_key_declared with d.
Qed.

Lemma names_of_out fields out :
  Forall2 (λ f kv, kv.1 = af_name f ∧ arg_ok (af_type f) kv.2 = true) fields out →
  out.*1 = map af_name fields.
Proof. induction 1 as [|f kv ? ? [? _]]; cbn; congruence. Qed.

Lemma dict_get_nodup {V} (d : list (string * V)) k v :
  NoDup d.*1 → (k, v) ∈ d → dict_get k d = Some v.
Proof.
  induction d as [|[k' v'] d IH]; cbn; [set_solver|].
  intros [Hk' Hnd]%NoDup_cons Hin. apply elem_of_cons in Hin as [[= -> ->] | Hin].
  - by rewrite decide_True.
  - rewrite decide_False; [intros ->; apply Hk'|by apply IH].
   
    apply list_elem_of_fmap. by exists (k', v).
Qed.

Lemma field_key_out fields out f :
  fields_wf fields = true → f ∈ fields → out.*1 = map af_name fields →
  field_key out f = Some (af_name f).
Proof.
  unfold fields_wf. intros [[_ Ha]%andb_true_iff _]%andb_true_iff Hf Hn.
  rewrite forallb_forall in Ha. specialize (Ha f (proj1 (list_elem_of_In _ _) Hf)).
  assert (∃ v, dict_get (af_name f) out = Some v) as [v Hv].
  { destruct (dict_get (af_name f) out) eqn:E; [eauto|].
    apply dict_get_none in E. rewrite Hn in E. destruct E.
    apply list_elem_of_fmap. eauto. }
  unfold field_key. destruct (af_alias f) as [a|]; [|by rewrite Hv].
  unfold mem in Ha. apply negb_true_iff, bool_decide_eq_false in Ha.
  rewrite -Hn in Ha. apply dict_get_none in Ha. by rewrite Ha Hv.
Qed.
End validate_facts.

(** Normalising the arguments of a tool call is idempotent: what
    [model_validate(...).model_dump()] returns is accepted again and returned
    unchanged, for every registered argument model, so hashing or re-submitting
    normalised arguments never changes them. *)
Theorem normalized_arguments_stable `{PydanticLax} n fields d out :
  (n, fields) ∈ ARGUMENT_MODELS →
  model_validate fields d = Some out →
  model_validate fields out = Some out.
Proof.
  intros Hwf%argument_models_wf Hv.
  pose proof (model_validate_sound _ _ _ Hwf Hv) as Hs.
  pose proof (names_of_out _ _ Hs) as Hn.
  assert (NoDup out.*1) as Hnd.
  { rewrite Hn. unfold fields_wf in Hwf.
    apply andb_true_iff in Hwf as [[Hwf _]%andb_true_iff _]. by apply bool_decide_eq_true in Hwf. }
  assert (∀ f, f ∈ fields → field_key out f = Some (af_name f)) as Hk
    by (intros f Hf; by apply (field_key_out fields)).
  unfold model_validate. rewrite (proj2 (forallb_forall _ _)).
  - intros [k v] Hin%list_elem_of_In. apply bool_decide_eq_true. cbn.
    assert (k ∈ out.*1) as Hkin by (apply list_elem_of_fmap; by exists (k, v)).
    rewrite Hn in Hkin. apply list_elem_of_fmap in Hkin as (f & -> & Hf).
    apply list_elem_of_fmap. exists f. by rewrite Hk.
  - apply mapM_Some. apply Forall2_same_length_lookup_2; [by apply Forall2_length in Hs|].
    intros i f [k v] Hf Hkv. pose proof (Forall2_lookup_lr _ _ _ _ _ _ Hs Hf Hkv) as [Hk1 Hok].
    cbn in Hk1, Hok. subst k.
    unfold validate_field. rewrite (Hk f (list_elem_of_lookup_2 _ _ _ Hf)).
    rewrite (dict_get_nodup out (af_name f) v Hnd (list_elem_of_lookup_2 _ _ _ Hkv)). cbn.
    by rewrite arg_convert_id.
Qed.

Definition kill_args_example : list (string * json) :=
  [("reason", JStr "blocking payroll"); ("session_id", JStr "9182")].

Lemma normalized_arguments_stable_witness :
  @model_validate strict_lax KillSessionArgs kill_args_example
    = Some [("session_id", JStr "9182"); ("reason", JStr "blocking payroll")] ∧
  @model_validate strict_lax KillSessionArgs
    [("session_id", JStr "9182"); ("reason", JStr "blocking payroll")]
    = Some [("session_id", JStr "9182"); ("reason", JStr "blocking payroll")].
Proof.
  split; [reflexivity|].
  apply (@normalized_arguments_stable strict_lax "database.kill_session" KillSessionArgs
           kill_args_example); [|reflexivity].
  apply list_elem_of_In. cbn. tauto.
Defined.

(** Argument validation is strict: an accepted call has no argument that
    is not declared for its tool, and the normalised arguments are exactly the
    declared fields, in order, each within its declared type and bounds. *)
Theorem arguments_exactly_declared `{PydanticLax} n fields d out :
  (n, fields) ∈ ARGUMENT_MODELS →
  model_validate fields d = Some out →
  (∀ k, k ∈ d.*1 → ∃ f, f ∈ fields ∧ (k = af_name f ∨ af_alias f = Some k)) ∧
  out.*1 = map af_name fields ∧
  Forall2 (λ f kv, arg_ok (af_type f) kv.2 = true) fields out.
Proof.
  intros Hwf%argument_models_wf Hv.
  pose proof (model_validate_sound _ _ _ Hwf Hv) as Hs. split_and!.
  - intros k. by eapply model_validate_no_extra.
  - by apply names_of_out.
  - eapply Forall2_impl; [exact Hs|]. by intros ? ? [_ ?].
Qed.

Lemma arguments_exactly_declared_witness :
  @model_validate strict_lax TopQueriesArgs [("limit", JInt 101)] = None ∧
  @model_validate strict_lax TopQueriesArgs [("sql", JStr "DROP TABLE t")] = None ∧
  map fst [("order_by", JStr "cpu"); ("limit", JInt 5)] = map af_name TopQueriesArgs.
Proof.
  split; [reflexivity|]. split; [reflexivity|].
  apply (@arguments_exactly_declared strict_lax "database.get_top_queries" TopQueriesArgs
           [("limit", JInt 5)] [("order_by", JStr "cpu"); ("limit", JInt 5)]); [|reflexivity].
  apply list_elem_of_In. cbn. tauto.
Defined.

(* ------------------------------------------------------------------ *)
(** ** The catalog and the registry *)

Definition catalog_ids : list string :=
  map td_tool_id (build_tool_catalog (Build_ToolFlags false false false false false false false)).

Lemma catalog_ids_eq settings : map td_tool_id (build_tool_catalog settings) = catalog_ids.
Proof. reflexivity. Qed.

Lemma catalog_ids_nodup : NoDup catalog_ids.
Proof. refine (proj1 (bool_decide_eq_true _) _). vm_compute. reflexivity. Qed.

(** what every entry of the catalog satisfies, whatever the settings *)
Definition tool_contract (t : ToolDefinition) : bool :=
  bool_decide (dict_get (td_tool_id t) ARGUMENT_MODELS ≠ None) &&
  match td_operation_type t with
  | READ => negb (td_data_modification t) && negb (td_availability_impact t) &&
            negb (td_requires_approval t) && td_enabled t
  | WRITE => td_requires_approval t && td_data_modification t &&
             negb (mem DBA_L1 (td_allowed_roles t))
  | PRIVILEGED => td_requires_approval t && td_requires_dual_approval t &&
                  negb (mem DBA_L1 (td_allowed_roles t)) && negb (mem DBA_L2 (td_allowed_roles t))
  end.

Lemma catalog_contract settings t :
  t ∈ build_tool_catalog settings → tool_contract t = true.
Proof.
  intros Hin. assert (forallb tool_contract (build_tool_catalog settings) = true) as Hall
    by (destruct settings; vm_compute; reflexivity).
  rewrite forallb_forall in Hall. apply Hall. by apply list_elem_of_In.
Qed.

Lemma dict_set_fresh {V} (k : string) (v : V) d : k ∉ d.*1 → dict_set k v d = d ++ [(k, v)].
Proof.
  induction d as [|[k' v'] d IH]; cbn; [done|].
  intros [Hne Hk]%not_elem_of_cons. rewrite decide_False; [done|]. by rewrite IH.
Qed.

Lemma fold_dict_set_nodup {V} (key : V → string) l d :
  NoDup (d.*1 ++ map key l) →
  foldl (λ d t, dict_set (key t) t d) d l = d ++ map (λ t, (key t, t)) l.
Proof.
  revert d. induction l as [|t l IH]; intros d Hnd; cbn; [by rewrite app_nil_r|].
  cbn in Hnd. rewrite dict_set_fresh.
  - apply NoDup_app in Hnd as (_ & Hd & _). intros Hk. apply (Hd _ Hk). left.
  - rewrite IH; [rewrite fmap_app -app_assoc; exact Hnd|by rewrite -app_assoc].
Qed.

Lemma map_pair_fst {A B} (f : A → B) l : (map (λ t, (f t, t)) l).*1 = map f l.
Proof. induction l as [|x l IH]; cbn; [done|by rewrite -IH]. Qed.

Lemma registry_tools_eq settings :
  registry_tools settings = map (λ t, (td_tool_id t, t)) (build_tool_catalog settings).
Proof.
  unfold registry_tools. rewrite fold_dict_set_nodup; [|done].
  cbn [fmap list_fmap app]. rewrite catalog_ids_eq. apply catalog_ids_nodup.
Qed.

Lemma registry_lookup settings id t :
  dict_get id (registry_tools settings) = Some t ↔
  t ∈ build_tool_catalog settings ∧ td_tool_id t = id.
Proof.
  rewrite registry_tools_eq. split.
  - intros Hg%dict_get_elem. apply list_elem_of_fmap in Hg as (t' & [= -> ->] & ?). done.
  - intros [Hin <-]. apply dict_get_nodup.
    + rewrite map_pair_fst catalog_ids_eq. apply catalog_ids_nodup.
    + apply list_elem_of_fmap. by exists t.
Qed.

#[local] Opaque build_tool_catalog registry_tools.

(** The registry serves a tool exactly when the catalog declares it under
    that id, the requested version is the declared one and the tool is
    enabled; every other call fails, with TOOL_NOT_FOUND or TOOL_NOT_AVAILABLE. *)
Theorem registry_get_spec settings id ver :
  match registry_get (registry_tools settings) id ver with
  | Ok t => t ∈ build_tool_catalog settings ∧ td_tool_id t = id ∧ td_enabled t = true ∧
            (∀ v, ver = Some v → v = td_version t)
  | Err e =>
      (exn_code e = Some TOOL_NOT_FOUND ∧
        ∀ t, t ∈ build_tool_catalog settings → td_tool_id t = id →
             ∃ v, ver = Some v ∧ v ≠ td_version t) ∨
      (exn_code e = Some TOOL_NOT_AVAILABLE ∧
        ∃ t, t ∈ build_tool_catalog settings ∧ td_tool_id t = id ∧ td_enabled t = false)
  end.
Proof.
  unfold registry_get. destruct (dict_get id (registry_tools settings)) as [t|] eqn:E.
  - pose proof (proj1 (registry_lookup _ _ _) E) as [Hin Hid].
    assert (∀ t', t' ∈ build_tool_catalog settings → td_tool_id t' = id → t' = t) as Huniq.
    { intros t' H1 H2. pose proof (proj2 (registry_lookup settings id t') (conj H1 H2)). congruence. }
    destruct ver as [v|]; [destruct (decide (v = td_version t)) as [->|Hv]|].
    + rewrite bool_decide_false; [congruence|].
      destruct (td_enabled t) eqn:En; cbn; [|by right; eauto].
      split_and!; [done..|]. by intros v [= ->].
    + rewrite bool_decide_true; [done|]. left. split; [done|].
      intros t' H1 H2. rewrite (Huniq t' H1 H2). by exists v.
    + destruct (td_enabled t) eqn:En; cbn; [done|]. right. eauto.
  - left. split; [done|]. intros t Hin Hid.
    pose proof (proj2 (registry_lookup settings id t) (conj Hin Hid)). congruence.
Qed.
