(* ===== verification/Servers.v ===== *)
(** The server registry and target validation:
    [common/server_reference.py], [gateway/domain/servers.py] and
    [gateway/domain/target_validation.py]. *)
From S2P Require Import Prelude Json Text Models.

(* ------------------------------------------------------------------ *)
(** ** common/server_reference.py *)

(** [_NON_ALNUM_RE.sub("", text)] *)
Fixpoint strip_non_alnum (s : string) : string :=
  match s with
  | EmptyString => ""
  | String c s => if is_alnum c then String c (strip_non_alnum s) else strip_non_alnum s
  end.

Definition starts_digit (s : string) : bool :=
  match s with String c _ => is_digit c | EmptyString => false end.

(** [_DIGIT_RUN_RE.sub(str(int(run)), text)]: the zeros a run of digits starts
    with are dropped, one zero staying of a run of zeros; [lead] holds where
    such a zero may stand *)
Fixpoint collapse_digits (lead : bool) (s : string) : string :=
  match s with
  | EmptyString => ""
  | String c s' =>
      if is_digit c then
        if lead && bool_decide (c = "0"%char) && starts_digit s'
        then collapse_digits true s'
        else String c (collapse_digits false s')
      else String c (collapse_digits true s')
  end.

Definition normalize_server_reference (text : string) : string :=
  collapse_digits true (strip_non_alnum (str_lower text)).

Example normalize_ex1 : normalize_server_reference "SQL Server Dev 1" = "sqlserverdev1".
Proof. reflexivity. Qed.
Example normalize_ex2 : normalize_server_reference "sqlserver-dev-01" = "sqlserverdev1".
Proof. reflexivity. Qed.

(* ------------------------------------------------------------------ *)
(** ** gateway/domain/servers.py *)

Record DatabaseOverride : Type := {
  ov_criticality : option string;
  ov_classification : option string;
  ov_allowed_roles : option (list DBARole)
}.

Definition no_override : DatabaseOverride :=
  {| ov_criticality := None; ov_classification := None; ov_allowed_roles := None |}.

Record ServerEntry : Type := {
  se_id : string;
  se_platform : Platform;
  se_environment : Environment;
  se_host : string;
  se_port : Z;
  se_aliases : list string;
  se_criticality : string;
  se_classification : string;
  se_maintenance_window : list (string * string);
  se_allowed_roles : list DBARole;
  se_database_overrides : list (string * DatabaseOverride);
  se_status : string
}.

Record EffectivePolicy : Type := {
  ep_criticality : string;
  ep_classification : string;
  ep_allowed_roles : list DBARole
}.

(** [ServerEntry.effective_for] *)
Definition effective_for (e : ServerEntry) (database : string) : EffectivePolicy :=
  let override := default no_override (dict_get database (se_database_overrides e)) in
  {| ep_criticality := str_or (ov_criticality override) (se_criticality e);
     ep_classification := str_or (ov_classification override) (se_classification e);
     ep_allowed_roles := match ov_allowed_roles override with
                         | Some rs => rs
                         | None => se_allowed_roles e
                         end |}.

Definition registry_by_id (entries : list ServerEntry) (server_id : string)
    : option ServerEntry :=
  first_where (λ e, bool_decide (se_id e = server_id)) entries.

(** the two comparisons of the hint loop *)
Definition exact_match (needle : string) (e : ServerEntry) : bool :=
  let needle_normalized := normalize_server_reference needle in
  bool_decide (str_lower (se_id e) = needle)
  || mem needle (map str_lower (se_aliases e))
  || bool_decide (str_lower (se_host e) = needle)
  || bool_decide (normalize_server_reference (se_id e) = needle_normalized)
  || existsb (λ a, bool_decide (normalize_server_reference a = needle_normalized)) (se_aliases e).

Definition substring_match (needle : string) (e : ServerEntry) : bool :=
  let needle_normalized := normalize_server_reference needle in
  str_contains needle (str_lower (se_id e))
  || existsb (λ a, str_contains needle (str_lower a)) (se_aliases e)
  || str_contains needle (str_lower (se_host e))
  || str_contains needle_normalized (normalize_server_reference (se_id e))
  || existsb (λ a, str_contains needle_normalized (normalize_server_reference a)) (se_aliases e).

(** one iteration of [for hint in (target.instance, target.cluster)] *)
Definition narrow_by_hint (hint : option string) (candidates : list ServerEntry)
    : list ServerEntry :=
  if opt_truthy hint then
    let needle := str_lower (str_strip (str_or hint "")) in
    match List.filter (exact_match needle) candidates with
    | [] => List.filter (substring_match needle) candidates
    | exact => exact
    end
  else candidates.

(** the narrowing by database name, used only on an ambiguous match *)
Definition narrow_by_database (database : option string) (candidates : list ServerEntry)
    : list ServerEntry :=
  if opt_truthy database && (1 <? length candidates)%nat then
    let needle := str_lower (str_strip (str_or database "")) in
    match List.filter (λ e, existsb (λ a, str_contains needle (str_lower a)) (se_aliases e)
                            || str_contains needle (str_lower (se_id e))) candidates with
    | [] => candidates
    | narrowed => narrowed
    end
  else candidates.

(** the registered servers a target may name before any hint is looked at *)
Definition in_scope (t : DatabaseTarget) (e : ServerEntry) : bool :=
  bool_decide (se_environment e = dt_environment t) && bool_decide (se_status e = "active")
  && match dt_platform t with
     | Some p => bool_decide (se_platform e = p)
     | None => true
     end.

(** [ServerRegistry.find_candidates] *)
Definition find_candidates (entries : list ServerEntry) (t : DatabaseTarget)
    : list ServerEntry :=
  narrow_by_database (dt_database t)
    (narrow_by_hint (dt_cluster t)
      (narrow_by_hint (dt_instance t)
        (List.filter (in_scope t) entries))).

(** what [ServerRegistry.resolve] raises *)
Inductive resolve_error : Type :=
| NoServer
| AmbiguousServer (candidates : list ServerEntry).

(** [ServerRegistry.resolve] *)
Definition resolve (entries : list ServerEntry) (t : DatabaseTarget)
    : res resolve_error ServerEntry :=
  match find_candidates entries t with
  | [] => Err NoServer
  | [e] => Ok e
  | candidates => Err (AmbiguousServer candidates)
  end.

(* ------------------------------------------------------------------ *)
(** ** gateway/domain/target_validation.py *)

Record TargetContext : Type := {
  tc_target : DatabaseTarget;
  tc_server : ServerEntry;
  tc_database : string;
  tc_criticality : string;
  tc_classification : string;
  tc_allowed_roles : list DBARole;
  tc_discovered_database : option DiscoveredDatabase
}.

Definition tc_environment (c : TargetContext) : Environment := se_environment (tc_server c).
Definition tc_platform (c : TargetContext) : Platform := se_platform (tc_server c).
Definition tc_maintenance_window (c : TargetContext) : list (string * string) :=
  se_maintenance_window (tc_server c).

Definition FIELD_ALIASES (name : string) : string :=
  if bool_decide (name = "schema") then "schema_name"
  else if bool_decide (name = "object") then "object_name" else name.

(** the value [_check_required_fields] looks a field up in; an unknown field
    name is never present *)
Definition effective_field (t : DatabaseTarget) (server : ServerEntry) (database name : string)
    : option string :=
  dict_get name [
    ("environment", env_value (dt_environment t));
    ("instance", str_or (dt_instance t) (se_id server));
    ("cluster", str_or (dt_cluster t) (se_id server));
    ("database", database);
    ("schema_name", default "" (dt_schema_name t));
    ("object_name", default "" (dt_object_name t));
    ("session_id", default "" (dt_session_id t));
    ("query_id", default "" (dt_query_id t))].

Definition missing_fields (t : DatabaseTarget) (server : ServerEntry) (database : string)
    (required_scope : list string) : list string :=
  List.filter (λ name, negb (opt_truthy (effective_field t server database (FIELD_ALIASES name))))
    required_scope.

Definition check_required_fields (t : DatabaseTarget) (server : ServerEntry) (database : string)
    (required_scope : list string) : res exn unit :=
  match missing_fields t server database required_scope with
  | [] => Ok tt
  | missing => Err (numi_error INVALID_TARGET
      ("Missing required target field(s) for this operation: "
       +:+ str_join ", " missing +:+ "."))
  end.

(** step 2: the database, against the discovered catalog when there is one *)
Definition validate_database (server : ServerEntry) (catalog : option ServerCatalog)
    (database : string) (required_scope : list string)
    : res exn (string * option DiscoveredDatabase) :=
  match catalog with
  | Some c =>
      if bool_decide (sc_databases c = []) then Ok (database, None)
      else
        let names := str_join ", " (take 20 (database_names c)) in
        if truthy database then
          match catalog_database c database with
          | None => Err (numi_error INVALID_TARGET ("Database '" +:+ database
                      +:+ "' was not found on " +:+ se_id server
                      +:+ ". Discovered databases: " +:+ names))
          | Some d => Ok (dd_name d, Some d)
          end
        else if mem "database" required_scope then
          Err (numi_error INVALID_TARGET ("Which database on " +:+ se_id server
                +:+ "? Discovered: " +:+ names))
        else Ok (database, None)
  | None => Ok (database, None)
  end.

(** step 4: the object, when the catalog knows the database *)
Definition validate_object (t : DatabaseTarget) (server : ServerEntry) (database : string)
    (d : option DiscoveredDatabase) : res exn unit :=
  match d, dt_object_name t with
  | Some d, Some o =>
      if truthy o && negb (bool_decide (dd_objects d = []))
         && negb (mem (str_lower o) (map (λ x, str_lower (do_name x)) (dd_objects d)))
      then Err (numi_error INVALID_TARGET ("Object '" +:+ o +:+ "' was not found in "
                 +:+ se_id server +:+ "/" +:+ database +:+ "."))
      else Ok tt
  | _, _ => Ok tt
  end.

(** [TargetValidator.validate], the catalog store being read through [lookup] *)
Definition validate_target (entries : list ServerEntry)
    (lookup : string → option ServerCatalog) (t : DatabaseTarget)
    (required_scope : list string) : res exn TargetContext :=
  match resolve entries t with
  | Err (AmbiguousServer cs) =>
      Err (numi_error INVALID_TARGET
        ("Multiple servers match this target — please say which one: "
         +:+ str_join ", " (map (λ c, se_id c +:+ " (" +:+ env_value (se_environment c)
                                 +:+ ")") cs) +:+ "."))
  | Err NoServer =>
      Err (numi_error INVALID_TARGET "No registered server matches the given target.")
  | Ok server =>
      '(database, discovered) ← validate_database server (lookup (se_id server))
          (str_strip (str_or (dt_database t) "")) required_scope;
      _ ← check_required_fields t server database required_scope;
      _ ← validate_object t server database discovered;
      let eff := effective_for server database in
      Ok {| tc_target := t; tc_server := server; tc_database := database;
            tc_criticality := ep_criticality eff; tc_classification := ep_classification eff;
            tc_allowed_roles := ep_allowed_roles eff;
            tc_discovered_database := discovered |}
  end.

(* ------------------------------------------------------------------ *)
(** ** Normalisation *)

Lemma starts_digit_collapse lead s : starts_digit (collapse_digits lead s) = starts_digit s.
Proof.
  revert lead. induction s as [|c s IH]; intros lead; cbn; [done|].
  destruct (is_digit c) eqn:Ec; [|done].
  destruct (lead && bool_decide (c = "0"%char) && starts_digit s) eqn:E; cbn; [|done].
  rewrite IH. by apply andb_true_iff in E as [_ ->].
Qed.

Lemma collapse_digits_idemp lead s :
  collapse_digits lead (collapse_digits lead s) = collapse_digits lead s.
Proof.
  revert lead. induction s as [|c s IH]; intros lead; cbn; [done|].
  destruct (is_digit c) eqn:Ec.
  - destruct (lead && bool_decide (c = "0"%char) && starts_digit s) eqn:E; cbn.
    + apply andb_true_iff in E as [[-> _]%andb_true_iff _]. apply IH.
    + by rewrite Ec starts_digit_collapse E IH.
  - cbn. by rewrite Ec IH.
Qed.

Lemma str_all_collapse p lead s :
  str_all p s = true → str_all p (collapse_digits lead s) = true.
Proof.
  revert lead. induction s as [|c s IH]; intros lead; cbn; [done|].
  intros [Hc Hs]%andb_true_iff. repeat case_match; cbn; rewrite ?Hc; by apply IH.
Qed.

Lemma str_all_strip s : str_all is_alnum (strip_non_alnum s) = true.
Proof. induction s as [|c s IH]; cbn; [done|]. destruct (is_alnum c) eqn:E; cbn; by rewrite ?E. Qed.

Lemma strip_alnum_id s : str_all is_alnum s = true → strip_non_alnum s = s.
Proof. induction s as [|c s IH]; cbn; [done|]. intros [-> ?]%andb_true_iff. by rewrite IH. Qed.

Lemma lower_alnum c : is_alnum c = true → ascii_lower c = c.
Proof. destruct c as [[] [] [] [] [] [] [] []]; vm_compute; congruence. Qed.

Lemma lower_alnum_id s : str_all is_alnum s = true → str_lower s = s.
Proof.
  unfold str_lower. induction s as [|c s IH]; cbn; [done|].
  intros [Hc ?]%andb_true_iff. by rewrite lower_alnum // IH.
Qed.

(** Normalising a server reference is idempotent: a normalised reference
    (as stored in a comparison or a cache) normalises to itself, so comparing
    normalised with raw references and with already normalised ones agree. *)
Theorem normalize_idempotent s :
  normalize_server_reference (normalize_server_reference s) = normalize_server_reference s.
Proof.
  unfold normalize_server_reference.
  assert (str_all is_alnum (collapse_digits true (strip_non_alnum (str_lower s))) = true) as H
    by apply str_all_collapse, str_all_strip.
  rewrite (lower_alnum_id _ H) (strip_alnum_id _ H). apply collapse_digits_idemp.
Qed.

(* ------------------------------------------------------------------ *)
(** ** Candidates and resolution *)

Lemma narrow_by_hint_sub h l e : e ∈ narrow_by_hint h l → e ∈ l.
Proof.
  unfold narrow_by_hint. destruct (opt_truthy h); [|done].
  destruct (List.filter (exact_match _) l) as [|x l'] eqn:E; [|rewrite -E];
    by intros [? _]%filter_elem_of.
Qed.

Lemma narrow_by_database_sub d l e : e ∈ narrow_by_database d l → e ∈ l.
Proof.
  unfold narrow_by_database. destruct (opt_truthy d && _); [|done].
  destruct (List.filter _ l) as [|x l'] eqn:E; [done|]. rewrite -E.
  by intros [? _]%filter_elem_of.
Qed.

Lemma find_candidates_in_scope entries t e :
  e ∈ find_candidates entries t → e ∈ entries ∧ in_scope t e = true.
Proof.
  unfold find_candidates.
  by intros H%narrow_by_database_sub%narrow_by_hint_sub%narrow_by_hint_sub%filter_elem_of.
Qed.

Lemma in_scope_spec t e : in_scope t e = true ↔
  se_environment e = dt_environment t ∧ se_status e = "active" ∧
  (∀ p, dt_platform t = Some p → se_platform e = p).
Proof.
  unfold in_scope. rewrite !andb_true_iff !bool_decide_eq_true.
  destruct (dt_platform t) as [p|]; rewrite ?bool_decide_eq_true; naive_solver.
Qed.

Lemma resolve_ok entries t e : resolve entries t = Ok e ↔ find_candidates entries t = [e].
Proof.
  unfold resolve. destruct (find_candidates entries t) as [|a [|b l]]; split; congruence.
Qed.

Lemma resolve_scope entries t e :
  resolve entries t = Ok e → e ∈ entries ∧ in_scope t e = true.
Proof. intros H%resolve_ok. apply find_candidates_in_scope. rewrite H. left. Qed.

Lemma filter_unique {A} `{EqDecision A} (p : A → bool) l e :
  NoDup l → e ∈ l → p e = true → (∀ x, x ∈ l → p x = true → x = e) → List.filter p l = [e].
Proof.
  intros Hnd Hin Hp Hu. induction Hnd as [|x l Hx Hnd IH]; [by apply elem_of_nil in Hin|]. cbn.
  apply elem_of_cons in Hin as [-> | Hin].
  - rewrite Hp. f_equal. destruct (List.filter p l) as [|y l'] eqn:E; [done|].
    assert (y ∈ List.filter p l) as [Hy Hpy]%filter_elem_of by (rewrite E; left).
    destruct Hx. rewrite -(Hu y); [by right|done|done].
  - destruct (p x) eqn:Ex.
    + destruct Hx. rewrite (Hu x); [left|done|done].
    + apply IH; [done|]. intros y Hy. apply Hu. by right.
Qed.

#[export] Instance ServerEntry_eq_dec : EqDecision ServerEntry.
Proof. 
  assert (EqDecision DatabaseOverride) by solve_decision. solve_decision.
Defined.

(** An exact reference wins: when the instance hint matches exactly one
    active server of the requested environment and platform (by id, alias,
    host or normalised form), that server is resolved, however many other
    servers merely contain the hint, and whatever the database hint says. *)
Theorem exact_reference_resolves entries t e h :
  NoDup entries → e ∈ entries → in_scope t e = true →
  dt_instance t = Some h → h ≠ "" → opt_truthy (dt_cluster t) = false →
  exact_match (str_lower (str_strip h)) e = true →
  (∀ e', e' ∈ entries → in_scope t e' = true →
         exact_match (str_lower (str_strip h)) e' = true → e' = e) →
  resolve entries t = Ok e.
Proof.
  intros Hnd Hin Hs Hi Hh Hc Hex Hu. apply resolve_ok. unfold find_candidates.
  assert (narrow_by_hint (dt_instance t) (List.filter (in_scope t) entries) = [e]) as ->.
  { unfold narrow_by_hint. rewrite Hi. cbn. rewrite (proj2 (truthy_spec h) Hh).
    rewrite (filter_unique _ _ e); [|by apply filter_elem_of|done| |done].
    - apply NoDup_ListNoDup, List.NoDup_filter. by apply NoDup_ListNoDup.
    - intros x [Hx Hsx]%filter_elem_of Hex'. by apply Hu. }
  unfold narrow_by_hint at 1. rewrite Hc.
  unfold narrow_by_database. cbn. by rewrite andb_false_r.
Qed.

(** a registry for the witnesses and the counterexamples *)
Definition mk_server (id host : string) (aliases : list string) (env : Environment)
    (roles : list DBARole) (ov : list (string * DatabaseOverride)) : ServerEntry :=
  {| se_id := id; se_platform := SQLSERVER; se_environment := env; se_host := host;
     se_port := 1433; se_aliases := aliases; se_criticality := "standard";
     se_classification := "internal"; se_maintenance_window := []; se_allowed_roles := roles;
     se_database_overrides := ov; se_status := "active" |}.
Definition mk_target (env : Environment) (instance database : option string) : DatabaseTarget :=
  {| dt_environment := env; dt_platform := None; dt_cluster := None; dt_instance := instance;
     dt_database := database; dt_schema_name := None; dt_object_name := None;
     dt_session_id := None; dt_query_id := None |}.
Definition dev_1 := mk_server "sqlserver-dev-01" "10.0.0.1" ["sql dev"] DEVELOPMENT [DBA_L1] [].
Definition dev_12 := mk_server "sqlserver-dev-12" "10.0.0.12" [] DEVELOPMENT [DBA_L1] [].

Lemma exact_reference_resolves_witness :
  resolve [dev_12; dev_1] (mk_target DEVELOPMENT (Some "SQL Server dev 1") None) = Ok dev_1.
Proof.
  apply (exact_reference_resolves [dev_12; dev_1] _ dev_1 "SQL Server dev 1");
    try reflexivity; try discriminate.
  - repeat constructor; intros H; apply list_elem_of_In in H; cbn in H; intuition discriminate.
  - apply list_elem_of_In. cbn. tauto.
  - intros e' He'. apply list_elem_of_In in He'. cbn in He'.
    destruct He' as [<-|[<-|[]]]; intros _ H; [vm_compute in H; discriminate|reflexivity].
Defined.

(** A finding about [normalize_server_reference]: its documentation says
    normalisation can never cause a wrong confident match, but a hint that
    normalises to the empty string (only separators, such as a dash) is a
    substring of every reference, so with a single active server in scope it is
    resolved to that server with no ambiguity reported. *)
Theorem separator_hint_resolves_confidently entries t e h :
  List.filter (in_scope t) entries = [e] →
  dt_instance t = Some h → h ≠ "" → opt_truthy (dt_cluster t) = false →
  normalize_server_reference (str_lower (str_strip h)) = "" →
  resolve entries t = Ok e.
Proof.
  intros Hf Hi Hh Hc Hn. apply resolve_ok. unfold find_candidates. rewrite Hf.
  assert (narrow_by_hint (dt_instance t) [e] = [e]) as ->.
  { unfold narrow_by_hint. rewrite Hi. cbn. rewrite (proj2 (truthy_spec h) Hh).
    destruct (exact_match _ e) eqn:E; cbn; [done|].
    assert (substring_match (str_lower (str_strip h)) e = true) as ->; [|done].
    unfold substring_match. rewrite Hn.
    assert (∀ s, str_contains "" s = true) as Hany by (by intros []).
    by rewrite (Hany (normalize_server_reference (se_id e))) orb_true_r. }
  unfold narrow_by_hint at 1. rewrite Hc.
  unfold narrow_by_database. cbn. by rewrite andb_false_r.
Qed.

Lemma separator_hint_resolves_confidently_witness :
  resolve [dev_12] (mk_target DEVELOPMENT (Some "--") None) = Ok dev_12 ∧
  resolve [dev_12] (mk_target DEVELOPMENT (Some "dev 1") None) = Ok dev_12.
Proof.
  split; [|reflexivity].
  apply (separator_hint_resolves_confidently [dev_12] _ dev_12 "--");
    try reflexivity; discriminate.
Defined.

(* ------------------------------------------------------------------ *)
(** ** Target validation *)

Lemma res_bind_ok {E A B} (m : res E A) (k : A → res E B) b :
  m ≫= k = Ok b → ∃ a, m = Ok a ∧ k a = Ok b.
Proof. destruct m; cbn; [eauto|done]. Qed.

Lemma validate_database_ok server c db scope db' d :
  validate_database server (Some c) db scope = Ok (db', d) → sc_databases c ≠ [] →
  (db = "" ∧ db' = "" ∧ d = None) ∨
  (db ≠ "" ∧ ∃ x, d = Some x ∧ x ∈ sc_databases c ∧ db' = dd_name x ∧
     str_lower (dd_name x) = str_lower (str_strip db)).
Proof.
  unfold validate_database. intros H Hne. rewrite bool_decide_false // in H.
  destruct (truthy db) eqn:Et; unfold truthy in Et; case_bool_decide; try done.
  - right. split; [done|]. case_match eqn:E; simplify_eq.
    apply catalog_database_spec in E as [??]. eauto.
  - left. case_match; simplify_eq. done.
Qed.

Lemma check_required_ok t s db scope name :
  check_required_fields t s db scope = Ok tt → name ∈ scope →
  ∃ v, effective_field t s db (FIELD_ALIASES name) = Some v ∧ v ≠ "".
Proof.
  unfold check_required_fields, missing_fields. case_match eqn:E; [|done]. intros _ Hin.
  destruct (opt_truthy (effective_field t s db (FIELD_ALIASES name))) eqn:Eo.
  - unfold opt_truthy in Eo. case_match; [|done]. apply truthy_spec in Eo. eauto.
  - assert (name ∈ List.filter (λ name,
      negb (opt_truthy (effective_field t s db (FIELD_ALIASES name)))) scope) as Hm
      by (apply filter_elem_of; by rewrite Eo).
    rewrite E in Hm. by apply elem_of_nil in Hm.
Qed.

(** C38: a validated target is grounded: it names one registered, active
    server of the requested environment and platform; when the server has a
    discovered catalog, the database is spelled exactly as discovery found it
    and a named object exists in it; every field the tool requires is present;
    roles and criticality are those effective for that database. *)
Theorem validated_target_grounded entries lookup t scope ctx :
  validate_target entries lookup t scope = Ok ctx →
  tc_target ctx = t ∧
  (tc_server ctx ∈ entries ∧ find_candidates entries t = [tc_server ctx]) ∧
  (tc_environment ctx = dt_environment t ∧ se_status (tc_server ctx) = "active" ∧
   ∀ p, dt_platform t = Some p → tc_platform ctx = p) ∧
  (∀ c, lookup (se_id (tc_server ctx)) = Some c → sc_databases c ≠ [] →
     tc_database ctx ≠ "" → ∃ d, tc_discovered_database ctx = Some d ∧ d ∈ sc_databases c ∧
       dd_name d = tc_database ctx ∧
       ∀ o, dt_object_name t = Some o → o ≠ "" → dd_objects d ≠ [] →
            ∃ x, x ∈ dd_objects d ∧ str_lower (do_name x) = str_lower o) ∧
  (∀ name, name ∈ scope →
     ∃ v, effective_field t (tc_server ctx) (tc_database ctx) (FIELD_ALIASES name) = Some v ∧
          v ≠ "") ∧
  tc_allowed_roles ctx = ep_allowed_roles (effective_for (tc_server ctx) (tc_database ctx)) ∧
  tc_criticality ctx = ep_criticality (effective_for (tc_server ctx) (tc_database ctx)).
Proof.
  unfold validate_target. destruct (resolve entries t) as [server|[]] eqn:Er; try done.
  intros ([db d] & Hd & ([] & Hr & ([] & Ho & [= <-])%res_bind_ok)%res_bind_ok)%res_bind_ok.
  pose proof (resolve_scope _ _ _ Er) as [Hin (He & Hst & Hp)%in_scope_spec].
  apply resolve_ok in Er. cbn. split_and!; try done.
  - intros c Hc Hne Hdb. rewrite Hc in Hd.
    apply validate_database_ok in Hd as [(_ & -> & _)|(_ & x & -> & Hx & -> & _)]; try done.
    exists x. split_and!; try done. intros o Hto Hoe Hobj. cbn in Ho.
    rewrite Hto (proj2 (truthy_spec o) Hoe) bool_decide_false //= in Ho.
    unfold mem in Ho. case_bool_decide as Hm; [|done].
    apply list_elem_of_fmap in Hm as (y & Hy & ?). eauto.
  - intros name Hname. by apply (check_required_ok _ _ _ scope).
Qed.

Definition core_db : DiscoveredDatabase :=
  {| dd_name := "CoreBanking"; dd_state := "ONLINE"; dd_size_bytes := None; dd_options := [];
     dd_objects := []; dd_extensions := [] |}.
Definition core_catalog : ServerCatalog :=
  {| sc_server_id := "sqlserver-dev-01"; sc_discovered_at := None; sc_engine_version := "";
     sc_engine_edition := ""; sc_instance_properties := [];
     sc_databases := [core_db]; sc_warnings := []; sc_least_privilege := None |}.
Definition core_ctx : TargetContext :=
  {| tc_target := mk_target DEVELOPMENT (Some "sqlserver-dev-01") (Some " corebanking ");
     tc_server := dev_1; tc_database := "CoreBanking"; tc_criticality := "standard";
     tc_classification := "internal"; tc_allowed_roles := [DBA_L1];
     tc_discovered_database := Some core_db |}.

Lemma validated_target_grounded_witness :
  tc_database core_ctx = "CoreBanking" ∧
  tc_target core_ctx = mk_target DEVELOPMENT (Some "sqlserver-dev-01") (Some " corebanking ").
Proof.
  split; [reflexivity|].
  apply (validated_target_grounded [dev_1] (λ _, Some core_catalog)
    (mk_target DEVELOPMENT (Some "sqlserver-dev-01") (Some " corebanking "))
    ["environment"; "instance"; "database"] core_ctx).
  vm_compute. reflexivity.
Defined.

(** A finding about per-database restrictions: [effective_for] looks an
    override up by the exact spelling of the database, and without a discovered
    catalog the spelling is the caller's, so a role restriction declared for a
    database is not applied to the same name in another case. *)
Theorem override_skipped_by_case entries lookup t scope ctx db :
  validate_target entries lookup t scope = Ok ctx →
  lookup (se_id (tc_server ctx)) = None →
  str_strip (str_or (dt_database t) "") = db →
  dict_get db (se_database_overrides (tc_server ctx)) = None →
  tc_database ctx = db ∧ tc_allowed_roles ctx = se_allowed_roles (tc_server ctx).
Proof.
  unfold validate_target. destruct (resolve entries t) as [server|[]] eqn:Er; try done.
  intros ([db' d] & Hd & ([] & Hr & ([] & Ho & [= <-])%res_bind_ok)%res_bind_ok)%res_bind_ok.
  cbn. intros Hl Hdb Hov. rewrite Hl Hdb in Hd. cbn in Hd. injection Hd as <- <-.
  split; [done|]. unfold effective_for. by rewrite Hov.
Qed.

Definition restricted_server : ServerEntry :=
  mk_server "sqlserver-dev-01" "10.0.0.1" [] DEVELOPMENT [DBA_L1]
    [("CoreBanking", {| ov_criticality := Some "critical"; ov_classification := None;
                        ov_allowed_roles := Some [DBA_MANAGER] |})].
Definition bypass_target : DatabaseTarget :=
  mk_target DEVELOPMENT (Some "sqlserver-dev-01") (Some "corebanking").
Definition bypass_ctx : TargetContext :=
  {| tc_target := bypass_target; tc_server := restricted_server; tc_database := "corebanking";
     tc_criticality := "standard"; tc_classification := "internal";
     tc_allowed_roles := [DBA_L1]; tc_discovered_database := None |}.

Lemma override_skipped_by_case_witness :
  ep_allowed_roles (effective_for restricted_server "CoreBanking") = [DBA_MANAGER] ∧
  tc_database bypass_ctx = "corebanking" ∧ tc_allowed_roles bypass_ctx = [DBA_L1].
Proof.
  split; [reflexivity|].
  apply (override_skipped_by_case [restricted_server] (λ _, None) bypass_target
    ["environment"; "instance"; "database"] bypass_ctx "corebanking"); reflexivity.
Defined.
