(* ===== verification/Policy.v ===== *)
(** Authorization, policy and risk: [gateway/domain/authorization.py],
    [gateway/domain/policy_engine.py] and [gateway/domain/risk_engine.py]. *)
From S2P Require Import Prelude Json Text Models ToolCatalog Servers.

(* ------------------------------------------------------------------ *)
(** ** authorization.py *)

Definition authorize (identity : VerifiedIdentity) (tool : ToolDefinition) (ctx : TargetContext)
    : res exn unit :=
  if negb (is_dba identity) then
    Err (numi_error UNAUTHORIZED "This account is not a member of the DBA team.")
  else if negb (vi_mfa_satisfied identity) then
    Err (numi_error AUTHENTICATION_FAILED
          "Multi-factor authentication has not been satisfied for this session.")
  else if negb (intersects (vi_dba_roles identity) (td_allowed_roles tool)) then
    Err (numi_error UNAUTHORIZED ("Your role does not permit use of '" +:+ td_tool_id tool +:+ "'."))
  else if negb (bool_decide (tc_allowed_roles ctx = []))
          && negb (intersects (vi_dba_roles identity) (tc_allowed_roles ctx)) then
    Err (numi_error UNAUTHORIZED ("Your role does not permit access to '" +:+
          (if truthy (tc_database ctx) then se_id (tc_server ctx) +:+ "/" +:+ tc_database ctx
           else se_id (tc_server ctx)) +:+ "'."))
  else if negb (mem (tc_environment ctx) (td_allowed_environments tool)) then
    Err (numi_error UNAUTHORIZED ("'" +:+ td_tool_id tool +:+ "' is not permitted in environment '"
          +:+ env_value (tc_environment ctx) +:+ "'."))
  else Ok tt.

(* ------------------------------------------------------------------ *)
(** ** policy_engine.py *)

Inductive PolicyDecision : Type := ALLOW | DENY | REQUIRES_APPROVAL.

#[export] Instance PolicyDecision_eq_dec : EqDecision PolicyDecision.
Proof. solve_decision. Defined.

Definition decision_value (d : PolicyDecision) : string :=
  match d with
  | ALLOW => "ALLOW" | DENY => "DENY" | REQUIRES_APPROVAL => "REQUIRES_APPROVAL"
  end.
Definition decision_of_value (s : string) : option PolicyDecision :=
  first_where (λ d, bool_decide (decision_value d = s)) [ALLOW; DENY; REQUIRES_APPROVAL].

Record PolicyEvaluation : Type := {
  pe_decision : PolicyDecision;
  pe_requires_dual_approval : bool;
  pe_requires_change_ticket : bool;
  pe_in_maintenance_window : bool;
  pe_reasons : list string
}.

(** instants and offsets are in microseconds; [US] per second *)
Definition US : Z := 1000000.
Definition DAY : Z := 86400 * US.

(** [int(x)] of a decimal literal *)
Fixpoint digits_to_Z (acc : Z) (s : string) : option Z :=
  match s with
  | EmptyString => Some acc
  | String c s =>
      if is_digit c then digits_to_Z (acc * 10 + Z.of_nat (Ascii.nat_of_ascii c) - 48) s else None
  end.
Definition int_of_str (s : string) : option Z :=
  match s with EmptyString => None | _ => digits_to_Z 0 s end.

(** [(int(x) for x in s.split(":"))] unpacked into an hour and a minute that
    [datetime.replace] accepts; [None] where it raises [ValueError] *)
Definition parse_hm (s : string) : option (Z * Z) :=
  match str_split ":" s with
  | [h; m] =>
      h ← int_of_str h; m ← int_of_str m;
      if (h <? 24)%Z && (m <? 60)%Z then Some (h, m) else None
  | _ => None
  end.

Section window.
(** the time zone database: the offset from UTC of a zone at an instant,
    [None] for a name [ZoneInfo] does not know *)
Context (zone_offset : string → Z → option Z).

Definition local_time_of_day (timezone : string) (now_utc : Z) : Z :=
  ((now_utc + default 0 (zone_offset timezone now_utc)) mod DAY)%Z.

(** [is_within_maintenance_window] *)
Definition is_within_maintenance_window (window : list (string * string)) (now_utc : Z)
    : res exn bool :=
  let start_s := dict_get "start" window in
  let end_s := dict_get "end" window in
  if negb (opt_truthy start_s) || negb (opt_truthy end_s) then Ok true
  else
    let local_now := local_time_of_day (default "UTC" (dict_get "timezone" window)) now_utc in
    match parse_hm (default "" start_s), parse_hm (default "" end_s) with
    | Some (start_h, start_m), Some (end_h, end_m) =>
        let start := ((start_h * 3600 + start_m * 60) * US)%Z in
        let end_ := ((end_h * 3600 + end_m * 60) * US)%Z in
        if (start <=? end_)%Z then Ok ((start <=? local_now)%Z && (local_now <=? end_)%Z)
        else Ok ((start <=? local_now)%Z || (local_now <=? end_)%Z)
    | _, _ => Err (PyError "ValueError" "maintenance window")
    end.
End window.

(** the parsed [config/policy.yaml] *)
Record PolicyConfig : Type := {
  pc_default_decision : PolicyDecision;
  pc_table : list (string * list (string * list (string * PolicyDecision)));
  pc_change_ticket_required : list (string * list string);
  pc_dual_approval_required : list string
}.

(** the [str] items of a YAML list, the mappings of a YAML mapping *)
Definition json_strs (v : json) : option (list string) :=
  match v with
  | JArr l => mapM (λ x, match x with JStr s => Some s | _ => None end) l
  | _ => None
  end.
Definition json_items (v : json) : option (list (string * json)) :=
  match v with JObj l => Some l | _ => None end.
Definition on_values {A} (f : json → option A) (l : list (string * json))
    : option (list (string * A)) :=
  mapM (λ kv, pair kv.1 <$> f kv.2) l.

(** [PolicyDecision(v)] *)
Definition as_decision (v : json) : option PolicyDecision :=
  match v with JStr s => decision_of_value s | _ => None end.
(** [PolicyEngine.__init__] on the loaded YAML document; [None] where
    [PolicyDecision(...)] or the document's shape raises *)
Definition load_policy (raw : list (string * json)) : option PolicyConfig :=
  default_decision ← as_decision (default (JStr "DENY") (dict_get "default_decision" raw));
  envs ← json_items (default (JObj []) (dict_get "environments" raw));
  table ← on_values (λ tool_map,
    tools ← json_items tool_map;
    on_values (λ role_map, roles ← json_items role_map; on_values as_decision roles) tools) envs;
  tickets ← json_items (default (JObj []) (dict_get "change_ticket_required" raw));
  tickets ← on_values json_strs tickets;
  dual ← json_strs (default (JArr []) (dict_get "dual_approval_required" raw));
  Some {| pc_default_decision := default_decision; pc_table := table;
          pc_change_ticket_required := tickets; pc_dual_approval_required := dual |}.

(** the base decision and its reasons *)
Definition base_decision (c : PolicyConfig) (environment : Environment) (tool_id : string)
    (role : DBARole) : PolicyDecision * list string :=
  let env_table := default [] (dict_get (env_value environment) (pc_table c)) in
  match dict_get tool_id env_table with
  | None => (pc_default_decision c, ["no_policy_entry_fail_closed"])
  | Some tool_table =>
      match dict_get (role_value role) tool_table with
      | Some d => (d, [])
      | None => (pc_default_decision c, ["no_role_entry_fail_closed"])
      end
  end.

(** [PolicyEngine.evaluate]; [in_window] is the outcome of
    [is_within_maintenance_window(ctx.maintenance_window, now_utc)] *)
Definition evaluate_in_window (c : PolicyConfig) (environment : Environment)
    (tool : ToolDefinition) (role : DBARole) (change_id : option string)
    (current_load_critical in_window : bool) : PolicyEvaluation :=
  let '(decision, reasons) := base_decision c environment (td_tool_id tool) role in
  let '(decision, reasons) :=
    if td_availability_impact tool then
      let reasons := reasons ++
        [if in_window then "inside_maintenance_window" else "outside_maintenance_window"] in
      if bool_decide (decision = ALLOW) && negb in_window
      then (REQUIRES_APPROVAL, reasons ++ ["escalated_outside_maintenance_window"])
      else (decision, reasons)
    else (decision, reasons) in
  let '(decision, reasons) :=
    if current_load_critical && td_data_modification tool && bool_decide (decision = ALLOW)
    then (REQUIRES_APPROVAL, reasons ++ ["escalated_current_load_critical"])
    else (decision, reasons) in
  let requires_change_ticket :=
    mem (td_tool_id tool)
      (default [] (dict_get (env_value environment) (pc_change_ticket_required c))) in
  let reasons :=
    if requires_change_ticket && negb (opt_truthy change_id) && negb (bool_decide (decision = DENY))
    then reasons ++ ["change_ticket_required_but_missing"] else reasons in
  {| pe_decision := decision;
     pe_requires_dual_approval :=
       td_requires_dual_approval tool || mem (td_tool_id tool) (pc_dual_approval_required c);
     pe_requires_change_ticket := requires_change_ticket;
     pe_in_maintenance_window := in_window;
     pe_reasons := reasons |}.

Definition policy_evaluate (zone_offset : string → Z → option Z) (c : PolicyConfig)
    (environment : Environment) (tool : ToolDefinition) (role : DBARole) (ctx : TargetContext)
    (change_id : option string) (current_load_critical : bool) (now_utc : Z)
    : res exn PolicyEvaluation :=
  in_window ← is_within_maintenance_window zone_offset (tc_maintenance_window ctx) now_utc;
  Ok (evaluate_in_window c environment tool role change_id current_load_critical in_window).

(* ------------------------------------------------------------------ *)
(** ** risk_engine.py *)

Definition BASE_SCORE (r : RiskLevel) : Z :=
  match r with LOW => 10 | MEDIUM => 35 | HIGH => 60 | CRITICAL => 85 end.

Definition TOOL_BLAST_RADIUS : list (string * BlastRadius) :=
  [("database.cancel_query", SINGLE_QUERY);
   ("database.kill_session", SINGLE_SESSION);
   ("database.update_statistics", SINGLE_OBJECT);
   ("database.create_index", SINGLE_OBJECT);
   ("database.rebuild_index", SINGLE_OBJECT);
   ("database.modify_configuration", SINGLE_DATABASE);
   ("database.restart_instance", SINGLE_DATABASE);
   ("database.failover", CLUSTER);
   ("database.execute_sql", SINGLE_OBJECT);
   ("database.execute_readonly_sql", SINGLE_QUERY);
   ("database.restore_database", SINGLE_DATABASE);
   ("database.create_database", SINGLE_DATABASE);
   ("database.drop_database", SINGLE_DATABASE);
   ("database.truncate_table", SINGLE_OBJECT);
   ("database.bulk_delete", SINGLE_OBJECT)].

Definition CRITICALITY_POINTS (criticality : string) : Z :=
  default 0%Z (dict_get criticality [("critical", 20); ("high", 12); ("standard", 4); ("low", 0)]%Z).

(** position in [order] *)
Definition risk_order (r : RiskLevel) : Z :=
  match r with LOW => 0 | MEDIUM => 1 | HIGH => 2 | CRITICAL => 3 end.

Definition level_of_score (score : Z) : RiskLevel :=
  (if score >=? 85 then CRITICAL else if score >=? 60 then HIGH
   else if score >=? 30 then MEDIUM else LOW)%Z.

(** the points added up, before the clamp *)
Definition raw_score (tool : ToolDefinition) (environment : Environment) (criticality : string)
    (affected_session_count : Z) (current_load_critical : bool) : Z :=
  let impactful := td_data_modification tool || td_availability_impact tool in
  (BASE_SCORE (td_risk_level tool)
   + (if bool_decide (environment = PRODUCTION) && impactful then 15 else 0)
   + (if impactful then CRITICALITY_POINTS criticality else 0)
   + (if td_data_modification tool then 10 else 0)
   + (if td_reversible tool then 0 else 15)
   + (if td_availability_impact tool then 10 else 0)
   + (if affected_session_count >? 10 then 5 else 0)
   + (if current_load_critical then 10 else 0))%Z.

(** the reason codes, in the order the code appends them *)
Definition risk_reasons (tool : ToolDefinition) (environment : Environment) (criticality : string)
    (widened : bool) (affected_session_count : Z) (current_load_critical : bool)
    (blast_radius : BlastRadius) : list ReasonCode :=
  [if bool_decide (environment = PRODUCTION) then R_PRODUCTION else R_NON_PRODUCTION]
  ++ (if bool_decide (criticality = "critical") then [R_CRITICAL_DATABASE]
      else if bool_decide (criticality = "high") then [R_HIGH_CRITICALITY_DATABASE] else [])
  ++ [if td_data_modification tool then R_WRITE_OPERATION else R_READ_OPERATION]
  ++ (if td_reversible tool then [] else [R_IRREVERSIBLE])
  ++ (if td_availability_impact tool then [R_AVAILABILITY_IMPACT] else [])
  ++ (if widened then [R_MANY_AFFECTED_OBJECTS] else [])
  ++ (if (affected_session_count >? 10)%Z then [R_MANY_AFFECTED_SESSIONS] else [])
  ++ (if current_load_critical then [R_HIGH_CURRENT_LOAD] else [])
  ++ (if bool_decide (td_operation_type tool = PRIVILEGED) then [R_PRIVILEGED_OPERATION] else [])
  ++ (if mem blast_radius [CLUSTER; ENTERPRISE; MULTIPLE_DATABASES] then [R_LARGE_BLAST_RADIUS]
      else []).

(** [RiskEngine.assess] *)
Definition assess (tool : ToolDefinition) (environment : Environment) (ctx : TargetContext)
    (affected_object_count affected_session_count : Z) (current_load_critical : bool)
    : RiskAssessment :=
  let score := Z.max 0 (Z.min 100
    (raw_score tool environment (tc_criticality ctx) affected_session_count
       current_load_critical)) in
  let base_radius := default SINGLE_OBJECT (dict_get (td_tool_id tool) TOOL_BLAST_RADIUS) in
  let widened := (affected_object_count >? 1)%Z && mem base_radius [SINGLE_OBJECT; SINGLE_DATABASE] in
  let blast_radius := if widened then MULTIPLE_OBJECTS else base_radius in
  let level := level_of_score score in
  let level := if (risk_order level <? risk_order (td_risk_level tool))%Z
               then td_risk_level tool else level in
  {| ra_risk_level := level; ra_score := score; ra_blast_radius := blast_radius;
     ra_reversible := td_reversible tool;
     ra_availability_impact := td_availability_impact tool;
     ra_reason_codes := risk_reasons tool environment (tc_criticality ctx) widened
       affected_session_count current_load_critical blast_radius |}.

(* ------------------------------------------------------------------ *)
(** ** Authorization *)

Lemma intersects_false {A} `{EqDecision A} (a b : list A) :
  intersects a b = false ↔ ∀ x, x ∈ a → x ∈ b → False.
Proof.
  split.
  - intros Hf x Ha Hb. assert (intersects a b = true) by (apply intersects_spec; eauto). congruence.
  - intros Hn. destruct (intersects a b) eqn:E; [|done].
    apply intersects_spec in E as (x & ? & ?). destruct (Hn x); done.
Qed.

Lemma authorize_ok identity tool ctx :
  authorize identity tool ctx = Ok tt ↔
  is_dba identity = true ∧ vi_mfa_satisfied identity = true ∧
  (∃ r, r ∈ vi_dba_roles identity ∧ r ∈ td_allowed_roles tool) ∧
  (tc_allowed_roles ctx ≠ [] →
     ∃ r, r ∈ vi_dba_roles identity ∧ r ∈ tc_allowed_roles ctx) ∧
  tc_environment ctx ∈ td_allowed_environments tool.
Proof.
  unfold authorize, mem. rewrite -!intersects_spec.
  destruct (is_dba identity), (vi_mfa_satisfied identity),
    (intersects (vi_dba_roles identity) (td_allowed_roles tool)),
    (intersects (vi_dba_roles identity) (tc_allowed_roles ctx)); cbn;
    repeat case_bool_decide; cbn; naive_solver.
Qed.

(** Authorization is exactly the conjunction of the four questions of the
    specification plus MFA: a DBA role at all, a satisfied second factor, a role
    the tool allows, a role the target allows when it restricts roles, and a
    permitted environment; every refusal is UNAUTHORIZED, except a missing second
    factor of a DBA, which is AUTHENTICATION_FAILED. *)
Theorem authorize_spec identity tool ctx :
  match authorize identity tool ctx with
  | Ok _ =>
      is_dba identity = true ∧ vi_mfa_satisfied identity = true ∧
      (∃ r, r ∈ vi_dba_roles identity ∧ r ∈ td_allowed_roles tool) ∧
      (tc_allowed_roles ctx ≠ [] →
         ∃ r, r ∈ vi_dba_roles identity ∧ r ∈ tc_allowed_roles ctx) ∧
      tc_environment ctx ∈ td_allowed_environments tool
  | Err e =>
      (exn_code e = Some AUTHENTICATION_FAILED ∧
         is_dba identity = true ∧ vi_mfa_satisfied identity = false) ∨
      (exn_code e = Some UNAUTHORIZED ∧
         (is_dba identity = false ∨
          (∀ r, r ∈ vi_dba_roles identity → r ∈ td_allowed_roles tool → False) ∨
          (tc_allowed_roles ctx ≠ [] ∧
             ∀ r, r ∈ vi_dba_roles identity → r ∈ tc_allowed_roles ctx → False) ∨
          tc_environment ctx ∉ td_allowed_environments tool))
  end.
Proof.
  destruct (authorize identity tool ctx) as [[]|e] eqn:E; [by apply authorize_ok|].
  unfold authorize, mem in E. rewrite -!intersects_false.
  destruct (is_dba identity), (vi_mfa_satisfied identity),
    (intersects (vi_dba_roles identity) (td_allowed_roles tool)),
    (intersects (vi_dba_roles identity) (tc_allowed_roles ctx)); cbn in E;
    repeat case_bool_decide; cbn in E; simplify_eq; cbn; naive_solver.
Qed.

(* ------------------------------------------------------------------ *)
(** ** The maintenance window *)

(** A configured window is a closed interval of the local time of day, and
    one whose end precedes its start wraps midnight: outside means strictly
    after the end and strictly before the start; no window never restricts. *)
Theorem maintenance_window_spec zone_offset w now s e sh sm eh em :
  dict_get "start" w = Some s → dict_get "end" w = Some e →
  parse_hm s = Some (sh, sm) → parse_hm e = Some (eh, em) →
  let t := local_time_of_day zone_offset (default "UTC" (dict_get "timezone" w)) now in
  let start := ((sh * 3600 + sm * 60) * US)%Z in
  let end_ := ((eh * 3600 + em * 60) * US)%Z in
  is_within_maintenance_window zone_offset [] now = Ok true ∧
  ∃ b, is_within_maintenance_window zone_offset w now = Ok b ∧
    (b = true ↔ if decide (start ≤ end_)%Z then (start ≤ t ≤ end_)%Z
                else ¬ (end_ < t < start)%Z).
Proof.
  intros Hs He Ps Pe t start end_. split; [done|].
  unfold is_within_maintenance_window. rewrite Hs He. cbn [opt_truthy default].
  assert (∀ x y, parse_hm x = Some y → truthy x = true) as Ht.
  { intros x y Hx. apply truthy_spec. intros ->. discriminate Hx. }
  rewrite (Ht _ _ Ps) (Ht _ _ Pe) Ps Pe. cbn [negb orb].
  fold start end_ t. destruct (Z.leb_spec start end_); eexists.
  - split; [reflexivity|]. rewrite decide_True //. rewrite andb_true_iff !Z.leb_le. done.
  - split; [reflexivity|]. rewrite decide_False; [lia|]. rewrite orb_true_iff !Z.leb_le. lia.
Qed.

Definition night_window : list (string * string) := [("start", "22:00"); ("end", "04:30")].

Lemma maintenance_window_spec_witness :
  is_within_maintenance_window (λ _ _, None) [] (3 * 3600 * US) = Ok true ∧
  ∃ b, is_within_maintenance_window (λ _ _, None) night_window (3 * 3600 * US) = Ok b ∧
    (b = true ↔ if decide (79200000000 ≤ 16200000000)%Z
                then (79200000000 ≤ 3 * 3600 * US ≤ 16200000000)%Z
                else ¬ (16200000000 < 3 * 3600 * US < 79200000000)%Z).
Proof.
  exact (maintenance_window_spec (λ _ _, None) night_window (3 * 3600 * US) "22:00" "04:30"
    22 0 4 30 eq_refl eq_refl eq_refl eq_refl).
Defined.

(* ------------------------------------------------------------------ *)
(** ** Policy *)

Lemma evaluate_decision c env tool role ch load w :
  pe_decision (evaluate_in_window c env tool role ch load w) =
  let base := (base_decision c env (td_tool_id tool) role).1 in
  if bool_decide (base = ALLOW) &&
     ((td_availability_impact tool && negb w) || (load && td_data_modification tool))
  then REQUIRES_APPROVAL else base.
Proof.
  unfold evaluate_in_window. destruct (base_decision _ _ _ _) as [d rs]. cbn [fst].
  destruct (td_availability_impact tool), w, load, (td_data_modification tool), d; reflexivity.
Qed.

(** the entry of the loaded table, and the one of the document it was loaded from *)
Definition listed (c : PolicyConfig) (env : Environment) (id : string) (role : DBARole) : option PolicyDecision :=
  tools ← dict_get (env_value env) (pc_table c); roles ← dict_get id tools; dict_get (role_value role) roles.
Definition stated_entry (raw : list (string * json)) (env : Environment) (id : string) (role : DBARole)
    : option json :=
  envs ← json_items (default (JObj []) (dict_get "environments" raw));
  tools ← dict_get (env_value env) envs ≫= json_items;
  roles ← dict_get id tools ≫= json_items;
  dict_get (role_value role) roles.
Definition stated_default (raw : list (string * json)) : json :=
  default (JStr "DENY") (dict_get "default_decision" raw).

Lemma base_decision_listed c env id role :
  (base_decision c env id role).1 = default (pc_default_decision c) (listed c env id role).
Proof.
  unfold base_decision, listed.
  destruct (dict_get (env_value env) _) as [tools|]; cbn; [|done].
  destruct (dict_get id tools) as [roles|]; cbn; [|done]. by destruct (dict_get _ roles).
Qed.

(** the mapping over a YAML mapping keeps its keys: an entry is there before and after, or
    in neither *)
Lemma on_values_lookup {A} (f : json → option A) l l' k : on_values f l = Some l' →
  (dict_get k l = None ∧ dict_get k l' = None) ∨
  ∃ v x, dict_get k l = Some v ∧ f v = Some x ∧ dict_get k l' = Some x.
Proof.
  unfold on_values. revert l'. induction l as [|[k' v] l IH]; intros l'; cbn; [intros [= <-]; by left|].
  destruct (f v) as [x|] eqn:Ef; cbn; [|done]. destruct (mapM _ l) as [l1|] eqn:El; cbn; [|done].
  intros [= <-]. cbn.
  destruct (decide (k = k')); [|by apply IH]. right. by exists v, x.
Qed.

Lemma as_decision_allow v d : as_decision v = Some d → (d = ALLOW ↔ v = JStr "ALLOW") ∧
  (v = JStr "DENY" → d = DENY).
Proof.
  destruct v as [| | |s| |]; try done. intros Hs. unfold as_decision, decision_of_value in Hs.
  assert (decision_value d = s) as <- by by apply first_where_some in Hs as [_ ?%bool_decide_eq_true].
  destruct d; naive_solver.
Qed.

(** what is loaded is what the document states *)
Lemma load_policy_listed raw c env id role : load_policy raw = Some c →
  as_decision (stated_default raw) = Some (pc_default_decision c) ∧
  ((stated_entry raw env id role = None ∧ listed c env id role = None) ∨
   ∃ v d, stated_entry raw env id role = Some v ∧ as_decision v = Some d ∧ listed c env id role = Some d).
Proof.
  unfold load_policy, stated_entry, listed. intros Hl.
  apply bind_Some in Hl as (d & Hd & Hl). apply bind_Some in Hl as (envs & -> & Hl).
  apply bind_Some in Hl as (table & Ht & Hl). repeat (apply bind_Some in Hl as (? & _ & Hl)).
  injection Hl as <-. cbn. split; [exact Hd|].
  destruct (on_values_lookup _ _ _ (env_value env) Ht) as [[-> ->]|(v & tools & -> & Hv & ->)]; [by left|].
  apply bind_Some in Hv as (l & Hl & Hv). cbn. rewrite Hl. cbn.
  destruct (on_values_lookup _ _ _ id Hv) as [[-> ->]|(v' & roles & -> & Hv' & ->)]; [by left|].
  apply bind_Some in Hv' as (l' & Hl' & Hv'). cbn. rewrite Hl'. cbn.
  destruct (on_values_lookup _ _ _ (role_value role) Hv') as [[-> ->]|(v'' & d'' & -> & ? & ->)]; [by left|].
  right. by exists v'', d''.
Qed.

(** C36: The policy fails closed, for any document that loads.  The decision is ALLOW exactly
    when the document has the entry ALLOW for this environment, tool and role, or has no entry
    for them and itself states [default_decision: ALLOW]; and then only inside the maintenance
    window for an availability-impacting tool and not under critical load for a modifying one.
    Without an entry, a document whose default is DENY, or states none, denies. *)
Theorem policy_fails_closed raw c env tool role ch load w :
  load_policy raw = Some c →
  let decision := pe_decision (evaluate_in_window c env tool role ch load w) in
  let entry := stated_entry raw env (td_tool_id tool) role in
  (decision = ALLOW ↔
   (entry = Some (JStr "ALLOW") ∨
    entry = None ∧ dict_get "default_decision" raw = Some (JStr "ALLOW")) ∧
   (td_availability_impact tool = true → w = true) ∧
   (load = true → td_data_modification tool = false)) ∧
  (entry = None → stated_default raw = JStr "DENY" → decision = DENY).
Proof.
  intros Hl decision entry. subst decision.
  destruct (load_policy_listed _ _ env (td_tool_id tool) role Hl) as [Hd He]. fold entry in He.
  rewrite evaluate_decision base_decision_listed. cbv zeta.
  apply as_decision_allow in Hd as [Hda Hdd].
  assert (dict_get "default_decision" raw = Some (JStr "ALLOW") ↔ pc_default_decision c = ALLOW) as ->.
  { rewrite Hda. unfold stated_default. destruct (dict_get _ _); cbn; naive_solver. }
  assert ((entry = Some (JStr "ALLOW") ∨ entry = None ∧ pc_default_decision c = ALLOW) ↔
    default (pc_default_decision c) (listed c env (td_tool_id tool) role) = ALLOW) as ->.
  { destruct He as [[-> ->]|(v & d & -> & Hv%as_decision_allow & ->)]; cbn; naive_solver. }
  split.
  - destruct (default _ _), (td_availability_impact tool), w, load, (td_data_modification tool); cbn; naive_solver.
  - intros Hn Hs. destruct He as [[_ ->]|(v & d & Hv & _)]; [|by rewrite Hv in Hn]. cbn.
    by rewrite (Hdd Hs).
Qed.

Definition example_policy_raw : list (string * json) :=
  [("default_decision", JStr "DENY");
   ("environments", JObj [("production", JObj [("database.get_health",
      JObj [("DBA_L1", JStr "ALLOW")])])])].
Definition example_policy : PolicyConfig :=
  {| pc_default_decision := DENY;
     pc_table := [("production", [("database.get_health", [("DBA_L1", ALLOW)])])];
     pc_change_ticket_required := []; pc_dual_approval_required := [] |}.
Definition health_tool : ToolDefinition :=
  read_tool "database.get_health" "Overall instance/database health snapshot."
    INSTANCE_WIDE_SCOPE 100.

Lemma policy_fails_closed_witness :
  pe_decision (evaluate_in_window example_policy PRODUCTION health_tool DBA_L2 None false true)
    = DENY ∧
  pe_decision (evaluate_in_window example_policy PRODUCTION health_tool DBA_L1 None false true)
    = ALLOW.
Proof.
  split.
  - apply (proj2 (policy_fails_closed example_policy_raw example_policy PRODUCTION health_tool
                    DBA_L2 None false true eq_refl)); reflexivity.
  - apply (proj1 (policy_fails_closed example_policy_raw example_policy PRODUCTION health_tool
                    DBA_L1 None false true eq_refl)).
    split; [by left|done].
Defined.

(** a document that states ALLOW as its default allows what it does not list *)
Theorem stated_allow_opens_the_table env tool role ch :
  ∃ c, load_policy [("default_decision", JStr "ALLOW")] = Some c ∧
    pe_decision (evaluate_in_window c env tool role ch false true) = ALLOW ∧
    pe_reasons (evaluate_in_window c env tool role ch false true) =
      "no_policy_entry_fail_closed" ::
      (if td_availability_impact tool then ["inside_maintenance_window"] else []).
Proof.
  eexists. split; [reflexivity|]. rewrite evaluate_decision base_decision_listed. cbn.
  rewrite andb_false_r. split; [done|]. unfold evaluate_in_window. cbn.
  by destruct (td_availability_impact tool).
Qed.

(** What the policy adds to its table: the decision is the table's except
    that ALLOW is escalated to REQUIRES_APPROVAL for an availability-impacting
    tool outside the window or a modifying tool under critical load; dual
    approval is required when the tool or the configuration says so, and a DENY
    stays a DENY whatever the window, the load or the change ticket. *)
Theorem policy_escalation_only raw_offset c env tool role ctx ch load now ev :
  policy_evaluate raw_offset c env tool role ctx ch load now = Ok ev →
  let base := (base_decision c env (td_tool_id tool) role).1 in
  (pe_decision ev = base ∨ (base = ALLOW ∧ pe_decision ev = REQUIRES_APPROVAL)) ∧
  (base = DENY → pe_decision ev = DENY) ∧
  (pe_decision ev = ALLOW → td_availability_impact tool = true →
     is_within_maintenance_window raw_offset (tc_maintenance_window ctx) now = Ok true) ∧
  (td_requires_dual_approval tool = true → pe_requires_dual_approval ev = true).
Proof.
  unfold policy_evaluate.
  destruct (is_within_maintenance_window _ _ _) as [w|] eqn:E; [|done].
  intros [= <-]. cbn zeta. rewrite evaluate_decision. cbn zeta.
  destruct (base_decision c env (td_tool_id tool) role) as [d rs] eqn:Eb. cbn [fst].
  assert (pe_requires_dual_approval (evaluate_in_window c env tool role ch load w) =
    td_requires_dual_approval tool || mem (td_tool_id tool) (pc_dual_approval_required c)) as ->.
  { unfold evaluate_in_window. rewrite Eb.
    repeat (match goal with |- context [if ?b then _ else _] => destruct b end; try reflexivity). }
  destruct d, (td_availability_impact tool), w, load, (td_data_modification tool),
    (td_requires_dual_approval tool); cbn; naive_solver.
Qed.

Definition plain_ctx (s : ServerEntry) (db : string) : TargetContext :=
  {| tc_target := mk_target (se_environment s) (Some (se_id s)) (Some db); tc_server := s;
     tc_database := db; tc_criticality := se_criticality s; tc_classification := "internal";
     tc_allowed_roles := se_allowed_roles s; tc_discovered_database := None |}.

Definition health_eval : PolicyEvaluation :=
  evaluate_in_window example_policy DEVELOPMENT health_tool DBA_L1 None false true.

Lemma policy_escalation_only_witness :
  policy_evaluate (λ _ _, None) example_policy DEVELOPMENT health_tool DBA_L1
    (plain_ctx dev_1 "db") None false 0 = Ok health_eval ∧ pe_decision health_eval = DENY.
Proof.
  split; [reflexivity|].
  apply (policy_escalation_only (λ _ _, None) example_policy DEVELOPMENT health_tool DBA_L1
           (plain_ctx dev_1 "db") None false 0 health_eval eq_refl). reflexivity.
Defined.

(* ------------------------------------------------------------------ *)
(** ** Risk *)

Lemma risk_order_floor (f l : RiskLevel) :
  (risk_order f ≤ risk_order (if (risk_order l <? risk_order f)%Z then f else l))%Z.
Proof. destruct f, l; cbn; lia. Qed.

(** The risk engine's score stays within 0..100, the level is never below
    the floor the tool declares, equals the level of the score unless the floor
    raises it, and the assessment never lowers when the target is production
    rather than another environment or the load is critical. *)
Theorem risk_bounds_and_floor tool env ctx objs sess load :
  let a := assess tool env ctx objs sess load in
  (0 ≤ ra_score a ≤ 100)%Z ∧
  (risk_order (td_risk_level tool) ≤ risk_order (ra_risk_level a))%Z ∧
  (ra_risk_level a = level_of_score (ra_score a) ∨ ra_risk_level a = td_risk_level tool) ∧
  (ra_score a ≤ ra_score (assess tool PRODUCTION ctx objs sess true))%Z ∧
  (risk_order (ra_risk_level a) ≤
     risk_order (ra_risk_level (assess tool PRODUCTION ctx objs sess true)))%Z.
Proof.
  cbn zeta. unfold assess; cbn [ra_score ra_risk_level].
  set (s := raw_score tool env (tc_criticality ctx) sess load).
  set (s' := raw_score tool PRODUCTION (tc_criticality ctx) sess true).
  assert (s ≤ s')%Z as Hle.
  { subst s s'. unfold raw_score.
    rewrite (bool_decide_true (PRODUCTION = PRODUCTION)) //.
    destruct (bool_decide (env = PRODUCTION)), load,
      (td_data_modification tool || td_availability_impact tool); cbn [andb]; lia. }
  assert (risk_order (level_of_score (Z.max 0 (Z.min 100 s))) ≤
          risk_order (level_of_score (Z.max 0 (Z.min 100 s'))))%Z as Hlv.
  { unfold level_of_score. repeat (case_match; cbn; try lia). }
  split_and!; try lia.
  - apply risk_order_floor.
  - case_match; auto.
  - repeat case_match; try lia.
Qed.

(** Every read-only diagnostic of the catalog is assessed LOW, in every
    environment and for every criticality, with a score of at most 25 even under
    critical load and with many sessions: production alone never makes a read
    risky. *)
Theorem read_tools_are_low_risk settings tool env ctx objs sess load :
  tool ∈ build_tool_catalog settings → td_operation_type tool = READ →
  ra_risk_level (assess tool env ctx objs sess load) = LOW ∧
  (10 ≤ ra_score (assess tool env ctx objs sess load) ≤ 25)%Z.
Proof.
  intros Hin Hr.
  assert (td_data_modification tool = false ∧ td_availability_impact tool = false ∧
          td_reversible tool = true ∧ td_risk_level tool = LOW) as (Hm & Ha & Hrev & Hlow).
  { assert (forallb (λ t, negb (bool_decide (td_operation_type t = READ)) ||
      (negb (td_data_modification t) && negb (td_availability_impact t) && td_reversible t &&
       bool_decide (td_risk_level t = LOW))) (build_tool_catalog settings) = true) as Hall
      by (destruct settings; vm_compute; reflexivity).
    rewrite forallb_forall in Hall. specialize (Hall tool (proj1 (list_elem_of_In _ _) Hin)).
    rewrite bool_decide_true // in Hall. cbn in Hall.
    rewrite !andb_true_iff !negb_true_iff bool_decide_eq_true in Hall. naive_solver. }
  unfold assess; cbn [ra_score ra_risk_level]. unfold raw_score.
  rewrite Hm Ha Hrev Hlow andb_false_r. cbn.
  destruct (sess >? 10)%Z, load; cbn; split; (reflexivity || lia).
Qed.

Lemma read_tools_are_low_risk_witness :
  ra_risk_level (assess health_tool PRODUCTION (plain_ctx dev_1 "db") 1 50 true) = LOW ∧
  (10 ≤ ra_score (assess health_tool PRODUCTION (plain_ctx dev_1 "db") 1 50 true) ≤ 25)%Z.
Proof.
  apply (read_tools_are_low_risk (Build_ToolFlags false false false false false false false)).
  - left.
  - reflexivity.
Defined.
