(* ===== verification/RateLimit.v ===== *)
(** Rate limiting: [common/rate_limit_backend.py] (the interface and its two
    backends) and [gateway/domain/rate_limiter.py], proved against the
    interface.  Instants and windows are in microseconds. *)
From S2P Require Import Prelude Json Models ToolCatalog Servers Policy.

#[local] Arguments Z.leb : simpl never.
#[local] Arguments Z.ltb : simpl never.

(* ------------------------------------------------------------------ *)
(** ** The interface *)

(** [await backend.increment_and_check(key, limit, window_seconds)] at [now] *)
Class RateLimitBackend (B : Type) : Type :=
  increment_and_check : Z → string → Z → Z → B → bool * B.

(** the answers to a series of calls on one key *)
Fixpoint run_calls `{RateLimitBackend B} (key : string) (limit window : Z) (times : list Z)
    (b : B) : list bool :=
  match times with
  | [] => []
  | t :: ts =>
      let '(ok, b) := increment_and_check t key limit window b in
      ok :: run_calls key limit window ts b
  end.

(* ------------------------------------------------------------------ *)
(** ** InMemoryRateLimitBackend *)

(** [self._buckets]: key -> (count, window_start) *)
Record InMemoryBuckets : Type := { im_buckets : gmap string (Z * Z) }.

Definition in_memory_increment (now : Z) (key : string) (limit window : Z) (b : InMemoryBuckets)
    : bool * InMemoryBuckets :=
  let '(count, window_start) := default (0, now)%Z (im_buckets b !! key) in
  let '(count, window_start) :=
    if (window <=? now - window_start)%Z then (0, now)%Z else (count, window_start) in
  let count := (count + 1)%Z in
  ((count <=? limit)%Z, {| im_buckets := <[key := (count, window_start)]> (im_buckets b) |}).

#[export] Instance in_memory_backend : RateLimitBackend InMemoryBuckets := in_memory_increment.

(* ------------------------------------------------------------------ *)
(** ** RedisRateLimitBackend *)

(** The Redis commands the backend pipelines, with the documented behaviour it
    relies on: INCR adds one to the live value of a key (a missing or expired
    key counts as 0) and keeps its expiry; EXPIRE sets the expiry to now + ttl,
    replacing any earlier one; an expired key does not exist. *)
Class RedisOps (R : Type) : Type := {
  r_incr : Z → string → R → Z * R;
  r_expire : Z → string → Z → R → R;
  (** the live value of a key at an instant *)
  r_live : Z → string → R → option Z;
  r_incr_value : ∀ now k r, (r_incr now k r).1 = (1 + default 0 (r_live now k r))%Z;
  r_incr_live : ∀ now k r, r_live now k (r_incr now k r).2 = Some (r_incr now k r).1;
  r_expire_live : ∀ now k ttl r t v, r_live now k r = Some v → (now ≤ t)%Z → (0 < ttl)%Z →
    r_live t k (r_expire now k ttl r) = if (t <? now + ttl)%Z then Some v else None
}.

Definition redis_increment `{RedisOps R} (now : Z) (key : string) (limit window : Z) (r : R)
    : bool * R :=
  let '(count, r) := r_incr now key r in
  let r := r_expire now key window r in
  ((count <=? limit)%Z, r).

#[export] Instance redis_backend `{RedisOps R} : RateLimitBackend R := redis_increment.

(** a store with those commands, for evaluation *)
Definition redis_live (now : Z) (k : string) (r : gmap string (Z * option Z)) : option Z :=
  match r !! k with
  | Some (v, Some d) => if (now <? d)%Z then Some v else None
  | Some (v, None) => Some v
  | None => None
  end.
Definition redis_deadline (now : Z) (k : string) (r : gmap string (Z * option Z)) : option Z :=
  match r !! k with
  | Some (_, Some d) => if (now <? d)%Z then Some d else None
  | _ => None
  end.

#[export] Program Instance redis_store : RedisOps (gmap string (Z * option Z)) := {|
  r_incr now k r :=
    let v := (1 + default 0 (redis_live now k r))%Z in (v, <[k := (v, redis_deadline now k r)]> r);
  r_expire now k ttl r :=
    match redis_live now k r with
    | Some v => <[k := (v, Some (now + ttl)%Z)]> r
    | None => r
    end;
  r_live := redis_live
|}.
Next Obligation. done. Qed.
Next Obligation.
  intros now k r. cbn. unfold redis_live at 1, redis_deadline. rewrite lookup_insert_eq.
  destruct (r !! k) as [[v [d|]]|]; try done. destruct (Z.ltb_spec now d); [|done].
  case_match eqn:E; [done|lia].
Qed.
Next Obligation.
  intros now k ttl r t v Hv Ht Httl. cbn. rewrite Hv. unfold redis_live.
  by rewrite lookup_insert_eq.
Qed.

(* ------------------------------------------------------------------ *)
(** ** RateLimiter *)

Record TierLimits : Type := {
  per_user_per_minute : Z;
  per_conversation_per_minute : Z;
  per_tool_per_minute : Z;
  per_database_per_minute : Z;
  per_environment_per_minute : Z
}.

(** [RateLimiter._tier_for] *)
Definition tier_for (operation_type : OperationType) (requires_approval : bool) : string :=
  if bool_decide (operation_type = PRIVILEGED) || requires_approval then "critical"
  else if bool_decide (operation_type = WRITE) then "write" else "read".

(** the five (key, limit) pairs of [RateLimiter.check] *)
Definition rate_checks (tier : string) (limits : TierLimits)
    (user_subject_id conversation_id tool_id database_id environment : string)
    : list (string * Z) :=
  [("rl:" +:+ tier +:+ ":user:" +:+ user_subject_id, per_user_per_minute limits);
   ("rl:" +:+ tier +:+ ":conv:" +:+ conversation_id, per_conversation_per_minute limits);
   ("rl:" +:+ tier +:+ ":tool:" +:+ tool_id, per_tool_per_minute limits);
   ("rl:" +:+ tier +:+ ":db:" +:+ database_id, per_database_per_minute limits);
   ("rl:" +:+ tier +:+ ":env:" +:+ environment, per_environment_per_minute limits)].

(** [window_seconds: int = 60] *)
Definition WINDOW : Z := 60 * US.

(** the loop of [RateLimiter.check]: it stops at the first refused key *)
Fixpoint check_keys `{RateLimitBackend B} (now : Z) (checks : list (string * Z))
    : M B exn unit :=
  match checks with
  | [] => mret tt
  | (key, limit) :: rest => λ b,
      let '(ok, b) := increment_and_check now key limit WINDOW b in
      if ok then check_keys now rest b
      else (Err (numi_error RATE_LIMITED
              "Rate limit exceeded — please slow down and try again shortly."), b)
  end.

(** [RateLimiter.check]; [limits] is [raw["rate_limits"]] *)
Definition rate_limiter_check `{RateLimitBackend B} (limits : list (string * TierLimits)) (now : Z)
    (operation_type : OperationType) (requires_approval : bool)
    (user_subject_id conversation_id tool_id database_id environment : string) : M B exn unit :=
  let tier := tier_for operation_type requires_approval in
  match dict_get tier limits with
  | None => raise (PyError "KeyError" tier)
  | Some l => check_keys now (rate_checks tier l user_subject_id conversation_id tool_id
                                database_id environment)
  end.

(* ------------------------------------------------------------------ *)
(** ** The in-memory window *)

Lemma in_memory_inside now key limit window b c ws :
  im_buckets b !! key = Some (c, ws) → (now - ws < window)%Z →
  in_memory_increment now key limit window b =
    ((c + 1 <=? limit)%Z, {| im_buckets := <[key := (c + 1, ws)%Z]> (im_buckets b) |}).
Proof.
  intros Hb Ht. unfold in_memory_increment. rewrite Hb. cbn.
  destruct (Z.leb_spec window (now - ws)); [lia|done].
Qed.

Lemma in_memory_window key limit window later ws ts : (1 ≤ limit)%Z → ∀ b c,
  im_buckets b !! key = Some (c, ws) → Forall (λ t, t - ws < window)%Z ts →
  (window ≤ later - ws)%Z →
  run_calls key limit window (ts ++ [later]) b =
    imap (λ i _, (c + Z.of_nat i + 1 <=? limit)%Z) ts ++ [true].
Proof.
  intros Hl. induction ts as [|t ts IH]; intros b c Hb Ht Hlater.
  - cbn. unfold increment_and_check, in_memory_backend, in_memory_increment. rewrite Hb. cbn.
    destruct (Z.leb_spec window (later - ws)); [|lia]. cbn.
    destruct (Z.leb_spec (0 + 1) limit); [done|lia].
  - apply Forall_cons in Ht as [Ht Hts]. cbn [run_calls app imap].
    unfold increment_and_check, in_memory_backend.
    rewrite (in_memory_inside _ _ _ _ _ _ _ Hb Ht).
    change (@run_calls InMemoryBuckets in_memory_increment) with
      (@run_calls InMemoryBuckets in_memory_backend).
    rewrite (IH _ (c + 1)%Z); [by rewrite /= lookup_insert_eq|done|done|].
    cbn [app]. f_equal; [f_equal; lia|]. f_equal. apply imap_ext. intros i x _. cbn. f_equal. lia.
Qed.

(** The in-memory backend is an exact fixed-window counter: of the calls
    made on an unused key within one window of the first, precisely the first
    [limit] are accepted, and the first call after the window has passed is
    accepted again when the limit is positive. *)
Theorem fixed_window_exact key limit window t0 ts later b :
  im_buckets b !! key = None → (0 < window)%Z → (1 ≤ limit)%Z →
  Forall (λ t, t - t0 < window)%Z ts → (window ≤ later - t0)%Z →
  run_calls key limit window (t0 :: ts ++ [later]) b =
    imap (λ i _, (Z.of_nat i <? limit)%Z) (t0 :: ts) ++ [true].
Proof.
  intros Hb Hw Hl Hts Hlater. cbn [run_calls imap app].
  unfold increment_and_check, in_memory_backend, in_memory_increment at 1. rewrite Hb. cbn.
  rewrite Z.sub_diag. destruct (Z.leb_spec window 0); [lia|].
  change (@run_calls InMemoryBuckets in_memory_increment) with
    (@run_calls InMemoryBuckets in_memory_backend).
  rewrite (in_memory_window _ _ _ _ t0 _ Hl _ 1%Z); [by rewrite /= lookup_insert_eq|done|done|].
  f_equal; [destruct (Z.leb_spec (0 + 1) limit), (Z.ltb_spec (Z.of_nat 0) limit); (done || lia)|].
  f_equal. apply imap_ext. intros i x _. cbn.
  destruct (Z.leb_spec (1 + Z.of_nat i + 1) limit), (Z.ltb_spec (Z.of_nat (S i)) limit); (done || lia).
Qed.

Lemma fixed_window_exact_witness :
  run_calls "k" 2 60 (0 :: [10; 59; 20] ++ [60])%Z {| im_buckets := ∅ |}
    = [true; true; false; false; true].
Proof.
  refine (fixed_window_exact "k" 2 60 0 [10; 59; 20]%Z 60 {| im_buckets := ∅ |} _ _ _ _ _);
    try lia; [reflexivity|].
  repeat constructor.
Defined.

(* ------------------------------------------------------------------ *)
(** ** The Redis window *)

Lemma redis_increment_live `{RedisOps R} now key limit window r t :
  (0 < window)%Z → (now ≤ t < now + window)%Z →
  r_live t key (redis_increment now key limit window r).2 =
    Some (1 + default 0 (r_live now key r))%Z.
Proof.
  intros Hw Ht. unfold redis_increment.
  pose proof (r_incr_live now key r) as Hl. pose proof (r_incr_value now key r) as Hv.
  destruct (r_incr now key r) as [n r'] eqn:E. cbn in Hl, Hv |- *.
  rewrite (r_expire_live now key window r' t n Hl); [lia|lia|].
  destruct (Z.ltb_spec t (now + window)); [by rewrite Hv|lia].
Qed.

(** each call comes less than a window after the one before it *)
Fixpoint steady (window t : Z) (ts : list Z) : Prop :=
  match ts with
  | [] => True
  | t' :: ts => (t ≤ t' < t + window)%Z ∧ steady window t' ts
  end.

(** A finding about [RedisRateLimitBackend]: it is documented as a fixed
    window, but EXPIRE is renewed by every call, so once the limit has been
    reached, traffic that keeps arriving less than a window apart is refused
    for ever, while the in-memory backend accepts again after one window. *)
Theorem redis_steady_traffic_never_recovers `{RedisOps R} key limit window ts : ∀ t0 r n,
  (0 < window)%Z → r_live t0 key r = Some n → (limit ≤ n)%Z →
  steady window t0 (t0 :: ts) →
  run_calls key limit window (t0 :: ts) r = replicate (length (t0 :: ts)) false.
Proof.
  induction ts as [|t ts IH]; intros t0 r n Hw Hl Hn Hs; cbn [run_calls length replicate];
    unfold increment_and_check, redis_backend;
    destruct (redis_increment t0 key limit window r) as [ok r'] eqn:E;
    assert (ok = false) as ->.
  1,3: unfold redis_increment in E; pose proof (r_incr_value t0 key r) as Hv; rewrite Hl in Hv;
    destruct (r_incr t0 key r) as [m r'']; cbn in Hv, E; injection E as <- _; cbn;
    destruct (Z.leb_spec m limit); (lia || done).
  - done.
  - f_equal. destruct Hs as [_ [Ht Hs]].
    pose proof (redis_increment_live t0 key limit window r t Hw Ht) as Hl'.
    rewrite E Hl in Hl'. cbn in Hl'.
    apply (IH t r' _ Hw Hl'); [lia|]. split; [lia|done].
Qed.

Lemma redis_steady_traffic_never_recovers_witness :
  run_calls "k" 1 60 (1 :: [30; 80; 130; 180])%Z (<["k" := (1, Some 60)%Z]> ∅ : gmap _ _)
    = [false; false; false; false; false] ∧
  run_calls "k" 1 60 (0 :: [1; 30] ++ [80])%Z {| im_buckets := ∅ |} = [true; false; false; true].
Proof.
  split; [|reflexivity].
  apply (redis_steady_traffic_never_recovers "k" 1 60 [30; 80; 130; 180]%Z 1
           (<["k" := (1, Some 60)%Z]> ∅) 1%Z); cbn; try lia; reflexivity.
Defined.

(* ------------------------------------------------------------------ *)
(** ** The multi-key check *)

Lemma check_keys_result `{RateLimitBackend B} now checks b :
  match check_keys now checks b with
  | (Ok _, _) => True
  | (Err e, _) => exn_code e = Some RATE_LIMITED
  end.
Proof.
  revert b. induction checks as [|[k l] checks IH]; intros b; cbn; [done|].
  destruct (increment_and_check now k l WINDOW b) as [[] b']; [apply IH|done].
Qed.

(** [check_keys] on the in-memory backend leaves other keys alone *)
Lemma in_memory_other now k k' l w b : k ≠ k' →
  im_buckets (in_memory_increment now k l w b).2 !! k' = im_buckets b !! k'.
Proof.
  intros Hne. unfold in_memory_increment. destruct (default _ _) as [c ws].
  destruct (w <=? now - ws)%Z; cbn; by rewrite lookup_insert_ne.
Qed.

Lemma check_keys_counts now checks : ∀ b b',
  NoDup checks.*1 → check_keys now checks b = (Ok tt, b') →
  (∀ k, k ∉ checks.*1 → im_buckets b' !! k = im_buckets b !! k) ∧
  Forall (λ kl, ∃ c ws, im_buckets b' !! kl.1 = Some (c, ws) ∧ (c ≤ kl.2)%Z) checks.
Proof.
  induction checks as [|[k l] checks IH]; intros b b' Hnd; cbn [check_keys].
  - intros [= <-]. done.
  - cbn in Hnd. apply NoDup_cons in Hnd as [Hk Hnd].
    unfold increment_and_check, in_memory_backend.
    destruct (in_memory_increment now k l WINDOW b) as [ok b1] eqn:E. destruct ok; [|done].
    intros Hc. destruct (IH b1 b' Hnd Hc) as [Hsame Hall]. split.
    + intros k' Hk'. cbn in Hk'. apply not_elem_of_cons in Hk' as [Hne Hk'].
      rewrite (Hsame k' Hk'). change b1 with ((true, b1).2). rewrite -E.
      by apply in_memory_other.
    + constructor; [|done]. cbn [fst snd]. rewrite (Hsame k Hk).
      unfold in_memory_increment in E. destruct (default _ _) as [c ws].
      destruct (WINDOW <=? now - ws)%Z; injection E as Hle <-; cbn;
        rewrite lookup_insert_eq; do 2 eexists; (split; [reflexivity|lia]).
Qed.

Lemma app_inj_head (p s t : string) : p +:+ s = p +:+ t → s = t.
Proof. apply (inj (String.append p)). Qed.

Lemma rate_checks_nodup tier l u c t d e : NoDup (rate_checks tier l u c t d e).*1.
Proof.
  cbn. repeat constructor; rewrite ?list_elem_of_In; cbn; intros H;
    repeat (destruct H as [H|H]; [injection H as H; apply app_inj_head in H; discriminate H|]);
    done.
Qed.

(** A call passes the limiter only within all five budgets of its tier
    (user, conversation, tool, server, environment), which is the critical tier
    for a privileged tool or one needing approval; a refusal is RATE_LIMITED and
    nothing else, whatever the backend state. *)
Theorem rate_limiter_all_budgets limits now op appr u c t d e b l :
  dict_get (tier_for op appr) limits = Some l →
  match rate_limiter_check limits now op appr u c t d e b with
  | (Ok _, b') =>
      Forall (λ kl, ∃ n ws, im_buckets b' !! kl.1 = Some (n, ws) ∧ (n ≤ kl.2)%Z)
        (rate_checks (tier_for op appr) l u c t d e)
  | (Err x, _) => exn_code x = Some RATE_LIMITED
  end ∧ (op = PRIVILEGED ∨ appr = true → tier_for op appr = "critical").
Proof.
  intros Hl. split; [|intros [-> | ->]; [done|by destruct op]].
  unfold rate_limiter_check. rewrite Hl.
  pose proof (check_keys_result now (rate_checks (tier_for op appr) l u c t d e) b) as Hr.
  destruct (check_keys now _ b) as [[[]|x] b'] eqn:E; [|done].
  apply check_keys_counts in E as [_ ?]; [done|]. apply rate_checks_nodup.
Qed.

Definition example_limits : list (string * TierLimits) :=
  [("read", Build_TierLimits 100 60 200 300 1000); ("write", Build_TierLimits 10 10 20 20 50);
   ("critical", Build_TierLimits 2 2 3 3 5)].

Lemma rate_limiter_all_budgets_witness :
  dict_get (tier_for WRITE true) example_limits = Some (Build_TierLimits 2 2 3 3 5) ∧
  tier_for WRITE true = "critical".
Proof.
  split; [reflexivity|].
  apply (rate_limiter_all_budgets example_limits 0 WRITE true "u" "c" "t" "d" "e"
           {| im_buckets := ∅ |} (Build_TierLimits 2 2 3 3 5) eq_refl).
  by right.
Defined.

(** A finding about the tiers: the [write] budget of the configuration
    never applies, because every WRITE tool of the catalog requires approval
    and is therefore counted against the critical tier. *)
Theorem write_tier_unreachable settings t :
  t ∈ build_tool_catalog settings →
  tier_for (td_operation_type t) (td_requires_approval t) ≠ "write".
Proof.
  intros Hc%catalog_contract. unfold tool_contract in Hc.
  apply andb_true_iff in Hc as [_ Hc]. destruct (td_operation_type t).
  - apply andb_true_iff in Hc as [[_ Hn]%andb_true_iff _]. by destruct (td_requires_approval t).
  - apply andb_true_iff in Hc as [[-> _]%andb_true_iff _]. done.
  - done.
Qed.

Lemma write_tier_unreachable_witness : tier_for READ false ≠ "write".
Proof.
  apply (write_tier_unreachable (Build_ToolFlags false false false false false false false)
           health_tool). left.
Defined.
