(* ===== verification/Approval.v ===== *)
(** The approval engine: [gateway/domain/approval.py].  The control database is
    a map from approval ids to records and a log of approval events; every
    operation is a state-and-error computation on it.  [sha256] is the digest
    of [hashlib]; identifiers and the clock are arguments. *)
From S2P Require Import Prelude Json Models ToolCatalog Servers Policy.

Inductive ApprovalStatus : Type :=
| AS_PENDING | AS_AWAITING_SECOND_APPROVAL | AS_APPROVED | AS_REJECTED | AS_EXPIRED | AS_EXECUTED.

#[export] Instance ApprovalStatus_eq_dec : EqDecision ApprovalStatus.
Proof. solve_decision. Defined.

Definition approval_status_value (s : ApprovalStatus) : string :=
  match s with
  | AS_PENDING => "PENDING"
  | AS_AWAITING_SECOND_APPROVAL => "AWAITING_SECOND_APPROVAL"
  | AS_APPROVED => "APPROVED"
  | AS_REJECTED => "REJECTED"
  | AS_EXPIRED => "EXPIRED"
  | AS_EXECUTED => "EXECUTED"
  end.

Inductive ApprovalDecision : Type := APPROVE | REJECT.

#[export] Instance ApprovalDecision_eq_dec : EqDecision ApprovalDecision.
Proof. solve_decision. Defined.

(** [ApprovalRecord] *)
Record ApprovalRecord : Type := {
  ar_approval_id : string;
  ar_request_id : string;
  ar_actor_subject_id : string;
  ar_tool_id : string;
  ar_tool_version : string;
  ar_target : DatabaseTarget;
  ar_normalized_arguments : list (string * json);
  ar_risk : RiskAssessment;
  ar_policy : list (string * string);
  ar_action_hash : string;
  ar_requires_dual_approval : bool;
  ar_status : ApprovalStatus;
  ar_approver_1_subject_id : option string;
  ar_approver_2_subject_id : option string;
  ar_created_at : Z;
  ar_expires_at : Z;
  ar_decided_at : option Z
}.

(** [ApprovalEventRecord] *)
Record ApprovalEvent : Type := {
  ae_approval_id : string;
  ae_event_type : string;
  ae_actor_subject_id : string;
  ae_created_at : Z
}.

Record ApprovalDb : Type := {
  db_approvals : gmap string ApprovalRecord;
  db_approval_events : list ApprovalEvent
}.

Definition with_status (r : ApprovalRecord) (s : ApprovalStatus) : ApprovalRecord :=
  {| ar_approval_id := ar_approval_id r; ar_request_id := ar_request_id r;
     ar_actor_subject_id := ar_actor_subject_id r; ar_tool_id := ar_tool_id r;
     ar_tool_version := ar_tool_version r; ar_target := ar_target r;
     ar_normalized_arguments := ar_normalized_arguments r; ar_risk := ar_risk r;
     ar_policy := ar_policy r; ar_action_hash := ar_action_hash r;
     ar_requires_dual_approval := ar_requires_dual_approval r; ar_status := s;
     ar_approver_1_subject_id := ar_approver_1_subject_id r;
     ar_approver_2_subject_id := ar_approver_2_subject_id r;
     ar_created_at := ar_created_at r; ar_expires_at := ar_expires_at r;
     ar_decided_at := ar_decided_at r |}.

Definition with_decision (r : ApprovalRecord) (s : ApprovalStatus) (a1 a2 : option string)
    (decided_at : option Z) : ApprovalRecord :=
  {| ar_approval_id := ar_approval_id r; ar_request_id := ar_request_id r;
     ar_actor_subject_id := ar_actor_subject_id r; ar_tool_id := ar_tool_id r;
     ar_tool_version := ar_tool_version r; ar_target := ar_target r;
     ar_normalized_arguments := ar_normalized_arguments r; ar_risk := ar_risk r;
     ar_policy := ar_policy r; ar_action_hash := ar_action_hash r;
     ar_requires_dual_approval := ar_requires_dual_approval r; ar_status := s;
     ar_approver_1_subject_id := a1; ar_approver_2_subject_id := a2;
     ar_created_at := ar_created_at r; ar_expires_at := ar_expires_at r;
     ar_decided_at := decided_at |}.

(** [record.field = ...] followed by [session.add(event); flush()] *)
Definition save (r : ApprovalRecord) (event_type actor : string) (now : Z)
    : M ApprovalDb exn unit :=
  modify (λ db, {|
    db_approvals := <[ar_approval_id r := r]> (db_approvals db);
    db_approval_events := db_approval_events db ++
      [{| ae_approval_id := ar_approval_id r; ae_event_type := event_type;
          ae_actor_subject_id := actor; ae_created_at := now |}] |}).

Section engine.
Context (sha256 : string → string).

(** [compute_action_hash]: the canonical JSON of the eight bound fields *)
Definition action_json (actor_subject_id tool_id tool_version : string) (target : json)
    (normalized_arguments : list (string * json)) (environment database_id risk_level : string)
    : json :=
  JObj [("actor", JStr actor_subject_id); ("tool_id", JStr tool_id);
        ("tool_version", JStr tool_version); ("target", target);
        ("arguments", JObj normalized_arguments); ("environment", JStr environment);
        ("database_id", JStr database_id); ("risk_level", JStr risk_level)].

Definition compute_action_hash (actor_subject_id tool_id tool_version : string) (target : json)
    (normalized_arguments : list (string * json)) (environment database_id risk_level : string)
    : string :=
  sha256 (json_dumps (action_json actor_subject_id tool_id tool_version target
                        normalized_arguments environment database_id risk_level)).

Record ApprovalContext : Type := {
  ac_request_id : string;
  ac_actor : VerifiedIdentity;
  ac_tool : ToolDefinition;
  ac_target : DatabaseTarget;
  ac_normalized_arguments : list (string * json);
  ac_environment : string;
  ac_database_id : string;
  ac_risk : RiskAssessment
}.

Definition context_json (ctx : ApprovalContext) : json :=
  action_json (vi_subject_id (ac_actor ctx)) (td_tool_id (ac_tool ctx)) (td_version (ac_tool ctx))
    (target_dump (ac_target ctx)) (ac_normalized_arguments ctx) (ac_environment ctx)
    (ac_database_id ctx) (risk_value (ra_risk_level (ac_risk ctx))).

(** [ApprovalContext.action_hash] *)
Definition action_hash (ctx : ApprovalContext) : string :=
  compute_action_hash (vi_subject_id (ac_actor ctx)) (td_tool_id (ac_tool ctx))
    (td_version (ac_tool ctx)) (target_dump (ac_target ctx)) (ac_normalized_arguments ctx)
    (ac_environment ctx) (ac_database_id ctx) (risk_value (ra_risk_level (ac_risk ctx))).

Definition DEFAULT_TTL_SECONDS : Z := 600.

(** [ApprovalEngine.create]; [ulid] is the fresh identifier drawn by [new_id] *)
Definition approval_create (ttl : Z) (ctx : ApprovalContext) (requires_dual_approval : bool)
    (now : Z) (ulid : string) : M ApprovalDb exn ApprovalRecord :=
  let record := {|
    ar_approval_id := new_id "appr" ulid; ar_request_id := ac_request_id ctx;
    ar_actor_subject_id := vi_subject_id (ac_actor ctx);
    ar_tool_id := td_tool_id (ac_tool ctx); ar_tool_version := td_version (ac_tool ctx);
    ar_target := ac_target ctx; ar_normalized_arguments := ac_normalized_arguments ctx;
    ar_risk := ac_risk ctx;
    ar_policy := [("database_id", ac_database_id ctx); ("environment", ac_environment ctx)];
    ar_action_hash := action_hash ctx; ar_requires_dual_approval := requires_dual_approval;
    ar_status := AS_PENDING; ar_approver_1_subject_id := None;
    ar_approver_2_subject_id := None; ar_created_at := now;
    ar_expires_at := (now + ttl * US)%Z; ar_decided_at := None |} in
  save record "CREATED" (vi_subject_id (ac_actor ctx)) now ≫= λ _, mret record.

(** [ApprovalEngine._get] *)
Definition approval_get (approval_id : string) : M ApprovalDb exn ApprovalRecord := λ db,
  match db_approvals db !! approval_id with
  | Some r => (Ok r, db)
  | None => (Err (numi_error APPROVAL_INVALID "Approval not found."), db)
  end.

(** [ApprovalEngine._expire_if_needed], returning the record as it is left *)
Definition expire_if_needed (record : ApprovalRecord) (now : Z)
    : M ApprovalDb exn ApprovalRecord :=
  if mem (ar_status record) [AS_PENDING; AS_AWAITING_SECOND_APPROVAL; AS_APPROVED]
     && (ar_expires_at record <? now)%Z
  then
    let record := with_status record AS_EXPIRED in
    save record "EXPIRED" "" now ≫= λ _, mret record
  else mret record.

(** the rest of [ApprovalEngine.decide] once the record is loaded and expired *)
Definition decide_loaded (record : ApprovalRecord) (approver : VerifiedIdentity)
    (decision : ApprovalDecision) (now : Z) : M ApprovalDb exn ApprovalRecord :=
  let who := vi_subject_id approver in
  if bool_decide (ar_status record = AS_EXPIRED) then
    raise (numi_error APPROVAL_EXPIRED "This approval request has expired.")
  else if mem (ar_status record) [AS_APPROVED; AS_REJECTED] then
    raise (numi_error APPROVAL_ALREADY_DECIDED ("This approval was already "
            +:+ str_lower (approval_status_value (ar_status record)) +:+ "."))
  else if bool_decide (decision = REJECT) then
    let record := with_decision record AS_REJECTED (ar_approver_1_subject_id record)
                    (ar_approver_2_subject_id record) (Some now) in
    save record "REJECTED" who now ≫= λ _, mret record
  else if ar_requires_dual_approval record then
    if bool_decide (who = ar_actor_subject_id record) then
      raise (numi_error SEPARATION_OF_DUTIES_VIOLATION
              "The requester cannot approve their own critical action.")
    else
      match ar_approver_1_subject_id record with
      | None =>
          let record := with_decision record AS_AWAITING_SECOND_APPROVAL (Some who)
                          (ar_approver_2_subject_id record) (ar_decided_at record) in
          save record "APPROVER_1_APPROVED" who now ≫= λ _, mret record
      | Some first =>
          if bool_decide (first = who) then
            raise (numi_error SEPARATION_OF_DUTIES_VIOLATION
                    "A second, different approver is required for this critical action.")
          else
            let record := with_decision record AS_APPROVED (Some first) (Some who) (Some now) in
            save record "APPROVER_2_APPROVED" who now ≫= λ _, mret record
      end
  else
    let record := with_decision record AS_APPROVED (Some who)
                    (ar_approver_2_subject_id record) (Some now) in
    save record "APPROVED" who now ≫= λ _, mret record.

(** [ApprovalEngine.decide] *)
Definition approval_decide (approval_id : string) (approver : VerifiedIdentity)
    (decision : ApprovalDecision) (now : Z) : M ApprovalDb exn ApprovalRecord :=
  record ← approval_get approval_id;
  record ← expire_if_needed record now;
  decide_loaded record approver decision now.

(** [ApprovalEngine.verify_for_execution] *)
Definition verify_for_execution (approval_id expected_action_hash : string) (now : Z)
    : M ApprovalDb exn ApprovalRecord :=
  record ← approval_get approval_id;
  record ← expire_if_needed record now;
  if bool_decide (ar_status record = AS_EXPIRED) then
    raise (numi_error APPROVAL_EXPIRED "This approval request has expired.")
  else if mem (ar_status record) [AS_PENDING; AS_AWAITING_SECOND_APPROVAL] then
    raise (numi_error APPROVAL_REQUIRED "This action has not yet been fully approved.")
  else if bool_decide (ar_status record = AS_REJECTED) then
    raise (numi_error APPROVAL_INVALID "This action was rejected.")
  else if bool_decide (ar_status record = AS_EXECUTED) then
    raise (numi_error APPROVAL_INVALID
      "This approval has already been used to execute an action and cannot be reused.")
  else if negb (bool_decide (ar_action_hash record = expected_action_hash)) then
    raise (numi_error APPROVAL_MISMATCH
      "The action being executed does not match what was approved.")
  else mret record.

(** [ApprovalEngine.mark_executed] *)
Definition mark_executed (approval_id : string) (now : Z) : M ApprovalDb exn unit :=
  record ← approval_get approval_id;
  save (with_status record AS_EXECUTED) "EXECUTED" "" now.
End engine.

(* ------------------------------------------------------------------ *)
(** ** The operations on one record *)

Definition is_open (s : ApprovalStatus) : bool :=
  mem s [AS_PENDING; AS_AWAITING_SECOND_APPROVAL; AS_APPROVED].

(** the record as [_expire_if_needed] leaves it *)
Definition settle (r : ApprovalRecord) (now : Z) : ApprovalRecord :=
  if is_open (ar_status r) && (ar_expires_at r <? now)%Z then with_status r AS_EXPIRED else r.

(** the record or the exception [decide_loaded] gives *)
Definition decide_pure (r : ApprovalRecord) (a : VerifiedIdentity) (d : ApprovalDecision)
    (now : Z) : res exn ApprovalRecord :=
  (decide_loaded r a d now {| db_approvals := ∅; db_approval_events := [] |}).1.

Lemma settle_id r now : ar_approval_id (settle r now) = ar_approval_id r.
Proof. unfold settle. by case_match. Qed.

Lemma expire_spec r now db : db_approvals db !! ar_approval_id r = Some r →
  ∃ ev, expire_if_needed r now db =
    (Ok (settle r now), {| db_approvals := <[ar_approval_id r := settle r now]> (db_approvals db);
                           db_approval_events := ev |}).
Proof.
  intros Hr. unfold expire_if_needed, settle, is_open. destruct (_ && _).
  - eexists. reflexivity.
  - exists (db_approval_events db). rewrite insert_id //. by destruct db.
Qed.

Lemma decide_loaded_spec r a d now db :
  match decide_pure r a d now with
  | Ok r' => ar_approval_id r' = ar_approval_id r ∧ ∃ ev, decide_loaded r a d now db =
      (Ok r', {| db_approvals := <[ar_approval_id r := r']> (db_approvals db);
                 db_approval_events := ev |})
  | Err e => decide_loaded r a d now db = (Err e, db)
  end.
Proof.
  unfold decide_pure, decide_loaded.
  destruct (bool_decide (ar_status r = AS_EXPIRED)); [done|].
  destruct (mem (ar_status r) _); [done|].
  destruct (bool_decide (d = REJECT)); [split; [done|by eexists]|].
  destruct (ar_requires_dual_approval r); [|split; [done|by eexists]].
  destruct (bool_decide (_ = ar_actor_subject_id r)); [done|].
  destruct (ar_approver_1_subject_id r); [|split; [done|by eexists]].
  destruct (bool_decide _); [done|split; [done|by eexists]].
Qed.

Lemma approval_get_spec id db r : db_approvals db !! id = Some r → approval_get id db = (Ok r, db).
Proof. unfold approval_get. by intros ->. Qed.

(** what [decide] does to the database *)
Lemma approval_decide_spec id a d now db r :
  db_approvals db !! id = Some r → ar_approval_id r = id →
  ∃ ev, approval_decide id a d now db =
    match decide_pure (settle r now) a d now with
    | Ok r' => (Ok r', {| db_approvals := <[id := r']> (db_approvals db);
                          db_approval_events := ev |})
    | Err e => (Err e, {| db_approvals := <[id := settle r now]> (db_approvals db);
                          db_approval_events := ev |})
    end.
Proof.
  intros Hr Hid. subst id. unfold approval_decide.
  rewrite (M_bind_ok _ _ _ _ _ (approval_get_spec _ _ _ Hr)).
  destruct (expire_spec r now db Hr) as [ev He]. rewrite (M_bind_ok _ _ _ _ _ He).
  pose proof (decide_loaded_spec (settle r now) a d now
    {| db_approvals := <[ar_approval_id r := settle r now]> (db_approvals db);
       db_approval_events := ev |}) as Hd.
  destruct (decide_pure (settle r now) a d now) as [r'|e].
  - destruct Hd as (_ & ev' & ->). rewrite settle_id. cbn. rewrite insert_insert_eq. eauto.
  - rewrite Hd. eauto.
Qed.

(** what [verify_for_execution] answers, by the status of the settled record *)
Definition verify_pure (r : ApprovalRecord) (hash : string) : res exn ApprovalRecord :=
  match ar_status r with
  | AS_EXPIRED => Err (numi_error APPROVAL_EXPIRED "This approval request has expired.")
  | AS_PENDING | AS_AWAITING_SECOND_APPROVAL =>
      Err (numi_error APPROVAL_REQUIRED "This action has not yet been fully approved.")
  | AS_REJECTED => Err (numi_error APPROVAL_INVALID "This action was rejected.")
  | AS_EXECUTED => Err (numi_error APPROVAL_INVALID
      "This approval has already been used to execute an action and cannot be reused.")
  | AS_APPROVED =>
      if bool_decide (ar_action_hash r = hash) then Ok r
      else Err (numi_error APPROVAL_MISMATCH
        "The action being executed does not match what was approved.")
  end.

Lemma verify_spec id h now db r :
  db_approvals db !! id = Some r → ar_approval_id r = id →
  ∃ ev, verify_for_execution id h now db =
    (verify_pure (settle r now) h, {| db_approvals := <[id := settle r now]> (db_approvals db);
                                      db_approval_events := ev |}).
Proof.
  intros Hr Hid. subst id. unfold verify_for_execution.
  rewrite (M_bind_ok _ _ _ _ _ (approval_get_spec _ _ _ Hr)).
  destruct (expire_spec r now db Hr) as [ev He]. rewrite (M_bind_ok _ _ _ _ _ He).
  exists ev. unfold verify_pure. destruct (ar_status (settle r now)) eqn:E; try reflexivity.
  destruct (bool_decide (ar_action_hash (settle r now) = h)); reflexivity.
Qed.

Lemma mark_spec id now db r :
  db_approvals db !! id = Some r → ar_approval_id r = id →
  ∃ ev, mark_executed id now db =
    (Ok tt, {| db_approvals := <[id := with_status r AS_EXECUTED]> (db_approvals db);
               db_approval_events := ev |}).
Proof.
  intros Hr Hid. subst id. unfold mark_executed.
  rewrite (M_bind_ok _ _ _ _ _ (approval_get_spec _ _ _ Hr)). eexists. reflexivity.
Qed.

Lemma settle_approved r now : ar_status (settle r now) = AS_APPROVED →
  settle r now = r ∧ ar_status r = AS_APPROVED ∧ (now ≤ ar_expires_at r)%Z.
Proof.
  unfold settle. destruct (is_open (ar_status r)) eqn:Eo; cbn.
  - destruct (Z.ltb_spec (ar_expires_at r) now); cbn; done.
  - intros Ha. rewrite Ha in Eo. done.
Qed.

Lemma verify_pure_ok r h r' : verify_pure r h = Ok r' →
  r' = r ∧ ar_status r = AS_APPROVED ∧ ar_action_hash r = h.
Proof. unfold verify_pure. repeat case_match; try done; case_bool_decide; naive_solver. Qed.

(* ------------------------------------------------------------------ *)
(** ** Grants *)

(** the approvals an action of this record needs have been given, by people
    who may give them *)
Definition granted (r : ApprovalRecord) : Prop :=
  if ar_requires_dual_approval r then
    ∃ a b, ar_approver_1_subject_id r = Some a ∧ ar_approver_2_subject_id r = Some b ∧
      a ≠ b ∧ a ≠ ar_actor_subject_id r ∧ b ≠ ar_actor_subject_id r
  else ∃ a, ar_approver_1_subject_id r = Some a.

(** the fields no operation changes *)
Definition same_action (r r' : ApprovalRecord) : Prop :=
  ar_approval_id r' = ar_approval_id r ∧ ar_actor_subject_id r' = ar_actor_subject_id r ∧
  ar_tool_id r' = ar_tool_id r ∧ ar_target r' = ar_target r ∧
  ar_normalized_arguments r' = ar_normalized_arguments r ∧
  ar_action_hash r' = ar_action_hash r ∧
  ar_requires_dual_approval r' = ar_requires_dual_approval r ∧
  ar_created_at r' = ar_created_at r ∧ ar_expires_at r' = ar_expires_at r.

#[export] Instance same_action_preorder : PreOrder same_action.
Proof. unfold same_action. split; [intros r|intros r s t]; naive_solver congruence. Qed.

Definition wf_record (r : ApprovalRecord) : Prop :=
  (ar_status r = AS_APPROVED ∨ ar_status r = AS_EXECUTED → granted r) ∧
  (ar_requires_dual_approval r = true →
     ∀ a, ar_approver_1_subject_id r = Some a → a ≠ ar_actor_subject_id r).

Lemma settle_same r now : same_action r (settle r now).
Proof. unfold settle. case_match; [by split_and!|reflexivity]. Qed.

Lemma settle_granted r now : granted r → granted (settle r now).
Proof. unfold settle. by case_match. Qed.

Lemma settle_wf r now : wf_record r → wf_record (settle r now).
Proof.
  unfold settle. case_match; [|done]. intros [Hg Hd]. split; [|exact Hd]. cbn. by intros [?|?].
Qed.

Lemma mark_wf r : wf_record r → granted r → wf_record (with_status r AS_EXECUTED).
Proof. intros [_ Hd] Hg. split; [by intros _|exact Hd]. Qed.

(** the outcome of [decide_loaded], case by case *)
Lemma decide_pure_cases r a d now r' : decide_pure r a d now = Ok r' →
  let who := vi_subject_id a in
  ar_status r ≠ AS_EXPIRED ∧ ar_status r ≠ AS_APPROVED ∧ ar_status r ≠ AS_REJECTED ∧
  ((d = REJECT ∧ r' = with_decision r AS_REJECTED (ar_approver_1_subject_id r)
                        (ar_approver_2_subject_id r) (Some now)) ∨
   (d = APPROVE ∧ ar_requires_dual_approval r = true ∧ who ≠ ar_actor_subject_id r ∧
      ar_approver_1_subject_id r = None ∧
      r' = with_decision r AS_AWAITING_SECOND_APPROVAL (Some who)
             (ar_approver_2_subject_id r) (ar_decided_at r)) ∨
   (d = APPROVE ∧ ar_requires_dual_approval r = true ∧ who ≠ ar_actor_subject_id r ∧
      ∃ first, ar_approver_1_subject_id r = Some first ∧ first ≠ who ∧
      r' = with_decision r AS_APPROVED (Some first) (Some who) (Some now)) ∨
   (d = APPROVE ∧ ar_requires_dual_approval r = false ∧
      r' = with_decision r AS_APPROVED (Some who) (ar_approver_2_subject_id r) (Some now))).
Proof.
  unfold decide_pure, decide_loaded, mem.
  case_bool_decide as H1; [done|]. case_bool_decide as H2; [done|].
  rewrite !not_elem_of_cons in H2. destruct H2 as (H2 & H3 & _).
  case_bool_decide as H4; [intros [= <-]; by split_and!; auto|].
  assert (d = APPROVE) as Hd by by destruct d.
  destruct (ar_requires_dual_approval r) eqn:Ed.
  - case_bool_decide as Hw; [done|].
    destruct (ar_approver_1_subject_id r) as [f|] eqn:Ef.
    + case_bool_decide as Hf; [done|]. intros [= <-]. split_and!; try done.
      right. right. left. eauto 8.
    + intros [= <-]. split_and!; try done. right. left. by split_and!.
  - intros [= <-]. split_and!; try done. right. right. right. by split_and!.
Qed.

Lemma decide_same r a d now r' : decide_pure r a d now = Ok r' → same_action r r'.
Proof.
  intros (_ & _ & _ & H)%decide_pure_cases.
  destruct H as [[_ ->]|[(_ & _ & _ & _ & ->)|[(_ & _ & _ & f & _ & _ & ->)|(_ & _ & ->)]]];
    by split_and!.
Qed.

Lemma decide_granted r a d now r' : granted r → decide_pure r a d now = Ok r' → granted r'.
Proof.
  unfold granted. intros Hg (_ & _ & _ & H)%decide_pure_cases.
  destruct H as [[_ ->]|[(_ & Hd & _ & Hn & ->)|[(_ & Hd & Hw & f & Hf & Hne & ->)|(_ & Hd & ->)]]];
    cbn; try rewrite Hd in Hg |- *; try done.
  - destruct Hg as (x & y & Hx & _). congruence.
  - destruct Hg as (x & y & Hx & _ & _ & Hxa & _). exists f, (vi_subject_id a). naive_solver.
  - eauto.
Qed.

Lemma decide_wf r a d now r' : wf_record r → decide_pure r a d now = Ok r' → wf_record r'.
Proof.
  intros [_ Hd] (_ & _ & _ & H)%decide_pure_cases. unfold wf_record, granted.
  destruct H as [[_ ->]|[(_ & Hdu & Hw & Hn & ->)|[(_ & Hdu & Hw & f & Hf & Hne & ->)|(_ & Hdu & ->)]]];
    cbn; rewrite ?Hdu.
  - split; [by intros [?|?]|exact Hd].
  - split; [by intros [?|?]|]. intros _ x [= <-]. done.
  - split; [|intros _ x [= <-]; by apply Hd]. intros _. exists f, (vi_subject_id a).
    split_and!; try done. by apply Hd.
  - split; [eauto|done].
Qed.

(** how far a record has got, as its approver fields show it *)
Definition shape (r : ApprovalRecord) : Prop :=
  match ar_status r with
  | AS_PENDING => ar_approver_1_subject_id r = None ∧ ar_approver_2_subject_id r = None
  | AS_AWAITING_SECOND_APPROVAL =>
      ar_requires_dual_approval r = true ∧ ar_approver_2_subject_id r = None ∧
      ∃ a, ar_approver_1_subject_id r = Some a
  | _ => True
  end.

Lemma settle_shape r now : shape r → shape (settle r now).
Proof. unfold settle. by case_match. Qed.

Lemma decide_shape r a d now r' :
  wf_record r → shape r → decide_pure r a d now = Ok r' → shape r'.
Proof.
  intros [Hg _] Hs (H1 & H2 & H3 & H)%decide_pure_cases.
  destruct H as [[_ ->]|[(_ & Hdu & Hw & Hn & ->)|[(_ & _ & _ & f & _ & _ & ->)|(_ & _ & ->)]]];
    unfold shape; cbn; try done.
  unfold shape in Hs. destruct (ar_status r) eqn:Es; try done; cbn.
  - destruct Hs as [_ ->]. eauto.
  - destruct Hs as (_ & _ & x & Hx). congruence.
  - unfold granted in Hg. rewrite Hdu in Hg.
    destruct (Hg (or_intror eq_refl)) as (x & y & Hx & _). congruence.
Qed.

(* ------------------------------------------------------------------ *)
(** ** The engine in use: interleaved requests *)

(** The control database together with the approvals whose execution has
    begun (verified, not yet consumed) and the log of begun executions. *)
Record System : Type := {
  s_db : ApprovalDb;
  s_in_flight : list string;
  s_started : list string
}.

Section system.
Context (sha256 : string → string) (ttl : Z).

(** Every interleaving of the Gateway's requests on approvals: a tool call
    creates one; an approver's decision is committed, or rolled back when it is
    refused; a tool call that cites an approval is refused by the verification,
    or begins the execution, which later succeeds and consumes the approval or
    fails and does not. *)
Inductive step : System → System → Prop :=
| step_create s ctx dual now ulid r db' :
    db_approvals (s_db s) !! new_id "appr" ulid = None →
    approval_create sha256 ttl ctx dual now ulid (s_db s) = (Ok r, db') →
    step s {| s_db := db'; s_in_flight := s_in_flight s; s_started := s_started s |}
| step_decide s id a d now r db' :
    approval_decide id a d now (s_db s) = (Ok r, db') →
    step s {| s_db := db'; s_in_flight := s_in_flight s; s_started := s_started s |}
| step_verify_refused s id h now e db' :
    verify_for_execution id h now (s_db s) = (Err e, db') →
    step s {| s_db := db'; s_in_flight := s_in_flight s; s_started := s_started s |}
| step_begin s id h now r db' :
    verify_for_execution id h now (s_db s) = (Ok r, db') →
    step s {| s_db := db'; s_in_flight := id :: s_in_flight s; s_started := id :: s_started s |}
| step_consume s id now l1 l2 db' :
    s_in_flight s = l1 ++ id :: l2 →
    mark_executed id now (s_db s) = (Ok tt, db') →
    step s {| s_db := db'; s_in_flight := l1 ++ l2; s_started := s_started s |}
| step_fail s id l1 l2 :
    s_in_flight s = l1 ++ id :: l2 →
    step s {| s_db := s_db s; s_in_flight := l1 ++ l2; s_started := s_started s |}.

Definition initial : System :=
  {| s_db := {| db_approvals := ∅; db_approval_events := [] |};
     s_in_flight := []; s_started := [] |}.

Definition reachable (s : System) : Prop := rtc step initial s.

Record Inv (s : System) : Prop := {
  inv_keys : ∀ id r, db_approvals (s_db s) !! id = Some r → ar_approval_id r = id;
  inv_wf : ∀ id r, db_approvals (s_db s) !! id = Some r → wf_record r;
  inv_flight : ∀ id, id ∈ s_in_flight s ∨ id ∈ s_started s →
    ∃ r, db_approvals (s_db s) !! id = Some r ∧ granted r;
  inv_ttl : ∀ id r, db_approvals (s_db s) !! id = Some r →
    ar_expires_at r = (ar_created_at r + ttl * US)%Z;
  inv_shape : ∀ id r, db_approvals (s_db s) !! id = Some r → shape r
}.

(** how one step may change the record of an id *)
Inductive record_step (in_flight : bool) (r : ApprovalRecord) : ApprovalRecord → Prop :=
| rs_settle now : record_step in_flight r (settle r now)
| rs_decide a d now r' :
    decide_pure (settle r now) a d now = Ok r' → record_step in_flight r r'
| rs_mark : in_flight = true → record_step in_flight r (with_status r AS_EXECUTED).

(** a database update that changes one record by a [record_step] *)
Definition db_step (s : System) (db' : ApprovalDb) : Prop :=
  ∃ id r r', db_approvals (s_db s) !! id = Some r ∧
    record_step (bool_decide (id ∈ s_in_flight s)) r r' ∧
    db_approvals db' = <[id := r']> (db_approvals (s_db s)).

Lemma decide_step s id a d now r' db' : Inv s →
  approval_decide id a d now (s_db s) = (Ok r', db') → db_step s db'.
Proof.
  intros [Hk _ _ _ _] H. destruct (db_approvals (s_db s) !! id) as [r|] eqn:Er.
  - destruct (approval_decide_spec id a d now (s_db s) r Er (Hk _ _ Er)) as [ev He].
    rewrite He in H. destruct (decide_pure (settle r now) a d now) as [r1|] eqn:Ed; [|done].
    injection H as -> <-. exists id, r, r'. split_and!; [done| |done]. by eapply rs_decide.
  - unfold approval_decide, approval_get in H. unfold mbind, M_bind in H. by rewrite Er in H.
Qed.

Lemma verify_step s id h now res db' : Inv s →
  verify_for_execution id h now (s_db s) = (res, db') →
  match db_approvals (s_db s) !! id with
  | Some r => res = verify_pure (settle r now) h ∧ db_step s db' ∧
              db_approvals db' = <[id := settle r now]> (db_approvals (s_db s))
  | None => res = Err (numi_error APPROVAL_INVALID "Approval not found.") ∧ db' = s_db s
  end.
Proof.
  intros [Hk _ _ _ _] H. destruct (db_approvals (s_db s) !! id) as [r|] eqn:Er.
  - destruct (verify_spec id h now (s_db s) r Er (Hk _ _ Er)) as [ev He].
    rewrite He in H. injection H as <- <-. split_and!; [done| |done].
    exists id, r, (settle r now). split_and!; [done| |done]. constructor.
  - unfold verify_for_execution, approval_get in H. unfold mbind, M_bind in H.
    rewrite Er in H. by injection H as <- <-.
Qed.

Lemma record_step_same b r r' : record_step b r r' → same_action r r'.
Proof.
  intros [now|a d now r1 H|_]; [apply settle_same| |by split_and!].
  transitivity (settle r now); [apply settle_same|by eapply decide_same].
Qed.

Lemma record_step_granted b r r' : record_step b r r' → granted r → granted r'.
Proof.
  intros [now|a d now r1 H|_] Hg; [by apply settle_granted| |done].
  eapply decide_granted; [|exact H]. by apply settle_granted.
Qed.

Lemma record_step_wf b r r' :
  record_step b r r' → (b = true → granted r) → wf_record r → wf_record r'.
Proof.
  intros [now|a d now r1 H|Hb] Hg Hw; [by apply settle_wf| |by apply mark_wf; auto].
  eapply decide_wf; [|exact H]. by apply settle_wf.
Qed.

Lemma record_step_shape b r r' : record_step b r r' → wf_record r → shape r → shape r'.
Proof.
  intros [now|a d now r1 H|Hb] Hw Hs; [by apply settle_shape| |done].
  eapply decide_shape; [| |exact H]; [by apply settle_wf|by apply settle_shape].
Qed.

(** an invariant of the records, the flights and the log, from one record step *)
Lemma Inv_db_step s db' fl st : Inv s → db_step s db' →
  (∀ id, id ∈ fl ∨ id ∈ st → (id ∈ s_in_flight s ∨ id ∈ s_started s) ∨
     ∃ r, db_approvals (s_db s) !! id = Some r ∧ granted r) →
  Inv {| s_db := db'; s_in_flight := fl; s_started := st |}.
Proof.
  intros [Hk Hw Hf Ht Hsh] (id & r & r' & Hr & Hs & Hdb) Hsub.
  assert (ar_approval_id r' = id) as Hid.
  { destruct (record_step_same _ _ _ Hs) as [-> _]. by apply Hk. }
  assert (bool_decide (id ∈ s_in_flight s) = true → granted r) as Hg.
  { intros Hin%bool_decide_eq_true. destruct (Hf id) as (r0 & Hr0 & ?); [by left|]. congruence. }
  constructor; cbn; rewrite Hdb.
  - intros id' r1 [[<- <-]|[? ?]]%lookup_insert_Some; [done|by apply Hk].
  - intros id' r1 [[<- <-]|[? ?]]%lookup_insert_Some; [|by eapply Hw].
    eapply record_step_wf; [exact Hs|exact Hg|by eapply Hw].
  - intros id' Hin.
    assert (∃ r, db_approvals (s_db s) !! id' = Some r ∧ granted r) as (r1 & Hr1 & Hg1)
      by (destruct (Hsub id' Hin) as [?|?]; [by apply Hf|done]).
    destruct (decide (id' = id)) as [->|Hne].
    + exists r'. rewrite lookup_insert_eq. split; [done|].
      eapply record_step_granted; [exact Hs|]. congruence.
    + exists r1. by rewrite lookup_insert_ne.
  - intros id' r1 [[<- <-]|[? ?]]%lookup_insert_Some; [|by eapply Ht].
    destruct (record_step_same _ _ _ Hs) as (_ & _ & _ & _ & _ & _ & _ & -> & ->). by eapply Ht.
  - intros id' r1 [[<- <-]|[? ?]]%lookup_insert_Some; [|by eapply Hsh].
    eapply record_step_shape; [exact Hs|by eapply Hw|by eapply Hsh].
Qed.

Lemma create_spec ctx dual now ulid db : ∃ r ev,
  approval_create sha256 ttl ctx dual now ulid db =
    (Ok r, {| db_approvals := <[new_id "appr" ulid := r]> (db_approvals db);
              db_approval_events := ev |}) ∧
  ar_approval_id r = new_id "appr" ulid ∧ ar_status r = AS_PENDING ∧
  ar_approver_1_subject_id r = None ∧ ar_approver_2_subject_id r = None ∧
  ar_actor_subject_id r = vi_subject_id (ac_actor ctx) ∧
  ar_action_hash r = action_hash sha256 ctx ∧ ar_requires_dual_approval r = dual ∧
  ar_created_at r = now ∧ ar_expires_at r = (now + ttl * US)%Z.
Proof. eexists _, _. unfold approval_create. split_and!; reflexivity. Qed.

Lemma Inv_step s s' : Inv s → step s s' → Inv s'.
Proof.
  intros HI Hstep. destruct Hstep as
    [s ctx dual now ulid r db' Hfresh H|s id a d now r db' H|s id h now e db' H
    |s id h now r db' H|s id now l1 l2 db' Hl H|s id l1 l2 Hl].
  - destruct (create_spec ctx dual now ulid (s_db s)) 
      as (r0 & ev & He & Hid & Hst & Ha1 & Ha2 & _ & _ & _ & Hcr & Hex).
    rewrite He in H. injection H as -> <-. destruct HI as [Hk Hw Hf Ht Hsh]. constructor; cbn.
    + intros id' r1 [[<- <-]|[? ?]]%lookup_insert_Some; [done|by apply Hk].
    + intros id' r1 [[<- <-]|[? ?]]%lookup_insert_Some; [|by eapply Hw].
      split; [rewrite Hst; by intros [?|?]|]. intros _ a. by rewrite Ha1.
    + intros id' (r1 & Hr1 & Hg)%Hf. exists r1. rewrite lookup_insert_ne; [|done].
      intros <-. congruence.
    + intros id' r1 [[<- <-]|[? ?]]%lookup_insert_Some; [by rewrite Hcr Hex|by eapply Ht].
    + intros id' r1 [[<- <-]|[? ?]]%lookup_insert_Some; [|by eapply Hsh].
      unfold shape. by rewrite Hst.
  - eapply Inv_db_step; [exact HI|by eapply decide_step|]. auto.
  - pose proof (verify_step _ _ _ _ _ _ HI H) as Hv. destruct (_ !! id).
    + eapply Inv_db_step; [exact HI|apply Hv|]. auto.
    + destruct Hv as [_ ->]. destruct HI. by constructor.
  - pose proof (verify_step _ _ _ _ _ _ HI H) as Hv. destruct (_ !! id) as [r0|] eqn:Er; [|by destruct Hv].
    destruct Hv as (Hv & Hd & _). symmetry in Hv. apply verify_pure_ok in Hv as (-> & Ha & _).
    apply settle_approved in Ha as (_ & Ha & _). cbn.
    eapply Inv_db_step; [exact HI|exact Hd|].
    assert (granted r0) as Hg by (eapply inv_wf; eauto).
    intros id' [Hin|Hin]; apply elem_of_cons in Hin as [->|Hin]; eauto.
  - assert (id ∈ s_in_flight s) as Hin by (rewrite Hl; set_solver).
    destruct (inv_flight _ HI id (or_introl Hin)) as (r & Hr & Hg).
    destruct (mark_spec id now (s_db s) r Hr (inv_keys _ HI _ _ Hr)) as [ev He].
    rewrite He in H. injection H as <-. eapply Inv_db_step; [exact HI| |].
    + exists id, r, (with_status r AS_EXECUTED). cbn. split_and!; [done| |done].
      apply rs_mark. by rewrite bool_decide_true.
    + intros id' [H|H]; left; [left; rewrite Hl; set_solver|by right].
  - destruct HI as [Hk Hw Hf Ht Hsh]. constructor; [done|done| |done|done]. cbn.
    intros id' [H|H]; apply Hf; [left; rewrite Hl; set_solver|by right].
Qed.

Lemma Inv_initial : Inv initial.
Proof.
  constructor; cbn; try (intros ?? H; by rewrite lookup_empty in H). intros id [H|H]; by apply elem_of_nil in H.
Qed.

Lemma Inv_reachable s : reachable s → Inv s.
Proof.
  intros H. unfold reachable in H. apply rtc_ind_r with (P := Inv) in H; [done|apply Inv_initial|].
  intros. by eapply Inv_step.
Qed.
End system.

(* ------------------------------------------------------------------ *)
(** ** The properties *)

(** C2: every execution ever begun under an approval, in any interleaving of
    requests, had the approvals it needs: for a dual-approval action two
    different people, neither of them the requester, and otherwise at least one
    recorded approver. *)
Theorem executions_were_granted sha256 ttl s id :
  reachable sha256 ttl s → id ∈ s_started s →
  ∃ r, db_approvals (s_db s) !! id = Some r ∧
    if ar_requires_dual_approval r then
      ∃ a b, ar_approver_1_subject_id r = Some a ∧ ar_approver_2_subject_id r = Some b ∧
        a ≠ b ∧ a ≠ ar_actor_subject_id r ∧ b ≠ ar_actor_subject_id r
    else ∃ a, ar_approver_1_subject_id r = Some a.
Proof.
  intros HI%Inv_reachable Hin. destruct (inv_flight _ _ HI id (or_intror Hin)) as (r & Hr & Hg).
  by exists r.
Qed.

(** a concrete history for the witnesses: a dual-approval restart *)
Definition who (subject : string) (role : DBARole) : VerifiedIdentity :=
  {| vi_subject_id := subject; vi_email := ""; vi_display_name := ""; vi_enterprise_groups := [];
     vi_dba_roles := [role]; vi_mfa_satisfied := true; vi_authenticated_at := "" |}.
Definition restart_tool : ToolDefinition :=
  write_tool "database.restart_instance" "Restart a database instance." CRITICAL false true
    ["environment"; "instance"] true (ADVANCED_ROLES ++ [DBA_MANAGER]) true.
Definition restart_ctx : ApprovalContext := {|
  ac_request_id := "req_1"; ac_actor := who "alice" DBA_L3; ac_tool := restart_tool;
  ac_target := mk_target PRODUCTION (Some "sqlserver-prod-01") None;
  ac_normalized_arguments := [("reason", JStr "hung scheduler")];
  ac_environment := "production"; ac_database_id := "sqlserver-prod-01";
  ac_risk := assess restart_tool PRODUCTION (plain_ctx dev_1 "") 1 1 false |}.
Definition id_hash (s : string) : string := s.

(** systems reached by computed runs *)
Definition is_ok {A} (r : res exn A) : bool := match r with Ok _ => true | Err _ => false end.

Definition created (ctx : ApprovalContext) (dual : bool) (now : Z) (ulid : string) : System :=
  {| s_db := (approval_create id_hash 600 ctx dual now ulid (s_db initial)).2;
     s_in_flight := []; s_started := [] |}.
Definition decided (s : System) (id : string) (a : VerifiedIdentity) (d : ApprovalDecision)
    (now : Z) : System :=
  {| s_db := (approval_decide id a d now (s_db s)).2;
     s_in_flight := s_in_flight s; s_started := s_started s |}.
Definition begun (s : System) (id h : string) (now : Z) : System :=
  {| s_db := (verify_for_execution id h now (s_db s)).2;
     s_in_flight := id :: s_in_flight s; s_started := id :: s_started s |}.

Lemma created_reachable ctx dual now ulid :
  reachable id_hash 600 (created ctx dual now ulid).
Proof.
  eapply rtc_l; [|apply rtc_refl].
  eapply (step_create id_hash 600 initial ctx dual now ulid); [apply lookup_empty|reflexivity].
Qed.

Lemma decided_reachable s id a d now :
  reachable id_hash 600 s → is_ok (approval_decide id a d now (s_db s)).1 = true →
  reachable id_hash 600 (decided s id a d now).
Proof.
  intros Hs Hok. eapply rtc_r; [exact Hs|]. unfold decided.
  destruct (approval_decide id a d now (s_db s)) as [[r|] db'] eqn:E; [|done].
  by eapply step_decide.
Qed.

Lemma begun_reachable s id h now :
  reachable id_hash 600 s → is_ok (verify_for_execution id h now (s_db s)).1 = true →
  reachable id_hash 600 (begun s id h now).
Proof.
  intros Hs Hok. eapply rtc_r; [exact Hs|]. unfold begun.
  destruct (verify_for_execution id h now (s_db s)) as [[r|] db'] eqn:E; [|done].
  by eapply step_begin.
Qed.

(** a dual-approval restart requested by alice, approved by bob and carol *)
Definition restart_approved : System :=
  decided (decided (created restart_ctx true 0 "1") "appr_1" (who "bob" DBA_L3) APPROVE 1)
    "appr_1" (who "carol" DBA_MANAGER) APPROVE 2.
Definition restart_begun : System :=
  begun restart_approved "appr_1" (action_hash id_hash restart_ctx) 3.
Definition restart_rejected : System :=
  decided (created restart_ctx true 0 "1") "appr_1" (who "bob" DBA_L3) REJECT 1.

Lemma restart_approved_reachable : reachable id_hash 600 restart_approved.
Proof.
  apply decided_reachable; [apply decided_reachable; [apply created_reachable|]|];
    vm_compute; reflexivity.
Qed.

Lemma restart_begun_reachable : reachable id_hash 600 restart_begun.
Proof. apply begun_reachable; [apply restart_approved_reachable|vm_compute; reflexivity]. Qed.

Lemma restart_rejected_reachable : reachable id_hash 600 restart_rejected.
Proof. apply decided_reachable; [apply created_reachable|vm_compute; reflexivity]. Qed.

Lemma executions_were_granted_witness : ∃ r,
  db_approvals (s_db restart_begun) !! "appr_1" = Some r ∧
  if ar_requires_dual_approval r then
    ∃ a b, ar_approver_1_subject_id r = Some a ∧ ar_approver_2_subject_id r = Some b ∧
      a ≠ b ∧ a ≠ ar_actor_subject_id r ∧ b ≠ ar_actor_subject_id r
  else ∃ a, ar_approver_1_subject_id r = Some a.
Proof.
  apply (executions_were_granted id_hash 600 restart_begun "appr_1" restart_begun_reachable).
  left.
Defined.

(** C17: an approval lets an execution begin only while it is live and for the
    exact action it was created for: in every reachable state, a successful
    verification means the stored record is APPROVED with all its approvals, its
    hash is the hash of the action now requested, and the clock has not passed
    the creation time plus the time to live; the record is returned unchanged. *)
Theorem verified_approval_is_live_and_exact sha256 ttl s id h now r db' :
  reachable sha256 ttl s →
  verify_for_execution id h now (s_db s) = (Ok r, db') →
  db_approvals (s_db s) !! id = Some r ∧ ar_status r = AS_APPROVED ∧ granted r ∧
  ar_action_hash r = h ∧ (now ≤ ar_created_at r + ttl * US)%Z.
Proof.
  intros HI%Inv_reachable Hv. pose proof (verify_step _ _ _ _ _ _ _ HI Hv) as Hs.
  destruct (db_approvals (s_db s) !! id) as [r0|] eqn:Er; [|by destruct Hs].
  destruct Hs as (Hp & _). symmetry in Hp. apply verify_pure_ok in Hp as (-> & Ha & Hh).
  apply settle_approved in Ha as (Heq & Ha & Hn). rewrite Heq in Hh |- *.
  split_and!; try done; [|by rewrite -(inv_ttl _ _ HI _ _ Er)].
  eapply inv_wf; eauto.
Qed.

Lemma verified_approval_is_live_and_exact_witness : ∃ r,
  verify_for_execution "appr_1" (action_hash id_hash restart_ctx) 4 (s_db restart_approved)
    = (Ok r, (verify_for_execution "appr_1" (action_hash id_hash restart_ctx) 4
                (s_db restart_approved)).2) ∧
  granted r ∧ (4 ≤ ar_created_at r + 600 * US)%Z.
Proof.
  destruct (verify_for_execution "appr_1" (action_hash id_hash restart_ctx) 4
              (s_db restart_approved)) as [[r|e] db'] eqn:E.
  - exists r. split; [reflexivity|].
    apply (verified_approval_is_live_and_exact id_hash 600 restart_approved "appr_1"
             (action_hash id_hash restart_ctx) 4 r db' restart_approved_reachable) in E.
    destruct E as (_ & _ & Hg & _ & Ht). split; done.
  - vm_compute in E. discriminate E.
Defined.

Lemma rejected_step sha256 ttl s s' id r : Inv ttl s → step sha256 ttl s s' →
  db_approvals (s_db s) !! id = Some r → ar_status r = AS_REJECTED → id ∉ s_in_flight s →
  db_approvals (s_db s') !! id = Some r ∧ (id ∉ s_in_flight s') ∧
  count_occ string_dec (s_started s') id = count_occ string_dec (s_started s) id.
Proof.
  intros HI Hstep Hr Hst Hfl.
  assert (∀ now, settle r now = r) as Hset by (intros now; unfold settle; by rewrite Hst).
  assert (∀ db', db_step s db' → db_approvals db' !! id = Some r) as Hdb.
  { intros db' (id1 & r1 & r1' & Hr1 & Hs1 & ->).
    destruct (decide (id1 = id)) as [->|Hne]; [|by rewrite lookup_insert_ne].
    rewrite lookup_insert_eq. rewrite Hr in Hr1. injection Hr1 as <-.
    destruct Hs1 as [now|a d now r2 H|Hb].
    - by rewrite Hset.
    - rewrite Hset in H. apply decide_pure_cases in H as (_ & _ & Hn & _). done.
    - by apply bool_decide_eq_true in Hb. }
  destruct Hstep as
    [s ctx dual now ulid r0 db' Hfresh H|s id0 a d now r0 db' H|s id0 h now e db' H
    |s id0 h now r0 db' H|s id0 now l1 l2 db' Hl H|s id0 l1 l2 Hl]; cbn.
  - destruct (create_spec sha256 ttl ctx dual now ulid (s_db s)) as (r1 & ev & He & _).
    rewrite He in H. injection H as -> <-. cbn. rewrite lookup_insert_ne; [congruence|done].
  - split_and!; try done. eapply Hdb, decide_step; eauto.
  - pose proof (verify_step _ _ _ _ _ _ _ HI H) as Hv. split_and!; try done.
    destruct (db_approvals (s_db s) !! id0); [by apply Hdb; destruct Hv as (_ & ? & _)|].
    by destruct Hv as [_ ->].
  - pose proof (verify_step _ _ _ _ _ _ _ HI H) as Hv.
    destruct (db_approvals (s_db s) !! id0) as [r1|] eqn:E1; [|by destruct Hv].
    destruct Hv as (Hv & Hd & _). symmetry in Hv. apply verify_pure_ok in Hv as (_ & Ha & _).
    assert (id0 ≠ id) as Hne by (intros ->; rewrite Hr in E1; injection E1 as <-;
                                 rewrite Hset in Ha; congruence).
    split_and!; [by apply Hdb|by apply not_elem_of_cons|]. by destruct (string_dec id0 id).
  - assert (id0 ∈ s_in_flight s) as Hin by (rewrite Hl; set_solver).
    destruct (inv_flight _ _ HI id0 (or_introl Hin)) as (r1 & Hr1 & _).
    destruct (mark_spec id0 now (s_db s) r1 Hr1 (inv_keys _ _ HI _ _ Hr1)) as [ev He].
    rewrite He in H. injection H as <-. cbn. rewrite lookup_insert_ne; [intros ->; done|].
    split_and!; try done. rewrite Hl in Hfl. set_solver.
  - split_and!; try done. rewrite Hl in Hfl. set_solver.
Qed.

(** Rejection is final: once an approval is REJECTED and no execution is in
    flight under it, in every later state it is still REJECTED, no execution has
    begun under it since, and every attempt to verify it is refused as
    APPROVAL_INVALID. *)
Theorem rejection_is_final sha256 ttl s s' id r h now :
  reachable sha256 ttl s → rtc (step sha256 ttl) s s' →
  db_approvals (s_db s) !! id = Some r → ar_status r = AS_REJECTED → id ∉ s_in_flight s →
  db_approvals (s_db s') !! id = Some r ∧
  count_occ string_dec (s_started s') id = count_occ string_dec (s_started s) id ∧
  (verify_for_execution id h now (s_db s')).1
    = Err (numi_error APPROVAL_INVALID "This action was rejected.").
Proof.
  intros HI%Inv_reachable Hrtc Hr Hst Hfl.
  assert (Inv ttl s' ∧ db_approvals (s_db s') !! id = Some r ∧ (id ∉ s_in_flight s') ∧
    count_occ string_dec (s_started s') id = count_occ string_dec (s_started s) id)
    as (HI' & Hr' & _ & Hc).
  { induction Hrtc as [s|s s1 s' H1 _ IH]; [done|].
    destruct (rejected_step _ _ _ _ _ _ HI H1 Hr Hst Hfl) as (Hr1 & Hf1 & Hc1).
    destruct (IH (Inv_step _ _ _ _ HI H1) Hr1 Hf1) as (? & ? & ? & ?).
    split_and!; try done. congruence. }
  split_and!; try done.
  destruct (verify_spec id h now (s_db s') r Hr' (inv_keys _ _ HI' _ _ Hr')) as [ev ->].
  unfold settle. rewrite Hst. unfold verify_pure. cbn. by rewrite Hst.
Qed.

Lemma rejection_is_final_witness :
  (verify_for_execution "appr_1" "h" 5 (s_db restart_rejected)).1
    = Err (numi_error APPROVAL_INVALID "This action was rejected.").
Proof.
  destruct (db_approvals (s_db restart_rejected) !! "appr_1") as [r|] eqn:E.
  - apply (rejection_is_final id_hash 600 restart_rejected restart_rejected "appr_1" r "h" 5
             restart_rejected_reachable (rtc_refl _ _) E).
    + vm_compute in E. injection E as <-. reflexivity.
    + apply not_elem_of_nil.
  - vm_compute in E. discriminate E.
Defined.

(** the outcome of a verification, branch by branch *)
Definition verify_answer (r : ApprovalRecord) (h : string) (now : Z) : option FailureCode :=
  match ar_status r with
  | AS_EXPIRED => Some APPROVAL_EXPIRED
  | AS_REJECTED | AS_EXECUTED => Some APPROVAL_INVALID
  | AS_PENDING | AS_AWAITING_SECOND_APPROVAL =>
      if (ar_expires_at r <? now)%Z then Some APPROVAL_EXPIRED else Some APPROVAL_REQUIRED
  | AS_APPROVED =>
      if (ar_expires_at r <? now)%Z then Some APPROVAL_EXPIRED
      else if decide (ar_action_hash r = h) then None else Some APPROVAL_MISMATCH
  end.

(** Verification on every branch: an unknown approval is APPROVAL_INVALID,
    and otherwise the answer is determined by status, expiry and hash, success
    being possible only for an APPROVED, unexpired record with the same hash;
    the record is at most turned EXPIRED. *)
Theorem verify_for_execution_spec id h now db r :
  db_approvals db !! id = Some r → ar_approval_id r = id →
  db_approvals (verify_for_execution id h now db).2 = <[id := settle r now]> (db_approvals db) ∧
  match (verify_for_execution id h now db).1 with
  | Ok r' => r' = r ∧ verify_answer r h now = None
  | Err e => exn_code e = verify_answer r h now ∧ verify_answer r h now ≠ None
  end ∧
  (∀ id', db_approvals db !! id' = None →
     (verify_for_execution id' h now db).1 = Err (numi_error APPROVAL_INVALID "Approval not found.")).
Proof.
  intros Hr Hid. split_and!.
  - by destruct (verify_spec id h now db r Hr Hid) as [ev ->].
  - destruct (verify_spec id h now db r Hr Hid) as [ev ->]. cbn [fst].
    unfold verify_pure, verify_answer, settle.
    destruct (ar_status r) eqn:Es, (Z.ltb_spec (ar_expires_at r) now); cbn [is_open mem andb];
      rewrite ?Es; try done; destruct (decide (ar_action_hash r = h));
      [rewrite bool_decide_true //|rewrite bool_decide_false //].
  - intros id' Hn. unfold verify_for_execution, approval_get. unfold mbind, M_bind. by rewrite Hn.
Qed.

Lemma verify_for_execution_spec_witness : ∃ r,
  db_approvals (s_db restart_approved) !! "appr_1" = Some r ∧
  verify_answer r "another action" 4 = Some APPROVAL_MISMATCH ∧
  (verify_for_execution "appr_2" "another action" 4 (s_db restart_approved)).1
    = Err (numi_error APPROVAL_INVALID "Approval not found.").
Proof.
  destruct (db_approvals (s_db restart_approved) !! "appr_1") as [r|] eqn:E.
  - exists r. split; [reflexivity|].
    assert (ar_approval_id r = "appr_1") as Hid by (vm_compute in E; injection E as <-; reflexivity).
    pose proof (verify_for_execution_spec "appr_1" "another action" 4 (s_db restart_approved) r
                  E Hid) as (_ & _ & Hn).
    split; [vm_compute in E; injection E as <-; vm_compute; reflexivity|].
    apply Hn. vm_compute. reflexivity.
  - vm_compute in E. discriminate E.
Defined.

Lemma json_opt_inj a b : json_opt a = json_opt b → a = b.
Proof. destruct a, b; cbn; congruence. Qed.

Lemma target_dump_inj t t' : json_canon (target_dump t) = json_canon (target_dump t') → t = t'.
Proof.
  assert (∀ o, json_canon (json_opt o) = json_opt o) as Hc by (by intros []).
  destruct t, t'. unfold target_dump. cbn. rewrite !Hc.
  intros [= H1 H2 H3%env_value_inj H4 H5 H6 H7 H8 H9].
  repeat match goal with H : json_opt _ = json_opt _ |- _ => apply json_opt_inj in H end.
  f_equal; try done.
  by repeat match goal with p : option Platform |- _ => destruct p as [[]|] end.
Qed.

Lemma context_json_inj ctx ctx' :
  json_canon (context_json ctx) = json_canon (context_json ctx') →
  vi_subject_id (ac_actor ctx) = vi_subject_id (ac_actor ctx') ∧
  td_tool_id (ac_tool ctx) = td_tool_id (ac_tool ctx') ∧
  td_version (ac_tool ctx) = td_version (ac_tool ctx') ∧
  ac_target ctx = ac_target ctx' ∧ ac_environment ctx = ac_environment ctx' ∧
  ac_database_id ctx = ac_database_id ctx' ∧
  ra_risk_level (ac_risk ctx) = ra_risk_level (ac_risk ctx') ∧
  json_canon (JObj (ac_normalized_arguments ctx)) = json_canon (JObj (ac_normalized_arguments ctx')).
Proof.
  unfold context_json, action_json.
  generalize (target_dump_inj (ac_target ctx) (ac_target ctx')).
  generalize (target_dump (ac_target ctx)) (target_dump (ac_target ctx')).
  intros d d' Hd. cbn. intros [= H1 H2 H3 H4 H5%risk_value_inj H6%Hd H7 H8].
  split_and!; congruence.
Qed.

(** An approval binds the exact action: if an approval created for the
    action [ctx] is verified for the action [ctx'], and the digest does not
    collide on their two canonical texts, the two actions have the same
    requester, tool and version, target, environment, server or database and
    risk level, and equal arguments up to key order. *)
Theorem approval_binds_action (sha256 : string → string) ttl ctx ctx' s id now r r' db' :
  reachable sha256 ttl s →
  db_approvals (s_db s) !! id = Some r → ar_action_hash r = action_hash sha256 ctx →
  verify_for_execution id (action_hash sha256 ctx') now (s_db s) = (Ok r', db') →
  (sha256 (json_dumps (context_json ctx)) = sha256 (json_dumps (context_json ctx')) →
     json_dumps (context_json ctx) = json_dumps (context_json ctx')) →
  vi_subject_id (ac_actor ctx) = vi_subject_id (ac_actor ctx') ∧
  td_tool_id (ac_tool ctx) = td_tool_id (ac_tool ctx') ∧
  td_version (ac_tool ctx) = td_version (ac_tool ctx') ∧
  ac_target ctx = ac_target ctx' ∧ ac_environment ctx = ac_environment ctx' ∧
  ac_database_id ctx = ac_database_id ctx' ∧
  ra_risk_level (ac_risk ctx) = ra_risk_level (ac_risk ctx') ∧
  json_canon (JObj (ac_normalized_arguments ctx)) = json_canon (JObj (ac_normalized_arguments ctx')).
Proof.
  intros HI%Inv_reachable Hr Hh Hv Hinj. pose proof (verify_step _ _ _ _ _ _ _ HI Hv) as Hs.
  rewrite Hr in Hs. destruct Hs as (Hp & _). symmetry in Hp.
  apply verify_pure_ok in Hp as (_ & Ha & Hh').
  apply settle_approved in Ha as (Heq & _ & _). rewrite Heq Hh in Hh'.
  by apply context_json_inj, json_dumps_inj, Hinj.
Qed.

Lemma approval_binds_action_witness : ∃ r r',
  db_approvals (s_db restart_approved) !! "appr_1" = Some r ∧
  (verify_for_execution "appr_1" (action_hash id_hash restart_ctx) 4 (s_db restart_approved)).1
    = Ok r' ∧ ac_target restart_ctx = ac_target restart_ctx.
Proof.
  destruct (db_approvals (s_db restart_approved) !! "appr_1") as [r|] eqn:E;
    [|vm_compute in E; discriminate E].
  destruct (verify_for_execution "appr_1" (action_hash id_hash restart_ctx) 4
              (s_db restart_approved)) as [[r'|e] db'] eqn:Ev;
    [|vm_compute in Ev; discriminate Ev].
  exists r, r'. split; [reflexivity|]. split; [reflexivity|].
  apply (approval_binds_action id_hash 600 restart_ctx restart_ctx restart_approved "appr_1" 4
           r r' db' restart_approved_reachable E); [|exact Ev|intros H; exact H].
  vm_compute in E. injection E as <-. vm_compute. reflexivity.
Defined.

(** A finding about [decide]: it refuses APPROVED, REJECTED and EXPIRED
    records but not EXECUTED ones, so an approval that has been used can be
    approved again (for a single-approval action by anyone, the requester
    included) and then authorises the same action a second time, although
    [ApprovalStatus.EXECUTED] is documented as ruling that out. *)
Theorem executed_approval_can_be_replayed id a now now' db r :
  db_approvals db !! id = Some r → ar_approval_id r = id → ar_status r = AS_EXECUTED →
  ar_requires_dual_approval r = false → (now' ≤ ar_expires_at r)%Z →
  (verify_for_execution id (ar_action_hash r) now db).1 = Err (numi_error APPROVAL_INVALID
     "This approval has already been used to execute an action and cannot be reused.") ∧
  ∃ r', (approval_decide id a APPROVE now db).1 = Ok r' ∧ ar_status r' = AS_APPROVED ∧
    (verify_for_execution id (ar_action_hash r) now' (approval_decide id a APPROVE now db).2).1
      = Ok r'.
Proof.
  intros Hr Hid Hst Hdu Hexp. assert (settle r now = r) as Hs by (unfold settle; by rewrite Hst).
  split.
  { destruct (verify_spec id (ar_action_hash r) now db r Hr Hid) as [ev ->].
    cbn [fst]. rewrite Hs. unfold verify_pure. by rewrite Hst. }
  destruct (approval_decide_spec id a APPROVE now db r Hr Hid) as [ev He]. rewrite Hs in He.
  set (r' := with_decision r AS_APPROVED (Some (vi_subject_id a))
               (ar_approver_2_subject_id r) (Some now)).
  assert (decide_pure r a APPROVE now = Ok r') as Hd.
  { unfold decide_pure, decide_loaded. rewrite Hst Hdu. reflexivity. }
  rewrite Hd in He. rewrite He. cbn [fst snd]. exists r'. split_and!; [done|done|].
  match goal with |- (verify_for_execution _ _ _ ?d).1 = _ => set (db1 := d) end.
  assert (db_approvals db1 !! id = Some r') as Hr1 by (subst db1; cbn; by rewrite lookup_insert_eq).
  destruct (verify_spec id (ar_action_hash r) now' db1 r' Hr1 Hid) as [ev' ->]. cbn [fst].
  assert (settle r' now' = r') as ->.
  { unfold settle. destruct (Z.ltb_spec (ar_expires_at r') now'); [cbn in *; lia|].
    by rewrite andb_false_r. }
  unfold verify_pure. cbn. by rewrite bool_decide_true.
Qed.

Definition restart_executed : ApprovalDb :=
  (mark_executed "appr_1" 5 (s_db (decided (created restart_ctx false 0 "1") "appr_1"
     (who "alice" DBA_L3) APPROVE 1))).2.

Lemma executed_approval_can_be_replayed_witness :
  is_ok (approval_decide "appr_1" (who "alice" DBA_L3) APPROVE 6 restart_executed).1 = true ∧
  ∃ r', (approval_decide "appr_1" (who "alice" DBA_L3) APPROVE 6 restart_executed).1 = Ok r' ∧
    ar_status r' = AS_APPROVED.
Proof.
  split; [vm_compute; reflexivity|].
  destruct (db_approvals restart_executed !! "appr_1") as [r|] eqn:E;
    [|vm_compute in E; discriminate E].
  assert (ar_approval_id r = "appr_1" ∧ ar_status r = AS_EXECUTED ∧
          ar_requires_dual_approval r = false ∧ (7 ≤ ar_expires_at r)%Z) as (H1 & H2 & H3 & H4).
  { vm_compute in E. injection E as <-. cbn. split_and!; (reflexivity || lia). }
  destruct (executed_approval_can_be_replayed "appr_1" (who "alice" DBA_L3) 6 7 restart_executed r
              E H1 H2 H3 H4) as (_ & r' & Hr' & Hs' & _).
  exists r'. split; assumption.
Defined.

(** ** A threshold of grants, as the abstract specification *)

(** What an approval is to its users: who asked, how many different people
    must grant it, and who has. *)
Record Grants : Type := {
  g_requester : string;
  g_needed : nat;
  g_granted : gset string
}.

(** a grant is refused to the requester and to someone who already granted,
    when more than one is needed *)
Definition add_grant (g : Grants) (who : string) : option Grants :=
  if bool_decide (1 < g_needed g)%nat &&
     (bool_decide (who = g_requester g) || bool_decide (who ∈ g_granted g)) then None
  else Some {| g_requester := g_requester g; g_needed := g_needed g;
               g_granted := {[who]} ∪ g_granted g |}.
Definition fully_granted (g : Grants) : Prop := (g_needed g ≤ size (g_granted g))%nat.

(** the abstraction of a record *)
Definition grants_of (r : ApprovalRecord) : Grants :=
  {| g_requester := ar_actor_subject_id r;
     g_needed := if ar_requires_dual_approval r then 2 else 1;
     g_granted := list_to_set (omap id [ar_approver_1_subject_id r; ar_approver_2_subject_id r]) |}.

(** the set of recorded approvers *)
Definition approvers (a1 a2 : option string) : gset string := list_to_set (omap id [a1; a2]).

Lemma size_one a : size (approvers (Some a) None) = 1%nat.
Proof. unfold approvers. cbn. by rewrite union_empty_r_L size_singleton. Qed.

Lemma size_two a b : a ≠ b → size (approvers (Some a) (Some b)) = 2%nat.
Proof.
  intros H. unfold approvers. cbn. rewrite union_empty_r_L size_union; [set_solver|].
  by rewrite !size_singleton.
Qed.

Lemma grants_of_fields r a1 a2 :
  ar_approver_1_subject_id r = a1 → ar_approver_2_subject_id r = a2 →
  grants_of r = {| g_requester := ar_actor_subject_id r;
                   g_needed := if ar_requires_dual_approval r then 2 else 1;
                   g_granted := approvers a1 a2 |}.
Proof. by intros <- <-. Qed.

Lemma grants_of_decision r s a1 a2 t :
  grants_of (with_decision r s a1 a2 t) =
    {| g_requester := ar_actor_subject_id r;
       g_needed := if ar_requires_dual_approval r then 2 else 1;
       g_granted := approvers a1 a2 |}.
Proof. reflexivity. Qed.

Lemma add_grant_self r who : who = ar_actor_subject_id r → ar_requires_dual_approval r = true →
  add_grant (grants_of r) who = None.
Proof.
  intros -> Hd. unfold add_grant, grants_of. cbn.
  by rewrite Hd (bool_decide_true (ar_actor_subject_id r = _)).
Qed.

Lemma add_grant_first req who : who ≠ req →
  add_grant {| g_requester := req; g_needed := 2; g_granted := approvers None None |} who =
    Some {| g_requester := req; g_needed := 2; g_granted := approvers (Some who) None |}.
Proof.
  intros Hw. unfold add_grant, approvers. cbn. by rewrite (bool_decide_false (who = req)).
Qed.

Lemma add_grant_again req who :
  add_grant {| g_requester := req; g_needed := 2; g_granted := approvers (Some who) None |} who
    = None.
Proof.
  unfold add_grant, approvers. cbn. rewrite (bool_decide_true (who ∈ _)); [set_solver|].
  by rewrite orb_true_r.
Qed.

Lemma add_grant_second req who f : who ≠ req → f ≠ who →
  add_grant {| g_requester := req; g_needed := 2; g_granted := approvers (Some f) None |} who =
    Some {| g_requester := req; g_needed := 2; g_granted := approvers (Some f) (Some who) |}.
Proof.
  intros Hw Hf. unfold add_grant, approvers. cbn. rewrite (bool_decide_false (who = req)) //.
  rewrite (bool_decide_false (who ∈ _)); [set_solver|]. cbn. do 2 f_equal. set_solver.
Qed.

Lemma add_grant_single req who :
  add_grant {| g_requester := req; g_needed := 1; g_granted := approvers None None |} who =
    Some {| g_requester := req; g_needed := 1; g_granted := approvers (Some who) None |}.
Proof. unfold add_grant, approvers. cbn. reflexivity. Qed.

Lemma fully_granted_two req a1 a2 :
  fully_granted {| g_requester := req; g_needed := 2; g_granted := approvers a1 a2 |} ↔
  (2 ≤ size (approvers a1 a2))%nat.
Proof. reflexivity. Qed.

(** approving an open record, as a function of the record *)
Lemma decide_pure_open r a now :
  ar_status r = AS_PENDING ∨ ar_status r = AS_AWAITING_SECOND_APPROVAL →
  decide_pure r a APPROVE now =
    let who := vi_subject_id a in
    if ar_requires_dual_approval r then
      if bool_decide (who = ar_actor_subject_id r) then
        Err (numi_error SEPARATION_OF_DUTIES_VIOLATION
               "The requester cannot approve their own critical action.")
      else match ar_approver_1_subject_id r with
           | None => Ok (with_decision r AS_AWAITING_SECOND_APPROVAL (Some who)
                           (ar_approver_2_subject_id r) (ar_decided_at r))
           | Some first =>
               if bool_decide (first = who) then
                 Err (numi_error SEPARATION_OF_DUTIES_VIOLATION
                        "A second, different approver is required for this critical action.")
               else Ok (with_decision r AS_APPROVED (Some first) (Some who) (Some now))
           end
    else Ok (with_decision r AS_APPROVED (Some who) (ar_approver_2_subject_id r) (Some now)).
Proof.
  intros Hst. unfold decide_pure, decide_loaded.
  assert (bool_decide (ar_status r = AS_EXPIRED) = false) as ->
    by (destruct Hst as [H|H]; rewrite H; reflexivity).
  assert (mem (ar_status r) [AS_APPROVED; AS_REJECTED] = false) as ->
    by (destruct Hst as [H|H]; rewrite H; reflexivity).
  rewrite (bool_decide_false (APPROVE = REJECT)) //. cbn zeta.
  destruct (ar_requires_dual_approval r); [|reflexivity].
  destruct (bool_decide (vi_subject_id a = _)); [reflexivity|].
  destruct (ar_approver_1_subject_id r) as [f|]; [|reflexivity].
  destruct (bool_decide (f = _)); reflexivity.
Qed.

(** C35: the two approver fields and the status refine the abstract threshold
    of grants: while an approval is open, approving it adds exactly one grant
    when the specification allows it, the status becoming APPROVED exactly when
    enough different people have granted and AWAITING_SECOND_APPROVAL otherwise;
    when the specification refuses the grant the code raises
    SEPARATION_OF_DUTIES_VIOLATION and changes nothing. *)
Theorem decide_refines_grants sha256 ttl s id r a now :
  reachable sha256 ttl s → db_approvals (s_db s) !! id = Some r →
  ar_status r = AS_PENDING ∨ ar_status r = AS_AWAITING_SECOND_APPROVAL →
  (now ≤ ar_expires_at r)%Z →
  match approval_decide id a APPROVE now (s_db s) with
  | (Ok r', db') =>
      add_grant (grants_of r) (vi_subject_id a) = Some (grants_of r') ∧
      db_approvals db' = <[id := r']> (db_approvals (s_db s)) ∧
      (ar_status r' = AS_APPROVED ↔ fully_granted (grants_of r')) ∧
      (ar_status r' = AS_AWAITING_SECOND_APPROVAL ↔ ¬ fully_granted (grants_of r'))
  | (Err e, db') =>
      add_grant (grants_of r) (vi_subject_id a) = None ∧
      exn_code e = Some SEPARATION_OF_DUTIES_VIOLATION ∧
      db_approvals db' = db_approvals (s_db s)
  end.
Proof.
  intros HI%Inv_reachable Hr Hst Hexp.
  destruct (approval_decide_spec id a APPROVE now (s_db s) r Hr (inv_keys _ _ HI _ _ Hr)) as [ev ->].
  assert (settle r now = r) as ->.
  { unfold settle. destruct (Z.ltb_spec (ar_expires_at r) now); [lia|by rewrite andb_false_r]. }
  pose proof (inv_shape _ _ HI _ _ Hr) as Hsh. unfold shape in Hsh.
  rewrite decide_pure_open //. cbn zeta. set (who := vi_subject_id a).
  destruct (ar_requires_dual_approval r) eqn:Ed.
  - case_bool_decide as Hw; [rewrite add_grant_self ?Ed // insert_id //|].
    destruct Hst as [Hst|Hst]; rewrite Hst in Hsh.
    + destruct Hsh as [H1 H2]. rewrite H1 H2.
      rewrite grants_of_decision (grants_of_fields r None None) // Ed.
      rewrite add_grant_first // fully_granted_two size_one.
      split_and!; try done; split; (done || lia).
    + destruct Hsh as (_ & H2 & f & H1). rewrite H1.
      case_bool_decide as Hf; rewrite (grants_of_fields r (Some f) None) // Ed.
      * subst f. by rewrite add_grant_again insert_id.
      * rewrite grants_of_decision Ed add_grant_second // fully_granted_two size_two //.
  - destruct Hst as [Hst|Hst]; rewrite Hst in Hsh; [|naive_solver].
    destruct Hsh as [H1 H2]. rewrite H2.
    rewrite grants_of_decision (grants_of_fields r None None) // Ed.
    rewrite add_grant_single. unfold fully_granted. cbn [g_needed g_granted].
    rewrite size_one. split_and!; try done; split; (done || lia).
Qed.

Lemma decide_refines_grants_witness :
  match approval_decide "appr_1" (who "alice" DBA_L3) APPROVE 1
          (s_db (created restart_ctx true 0 "1")) with
  | (Ok r', db') => False
  | (Err e, db') => exn_code e = Some SEPARATION_OF_DUTIES_VIOLATION
  end.
Proof.
  destruct (db_approvals (s_db (created restart_ctx true 0 "1")) !! "appr_1") as [r|] eqn:E;
    [|vm_compute in E; discriminate E].
  assert (ar_status r = AS_PENDING ∧ ar_actor_subject_id r = "alice" ∧
          ar_requires_dual_approval r = true ∧ (1 ≤ ar_expires_at r)%Z) as (H1 & H2 & H3 & H4).
  { vm_compute in E. injection E as <-. cbn. split_and!; (reflexivity || lia). }
  pose proof (decide_refines_grants id_hash 600 (created restart_ctx true 0 "1") "appr_1" r
    (who "alice" DBA_L3) 1 (created_reachable _ _ _ _) E (or_introl H1) H4) as Hd.
  destruct (approval_decide "appr_1" (who "alice" DBA_L3) APPROVE 1
              (s_db (created restart_ctx true 0 "1"))) as [[r'|e] db'].
  - destruct Hd as [Hg _]. by rewrite add_grant_self in Hg.
  - apply Hd.
Defined.
