(* ===== verification/DataPolicy.v ===== *)
(** Data minimisation: [gateway/domain/data_policy.py],
    [gateway/domain/query_scrubber.py] and [gateway/domain/sql_validator.py].
    The SQL parser (sqlglot) is a parameter; the regular expressions of these
    modules are written out. *)
From S2P Require Import Prelude Json Text Models ToolCatalog Servers Policy.

(* ------------------------------------------------------------------ *)
(** ** The regular expressions of the field lists *)

(** the optional separators of the patterns, [[_-]?] and [[-_]?] *)
Definition opt_sep : regex := ROpt (RChars ["_"%char; "-"%char]).
Definition two_words (a b : string) : regex := RSeq (rlit a) (RSeq opt_sep (rlit b)).
(** [(^|_)] *)
Definition start_or_underscore : regex := RAlt RBegin (RChars ["_"%char]).

Definition DEFAULT_SENSITIVE_FIELD_PATTERNS : list regex :=
  [rlit "password"; two_words "pass" "hash"; rlit "token"; rlit "secret"; two_words "api" "key";
   two_words "card" "number"; two_words "account" "number"; whole_word "bvn"; whole_word "nin";
   rlit "ssn"; rlit "phone"; two_words "e" "mail"; rlit "address"; rlit "auth";
   rlit "credential"; two_words "connection" "string"].

Definition DEFAULT_FREE_TEXT_SQL_FIELD_PATTERNS : list regex :=
  [rlit "query_text";
   RSeq start_or_underscore (RSeq (rlit "query") REnd);
   RSeq start_or_underscore (RSeq (rlit "sql") (RSeq (ROpt (rlit "_text")) REnd));
   RSeq start_or_underscore (RSeq (rlit "statement") (RSeq (ROpt (rlit "_text")) REnd));
   RSeq start_or_underscore (RSeq (rlit "text") REnd);
   rlit "query_plan"; rlit "plan_summary"; rlit "deadlock_graph";
   rlit "latest_detected_deadlock";
   RSeq start_or_underscore (RSeq (rlit "message") REnd);
   rlit "log_line"; rlit "log_text"].

Definition sqlglot_dialect_for_platform (platform : string) : option string :=
  if truthy platform then
    dict_get (str_lower platform)
      [("sqlserver", "tsql"); ("postgresql", "postgres"); ("mysql", "mysql"); ("mariadb", "mysql")]
  else None.

(* ------------------------------------------------------------------ *)
(** ** query_scrubber.py *)

Definition REDACTION_PLACEHOLDER : string := "<redacted>".
Definition quote : ascii := "'"%char.

(** length of the rest of a single-quoted literal once it is open: any run of
    non-quotes and doubled quotes, then a quote; a doubled quote closes the
    literal when nothing later does *)
Fixpoint quoted_length (s : string) : option nat :=
  match s with
  | EmptyString => None
  | String c s' =>
      if bool_decide (c = quote) then
        match s' with
        | String c' s'' =>
            if bool_decide (c' = quote) then
              match quoted_length s'' with
              | Some n => Some (S (S n))
              | None => Some 1%nat
              end
            else Some 1%nat
        | EmptyString => Some 1%nat
        end
      else S <$> quoted_length s'
  end.

Fixpoint digit_run (s : string) : nat :=
  match s with
  | String c s' => if is_digit c then S (digit_run s') else 0
  | EmptyString => 0
  end.
Fixpoint str_drop (n : nat) (s : string) : string :=
  match n, s with
  | S n, String _ s => str_drop n s
  | _, _ => s
  end.
Definition word_or_dot (o : option ascii) : bool :=
  opt_word o || bool_decide (o = Some "."%char).

(** length of a bare number at a position: digits, an optional fraction, and no
    word character or dot on either side *)
Definition number_length (prev : option ascii) (s : string) : option nat :=
  if word_or_dot prev then None
  else match digit_run s with
       | 0%nat => None
       | n =>
           let rest := str_drop n s in
           let len :=
             match rest with
             | String "." frac => match digit_run frac with 0%nat => n | m => (n + 1 + m)%nat end
             | _ => n
             end in
           if word_or_dot (str_head (str_drop len s)) then None else Some len
       end.

(** length of the literal [_FALLBACK_LITERAL_RE] matches at a position *)
Definition literal_length (prev : option ascii) (s : string) : option nat :=
  match s with
  | String c s' =>
      if bool_decide (c = quote) then
        match quoted_length s' with Some n => Some (S n) | None => number_length prev s end
      else number_length prev s
  | EmptyString => None
  end.

(** [_FALLBACK_LITERAL_RE.sub]: [skip] characters are still inside a match *)
Fixpoint scrub_from (skip : nat) (prev : option ascii) (s : string) : string :=
  match s with
  | EmptyString => ""
  | String c s' =>
      match skip with
      | S skip => scrub_from skip (Some c) s'
      | 0 =>
          match literal_length prev s with
          | Some (S n) => REDACTION_PLACEHOLDER +:+ scrub_from n (Some c) s'
          | _ => String c (scrub_from 0 (Some c) s')
          end
      end
  end.
Definition regex_scrub (text : string) : string := scrub_from 0 None text.

(** what the modules use of sqlglot: trees, their literals and their
    statement kinds, parsing and generation, which may fail *)
Class SqlGlot : Type := {
  sg_expr : Type;
  sg_parse_one : string → option string → option sg_expr;
  sg_is_statement : sg_expr → bool;
  sg_is_literal : sg_expr → bool;
  sg_literal_string : string → sg_expr;
  sg_transform : (sg_expr → sg_expr) → sg_expr → option sg_expr;
  sg_sql : sg_expr → option string → option string
}.

Section scrubber.
Context `{SqlGlot}.

(** [_redact_literal] *)
Definition redact_literal (node : sg_expr) : sg_expr :=
  if sg_is_literal node then sg_literal_string REDACTION_PLACEHOLDER else node.

Definition scrub_sql_literals (text : string) (dialect : option string) : string :=
  if negb (truthy text) || negb (truthy (str_strip text)) then text
  else
    match sg_parse_one text dialect with
    | None => regex_scrub text
    | Some parsed =>
        if negb (sg_is_statement parsed) then regex_scrub text
        else
          match sg_transform redact_literal parsed with
          | None => regex_scrub text
          | Some t => default (regex_scrub text) (sg_sql t dialect)
          end
    end.
End scrubber.

(* ------------------------------------------------------------------ *)
(** ** data_policy.py *)

Record DataPolicyConfig : Type := {
  dp_sensitive_field_patterns : list regex;
  dp_free_text_sql_field_patterns : list regex;
  dp_field_allowlist : option (list string);
  dp_field_denylist : list string;
  dp_max_rows : Z;
  dp_max_columns : Z;
  dp_max_result_bytes : Z
}.

Definition default_policy_config : DataPolicyConfig :=
  {| dp_sensitive_field_patterns := DEFAULT_SENSITIVE_FIELD_PATTERNS;
     dp_free_text_sql_field_patterns := DEFAULT_FREE_TEXT_SQL_FIELD_PATTERNS;
     dp_field_allowlist := None; dp_field_denylist := [];
     dp_max_rows := 100; dp_max_columns := 50; dp_max_result_bytes := 512000 |}.

Definition row : Type := list (string * json).

Record MinimizedResult : Type := {
  mr_rows : list row;
  mr_masked_fields : list string;
  mr_truncated : bool;
  mr_literal_scrubbed_fields : list string
}.

(** [sorted(set)] *)
Fixpoint insert_sorted (x : string) (l : list string) : list string :=
  match l with
  | [] => [x]
  | y :: l' => if bool_decide (x = y) then l
               else if String.leb x y then x :: l else y :: insert_sorted x l'
  end.
Definition sorted_set (l : list string) : list string := foldr insert_sorted [] l.

Definition MASK : json := JStr "***MASKED***".

Section minimizer.
Context `{SqlGlot} (cfg : DataPolicyConfig).

Definition is_sensitive (field_name : string) : bool :=
  rsearch (ralts (dp_sensitive_field_patterns cfg)) field_name.

(** [self._free_text_re] is [None] for an empty list *)
Definition is_free_text_sql (field_name : string) : bool :=
  match dp_free_text_sql_field_patterns cfg with
  | [] => false
  | patterns => rsearch (ralts patterns) field_name
  end.

(** what one pass over a row has accumulated *)
Record RowState : Type := {
  rw_clean : row;
  rw_col_count : Z;
  rw_masked : list string;
  rw_scrubbed : list string;
  rw_truncated : bool
}.

(** the loop over [row.items()]; [break] ends it *)
Fixpoint minimize_row (dialect : option string) (items : row) (st : RowState) : RowState :=
  match items with
  | [] => st
  | (k, v) :: items =>
      if match dp_field_allowlist cfg with
         | Some allowed => negb (mem k allowed) | None => false end
      then minimize_row dialect items st
      else if mem k (dp_field_denylist cfg) then minimize_row dialect items st
      else if (dp_max_columns cfg <=? rw_col_count st)%Z then
        {| rw_clean := rw_clean st; rw_col_count := rw_col_count st; rw_masked := rw_masked st;
           rw_scrubbed := rw_scrubbed st; rw_truncated := true |}
      else
        let st :=
          if is_sensitive k then
            {| rw_clean := dict_set k MASK (rw_clean st); rw_col_count := rw_col_count st;
               rw_masked := k :: rw_masked st; rw_scrubbed := rw_scrubbed st;
               rw_truncated := rw_truncated st |}
          else
            match v with
            | JStr s =>
                if is_free_text_sql k then
                  let scrubbed := scrub_sql_literals s dialect in
                  {| rw_clean := dict_set k (JStr scrubbed) (rw_clean st);
                     rw_col_count := rw_col_count st; rw_masked := rw_masked st;
                     rw_scrubbed := if bool_decide (scrubbed = s) then rw_scrubbed st
                                    else k :: rw_scrubbed st;
                     rw_truncated := rw_truncated st |}
                else {| rw_clean := dict_set k v (rw_clean st); rw_col_count := rw_col_count st;
                        rw_masked := rw_masked st; rw_scrubbed := rw_scrubbed st;
                        rw_truncated := rw_truncated st |}
            | _ => {| rw_clean := dict_set k v (rw_clean st); rw_col_count := rw_col_count st;
                      rw_masked := rw_masked st; rw_scrubbed := rw_scrubbed st;
                      rw_truncated := rw_truncated st |}
            end in
        minimize_row dialect items
          {| rw_clean := rw_clean st; rw_col_count := rw_col_count st + 1;
             rw_masked := rw_masked st; rw_scrubbed := rw_scrubbed st;
             rw_truncated := rw_truncated st |}
  end.

(** the loop over the rows, [masked]/[scrubbed]/[truncated] shared between them *)
Fixpoint minimize_rows (dialect : option string) (rows : list row) (masked scrubbed : list string)
    (truncated : bool) : list row * list string * list string * bool :=
  match rows with
  | [] => ([], masked, scrubbed, truncated)
  | r :: rows =>
      let st := minimize_row dialect r
        {| rw_clean := []; rw_col_count := 0; rw_masked := masked; rw_scrubbed := scrubbed;
           rw_truncated := truncated |} in
      let '(out, masked, scrubbed, truncated) :=
        minimize_rows dialect rows (rw_masked st) (rw_scrubbed st) (rw_truncated st) in
      (rw_clean st :: out, masked, scrubbed, truncated)
  end.

(** [max_rows or cfg.max_rows] *)
Definition row_cap (max_rows : option Z) : Z :=
  match max_rows with
  | Some n => if bool_decide (n = 0%Z) then dp_max_rows cfg else n
  | None => dp_max_rows cfg
  end.

(** [DataMinimizer.minimize], for a non-negative cap *)
Definition minimize (rows : list row) (max_rows : option Z) (dialect : option string)
    : MinimizedResult :=
  let cap := row_cap max_rows in
  let truncated := (cap <? Z.of_nat (length rows))%Z in
  let rows := take (Z.to_nat cap) rows in
  let '(out, masked, scrubbed, truncated) := minimize_rows dialect rows [] [] truncated in
  {| mr_rows := out; mr_masked_fields := sorted_set masked; mr_truncated := truncated;
     mr_literal_scrubbed_fields := sorted_set scrubbed |}.

(** [DataMinimizer.apply] *)
Definition minimizer_apply (rows : list row) (max_rows : option Z)
    : list row * list string * bool :=
  let outcome := minimize rows max_rows None in
  (mr_rows outcome, mr_masked_fields outcome, mr_truncated outcome).
End minimizer.

Example sensitive_ex :
  map (is_sensitive default_policy_config)
    ["password_hash"; "Account-Number"; "nin"; "running"; "email"; "query_text"]
  = [true; true; true; false; true; false].
Proof. vm_compute. reflexivity. Qed.
Example free_text_ex :
  map (is_free_text_sql default_policy_config)
    ["blocked_query"; "query_id"; "query_hash"; "error_message"; "sql_text"; "context"]
  = [true; false; false; true; true; false].
Proof. vm_compute. reflexivity. Qed.
Example scrub_ex :
  regex_scrub "pid 42 v1.5 id=7.25, name 'O''Brien' x9"
  = "pid <redacted> v1.5 id=<redacted>, name <redacted> x9".
Proof. vm_compute. reflexivity. Qed.

(* ------------------------------------------------------------------ *)
(** ** What minimisation does, declaratively *)

Section minimizer_spec.
Context `{SqlGlot} (cfg : DataPolicyConfig).

(** the columns that may pass, and what happens to one *)
Definition allowed_column (kv : string * json) : bool :=
  match dp_field_allowlist cfg with Some l => mem kv.1 l | None => true end
  && negb (mem kv.1 (dp_field_denylist cfg)).
Definition treat (dialect : option string) (kv : string * json) : string * json :=
  (kv.1, if is_sensitive cfg kv.1 then MASK
         else match kv.2 with
              | JStr s => if is_free_text_sql cfg kv.1 then JStr (scrub_sql_literals s dialect)
                          else kv.2
              | v => v
              end).
Definition clean_row (dialect : option string) (r : row) : row :=
  map (treat dialect) (take (Z.to_nat (dp_max_columns cfg)) (List.filter allowed_column r)).

Lemma minimize_row_spec dialect items : ∀ st,
  (0 ≤ dp_max_columns cfg)%Z → rw_col_count st = Z.of_nat (length (rw_clean st)) →
  (Z.of_nat (length (rw_clean st)) ≤ dp_max_columns cfg)%Z →
  NoDup ((rw_clean st).*1 ++ items.*1) →
  rw_clean (minimize_row cfg dialect items st) =
    rw_clean st ++ map (treat dialect)
      (take (Z.to_nat (dp_max_columns cfg) - length (rw_clean st)) (List.filter allowed_column items)) ∧
  rw_truncated (minimize_row cfg dialect items st) =
    rw_truncated st || (dp_max_columns cfg <? rw_col_count st
                          + Z.of_nat (length (List.filter allowed_column items)))%Z.
Proof.
  induction items as [|[k v] items IH]; intros st Hm Hc Hle Hnd.
  - cbn. rewrite take_nil app_nil_r. split; [done|].
    destruct (rw_truncated st); [done|]. symmetry. apply Z.ltb_ge. lia.
  - assert (NoDup ((rw_clean st).*1 ++ items.*1)) as Hnd'.
    { cbn in Hnd. rewrite -Permutation_middle in Hnd. by apply NoDup_cons in Hnd as [_ ?]. }
    assert (k ∉ (rw_clean st).*1) as Hk.
    { cbn in Hnd. rewrite -Permutation_middle in Hnd. apply NoDup_cons in Hnd as [Hk _].
      intros Hin. apply Hk, elem_of_app. by left. }
    assert (allowed_column (k, v) =
      negb (match dp_field_allowlist cfg with
            | Some allowed => negb (mem k allowed) | None => false end)
      && negb (mem k (dp_field_denylist cfg))) as Hal.
    { unfold allowed_column. cbn. destruct (dp_field_allowlist cfg); by rewrite ?negb_involutive. }
    cbn [minimize_row List.filter]. rewrite Hal.
    destruct (match dp_field_allowlist cfg with
              | Some allowed => negb (mem k allowed) | None => false end);
      cbn [negb andb]; [by apply IH|].
    destruct (mem k (dp_field_denylist cfg)); cbn [negb]; [by apply IH|].
    destruct (Z.leb_spec (dp_max_columns cfg) (rw_col_count st)).
    + cbn. replace (Z.to_nat (dp_max_columns cfg) - length (rw_clean st))%nat with 0%nat by lia.
      cbn. rewrite app_nil_r. split; [done|].
      symmetry. apply orb_true_iff. right. apply Z.ltb_lt. lia.
    + match goal with |- rw_clean (minimize_row _ _ _ ?s) = _ ∧ _ => set (st' := s) end.
      assert (rw_clean st' = rw_clean st ++ [treat dialect (k, v)] ∧
              rw_col_count st' = (rw_col_count st + 1)%Z ∧ rw_truncated st' = rw_truncated st)
        as (H1 & H2 & H3).
      { subst st'. unfold treat; cbn [fst snd].
        destruct (is_sensitive cfg k); [|destruct v; try destruct (is_free_text_sql cfg k)];
          cbn; by rewrite dict_set_fresh. }
      destruct (IH st' Hm) as [IH1 IH2].
      * rewrite H2 H1 length_app Hc. cbn. lia.
      * rewrite H1 length_app. cbn. lia.
      * rewrite H1 fmap_app -app_assoc. exact Hnd.
      * rewrite IH1 IH2 H1 H2 H3 length_app. cbn [length].
        replace (Z.to_nat (dp_max_columns cfg) - length (rw_clean st))%nat
          with (S (Z.to_nat (dp_max_columns cfg) - (length (rw_clean st) + 1)))%nat by lia.
        cbn [take map]. rewrite -app_assoc. split; [done|]. f_equal. f_equal. lia.
Qed.

Lemma minimize_rows_spec dialect rows : ∀ masked scrubbed truncated,
  (0 ≤ dp_max_columns cfg)%Z → Forall (λ r, NoDup r.*1) rows →
  let '(out, _, _, t) := minimize_rows cfg dialect rows masked scrubbed truncated in
  out = map (clean_row dialect) rows ∧
  t = truncated || existsb (λ r, dp_max_columns cfg <?
        Z.of_nat (length (List.filter allowed_column r)))%Z rows.
Proof.
  induction rows as [|r rows IH]; intros masked scrubbed truncated Hm Hnd; cbn [minimize_rows].
  - cbn. by rewrite orb_false_r.
  - apply Forall_cons in Hnd as [Hr Hnd].
    set (st0 := {| rw_clean := []; rw_col_count := 0; rw_masked := masked;
                   rw_scrubbed := scrubbed; rw_truncated := truncated |}).
    destruct (minimize_row_spec dialect r st0 Hm eq_refl Hm Hr) as [H1 H2].
    specialize (IH (rw_masked (minimize_row cfg dialect r st0))
      (rw_scrubbed (minimize_row cfg dialect r st0))
      (rw_truncated (minimize_row cfg dialect r st0)) Hm Hnd).
    destruct (minimize_rows cfg dialect rows _ _ _) as [[[out m] s] t]. destruct IH as [-> ->].
    rewrite H1 H2. cbn. rewrite Nat.sub_0_r -orb_assoc. done.
Qed.
End minimizer_spec.

(** Minimisation is equivalent to its declarative description: the rows
    are the first [cap] rows; of each, the columns that pass the allow and deny
    lists, at most [max_columns] of them, in order; a sensitive field's value is
    the mask whatever else matches, a textual free-text SQL field is scrubbed and
    any other value is untouched; the result is marked truncated exactly when
    rows or columns were cut. *)
Theorem minimize_equiv `{SqlGlot} cfg rows max_rows dialect :
  (0 ≤ dp_max_columns cfg)%Z → Forall (λ r, NoDup r.*1) rows →
  let cap := row_cap cfg max_rows in
  let kept := take (Z.to_nat cap) rows in
  mr_rows (minimize cfg rows max_rows dialect) = map (clean_row cfg dialect) kept ∧
  mr_truncated (minimize cfg rows max_rows dialect) =
    (cap <? Z.of_nat (length rows))%Z ||
    existsb (λ r, dp_max_columns cfg <? Z.of_nat (length (List.filter (allowed_column cfg) r)))%Z kept.
Proof.
  intros Hm Hnd. cbn zeta. unfold minimize.
  pose proof (minimize_rows_spec cfg dialect (take (Z.to_nat (row_cap cfg max_rows)) rows) [] []
    (row_cap cfg max_rows <? Z.of_nat (length rows))%Z Hm (Forall_take _ _ _ Hnd)) as Hs.
  destruct (minimize_rows _ _ _ _ _ _) as [[[out m] s] t]. by destruct Hs as [-> ->].
Qed.

(** a parser that understands nothing, for evaluation *)
Definition no_sqlglot : SqlGlot :=
  {| sg_expr := unit; sg_parse_one := λ _ _, None; sg_is_statement := λ _, false;
     sg_is_literal := λ _, false; sg_literal_string := λ _, tt; sg_transform := λ _ e, Some e;
     sg_sql := λ _ _, None |}.
Definition example_rows : list row :=
  [[("query_text", JStr "select 42"); ("password_hash", JStr "x"); ("pid", JInt 7)];
   [("query_text", JNull)]].

Lemma minimize_equiv_witness :
  mr_rows (@minimize no_sqlglot default_policy_config example_rows (Some 1%Z) None)
    = [[("query_text", JStr "select <redacted>"); ("password_hash", JStr "***MASKED***");
        ("pid", JInt 7)]].
Proof.
  assert (Forall (λ r : row, NoDup r.*1) example_rows) as Hnd.
  { repeat constructor; rewrite ?list_elem_of_In; cbn; intuition discriminate. }
  rewrite (proj1 (@minimize_equiv no_sqlglot default_policy_config example_rows (Some 1%Z) None
                    ltac:(cbn; lia) Hnd)).
  vm_compute. reflexivity.
Defined.

(** C39: nothing sensitive passes: whatever the rows, limits and SQL parser,
    in every returned row a field whose name matches a sensitive pattern has
    the mask as its value, a denied field does not occur, with an allow list
    only listed fields occur, and there are at most [max_columns] fields and at
    most [cap] rows. *)
Theorem minimized_rows_safe `{SqlGlot} cfg rows max_rows dialect r k v :
  (0 ≤ dp_max_columns cfg)%Z → Forall (λ r, NoDup r.*1) rows →
  r ∈ mr_rows (minimize cfg rows max_rows dialect) → (k, v) ∈ r →
  (is_sensitive cfg k = true → v = MASK) ∧
  (k ∉ dp_field_denylist cfg) ∧
  (∀ l, dp_field_allowlist cfg = Some l → k ∈ l) ∧
  (Z.of_nat (length r) ≤ dp_max_columns cfg)%Z ∧
  (Z.of_nat (length (mr_rows (minimize cfg rows max_rows dialect)))
     ≤ Z.max 0 (row_cap cfg max_rows))%Z.
Proof.
  intros Hm Hnd. rewrite (proj1 (minimize_equiv cfg rows max_rows dialect Hm Hnd)).
  intros Hr Hkv. apply list_elem_of_fmap in Hr as (r0 & -> & _).
  pose proof Hkv as Hkv'. unfold clean_row in Hkv.
  apply list_elem_of_fmap in Hkv as ([k0 v0] & [= -> ->] & Hin).
  apply elem_of_take in Hin as (i & Hin & _). apply list_elem_of_lookup_2 in Hin.
  apply filter_elem_of in Hin as [_ Ha]. unfold allowed_column in Ha. cbn in Ha.
  apply andb_true_iff in Ha as [Hal Hdn]. split_and!.
  - cbn. by intros ->.
  - by apply negb_true_iff, bool_decide_eq_false in Hdn.
  - intros l Hl. rewrite Hl in Hal. by apply bool_decide_eq_true in Hal.
  - unfold clean_row. rewrite length_map length_take. lia.
  - rewrite length_map length_take. lia.
Qed.

Lemma minimized_rows_safe_witness :
  JStr "***MASKED***" = MASK ∧
  ("password_hash", JStr "***MASKED***") ∈ [("query_text", JStr "select <redacted>");
    ("password_hash", JStr "***MASKED***"); ("pid", JInt 7)].
Proof.
  assert (("password_hash", JStr "***MASKED***") ∈ [("query_text", JStr "select <redacted>");
    ("password_hash", JStr "***MASKED***"); ("pid", JInt 7)]) as Hin by set_solver.
  split; [|exact Hin].
  apply (@minimized_rows_safe no_sqlglot default_policy_config example_rows (Some 1%Z) None
           [("query_text", JStr "select <redacted>"); ("password_hash", JStr "***MASKED***");
            ("pid", JInt 7)] "password_hash" (JStr "***MASKED***")).
  - cbn. lia.
  - repeat constructor; rewrite ?list_elem_of_In; cbn; intuition discriminate.
  - vm_compute. left.
  - exact Hin.
  - vm_compute. reflexivity.
Defined.

(* ------------------------------------------------------------------ *)
(** ** The fallback scrubber *)

Fixpoint count_char (c : ascii) (s : string) : nat :=
  match s with
  | EmptyString => 0
  | String d s => (if bool_decide (d = c) then 1 else 0) + count_char c s
  end.

Lemma count_char_app c s t : count_char c (s +:+ t) = (count_char c s + count_char c t)%nat.
Proof. induction s as [|d s IH]; cbn; [done|]. rewrite IH. lia. Qed.

Lemma quoted_length_none s : quoted_length s = None → count_char quote s = 0%nat.
Proof.
  induction s as [|c s IH]; [done|]. cbn [quoted_length count_char]. case_bool_decide.
  - destruct s as [|d s]; [done|]. case_bool_decide; [|done]. by destruct (quoted_length s).
  - intros Hn%fmap_None. by rewrite IH.
Qed.

Lemma number_length_digit prev c s n :
  number_length prev (String c s) = Some n → is_digit c = true.
Proof. unfold number_length. cbn [digit_run]. destruct (word_or_dot prev), (is_digit c); done. Qed.

Lemma digit_not_quote c : is_digit c = true → c ≠ quote.
Proof. intros H ->. vm_compute in H. discriminate. Qed.

Lemma scrub_no_quote skip prev s :
  count_char quote s = 0%nat → count_char quote (scrub_from skip prev s) = 0%nat.
Proof.
  revert skip prev. induction s as [|c s IH]; intros skip prev; [done|].
  cbn [count_char]. intros H. case_bool_decide as Hc; [done|]. cbn in H.
  cbn [scrub_from]. destruct skip as [|skip]; [|by apply IH].
  destruct (literal_length prev (String c s)) as [[|n]|]; [|rewrite count_char_app|];
    cbn [count_char]; rewrite ?bool_decide_false //= ?IH //.
Qed.

Lemma scrub_quotes skip prev s : (count_char quote (scrub_from skip prev s) ≤ 1)%nat.
Proof.
  revert skip prev. induction s as [|c s IH]; intros skip prev; [cbn; lia|].
  cbn [scrub_from]. destruct skip as [|skip]; [|apply IH].
  destruct (literal_length prev (String c s)) as [[|n]|] eqn:El.
  - unfold literal_length in El. case_bool_decide as Hc.
    + destruct (quoted_length s); [done|]. apply number_length_digit, digit_not_quote in El. done.
    + cbn [count_char]. rewrite bool_decide_false //. apply IH.
  - rewrite count_char_app. cbn. apply IH.
  - cbn [count_char]. case_bool_decide as Hc; [|apply IH]. cbn.
    assert (count_char quote s = 0%nat) as Hs.
    { unfold literal_length in El. rewrite bool_decide_true // in El.
      destruct (quoted_length s) eqn:Eq; [done|]. by apply quoted_length_none. }
    rewrite scrub_no_quote //.
Qed.

Lemma scrub_clean prev s :
  count_char quote s = 0%nat → str_all (λ c, negb (is_digit c)) s = true →
  scrub_from 0 prev s = s.
Proof.
  revert prev. induction s as [|c s IH]; intros prev; [done|]. cbn [count_char str_all].
  intros Hq [Hd Hs]%andb_true_iff. case_bool_decide as Hc; [done|].
  cbn [scrub_from]. unfold literal_length. rewrite (bool_decide_false (c = quote)) //.
  destruct (number_length prev (String c s)) eqn:En.
  - apply number_length_digit in En. by rewrite En in Hd.
  - by rewrite IH.
Qed.

(** The fallback scrubber leaves no complete quoted literal: whatever the
    text, its output contains at most one single quote, so nothing that was
    between two quotes survives; text with no quote and no digit is returned
    unchanged. *)
Theorem fallback_scrub_leaves_no_quoted_literal text :
  (count_char quote (regex_scrub text) ≤ 1)%nat ∧
  (count_char quote text = 0%nat → str_all (λ c, negb (is_digit c)) text = true →
   regex_scrub text = text).
Proof. split; [apply scrub_quotes|apply scrub_clean]. Qed.

(* ------------------------------------------------------------------ *)
(** ** sql_validator.py *)

(** what the validator reads of a parsed statement, and the statement with
    another LIMIT; that the new LIMIT is the one given is sqlglot's documented
    behaviour of [limit] *)
Inductive LimitView : Type := NoLimit | LimitInt (n : Z) | LimitOther.

Class SqlStatements : Type := {
  sv_stmt : Type;
  sv_parse : string → string → option (list (option sv_stmt));
  sv_is_select : sv_stmt → bool;
  sv_has_into : sv_stmt → bool;
  sv_function_names : sv_stmt → list string;
  sv_node_texts : sv_stmt → list string;
  sv_table_names : sv_stmt → list string;
  sv_limit : sv_stmt → LimitView;
  sv_with_limit : Z → sv_stmt → sv_stmt;
  sv_to_sql : sv_stmt → string → string;
  sv_limit_set : ∀ n s, sv_limit (sv_with_limit n s) = LimitInt n
}.

Definition DANGEROUS_FUNCTIONS : list string :=
  ["xp_cmdshell"; "sp_configure"; "opendatasource"; "openrowset"; "openquery"; "pg_read_file";
   "pg_read_binary_file"; "pg_ls_dir"; "lo_import"; "lo_export"; "dblink"; "load_file";
   "into_outfile"; "sleep"; "pg_sleep"; "waitfor"; "benchmark"].
Definition MAX_STATEMENT_LENGTH : nat := Z.to_nat 4000.

Record ValidatedReadOnlySql : Type := {
  vs_normalized_sql : string;
  vs_referenced_tables : list string
}.

Section sql_validator.
Context `{SqlStatements}.

(** the statement whose text is returned, capped *)
Definition cap_limit (max_result_rows : Z) (s : sv_stmt) : sv_stmt :=
  match sv_limit s with
  | NoLimit => sv_with_limit max_result_rows s
  | LimitInt requested =>
      if (max_result_rows <? requested)%Z then sv_with_limit max_result_rows s else s
  | LimitOther => sv_with_limit max_result_rows s
  end.

(** the checks on the one statement *)
Definition check_statement (s : sv_stmt) : res exn unit :=
  if negb (sv_is_select s) then
    Err (numi_error SECURITY_BLOCKED
           "Only SELECT statements are permitted through execute_readonly_sql.")
  else if sv_has_into s then
    Err (numi_error SECURITY_BLOCKED "SELECT ... INTO is not permitted.")
  else
    match first_where (λ n, mem n DANGEROUS_FUNCTIONS) (map str_lower (sv_function_names s)) with
    | Some name => Err (numi_error SECURITY_BLOCKED
                          ("Use of function '" +:+ name +:+ "' is not permitted."))
    | None =>
        if existsb (λ t, existsb (λ bad, str_contains bad t) DANGEROUS_FUNCTIONS)
             (map str_lower (sv_node_texts s))
        then Err (numi_error SECURITY_BLOCKED "Statement references a disallowed construct.")
        else Ok tt
    end.

Definition validated_statement (sql dialect : string) : res exn sv_stmt :=
  if (MAX_STATEMENT_LENGTH <? String.length sql)%nat then
    Err (numi_error INVALID_ARGUMENTS "SQL statement is too long.")
  else
    match sv_parse sql dialect with
    | None => Err (numi_error INVALID_ARGUMENTS "Could not parse SQL")
    | Some statements =>
        match omap id statements with
        | [s] => _ ← check_statement s; Ok s
        | _ => Err (numi_error SECURITY_BLOCKED
            "Only a single SQL statement is permitted — reject multi-statement input.")
        end
    end.

Definition validate_readonly_sql (sql dialect : string) (max_result_rows : Z)
    : res exn ValidatedReadOnlySql :=
  s ← validated_statement sql dialect;
  Ok {| vs_normalized_sql := sv_to_sql (cap_limit max_result_rows s) dialect;
        vs_referenced_tables := sorted_set (sv_table_names s) |}.
End sql_validator.

(** The read-only SQL gate: an accepted text parses to exactly one
    statement, a SELECT without INTO that names no dangerous function and whose
    nodes mention none, and what is executed is that statement with a LIMIT of
    at most the tool's row cap; every rejection is SECURITY_BLOCKED or
    INVALID_ARGUMENTS. *)
Theorem readonly_sql_gate `{SqlStatements} sql dialect max_rows :
  match validate_readonly_sql sql dialect max_rows with
  | Ok v => ∃ statements s s',
      sv_parse sql dialect = Some statements ∧ omap id statements = [s] ∧
      sv_is_select s = true ∧ sv_has_into s = false ∧
      (∀ f, f ∈ sv_function_names s → str_lower f ∉ DANGEROUS_FUNCTIONS) ∧
      (∀ t bad, t ∈ sv_node_texts s → bad ∈ DANGEROUS_FUNCTIONS →
         str_contains bad (str_lower t) = false) ∧
      (s' = s ∨ s' = sv_with_limit max_rows s) ∧
      (∃ n, sv_limit s' = LimitInt n ∧ (n ≤ max_rows)%Z) ∧
      vs_normalized_sql v = sv_to_sql s' dialect
  | Err e => exn_code e = Some SECURITY_BLOCKED ∨ exn_code e = Some INVALID_ARGUMENTS
  end.
Proof.
  unfold validate_readonly_sql, validated_statement.
  destruct (MAX_STATEMENT_LENGTH <? String.length sql)%nat; [by right|].
  destruct (sv_parse sql dialect) as [sts|] eqn:Ep; [|by right].
  destruct (omap id sts) as [|s [|s2 l]] eqn:Eo; [by left| |by left].
  unfold check_statement. destruct (sv_is_select s) eqn:Es; [|by left].
  destruct (sv_has_into s) eqn:Ei; [by left|].
  destruct (first_where _ _) as [nm|] eqn:Ef; [by left|].
  destruct (existsb _ (map str_lower (sv_node_texts s))) eqn:Ex; [by left|]. cbn.
  exists sts, s, (cap_limit max_rows s). split_and!; try done.
  - intros f Hf Hd. assert (str_lower f ∈ map str_lower (sv_function_names s)) as Hin
      by (apply list_elem_of_fmap; eauto).
    pose proof (first_where_none _ _ _ Ef Hin) as Hn. cbn in Hn.
    by apply bool_decide_eq_false in Hn.
  - intros t bad Ht Hb. destruct (str_contains bad (str_lower t)) eqn:Ec; [|done].
    assert (existsb (λ t, existsb (λ bad, str_contains bad t) DANGEROUS_FUNCTIONS)
              (map str_lower (sv_node_texts s)) = true) as Ht'; [|congruence].
    apply existsb_exists. exists (str_lower t). split.
    + apply list_elem_of_In, list_elem_of_fmap. eauto.
    + apply existsb_exists. exists bad. by rewrite -list_elem_of_In.
  - unfold cap_limit. repeat case_match; auto.
  - unfold cap_limit. destruct (sv_limit s) as [|n|] eqn:El; rewrite ?sv_limit_set; eauto with lia.
    destruct (Z.ltb_spec max_rows n); [rewrite sv_limit_set; eauto with lia|eauto with lia].
Qed.
