(* ===== verification/Discovery.v ===== *)
(** The discovered catalog: the [CatalogStore] interface of
    [gateway/domain/catalog.py] with its two implementations (in memory, and
    [gateway/infrastructure/catalog_store.py] over the control database), and
    [gateway/domain/discovery.py], proved against the interface. *)
From S2P Require Import Prelude Json Models ToolCatalog Servers Policy.

(* ------------------------------------------------------------------ *)
(** ** CatalogStore *)

(** [get] may change the state: the database store loads lazily *)
Class CatalogStore (C : Type) : Type := {
  store_get : string → C → option ServerCatalog * C;
  store_put : ServerCatalog → C → C;
  store_all : C → list ServerCatalog * C
}.

(** what a store promises its clients *)
Class CatalogStoreLaws (C : Type) `{CatalogStore C} : Prop := {
  get_put : ∀ id c s, (store_get id (store_put c s)).1 =
    if decide (id = sc_server_id c) then Some c else (store_get id s).1;
  get_stable : ∀ id id' s, (store_get id' (store_get id s).2).1 = (store_get id' s).1
}.

(** *** InMemoryCatalogStore *)

Record InMemoryCatalog : Type := { by_server : list (string * ServerCatalog) }.

#[export] Instance in_memory_catalog : CatalogStore InMemoryCatalog := {|
  store_get id s := (dict_get id (by_server s), s);
  store_put c s := {| by_server := dict_set (sc_server_id c) c (by_server s) |};
  store_all s := (map snd (by_server s), s)
|}.

#[export] Instance in_memory_catalog_laws : CatalogStoreLaws InMemoryCatalog.
Proof.
  split; intros id; [intros c s|done]. cbn. destruct (decide (id = sc_server_id c)) as [->|Hne].
  - apply dict_get_set_eq.
  - by apply dict_get_set_ne.
Qed.

(** *** DbCatalogStore *)

(** pydantic's [model_dump(mode="json")] and [model_validate] of [ServerCatalog];
    [None] where the row does not validate *)
Class CatalogCodec : Type := {
  catalog_dump : ServerCatalog → json;
  catalog_validate : json → option ServerCatalog
}.

Record DbCatalog : Type := {
  dbc_rows : gmap string json;
  dbc_cache : list (string * ServerCatalog);
  dbc_loaded : bool
}.

Section db_store.
Context `{CatalogCodec}.

(** [_ensure_loaded]: a row that does not validate is skipped *)
Definition load_row (cache : list (string * ServerCatalog)) (row : string * json)
    : list (string * ServerCatalog) :=
  match catalog_validate row.2 with
  | Some c => dict_set row.1 c cache
  | None => cache
  end.
Definition ensure_loaded (s : DbCatalog) : DbCatalog :=
  if dbc_loaded s then s
  else {| dbc_rows := dbc_rows s;
          dbc_cache := foldl load_row (dbc_cache s) (map_to_list (dbc_rows s));
          dbc_loaded := true |}.

Definition db_store_get (id : string) (s : DbCatalog) : option ServerCatalog * DbCatalog :=
  let s := ensure_loaded s in (dict_get id (dbc_cache s), s).
Definition db_store_put (c : ServerCatalog) (s : DbCatalog) : DbCatalog :=
  let s := ensure_loaded s in
  {| dbc_rows := <[sc_server_id c := catalog_dump c]> (dbc_rows s);
     dbc_cache := dict_set (sc_server_id c) c (dbc_cache s); dbc_loaded := true |}.
Definition db_store_all (s : DbCatalog) : list ServerCatalog * DbCatalog :=
  let s := ensure_loaded s in (map snd (dbc_cache s), s).

#[export] Instance db_catalog : CatalogStore DbCatalog :=
  {| store_get := db_store_get; store_put := db_store_put; store_all := db_store_all |}.

Lemma ensure_loaded_idemp s : ensure_loaded (ensure_loaded s) = ensure_loaded s.
Proof. unfold ensure_loaded. by destruct (dbc_loaded s) eqn:E; cbn; rewrite ?E. Qed.

#[export] Instance db_catalog_laws : CatalogStoreLaws DbCatalog.
Proof.
  split.
  - intros id c s. cbn. destruct (decide (id = sc_server_id c)) as [->|Hne].
    + apply dict_get_set_eq.
    + by apply dict_get_set_ne.
  - intros id id' s. cbn. by rewrite ensure_loaded_idemp.
Qed.

(** the store a restarted process opens on the same database *)
Definition restart (s : DbCatalog) : DbCatalog :=
  {| dbc_rows := dbc_rows s; dbc_cache := []; dbc_loaded := false |}.

Lemma foldl_load_row id l cache :
  NoDup l.*1 → dict_get id (foldl load_row cache l) =
    match dict_get id l with
    | Some p => match catalog_validate p with Some c => Some c | None => dict_get id cache end
    | None => dict_get id cache
    end.
Proof.
  revert cache. induction l as [|[k p] l IH]; intros cache; cbn; [done|].
  intros [Hk Hnd]%NoDup_cons. rewrite IH //. unfold load_row. cbn [fst snd].
  destruct (decide (id = k)) as [->|Hne].
  - rewrite (proj2 (dict_get_none k l) Hk).
    destruct (catalog_validate p); [by rewrite dict_get_set_eq|done].
  - destruct (dict_get id l) as [q|]; [destruct (catalog_validate q); [done|]|];
      destruct (catalog_validate p); rewrite ?dict_get_set_ne //.
Qed.

Lemma dict_get_map_to_list (m : gmap string json) id : dict_get id (map_to_list m) = m !! id.
Proof.
  destruct (m !! id) as [p|] eqn:E.
  - apply dict_get_nodup; [apply NoDup_fst_map_to_list|]. by apply elem_of_map_to_list.
  - apply dict_get_none. intros Hin. apply list_elem_of_fmap in Hin as ([k p] & -> & Hkp).
    apply elem_of_map_to_list in Hkp. cbn in E. congruence.
Qed.
End db_store.

Lemma ensure_loaded_rows `{CatalogCodec} s : dbc_rows (ensure_loaded s) = dbc_rows s.
Proof. unfold ensure_loaded. by destruct (dbc_loaded s). Qed.

(** The catalog survives a restart: after a catalog that pydantic reads
    back has been stored, a process that opens the same control database afresh
    has exactly that catalog for its server, even if other rows are corrupt, and
    for every other server what its row validates to. *)
Theorem catalog_survives_restart `{CatalogCodec} c s id :
  catalog_validate (catalog_dump c) = Some c →
  (store_get id (restart (store_put c s))).1 =
    if decide (id = sc_server_id c) then Some c
    else dbc_rows s !! id ≫= catalog_validate.
Proof.
  intros Hround.
  change ((store_get id (restart (store_put c s))).1) with
    (dict_get id (foldl load_row [] (map_to_list
       (<[sc_server_id c := catalog_dump c]> (dbc_rows (ensure_loaded s)))))).
  rewrite foldl_load_row; [apply NoDup_fst_map_to_list|].
  rewrite dict_get_map_to_list ensure_loaded_rows.
  destruct (decide (id = sc_server_id c)) as [->|Hne].
  - by rewrite lookup_insert_eq Hround.
  - rewrite lookup_insert_ne //. destruct (dbc_rows s !! id) as [p|]; cbn; [|done].
    by destruct (catalog_validate p).
Qed.

(** a codec for catalogs of one server and its database names *)
Definition names_codec : CatalogCodec := {|
  catalog_dump c := JObj [("server_id", JStr (sc_server_id c));
                          ("databases", JArr (map JStr (database_names c)))];
  catalog_validate j :=
    match j with
    | JObj [(_, JStr id); (_, JArr names)] =>
        Some {| sc_server_id := id; sc_discovered_at := None; sc_engine_version := "";
                sc_engine_edition := ""; sc_instance_properties := [];
                sc_databases := omap (λ n, match n with
                  | JStr n => Some {| dd_name := n; dd_state := "ONLINE"; dd_size_bytes := None;
                                      dd_options := []; dd_objects := []; dd_extensions := [] |}
                  | _ => None end) names;
                sc_warnings := []; sc_least_privilege := None |}
    | _ => None
    end
|}.
Definition corrupt_store : DbCatalog :=
  {| dbc_rows := {["mysql-uat-01" := JNull]}; dbc_cache := []; dbc_loaded := false |}.

Lemma catalog_survives_restart_witness :
  (@store_get _ (@db_catalog names_codec) "sqlserver-dev-01"
     (restart (@store_put _ (@db_catalog names_codec) core_catalog corrupt_store))).1
  = Some core_catalog.
Proof.
  rewrite (@catalog_survives_restart names_codec core_catalog corrupt_store "sqlserver-dev-01").
  - vm_compute. reflexivity.
  - reflexivity.
Defined.

(* ------------------------------------------------------------------ *)
(** ** discovery.py *)

(** [clean_discovery_error] by the kind of exception; the text of the exception
    is never used *)
Definition clean_discovery_error (kind : string) (status_code : string) : string :=
  if bool_decide (kind = "HTTPStatusError") then
    "execution service returned an error (status " +:+ status_code +:+ ")"
  else if mem kind ["ConnectError"; "ConnectTimeout"] then
    "could not reach the execution service"
  else if mem kind ["ReadTimeout"; "TimeoutException"; "WriteTimeout"; "PoolTimeout"] then
    "discovery timed out"
  else "discovery failed (" +:+ kind +:+ ")".

Definition exn_kind (e : exn) : string :=
  match e with NumiError _ _ _ => "NumiError" | PyError k _ => k end.

Section discovery.
Context {C : Type} `{CatalogStore C}.
(** the execution service's [discover], and its settings *)
Context (discover : string → Platform → Z → res exn ServerCatalog)
        (max_objects refresh_minutes : Z) (entries : list ServerEntry).

(** [DiscoveryOrchestrator.refresh_server] *)
Definition refresh_server (server_id : string) : M C exn ServerCatalog :=
  match registry_by_id entries server_id with
  | None => raise (PyError "LookupError" ("No registered server '" +:+ server_id +:+ "'."))
  | Some server =>
      catalog ← lift_res (discover (se_id server) (se_platform server) max_objects);
      _ ← modify (store_put catalog);
      mret catalog
  end.

(** [DiscoveryOrchestrator.refresh_all]; the status code is read off the
    exception *)
Definition refresh_one (server_id : string) : M C exn string := λ s,
  match refresh_server server_id s with
  | (Ok cat, s) => (Ok ("ok (" +:+ pretty (length (sc_databases cat)) +:+ " databases)"), s)
  | (Err e, s) => (Ok ("failed: " +:+ clean_discovery_error (exn_kind e)
                        (match e with PyError _ t => t | NumiError _ _ _ => "" end)), s)
  end.

Fixpoint refresh_servers (servers : list ServerEntry) (results : list (string * string))
    : M C exn (list (string * string)) :=
  match servers with
  | [] => mret results
  | server :: servers =>
      if negb (bool_decide (se_status server = "active")) then refresh_servers servers results
      else
        r ← refresh_one (se_id server);
        refresh_servers servers (dict_set (se_id server) r results)
  end.
Definition refresh_all : M C exn (list (string * string)) := refresh_servers entries [].

(** [DiscoveryOrchestrator.ensure_fresh] at [now] *)
Definition is_fresh (now : Z) (existing : option ServerCatalog) : bool :=
  match existing with
  | Some c => match sc_discovered_at c with
              | Some at_ => (now - at_ <? refresh_minutes * 60 * US)%Z
              | None => false
              end
  | None => false
  end.
Definition ensure_fresh (now : Z) (server_id : string) : M C exn unit := λ s,
  let '(existing, s) := store_get server_id s in
  if is_fresh now existing then (Ok tt, s)
  else
    match refresh_server server_id s with
    | (Ok _, s) => (Ok tt, s)
    | (Err _, s) => (Ok tt, s)
    end.

Context `{!CatalogStoreLaws C}.

Lemma refresh_server_cases id s :
  (∃ server c, registry_by_id entries id = Some server ∧
     discover (se_id server) (se_platform server) max_objects = Ok c ∧
     refresh_server id s = (Ok c, store_put c s)) ∨
  (∃ e, refresh_server id s = (Err e, s)).
Proof.
  unfold refresh_server. destruct (registry_by_id entries id) as [server|]; [|right; by eexists].
  destruct (discover _ _ _) as [c|e] eqn:E.
  - left. exists server, c. done.
  - right. by exists e.
Qed.
End discovery.

(** Lazy discovery is best effort: [ensure_fresh] never raises; a catalog
    discovered less than the refresh interval ago is kept without crawling; a
    successful crawl of a registered server replaces exactly the catalog of the
    server it reports; and a failed crawl, or an unknown server, leaves every
    catalog as it was. *)
Theorem ensure_fresh_best_effort {C} `{CatalogStoreLaws C} discover max_objects minutes entries
    now id s :
  let after := (ensure_fresh discover max_objects minutes entries now id s).2 in
  (ensure_fresh discover max_objects minutes entries now id s).1 = Ok tt ∧
  ((is_fresh minutes now (store_get id s).1 = true →
      ∀ id', (store_get id' after).1 = (store_get id' s).1) ∧
   (is_fresh minutes now (store_get id s).1 = false →
      (∀ server c, registry_by_id entries id = Some server →
         discover (se_id server) (se_platform server) max_objects = Ok c →
         ∀ id', (store_get id' after).1 =
           if decide (id' = sc_server_id c) then Some c else (store_get id' s).1) ∧
      ((∀ server, registry_by_id entries id = Some server →
         ∀ c, discover (se_id server) (se_platform server) max_objects ≠ Ok c) →
       ∀ id', (store_get id' after).1 = (store_get id' s).1))).
Proof.
  cbn zeta. unfold ensure_fresh. pose proof (get_stable (C := C) id) as Hst.
  destruct (store_get id s) as [existing s1] eqn:Eg. cbn [fst].
  assert (∀ id', (store_get id' s1).1 = (store_get id' s).1) as Hs1.
  { intros id'. specialize (Hst id' s). by rewrite Eg in Hst. }
  destruct (is_fresh minutes now existing); [by split_and!|].
  destruct (refresh_server_cases discover max_objects entries id s1)
    as [(server & c & Hr & Hd & ->)|(e & Hr)].
  - cbn. split_and!; try done. intros _. split.
    + intros server' c' Hr'. assert (server' = server) as -> by congruence. rewrite Hd.
      intros [= <-] id'. rewrite get_put. by rewrite Hs1.
    + intros Hno. by destruct (Hno server Hr c).
  - rewrite Hr. cbn. split_and!; try done. intros _. split; [|done].
    intros server c Hreg Hd. exfalso. unfold refresh_server in Hr. rewrite Hreg in Hr.
    unfold mbind, M_bind, lift_res in Hr. by rewrite Hd in Hr.
Qed.

Definition crawl (c : ServerCatalog) (id : string) (p : Platform) (max_objects : Z)
    : res exn ServerCatalog := Ok c.

Lemma ensure_fresh_best_effort_witness :
  (ensure_fresh (crawl core_catalog) 5000 60 [dev_1] 0 "sqlserver-dev-01"
     {| by_server := [] |}).1 = Ok tt.
Proof.
  apply (@ensure_fresh_best_effort InMemoryCatalog in_memory_catalog in_memory_catalog_laws
           (crawl core_catalog) 5000 60 [dev_1] 0 "sqlserver-dev-01" {| by_server := [] |}).
Defined.
