(* ===== verification/Gateway.v ===== *)
(** The Gateway pipeline: [gateway/domain/audit.py],
    [gateway/domain/tool_call_handler.py], the endpoints of
    [gateway/api/routers/tool_calls.py], [approvals.py] and [tools.py], and the
    dependencies of [gateway/api/deps.py].  The execution service is a function
    from requests to results; every request it receives is recorded in the
    state, so that theorems can speak of what was executed. *)
From S2P Require Import Prelude Json Models ToolCatalog Servers Policy RateLimit Approval.
From S2P Require Import DataPolicy Discovery.

(* ------------------------------------------------------------------ *)
(** ** The state *)

(** [AuditEventRecord] *)
Record AuditEvent : Type := {
  au_event_type : string;
  au_correlation_ids : list (string * string);
  au_actor_subject_id : string;
  au_identity_provider : string;
  au_channel : string;
  au_agent_version : string;
  au_tool_id : string;
  au_tool_version : string;
  au_target : list (string * json);
  au_arguments_hash : string;
  au_policy_decision : string;
  au_risk : list (string * json);
  au_approval_id : option string;
  au_execution_result : string;
  au_error_code : option string;
  au_duration_ms : option Z
}.

(** [SecurityEventRecord] *)
Record SecurityEvent : Type := {
  sv_event_type : string;
  sv_actor_subject_id : string;
  sv_detail : list (string * string);
  sv_severity : string
}.

(** the control database of one request's session, the rate-limit backend and
    the catalog store of the process, and what the execution service was sent *)
Record World (B C : Type) : Type := mk_world {
  w_approvals : ApprovalDb;
  w_audit : list AuditEvent;
  w_security : list SecurityEvent;
  w_rates : B;
  w_catalog : C;
  w_executions : list ExecutionRequest
}.
Arguments mk_world {B C}.
Arguments w_approvals {B C}. Arguments w_audit {B C}. Arguments w_security {B C}.
Arguments w_rates {B C}. Arguments w_catalog {B C}. Arguments w_executions {B C}.

Section lenses.
Context {B C : Type}.

Definition on_approvals {A} (m : M ApprovalDb exn A) : M (World B C) exn A := λ w,
  let '(r, db) := m (w_approvals w) in
  (r, mk_world db (w_audit w) (w_security w) (w_rates w) (w_catalog w) (w_executions w)).
Definition on_rates {A} (m : M B exn A) : M (World B C) exn A := λ w,
  let '(r, b) := m (w_rates w) in
  (r, mk_world (w_approvals w) (w_audit w) (w_security w) b (w_catalog w) (w_executions w)).
Definition on_catalog {A} (m : M C exn A) : M (World B C) exn A := λ w,
  let '(r, c) := m (w_catalog w) in
  (r, mk_world (w_approvals w) (w_audit w) (w_security w) (w_rates w) c (w_executions w)).
End lenses.

(* ------------------------------------------------------------------ *)
(** ** audit.py *)

Definition hash_arguments (sha256 : string → string) (arguments : list (string * json)) : string :=
  sha256 (json_dumps (JObj arguments)).

(** [AuditLog.record] and [AuditLog.record_security_event]: the only two
    operations, and both append *)
Definition audit_record {B C} (e : AuditEvent) : M (World B C) exn unit :=
  modify (λ w, mk_world (w_approvals w) (w_audit w ++ [e]) (w_security w) (w_rates w)
                 (w_catalog w) (w_executions w)).
Definition record_security_event {B C} (e : SecurityEvent) : M (World B C) exn unit :=
  modify (λ w, mk_world (w_approvals w) (w_audit w) (w_security w ++ [e]) (w_rates w)
                 (w_catalog w) (w_executions w)).

(** [risk.model_dump(mode="json")] *)
Definition blast_value (b : BlastRadius) : string :=
  match b with
  | SINGLE_QUERY => "SINGLE_QUERY" | SINGLE_SESSION => "SINGLE_SESSION"
  | SINGLE_OBJECT => "SINGLE_OBJECT" | SINGLE_DATABASE => "SINGLE_DATABASE"
  | MULTIPLE_OBJECTS => "MULTIPLE_OBJECTS" | MULTIPLE_DATABASES => "MULTIPLE_DATABASES"
  | CLUSTER => "CLUSTER" | ENTERPRISE => "ENTERPRISE"
  end.
Definition reason_value (r : ReasonCode) : string :=
  match r with
  | R_PRODUCTION => "PRODUCTION" | R_NON_PRODUCTION => "NON_PRODUCTION"
  | R_CRITICAL_DATABASE => "CRITICAL_DATABASE"
  | R_HIGH_CRITICALITY_DATABASE => "HIGH_CRITICALITY_DATABASE"
  | R_WRITE_OPERATION => "WRITE_OPERATION" | R_READ_OPERATION => "READ_OPERATION"
  | R_IRREVERSIBLE => "IRREVERSIBLE" | R_AVAILABILITY_IMPACT => "AVAILABILITY_IMPACT"
  | R_OUTSIDE_MAINTENANCE_WINDOW => "OUTSIDE_MAINTENANCE_WINDOW"
  | R_INSIDE_MAINTENANCE_WINDOW => "INSIDE_MAINTENANCE_WINDOW"
  | R_HIGH_CURRENT_LOAD => "HIGH_CURRENT_LOAD" | R_LARGE_BLAST_RADIUS => "LARGE_BLAST_RADIUS"
  | R_MANY_AFFECTED_SESSIONS => "MANY_AFFECTED_SESSIONS"
  | R_MANY_AFFECTED_OBJECTS => "MANY_AFFECTED_OBJECTS"
  | R_PRIVILEGED_OPERATION => "PRIVILEGED_OPERATION"
  end.
Definition risk_dump (r : RiskAssessment) : list (string * json) :=
  [("risk_level", JStr (risk_value (ra_risk_level r))); ("score", JInt (ra_score r));
   ("blast_radius", JStr (blast_value (ra_blast_radius r)));
   ("reversible", JBool (ra_reversible r));
   ("availability_impact", JBool (ra_availability_impact r));
   ("reason_codes", JArr (map (λ c, JStr (reason_value c)) (ra_reason_codes r)))].

(** [target.model_dump(mode="json")] as a dict *)
Definition target_fields (t : DatabaseTarget) : list (string * json) :=
  match target_dump t with JObj fields => fields | _ => [] end.

(* ------------------------------------------------------------------ *)
(** ** tool_call_handler.py *)

Definition arg_truthy (args : list (string * json)) (k : string) : bool :=
  match dict_get k args with Some v => json_truthy v | None => false end.

Definition json_str_opt (v : json) : option string :=
  match v with JStr s => Some s | _ => None end.

(** [target.model_copy(update=updates)]: pydantic writes each key of [updates]
    into the instance's attributes without going through aliases, so only the
    keys that are names of fields change fields *)
Definition model_copy_field (t : DatabaseTarget) (kv : string * json) : DatabaseTarget :=
  let '(k, v) := kv in
  {| dt_environment := dt_environment t; dt_platform := dt_platform t;
     dt_cluster := if bool_decide (k = "cluster") then json_str_opt v else dt_cluster t;
     dt_instance := if bool_decide (k = "instance") then json_str_opt v else dt_instance t;
     dt_database := if bool_decide (k = "database") then json_str_opt v else dt_database t;
     dt_schema_name := if bool_decide (k = "schema_name") then json_str_opt v
                       else dt_schema_name t;
     dt_object_name := if bool_decide (k = "object_name") then json_str_opt v
                       else dt_object_name t;
     dt_session_id := if bool_decide (k = "session_id") then json_str_opt v else dt_session_id t;
     dt_query_id := if bool_decide (k = "query_id") then json_str_opt v else dt_query_id t |}.
Definition model_copy (t : DatabaseTarget) (updates : list (string * json)) : DatabaseTarget :=
  foldl model_copy_field t updates.

(** one of the four [if]s of [_enrich_target] *)
Definition enrich_update (args : list (string * json)) (arg key : string)
    (current : option string) : list (string * json) :=
  if arg_truthy args arg && negb (opt_truthy current)
  then [(key, default JNull (dict_get arg args))] else [].

Definition enrich_target (target : DatabaseTarget) (args_dict : list (string * json))
    : DatabaseTarget :=
  let updates :=
    enrich_update args_dict "schema_name" "schema" (dt_schema_name target)
    ++ enrich_update args_dict "table" "object" (dt_object_name target)
    ++ enrich_update args_dict "session_id" "session_id" (dt_session_id target)
    ++ enrich_update args_dict "query_id" "query_id" (dt_query_id target) in
  match updates with [] => target | _ => model_copy target updates end.

(** the clock readings and identifiers one handled call draws *)
Record CallInputs : Type := {
  ci_now_discovery : Z;
  ci_now_rate : Z;
  ci_now_policy : Z;
  ci_now_approval : Z;
  ci_now_executed : Z;
  ci_approval_ulid : string;
  ci_execution_ulid : string;
  ci_duration_ms : Z
}.

(** the process-wide components of [gateway/api/state.py] *)
Record GatewayState : Type := {
  gs_tools : list (string * ToolDefinition);
  gs_entries : list ServerEntry;
  gs_policy : PolicyConfig;
  gs_limits : list (string * TierLimits);
  gs_minimizer : DataPolicyConfig;
  gs_approval_ttl : Z;
  gs_max_objects : Z;
  gs_refresh_minutes : Z;
  gs_identity_provider : string
}.

(** what the Gateway calls outside itself: the digest, the time zone database,
    the text of a pydantic [ValidationError], and the execution service *)
Class External : Type := {
  sha256 : string → string;
  zone_offset : string → Z → option Z;
  validation_errors : list (string * json) → string;
  discover : string → Platform → Z → res exn ServerCatalog;
  execute : ExecutionRequest → res exn ExecutionResult
}.

(** what [_handle_inner] knows after its first seven stages *)
Record Prepared : Type := {
  pr_tool : ToolDefinition;
  pr_args : list (string * json);
  pr_target : DatabaseTarget;
  pr_ctx : TargetContext;
  pr_evaluation : PolicyEvaluation;
  pr_risk : RiskAssessment
}.

Section handler.
Context {B C : Type} `{RateLimitBackend B} `{CatalogStore C}.
Context `{PydanticLax} `{SqlGlot} `{SqlStatements} `{External}.
Context (gs : GatewayState) (channel agent_version : string) (ci : CallInputs).

(** step 2 *)
Definition validate_arguments (tool : ToolDefinition) (arguments : list (string * json))
    : res exn (list (string * json)) :=
  match dict_get (td_tool_id tool) ARGUMENT_MODELS with
  | None => Err (numi_error TOOL_NOT_FOUND
                  ("No argument schema for '" +:+ td_tool_id tool +:+ "'."))
  | Some fields =>
      match model_validate fields arguments with
      | Some args => Ok args
      | None => Err (numi_error INVALID_ARGUMENTS
          ("Invalid arguments for '" +:+ td_tool_id tool +:+ "': " +:+ validation_errors arguments))
      end
  end.

(** step 3, up to the enrichment *)
Definition parse_target (target : list (string * json)) (args : list (string * json))
    : res exn DatabaseTarget :=
  match target_validate target with
  | Some t => Ok (enrich_target t args)
  | None => Err (numi_error INVALID_TARGET ("Invalid target: " +:+ validation_errors target))
  end.

(** the lazy discovery before validation, READ tools only; it never raises *)
Definition discovery_stage (tool : ToolDefinition) (target : DatabaseTarget)
    : M (World B C) exn unit :=
  if bool_decide (td_operation_type tool = READ) then
    match resolve (gs_entries gs) target with
    | Ok server =>
        try_except
          (on_catalog (ensure_fresh discover (gs_max_objects gs) (gs_refresh_minutes gs)
                         (gs_entries gs) (ci_now_discovery ci) (se_id server)))
          (λ _, mret tt)
    | Err _ => mret tt
    end
  else mret tt.

(** [self._targets.validate]: the store is read for the resolved server *)
Definition validate_stage (tool : ToolDefinition) (target : DatabaseTarget)
    : M (World B C) exn TargetContext :=
  match resolve (gs_entries gs) target with
  | Ok server =>
      on_catalog (λ c, let '(catalog, c) := store_get (se_id server) c in
        (validate_target (gs_entries gs) (λ _, catalog) target (td_required_target_scope tool), c))
  | Err _ =>
      lift_res (validate_target (gs_entries gs) (λ _, None) target
                  (td_required_target_scope tool))
  end.

(** step 3.5 *)
Definition sql_dialect (ctx : TargetContext) : string :=
  if bool_decide (platform_value (tc_platform ctx) = "sqlserver") then "tsql" else "postgres".
Definition sql_stage (tool : ToolDefinition) (ctx : TargetContext) (args : list (string * json))
    : res exn (list (string * json)) :=
  if bool_decide (td_tool_id tool = "database.execute_readonly_sql") then
    match dict_get "sql" args with
    | Some (JStr sql) =>
        v ← validate_readonly_sql sql (sql_dialect ctx) (td_max_result_rows tool);
        Ok (dict_set "sql" (JStr (vs_normalized_sql v)) args)
    | _ => Err (PyError "KeyError" "sql")
    end
  else Ok args.

(** step 6; [role.value] raises for an identity without role *)
Definition policy_stage (identity : VerifiedIdentity) (tool : ToolDefinition)
    (ctx : TargetContext) (change_id : option string) : res exn PolicyEvaluation :=
  match highest_role identity with
  | None => Err (PyError "AttributeError" "'NoneType' object has no attribute 'value'")
  | Some role =>
      evaluation ← policy_evaluate zone_offset (gs_policy gs) (tc_environment ctx) tool role ctx
                     change_id false (ci_now_policy ci);
      if bool_decide (pe_decision evaluation = DENY) then
        Err (numi_error POLICY_DENIED ("Policy denies '" +:+ td_tool_id tool +:+ "' for role "
               +:+ role_value role +:+ "."))
      else if pe_requires_change_ticket evaluation && negb (opt_truthy change_id) then
        Err (numi_error CHANGE_TICKET_REQUIRED ("'" +:+ td_tool_id tool +:+ "' in "
               +:+ env_value (tc_environment ctx) +:+ " requires an approved change ticket."))
      else Ok evaluation
  end.

(** steps 1 to 7 of [_handle_inner] *)
Definition prepare (identity : VerifiedIdentity) (request : ToolCallRequest)
    : M (World B C) exn Prepared :=
  tool ← lift_res (registry_get (gs_tools gs) (tr_tool_id request) (tr_tool_version request));
  args ← lift_res (validate_arguments tool (tr_arguments request));
  target ← lift_res (parse_target (tr_target request) args);
  _ ← discovery_stage tool target;
  ctx ← validate_stage tool target;
  args ← lift_res (sql_stage tool ctx args);
  _ ← lift_res (authorize identity tool ctx);
  _ ← on_rates (rate_limiter_check (gs_limits gs) (ci_now_rate ci) (td_operation_type tool)
        (td_requires_approval tool) (vi_subject_id identity) (tr_conversation_id request)
        (td_tool_id tool) (se_id (tc_server ctx)) (env_value (tc_environment ctx)));
  evaluation ← lift_res (policy_stage identity tool ctx (tr_change_id request));
  mret {| pr_tool := tool; pr_args := args; pr_target := target; pr_ctx := ctx;
          pr_evaluation := evaluation;
          pr_risk := assess tool (tc_environment ctx) ctx 1 1 false |}.

(** step 8: the action the approval is bound to *)
Definition approval_context (identity : VerifiedIdentity) (request : ToolCallRequest)
    (p : Prepared) : ApprovalContext :=
  let server_id := se_id (tc_server (pr_ctx p)) in
  let database := tc_database (pr_ctx p) in
  {| ac_request_id := tr_request_id request; ac_actor := identity; ac_tool := pr_tool p;
     ac_target := pr_target p; ac_normalized_arguments := pr_args p;
     ac_environment := env_value (tc_environment (pr_ctx p));
     ac_database_id := if truthy database then server_id +:+ "/" +:+ database else server_id;
     ac_risk := pr_risk p |}.

Definition needs_approval (p : Prepared) : bool :=
  bool_decide (pe_decision (pr_evaluation p) = REQUIRES_APPROVAL).

Definition correlation_of (request : ToolCallRequest) : list (string * string) :=
  [("conversation_id", tr_conversation_id request); ("request_id", tr_request_id request);
   ("investigation_id", str_or (tr_investigation_id request) "")].

(** the audit event of a call that got through the gates *)
Definition prepared_event (identity : VerifiedIdentity) (request : ToolCallRequest) (p : Prepared)
    (event_type : string) (approval_id : option string) (execution_result : string) : AuditEvent :=
  {| au_event_type := event_type; au_correlation_ids := correlation_of request;
     au_actor_subject_id := vi_subject_id identity;
     au_identity_provider := gs_identity_provider gs; au_channel := channel;
     au_agent_version := agent_version; au_tool_id := td_tool_id (pr_tool p);
     au_tool_version := td_version (pr_tool p); au_target := target_fields (pr_target p);
     au_arguments_hash := hash_arguments sha256 (pr_args p);
     au_policy_decision := decision_value (pe_decision (pr_evaluation p));
     au_risk := risk_dump (pr_risk p); au_approval_id := approval_id;
     au_execution_result := execution_result; au_error_code := None; au_duration_ms := None |}.

Definition request_approval (identity : VerifiedIdentity) (request : ToolCallRequest)
    (p : Prepared) : M (World B C) exn ToolCallResponse :=
  record ← on_approvals (approval_create sha256 (gs_approval_ttl gs)
             (approval_context identity request p)
             (pe_requires_dual_approval (pr_evaluation p)) (ci_now_approval ci)
             (ci_approval_ulid ci));
  _ ← audit_record (prepared_event identity request p "APPROVAL_REQUESTED"
                      (Some (ar_approval_id record)) "");
  mret {| rs_status := TC_APPROVAL_REQUIRED; rs_execution_id := None;
          rs_approval_id := Some (ar_approval_id record); rs_result := None;
          rs_failure_code := None;
          rs_message := "This action requires DBA approval before it will run.";
          rs_risk := Some (pr_risk p);
          rs_policy_decision := Some (decision_value (pe_decision (pr_evaluation p))) |}.

(** step 9: the target's fields override the arguments of the same name *)
Definition override_argument (args : list (string * json)) (kv : string * option string)
    : list (string * json) :=
  match kv.2 with Some v => dict_set kv.1 (JStr v) args | None => args end.
Definition exec_request (p : Prepared) : ExecutionRequest :=
  let t := pr_target p in
  {| er_execution_id := new_id "exec" (ci_execution_ulid ci);
     er_tool_id := td_tool_id (pr_tool p); er_tool_version := td_version (pr_tool p);
     er_platform := tc_platform (pr_ctx p); er_server_id := se_id (tc_server (pr_ctx p));
     er_database := tc_database (pr_ctx p); er_schema_name := dt_schema_name t;
     er_object_name := dt_object_name t; er_session_id := dt_session_id t;
     er_query_id := dt_query_id t;
     er_arguments := foldl override_argument (pr_args p)
       [("schema_name", dt_schema_name t); ("table", dt_object_name t);
        ("session_id", dt_session_id t); ("query_id", dt_query_id t)];
     er_max_execution_time := td_max_execution_time (pr_tool p);
     er_max_result_rows := td_max_result_rows (pr_tool p) |}.

(** the call to the execution service, recorded *)
Definition call_execution (r : ExecutionRequest) : M (World B C) exn ExecutionResult := λ w,
  (execute r, mk_world (w_approvals w) (w_audit w) (w_security w) (w_rates w) (w_catalog w)
                (w_executions w ++ [r])).

(** the exception a failed result becomes *)
Definition failed_result (result : ExecutionResult) : exn :=
  let detail := str_or (ex_error_detail result) "Execution failed." in
  match ex_error_code result with
  | Some c =>
      if truthy c then
        match failure_of_value c with
        | Some code => numi_error code detail
        | None => PyError "ValueError" ("'" +:+ c +:+ "' is not a valid FailureCode")
        end
      else numi_error EXECUTION_FAILED detail
  | None => numi_error EXECUTION_FAILED detail
  end.

(** step 10 and the result sent back *)
Definition minimized_result (p : Prepared) (result : ExecutionResult) : MinimizedResult :=
  minimize (gs_minimizer gs) (ex_rows result) (Some (td_max_result_rows (pr_tool p)))
    (sqlglot_dialect_for_platform (platform_value (tc_platform (pr_ctx p)))).
Definition executed_response (p : Prepared) (execution_id : string) (result : ExecutionResult)
    (minimized : MinimizedResult) : ToolCallResponse :=
  {| rs_status := TC_EXECUTED; rs_execution_id := Some execution_id; rs_approval_id := None;
     rs_result := Some (JObj
       [("columns", JArr (map JStr (ex_columns result)));
        ("rows", JArr (map JObj (mr_rows minimized)));
        ("row_count", JInt (Z.of_nat (length (mr_rows minimized))));
        ("truncated", JBool (mr_truncated minimized || ex_truncated result));
        ("masked_fields", JArr (map JStr (mr_masked_fields minimized)));
        ("literal_scrubbed_fields", JArr (map JStr (mr_literal_scrubbed_fields minimized)));
        ("affected", JObj (ex_affected result))]);
     rs_failure_code := None; rs_message := "Completed."; rs_risk := Some (pr_risk p);
     rs_policy_decision := Some (decision_value (pe_decision (pr_evaluation p))) |}.

(** steps 9 to 11 *)
Definition execute_call (identity : VerifiedIdentity) (request : ToolCallRequest) (p : Prepared)
    : M (World B C) exn ToolCallResponse :=
  result ← call_execution (exec_request p);
  if negb (ex_success result) then raise (failed_result result)
  else
    _ ← (if needs_approval p then
           on_approvals (mark_executed (default "" (tr_approval_id request)) (ci_now_executed ci))
         else mret tt);
    let minimized := minimized_result p result in
    _ ← audit_record (prepared_event identity request p "TOOL_CALL_EXECUTED"
                        (tr_approval_id request) "SUCCESS");
    mret (executed_response p (er_execution_id (exec_request p)) result minimized).

Definition handle_inner (identity : VerifiedIdentity) (request : ToolCallRequest)
    : M (World B C) exn ToolCallResponse :=
  p ← prepare identity request;
  if needs_approval p then
    if negb (opt_truthy (tr_approval_id request)) then request_approval identity request p
    else
      _ ← on_approvals (verify_for_execution (default "" (tr_approval_id request))
             (action_hash sha256 (approval_context identity request p)) (ci_now_approval ci));
      execute_call identity request p
  else execute_call identity request p.

(** *** [handle]: the exception becomes a response *)

Definition is_execution_outcome (code : FailureCode) : bool :=
  mem code [EXECUTION_FAILED; EXECUTION_TIMEOUT; DATABASE_UNAVAILABLE].
Definition is_security_code (code : FailureCode) : bool :=
  mem code [UNAUTHORIZED; AUTHENTICATION_FAILED; APPROVAL_MISMATCH; APPROVAL_INVALID;
            SEPARATION_OF_DUTIES_VIOLATION].

Definition refused_event (identity : VerifiedIdentity) (request : ToolCallRequest)
    (code : FailureCode) : AuditEvent :=
  {| au_event_type := if is_execution_outcome code then "TOOL_CALL_FAILED" else "TOOL_CALL_DENIED";
     au_correlation_ids := correlation_of request;
     au_actor_subject_id := vi_subject_id identity;
     au_identity_provider := gs_identity_provider gs; au_channel := channel;
     au_agent_version := agent_version; au_tool_id := tr_tool_id request; au_tool_version := "";
     au_target := tr_target request;
     au_arguments_hash := hash_arguments sha256 (tr_arguments request);
     au_policy_decision := ""; au_risk := []; au_approval_id := None; au_execution_result := "";
     au_error_code := Some (failure_value code); au_duration_ms := Some (ci_duration_ms ci) |}.

Definition log_refusal (identity : VerifiedIdentity) (request : ToolCallRequest)
    (code : FailureCode) (detail : string) : M (World B C) exn unit :=
  _ ← audit_record (refused_event identity request code);
  if is_security_code code then
    record_security_event
      {| sv_event_type := failure_value code;
         sv_actor_subject_id := vi_subject_id identity;
         sv_detail := [("tool_id", tr_tool_id request); ("detail", detail)];
         sv_severity := "WARNING" |}
  else mret tt.

Definition refusal_response (code : FailureCode) (detail : string) : ToolCallResponse :=
  {| rs_status := if is_execution_outcome code then TC_FAILED else TC_DENIED;
     rs_execution_id := None; rs_approval_id := None; rs_result := None;
     rs_failure_code := Some (failure_value code); rs_message := detail;
     rs_risk := None; rs_policy_decision := None |}.

Definition handle (identity : VerifiedIdentity) (request : ToolCallRequest)
    : M (World B C) exn ToolCallResponse :=
  try_except (handle_inner identity request) (λ e,
    match e with
    | NumiError code detail _ =>
        _ ← log_refusal identity request code detail;
        mret (refusal_response code detail)
    | PyError _ _ => raise e
    end).
End handler.

(* ------------------------------------------------------------------ *)
(** ** What each stage may change *)

(** the approvals, the two logs and the executions are as they were *)
Definition same_records {B C} (w w' : World B C) : Prop :=
  w_approvals w' = w_approvals w ∧ w_audit w' = w_audit w ∧
  w_security w' = w_security w ∧ w_executions w' = w_executions w.

#[export] Instance same_records_preorder {B C} : PreOrder (@same_records B C).
Proof. unfold same_records. split; [intros w|intros w w1 w2]; naive_solver congruence. Qed.

Lemma preserves_on_rates {B C A} (m : M B exn A) :
  preserves same_records (on_rates m : M (World B C) exn A).
Proof. intros w. unfold on_rates. by destruct (m (w_rates w)). Qed.
Lemma preserves_on_catalog {B C A} (m : M C exn A) :
  preserves same_records (on_catalog m : M (World B C) exn A).
Proof. intros w. unfold on_catalog. by destruct (m (w_catalog w)). Qed.
#[export] Hint Resolve preserves_on_rates preserves_on_catalog : numi.

(** [verify_for_execution] accepts only a stored, approved, unexpired record
    with the given hash, and then changes nothing *)
Lemma verify_inv id h now db r db' : verify_for_execution id h now db = (Ok r, db') →
  db_approvals db !! id = Some r ∧ ar_status r = AS_APPROVED ∧ (now ≤ ar_expires_at r)%Z ∧
  ar_action_hash r = h ∧ db' = db.
Proof.
  unfold verify_for_execution, approval_get, expire_if_needed, mbind, M_bind, raise, mret, M_ret.
  destruct (db_approvals db !! id) as [r0|] eqn:Er; [|done].
  destruct (mem (ar_status r0) [AS_PENDING; AS_AWAITING_SECOND_APPROVAL; AS_APPROVED]
            && (ar_expires_at r0 <? now)%Z) eqn:Eo; [done|].
  case_bool_decide as H1; [done|].
  destruct (mem (ar_status r0) [AS_PENDING; AS_AWAITING_SECOND_APPROVAL]) eqn:H2; [done|].
  case_bool_decide as H3; [done|]. case_bool_decide as H4; [done|].
  case_bool_decide as H5; cbn; [|done]. intros [= <- <-].
  assert (ar_status r0 = AS_APPROVED) as Ha.
  { destruct (ar_status r0) eqn:E; try done; by vm_compute in H2. }
  split_and!; try done. rewrite Ha in Eo.
  change (mem AS_APPROVED [AS_PENDING; AS_AWAITING_SECOND_APPROVAL; AS_APPROVED]) with true in Eo.
  cbn in Eo. by apply Z.ltb_ge in Eo.
Qed.

(** a verification reserves nothing: until the approval is marked executed, any
    number of calls for the same action pass it *)
Lemma verification_reserves_nothing id h now db r db' :
  verify_for_execution id h now db = (Ok r, db') → verify_for_execution id h now db' = (Ok r, db').
Proof. intros Hv. by destruct (verify_inv _ _ _ _ _ _ Hv) as (_ & _ & _ & _ & ->). Qed.

Section facts.
Context {B C : Type} `{RateLimitBackend B} `{CatalogStore C}.
Context `{PydanticLax} `{SqlGlot} `{SqlStatements} `{External}.
Context (gs : GatewayState) (channel agent_version : string) (ci : CallInputs).

Lemma discovery_frame tool target :
  preserves same_records (discovery_stage (B := B) (C := C) gs ci tool target).
Proof.
  unfold discovery_stage. apply preserves_if; [|eauto with numi typeclass_instances].
  destruct (resolve (gs_entries gs) target); eauto with numi typeclass_instances.
Qed.
Lemma validate_frame tool target :
  preserves same_records (validate_stage (B := B) (C := C) gs tool target).
Proof.
  unfold validate_stage.
  destruct (resolve (gs_entries gs) target); eauto with numi typeclass_instances.
Qed.
Hint Resolve discovery_frame validate_frame : numi.

Lemma prepare_frame identity request :
  preserves same_records (prepare (B := B) (C := C) gs ci identity request).
Proof.
  unfold prepare. repeat (apply preserves_bind; [apply _| |intros ?]); eauto with numi typeclass_instances.
Qed.

(** everything a call has passed when it reaches step 8 *)
Record gates_passed (identity : VerifiedIdentity) (request : ToolCallRequest) (p : Prepared)
    : Prop := {
  gp_tool : registry_get (gs_tools gs) (tr_tool_id request) (tr_tool_version request)
            = Ok (pr_tool p);
  gp_args : ∃ args, validate_arguments (pr_tool p) (tr_arguments request) = Ok args ∧
            parse_target (tr_target request) args = Ok (pr_target p) ∧
            sql_stage (pr_tool p) (pr_ctx p) args = Ok (pr_args p);
  gp_ctx : ∃ lookup, validate_target (gs_entries gs) lookup (pr_target p)
            (td_required_target_scope (pr_tool p)) = Ok (pr_ctx p);
  gp_authorized : authorize identity (pr_tool p) (pr_ctx p) = Ok tt;
  gp_rate : ∃ b b', rate_limiter_check (gs_limits gs) (ci_now_rate ci)
            (td_operation_type (pr_tool p)) (td_requires_approval (pr_tool p))
            (vi_subject_id identity) (tr_conversation_id request) (td_tool_id (pr_tool p))
            (se_id (tc_server (pr_ctx p))) (env_value (tc_environment (pr_ctx p))) (b : B)
            = (Ok tt, b');
  gp_policy : policy_stage gs ci identity (pr_tool p) (pr_ctx p) (tr_change_id request)
            = Ok (pr_evaluation p);
  gp_risk : pr_risk p = assess (pr_tool p) (tc_environment (pr_ctx p)) (pr_ctx p) 1 1 false
}.

Lemma validate_stage_ok tool target (w w' : World B C) ctx :
  validate_stage gs tool target w = (Ok ctx, w') →
  ∃ lookup, validate_target (gs_entries gs) lookup target (td_required_target_scope tool) = Ok ctx.
Proof.
  unfold validate_stage, on_catalog. destruct (resolve (gs_entries gs) target) as [server|e].
  - destruct (store_get (se_id server) (w_catalog w)) as [c s]. intros [= Hv _]. eauto.
  - intros [= Hv _]. eauto.
Qed.

Lemma prepare_ok identity request (w w' : World B C) p :
  prepare gs ci identity request w = (Ok p, w') → gates_passed identity request p.
Proof.
  unfold prepare. intros Hp. repeat inv_bind. unfold lift_res in *. simplify_eq.
  injection Hp as <- _. split; cbn; try done.
  - eauto.
  - eapply validate_stage_ok; eauto.
  - by destruct (authorize _ _ _) as [[]|].
  - unfold on_rates in *. destruct (rate_limiter_check _ _ _ _ _ _ _ _ _ _) as [[[]|e] b'] eqn:Er;
      simplify_eq. eauto.
Qed.
(** the approval the request names is in force for exactly this action *)
Definition approval_in_force (identity : VerifiedIdentity) (request : ToolCallRequest)
    (p : Prepared) (db : ApprovalDb) : Prop :=
  ∃ id r, tr_approval_id request = Some id ∧ db_approvals db !! id = Some r ∧
    ar_status r = AS_APPROVED ∧ (ci_now_approval ci ≤ ar_expires_at r)%Z ∧
    ar_action_hash r = action_hash sha256 (approval_context identity request p).

(** the two logs and the executions are as they were *)
Definition same_logs (w w' : World B C) : Prop :=
  w_audit w' = w_audit w ∧ w_security w' = w_security w ∧ w_executions w' = w_executions w.

(** the ways a run of [_handle_inner] can go *)
Inductive inner_outcome (identity : VerifiedIdentity) (request : ToolCallRequest)
    (w : World B C) : res exn ToolCallResponse → World B C → Prop :=
| inner_refused e w' :
    same_logs w w' → inner_outcome identity request w (Err e) w'
| inner_requested p w1 r w' :
    gates_passed identity request p → needs_approval p = true →
    opt_truthy (tr_approval_id request) = false → same_records w w1 →
    request_approval gs channel agent_version ci identity request p w1 = (r, w') →
    inner_outcome identity request w r w'
| inner_executed p w1 r w' :
    gates_passed identity request p →
    (needs_approval p = true → approval_in_force identity request p (w_approvals w)) →
    same_records w w1 →
    execute_call gs channel agent_version ci identity request p w1 = (r, w') →
    inner_outcome identity request w r w'.

Lemma same_records_logs (w w' : World B C) : same_records w w' → same_logs w w'.
Proof. intros (_ & ? & ? & ?). done. Qed.

Lemma inner_cases identity request w r w' :
  handle_inner gs channel agent_version ci identity request w = (r, w') →
  inner_outcome identity request w r w'.
Proof.
  unfold handle_inner. pose proof (prepare_frame identity request w) as Hf.
  destruct (prepare gs ci identity request w) as [[p|e] w1] eqn:Ep; cbn in Hf.
  2:{ rewrite (M_bind_err _ _ _ _ _ Ep). intros [= <- <-]. by apply inner_refused, same_records_logs. }
  rewrite (M_bind_ok _ _ _ _ _ Ep). apply prepare_ok in Ep as Hg.
  destruct (needs_approval p) eqn:Hn; [|by intros; eapply inner_executed; eauto; rewrite Hn].
  destruct (opt_truthy (tr_approval_id request)) eqn:Ht; cbn [negb];
    [|by intros; eapply inner_requested; eauto].
  destruct (tr_approval_id request) as [id|] eqn:Hid; [|done]. cbn [default].
  destruct (on_approvals (verify_for_execution id
      (action_hash sha256 (approval_context identity request p)) (ci_now_approval ci)) w1)
    as [[rec|e] w2] eqn:Ev.
  - rewrite (M_bind_ok _ _ _ _ _ Ev). unfold on_approvals in Ev.
    destruct (verify_for_execution _ _ _ _) as [res db'] eqn:Ev'. injection Ev as -> <-.
    apply verify_inv in Ev' as (Hl & Ha & Hx & Hh & ->). destruct Hf as (Hf & Hf').
    intros He. eapply inner_executed; [exact Hg| | |exact He].
    + intros _. exists id, rec. rewrite -Hf. by split_and!.
    + by split; [|exact Hf'].
  - rewrite (M_bind_err _ _ _ _ _ Ev). intros [= <- <-]. apply inner_refused.
    unfold on_approvals in Ev. destruct (verify_for_execution _ _ _ _). injection Ev as _ <-.
    destruct Hf as (_ & ? & ? & ?). by split_and!.
Qed.

(** the ways step 9 can go *)
Lemma execute_cases identity request p (w : World B C) r w' :
  execute_call gs channel agent_version ci identity request p w = (r, w') →
  w_executions w' = w_executions w ++ [exec_request ci p] ∧ w_security w' = w_security w ∧
  ((∃ e, r = Err e ∧ w_audit w' = w_audit w ∧ w_approvals w' = w_approvals w ∧
      (execute (exec_request ci p) = Err e ∨
       (∃ result, execute (exec_request ci p) = Ok result ∧
          (ex_success result = false ∧ e = failed_result result ∨
           needs_approval p = true ∧
             db_approvals (w_approvals w) !! default "" (tr_approval_id request) = None)))) ∨
   (∃ result, execute (exec_request ci p) = Ok result ∧ ex_success result = true ∧
      r = Ok (executed_response p (er_execution_id (exec_request ci p)) result
                (minimized_result gs p result)) ∧
      w_audit w' = w_audit w ++
        [prepared_event gs channel agent_version identity request p "TOOL_CALL_EXECUTED"
           (tr_approval_id request) "SUCCESS"] ∧
      w_approvals w' =
        if needs_approval p then
          (mark_executed (default "" (tr_approval_id request)) (ci_now_executed ci)
             (w_approvals w)).2
        else w_approvals w)).
Proof.
  unfold execute_call, call_execution, mbind, M_bind.
  destruct (execute (exec_request ci p)) as [result|e] eqn:Ex; cbn beta iota.
  2:{ intros [= <- <-]. cbn. split_and!; try done. left. exists e. by auto. }
  destruct (ex_success result) eqn:Es; cbn [negb].
  2:{ intros [= <- <-]. cbn. split_and!; try done. left. exists (failed_result result). eauto 10. }
  destruct (needs_approval p) eqn:Hn.
  2:{ intros [= <- <-]. cbn. split_and!; try done. right. exists result. by split_and!. }
  unfold on_approvals. cbn [w_approvals w_audit w_security w_rates w_catalog w_executions].
  destruct (mark_executed (default "" (tr_approval_id request)) (ci_now_executed ci) (w_approvals w))
    as [[u|e] db'] eqn:Em; intros [= <- <-]; cbn; split_and!; try done.
  - right. exists result. by split_and!.
  - unfold mark_executed, approval_get, mbind, M_bind in Em.
    destruct (db_approvals (w_approvals w) !! _) eqn:El; [done|]. injection Em as <- <-.
    left. eexists. split_and!; try done. right. exists result. split; [done|]. by right.
Qed.
(** what [handle] makes of an outcome of [_handle_inner] *)
Lemma handle_cases identity request (w : World B C) r w' :
  handle gs channel agent_version ci identity request w = (r, w') →
  ∃ r0 w0, inner_outcome identity request w r0 w0 ∧
    match r0 with
    | Ok resp => r = Ok resp ∧ w' = w0
    | Err (NumiError code detail _) =>
        r = Ok (refusal_response code detail) ∧
        w' = (log_refusal gs channel agent_version ci identity request code detail w0).2
    | Err (PyError k t) => r = Err (PyError k t) ∧ w' = w0
    end.
Proof.
  unfold handle, try_except.
  destruct (handle_inner gs channel agent_version ci identity request w) as [r0 w0] eqn:Ei.
  apply inner_cases in Ei. intros Hh. exists r0, w0. split; [done|].
  destruct r0 as [resp|[code detail i|k t]]; [by injection Hh as <- <-| |by injection Hh as <- <-].
  unfold mbind, M_bind in Hh |- *.
  assert (∃ u w1, log_refusal gs channel agent_version ci identity request code detail w0
                  = (Ok u, w1)) as (u & w1 & Hl).
  { unfold log_refusal, mbind, M_bind, audit_record, modify.
    destruct (is_security_code code); eauto. }
  rewrite Hl in Hh |- *. by injection Hh as <- <-.
Qed.

Lemma log_refusal_spec identity request code detail (w : World B C) :
  let w' := (log_refusal gs channel agent_version ci identity request code detail w).2 in
  w_approvals w' = w_approvals w ∧ w_executions w' = w_executions w ∧
  w_audit w' = w_audit w ++ [refused_event gs channel agent_version ci identity request code] ∧
  w_security w' = w_security w ++
    (if is_security_code code then
       [{| sv_event_type := failure_value code; sv_actor_subject_id := vi_subject_id identity;
           sv_detail := [("tool_id", tr_tool_id request); ("detail", detail)];
           sv_severity := "WARNING" |}] else []).
Proof.
  unfold log_refusal, mbind, M_bind, audit_record, record_security_event, modify.
  destruct (is_security_code code); cbn; rewrite ?app_nil_r; by split_and!.
Qed.

Lemma policy_stage_ok identity tool ctx ch ev :
  policy_stage gs ci identity tool ctx ch = Ok ev →
  pe_decision ev ≠ DENY ∧ (pe_requires_change_ticket ev = true → opt_truthy ch = true) ∧
  ∃ role, highest_role identity = Some role ∧
    policy_evaluate zone_offset (gs_policy gs) (tc_environment ctx) tool role ctx ch false
      (ci_now_policy ci) = Ok ev.
Proof.
  unfold policy_stage. destruct (highest_role identity) as [role|]; [|done].
  destruct (policy_evaluate _ _ _ _ _ _ _ _ _) as [ev'|] eqn:Ee; cbn; [|done].
  case_bool_decide as Hd; [done|].
  destruct (pe_requires_change_ticket ev') eqn:Hc, (opt_truthy ch) eqn:Ho; cbn; intros [= <-];
    rewrite ?Hc; eauto 6.
Qed.

Lemma request_approval_ok identity request p (w : World B C) :
  ∃ id db', request_approval gs channel agent_version ci identity request p w =
    (Ok {| rs_status := TC_APPROVAL_REQUIRED; rs_execution_id := None;
           rs_approval_id := Some id; rs_result := None; rs_failure_code := None;
           rs_message := "This action requires DBA approval before it will run.";
           rs_risk := Some (pr_risk p);
           rs_policy_decision := Some (decision_value (pe_decision (pr_evaluation p))) |},
     mk_world db' (w_audit w ++ [prepared_event gs channel agent_version identity request p
                                   "APPROVAL_REQUESTED" (Some id) ""])
       (w_security w) (w_rates w) (w_catalog w) (w_executions w)).
Proof. eexists _, _. reflexivity. Qed.
End facts.

Lemma list_app_singleton_ne {A} (l : list A) x : l ++ [x] ≠ l.
Proof. intros Hl. apply (f_equal length) in Hl. rewrite length_app in Hl. cbn in Hl. lia. Qed.

Lemma handle_execution {B C} `{RateLimitBackend B} `{CatalogStore C} `{PydanticLax}
    `{SqlGlot} `{SqlStatements} `{External} gs channel agent_version ci identity request
    (w : World B C) r w' :
  handle gs channel agent_version ci identity request w = (r, w') →
  w_executions w' = w_executions w ∨
  ∃ p, gates_passed (B := B) gs ci identity request p ∧
    w_executions w' = w_executions w ++ [exec_request ci p] ∧
    pe_decision (pr_evaluation p) ≠ DENY ∧
    (pe_requires_change_ticket (pr_evaluation p) = true →
       opt_truthy (tr_change_id request) = true) ∧
    (pe_decision (pr_evaluation p) = REQUIRES_APPROVAL →
       approval_in_force ci identity request p (w_approvals w)) ∧
    er_tool_id (exec_request ci p) = td_tool_id (pr_tool p) ∧
    er_server_id (exec_request ci p) = se_id (tc_server (pr_ctx p)) ∧
    er_database (exec_request ci p) = tc_database (pr_ctx p).
Proof.
  intros Hh. apply handle_cases in Hh as (r0 & w0 & Ho & Hr).
  assert (w_executions w' = w_executions w0) as ->.
  { destruct r0 as [resp|[code detail i|k t]]; [by destruct Hr as [_ ->]| |by destruct Hr as [_ ->]].
    destruct Hr as [_ ->]. apply log_refusal_spec. }
  destruct Ho as [e w0 (_ & _ & Hx)|p w1 r0 w0 Hg Hn Ht Hs Hq|p w1 r0 w0 Hg Hf Hs He].
  - by left.
  - left. destruct (request_approval_ok gs channel agent_version ci identity request p w1)
      as (id & db' & Hq'). rewrite Hq' in Hq. injection Hq as _ <-. by destruct Hs as (_ & _ & _ & ?).
  - right. exists p. apply execute_cases in He as (Hx & _). rewrite Hx.
    destruct Hs as (_ & _ & _ & ->).
    pose proof (policy_stage_ok _ _ _ _ _ _ _ (gp_policy _ _ _ _ _ Hg)) as (Hd & Hc & _).
    split_and!; try done. intros Hra. apply Hf. unfold needs_approval. by apply bool_decide_eq_true.
Qed.

(** C3: nothing reaches the execution service except through every gate: a
    handled call sends it at most one request; when it does, the tool is
    registered and enabled, the arguments and the target validated, the identity
    authorized, the rate limits accepted and the policy not DENY with its change
    ticket present; if the policy asks for approval, an approved, unexpired
    record bound to the hash of exactly this action is stored; and the request
    names the tool, the resolved server and the validated database. *)
Theorem execution_passed_every_gate {B C} `{RateLimitBackend B} `{CatalogStore C} `{PydanticLax}
    `{SqlGlot} `{SqlStatements} `{External} gs channel agent_version ci identity request
    (w : World B C) r w' :
  handle gs channel agent_version ci identity request w = (r, w') →
  w_executions w' = w_executions w ∨
  ∃ p, gates_passed (B := B) gs ci identity request p ∧
    w_executions w' = w_executions w ++ [exec_request ci p] ∧
    pe_decision (pr_evaluation p) ≠ DENY ∧
    (pe_requires_change_ticket (pr_evaluation p) = true →
       opt_truthy (tr_change_id request) = true) ∧
    (pe_decision (pr_evaluation p) = REQUIRES_APPROVAL →
       approval_in_force ci identity request p (w_approvals w)) ∧
    er_tool_id (exec_request ci p) = td_tool_id (pr_tool p) ∧
    er_server_id (exec_request ci p) = se_id (tc_server (pr_ctx p)) ∧
    er_database (exec_request ci p) = tc_database (pr_ctx p).
Proof.
  apply handle_execution.
Qed.

(** the event type that goes with a response *)
Definition status_event (s : ToolCallStatus) : string :=
  match s with
  | TC_EXECUTED => "TOOL_CALL_EXECUTED"
  | TC_APPROVAL_REQUIRED => "APPROVAL_REQUESTED"
  | TC_DENIED => "TOOL_CALL_DENIED"
  | TC_FAILED => "TOOL_CALL_FAILED"
  end.

Lemma failure_value_inj c c' : failure_value c = failure_value c' → c = c'.
Proof.
  intros He. apply (f_equal failure_of_value) in He. rewrite !failure_of_value_value in He.
  by injection He.
Qed.

(** what a handled call leaves in the two logs *)
Lemma handle_logs {B C} `{RateLimitBackend B} `{CatalogStore C} `{PydanticLax}
    `{SqlGlot} `{SqlStatements} `{External} gs channel agent_version ci identity request
    (w : World B C) :
  match handle gs channel agent_version ci identity request w with
  | (Ok resp, w') =>
      (∃ e, w_audit w' = w_audit w ++ [e] ∧ au_event_type e = status_event (rs_status resp) ∧
         au_actor_subject_id e = vi_subject_id identity ∧
         au_correlation_ids e = correlation_of request ∧
         au_error_code e = rs_failure_code resp) ∧
      match rs_failure_code resp with
      | None =>
          w_security w' = w_security w ∧
          ((rs_status resp = TC_APPROVAL_REQUIRED ∧ w_executions w' = w_executions w) ∨
           (rs_status resp = TC_EXECUTED ∧ ∃ req, w_executions w' = w_executions w ++ [req] ∧
              rs_execution_id resp = Some (er_execution_id req)))
      | Some c => ∃ code, c = failure_value code ∧
          rs_status resp = (if is_execution_outcome code then TC_FAILED else TC_DENIED) ∧
          length (w_security w') =
            (length (w_security w) + if is_security_code code then 1 else 0)%nat
      end
  | (Err e, w') => exn_code e = None ∧ w_audit w' = w_audit w ∧ w_security w' = w_security w
  end.
Proof.
  destruct (handle gs channel agent_version ci identity request w) as [r w'] eqn:Hh.
  apply handle_cases in Hh as (r0 & w0 & Ho & Hr).
  destruct r0 as [resp|[code detail i|k t]].
  - destruct Hr as [-> ->]. inversion Ho as [|p w1 r1 w2 Hg Hn Ht Hs Hq|p w1 r1 w2 Hg Hf Hs He]; subst.
    + destruct (request_approval_ok gs channel agent_version ci identity request p w1)
        as (id & db' & Hq'). rewrite Hq' in Hq. injection Hq as <- <-. cbn.
      destruct Hs as (_ & -> & -> & ->). eauto 10.
    + apply execute_cases in He as (Hx & Hsec & [(e & [=] & _)|(res & _ & _ & [= ->] & Ha & _)]).
      destruct Hs as (_ & Hs1 & Hs2 & Hs3). rewrite Ha Hsec Hx Hs1 Hs2 Hs3. cbn.
      split; [eexists; by split_and!|]. split; [done|]. right. split; [done|]. by eexists.
  - destruct Hr as [-> ->].
    destruct (log_refusal_spec gs channel agent_version ci identity request code detail w0)
      as (_ & _ & -> & ->).
    assert (w_audit w0 = w_audit w ∧ w_security w0 = w_security w) as [-> ->].
    { inversion Ho as [e w2 (? & ? & _)|p w1 r1 w2 Hg Hn Ht Hs Hq|p w1 r1 w2 Hg Hf Hs He]; subst.
      - done.
      - destruct (request_approval_ok gs channel agent_version ci identity request p w1)
          as (id & db' & Hq'). rewrite Hq' in Hq. discriminate Hq.
      - apply execute_cases in He as (_ & Hsec & [(e & _ & Ha & _)|(res & _ & _ & [=] & _)]).
        rewrite Ha Hsec. by destruct Hs as (_ & ? & ? & _). }
    cbn. split.
    + eexists. split; [reflexivity|]. cbn. by destruct (is_execution_outcome code).
    + exists code. split_and!; try done. rewrite length_app. by destruct (is_security_code code).
  - destruct Hr as [-> ->]. split; [done|].
    inversion Ho as [e w2 (? & ? & _)|p w1 r1 w2 Hg Hn Ht Hs Hq|p w1 r1 w2 Hg Hf Hs He]; subst.
    + done.
    + destruct (request_approval_ok gs channel agent_version ci identity request p w1)
        as (id & db' & Hq'). rewrite Hq' in Hq. discriminate Hq.
    + apply execute_cases in He as (_ & Hsec & [(e & _ & Ha & _)|(res & _ & _ & [=] & _)]).
      rewrite Ha Hsec. by destruct Hs as (_ & ? & ? & _).
Qed.

(** C18: every answered call leaves exactly one audit event, whose type is the
    response's status, with the caller, the correlation ids and the failure code;
    a refusal is FAILED exactly when its code is an execution outcome and DENIED
    otherwise, and adds a security event exactly for the five security codes; an
    EXECUTED response stands for exactly one request sent. The only exceptions
    that escape [handle] are not [NumiError]s, and those leave no trace in either
    log. *)
Theorem handled_call_audited {B C} `{RateLimitBackend B} `{CatalogStore C} `{PydanticLax}
    `{SqlGlot} `{SqlStatements} `{External} gs channel agent_version ci identity request
    (w : World B C) :
  match handle gs channel agent_version ci identity request w with
  | (Ok resp, w') =>
      (∃ e, w_audit w' = w_audit w ++ [e] ∧ au_event_type e = status_event (rs_status resp) ∧
         au_actor_subject_id e = vi_subject_id identity ∧
         au_correlation_ids e = correlation_of request ∧
         au_error_code e = rs_failure_code resp) ∧
      match rs_failure_code resp with
      | None =>
          w_security w' = w_security w ∧
          ((rs_status resp = TC_APPROVAL_REQUIRED ∧ w_executions w' = w_executions w) ∨
           (rs_status resp = TC_EXECUTED ∧ ∃ req, w_executions w' = w_executions w ++ [req] ∧
              rs_execution_id resp = Some (er_execution_id req)))
      | Some c => ∃ code, c = failure_value code ∧
          rs_status resp = (if is_execution_outcome code then TC_FAILED else TC_DENIED) ∧
          length (w_security w') =
            (length (w_security w) + if is_security_code code then 1 else 0)%nat
      end
  | (Err e, w') => exn_code e = None ∧ w_audit w' = w_audit w ∧ w_security w' = w_security w
  end.
Proof. apply handle_logs. Qed.

(** every record is stored under its own id *)
Definition keyed (db : ApprovalDb) : Prop :=
  ∀ id r, db_approvals db !! id = Some r → ar_approval_id r = id.

(** C19: an approval is consumed exactly by the execution it authorised: when a
    call that needs approval reaches the execution service, either it is EXECUTED
    and the one change to the approvals is that its record goes from APPROVED to
    EXECUTED, or the execution failed and every approval is as it was, so that the
    same approval can be used again while it is unexpired. *)
Theorem approval_consumed_on_success {B C} `{RateLimitBackend B} `{CatalogStore C}
    `{PydanticLax} `{SqlGlot} `{SqlStatements} `{External} gs channel agent_version ci identity
    request (w : World B C) r w' :
  handle gs channel agent_version ci identity request w = (r, w') →
  keyed (w_approvals w) → w_executions w' ≠ w_executions w →
  match r with
  | Ok {| rs_status := TC_EXECUTED; rs_policy_decision := Some d |} =>
      if bool_decide (d = "REQUIRES_APPROVAL") then
        ∃ id a, tr_approval_id request = Some id ∧
          db_approvals (w_approvals w) !! id = Some a ∧ ar_status a = AS_APPROVED ∧
          db_approvals (w_approvals w') =
            <[id := with_status a AS_EXECUTED]> (db_approvals (w_approvals w))
      else w_approvals w' = w_approvals w
  | Ok resp => (rs_status resp = TC_FAILED ∨ rs_status resp = TC_DENIED) ∧
      w_approvals w' = w_approvals w
  | Err _ => w_approvals w' = w_approvals w
  end.
Proof.
  intros Hh Hk Hx. apply handle_cases in Hh as (r0 & w0 & Ho & Hr).
  assert (w_executions w0 ≠ w_executions w) as Hx0.
  { destruct r0 as [resp|[code detail i|k t]]; [by destruct Hr as [_ ->]| |by destruct Hr as [_ ->]].
    destruct Hr as [_ ->].
    by destruct (log_refusal_spec gs channel agent_version ci identity request code detail w0)
      as (_ & <- & _). }
  destruct Ho as [e w0 (_ & _ & He)|p w1 r0 w0 Hg Hn Ht Hs Hq|p w1 r0 w0 Hg Hf Hs He]; [done| |].
  { destruct (request_approval_ok gs channel agent_version ci identity request p w1)
      as (id & db' & Hq'). rewrite Hq' in Hq. injection Hq as _ <-. by destruct Hs as (_ & _ & _ & ?). }
  apply execute_cases in He as (_ & _ & [(e & -> & _ & Hap & _)|(res & _ & _ & -> & _ & Hap)]);
    destruct Hs as (Hap1 & _).
  - destruct e as [code detail i|k t]; destruct Hr as [-> ->]; cbn [rs_status refusal_response].
    + destruct (log_refusal_spec gs channel agent_version ci identity request code detail w0)
        as (-> & _). cbn. destruct (is_execution_outcome code); cbn; rewrite Hap Hap1; auto.
    + by rewrite Hap Hap1.
  - destruct Hr as [-> ->]. cbn. unfold needs_approval in Hap, Hf.
    pose proof (policy_stage_ok _ _ _ _ _ _ _ (gp_policy _ _ _ _ _ Hg)) as (Hd & _).
    destruct (pe_decision (pr_evaluation p)); [| |]; cbn in Hap |- *; [by rewrite Hap Hap1|done|].
    destruct Hf as (id & a & Hid & Ha & Hst & _); [done|]. exists id, a. split_and!; try done.
    rewrite Hid Hap1 in Hap. cbn in Hap.
    destruct (mark_spec id (ci_now_executed ci) (w_approvals w) a Ha (Hk _ _ Ha)) as (ev & Hm).
    by rewrite Hm in Hap; rewrite Hap.
Qed.

(** *** A Gateway to run *)

Definition no_sql_statements : SqlStatements.
Proof.
  refine {| sv_stmt := LimitView; sv_parse := λ _ _, None; sv_is_select := λ _, true;
            sv_has_into := λ _, false; sv_function_names := λ _, []; sv_node_texts := λ _, [];
            sv_table_names := λ _, []; sv_limit := λ s, s; sv_with_limit := λ n _, LimitInt n;
            sv_to_sql := λ _ _, "" |}; reflexivity.
Defined.

(** an execution service that always answers [answer] *)
Definition answering (answer : res exn ExecutionResult) : External :=
  {| sha256 := id_hash; zone_offset := λ _ _, Some 0%Z; validation_errors := λ _, "";
     discover := λ _ _ _, Err (PyError "ConnectError" ""); execute := λ _, answer |}.
Definition one_row : ExecutionResult :=
  {| ex_execution_id := "exec_1"; ex_success := true; ex_columns := ["status"];
     ex_rows := [[("status", JStr "ok")]]; ex_row_count := 1; ex_truncated := false;
     ex_affected := []; ex_error_code := None; ex_error_detail := None;
     ex_verification_status := "NOT_APPLICABLE"; ex_verification_detail := "";
     ex_duration_ms := 3 |}.

Definition lenient : TierLimits :=
  {| per_user_per_minute := 10; per_conversation_per_minute := 10; per_tool_per_minute := 10;
     per_database_per_minute := 10; per_environment_per_minute := 10 |}.
Definition prod_server : ServerEntry :=
  mk_server "sqlserver-prod-01" "10.0.0.2" [] PRODUCTION [DBA_L1; DBA_L3] [].
Definition restart_policy : PolicyConfig :=
  {| pc_default_decision := DENY;
     pc_table := [("production", [("database.get_health", [("DBA_L1", ALLOW)]);
                                  ("database.restart_instance", [("DBA_L3", REQUIRES_APPROVAL)])])];
     pc_change_ticket_required := []; pc_dual_approval_required := [] |}.
Definition example_gateway : GatewayState :=
  {| gs_tools := [("database.get_health", health_tool); ("database.restart_instance", restart_tool)];
     gs_entries := [prod_server]; gs_policy := restart_policy;
     gs_limits := [("read", lenient); ("critical", lenient)];
     gs_minimizer := default_policy_config; gs_approval_ttl := 600; gs_max_objects := 5000;
     gs_refresh_minutes := 60; gs_identity_provider := "mock" |}.
Definition ticks : CallInputs :=
  {| ci_now_discovery := 3; ci_now_rate := 3; ci_now_policy := 3; ci_now_approval := 3;
     ci_now_executed := 4; ci_approval_ulid := "2"; ci_execution_ulid := "1";
     ci_duration_ms := 5 |}.

Definition call_request (tool : string) (arguments : list (string * json))
    (approval_id : option string) : ToolCallRequest :=
  {| tr_tool_id := tool; tr_tool_version := None; tr_arguments := arguments;
     tr_target := [("environment", JStr "production"); ("instance", JStr "sqlserver-prod-01")];
     tr_reason := "nightly check"; tr_conversation_id := "conv_1"; tr_investigation_id := None;
     tr_request_id := "req_1"; tr_channel := "slack"; tr_channel_account_id := "U1";
     tr_approval_id := approval_id; tr_change_id := None |}.
Definition health_request : ToolCallRequest := call_request "database.get_health" [] None.
Definition empty_world : World InMemoryBuckets InMemoryCatalog :=
  mk_world {| db_approvals := ∅; db_approval_events := [] |} [] []
    {| im_buckets := ∅ |} {| by_server := [] |} [].

Definition run (answer : res exn ExecutionResult) (identity : VerifiedIdentity)
    (request : ToolCallRequest) (w : World InMemoryBuckets InMemoryCatalog)
    : res exn ToolCallResponse * World InMemoryBuckets InMemoryCatalog :=
  @handle InMemoryBuckets InMemoryCatalog in_memory_backend in_memory_catalog strict_lax no_sqlglot
    no_sql_statements (answering answer) example_gateway "slack" "agent/0.1.0" ticks identity
    request w.

(** the restart is requested, approved by two others, and the world it leaves *)
Definition restart_world : World InMemoryBuckets InMemoryCatalog :=
  let w := (run (Ok one_row) (who "alice" DBA_L3)
              (call_request "database.restart_instance" [("reason", JStr "hung scheduler")] None)
              empty_world).2 in
  let approve id who_ now db := (approval_decide id who_ APPROVE now db).2 in
  mk_world (approve "appr_2" (who "carol" DBA_MANAGER) 3%Z
              (approve "appr_2" (who "bob" DBA_L3) 3%Z (w_approvals w)))
    (w_audit w) (w_security w) (w_rates w) (w_catalog w) (w_executions w).
Definition restart_again : ToolCallRequest :=
  call_request "database.restart_instance" [("reason", JStr "hung scheduler")] (Some "appr_2").

Example health_runs :
  rs_status <$> (run (Ok one_row) (who "lou" DBA_L1) health_request empty_world).1 = Ok TC_EXECUTED.
Proof. vm_compute. reflexivity. Qed.
Example restart_runs :
  rs_status <$> (run (Ok one_row) (who "alice" DBA_L3) restart_again restart_world).1 = Ok TC_EXECUTED.
Proof. vm_compute. reflexivity. Qed.

(** an identity without the facts of the theorem evaluated: the pair of a run *)
Lemma run_eq answer identity request w :
  run answer identity request w =
    ((run answer identity request w).1, (run answer identity request w).2).
Proof. apply surjective_pairing. Qed.

Lemma execution_passed_every_gate_witness :
  ∃ p, @gates_passed InMemoryBuckets in_memory_backend strict_lax no_sql_statements
         (answering (Ok one_row)) example_gateway ticks (who "alice" DBA_L3) restart_again p ∧
    w_executions (run (Ok one_row) (who "alice" DBA_L3) restart_again restart_world).2
      = w_executions restart_world ++ [exec_request ticks p] ∧
    pe_decision (pr_evaluation p) ≠ DENY.
Proof.
  destruct (@execution_passed_every_gate _ _ _ _ _ _ _ _ _ _ _ _ _ _ _ _ _
              (run_eq (Ok one_row) (who "alice" DBA_L3) restart_again restart_world))
    as [Hx|(p & Hg & Hx & Hd & _)].
  - vm_compute in Hx. discriminate Hx.
  - exists p. split; [exact Hg|]. split; [exact Hx|exact Hd].
Defined.

Lemma restart_world_keyed : keyed (w_approvals restart_world).
Proof.
  change (map_Forall (λ id r, ar_approval_id r = id) (db_approvals (w_approvals restart_world))).
  apply (bool_decide_unpack _). vm_compute. exact I.
Qed.

Lemma approval_consumed_on_success_witness :
  ∃ id a, tr_approval_id restart_again = Some id ∧
    db_approvals (w_approvals restart_world) !! id = Some a ∧ ar_status a = AS_APPROVED ∧
    db_approvals (w_approvals
      (run (Ok one_row) (who "alice" DBA_L3) restart_again restart_world).2) =
      <[id := with_status a AS_EXECUTED]> (db_approvals (w_approvals restart_world)).
Proof.
  assert (w_executions (run (Ok one_row) (who "alice" DBA_L3) restart_again restart_world).2
          ≠ w_executions restart_world) as Hx by (vm_compute; discriminate).
  pose proof (@approval_consumed_on_success _ _ _ _ _ _ _ _ _ _ _ _ _ _ _ _ _
    (run_eq (Ok one_row) (who "alice" DBA_L3) restart_again restart_world)
    restart_world_keyed Hx) as Hc.
  destruct ((run (Ok one_row) (who "alice" DBA_L3) restart_again restart_world).1) as [resp|e] eqn:E;
    [|vm_compute in E; discriminate E].
  vm_compute in E. injection E as <-. exact Hc.
Defined.

(* ------------------------------------------------------------------ *)
(** ** Enrichment *)

Lemma enrich_update_none args arg key current :
  arg_truthy args arg = false ∨ opt_truthy current = true →
  enrich_update args arg key current = [].
Proof. unfold enrich_update. intros [-> | ->]; [done|]. by rewrite andb_false_r. Qed.

Definition with_session (t : DatabaseTarget) (session query : option string) : DatabaseTarget :=
  {| dt_environment := dt_environment t; dt_platform := dt_platform t;
     dt_cluster := dt_cluster t; dt_instance := dt_instance t; dt_database := dt_database t;
     dt_schema_name := dt_schema_name t; dt_object_name := dt_object_name t;
     dt_session_id := session; dt_query_id := query |}.

(** the aliases are not fields; the identifiers are *)
Lemma copy_schema t v : model_copy_field t ("schema", v) = t.
Proof. destruct t. vm_compute. reflexivity. Qed.
Lemma copy_object t v : model_copy_field t ("object", v) = t.
Proof. destruct t. vm_compute. reflexivity. Qed.
Lemma copy_session t v :
  model_copy_field t ("session_id", v) = with_session t (json_str_opt v) (dt_query_id t).
Proof. destruct t. vm_compute. reflexivity. Qed.
Lemma copy_query t v :
  model_copy_field t ("query_id", v) = with_session t (dt_session_id t) (json_str_opt v).
Proof. destruct t. vm_compute. reflexivity. Qed.

Lemma enrich_fields t args : enrich_target t args =
  with_session t
    (if arg_truthy args "session_id" && negb (opt_truthy (dt_session_id t))
     then dict_get "session_id" args ≫= json_str_opt else dt_session_id t)
    (if arg_truthy args "query_id" && negb (opt_truthy (dt_query_id t))
     then dict_get "query_id" args ≫= json_str_opt else dt_query_id t).
Proof.
  assert (∀ k, dict_get k args ≫= json_str_opt = json_str_opt (default JNull (dict_get k args)))
    as Hd by (intros k; by destruct (dict_get k args)).
  rewrite !Hd. unfold enrich_target, enrich_update.
  assert (t = with_session t (dt_session_id t) (dt_query_id t)) as Ht by by destruct t.
  destruct (arg_truthy args "schema_name" && _), (arg_truthy args "table" && _),
    (arg_truthy args "session_id" && _), (arg_truthy args "query_id" && _);
    cbn [app]; unfold model_copy; cbn [foldl];
    rewrite ?copy_schema ?copy_object ?copy_session ?copy_query; try exact Ht; reflexivity.
Qed.

(** Enrichment completes the session and the query of a target from the
    validated arguments, and never the schema or the object: whatever the
    arguments say, a target without an object is refused for every tool whose
    required scope names the object. *)
Theorem enrichment_never_supplies_the_object entries lookup t args scope :
  dt_session_id (enrich_target t args) =
    (if arg_truthy args "session_id" && negb (opt_truthy (dt_session_id t))
     then dict_get "session_id" args ≫= json_str_opt else dt_session_id t) ∧
  dt_query_id (enrich_target t args) =
    (if arg_truthy args "query_id" && negb (opt_truthy (dt_query_id t))
     then dict_get "query_id" args ≫= json_str_opt else dt_query_id t) ∧
  dt_schema_name (enrich_target t args) = dt_schema_name t ∧
  dt_object_name (enrich_target t args) = dt_object_name t ∧
  (opt_truthy (dt_object_name t) = false → "object_name" ∈ scope →
     ∀ ctx, validate_target entries lookup (enrich_target t args) scope ≠ Ok ctx).
Proof.
  assert (dt_object_name (enrich_target t args) = dt_object_name t) as Ho
    by by rewrite enrich_fields.
  split_and!; try (by rewrite enrich_fields).
  intros Hf Hin ctx Hv. unfold validate_target in Hv.
  destruct (resolve _ _) as [server|[|]]; [|done|done].
  apply res_bind_ok in Hv as ([db d] & _ & Hv). apply res_bind_ok in Hv as (u & Hc & _).
  destruct u. apply (check_required_ok _ _ _ _ _ Hc) in Hin as (v & Hv & Hne).
  change (FIELD_ALIASES "object_name") with "object_name" in Hv.
  change (Some (default "" (dt_object_name (enrich_target t args))) = Some v) in Hv.
  rewrite Ho in Hv. injection Hv as <-. destruct (dt_object_name t) as [o|]; [|done].
  cbn in Hf, Hne. apply truthy_spec in Hne. congruence.
Qed.
