(* ===== verification/Identity.v ===== *)
(** Identity: the [IdentityProvider] interface of [common/identity/provider.py],
    its config-driven mock, and the OIDC/SCIM provider of
    [common/identity/oidc_provider.py].  The HTTP client is a parameter; the
    provider's own caches are its state. *)
From S2P Require Import Prelude Json Models Servers Policy.

(* ------------------------------------------------------------------ *)
(** ** The interface *)

Class IdentityProvider (P : Type) : Type := {
  resolve_by_external_account : string → string → M P exn (option VerifiedIdentity);
  refresh_identity : string → M P exn (option VerifiedIdentity)
}.

(** what every caller relies on: the methods answer, whatever happens *)
Class IdentityProviderLaws (P : Type) `{IdentityProvider P} : Prop := {
  resolve_never_raises : ∀ channel account s e s',
    resolve_by_external_account channel account s ≠ (Err e, s');
  refresh_never_raises : ∀ subject s e s', refresh_identity subject s ≠ (Err e, s')
}.

(* ------------------------------------------------------------------ *)
(** ** GroupRoleMapping *)

(** [identity.roles] in the order of the file; role names are checked when the
    configuration is loaded *)
Record GroupRoleMapping : Type := {
  dba_team_groups : list string;
  role_group_map : list (DBARole * list string)
}.

Definition derive_roles (g : GroupRoleMapping) (groups : list string) : list DBARole :=
  if negb (intersects groups (dba_team_groups g)) then []
  else map fst (List.filter (λ rg, intersects groups rg.2) (role_group_map g)).

Lemma derive_roles_spec g groups r : r ∈ derive_roles g groups ↔
  (∃ x, x ∈ groups ∧ x ∈ dba_team_groups g) ∧
  ∃ required, (r, required) ∈ role_group_map g ∧ ∃ x, x ∈ groups ∧ x ∈ required.
Proof.
  unfold derive_roles. destruct (intersects groups (dba_team_groups g)) eqn:Et; cbn.
  - apply intersects_spec in Et. rewrite list_elem_of_fmap. split.
    + intros ([r' req] & -> & [Hin Hi]%filter_elem_of). split; [done|].
      exists req. split; [done|]. by apply intersects_spec.
    + intros [_ (req & Hin & Hi)]. exists (r, req). split; [done|].
      apply filter_elem_of. split; [done|]. by apply intersects_spec.
  - split; [by intros ?%elem_of_nil|]. intros [Ht%intersects_spec _]. congruence.
Qed.

(** a directory entry, and an identity built from groups *)
Definition identity_from (g : GroupRoleMapping) (subject email display : string)
    (groups : list string) (mfa : bool) (now : string) : VerifiedIdentity :=
  {| vi_subject_id := subject; vi_email := email; vi_display_name := display;
     vi_enterprise_groups := groups; vi_dba_roles := derive_roles g groups;
     vi_mfa_satisfied := mfa; vi_authenticated_at := now |}.

(* ------------------------------------------------------------------ *)
(** ** MockIdentityProvider *)

Record DirectoryEntry : Type := {
  di_subject_id : string;
  di_email : string;
  di_display_name : string;
  di_channel_accounts : list (string * string);
  di_groups : list string;
  di_mfa : bool
}.

Record MockIdentityProvider : Type := {
  mk_roles : GroupRoleMapping;
  mk_directory : list DirectoryEntry
}.

Section mock.
(** the clock, as [isoformat] text *)
Context (now : string).

Definition mock_to_identity (p : MockIdentityProvider) (e : DirectoryEntry) : VerifiedIdentity :=
  identity_from (mk_roles p) (di_subject_id e) (di_email e) (di_display_name e) (di_groups e)
    (di_mfa e) now.

Definition mock_resolve (channel external_account_id : string)
    : M MockIdentityProvider exn (option VerifiedIdentity) := λ p,
  (Ok (mock_to_identity p <$>
     first_where (λ e, bool_decide (dict_get channel (di_channel_accounts e)
                                    = Some external_account_id)) (mk_directory p)), p).
Definition mock_refresh (subject_id : string)
    : M MockIdentityProvider exn (option VerifiedIdentity) := λ p,
  (Ok (mock_to_identity p <$>
     first_where (λ e, bool_decide (di_subject_id e = subject_id)) (mk_directory p)), p).

#[local] Instance mock_provider : IdentityProvider MockIdentityProvider :=
  {| resolve_by_external_account := mock_resolve; refresh_identity := mock_refresh |}.
#[local] Instance mock_provider_laws : IdentityProviderLaws MockIdentityProvider.
Proof. by split. Qed.
End mock.

(* ------------------------------------------------------------------ *)
(** ** oidc_provider.py: SCIM string literals *)

Fixpoint str_replace (c : ascii) (by_ : string) (s : string) : string :=
  match s with
  | EmptyString => EmptyString
  | String d s => if bool_decide (d = c) then by_ +:+ str_replace c by_ s
                  else String d (str_replace c by_ s)
  end.

(** [_scim_string_literal] *)
Definition scim_escape (value : string) : string :=
  str_replace dquote (String bslash (String dquote "")) (str_replace bslash
    (String bslash (String bslash "")) value).
Definition scim_string_literal (value : string) : string :=
  String dquote (scim_escape value +:+ String dquote "").

(** the reader of a SCIM filter's string literal (RFC 7644, which takes JSON's
    grammar for strings): after the opening quote, a backslash takes the next
    character literally and the first bare quote closes the literal; it returns
    the value and the text after the literal *)
Fixpoint scim_read_body (s : string) : option (string * string) :=
  match s with
  | EmptyString => None
  | String c s' =>
      if bool_decide (c = dquote) then Some ("", s')
      else if bool_decide (c = bslash) then
        match s' with
        | EmptyString => None
        | String d s'' => '(v, rest) ← scim_read_body s''; Some (String d v, rest)
        end
      else '(v, rest) ← scim_read_body s'; Some (String c v, rest)
  end.
Definition scim_read_literal (s : string) : option (string * string) :=
  match s with
  | String c s' => if bool_decide (c = dquote) then scim_read_body s' else None
  | EmptyString => None
  end.

(** one character at a time *)
Definition scim_escape_char (c : ascii) : string :=
  if bool_decide (c = bslash) then String bslash (String bslash "")
  else if bool_decide (c = dquote) then String bslash (String dquote "")
  else String c "".

Lemma str_replace_app c t a b :
  str_replace c t (a +:+ b) = str_replace c t a +:+ str_replace c t b.
Proof.
  induction a as [|d a IH]; [done|]. rewrite str_app_cons. cbn [str_replace]. rewrite IH.
  destruct (bool_decide (d = c)); [by rewrite str_app_assoc|done].
Qed.

Lemma scim_escape_cons c v : scim_escape (String c v) = scim_escape_char c +:+ scim_escape v.
Proof.
  unfold scim_escape, scim_escape_char. cbn [str_replace].
  destruct (bool_decide (c = bslash)) eqn:Eb.
  - rewrite str_replace_app. done.
  - cbn [str_replace]. by destruct (bool_decide (c = dquote)).
Qed.

Lemma scim_read_escaped v rest :
  scim_read_body (scim_escape v +:+ String dquote rest) = Some (v, rest).
Proof.
  induction v as [|c v IH]; [done|]. rewrite scim_escape_cons str_app_assoc. unfold scim_escape_char.
  destruct (bool_decide (c = bslash)) eqn:Eb; [|destruct (bool_decide (c = dquote)) eqn:Ed].
  - apply bool_decide_eq_true in Eb as ->. rewrite !str_app_cons.
    change ("" +:+ scim_escape v +:+ String dquote rest)
      with (scim_escape v +:+ String dquote rest).
    cbn -[scim_escape]. by rewrite IH.
  - apply bool_decide_eq_true in Ed as ->. rewrite !str_app_cons.
    change ("" +:+ scim_escape v +:+ String dquote rest)
      with (scim_escape v +:+ String dquote rest).
    cbn -[scim_escape]. by rewrite IH.
  - rewrite str_app_cons. cbn [scim_read_body]. rewrite Eb Ed.
    change ("" +:+ scim_escape v +:+ String dquote rest)
      with (scim_escape v +:+ String dquote rest).
    by rewrite IH.
Qed.

(** No account id can break out of its SCIM filter: whatever the id, the
    literal built from it is read back as exactly that id, and the reader stops
    exactly where the literal ends, so nothing of the id is ever filter syntax. *)
Theorem scim_literal_round_trip value rest :
  scim_read_literal (scim_string_literal value +:+ rest) = Some (value, rest).
Proof.
  unfold scim_string_literal. rewrite str_app_cons str_app_assoc. cbn [scim_read_literal].
  rewrite bool_decide_true // str_app_cons. apply scim_read_escaped.
Qed.

(* ------------------------------------------------------------------ *)
(** ** oidc_provider.py: the provider *)

Record OidcConfig : Type := {
  oc_issuer : string;
  oc_client_id : string;
  oc_client_secret : string;
  oc_roles : GroupRoleMapping;
  oc_directory_endpoint : string;
  oc_channel_attributes : list (string * string);
  oc_groups_attribute : string;
  oc_mfa_attribute : string;
  oc_scopes : string
}.

(** the caches: metadata and the service's own token, never an identity;
    instants in microseconds *)
Record OidcState : Type := {
  oi_discovery : option (list (string * json));
  oi_access_token : option string;
  oi_access_token_expires_at : Z
}.

(** the injected HTTP client: a status code and the body's [.json()], or a
    transport exception *)
Class HttpClient : Type := {
  http_get : string → list (string * string) → list (string * string) → res exn (Z * res exn json);
  http_post : string → list (string * string) → list (string * string) → res exn (Z * res exn json)
}.

(** the value of a key, when it is truthy *)
Definition get_true (k : string) (d : list (string * json)) : option json :=
  match dict_get k d with
  | Some v => if json_truthy v then Some v else None
  | None => None
  end.

Definition TOKEN_EXPIRY_SKEW : Z := 30 * US.
Definition DEFAULT_TOKEN_LIFETIME : Z := 300 * US.

(** [float(v)] in microseconds, for integers and decimal text *)
Definition seconds_of (v : json) : res exn Z :=
  match v with
  | JInt n => Ok (n * US)%Z
  | JBool b => Ok (if b then US else 0%Z)
  | JStr s => match int_of_str s with
              | Some n => Ok (n * US)%Z
              | None => Err (PyError "ValueError" "could not convert string to float")
              end
  | _ => Err (PyError "TypeError" "float() argument must be a string or a real number")
  end.

Definition runtime_error (text : string) : exn := PyError "RuntimeError" text.

Section oidc.
Context `{HttpClient} (cfg : OidcConfig).
(** the text of a JSON value that is not a string, as [str] gives it, the
    monotonic clock, and the clock as text *)
Context (py_repr : json → string) (monotonic : Z) (now : string).

Definition py_str (v : json) : string := match v with JStr s => s | _ => py_repr v end.

Definition discovery_document : M OidcState exn (list (string * json)) := λ s,
  match oi_discovery s with
  | Some d => (Ok d, s)
  | None =>
      match http_get (oc_issuer cfg +:+ "/.well-known/openid-configuration") [] [] with
      | Err e => (Err e, s)
      | Ok (status, body) =>
          if negb (bool_decide (status = 200%Z)) then
            (Err (runtime_error ("OIDC discovery returned HTTP " +:+ pretty status)), s)
          else
            match body with
            | Err e => (Err e, s)
            | Ok (JObj d) =>
                (Ok d, {| oi_discovery := Some d; oi_access_token := oi_access_token s;
                          oi_access_token_expires_at := oi_access_token_expires_at s |})
            | Ok _ => (Err (runtime_error "OIDC discovery document was not a JSON object"), s)
            end
      end
  end.

Definition token_form : list (string * string) :=
  [("grant_type", "client_credentials"); ("client_id", oc_client_id cfg);
   ("client_secret", oc_client_secret cfg)]
  ++ (if truthy (oc_scopes cfg) then [("scope", oc_scopes cfg)] else []).

(** the token and its lifetime out of the token endpoint's answer *)
Definition parse_token (payload : json) : res exn (string * Z) :=
  match payload with
  | JObj p =>
      match get_true "access_token" p with
      | None => Err (runtime_error "OIDC token response carried no access_token")
      | Some token =>
          lifetime ← match get_true "expires_in" p with
                     | Some v => seconds_of v
                     | None => Ok DEFAULT_TOKEN_LIFETIME
                     end;
          Ok (py_str token, lifetime)
      end
  | _ => Err (runtime_error "OIDC token response carried no access_token")
  end.

Definition request_token (token_endpoint : string) : res exn (string * Z) :=
  '(status, body) ← http_post token_endpoint token_form
                      [("Content-Type", "application/x-www-form-urlencoded")];
  if negb (bool_decide (status = 200%Z)) then
    Err (runtime_error ("OIDC token endpoint returned HTTP " +:+ pretty status))
  else payload ← body; parse_token payload.

(** [_bearer_token] *)
Definition bearer_token : M OidcState exn string := λ s,
  if opt_truthy (oi_access_token s) && (monotonic <? oi_access_token_expires_at s)%Z
  then (Ok (default "" (oi_access_token s)), s)
  else
    (discovery ← discovery_document;
     match get_true "token_endpoint" discovery with
     | None => raise (runtime_error "OIDC discovery document has no token_endpoint")
     | Some endpoint =>
         '(token, lifetime) ← lift_res (request_token (py_str endpoint));
         _ ← modify (λ s, {| oi_discovery := oi_discovery s; oi_access_token := Some token;
               oi_access_token_expires_at :=
                 (monotonic + Z.max (lifetime - TOKEN_EXPIRY_SKEW) 0)%Z |});
         mret token
     end) s.

(** [_directory_get]: [None] for HTTP 404 *)
Definition directory_get (url : string) (params : list (string * string))
    : M OidcState exn (option json) :=
  token ← bearer_token;
  '(status, body) ← lift_res (http_get url
      [("Authorization", "Bearer " +:+ token); ("Accept", "application/scim+json")] params);
  if bool_decide (status = 404%Z) then mret None
  else if negb (bool_decide (status = 200%Z)) then
    raise (runtime_error ("SCIM directory returned HTTP " +:+ pretty status))
  else payload ← lift_res body; mret (Some payload).

(** *** SCIM resource parsing *)

(** [_groups_of]: plain strings, or [display] before [value] *)
Definition group_name (item : json) : option string :=
  match item with
  | JStr s => Some s
  | JObj g =>
      match get_true "display" g with
      | Some (JStr s) => Some s
      | Some _ => None
      | None => match dict_get "value" g with Some (JStr s) => Some s | _ => None end
      end
  | _ => None
  end.
Definition groups_of (user : list (string * json)) : list string :=
  match get_true (oc_groups_attribute cfg) user with
  | Some (JArr items) => omap group_name items
  | _ => []
  end.

(** [str(user_name) if user_name else ""] *)
Definition user_name_of (user : list (string * json)) : string :=
  match get_true "userName" user with Some v => py_str v | None => "" end.

Definition email_value (item : json) : option json :=
  match item with JObj e => get_true "value" e | _ => None end.
Definition primary_email (item : json) : option json :=
  match item with
  | JObj e => match get_true "primary" e with Some _ => get_true "value" e | None => None end
  | _ => None
  end.
(** [_email_of] *)
Definition email_of (user : list (string * json)) : string :=
  match dict_get "emails" user with
  | Some (JStr s) => s
  | Some (JArr items) =>
      match head (omap primary_email items) with
      | Some v => py_str v
      | None => match head (omap email_value items) with
                | Some v => py_str v
                | None => user_name_of user
                end
      end
  | _ => user_name_of user
  end.

(** [_display_name_of] *)
Definition display_name_of (user : list (string * json)) : string :=
  match get_true "displayName" user with
  | Some (JStr s) => s
  | _ =>
      match dict_get "name" user with
      | Some (JObj n) =>
          match get_true "formatted" n with Some (JStr s) => s | _ => user_name_of user end
      | _ => user_name_of user
      end
  end.

(** [_mfa_of] *)
Definition mfa_of (user : list (string * json)) : bool :=
  match dict_get (oc_mfa_attribute cfg) user with
  | Some (JBool b) => b
  | Some (JStr s) => mem (str_lower (str_strip s)) ["true"; "yes"; "1"]
  | _ => false
  end.

(** [_to_identity] *)
Definition oidc_to_identity (resource : json) : option VerifiedIdentity :=
  match resource with
  | JObj user =>
      match get_true "id" user with
      | None => None
      | Some subject_id =>
          if bool_decide (dict_get "active" user = Some (JBool false)) then None
          else Some (identity_from (oc_roles cfg) (py_str subject_id) (email_of user)
                       (display_name_of user) (groups_of user) (mfa_of user) now)
      end
  | _ => None
  end.

(** *** The two methods *)

Definition scim_filter (attribute account_id : string) : string :=
  attribute +:+ " eq " +:+ scim_string_literal account_id.

(** the one resource of a list response *)
Definition sole_resource (payload : option json) : option json :=
  match payload with
  | Some (JObj p) =>
      match dict_get "Resources" p with
      | Some (JArr [resource]) => Some resource
      | _ => None
      end
  | _ => None
  end.

Definition oidc_resolve (channel external_account_id : string)
    : M OidcState exn (option VerifiedIdentity) :=
  let account_id := str_strip external_account_id in
  if negb (truthy (oc_directory_endpoint cfg)) then mret None
  else if negb (truthy account_id) then mret None
  else
    match dict_get channel (oc_channel_attributes cfg) with
    | None => mret None
    | Some attribute =>
        if negb (truthy attribute) then mret None
        else
          try_except
            (payload ← directory_get (oc_directory_endpoint cfg)
                         [("filter", scim_filter attribute account_id)];
             mret (sole_resource payload ≫= oidc_to_identity))
            (λ _, mret None)
    end.

Definition oidc_refresh (subject_id : string) : M OidcState exn (option VerifiedIdentity) :=
  let subject := str_strip subject_id in
  if negb (truthy (oc_directory_endpoint cfg)) then mret None
  else if negb (truthy subject) then mret None
  else
    try_except
      (payload ← directory_get (oc_directory_endpoint cfg +:+ "/" +:+ subject) [];
       mret (payload ≫= oidc_to_identity))
      (λ _, mret None).

#[local] Instance oidc_provider : IdentityProvider OidcState :=
  {| resolve_by_external_account := oidc_resolve; refresh_identity := oidc_refresh |}.
End oidc.

Section oidc_facts.
Context `{HttpClient} (cfg : OidcConfig) (py_repr : json → string) (monotonic : Z) (now : string).

(** an authorized read of the directory that answered 200 with this body *)
Definition directory_answered (url : string) (params : list (string * string)) (body : json)
    : Prop :=
  ∃ token, http_get url
    [("Authorization", "Bearer " +:+ token); ("Accept", "application/scim+json")] params
    = Ok (200%Z, Ok body).

Lemma directory_get_ok url params s payload s' :
  directory_get cfg py_repr monotonic url params s = (Ok (Some payload), s') →
  directory_answered url params payload.
Proof.
  unfold directory_get, mbind, M_bind, lift_res.
  destruct (bearer_token cfg py_repr monotonic s) as [[token|e] s1]; [|done].
  destruct (http_get _ _ _) as [[status body]|e] eqn:Eg; [|done].
  case_bool_decide as H4; [done|]. case_bool_decide as H2; cbn; [|done].
  destruct body as [b|e]; [|done]. intros [= <- _]. exists token. by rewrite Eg H2.
Qed.

Lemma oidc_to_identity_ok resource i : oidc_to_identity cfg py_repr now resource = Some i →
  ∃ user, resource = JObj user ∧ dict_get "active" user ≠ Some (JBool false) ∧
    (∃ v, dict_get "id" user = Some v ∧ json_truthy v = true ∧ vi_subject_id i = py_str py_repr v) ∧
    vi_dba_roles i = derive_roles (oc_roles cfg) (groups_of cfg user) ∧
    vi_mfa_satisfied i = mfa_of cfg user.
Proof.
  unfold oidc_to_identity, get_true. destruct resource as [| | | | |user]; try done.
  destruct (dict_get "id" user) as [v|] eqn:Ei; [|done].
  destruct (json_truthy v) eqn:Ev; [|done]. case_bool_decide as Ha; [done|].
  intros [= <-]. exists user. split_and!; eauto.
Qed.

Lemma sole_resource_ok payload r : sole_resource payload = Some r →
  ∃ p, payload = Some (JObj p) ∧ dict_get "Resources" p = Some (JArr [r]).
Proof.
  unfold sole_resource. intros Hs. destruct payload as [[| | | | |p]|]; try done. exists p.
  destruct (dict_get "Resources" p) as [[| | | |[|x [|]]|]|]; try done. by injection Hs as ->.
Qed.

Lemma try_none {S A} (m : M S exn (option A)) s r s' :
  try_except m (λ _, mret None) s = (r, s') →
  r = Ok None ∨ ∃ a, r = Ok (Some a) ∧ m s = (Ok (Some a), s').
Proof.
  unfold try_except. destruct (m s) as [[[a|]|e] s1]; intros [= <- <-]; eauto.
Qed.
End oidc_facts.

(** C37: identities fail closed: neither method ever raises, and an identity is
    returned only when the directory, asked just now with the configured
    attribute and a filter for exactly the stripped account id, answered 200 with
    exactly one resource, which is not deactivated and has an id; its roles and
    its MFA state are those of that resource, so that nothing about the user is
    taken from a cache. A configured role therefore needs a DBA-team group and a
    group of the role in the answer. *)
Theorem oidc_identity_is_fresh `{HttpClient} cfg py_repr monotonic now channel account s :
  match oidc_resolve cfg py_repr monotonic now channel account s with
  | (Ok (Some i), _) =>
      ∃ attribute p user,
        dict_get channel (oc_channel_attributes cfg) = Some attribute ∧ attribute ≠ "" ∧
        str_strip account ≠ "" ∧
        directory_answered (oc_directory_endpoint cfg)
          [("filter", scim_filter attribute (str_strip account))] (JObj p) ∧
        dict_get "Resources" p = Some (JArr [JObj user]) ∧
        dict_get "active" user ≠ Some (JBool false) ∧ dict_get "id" user ≠ None ∧
        vi_mfa_satisfied i = mfa_of cfg user ∧
        (∀ r, r ∈ vi_dba_roles i ↔
           (∃ x, x ∈ groups_of cfg user ∧ x ∈ dba_team_groups (oc_roles cfg)) ∧
           ∃ required, (r, required) ∈ role_group_map (oc_roles cfg) ∧
             ∃ x, x ∈ groups_of cfg user ∧ x ∈ required)
  | (Ok None, _) => True
  | (Err _, _) => False
  end ∧
  ∀ e s', oidc_refresh cfg py_repr monotonic now account s ≠ (Err e, s').
Proof.
  split.
  - unfold oidc_resolve. destruct (truthy (oc_directory_endpoint cfg)); [|done].
    destruct (truthy (str_strip account)) eqn:Ea; [|done]. cbn [negb].
    destruct (dict_get channel (oc_channel_attributes cfg)) as [attribute|]; [|done].
    destruct (truthy attribute) eqn:Et; [|done]. cbn [negb].
    destruct (try_except _ _ s) as [r s'] eqn:Er.
    apply try_none in Er as [->|(i & -> & Hm)]; [done|].
    apply M_bind_inv_ok in Hm as (payload & s1 & Hd & Hm). injection Hm as Hm _.
    destruct (sole_resource payload) as [resource|] eqn:Es; [|done]. cbn in Hm.
    apply sole_resource_ok in Es as (p & -> & Hp). apply directory_get_ok in Hd.
    apply oidc_to_identity_ok in Hm as (user & -> & Hact & (v & Hv & _) & Hroles & Hmfa).
    exists attribute, p, user. rewrite -!truthy_spec. split_and!; try done.
    + by rewrite Hv.
    + intros r. rewrite Hroles. apply derive_roles_spec.
  - intros e s'. unfold oidc_refresh. destruct (truthy _); [|done].
    destruct (truthy _); [|done]. cbn [negb]. intros Hr. apply try_none in Hr.
    destruct Hr as [?|(? & ? & ?)]; done.
Qed.

(** a directory with one DBA, on a network that works *)
Definition dba_resource : json :=
  JObj [("id", JStr "00u1"); ("userName", JStr "lou@example.com"); ("active", JBool true);
        ("groups", JArr [JObj [("display", JStr "Enterprise-DBA")]; JStr "Enterprise-DBA-L1"]);
        ("mfaEnrolled", JStr "Yes")].
Definition one_dba : HttpClient := {|
  http_get url headers params :=
    if bool_decide (url = "https://idp/.well-known/openid-configuration")
    then Ok (200%Z, Ok (JObj [("token_endpoint", JStr "https://idp/token")]))
    else Ok (200%Z, Ok (JObj [("Resources", JArr [dba_resource])]));
  http_post url form headers := Ok (200%Z, Ok (JObj [("access_token", JStr "t0k")]))
|}.
Definition example_oidc : OidcConfig :=
  {| oc_issuer := "https://idp"; oc_client_id := "numi"; oc_client_secret := "s";
     oc_roles := {| dba_team_groups := ["Enterprise-DBA"];
                    role_group_map := [(DBA_L1, ["Enterprise-DBA-L1"]);
                                       (DBA_L3, ["Enterprise-DBA-L3"])] |};
     oc_directory_endpoint := "https://idp/scim/v2/Users";
     oc_channel_attributes := [("slack", "slackUserId")]; oc_groups_attribute := "groups";
     oc_mfa_attribute := "mfaEnrolled"; oc_scopes := "" |}.
Definition cold : OidcState :=
  {| oi_discovery := None; oi_access_token := None; oi_access_token_expires_at := 0 |}.

Example oidc_resolves :
  (λ i, (vi_subject_id i, vi_dba_roles i, vi_mfa_satisfied i)) <$>
    match (@oidc_resolve one_dba example_oidc (λ _, "") 0 "now" "slack" " U1 " cold).1 with
    | Ok (Some i) => Some i | _ => None end
  = Some ("00u1", [DBA_L1], true).
Proof. vm_compute. reflexivity. Qed.
