(* ===== verification/Endpoints.v ===== *)
(** The Gateway's HTTP endpoints: [common/service_auth.py],
    [gateway/api/deps.py] and the routers [tool_calls.py], [approvals.py],
    [tools.py] and [catalog.py] of [gateway/api/routers].  The state is the
    identity provider's and the Gateway's; a raised [HTTPException], and an
    exception nothing catches, are errors. *)
From S2P Require Import Prelude Json Models ToolCatalog Servers Policy RateLimit Approval.
From S2P Require Import DataPolicy Discovery Gateway Identity.

Inductive http_error : Type :=
| HTTPException (status : Z) (detail : string)
| Unhandled (e : exn).

(* ------------------------------------------------------------------ *)
(** ** service_auth.py *)

Record ServiceIdentity : Type := { si_service_name : string; si_audience : string }.

(** what [loads] of itsdangerous gives for a token: expired, a bad signature,
    or the signed payload *)
Inductive Unsigned : Type :=
| SignatureExpired
| BadSignature
| Payload (p : list (string * string)).

(** [URLSafeTimedSerializer(secret, salt)] over opaque tokens: [ts_loads secret salt token now
    max_age].  What the code relies on: a dumped payload loads within its age,
    is refused as expired after it, and no other salt or secret loads it. *)
Class TimedSerializer : Type := {
  ts_token : Type;
  ts_dumps : string → string → Z → list (string * string) → ts_token;
  ts_loads : string → string → ts_token → Z → Z → Unsigned;
  ts_fresh : ∀ secret salt t p now max_age, (t ≤ now ≤ t + max_age)%Z →
    ts_loads secret salt (ts_dumps secret salt t p) now max_age = Payload p;
  ts_old : ∀ secret salt t p now max_age, (t + max_age < now)%Z →
    ts_loads secret salt (ts_dumps secret salt t p) now max_age = SignatureExpired;
  ts_foreign : ∀ secret salt secret' salt' t p now max_age,
    (secret, salt) ≠ (secret', salt') →
    ts_loads secret salt (ts_dumps secret' salt' t p) now max_age = BadSignature
}.

Section service_auth.
Context `{TimedSerializer}.

(** [ServiceTokenIssuer.issue] at [now] *)
Definition issue_token (secret issuer : string) (now : Z) (service_name audience : string)
    : ts_token :=
  ts_dumps secret audience now [("iss", issuer); ("sub", service_name); ("aud", audience)].

Definition MAX_TOKEN_AGE : Z := 60.

(** [ServiceTokenVerifier.verify]; [payload["sub"]] raises [KeyError] *)
Definition verify_token (secret issuer : string) (token : ts_token) (expected_audience : string)
    (now : Z)
    : res exn ServiceIdentity :=
  match ts_loads secret expected_audience token now MAX_TOKEN_AGE with
  | SignatureExpired => Err (numi_error AUTHENTICATION_FAILED "Service token has expired.")
  | BadSignature => Err (numi_error AUTHENTICATION_FAILED "Service token signature is invalid.")
  | Payload p =>
      if negb (bool_decide (dict_get "iss" p = Some issuer))
         || negb (bool_decide (dict_get "aud" p = Some expected_audience))
      then Err (numi_error AUTHENTICATION_FAILED "Service token issuer/audience mismatch.")
      else match dict_get "sub" p, dict_get "aud" p with
           | Some s, Some a => Ok {| si_service_name := s; si_audience := a |}
           | _, _ => Err (PyError "KeyError" "sub")
           end
  end.
End service_auth.

(** Service tokens: a token is accepted exactly when it was issued with the
    verifier's secret and issuer for the audience it is presented to, at most
    sixty seconds ago; it then names the service it was issued to, and every
    refusal is AUTHENTICATION_FAILED. *)
Theorem service_token_scope `{TimedSerializer} secret issuer secret' issuer' t service aud' aud now :
  (t ≤ now)%Z →
  verify_token secret issuer (issue_token secret' issuer' t service aud') aud now =
    if decide ((secret, aud) = (secret', aud')) then
      if decide (now ≤ t + MAX_TOKEN_AGE)%Z then
        if decide (issuer = issuer') then
          Ok {| si_service_name := service; si_audience := aud |}
        else Err (numi_error AUTHENTICATION_FAILED "Service token issuer/audience mismatch.")
      else Err (numi_error AUTHENTICATION_FAILED "Service token has expired.")
    else Err (numi_error AUTHENTICATION_FAILED "Service token signature is invalid.").
Proof.
  intros Ht. unfold verify_token, issue_token.
  destruct (decide ((secret, aud) = (secret', aud'))) as [[= <- <-]|Hne].
  - destruct (decide (now ≤ t + MAX_TOKEN_AGE)%Z).
    + rewrite ts_fresh; [done|]. cbn [dict_get].
      change (decide ("iss" = "iss")) with (@left ("iss" = "iss") ("iss" ≠ "iss") eq_refl).
      cbn. destruct (decide (issuer = issuer')) as [->|Hi].
      * rewrite !bool_decide_true //.
      * rewrite bool_decide_false //; congruence.
    + rewrite ts_old //. lia.
  - by rewrite ts_foreign.
Qed.

(** tokens as what they were made from *)
Definition symbolic_serializer : TimedSerializer.
Proof.
  refine {| ts_token := string * string * Z * list (string * string);
            ts_dumps secret salt t p := (secret, salt, t, p);
            ts_loads secret salt token now max_age :=
              let '(secret', salt', t, p) := token in
              if decide ((secret, salt) = (secret', salt')) then
                if decide (now ≤ t + max_age)%Z then Payload p else SignatureExpired
              else BadSignature |}.
  - intros. rewrite !decide_True //; lia.
  - intros. rewrite decide_True // decide_False //; lia.
  - intros. by rewrite decide_False.
Defined.

Lemma service_token_scope_witness :
  @verify_token symbolic_serializer "k" "numi"
    (@issue_token symbolic_serializer "k" "numi" 100 "agent" "numi-gateway") "numi-gateway" 130
  = Ok {| si_service_name := "agent"; si_audience := "numi-gateway" |} ∧
  @verify_token symbolic_serializer "k" "numi"
    (@issue_token symbolic_serializer "k" "numi" 100 "gateway" "numi-execution") "numi-gateway" 130
  = Err (numi_error AUTHENTICATION_FAILED "Service token signature is invalid.").
Proof.
  split.
  - rewrite (@service_token_scope symbolic_serializer "k" "numi" "k" "numi" 100 "agent"
               "numi-gateway" "numi-gateway" 130); [lia|]. reflexivity.
  - rewrite (@service_token_scope symbolic_serializer "k" "numi" "k" "numi" 100 "gateway"
               "numi-execution" "numi-gateway" 130); [lia|]. reflexivity.
Defined.

(* ------------------------------------------------------------------ *)
(** ** deps.py and the routers *)

(** the process: the identity provider's state and the Gateway's *)
Record Process (P B C : Type) : Type := mk_process {
  ps_identity : P;
  ps_world : World B C
}.
Arguments mk_process {P B C}. Arguments ps_identity {P B C}. Arguments ps_world {P B C}.

(** a session that is not committed: the database is as it was, what the
    process holds elsewhere stays *)
Definition rollback {B C} (before after : World B C) : World B C :=
  mk_world (w_approvals before) (w_audit before) (w_security before) (w_rates after)
    (w_catalog after) (w_executions after).

Section endpoints.
Context {P B C : Type} `{IdentityProvider P} `{RateLimitBackend B} `{CatalogStore C}.
Context `{PydanticLax} `{SqlGlot} `{SqlStatements} `{External} `{TimedSerializer}.
Context (gs : GatewayState) (service_secret service_issuer : string) (now_seconds : Z).

(** [require_agent_service_token] *)
Definition require_agent_service_token (x_service_token : option ts_token)
    : res http_error unit :=
  match x_service_token with
  | None => Err (HTTPException 401 "Missing service token.")
  | Some token =>
      match verify_token service_secret service_issuer token "numi-gateway" now_seconds with
      | Ok _ => Ok tt
      | Err (NumiError _ detail _) => Err (HTTPException 401 detail)
      | Err e => Err (Unhandled e)
      end
  end.

(** [resolve_identity] *)
Definition resolve_identity (channel channel_account_id : string)
    : M (Process P B C) http_error VerifiedIdentity := λ s,
  let '(r, p) := resolve_by_external_account channel channel_account_id (ps_identity s) in
  (match r with
   | Ok (Some i) => Ok i
   | Ok None => Err (HTTPException 401 "Unable to verify identity for this account.")
   | Err e => Err (Unhandled e)
   end, mk_process p (ps_world s)).

(** *** tool_calls.py *)

(** run with the session: commit on a response, roll back on an exception *)
Definition handle_in_session (ci : CallInputs) (body : ToolCallRequest)
    (identity : VerifiedIdentity) : M (Process P B C) http_error ToolCallResponse := λ s,
  match handle gs (tr_channel body) "agent/0.1.0" ci identity body (ps_world s) with
  | (Ok response, w) => (Ok response, mk_process (ps_identity s) w)
  | (Err e, w) => (Err (Unhandled e), mk_process (ps_identity s) (rollback (ps_world s) w))
  end.

Definition submit_tool_call (ci : CallInputs) (token : option ts_token) (body : ToolCallRequest)
    : M (Process P B C) http_error ToolCallResponse :=
  _ ← lift_res (require_agent_service_token token);
  resolve_identity (tr_channel body) (tr_channel_account_id body) ≫= handle_in_session ci body.

(** *** tools.py *)

Definition list_tools (token : option ts_token) (channel channel_account_id : option string)
    : M (Process P B C) http_error (list ToolDefinition) :=
  _ ← lift_res (require_agent_service_token token);
  match channel, channel_account_id with
  | Some c, Some a =>
      if truthy c && truthy a then
        who_ ← resolve_identity c a;
        mret (match highest_role who_ with
              | None => []
              | Some role => tools_for_role (gs_tools gs) role
              end)
      else mret (map snd (gs_tools gs))
  | _, _ => mret (map snd (gs_tools gs))
  end.

Definition get_tool (token : option ts_token) (tool_id : string) : res http_error ToolDefinition :=
  _ ← require_agent_service_token token;
  match registry_get (gs_tools gs) tool_id None with
  | Ok tool => Ok tool
  | Err (NumiError code detail _) =>
      Err (HTTPException (if bool_decide (code = TOOL_NOT_FOUND) then 404 else 409)%Z detail)
  | Err e => Err (Unhandled e)
  end.

(** *** approvals.py *)

Definition CODE_TO_HTTP (code : FailureCode) : Z :=
  match code with
  | APPROVAL_INVALID => 404 | APPROVAL_EXPIRED => 410 | APPROVAL_ALREADY_DECIDED => 409
  | SEPARATION_OF_DUTIES_VIOLATION => 403 | UNAUTHORIZED => 403 | _ => 400
  end.

Record ApprovalView : Type := {
  av_approval_id : string;
  av_status : ApprovalStatus;
  av_tool_id : string;
  av_target : json;
  av_risk : RiskAssessment;
  av_expires_at : Z;
  av_requires_dual_approval : bool
}.

Definition view_approval (approval_id : string) : M (Process P B C) http_error ApprovalView := λ s,
  (match (approval_get approval_id (w_approvals (ps_world s))).1 with
   | Ok r => Ok {| av_approval_id := ar_approval_id r; av_status := ar_status r;
                   av_tool_id := ar_tool_id r; av_target := target_dump (ar_target r);
                   av_risk := ar_risk r; av_expires_at := ar_expires_at r;
                   av_requires_dual_approval := ar_requires_dual_approval r |}
   | Err (NumiError _ detail _) => Err (HTTPException 404 detail)
   | Err e => Err (Unhandled e)
   end, s).
Definition get_approval (token : option ts_token) (approval_id : string)
    : M (Process P B C) http_error ApprovalView :=
  _ ← lift_res (require_agent_service_token token);
  view_approval approval_id.

(** the approver's own authorization for the record's tool and target; only
    [NumiError]s leave it, every other exception is dropped *)
Definition approver_check (identity : VerifiedIdentity) (record : ApprovalRecord)
    (tool : ToolDefinition) : M (World B C) exn unit :=
  try_except
    (t ← lift_res (match target_validate (target_fields (ar_target record)) with
                   | Some t => Ok t
                   | None => Err (PyError "ValidationError"
                                   (validation_errors (target_fields (ar_target record))))
                   end);
     ctx ← (match resolve (gs_entries gs) t with
            | Ok server => on_catalog (λ c,
                let '(catalog, c) := store_get (se_id server) c in
                (validate_target (gs_entries gs) (λ _, catalog) t [], c))
            | Err _ => lift_res (validate_target (gs_entries gs) (λ _, None) t [])
            end);
     lift_res (authorize identity tool ctx))
    (λ e, match e with NumiError _ _ _ => raise e | PyError _ _ => mret tt end).

Definition decided_event (identity : VerifiedIdentity) (record : ApprovalRecord)
    (approval_id : string) (decision : ApprovalDecision) (status : ApprovalStatus) : AuditEvent :=
  {| au_event_type := if bool_decide (decision = APPROVE) then "APPROVAL_APPROVED"
                      else "APPROVAL_REJECTED";
     au_correlation_ids := [("request_id", ar_request_id record); ("approval_id", approval_id)];
     au_actor_subject_id := vi_subject_id identity; au_identity_provider := ""; au_channel := "";
     au_agent_version := ""; au_tool_id := ar_tool_id record;
     au_tool_version := ar_tool_version record; au_target := target_fields (ar_target record);
     au_arguments_hash := hash_arguments sha256 [];
     au_policy_decision := approval_status_value status; au_risk := [];
     au_approval_id := Some approval_id; au_execution_result := ""; au_error_code := None;
     au_duration_ms := None |}.

(** the body of [_decide]'s [try] *)
Definition decide_inner (approval_id : string) (identity : VerifiedIdentity)
    (decision : ApprovalDecision) (now : Z) : M (World B C) exn ApprovalStatus :=
  record ← on_approvals (approval_get approval_id);
  _ ← (if bool_decide (decision = APPROVE) then
         tool ← lift_res (registry_get (gs_tools gs) (ar_tool_id record)
                            (Some (ar_tool_version record)));
         approver_check identity record tool
       else mret tt);
  decided ← on_approvals (approval_decide approval_id identity decision now);
  _ ← audit_record (decided_event identity record approval_id decision (ar_status decided));
  mret (ar_status decided).

(** its session: committed on success, rolled back on [NumiError], which
    becomes an HTTP status, and on any other exception *)
Definition decide_in_session (approval_id : string) (decision : ApprovalDecision) (now : Z)
    (identity : VerifiedIdentity) : M (Process P B C) http_error ApprovalStatus := λ s,
  if negb (is_dba identity) then
    (Err (HTTPException 403 "Only DBA team members may decide approvals."), s)
  else
    match decide_inner approval_id identity decision now (ps_world s) with
    | (Ok status, w) => (Ok status, mk_process (ps_identity s) w)
    | (Err e, w) =>
        (Err (match e with
              | NumiError code detail _ => HTTPException (CODE_TO_HTTP code) detail
              | PyError _ _ => Unhandled e
              end), mk_process (ps_identity s) (rollback (ps_world s) w))
    end.

(** [_decide], behind [approve] and [reject] *)
Definition decide_approval (token : option ts_token) (approval_id channel account : string)
    (decision : ApprovalDecision) (now : Z) : M (Process P B C) http_error ApprovalStatus :=
  _ ← lift_res (require_agent_service_token token);
  resolve_identity channel account ≫= decide_in_session approval_id decision now.

(** *** catalog.py *)

(** [_require_manager] *)
Definition require_manager (channel account : string) : M (Process P B C) http_error unit :=
  who_ ← resolve_identity channel account;
  if negb (mem DBA_MANAGER (vi_dba_roles who_)) then
    raise (HTTPException 403 "Discovery refresh requires DBA_MANAGER.")
  else mret tt.

(** the discovery orchestrator on the process' catalog store *)
Definition on_store {A} (m : M C exn A) : M (Process P B C) http_error A := λ s,
  let w := ps_world s in
  let '(r, c) := m (w_catalog w) in
  (match r with Ok a => Ok a | Err e => Err (Unhandled e) end,
   mk_process (ps_identity s)
     (mk_world (w_approvals w) (w_audit w) (w_security w) (w_rates w) c (w_executions w))).

Definition refresh_all_endpoint (token : option ts_token) (channel account : string)
    : M (Process P B C) http_error (list (string * string)) :=
  _ ← lift_res (require_agent_service_token token);
  _ ← require_manager channel account;
  on_store (refresh_all discover (gs_max_objects gs) (gs_entries gs)).

(** the answer of a refresh of one server *)
Record RefreshView : Type := {
  rv_server_id : string;
  rv_databases : list string;
  rv_warnings : list string;
  rv_error : option string
}.
Definition refreshed_view (server_id : string) (r : res exn ServerCatalog) : RefreshView :=
  match r with
  | Ok c => {| rv_server_id := server_id; rv_databases := database_names c;
               rv_warnings := sc_warnings c; rv_error := None |}
  | Err e => {| rv_server_id := server_id; rv_databases := []; rv_warnings := [];
                rv_error := Some (clean_discovery_error (exn_kind e)
                  (match e with PyError _ t => t | NumiError _ _ _ => "" end)) |}
  end.

Definition refresh_one_endpoint (token : option ts_token) (server_id channel account : string)
    : M (Process P B C) http_error RefreshView :=
  _ ← lift_res (require_agent_service_token token);
  _ ← require_manager channel account;
  match registry_by_id (gs_entries gs) server_id with
  | None => raise (HTTPException 404 ("No registered server '" +:+ server_id +:+ "'."))
  | Some _ =>
      on_store (λ c,
        let '(r, c) := refresh_server discover (gs_max_objects gs) (gs_entries gs) server_id c in
        (Ok (refreshed_view server_id r), c))
  end.

(** [list_servers]: every registered server with its catalog, if any *)
Fixpoint servers_with_catalogs (servers : list ServerEntry)
    : M C exn (list (ServerEntry * option ServerCatalog)) :=
  match servers with
  | [] => mret []
  | server :: servers =>
      catalog ← (λ c, let '(o, c) := store_get (se_id server) c in (Ok o, c));
      rest ← servers_with_catalogs servers;
      mret ((server, catalog) :: rest)
  end.
Definition list_servers (token : option ts_token)
    : M (Process P B C) http_error (list (ServerEntry * option ServerCatalog)) :=
  _ ← lift_res (require_agent_service_token token);
  on_store (servers_with_catalogs (gs_entries gs)).

Definition get_server_catalog (token : option ts_token) (server_id : string)
    : M (Process P B C) http_error (ServerEntry * option ServerCatalog) :=
  _ ← lift_res (require_agent_service_token token);
  match registry_by_id (gs_entries gs) server_id with
  | None => raise (HTTPException 404 "No such registered server.")
  | Some server =>
      on_store (λ c, let '(o, c) := store_get server_id c in (Ok (server, o), c))
  end.
End endpoints.

(* ------------------------------------------------------------------ *)
(** ** End to end *)

Section endpoint_facts.
Context {P B C : Type} `{IdentityProvider P} `{RateLimitBackend B} `{CatalogStore C}.
Context `{PydanticLax} `{SqlGlot} `{SqlStatements} `{External} `{TimedSerializer}.
Context (gs : GatewayState) (service_secret service_issuer : string) (now_seconds : Z).

Lemma require_token_ok token :
  require_agent_service_token service_secret service_issuer now_seconds token = Ok tt →
  ∃ t p, token = Some t ∧
    ts_loads service_secret "numi-gateway" t now_seconds MAX_TOKEN_AGE = Payload p ∧
    dict_get "iss" p = Some service_issuer ∧ dict_get "aud" p = Some "numi-gateway".
Proof.
  unfold require_agent_service_token, verify_token. destruct token as [t|]; [|done].
  destruct (ts_loads _ _ _ _ _) as [| |p] eqn:El; [done|done|].
  case_bool_decide as Hi; cbn; [|done]. case_bool_decide as Ha; cbn; [|done].
  intros _. by exists t, p.
Qed.

Lemma resolve_identity_inv channel account (s : Process P B C) r s1 :
  resolve_identity channel account s = (r, s1) →
  ps_world s1 = ps_world s ∧
  ∀ i, r = Ok i → (resolve_by_external_account channel account (ps_identity s)).1 = Ok (Some i).
Proof.
  unfold resolve_identity.
  destruct (resolve_by_external_account channel account (ps_identity s)) as [[[i|]|e] p];
    intros [= <- <-]; split; try done. by intros ? [= ->].
Qed.

(** the stored target of an approval never validates: it is dumped by field name
    and the model accepts aliases only *)
Lemma dumped_target_invalid t : target_validate (target_fields t) = None.
Proof. vm_compute. reflexivity. Qed.

Lemma approver_check_passes identity record tool (w : World B C) :
  approver_check gs identity record tool w = (Ok tt, w).
Proof.
  unfold approver_check. rewrite dumped_target_invalid. reflexivity.
Qed.
End endpoint_facts.

(** End to end, the Gateway executes only for verified callers: when a
    submitted call makes it send a request to the execution service, the request
    carried a service token signed with the Gateway's secret and issuer for the
    Gateway's audience, the identity provider itself resolved the named channel
    account to an identity, and the call passed every gate as that identity. *)
Theorem submit_executes_for_verified_callers {P B C} `{IdentityProvider P} `{RateLimitBackend B}
    `{CatalogStore C} `{PydanticLax} `{SqlGlot} `{SqlStatements} `{External} `{TimedSerializer}
    gs secret issuer now_seconds ci token body (s : Process P B C) r s' :
  submit_tool_call gs secret issuer now_seconds ci token body s = (r, s') →
  w_executions (ps_world s') ≠ w_executions (ps_world s) →
  ∃ t payload i p,
    token = Some t ∧
    ts_loads secret "numi-gateway" t now_seconds MAX_TOKEN_AGE = Payload payload ∧
    dict_get "iss" payload = Some issuer ∧ dict_get "aud" payload = Some "numi-gateway" ∧
    (resolve_by_external_account (tr_channel body) (tr_channel_account_id body)
       (ps_identity s)).1 = Ok (Some i) ∧
    gates_passed (B := B) gs ci i body p ∧
    (pe_decision (pr_evaluation p) = REQUIRES_APPROVAL →
       approval_in_force ci i body p (w_approvals (ps_world s))) ∧
    w_executions (ps_world s') = w_executions (ps_world s) ++ [exec_request ci p].
Proof.
  unfold submit_tool_call, mbind, M_bind, lift_res. intros Hs Hx.
  destruct (require_agent_service_token secret issuer now_seconds token) as [[]|e] eqn:Et;
    [|by injection Hs as _ <-].
  apply require_token_ok in Et as (t & payload & Ht & Hl & Hi & Ha).
  destruct (resolve_identity _ _ s) as [r1 s1] eqn:Er.
  apply resolve_identity_inv in Er as [Hw Hr1]. destruct r1 as [i|e];
    [|injection Hs as _ <-; by rewrite Hw in Hx].
  exists t, payload, i. specialize (Hr1 i eq_refl). unfold handle_in_session in Hs.
  destruct (handle gs (tr_channel body) "agent/0.1.0" ci i body (ps_world s1)) as [r2 w2] eqn:Eh.
  rewrite Hw in Eh. assert (w_executions (ps_world s') = w_executions w2) as Hx2
    by (destruct r2; by injection Hs as _ <-).
  rewrite Hx2 in Hx |- *. apply handle_execution in Eh as [?|(p & Hg & He & _ & _ & Hap & _)]; [done|].
  exists p. by split_and!.
Qed.

(** *** A process to run *)

Definition lou : DirectoryEntry :=
  {| di_subject_id := "lou"; di_email := "lou@example.com"; di_display_name := "Lou";
     di_channel_accounts := [("slack", "U1")]; di_groups := ["dba"; "dba-l1"]; di_mfa := true |}.
Definition example_directory : MockIdentityProvider :=
  {| mk_roles := {| dba_team_groups := ["dba"]; role_group_map := [(DBA_L1, ["dba-l1"])] |};
     mk_directory := [lou] |}.
Definition example_process (w : World InMemoryBuckets InMemoryCatalog)
    : Process MockIdentityProvider InMemoryBuckets InMemoryCatalog :=
  mk_process example_directory w.
Definition agent_token : @ts_token symbolic_serializer :=
  @issue_token symbolic_serializer "k" "numi" 100 "agent" "numi-gateway".

Definition submit (answer : res exn ExecutionResult) (body : ToolCallRequest)
    (s : Process MockIdentityProvider InMemoryBuckets InMemoryCatalog) :=
  @submit_tool_call _ _ _ (mock_provider "now") in_memory_backend in_memory_catalog strict_lax
    no_sqlglot no_sql_statements (answering answer) symbolic_serializer example_gateway "k" "numi"
    110 ticks (Some agent_token) body s.

Lemma submit_eq answer body s :
  submit answer body s = ((submit answer body s).1, (submit answer body s).2).
Proof. apply surjective_pairing. Qed.

Lemma submit_executes_for_verified_callers_witness :
  ∃ i p, (@resolve_by_external_account _ (mock_provider "now") "slack" "U1" example_directory).1
           = Ok (Some i) ∧
    w_executions (ps_world (submit (Ok one_row) health_request (example_process empty_world)).2)
      = [exec_request ticks p].
Proof.
  assert (w_executions (ps_world (submit (Ok one_row) health_request
            (example_process empty_world)).2) ≠ []) as Hx by (vm_compute; discriminate).
  destruct (@submit_executes_for_verified_callers _ _ _ _ _ _ _ _ _ _ _ _ _ _ _ _ _ _ _ _ _
              (submit_eq (Ok one_row) health_request (example_process empty_world)) Hx)
    as (t & payload & i & p & _ & _ & _ & _ & Hi & _ & _ & He).
  exists i, p. split; [exact Hi|exact He].
Defined.

(** An exception that escapes hides the execution: when a submitted call
    ends in an unhandled exception, the approvals, the audit log and the security
    log are as they were, whether or not the execution service was called. *)
Theorem unhandled_call_leaves_no_record {P B C} `{IdentityProvider P} `{RateLimitBackend B}
    `{CatalogStore C} `{PydanticLax} `{SqlGlot} `{SqlStatements} `{External} `{TimedSerializer}
    gs secret issuer now_seconds ci token body (s : Process P B C) e s' :
  submit_tool_call gs secret issuer now_seconds ci token body s = (Err e, s') →
  w_approvals (ps_world s') = w_approvals (ps_world s) ∧
  w_audit (ps_world s') = w_audit (ps_world s) ∧
  w_security (ps_world s') = w_security (ps_world s).
Proof.
  unfold submit_tool_call, mbind, M_bind, lift_res.
  destruct (require_agent_service_token secret issuer now_seconds token) as [[]|e1];
    [|by intros [= _ <-]].
  destruct (resolve_identity _ _ s) as [r1 s1] eqn:Er.
  apply resolve_identity_inv in Er as [Hw _].
  destruct r1 as [i|e1]; [|by intros [= _ <-]; rewrite Hw].
  unfold handle_in_session.
  destruct (handle gs (tr_channel body) "agent/0.1.0" ci i body (ps_world s1)) as [[resp|e2] w2];
    intros [= _ <-]. cbn. by rewrite Hw.
Qed.

Definition lost_answer : res exn ExecutionResult := Err (PyError "ReadTimeout" "").

(** the operation was sent, the answer was lost, and nothing is recorded *)
Lemma unhandled_call_leaves_no_record_witness :
  length (w_executions (ps_world
    (submit lost_answer health_request (example_process empty_world)).2)) = 1%nat ∧
  w_audit (ps_world (submit lost_answer health_request (example_process empty_world)).2) = [].
Proof.
  split; [vm_compute; reflexivity|].
  destruct (submit lost_answer health_request (example_process empty_world)) as [[resp|e] s'] eqn:E.
  - vm_compute in E. discriminate E.
  - apply unhandled_call_leaves_no_record in E. destruct E as (_ & Ha & _). exact Ha.
Defined.

(** The approver's own authorization is never checked: whatever the roles
    and the MFA state of a DBA, whatever roles the tool and the server allow, and
    whatever servers are registered, approving a pending approval of an enabled
    tool that needs one approver succeeds and records that DBA as its approver. *)
Theorem approver_authorization_never_checked {P B C} `{CatalogStore C} `{External} gs id record tool identity now (s : Process P B C) :
  is_dba identity = true →
  db_approvals (w_approvals (ps_world s)) !! id = Some record → ar_approval_id record = id →
  ar_status record = AS_PENDING → ar_requires_dual_approval record = false →
  (now ≤ ar_expires_at record)%Z →
  registry_get (gs_tools gs) (ar_tool_id record) (Some (ar_tool_version record)) = Ok tool →
  (decide_in_session gs id APPROVE now identity s).1 = Ok AS_APPROVED ∧
  db_approvals (w_approvals (ps_world (decide_in_session gs id APPROVE now identity s).2)) !! id
    = Some (with_decision record AS_APPROVED (Some (vi_subject_id identity))
              (ar_approver_2_subject_id record) (Some now)).
Proof.
  intros Hdba Hr Hid Hst Hdual Hexp Htool. unfold decide_in_session. rewrite Hdba. cbn [negb].
  assert (settle record now = record) as Hset.
  { unfold settle. rewrite (proj2 (Z.ltb_ge _ _) Hexp). by rewrite andb_false_r. }
  assert (decide_pure record identity APPROVE now = Ok (with_decision record AS_APPROVED
    (Some (vi_subject_id identity)) (ar_approver_2_subject_id record) (Some now))) as Hd.
  { unfold decide_pure, decide_loaded. by rewrite Hst Hdual. }
  destruct (approval_decide_spec id identity APPROVE now (w_approvals (ps_world s)) record Hr Hid)
    as (ev & Hdec). rewrite Hset Hd in Hdec.
  unfold decide_inner.
  rewrite (M_bind_ok _ _ (ps_world s) record (ps_world s)).
  { unfold on_approvals. rewrite (approval_get_spec _ _ _ Hr). by destruct (ps_world s). }
  cbn [bool_decide decide_rel]. rewrite bool_decide_true //.
  rewrite (M_bind_ok _ _ (ps_world s) tt (ps_world s)).
  { rewrite (M_bind_ok _ _ (ps_world s) tool (ps_world s)); [by unfold lift_res; rewrite Htool|].
    apply approver_check_passes. }
  unfold mbind, M_bind, on_approvals. rewrite Hdec. cbn. by rewrite lookup_insert_eq.
Qed.

Definition kill_tool : ToolDefinition :=
  write_tool "database.kill_session" "Terminate a database session." MEDIUM false true
    ["environment"; "instance"; "database"; "session_id"] false WRITE_ROLES true.
Definition kill_gateway : GatewayState :=
  {| gs_tools := [("database.kill_session", kill_tool)]; gs_entries := [prod_server];
     gs_policy := restart_policy; gs_limits := []; gs_minimizer := default_policy_config;
     gs_approval_ttl := 600; gs_max_objects := 5000; gs_refresh_minutes := 60;
     gs_identity_provider := "mock" |}.
Definition kill_ctx : ApprovalContext := {|
  ac_request_id := "req_1"; ac_actor := who "alice" DBA_L2; ac_tool := kill_tool;
  ac_target := mk_target PRODUCTION (Some "sqlserver-prod-01") (Some "core");
  ac_normalized_arguments := [("session_id", JStr "57"); ("reason", JStr "blocking")];
  ac_environment := "production"; ac_database_id := "sqlserver-prod-01/core";
  ac_risk := assess kill_tool PRODUCTION (plain_ctx prod_server "core") 1 1 false |}.
Definition kill_pending : Process MockIdentityProvider InMemoryBuckets InMemoryCatalog :=
  example_process (mk_world
    (approval_create id_hash 600 kill_ctx false 0 "1" {| db_approvals := ∅; db_approval_events := [] |}).2
    [] [] {| im_buckets := ∅ |} {| by_server := [] |} []).
(** a first-line DBA whose MFA is not satisfied *)
Definition junior : VerifiedIdentity :=
  {| vi_subject_id := "lou"; vi_email := ""; vi_display_name := ""; vi_enterprise_groups := [];
     vi_dba_roles := [DBA_L1]; vi_mfa_satisfied := false; vi_authenticated_at := "" |}.

Lemma approver_authorization_never_checked_witness :
  is_ok (authorize junior kill_tool (plain_ctx prod_server "core")) = false ∧
  (@decide_in_session _ _ _ in_memory_catalog (answering (Ok one_row)) kill_gateway "appr_1"
     APPROVE 5 junior kill_pending).1 = Ok AS_APPROVED.
Proof.
  split; [vm_compute; reflexivity|].
  destruct (db_approvals (w_approvals (ps_world kill_pending)) !! "appr_1") as [r|] eqn:E;
    [|vm_compute in E; discriminate E].
  pose proof E as Er. vm_compute in Er. injection Er as Er.
  apply (@approver_authorization_never_checked _ _ _ in_memory_catalog (answering (Ok one_row))
           kill_gateway "appr_1" r kill_tool junior 5 kill_pending).
  - reflexivity.
  - exact E.
  - by rewrite -Er.
  - by rewrite -Er.
  - by rewrite -Er.
  - rewrite -Er. vm_compute. discriminate.
  - rewrite -Er. vm_compute. reflexivity.
Defined.
