(* ===== verification/Cells.v ===== *)
(** The values a database driver puts in a cell, where the models say [Any]: JSON values, and
    other Python objects (datetimes, [Decimal]s, byte strings, addresses) behind what the code
    asks of one.  [pydantic]'s JSON form of the records that hold them is a partial conversion:
    it keeps every other field, and fails as a whole where one value has no JSON form. *)
From S2P Require Import Prelude Json Models.

(* ------------------------------------------------------------------ *)
(** ** Cells *)

(** a Python object that is no JSON value, by what is asked of it *)
Record pyobject : Type := {
  po_str : string;             (* [str(x)] *)
  po_truth : bool;             (* [bool(x)] *)
  po_cased : bool;             (* whether [x.lower()] and [x.upper()] exist: a byte string *)
  po_as_str : option string;   (* what pydantic's [str] reads it as *)
  po_as_int : option Z;        (* what pydantic's [int] reads it as *)
  po_json : option json        (* [model_dump(mode="json")]; [None] is a [PydanticSerializationError] *)
}.
Inductive cell : Type :=
| Plain (v : json)
| Obj (o : pyobject).
Definition db_row : Type := list (string * cell).
(** a property of an instance: a value, or the table of its settings *)
Inductive property : Type :=
| Value (c : cell)
| Table (d : list (string * cell)).

Definition cell_truthy (c : cell) : bool :=
  match c with Plain v => json_truthy v | Obj o => po_truth o end.
(** [str(x)]; of a container it is a parameter *)
Definition cell_str (py_repr : json → string) (c : cell) : string :=
  match c with
  | Plain (JStr s) => s
  | Plain v => py_repr v
  | Obj o => po_str o
  end.
Definition cell_json (c : cell) : option json :=
  match c with Plain v => Some v | Obj o => po_json o end.

(* ------------------------------------------------------------------ *)
(** ** Conversions of the records *)

Definition carry_dict {A B} (f : A → option B) (d : list (string * A)) : option (list (string * B)) :=
  mapM (λ kv : string * A, b ← f kv.2; Some (kv.1, b)) d.
Definition property_json (p : property) : option json :=
  match p with
  | Value c => cell_json c
  | Table d => d ← carry_dict cell_json d; Some (JObj d)
  end.

Section carrying.
Context {A B : Type} (f : A → option B).
Definition carry_result (r : ExecutionResultOf A) : option (ExecutionResultOf B) :=
  rows ← mapM (carry_dict f) (ex_rows r);
  affected ← carry_dict f (ex_affected r);
  Some {| ex_execution_id := ex_execution_id r; ex_success := ex_success r; ex_columns := ex_columns r;
          ex_rows := rows; ex_row_count := ex_row_count r; ex_truncated := ex_truncated r;
          ex_affected := affected; ex_error_code := ex_error_code r; ex_error_detail := ex_error_detail r;
          ex_verification_status := ex_verification_status r;
          ex_verification_detail := ex_verification_detail r; ex_duration_ms := ex_duration_ms r |}.
Definition carry_object (o : DiscoveredObjectOf A) : option (DiscoveredObjectOf B) :=
  properties ← carry_dict f (do_properties o);
  Some {| do_schema_name := do_schema_name o; do_name := do_name o; do_kind := do_kind o;
          do_row_estimate := do_row_estimate o; do_size_bytes := do_size_bytes o;
          do_properties := properties |}.
Definition carry_database (d : DiscoveredDatabaseOf A) : option (DiscoveredDatabaseOf B) :=
  options ← carry_dict f (dd_options d);
  objects ← mapM carry_object (dd_objects d);
  Some {| dd_name := dd_name d; dd_state := dd_state d; dd_size_bytes := dd_size_bytes d;
          dd_options := options; dd_objects := objects; dd_extensions := dd_extensions d |}.
Definition carry_catalog {P Q} (g : P → option Q) (c : ServerCatalogOf A P) : option (ServerCatalogOf B Q) :=
  properties ← carry_dict g (sc_instance_properties c);
  databases ← mapM carry_database (sc_databases c);
  Some {| sc_server_id := sc_server_id c; sc_discovered_at := sc_discovered_at c;
          sc_engine_version := sc_engine_version c; sc_engine_edition := sc_engine_edition c;
          sc_instance_properties := properties; sc_databases := databases;
          sc_warnings := sc_warnings c; sc_least_privilege := sc_least_privilege c |}.
End carrying.

(** what the service makes, and its JSON form *)
Definition RawResult : Type := ExecutionResultOf cell.
Definition RawCatalog : Type := ServerCatalogOf cell property.
Definition result_json : RawResult → option ExecutionResult := carry_result cell_json.
Definition catalog_json : RawCatalog → option ServerCatalog := carry_catalog cell_json property_json.

(** what the caller gets of an answer that is written *)
Definition carried {A B} (f : A → option B) (r : res exn A) : res exn B :=
  a ← r; match f a with Some b => Ok b | None => Err (PyError "PydanticSerializationError" "") end.

(* ------------------------------------------------------------------ *)
(** ** What a conversion gives *)

Lemma mapM_none_exists {A B} (f : A → option B) l : mapM f l = None ↔ ∃ a, a ∈ l ∧ f a = None.
Proof.
  rewrite mapM_None. split; [intros (a & Ha & Hn)%Exists_exists; eauto|intros (a & Ha & Hn)].
  apply Exists_exists. eauto.
Qed.
Lemma bind_none {A B} (o : option A) (f : A → option B) :
  (o ≫= f) = None ↔ o = None ∨ ∃ a, o = Some a ∧ f a = None.
Proof. destruct o; cbn; naive_solver. Qed.

(** the same names, and values that are converted *)
Definition carries_dict {A B} (f : A → option B) : list (string * A) → list (string * B) → Prop :=
  Forall2 (λ a b, a.1 = b.1 ∧ f a.2 = Some b.2).
Lemma carry_dict_some {A B} (f : A → option B) d d' : carry_dict f d = Some d' ↔ carries_dict f d d'.
Proof.
  unfold carry_dict. rewrite mapM_Some. unfold carries_dict.
  split; intros H; (eapply Forall2_impl; [exact H|]); intros [k a] [k' b]; cbn.
  - intros (b' & Hb & [= -> ->])%bind_Some. done.
  - intros [-> Hb]. by rewrite Hb.
Qed.
Lemma carry_dict_none {A B} (f : A → option B) d :
  carry_dict f d = None ↔ ∃ a, a ∈ map snd d ∧ f a = None.
Proof.
  unfold carry_dict. rewrite mapM_none_exists. split.
  - intros ([k a] & Ha & Hn). exists a. split; [exact (list_elem_of_fmap_2 snd _ _ Ha)|].
    cbn in Hn. by destruct (f a).
  - intros (a & ([k a'] & -> & Ha)%list_elem_of_fmap & Hn). exists (k, a'). cbn in *. by rewrite Hn.
Qed.

(** the values of a result, of a database and of a catalog *)
Definition result_cells {A} (r : ExecutionResultOf A) : list A :=
  (ex_rows r ≫= map snd) ++ map snd (ex_affected r).
Definition database_cells {A} (d : DiscoveredDatabaseOf A) : list A :=
  map snd (dd_options d) ++ (dd_objects d ≫= λ o, map snd (do_properties o)).
Definition property_cells (p : property) : list cell :=
  match p with Value c => [c] | Table d => map snd d end.
Definition catalog_cells (c : RawCatalog) : list cell :=
  (map snd (sc_instance_properties c) ≫= property_cells) ++ (sc_databases c ≫= database_cells).

Lemma carry_list_none {A B V} (cells : A → list V) (f : A → option B) (g : V → Prop) l :
  (∀ a, f a = None ↔ ∃ v, v ∈ cells a ∧ g v) → mapM f l = None ↔ ∃ v, v ∈ l ≫= cells ∧ g v.
Proof.
  intros Hf. rewrite mapM_none_exists. split.
  - intros (a & Ha & (v & Hv & Hg)%Hf). exists v. split; [|done]. apply list_elem_of_bind. eauto.
  - intros (v & (a & Hv & Ha)%list_elem_of_bind & Hg). exists a. split; [done|]. apply Hf. eauto.
Qed.

Section none.
Context {A B : Type} (f : A → option B).
Abbreviation refused l := (∃ a, a ∈ l ∧ f a = None).
Lemma refused_app l m : refused (l ++ m) ↔ refused l ∨ refused m.
Proof. setoid_rewrite elem_of_app. naive_solver. Qed.
(** two conversions, the second only after the first *)
Lemma carry_both_none {X Y C} (o : option X) (p : option Y) (k : X → Y → C) (l m : list A) :
  (o = None ↔ refused l) → (p = None ↔ refused m) →
  (x ← o; y ← p; Some (k x y)) = None ↔ refused (l ++ m).
Proof. rewrite refused_app. intros <- <-. destruct o, p; cbn; naive_solver. Qed.

Lemma carry_result_none r : carry_result f r = None ↔ refused (result_cells r).
Proof.
  apply carry_both_none; [|apply carry_dict_none].
  apply (carry_list_none (map snd) _ (λ a, f a = None)). apply carry_dict_none.
Qed.
Lemma carry_object_none o : carry_object f o = None ↔ refused (map snd (do_properties o)).
Proof. unfold carry_object. rewrite -carry_dict_none. by destruct (carry_dict f (do_properties o)). Qed.
Lemma carry_database_none d : carry_database f d = None ↔ refused (database_cells d).
Proof.
  apply carry_both_none; [apply carry_dict_none|].
  apply (carry_list_none _ _ (λ a, f a = None)). apply carry_object_none.
Qed.
End none.
Lemma property_json_none p : property_json p = None ↔ ∃ c, c ∈ property_cells p ∧ cell_json c = None.
Proof.
  destruct p as [c|d]; cbn.
  - setoid_rewrite list_elem_of_singleton. naive_solver.
  - rewrite -carry_dict_none. by destruct (carry_dict cell_json d).
Qed.
Lemma catalog_json_none c : catalog_json c = None ↔ ∃ v, v ∈ catalog_cells c ∧ cell_json v = None.
Proof.
  apply carry_both_none.
  - rewrite carry_dict_none. split.
    + intros (p & Hp & (v & Hv & Hn)%property_json_none). exists v. split; [|done].
      apply list_elem_of_bind. eauto.
    + intros (v & (p & Hv & Hp)%list_elem_of_bind & Hn). exists p. split; [done|].
      apply property_json_none. eauto.
  - apply (carry_list_none _ _ (λ a, cell_json a = None)). apply carry_database_none.
Qed.

(** a result and what is made of it: everything but the values as it is, and every value
    converted in its place *)
Record carries_result {A B} (f : A → option B) (r : ExecutionResultOf A) (r' : ExecutionResultOf B) : Prop := {
  rc_head : (ex_execution_id r', ex_success r', ex_columns r', ex_row_count r', ex_truncated r')
            = (ex_execution_id r, ex_success r, ex_columns r, ex_row_count r, ex_truncated r);
  rc_tail : (ex_error_code r', ex_error_detail r', ex_verification_status r', ex_verification_detail r',
             ex_duration_ms r')
            = (ex_error_code r, ex_error_detail r, ex_verification_status r, ex_verification_detail r,
               ex_duration_ms r);
  rc_rows : Forall2 (carries_dict f) (ex_rows r) (ex_rows r');
  rc_affected : carries_dict f (ex_affected r) (ex_affected r')
}.
Lemma carry_result_some {A B} (f : A → option B) r r' :
  carry_result f r = Some r' ↔ carries_result f r r'.
Proof.
  unfold carry_result. split.
  - intros (rows & Hr%mapM_Some & (affected & Ha%carry_dict_some & [= <-])%bind_Some)%bind_Some.
    split; [done..| |done]. eapply Forall2_impl; [exact Hr|]. intros d d'. apply carry_dict_some.
  - intros [Hh Ht Hr%(Forall2_impl _ (λ d d', carry_dict f d = Some d'))%mapM_Some Ha%carry_dict_some];
      [|intros d d'; apply carry_dict_some].
    rewrite Hr /= Ha /=. destruct r, r'; cbn in *. congruence.
Qed.

(** the same of the objects and databases of a catalog, and of a catalog *)
Definition carries_object {A B} (f : A → option B) (o : DiscoveredObjectOf A) (o' : DiscoveredObjectOf B) : Prop :=
  (do_schema_name o', do_name o', do_kind o', do_row_estimate o', do_size_bytes o')
  = (do_schema_name o, do_name o, do_kind o, do_row_estimate o, do_size_bytes o) ∧
  carries_dict f (do_properties o) (do_properties o').
Definition carries_database {A B} (f : A → option B) (d : DiscoveredDatabaseOf A) (d' : DiscoveredDatabaseOf B) : Prop :=
  (dd_name d', dd_state d', dd_size_bytes d', dd_extensions d')
  = (dd_name d, dd_state d, dd_size_bytes d, dd_extensions d) ∧
  carries_dict f (dd_options d) (dd_options d') ∧
  Forall2 (carries_object f) (dd_objects d) (dd_objects d').
Definition carries_catalog (c : RawCatalog) (c' : ServerCatalog) : Prop :=
  (sc_server_id c', sc_discovered_at c', sc_engine_version c', sc_engine_edition c')
  = (sc_server_id c, sc_discovered_at c, sc_engine_version c, sc_engine_edition c) ∧
  (sc_warnings c', sc_least_privilege c') = (sc_warnings c, sc_least_privilege c) ∧
  carries_dict property_json (sc_instance_properties c) (sc_instance_properties c') ∧
  Forall2 (carries_database cell_json) (sc_databases c) (sc_databases c').

Lemma carry_object_some {A B} (f : A → option B) o o' : carry_object f o = Some o' → carries_object f o o'.
Proof. intros (p & Hp%carry_dict_some & [= <-])%bind_Some. done. Qed.
Lemma carry_database_some {A B} (f : A → option B) d d' : carry_database f d = Some d' → carries_database f d d'.
Proof.
  intros (p & Hp%carry_dict_some & (l & Hl%mapM_Some & [= <-])%bind_Some)%bind_Some.
  split_and!; [done..|]. eapply Forall2_impl; [exact Hl|]. intros o o'. apply carry_object_some.
Qed.
Lemma catalog_json_some c c' : catalog_json c = Some c' → carries_catalog c c'.
Proof.
  intros (p & Hp%carry_dict_some & (l & Hl%mapM_Some & [= <-])%bind_Some)%bind_Some.
  split_and!; [done..|]. eapply Forall2_impl; [exact Hl|]. intros d d'. apply carry_database_some.
Qed.

(* ------------------------------------------------------------------ *)
(** ** Some values of the drivers *)

(** a [Decimal] that is a whole number, a [datetime] by its ISO text, and bytes that are no
    UTF-8 *)
Definition decimal (n : Z) : cell :=
  Obj {| po_str := pretty n; po_truth := negb (bool_decide (n = 0%Z)); po_cased := false; po_as_str := None;
         po_as_int := Some n; po_json := Some (JStr (pretty n)) |}.
Definition timestamp (iso : string) : cell :=
  Obj {| po_str := iso; po_truth := true; po_cased := false; po_as_str := None; po_as_int := None;
         po_json := Some (JStr iso) |}.
Definition binary (shown : string) : cell :=
  Obj {| po_str := shown; po_truth := true; po_cased := true; po_as_str := None; po_as_int := None;
         po_json := None |}.
