(* ===== verification/Execution.v ===== *)
(** The execution service: [execution/service.py], its dispatch tables and its
    conversion of every exception into a result, and the restricted methods'
    defaults of [execution/adapters/base.py].  Credentials, connections and the
    engine adapters are parameters.  The last theorem ties it to the Gateway:
    a request that passed the gates always finds its method and arguments. *)
From S2P Require Import Prelude Json Models ToolCatalog Servers Policy RateLimit Approval.
From S2P Require Import DataPolicy Discovery Gateway Cells.

(* ------------------------------------------------------------------ *)
(** ** The dispatch tables *)

Definition READ_METHODS : list (string * (string * list string)) :=
  [("database.get_health", ("health", []));
   ("database.get_version", ("version", []));
   ("database.get_sessions", ("sessions", []));
   ("database.get_blocking_sessions", ("blocking", []));
   ("database.get_deadlocks", ("deadlocks", []));
   ("database.get_running_queries", ("running_queries", []));
   ("database.get_wait_statistics", ("waits", []));
   ("database.get_query_plan", ("query_plan", ["query_id"]));
   ("database.get_top_queries", ("top_queries", ["order_by"; "limit"]));
   ("database.get_indexes", ("indexes", ["schema_name"; "table"]));
   ("database.get_statistics", ("statistics", ["schema_name"; "table"]));
   ("database.get_tables", ("tables", []));
   ("database.get_storage", ("storage", []));
   ("database.get_transaction_log", ("transaction_log", []));
   ("database.get_replication_status", ("replication", []));
   ("database.get_backup_status", ("backups", []));
   ("database.get_configuration", ("configuration", []));
   ("database.get_error_logs", ("error_logs", ["since_minutes"; "limit"]))].

Definition WRITE_METHODS : list (string * (string * list string)) :=
  [("database.cancel_query", ("cancel_query", ["session_id"; "reason"]));
   ("database.kill_session", ("kill_session", ["session_id"; "reason"]));
   ("database.update_statistics", ("update_statistics", ["schema_name"; "table"]));
   ("database.create_index",
      ("create_index", ["schema_name"; "table"; "columns"; "name"; "unique"]));
   ("database.rebuild_index", ("rebuild_index", ["schema_name"; "table"; "index_name"]));
   ("database.modify_configuration", ("modify_configuration", ["parameter"; "value"]));
   ("database.restart_instance", ("restart_instance", []));
   ("database.failover", ("failover", ["target_instance"]))].

Definition restricted_dispatch : list (string * (string * list string)) :=
  [("database.execute_readonly_sql", ("execute_readonly_sql", ["sql"]));
   ("database.execute_sql", ("execute_sql", ["sql"]));
   ("database.restore_database", ("restore_database", ["backup_id"]));
   ("database.create_database", ("create_database", ["database_name"]));
   ("database.drop_database", ("drop_database", ["database_name"]));
   ("database.truncate_table", ("truncate_table", ["schema_name"; "table"]));
   ("database.bulk_delete", ("bulk_delete", ["schema_name"; "table"; "predicate_description"]))].

Inductive AdapterClass : Type := SQLServerAdapter | PostgreSQLAdapter | MySQLAdapter.

(** [_adapter_class_for] *)
Definition adapter_class_for (p : Platform) : res exn AdapterClass :=
  match p with
  | SQLSERVER => Ok SQLServerAdapter
  | POSTGRESQL => Ok PostgreSQLAdapter
  | MYSQL | MARIADB => Ok MySQLAdapter
  | ORACLE => Err (PyError "NotImplementedError"
      ("No adapter registered for platform '" +:+ platform_value p +:+ "'. Adding a new engine "
       +:+ "(e.g. Oracle) means implementing DatabaseAdapter and registering it "
       +:+ "here — the Agent/Gateway contract does not change."))
  end.

(** the restricted methods an engine inherits from [DatabaseAdapter]: all but
    [execute_readonly_sql], which SQL Server and PostgreSQL override *)
Definition inherited_restricted (cls : AdapterClass) (method : string) : option exn :=
  if bool_decide (method = "execute_readonly_sql") then
    match cls with
    | MySQLAdapter => Some (PyError "NotImplementedError"
        "execute_readonly_sql is not implemented for this adapter/is disabled.")
    | _ => None
    end
  else if mem method ["execute_sql"; "restore_database"; "create_database"; "drop_database";
                      "truncate_table"; "bulk_delete"] then
    Some (PyError "NotImplementedError" (method +:+ " is disabled by default and not implemented."))
  else None.

(* ------------------------------------------------------------------ *)
(** ** ExecutionService *)

(** what an adapter method returns *)
Inductive AdapterValue : Type :=
| Rows (rows : list db_row)
| Affected (fields : list (string * cell)).

(** credentials, connections and engine adapters; a method call takes some time,
    in microseconds *)
Class ExecutionBackend : Type := {
  credentials : Type;
  connection : Type;
  get_credentials : string → res exn credentials;
  with_database : string → credentials → credentials;
  connect : AdapterClass → credentials → res exn connection;
  close : connection → res exn unit;
  adapter_call : AdapterClass → connection → string → string → list json
    → Z * res exn AdapterValue
}.

Section service.
Context `{ExecutionBackend} (duration_ms : Z).

(** [[args[name] for name in arg_names]] *)
Definition call_args (args : list (string * json)) (names : list string) : res exn (list json) :=
  match mapM (λ n, dict_get n args) names with
  | Some vs => Ok vs
  | None => Err (PyError "KeyError"
      (default "" (first_where (λ n, bool_decide (dict_get n args = None)) names)))
  end.

(** [_build_adapter] without a test factory *)
Definition build_adapter (request : ExecutionRequest) : res exn (AdapterClass * connection) :=
  creds ← get_credentials (er_server_id request);
  let creds := if truthy (er_database request) then with_database (er_database request) creds
               else creds in
  cls ← adapter_class_for (er_platform request);
  conn ← connect cls creds;
  Ok (cls, conn).

Definition result_of (request : ExecutionRequest) (columns : list string) (rows : list db_row)
    (truncated : bool) (affected : list (string * cell)) : RawResult :=
  {| ex_execution_id := er_execution_id request; ex_success := true; ex_columns := columns;
     ex_rows := rows; ex_row_count := Z.of_nat (length rows); ex_truncated := truncated;
     ex_affected := affected; ex_error_code := None; ex_error_detail := None;
     ex_verification_status := "NOT_APPLICABLE"; ex_verification_detail := "";
     ex_duration_ms := duration_ms |}.

(** [columns]: the sorted keys of the rows kept *)
Definition columns_of (rows : list db_row) : list string := sorted_set (rows ≫= λ r, r.*1).

Definition type_error : exn := PyError "TypeError" "".

(** what becomes of the value of a read, a write and a restricted method *)
Definition read_result (request : ExecutionRequest) (v : AdapterValue) : res exn RawResult :=
  match v with
  | Rows rows =>
      let kept := take (Z.to_nat (er_max_result_rows request)) rows in
      Ok (result_of request (columns_of kept) kept
            (er_max_result_rows request <? Z.of_nat (length rows))%Z [])
  | Affected _ => Err type_error
  end.
Definition write_result (request : ExecutionRequest) (v : AdapterValue) : res exn RawResult :=
  match v with
  | Affected fields => Ok (result_of request [] [] false fields)
  | Rows _ => Err type_error
  end.
Definition restricted_result (request : ExecutionRequest) (v : AdapterValue)
    : res exn RawResult :=
  match v with
  | Rows rows => Ok (result_of request [] rows false [])
  | Affected fields => Ok (result_of request [] [] false fields)
  end.

Definition failed (request : ExecutionRequest) (code : FailureCode) (detail : string)
    : RawResult :=
  {| ex_execution_id := er_execution_id request; ex_success := false; ex_columns := [];
     ex_rows := []; ex_row_count := 0; ex_truncated := false; ex_affected := [];
     ex_error_code := Some (failure_value code); ex_error_detail := Some detail;
     ex_verification_status := "NOT_APPLICABLE"; ex_verification_detail := "";
     ex_duration_ms := duration_ms |}.

(** one method call under [asyncio.wait_for(..., timeout=max_execution_time)] *)
Definition timed_call (request : ExecutionRequest) (cls : AdapterClass) (conn : connection)
    (method : string) (args : list json) : res exn AdapterValue :=
  let '(elapsed, outcome) :=
    match inherited_restricted cls method with
    | Some e => (0%Z, Err e)
    | None => adapter_call cls conn (er_database request) method args
    end in
  if (er_max_execution_time request * US <? elapsed)%Z
  then Err (PyError "TimeoutError" "") else outcome.

(** [_dispatch] *)
Definition dispatch (request : ExecutionRequest) (cls : AdapterClass) (conn : connection)
    : res exn RawResult :=
  let run '(method, names) finish :=
    args ← call_args (er_arguments request) names;
    v ← timed_call request cls conn method args;
    finish request v in
  match dict_get (er_tool_id request) READ_METHODS with
  | Some entry => run entry read_result
  | None =>
      match dict_get (er_tool_id request) WRITE_METHODS with
      | Some entry => run entry write_result
      | None =>
          match dict_get (er_tool_id request) restricted_dispatch with
          | Some entry => run entry restricted_result
          | None => Ok (failed request TOOL_NOT_FOUND
              ("Execution Service has no dispatch entry for '" +:+ er_tool_id request +:+ "'."))
          end
      end
  end.

(** the [except] clauses *)
Definition failure_result (request : ExecutionRequest) (e : exn) : RawResult :=
  match e with
  | PyError kind text =>
      if bool_decide (kind = "TimeoutError") then
        failed request EXECUTION_TIMEOUT
          ("Execution exceeded " +:+ pretty (er_max_execution_time request) +:+ "s timeout.")
      else if bool_decide (kind = "NotImplementedError") then
        failed request TOOL_NOT_AVAILABLE text
      else failed request EXECUTION_FAILED
        "The database operation failed. See server-side logs for detail."
  | NumiError _ _ _ => failed request EXECUTION_FAILED
      "The database operation failed. See server-side logs for detail."
  end.

(** [ExecutionService.execute]: the [finally] closes the connection it got *)
Definition service_execute (request : ExecutionRequest) : res exn RawResult :=
  match build_adapter request with
  | Err e => Ok (failure_result request e)
  | Ok (cls, conn) =>
      let result := match dispatch request cls conn with
                    | Ok r => r
                    | Err e => failure_result request e
                    end in
      _ ← close conn; Ok result
  end.
End service.

(* ------------------------------------------------------------------ *)
(** ** Totality and bounds *)

Section service_facts.
Context `{ExecutionBackend} (duration_ms : Z).

Definition failure_codes : list FailureCode :=
  [EXECUTION_TIMEOUT; TOOL_NOT_AVAILABLE; EXECUTION_FAILED; TOOL_NOT_FOUND].

(** a well-formed answer to a request *)
Definition answers (request : ExecutionRequest) (r : RawResult) : Prop :=
  ex_execution_id r = er_execution_id request ∧ ex_duration_ms r = duration_ms ∧
  ex_row_count r = Z.of_nat (length (ex_rows r)) ∧
  if ex_success r then ex_error_code r = None ∧ ex_error_detail r = None
  else ex_rows r = [] ∧ ex_affected r = [] ∧
       ∃ code, ex_error_code r = Some (failure_value code) ∧ code ∈ failure_codes.

Lemma failed_answers request code detail : code ∈ failure_codes →
  answers request (failed duration_ms request code detail).
Proof. intros Hc. split_and!; try done. cbn. eauto. Qed.

Lemma failure_answers request e : answers request (failure_result duration_ms request e).
Proof.
  unfold failure_result. destruct e as [c d i|k t].
  - apply failed_answers. unfold failure_codes. set_solver.
  - repeat case_bool_decide; apply failed_answers; unfold failure_codes; set_solver.
Qed.

Lemma failure_unsuccessful request e : ex_success (failure_result duration_ms request e) = false.
Proof. destruct e as [c d i|k t]; [done|]. unfold failure_result. by repeat case_bool_decide. Qed.

Lemma result_answers request columns rows truncated affected :
  answers request (result_of duration_ms request columns rows truncated affected).
Proof. by split_and!. Qed.

Lemma run_entry_ok {A} request cls conn (entry : string * list string)
    (finish : ExecutionRequest → AdapterValue → res exn A) r :
  (args ← call_args (er_arguments request) entry.2;
   v ← timed_call request cls conn entry.1 args; finish request v) = Ok r →
  ∃ args v, call_args (er_arguments request) entry.2 = Ok args ∧
    timed_call request cls conn entry.1 args = Ok v ∧ finish request v = Ok r.
Proof.
  intros Hr. apply res_bind_ok in Hr as (args & Ha & Hr).
  apply res_bind_ok in Hr as (v & Hv & Hr). eauto.
Qed.

Lemma dispatch_answers request cls conn r :
  dispatch duration_ms request cls conn = Ok r → answers request r.
Proof.
  unfold dispatch. destruct (dict_get (er_tool_id request) READ_METHODS) as [[me ns]|];
    [|destruct (dict_get (er_tool_id request) WRITE_METHODS) as [[me ns]|];
      [|destruct (dict_get (er_tool_id request) restricted_dispatch) as [[me ns]|]]].
  - intros Hr. apply (run_entry_ok _ _ _ (me, ns)) in Hr as (args & [rows|fields] & _ & _ & Hf);
      [|done]. injection Hf as <-. apply result_answers.
  - intros Hr. apply (run_entry_ok _ _ _ (me, ns)) in Hr as (args & [rows|fields] & _ & _ & Hf);
      [done|]. injection Hf as <-. apply result_answers.
  - intros Hr. apply (run_entry_ok _ _ _ (me, ns)) in Hr as (args & [rows|fields] & _ & _ & Hf);
      injection Hf as <-; apply result_answers.
  - intros [= <-]. apply failed_answers. unfold failure_codes. set_solver.
Qed.
End service_facts.

(** The execution service always answers: if connections close without
    raising, every request, whatever its tool, its arguments and the failures of
    credentials, connections and engines, gets a result with its own execution id;
    a failure carries no rows and one of four codes; a successful read returns at
    most the allowed rows and says exactly whether rows were left out. *)
Theorem service_always_answers `{ExecutionBackend} duration_ms request :
  (∀ c, close c = Ok tt) →
  ∃ r, service_execute duration_ms request = Ok r ∧ answers duration_ms request r ∧
    (ex_success r = true → dict_get (er_tool_id request) READ_METHODS ≠ None →
     (0 ≤ er_max_result_rows request)%Z →
     (ex_row_count r ≤ er_max_result_rows request)%Z ∧
     ∃ cls conn method args rows, adapter_call cls conn (er_database request) method args
         = ((adapter_call cls conn (er_database request) method args).1, Ok (Rows rows)) ∧
       ex_rows r = take (Z.to_nat (er_max_result_rows request)) rows ∧
       ex_truncated r = bool_decide (length (ex_rows r) < length rows)%nat).
Proof.
  intros Hclose. unfold service_execute.
  destruct (build_adapter request) as [[cls conn]|e].
  2:{ eexists. split; [reflexivity|]. split; [apply failure_answers|].
      by rewrite failure_unsuccessful. }
  rewrite Hclose. cbn -[dict_get]. destruct (dispatch duration_ms request cls conn) as [r|e] eqn:Ed.
  2:{ eexists. split; [reflexivity|]. split; [apply failure_answers|].
      by rewrite failure_unsuccessful. }
  exists r. split; [done|]. split; [by eapply dispatch_answers|]. intros _ Hread Hmax.
  unfold dispatch in Ed. destruct (dict_get (er_tool_id request) READ_METHODS) as [[me ns]|]; [|done].
  apply (run_entry_ok _ _ _ (me, ns)) in Ed as (args & [rows|fields] & _ & Ht & Hf); [|done].
  injection Hf as <-. cbn. rewrite length_take. split; [lia|].
  exists cls, conn, me, args, rows. unfold timed_call in Ht. cbn in Ht.
  destruct (inherited_restricted cls me); [by destruct (_ <? 0)%Z|].
  destruct (adapter_call cls conn (er_database request) me args) as [el out].
  destruct (_ <? el)%Z; [done|]. subst out. split_and!; try done.
  apply eq_bool_prop_intro. rewrite Is_true_true bool_decide_spec. rewrite Z.ltb_lt. lia.
Qed.

Definition DESTRUCTIVE_TOOLS : list string :=
  ["database.execute_sql"; "database.restore_database"; "database.create_database";
   "database.drop_database"; "database.truncate_table"; "database.bulk_delete"].

Lemma dispatch_inherited `{ExecutionBackend} duration_ms request cls conn me ns e :
  dict_get (er_tool_id request) READ_METHODS = None →
  dict_get (er_tool_id request) WRITE_METHODS = None →
  dict_get (er_tool_id request) restricted_dispatch = Some (me, ns) →
  inherited_restricted cls me = Some e →
  ∃ e', dispatch duration_ms request cls conn = Err e'.
Proof.
  intros Hr Hw Hd Hi. unfold dispatch. rewrite Hr Hw Hd.
  destruct (call_args (er_arguments request) ns) as [args|e']; [|by eexists].
  cbn. unfold timed_call. rewrite Hi. destruct (_ <? 0)%Z; by eexists.
Qed.

(** The destructive restricted tools cannot succeed: even if they are
    enabled, authorized and approved, no engine implements them, and whatever the
    backend does the service answers a failure. *)
Theorem destructive_tools_never_succeed `{ExecutionBackend} duration_ms request r :
  er_tool_id request ∈ DESTRUCTIVE_TOOLS →
  service_execute duration_ms request = Ok r → ex_success r = false.
Proof.
  intros Hin. unfold service_execute.
  destruct (build_adapter request) as [[cls conn]|e];
    [|intros [= <-]; apply failure_unsuccessful].
  assert (∃ e, dispatch duration_ms request cls conn = Err e) as [e ->].
  { unfold DESTRUCTIVE_TOOLS in Hin.
    repeat (apply elem_of_cons in Hin as [Hid|Hin];
      [eapply dispatch_inherited; rewrite ?Hid; vm_compute; reflexivity|]).
    by apply elem_of_nil in Hin. }
  intros Hr. apply res_bind_ok in Hr as (u & _ & Hr). injection Hr as <-.
  apply failure_unsuccessful.
Qed.

(* ------------------------------------------------------------------ *)
(** ** The Gateway's requests *)

Definition dispatch_entry (tool_id : string) : option (string * list string) :=
  match dict_get tool_id READ_METHODS with
  | Some e => Some e
  | None => match dict_get tool_id WRITE_METHODS with
            | Some e => Some e
            | None => dict_get tool_id restricted_dispatch
            end
  end.

(** an argument of the method comes from the argument model, or from the target
    field the tool's scope requires *)
Definition supplied (tool : ToolDefinition) (arg : string) : bool :=
  mem arg (map af_name (default [] (dict_get (td_tool_id tool) ARGUMENT_MODELS)))
  || (bool_decide (arg = "schema_name") && mem "schema_name" (td_required_target_scope tool))
  || (bool_decide (arg = "table") && mem "object_name" (td_required_target_scope tool)).
Definition tool_dispatches (tool : ToolDefinition) : bool :=
  match dispatch_entry (td_tool_id tool) with
  | Some (_, names) => forallb (supplied tool) names
  | None => false
  end.

Lemma catalog_dispatches settings tool :
  tool ∈ build_tool_catalog settings → tool_dispatches tool = true.
Proof.
  intros Hin. assert (forallb tool_dispatches (build_tool_catalog settings) = true) as Hall
    by (destruct settings; vm_compute; reflexivity).
  rewrite forallb_forall in Hall. apply Hall. by apply list_elem_of_In.
Qed.

Lemma dict_set_keys {V} (k : string) (v : V) d :
  ∀ k', dict_get k' d ≠ None → dict_get k' (dict_set k v d) ≠ None.
Proof.
  intros k' Hk'. destruct (decide (k' = k)) as [->|Hne].
  - by rewrite dict_get_set_eq.
  - by rewrite dict_get_set_ne.
Qed.

Lemma override_keys args kvs k :
  dict_get k args ≠ None ∨ (∃ v, (k, Some v) ∈ kvs) →
  dict_get k (foldl override_argument args kvs) ≠ None.
Proof.
  revert args. induction kvs as [|[k1 [v1|]] kvs IH]; intros args Hk; cbn.
  - destruct Hk as [?|[v Hv]]; [done|]. by apply elem_of_nil in Hv.
  - apply IH. unfold override_argument. cbn [fst snd]. destruct Hk as [Hk|[v Hv]].
    + left. by apply dict_set_keys.
    + apply elem_of_cons in Hv as [[= -> ->]|Hv]; [left; by rewrite dict_get_set_eq|eauto].
  - apply IH. destruct Hk as [Hk|[v Hv]]; [by left|].
    apply elem_of_cons in Hv as [[=]|Hv]. eauto.
Qed.

Lemma dict_get_key {V} (d : list (string * V)) k : k ∈ d.*1 → dict_get k d ≠ None.
Proof. intros Hk Hn. by apply dict_get_none in Hn. Qed.

Lemma validate_arguments_keys `{PydanticLax} `{External} tool arguments args :
  validate_arguments tool arguments = Ok args →
  args.*1 = map af_name (default [] (dict_get (td_tool_id tool) ARGUMENT_MODELS)).
Proof.
  unfold validate_arguments.
  destruct (dict_get (td_tool_id tool) ARGUMENT_MODELS) as [fields|] eqn:Ef; [|done].
  destruct (model_validate fields arguments) as [out|] eqn:Eo; [|done]. intros [= ->].
  apply names_of_out. eapply model_validate_sound; [|done].
  eapply argument_models_wf. by apply dict_get_elem.
Qed.

Lemma sql_stage_keys `{SqlStatements} tool ctx args args' k :
  sql_stage tool ctx args = Ok args' → dict_get k args ≠ None → dict_get k args' ≠ None.
Proof.
  unfold sql_stage. case_bool_decide; [|by intros [= <-]].
  destruct (dict_get "sql" args) as [[| | |sql| |]|]; try done. intros Hs Hk.
  apply res_bind_ok in Hs as (v & _ & Hs). injection Hs as <-. by apply dict_set_keys.
Qed.

(** a scope field that names an optional field of the target *)
Lemma scope_field_present entries lookup t scope ctx name (field : option string) :
  validate_target entries lookup t scope = Ok ctx → name ∈ scope →
  (∀ server db, effective_field t server db (FIELD_ALIASES name) = Some (default "" field)) →
  ∃ v, field = Some v.
Proof.
  intros Hv Hin Hf. unfold validate_target in Hv.
  destruct (resolve entries t) as [server|[|]]; [|done|done].
  apply res_bind_ok in Hv as ([db d] & _ & Hv). apply res_bind_ok in Hv as ([] & Hc & _).
  apply (check_required_ok _ _ _ _ _ Hc) in Hin as (v & Hv & Hne).
  rewrite Hf in Hv. injection Hv as <-. destruct field as [v|]; [by eexists|done].
Qed.

(** What the Gateway sends, the execution service can dispatch: for every
    call that passed the gates with the program's own catalog, the tool has a
    method and every argument the method takes is in the request, from the
    argument model or from the target fields the tool's scope requires. *)
Theorem gateway_request_dispatches `{RateLimitBackend B} `{PydanticLax} `{SqlStatements}
    `{External} settings gs ci identity request p :
  gates_passed (B := B) gs ci identity request p → gs_tools gs = registry_tools settings →
  ∃ method names args,
    dispatch_entry (er_tool_id (exec_request ci p)) = Some (method, names) ∧
    call_args (er_arguments (exec_request ci p)) names = Ok args.
Proof.
  intros [Ht (args0 & Ha & _ & Hsql) (lookup & Hv) _ _ _ _] Hgs.
  assert (pr_tool p ∈ build_tool_catalog settings) as Hcat.
  { rewrite Hgs in Ht. unfold registry_get in Ht.
    destruct (dict_get (tr_tool_id request) (registry_tools settings)) as [t|] eqn:Et; [|done].
    apply registry_lookup in Et as [Hin _].
    assert (t = pr_tool p) as <-; [|done].
    destruct (tr_tool_version request); repeat case_match; simplify_eq; done. }
  apply catalog_dispatches in Hcat. unfold tool_dispatches in Hcat.
  change (er_tool_id (exec_request ci p)) with (td_tool_id (pr_tool p)).
  destruct (dispatch_entry (td_tool_id (pr_tool p))) as [[me names]|]; [|done].
  exists me, names. unfold call_args.
  destruct (mapM (λ n, dict_get n (er_arguments (exec_request ci p))) names) as [vs|] eqn:Em;
    [by exists vs|]. exfalso. apply mapM_None in Em as (n & Hn & Hnone)%Exists_exists.
  rewrite forallb_forall in Hcat. specialize (Hcat n (proj1 (list_elem_of_In _ _) Hn)).
  revert Hnone. unfold exec_request. cbn [er_arguments]. apply override_keys.
  unfold supplied in Hcat. rewrite !orb_true_iff !andb_true_iff in Hcat.
  unfold mem in Hcat. rewrite !bool_decide_eq_true in Hcat.
  destruct Hcat as [[Hm|[-> Hs]]|[-> Hs]].
  - left. eapply sql_stage_keys; [exact Hsql|]. apply dict_get_key.
    by rewrite (validate_arguments_keys _ _ _ Ha).
  - right. destruct (scope_field_present _ _ _ _ _ "schema_name" (dt_schema_name (pr_target p)) Hv Hs)
      as [v Hv']; [done|]. exists v. rewrite Hv'. left.
  - right. destruct (scope_field_present _ _ _ _ _ "object_name" (dt_object_name (pr_target p)) Hv Hs)
      as [v Hv']; [done|]. exists v. rewrite Hv'. right. left.
Qed.

(* ------------------------------------------------------------------ *)
(** ** Runs *)

(** one engine that answers every method with three rows at once *)
Definition three_rows : list db_row :=
  [[("pid", Plain (JInt 1))]; [("pid", decimal 2)]; [("pid", Plain (JInt 3))]].
Definition stub_backend : ExecutionBackend := {|
  credentials := unit; connection := unit; get_credentials := λ _, Ok tt;
  with_database := λ _ c, c; connect := λ _ _, Ok tt; close := λ _, Ok tt;
  adapter_call := λ _ _ _ _ _, (1000%Z, Ok (Rows three_rows)) |}.
Definition request_for (tool : string) (platform : Platform) : ExecutionRequest :=
  {| er_execution_id := "exec_1"; er_tool_id := tool; er_tool_version := "1.0.0";
     er_platform := platform; er_server_id := "sqlserver-prod-01"; er_database := "core";
     er_schema_name := None; er_object_name := None; er_session_id := None; er_query_id := None;
     er_arguments := [("sql", JStr "drop table t")]; er_max_execution_time := 30;
     er_max_result_rows := 2 |}.

Lemma service_always_answers_witness : ∃ r,
  @service_execute stub_backend 7 (request_for "database.get_sessions" POSTGRESQL) = Ok r ∧
  (ex_row_count r ≤ 2)%Z.
Proof.
  destruct (@service_always_answers stub_backend 7 (request_for "database.get_sessions" POSTGRESQL))
    as (r & Hr & _ & Hread); [done|]. exists r. split; [exact Hr|].
  apply Hread.
  - vm_compute in Hr. injection Hr as <-. reflexivity.
  - vm_compute. discriminate.
  - cbn. lia.
Defined.

Lemma destructive_tools_never_succeed_witness : ∃ r,
  @service_execute stub_backend 7 (request_for "database.execute_sql" POSTGRESQL) = Ok r ∧
  ex_success r = false.
Proof.
  destruct (@service_execute stub_backend 7 (request_for "database.execute_sql" POSTGRESQL))
    as [r|e] eqn:E; [|vm_compute in E; discriminate E].
  exists r. split; [reflexivity|].
  apply (@destructive_tools_never_succeed stub_backend 7
           (request_for "database.execute_sql" POSTGRESQL) r); [left|exact E].
Defined.

(** the program's catalog, with top queries allowed to everyone *)
Definition no_flags : ToolFlags := Build_ToolFlags false false false false false false false.
Definition catalog_gateway : GatewayState :=
  {| gs_tools := registry_tools no_flags; gs_entries := [prod_server];
     gs_policy := {| pc_default_decision := DENY;
                     pc_table := [("production", [("database.get_top_queries", [("DBA_L1", ALLOW)])])];
                     pc_change_ticket_required := []; pc_dual_approval_required := [] |};
     gs_limits := [("read", lenient)]; gs_minimizer := default_policy_config;
     gs_approval_ttl := 600; gs_max_objects := 5000; gs_refresh_minutes := 60;
     gs_identity_provider := "mock" |}.
Definition top_request : ToolCallRequest :=
  {| tr_tool_id := "database.get_top_queries"; tr_tool_version := None;
     tr_arguments := [("limit", JInt 5)];
     tr_target := [("environment", JStr "production"); ("instance", JStr "sqlserver-prod-01");
                   ("database", JStr "core")];
     tr_reason := "slow"; tr_conversation_id := "conv_1"; tr_investigation_id := None;
     tr_request_id := "req_1"; tr_channel := "slack"; tr_channel_account_id := "U1";
     tr_approval_id := None; tr_change_id := None |}.
Definition top_run : res exn ToolCallResponse * World InMemoryBuckets InMemoryCatalog :=
  @handle _ _ in_memory_backend in_memory_catalog strict_lax no_sqlglot no_sql_statements
    (answering (Ok one_row)) catalog_gateway "slack" "agent/0.1.0" ticks (who "lou" DBA_L1)
    top_request empty_world.

Lemma gateway_request_dispatches_witness : ∃ req,
  w_executions top_run.2 = [req] ∧
  ∃ method names args, dispatch_entry (er_tool_id req) = Some (method, names) ∧
    call_args (er_arguments req) names = Ok args.
Proof.
  destruct (handle_execution _ _ _ _ _ _ _ _ _ (surjective_pairing top_run))
    as [Hx|(p & Hg & Hx & _)].
  - vm_compute in Hx. discriminate Hx.
  - exists (exec_request ticks p). split; [exact Hx|].
    exact (gateway_request_dispatches no_flags catalog_gateway ticks (who "lou" DBA_L1)
             top_request p Hg eq_refl).
Defined.
