(* ===== verification/Investigations.v ===== *)
(** Investigations: the store of [gateway/domain/investigation_store.py], the
    recall and correlation of [gateway/domain/investigation_memory.py], proved
    against the store's interface, and the rollup of
    [gateway/domain/decision_events.py].  A table is the list of its rows in the
    order they were inserted; rows created at the same instant come in an order
    of the database's choosing, here the one [merge_sort] gives. *)
From S2P Require Import Prelude Json Models.
From stdpp Require Import sorting.

(** [InvestigationRecord] *)
Record InvestigationRecord : Type := {
  iv_investigation_id : string;
  iv_conversation_id : string;
  iv_user_subject_id : string;
  iv_server_id : option string;
  iv_playbook_id : option string;
  iv_environment : option string;
  iv_target : list (string * json);
  iv_problem : string;
  iv_status : string;
  iv_evidence : list json;
  iv_hypotheses : list json;
  iv_findings : list json;
  iv_recommendations : list json;
  iv_actions : list json;
  iv_created_at : Z;
  iv_updated_at : Z
}.
#[export] Instance InvestigationRecord_eq_dec : EqDecision InvestigationRecord.
Proof. solve_decision. Defined.

(** [InvestigationCreateRequest] *)
Record InvestigationCreate : Type := {
  ic_investigation_id : string;
  ic_conversation_id : string;
  ic_user_subject_id : string;
  ic_server_id : option string;
  ic_playbook_id : option string;
  ic_environment : option string;
  ic_target : list (string * json);
  ic_problem : string;
  ic_status : string
}.

(** [InvestigationUpdateRequest]: [None] leaves a field as it is *)
Record InvestigationUpdate : Type := {
  iu_server_id : option string;
  iu_playbook_id : option string;
  iu_environment : option string;
  iu_target : option (list (string * json));
  iu_status : option string;
  iu_evidence : option (list json);
  iu_hypotheses : option (list json);
  iu_findings : option (list json);
  iu_recommendations : option (list json);
  iu_actions : option (list json)
}.

(** [InvestigationMemoryEntry]: the entry keeps the record's fields *)
Record MemoryEntry : Type := {
  me_investigation_id : string;
  me_server_id : option string;
  me_problem : string;
  me_status : string;
  me_findings : list json;
  me_recommendations : list json;
  me_updated_at : Z
}.

(* ------------------------------------------------------------------ *)
(** ** The store *)

Class InvestigationStore (T : Type) : Type := {
  store_create : InvestigationCreate → Z → M T exn InvestigationRecord;
  store_update : string → InvestigationUpdate → Z → M T exn (option InvestigationRecord);
  store_find : string → M T exn (option InvestigationRecord);
  recent_for_server : string → Z → option string → M T exn (list InvestigationRecord);
  append_event : string → string → list (string * json) → M T exn unit;
  find_similar : string → option string → option string → option Z → Z
    → M T exn (list InvestigationRecord)
}.

(** what recall and correlation rely on: what a query answers satisfies its
    conditions *)
Class InvestigationStoreLaws (T : Type) `{InvestigationStore T} : Prop := {
  recent_sound : ∀ id limit ex s l s', recent_for_server id limit ex s = (Ok l, s') →
    s' = s ∧ (Z.of_nat (length l) ≤ Z.max 0 limit)%Z ∧
    ∀ r, r ∈ l → iv_server_id r = Some id ∧
      (∀ e, ex = Some e → e ≠ "" → iv_investigation_id r ≠ e);
  similar_sound : ∀ pb env ex since limit s l s', find_similar pb env ex since limit s = (Ok l, s') →
    s' = s ∧ (Z.of_nat (length l) ≤ Z.max 0 limit)%Z ∧
    ∀ r, r ∈ l → iv_playbook_id r = Some pb ∧
      (∀ e, env = Some e → iv_environment r = Some e) ∧
      (∀ x, ex = Some x → iv_server_id r ≠ Some x) ∧
      (∀ t, since = Some t → (t ≤ iv_created_at r)%Z)
}.

(** [InvestigationEventRecord] *)
Record InvestigationEvent : Type := {
  ie_investigation_id : string;
  ie_event_type : string;
  ie_payload : list (string * json)
}.

Record InvestigationDb : Type := {
  idb_rows : list InvestigationRecord;
  idb_events : list InvestigationEvent
}.

Definition find_row (id : string) (rows : list InvestigationRecord) : option InvestigationRecord :=
  first_where (λ r, bool_decide (iv_investigation_id r = id)) rows.

(** [.order_by(created_at.desc())] *)
Definition newer (a b : InvestigationRecord) : Prop := (iv_created_at b ≤ iv_created_at a)%Z.
#[export] Instance newer_dec a b : Decision (newer a b).
Proof. unfold newer. apply _. Defined.
#[export] Instance newer_total : Total newer.
Proof. intros a b. unfold newer. lia. Qed.
#[export] Instance newer_trans : Transitive newer.
Proof. intros a b c. unfold newer. lia. Qed.
Definition by_created_desc (l : list InvestigationRecord) : list InvestigationRecord :=
  merge_sort newer l.

(** the row [create] adds: the request with the defaults of the columns *)
Definition new_row (f : InvestigationCreate) (now : Z) : InvestigationRecord :=
  {| iv_investigation_id := ic_investigation_id f; iv_conversation_id := ic_conversation_id f;
     iv_user_subject_id := ic_user_subject_id f; iv_server_id := ic_server_id f;
     iv_playbook_id := ic_playbook_id f; iv_environment := ic_environment f;
     iv_target := ic_target f; iv_problem := ic_problem f; iv_status := ic_status f;
     iv_evidence := []; iv_hypotheses := []; iv_findings := []; iv_recommendations := [];
     iv_actions := []; iv_created_at := now; iv_updated_at := now |}.

(** the loop of [setattr]s *)
Definition patch (u : InvestigationUpdate) (r : InvestigationRecord) : InvestigationRecord :=
  let opt {A} (o old : option A) := match o with Some v => Some v | None => old end in
  {| iv_investigation_id := iv_investigation_id r; iv_conversation_id := iv_conversation_id r;
     iv_user_subject_id := iv_user_subject_id r;
     iv_server_id := opt (iu_server_id u) (iv_server_id r);
     iv_playbook_id := opt (iu_playbook_id u) (iv_playbook_id r);
     iv_environment := opt (iu_environment u) (iv_environment r);
     iv_target := default (iv_target r) (iu_target u); iv_problem := iv_problem r;
     iv_status := default (iv_status r) (iu_status u);
     iv_evidence := default (iv_evidence r) (iu_evidence u);
     iv_hypotheses := default (iv_hypotheses r) (iu_hypotheses u);
     iv_findings := default (iv_findings r) (iu_findings u);
     iv_recommendations := default (iv_recommendations r) (iu_recommendations u);
     iv_actions := default (iv_actions r) (iu_actions u);
     iv_created_at := iv_created_at r; iv_updated_at := iv_updated_at r |}.
(** [onupdate]: the row is written, and stamped, when a column changed *)
Definition touch (now : Z) (old r : InvestigationRecord) : InvestigationRecord :=
  if decide (r = old) then old
  else {| iv_investigation_id := iv_investigation_id r;
          iv_conversation_id := iv_conversation_id r;
          iv_user_subject_id := iv_user_subject_id r; iv_server_id := iv_server_id r;
          iv_playbook_id := iv_playbook_id r; iv_environment := iv_environment r;
          iv_target := iv_target r; iv_problem := iv_problem r; iv_status := iv_status r;
          iv_evidence := iv_evidence r; iv_hypotheses := iv_hypotheses r;
          iv_findings := iv_findings r; iv_recommendations := iv_recommendations r;
          iv_actions := iv_actions r; iv_created_at := iv_created_at r; iv_updated_at := now |}.

(** [DbInvestigationStore.create]: an existing id is returned as it is *)
Definition db_create (f : InvestigationCreate) (now : Z)
    : M InvestigationDb exn InvestigationRecord := λ db,
  match find_row (ic_investigation_id f) (idb_rows db) with
  | Some existing => (Ok existing, db)
  | None => let r := new_row f now in
            (Ok r, {| idb_rows := idb_rows db ++ [r]; idb_events := idb_events db |})
  end.

Definition db_update (id : string) (u : InvestigationUpdate) (now : Z)
    : M InvestigationDb exn (option InvestigationRecord) := λ db,
  match find_row id (idb_rows db) with
  | None => (Ok None, db)
  | Some old =>
      let r := touch now old (patch u old) in
      (Ok (Some r),
       {| idb_rows := map (λ x, if bool_decide (iv_investigation_id x = id) then r else x)
                        (idb_rows db);
          idb_events := idb_events db |})
  end.

Definition db_find (id : string) : M InvestigationDb exn (option InvestigationRecord) := λ db,
  (Ok (find_row id (idb_rows db)), db).

(** one extra row is fetched when one will be filtered out *)
Definition db_recent (server_id : string) (limit : Z) (exclude : option string)
    : M InvestigationDb exn (list InvestigationRecord) := λ db,
  let fetch_limit := if opt_truthy exclude then (limit + 1)%Z else limit in
  let rows := take (Z.to_nat fetch_limit) (by_created_desc
    (List.filter (λ r, bool_decide (iv_server_id r = Some server_id)) (idb_rows db))) in
  (Ok (match exclude with
       | Some e =>
           if truthy e then take (Z.to_nat limit)
             (List.filter (λ r, negb (bool_decide (iv_investigation_id r = e))) rows)
           else rows
       | None => rows
       end), db).

Definition db_append_event (id event_type : string) (payload : list (string * json))
    : M InvestigationDb exn unit :=
  modify (λ db, {| idb_rows := idb_rows db;
    idb_events := idb_events db ++ [{| ie_investigation_id := id; ie_event_type := event_type;
                                       ie_payload := payload |}] |}).

(** the [where] clauses of [find_similar]; a null server is not unequal to
    anything in SQL *)
Definition similar_row (playbook_id : string) (environment exclude_server : option string)
    (since : option Z) (r : InvestigationRecord) : bool :=
  bool_decide (iv_playbook_id r = Some playbook_id) &&
  match environment with Some e => bool_decide (iv_environment r = Some e) | None => true end &&
  match exclude_server with
  | Some x => match iv_server_id r with Some s => negb (bool_decide (s = x)) | None => false end
  | None => true
  end &&
  match since with Some t => (t <=? iv_created_at r)%Z | None => true end.
Definition db_find_similar (playbook_id : string) (environment exclude_server : option string)
    (since : option Z) (limit : Z) : M InvestigationDb exn (list InvestigationRecord) := λ db,
  (Ok (take (Z.to_nat limit) (by_created_desc
     (List.filter (similar_row playbook_id environment exclude_server since) (idb_rows db)))), db).

#[export] Instance db_investigations : InvestigationStore InvestigationDb :=
  {| store_create := db_create; store_update := db_update; store_find := db_find;
     recent_for_server := db_recent; append_event := db_append_event;
     find_similar := db_find_similar |}.

(* ------------------------------------------------------------------ *)
(** ** Queries *)

(** dropping at most one element after taking one more is dropping it first *)
Lemma take_filter_one {A} (p : A → bool) (l : list A) n :
  (length (List.filter (λ x, negb (p x)) l) ≤ 1)%nat →
  take n (List.filter p (take (S n) l)) = take n (List.filter p l).
Proof.
  revert n. induction l as [|x l IH]; intros n; cbn; [done|].
  destruct (p x) eqn:Ex; cbn.
  - intros Hl. destruct n as [|n]; [done|]. by rewrite /= IH.
  - intros Hl. assert (List.filter (λ x, negb (p x)) l = []) as Hn
      by (destruct (List.filter (λ x, negb (p x)) l); [done|cbn in Hl; lia]).
    assert (∀ k, List.filter p (take k l) = take k l) as Hall.
    { clear IH Hl. induction l as [|y l IHl]; intros k; [by rewrite take_nil|].
      cbn in Hn. destruct (p y) eqn:Ey; [|done]. destruct k as [|k]; [done|].
      cbn. rewrite Ey. f_equal. by apply IHl. }
    specialize (Hall (length l)) as Hl'. rewrite firstn_all in Hl'. rewrite Hl'.
    rewrite Hall take_take. by rewrite Nat.min_id.
Qed.

Lemma unique_filter (id : string) (rows : list InvestigationRecord) :
  NoDup (map iv_investigation_id rows) →
  (length (List.filter (λ r, negb (negb (bool_decide (iv_investigation_id r = id)))) rows) ≤ 1)%nat.
Proof.
  induction rows as [|r rows IH]; cbn; [lia|]. intros [Hr Hnd]%NoDup_cons.
  case_bool_decide as Hid; cbn; [|by apply IH].
  enough (List.filter (λ r, negb (negb (bool_decide (iv_investigation_id r = id)))) rows = [])
    as -> by (cbn; lia).
  subst id. clear IH Hnd. induction rows as [|x rows IH]; [done|]. cbn in Hr |- *.
  apply not_elem_of_cons in Hr as [Hne Hr]. rewrite bool_decide_false //. cbn. by apply IH.
Qed.

Lemma filter_perm_ids (p : InvestigationRecord → bool) rows :
  NoDup (map iv_investigation_id rows) →
  NoDup (map iv_investigation_id (by_created_desc (List.filter p rows))).
Proof.
  intros Hnd. unfold by_created_desc.
  rewrite (Permutation_map iv_investigation_id (merge_sort_Permutation newer (List.filter p rows))).
  induction rows as [|r rows IH]; cbn in *; [done|]. apply NoDup_cons in Hnd as [Hr Hnd].
  destruct (p r); [|by apply IH]. cbn. apply NoDup_cons. split; [|by apply IH].
  intros Hin. apply Hr. apply list_elem_of_fmap in Hin as (x & -> & [Hx _]%filter_elem_of).
  apply list_elem_of_fmap. eauto.
Qed.

#[export] Instance db_investigations_laws : InvestigationStoreLaws InvestigationDb.
Proof.
  split.
  - intros id limit ex s l s' [= <- <-]. split; [done|].
    set (rows := take _ (by_created_desc _)).
    assert (∀ r, r ∈ rows → iv_server_id r = Some id) as Hrows.
    { intros r (i & Hr & _)%elem_of_take. apply list_elem_of_lookup_2 in Hr.
      unfold by_created_desc in Hr. rewrite merge_sort_Permutation in Hr.
      apply filter_elem_of in Hr as [_ Hr]. by apply bool_decide_eq_true in Hr. }
    destruct ex as [e|]; [destruct (truthy e) eqn:Et|].
    + split; [rewrite length_take; lia|]. intros r (i & Hr & _)%elem_of_take.
      apply list_elem_of_lookup_2, filter_elem_of in Hr as [Hr Hne]. split; [by apply Hrows|].
      intros e' [= <-] _. by apply negb_true_iff, bool_decide_eq_false in Hne.
    + split; [subst rows; cbn; rewrite Et length_take; lia|]. intros r Hr.
      split; [by apply Hrows|]. intros e' [= <-] He. apply truthy_spec in He. congruence.
    + split; [subst rows; cbn; rewrite length_take; lia|]. intros r Hr. by split; [apply Hrows|].
  - intros pb env ex since limit s l s' [= <- <-]. split; [done|].
    split; [rewrite length_take; lia|]. intros r (i & Hr & _)%elem_of_take.
    apply list_elem_of_lookup_2 in Hr. unfold by_created_desc in Hr.
    rewrite merge_sort_Permutation in Hr. apply filter_elem_of in Hr as [_ Hr].
    unfold similar_row in Hr. rewrite !andb_true_iff in Hr. destruct Hr as [[[Hp He] Hx] Ht].
    split_and!.
    + by apply bool_decide_eq_true in Hp.
    + intros e ->. by apply bool_decide_eq_true in He.
    + intros x ->. destruct (iv_server_id r) as [s0|]; [|done].
      apply negb_true_iff, bool_decide_eq_false in Hx. congruence.
    + intros t ->. by apply Z.leb_le.
Qed.

(** Recent investigations: with unique ids, asking for [limit] investigations
    of a server other than one of them gives exactly the [limit] newest of the
    others, newest first: fetching one row more before dropping the excluded one
    loses nothing. *)
Theorem recent_excludes_exactly server_id limit exclude db :
  (0 ≤ limit)%Z → NoDup (map iv_investigation_id (idb_rows db)) → exclude ≠ "" →
  let all := by_created_desc
    (List.filter (λ r, bool_decide (iv_server_id r = Some server_id)) (idb_rows db)) in
  db_recent server_id limit (Some exclude) db =
    (Ok (take (Z.to_nat limit)
       (List.filter (λ r, negb (bool_decide (iv_investigation_id r = exclude))) all)), db) ∧
  Sorted newer all.
Proof.
  intros Hlim Hnd Hex. cbn zeta. split; [|apply (Sorted_merge_sort newer)].
  unfold db_recent. cbn. rewrite (proj2 (truthy_spec exclude) Hex).
  rewrite Z2Nat.inj_add //. change (Z.to_nat 1) with 1%nat. rewrite Nat.add_1_r.
  rewrite take_filter_one //. by apply unique_filter, filter_perm_ids.
Qed.

Definition row_at (id : string) (at_ : Z) (status : string) : InvestigationRecord :=
  {| iv_investigation_id := id; iv_conversation_id := "c"; iv_user_subject_id := "u";
     iv_server_id := Some "sql-1"; iv_playbook_id := None; iv_environment := None; iv_target := [];
     iv_problem := "slow"; iv_status := status; iv_evidence := []; iv_hypotheses := [];
     iv_findings := []; iv_recommendations := []; iv_actions := []; iv_created_at := at_;
     iv_updated_at := at_ |}.
Definition three_investigations : InvestigationDb :=
  {| idb_rows := [row_at "inv_1" 1 "CONCLUDED"; row_at "inv_2" 2 "INVESTIGATING";
                  row_at "inv_3" 3 "INVESTIGATING"]; idb_events := [] |}.

Lemma recent_excludes_exactly_witness :
  db_recent "sql-1" 2 (Some "inv_3") three_investigations =
    (Ok [row_at "inv_2" 2 "INVESTIGATING"; row_at "inv_1" 1 "CONCLUDED"], three_investigations).
Proof.
  rewrite (proj1 (recent_excludes_exactly "sql-1" 2 "inv_3" three_investigations
                    ltac:(lia) ltac:(repeat constructor; set_solver) ltac:(done))).
  vm_compute. reflexivity.
Defined.

(* ------------------------------------------------------------------ *)
(** ** Creating and updating *)

Lemma find_row_spec id rows r : find_row id rows = Some r → r ∈ rows ∧ iv_investigation_id r = id.
Proof. intros [Hr Hid]%first_where_some. split; [done|]. by apply bool_decide_eq_true in Hid. Qed.

Lemma find_row_app id rows r : find_row id rows = None →
  find_row id (rows ++ [r]) = if bool_decide (iv_investigation_id r = id) then Some r else None.
Proof.
  unfold find_row, first_where. induction rows as [|x rows IH]; cbn; [done|].
  destruct (bool_decide (iv_investigation_id x = id)); [done|exact IH].
Qed.

Lemma patch_id u r : iv_investigation_id (patch u r) = iv_investigation_id r.
Proof. done. Qed.
Lemma touch_id now old r : iv_investigation_id r = iv_investigation_id old →
  iv_investigation_id (touch now old r) = iv_investigation_id old.
Proof. unfold touch. by destruct (decide (r = old)). Qed.

Lemma find_row_map id id' new rows :
  iv_investigation_id new = id' →
  find_row id (map (λ x, if bool_decide (iv_investigation_id x = id') then new else x) rows) =
    if decide (id = id') then (if find_row id rows is Some _ then Some new else None)
    else find_row id rows.
Proof.
  intros Hnew. unfold find_row, first_where. induction rows as [|x rows IH]; cbn.
  - by destruct (decide (id = id')).
  - destruct (decide (iv_investigation_id x = id')) as [Hx|Hx].
    + rewrite !(bool_decide_true (iv_investigation_id x = id')) // Hnew.
      destruct (decide (id = id')) as [->|Hne].
      * by rewrite !bool_decide_true.
      * rewrite !(bool_decide_false (_ = id)); [congruence|congruence|exact IH].
    + rewrite (bool_decide_false (iv_investigation_id x = id')) //.
      destruct (decide (id = id')) as [->|Hne].
      * by rewrite bool_decide_false.
      * by destruct (bool_decide (iv_investigation_id x = id)).
Qed.

Lemma patch_idemp u r : patch u (patch u r) = patch u r.
Proof.
  unfold patch. cbn. destruct u as [[?|] [?|] [?|] [?|] [?|] [?|] [?|] [?|] [?|] [?|]]; reflexivity.
Qed.

(** Creating is idempotent and updating is a patch: creating an id that
    exists returns the stored record and changes nothing, and creating a new one
    makes it found; an update of an unknown id answers nothing and changes
    nothing; an update of a known one makes it found with exactly the given fields
    changed, keeps every other investigation and every event, and repeating it
    at any time changes nothing more. *)
Theorem investigation_writes f id u now now' db :
  (match find_row (ic_investigation_id f) (idb_rows db) with
   | Some r => db_create f now db = (Ok r, db)
   | None => ∃ db', db_create f now db = (Ok (new_row f now), db') ∧
       idb_events db' = idb_events db ∧
       find_row (ic_investigation_id f) (idb_rows db') = Some (new_row f now) ∧
       db_create f now' db' = (Ok (new_row f now), db')
   end) ∧
  (match find_row id (idb_rows db) with
   | None => db_update id u now db = (Ok None, db)
   | Some old => ∃ db', db_update id u now db = (Ok (Some (touch now old (patch u old))), db') ∧
       idb_events db' = idb_events db ∧
       (∀ id', find_row id' (idb_rows db') =
          if decide (id' = id) then Some (touch now old (patch u old))
          else find_row id' (idb_rows db)) ∧
       db_update id u now' db' = (Ok (Some (touch now old (patch u old))), db')
   end).
Proof.
  split.
  - unfold db_create. destruct (find_row (ic_investigation_id f) (idb_rows db)) eqn:E; [done|].
    eexists. split; [reflexivity|]. split; [done|]. cbn [idb_rows idb_events].
    assert (find_row (ic_investigation_id f) (idb_rows db ++ [new_row f now])
            = Some (new_row f now)) as Hf.
    { rewrite find_row_app //. by rewrite bool_decide_true. }
    by rewrite Hf.
  - unfold db_update. destruct (find_row id (idb_rows db)) as [old|] eqn:E; [|done].
    apply find_row_spec in E as Hold. destruct Hold as [_ Hid].
    assert (iv_investigation_id (touch now old (patch u old)) = id) as Hnew
      by (rewrite touch_id //).
    eexists. split; [reflexivity|]. split; [done|]. cbn [idb_rows idb_events]. split.
    + intros id'. rewrite find_row_map //. destruct (decide (id' = id)) as [->|]; [|done].
      by rewrite E.
    + rewrite find_row_map // decide_True // E.
      assert (touch now' (touch now old (patch u old)) (patch u (touch now old (patch u old)))
              = touch now old (patch u old)) as ->.
      { assert (patch u (touch now old (patch u old)) = touch now old (patch u old)) as ->.
        { unfold touch. destruct (decide (patch u old = old)) as [He|Hne]; [done|].
          pose proof (patch_idemp u old) as Hp. unfold patch in Hp |- *. cbn in Hp |- *.
          by injection Hp as -> -> -> -> -> -> -> -> -> ->. }
        unfold touch at 1. by rewrite decide_True. }
      set (r := touch now old (patch u old)) in *. rewrite List.map_map.
      enough (∀ rows, map (λ x, if bool_decide (iv_investigation_id
          (if bool_decide (iv_investigation_id x = id) then r else x) = id) then r
          else if bool_decide (iv_investigation_id x = id) then r else x) rows =
        map (λ x, if bool_decide (iv_investigation_id x = id) then r else x) rows) as -> by done.
      intros rows. apply map_ext. intros x. destruct (decide (iv_investigation_id x = id)) as [Hx|Hx].
      * by rewrite (bool_decide_true (iv_investigation_id x = id)) // bool_decide_true.
      * rewrite (bool_decide_false (iv_investigation_id x = id)) //.
        by rewrite bool_decide_false.
Qed.

(* ------------------------------------------------------------------ *)
(** ** investigation_memory.py *)

Definition CONCLUDED_PREFIX : string := "CONCLUDED".

Definition entry_of (r : InvestigationRecord) : MemoryEntry :=
  {| me_investigation_id := iv_investigation_id r; me_server_id := iv_server_id r;
     me_problem := iv_problem r; me_status := iv_status r; me_findings := iv_findings r;
     me_recommendations := iv_recommendations r; me_updated_at := iv_updated_at r |}.
Definition concluded (r : InvestigationRecord) : bool :=
  String.prefix CONCLUDED_PREFIX (iv_status r).
(** the comprehension both lookups end with *)
Definition entries_of (records : list InvestigationRecord) (limit : Z) : list MemoryEntry :=
  take (Z.to_nat limit) (map entry_of (List.filter concluded records)).

Section memory.
Context {T : Type} `{InvestigationStore T}.

(** [InvestigationMemory.recall]: a failing lookup recalls nothing *)
Definition recall (server_id : string) (exclude : option string) (limit : Z)
    : M T exn (list MemoryEntry) :=
  if (limit <=? 0)%Z then mret []
  else
    try_except
      (records ← recent_for_server server_id (limit * 4) exclude;
       mret (entries_of records limit))
      (λ _, mret []).

(** [InvestigationMemory.correlate] for a non-negative limit *)
Definition correlate (playbook_id environment exclude_server : option string) (since : option Z)
    (limit : Z) : M T exn (list MemoryEntry) :=
  match playbook_id with
  | Some pb =>
      if truthy pb then
        try_except
          (records ← find_similar pb environment exclude_server since (limit * 4);
           mret (entries_of records limit))
          (λ _, mret [])
      else mret []
  | None => mret []
  end.

(** *** The router's two reads *)

Definition DAYS : Z := 86400 * 1000000.

Definition get_investigation_memory (server_id : string) (exclude : option string) (limit : Z)
    : M T exn (list MemoryEntry) := recall server_id exclude limit.
(** switched off, it answers nothing; else it looks back [lookback_days] *)
Definition correlate_investigations (enabled : bool) (lookback_days now : Z) (playbook_id : string)
    (environment exclude_server : option string) (limit : Z) : M T exn (list MemoryEntry) :=
  if negb enabled then mret []
  else correlate (Some playbook_id) environment exclude_server
         (Some (now - lookback_days * DAYS)%Z) limit.
End memory.

Lemma entries_of_spec records limit e : e ∈ entries_of records limit →
  ∃ r, r ∈ records ∧ e = entry_of r ∧ concluded r = true.
Proof.
  unfold entries_of. intros (i & He & _)%elem_of_take. apply list_elem_of_lookup_2 in He.
  apply list_elem_of_fmap in He as (r & -> & [Hr Hc]%filter_elem_of). eauto.
Qed.

Lemma entries_of_length records limit :
  (Z.of_nat (length (entries_of records limit)) ≤ Z.max 0 limit)%Z.
Proof. unfold entries_of. rewrite length_take. lia. Qed.

Lemma try_lookup {T} (q : M T exn (list InvestigationRecord)) limit s :
  (∃ l s', q s = (Ok l, s') ∧
     try_except (records ← q; mret (entries_of records limit)) (λ _, mret []) s
       = (Ok (entries_of l limit), s')) ∨
  (∃ s', try_except (records ← q; mret (entries_of records limit)) (λ _, mret []) s = (Ok [], s')).
Proof.
  unfold try_except, mbind, M_bind. destruct (q s) as [[l|e] s']; [left|right]; eauto.
Qed.

(** Memory is background only: over any store that keeps its contract, and
    even over one that fails, recall and correlation never raise and return at
    most the asked number of entries; a recalled entry is a concluded
    investigation of the asked server, not the excluded one, and a correlated one
    a concluded investigation of the same playbook and environment, of another
    server, within the look-back. *)
Theorem memory_is_background {T} `{InvestigationStoreLaws T} server ex limit pb env xs since s :
  (∃ l s', recall server ex limit s = (Ok l, s') ∧ (Z.of_nat (length l) ≤ Z.max 0 limit)%Z ∧
     ∀ e, e ∈ l → me_server_id e = Some server ∧
       String.prefix CONCLUDED_PREFIX (me_status e) = true ∧
       (∀ x, ex = Some x → x ≠ "" → me_investigation_id e ≠ x)) ∧
  (∃ l s', correlate pb env xs since limit s = (Ok l, s') ∧
     (Z.of_nat (length l) ≤ Z.max 0 limit)%Z ∧ ((pb = None ∨ pb = Some "") → l = []) ∧
     ∀ e, e ∈ l → String.prefix CONCLUDED_PREFIX (me_status e) = true ∧
       (∀ x, xs = Some x → me_server_id e ≠ Some x) ∧
       ∃ r, e = entry_of r ∧ iv_playbook_id r = pb ∧
         (∀ v, env = Some v → iv_environment r = Some v) ∧
         (∀ t, since = Some t → (t ≤ iv_created_at r)%Z)).
Proof.
  split.
  - unfold recall. destruct (limit <=? 0)%Z.
    + exists [], s. split; [done|]. split; [cbn; lia|]. by intros e ?%elem_of_nil.
    + destruct (try_lookup (recent_for_server server (limit * 4) ex) limit s)
        as [(l & s' & Hq & ->)|(s' & ->)].
      2:{ exists [], s'. split; [done|]. split; [cbn; lia|]. by intros e ?%elem_of_nil. }
      eexists _, _. split; [done|]. split; [apply entries_of_length|].
      intros e (r & Hr & -> & Hc)%entries_of_spec.
      destruct (recent_sound _ _ _ _ _ _ Hq) as (_ & _ & Hl). destruct (Hl r Hr) as [Hs He].
      by split_and!.
  - unfold correlate. destruct pb as [pb|].
    2:{ exists [], s. split; [done|]. split; [cbn; lia|]. split; [done|]. by intros e ?%elem_of_nil. }
    destruct (truthy pb) eqn:Et.
    2:{ exists [], s. split; [done|]. split; [cbn; lia|]. split; [done|]. by intros e ?%elem_of_nil. }
    destruct (try_lookup (find_similar pb env xs since (limit * 4)) limit s)
      as [(l & s' & Hq & ->)|(s' & ->)].
    2:{ exists [], s'. split; [done|]. split; [cbn; lia|]. split; [done|]. by intros e ?%elem_of_nil. }
    eexists _, _. split; [done|]. split; [apply entries_of_length|]. split.
    + intros [?|[= ->]]; done.
    + intros e (r & Hr & -> & Hc)%entries_of_spec.
      destruct (similar_sound _ _ _ _ _ _ _ _ Hq) as (_ & _ & Hl).
      destruct (Hl r Hr) as (Hp & He & Hx & Ht). split_and!; try done. eauto 6.
Qed.

Lemma memory_is_background_witness :
  ∃ l s', @recall _ db_investigations "sql-1" (Some "inv_3") 3 three_investigations = (Ok l, s') ∧
    (Z.of_nat (length l) ≤ 3)%Z.
Proof.
  destruct (proj1 (memory_is_background "sql-1" (Some "inv_3") 3 None None None None
                     three_investigations)) as (l & s' & Hr & Hl & _).
  exists l, s'. split; [exact Hr|exact Hl].
Defined.

(* ------------------------------------------------------------------ *)
(** ** decision_events.py *)

(** [LlmDecisionEventRecord] *)
Record DecisionEvent : Type := {
  dv_event_type : string;
  dv_conversation_id : option string;
  dv_investigation_id : option string;
  dv_provider : string;
  dv_model : string;
  dv_payload : list (string * json);
  dv_created_at : Z
}.

(** [DbDecisionEventStore.append] *)
Definition decision_append (e : DecisionEvent) : M (list DecisionEvent) exn unit :=
  modify (λ events, events ++ [e]).

(** [counts_by_type]: the [GROUP BY] as a dict, groups in order of first row *)
Definition count_event (counts : list (string * Z)) (e : DecisionEvent) : list (string * Z) :=
  dict_set (dv_event_type e) (default 0%Z (dict_get (dv_event_type e) counts) + 1)%Z counts.
Definition counts_by_type (since : Z) (events : list DecisionEvent) : list (string * Z) :=
  foldl count_event [] (List.filter (λ e, (since <=? dv_created_at e)%Z) events).

Lemma count_events_spec events counts t :
  dict_get t (foldl count_event counts events) =
    match length (List.filter (λ e, bool_decide (dv_event_type e = t)) events) with
    | 0%nat => dict_get t counts
    | n => Some (default 0 (dict_get t counts) + Z.of_nat n)%Z
    end.
Proof.
  revert counts. induction events as [|e events IH]; intros counts; cbn [foldl List.filter]; [done|].
  rewrite IH. unfold count_event. case_bool_decide as He.
  - subst t. cbn [length]. rewrite dict_get_set_eq. cbn [default].
    destruct (length (List.filter _ events)); cbn; f_equal; lia.
  - by rewrite dict_get_set_ne.
Qed.

(** the summary counts exactly the events of each type since the instant, a type
    without any is absent, and appending one event adds one to its type *)
Lemma counts_by_type_spec since events t :
  dict_get t (counts_by_type since events) =
    match length (List.filter (λ e, bool_decide (dv_event_type e = t))
                    (List.filter (λ e, (since <=? dv_created_at e)%Z) events)) with
    | 0%nat => None
    | n => Some (Z.of_nat n)
    end.
Proof. unfold counts_by_type. rewrite count_events_spec. by case_match. Qed.
