(* ===== verification/Fallback.v ===== *)
(** Cross-provider fallback: [agent/llm/fallback.py].  Time is a rational number
    of seconds; building a provider and calling it take some; the walk shares one
    deadline.  [asyncio.wait_for] cuts a call off at its limit. *)
From S2P Require Import Prelude Json Models.
From Stdlib Require Import QArith Qminmax Lqa.

#[local] Open Scope Q_scope.

Definition MIN_PER_ATTEMPT_BUDGET_SECONDS : Q := 5.
Definition OVERALL_DEADLINE_SECONDS : Q := 20.

Definition per_attempt_budget_seconds (total_seconds : Q) (attempts : nat) : Q :=
  if (attempts <=? 1)%nat then total_seconds
  else Qmin total_seconds
         (Qmax MIN_PER_ATTEMPT_BUDGET_SECONDS (total_seconds / inject_Z (Z.of_nat attempts))).

Record FallbackEvent : Type := {
  fe_failed_providers : list string;
  fe_used_provider : string
}.

(** *** [fallback_notice_text] *)

Definition append_new (acc : list string) (x : string) : list string :=
  if mem x acc then acc else acc ++ [x].
Definition join_names (names : list string) : string :=
  match reverse names with
  | [] => ""
  | [n] => n
  | last :: before => str_join ", " (reverse before) +:+ " and " +:+ last
  end.
Definition fallback_notice_text (events : list FallbackEvent) : string :=
  let failed := foldl append_new [] (events ≫= fe_failed_providers) in
  let used := foldl append_new [] (map fe_used_provider events) in
  match failed, used with
  | [], _ | _, [] => ""
  | _, _ =>
      let one := bool_decide (length failed = 1%nat) in
      "(The " +:+ join_names failed +:+ " " +:+ (if one then "service" else "services") +:+ " "
      +:+ (if one then "was" else "were") +:+ " unavailable, so I used " +:+ join_names used
      +:+ " instead.)"
  end.

Example notice_ex :
  fallback_notice_text [{| fe_failed_providers := ["gemini"; "openai"]; fe_used_provider := "anthropic" |};
                        {| fe_failed_providers := ["gemini"]; fe_used_provider := "anthropic" |}]
  = "(The gemini and openai services were unavailable, so I used anthropic instead.)".
Proof. vm_compute. reflexivity. Qed.

(* ------------------------------------------------------------------ *)
(** ** The walk *)

Section walk.
Context {Provider A : Type}.

(** one entry of the chain: its name, and how long its factory takes and what it
    gives *)
Record ChainEntry : Type := {
  ch_name : string;
  ch_build : Q * res exn Provider
}.

Context (call : Provider → Q * res exn A).

(** [asyncio.wait_for(call(provider), limit)] *)
Definition wait_for (p : Provider) (limit : Q) : Q * res exn A :=
  let '(elapsed, outcome) := call p in
  if Qle_bool elapsed limit then (elapsed, outcome) else (limit, Err (PyError "TimeoutError" "")).

(** [except (LLMProviderUnavailableError, TimeoutError)] *)
Definition walk_continues (e : exn) : bool :=
  match e with
  | PyError kind _ => mem kind ["LLMProviderUnavailableError"; "TimeoutError"]
  | NumiError _ _ _ => false
  end.

Inductive WalkResult : Type :=
| Answered (result : A) (event : option FallbackEvent)
| AllUnavailable (last_error : option exn)
| Escaped (e : exn).

Definition notice (failed : list string) (name : string) : option FallbackEvent :=
  match failed with
  | [] => None
  | _ => Some {| fe_failed_providers := failed; fe_used_provider := name |}
  end.

(** the [for] over the chain: [elapsed] is the clock since the start; it returns
    the clock at the end as well *)
Fixpoint walk_from (total budget : Q) (chain : list ChainEntry) (elapsed : Q)
    (failed : list string) (last_error : option exn) : WalkResult * Q :=
  match chain with
  | [] => (AllUnavailable last_error, elapsed)
  | entry :: chain =>
      let remaining := total - elapsed in
      if Qle_bool remaining 0 then (AllUnavailable last_error, elapsed)
      else
        let '(build_time, built) := ch_build entry in
        match built with
        | Err e =>
            walk_from total budget chain (elapsed + build_time) (failed ++ [ch_name entry]) (Some e)
        | Ok provider =>
            let '(spent, outcome) := wait_for provider (Qmin budget remaining) in
            let elapsed := elapsed + build_time + spent in
            match outcome with
            | Ok result => (Answered result (notice failed (ch_name entry)), elapsed)
            | Err e =>
                if walk_continues e then
                  walk_from total budget chain elapsed (failed ++ [ch_name entry]) (Some e)
                else (Escaped e, elapsed)
            end
        end
  end.

(** [_walk] *)
Definition walk (total : Q) (chain : list ChainEntry) : WalkResult * Q :=
  walk_from total (per_attempt_budget_seconds total (length chain)) chain 0 [] None.

(** [extract_intent] and [decide_next_action]: what the caller gets when every
    provider is unavailable *)
Definition or_degraded (degraded : A) (r : WalkResult) : res exn A :=
  match r with
  | Answered a _ => Ok a
  | AllUnavailable _ => Ok degraded
  | Escaped e => Err e
  end.

(** *** The deadline *)

(** time spent building, and no more than that beyond the deadline *)
Definition build_times (chain : list ChainEntry) : Q :=
  foldr (λ e acc, (ch_build e).1 + acc) 0 chain.
Definition times_ok (chain : list ChainEntry) : Prop :=
  Forall (λ e, 0 <= (ch_build e).1) chain ∧ ∀ p, 0 <= (call p).1.

Lemma wait_for_limit p limit : 0 <= limit → (∀ p, 0 <= (call p).1) →
  0 <= (wait_for p limit).1 ∧ (wait_for p limit).1 <= limit.
Proof.
  intros Hl Hc. unfold wait_for. specialize (Hc p). destruct (call p) as [t o]. cbn in Hc.
  destruct (Qle_bool t limit) eqn:E; cbn; [|lra]. apply Qle_bool_iff in E. lra.
Qed.

Lemma walk_from_deadline total budget chain : ∀ elapsed failed last,
  times_ok chain → 0 <= budget → 0 <= total →
  (walk_from total budget chain elapsed failed last).2 <=
    Qmax elapsed total + build_times chain.
Proof.
  induction chain as [|entry chain IH]; intros elapsed failed last [Hb Hc] Hbud Htot.
  - cbn. pose proof (Q.le_max_l elapsed total). lra.
  - apply Forall_cons_1 in Hb as [Hb Hbs]. cbn [walk_from build_times foldr].
    change (foldr (λ e acc, (ch_build e).1 + acc) 0 chain) with (build_times chain).
    assert (0 <= build_times chain) as Hpos.
    { clear -Hbs. unfold build_times. induction Hbs as [|e l He _ IH]; cbn; lra. }
    pose proof (Q.le_max_l elapsed total) as Hml. pose proof (Q.le_max_r elapsed total) as Hmr.
    destruct (Qle_bool (total - elapsed) 0) eqn:Er; [cbn; lra|].
    assert (0 <= total - elapsed) as Hrem.
    { destruct (Qlt_le_dec (total - elapsed) 0) as [Hlt|]; [|done].
      assert (Qle_bool (total - elapsed) 0 = true) by (apply Qle_bool_iff; lra). congruence. }
    destruct (ch_build entry) as [bt [p|e]]; cbn [fst] in *.
    2:{ eapply Qle_trans; [by apply IH|]. apply Qle_trans with (Qmax elapsed total + bt + build_times chain);
        [|lra]. apply Qplus_le_compat; [|lra]. apply Q.max_lub; lra. }
    assert (0 <= Qmin budget (total - elapsed)) as Hlim by (apply Q.min_glb; done).
    pose proof (wait_for_limit p _ Hlim Hc) as [Hs1 Hs2].
    pose proof (Q.le_min_r budget (total - elapsed)) as Hmin.
    destruct (wait_for p (Qmin budget (total - elapsed))) as [spent outcome]. cbn [fst] in Hs1, Hs2.
    destruct outcome as [a|e]; [cbn; lra|]. destruct (walk_continues e); [|cbn; lra].
    eapply Qle_trans; [by apply IH|]. apply Qle_trans with (Qmax elapsed total + bt + build_times chain);
      [|lra]. apply Qplus_le_compat; [|lra]. apply Q.max_lub; lra.
Qed.
End walk.
Arguments ChainEntry : clear implicits.
Arguments WalkResult : clear implicits.

Section walk_facts.
Context {Provider A : Type} (call : Provider → Q * res exn A) (total budget : Q).

(** an entry that was tried and lost *)
Definition lost (entry : ChainEntry Provider) : Prop :=
  (∃ e, (ch_build entry).2 = Err e) ∨
  (∃ p limit e, (ch_build entry).2 = Ok p ∧ limit <= budget ∧
     (wait_for call p limit).2 = Err e ∧ walk_continues e = true).

(** what a walk over [chain] may end in *)
Definition walk_outcome (chain : list (ChainEntry Provider)) (r : WalkResult A * Q) : Prop :=
  match r.1 with
  | Answered a event =>
      ∃ before entry after p limit, chain = before ++ entry :: after ∧ Forall lost before ∧
        (ch_build entry).2 = Ok p ∧ limit <= budget ∧ (wait_for call p limit).2 = Ok a ∧
        event = notice (map ch_name before) (ch_name entry)
  | AllUnavailable _ =>
      ∃ tried rest, chain = tried ++ rest ∧ Forall lost tried ∧ (rest = [] ∨ total <= r.2)
  | Escaped e => walk_continues e = false
  end.

Lemma walk_from_outcome chain : ∀ before elapsed last, Forall lost before →
  walk_outcome (before ++ chain)
    (walk_from call total budget chain elapsed (map ch_name before) last).
Proof.
  induction chain as [|entry chain IH]; intros before elapsed last Hbefore; cbn [walk_from].
  - exists before, []. by rewrite app_nil_r; auto.
  - destruct (Qle_bool (total - elapsed) 0) eqn:Er.
    { exists before, (entry :: chain). split_and!; try done. right. cbn.
      apply Qle_bool_iff in Er. lra. }
    assert (∀ (e : exn) (el : Q), lost entry → walk_outcome (before ++ entry :: chain)
      (walk_from call total budget chain el (map ch_name before ++ [ch_name entry]) (Some e)))
      as Hnext.
    { intros e el Hlost. specialize (IH (before ++ [entry]) el (Some e)).
      rewrite map_app -app_assoc in IH. apply IH. by apply Forall_app_2; [|constructor]. }
    destruct (ch_build entry) as [bt [p|e]] eqn:Eb.
    2:{ apply Hnext. left. exists e. by rewrite Eb. }
    set (limit := Qmin budget (total - elapsed)).
    assert (limit <= budget) as Hlim by apply Q.le_min_l.
    destruct (wait_for call p limit) as [spent [a|e]] eqn:Ew.
    + exists before, entry, chain, p, limit. cbn. by rewrite Eb Ew.
    + destruct (walk_continues e) eqn:Ec; [|exact Ec].
      apply Hnext. right. exists p, limit, e. by rewrite Eb Ew.
Qed.

(** a walk over providers that only raise outages lets nothing escape *)
Lemma walk_no_escape chain : (∀ p e, (call p).2 = Err e → walk_continues e = true) →
  ∀ elapsed failed last, match (walk_from call total budget chain elapsed failed last).1 with
                         | Escaped _ => False
                         | _ => True
                         end.
Proof.
  intros Hc. induction chain as [|entry chain IH]; intros elapsed failed last; cbn [walk_from]; [done|].
  destruct (Qle_bool _ 0); [done|]. destruct (ch_build entry) as [bt [p|e]]; [|apply IH].
  assert (∀ limit e, (wait_for call p limit).2 = Err e → walk_continues e = true) as Hw.
  { intros limit e. unfold wait_for. specialize (Hc p e). destruct (call p) as [t o].
    destruct (Qle_bool t limit); cbn; [done|]. by intros [= <-]. }
  set (limit := Qmin budget _). specialize (Hw limit).
  destruct (wait_for call p limit) as [spent [a|e]]; [done|].
  rewrite (Hw e eq_refl). apply IH.
Qed.
End walk_facts.

(** The fallback walk fits in one deadline: with four configured providers or
    fewer every attempt gets at least the minimum slice and the slices of all of
    them add up to the twenty seconds; and for any chain the walk ends within the
    deadline, but for the time factories take to build providers, however often
    calls hang. *)
Theorem walk_within_deadline {Provider A} (call : Provider → Q * res exn A) total chain :
  (∀ n, (1 ≤ n ≤ 4)%nat →
     inject_Z (Z.of_nat n) * per_attempt_budget_seconds OVERALL_DEADLINE_SECONDS n == 20 ∧
     MIN_PER_ATTEMPT_BUDGET_SECONDS <= per_attempt_budget_seconds OVERALL_DEADLINE_SECONDS n) ∧
  (0 <= total → times_ok call chain →
   per_attempt_budget_seconds total (length chain) <= total ∧
   (walk call total chain).2 <= total + build_times chain).
Proof.
  split.
  - intros n Hn. assert (n = 1 ∨ n = 2 ∨ n = 3 ∨ n = 4)%nat as [->|[->|[->| ->]]] by lia;
      split; vm_compute; congruence.
  - intros Ht Hok. assert (0 <= per_attempt_budget_seconds total (length chain)) as Hb.
    { unfold per_attempt_budget_seconds. destruct (length chain <=? 1)%nat; [done|].
      apply Q.min_glb; [done|]. eapply Qle_trans; [|apply Q.le_max_l]. unfold Qle. cbn. lia. }
    split.
    + unfold per_attempt_budget_seconds. destruct (length chain <=? 1)%nat; [lra|].
      apply Q.le_min_l.
    + unfold walk. pose proof (walk_from_deadline call total _ chain 0 [] None Hok Hb Ht) as Hw.
      rewrite Q.max_r in Hw; [done|exact Hw].
Qed.

(** The fallback walk is never silent: an answer comes from the first
    provider of the chain that could be built and answered in its slice, every
    provider before it having failed; a notice is recorded exactly when that is
    not the primary, and names the failed providers in the order they were tried;
    the walk gives up only when every provider failed or the deadline has passed,
    and lets through only exceptions that are not outages. *)
Theorem walk_never_silent {Provider A} (call : Provider → Q * res exn A) total chain :
  match walk call total chain with
  | (Answered a event, _) =>
      ∃ before entry after p limit, chain = before ++ entry :: after ∧
        Forall (lost call (per_attempt_budget_seconds total (length chain))) before ∧
        (ch_build entry).2 = Ok p ∧
        limit <= per_attempt_budget_seconds total (length chain) ∧
        (wait_for call p limit).2 = Ok a ∧
        event = (if bool_decide (length before = 0%nat) then None
                 else Some {| fe_failed_providers := map ch_name before;
                              fe_used_provider := ch_name entry |})
  | (AllUnavailable _, ended) =>
      ∃ tried rest, chain = tried ++ rest ∧
        Forall (lost call (per_attempt_budget_seconds total (length chain))) tried ∧
        (rest = [] ∨ total <= ended)
  | (Escaped e, _) => walk_continues e = false
  end.
Proof.
  pose proof (walk_from_outcome call total (per_attempt_budget_seconds total (length chain)) chain
                [] 0 None (Forall_nil_2 _)) as Ho.
  unfold walk. cbn [app map] in Ho. unfold walk_outcome in Ho.
  destruct (walk_from _ _ _ _ _ _ _) as [[a event|last|e] ended]; cbn in Ho; [|exact Ho|exact Ho].
  destruct Ho as (before & entry & after & p & limit & Hc & Hl & Hb & Hlim & Hw & ->).
  exists before, entry, after, p, limit. split_and!; try done. unfold notice. by destruct before.
Qed.
