(* ===== verification/Playbooks.v ===== *)
(** The playbook library: [agent/playbooks/library.py].  The texts of the library
    are part of it: they are prompts and replies of the Agent. *)
From S2P Require Import Prelude Json Text Models ToolCatalog.

(** [PlaybookStep] *)
Record PlaybookStep : Type := {
  ps_tool_id : string;
  ps_purpose : string;
  ps_arguments : list (string * json)
}.

(** [Playbook] *)
Record Playbook : Type := {
  pb_playbook_id : string;
  pb_name : string;
  pb_description : string;
  pb_triggers : list string;
  pb_steps : list PlaybookStep;
  pb_conclusion_guidance : string
}.

(** [_step] *)
Definition mk_step (tool_id purpose : string) (arguments : list (string * json)) : PlaybookStep :=
  {| ps_tool_id := tool_id; ps_purpose := purpose; ps_arguments := arguments |}.

Definition playbook_deadlocks : Playbook := {|
  pb_playbook_id := "deadlocks";
  pb_name := "Deadlock Investigation";
  pb_description := "A reported deadlock or repeated deadlocking.";
  pb_triggers :=
    ["deadlock"; "deadlocks"; "deadlocked"; "deadlocking"; "dead lock"];
  pb_steps :=
    [mk_step "database.get_deadlocks" "Pulling recent deadlock graphs." [];
     mk_step "database.get_blocking_sessions" "Checking for blocking still in progress." [];
     mk_step "database.get_running_queries" "Checking what's running now around the same objects." [];
     mk_step "database.get_sessions" ("Checking session durations for long-running transactions that could be " +:+
      "contributing to the lock-acquisition cycle.") []];
  pb_conclusion_guidance := ("Reconstruct the lock-acquisition cycle from the deadlock graph(s): which " +:+
    "sessions/queries were involved, what each held and what each was waiting on, " +:+
    "and in what order. State which session was chosen as the deadlock victim and " +:+
    "whether the same access pattern is still occurring now. Then identify the " +:+
    "root-cause category the evidence actually supports, rather than a generic 'a " +:+
    "deadlock happened': inconsistent table/object access order across the competing " +:+
    "transactions, a missing index forcing a broader scan-and-lock footprint than " +:+
    "necessary, a long-running transaction (check session durations) holding locks " +:+
    "longer than needed, a large batch operation or lock escalation turning many row " +:+
    "locks into a table lock, an isolation level stricter than the workload needs, a " +:+
    "trigger or foreign-key check acquiring an additional unexpected lock, or a " +:+
    "maintenance operation contending with normal traffic. If more than one deadlock " +:+
    "graph was returned, note how often this pattern is recurring and whether it " +:+
    "clusters around a particular time. Recommend a fix that matches the actual root " +:+
    "cause — consistent access order, an index, smaller transactions/batches, " +:+
    "application-level retry handling, an isolation-level review, or separating " +:+
    "conflicting workloads — rather than generic advice.")
|}.

Definition playbook_blocking : Playbook := {|
  pb_playbook_id := "blocking";
  pb_name := "Blocking / Locking Investigation";
  pb_description := "Sessions blocked, stuck, or waiting on locks.";
  pb_triggers :=
    ["blocking"; "blocked"; "block chain"; "locking"; "lock wait"; "stuck"; "hanging"; 
     "won't complete"; "not completing"];
  pb_steps :=
    [mk_step "database.get_blocking_sessions" "Mapping the current blocking chain." [];
     mk_step "database.get_running_queries" "Checking what the head blocker and waiters are running." [];
     mk_step "database.get_wait_statistics" "Checking whether lock waits dominate overall wait time." [];
     mk_step "database.get_sessions" "Checking how long the blocking session has been open." []];
  pb_conclusion_guidance := ("Identify the head blocker (session, query, how long it's held the lock) and " +:+
    "who's waiting on it. Classify what the head blocker actually is, not just that " +:+
    "it's blocking: an active/long-running query, an idle-in-transaction session " +:+
    "(its statement finished but the transaction was never committed/rolled back), a " +:+
    "large batch operation, a reporting query, a DDL statement, a maintenance " +:+
    "operation, a replication/log-shipping process, or unknown if the evidence " +:+
    "doesn't clearly say. Quantify the impact: how many sessions are blocked, the " +:+
    "longest single wait, and whether the chain is static or spreading (more waiters " +:+
    "appearing behind the same head blocker). Then test — not just narrate — the " +:+
    "plausible hypotheses against the evidence actually gathered: a long-running " +:+
    "transaction holding locks past when they were needed, a missing index forcing " +:+
    "broader locking, lock escalation to a table-level lock, DDL contention (a " +:+
    "schema change blocking readers/writers), an isolation level stricter than " +:+
    "necessary, an application connection/transaction leak (a session left open " +:+
    "after its work finished), a large batch operation, or a broader infrastructure " +:+
    "slowdown making every query — including the blocker itself — run long. State " +:+
    "which hypothesis the evidence supports and which it rules out. Recommend " +:+
    "cancelling the blocking query or killing the session only if it's clearly safe " +:+
    "to do so — never propose it as the only option without saying what it would " +:+
    "affect.")
|}.

Definition playbook_slow_queries : Playbook := {|
  pb_playbook_id := "slow_queries";
  pb_name := "Slow Query Investigation";
  pb_description := "Queries or the database generally running slower than expected.";
  pb_triggers :=
    ["slow"; "slowness"; "slow query"; "slow queries"; "performance issue"; 
     "taking too long"; "timing out"; "timeout"; "high latency"; "latency"; 
     "queries are slow"; "query is slow"; "running slow"];
  pb_steps :=
    [mk_step "database.get_health" "Establishing a baseline health snapshot." [];
     mk_step "database.get_running_queries" "Checking what's executing right now." [];
     mk_step "database.get_top_queries" "Ranking queries by duration." [("order_by", JStr "duration")];
     mk_step "database.get_wait_statistics" "Checking what the engine is spending time waiting on." [];
     mk_step "database.get_blocking_sessions" "Ruling out blocking as the cause." []];
  pb_conclusion_guidance := ("Name the specific query/queries responsible if the evidence points to one, and " +:+
    "whether the cause looks like a missing index, stale statistics, blocking, or " +:+
    "resource pressure (CPU/waits) rather than the query itself. Avoid " +:+
    "introspection/system-catalog queries when picking 'the' slow query — THIS IS " +:+
    "VERY IMPORTANT: a top-ranked row against the engine's own catalog/metadata " +:+
    "views (Postgres: pg_catalog, information_schema; SQL Server: sys.*, " +:+
    "INFORMATION_SCHEMA; MySQL/MariaDB: information_schema, performance_schema, " +:+
    "mysql) is noise from monitoring/introspection, almost never the reported " +:+
    "slowness, and must not be named as the root cause.")
|}.

Definition playbook_high_cpu : Playbook := {|
  pb_playbook_id := "high_cpu";
  pb_name := "High CPU Investigation";
  pb_description := "Elevated or spiking CPU usage on the instance.";
  pb_triggers :=
    ["cpu"; "high cpu"; "cpu spike"; "cpu usage"; "cpu utilization"; 
     "processor usage"];
  pb_steps :=
    [mk_step "database.get_health" "Establishing a CPU/resource baseline." [];
     mk_step "database.get_top_queries" "Ranking queries by CPU consumption." [("order_by", JStr "cpu")];
     mk_step "database.get_running_queries" "Checking what's currently executing." [];
     mk_step "database.get_wait_statistics" "Checking for CPU-related (signal) waits." []];
  pb_conclusion_guidance := ("Name the query/queries driving CPU if the evidence points to one or a small " +:+
    "number, and whether this looks like a single runaway query, a plan regression, " +:+
    "or broad concurrent load. Avoid introspection/system-catalog queries when " +:+
    "picking 'the' hot query — THIS IS VERY IMPORTANT: a top-ranked row against the " +:+
    "engine's own catalog/metadata views (Postgres: pg_catalog, information_schema; " +:+
    "SQL Server: sys.*, INFORMATION_SCHEMA; MySQL/MariaDB: information_schema, " +:+
    "performance_schema, mysql) is noise from monitoring/introspection, almost never " +:+
    "the reported CPU driver, and must not be named as the root cause.")
|}.

Definition playbook_high_memory : Playbook := {|
  pb_playbook_id := "high_memory";
  pb_name := "High Memory Investigation";
  pb_description := "Memory pressure, high memory usage, or out-of-memory conditions.";
  pb_triggers :=
    ["memory"; "high memory"; "memory pressure"; "out of memory"; "oom"; 
     "memory usage"; "memory leak"; "running out of memory"];
  pb_steps :=
    [mk_step "database.get_health" "Establishing a memory baseline." [];
     mk_step "database.get_configuration" "Checking configured memory limits." [];
     mk_step "database.get_top_queries" "Ranking queries by reads (buffer/memory pressure proxy)." [("order_by", JStr "reads")];
     mk_step "database.get_running_queries" "Checking what's currently executing." []];
  pb_conclusion_guidance := ("State whether the configured memory limit looks undersized for the observed " +:+
    "load, or whether a small number of queries are driving the pressure. Before " +:+
    "recommending anything, work out where the pressure is actually coming from: the " +:+
    "database engine's own allocations (buffer pool/shared buffers/plan cache), a " +:+
    "specific query or small set of queries, or pressure outside the engine entirely " +:+
    "(the host, a container/VM memory limit, or another service sharing the box) — " +:+
    "note plainly that host/container-level memory isn't something this system can " +:+
    "directly measure, so treat that as a hypothesis to raise when the in-engine " +:+
    "evidence doesn't explain the pressure, not a measured finding. Validate — don't " +:+
    "just assume — each plausible hypothesis against the evidence gathered: an " +:+
    "oversized memory grant/setting relative to the actual workload, a poor query " +:+
    "plan requesting more memory than it needs (e.g. a bad cardinality estimate " +:+
    "driving a large sort/hash), excessive concurrent sessions each holding their " +:+
    "own allocation, a genuine leak (usage that only climbs, with no corresponding " +:+
    "drop), a configuration value left at an unreasonable default, host-level " +:+
    "overcommitment, or the instance being undersized for its actual load. Treat a " +:+
    "restart as a last resort that requires explicit DBA approval — never the first " +:+
    "recommendation, and never proposed unprompted before the above has actually " +:+
    "been checked; when it is worth mentioning, say plainly that it only clears " +:+
    "symptoms like a leak or plan-cache bloat and does not fix a genuine undersizing " +:+
    "or misconfiguration, which will recur.")
|}.

Definition playbook_connections : Playbook := {|
  pb_playbook_id := "connections";
  pb_name := "Connection Saturation Investigation";
  pb_description := "Connection limits, refused/failed connections, or too many open sessions.";
  pb_triggers :=
    ["connection"; "connections"; "too many connections"; "connection pool"; 
     "max connections"; "can't connect"; "cannot connect"; "connection refused"; 
     "connection limit"; "out of connections"];
  pb_steps :=
    [mk_step "database.get_sessions" "Listing current sessions." [];
     mk_step "database.get_health" "Establishing a baseline." [];
     mk_step "database.get_configuration" "Checking the configured max-connections limit." []];
  pb_conclusion_guidance := ("State the current session count against the configured limit, and whether one " +:+
    "application/account is holding a disproportionate number of connections. Lead " +:+
    "with that comparison: if current usage is well under the configured max " +:+
    "(comfortable headroom), say so plainly and stop there — do not manufacture a " +:+
    "false alarm or invent tuning advice from otherwise-healthy numbers just because " +:+
    "an investigation was run. Reserve genuine concern for when usage is " +:+
    "meaningfully close to the limit, or one application/account holds a " +:+
    "disproportionate share regardless of the overall total.")
|}.

Definition playbook_replication : Playbook := {|
  pb_playbook_id := "replication";
  pb_name := "Replication Investigation";
  pb_description := "Replication lag, Always On, or streaming replication issues.";
  pb_triggers :=
    ["replication"; "replica"; "replicas"; "replication lag"; "lagging"; "always on"; 
     "availability group"; "streaming replication"; "standby"];
  pb_steps :=
    [mk_step "database.get_replication_status" "Checking replication/Always On status and lag." [];
     mk_step "database.get_health" "Establishing a primary-side health baseline." [];
     mk_step "database.get_wait_statistics" "Checking for waits consistent with replication pressure." []];
  pb_conclusion_guidance := ("State the current lag (or sync state) per replica and whether it's within the " +:+
    "expected range for this environment — but go beyond the raw number: assess " +:+
    "stale-read risk for anything reading from that replica, RPO/RTO exposure if the " +:+
    "primary failed over right now, whether the lag is itself creating primary-side " +:+
    "risk (a lagging or disconnected replica can hold WAL/log open, which shows up " +:+
    "as unexpected storage growth on the primary — worth a separate storage check if " +:+
    "that's suspected), whether the lag/queue is growing or holding steady, and " +:+
    "which applications or read paths are actually affected. Validate the likely " +:+
    "cause against the evidence rather than only reporting the lag figure: network " +:+
    "latency between primary and replica, storage or CPU pressure on the replica " +:+
    "itself, an unusually large write volume on the primary outpacing apply " +:+
    "capacity, a long-running transaction on the replica blocking apply, a " +:+
    "disconnected or dropped replica, replication-slot retention holding WAL/log no " +:+
    "longer being consumed, an apply/redo worker that has stalled or errored, or the " +:+
    "replica being undersized for the write rate it needs to keep up with.")
|}.

Definition playbook_backups : Playbook := {|
  pb_playbook_id := "backups";
  pb_name := "Backup Health Investigation";
  pb_description := "Missed, failed, or overdue backups.";
  pb_triggers :=
    ["backup"; "backups"; "backup failed"; "backup job"; "last backup"; 
     "backup status"];
  pb_steps :=
    [mk_step "database.get_backup_status" "Checking recent backup history and status." [];
     mk_step "database.get_storage" "Checking available storage for the next backup." []];
  pb_conclusion_guidance := ("State the time and status of the most recent full/log backup and whether it's " +:+
    "within the expected recovery-point objective for this environment — and do the " +:+
    "actual arithmetic: explicitly calculate and state the recovery-point gap (time " +:+
    "elapsed since the last successful full backup, and separately since the last " +:+
    "successful log/differential backup) against the environment's expected RPO, " +:+
    "rather than only reporting whether the most recent job 'succeeded' or 'failed'. " +:+
    "If the backup history data returned includes any signal about restore-test " +:+
    "history (e.g. a last restore-test timestamp or status), report it; if no such " +:+
    "signal is present, say plainly that restore-test history isn't available from " +:+
    "this data rather than guessing or omitting it silently. Classify the overall " +:+
    "finding with an explicit severity instead of a flat pass/fail: informational " +:+
    "(healthy, comfortably within RPO), warning (approaching the RPO boundary, or a " +:+
    "single non-critical job failed), high (the RPO is already exceeded, or the " +:+
    "full-backup chain is broken), or critical (no successful backup within a large " +:+
    "multiple of the RPO, or backups have been failing repeatedly with no current " +:+
    "recovery point achievable). State which severity applies and why.")
|}.

Definition playbook_storage : Playbook := {|
  pb_playbook_id := "storage";
  pb_name := "Storage Capacity Investigation";
  pb_description := "Disk space or overall storage capacity risk (not specifically the transaction log).";
  pb_triggers :=
    ["disk space"; "disk full"; "running out of space"; "out of disk"; "out of space"; 
     "storage"];
  pb_steps :=
    [mk_step "database.get_storage" "Checking overall storage/space utilization." [];
     mk_step "database.get_health" "Establishing a baseline." []];
  pb_conclusion_guidance := ("State current usage vs. capacity, and — if the evidence points to one — what's " +:+
    "actually driving growth: unexpected data growth, transaction log retention, a " +:+
    "failed/paused backup chain, table/index bloat, an archive/purge job that " +:+
    "stopped running, auto-growth events, replication backlog holding old WAL/log " +:+
    "segments, or storage throttling. If the transaction log specifically looks like " +:+
    "the driver, say so explicitly and note that the transaction_log playbook " +:+
    "(triggered by phrasing like 'transaction log full' or 'log won't truncate') " +:+
    "investigates log reuse blockers in depth.")
|}.

Definition playbook_transaction_log : Playbook := {|
  pb_playbook_id := "transaction_log";
  pb_name := "Transaction Log Investigation";
  pb_description := "The transaction log (or WAL) growing, filling up, or failing to reuse space.";
  pb_triggers :=
    ["transaction log full"; "transaction log growth"; "log growing"; "log full"; 
     "log is full"; "wal growing"; "log can't reuse"; "log cannot reuse"; 
     "log won't truncate"; "log will not truncate"; "log reuse"; "transaction log"];
  pb_steps :=
    [mk_step "database.get_transaction_log" "Checking transaction log / WAL usage." [];
     mk_step "database.get_replication_status" "Checking for a lagging replica holding the log/WAL open." [];
     mk_step "database.get_backup_status" "Checking for a stalled or failed log backup blocking log reuse." [];
     mk_step "database.get_health" "Establishing a baseline." []];
  pb_conclusion_guidance := ("Identify which concrete reuse blocker is actually responsible, not just current " +:+
    "log usage: an active or long-running transaction, replication lag (a lagging " +:+
    "replica holding the log open), a failed or stalled log backup (the single most " +:+
    "common reuse blocker on SQL Server, and often tied to WAL retention/archiving " +:+
    "on Postgres), log shipping/mirroring/snapshots holding old log records, or a " +:+
    "maintenance operation blocking log reuse. Name the specific blocker the " +:+
    "evidence supports rather than describing usage alone.")
|}.

Definition playbook_errors : Playbook := {|
  pb_playbook_id := "errors";
  pb_name := "Error Log Investigation";
  pb_description := "Errors, exceptions, or failures reported in the error log.";
  pb_triggers :=
    ["error log"; "error logs"; "errors in the log"; "exceptions"; "failing queries"; 
     "crashing"; "keeps crashing"; "seeing errors"];
  pb_steps :=
    [mk_step "database.get_error_logs" "Pulling recent error log entries." [];
     mk_step "database.get_health" "Establishing a baseline." [];
     mk_step "database.get_blocking_sessions" ("Checking for current blocking to correlate against any lock-timeout or " +:+
      "blocking-related error entries.") [];
     mk_step "database.get_deadlocks" ("Checking for recent deadlock graphs to correlate against any deadlock-related " +:+
      "error entries.") [];
     mk_step "database.get_running_queries" "Checking what's currently executing." []];
  pb_conclusion_guidance := ("Summarize the distinct error(s) found (not just a raw dump), how " +:+
    "recent/frequent each is, and which looks most likely to be the reported " +:+
    "problem. Classify each distinct finding into a category rather than a raw list " +:+
    "of log lines — pick whichever of these actually fits: availability, " +:+
    "authentication, authorization, storage, memory, CPU, network, corruption, " +:+
    "backup, replication, locking, configuration, security, or application " +:+
    "integration. Correlate against the other signals gathered in this same " +:+
    "investigation when relevant, rather than treating log entries in isolation: a " +:+
    "lock-timeout or deadlock-related error should be cross-checked against the " +:+
    "blocking-chain and deadlock-graph evidence gathered above to say whether it's " +:+
    "still happening or was transient, and note when a logged error's underlying " +:+
    "condition no longer appears in the other evidence gathered (it looks resolved) " +:+
    "versus still being present now (still ongoing).")
|}.

Definition playbook_comprehensive_summary : Playbook := {|
  pb_playbook_id := "comprehensive_summary";
  pb_name := "Comprehensive Health Summary";
  pb_description := ("A DBA-requested comprehensive sweep across this project's read-only diagnostics " +:+
    "for ONE server in one shot — not tied to a specific symptom, and deliberately " +:+
    "broader/heavier than general_health's quick 4-step pulse check. Scoped " +:+
    "honestly, two ways: (1) this reports the server's CURRENT state only — there is " +:+
    "no historical data store anywhere in this system, so it cannot do trend/delta " +:+
    "comparison against yesterday or any prior run — and it covers exactly one " +:+
    "server per invocation, never a fleet. Sweeping multiple servers on a schedule " +:+
    "is separate orchestration that calls this playbook once per server; it now " +:+
    "exists (`agent.scheduled_report`, via " +:+
    "`orchestrator.run_comprehensive_summary`), but it is still not something this " +:+
    "playbook does itself, and nothing about this playbook changes when it is " +:+
    "invoked that way except that the investigation is marked read-only. (2) Every " +:+
    "investigation in this project — playbook or freeform — shares one turn budget, " +:+
    "`orchestrator._MAX_INVESTIGATION_TURNS` (6 as of this writing), and every " +:+
    "playbook in this library is required to leave at least one turn free for the " +:+
    "model's own unrestricted concluding call (see " +:+
    "`test_deepened_playbooks_stay_within_the_shared_turn_budget`), so a single " +:+
    "invocation can run at most 5 deterministic diagnostic calls before that final " +:+
    "call. Rather than declare 12 steps — one per instance-wide read tool — and have " +:+
    "most of them silently never run (verified live — the turn budget simply stops " +:+
    "submitting further steps once spent, with no warning), this playbook's 5 steps " +:+
    "were chosen to span the widest practical breadth — availability, resource " +:+
    "pressure, workload/blocking, protection/backups, storage capacity, and logs — " +:+
    "within that shared budget. Configuration is deliberately left out of this " +:+
    "particular sweep: it already has its own dedicated `configuration_review` " +:+
    "playbook, and cutting it here (rather than blocking, backups, storage, or logs) " +:+
    "keeps the daily-pulse categories that change moment to moment. Raising the " +:+
    "shared cap (or giving this one playbook a larger budget of its own) is an " +:+
    "orchestrator.py change and explicitly out of scope here.");
  pb_triggers :=
    ["daily summary"; "comprehensive health check"; "full health report"; 
     "complete status"; "everything about this server"; "full report"; "daily report"; 
     "comprehensive check"; "complete health check"; "full diagnostic"];
  pb_steps :=
    [mk_step "database.get_health" "Establishing the overall instance/database health baseline." [];
     mk_step "database.get_blocking_sessions" "Checking for any active blocking chains." [];
     mk_step "database.get_backup_status" "Checking recent backup history and status." [];
     mk_step "database.get_storage" "Checking storage/space utilization." [];
     mk_step "database.get_error_logs" "Pulling recent error log entries." []];
  pb_conclusion_guidance := ("This is the broadest playbook in the library — the concluding report must " +:+
    "synthesize, not restate. Organize findings into the categories a DBA actually " +:+
    "triages by, mirroring the General Health Check structure used elsewhere in this " +:+
    "project: availability (is it up, overall health snapshot), resource pressure " +:+
    "(from get_health's own numbers), workload/blocking (active blocking chains), " +:+
    "protection/backups (backup status, storage headroom), and logs (recent error " +:+
    "log entries). Only speak to a category you actually have evidence for — this " +:+
    "playbook's fixed steps do not include a replication/HA or configuration check, " +:+
    "so never state or imply replication is 'fine' or that configuration looks " +:+
    "reasonable; simply omit those categories rather than guessing (point the DBA at " +:+
    "the dedicated `replication` or `configuration_review` playbook if either looks " +:+
    "worth a closer look). THIS IS THE IMPORTANT PART: for each category you do have " +:+
    "evidence for, report ONLY what deviates from normal or needs attention — do not " +:+
    "restate a clean result at all, for any category. Close with an explicit " +:+
    "sentence to the effect of 'all other checks came back clean' (naming which " +:+
    "categories, if it reads better) covering everything unremarkable, instead of " +:+
    "walking through every check one by one. A DBA asking for a comprehensive " +:+
    "summary wants a short, scannable list of what matters, not a wall of 'X is " +:+
    "fine, Y is fine, Z is fine' for a half-dozen checks. Also state plainly, once, " +:+
    "that this reflects only the current moment on this one server — no trend/delta " +:+
    "comparison against a prior day is available (no historical data store exists in " +:+
    "this system), and this is not a multi-server sweep.")
|}.

Definition playbook_general_health : Playbook := {|
  pb_playbook_id := "general_health";
  pb_name := "General Health Check";
  pb_description := "A general request to check overall health/status, not a specific symptom.";
  pb_triggers :=
    ["health check"; "how is"; "how's"; "overall status"; "general status"; 
     "status check"; "how is it doing"; "how's it doing"; "everything okay"; 
     "everything ok"];
  pb_steps :=
    [mk_step "database.get_health" "Checking overall instance/database health." [];
     mk_step "database.get_running_queries" "Checking current activity." [];
     mk_step "database.get_wait_statistics" "Checking dominant wait types." [];
     mk_step "database.get_storage" "Checking storage headroom." []];
  pb_conclusion_guidance := ("Give a concise overall status and call out anything that stood out, even if " +:+
    "nothing looks urgent. Classify the overall finding with one explicit status " +:+
    "word — healthy, informational, warning, high, critical, or unknown (use unknown " +:+
    "only when the diagnostics themselves failed or returned unusable data, never as " +:+
    "a hedge when they succeeded) — rather than a loose narrative. Crucially: an " +:+
    "all-clear answer must look just as complete and confident as a problem answer, " +:+
    "never vaguer or shorter just because nothing was wrong — a DBA reading the " +:+
    "reply should not be able to tell, from how thin it is, whether things were " +:+
    "actually checked and found fine versus not checked carefully. State plainly " +:+
    "what was checked (current activity, dominant wait types, storage headroom) and " +:+
    "that nothing concerning was found there, rather than a one-line 'looks fine'.")
|}.

Definition playbook_configuration_review : Playbook := {|
  pb_playbook_id := "configuration_review";
  pb_name := "Configuration Tuning Review";
  pb_description := ("A proactive review of server/database configuration for common, rule-of-thumb " +:+
    "misconfigurations — not a request tied to a specific symptom. Scoped honestly: " +:+
    "this flags settings that look clearly unreasonable by common rule-of-thumb " +:+
    "ranges and obvious misconfigurations, not true capacity-based sizing (Numi's " +:+
    "server registry has no instance-class/hardware-sizing data to size against).");
  pb_triggers :=
    ["tune"; "tuning"; "configuration review"; "review settings"; 
     "optimize configuration"; "recommend settings"; "config recommendations"; 
     "are our settings okay"];
  pb_steps :=
    [mk_step "database.get_configuration" "Pulling current server/database configuration parameters." [];
     mk_step "database.get_health" ("Establishing a baseline (connection count, size, uptime) to contextualize the " +:+
      "settings.") []];
  pb_conclusion_guidance := ("This is a rule-of-thumb review, not a capacity-sized recommendation — be " +:+
    "explicit that no instance-class/hardware (CPU/RAM) data was available to size " +:+
    "against, so never claim a setting is 'correctly sized for this hardware'; only " +:+
    "flag values that look clearly unreasonable or left at an obvious default. Weigh " +:+
    "the parameters relevant to whichever engine actually responded: Postgres — " +:+
    "shared_buffers, effective_cache_size, work_mem, maintenance_work_mem, " +:+
    "wal_buffers, checkpoint_completion_target, max_connections, " +:+
    "default_statistics_target, random_page_cost, effective_io_concurrency, " +:+
    "min_wal_size/max_wal_size, max_worker_processes, " +:+
    "max_parallel_workers(_per_gather). SQL Server — 'max server memory (MB)'/'min " +:+
    "server memory (MB)', 'max degree of parallelism', 'cost threshold for " +:+
    "parallelism', and the max-connections-equivalent ('user connections'). " +:+
    "MySQL/MariaDB — innodb_buffer_pool_size, innodb_log_file_size, max_connections, " +:+
    "tmp_table_size/max_heap_table_size, innodb_flush_log_at_trx_commit, " +:+
    "thread_cache_size. Cross-check against get_health's own numbers (e.g. " +:+
    "active_connections vs. max_connections) where relevant, and say plainly when " +:+
    "nothing looks obviously misconfigured rather than manufacturing tuning advice " +:+
    "from reasonable-looking defaults.")
|}.

Definition PLAYBOOKS : list Playbook :=
  [playbook_deadlocks;
   playbook_blocking;
   playbook_slow_queries;
   playbook_high_cpu;
   playbook_high_memory;
   playbook_connections;
   playbook_replication;
   playbook_backups;
   playbook_storage;
   playbook_transaction_log;
   playbook_errors;
   playbook_comprehensive_summary;
   playbook_general_health;
   playbook_configuration_review].

(** [get_playbook]; [_BY_ID] *)
Definition get_playbook (playbook_id : option string) : option Playbook :=
  match playbook_id with
  | None => None
  | Some id => first_where (λ p, bool_decide (pb_playbook_id p = id)) PLAYBOOKS
  end.

(** [_matches]: the trigger, escaped, between word boundaries *)
Definition matches (text trigger : string) : bool := rsearch_with id (whole_word trigger) text.

(** [match_playbook] *)
Definition match_playbook (problem_text : string) : option Playbook :=
  let text := str_lower problem_text in
  if negb (truthy (str_strip text)) then None
  else first_where (λ p, existsb (matches text) (pb_triggers p)) PLAYBOOKS.

(* ------------------------------------------------------------------ *)
(** ** The library against the tool catalog *)

(** the validated arguments: each one the step gives is kept as it is, and every other one is
    a default of the argument model *)
Definition kept_or_default (fields : list ArgField) (given args : list (string * json)) : bool :=
  forallb (λ f, bool_decide (dict_get (af_name f) args =
    match dict_get (af_name f) given with Some v => Some v | None => af_default f end)) fields
  && bool_decide (args.*1 = map af_name fields).

(** the tool of a step is an enabled read for every role, and its fixed arguments
    are valid for it *)
Definition step_valid `{PydanticLax} (settings : ToolFlags) (st : PlaybookStep) : bool :=
  match registry_get (registry_tools settings) (ps_tool_id st) None,
        dict_get (ps_tool_id st) ARGUMENT_MODELS with
  | Ok tool, Some fields =>
      bool_decide (td_operation_type tool = READ) && negb (td_requires_approval tool)
      && bool_decide (td_allowed_roles tool = ALL_ROLES)
      && match model_validate fields (ps_arguments st) with
         | Some args => kept_or_default fields (ps_arguments st) args
         | None => false
         end
  | _, _ => false
  end.

Lemma all_steps_valid `{PydanticLax} settings :
  forallb (λ p, forallb (step_valid settings) (pb_steps p)) PLAYBOOKS = true.
Proof. destruct settings. vm_compute. reflexivity. Qed.

(** Every step of the playbook of a problem is a call the Gateway accepts as a read: the
    registry has its tool under any settings, the tool is a READ that needs no approval and is
    allowed to every role, and its argument model keeps the arguments of the step and fills in
    defaults for the others. *)
Theorem playbook_steps_are_valid_reads `{PydanticLax} settings problem p st :
  match_playbook problem = Some p → st ∈ pb_steps p →
  ∃ tool fields args,
    registry_get (registry_tools settings) (ps_tool_id st) None = Ok tool ∧
    td_operation_type tool = READ ∧ td_requires_approval tool = false ∧
    td_allowed_roles tool = ALL_ROLES ∧
    dict_get (ps_tool_id st) ARGUMENT_MODELS = Some fields ∧
    model_validate fields (ps_arguments st) = Some args ∧ args.*1 = map af_name fields ∧
    ∀ f, f ∈ fields → dict_get (af_name f) args =
      match dict_get (af_name f) (ps_arguments st) with Some v => Some v | None => af_default f end.
Proof.
  unfold match_playbook. case_match; [done|]. intros [Hp _]%first_where_some Hst.
  pose proof (all_steps_valid settings) as Hall.
  rewrite forallb_forall in Hall. apply list_elem_of_In in Hp. specialize (Hall _ Hp). cbn in Hall.
  rewrite forallb_forall in Hall. apply list_elem_of_In in Hst. specialize (Hall _ Hst).
  unfold step_valid in Hall. destruct (registry_get _ _ _) as [tool|]; [|done].
  destruct (dict_get (ps_tool_id st) ARGUMENT_MODELS) as [fields|]; [|done].
  destruct (model_validate fields (ps_arguments st)) as [args|] eqn:Ev; [|by rewrite andb_false_r in Hall].
  unfold kept_or_default in Hall. rewrite !andb_true_iff !bool_decide_eq_true negb_true_iff forallb_forall in Hall.
  destruct Hall as (((Hr & Ha) & Hl) & Hk & Hn). exists tool, fields, args. split_and!; [done..|].
  intros f Hf%list_elem_of_In. by specialize (Hk f Hf) as ?%bool_decide_eq_true.
Qed.

Example slow_query_arguments :
  match_playbook "queries are slow" = Some playbook_slow_queries ∧
  @model_validate strict_lax TopQueriesArgs [("order_by", JStr "duration")]
  = Some [("order_by", JStr "duration"); ("limit", JInt 10)].
Proof. split; vm_compute; reflexivity. Qed.

(** every playbook leaves a turn of the six for the concluding call *)
Lemma playbook_lengths p : p ∈ PLAYBOOKS → (1 ≤ length (pb_steps p) ≤ 5)%nat.
Proof.
  intros Hp. assert (forallb (λ p, (1 <=? length (pb_steps p)) && (length (pb_steps p) <=? 5))%nat
    PLAYBOOKS = true) as Hall by (vm_compute; reflexivity).
  rewrite forallb_forall in Hall. apply list_elem_of_In in Hp. specialize (Hall _ Hp). cbn in Hall.
  destruct (pb_steps p) as [|? [|? [|? [|? [|? [|]]]]]]; try done; cbn; lia.
Qed.

Lemma playbook_ids_nodup : NoDup (map pb_playbook_id PLAYBOOKS).
Proof. apply (bool_decide_unpack _). vm_compute. exact I. Qed.

Lemma get_playbook_spec id p : get_playbook (Some id) = Some p ↔ p ∈ PLAYBOOKS ∧ pb_playbook_id p = id.
Proof.
  unfold get_playbook. split.
  - intros [Hin Hid%bool_decide_eq_true]%first_where_some. done.
  - intros [Hin <-]. pose proof playbook_ids_nodup as Hnd. revert Hin Hnd. generalize PLAYBOOKS.
    intros l. induction l as [|q l IH]; [by intros ?%elem_of_nil|].
    intros Hin [Hq Hnd]%NoDup_cons. unfold first_where in *. cbn.
    case_bool_decide as E.
    + apply elem_of_cons in Hin as [->|Hin]; [done|]. destruct Hq. rewrite E.
      apply list_elem_of_fmap. by exists p.
    + apply elem_of_cons in Hin as [->|Hin]; [done|]. by apply IH.
Qed.

(* ------------------------------------------------------------------ *)
(** ** Matching *)

(** [trigger] stands in [text] with no word character touching its ends, where
    it begins and ends with one *)
Definition occurs (text trigger : string) : Prop :=
  ∃ a b, text = a +:+ trigger +:+ b ∧ boundary (last_char None a) (trigger +:+ b) = true ∧
    boundary (last_char None (a +:+ trigger)) b = true.

Lemma str_map_id s : str_map id s = s.
Proof. induction s as [|c s IH]; [done|]. by rewrite /= IH. Qed.

Lemma matches_spec text trigger : matches text trigger = true ↔ occurs text trigger.
Proof.
  unfold matches, occurs. rewrite whole_word_spec. split.
  - intros (a & v & b & -> & Hv & H1 & H2). rewrite !str_map_id in Hv. subst v. eauto.
  - intros (a & b & -> & H1 & H2). exists a, trigger, b. by rewrite !str_map_id.
Qed.

Lemma first_where_split {A} (p : A → bool) l x :
  first_where p l = Some x →
  ∃ before after, l = before ++ x :: after ∧ p x = true ∧ Forall (λ y, p y = false) before.
Proof.
  unfold first_where. induction l as [|y l IH]; cbn; [done|]. destruct (p y) eqn:E.
  - intros [= ->]. by exists [], l.
  - intros (b & a & -> & Hx & Hb)%IH. exists (y :: b), a. split_and!; [done..|by constructor].
Qed.

Lemma existsb_false_forall {A} (f : A → bool) l :
  existsb f l = false ↔ ∀ x, x ∈ l → f x = false.
Proof.
  split.
  - intros Hf x Hx. destruct (f x) eqn:E; [|done]. apply not_true_iff_false in Hf.
    destruct Hf. apply existsb_exists. exists x. by rewrite -list_elem_of_In.
  - intros Hl. apply not_true_iff_false. intros (x & Hx & Hf)%existsb_exists.
    apply list_elem_of_In in Hx. rewrite (Hl x Hx) in Hf. done.
Qed.

(** a blank text holds no trigger *)
Lemma strip_blank s : str_strip s = "" → str_all is_ws s = true.
Proof.
  assert (∀ r, str_rstrip r = "" → str_all is_ws r = true) as Hr.
  { intros r. induction r as [|c s' IH]; cbn; [done|].
    destruct (is_ws c) eqn:Ec; cbn; [|done]. case_bool_decide as E; [by intros _; apply IH|done]. }
  unfold str_strip. induction s as [|c s' IH]; cbn; [done|].
  destruct (is_ws c) eqn:Ec; cbn; [exact IH|]. by rewrite Ec.
Qed.

Lemma triggers_not_blank q t : q ∈ PLAYBOOKS → t ∈ pb_triggers q → str_all is_ws t = false.
Proof.
  intros Hq Ht. assert (forallb (λ p, forallb (λ t, negb (str_all is_ws t)) (pb_triggers p))
    PLAYBOOKS = true) as Hall by (vm_compute; reflexivity).
  rewrite forallb_forall in Hall. apply list_elem_of_In in Hq. specialize (Hall _ Hq). cbn in Hall.
  rewrite forallb_forall in Hall. apply list_elem_of_In in Ht. specialize (Hall _ Ht).
  by apply negb_true_iff in Hall.
Qed.

Lemma blank_no_trigger text q t : str_strip text = "" → q ∈ PLAYBOOKS → t ∈ pb_triggers q →
  ¬ occurs text t.
Proof.
  intros Hb%strip_blank Hq Ht (a & b & -> & _). rewrite !str_all_app !andb_true_iff in Hb.
  destruct Hb as (_ & Hb & _). by rewrite (triggers_not_blank q t Hq Ht) in Hb.
Qed.

Lemma playbook_id_inj p q : p ∈ PLAYBOOKS → q ∈ PLAYBOOKS →
  pb_playbook_id p = pb_playbook_id q → p = q.
Proof.
  intros Hp Hq Heq. pose proof (proj2 (get_playbook_spec _ p) (conj Hp eq_refl)) as H1.
  rewrite Heq (proj2 (get_playbook_spec _ q) (conj Hq eq_refl)) in H1. congruence.
Qed.

Lemma match_playbook_in t p : match_playbook t = Some p → p ∈ PLAYBOOKS.
Proof. unfold match_playbook. case_match; [done|]. by intros [? _]%first_where_some. Qed.

Lemma triggers_select q t : q ∈ PLAYBOOKS → t ∈ pb_triggers q → match_playbook t = Some q.
Proof.
  intros Hq Ht. assert (forallb (λ p, forallb (λ t, bool_decide
    (pb_playbook_id <$> match_playbook t = Some (pb_playbook_id p))) (pb_triggers p)) PLAYBOOKS = true)
    as Hall by (vm_compute; reflexivity).
  rewrite forallb_forall in Hall. pose proof Hq as Hq'. apply list_elem_of_In in Hq'.
  specialize (Hall _ Hq'). cbn in Hall.
  rewrite forallb_forall in Hall. apply list_elem_of_In in Ht. specialize (Hall _ Ht).
  apply bool_decide_eq_true, fmap_Some in Hall as (p & Hm & Hid). rewrite Hm. f_equal.
  apply playbook_id_inj; [by eapply match_playbook_in|done..].
Qed.

(** The playbook chosen for a problem is the first one of the library that has
    a trigger standing in the lower-cased text as whole words; there is none
    exactly when no trigger of any playbook does; and every trigger, as a problem
    of its own, selects the playbook that declares it. *)
Theorem match_playbook_spec problem :
  match match_playbook problem with
  | Some p => ∃ before after trigger,
      PLAYBOOKS = before ++ p :: after ∧ trigger ∈ pb_triggers p ∧
      occurs (str_lower problem) trigger ∧
      ∀ q t, q ∈ before → t ∈ pb_triggers q → ¬ occurs (str_lower problem) t
  | None => ∀ q t, q ∈ PLAYBOOKS → t ∈ pb_triggers q → ¬ occurs (str_lower problem) t
  end ∧
  ∀ q t, q ∈ PLAYBOOKS → t ∈ pb_triggers q → match_playbook t = Some q.
Proof.
  split.
  - unfold match_playbook.
    destruct (truthy (str_strip (str_lower problem))) eqn:Et; cbn [negb].
    + destruct (first_where _ _) as [p|] eqn:Ef.
      * apply first_where_split in Ef as (before & after & Heq & Hp & Hb).
        apply existsb_exists in Hp as (t & Ht & Hm). exists before, after, t.
        rewrite -matches_spec list_elem_of_In. split_and!; [done..|].
        intros q t' Hq Ht'. rewrite Forall_forall in Hb. specialize (Hb q Hq). cbn in Hb.
        rewrite existsb_false_forall in Hb. rewrite -matches_spec. by rewrite (Hb t' Ht').
      * intros q t Hq Ht. pose proof (first_where_none _ _ _ Ef Hq) as Hb. cbn in Hb.
        rewrite existsb_false_forall in Hb. rewrite -matches_spec. by rewrite (Hb t Ht).
    + intros q t. apply blank_no_trigger. by apply negb_false_iff, bool_decide_eq_true in Et.
  - apply triggers_select.
Qed.
