(* ===== verification/Config.v ===== *)
(** The settings: [common/config.py].  Reading them from the environment is not
    modelled; the bounds of the fields are [settings_valid]. *)
From S2P Require Import Prelude ProgramLogic Json Text Models.

Record Settings : Type := {
  st_numi_env : string;
  st_log_level : string;
  st_control_db_url : string;
  st_redis_url : string;
  st_rate_limit_backend : string;
  st_secrets_provider : string;
  st_vault_addr : string;
  st_vault_token : string;
  st_aws_region : string;
  st_azure_key_vault_url : string;
  st_gcp_project_id : string;
  st_identity_provider : string;
  st_oidc_issuer : string;
  st_oidc_client_id : string;
  st_oidc_client_secret : string;
  st_policy_config_path : string;
  st_servers_config_path : string;
  st_identity_config_path : string;
  st_rate_limit_config_path : string;
  st_discovery_refresh_minutes : Z;
  st_discovery_max_objects_per_database : Z;
  st_investigation_memory_lookback : Z;
  st_self_critique_enabled : bool;
  st_decision_event_logging_enabled : bool;
  st_cross_server_correlation_enabled : bool;
  st_cross_server_correlation_lookback_days : Z;
  st_discovery_on_startup : bool;
  st_anthropic_api_key : string;
  st_openai_api_key : string;
  st_gemini_api_key : string;
  st_deepseek_api_key : string;
  st_llm_provider : string;
  st_llm_model : string;
  st_allow_user_model_selection : bool;
  st_llm_fast_model : string;
  st_llm_strong_model : string;
  st_service_jwt_secret : string;
  st_service_jwt_issuer : string;
  st_gateway_base_url : string;
  st_gateway_port : Z;
  st_execution_base_url : string;
  st_execution_port : Z;
  st_execution_service_token_audience : string;
  st_agent_base_url : string;
  st_agent_port : Z;
  st_channels_base_url : string;
  st_channels_port : Z;
  st_slack_signing_secret : string;
  st_slack_bot_token : string;
  st_teams_app_id : string;
  st_teams_app_password : string;
  st_daily_report_slack_channel : string;
  st_daily_report_hour_utc : Z;
  st_daily_report_servers : string;
  st_daily_report_identity_channel : string;
  st_daily_report_identity_account : string;
  st_alert_webhook_secret : string;
  st_alert_webhook_slack_channel : string;
  st_alert_webhook_identity_channel : string;
  st_alert_webhook_identity_account : string;
  st_alert_webhook_cooldown_seconds : Z;
  st_enable_readonly_sql_tool : bool;
  st_enable_execute_sql_tool : bool;
  st_enable_restore_database_tool : bool;
  st_enable_create_database_tool : bool;
  st_enable_drop_database_tool : bool;
  st_enable_truncate_table_tool : bool;
  st_enable_bulk_delete_tool : bool
}.

#[export] Instance Settings_rebuild : Rebuild Settings := λ s, {|   st_numi_env := st_numi_env
  s; st_log_level := st_log_level s; st_control_db_url := st_control_db_url s; st_redis_url :=
  st_redis_url s; st_rate_limit_backend := st_rate_limit_backend s; st_secrets_provider :=
  st_secrets_provider s; st_vault_addr := st_vault_addr s; st_vault_token := st_vault_token s;
  st_aws_region := st_aws_region s; st_azure_key_vault_url := st_azure_key_vault_url s;
  st_gcp_project_id := st_gcp_project_id s; st_identity_provider := st_identity_provider s;
  st_oidc_issuer := st_oidc_issuer s; st_oidc_client_id := st_oidc_client_id s;
  st_oidc_client_secret := st_oidc_client_secret s; st_policy_config_path :=
  st_policy_config_path s; st_servers_config_path := st_servers_config_path s;
  st_identity_config_path := st_identity_config_path s; st_rate_limit_config_path :=
  st_rate_limit_config_path s; st_discovery_refresh_minutes := st_discovery_refresh_minutes s;
  st_discovery_max_objects_per_database := st_discovery_max_objects_per_database s;
  st_investigation_memory_lookback := st_investigation_memory_lookback s;
  st_self_critique_enabled := st_self_critique_enabled s; st_decision_event_logging_enabled :=
  st_decision_event_logging_enabled s; st_cross_server_correlation_enabled :=
  st_cross_server_correlation_enabled s; st_cross_server_correlation_lookback_days :=
  st_cross_server_correlation_lookback_days s; st_discovery_on_startup :=
  st_discovery_on_startup s; st_anthropic_api_key := st_anthropic_api_key s; st_openai_api_key
  := st_openai_api_key s; st_gemini_api_key := st_gemini_api_key s; st_deepseek_api_key :=
  st_deepseek_api_key s; st_llm_provider := st_llm_provider s; st_llm_model := st_llm_model s;
  st_allow_user_model_selection := st_allow_user_model_selection s; st_llm_fast_model :=
  st_llm_fast_model s; st_llm_strong_model := st_llm_strong_model s; st_service_jwt_secret :=
  st_service_jwt_secret s; st_service_jwt_issuer := st_service_jwt_issuer s; st_gateway_base_url
  := st_gateway_base_url s; st_gateway_port := st_gateway_port s; st_execution_base_url :=
  st_execution_base_url s; st_execution_port := st_execution_port s;
  st_execution_service_token_audience := st_execution_service_token_audience s;
  st_agent_base_url := st_agent_base_url s; st_agent_port := st_agent_port s;
  st_channels_base_url := st_channels_base_url s; st_channels_port := st_channels_port s;
  st_slack_signing_secret := st_slack_signing_secret s; st_slack_bot_token := st_slack_bot_token
  s; st_teams_app_id := st_teams_app_id s; st_teams_app_password := st_teams_app_password s;
  st_daily_report_slack_channel := st_daily_report_slack_channel s; st_daily_report_hour_utc :=
  st_daily_report_hour_utc s; st_daily_report_servers := st_daily_report_servers s;
  st_daily_report_identity_channel := st_daily_report_identity_channel s;
  st_daily_report_identity_account := st_daily_report_identity_account s;
  st_alert_webhook_secret := st_alert_webhook_secret s; st_alert_webhook_slack_channel :=
  st_alert_webhook_slack_channel s; st_alert_webhook_identity_channel :=
  st_alert_webhook_identity_channel s; st_alert_webhook_identity_account :=
  st_alert_webhook_identity_account s; st_alert_webhook_cooldown_seconds :=
  st_alert_webhook_cooldown_seconds s; st_enable_readonly_sql_tool :=
  st_enable_readonly_sql_tool s; st_enable_execute_sql_tool := st_enable_execute_sql_tool s;
  st_enable_restore_database_tool := st_enable_restore_database_tool s;
  st_enable_create_database_tool := st_enable_create_database_tool s;
  st_enable_drop_database_tool := st_enable_drop_database_tool s; st_enable_truncate_table_tool
  := st_enable_truncate_table_tool s; st_enable_bulk_delete_tool := st_enable_bulk_delete_tool s
  |}.

(** the defaults of the fields *)
Definition default_settings : Settings := {| st_numi_env := "development"; st_log_level :=
  "INFO"; st_control_db_url := "sqlite+aiosqlite:///./numi_dev.db"; st_redis_url :=
  "redis://localhost:6379/0"; st_rate_limit_backend := "memory"; st_secrets_provider :=
  "local_dev"; st_vault_addr := ""; st_vault_token := ""; st_aws_region := "";
  st_azure_key_vault_url := ""; st_gcp_project_id := ""; st_identity_provider := "mock";
  st_oidc_issuer := ""; st_oidc_client_id := ""; st_oidc_client_secret := "";
  st_policy_config_path := "./config/policy.yaml"; st_servers_config_path :=
  "./config/servers.yaml"; st_identity_config_path := "./config/identity.yaml";
  st_rate_limit_config_path := "./config/rate_limits.yaml"; st_discovery_refresh_minutes :=
  60%Z; st_discovery_max_objects_per_database := 5000%Z; st_investigation_memory_lookback :=
  3%Z; st_self_critique_enabled := true; st_decision_event_logging_enabled := true;
  st_cross_server_correlation_enabled := true; st_cross_server_correlation_lookback_days :=
  30%Z; st_discovery_on_startup := false; st_anthropic_api_key := ""; st_openai_api_key := "";
  st_gemini_api_key := ""; st_deepseek_api_key := ""; st_llm_provider := ""; st_llm_model := "";
  st_allow_user_model_selection := true; st_llm_fast_model := ""; st_llm_strong_model := "";
  st_service_jwt_secret := "dev-only-insecure-secret-change-me"; st_service_jwt_issuer := "numi-
  internal"; st_gateway_base_url := "http://localhost:8001"; st_gateway_port := 8001%Z;
  st_execution_base_url := "http://localhost:8002"; st_execution_port := 8002%Z;
  st_execution_service_token_audience := "numi-execution"; st_agent_base_url :=
  "http://localhost:8000"; st_agent_port := 8000%Z; st_channels_base_url :=
  "http://localhost:8003"; st_channels_port := 8003%Z; st_slack_signing_secret := "";
  st_slack_bot_token := ""; st_teams_app_id := ""; st_teams_app_password := "";
  st_daily_report_slack_channel := ""; st_daily_report_hour_utc := 6%Z; st_daily_report_servers
  := ""; st_daily_report_identity_channel := "dev"; st_daily_report_identity_account := "";
  st_alert_webhook_secret := ""; st_alert_webhook_slack_channel := "";
  st_alert_webhook_identity_channel := "dev"; st_alert_webhook_identity_account := "";
  st_alert_webhook_cooldown_seconds := 900%Z; st_enable_readonly_sql_tool := false;
  st_enable_execute_sql_tool := false; st_enable_restore_database_tool := false;
  st_enable_create_database_tool := false; st_enable_drop_database_tool := false;
  st_enable_truncate_table_tool := false; st_enable_bulk_delete_tool := false |}.

(** the [Field(ge=..., le=...)] of the class *)
Definition settings_valid (s : Settings) : bool :=
  (0 <=? st_investigation_memory_lookback s)%Z
  && (0 <=? st_cross_server_correlation_lookback_days s)%Z
  && (0 <=? st_daily_report_hour_utc s)%Z && (st_daily_report_hour_utc s <=? 23)%Z
  && (0 <=? st_alert_webhook_cooldown_seconds s)%Z.

Definition LLM_PROVIDER_PREFERENCE : list string := ["anthropic"; "openai"; "gemini"; "deepseek"].

Definition is_production (s : Settings) : bool := bool_decide (st_numi_env s = "production").

Definition llm_api_keys (s : Settings) : list (string * string) :=
  [("anthropic", st_anthropic_api_key s); ("openai", st_openai_api_key s);
   ("gemini", st_gemini_api_key s); ("deepseek", st_deepseek_api_key s)].

(** [keys.get(p, "").strip()] as a condition *)
Definition has_key (keys : list (string * string)) (p : string) : bool :=
  truthy (str_strip (default "" (dict_get p keys))).

Definition configured_llm_providers (s : Settings) : list string :=
  List.filter (has_key (llm_api_keys s)) LLM_PROVIDER_PREFERENCE.

Definition llm_selection_locked (s : Settings) : bool :=
  truthy (st_llm_provider s) && negb (mem (st_llm_provider s) ["auto"; "mock"]).

Definition effective_default_llm (s : Settings) : string * string :=
  if bool_decide (st_llm_provider s = "mock") then ("mock", "mock-planner")
  else if llm_selection_locked s then (st_llm_provider s, st_llm_model s)
  else match configured_llm_providers s with
       | p :: _ => (p, st_llm_model s)
       | [] => ("mock", "mock-planner")
       end.

(** the violations of [validate_for_production], in order *)
Definition llm_violation (s : Settings) : list string :=
  let '(provider, _) := effective_default_llm s in
  if bool_decide (provider = "mock") then
    ["No real LLM provider is configured — set at least one of "
     +:+ "ANTHROPIC_API_KEY / OPENAI_API_KEY / GEMINI_API_KEY / DEEPSEEK_API_KEY "
     +:+ "(and optionally LLM_PROVIDER to force one)."]
  else if negb (mem provider (configured_llm_providers s)) then
    ["LLM_PROVIDER=" +:+ provider +:+ " but no " +:+ str_upper provider +:+ "_API_KEY is set."]
  else [].
Definition production_violations (s : Settings) : list string :=
  llm_violation s
  ++ (if bool_decide (st_identity_provider s = "mock") then
        ["IDENTITY_PROVIDER=mock — production must use a real enterprise "
         +:+ "identity provider (e.g. OIDC), never the config-driven mock directory."] else [])
  ++ (if bool_decide (st_secrets_provider s = "local_dev") then
        ["SECRETS_PROVIDER=local_dev — production must use a real secrets "
         +:+ "manager (vault | aws_secrets_manager | azure_key_vault | gcp_secret_manager)."] else [])
  ++ (if bool_decide (st_service_jwt_secret s = "dev-only-insecure-secret-change-me") then
        ["SERVICE_JWT_SECRET is still the development placeholder — set a "
         +:+ "real, unique secret for production."] else [])
  ++ (if negb (bool_decide (st_rate_limit_backend s = "redis")) then
        ["RATE_LIMIT_BACKEND is not 'redis' — the in-memory backend counts per "
         +:+ "process, so every rate limit is silently multiplied by replica count "
         +:+ "the moment more than one Gateway instance is running."] else []).

Definition validate_for_production (s : Settings) : res exn unit :=
  if negb (is_production s) then Ok tt
  else match production_violations s with
       | [] => Ok tt
       | violations =>
           Err (PyError "RuntimeError"
             ("Refusing to start with NUMI_ENV=production while running in a "
              +:+ "development/mock configuration:" +:+ String newline ("- "
              +:+ str_join (String newline "- ") violations)))
       end.

(* ------------------------------------------------------------------ *)
(** ** Facts *)

Lemma has_key_known s p : has_key (llm_api_keys s) p = true → p ∈ LLM_PROVIDER_PREFERENCE.
Proof.
  unfold has_key. destruct (dict_get p (llm_api_keys s)) as [k|] eqn:E; [|done]. intros _.
  apply dict_get_elem in E. cbn in E. unfold LLM_PROVIDER_PREFERENCE. set_solver.
Qed.

Lemma configured_spec s p :
  p ∈ configured_llm_providers s ↔ has_key (llm_api_keys s) p = true.
Proof.
  unfold configured_llm_providers. rewrite filter_elem_of. split; [by intros [_ ?]|].
  intros Hk. split; [by eapply has_key_known|done].
Qed.

(** A production process starts exactly when a provider with a key answers, the
    identities, the secrets and the signing secret are real and the rate limits are
    shared; any other process starts *)
Theorem production_fails_closed (s : Settings) :
  validate_for_production s = Ok tt ↔
  (st_numi_env s = "production" →
     (effective_default_llm s).1 ∈ configured_llm_providers s ∧
     st_identity_provider s ≠ "mock" ∧ st_secrets_provider s ≠ "local_dev" ∧
     st_service_jwt_secret s ≠ "dev-only-insecure-secret-change-me" ∧
     st_rate_limit_backend s = "redis").
Proof.
  unfold validate_for_production, is_production. case_bool_decide as He; cbn [negb]; [|done].
  assert (llm_violation s = [] ↔ (effective_default_llm s).1 ∈ configured_llm_providers s) as Hl.
  { unfold llm_violation. destruct (effective_default_llm s) as [p m]. cbn [fst].
    case_bool_decide as Hp; [split; [done|]|].
    - intros Hin%configured_spec%has_key_known. subst p. unfold LLM_PROVIDER_PREFERENCE in Hin. set_solver.
    - unfold mem. case_bool_decide; cbn; done. }
  unfold production_violations. split.
  - destruct (llm_violation s ++ _) eqn:Ev; [|done]. intros _ _.
    apply app_eq_nil in Ev as [E1 Ev]. apply Hl in E1. repeat case_bool_decide; cbn in Ev; done.
  - intros Hok. destruct (Hok He) as (H1 & H2 & H3 & H4 & H5). apply Hl in H1. rewrite H1.
    by rewrite (bool_decide_false _ H2) (bool_decide_false _ H3) (bool_decide_false _ H4) (bool_decide_true _ H5).
Qed.

Example default_development : validate_for_production default_settings = Ok tt.
Proof. vm_compute. reflexivity. Qed.
