(* ===== verification/LLMRegistry.v ===== *)
(** The choice of a model: [agent/llm/registry.py].  A provider object is what it was
    constructed with; constructing one of the vendors' clients and listing its models
    are outside.  The cache of built objects and the test seam [for_testing] are left
    out: building is a function of the provider and the model. *)
From S2P Require Import Prelude ProgramLogic Json Text Models Config.

(** [_PROVIDER_CLASSES] *)
Definition PROVIDER_CLASSES : list string := ["anthropic"; "openai"; "gemini"; "deepseek"].

(** a provider object; an empty model is the vendor's default *)
Record ProviderHandle : Type := {
  ph_name : string;
  ph_model : string
}.

Section registry.
Context (settings : Settings).
Let keys := llm_api_keys settings.

Definition configured_providers : list string := configured_llm_providers settings.
Definition selection_enabled : bool :=
  st_allow_user_model_selection settings && negb (llm_selection_locked settings).
Definition default_llm : string * string := effective_default_llm settings.

(** [_construct] *)
Definition construct (provider model : string) : res exn ProviderHandle :=
  if bool_decide (provider = "mock") then Ok {| ph_name := "mock"; ph_model := "" |}
  else if negb (has_key keys provider) then
    Err (PyError "ValueError" ("No API key configured for provider '" +:+ provider +:+ "'."))
  else if negb (mem provider PROVIDER_CLASSES) then
    Err (PyError "ValueError" ("Unknown LLM provider '" +:+ provider +:+ "'."))
  else Ok {| ph_name := provider; ph_model := model |}.

(** [build] *)
Definition build_provider (provider : string) (model : option string) : res exn ProviderHandle :=
  construct provider (default "" model).

(** [model or other] *)
Definition model_or (model : option string) (other : option string) : option string :=
  if opt_truthy model then model else other.

(** [for_conversation] *)
Definition for_conversation (provider model : option string) : res exn ProviderHandle :=
  let '(default_provider, default_model) := default_llm in
  let chosen_provider := str_or provider default_provider in
  let chosen_model := model_or model (if opt_truthy provider then None else Some default_model) in
  match build_provider chosen_provider chosen_model with
  | Ok h => Ok h
  | Err _ => build_provider default_provider (Some default_model)
  end.

(** [resilient_for_conversation]: the chain of providers to try, the first one built;
    the others are built when their turn comes *)
Definition resilient_for_conversation (provider model : option string)
    : res exn (ProviderHandle * list string) :=
  primary ← for_conversation provider model;
  if bool_decide (ph_name primary = "mock") then mret (primary, [])
  else mret (primary, List.filter (λ p, negb (bool_decide (p = ph_name primary))) configured_providers).

Definition validate_selection (provider : string) (model : option string) : option string :=
  if negb selection_enabled then
    Some "Model selection is disabled by this deployment's configuration."
  else if bool_decide (provider = "mock") then None
  else if negb (mem provider PROVIDER_CLASSES) then
    Some ("Unknown provider '" +:+ provider +:+ "'. Choose one of: " +:+ str_join ", " PROVIDER_CLASSES)
  else if negb (has_key keys provider) then
    Some ("Provider '" +:+ provider +:+ "' is not configured (no API key).")
  else None.

(** [tier_model] *)
Inductive CallType : Type := FAST | STRONG.
Definition tier_model (call_type : CallType) : option string :=
  let model := match call_type with
               | FAST => st_llm_fast_model settings | STRONG => st_llm_strong_model settings end in
  if truthy model then Some model else None.

(** a vendor's own list of models *)
Context {S : Type} (vendor_models : string → M S exn (list string)).

Definition list_models (provider : string) : M S exn (list string) :=
  if negb (has_key keys provider) then mret []
  else h ← lift_res (construct provider ""); vendor_models (ph_name h).

Fixpoint describe_providers (providers : list string) : M S exn (list string) :=
  match providers with
  | [] => mret []
  | p :: providers =>
      models ← list_models p;
      let preview := str_join ", " (take 8 models)
                     +:+ (if (8 <? length models)%nat then "  …" else "") in
      lines ← describe_providers providers;
      mret (("- " +:+ p +:+ ": " +:+ str_or (Some preview) "(no models returned)") :: lines)
  end.

Definition describe_available : M S exn string :=
  match configured_providers with
  | [] => mret ("No LLM providers are configured. Set ANTHROPIC_API_KEY / "
                +:+ "OPENAI_API_KEY / GEMINI_API_KEY / DEEPSEEK_API_KEY to enable "
                +:+ "one. Currently using the deterministic offline planner.")
  | configured =>
      lines ← describe_providers configured;
      let '(current_p, current_m) := default_llm in
      let footer := String newline ("Current default: " +:+ current_p
        +:+ (if truthy current_m then " / " +:+ current_m else " (provider default)")) in
      let footer := if negb selection_enabled
                    then footer +:+ String newline "(Per-conversation switching is disabled by configuration.)"
                    else footer in
      mret ("Available LLMs:" +:+ String newline (str_join (String newline "") lines) +:+ footer)
  end.

(* ------------------------------------------------------------------ *)
(** ** Facts *)

Lemma construct_name p m h : construct p m = Ok h →
  ph_name h = p ∧ (p = "mock" ∨ p ∈ configured_providers).
Proof.
  unfold construct. case_bool_decide as Hm; [intros [= <-]; split; [done|by left]|].
  destruct (has_key keys p) eqn:Ek; [|done]. cbn. unfold mem. case_bool_decide; [|done].
  intros [= <-]. split; [done|right]. by apply configured_spec.
Qed.

Lemma construct_ok p m : p ∈ configured_providers → ∃ h, construct p m = Ok h.
Proof.
  intros Hk%configured_spec. unfold construct. case_bool_decide; [by eexists|].
  fold keys in Hk. rewrite Hk. cbn. pose proof (has_key_known _ _ Hk) as Hin.
  unfold mem. rewrite (bool_decide_true (p ∈ PROVIDER_CLASSES) Hin). by eexists.
Qed.

Lemma default_llm_ok : llm_selection_locked settings = false →
  ∃ h, build_provider default_llm.1 (Some default_llm.2) = Ok h.
Proof.
  intros Hl. unfold default_llm, effective_default_llm. case_bool_decide; [by eexists|].
  rewrite Hl. destruct (configured_llm_providers settings) as [|p l] eqn:Ec; [by eexists|].
  apply construct_ok. unfold configured_providers. rewrite Ec. by left.
Qed.

(** Unless the deployment forces a provider that has no key, every choice, also a
    stale or an invalid one, gives a provider to talk to; the chain behind it holds every
    other configured provider exactly once, never the offline planner, and is empty behind
    the offline planner *)
Theorem every_choice_resolves (provider model : option string) :
  llm_selection_locked settings = false ∨ st_llm_provider settings ∈ configured_providers →
  ∃ primary rest, resilient_for_conversation provider model = Ok (primary, rest) ∧
    (ph_name primary = "mock" ∧ rest = [] ∨
     ph_name primary ∈ configured_providers ∧
       (∀ p, p ∈ ph_name primary :: rest ↔ p ∈ configured_providers) ∧
       NoDup (ph_name primary :: rest)).
Proof.
  intros Hc.
  assert (∃ h, build_provider default_llm.1 (Some default_llm.2) = Ok h) as [hd Hd].
  { destruct Hc as [Hl|Hin]; [by apply default_llm_ok|].
    destruct (llm_selection_locked settings) eqn:El; [|by apply default_llm_ok].
    unfold default_llm, effective_default_llm. case_bool_decide as Hm; [by eexists|].
    rewrite El. by apply construct_ok. }
  assert (∃ h, for_conversation provider model = Ok h ∧
    (ph_name h = "mock" ∨ ph_name h ∈ configured_providers)) as (h & Hh & Hn).
  { unfold for_conversation. destruct default_llm as [dp dm]. cbn in Hd.
    destruct (build_provider (str_or provider dp) _) as [h|e] eqn:Eb.
    - exists h. split; [done|]. by apply construct_name in Eb as [-> ?].
    - exists hd. split; [done|]. by apply construct_name in Hd as [-> ?]. }
  unfold resilient_for_conversation. rewrite Hh. cbn.
  destruct (bool_decide (ph_name h = "mock")) eqn:Em.
  - apply bool_decide_eq_true in Em. eexists _, _. split; [done|by left].
  - apply bool_decide_eq_false in Em. destruct Hn as [?|Hn]; [done|].
    eexists _, _. split; [done|right]. split; [done|]. split.
    + intros p. rewrite elem_of_cons filter_elem_of negb_true_iff bool_decide_eq_false.
      split; [by intros [->|[? _]]|]. intros Hp. destruct (decide (p = ph_name h)); auto.
    + apply NoDup_cons. split; [rewrite filter_elem_of negb_true_iff bool_decide_eq_false; tauto|].
      apply NoDup_ListNoDup, List.NoDup_filter. apply (List.NoDup_filter _ (l := LLM_PROVIDER_PREFERENCE)).
      apply NoDup_ListNoDup. repeat constructor; set_solver.
Qed.

(** a selection the registry accepts is the one the conversation then gets *)
Lemma accepted_selection_is_used provider model : provider ≠ "" →
  validate_selection provider model = None →
  ∃ m, for_conversation (Some provider) model = Ok {| ph_name := provider; ph_model := m |} ∧
    (provider ≠ "mock" → m = default "" model).
Proof.
  intros Hne. unfold validate_selection. destruct selection_enabled; [|done]. cbn [negb].
  unfold for_conversation. destruct default_llm as [dp dm].
  assert (opt_truthy (Some provider) = true) as Ht by (by apply truthy_spec).
  rewrite Ht. unfold str_or. cbn [opt_truthy] in Ht. rewrite Ht.
  assert (default "" (model_or model None) = default "" model) as Hm.
  { unfold model_or. destruct model as [m|]; [|done]. cbn. unfold truthy. by case_bool_decide. }
  unfold build_provider. rewrite Hm. unfold construct.
  case_bool_decide; [intros _; eexists; split; [by subst provider|done]|].
  destruct (mem provider PROVIDER_CLASSES); [|done]. destruct (has_key keys provider); [|done].
  intros _. cbn. by eexists.
Qed.
End registry.

Lemma every_choice_resolves_witness :
  let s := default_settings <| st_openai_api_key := "k1" |> <| st_gemini_api_key := "k2" |> in
  llm_selection_locked s = false ∧
  ∃ primary rest, resilient_for_conversation s (Some "anthropic") None = Ok (primary, rest) ∧
    (ph_name primary = "mock" ∧ rest = [] ∨
     ph_name primary ∈ configured_providers s ∧
       (∀ p, p ∈ ph_name primary :: rest ↔ p ∈ configured_providers s) ∧
       NoDup (ph_name primary :: rest)).
Proof. split; [vm_compute; reflexivity|]. apply every_choice_resolves. left. vm_compute. reflexivity. Defined.
