(* ===== verification/Conversation.v ===== *)
(** The Agent's data: [agent/planner/actions.py], [agent/context_manager.py] and
    [agent/reply.py].  Counters of Python that only count up are [nat]. *)
From S2P Require Import Prelude ProgramLogic Json Text Models ToolCatalog Servers Policy.
From S2P Require Import Investigations Fallback.

(* ------------------------------------------------------------------ *)
(** ** planner/actions.py *)

Record ToolProposal : Type := {
  tp_tool_id : string;
  tp_arguments : list (string * json);
  tp_target : list (string * json);
  tp_reason : string
}.

Inductive Confidence : Type := CONFIRMED | LIKELY | UNABLE_TO_CONFIRM.

Definition confidence_value (c : Confidence) : string :=
  match c with
  | CONFIRMED => "confirmed" | LIKELY => "likely" | UNABLE_TO_CONFIRM => "unable_to_confirm"
  end.
Definition confidence_of_value (s : string) : option Confidence :=
  first_where (λ c, bool_decide (confidence_value c = s)) [CONFIRMED; LIKELY; UNABLE_TO_CONFIRM].

(** the fields of [Conclude] *)
Record Conclusion : Type := {
  cl_summary : string;
  cl_likely_root_cause : option string;
  cl_confidence : Confidence;
  cl_recommendation : option string;
  cl_recommended_tool_call : option ToolProposal
}.

Inductive AgentAction : Type :=
| AskClarification (question : string)
| ProposeToolCall (proposal : ToolProposal)
| RecordObservation (text : string)
| Conclude (conclusion : Conclusion).

Record CritiqueVerdict : Type := {
  cv_sound : bool;
  cv_issue : option string
}.

Inductive MetaCommand : Type :=
| M_HELP | M_STATUS | M_SERVERS | M_PLAYBOOKS | M_CATALOG | M_DISCOVER | M_APPROVE | M_REJECT
| M_MODELS | M_APPROVERS.

#[export] Instance MetaCommand_eq_dec : EqDecision MetaCommand.
Proof. solve_decision. Defined.

Definition meta_value (c : MetaCommand) : string :=
  match c with
  | M_HELP => "help" | M_STATUS => "status" | M_SERVERS => "servers"
  | M_PLAYBOOKS => "playbooks" | M_CATALOG => "catalog" | M_DISCOVER => "discover"
  | M_APPROVE => "approve" | M_REJECT => "reject" | M_MODELS => "models"
  | M_APPROVERS => "approvers"
  end.

(** the [environment_hint] literals are the values of [Environment] *)
Record IntentExtraction : Type := {
  ix_is_dba_task : bool;
  ix_is_greeting_or_chitchat : bool;
  ix_database_hint : option string;
  ix_environment_hint : option Environment;
  ix_instance_hint : option string;
  ix_meta_command : option MetaCommand;
  ix_problem_summary : string
}.

(** [IntentExtraction(is_dba_task=True, problem_summary=...)] *)
Definition best_effort_intent (problem_summary : string) : IntentExtraction :=
  {| ix_is_dba_task := true; ix_is_greeting_or_chitchat := false; ix_database_hint := None;
     ix_environment_hint := None; ix_instance_hint := None; ix_meta_command := None;
     ix_problem_summary := problem_summary |}.

(* ------------------------------------------------------------------ *)
(** ** context_manager.py *)

Inductive InvestigationStage : Type :=
| INVESTIGATING | AWAITING_CLARIFICATION | AWAITING_VERIFICATION
| CONCLUDED_VERIFIED | CONCLUDED_UNRESOLVED | CONCLUDED_UNVERIFIED | CONCLUDED_NO_ACTION.

#[export] Instance InvestigationStage_eq_dec : EqDecision InvestigationStage.
Proof. solve_decision. Defined.

Definition stage_value (s : InvestigationStage) : string :=
  match s with
  | INVESTIGATING => "INVESTIGATING" | AWAITING_CLARIFICATION => "AWAITING_CLARIFICATION"
  | AWAITING_VERIFICATION => "AWAITING_VERIFICATION"
  | CONCLUDED_VERIFIED => "CONCLUDED_VERIFIED" | CONCLUDED_UNRESOLVED => "CONCLUDED_UNRESOLVED"
  | CONCLUDED_UNVERIFIED => "CONCLUDED_UNVERIFIED" | CONCLUDED_NO_ACTION => "CONCLUDED_NO_ACTION"
  end.

Definition CONCLUDED_STAGES : list InvestigationStage :=
  [CONCLUDED_VERIFIED; CONCLUDED_UNRESOLVED; CONCLUDED_UNVERIFIED; CONCLUDED_NO_ACTION].

(** [request] is the request of the call that needs the approval *)
Record PendingApproval : Type := {
  pa_approval_id : string;
  pa_tool_id : string;
  pa_summary : string;
  pa_request : ToolCallRequest
}.

(** an entry of [transcript] *)
Record TranscriptEntry : Type := {
  te_tool_id : string;
  te_reason : string;
  te_result : json
}.

Definition entry_json (e : TranscriptEntry) : json :=
  JObj [("tool_id", JStr (te_tool_id e)); ("reason", JStr (te_reason e)); ("result", te_result e)].

(** [str(exc)] *)
Definition exn_text (e : exn) : string :=
  match e with PyError _ text => text | NumiError _ detail _ => detail end.

(** an entry of [actions] *)
Record ExecutedAction : Type := {
  ea_tool_id : string;
  ea_result : option json
}.

(** the value of [pending_verification]; [arguments.get("session_id")] is any
    JSON value *)
Record PendingVerification : Type := {
  pv_tool_id : string;
  pv_verification_tools : list string;
  pv_session_id : option json;
  pv_reason : string
}.

Inductive VerificationOutcome : Type := RESOLVED | UNRESOLVED.

#[export] Instance VerificationOutcome_eq_dec : EqDecision VerificationOutcome.
Proof. solve_decision. Defined.

Record InvestigationState : Type := {
  is_investigation_id : string;
  is_problem : string;
  is_target : list (string * json);
  is_status : InvestigationStage;
  is_evidence : list string;
  is_hypotheses : list string;
  is_findings : list string;
  is_recommendations : list string;
  is_actions : list ExecutedAction;
  is_transcript : list TranscriptEntry;
  is_turn_count : nat;
  is_playbook_id : option string;
  is_playbook_step : nat;
  is_read_only : bool;
  is_consecutive_record_observations : nat;
  is_clarification_count : nat;
  is_last_message : string;
  is_pending_verification : option PendingVerification;
  is_last_verification : option VerificationOutcome;
  is_remote_bootstrap_done : bool;
  is_memory_context : list MemoryEntry  (** the dumps of the entries *)
}.

#[export] Instance InvestigationState_rebuild : Rebuild InvestigationState := λ i, {|
  is_investigation_id := is_investigation_id i; is_problem := is_problem i;
  is_target := is_target i; is_hypotheses := is_hypotheses i;
  is_status := is_status i; is_evidence := is_evidence i; is_findings := is_findings i;
  is_recommendations := is_recommendations i; is_actions := is_actions i;
  is_transcript := is_transcript i; is_turn_count := is_turn_count i;
  is_playbook_id := is_playbook_id i; is_playbook_step := is_playbook_step i;
  is_read_only := is_read_only i;
  is_consecutive_record_observations := is_consecutive_record_observations i;
  is_clarification_count := is_clarification_count i; is_last_message := is_last_message i;
  is_pending_verification := is_pending_verification i;
  is_last_verification := is_last_verification i;
  is_remote_bootstrap_done := is_remote_bootstrap_done i;
  is_memory_context := is_memory_context i |}.

(** [InvestigationState(investigation_id=..., problem=..., playbook_id=..., read_only=...)] *)
Definition new_investigation (investigation_id problem : string) (playbook_id : option string)
    (read_only : bool) : InvestigationState := {|
  is_investigation_id := investigation_id; is_problem := problem; is_target := [];
  is_status := INVESTIGATING; is_evidence := []; is_hypotheses := []; is_findings := []; is_recommendations := []; is_actions := [];
  is_transcript := []; is_turn_count := 0; is_playbook_id := playbook_id; is_playbook_step := 0;
  is_read_only := read_only; is_consecutive_record_observations := 0;
  is_clarification_count := 0; is_last_message := ""; is_pending_verification := None;
  is_last_verification := None; is_remote_bootstrap_done := false; is_memory_context := [] |}.

Definition is_concluded (i : InvestigationState) : bool := mem (is_status i) CONCLUDED_STAGES.

Definition effective_status (i : InvestigationState) : InvestigationStage :=
  if bool_decide (is_status i = INVESTIGATING)
     && match is_pending_verification i with Some _ => true | None => false end
  then AWAITING_VERIFICATION else is_status i.

Record ConversationState : Type := {
  cs_conversation_id : string;
  cs_channel : string;
  cs_channel_thread_id : string;
  cs_channel_account_id : string;
  cs_database_context : list (string * json);
  cs_investigation : option InvestigationState;
  cs_pending_approval : option PendingApproval;
  cs_llm_provider : option string;
  cs_llm_model : option string;
  cs_llm_fallback_notices : list FallbackEvent;
  cs_updated_at : Z
}.

#[export] Instance ConversationState_rebuild : Rebuild ConversationState := λ c, {|
  cs_conversation_id := cs_conversation_id c; cs_channel := cs_channel c;
  cs_channel_thread_id := cs_channel_thread_id c;
  cs_channel_account_id := cs_channel_account_id c;
  cs_database_context := cs_database_context c; cs_investigation := cs_investigation c;
  cs_pending_approval := cs_pending_approval c; cs_llm_provider := cs_llm_provider c;
  cs_llm_model := cs_llm_model c; cs_llm_fallback_notices := cs_llm_fallback_notices c;
  cs_updated_at := cs_updated_at c |}.

Definition new_conversation (conversation_id channel channel_thread_id channel_account_id : string)
    (now : Z) : ConversationState := {|
  cs_conversation_id := conversation_id; cs_channel := channel;
  cs_channel_thread_id := channel_thread_id; cs_channel_account_id := channel_account_id;
  cs_database_context := []; cs_investigation := None; cs_pending_approval := None;
  cs_llm_provider := None; cs_llm_model := None; cs_llm_fallback_notices := [];
  cs_updated_at := now |}.

(** [ContextManager]: the conversations by their id *)
Definition Conversations : Type := gmap string ConversationState.

(** a string of [database_context]: the environment and the instance are only ever
    written as strings *)
Definition context_str (k : string) (c : ConversationState) : option string :=
  match dict_get k (cs_database_context c) with Some (JStr s) => Some s | _ => None end.

(* ------------------------------------------------------------------ *)
(** ** reply.py *)

Record ApprovalCard : Type := {
  card_approval_id : string;
  card_tool_id : string;
  card_target_summary : string;
  card_reason : string;
  card_risk_level : string;
  card_blast_radius : string;
  card_expires_in_seconds : Z
}.

Record AgentReply : Type := {
  rp_text : string;
  rp_status : string;
  rp_approval_card : option ApprovalCard;
  rp_investigation_id : option string;
  rp_approval_still_pending : bool
}.

#[export] Instance AgentReply_rebuild : Rebuild AgentReply := λ r, {|
  rp_text := rp_text r; rp_status := rp_status r; rp_approval_card := rp_approval_card r;
  rp_investigation_id := rp_investigation_id r;
  rp_approval_still_pending := rp_approval_still_pending r |}.

(** [AgentReply(text=..., status=..., investigation_id=...)] *)
Definition agent_reply (text status : string) (investigation_id : option string) : AgentReply :=
  {| rp_text := text; rp_status := status; rp_approval_card := None;
     rp_investigation_id := investigation_id; rp_approval_still_pending := false |}.
