(* ===== verification/AgentApi.v ===== *)
(** What the Agent calls: the Gateway through [agent/tool_client.py] (class
    [GatewayClient]), the models through [agent/llm/base.py] (class [LLMProvider])
    and the process (class [AgentRuntime]).  The orchestrator is proved against
    these interfaces, for any implementation; every call that can act is recorded
    in a trace. *)
From S2P Require Import Prelude ProgramLogic Json Text Models ToolCatalog Servers Policy Approval.
From S2P Require Import Gateway Investigations Fallback Conversation Config LLMRegistry.

(* ------------------------------------------------------------------ *)
(** ** The answers of the Gateway *)

(** what the Agent reads of a [ToolDefinition]: [argument_schema.get("required", [])]
    and the keys of [argument_schema.get("properties", {})] *)
Record OfferedTool : Type := {
  ot_tool_id : string;
  ot_operation_type : OperationType;
  ot_required : list string;
  ot_properties : list string
}.

Record CatalogSummary : Type := {
  cm_database_count : Z;
  cm_databases : list string;
  cm_discovered_at : option string
}.

(** an entry of [GET /v1/catalog/servers]; an absent status is empty *)
Record ServerSummary : Type := {
  ss_id : string;
  ss_aliases : list string;
  ss_host : option string;
  ss_environment : string;
  ss_platform : string;
  ss_criticality : string;
  ss_status : string;
  ss_catalog : option CatalogSummary
}.

(** the answer of [approve] and [reject]: [{"status": ..., "detail": ...}] *)
Record ApprovalAnswer : Type := {
  aa_status : string;
  aa_detail : string
}.

(** the answers of [refresh_catalog], for one server and for all: an error status with
    its detail, or the body *)
Record RefreshedOne : Type := {
  ro_server_id : string;
  ro_databases : list string;
  ro_error : option string
}.

(** [DecisionEventCreateRequest] *)
Record DecisionEventRequest : Type := {
  de_type : string;
  de_conversation : option string;
  de_investigation : option string;
  de_provider_name : string;
  de_model_name : string;
  de_payload_json : list (string * json)
}.

(** [ToolClient].  The last five never raise. *)
Class GatewayClient (X : Type) : Type := {
  gc_available_tools : string → string → M X exn (list OfferedTool);
  gc_list_servers : M X exn (list ServerSummary);
  gc_get_server_catalog : string → M X exn (option (string * option ServerCatalog));
  gc_refresh_one : string → string → string → M X exn (string + RefreshedOne);
  gc_refresh_all : string → string → M X exn (string + list (string * string));
  gc_submit : ToolCallRequest → M X exn ToolCallResponse;
  gc_approve : string → string → string → M X exn ApprovalAnswer;
  gc_reject : string → string → string → M X exn ApprovalAnswer;
  gc_create_investigation : InvestigationCreate → X → X;
  gc_update_investigation : string → InvestigationUpdate → X → X;
  gc_get_investigation_memory : string → string → Z → X → list MemoryEntry * X;
  gc_get_cross_server_patterns :
    string → option string → option string → X → list MemoryEntry * X;
  gc_log_decision_event : DecisionEventRequest → X → X
}.

(* ------------------------------------------------------------------ *)
(** ** The models *)

(** the provider and the model asked of [resilient_for_conversation] *)
Definition LLMChoice : Type := option string * option string.

Record DecideArgs : Type := {
  da_problem_statement : string;
  da_available_tool_ids : list string;
  da_transcript : list TranscriptEntry;
  da_turn_count : nat;
  da_tool_requirements : option (list (string * list string))
}.
Record CritiqueArgs : Type := {
  ca_problem_statement : string;
  ca_transcript : list TranscriptEntry;
  ca_summary : string;
  ca_root_cause : option string;
  ca_confidence : Confidence;
  ca_recommendation : option string
}.

(** a call gives an outcome and the fallbacks that happened on the way *)
Definition llm_call (X A : Type) : Type := X → (res exn A * list FallbackEvent) * X.

Class LLMProvider (X : Type) : Type := {
  llm_extract_intent : LLMChoice → string → list string → list string → llm_call X IntentExtraction;
  llm_decide_next_action : LLMChoice → DecideArgs → llm_call X AgentAction;
  llm_critique_conclusion : LLMChoice → CritiqueArgs → llm_call X CritiqueVerdict;
  llm_provider_name : LLMChoice → string;
  llm_model_name : LLMChoice → string;
  llm_vendor_models : string → M X exn (list string)
}.

(** fresh identifiers and the clock *)
Class AgentRuntime (X : Type) : Type := {
  new_ulid : X → string * X;
  utc_now : X → Z * X
}.

(* ------------------------------------------------------------------ *)
(** ** The state of a conversation being handled *)

(** the calls that reach a model, the execution of a tool or an approval *)
Inductive AgentEvent : Type :=
| EvIntent (message : string)
| EvDecide (available_tool_ids : list string)
| EvCritique
| EvSubmit (request : ToolCallRequest)
| EvApprove (approval_id : string) (answer : res exn ApprovalAnswer)
| EvReject (approval_id : string) (answer : res exn ApprovalAnswer).

(** the conversation, the investigation in progress, which is also the
    conversation's, and the world *)
Record Ag (X : Type) : Type := mk_ag {
  ag_conv : ConversationState;
  ag_inv : InvestigationState;
  ag_world : X;
  ag_trace : list AgentEvent
}.
Arguments mk_ag {X}.
Arguments ag_conv {X}. Arguments ag_inv {X}. Arguments ag_world {X}. Arguments ag_trace {X}.

#[export] Instance Ag_rebuild {X} : Rebuild (Ag X) := λ a,
  {| ag_conv := ag_conv a; ag_inv := ag_inv a; ag_world := ag_world a; ag_trace := ag_trace a |}.

Section state.
Context {X : Type}.

Definition get_inv : M (Ag X) exn InvestigationState := λ s, (Ok (ag_inv s), s).
Definition get_conv : M (Ag X) exn ConversationState := λ s, (Ok (ag_conv s), s).
Definition mod_inv (f : InvestigationState → InvestigationState) : M (Ag X) exn unit :=
  modify (λ s, s <| ag_inv ::= f |>).
Definition mod_conv (f : ConversationState → ConversationState) : M (Ag X) exn unit :=
  modify (λ s, s <| ag_conv ::= f |>).
Definition record_event (e : AgentEvent) : M (Ag X) exn unit :=
  modify (λ s, s <| ag_trace ::= λ t, t ++ [e] |>).
Definition on_world {A} (m : M X exn A) : M (Ag X) exn A := λ s,
  let '(r, x) := m (ag_world s) in (r, s <| ag_world := x |>).
Definition from_world {A} (f : X → A * X) : M (Ag X) exn A := λ s,
  let '(a, x) := f (ag_world s) in (Ok a, s <| ag_world := x |>).
Definition in_world (f : X → X) : M (Ag X) exn unit := modify (λ s, s <| ag_world ::= f |>).

(** a model call: the notices go to the conversation, also when it raises *)
Definition call_llm {A} (c : llm_call X A) : M (Ag X) exn A := λ s,
  let '((r, notices), x) := c (ag_world s) in
  (r, s <| ag_world := x |>
        <| ag_conv ::= λ c, c <| cs_llm_fallback_notices ::= λ l, l ++ notices |> |>).
End state.

(** [_llm_for] *)
Definition llm_for (cfg : Settings) (state : ConversationState) (call_type : CallType)
    : LLMChoice :=
  match cs_llm_provider state, cs_llm_model state with
  | None, None => (None, tier_model cfg call_type)
  | p, m => (p, m)
  end.
