(* ===== verification/StructuredLLM.v ===== *)
(** The models behind the Agent: [agent/llm/base.py] ([StructuredLLMProvider]), and the
    provider of [agent/llm/fallback.py] that walks a chain of them.  The SDK call of a
    vendor is a parameter: for each prompt and attempt, how long it takes and what it
    gives.  Time is a rational number of seconds, as in Fallback.v. *)
From S2P Require Import Prelude ProgramLogic Json Text Models ToolCatalog Servers Policy.
From S2P Require Import Investigations Fallback Conversation Approval Gateway Config LLMRegistry AgentApi.
From Stdlib Require Import QArith Qminmax Lqa.

#[local] Open Scope Q_scope.

(** the arguments object of a structured tool call *)
Abbreviation completion := (list (string * json)).

(** the constant texts of the system prompts are not modelled *)
Inductive SystemPrompt : Type := INTENT_SYSTEM | ACTION_SYSTEM | CRITIQUE_SYSTEM.
Record ToolPrompt : Type := {
  tq_system : SystemPrompt;
  tq_user : string;
  tq_tool_name : string
}.

(** a vendor: [provider_name], and [_call_tool] for the n-th attempt at a prompt *)
Record Vendor : Type := {
  vd_name : string;
  vd_call_tool : ToolPrompt → nat → Q * res exn completion;
  vd_takes_time : ∀ prompt n, 0 <= (vd_call_tool prompt n).1
}.

(* ------------------------------------------------------------------ *)
(** ** Validation of what a model returned *)

Definition str_field (k : string) (d : completion) : option string :=
  match dict_get k d with Some (JStr s) => Some s | _ => None end.
(** [str | None = None] *)
Definition opt_str_field (k : string) (d : completion) : option (option string) :=
  match dict_get k d with
  | None | Some JNull => Some None
  | Some (JStr s) => Some (Some s)
  | _ => None
  end.
(** [dict = Field(default_factory=dict)] *)
Definition dict_field (k : string) (d : completion) : option completion :=
  match dict_get k d with
  | None => Some []
  | Some (JObj o) => Some o
  | _ => None
  end.

(** a [Literal] with a default *)
Definition literal_field {A} (k : string) (dflt : A) (of_value : string → option A) (d : completion)
    : option A :=
  match dict_get k d with
  | None => Some dflt
  | Some (JStr s) => of_value s
  | _ => None
  end.
Definition opt_literal_field {A} (k : string) (of_value : string → option A) (d : completion)
    : option (option A) :=
  match dict_get k d with
  | None | Some JNull => Some None
  | Some (JStr s) => Some <$> of_value s
  | _ => None
  end.

(** [ProposeToolCall], apart from its tag *)
Definition proposal_fields (d : completion) : option ToolProposal :=
  tool_id ← str_field "tool_id" d;
  arguments ← dict_field "arguments" d;
  target ← dict_field "target" d;
  reason ← str_field "reason" d;
  Some {| tp_tool_id := tool_id; tp_arguments := arguments; tp_target := target;
          tp_reason := reason |}.
Definition recommended_field (d : completion) : option (option ToolProposal) :=
  match dict_get "recommended_tool_call" d with
  | None | Some JNull => Some None
  | Some (JObj o) =>
      _ ← literal_field "action" tt (λ s, if bool_decide (s = "propose_tool_call") then Some tt else None) o;
      Some <$> proposal_fields o
  | _ => None
  end.
Definition conclusion_fields (d : completion) : option Conclusion :=
  summary ← str_field "summary" d;
  cause ← opt_str_field "likely_root_cause" d;
  confidence ← literal_field "confidence" UNABLE_TO_CONFIRM confidence_of_value d;
  recommendation ← opt_str_field "recommendation" d;
  recommended ← recommended_field d;
  Some {| cl_summary := summary; cl_likely_root_cause := cause; cl_confidence := confidence;
          cl_recommendation := recommendation; cl_recommended_tool_call := recommended |}.

(** [agent_action_adapter.validate_python]: the tag decides *)
Definition validate_action (d : completion) : option AgentAction :=
  tag ← str_field "action" d;
  if bool_decide (tag = "ask_clarification") then AskClarification <$> str_field "question" d
  else if bool_decide (tag = "propose_tool_call") then ProposeToolCall <$> proposal_fields d
  else if bool_decide (tag = "record_observation") then RecordObservation <$> str_field "text" d
  else if bool_decide (tag = "conclude") then Conclude <$> conclusion_fields d
  else None.

Definition all_meta_commands : list MetaCommand :=
  [M_HELP; M_STATUS; M_SERVERS; M_PLAYBOOKS; M_CATALOG; M_DISCOVER; M_APPROVE; M_REJECT; M_MODELS;
   M_APPROVERS].
Definition meta_of_value (s : string) : option MetaCommand :=
  first_where (λ c, bool_decide (meta_value c = s)) all_meta_commands.

Section validators.
Context `{PydanticLax}.

Definition bool_field (k : string) (d : completion) : option bool := dict_get k d ≫= lax_bool.
Definition bool_field_default (k : string) (dflt : bool) (d : completion) : option bool :=
  match dict_get k d with None => Some dflt | Some v => lax_bool v end.

(** [IntentExtraction.model_validate] *)
Definition validate_intent (d : completion) : option IntentExtraction :=
  task ← bool_field "is_dba_task" d;
  chitchat ← bool_field_default "is_greeting_or_chitchat" false d;
  database ← opt_str_field "database_hint" d;
  environment ← opt_literal_field "environment_hint" env_of_value d;
  instance ← opt_str_field "instance_hint" d;
  meta ← opt_literal_field "meta_command" meta_of_value d;
  summary ← literal_field "problem_summary" "" Some d;
  Some {| ix_is_dba_task := task; ix_is_greeting_or_chitchat := chitchat;
          ix_database_hint := database; ix_environment_hint := environment;
          ix_instance_hint := instance; ix_meta_command := meta; ix_problem_summary := summary |}.

(** [CritiqueVerdict.model_validate] *)
Definition validate_verdict (d : completion) : option CritiqueVerdict :=
  sound ← bool_field "sound" d;
  issue ← opt_str_field "issue" d;
  Some {| cv_sound := sound; cv_issue := issue |}.
End validators.

Definition validated {A} (o : option A) : res exn A :=
  match o with Some a => Ok a | None => Err (PyError "ValidationError" "") end.

(** [_recover_misplaced_reason]: [(data.get("arguments") or {}).get("reason")] raises on a
    truthy value that is no object *)
Definition recover_misplaced_reason (d : completion) : res exn completion :=
  if negb (bool_decide (dict_get "action" d = Some (JStr "propose_tool_call"))) then Ok d
  else if match dict_get "reason" d with Some v => json_truthy v | None => false end then Ok d
  else
    match dict_get "arguments" d with
    | Some (JObj o) =>
        Ok (match dict_get "reason" o with
            | Some v => if json_truthy v then dict_set "reason" v d else d
            | None => d
            end)
    | Some v => if json_truthy v then Err (PyError "AttributeError" "") else Ok d
    | None => Ok d
    end.

Definition checked_action (d : completion) : res exn AgentAction :=
  d ← recover_misplaced_reason d; validated (validate_action d).

(* ------------------------------------------------------------------ *)
(** ** Retries under a deadline *)

Definition CALL_RETRIES : nat := 1.
Definition CALL_RETRY_DELAY_SECONDS : Q := 1.

Section retry.
Context {A : Type} (call : nat → Q * res exn completion) (check : completion → res exn A).

(** [attempt] in [_call_with_retry_unbounded] under [asyncio.wait_for]: when it ends, its
    result, and [last_raw], the response of the attempt that started last; the sleep of a
    second between two attempts is cut off like a call *)
Fixpoint retry_until (deadline : Q) (retries n : nat) (elapsed : Q)
    : Q * res exn A * option completion :=
  let '(took, answer) := call n in
  if negb (Qle_bool (elapsed + took) deadline) then (deadline, Err (PyError "TimeoutError" ""), None)
  else
    let elapsed := elapsed + took in
    let '(outcome, last_raw) :=
      match answer with Ok d => (check d, Some d) | Err e => (Err e, None) end in
    match outcome with
    | Ok a => (elapsed, Ok a, last_raw)
    | Err e =>
        match retries with
        | O => (elapsed, Err e, last_raw)
        | S retries =>
            let elapsed := elapsed + CALL_RETRY_DELAY_SECONDS in
            if negb (Qle_bool elapsed deadline) then
              (deadline, Err (PyError "TimeoutError" ""), last_raw)
            else retry_until deadline retries (S n) elapsed
        end
    end.

(** [_call_with_retry]: a [TimeoutError], wherever it comes from, gets the deadline's text *)
Definition deadline_exceeded (what : string) (e : exn) : exn :=
  match e with
  | PyError kind _ =>
      if bool_decide (kind = "TimeoutError")
      then PyError kind (what +:+ " did not complete within 20.0s") else e
  | NumiError _ _ _ => e
  end.
Definition call_with_retry (what : string) : Q * res exn A * option completion :=
  let '(elapsed, r, last_raw) := retry_until OVERALL_DEADLINE_SECONDS CALL_RETRIES 0 0 in
  (elapsed, match r with Ok a => Ok a | Err e => Err (deadline_exceeded what e) end, last_raw).
End retry.

(** the exception of a provider that never answered *)
Definition unavailable (name what : string) (cause : exn) : exn :=
  PyError "LLMProviderUnavailableError"
    (name +:+ " could not complete " +:+ what +:+ ": " +:+ exn_text cause).
Definition is_unavailable (e : exn) : bool :=
  match e with
  | PyError kind _ => bool_decide (kind = "LLMProviderUnavailableError")
  | NumiError _ _ _ => false
  end.

(* ------------------------------------------------------------------ *)
(** ** The provider *)

Section provider.
Context `{PydanticLax} (vendor : Vendor).

(** [_unavailable_question] *)
Definition unavailable_question : string :=
  "The " +:+ vd_name vendor +:+ " service is temporarily unavailable "
  +:+ "(high demand or a transient error) — please try again in a moment.".

Definition intent_prompt (message : string) (known_database_names known_server_hints : list string)
    : ToolPrompt := {|
  tq_system := INTENT_SYSTEM;
  tq_user := "Message: " +:+ repr_str message +:+ String newline "Known databases: "
    +:+ repr_list known_database_names +:+ String newline "Known servers: "
    +:+ repr_list known_server_hints;
  tq_tool_name := "submit_intent" |}.

(** [extract_intent_or_raise] *)
Definition extract_intent_or_raise (message : string)
    (known_database_names known_server_hints : list string) : Q * res exn IntentExtraction :=
  let prompt := intent_prompt message known_database_names known_server_hints in
  let '(elapsed, r, last_raw) :=
    call_with_retry (vd_call_tool vendor prompt) (λ d, validated (validate_intent d)) "extract_intent" in
  (elapsed,
   match r, last_raw with
   | Ok intent, _ => Ok intent
   | Err _, Some _ => Ok (best_effort_intent (str_strip message))
   | Err e, None => Err (unavailable (vd_name vendor) "extract_intent" e)
   end).

(** [extract_intent]: only [LLMProviderUnavailableError] is caught *)
Definition extract_intent_structured (message : string)
    (known_database_names known_server_hints : list string) : Q * res exn IntentExtraction :=
  let '(elapsed, r) := extract_intent_or_raise message known_database_names known_server_hints in
  (elapsed,
   match r with
   | Err e => if is_unavailable e then Ok (best_effort_intent (str_strip message)) else Err e
   | r => r
   end).

Definition requirements_line (tool_requirements : option (list (string * list string))) : string :=
  match tool_requirements with
  | None | Some [] => ""
  | Some l =>
      "Required `arguments` keys per tool_id — this is each tool's "
      +:+ "real schema, not a guess. Omitting a key listed for that "
      +:+ "tool invalidates the call. A tool_id mapped to an empty list "
      +:+ "([]) takes NO arguments at all: `arguments` MUST be exactly "
      +:+ "{} for it — never add `reason`, `session_id`, or any other "
      +:+ "key there just because it's real for some OTHER tool in this "
      +:+ "map: " +:+ repr_json (JObj (map (λ kv, (kv.1, JArr (map JStr kv.2))) l)) +:+ String newline ""
  end.
Definition action_prompt (args : DecideArgs) : ToolPrompt := {|
  tq_system := ACTION_SYSTEM;
  tq_user := "Problem: " +:+ da_problem_statement args +:+ String newline
      "Available tool ids (you may ONLY use these): " +:+ repr_list (da_available_tool_ids args)
    +:+ String newline (requirements_line (da_tool_requirements args))
    +:+ "Transcript of tool calls so far: " +:+ repr_json (JArr (map entry_json (da_transcript args)))
    +:+ String newline "Turn number: " +:+ pretty (da_turn_count args);
  tq_tool_name := "submit_decision" |}.

Definition NO_SAFE_STEP : string :=
  "I couldn't work out a safe next step — could you tell me more "
  +:+ "about what you'd like me to check?".
Definition NOT_OFFERED : string :=
  "I don't have a tool available for that action — could you "
  +:+ "clarify what you'd like me to check?".

(** a tool that was not offered is never proposed *)
Definition only_offered (available_tool_ids : list string) (action : AgentAction) : AgentAction :=
  match action with
  | ProposeToolCall p => if mem (tp_tool_id p) available_tool_ids then action
                         else AskClarification NOT_OFFERED
  | _ => action
  end.

(** [decide_next_action_or_raise] *)
Definition decide_next_action_or_raise (args : DecideArgs) : Q * res exn AgentAction :=
  let '(elapsed, r, last_raw) :=
    call_with_retry (vd_call_tool vendor (action_prompt args)) checked_action "decide_next_action" in
  (elapsed,
   match r, last_raw with
   | Ok action, _ => Ok (only_offered (da_available_tool_ids args) action)
   | Err _, Some _ => Ok (AskClarification NO_SAFE_STEP)
   | Err e, None => Err (unavailable (vd_name vendor) "decide_next_action" e)
   end).

(** [decide_next_action] *)
Definition decide_next_action_structured (args : DecideArgs) : Q * res exn AgentAction :=
  let '(elapsed, r) := decide_next_action_or_raise args in
  (elapsed,
   match r with
   | Err e => if is_unavailable e then Ok (AskClarification unavailable_question) else Err e
   | r => r
   end).

(** [critique_conclusion]: nothing is caught *)
Definition critique_prompt (args : CritiqueArgs) : ToolPrompt := {|
  tq_system := CRITIQUE_SYSTEM;
  tq_user := "Problem: " +:+ ca_problem_statement args +:+ String newline
      "Transcript of tool calls actually run: " +:+ repr_json (JArr (map entry_json (ca_transcript args)))
    +:+ String newline "Draft conclusion:" +:+ String newline "  summary: " +:+ ca_summary args
    +:+ String newline "  likely_root_cause: " +:+ default "None" (ca_root_cause args)
    +:+ String newline "  confidence: " +:+ confidence_value (ca_confidence args)
    +:+ String newline "  recommendation: " +:+ default "None" (ca_recommendation args);
  tq_tool_name := "submit_critique" |}.
Definition critique_conclusion_structured (args : CritiqueArgs) : Q * res exn CritiqueVerdict :=
  (call_with_retry (vd_call_tool vendor (critique_prompt args)) (λ d, validated (validate_verdict d))
     "critique_conclusion").1.
End provider.

(* ------------------------------------------------------------------ *)
(** ** The chain of providers: [CrossProviderFallbackLLM] *)

Section resilient.
Context `{PydanticLax} (primary : Vendor) (fallbacks : list (ChainEntry Vendor)).

Definition provider_chain : list (ChainEntry Vendor) :=
  {| ch_name := vd_name primary; ch_build := (0, Ok primary) |} :: fallbacks.

(** the answer, the notice and the clock when the walk ends; [degraded] when every provider
    is unavailable *)
Definition resilient_call {A} (call : Vendor → Q * res exn A) (degraded : A)
    : res exn A * list FallbackEvent * Q :=
  let '(r, ended) := walk call OVERALL_DEADLINE_SECONDS provider_chain in
  (or_degraded degraded r,
   match r with Answered _ (Some event) => [event] | _ => [] end, ended).

Definition resilient_intent (message : string) (known_database_names known_server_hints : list string)
    : res exn IntentExtraction * list FallbackEvent * Q :=
  resilient_call (λ v, extract_intent_or_raise v message known_database_names known_server_hints)
    (best_effort_intent (str_strip message)).
Definition resilient_decide (args : DecideArgs) : res exn AgentAction * list FallbackEvent * Q :=
  resilient_call (λ v, decide_next_action_or_raise v args)
    (AskClarification (unavailable_question primary)).
(** only the primary is asked *)
Definition resilient_critique (args : CritiqueArgs) : res exn CritiqueVerdict :=
  (critique_conclusion_structured primary args).2.
End resilient.

(* ------------------------------------------------------------------ *)
(** ** Facts *)

Section retry_facts.
Context {A : Type} (call : nat → Q * res exn completion) (check : completion → res exn A).
Hypothesis takes_time : ∀ n, 0 <= (call n).1.

(** what the attempts may end in: a response that passes the check; a last response that
    does not; or no response from the attempt that started last *)
Definition retried (lo hi : nat) (r : res exn A) (last_raw : option completion) : Prop :=
  match r, last_raw with
  | Ok a, _ => ∃ n d, (lo ≤ n ≤ hi)%nat ∧ (call n).2 = Ok d ∧ check d = Ok a
  | Err _, Some d => ∃ n e, (lo ≤ n ≤ hi)%nat ∧ (call n).2 = Ok d ∧ check d = Err e
  | Err e, None => ∃ n, (lo ≤ n ≤ hi)%nat ∧
      ((call n).2 = Err e ∨ e = PyError "TimeoutError" "")
  end.

Lemma retried_wider lo lo' hi hi' r raw : retried lo hi r raw → (lo' ≤ lo)%nat → (hi ≤ hi')%nat →
  retried lo' hi' r raw.
Proof.
  unfold retried. intros Hr Hlo Hhi. destruct r as [a|e], raw as [d|];
    [destruct Hr as (n & d' & Hn & Hr); exists n, d'|destruct Hr as (n & d' & Hn & Hr); exists n, d'
    |destruct Hr as (n & d' & Hn & Hr); exists n, d'|destruct Hr as (n & Hn & Hr); exists n].
  all: split; [lia|exact Hr].
Qed.

Lemma Qle_bool_false x y : Qle_bool x y = false → y <= x.
Proof.
  intros Hf. destruct (Qlt_le_dec y x) as [Hlt|Hle]; [by apply Qlt_le_weak|].
  apply Qle_bool_iff in Hle. congruence.
Qed.

Lemma retry_until_spec deadline retries : ∀ n elapsed, 0 <= elapsed <= deadline →
  let '(ended, r, last_raw) := retry_until call check deadline retries n elapsed in
  0 <= ended <= deadline ∧ retried n (n + retries) r last_raw.
Proof.
  induction retries as [|retries IH]; intros n elapsed Hel; cbn [retry_until];
    specialize (takes_time n) as Ht; destruct (call n) as [took answer] eqn:Ec; cbn [fst] in Ht;
    (destruct (Qle_bool (elapsed + took) deadline) eqn:Ed; cbn [negb];
      [apply Qle_bool_iff in Ed
      |split; [lra|exists n; split; [lia|by right]]]).
  - destruct answer as [d|e]; [destruct (check d) as [a|e] eqn:Ek|]; (split; [lra|]).
    + exists n, d. rewrite Ec. split_and!; [lia|lia|done..].
    + exists n, e. rewrite Ec. split_and!; [lia|lia|done..].
    + exists n. rewrite Ec. split; [lia|by left].
  - assert (∀ raw, match raw with Some d => answer = Ok d ∧ ∃ e, check d = Err e
                                | None => True end →
      let '(ended, r, last_raw) :=
        if negb (Qle_bool (elapsed + took + CALL_RETRY_DELAY_SECONDS) deadline)
        then (deadline, Err (PyError "TimeoutError" ""), raw)
        else retry_until call check deadline retries (S n) (elapsed + took + CALL_RETRY_DELAY_SECONDS) in
      0 <= ended <= deadline ∧ retried n (n + S retries) r last_raw) as Hagain.
    { intros raw Hraw.
      destruct (Qle_bool (elapsed + took + CALL_RETRY_DELAY_SECONDS) deadline) eqn:Es; cbn [negb].
      - apply Qle_bool_iff in Es.
        specialize (IH (S n) (elapsed + took + CALL_RETRY_DELAY_SECONDS)).
        destruct (retry_until _ _ _ _ _ _) as [[ended r] last_raw].
        destruct IH as [Hb Hr]; [unfold CALL_RETRY_DELAY_SECONDS in *; lra|].
        split; [done|]. eapply retried_wider; [exact Hr|lia..].
      - split; [lra|]. destruct raw as [d|]; cbn.
        + destruct Hraw as (-> & e & He). exists n, e. rewrite Ec. split_and!; [lia|lia|done..].
        + exists n. split; [lia|by right]. }
    destruct answer as [d|e]; [destruct (check d) as [a|e] eqn:Ek|].
    + split; [lra|]. exists n, d. rewrite Ec. split_and!; [lia|lia|done..].
    + apply (Hagain (Some d)). eauto.
    + by apply (Hagain None).
Qed.

Lemma call_with_retry_spec what :
  let '(ended, r, last_raw) := call_with_retry call check what in
  0 <= ended <= OVERALL_DEADLINE_SECONDS ∧
  match r, last_raw with
  | Ok a, _ => ∃ n d, (n ≤ CALL_RETRIES)%nat ∧ (call n).2 = Ok d ∧ check d = Ok a
  | Err _, Some d => ∃ n e, (n ≤ CALL_RETRIES)%nat ∧ (call n).2 = Ok d ∧ check d = Err e
  | Err _, None => True
  end.
Proof.
  unfold call_with_retry.
  pose proof (retry_until_spec OVERALL_DEADLINE_SECONDS CALL_RETRIES 0 0) as Hs.
  destruct (retry_until _ _ _ _ _ _) as [[ended r] last_raw].
  destruct Hs as [Hb Hr]; [unfold OVERALL_DEADLINE_SECONDS; lra|]. split; [exact Hb|].
  destruct r as [a|e]; [destruct Hr as (k & d & ? & ? & ?); exists k, d; split_and!; [lia|done..]|].
  destruct last_raw as [d|]; [|done]. destruct Hr as (k & e' & ? & ? & ?). exists k, e'. split_and!; [lia|done..].
Qed.
End retry_facts.

Section provider_facts.
Context `{PydanticLax}.

Lemma walk_continues_unavailable name what e : walk_continues (unavailable name what e) = true.
Proof. reflexivity. Qed.

(** one provider: within the deadline, either an outage, or an action, and a proposal is of an
    offered tool and is what one attempt answered *)
Definition decided_by (vendor : Vendor) (args : DecideArgs) (p : ToolProposal) : Prop :=
  tp_tool_id p ∈ da_available_tool_ids args ∧
  ∃ n d, (n ≤ CALL_RETRIES)%nat ∧ (vd_call_tool vendor (action_prompt args) n).2 = Ok d ∧
    checked_action d = Ok (ProposeToolCall p).

Lemma decide_or_raise_spec vendor args :
  let '(elapsed, r) := decide_next_action_or_raise vendor args in
  0 <= elapsed <= OVERALL_DEADLINE_SECONDS ∧
  match r with
  | Ok action => ∀ p, action = ProposeToolCall p → decided_by vendor args p
  | Err e => ∃ cause, e = unavailable (vd_name vendor) "decide_next_action" cause
  end.
Proof.
  unfold decide_next_action_or_raise.
  pose proof (call_with_retry_spec (vd_call_tool vendor (action_prompt args)) checked_action
    (vd_takes_time vendor _) "decide_next_action") as Hs.
  destruct (call_with_retry _ _ _) as [[elapsed r] last_raw]. destruct Hs as [Hb Hr].
  split; [exact Hb|]. destruct r as [action|e]; [|destruct last_raw; [done|eauto]].
  destruct Hr as (n & d & Hn & Hd & Hc). intros p. unfold only_offered.
  destruct action as [q|q|t|c]; [done| |done|done].
  destruct (mem (tp_tool_id q) (da_available_tool_ids args)) eqn:Em; [|done].
  intros [= ->]. split; [by apply bool_decide_eq_true in Em|]. by exists n, d.
Qed.

Lemma intent_or_raise_spec vendor message dbs hints :
  let '(elapsed, r) := extract_intent_or_raise vendor message dbs hints in
  0 <= elapsed <= OVERALL_DEADLINE_SECONDS ∧
  match r with
  | Ok _ => True
  | Err e => ∃ cause, e = unavailable (vd_name vendor) "extract_intent" cause
  end.
Proof.
  unfold extract_intent_or_raise.
  pose proof (call_with_retry_spec (vd_call_tool vendor (intent_prompt message dbs hints))
    (λ d, validated (validate_intent d)) (vd_takes_time vendor _) "extract_intent") as Hs.
  destruct (call_with_retry _ _ _) as [[elapsed r] last_raw]. destruct Hs as [Hb _].
  split; [exact Hb|]. destruct r as [i|e]; [done|]. destruct last_raw; eauto.
Qed.

(** a call over the chain: an answer of one of its providers or the degraded one, in time *)
Lemma resilient_call_spec {A} primary fallbacks (call : Vendor → Q * res exn A) degraded :
  (∀ v, 0 <= (call v).1) → (∀ v e, (call v).2 = Err e → walk_continues e = true) →
  let '(r, notices, ended) := resilient_call primary fallbacks call degraded in
  (∃ a, r = Ok a ∧ (a = degraded ∨ ∃ entry v, entry ∈ provider_chain primary fallbacks ∧
     (ch_build entry).2 = Ok v ∧ (call v).2 = Ok a)) ∧
  (length notices ≤ 1)%nat ∧
  (Forall (λ e, 0 <= (ch_build e).1) fallbacks →
   ended <= OVERALL_DEADLINE_SECONDS + build_times fallbacks).
Proof.
  intros Ht Hc. unfold resilient_call, walk.
  set (chain := provider_chain primary fallbacks).
  set (budget := per_attempt_budget_seconds _ _).
  pose proof (walk_from_outcome call OVERALL_DEADLINE_SECONDS budget chain [] 0 None (Forall_nil_2 _)) as Ho.
  pose proof (walk_no_escape call OVERALL_DEADLINE_SECONDS budget chain Hc 0 [] None) as He.
  pose proof (walk_from_deadline call OVERALL_DEADLINE_SECONDS budget chain 0 [] None) as Hd.
  unfold walk_outcome in Ho. cbn [app map] in Ho.
  destruct (walk_from _ _ _ _ _ _ _) as [r ended]. cbn [fst snd] in *. split_and!.
  - destruct r as [a event|last|e]; [|by eexists; eauto|done].
    destruct Ho as (before & entry & after & v & limit & Hchain & _ & Hb & _ & Hw & _).
    exists a. split; [done|]. right. exists entry, v. split_and!; [rewrite Hchain; set_solver|done|].
    unfold wait_for in Hw. destruct (call v) as [t o]. by destruct (Qle_bool t limit).
  - destruct r as [a [ev|]|last|e]; cbn; lia.
  - intros Hbuild. eapply Qle_trans; [apply Hd|].
    + split; [constructor; [cbn; lra|exact Hbuild]|exact Ht].
    + unfold budget, per_attempt_budget_seconds. destruct (length chain <=? 1)%nat; [by vm_compute|].
      apply Q.min_glb; [by vm_compute|]. eapply Qle_trans; [|apply Q.le_max_l]. by vm_compute.
    + by vm_compute.
    + assert (0 <= OVERALL_DEADLINE_SECONDS) as H0 by (by vm_compute).
      rewrite (Q.max_r _ _ H0). cbn. unfold build_times. lra.
Qed.
End provider_facts.

(** C26: whatever the vendors do, a decision is answered in time and cannot leave the offered
    tools: over any chain of providers [decide_next_action] never raises, ends within the
    twenty seconds but for the building of fallback providers, and a proposal it returns
    names an offered tool and is, validated, what a provider of the chain answered to this
    very prompt in one of its two attempts *)
Theorem resilient_decision_is_sound primary fallbacks args :
  let '(r, notices, ended) := resilient_decide primary fallbacks args in
  (∃ action, r = Ok action ∧ ∀ p, action = ProposeToolCall p →
     ∃ entry vendor, entry ∈ provider_chain primary fallbacks ∧ (ch_build entry).2 = Ok vendor ∧
       decided_by vendor args p) ∧
  (length notices ≤ 1)%nat ∧
  (Forall (λ e, 0 <= (ch_build e).1) fallbacks →
   ended <= OVERALL_DEADLINE_SECONDS + build_times fallbacks).
Proof.
  pose proof (resilient_call_spec primary fallbacks (λ v, decide_next_action_or_raise v args)
    (AskClarification (unavailable_question primary))) as Hr.
  unfold resilient_decide. destruct (resilient_call _ _ _ _) as [[r notices] ended].
  destruct Hr as [(action & -> & Ha) Hrest].
  - intros v. pose proof (decide_or_raise_spec v args) as Hs.
    destruct (decide_next_action_or_raise v args). apply Hs.
  - intros v e He. pose proof (decide_or_raise_spec v args) as Hs.
    destruct (decide_next_action_or_raise v args) as [t r']. cbn in He. subst r'.
    destruct Hs as [_ [cause ->]]. apply walk_continues_unavailable.
  - split; [|exact Hrest]. exists action. split; [done|]. intros p Hp.
    destruct Ha as [->|(entry & v & Hin & Hb & Hv)]; [discriminate Hp|].
    exists entry, v. split_and!; [done..|].
    pose proof (decide_or_raise_spec v args) as Hs.
    destruct (decide_next_action_or_raise v args) as [t r']. cbn in Hv. subst r'. by apply Hs.
Qed.

(** a vendor that hangs, and one that first leaves out the [tool_id], then answers *)
Definition hanging : Vendor.
Proof. refine {| vd_name := "gemini"; vd_call_tool _ _ := (60, Ok []) |}. intros. cbn. lra. Defined.
Definition answers : Vendor.
Proof.
  refine {| vd_name := "openai";
            vd_call_tool _ n := (2, Ok (match n with
              | O => [("action", JStr "propose_tool_call"); ("reason", JStr "slow")]
              | _ => [("action", JStr "propose_tool_call"); ("tool_id", JStr "database.kill_session");
                      ("arguments", JObj [("session_id", JStr "51"); ("reason", JStr "a blocker")])]
              end)) |}.
  intros. cbn. lra.
Defined.
Definition kill_args : DecideArgs := {|
  da_problem_statement := "why is it slow?"; da_available_tool_ids := ["database.kill_session"];
  da_transcript := []; da_turn_count := 0; da_tool_requirements := None |}.
Definition openai_fallback : ChainEntry Vendor := {| ch_name := "openai"; ch_build := (1, Ok answers) |}.

Lemma resilient_decision_is_sound_witness :
  let '(r, notices, ended) := resilient_decide hanging [openai_fallback] kill_args in
  r = Ok (ProposeToolCall {|
    tp_tool_id := "database.kill_session";
    tp_arguments := [("session_id", JStr "51"); ("reason", JStr "a blocker")];
    tp_target := []; tp_reason := "a blocker" |}) ∧
  notices = [{| fe_failed_providers := ["gemini"]; fe_used_provider := "openai" |}] ∧
  ended <= 21.
Proof.
  pose proof (resilient_decision_is_sound hanging [openai_fallback] kill_args) as Hr.
  destruct (resilient_decide hanging [openai_fallback] kill_args) as [[r notices] ended] eqn:E.
  destruct Hr as (_ & _ & Hended).
  vm_compute in E. injection E as <- <- <-. split_and!; [reflexivity|reflexivity|].
  eapply Qle_trans; [apply Hended; repeat constructor; cbn; lra|]. cbn. by vm_compute.
Defined.

(* ------------------------------------------------------------------ *)
(** ** The schema offered to the models *)

(** the [properties] of [arguments] in [_FLAT_ACTION_SCHEMA], with their JSON types *)
Definition FLAT_ARGUMENTS : list (string * string) :=
  [("session_id", "string"); ("query_id", "string"); ("reason", "string"); ("schema", "string");
   ("table", "string"); ("columns", "array"); ("name", "string"); ("unique", "boolean");
   ("index_name", "string"); ("parameter", "string"); ("value", "string");
   ("target_instance", "string"); ("order_by", "string"); ("limit", "integer");
   ("since_minutes", "integer"); ("database_name", "string"); ("backup_id", "string");
   ("predicate_description", "string")].

(** the name and the JSON type of a field in the schema of its argument model *)
Definition schema_key (f : ArgField) : string := default (af_name f) (af_alias f).
Definition schema_type (t : ArgType) : string :=
  match t with
  | TStr _ _ | TStrPattern _ => "string" | TInt _ _ => "integer" | TBool => "boolean"
  | TStrList _ _ => "array"
  end.

(** the two SQL tools apart, whose [sql] it lacks, the schema has a slot of the right type for
    every argument of every tool the Gateway validates *)
Theorem flat_schema_covers id fields f :
  (id, fields) ∈ ARGUMENT_MODELS → f ∈ fields →
  (schema_key f, schema_type (af_type f)) ∈ FLAT_ARGUMENTS ∨
  (id ∈ ["database.execute_readonly_sql"; "database.execute_sql"] ∧ schema_key f = "sql" ∧
   "sql" ∉ FLAT_ARGUMENTS.*1).
Proof.
  intros Hid Hf.
  assert (Forall (λ m, Forall (λ f, (schema_key f, schema_type (af_type f)) ∈ FLAT_ARGUMENTS ∨
    (m.1 ∈ ["database.execute_readonly_sql"; "database.execute_sql"] ∧ schema_key f = "sql" ∧
     "sql" ∉ FLAT_ARGUMENTS.*1)) m.2) ARGUMENT_MODELS) as Hall.
  { apply (bool_decide_unpack _). vm_compute. exact I. }
  rewrite Forall_forall in Hall. specialize (Hall _ Hid). rewrite Forall_forall in Hall. by apply Hall.
Qed.
