(* ===== verification/AgentScript.v ===== *)
(** A scripted world: the interfaces of [AgentApi] instantiated with lists of
    prepared answers, consumed in order.  The witnesses run whole conversations
    in it. *)
From S2P Require Import Prelude ProgramLogic Json Text Models ToolCatalog Servers Policy Approval.
From S2P Require Import Gateway Investigations Fallback Playbooks Conversation Config LLMRegistry AgentApi.

Record Script : Type := {
  sc_intents : list (res exn IntentExtraction);
  sc_actions : list (res exn AgentAction);
  sc_verdicts : list (res exn CritiqueVerdict);
  sc_responses : list (res exn ToolCallResponse);
  sc_approvals : list (res exn ApprovalAnswer);
  sc_tools : list OfferedTool;
  sc_servers : list ServerSummary;
  sc_catalogs : list (string * (string * option ServerCatalog));
  sc_ids : nat
}.
#[export] Instance Script_rebuild : Rebuild Script := λ s, {|
  sc_intents := sc_intents s; sc_actions := sc_actions s; sc_verdicts := sc_verdicts s;
  sc_responses := sc_responses s; sc_approvals := sc_approvals s; sc_tools := sc_tools s;
  sc_servers := sc_servers s; sc_catalogs := sc_catalogs s; sc_ids := sc_ids s |}.

Definition empty_script : Script := {|
  sc_intents := []; sc_actions := []; sc_verdicts := []; sc_responses := []; sc_approvals := [];
  sc_tools := []; sc_servers := []; sc_catalogs := []; sc_ids := 0 |}.

Definition timeout_exn : exn := PyError "ReadTimeout" "timed out".

(** the next prepared answer; past the end, a timeout *)
Definition next_answer {A} (field : Script → list (res exn A)) (rest : list (res exn A) → Script → Script)
    : M Script exn A := λ s,
  match field s with
  | [] => (Err timeout_exn, s)
  | r :: l => (r, rest l s)
  end.

#[export] Instance script_gateway : GatewayClient Script := {|
  gc_available_tools _ _ s := (Ok (sc_tools s), s);
  gc_list_servers s := (Ok (sc_servers s), s);
  gc_get_server_catalog id s := (Ok (dict_get id (sc_catalogs s)), s);
  gc_refresh_one _ _ id s := (Ok (inr {| ro_server_id := id; ro_databases := []; ro_error := None |}), s);
  gc_refresh_all _ _ s := (Ok (inr []), s);
  gc_submit _ := next_answer sc_responses (λ l s, s <| sc_responses := l |>);
  gc_approve _ _ _ := next_answer sc_approvals (λ l s, s <| sc_approvals := l |>);
  gc_reject _ _ _ := next_answer sc_approvals (λ l s, s <| sc_approvals := l |>);
  gc_create_investigation _ s := s;
  gc_update_investigation _ _ s := s;
  gc_get_investigation_memory _ _ _ s := ([], s);
  gc_get_cross_server_patterns _ _ _ s := ([], s);
  gc_log_decision_event _ s := s
|}.

Definition scripted {A} (m : M Script exn A) : llm_call Script A := λ s,
  let '(r, s) := m s in ((r, []), s).
#[export] Instance script_llm : LLMProvider Script := {|
  llm_extract_intent _ _ _ _ := scripted (next_answer sc_intents (λ l s, s <| sc_intents := l |>));
  llm_decide_next_action _ _ := scripted (next_answer sc_actions (λ l s, s <| sc_actions := l |>));
  llm_critique_conclusion _ _ := scripted (next_answer sc_verdicts (λ l s, s <| sc_verdicts := l |>));
  llm_provider_name _ := "mock";
  llm_model_name _ := "mock-1";
  llm_vendor_models p s := (Ok [p +:+ "-1"; p +:+ "-2"], s)
|}.

#[export] Instance script_runtime : AgentRuntime Script := {|
  new_ulid s := (pretty (N.of_nat (sc_ids s)), s <| sc_ids ::= S |>);
  utc_now s := (0%Z, s)
|}.

(** *** Values for the witnesses *)

Definition script_settings : Settings :=
  default_settings <| st_llm_fast_model := "fast" |> <| st_llm_strong_model := "strong" |>.

Definition offered (id : string) (op : OperationType) : OfferedTool :=
  {| ot_tool_id := id; ot_operation_type := op; ot_required := []; ot_properties := ["session_id"] |}.
Definition proposal (id : string) (session : string) : ToolProposal :=
  {| tp_tool_id := id; tp_arguments := [("session_id", JStr session)];
     tp_target := [("environment", JStr "uat")]; tp_reason := "because" |}.
Definition script_conclusion (summary : string) : Conclusion :=
  {| cl_summary := summary; cl_likely_root_cause := Some "a blocked session"; cl_confidence := LIKELY;
     cl_recommendation := None; cl_recommended_tool_call := None |}.
Definition executed (rows : list json) : ToolCallResponse := {|
  rs_status := TC_EXECUTED; rs_execution_id := Some "exec_0"; rs_approval_id := None;
  rs_failure_code := None; rs_message := "Completed."; rs_risk := None; rs_policy_decision := None;
  rs_result := Some (JObj [("rows", JArr rows)]) |}.

Definition script_state (read_only : bool) (x : Script) : Ag Script :=
  mk_ag (new_conversation "conv_1" "slack" "t1" "u1" 0)
        (new_investigation "inv_1" "why is CoreBanking slow?" None read_only) x [].

(** a blocked session is killed, checked, and reported *)
Definition kill_script : Script := empty_script
  <| sc_tools := [offered "database.get_sessions" READ; offered "database.kill_session" WRITE] |>
  <| sc_actions := [Ok (ProposeToolCall (proposal "database.kill_session" "51"));
                    Ok (ProposeToolCall (proposal "database.get_sessions" "51"));
                    Ok (Conclude (script_conclusion "session 51 blocked the others"))] |>
  <| sc_responses := [Ok (executed []); Ok (executed [])] |>
  <| sc_verdicts := [Ok {| cv_sound := true; cv_issue := None |}] |>.

Definition script_intent (problem : string) : IntentExtraction := {|
  ix_is_dba_task := true; ix_is_greeting_or_chitchat := false; ix_database_hint := None;
  ix_environment_hint := Some UAT; ix_instance_hint := None; ix_meta_command := None;
  ix_problem_summary := problem |}.
Definition needs_approval_response (id : string) : ToolCallResponse := {|
  rs_status := TC_APPROVAL_REQUIRED; rs_execution_id := None; rs_approval_id := Some id;
  rs_result := None; rs_failure_code := None; rs_message := "This action requires DBA approval.";
  rs_risk := None; rs_policy_decision := None |}.

(** a session is killed after an approval *)
Definition approve_script : Script := empty_script
  <| sc_tools := [offered "database.get_sessions" READ; offered "database.kill_session" WRITE] |>
  <| sc_intents := [Ok (script_intent "end session 51")] |>
  <| sc_actions := [Ok (ProposeToolCall (proposal "database.kill_session" "51"))] |>
  <| sc_responses := [Ok (needs_approval_response "apr_1"); Ok (executed [])] |>
  <| sc_approvals := [Ok {| aa_status := "APPROVED"; aa_detail := "" |}] |>.
