(* ===== verification/Investigator.v ===== *)
(** The investigation loop of the Agent: the part of [agent/orchestrator.py] from
    [_continue_investigation] down.  It is written against the interfaces of
    [AgentApi]; logging is left out. *)
From S2P Require Import Prelude ProgramLogic Json Text Models ToolCatalog Servers Policy Approval.
From S2P Require Import Gateway Investigations Fallback Playbooks Conversation Config LLMRegistry AgentApi.

Definition MAX_INVESTIGATION_TURNS : nat := 6.
Definition MAX_CONSECUTIVE_RECORD_OBSERVATIONS : nat := 2.
Definition MAX_CLARIFICATION_TURNS : nat := 4.
Definition SELF_CORRECTABLE_DENIAL_CODES : list string :=
  ["INVALID_ARGUMENTS"; "INVALID_TARGET"; "TOOL_NOT_FOUND"].
Definition READ_ONLY_GUARD_TOOL_ID : string := "internal.readonly_guard".

Definition VERIFICATION_TOOLS_BY_WRITE_TOOL : list (string * list string) :=
  [("database.kill_session", ["database.get_blocking_sessions"; "database.get_sessions"]);
   ("database.cancel_query", ["database.get_blocking_sessions"; "database.get_running_queries";
                              "database.get_sessions"])].

(* ------------------------------------------------------------------ *)
(** ** Grounding *)

(** a word of the shape of [_CAMEL_CASE_NAME_RE]: two or more segments of an upper
    case letter and a non-empty run of lower case letters and digits *)
Definition is_upper (c : ascii) : bool :=
  let n := Ascii.N_of_ascii c in (65 <=? n)%N && (n <=? 90)%N.
Fixpoint camel_rest (segments : nat) (open : bool) (s : string) : bool :=
  match s with
  | EmptyString => negb open && (2 <=? segments)%nat
  | String c s =>
      if is_upper c then negb open && camel_rest (S segments) true s
      else if is_alnum c then (0 <? segments)%nat && camel_rest segments false s
      else false
  end.
Definition is_camel_case (w : string) : bool := camel_rest 0 false w.

(** [_CAMEL_CASE_NAME_RE.finditer(text)] *)
Definition camel_case_names (text : string) : list string :=
  List.filter is_camel_case (words text).

(** [" ".join([json.dumps(real_transcript), problem, " ".join(real_evidence)]).lower()] *)
Definition grounding_haystack (i : InvestigationState) : string :=
  let real_transcript :=
    List.filter (λ t, negb (bool_decide (te_tool_id t = "internal.grounding_check")))
      (is_transcript i) in
  let real_evidence :=
    List.filter (λ e, negb (starts_with "(a draft conclusion naming" e)) (is_evidence i) in
  str_lower (str_join " " [json_print (JArr (map entry_json real_transcript)); is_problem i;
                           str_join " " real_evidence]).

(** [" ".join(filter(None, [...]))] *)
Definition claimed_text (c : Conclusion) : string :=
  str_join " " (List.filter truthy
    [cl_summary c; default "" (cl_likely_root_cause c); default "" (cl_recommendation c)]).

(** [_ungrounded_identifiers] *)
Definition ungrounded_identifiers (c : Conclusion) (i : InvestigationState) : list string :=
  let haystack := grounding_haystack i in
  let seen := foldl append_new [] (camel_case_names (claimed_text c)) in
  List.filter (λ name, negb (str_contains (str_lower name) haystack)) seen.

(* ------------------------------------------------------------------ *)
(** ** Verification of a write *)

Definition json_get (k : string) (v : json) : option json :=
  match v with JObj d => dict_get k d | _ => None end.

(** [(result or {}).get("rows") or []] *)
Definition result_rows (result : option json) : list json :=
  match result ≫= json_get "rows" with Some (JArr rows) => rows | _ => [] end.

(** [_verification_still_shows_condition] *)
Definition verification_still_shows_condition (tool_id : string) (session_id : option json)
    (result : option json) : bool :=
  match session_id with
  | None => false
  | Some session_id =>
      if negb (json_truthy session_id) then false
      else
        let keys := if bool_decide (tool_id = "database.get_blocking_sessions")
                    then ["blocked_session_id"; "blocking_session_id"] else ["session_id"] in
        existsb (λ row, existsb (λ key,
          bool_decide (str_json (default JNull (json_get key row)) = str_json session_id)) keys)
          (result_rows result)
  end.

(** [_affected_summary] *)
Definition affected_summary (result : option json) : string :=
  match result ≫= json_get "affected" with
  | Some (JObj ((k, v) :: items)) =>
      " (" +:+ str_join ", " (map (λ kv, kv.1 +:+ "=" +:+ str_json kv.2) ((k, v) :: items)) +:+ ")"
  | _ => ""
  end.

(** [_is_confirmed_read_tool] *)
Definition is_confirmed_read_tool (tool_id : string)
    (tool_operation_types : option (list (string * OperationType))) : bool :=
  bool_decide (dict_get tool_id (default [] tool_operation_types) = Some READ).

(** [_conclusion_stage] *)
Definition conclusion_stage (i : InvestigationState) : InvestigationStage :=
  match is_last_verification i with
  | Some RESOLVED => CONCLUDED_VERIFIED
  | Some UNRESOLVED => CONCLUDED_UNRESOLVED
  | None =>
      match is_pending_verification i with
      | Some _ => CONCLUDED_UNVERIFIED
      | None => CONCLUDED_NO_ACTION
      end
  end.

(** [_verification_note] *)
Definition verification_note (i : InvestigationState) : option string :=
  match conclusion_stage i with
  | CONCLUDED_VERIFIED =>
      Some "Verification: independently re-checked afterward and confirmed resolved."
  | CONCLUDED_UNRESOLVED =>
      Some ("Verification: independently re-checked afterward — this did NOT actually resolve "
            +:+ "the condition; further action is likely still needed.")
  | CONCLUDED_UNVERIFIED =>
      Some ("Verification: " +:+ default "" (pv_tool_id <$> is_pending_verification i)
            +:+ " executed, but I ran out of turns before independently re-checking whether it "
            +:+ "actually took effect — treat this as executed but NOT independently verified.")
  | _ => None
  end.

(** [_update_pending_verification], for an EXECUTED call *)
Definition update_pending_verification (action : ToolProposal) (arguments : list (string * json))
    (result : option json) (tool_operation_types : option (list (string * OperationType)))
    (i : InvestigationState) : InvestigationState :=
  let after_write :=
    match dict_get (tp_tool_id action) VERIFICATION_TOOLS_BY_WRITE_TOOL with
    | None => i
    | Some verification_tools =>
        let is_write := match tool_operation_types with
                        | None => true
                        | Some types => bool_decide (dict_get (tp_tool_id action) types = Some WRITE)
                        end in
        if negb is_write then i
        else i <| is_pending_verification := Some {|
                    pv_tool_id := tp_tool_id action; pv_verification_tools := verification_tools;
                    pv_session_id := dict_get "session_id" arguments;
                    pv_reason := tp_reason action |} |>
               <| is_last_verification := None |>
    end in
  match is_pending_verification i with
  | Some pending =>
      if mem (tp_tool_id action) (pv_verification_tools pending) then
        let still_present := verification_still_shows_condition (tp_tool_id action)
                               (pv_session_id pending) result in
        i <| is_last_verification := Some (if still_present then UNRESOLVED else RESOLVED) |>
          <| is_pending_verification := None |>
      else after_write
  | None => after_write
  end.

(* ------------------------------------------------------------------ *)
(** ** Texts *)

(** [_format_report] *)
Definition format_report (i : InvestigationState) (c : Conclusion) : string :=
  str_join (String newline "") (
    match get_playbook (is_playbook_id i) with
    | Some p => ["Followed the '" +:+ pb_name p +:+ "' playbook."] | None => [] end
    ++ ["Summary: " +:+ cl_summary c]
    ++ match is_evidence i with
       | [] => [] | evidence => ["Evidence: " +:+ str_join "; " evidence] end
    ++ (if opt_truthy (cl_likely_root_cause c) then
          ["Root Cause (" +:+ match cl_confidence c with
                              | CONFIRMED => "Confirmed" | LIKELY => "Likely"
                              | UNABLE_TO_CONFIRM => "Unable to confirm" end
           +:+ "): " +:+ default "" (cl_likely_root_cause c)] else [])
    ++ (if opt_truthy (cl_recommendation c) then
          ["Recommended Action: " +:+ default "" (cl_recommendation c)] else [])
    ++ match verification_note i with Some note => [note] | None => [] end).

(** [_no_root_cause_reply] *)
Definition no_root_cause_reply (i : InvestigationState) : AgentReply :=
  agent_reply ("I've run several diagnostic steps without reaching a confirmed root cause. "
    +:+ "Here's what I found:" +:+ String newline (str_join (String newline "")
                                      (map (λ e, "- " +:+ e) (is_evidence i))))
    "ok" (Some (is_investigation_id i)).

Definition two_newlines : string := String newline (String newline "").
Definition quoted (s : string) : string := String dquote (s +:+ String dquote "").

Definition memory_line (m : MemoryEntry) : string :=
  "- [server: " +:+ str_or (me_server_id m) "unknown" +:+ "] (" +:+ me_status m +:+ ") "
  +:+ repr_str (me_problem m) +:+ " — findings: " +:+ repr_json (JArr (me_findings m))
  +:+ "; recommendations: " +:+ repr_json (JArr (me_recommendations m)).

(** [_problem_statement_for_llm] *)
Definition problem_statement_for_llm (i : InvestigationState) : string :=
  let playbook := get_playbook (is_playbook_id i) in
  let problem := is_problem i in
  let problem :=
    match is_memory_context i with
    | [] => problem
    | memory => problem +:+ two_newlines
        +:+ "For background only, not verified findings for THIS investigation — related prior "
        +:+ "investigations:" +:+ String newline (str_join (String newline "") (map memory_line memory))
    end in
  let problem :=
    if truthy (is_last_message i) then
      problem +:+ two_newlines +:+ "The DBA just replied: " +:+ repr_str (is_last_message i)
    else problem in
  let problem :=
    match playbook with
    | Some p =>
        if (length (pb_steps p) <=? is_playbook_step i)%nat then
          problem +:+ two_newlines +:+ "You just followed the '" +:+ pb_name p
          +:+ "' playbook — see the transcript for what was checked and found. "
          +:+ pb_conclusion_guidance p +:+ " If the evidence gathered is enough "
          +:+ "to conclude, conclude now rather than proposing further tool calls. "
          +:+ "If it is NOT enough, propose one or more additional read-only "
          +:+ "diagnostic tool calls that would specifically fill the gap, before "
          +:+ "concluding — you are not limited to this playbook's fixed steps; "
          +:+ "any tool in the available list is yours to use."
        else problem
    | None => problem
    end in
  if (0 <? is_consecutive_record_observations i)%nat then
    problem +:+ two_newlines +:+ "You have already recorded an observation without concluding. Do "
    +:+ "not record another restatement of the same finding — if you have "
    +:+ "enough information to answer the DBA's question (" +:+ quoted "nothing wrong was found"
    +:+ " or " +:+ quoted "X isn't configured" +:+ " both count as complete "
    +:+ "answers), you MUST use action=conclude now instead."
  else problem.

(** [_strip_unschematized_arguments] *)
Definition strip_unschematized_arguments (action : ToolProposal)
    (tool_allowed_arguments : option (list (string * list string))) : list (string * json) :=
  match dict_get (tp_tool_id action) (default [] tool_allowed_arguments) with
  | None => tp_arguments action
  | Some allowed => List.filter (λ kv, mem kv.1 allowed) (tp_arguments action)
  end.

(** [{**a, **b}] *)
Definition dict_merge {V} (a b : list (string * V)) : list (string * V) :=
  foldl (λ d kv, dict_set kv.1 kv.2 d) a b.
(** [{t.tool_id: f(t) for t in available}] *)
Definition by_tool_id {V} (f : OfferedTool → V) (available : list OfferedTool) : list (string * V) :=
  foldl (λ d t, dict_set (ot_tool_id t) (f t) d) [] available.

(** [_append_evidence_once] *)
Definition append_evidence_once (text : string) (i : InvestigationState) : InvestigationState :=
  if bool_decide (last (is_evidence i) = Some text) then i
  else i <| is_evidence ::= λ l, l ++ [text] |>.

Definition append_transcript (tool_id reason : string) (result : json) (i : InvestigationState)
    : InvestigationState :=
  i <| is_transcript ::= λ l, l ++ [{| te_tool_id := tool_id; te_reason := reason;
                                        te_result := result |}] |>.
Definition append_evidence (text : string) (i : InvestigationState) : InvestigationState :=
  i <| is_evidence ::= λ l, l ++ [text] |>.

(* ------------------------------------------------------------------ *)
(** ** Servers *)

(** the test of [_find_matching_servers] on one server *)
Definition server_matches (hint : string) (s : ServerSummary) : bool :=
  let hint := str_lower (str_strip hint) in
  let hint_normalized := normalize_server_reference hint in
  let names := map str_lower (ss_id s :: ss_aliases s) in
  let host := str_lower (default "" (ss_host s)) in
  let normalized_names := map normalize_server_reference names in
  mem hint names || bool_decide (hint = host) || mem hint_normalized normalized_names
  || existsb (str_contains hint) names || (truthy host && str_contains hint host)
  || existsb (str_contains hint_normalized) normalized_names.

(** the set of the environments of the matches, when it has one element *)
Definition sole_value (l : list string) : option string :=
  match l with
  | [] => None
  | x :: l => if forallb (λ y, bool_decide (y = x)) l then Some x else None
  end.

Section investigator.
Context {X : Type} `{GatewayClient X} `{LLMProvider X} `{AgentRuntime X}.
Context (cfg : Settings).

Definition log_event (event_type : string) (llm : LLMChoice) (payload : list (string * json))
    : M (Ag X) exn unit :=
  s ← get_conv; i ← get_inv;
  in_world (gc_log_decision_event {|
    de_type := event_type; de_conversation := Some (cs_conversation_id s);
    de_investigation := Some (is_investigation_id i);
    de_provider_name := llm_provider_name llm; de_model_name := llm_model_name llm;
    de_payload_json := payload |}).

(** [_list_servers_cached] *)
Definition list_servers_cached : M (Ag X) exn (list ServerSummary) :=
  try_except (on_world gc_list_servers) (λ _, mret []).

(** [_known_database_names], [_known_server_hints] *)
Definition known_database_names : M (Ag X) exn (list string) :=
  servers ← list_servers_cached;
  mret (List.filter truthy (foldl append_new []
    (servers ≫= λ s, match ss_catalog s with Some c => cm_databases c | None => [] end))).
Definition known_server_hints : M (Ag X) exn (list string) :=
  servers ← list_servers_cached;
  mret (List.filter truthy (foldl append_new [] (servers ≫= λ s, ss_id s :: ss_aliases s))).

(** [_find_matching_servers], [_environment_for_instance], [_canonical_server_id] *)
Definition find_matching_servers (instance_hint : string) : M (Ag X) exn (list ServerSummary) :=
  servers ← list_servers_cached;
  mret (List.filter (server_matches instance_hint) servers).
Definition environment_for_instance (instance_hint : string) : M (Ag X) exn (option string) :=
  servers ← find_matching_servers instance_hint;
  mret (sole_value (List.filter truthy (map ss_environment servers))).
Definition canonical_server_id (instance_hint : string) : M (Ag X) exn string :=
  servers ← find_matching_servers instance_hint;
  mret (default instance_hint (sole_value (map ss_id servers))).

(* ------------------------------------------------------------------ *)
(** ** [_submit_and_relay] *)

Definition drop_write_proposal (action : ToolProposal) (i : InvestigationState)
    : InvestigationState :=
  append_evidence ("(a proposed " +:+ tp_tool_id action +:+ " was not submitted — this scheduled run "
                   +:+ "is read-only and never executes an action)")
  (append_transcript READ_ONLY_GUARD_TOOL_ID
    "Enforcing read-only mode on an unattended, scheduled run."
    (JObj [("dropped_tool_id", JStr (tp_tool_id action));
           ("dropped_reason", JStr (tp_reason action));
           ("message", JStr (tp_tool_id action +:+ " was NOT submitted. This is an unattended "
              +:+ "scheduled health sweep: it reports findings and "
              +:+ "recommendations as text only and never takes an action. "
              +:+ "Describe what you would recommend and why, and conclude — "
              +:+ "a DBA will decide whether to act on it."))]) i).

Definition decline_approval_card (action : ToolProposal) (i : InvestigationState)
    : InvestigationState :=
  append_evidence ("(" +:+ tp_tool_id action +:+ " requires DBA approval — not requested, because this "
                   +:+ "scheduled run never asks for one)")
  (append_transcript READ_ONLY_GUARD_TOOL_ID
    "Declining an approval card on an unattended, scheduled run."
    (JObj [("dropped_tool_id", JStr (tp_tool_id action));
           ("message", JStr (tp_tool_id action +:+ " requires DBA approval, which an "
              +:+ "unattended scheduled run must never request. Report this "
              +:+ "as something a DBA needs to look at, and conclude."))]) i).

(** [except Exception] around [submit] *)
Definition submit_failed (action : ToolProposal) (e : exn) : M (Ag X) exn (option AgentReply) :=
  _ ← mod_inv (λ i, append_evidence (tp_tool_id action +:+ " did not respond in time: " +:+ exn_text e)
        (append_transcript (tp_tool_id action) (tp_reason action)
           (JObj [("error", JStr (exn_text e))]) i));
  i ← get_inv;
  mret (Some (agent_reply
    ("I couldn't get a response for " +:+ tp_tool_id action +:+ " in time — the "
     +:+ "database or Gateway may be under heavy load right now, which "
     +:+ "could itself be relevant to what you're investigating. Try again in a moment.")
    "error" (Some (is_investigation_id i)))).

(** remembering a database the Gateway did not reject *)
Definition remember_database (request : ToolCallRequest) (response : ToolCallResponse)
    (c : ConversationState) : ConversationState :=
  match dict_get "database" (tr_target request) with
  | Some database =>
      if json_truthy database
         && negb (bool_decide (rs_status response = TC_DENIED)
                  && bool_decide (rs_failure_code response = Some "INVALID_TARGET"))
      then c <| cs_database_context ::= dict_set "database" database |> else c
  | None => c
  end.

(** an APPROVAL_REQUIRED response carries an approval id *)
Definition relay_approval (action : ToolProposal) (request : ToolCallRequest)
    (response : ToolCallResponse) : M (Ag X) exn (option AgentReply) :=
  let approval_id := default "" (rs_approval_id response) in
  let risk_level := match rs_risk response with
                    | Some r => risk_value (ra_risk_level r) | None => "UNKNOWN" end in
  _ ← mod_conv (λ c, c <| cs_pending_approval := Some {|
        pa_approval_id := approval_id; pa_tool_id := tp_tool_id action;
        pa_summary := tp_reason action; pa_request := request |} |>);
  i ← get_inv;
  mret (Some {|
    rp_text := "Recommended action: " +:+ tp_tool_id action +:+ " — " +:+ tp_reason action
      +:+ String newline ("Risk: " +:+ risk_level +:+ two_newlines
      +:+ "This requires DBA approval before I run it.");
    rp_status := "approval_required";
    rp_approval_card := Some {|
      card_approval_id := approval_id; card_tool_id := tp_tool_id action;
      card_target_summary := repr_json (JObj (tr_target request)); card_reason := tp_reason action;
      card_risk_level := risk_level;
      card_blast_radius := match rs_risk response with
                           | Some r => blast_value (ra_blast_radius r) | None => "UNKNOWN" end;
      card_expires_in_seconds := 600 |};
    rp_investigation_id := Some (is_investigation_id i);
    rp_approval_still_pending := false |}).

Definition relay_denied (action : ToolProposal) (response : ToolCallResponse)
    : M (Ag X) exn (option AgentReply) :=
  i ← get_inv;
  let code := default "" (rs_failure_code response) in
  let self_correctable_code :=
    match rs_failure_code response with
    | Some c => mem c SELF_CORRECTABLE_DENIAL_CODES | None => false end in
  if self_correctable_code && (is_turn_count i <? MAX_INVESTIGATION_TURNS)%nat then
    _ ← mod_inv (λ i, append_evidence (tp_tool_id action +:+ " was rejected (" +:+ code +:+ "): "
                                       +:+ rs_message response)
          (append_transcript (tp_tool_id action) (tp_reason action)
             (JObj [("error", JStr (rs_message response)); ("failure_code", JStr code)]) i));
    mret None
  else if self_correctable_code then
    mret (Some (agent_reply
      ("I ran out of attempts trying to get the request format right for " +:+ tp_tool_id action
       +:+ " — the last attempt failed validation (" +:+ code +:+ "). Try rephrasing your "
       +:+ "request, or ask again more specifically.")
      "denied" (Some (is_investigation_id i))))
  else
    mret (Some (agent_reply ("I can't do that: " +:+ rs_message response)
                  "denied" (Some (is_investigation_id i)))).

Definition relay_executed (action : ToolProposal) (arguments : list (string * json))
    (response : ToolCallResponse) (tool_operation_types : option (list (string * OperationType)))
    (i : InvestigationState) : InvestigationState :=
  update_pending_verification action arguments (rs_result response) tool_operation_types
    ((append_evidence (tp_tool_id action +:+ ": " +:+ rs_message response
                       +:+ affected_summary (rs_result response))
       (append_transcript (tp_tool_id action) (tp_reason action)
          (default (JObj []) (rs_result response)) i))
     <| is_actions ::= λ l, l ++ [{| ea_tool_id := tp_tool_id action;
                                     ea_result := rs_result response |}] |>).

(** from the response on *)
Definition relay_response (action : ToolProposal) (arguments : list (string * json))
    (request : ToolCallRequest) (response : ToolCallResponse)
    (tool_operation_types : option (list (string * OperationType)))
    : M (Ag X) exn (option AgentReply) :=
  _ ← mod_conv (remember_database request response);
  i ← get_inv;
  match rs_status response with
  | TC_APPROVAL_REQUIRED =>
      if is_read_only i then _ ← mod_inv (decline_approval_card action); mret None
      else relay_approval action request response
  | TC_DENIED => relay_denied action response
  | TC_FAILED =>
      _ ← mod_inv (λ i, append_evidence (tp_tool_id action +:+ " failed: " +:+ rs_message response)
            (append_transcript (tp_tool_id action) (tp_reason action)
               (JObj [("error", JStr (rs_message response))]) i));
      mret None
  | TC_EXECUTED =>
      _ ← mod_inv (relay_executed action arguments response tool_operation_types);
      mret None
  end.

Definition agent_submit (request : ToolCallRequest) : M (Ag X) exn ToolCallResponse :=
  _ ← record_event (EvSubmit request); on_world (gc_submit request).

Definition submit_and_relay (action : ToolProposal) (channel channel_account_id : string)
    (tool_allowed_arguments : option (list (string * list string)))
    (tool_operation_types : option (list (string * OperationType)))
    : M (Ag X) exn (option AgentReply) :=
  i ← get_inv;
  if is_read_only i && negb (is_confirmed_read_tool (tp_tool_id action) tool_operation_types) then
    _ ← mod_inv (drop_write_proposal action); mret None
  else
    let arguments := strip_unschematized_arguments action tool_allowed_arguments in
    state ← get_conv;
    ulid ← from_world new_ulid;
    let request := {|
      tr_tool_id := tp_tool_id action; tr_tool_version := None; tr_arguments := arguments;
      tr_target := dict_merge (cs_database_context state) (tp_target action);
      tr_reason := tp_reason action; tr_conversation_id := cs_conversation_id state;
      tr_investigation_id := Some (is_investigation_id i); tr_request_id := new_id "req" ulid;
      tr_channel := channel; tr_channel_account_id := channel_account_id;
      tr_approval_id := None; tr_change_id := None |} in
    answer ← try_except (response ← agent_submit request; mret (Ok response)) (λ e, mret (Err e));
    match answer with
    | Err e => submit_failed action e
    | Ok response => relay_response action arguments request response tool_operation_types
    end.

(* ------------------------------------------------------------------ *)
(** ** Conclusions *)

(** [_self_critique_conclude] *)
Definition self_critique_conclude (c : Conclusion) (llm : LLMChoice)
    : M (Ag X) exn (option CritiqueVerdict) :=
  if negb (st_self_critique_enabled cfg) then mret None
  else
    i ← get_inv;
    try_except
      (_ ← record_event EvCritique;
       verdict ← call_llm (llm_critique_conclusion llm {|
         ca_problem_statement := is_problem i; ca_transcript := is_transcript i;
         ca_summary := cl_summary c; ca_root_cause := cl_likely_root_cause c;
         ca_confidence := cl_confidence c; ca_recommendation := cl_recommendation c |});
       mret (Some verdict))
      (λ e, _ ← log_event "self_critique_call_failed" llm [("error", JStr (exn_text e))];
            mret None).

Definition reject_ungrounded (names : list string) (llm : LLMChoice) : M (Ag X) exn unit :=
  _ ← mod_inv (λ i, append_evidence_once
        ("(a draft conclusion naming " +:+ str_join ", " names +:+ " was rejected — "
         +:+ "not found in any evidence gathered)")
        (append_transcript "internal.grounding_check" "Verifying the conclusion before reporting it."
          (JObj [("rejected", JArr (map JStr names));
                 ("message", JStr ("Your conclusion named " +:+ str_join ", " names
                    +:+ ", which does not appear anywhere in this investigation's evidence or the "
                    +:+ "DBA's own message — never state something as a finding "
                    +:+ "unless it actually came from a tool result or what the "
                    +:+ "DBA said. Revise your conclusion using only that."))]) i));
  log_event "conclusion_rejected_ungrounded_identifiers" llm [("names", JArr (map JStr names))].

Definition reject_unverified (pending : PendingVerification) (llm : LLMChoice)
    : M (Ag X) exn unit :=
  let tools := str_join " or " (pv_verification_tools pending) in
  _ ← mod_inv (λ i, append_evidence_once
        ("(a draft conclusion after " +:+ pv_tool_id pending +:+ " was rejected — "
         +:+ "not yet independently verified)")
        (append_transcript "internal.verification_check"
          "Verifying the remediation's real-world effect before reporting it."
          (JObj [("pending_tool_id", JStr (pv_tool_id pending));
                 ("message", JStr (pv_tool_id pending +:+ " executed, but nothing has independently "
                    +:+ "re-checked yet whether it actually took effect — never mark an "
                    +:+ "action as resolved merely because it was submitted. Call " +:+ tools
                    +:+ " to confirm the real-world outcome before concluding."))]) i));
  log_event "conclusion_rejected_pending_verification" llm [("tool_id", JStr (pv_tool_id pending))].

Definition reject_unsound (issue : option string) (llm : LLMChoice) : M (Ag X) exn unit :=
  _ ← mod_inv (λ i, append_evidence_once
        ("(a draft conclusion was rejected on review — "
         +:+ str_or issue "did not follow from the evidence" +:+ ")")
        (append_transcript "internal.self_critique_check"
          "A second review of the conclusion before reporting it."
          (JObj [("issue", json_opt issue);
                 ("message", JStr ("A second review of your draft conclusion found a problem: "
                    +:+ str_or issue "it does not follow from the evidence gathered."
                    +:+ " Revise your conclusion so it only states what the evidence actually "
                    +:+ "supports."))]) i));
  log_event "conclusion_rejected_self_critique" llm [("issue", json_opt issue)].

(** an accepted conclusion *)
Definition accept_conclusion (c : Conclusion) (i : InvestigationState) : InvestigationState :=
  i <| is_status := conclusion_stage i |>
    <| is_findings ::= λ l, if opt_truthy (cl_likely_root_cause c)
                            then l ++ [default "" (cl_likely_root_cause c)] else l |>
    <| is_recommendations ::= λ l, if opt_truthy (cl_recommendation c)
                                   then l ++ [default "" (cl_recommendation c)] else l |>.

(** [_finalize_conclude] *)
Definition finalize_conclude (c : Conclusion) (llm : LLMChoice) (final_chance : bool)
    : M (Ag X) exn (option AgentReply) :=
  i ← get_inv;
  match ungrounded_identifiers c i with
  | (_ :: _) as names => _ ← reject_ungrounded names llm; mret None
  | [] =>
      match is_pending_verification i, final_chance with
      | Some pending, false => _ ← reject_unverified pending llm; mret None
      | _, _ =>
          verdict ← (if final_chance then mret None else self_critique_conclude c llm);
          match verdict with
          | Some {| cv_sound := false; cv_issue := issue |} => _ ← reject_unsound issue llm; mret None
          | _ =>
              _ ← mod_inv (accept_conclusion c);
              i ← get_inv;
              mret (Some (agent_reply (format_report i c) "ok" (Some (is_investigation_id i))))
          end
      end
  end.

(* ------------------------------------------------------------------ *)
(** ** The loop *)

(** the [while] of [_next_playbook_action] over the steps that are left *)
Fixpoint next_step (available_ids : list string) (steps : list PlaybookStep) (at_ : nat)
    : nat * option PlaybookStep :=
  match steps with
  | [] => (at_, None)
  | st :: steps =>
      if mem (ps_tool_id st) available_ids then (S at_, Some st)
      else next_step available_ids steps (S at_)
  end.

(** [_next_playbook_action] *)
Definition next_playbook_action (available_ids : list string)
    : M (Ag X) exn (option ToolProposal) :=
  i ← get_inv;
  match get_playbook (is_playbook_id i) with
  | None => mret None
  | Some p =>
      let '(at_, st) := next_step available_ids (drop (is_playbook_step i) (pb_steps p))
                          (is_playbook_step i) in
      _ ← mod_inv (λ i, i <| is_playbook_step := at_ |>);
      mret ((λ st, {| tp_tool_id := ps_tool_id st; tp_arguments := ps_arguments st; tp_target := [];
                      tp_reason := "[" +:+ pb_name p +:+ " playbook] " +:+ ps_purpose st |}) <$> st)
  end.

(** what the loop is called with *)
Record LoopArgs : Type := {
  la_available_ids : list string;
  la_channel : string;
  la_channel_account_id : string;
  la_llm : LLMChoice;
  la_tool_requirements : option (list (string * list string));
  la_tool_allowed_arguments : option (list (string * list string));
  la_tool_operation_types : option (list (string * OperationType))
}.
Context (la : LoopArgs).

Definition decide (problem : string) (available_ids : list string)
    (requirements : option (list (string * list string))) : M (Ag X) exn AgentAction :=
  i ← get_inv;
  _ ← record_event (EvDecide available_ids);
  call_llm (llm_decide_next_action (la_llm la) {|
    da_problem_statement := problem; da_available_tool_ids := available_ids;
    da_transcript := is_transcript i; da_turn_count := is_turn_count i;
    da_tool_requirements := requirements |}).

(** [if reply is not None: return reply], else go on *)
Definition reply_or_again (m : M (Ag X) exn (option AgentReply))
    : M (Ag X) exn (pass (option AgentReply)) :=
  reply ← m; mret (match reply with Some r => Leave (Some r) | None => Again end).

Definition relay (action : ToolProposal) : M (Ag X) exn (option AgentReply) :=
  submit_and_relay action (la_channel la) (la_channel_account_id la)
    (la_tool_allowed_arguments la) (la_tool_operation_types la).

Definition clarify (question : string) : M (Ag X) exn (pass (option AgentReply)) :=
  _ ← mod_inv (λ i, i <| is_consecutive_record_observations := 0 |>
                      <| is_clarification_count ::= S |>);
  i ← get_inv;
  if (MAX_CLARIFICATION_TURNS <? is_clarification_count i)%nat then
    _ ← mod_inv (λ i, i <| is_status := conclusion_stage i |>);
    mret (Leave (Some (agent_reply
      ("I still don't have enough information to proceed — please restate what you'd like me to "
       +:+ "check, including the environment, server, and database if relevant, in one message.")
      "ok" (Some (is_investigation_id i)))))
  else
    _ ← mod_inv (λ i, i <| is_status := AWAITING_CLARIFICATION |>);
    mret (Leave (Some (agent_reply question "clarification" (Some (is_investigation_id i))))).

(** the branches on the model's action *)
Definition take_action (action : AgentAction) : M (Ag X) exn (pass (option AgentReply)) :=
  match action with
  | AskClarification question => clarify question
  | RecordObservation text =>
      _ ← mod_inv (λ i, append_evidence text
            (i <| is_turn_count ::= S |> <| is_clarification_count := 0 |>
               <| is_consecutive_record_observations ::= S |>));
      mret Again
  | ProposeToolCall proposal =>
      _ ← mod_inv (λ i, i <| is_turn_count ::= S |> <| is_clarification_count := 0 |>
                          <| is_consecutive_record_observations := 0 |>);
      reply_or_again (relay proposal)
  | Conclude conclusion =>
      _ ← mod_inv (λ i, i <| is_turn_count ::= S |> <| is_clarification_count := 0 |>
                          <| is_consecutive_record_observations := 0 |>);
      reply_or_again (finalize_conclude conclusion (la_llm la) false)
  end.

Definition conclude_without_root_cause : M (Ag X) exn AgentReply :=
  _ ← mod_inv (λ i, i <| is_status := conclusion_stage i |>);
  i ← get_inv; mret (no_root_cause_reply i).

(** one pass of the [while]; [Leave None] when its condition fails *)
Definition investigation_pass : M (Ag X) exn (pass (option AgentReply)) :=
  i ← get_inv;
  if negb (is_turn_count i <? MAX_INVESTIGATION_TURNS)%nat then mret (Leave None)
  else
    _ ← mod_inv (λ i, i <| is_status := INVESTIGATING |>);
    step_action ← next_playbook_action (la_available_ids la);
    match step_action with
    | Some action =>
        _ ← mod_inv (λ i, i <| is_turn_count ::= S |>);
        reply_or_again (relay action)
    | None =>
        i ← get_inv;
        if (MAX_CONSECUTIVE_RECORD_OBSERVATIONS <=? is_consecutive_record_observations i)%nat then
          reply ← conclude_without_root_cause; mret (Leave (Some reply))
        else
          action ← decide (problem_statement_for_llm i) (la_available_ids la)
                     (la_tool_requirements la);
          _ ← mod_inv (λ i, i <| is_last_message := "" |>);
          take_action action
    end.

Definition OUT_OF_TURNS : string :=
  two_newlines +:+ "You are out of further diagnostic or action turns. You MUST respond "
  +:+ "with action=conclude now, summarizing what was found and done so far — "
  +:+ "even if the root cause isn't fully confirmed, an honest " +:+ quoted "here's what I found and tried"
  +:+ " is far more useful than nothing.".

(** after the [while]: the one last call *)
Definition last_chance : M (Ag X) exn AgentReply :=
  i ← get_inv;
  final_action ← decide (problem_statement_for_llm i +:+ OUT_OF_TURNS) [] None;
  match final_action with
  | Conclude conclusion =>
      reply ← finalize_conclude conclusion (la_llm la) true;
      match reply with Some r => mret r | None => conclude_without_root_cause end
  | _ => conclude_without_root_cause
  end.

(** [_run_investigation_loop]: a pass that goes round again spends a turn, so that
    one pass more than there are turns is enough *)
Definition run_investigation_loop : M (Ag X) exn AgentReply :=
  outcome ← loop investigation_pass (S MAX_INVESTIGATION_TURNS);
  match outcome with
  | Some (Some reply) => mret reply
  | Some None => last_chance
  | None => raise (PyError "LoopOutOfFuel" "")
  end.
End investigator.

(* ------------------------------------------------------------------ *)
(** ** Continuing an investigation *)

Section continue.
Context {X : Type} `{GatewayClient X} `{LLMProvider X} `{AgentRuntime X}.
Context (cfg : Settings).

(** the server id the memory is keyed by *)
Definition memory_server_id : M (Ag X) exn (option string) :=
  state ← get_conv;
  match context_str "instance" state with
  | Some raw => if truthy raw then id ← canonical_server_id raw; mret (Some id) else mret None
  | None => mret None
  end.

(** [_bootstrap_investigation_memory] *)
Definition bootstrap_investigation_memory (channel_account_id : string) : M (Ag X) exn unit :=
  i ← get_inv;
  if is_remote_bootstrap_done i then mret tt
  else
    _ ← mod_inv (λ i, i <| is_remote_bootstrap_done := true |>);
    server_id ← memory_server_id;
    state ← get_conv;
    let environment := context_str "environment" state in
    _ ← in_world (gc_create_investigation {|
          ic_investigation_id := is_investigation_id i;
          ic_conversation_id := cs_conversation_id state;
          ic_user_subject_id := channel_account_id; ic_server_id := server_id;
          ic_playbook_id := is_playbook_id i; ic_environment := environment;
          ic_target := cs_database_context state; ic_problem := is_problem i;
          ic_status := stage_value (is_status i) |});
    let lookback := st_investigation_memory_lookback cfg in
    entries ← (match server_id with
               | Some sid =>
                   if truthy sid && (0 <? lookback)%Z
                   then from_world (gc_get_investigation_memory sid (is_investigation_id i) lookback)
                   else mret []
               | None => mret []
               end);
    patterns ← (match is_playbook_id i with
                | Some pid => if truthy pid
                              then from_world (gc_get_cross_server_patterns pid environment server_id)
                              else mret []
                | None => mret []
                end);
    mod_inv (λ i, i <| is_memory_context := entries ++ patterns |>).

(** the tables the loop is given *)
Definition loop_args (available : list OfferedTool) (channel channel_account_id : string)
    (llm : LLMChoice) : LoopArgs := {|
  la_available_ids := map ot_tool_id available; la_channel := channel;
  la_channel_account_id := channel_account_id; la_llm := llm;
  la_tool_requirements := Some (by_tool_id ot_required available);
  la_tool_allowed_arguments := Some (by_tool_id ot_properties available);
  la_tool_operation_types := Some (by_tool_id ot_operation_type available) |}.

Definition investigation_update (server_id : option string) (state : ConversationState)
    (i : InvestigationState) : InvestigationUpdate := {|
  iu_server_id := server_id; iu_playbook_id := is_playbook_id i;
  iu_environment := context_str "environment" state;
  iu_target := Some (cs_database_context state);
  iu_status := Some (stage_value (effective_status i));
  iu_evidence := Some (map JStr (is_evidence i)); iu_hypotheses := Some (map JStr (is_hypotheses i));
  iu_findings := Some (map JStr (is_findings i));
  iu_recommendations := Some (map JStr (is_recommendations i));
  iu_actions := Some (map (λ a, JObj [("tool_id", JStr (ea_tool_id a));
                                      ("result", default JNull (ea_result a))]) (is_actions i)) |}.

(** [_continue_investigation] *)
Definition continue_investigation (channel channel_account_id : string)
    : M (Ag X) exn AgentReply :=
  state ← get_conv;
  let llm := llm_for cfg state STRONG in
  _ ← bootstrap_investigation_memory channel_account_id;
  available ← on_world (gc_available_tools channel channel_account_id);
  i ← get_inv;
  let available :=
    if is_read_only i then List.filter (λ t, bool_decide (ot_operation_type t = READ)) available
    else available in
  reply ← run_investigation_loop cfg (loop_args available channel channel_account_id llm);
  server_id ← memory_server_id;
  state ← get_conv;
  i ← get_inv;
  _ ← in_world (gc_update_investigation (is_investigation_id i)
                  (investigation_update server_id state i));
  mret reply.
End continue.
