(* ===== verification/InvestigatorFacts.v ===== *)
(** Theorems on the investigation loop of [Investigator]: it ends, within its
    turns; a read-only run submits reads only; its state keeps its invariant; what
    a conclusion needs to be reported, and what the verification of a write says. *)
From S2P Require Import Prelude ProgramLogic Json Text Models ToolCatalog Servers Policy Approval.
From S2P Require Import Gateway Investigations Fallback Playbooks Conversation Config LLMRegistry AgentApi Investigator AgentScript.

(* ------------------------------------------------------------------ *)
(** ** What a part of the loop leaves alone *)

(** the events that act: all but the critiques *)
Definition is_act (e : AgentEvent) : bool := match e with EvCritique => false | _ => true end.
Definition acts (t : list AgentEvent) : list AgentEvent := List.filter is_act t.
#[global] Arguments acts : simpl never.

Lemma acts_app t u : acts (t ++ u) = acts t ++ acts u.
Proof. apply List.filter_app. Qed.

(** the part of an investigation only the loop itself changes, and the part of a
    conversation nothing below it changes *)
Definition inv_ids (i : InvestigationState) :=
  (is_investigation_id i, is_problem i, is_read_only i, is_playbook_id i).
Definition inv_core (i : InvestigationState) := (inv_ids i, is_turn_count i).
Definition conv_core (c : ConversationState) :=
  (cs_conversation_id c, cs_channel c, cs_channel_account_id c, cs_investigation c,
   cs_llm_provider c, cs_llm_model c).

(** an unattended run leaves the pending approval alone *)
Definition framed {X} (s s' : Ag X) : Prop :=
  inv_core (ag_inv s') = inv_core (ag_inv s) ∧ conv_core (ag_conv s') = conv_core (ag_conv s) ∧
  (is_read_only (ag_inv s) = true →
     cs_pending_approval (ag_conv s') = cs_pending_approval (ag_conv s)).
Definition quiet {X} (s s' : Ag X) : Prop :=
  framed s s' ∧ acts (ag_trace s') = acts (ag_trace s).

Lemma inv_core_read_only i i' : inv_core i' = inv_core i → is_read_only i' = is_read_only i.
Proof. unfold inv_core, inv_ids. congruence. Qed.

#[export] Instance framed_preorder {X} : PreOrder (framed (X := X)).
Proof.
  split; [done|]. intros s t u (Hi & Hc & Hp) (Hi' & Hc' & Hp'). split_and!; [congruence..|].
  intros Hr. rewrite Hp' ?Hp //. by rewrite (inv_core_read_only _ _ Hi).
Qed.
#[export] Instance quiet_preorder {X} : PreOrder (quiet (X := X)).
Proof.
  split; [by intros s; split|]. intros s t u [Hf Ht] [Hf' Ht']. split; [by etrans|congruence].
Qed.

(** how the state operations run at the head of a computation *)
Section run.
Context {X A : Type}.
Lemma get_inv_bind (k : InvestigationState → M (Ag X) exn A) s :
  (get_inv ≫= k) s = k (ag_inv s) s.
Proof. done. Qed.
Lemma get_conv_bind (k : ConversationState → M (Ag X) exn A) s :
  (get_conv ≫= k) s = k (ag_conv s) s.
Proof. done. Qed.
Lemma mod_inv_bind f (k : unit → M (Ag X) exn A) s :
  (mod_inv f ≫= k) s = k tt (s <| ag_inv ::= f |>).
Proof. done. Qed.
Lemma mod_conv_bind f (k : unit → M (Ag X) exn A) s :
  (mod_conv f ≫= k) s = k tt (s <| ag_conv ::= f |>).
Proof. done. Qed.
Lemma ret_bind {B} (b : B) (k : B → M (Ag X) exn A) s : (mret b ≫= k) s = k b s.
Proof. done. Qed.
End run.

Section quiet.
Context {X : Type}.

Lemma quiet_mod_inv (f : InvestigationState → InvestigationState) :
  (∀ i, inv_core (f i) = inv_core i) → preserves quiet (mod_inv (X := X) f).
Proof. intros Hf s. by split; [split_and!; [apply Hf|..]|]. Qed.
Lemma quiet_get_inv : preserves quiet (get_inv (X := X)).
Proof. by intros s. Qed.
Lemma quiet_get_conv : preserves quiet (get_conv (X := X)).
Proof. by intros s. Qed.
Lemma quiet_on_world {A} (m : M X exn A) : preserves quiet (on_world m).
Proof. intros s. unfold on_world. by destruct (m (ag_world s)). Qed.
Lemma quiet_from_world {A} (f : X → A * X) : preserves quiet (from_world f).
Proof. intros s. unfold from_world. by destruct (f (ag_world s)). Qed.
Lemma quiet_in_world (f : X → X) : preserves quiet (in_world f).
Proof. by intros s. Qed.
Lemma quiet_call_llm {A} (c : llm_call X A) : preserves quiet (call_llm c).
Proof. intros s. unfold call_llm. by destruct (c (ag_world s)) as [[r l] x]. Qed.
Lemma quiet_event e : is_act e = false → preserves quiet (record_event (X := X) e).
Proof.
  intros He s. split; [done|]. cbn. rewrite acts_app. unfold acts at 2. cbn. by rewrite He app_nil_r.
Qed.
Lemma quiet_remember request response : preserves quiet (mod_conv (X := X) (remember_database request response)).
Proof.
  intros s. unfold mod_conv, remember_database, modify. cbn. repeat case_match; done.
Qed.
End quiet.

#[export] Hint Resolve quiet_get_inv quiet_get_conv quiet_on_world quiet_from_world quiet_in_world
  quiet_call_llm quiet_remember : numi.
#[export] Hint Extern 2 (preserves quiet (record_event _)) => apply quiet_event; reflexivity : numi.

Lemma core_append_evidence text i : inv_core (append_evidence text i) = inv_core i.
Proof. done. Qed.
Lemma core_append_transcript t r v i : inv_core (append_transcript t r v i) = inv_core i.
Proof. done. Qed.
Lemma core_append_once text i : inv_core (append_evidence_once text i) = inv_core i.
Proof. unfold append_evidence_once. by case_match. Qed.
Lemma core_update_pending a args r types i :
  inv_core (update_pending_verification a args r types i) = inv_core i.
Proof. unfold update_pending_verification. repeat case_match; done. Qed.

(** goes through a computation whose parts are quiet *)
Ltac quiet_step :=
  match goal with
  | |- preserves quiet (mod_inv _) => apply quiet_mod_inv; intros ?;
      rewrite ?core_append_once ?core_update_pending ?core_append_evidence ?core_append_transcript //
  | |- preserves quiet _ => walk_step
  end.
Ltac quiet := repeat quiet_step.

Section parts.
Context {X : Type} `{GatewayClient X} `{LLMProvider X} `{AgentRuntime X}.
Context (cfg : Settings).

Lemma quiet_log_event t llm payload : preserves quiet (log_event (X := X) t llm payload).
Proof. unfold log_event. quiet. Qed.
Hint Resolve quiet_log_event : numi.

Lemma quiet_list_servers : preserves quiet (list_servers_cached (X := X)).
Proof. unfold list_servers_cached. quiet. Qed.
Hint Resolve quiet_list_servers : numi.
Lemma quiet_memory_server_id : preserves quiet (memory_server_id (X := X)).
Proof. unfold memory_server_id, canonical_server_id, find_matching_servers. quiet. Qed.
Hint Resolve quiet_memory_server_id : numi.

Lemma quiet_submit_failed action e : preserves quiet (submit_failed (X := X) action e).
Proof. unfold submit_failed. quiet. Qed.
Lemma quiet_relay_denied action response : preserves quiet (relay_denied (X := X) action response).
Proof. unfold relay_denied. quiet. Qed.
Hint Resolve quiet_submit_failed quiet_relay_denied : numi.

Lemma quiet_relay_response action args request response types :
  preserves quiet (relay_response (X := X) action args request response types).
Proof.
  unfold relay_response. apply preserves_bind; [apply _|apply quiet_remember|intros _].
  intros s. rewrite get_inv_bind. destruct (rs_status response).
  - revert s. change (preserves quiet (mod_inv (X := X) (relay_executed action args response types)
      ≫= λ _, mret (None : option AgentReply))). unfold relay_executed. quiet.
  - destruct (is_read_only (ag_inv s)) eqn:Er; [by split|].
    unfold relay_approval. split; [|done]. split; [done|]. split; [done|]. cbn. congruence.
  - apply quiet_relay_denied.
  - by split.
Qed.

Lemma quiet_bootstrap account : preserves quiet (bootstrap_investigation_memory cfg (X := X) account).
Proof. unfold bootstrap_investigation_memory. quiet. Qed.

Lemma quiet_critique c llm : preserves quiet (self_critique_conclude cfg (X := X) c llm).
Proof. unfold self_critique_conclude. quiet. Qed.
Hint Resolve quiet_critique : numi.

Lemma quiet_finalize c llm final : preserves quiet (finalize_conclude cfg (X := X) c llm final).
Proof.
  unfold finalize_conclude, reject_ungrounded, reject_unverified, reject_unsound. quiet.
Qed.

(** the request a proposal becomes *)
Definition request_of (action : ToolProposal) (channel account : string)
    (allowed : option (list (string * list string))) (ulid : string) (s : Ag X)
    : ToolCallRequest := {|
  tr_tool_id := tp_tool_id action; tr_tool_version := None;
  tr_arguments := strip_unschematized_arguments action allowed;
  tr_target := dict_merge (cs_database_context (ag_conv s)) (tp_target action);
  tr_reason := tp_reason action; tr_conversation_id := cs_conversation_id (ag_conv s);
  tr_investigation_id := Some (is_investigation_id (ag_inv s));
  tr_request_id := new_id "req" ulid; tr_channel := channel; tr_channel_account_id := account;
  tr_approval_id := None; tr_change_id := None |}.

(** a run of [_submit_and_relay], by what the gate and the Gateway answer *)
Lemma submit_and_relay_run action channel account allowed types (s : Ag X) :
  submit_and_relay action channel account allowed types s =
  if is_read_only (ag_inv s) && negb (is_confirmed_read_tool (tp_tool_id action) types)
  then (Ok None, s <| ag_inv ::= drop_write_proposal action |>)
  else
    let '(ulid, x1) := new_ulid (ag_world s) in
    let request := request_of action channel account allowed ulid s in
    let '(answer, x2) := gc_submit request x1 in
    let s2 := mk_ag (ag_conv s) (ag_inv s) x2 (ag_trace s ++ [EvSubmit request]) in
    match answer with
    | Ok response => relay_response action (strip_unschematized_arguments action allowed) request
                       response types s2
    | Err e => submit_failed action e s2
    end.
Proof.
  unfold submit_and_relay. rewrite get_inv_bind.
  destruct (is_read_only (ag_inv s) && negb (is_confirmed_read_tool (tp_tool_id action) types)); [done|].
  rewrite get_conv_bind. unfold from_world, mbind at 1, M_bind at 1.
  destruct (new_ulid (ag_world s)) as [ulid x1]. fold (request_of action channel account allowed ulid s).
  unfold agent_submit, record_event, modify, on_world, try_except, mbind, M_bind, mret, M_ret. cbn.
  destruct (gc_submit _ x1) as [[response|e] x2]; reflexivity.
Qed.

(** a proposal either is dropped, or submits one request of its tool *)
Lemma submit_and_relay_acts action channel account allowed types (s : Ag X) :
  let s' := (submit_and_relay action channel account allowed types s).2 in
  (quiet s s' ∧ is_read_only (ag_inv s) = true ∧
     is_confirmed_read_tool (tp_tool_id action) types = false) ∨
  (∃ request, framed s s' ∧ acts (ag_trace s') = acts (ag_trace s) ++ [EvSubmit request] ∧
     tr_tool_id request = tp_tool_id action ∧ tr_approval_id request = None ∧
     (is_read_only (ag_inv s) = true → is_confirmed_read_tool (tp_tool_id action) types = true)).
Proof.
  rewrite submit_and_relay_run. cbn zeta.
  destruct (is_read_only (ag_inv s) && negb (is_confirmed_read_tool (tp_tool_id action) types)) eqn:Eg.
  { left. apply andb_true_iff in Eg as [Er Ec%negb_true_iff]. by split_and!. }
  right. destruct (new_ulid (ag_world s)) as [ulid x1]. exists (request_of action channel account allowed ulid s).
  destruct (gc_submit _ x1) as [answer x2].
  set (s2 := mk_ag _ _ x2 _).
  assert (quiet s2 (match answer with
    | Ok response => relay_response action (strip_unschematized_arguments action allowed)
        (request_of action channel account allowed ulid s) response types s2
    | Err e => submit_failed action e s2 end).2) as [Hf Ht].
  { destruct answer; [apply quiet_relay_response|apply quiet_submit_failed]. }
  split_and!; [exact Hf| |done|done|].
  - rewrite Ht. unfold s2. cbn [ag_trace]. by rewrite acts_app.
  - intros Hr. rewrite Hr in Eg. by apply negb_false_iff in Eg.
Qed.
End parts.

(* ------------------------------------------------------------------ *)
(** ** One pass of the loop *)

Definition turns {X} (s : Ag X) : nat := is_turn_count (ag_inv s).

(** as [framed], the turn count aside *)
Definition framed_ids {X} (s s' : Ag X) : Prop :=
  inv_ids (ag_inv s') = inv_ids (ag_inv s) ∧ conv_core (ag_conv s') = conv_core (ag_conv s) ∧
  (is_read_only (ag_inv s) = true →
     cs_pending_approval (ag_conv s') = cs_pending_approval (ag_conv s)).

Lemma inv_ids_read_only i i' : inv_ids i' = inv_ids i → is_read_only i' = is_read_only i.
Proof. unfold inv_ids. congruence. Qed.

#[export] Instance framed_ids_preorder {X} : PreOrder (framed_ids (X := X)).
Proof.
  split; [done|]. intros s t u (Hi & Hc & Hp) (Hi' & Hc' & Hp'). split_and!; [congruence..|].
  intros Hr. rewrite Hp' ?Hp //. by rewrite (inv_ids_read_only _ _ Hi).
Qed.

Lemma framed_framed_ids {X} (s s' : Ag X) : framed s s' → framed_ids s s' ∧ turns s' = turns s.
Proof. intros (Hi & Hc & Hp). split; [split_and!|]; [apply (f_equal fst Hi)|done..|apply (f_equal snd Hi)]. Qed.
Lemma quiet_framed_ids {X} (s s' : Ag X) : quiet s s' →
  framed_ids s s' ∧ turns s' = turns s ∧ acts (ag_trace s') = acts (ag_trace s).
Proof. intros [Hf Ht]. apply framed_framed_ids in Hf as [? ?]. done. Qed.

(** a request of a loop: no approval of its own, and of a confirmed read when the
    run is unattended *)
Definition request_ok (read_only : bool) (types : option (list (string * OperationType)))
    (request : ToolCallRequest) : Prop :=
  tr_approval_id request = None ∧
  (read_only = true → is_confirmed_read_tool (tr_tool_id request) types = true).

(** what a pass does outside: at most one decision, then at most one submission *)
Inductive pass_events (la : LoopArgs) (read_only : bool) : list AgentEvent → Prop :=
| pe_none : pass_events la read_only []
| pe_decide : pass_events la read_only [EvDecide (la_available_ids la)]
| pe_submit request : request_ok read_only (la_tool_operation_types la) request →
    pass_events la read_only [EvSubmit request]
| pe_decide_submit request : request_ok read_only (la_tool_operation_types la) request →
    pass_events la read_only [EvDecide (la_available_ids la); EvSubmit request].

Section pass_facts.
Context {X : Type} `{GatewayClient X} `{LLMProvider X} `{AgentRuntime X}.
Context (cfg : Settings) (la : LoopArgs).

(** outcome of a part of a pass that starts at [s0]: the events so far, whether the
    turn has been spent *)
Definition part_result (s0 : Ag X) (r : res exn (pass (option AgentReply))) (s' : Ag X) : Prop :=
  framed_ids s0 s' ∧ r ≠ Ok (Leave None) ∧
  ∃ new, acts (ag_trace s') = acts (ag_trace s0) ++ new ∧
    pass_events la (is_read_only (ag_inv s0)) new ∧
    (turns s' = S (turns s0) ∨
     (turns s' = turns s0 ∧ r ≠ Ok Again ∧
        (new = [] ∨ new = [EvDecide (la_available_ids la)]))).

Lemma reply_or_again_snd (m : M (Ag X) exn (option AgentReply)) s :
  (reply_or_again m s).2 = (m s).2 ∧ (reply_or_again m s).1 ≠ Ok (Leave None).
Proof.
  unfold reply_or_again, mbind, M_bind. destruct (m s) as [[[r|]|e] s']; done.
Qed.

(** a relay after the turn was spent, at [s1] *)
Lemma relay_part s0 s1 action :
  framed_ids s0 s1 → turns s1 = S (turns s0) →
  acts (ag_trace s1) = acts (ag_trace s0) ∨
    acts (ag_trace s1) = acts (ag_trace s0) ++ [EvDecide (la_available_ids la)] →
  part_result s0 (reply_or_again (relay la action) s1).1 (reply_or_again (relay la action) s1).2.
Proof.
  intros Hf Ht Ha. destruct (reply_or_again_snd (relay la action) s1) as [-> Hr].
  unfold relay. pose proof (inv_ids_read_only _ _ (proj1 Hf)) as Hro.
  destruct (submit_and_relay_acts action (la_channel la) (la_channel_account_id la)
    (la_tool_allowed_arguments la) (la_tool_operation_types la) s1)
    as [(Hq & _ & _)|(request & Hf2 & Ht2 & Hid & Hap & Hg)].
  - apply quiet_framed_ids in Hq as (Hf2 & Ht2 & Ha2).
    split; [by etrans|]. split; [done|]. rewrite Ha2 Ht2.
    destruct Ha as [->| ->]; [exists []|eexists]; (split; [by rewrite ?app_nil_r|]);
      (split; [constructor|by left]).
  - apply framed_framed_ids in Hf2 as [Hf2 Ht3].
    split; [by etrans|]. split; [done|]. rewrite Ht2 Ht3.
    assert (request_ok (is_read_only (ag_inv s0)) (la_tool_operation_types la) request) as Hok.
    { split; [done|]. rewrite Hid -Hro. exact Hg. }
    destruct Ha as [->| ->]; [eexists|exists [EvDecide (la_available_ids la); EvSubmit request]];
      (split; [by rewrite -?app_assoc|]); (split; [by constructor|by left]).
Qed.

Lemma quiet_next_playbook_action ids : preserves quiet (next_playbook_action (X := X) ids).
Proof. unfold next_playbook_action. quiet. Qed.
Lemma next_playbook_action_ok ids (s : Ag X) : ∃ a, (next_playbook_action ids s).1 = Ok a.
Proof.
  unfold next_playbook_action. rewrite get_inv_bind. destruct (get_playbook _); [|by eexists].
  destruct (next_step _ _ _). rewrite mod_inv_bind. by eexists.
Qed.

(** a part that neither decides nor submits nor spends a turn, and leaves *)
Lemma leaving_part (s0 s1 : Ag X) (r : res exn (pass (option AgentReply))) s' :
  framed_ids s0 s1 → turns s1 = turns s0 →
  acts (ag_trace s1) = acts (ag_trace s0) ∨
    acts (ag_trace s1) = acts (ag_trace s0) ++ [EvDecide (la_available_ids la)] →
  quiet s1 s' → r ≠ Ok Again → r ≠ Ok (Leave None) → part_result s0 r s'.
Proof.
  intros Hf Ht Ha (Hf' & Ht' & Ha')%quiet_framed_ids Hr1 Hr2.
  split; [by etrans|]. split; [done|]. rewrite Ha' Ht' Ht.
  destruct Ha as [->| ->].
  - exists []. rewrite app_nil_r. split_and!; [done|constructor|right; auto].
  - eexists. split_and!; [reflexivity|constructor|right; auto].
Qed.

(** a part that has decided, spends the turn and does nothing else outside *)
Lemma turn_part (s0 s1 : Ag X) (r : res exn (pass (option AgentReply))) s' :
  framed_ids s0 s1 → turns s1 = S (turns s0) →
  acts (ag_trace s1) = acts (ag_trace s0) ++ [EvDecide (la_available_ids la)] →
  quiet s1 s' → r ≠ Ok (Leave None) → part_result s0 r s'.
Proof.
  intros Hf Ht Ha (Hf' & Ht' & Ha')%quiet_framed_ids Hr.
  split; [by etrans|]. split; [done|]. rewrite Ha' Ht' Ht. eexists. split; [exact Ha|].
  split; [constructor|by left].
Qed.

Lemma quiet_clarify question : ∀ s : Ag X, quiet s (clarify question s).2 ∧
  (clarify question s).1 ≠ Ok Again ∧ (clarify question s).1 ≠ Ok (Leave None).
Proof.
  intros s. unfold clarify. rewrite mod_inv_bind get_inv_bind. case_match; rewrite mod_inv_bind; done.
Qed.

(** the branches on the model's action, once it has decided *)
Lemma take_action_part (s0 s1 : Ag X) action :
  framed_ids s0 s1 → turns s1 = turns s0 →
  acts (ag_trace s1) = acts (ag_trace s0) ++ [EvDecide (la_available_ids la)] →
  part_result s0 (take_action cfg la action s1).1 (take_action cfg la action s1).2.
Proof.
  intros Hf Ht Ha. unfold take_action. destruct action as [q|p|text|c].
  - destruct (quiet_clarify q s1) as (Hq & ? & ?). eapply leaving_part; eauto.
  - rewrite mod_inv_bind. apply relay_part; [by etrans|by rewrite -Ht|by right].
  - rewrite mod_inv_bind. eapply (turn_part s0 (s1 <| ag_inv ::= λ i, append_evidence text
            (i <| is_turn_count ::= S |> <| is_clarification_count := 0 |>
               <| is_consecutive_record_observations ::= S |>) |>));
      [by etrans|by rewrite -Ht|done|done|done].
  - rewrite mod_inv_bind. set (s2 := _ <| ag_inv ::= _ |>).
    destruct (reply_or_again_snd (finalize_conclude cfg c (la_llm la) false) s2) as [-> Hr].
    eapply (turn_part s0 s2); [by etrans|by rewrite -Ht|done|apply quiet_finalize|done].
Qed.

Lemma pass_result (s : Ag X) : (turns s < MAX_INVESTIGATION_TURNS)%nat →
  part_result s (investigation_pass cfg la s).1 (investigation_pass cfg la s).2.
Proof.
  intros Ht. unfold investigation_pass. rewrite get_inv_bind.
  rewrite (proj2 (Nat.ltb_lt _ _) Ht). cbn [negb]. rewrite mod_inv_bind.
  set (s1 := s <| ag_inv ::= _ |>).
  pose proof (quiet_next_playbook_action (la_available_ids la) s1) as Hq.
  destruct (next_playbook_action_ok (la_available_ids la) s1) as [a Ha].
  destruct (next_playbook_action (la_available_ids la) s1) as [r s2] eqn:En. cbn in Ha, Hq. subst r.
  rewrite (M_bind_ok _ _ _ _ _ En).
  apply quiet_framed_ids in Hq as (Hf & Ht2 & Ha2).
  destruct a as [action|].
  - rewrite mod_inv_bind. apply relay_part; [exact Hf|exact (f_equal S Ht2)|by left].
  - rewrite get_inv_bind. case_match.
    + eapply (leaving_part s s2); [exact Hf|exact Ht2|by left| |done|done].
      split; [split_and!|]; done.
    + set (m := decide la _ _ _). set (s3 := s2 <| ag_trace ::= λ t, t ++ [EvDecide (la_available_ids la)] |>).
      assert (quiet s3 (m s2).2) as Hc by apply quiet_call_llm.
      destruct (m s2) as [[action|e] s4] eqn:Em; cbn in Hc;
        apply quiet_framed_ids in Hc as Hc'; destruct Hc' as (Hf4 & Ht4 & Ha4).
      * rewrite (M_bind_ok _ _ _ _ _ Em) mod_inv_bind. apply take_action_part.
        -- etrans; [exact Hf|]. etrans; [|exact Hf4]. done.
        -- etrans; [exact Ht4|]. exact Ht2.
        -- etrans; [exact Ha4|]. unfold s3. cbn [ag_trace field_update]. by rewrite acts_app Ha2.
      * rewrite (M_bind_err _ _ _ _ _ Em).
        eapply (leaving_part s s3); [exact Hf|exact Ht2| |exact Hc|done|done].
        right. unfold s3. cbn [ag_trace field_update]. by rewrite acts_app Ha2.
Qed.

Lemma pass_over (s : Ag X) : ¬ (turns s < MAX_INVESTIGATION_TURNS)%nat →
  investigation_pass cfg la s = (Ok (Leave None), s).
Proof.
  intros Ht. unfold investigation_pass. rewrite get_inv_bind. fold (turns s).
  by rewrite (proj2 (Nat.ltb_nlt _ _) Ht).
Qed.
End pass_facts.

(* ------------------------------------------------------------------ *)
(** ** The whole loop *)

Definition submission (e : AgentEvent) : option ToolCallRequest :=
  match e with EvSubmit r => Some r | _ => None end.
Definition submissions (t : list AgentEvent) : list ToolCallRequest := omap submission t.
Definition is_decision (e : AgentEvent) : bool := match e with EvDecide _ => true | _ => false end.
Definition decisions (t : list AgentEvent) : nat := length (List.filter is_decision t).

Lemma submissions_app t u : submissions (t ++ u) = submissions t ++ submissions u.
Proof. apply omap_app. Qed.
Lemma decisions_app t u : decisions (t ++ u) = (decisions t + decisions u)%nat.
Proof. unfold decisions. by rewrite List.filter_app length_app. Qed.

(** an event of a loop: a decision, or a request of the loop *)
Definition loop_event (la : LoopArgs) (read_only : bool) (e : AgentEvent) : Prop :=
  match e with
  | EvDecide ids => ids = la_available_ids la ∨ ids = []
  | EvSubmit r => request_ok read_only (la_tool_operation_types la) r
  | _ => False
  end.

Lemma pass_events_loop la ro new : pass_events la ro new →
  Forall (loop_event la ro) new ∧ (length (submissions new) ≤ 1)%nat ∧ (decisions new ≤ 1)%nat.
Proof. destruct 1; (split_and!; [|cbn; lia..]); rewrite ?Forall_cons ?Forall_nil; cbn; auto. Qed.

(** from [s0], within the turns: the new events, their number bounded *)
Definition within (la : LoopArgs) {X} (s0 s : Ag X) (submits decides : nat) : Prop :=
  framed_ids s0 s ∧ (turns s ≤ MAX_INVESTIGATION_TURNS)%nat ∧
  ∃ new, acts (ag_trace s) = acts (ag_trace s0) ++ new ∧
    Forall (loop_event la (is_read_only (ag_inv s0))) new ∧
    (length (submissions new) ≤ submits)%nat ∧ (decisions new ≤ decides)%nat.

Lemma within_refl la {X} (s : Ag X) : (turns s ≤ MAX_INVESTIGATION_TURNS)%nat → within la s s 0 0.
Proof. intros Ht. split_and!; [done..|]. exists []. rewrite app_nil_r. split_and!; done. Qed.

Lemma within_mono la {X} (s0 s : Ag X) a b a' b' :
  within la s0 s a b → (a ≤ a')%nat → (b ≤ b')%nat → within la s0 s a' b'.
Proof.
  intros (Hf & Ht & new & Ha & Hl & Hs & Hd) ??. split_and!; [done..|]. exists new. split_and!; try done; lia.
Qed.

Lemma within_trans la {X} (s0 s1 s2 : Ag X) a b a' b' :
  within la s0 s1 a b → within la s1 s2 a' b' → within la s0 s2 (a + a') (b + b').
Proof.
  intros (Hf & Ht & new & Ha & Hl & Hs & Hd) (Hf' & Ht' & new' & Ha' & Hl' & Hs' & Hd').
  split_and!; [by etrans|done|]. exists (new ++ new').
  rewrite Ha' Ha app_assoc submissions_app length_app decisions_app Forall_app.
  rewrite (inv_ids_read_only _ _ (proj1 Hf)) in Hl'. split_and!; try done; lia.
Qed.

Lemma within_quiet la {X} (s0 s1 s2 : Ag X) a b :
  within la s0 s1 a b → quiet s1 s2 → within la s0 s2 a b.
Proof.
  intros (Hf & Ht & new & Ha & Hl & Hs & Hd) (Hf' & Ht' & Ha')%quiet_framed_ids.
  split_and!; [by etrans|by rewrite Ht'|]. exists new. by rewrite Ha'.
Qed.

Section run.
Context {X : Type} `{GatewayClient X} `{LLMProvider X} `{AgentRuntime X}.
Context (cfg : Settings) (la : LoopArgs).

Lemma pass_lowers (s s' : Ag X) : investigation_pass cfg la s = (Ok Again, s') →
  (MAX_INVESTIGATION_TURNS - turns s' < MAX_INVESTIGATION_TURNS - turns s)%nat.
Proof.
  intros Hp. destruct (base.decide (turns s < MAX_INVESTIGATION_TURNS)%nat) as [Ht|Ht].
  - pose proof (pass_result cfg la s Ht) as (_ & _ & new & _ & _ & Ho). rewrite Hp in Ho. cbn in Ho.
    destruct Ho as [Ht'|(_ & Hr & _)]; [lia|done].
  - rewrite (pass_over cfg la s Ht) in Hp. congruence.
Qed.

(** a pass stays within its turn *)
Lemma pass_within (s : Ag X) : (turns s < MAX_INVESTIGATION_TURNS)%nat →
  let '(r, s') := investigation_pass cfg la s in
  match r with
  | Ok Again => turns s' = S (turns s) ∧ within la s s' 1 1
  | Ok (Leave None) => False
  | _ => (turns s ≤ turns s')%nat ∧ within la s s' (turns s' - turns s) 1
  end.
Proof.
  intros Ht. pose proof (pass_result cfg la s Ht) as (Hf & Hn & new & Ha & Hp & Ho).
  destruct (investigation_pass cfg la s) as [r s']. cbn in *.
  destruct (pass_events_loop _ _ _ Hp) as (Hl & Hs & Hd).
  assert (turns s' = S (turns s) → within la s s' 1 1) as HA.
  { intros E. split_and!; [done|unfold MAX_INVESTIGATION_TURNS in *; lia|]. exists new. split_and!; done. }
  assert (r ≠ Ok Again → (turns s ≤ turns s')%nat ∧ within la s s' (turns s' - turns s) 1) as HB.
  { intros Hr. destruct Ho as [E|(E & _ & Hnew)].
    - split; [lia|]. rewrite E. replace (S (turns s) - turns s)%nat with 1%nat by lia. by apply HA.
    - split; [lia|]. split_and!; [done|lia|]. exists new. rewrite E Nat.sub_diag.
      split_and!; [done..| |done]. by destruct Hnew as [-> | ->]. }
  destruct r as [[|[rep|]]|e]; [|by apply HB|done|by apply HB].
  destruct Ho as [E|(_ & Hr & _)]; [|done]. split; [done|by apply HA].
Qed.

Lemma quiet_conclude_without : preserves quiet (conclude_without_root_cause (X := X)).
Proof. unfold conclude_without_root_cause. quiet. Qed.

(** the last call decides once more, with no tool on offer, and submits nothing *)
Lemma last_chance_within (s : Ag X) : (turns s ≤ MAX_INVESTIGATION_TURNS)%nat →
  within la s (last_chance cfg la s).2 0 1.
Proof.
  intros Ht. unfold last_chance. rewrite get_inv_bind. set (m := decide la _ _ _).
  set (s1 := s <| ag_trace ::= λ t, t ++ [EvDecide []] |>).
  assert (within la s s1 0 1) as HA.
  { split_and!; [done..|]. exists [EvDecide []]. unfold s1. cbn [ag_trace field_update].
    rewrite acts_app. split_and!; [done| |cbn; lia..]. rewrite Forall_singleton. by right. }
  assert (quiet s1 (m s).2) as Hc by apply quiet_call_llm.
  destruct (m s) as [[action|e] s2] eqn:Em; cbn in Hc;
    [|rewrite (M_bind_err _ _ _ _ _ Em); by eapply within_quiet].
  rewrite (M_bind_ok _ _ _ _ _ Em). eapply within_quiet; [exact HA|]. etrans; [exact Hc|].
  destruct action; try apply quiet_conclude_without.
  revert s2 Em Hc. intros s2 _ _. revert s2. 
  change (preserves quiet (finalize_conclude (X := X) cfg conclusion (la_llm la) true
    ≫= λ reply, match reply with Some r => mret r | None => conclude_without_root_cause end)).
  apply preserves_bind; [apply _|apply quiet_finalize|]. intros [r|]; [by apply preserves_ret; apply _|].
  apply quiet_conclude_without.
Qed.

Lemma loop_within (s0 : Ag X) fuel : (turns s0 ≤ MAX_INVESTIGATION_TURNS)%nat →
  triple (λ s, within la s0 s (turns s - turns s0) (turns s - turns s0) ∧ (turns s0 ≤ turns s)%nat)
    (loop (investigation_pass cfg la) fuel)
    (λ r s, within la s0 s (MAX_INVESTIGATION_TURNS - turns s0)
      (MAX_INVESTIGATION_TURNS - turns s0 +
         match r with Ok (Some None) => 0 | Ok None => 0 | _ => 1 end)).
Proof.
  intros Ht0. apply triple_loop.
  - intros s [Hw Hle]. pose proof (proj1 (proj2 Hw)) as Hm.
    destruct (base.decide (turns s < MAX_INVESTIGATION_TURNS)%nat) as [Ht|Ht].
    + pose proof (pass_within s Ht) as Hp. destruct (investigation_pass cfg la s) as [r s']. cbn [fst snd].
      destruct r as [[|[rep|]]|e]; [|destruct Hp as [Hle' Hp]|done|destruct Hp as [Hle' Hp]].
      * destruct Hp as [E Hp]. split; [|lia]. cbn [fst snd]; eapply within_mono; [eapply within_trans; eassumption|unfold MAX_INVESTIGATION_TURNS in *; lia..].
      * pose proof (proj1 (proj2 Hp)). cbn [fst snd]; eapply within_mono; [eapply within_trans; eassumption|unfold MAX_INVESTIGATION_TURNS in *; lia..].
      * pose proof (proj1 (proj2 Hp)). cbn [fst snd]; eapply within_mono; [eapply within_trans; eassumption|unfold MAX_INVESTIGATION_TURNS in *; lia..].
    + rewrite (pass_over cfg la s Ht). cbn [fst snd]. eapply within_mono; [exact Hw|lia..].
  - intros s [Hw Hle]. pose proof (proj1 (proj2 Hw)) as Hm. eapply within_mono; [exact Hw|lia..].
Qed.

(** the loop with its last call *)
Lemma run_within (s : Ag X) : (turns s ≤ MAX_INVESTIGATION_TURNS)%nat →
  within la s (run_investigation_loop cfg la s).2
    (MAX_INVESTIGATION_TURNS - turns s) (S MAX_INVESTIGATION_TURNS - turns s).
Proof.
  intros Ht. unfold run_investigation_loop.
  pose proof (loop_within s (S MAX_INVESTIGATION_TURNS) Ht s) as Hl.
  destruct (loop _ _ s) as [r s1] eqn:El. cbn [fst snd] in Hl.
  rewrite Nat.sub_diag in Hl. specialize (Hl (conj (within_refl la s Ht) (le_n _))).
  destruct r as [[[rep|]|]|e].
  - rewrite (M_bind_ok _ _ _ _ _ El). cbn [fst snd]. eapply within_mono; [exact Hl|lia..].
  - rewrite (M_bind_ok _ _ _ _ _ El). cbn [fst snd].
    pose proof (last_chance_within s1 (proj1 (proj2 Hl))) as Hw.
    eapply within_mono; [by eapply within_trans|lia..].
  - rewrite (M_bind_ok _ _ _ _ _ El). cbn [fst snd]. eapply within_mono; [exact Hl|lia..].
  - rewrite (M_bind_err _ _ _ _ _ El). cbn [fst snd]. eapply within_mono; [exact Hl|lia..].
Qed.
End run.

(* ------------------------------------------------------------------ *)
(** ** The loop ends *)

(** C24: the investigation loop always ends: one pass more than there are turns is
    never exhausted, from any state and whatever the models and the Gateway answer,
    and any larger bound gives the same run *)
Theorem loop_terminates {X} `{GatewayClient X, LLMProvider X, AgentRuntime X}
    (cfg : Settings) (la : LoopArgs) (s : Ag X) :
  (loop (investigation_pass cfg la) (S MAX_INVESTIGATION_TURNS) s).1 ≠ Ok None ∧
  ∀ more, loop (investigation_pass cfg la) (S MAX_INVESTIGATION_TURNS + more) s =
          loop (investigation_pass cfg la) (S MAX_INVESTIGATION_TURNS) s.
Proof.
  split; [apply (loop_ends _ (λ s, MAX_INVESTIGATION_TURNS - turns s)%nat)
         |intros more; apply (loop_more _ (λ s, MAX_INVESTIGATION_TURNS - turns s)%nat)];
    solve [apply pass_lowers|lia].
Qed.

(* ------------------------------------------------------------------ *)
(** ** Around the loop *)

(** only the world changes *)
Definition only_world {X} (s s' : Ag X) : Prop :=
  ag_conv s' = ag_conv s ∧ ag_inv s' = ag_inv s ∧ ag_trace s' = ag_trace s.
#[export] Instance only_world_preorder {X} : PreOrder (only_world (X := X)).
Proof. split; [done|]. intros s t u (?&?&?) (?&?&?). split_and!; congruence. Qed.

Lemma only_world_quiet {X} (s s' : Ag X) : only_world s s' → quiet s s'.
Proof.
  intros (Hc & Hi & Ht). split; [split_and!|by rewrite Ht]; [by rewrite Hi|by rewrite Hc..].
Qed.

Section around.
Context {X : Type} `{GatewayClient X} `{LLMProvider X} `{AgentRuntime X}.
Context (cfg : Settings).

Lemma on_world_bind {A B} (m : M X exn A) (k : A → M (Ag X) exn B) s :
  (on_world m ≫= k) s =
  match m (ag_world s) with
  | (Ok a, x) => k a (s <| ag_world := x |>)
  | (Err e, x) => (Err e, s <| ag_world := x |>)
  end.
Proof. unfold on_world, mbind, M_bind. destruct (m (ag_world s)) as [[a|e] x]; done. Qed.

Lemma world_get_conv : preserves only_world (get_conv (X := X)).
Proof. by intros s. Qed.
Lemma world_get_inv : preserves only_world (get_inv (X := X)).
Proof. by intros s. Qed.
Lemma world_on_world {A} (m : M X exn A) : preserves only_world (on_world m).
Proof. intros s. unfold on_world. by destruct (m (ag_world s)). Qed.
Lemma world_in_world (f : X → X) : preserves only_world (in_world f).
Proof. by intros s. Qed.
Hint Resolve world_get_conv world_get_inv world_on_world world_in_world : numi.

Lemma world_memory_server_id : preserves only_world (memory_server_id (X := X)).
Proof. unfold memory_server_id, canonical_server_id, find_matching_servers, list_servers_cached. walk. Qed.

Lemma total_get_conv : total (get_conv (X := X)).
Proof. intros s. by eexists _, _. Qed.
Lemma total_get_inv : total (get_inv (X := X)).
Proof. intros s. by eexists _, _. Qed.
Lemma total_mod_inv f : total (mod_inv (X := X) f).
Proof. intros s. by eexists _, _. Qed.
Lemma total_in_world (f : X → X) : total (in_world f).
Proof. intros s. by eexists _, _. Qed.
Lemma total_from_world {A} (f : X → A * X) : total (from_world f).
Proof. intros s. unfold from_world. destruct (f (ag_world s)). by eexists _, _. Qed.
Hint Resolve total_get_conv total_get_inv total_mod_inv total_in_world total_from_world : numi.

Lemma total_memory_server_id : total (memory_server_id (X := X)).
Proof. unfold memory_server_id, canonical_server_id, find_matching_servers, list_servers_cached. walk. Qed.
Hint Resolve total_memory_server_id : numi.
Lemma total_bootstrap account : total (bootstrap_investigation_memory cfg (X := X) account).
Proof. unfold bootstrap_investigation_memory. walk. Qed.

(** the tools an investigation may propose: those the Gateway offers, reads only
    when nobody is there *)
Definition usable_tools (read_only : bool) (available : list OfferedTool) : list OfferedTool :=
  if read_only then List.filter (λ t, bool_decide (ot_operation_type t = READ)) available
  else available.

(** a run, by what the Gateway offers *)
Lemma continue_run channel account (s : Ag X) :
  let s' := (continue_investigation cfg channel account s).2 in
  ∃ s1, quiet s s1 ∧
    match gc_available_tools channel account (ag_world s1) with
    | (Err e, x) => quiet s1 s' ∧ (continue_investigation cfg channel account s).1 = Err e
    | (Ok available, x) =>
        let la := loop_args (usable_tools (is_read_only (ag_inv s)) available) channel account
                    (llm_for cfg (ag_conv s) STRONG) in
        let '(r, s2) := run_investigation_loop cfg la (s1 <| ag_world := x |>) in
        (continue_investigation cfg channel account s).1 = r ∧ only_world s2 s'
    end.
Proof.
  cbv zeta. unfold continue_investigation. rewrite get_conv_bind.
  destruct (total_bootstrap account s) as ([] & s1 & Eb).
  pose proof (quiet_bootstrap cfg account s) as Hq. rewrite Eb in Hq. cbn in Hq.
  exists s1. split; [exact Hq|]. rewrite (M_bind_ok _ _ _ _ _ Eb) on_world_bind.
  destruct (gc_available_tools channel account (ag_world s1)) as [[available|e] x];
    [|split; [apply only_world_quiet|]; done].
  rewrite get_inv_bind. cbv zeta. unfold usable_tools.
  change (ag_inv (s1 <| ag_world := x |>)) with (ag_inv s1).
  rewrite (inv_core_read_only _ _ (proj1 (proj1 Hq))).
  destruct (run_investigation_loop _ _ _) as [[reply|e] s2] eqn:Er; cbn [M_bind mbind] in *;
    [rewrite (M_bind_ok _ _ _ _ _ Er)|rewrite (M_bind_err _ _ _ _ _ Er); by split].
  destruct (total_memory_server_id s2) as (id & s3 & Em).
  pose proof (world_memory_server_id s2) as Hw. rewrite Em in Hw.
  rewrite (M_bind_ok _ _ _ _ _ Em). split; [done|exact Hw].
Qed.

Lemma by_tool_id_get {V} (f : OfferedTool → V) available id v :
  dict_get id (by_tool_id f available) = Some v → ∃ t, t ∈ available ∧ ot_tool_id t = id ∧ f t = v.
Proof.
  unfold by_tool_id.
  assert (∀ d, dict_get id (foldl (λ d t, dict_set (ot_tool_id t) (f t) d) d available) = Some v →
    dict_get id d = Some v ∨ ∃ t, t ∈ available ∧ ot_tool_id t = id ∧ f t = v) as Hg.
  { induction available as [|t l IH]; intros d Hd; [by left|]. cbn in Hd.
    destruct (IH _ Hd) as [Hd'|(t' & ? & ?)]; [|right; exists t'; split; [by right|done]].
    destruct (base.decide (id = ot_tool_id t)) as [->|Hne].
    - rewrite dict_get_set_eq in Hd'. injection Hd' as <-. right. exists t. split; [by left|done].
    - rewrite dict_get_set_ne // in Hd'. by left. }
  intros Hd. by destruct (Hg [] Hd) as [?|?].
Qed.

(** a request an investigation may make of these tools *)
Definition read_request (available : list OfferedTool) (request : ToolCallRequest) : Prop :=
  tr_approval_id request = None ∧
  ∃ t, t ∈ available ∧ ot_tool_id t = tr_tool_id request ∧ ot_operation_type t = READ.

Lemma request_ok_read available channel account llm request :
  request_ok true (la_tool_operation_types
    (loop_args (usable_tools true available) channel account llm)) request →
  read_request available request.
Proof.
  intros [Ha Hr]. split; [done|]. specialize (Hr eq_refl).
  unfold is_confirmed_read_tool in Hr. apply bool_decide_eq_true in Hr. cbn in Hr.
  apply by_tool_id_get in Hr as (t & Ht & Hid & Hop). exists t.
  by apply filter_elem_of in Ht as [Ht _].
Qed.
End around.

(** C25: whoever is there, an investigation decides and submits within what is left of
    its six turns: as many submissions as turns, and one decision more for the closing
    call; its identity, problem, playbook and mode do not change *)
Theorem investigation_bounded {X} `{GatewayClient X, LLMProvider X, AgentRuntime X}
    (cfg : Settings) (channel account : string) (s : Ag X) :
  (turns s ≤ MAX_INVESTIGATION_TURNS)%nat →
  let s' := (continue_investigation cfg channel account s).2 in
  (turns s' ≤ MAX_INVESTIGATION_TURNS)%nat ∧ inv_ids (ag_inv s') = inv_ids (ag_inv s) ∧
  ∃ new, acts (ag_trace s') = acts (ag_trace s) ++ new ∧
    (length (submissions new) ≤ MAX_INVESTIGATION_TURNS - turns s)%nat ∧
    (decisions new ≤ S (MAX_INVESTIGATION_TURNS - turns s))%nat.
Proof.
  intros Ht. cbv zeta. destruct (continue_run cfg channel account s) as (s1 & Hq & Hrun).
  destruct (quiet_framed_ids _ _ Hq) as (Hf & Ht1 & Ha1).
  destruct (gc_available_tools _ _ _) as [[available|e] x].
  - pose proof (run_within cfg (loop_args (usable_tools (is_read_only (ag_inv s)) available) channel
      account (llm_for cfg (ag_conv s) STRONG)) (s1 <| ag_world := x |>)) as Hw.
    cbv zeta in Hrun. destruct (run_investigation_loop _ _ _) as [r s2]. destruct Hrun as [_ (Hc & Hi & Htr)].
    destruct Hw as (Hf2 & Ht2 & new & Ha2 & _ & Hs & Hd); [by rewrite -Ht1 in Ht|].
    unfold turns. rewrite Hi Htr. split; [exact Ht2|]. split; [by etrans; [apply Hf2|apply Hf]|].
    exists new. change (ag_trace (s1 <| ag_world := x |>)) with (ag_trace s1) in Ha2.
    rewrite Ha2 Ha1. change (turns (s1 <| ag_world := x |>)) with (turns s1) in Hs, Hd.
    rewrite Ht1 in Hs, Hd. unfold turns in Ht, Hs, Hd |- *. split_and!; [done|lia..].
  - destruct Hrun as [(Hf2 & Ht2 & Ha2)%quiet_framed_ids _]. rewrite Ht2 Ht1.
    split; [done|]. split; [by etrans; [apply Hf2|apply Hf]|]. exists [].
    rewrite app_nil_r Ha2 Ha1. split_and!; [done|cbn; lia..].
Qed.

Lemma investigation_bounded_witness :
  let s := script_state false kill_script in
  let s' := (continue_investigation script_settings "slack" "u1" s).2 in
  is_status (ag_inv s') = CONCLUDED_VERIFIED ∧ turns s' = 3%nat ∧ (turns s' ≤ MAX_INVESTIGATION_TURNS)%nat.
Proof.
  split_and!; [vm_compute; reflexivity..|].
  exact (proj1 (investigation_bounded script_settings "slack" "u1" (script_state false kill_script)
    ltac:(vm_compute; lia))).
Defined.

(** whatever the model proposes, every request of an unattended run carries no approval
    and names a tool that the Gateway classified READ in the list fetched for this very
    run; it decides on nothing, and leaves the pending approval as it was *)
Lemma unattended_reads {X} `{GatewayClient X, LLMProvider X, AgentRuntime X}
    (cfg : Settings) (channel account : string) (s : Ag X) :
  is_read_only (ag_inv s) = true → (turns s ≤ MAX_INVESTIGATION_TURNS)%nat →
  let s' := (continue_investigation cfg channel account s).2 in
  cs_pending_approval (ag_conv s') = cs_pending_approval (ag_conv s) ∧
  ∃ x available x' new, gc_available_tools channel account x = (available, x') ∧
    acts (ag_trace s') = acts (ag_trace s) ++ new ∧
    Forall (λ e, match e with
                 | EvDecide _ => True
                 | EvSubmit request => ∃ l, available = Ok l ∧ read_request l request
                 | _ => False
                 end) new ∧
    (length (submissions new) ≤ MAX_INVESTIGATION_TURNS - turns s)%nat.
Proof.
  intros Hro Ht. cbv zeta. destruct (continue_run cfg channel account s) as (s1 & Hq & Hrun).
  destruct (quiet_framed_ids _ _ Hq) as (Hf & Ht1 & Ha1). pose proof (proj2 (proj2 Hf) Hro) as Hp1.
  assert (is_read_only (ag_inv s1) = true) as Hro1 by (by rewrite (inv_ids_read_only _ _ (proj1 Hf))).
  destruct (gc_available_tools _ _ _) as [[available|e] x] eqn:Ea.
  - rewrite Hro in Hrun.
    pose proof (run_within cfg (loop_args (usable_tools true available) channel
      account (llm_for cfg (ag_conv s) STRONG)) (s1 <| ag_world := x |>)) as Hw.
    cbv zeta in Hrun. destruct (run_investigation_loop _ _ _) as [r s2]. destruct Hrun as [_ (Hc & Hi & Htr)].
    destruct Hw as (Hf2 & Ht2 & new & Ha2 & Hl & Hn & _); [by rewrite -Ht1 in Ht|].
    rewrite Hc. split; [by rewrite (proj2 (proj2 Hf2) Hro1)|].
    exists (ag_world s1), (Ok available), x, new. split; [exact Ea|]. rewrite Htr Ha2. cbn. rewrite Ha1. split; [done|].
    change (turns (s1 <| ag_world := x |>)) with (turns s1) in Hn. rewrite Ht1 in Hn. split; [|exact Hn].
    change (ag_inv (s1 <| ag_world := x |>)) with (ag_inv s1) in Hl. rewrite Hro1 in Hl.
    eapply Forall_impl; [exact Hl|]. intros [| | |request| |] He; try done.
    exists available. split; [done|]. exact (request_ok_read available channel account (llm_for cfg (ag_conv s) STRONG) request He).
  - destruct Hrun as [(Hf2 & Ht2 & Ha2)%quiet_framed_ids _].
    split; [by rewrite (proj2 (proj2 Hf2) Hro1)|].
    exists (ag_world s1), (Err e), x, []. split; [exact Ea|].
    rewrite app_nil_r Ha2 Ha1. split_and!; [done..|cbn; lia].
Qed.
