(* ===== verification/Conclusions.v ===== *)
(** Theorems on how an investigation concludes: when a conclusion is reported,
    what the verification of a write says, and the invariant of its state. *)
From S2P Require Import Prelude ProgramLogic Json Text Models ToolCatalog Servers Policy Approval.
From S2P Require Import Gateway Investigations Fallback Playbooks Conversation Config LLMRegistry AgentApi Investigator.
From S2P Require Import AgentScript InvestigatorFacts.

(* ------------------------------------------------------------------ *)
(** ** Reporting a conclusion *)

Definition finalize_args (c : Conclusion) (i : InvestigationState) : CritiqueArgs := {|
  ca_problem_statement := is_problem i; ca_transcript := is_transcript i;
  ca_summary := cl_summary c; ca_root_cause := cl_likely_root_cause c;
  ca_confidence := cl_confidence c; ca_recommendation := cl_recommendation c |}.

Section finalize.
Context {X : Type} `{GatewayClient X} `{LLMProvider X} `{AgentRuntime X}.
Context (cfg : Settings).

(** the second review, when it is on and answers, finds the conclusion unsound *)
Definition critique_rejects (c : Conclusion) (llm : LLMChoice) (s : Ag X) : bool :=
  st_self_critique_enabled cfg &&
  match (llm_critique_conclusion llm (finalize_args c (ag_inv s)) (ag_world s)).1.1 with
  | Ok verdict => negb (cv_sound verdict)
  | Err _ => false
  end.

(** the investigation aside, a run of the review only answers *)
Lemma critique_run c llm (s : Ag X) :
  ∃ verdict s', self_critique_conclude cfg c llm s = (Ok verdict, s') ∧ ag_inv s' = ag_inv s ∧
    critique_rejects c llm s =
      match verdict with Some v => negb (cv_sound v) | None => false end.
Proof.
  unfold self_critique_conclude, critique_rejects. destruct (st_self_critique_enabled cfg); cbn [negb andb];
    [|by eexists _, _].
  rewrite get_inv_bind. unfold try_except, record_event, call_llm, mbind, M_bind, modify, finalize_args.
  cbn. destruct (llm_critique_conclusion _ _ _) as [[[v|e] notices] x]; cbn; by eexists _, _.
Qed.

(** one entry was added to the transcript, under this tool id, and nothing else of the
    state of the conclusion changed *)
Definition sent_back (tool_id : string) (i i' : InvestigationState) : Prop :=
  is_status i' = is_status i ∧ is_findings i' = is_findings i ∧
  is_recommendations i' = is_recommendations i ∧
  is_pending_verification i' = is_pending_verification i ∧
  is_last_verification i' = is_last_verification i ∧
  ∃ e, te_tool_id e = tool_id ∧ is_transcript i' = is_transcript i ++ [e].

Lemma sent_back_evidence tool_id reason result text i :
  sent_back tool_id i (append_evidence_once text (append_transcript tool_id reason result i)).
Proof.
  unfold append_evidence_once. case_match; (split_and!; [done..|]);
    by exists {| te_tool_id := tool_id; te_reason := reason; te_result := result |}.
Qed.

(** A conclusion is reported exactly when every name it claims occurs in what was
    gathered and, unless it is the last chance, no executed write is unverified and the
    second review does not object; the state then holds the stage the verification of the
    writes gives, whatever the model says; otherwise the conclusion is sent back with one
    note and the investigation stands as it was; it never raises *)
Theorem finalize_conclude_spec (c : Conclusion) (llm : LLMChoice) (final_chance : bool) (s : Ag X) :
  let i := ag_inv s in
  let '(r, s') := finalize_conclude cfg c llm final_chance s in
  match r with
  | Ok (Some reply) =>
      ungrounded_identifiers c i = [] ∧
      (final_chance = false → is_pending_verification i = None ∧ critique_rejects c llm s = false) ∧
      ag_inv s' = accept_conclusion c i ∧
      reply = agent_reply (format_report (ag_inv s') c) "ok" (Some (is_investigation_id i))
  | Ok None =>
      (ungrounded_identifiers c i ≠ [] ∧ sent_back "internal.grounding_check" i (ag_inv s')) ∨
      (ungrounded_identifiers c i = [] ∧ final_chance = false ∧ is_pending_verification i ≠ None ∧
         sent_back "internal.verification_check" i (ag_inv s')) ∨
      (ungrounded_identifiers c i = [] ∧ final_chance = false ∧ is_pending_verification i = None ∧
         critique_rejects c llm s = true ∧ sent_back "internal.self_critique_check" i (ag_inv s'))
  | Err _ => False
  end.
Proof.
  cbv zeta. unfold finalize_conclude. rewrite get_inv_bind.
  destruct (ungrounded_identifiers c (ag_inv s)) as [|name names].
  - destruct (is_pending_verification (ag_inv s)) as [pending|] eqn:Ep; destruct final_chance.
    + rewrite ret_bind mod_inv_bind get_inv_bind. cbn. split_and!; done.
    + right; left. split_and!; try done. apply sent_back_evidence.
    + rewrite ret_bind mod_inv_bind get_inv_bind. cbn. split_and!; done.
    + destruct (critique_run c llm s) as (verdict & s1 & Ec & Hi & Hr).
      rewrite (M_bind_ok _ _ _ _ _ Ec).
      destruct verdict as [[[|] issue]|]; cbn in Hr.
      * rewrite mod_inv_bind get_inv_bind. cbn. rewrite Hi. split_and!; done.
      * right; right. rewrite -Hi. split_and!; try done. apply sent_back_evidence.
      * rewrite mod_inv_bind get_inv_bind. cbn. rewrite Hi. split_and!; done.
  - left. split; [done|]. apply sent_back_evidence.
Qed.
End finalize.

(* ------------------------------------------------------------------ *)
(** ** The verification of the writes *)

(** an executed call, as [_update_pending_verification] sees it *)
Record ExecutedCall : Type := {
  xc_action : ToolProposal;
  xc_arguments : list (string * json);
  xc_result : option json;
  xc_types : option (list (string * OperationType))
}.
Definition track (calls : list ExecutedCall) (i : InvestigationState) : InvestigationState :=
  foldl (λ i x, update_pending_verification (xc_action x) (xc_arguments x) (xc_result x) (xc_types x) i)
    i calls.

(** a write that has to be verified: one of the table, which the Gateway does not
    classify otherwise *)
Definition watched (x : ExecutedCall) : option PendingVerification :=
  match dict_get (tp_tool_id (xc_action x)) VERIFICATION_TOOLS_BY_WRITE_TOOL with
  | Some tools =>
      if match xc_types x with
         | None => true
         | Some types => bool_decide (dict_get (tp_tool_id (xc_action x)) types = Some WRITE)
         end
      then Some {| pv_tool_id := tp_tool_id (xc_action x); pv_verification_tools := tools;
                   pv_session_id := dict_get "session_id" (xc_arguments x);
                   pv_reason := tp_reason (xc_action x) |}
      else None
  | None => None
  end.
Definition checks (p : PendingVerification) (x : ExecutedCall) : bool :=
  mem (tp_tool_id (xc_action x)) (pv_verification_tools p).
Definition check_outcome (p : PendingVerification) (x : ExecutedCall) : VerificationOutcome :=
  if verification_still_shows_condition (tp_tool_id (xc_action x)) (pv_session_id p) (xc_result x)
  then UNRESOLVED else RESOLVED.

(** what the executed calls say: nothing was written that has to be verified; or the
    last such write has not been checked; or the first check after it gives the outcome *)
Inductive verdict : list ExecutedCall → option PendingVerification → option VerificationOutcome → Prop :=
| no_write calls : Forall (λ x, watched x = None) calls → verdict calls None None
| not_checked before w p after :
    watched w = Some p → Forall (λ x, watched x = None ∧ checks p x = false) after →
    verdict (before ++ w :: after) (Some p) None
| checked before w p between v after :
    watched w = Some p → Forall (λ x, watched x = None ∧ checks p x = false) between →
    checks p v = true → Forall (λ x, watched x = None) after →
    verdict (before ++ w :: between ++ v :: after) None (Some (check_outcome p v)).

(** no write of the table checks another *)
Lemma watched_never_checks w p x : watched w = Some p → checks p x = true → watched x = None.
Proof.
  unfold watched at 1, checks. intros Hw Hc.
  assert (Forall (λ kv, Forall (λ t, dict_get t VERIFICATION_TOOLS_BY_WRITE_TOOL = None) kv.2)
    VERIFICATION_TOOLS_BY_WRITE_TOOL) as Hall by (repeat constructor).
  case_match eqn:Et; [|done]. case_match; [|done]. injection Hw as <-. cbn in Hc.
  apply dict_get_elem in Et. rewrite Forall_forall in Hall. specialize (Hall _ Et). cbn in Hall.
  unfold mem in Hc. apply bool_decide_eq_true in Hc. rewrite Forall_forall in Hall.
  specialize (Hall _ Hc).
  change (dict_get (tp_tool_id (xc_action x)) VERIFICATION_TOOLS_BY_WRITE_TOOL = None) in Hall.
  unfold watched. by rewrite Hall.
Qed.

(** one call, by what it is *)
Lemma update_checks x i p : is_pending_verification i = Some p → checks p x = true →
  let i' := update_pending_verification (xc_action x) (xc_arguments x) (xc_result x) (xc_types x) i in
  is_pending_verification i' = None ∧ is_last_verification i' = Some (check_outcome p x).
Proof. unfold update_pending_verification, checks. intros -> ->. done. Qed.

Lemma update_other x i :
  (∀ p, is_pending_verification i = Some p → checks p x = false) →
  let i' := update_pending_verification (xc_action x) (xc_arguments x) (xc_result x) (xc_types x) i in
  match watched x with
  | Some p => is_pending_verification i' = Some p ∧ is_last_verification i' = None
  | None => i' = i
  end.
Proof.
  intros Hp. unfold update_pending_verification, watched.
  destruct (is_pending_verification i) as [p|]; [rewrite -/(checks p x) (Hp p eq_refl)|clear Hp];
    destruct (dict_get _ VERIFICATION_TOOLS_BY_WRITE_TOOL); try done; by destruct (xc_types x) as [types|]; [case_bool_decide|].
Qed.

(** C22: the verification of an investigation is what its executed calls say, in order:
    after any calls at all, the state waits for a check exactly when the last watched
    write has none, and holds the outcome of the first check after that write; a write
    later in the sequence starts it over *)
Theorem verification_says calls (i : InvestigationState) :
  is_pending_verification i = None → is_last_verification i = None →
  verdict calls (is_pending_verification (track calls i)) (is_last_verification (track calls i)).
Proof.
  intros Hp0 Hl0. induction calls as [|x calls IH] using rev_ind.
  { rewrite Hp0 Hl0. by apply no_write. }
  unfold track in *. rewrite foldl_app. cbn [foldl]. set (j := foldl _ i calls) in *.
  inversion IH as [l Hn El Ep Eo|before w p after Hw Ha El Ep Eo|before w p between v after Hw Hb Hc Ha El Ep Eo];
    clear IH.
  - pose proof (update_other x j) as Hu. rewrite -Ep in Hu. specialize (Hu ltac:(done)). cbv zeta in Hu.
    destruct (watched x) as [p|] eqn:Ew; [destruct Hu as [-> ->]; by apply (not_checked calls x p [])|].
    rewrite Hu -Ep -Eo. apply no_write. rewrite Forall_app Forall_singleton. done.
  - destruct (checks p x) eqn:Ec.
    + destruct (update_checks x j p (eq_sym Ep) Ec) as [-> ->].
      rewrite -app_assoc. cbn. by apply (checked before w p after x []).
    + pose proof (update_other x j) as Hu. rewrite -Ep in Hu. specialize (Hu ltac:(by intros ? [= <-])).
      cbv zeta in Hu. destruct (watched x) as [p'|] eqn:Ew.
      * destruct Hu as [-> ->]. by apply (not_checked _ x p' []).
      * rewrite Hu -Ep -Eo -app_assoc. cbn. apply not_checked; [done|].
        rewrite Forall_app Forall_singleton. done.
  - pose proof (update_other x j) as Hu. rewrite -Ep in Hu. specialize (Hu ltac:(done)). cbv zeta in Hu.
    destruct (watched x) as [p'|] eqn:Ew; [destruct Hu as [-> ->]; by apply (not_checked _ x p' [])|].
    rewrite Hu -Ep -Eo -app_assoc. cbn. rewrite -app_assoc. apply checked; [done..|].
    rewrite Forall_app Forall_singleton. done.
Qed.

Definition executed_call (tool session : string) (rows : list json) : ExecutedCall := {|
  xc_action := proposal tool session; xc_arguments := [("session_id", JStr session)];
  xc_result := Some (JObj [("rows", JArr rows)]); xc_types := None |}.

Lemma verification_says_witness :
  let calls := [executed_call "database.kill_session" "51" [];
                executed_call "database.get_waits" "" [];
                executed_call "database.get_sessions" "" [JObj [("session_id", JInt 51)]]] in
  let i := new_investigation "inv_1" "blocked" None false in
  is_last_verification (track calls i) = Some UNRESOLVED ∧
  verdict calls (is_pending_verification (track calls i)) (is_last_verification (track calls i)).
Proof. split; [vm_compute; reflexivity|by apply verification_says]. Defined.

(* ------------------------------------------------------------------ *)
(** ** The invariant of an investigation *)

Record Investigation_ok (i : InvestigationState) : Prop := {
  io_status : is_status i ≠ AWAITING_VERIFICATION;
  io_turns : (is_turn_count i ≤ MAX_INVESTIGATION_TURNS)%nat;
  io_records : (is_consecutive_record_observations i ≤ MAX_CONSECUTIVE_RECORD_OBSERVATIONS)%nat;
  io_step : ∀ p, get_playbook (is_playbook_id i) = Some p →
    (is_playbook_step i ≤ length (pb_steps p))%nat;
  io_pending : ∀ p, is_pending_verification i = Some p →
    is_last_verification i = None ∧
    dict_get (pv_tool_id p) VERIFICATION_TOOLS_BY_WRITE_TOOL = Some (pv_verification_tools p);
  io_read_only : is_read_only i = true →
    is_pending_verification i = None ∧ is_last_verification i = None
}.

(** with a turn to spend *)
Definition early (i : InvestigationState) : Prop :=
  Investigation_ok i ∧ (is_turn_count i < MAX_INVESTIGATION_TURNS)%nat.
Definition may_decide (i : InvestigationState) : Prop :=
  early i ∧ (is_consecutive_record_observations i < MAX_CONSECUTIVE_RECORD_OBSERVATIONS)%nat.

Lemma new_investigation_ok id problem playbook read_only :
  Investigation_ok (new_investigation id problem playbook read_only).
Proof. split; cbn; try done; intros; unfold MAX_INVESTIGATION_TURNS, MAX_CONSECUTIVE_RECORD_OBSERVATIONS; lia. Qed.

Lemma conclusion_stage_final i : conclusion_stage i ∈ CONCLUDED_STAGES.
Proof.
  unfold conclusion_stage, CONCLUDED_STAGES.
  destruct (is_last_verification i) as [[]|]; [set_solver..|]. destruct (is_pending_verification i); set_solver.
Qed.

(** an update of fields the invariant does not read *)
Lemma ok_same i i' :
  (is_status i', is_turn_count i', is_consecutive_record_observations i', is_playbook_id i',
   is_playbook_step i', is_pending_verification i', is_last_verification i', is_read_only i') =
  (is_status i, is_turn_count i, is_consecutive_record_observations i, is_playbook_id i,
   is_playbook_step i, is_pending_verification i, is_last_verification i, is_read_only i) →
  Investigation_ok i → Investigation_ok i'.
Proof. intros [= E1 E2 E3 E4 E5 E6 E7 E8] []. split; by rewrite ?E1 ?E2 ?E3 ?E4 ?E5 ?E6 ?E7 ?E8. Qed.

Lemma ok_status st i : st ≠ AWAITING_VERIFICATION → Investigation_ok i →
  Investigation_ok (i <| is_status := st |>).
Proof. intros Hst []. by split. Qed.
Lemma ok_concluded i : Investigation_ok i → Investigation_ok (i <| is_status := conclusion_stage i |>).
Proof. apply ok_status. pose proof (conclusion_stage_final i) as Hf. intros E. rewrite E in Hf. set_solver. Qed.
Lemma ok_spend i : early i → Investigation_ok (i <| is_turn_count ::= S |>).
Proof. intros [[] Ht]. split; done. Qed.
Lemma ok_evidence text i : Investigation_ok i → Investigation_ok (append_evidence text i).
Proof. by apply ok_same. Qed.
Lemma ok_transcript t r v i : Investigation_ok i → Investigation_ok (append_transcript t r v i).
Proof. by apply ok_same. Qed.
Lemma ok_evidence_once text i : Investigation_ok i → Investigation_ok (append_evidence_once text i).
Proof. apply ok_same. unfold append_evidence_once. by case_match. Qed.
Lemma watched_pending x p : watched x = Some p →
  dict_get (pv_tool_id p) VERIFICATION_TOOLS_BY_WRITE_TOOL = Some (pv_verification_tools p) ∧
  is_confirmed_read_tool (tp_tool_id (xc_action x)) (xc_types x) = false.
Proof.
  unfold watched, is_confirmed_read_tool. case_match eqn:Et; [|done].
  destruct (xc_types x) as [types|]; [case_bool_decide as Hw; [|done]|]; intros [= <-]; (split; [done|]);
    cbn; [by rewrite Hw|done].
Qed.

(** what the verification leaves alone *)
Lemma update_frame a args r types i :
  let i' := update_pending_verification a args r types i in
  (is_status i', is_turn_count i', is_consecutive_record_observations i', is_playbook_id i',
   is_playbook_step i', is_read_only i') =
  (is_status i, is_turn_count i, is_consecutive_record_observations i, is_playbook_id i,
   is_playbook_step i, is_read_only i).
Proof. unfold update_pending_verification. repeat case_match; done. Qed.

Lemma ok_other x i i' :
  match watched x with
  | Some p => is_pending_verification i' = Some p ∧ is_last_verification i' = None
  | None => i' = i
  end →
  (is_read_only i = true → is_confirmed_read_tool (tp_tool_id (xc_action x)) (xc_types x) = true) →
  (∀ p, is_pending_verification i = Some p → is_last_verification i = None ∧
     dict_get (pv_tool_id p) VERIFICATION_TOOLS_BY_WRITE_TOOL = Some (pv_verification_tools p)) →
  (is_read_only i = true → is_pending_verification i = None ∧ is_last_verification i = None) →
  (∀ p, is_pending_verification i' = Some p → is_last_verification i' = None ∧
     dict_get (pv_tool_id p) VERIFICATION_TOOLS_BY_WRITE_TOOL = Some (pv_verification_tools p)) ∧
  (is_read_only i = true → is_pending_verification i' = None ∧ is_last_verification i' = None).
Proof.
  intros Hu Hro Hp Hr. destruct (watched x) as [q|] eqn:Ew; [|by subst i'].
  destruct Hu as [-> ->]. destruct (watched_pending x q Ew) as [Hq Hw]. split.
  - by intros p [= <-].
  - intros Hro'. by rewrite Hro in Hw.
Qed.

Lemma ok_update action args result types i :
  (is_read_only i = true → is_confirmed_read_tool (tp_tool_id action) types = true) →
  Investigation_ok i → Investigation_ok (update_pending_verification action args result types i).
Proof.
  intros Hro [Hs Ht Hc Hst Hp Hr].
  set (x := {| xc_action := action; xc_arguments := args; xc_result := result; xc_types := types |}).
  pose proof (update_frame action args result types i) as [= E1 E2 E3 E4 E5 E6].
  assert (let i' := update_pending_verification action args result types i in
    (∀ p, is_pending_verification i' = Some p → is_last_verification i' = None ∧
      dict_get (pv_tool_id p) VERIFICATION_TOOLS_BY_WRITE_TOOL = Some (pv_verification_tools p)) ∧
    (is_read_only i = true → is_pending_verification i' = None ∧ is_last_verification i' = None)) as [Hp' Hr'].
  { cbv zeta. destruct (is_pending_verification i) as [p|] eqn:Ep; [destruct (checks p x) eqn:Ec|].
    - destruct (update_checks x i p Ep Ec) as [Ep' El']. rewrite /= in Ep', El'. rewrite Ep' El'.
      split; [done|]. intros Hro'. by destruct (Hr Hro').
    - assert (∀ q, is_pending_verification i = Some q → checks q x = false) as Hn
        by (intros q; rewrite Ep; by intros [= <-]).
      pose proof (update_other x i Hn) as Hu. cbn in Hu. apply (ok_other x i _ Hu); [done|by rewrite Ep..].
    - assert (∀ q, is_pending_verification i = Some q → checks q x = false) as Hn by (by rewrite Ep).
      pose proof (update_other x i Hn) as Hu. cbn in Hu. apply (ok_other x i _ Hu); [done|by rewrite Ep..]. }
  split; rewrite ?E1 ?E2 ?E3 ?E4 ?E5 ?E6; done.
Qed.

(** *** along the loop *)

(** the investigation keeps [P] *)
Definition kept {X} (P : InvestigationState → Prop) : relation (Ag X) := keeps (λ s, P (ag_inv s)).
#[export] Instance kept_preorder {X} P : PreOrder (kept (X := X) P).
Proof. apply keeps_preorder. Qed.
#[global] Typeclasses Opaque kept.

Section kept.
Context {X : Type} `{GatewayClient X} `{LLMProvider X} `{AgentRuntime X}.
Context (P : InvestigationState → Prop).

Lemma kept_mod_inv f : (∀ i, P i → P (f i)) → preserves (kept P) (mod_inv (X := X) f).
Proof. intros Hf s Hs. by apply Hf. Qed.
Lemma kept_get_inv : preserves (kept P) (get_inv (X := X)).
Proof. by intros s Hs. Qed.
Lemma kept_get_conv : preserves (kept P) (get_conv (X := X)).
Proof. by intros s Hs. Qed.
Lemma kept_mod_conv f : preserves (kept P) (mod_conv (X := X) f).
Proof. by intros s Hs. Qed.
Lemma kept_event e : preserves (kept P) (record_event (X := X) e).
Proof. by intros s Hs. Qed.
Lemma kept_call_llm {A} (c : llm_call X A) : preserves (kept P) (call_llm c).
Proof. intros s Hs. unfold call_llm. by destruct (c (ag_world s)) as [[r l] x]. Qed.
Lemma kept_on_world {A} (m : M X exn A) : preserves (kept P) (on_world m).
Proof. intros s Hs. unfold on_world. by destruct (m (ag_world s)). Qed.
Lemma kept_from_world {A} (f : X → A * X) : preserves (kept P) (from_world f).
Proof. intros s Hs. unfold from_world. by destruct (f (ag_world s)). Qed.
Lemma kept_in_world (f : X → X) : preserves (kept P) (in_world f).
Proof. by intros s Hs. Qed.
Lemma kept_critique cfg c llm : preserves (kept P) (self_critique_conclude cfg (X := X) c llm).
Proof. intros s Hs. destruct (critique_run cfg c llm s) as (v & s' & -> & Hi & _). cbn. by rewrite Hi. Qed.
End kept.

#[export] Hint Resolve kept_get_inv kept_get_conv kept_mod_conv kept_event kept_call_llm kept_on_world
  kept_from_world kept_in_world kept_critique : numi.
#[export] Hint Resolve ok_concluded ok_spend ok_evidence ok_transcript ok_evidence_once : numi.

Ltac kept_step :=
  match goal with
  | |- preserves (kept _) (mod_inv _) => apply kept_mod_inv; intros ? ?; solve [eauto with numi]
  | |- preserves (kept _) _ => walk_step
  end.
Ltac kept := repeat kept_step.

Section loop_keeps.
Context {X : Type} `{GatewayClient X} `{LLMProvider X} `{AgentRuntime X}.
Context (cfg : Settings) (la : LoopArgs).
Abbreviation ok := (kept (X := X) Investigation_ok).

Lemma kept_log_event t llm payload : preserves ok (log_event t llm payload).
Proof. unfold log_event. kept. Qed.
Hint Resolve kept_log_event : numi.

Lemma ok_accept c i : Investigation_ok i → Investigation_ok (accept_conclusion c i).
Proof. intros Hi. eapply ok_same; [|exact (ok_concluded i Hi)]. done. Qed.
Hint Resolve ok_accept : numi.

Lemma kept_finalize c llm final : preserves ok (finalize_conclude cfg c llm final).
Proof. unfold finalize_conclude, reject_ungrounded, reject_unverified, reject_unsound. kept. Qed.

Lemma kept_relay_approval action request response :
  preserves ok (relay_approval action request response).
Proof. unfold relay_approval. kept. Qed.
Lemma kept_relay_denied action response : preserves ok (relay_denied action response).
Proof. unfold relay_denied. kept. Qed.

Lemma kept_submit_and_relay action channel account allowed types :
  preserves ok (submit_and_relay action channel account allowed types).
Proof.
  intros s Hs. rewrite submit_and_relay_run.
  destruct (is_read_only (ag_inv s) && negb (is_confirmed_read_tool (tp_tool_id action) types)) eqn:Eg.
  { by eapply ok_same; [|exact Hs]. }
  destruct (new_ulid (ag_world s)) as [ulid x1]. cbv zeta.
  destruct (gc_submit _ x1) as [[response|e] x2].
  - unfold relay_response. rewrite mod_conv_bind get_inv_bind.
    set (s2 := _ <| ag_conv ::= _ |>). assert (Investigation_ok (ag_inv s2)) as Hs2 by exact Hs.
    destruct (rs_status response).
    + cbn. unfold relay_executed. apply ok_update; [|by eapply ok_same; [|exact Hs]].
      cbn. intros Hr. rewrite Hr in Eg. by apply negb_false_iff in Eg.
    + case_match; [by eapply ok_same; [|exact Hs]|].
      by apply kept_relay_approval.
    + by apply kept_relay_denied.
    + by eapply ok_same; [|exact Hs].
  - by eapply ok_same; [|exact Hs].
Qed.

Lemma kept_relay action : preserves ok (reply_or_again (relay la action)).
Proof. unfold reply_or_again, relay. apply preserves_bind; [apply _|apply kept_submit_and_relay|intros ?]. kept. Qed.
Lemma next_step_bound ids steps at_ : ((next_step ids steps at_).1 ≤ at_ + length steps)%nat.
Proof.
  revert at_. induction steps as [|st steps IH]; intros at_; cbn; [lia|].
  case_match; cbn; [lia|]. specialize (IH (S at_)). lia.
Qed.

Lemma next_playbook_run ids (s : Ag X) : ∃ a s', next_playbook_action ids s = (Ok a, s') ∧
  (Investigation_ok (ag_inv s) → Investigation_ok (ag_inv s')) ∧
  is_turn_count (ag_inv s') = is_turn_count (ag_inv s) ∧
  is_consecutive_record_observations (ag_inv s') = is_consecutive_record_observations (ag_inv s).
Proof.
  unfold next_playbook_action. rewrite get_inv_bind. destruct (get_playbook _) as [p|] eqn:Ep; [|by eexists _, _].
  pose proof (next_step_bound ids (drop (is_playbook_step (ag_inv s)) (pb_steps p)) (is_playbook_step (ag_inv s))) as Hb.
  destruct (next_step _ _ _) as [at_ st]. rewrite mod_inv_bind. eexists _, _. split; [done|].
  split_and!; [|done..]. intros []. split; try done. cbn. intros q Hq.
  rewrite Ep in Hq. injection Hq as <-. cbn in Hb. rewrite length_drop in Hb. specialize (io_step0 p Ep). lia.
Qed.

Lemma kept_clarify question : preserves ok (clarify question).
Proof.
  unfold clarify. apply preserves_bind; [apply _| |intros ?].
  - apply kept_mod_inv. intros i []. split; try done. cbn. lia.
  - kept. apply kept_mod_inv. intros i Hi. by apply ok_status.
Qed.

Lemma kept_take_action action (s : Ag X) : may_decide (ag_inv s) →
  Investigation_ok (ag_inv (take_action cfg la action s).2).
Proof.
  intros [[Hi Ht] Hc]. unfold take_action. destruct action as [q|p|text|c].
  - by apply kept_clarify.
  - rewrite mod_inv_bind. apply kept_relay. destruct Hi; split; try done; cbn; lia.
  - rewrite mod_inv_bind. cbn. destruct Hi; split; try done; cbn; lia.
  - rewrite mod_inv_bind. unfold reply_or_again.
    apply (preserves_bind ok); [apply kept_finalize|intros ?; kept|].
    destruct Hi; split; try done; cbn; lia.
Qed.

Lemma kept_pass : preserves ok (investigation_pass cfg la).
Proof.
  intros s Hs. unfold investigation_pass. rewrite get_inv_bind.
  case_match eqn:Et; [done|]. apply negb_false_iff, Nat.ltb_lt in Et. rewrite mod_inv_bind.
  set (s1 := s <| ag_inv ::= _ |>).
  assert (early (ag_inv s1)) as [Hs1 Ht1] by (split; [by apply ok_status|done]).
  destruct (next_playbook_run (la_available_ids la) s1) as (a & s2 & En & Hok & Ht2 & Hc2).
  specialize (Hok Hs1). rewrite (M_bind_ok _ _ _ _ _ En).
  destruct a as [action|].
  - rewrite mod_inv_bind. apply kept_relay. apply ok_spend. split; [done|lia].
  - rewrite get_inv_bind. case_match eqn:Ec.
    + unfold conclude_without_root_cause. by apply ok_concluded.
    + apply Nat.leb_gt in Ec. set (m := decide la _ _ _).
      assert (preserves (kept may_decide) m) as Hm by (unfold m, decide; kept).
      specialize (Hm s2). destruct (m s2) as [[action|e] s3] eqn:Em; cbn in Hm.
      * rewrite (M_bind_ok _ _ _ _ _ Em) mod_inv_bind. apply kept_take_action.
        destruct Hm as [[Hi Ht] Hc]; [split; [split; [done|lia]|done]|].
        split; [split; [by eapply ok_same; [|exact Hi]|done]|done].
      * rewrite (M_bind_err _ _ _ _ _ Em). cbn. apply Hm. split; [split; [done|lia]|done].
Qed.

Lemma kept_conclude_without : preserves ok conclude_without_root_cause.
Proof. unfold conclude_without_root_cause. kept. Qed.
Hint Resolve kept_conclude_without kept_finalize kept_pass : numi.

Lemma kept_run : preserves ok (run_investigation_loop cfg la).
Proof. unfold run_investigation_loop, last_chance, decide. kept. Qed.
End loop_keeps.

(** C23: whatever the models and the Gateway answer, an investigation keeps its
    invariant: the stored status is never the derived AWAITING_VERIFICATION, the turns,
    the repeated observations and the playbook step stay within their bounds, a pending
    verification belongs to a write of the table and has no outcome yet, and an unattended
    investigation has none *)
Theorem continue_keeps_invariant {X} `{GatewayClient X, LLMProvider X, AgentRuntime X}
    (cfg : Settings) (channel account : string) (s : Ag X) :
  Investigation_ok (ag_inv s) →
  Investigation_ok (ag_inv (continue_investigation cfg channel account s).2).
Proof.
  revert s. change (preserves (kept Investigation_ok) (continue_investigation (X := X) cfg channel account)).
  unfold continue_investigation, bootstrap_investigation_memory, memory_server_id, canonical_server_id,
    find_matching_servers, list_servers_cached.
  kept; first [apply kept_run|apply kept_mod_inv; intros i Hi; by eapply ok_same; [|exact Hi]].
Qed.

Lemma continue_keeps_invariant_witness :
  let s := script_state false kill_script in
  Investigation_ok (ag_inv s) ∧
  Investigation_ok (ag_inv (continue_investigation script_settings "slack" "u1" s).2).
Proof.
  split; [apply new_investigation_ok|]. apply continue_keeps_invariant, new_investigation_ok.
Defined.
