(* ===== verification/Progress.v ===== *)
(** An investigation cannot go on for ever: every answered message brings it nearer to
    its conclusion, whatever the models and the Gateway answer. *)
From S2P Require Import Prelude ProgramLogic Json Text Models ToolCatalog Servers Policy Approval.
From S2P Require Import Gateway Investigations Fallback Playbooks Conversation Config LLMRegistry.
From S2P Require Import AgentApi Investigator AgentScript InvestigatorFacts Conclusions.

Definition clarifications {X} (s : Ag X) : nat := is_clarification_count (ag_inv s).

(** the investigation is over, or a turn was spent, or one more of the questions that may
    be asked in a row *)
Definition nearer (i i' : InvestigationState) : Prop :=
  is_concluded i' = true ∨
  (is_turn_count i < is_turn_count i' ≤ MAX_INVESTIGATION_TURNS)%nat ∨
  (is_turn_count i' = is_turn_count i ∧
   is_clarification_count i' = S (is_clarification_count i) ∧
   (is_clarification_count i' ≤ MAX_CLARIFICATION_TURNS)%nat ∧
   (is_turn_count i < MAX_INVESTIGATION_TURNS)%nat).

Lemma conclusion_is_concluded i : is_concluded (i <| is_status := conclusion_stage i |>) = true.
Proof. apply bool_decide_eq_true. apply conclusion_stage_final. Qed.

(** the counters of the loop *)
Definition counts (i : InvestigationState) : nat * nat := (is_turn_count i, is_clarification_count i).
Lemma counts_mod_inv {X} f n : (∀ i, counts (f i) = counts i) →
  preserves (kept (X := X) (λ i, counts i = n)) (mod_inv f).
Proof. intros Hf. apply kept_mod_inv. intros i <-. apply Hf. Qed.
#[local] Hint Extern 1 (preserves (kept _) (mod_inv _)) => apply counts_mod_inv; by intros ? : numi.

Section progress.
Context {X : Type} `{GatewayClient X} `{LLMProvider X} `{AgentRuntime X}.
Context (cfg : Settings) (la : LoopArgs).
Abbreviation kept_counts n := (kept (X := X) (λ i, counts i = n)).

Lemma counts_next_playbook ids n : preserves (kept_counts n) (next_playbook_action ids).
Proof. unfold next_playbook_action. walk. Qed.
Lemma counts_decide problem ids reqs n : preserves (kept_counts n) (decide la problem ids reqs).
Proof. unfold decide. kept. Qed.
Lemma counts_bootstrap account n : preserves (kept_counts n) (bootstrap_investigation_memory cfg account).
Proof.
  unfold bootstrap_investigation_memory, memory_server_id, canonical_server_id, find_matching_servers,
    list_servers_cached. walk.
Qed.

Lemma turns_relay action (s : Ag X) : turns (reply_or_again (relay la action) s).2 = turns s.
Proof.
  rewrite (proj1 (reply_or_again_snd _ _)). unfold relay.
  destruct (submit_and_relay_acts action (la_channel la) (la_channel_account_id la)
    (la_tool_allowed_arguments la) (la_tool_operation_types la) s) as [(Hq & _)|(request & Hf & _)].
  - by apply quiet_framed_ids in Hq as (_ & Ht & _).
  - by apply framed_framed_ids in Hf as [_ Ht].
Qed.

(** a pass, once the model has decided *)
Lemma take_action_progress action (s : Ag X) : (turns s < MAX_INVESTIGATION_TURNS)%nat →
  match take_action cfg la action s with
  | (Ok (Leave _), s') => nearer (ag_inv s) (ag_inv s')
  | (Ok Again, s') => turns s' = S (turns s)
  | (Err _, _) => True
  end.
Proof.
  intros Ht. assert (∀ (s1 : Ag X) (r : res exn (pass (option AgentReply))), turns s1 = S (turns s) →
    match r with
    | Ok (Leave _) => nearer (ag_inv s) (ag_inv s1) | Ok Again => turns s1 = S (turns s)
    | Err _ => True end) as Hspent.
  { intros s1 [[|a]|e] E; [done|right; left; unfold turns in *; lia|done]. }
  unfold take_action. destruct action as [q|p|text|c].
  - unfold clarify. rewrite mod_inv_bind get_inv_bind.
    destruct (MAX_CLARIFICATION_TURNS <? _)%nat eqn:Ec; rewrite mod_inv_bind; cbn [mret M_ret].
    + left. apply (conclusion_is_concluded (_ <| is_clarification_count ::= S |>)).
    + apply Nat.ltb_ge in Ec. right; right. cbn in *. done.
  - rewrite mod_inv_bind. set (s1 := s <| ag_inv ::= _ |>). pose proof (turns_relay p s1) as Hr.
    destruct (reply_or_again (relay la p) s1) as [r s2]. apply (Hspent s2 r). exact Hr.
  - rewrite mod_inv_bind. done.
  - rewrite mod_inv_bind. set (s1 := s <| ag_inv ::= _ |>).
    pose proof (proj1 (reply_or_again_snd (finalize_conclude cfg c (la_llm la) false) s1)) as Hr.
    pose proof (quiet_finalize cfg c (la_llm la) false s1) as (_ & Hq & _)%quiet_framed_ids.
    rewrite -Hr in Hq. destruct (reply_or_again _ s1) as [r s2]. apply (Hspent s2 r). exact Hq.
Qed.

Lemma pass_progress (s : Ag X) : (turns s < MAX_INVESTIGATION_TURNS)%nat →
  match investigation_pass cfg la s with
  | (Ok (Leave _), s') => nearer (ag_inv s) (ag_inv s')
  | (Ok Again, s') => turns s' = S (turns s)
  | (Err _, _) => True
  end.
Proof.
  intros Ht. unfold investigation_pass. rewrite get_inv_bind. fold (turns s).
  rewrite (proj2 (Nat.ltb_lt _ _) Ht). cbn [negb]. rewrite mod_inv_bind. set (s1 := s <| ag_inv ::= _ |>).
  pose proof (counts_next_playbook (la_available_ids la) (counts (ag_inv s)) s1 eq_refl) as Hc.
  destruct (next_playbook_action_ok (la_available_ids la) s1) as [a Ha].
  destruct (next_playbook_action (la_available_ids la) s1) as [r s2] eqn:En. cbn in Ha, Hc. subst r.
  rewrite (M_bind_ok _ _ _ _ _ En). injection Hc as Hct Hcc. destruct a as [action|].
  - rewrite mod_inv_bind. set (s3 := s2 <| ag_inv ::= _ |>). pose proof (turns_relay action s3) as Hr.
    assert (turns s3 = S (turns s)) as E3 by exact (f_equal S Hct).
    rewrite E3 in Hr. destruct (reply_or_again (relay la action) s3) as [[[|r]|e] s4]; [exact Hr| |done].
    right; left. unfold turns in *. cbn [snd] in Hr. lia.
  - rewrite get_inv_bind. destruct (MAX_CONSECUTIVE_RECORD_OBSERVATIONS <=? _)%nat.
    + left. apply conclusion_is_concluded.
    + set (m := decide la _ _ _).
      pose proof (counts_decide (problem_statement_for_llm (ag_inv s2)) (la_available_ids la)
        (la_tool_requirements la) (counts (ag_inv s)) s2) as Hd. fold m in Hd.
      destruct (m s2) as [[action|e] s3] eqn:Em; [|by rewrite (M_bind_err _ _ _ _ _ Em)].
      rewrite (M_bind_ok _ _ _ _ _ Em) mod_inv_bind. set (s4 := s3 <| ag_inv ::= _ |>).
      injection (Hd ltac:(unfold counts; congruence)) as Hdt Hdc.
      pose proof (take_action_progress action s4) as Hp. unfold turns, clarifications in *.
      change (is_turn_count (ag_inv s4)) with (is_turn_count (ag_inv s3)) in Hp.
      rewrite Hdt in Hp. specialize (Hp Ht).
      destruct (take_action cfg la action s4) as [[[|r]|e] s5]; [exact Hp| |done].
      unfold nearer in *. change (counts (ag_inv s4)) with (counts (ag_inv s3)).
      change (is_turn_count (ag_inv s4)) with (is_turn_count (ag_inv s3)) in Hp.
      change (is_clarification_count (ag_inv s4)) with (is_clarification_count (ag_inv s3)) in Hp.
      by rewrite Hdt Hdc in Hp.
Qed.

Lemma last_chance_concludes (s : Ag X) reply s' :
  last_chance cfg la s = (Ok reply, s') → is_concluded (ag_inv s') = true.
Proof.
  unfold last_chance. rewrite get_inv_bind. set (m := decide la _ _ _).
  destruct (m s) as [[action|e] s1] eqn:Em; [|by rewrite (M_bind_err _ _ _ _ _ Em)].
  rewrite (M_bind_ok _ _ _ _ _ Em).
  assert (∀ (s2 : Ag X) reply s', conclude_without_root_cause s2 = (Ok reply, s') →
    is_concluded (ag_inv s') = true) as Hw.
  { intros s2 r0 s0. unfold conclude_without_root_cause. rewrite mod_inv_bind. intros [= _ <-].
    apply conclusion_is_concluded. }
  destruct action as [q|p|text|c]; try apply Hw.
  pose proof (finalize_conclude_spec cfg c (la_llm la) true s1) as Hf. cbv zeta in Hf.
  destruct (finalize_conclude cfg c (la_llm la) true s1) as [[[r|]|e] s2] eqn:Ef; [| |done];
    rewrite (M_bind_ok _ _ _ _ _ Ef); [|apply Hw].
  intros [= _ <-]. destruct Hf as (_ & _ & -> & _). apply bool_decide_eq_true, conclusion_stage_final.
Qed.

(** the loop so far: no pass has left, and the questions in a row stand while the turns do *)
Definition under_way (s0 s : Ag X) : Prop :=
  (turns s0 < turns s ≤ MAX_INVESTIGATION_TURNS)%nat ∨ counts (ag_inv s) = counts (ag_inv s0).

Lemma nearer_under_way (s0 s s' : Ag X) : under_way s0 s → nearer (ag_inv s) (ag_inv s') →
  nearer (ag_inv s0) (ag_inv s').
Proof.
  unfold under_way, nearer, turns, counts. intros [Hu|[= Ht Hc]] [Hn|[Hn|Hn]]; auto.
  - right; left. lia.
  - right; left. lia.
  - right; left. lia.
  - right; right. rewrite -Ht -Hc. done.
Qed.

Lemma loop_progress (s0 : Ag X) fuel :
  triple (under_way s0) (loop (investigation_pass cfg la) fuel)
    (λ r s, match r with Ok (Some (Some _)) => nearer (ag_inv s0) (ag_inv s) | _ => True end).
Proof.
  apply triple_loop; [|done]. intros s Hs.
  destruct (base.decide (turns s < MAX_INVESTIGATION_TURNS)%nat) as [Ht|Ht].
  - pose proof (pass_progress s Ht) as Hp.
    destruct (investigation_pass cfg la s) as [[[|[reply|]]|e] s']; cbn [fst snd]; [| |done..].
    + left. rewrite Hp. destruct Hs as [Hs|[= Hs _]]; unfold turns in *; lia.
    + by eapply nearer_under_way.
  - by rewrite (pass_over cfg la s Ht).
Qed.

Lemma run_progress (s : Ag X) reply s' :
  run_investigation_loop cfg la s = (Ok reply, s') → nearer (ag_inv s) (ag_inv s').
Proof.
  unfold run_investigation_loop. pose proof (loop_progress s (S MAX_INVESTIGATION_TURNS) s) as Hl.
  destruct (loop _ _ s) as [[[[r|]|]|e] s1] eqn:El; cbn [fst snd] in Hl;
    [| | |by rewrite (M_bind_err _ _ _ _ _ El)]; rewrite (M_bind_ok _ _ _ _ _ El).
  - intros [= _ <-]. apply Hl. by right.
  - intros Hc. left. by eapply last_chance_concludes.
  - done.
Qed.
End progress.

Section messages.
Context {X : Type} `{GatewayClient X} `{LLMProvider X} `{AgentRuntime X}.
Context (cfg : Settings) (channel account : string).

Lemma continue_progress (s : Ag X) reply s' :
  continue_investigation cfg channel account s = (Ok reply, s') → nearer (ag_inv s) (ag_inv s').
Proof.
  unfold continue_investigation. rewrite get_conv_bind.
  destruct (total_bootstrap cfg account s) as ([] & s1 & Eb).
  pose proof (counts_bootstrap cfg account (counts (ag_inv s)) s eq_refl) as Hb. rewrite Eb in Hb. cbn in Hb.
  rewrite (M_bind_ok _ _ _ _ _ Eb) on_world_bind.
  destruct (gc_available_tools _ _ _) as [[available|e] x]; [|done].
  rewrite get_inv_bind. cbv zeta. set (s2 := s1 <| ag_world := x |>).
  match goal with |- context [run_investigation_loop cfg ?args] => set (la := args) end.
  destruct (run_investigation_loop cfg la s2) as [[r|e] s3] eqn:Er;
    [rewrite (M_bind_ok _ _ _ _ _ Er)|by rewrite (M_bind_err _ _ _ _ _ Er)].
  destruct (total_memory_server_id s3) as (id & s4 & Em).
  pose proof (world_memory_server_id s3) as (_ & Hw & _). rewrite Em in Hw. cbn in Hw.
  rewrite (M_bind_ok _ _ _ _ _ Em). intros [= _ <-]. apply run_progress in Er.
  change (nearer (ag_inv s) (ag_inv s4)). rewrite Hw.
  assert (under_way s s2) as Hu by (right; exact Hb). by eapply nearer_under_way.
Qed.

(** [n] messages of an investigation in progress, each one answered: what happens to the
    conversation and to the world in between is any, as long as the counters stand *)
Inductive answered : nat → InvestigationState → InvestigationState → Prop :=
| answered_none i : answered 0 i i
| answered_more n i0 i s reply s' :
    answered n i0 i → is_concluded i = false → counts (ag_inv s) = counts i →
    continue_investigation cfg channel account s = (Ok reply, s') →
    answered (S n) i0 (ag_inv s').

(** what is left: the turns, each with the questions that may be asked before it *)
Definition budget (i : InvestigationState) : nat :=
  ((MAX_INVESTIGATION_TURNS - is_turn_count i) * S MAX_CLARIFICATION_TURNS
   + (MAX_CLARIFICATION_TURNS - is_clarification_count i))%nat.

Lemma nearer_budget i0 i i' : counts i0 = counts i → nearer i0 i' →
  is_concluded i' = true ∨ (budget i' < budget i)%nat.
Proof.
  unfold nearer, budget, counts. intros [= E1 E2]. rewrite E1 E2.
  unfold MAX_INVESTIGATION_TURNS, MAX_CLARIFICATION_TURNS. intros [?|[?|?]]; [by left|right; lia|right; lia].
Qed.

Lemma answered_budget n i i' : answered n i i' →
  is_concluded i' = true ∧ (n ≤ S (budget i))%nat ∨ (n + budget i' ≤ budget i)%nat.
Proof.
  induction 1 as [i|n i0 i s reply s' Hn IH Hc Hcounts Hrun]; [right; lia|].
  destruct IH as [[Hc' _]|IH]; [congruence|].
  apply continue_progress in Hrun. destruct (nearer_budget _ _ _ Hcounts Hrun); [left|right]; [split; [done|]|]; lia.
Qed.

(** C21: a DBA who keeps answering gets a conclusion: however the models and the Gateway
    behave, as long as they answer, an investigation that just started is concluded by the
    35th message at the latest, and no message after its conclusion continues it *)
Theorem investigation_concludes (id problem : string) (playbook : option string) (read_only : bool)
    (n : nat) (i : InvestigationState) :
  answered n (new_investigation id problem playbook read_only) i →
  (n ≤ 35)%nat ∧ (n = 35%nat → is_concluded i = true).
Proof.
  intros Ha. assert (budget (new_investigation id problem playbook read_only) = 34%nat) as Hb by done.
  destruct (answered_budget _ _ _ Ha) as [[Hc Hn]|Hn]; rewrite Hb in Hn; [by split|].
  split; [lia|]. intros ->. lia.
Qed.
End messages.

Definition killed : res exn AgentReply * Ag Script :=
  continue_investigation script_settings "slack" "u1" (script_state false kill_script).

Lemma killed_answered : answered script_settings "slack" "u1" 1
  (new_investigation "inv_1" "why is CoreBanking slow?" None false) (ag_inv killed.2).
Proof.
  apply (answered_more _ _ _ 0 _ (new_investigation "inv_1" "why is CoreBanking slow?" None false)
    (script_state false kill_script) match killed.1 with Ok r => r | Err _ => agent_reply "" "" None end);
    [constructor|vm_compute; reflexivity..].
Qed.

Lemma investigation_concludes_witness :
  is_concluded (ag_inv killed.2) = true ∧ (1 ≤ 35)%nat.
Proof.
  split; [vm_compute; reflexivity|].
  exact (proj1 (investigation_concludes _ _ _ _ _ _ _ _ _ killed_answered)).
Defined.
