(* ===== verification/Orchestrator.v ===== *)
(** The conversations of the Agent: the public entry points of
    [agent/orchestrator.py] and everything between them and the investigation loop
    of [Investigator]: commands, intents, targets, approvals, unattended runs. *)
From S2P Require Import Prelude ProgramLogic Json Text Models ToolCatalog Servers Policy Approval.
From S2P Require Import Gateway Investigations Fallback Playbooks Conversation Config LLMRegistry.
From S2P Require Import AgentApi Investigator.

(* ------------------------------------------------------------------ *)
(** ** Mentions *)

(** what follows a [<@...>] token at the start of [s] *)
Fixpoint after_gt (empty : bool) (s : string) : option string :=
  match s with
  | EmptyString => None
  | String c s => if bool_decide (c = ">"%char) then (if empty then None else Some s)
                  else after_gt false s
  end.
Definition mention_rest (s : string) : option string :=
  match s with
  | String c (String d s) =>
      if bool_decide (c = "<"%char) && bool_decide (d = "@"%char) then after_gt true s else None
  | _ => None
  end.

(** [_LEADING_MENTIONS_RE.sub("", s)]; a token has four characters or more, so that the
    length of the text is fuel enough *)
Fixpoint strip_leading (fuel : nat) (s : string) : string :=
  match fuel with
  | O => s
  | S fuel =>
      match mention_rest (str_lstrip s) with
      | Some rest => strip_leading fuel (str_lstrip rest)
      | None => s
      end
  end.
Definition leading_mentions_sub (s : string) : string := strip_leading (String.length s) s.

(** nothing but mentions, one at least *)
Definition all_mentions (s : string) : bool :=
  match mention_rest (str_lstrip s) with
  | Some _ => bool_decide (leading_mentions_sub s = "")
  | None => false
  end.
(** [_TRAILING_MENTIONS_RE.sub("", s)]: from the leftmost position where it matches *)
Fixpoint trailing_mentions_sub (s : string) : string :=
  if all_mentions s then ""
  else match s with
       | EmptyString => ""
       | String c s => String c (trailing_mentions_sub s)
       end.

Definition strip_bot_mention_noise (message : string) : string :=
  str_strip (trailing_mentions_sub (leading_mentions_sub message)).

Example mentions_ex : map strip_bot_mention_noise
  ["<@U0BOTID> /models"; "development  <@U0BOTID>"; "check with <@U999> about it"; " <@A> <@B>hi <@> <@C><@D> "]
  = ["/models"; "development"; "check with <@U999> about it"; "hi <@>"].
Proof. vm_compute. reflexivity. Qed.

(* ------------------------------------------------------------------ *)
(** ** Texts *)

Definition HELP_TEXT : string :=
  "I'm Numi, your AI DBA assistant. I can investigate database health, "
  +:+ "performance, blocking, deadlocks, replication, backups, and more, and — "
  +:+ "with your role's approval where required — take controlled remediation "
  +:+ "actions. Try: " +:+ quoted "Why is CoreBanking slow?" +:+ " or "
  +:+ quoted "Check blocking on CoreBanking production." +:+ two_newlines
  +:+ "Commands: /help, /status, /approve <id>, "
  +:+ "/reject <id>, /models, /model <provider> <model>, /servers, /catalog <id>, "
  +:+ "/discover, /playbooks, /approvers" +:+ two_newlines
  +:+ "You never need the exact slash syntax for any of these — plain language works too (e.g. "
  +:+ quoted "what servers do you have" +:+ " instead of /servers).".

Definition APPROVAL_MODEL_TEXT : string :=
  "Approval requirements are decided by the DBA Control Gateway's policy "
  +:+ "engine, not by me — they depend on your own DBA role, the specific "
  +:+ "action, and the target environment, so there's no single fixed answer "
  +:+ "I can give in the abstract. In general: routine read-only checks never "
  +:+ "need approval; higher-risk write actions typically require a more "
  +:+ "senior DBA role or a separate, independent approver (you can never "
  +:+ "approve your own request); and the most critical actions (an instance "
  +:+ "restart or a failover) require two different qualified approvers, not "
  +:+ "just one. Whenever one of your own requests actually needs approval, "
  +:+ "I'll show you exactly what's required at that moment — for your "
  +:+ "role's specific permissions ahead of time, check with your "
  +:+ "organization's RBAC documentation or a DBA_MANAGER.".

(** [AgentReply(text=...)] *)
Definition text_reply (text : string) : AgentReply := agent_reply text "ok" None.
Definition error_reply (text : string) : AgentReply := agent_reply text "error" None.
Definition clarification_reply (text : string) : AgentReply := agent_reply text "clarification" None.

Definition WHICH_ENVIRONMENT : string :=
  "Which environment should I investigate — development, uat, or production? For production "
  +:+ "targets I won't guess.".

(** [_ENVIRONMENT_ANSWER_RE.search(message)], lowered: the first word that names one *)
Definition environment_answer (message : string) : option string :=
  first_where (λ w, mem w ["development"; "uat"; "production"]) (map str_lower (words message)).

(** [_STAGE_PHRASES], [_stage_phrase] *)
Definition STAGE_PHRASES (st : InvestigationStage) : string :=
  match st with
  | INVESTIGATING => "Investigating."
  | AWAITING_CLARIFICATION => "Awaiting your answer to a clarifying question."
  | CONCLUDED_VERIFIED =>
      "Concluded — the remediation was independently re-checked and confirmed resolved."
  | CONCLUDED_UNRESOLVED =>
      "Concluded — the remediation was independently re-checked and did NOT resolve the condition."
  | CONCLUDED_UNVERIFIED => "Concluded — a remediation ran but was never independently verified."
  | CONCLUDED_NO_ACTION => "Concluded."
  | AWAITING_VERIFICATION => ""
  end.
Definition stage_phrase (i : InvestigationState) : string :=
  match effective_status i with
  | AWAITING_VERIFICATION =>
      "Awaiting independent verification of "
      +:+ default "the last action" (pv_tool_id <$> is_pending_verification i) +:+ "."
  | st => STAGE_PHRASES st
  end.

(** [_status_reply] *)
Definition status_reply (state : ConversationState) : AgentReply :=
  match cs_investigation state with
  | None => text_reply "No active investigation on this conversation."
  | Some i =>
      let playbook_note :=
        match get_playbook (is_playbook_id i) with
        | Some p =>
            let n := length (pb_steps p) in
            " Following the '" +:+ pb_name p +:+ "' playbook (step "
            +:+ pretty (Nat.min (is_playbook_step i) n) +:+ "/" +:+ pretty n +:+ ")."
        | None => ""
        end in
      agent_reply ("Investigation " +:+ is_investigation_id i +:+ ": " +:+ stage_phrase i
        +:+ playbook_note +:+ " " +:+ pretty (length (is_evidence i)) +:+ " observations so far.")
        "ok" (Some (is_investigation_id i))
  end.

(** [_handle_playbooks_command], [_handle_approvers_command] *)
Definition playbooks_reply : AgentReply :=
  text_reply ("I automatically follow one of these fixed diagnostic sequences "
    +:+ "when your message matches its scenario, instead of investigating "
    +:+ "fully freeform:" +:+ String newline (str_join (String newline "")
        (map (λ p, "- " +:+ pb_name p +:+ ": " +:+ pb_description p) PLAYBOOKS))).
Definition approvers_reply : AgentReply := text_reply APPROVAL_MODEL_TEXT.

(* ------------------------------------------------------------------ *)
(** ** Servers and catalogs *)

(** a line of [_handle_servers_command] *)
Definition server_line (s : ServerSummary) : string :=
  let summary :=
    match ss_catalog s with
    | Some c =>
        let names := cm_databases c in
        let preview := str_join ", " (take 8 names)
                       +:+ (if (8 <? length names)%nat then ", …" else "") in
        pretty (cm_database_count c) +:+ " databases"
        +:+ (if truthy preview then " (" +:+ preview +:+ ")" else "")
        +:+ ", discovered " +:+ str_take 16 (default "" (cm_discovered_at c))
    | None => "not yet discovered — run /discover"
    end in
  "- " +:+ ss_id s +:+ "  [" +:+ ss_environment s +:+ "/" +:+ ss_platform s +:+ ", "
  +:+ ss_criticality s +:+ "]  " +:+ summary.

(** [f"{size / 1e6:.0f}"]: to the nearest integer, ties to even; exact while the
    quotient is a double, as for any size below 2^53 bytes *)
Definition megabytes (size : Z) : Z :=
  let q := (size / 1000000)%Z in
  let r := (size mod 1000000)%Z in
  if (r <? 500000)%Z then q
  else if (500000 <? r)%Z then (q + 1)%Z
  else if Z.even q then q else (q + 1)%Z.

(** [kinds[k] = kinds.get(k, 0) + 1] over the objects *)
Definition count_kinds (objects : list DiscoveredObject) : list (string * Z) :=
  foldl (λ d o, dict_set (do_kind o) (default 0 (dict_get (do_kind o) d) + 1)%Z d) [] objects.

(** a database of [_handle_catalog_command] *)
Definition database_line (d : DiscoveredDatabase) : string :=
  let size := match dd_size_bytes d with
              | Some z => if bool_decide (z = 0%Z) then "?" else pretty (megabytes z) +:+ "MB"
              | None => "?"
              end in
  let exts := match dd_extensions d with
              | [] => "" | l => ", " +:+ pretty (length l) +:+ " extensions" end in
  "  " +:+ dd_name d +:+ " (" +:+ dd_state d +:+ ", " +:+ size +:+ ") — "
  +:+ repr_json (JObj (map (λ kv, (kv.1, JInt kv.2)) (count_kinds (dd_objects d)))) +:+ exts.

Definition least_privilege_lines (f : option LeastPrivilegeFinding) : list string :=
  match f with
  | None => []
  | Some f =>
      match warning_text f with
      | None => []
      | Some warning =>
          if truthy warning then
            ("  " +:+ warning)
            :: (if truthy (lp_scope_note f) then ["    scope: " +:+ lp_scope_note f] else [])
          else []
      end
  end.

Definition catalog_lines (server_id : string) (c : ServerCatalog) : list string :=
  (server_id +:+ " — " +:+ sc_engine_edition c +:+ " " +:+ sc_engine_version c)
  :: map database_line (take 40 (sc_databases c))
  ++ match sc_warnings c with
     | [] => [] | w => ["  warnings: " +:+ repr_list (take 3 w)] end
  ++ least_privilege_lines (sc_least_privilege c).

(* ------------------------------------------------------------------ *)
(** ** The state of one conversation *)

(** the conversation, the world, the calls made *)
Record Chat (X : Type) : Type := mk_chat {
  ch_conv : ConversationState;
  ch_world : X;
  ch_trace : list AgentEvent
}.
Arguments mk_chat {X}.
Arguments ch_conv {X}. Arguments ch_world {X}. Arguments ch_trace {X}.

#[export] Instance Chat_rebuild {X} : Rebuild (Chat X) := λ c,
  {| ch_conv := ch_conv c; ch_world := ch_world c; ch_trace := ch_trace c |}.

Definition no_investigation : InvestigationState := new_investigation "" "" None false.

Section chat.
Context {X : Type}.

Definition chat_conv : M (Chat X) exn ConversationState := λ s, (Ok (ch_conv s), s).
Definition mod_chat (f : ConversationState → ConversationState) : M (Chat X) exn unit :=
  modify (λ s, s <| ch_conv ::= f |>).
Definition chat_event (e : AgentEvent) : M (Chat X) exn unit :=
  modify (λ s, s <| ch_trace ::= λ t, t ++ [e] |>).
Definition chat_world {A} (m : M X exn A) : M (Chat X) exn A := λ s,
  let '(r, x) := m (ch_world s) in (r, s <| ch_world := x |>).
(** a call recorded with its answer *)
Definition chat_answer {A} (e : res exn A → AgentEvent) (m : M X exn A) : M (Chat X) exn A := λ s,
  let '(r, x) := m (ch_world s) in (r, mk_chat (ch_conv s) x (ch_trace s ++ [e r])).
Definition chat_from_world {A} (f : X → A * X) : M (Chat X) exn A := λ s,
  let '(a, x) := f (ch_world s) in (Ok a, s <| ch_world := x |>).

(** the investigation of the conversation, when it has one *)
Definition mod_investigation (f : InvestigationState → InvestigationState) : M (Chat X) exn unit :=
  mod_chat (λ c, c <| cs_investigation ::= fmap f |>).

(** code that works on the conversation and on its investigation, which is one and the
    same object: what it did is in the conversation, also when it raised *)
Definition in_chat {A} (m : M (Ag X) exn A) : M (Chat X) exn A := λ s,
  let '(r, a) := m (mk_ag (ch_conv s) (default no_investigation (cs_investigation (ch_conv s)))
                      (ch_world s) (ch_trace s)) in
  (r, mk_chat ((ag_conv a) <| cs_investigation ::= fmap (λ _, ag_inv a) |>) (ag_world a) (ag_trace a)).
End chat.

Definition set_context (k : string) (v : json) (c : ConversationState) : ConversationState :=
  c <| cs_database_context ::= dict_set k v |>.
Definition pop_context (k : string) (c : ConversationState) : ConversationState :=
  c <| cs_database_context ::= dict_pop k |>.

Section orchestrator.
Context {X : Type} `{GatewayClient X} `{LLMProvider X} `{AgentRuntime X}.
Context (cfg : Settings).

(* ------------------------------------------------------------------ *)
(** ** Commands *)

Definition handle_servers_command : M (Chat X) exn AgentReply :=
  servers ← chat_world gc_list_servers;
  match servers with
  | [] => mret (text_reply "No servers are registered.")
  | _ => mret (text_reply ("Registered servers:" +:+ String newline
                 (str_join (String newline "") (map server_line servers))))
  end.

Definition handle_catalog_command (server_id : option string) : M (Chat X) exn AgentReply :=
  if negb (opt_truthy server_id) then
    mret (text_reply "Which server's catalog would you like to see? (see /servers)")
  else
    let server_id := default "" server_id in
    data ← chat_world (gc_get_server_catalog server_id);
    match data with
    | Some (id, Some c) =>
        mret (text_reply (str_join (String newline "") (catalog_lines id c)))
    | _ => mret (text_reply ("No catalog for '" +:+ server_id +:+ "' yet — run /discover " +:+ server_id))
    end.

(** [refresh_catalog] asks for all servers when the id is empty, and the answer is then
    read as that of one server unless the id is [None] *)
Definition handle_discover_command (server_id : option string) (channel channel_account_id : string)
    : M (Chat X) exn AgentReply :=
  let failed detail := error_reply ("Discovery failed: " +:+ detail) in
  let one reported_id (db_count : nat) (error : option string) :=
    match error with
    | Some e => error_reply ("Discovery failed for " +:+ reported_id +:+ ": " +:+ e)
    | None => text_reply ("Discovery complete: " +:+ reported_id +:+ " (" +:+ pretty db_count
                          +:+ " databases).")
    end in
  if opt_truthy server_id then
    result ← chat_world (gc_refresh_one channel channel_account_id (default "" server_id));
    mret (match result with
          | inl detail => failed detail
          | inr r => one (ro_server_id r) (length (ro_databases r)) (ro_error r)
          end)
  else
    result ← chat_world (gc_refresh_all channel channel_account_id);
    mret (match result, server_id with
          | inl detail, _ => failed detail
          | inr statuses, None =>
              text_reply ("Discovery complete:" +:+ String newline (str_join (String newline "")
                (map (λ kv, "- " +:+ kv.1 +:+ ": " +:+ kv.2) statuses)))
          | inr statuses, Some sid =>
              one (default sid (dict_get "server_id" statuses))
                (String.length (default "" (dict_get "databases" statuses))) (dict_get "error" statuses)
          end).

(** [_handle_model_command] *)
Definition model_suffix (model : option string) (otherwise : string) : string :=
  if opt_truthy model then " / " +:+ default "" model else otherwise.
Definition show_model (state : ConversationState) : AgentReply :=
  let '(current, source) :=
    if opt_truthy (cs_llm_provider state) then
      (default "" (cs_llm_provider state) +:+ model_suffix (cs_llm_model state) "", "this conversation")
    else
      let '(dp, dm) := default_llm cfg in
      (dp +:+ model_suffix (Some dm) " (provider default)", "deployment default") in
  let hint := if selection_enabled cfg then "" else " (switching is disabled here)" in
  text_reply ("Current model: " +:+ current +:+ " — " +:+ source +:+ "." +:+ hint
    +:+ String newline "Use `/model <provider> <model>` to switch, or `/models` to list options.").
Definition set_model (provider : string) (model : option string) : M (Chat X) exn AgentReply :=
  _ ← mod_chat (λ c, c <| cs_llm_provider := Some provider |> <| cs_llm_model := model |>);
  mret (text_reply ("Model for this conversation set to " +:+ provider
                    +:+ model_suffix model " (provider default)" +:+ ".")).
Definition switch_model (provider : string) (model : option string) : M (Chat X) exn AgentReply :=
  match validate_selection cfg provider model with
  | Some error => if truthy error then mret (error_reply error) else set_model provider model
  | None =>
      match model with
      | Some m =>
          if bool_decide (provider = "mock") then set_model provider model
          else
            available ← chat_world (list_models cfg llm_vendor_models provider);
            match available with
            | [] => set_model provider model
            | _ =>
                if mem m available then set_model provider model
                else mret (error_reply ("'" +:+ m +:+ "' isn't in " +:+ provider
                             +:+ "'s available models. Options: " +:+ str_join ", " (take 10 available)))
            end
      | None => set_model provider model
      end
  end.
Definition handle_model_command (stripped : string) : M (Chat X) exn AgentReply :=
  state ← chat_conv;
  match ws_split stripped with
  | [] => raise (PyError "IndexError" "list index out of range")
  | command :: parts =>
      if bool_decide (command = "/models") then
        text ← chat_world (describe_available cfg llm_vendor_models); mret (text_reply text)
      else match parts with
           | [] => mret (show_model state)
           | provider :: rest => switch_model (str_lower provider) (head rest)
           end
  end.

(* ------------------------------------------------------------------ *)
(** ** Approvals *)

(** [{**pending.request, "approval_id": pending.approval_id}] *)
Definition with_approval (request : ToolCallRequest) (approval_id : string) : ToolCallRequest := {|
  tr_tool_id := tr_tool_id request; tr_tool_version := tr_tool_version request;
  tr_arguments := tr_arguments request; tr_target := tr_target request;
  tr_reason := tr_reason request; tr_conversation_id := tr_conversation_id request;
  tr_investigation_id := tr_investigation_id request; tr_request_id := tr_request_id request;
  tr_channel := tr_channel request; tr_channel_account_id := tr_channel_account_id request;
  tr_approval_id := Some approval_id; tr_change_id := tr_change_id request |}.

Definition chat_submit (request : ToolCallRequest) : M (Chat X) exn ToolCallResponse :=
  _ ← chat_event (EvSubmit request); chat_world (gc_submit request).

Definition not_confirmed_reply (pending : PendingApproval) : AgentReply :=
  error_reply ("Your approval was recorded, but I couldn't confirm " +:+ pa_tool_id pending
    +:+ " executed — the Gateway didn't respond in time. Check the audit trail "
    +:+ "for approval_id " +:+ pa_approval_id pending +:+ " before retrying (see "
    +:+ "OPERATIONS.md's " +:+ quoted "a DBA reports 'I approved it but nothing happened'"
    +:+ " runbook).").

(** the original request again, with the approval *)
Definition resubmit_approved (pending : PendingApproval) : M (Chat X) exn AgentReply :=
  let request := with_approval (pa_request pending) (pa_approval_id pending) in
  _ ← mod_chat (λ c, c <| cs_pending_approval := None |>);
  answer ← try_except (r ← chat_submit request; mret (Ok r)) (λ e, mret (Err e));
  match answer with
  | Err _ => mret (not_confirmed_reply pending)
  | Ok response =>
      if bool_decide (rs_status response = TC_EXECUTED) then
        _ ← mod_investigation (λ i, i <| is_actions ::= λ l, l ++
              [{| ea_tool_id := pa_tool_id pending; ea_result := rs_result response |}] |>);
        state ← chat_conv;
        mret (agent_reply ("Action approved." +:+ two_newlines +:+ pa_tool_id pending
                +:+ " completed successfully." +:+ two_newlines +:+ "Result: "
                +:+ repr_json (default JNull (rs_result response)) +:+ two_newlines
                +:+ "Incident status: MITIGATED.") "ok"
                (is_investigation_id <$> cs_investigation state))
      else mret (error_reply ("Approved, but execution did not complete: " +:+ rs_message response))
  end.

(** [handle_approval_decision], on the conversation it found *)
Definition handle_approval_decision (decision channel channel_account_id : string)
    : M (Chat X) exn AgentReply :=
  state ← chat_conv;
  match cs_pending_approval state with
  | None => mret (error_reply "There is no pending approval on this conversation.")
  | Some pending =>
      let approval_id := pa_approval_id pending in
      if bool_decide (decision = "reject") then
        _ ← chat_answer (EvReject approval_id) (gc_reject approval_id channel channel_account_id);
        _ ← mod_chat (λ c, c <| cs_pending_approval := None |>);
        mret (text_reply "Understood — action rejected and will not run.")
      else
        result ← chat_answer (EvApprove approval_id)
                   (gc_approve approval_id channel channel_account_id);
        if bool_decide (aa_status result = "ERROR") then
          mret ((error_reply ("Approval failed: " +:+ aa_detail result))
                  <| rp_approval_still_pending := true |>)
        else if bool_decide (aa_status result = "AWAITING_SECOND_APPROVAL") then
          mret ((text_reply "Recorded — this critical action also needs a second approver.")
                  <| rp_approval_still_pending := true |>)
        else resubmit_approved pending
  end.

(** [_handle_meta_command] *)
Definition handle_meta_command (command : MetaCommand) (intent : IntentExtraction)
    (channel channel_account_id : string) : M (Chat X) exn AgentReply :=
  match command with
  | M_HELP => mret (text_reply HELP_TEXT)
  | M_STATUS => state ← chat_conv; mret (status_reply state)
  | M_PLAYBOOKS => mret playbooks_reply
  | M_SERVERS => handle_servers_command
  | M_CATALOG => handle_catalog_command (ix_instance_hint intent)
  | M_DISCOVER => handle_discover_command (ix_instance_hint intent) channel channel_account_id
  | M_MODELS => handle_model_command "/models"
  | M_APPROVERS => mret approvers_reply
  | M_APPROVE => handle_approval_decision "approve" channel channel_account_id
  | M_REJECT => handle_approval_decision "reject" channel channel_account_id
  end.

(** [stripped.split(" ", 1)[1].strip()] after the command word and its blank *)
Definition after_command (command stripped : string) : string :=
  str_strip (String.substring (String.length command) (String.length stripped) stripped).
Definition command_argument (stripped : string) : option string :=
  match ws_split1 stripped with _ :: arg :: _ => Some (str_strip arg) | _ => None end.

(** [/approve <id>] and [/reject <id>] *)
Definition decide_command (decision approval_id channel channel_account_id : string)
    : M (Chat X) exn AgentReply :=
  state ← chat_conv;
  match cs_pending_approval state with
  | Some pending =>
      if bool_decide (pa_approval_id pending ≠ approval_id) then
        mret (error_reply "That approval id doesn't match the pending action on this conversation.")
      else handle_approval_decision decision channel channel_account_id
  | None => handle_approval_decision decision channel channel_account_id
  end.

(** [_handle_command_if_any] *)
Definition handle_command_if_any (message channel channel_account_id : string)
    : M (Chat X) exn (option AgentReply) :=
  let stripped := str_strip message in
  let is_cmd c := bool_decide (stripped = c) in
  let has_prefix c := starts_with (c +:+ " ") stripped in
  let reply m := r ← m; mret (Some r) in
  if is_cmd "/help" then mret (Some (text_reply HELP_TEXT))
  else if is_cmd "/status" then state ← chat_conv; mret (Some (status_reply state))
  else if is_cmd "/playbooks" then mret (Some playbooks_reply)
  else if has_prefix "/approve" then
    reply (decide_command "approve" (after_command "/approve " stripped) channel channel_account_id)
  else if has_prefix "/reject" then
    reply (decide_command "reject" (after_command "/reject " stripped) channel channel_account_id)
  else if is_cmd "/models" || is_cmd "/model" || has_prefix "/model" then
    reply (handle_model_command stripped)
  else if is_cmd "/approvers" then mret (Some approvers_reply)
  else if is_cmd "/servers" then reply handle_servers_command
  else if is_cmd "/catalog" || has_prefix "/catalog" then
    reply (handle_catalog_command (command_argument stripped))
  else if is_cmd "/discover" || has_prefix "/discover" then
    reply (handle_discover_command (command_argument stripped) channel channel_account_id)
  else mret None.

(* ------------------------------------------------------------------ *)
(** ** Intents and targets *)

Definition extract_intent (message : string) : M (Chat X) exn IntentExtraction :=
  state ← chat_conv;
  databases ← in_chat known_database_names;
  hints ← in_chat known_server_hints;
  _ ← chat_event (EvIntent message);
  in_chat (call_llm (llm_extract_intent (llm_for cfg state FAST) message databases hints)).

(** [_classify_potential_topic_shift] *)
Definition names_own_target (intent : IntentExtraction) : bool :=
  opt_truthy (ix_instance_hint intent) || opt_truthy (ix_database_hint intent)
  || match ix_environment_hint intent with Some _ => true | None => false end.
Definition classify_potential_topic_shift (message : string)
    : M (Chat X) exn (option IntentExtraction) :=
  if (length (ws_split message) <? 4)%nat then mret None
  else
    intent ← extract_intent message;
    if negb (ix_is_dba_task intent) || ix_is_greeting_or_chitchat intent then mret None
    else if negb (names_own_target intent) then mret None
    else mret (Some intent).

(** [start_investigation] and the playbook *)
Definition start_investigation (problem : string) : M (Chat X) exn unit :=
  ulid ← chat_from_world new_ulid;
  mod_chat (λ c, c <| cs_investigation := Some (new_investigation (new_id "inv" ulid) problem
                        (pb_playbook_id <$> match_playbook problem) false) |>).

(** what the intent says about the environment and the database *)
Definition remember_hints (intent : IntentExtraction) (c : ConversationState) : ConversationState :=
  let c := match ix_environment_hint intent with
           | Some e => set_context "environment" (JStr (env_value e)) c
           | None => c
           end in
  if opt_truthy (ix_database_hint intent)
  then set_context "database" (JStr (default "" (ix_database_hint intent))) c else c.

(** and about the server: a remembered database or environment does not follow the
    conversation to another server *)
Definition switched_instance (hint : string) (c : ConversationState) : bool :=
  negb (bool_decide (dict_get "instance" (cs_database_context c) = Some (JStr hint))).
Definition remember_instance (intent : IntentExtraction) : M (Chat X) exn unit :=
  if negb (opt_truthy (ix_instance_hint intent)) then mret tt
  else
    let hint := default "" (ix_instance_hint intent) in
    state ← chat_conv;
    let switched := switched_instance hint state in
    _ ← mod_chat (λ c, set_context "instance" (JStr hint)
          (if negb (opt_truthy (ix_database_hint intent)) && switched
           then pop_context "database" c else c));
    match ix_environment_hint intent with
    | Some _ => mret tt
    | None =>
        auto_environment ← in_chat (environment_for_instance hint);
        mod_chat (λ c, if opt_truthy auto_environment
                       then set_context "environment" (JStr (default "" auto_environment)) c
                       else if switched then pop_context "environment" c else c)
    end.

Definition context_has (k : string) (c : ConversationState) : bool :=
  match dict_get k (cs_database_context c) with Some _ => true | None => false end.

Definition is_decision_command (command : MetaCommand) : bool :=
  match command with M_APPROVE | M_REJECT => true | _ => false end.

Definition no_pending (c : ConversationState) : bool :=
  match cs_pending_approval c with None => true | Some _ => false end.

(** the part of [_start_fresh_investigation] that starts one *)
Definition open_investigation (intent : IntentExtraction) (message channel channel_account_id : string)
    : M (Chat X) exn AgentReply :=
  _ ← start_investigation (str_or (Some (ix_problem_summary intent)) message);
  _ ← mod_chat (remember_hints intent);
  _ ← remember_instance intent;
  state ← chat_conv;
  if negb (context_has "environment" state) then mret (clarification_reply WHICH_ENVIRONMENT)
  else in_chat (continue_investigation cfg channel channel_account_id).

(** [_start_fresh_investigation] *)
Definition start_fresh_investigation (intent : IntentExtraction)
    (message channel channel_account_id : string) : M (Chat X) exn AgentReply :=
  state ← chat_conv;
  let fresh (is_dba_task : bool) : M (Chat X) exn AgentReply :=
    if ix_is_greeting_or_chitchat intent then mret (text_reply HELP_TEXT)
    else if negb is_dba_task then
      mret (clarification_reply ("I can help with database health, performance, and operational "
        +:+ "investigations. Could you tell me more about what you'd like me to check?"))
    else open_investigation intent message channel channel_account_id in
  match ix_meta_command intent with
  | Some command =>
      if is_decision_command command && no_pending state then fresh true
      else handle_meta_command command intent channel channel_account_id
  | None => fresh (ix_is_dba_task intent)
  end.

(* ------------------------------------------------------------------ *)
(** ** A message *)

(** a message to an investigation in progress *)
Definition resume_investigation (message channel channel_account_id : string)
    : M (Chat X) exn AgentReply :=
  state ← chat_conv;
  match (if context_has "environment" state then Some None
         else Some <$> environment_answer message) with
  | None => mret (clarification_reply WHICH_ENVIRONMENT)
  | Some answer =>
      _ ← mod_chat (λ c, match answer with
                         | Some e => set_context "environment" (JStr e) c | None => c end);
      let stuck := bool_decide (is_status <$> cs_investigation state = Some AWAITING_CLARIFICATION)
                   && no_pending state in
      fresh_intent ← (if stuck then classify_potential_topic_shift message else mret None);
      match fresh_intent with
      | Some intent =>
          _ ← mod_investigation (λ i, i <| is_status := CONCLUDED_UNRESOLVED |>);
          start_fresh_investigation intent message channel channel_account_id
      | None =>
          _ ← mod_investigation (λ i, i <| is_last_message := message |>);
          in_chat (continue_investigation cfg channel channel_account_id)
      end
  end.

(** [_handle_message], on the conversation it found *)
Definition handle_message_inner (message channel channel_account_id : string)
    : M (Chat X) exn AgentReply :=
  let message := strip_bot_mention_noise message in
  now ← chat_from_world utc_now;
  _ ← mod_chat (λ c, c <| cs_updated_at := now |>);
  command_reply ← handle_command_if_any message channel channel_account_id;
  match command_reply with
  | Some reply => mret reply
  | None =>
      state ← chat_conv;
      match cs_investigation state with
      | Some i =>
          if is_concluded i then
            intent ← extract_intent message;
            start_fresh_investigation intent message channel channel_account_id
          else resume_investigation message channel channel_account_id
      | None =>
          intent ← extract_intent message;
          start_fresh_investigation intent message channel channel_account_id
      end
  end.

Definition fallback_event_request (c : ConversationState) (e : FallbackEvent) : DecisionEventRequest := {|
  de_type := "llm_cross_provider_fallback_used"; de_conversation := Some (cs_conversation_id c);
  de_investigation := None; de_provider_name := fe_used_provider e; de_model_name := "";
  de_payload_json := [("failed_providers", JArr (map JStr (fe_failed_providers e)))] |}.

(** [handle_message], on the conversation it found *)
Definition handle_message_in (message channel channel_account_id : string)
    : M (Chat X) exn AgentReply :=
  _ ← mod_chat (λ c, c <| cs_llm_fallback_notices := [] |>);
  reply ← handle_message_inner message channel channel_account_id;
  state ← chat_conv;
  let notice := fallback_notice_text (cs_llm_fallback_notices state) in
  _ ← modify (λ s, s <| ch_world ::= λ x,
        foldl (λ x e, gc_log_decision_event (fallback_event_request state e) x) x
          (cs_llm_fallback_notices state) |>);
  _ ← mod_chat (λ c, c <| cs_llm_fallback_notices := [] |>);
  mret (if truthy notice then
          reply <| rp_text := if truthy (rp_text reply) then rp_text reply +:+ two_newlines +:+ notice
                              else notice |>
        else reply).
End orchestrator.

(* ------------------------------------------------------------------ *)
(** ** The process *)

(** [AgentOrchestrator]: the conversations of its [ContextManager], the world, and the
    calls made *)
Record Desk (X : Type) : Type := mk_desk {
  dk_conversations : Conversations;
  dk_world : X;
  dk_trace : list AgentEvent
}.
Arguments mk_desk {X}.
Arguments dk_conversations {X}. Arguments dk_world {X}. Arguments dk_trace {X}.

Section process.
Context {X : Type} `{GatewayClient X} `{LLMProvider X} `{AgentRuntime X}.
Context (cfg : Settings).

(** [ContextManager.get_or_create]; the conversation is stored by [in_conversation] *)
Definition get_or_create (conversation_id channel channel_thread_id channel_account_id : string)
    (d : Desk X) : ConversationState * X :=
  match dk_conversations d !! conversation_id with
  | Some state => (state, dk_world d)
  | None =>
      let '(now, x) := utc_now (dk_world d) in
      (new_conversation conversation_id channel channel_thread_id channel_account_id now, x)
  end.

(** work on one conversation, found or created *)
Definition in_conversation {A} (conversation_id channel channel_thread_id channel_account_id : string)
    (m : M (Chat X) exn A) : M (Desk X) exn A := λ d,
  let '(conv, x) := get_or_create conversation_id channel channel_thread_id channel_account_id d in
  let '(r, c) := m (mk_chat conv x (dk_trace d)) in
  (r, mk_desk (<[conversation_id := ch_conv c]> (dk_conversations d)) (ch_world c) (ch_trace c)).

(** [handle_message] and [handle_approval_decision] *)
Definition handle_message (channel channel_account_id conversation_id channel_thread_id message : string)
    : M (Desk X) exn AgentReply :=
  in_conversation conversation_id channel channel_thread_id channel_account_id
    (handle_message_in cfg message channel channel_account_id).
Definition decide_in_conversation (conversation_id decision channel channel_account_id : string)
    : M (Desk X) exn AgentReply :=
  in_conversation conversation_id channel "" channel_account_id
    (handle_approval_decision decision channel channel_account_id).

(** [list_registered_servers] *)
Definition list_registered_servers : M (Desk X) exn (list ServerSummary) := λ d,
  let '(r, x) := gc_list_servers (dk_world d) in
  (r, mk_desk (dk_conversations d) x (dk_trace d)).

(* ------------------------------------------------------------------ *)
(** ** Unattended runs *)

Definition SCHEDULED_SUMMARY_PLAYBOOK_ID : string := "comprehensive_summary".
Definition SCHEDULED_SUMMARY_PROBLEM (server_id environment : string) : string :=
  "Scheduled daily health sweep of the " +:+ server_id +:+ " server (" +:+ environment +:+ ") — "
  +:+ "an unattended, proactive run with no DBA in the conversation to answer a "
  +:+ "question or approve anything. Report findings and recommendations as "
  +:+ "text only: only read-only diagnostics are available to you here, and "
  +:+ "nothing you propose will be executed, approved, or acted on "
  +:+ "automatically. If something needs remediation, describe what you would "
  +:+ "recommend and why, for a DBA to decide on — never as an action you are "
  +:+ "taking. Do not ask a clarifying question; nobody is there to answer it.".

Record ScheduledSummary : Type := {
  su_server_id : string;
  su_environment : string;
  su_investigation_id : string;
  su_status : string;
  su_text : string;
  su_findings : list string;
  su_recommendations : list string;
  su_dropped_proposals : list string;
  su_error : string
}.
(** [ok], [is_clean] *)
Definition summary_ok (s : ScheduledSummary) : bool :=
  bool_decide (su_status s = "ok") && negb (truthy (su_error s)).
Definition summary_is_clean (s : ScheduledSummary) : bool :=
  bool_decide (su_findings s = []) && bool_decide (su_recommendations s = []).

(** [_unattended_summary] *)
Definition unattended_error (i : InvestigationState) (reply : AgentReply) : string :=
  match is_actions i with
  | [] => "no diagnostic call succeeded — the server may be unreachable, its "
          +:+ "discovery may never have completed, or every check was denied"
  | _ => if bool_decide (rp_status reply = "ok") then ""
         else "the investigation ended with status '" +:+ rp_status reply +:+ "'"
  end.
Definition dropped_proposals (i : InvestigationState) : list string :=
  map (λ e, str_json (default (JStr "") (json_get "dropped_tool_id" (te_result e))))
    (List.filter (λ e, bool_decide (te_tool_id e = READ_ONLY_GUARD_TOOL_ID)) (is_transcript i)).
Definition unattended_summary (server_id environment : string) (i : InvestigationState)
    (reply : AgentReply) : ScheduledSummary := {|
  su_server_id := server_id; su_environment := environment;
  su_investigation_id := is_investigation_id i; su_status := rp_status reply;
  su_text := rp_text reply; su_findings := is_findings i;
  su_recommendations := is_recommendations i; su_dropped_proposals := dropped_proposals i;
  su_error := unattended_error i reply |}.

(** the state of an unattended run: a conversation of its own, never registered *)
Definition unattended_state (kind server_id environment channel channel_account_id problem : string)
    (playbook_id : option string) (d : Desk X) : Ag X :=
  let '(run, x) := new_ulid (dk_world d) in
  let '(now, x) := utc_now x in
  let '(inv, x) := new_ulid x in
  let i := new_investigation (new_id "inv" inv) problem playbook_id true in
  let conv := new_conversation (kind +:+ ":" +:+ server_id +:+ ":" +:+ new_id "run" run) channel ""
                channel_account_id now in
  mk_ag (conv <| cs_database_context :=
           [("instance", JStr server_id); ("environment", JStr environment)] |>
              <| cs_investigation := Some i |>) i x (dk_trace d).

Definition run_unattended (kind server_id environment channel channel_account_id problem : string)
    (playbook_id : option string) : M (Desk X) exn ScheduledSummary := λ d,
  let '(r, a) := continue_investigation cfg channel channel_account_id
      (unattended_state kind server_id environment channel channel_account_id problem playbook_id d) in
  (match r with
   | Ok reply => Ok (unattended_summary server_id environment (ag_inv a) reply)
   | Err e => Err e
   end, mk_desk (dk_conversations d) (ag_world a) (ag_trace a)).

(** [run_comprehensive_summary], [run_triggered_investigation] *)
Definition run_comprehensive_summary (server_id environment channel channel_account_id : string)
    : M (Desk X) exn ScheduledSummary :=
  match get_playbook (Some SCHEDULED_SUMMARY_PLAYBOOK_ID) with
  | None =>
      raise (PyError "RuntimeError" ("Playbook '" +:+ SCHEDULED_SUMMARY_PLAYBOOK_ID
        +:+ "' is not registered in "
        +:+ "agent.playbooks.library — the scheduled daily digest has no playbook to run."))
  | Some _ =>
      run_unattended "scheduled-digest" server_id environment channel channel_account_id
        (SCHEDULED_SUMMARY_PROBLEM server_id environment) (Some SCHEDULED_SUMMARY_PLAYBOOK_ID)
  end.
Definition run_triggered_investigation
    (server_id environment channel channel_account_id problem : string)
    : M (Desk X) exn ScheduledSummary :=
  run_unattended "triggered-investigation" server_id environment channel channel_account_id
    problem None.
End process.
