(* ===== verification/OrchestratorFacts.v ===== *)
(** Theorems on the conversations of [Orchestrator]: what follows an approval, what an
    unattended run may do, and that an investigation cannot go on for ever. *)
From S2P Require Import Prelude ProgramLogic Json Text Models ToolCatalog Servers Policy Approval.
From S2P Require Import Gateway Investigations Fallback Playbooks Conversation Config LLMRegistry.
From S2P Require Import AgentApi Investigator AgentScript InvestigatorFacts Conclusions Orchestrator.

(* ------------------------------------------------------------------ *)
(** ** Approved requests *)

(** an approval given by the last approver it needs *)
Definition approved (answer : res exn ApprovalAnswer) : Prop :=
  ∃ a, answer = Ok a ∧ aa_status a ≠ "ERROR" ∧ aa_status a ≠ "AWAITING_SECOND_APPROVAL".

(** what may come after the calls [t]: a request with an approval only right after that
    approval, and the request is one that was submitted before *)
Definition event_ok (t : list AgentEvent) (e : AgentEvent) : Prop :=
  ∀ request approval_id, e = EvSubmit request → tr_approval_id request = Some approval_id →
    ∃ t0 original answer, t = t0 ++ [EvApprove approval_id answer] ∧ approved answer ∧
      EvSubmit original ∈ t0 ∧ tr_approval_id original = None ∧
      request = with_approval original approval_id.
Definition trace_ok (t : list AgentEvent) : Prop :=
  ∀ t1 e t2, t = t1 ++ e :: t2 → event_ok t1 e.

Lemma trace_ok_nil : trace_ok [].
Proof. intros t1 e t2 Ht. by destruct t1. Qed.
Lemma trace_ok_snoc t e : trace_ok t → event_ok t e → trace_ok (t ++ [e]).
Proof.
  intros Ht He t1 e' t2 Heq. destruct t2 as [|e2 t2 _] using rev_ind.
  - apply app_inj_tail in Heq as [-> ->]. done.
  - rewrite app_comm_cons app_assoc in Heq. apply app_inj_tail in Heq as [Heq _]. by eapply Ht.
Qed.

(** an event without an approval *)
Definition plain_event (e : AgentEvent) : Prop :=
  match e with
  | EvSubmit r => tr_approval_id r = None
  | EvApprove _ _ | EvReject _ _ => False
  | _ => True
  end.
Lemma plain_event_ok t e : plain_event e → event_ok t e.
Proof. intros He r a -> Ha. cbn in He. congruence. Qed.
Lemma trace_ok_plain t new : trace_ok t → Forall plain_event new → trace_ok (t ++ new).
Proof.
  intros Ht. induction new as [|e new IH] using rev_ind; intros Hn; [by rewrite app_nil_r|].
  rewrite Forall_app Forall_singleton in Hn. destruct Hn as [Hn He]. rewrite app_assoc.
  apply trace_ok_snoc; [by apply IH|exact (plain_event_ok _ _ He)].
Qed.

(** a pending approval is for a request that was submitted *)
Definition pending_ok (p : option PendingApproval) (t : list AgentEvent) : Prop :=
  ∀ pending, p = Some pending →
    EvSubmit (pa_request pending) ∈ t ∧ tr_approval_id (pa_request pending) = None.
Lemma pending_ok_app p t new : pending_ok p t → pending_ok p (t ++ new).
Proof. intros Hp q ->. destruct (Hp q eq_refl). split; [|done]. apply elem_of_app. by left. Qed.

(** *** the investigation loop only proposes *)

Definition proposes {X} (s s' : Ag X) : Prop :=
  ∃ new, ag_trace s' = ag_trace s ++ new ∧ Forall plain_event new ∧
    (cs_pending_approval (ag_conv s') = cs_pending_approval (ag_conv s) ∨
     ∃ p, cs_pending_approval (ag_conv s') = Some p ∧ EvSubmit (pa_request p) ∈ new).
#[export] Instance proposes_preorder {X} : PreOrder (proposes (X := X)).
Proof.
  split; [intros s; exists []; rewrite app_nil_r; auto|].
  intros s t u (n1 & E1 & F1 & P1) (n2 & E2 & F2 & P2). exists (n1 ++ n2).
  split; [by rewrite E2 E1 app_assoc|]. split; [by apply Forall_app|].
  destruct P2 as [->|(p & -> & Hp)]; [destruct P1 as [->|(p & -> & Hp)]|]; [by left|right..];
    (exists p; split; [done|]; rewrite elem_of_app; auto).
Qed.

Section proposes.
Context {X : Type}.
Lemma proposes_same (s s' : Ag X) : ag_trace s' = ag_trace s →
  cs_pending_approval (ag_conv s') = cs_pending_approval (ag_conv s) → proposes s s'.
Proof. intros Ht Hp. exists []. rewrite app_nil_r. auto. Qed.
Lemma proposes_get_inv : preserves proposes (get_inv (X := X)).
Proof. intros s. by apply proposes_same. Qed.
Lemma proposes_get_conv : preserves proposes (get_conv (X := X)).
Proof. intros s. by apply proposes_same. Qed.
Lemma proposes_mod_inv f : preserves proposes (mod_inv (X := X) f).
Proof. intros s. by apply proposes_same. Qed.
Lemma proposes_on_world {A} (m : M X exn A) : preserves proposes (on_world m).
Proof. intros s. unfold on_world. destruct (m (ag_world s)). by apply proposes_same. Qed.
Lemma proposes_from_world {A} (f : X → A * X) : preserves proposes (from_world f).
Proof. intros s. unfold from_world. destruct (f (ag_world s)). by apply proposes_same. Qed.
Lemma proposes_in_world (f : X → X) : preserves proposes (in_world f).
Proof. intros s. by apply proposes_same. Qed.
Lemma proposes_call_llm {A} (c : llm_call X A) : preserves proposes (call_llm c).
Proof. intros s. unfold call_llm. destruct (c (ag_world s)) as [[r l] x]. by apply proposes_same. Qed.
Lemma proposes_event e : plain_event e → preserves proposes (record_event (X := X) e).
Proof. intros He s. exists [e]. split_and!; [done|by constructor|by left]. Qed.
End proposes.
#[export] Hint Resolve proposes_get_inv proposes_get_conv proposes_mod_inv proposes_on_world
  proposes_from_world proposes_in_world proposes_call_llm : numi.
#[export] Hint Extern 2 (preserves proposes (record_event _)) => apply proposes_event; exact I : numi.

Section proposes_loop.
Context {X : Type} `{GatewayClient X} `{LLMProvider X} `{AgentRuntime X}.
Context (cfg : Settings) (la : LoopArgs).

Lemma remember_pending request response c :
  cs_pending_approval (remember_database request response c) = cs_pending_approval c.
Proof. unfold remember_database. repeat case_match; done. Qed.

Lemma proposes_relay_denied action response : preserves proposes (relay_denied (X := X) action response).
Proof. unfold relay_denied. walk. Qed.

Lemma proposes_submit action channel account allowed types :
  preserves proposes (submit_and_relay (X := X) action channel account allowed types).
Proof.
  intros s. rewrite submit_and_relay_run.
  destruct (is_read_only (ag_inv s) && negb (is_confirmed_read_tool (tp_tool_id action) types));
    [by apply proposes_same|].
  destruct (new_ulid (ag_world s)) as [ulid x1]. cbv zeta.
  set (request := request_of action channel account allowed ulid s).
  destruct (gc_submit request x1) as [[response|e] x2].
  - set (s2 := mk_ag _ _ _ _). assert (proposes s s2) as Hs2 by (by exists [EvSubmit request]; repeat constructor; left).
    unfold relay_response. rewrite mod_conv_bind get_inv_bind. set (s3 := s2 <| ag_conv ::= _ |>).
    assert (proposes s2 s3) as Hs3 by (apply proposes_same; [done|apply remember_pending]).
    destruct (rs_status response).
    + etrans; [exact Hs2|]. etrans; [exact Hs3|]. by apply proposes_same.
    + case_match; [etrans; [exact Hs2|]; etrans; [exact Hs3|]; by apply proposes_same|].
      exists [EvSubmit request]. split_and!; [done|by repeat constructor|]. right.
      eexists. split; [reflexivity|]. by left.
    + etrans; [exact Hs2|]. etrans; [exact Hs3|]. apply proposes_relay_denied.
    + etrans; [exact Hs2|]. etrans; [exact Hs3|]. by apply proposes_same.
  - exists [EvSubmit request]. split_and!; [done|by repeat constructor|by left].
Qed.
Hint Resolve proposes_submit : numi.

Lemma proposes_continue channel account :
  preserves proposes (continue_investigation cfg (X := X) channel account).
Proof.
  unfold continue_investigation, bootstrap_investigation_memory, memory_server_id, canonical_server_id,
    find_matching_servers, list_servers_cached, run_investigation_loop, last_chance, investigation_pass,
    next_playbook_action, take_action, reply_or_again, relay, decide, clarify, finalize_conclude,
    reject_ungrounded, reject_unverified, reject_unsound, self_critique_conclude, log_event,
    conclude_without_root_cause.
  walk.
Qed.
End proposes_loop.

(** *** a conversation, also its decisions *)

Definition chat_pending {X} (s : Chat X) : option PendingApproval := cs_pending_approval (ch_conv s).
Definition chat_ok {X} (s : Chat X) : Prop :=
  trace_ok (ch_trace s) ∧ pending_ok (chat_pending s) (ch_trace s).
Definition chat_step {X} (s s' : Chat X) : Prop :=
  (∃ new, ch_trace s' = ch_trace s ++ new) ∧ (chat_ok s → chat_ok s').
#[export] Instance chat_step_preorder {X} : PreOrder (chat_step (X := X)).
Proof.
  split; [intros s; split; [exists []; by rewrite app_nil_r|done]|].
  intros s t u [[n1 E1] H1] [[n2 E2] H2]. split; [exists (n1 ++ n2); by rewrite E2 E1 app_assoc|auto].
Qed.

Section chat_step.
Context {X : Type}.
Lemma chat_step_same (s s' : Chat X) : ch_trace s' = ch_trace s → chat_pending s' = chat_pending s →
  chat_step s s'.
Proof. intros Ht Hp. split; [exists []; by rewrite app_nil_r|]. unfold chat_ok. by rewrite Ht Hp. Qed.
(** an event that may come now, the pending approval kept or dropped *)
Lemma chat_step_event (s s' : Chat X) e : ch_trace s' = ch_trace s ++ [e] →
  (chat_ok s → event_ok (ch_trace s) e) →
  chat_pending s' = chat_pending s ∨ chat_pending s' = None → chat_step s s'.
Proof.
  intros Ht He Hp. split; [by eexists|]. intros Hs. pose proof (He Hs) as He'. destruct Hs as [Hs1 Hs2].
  unfold chat_ok. rewrite Ht. split; [by apply trace_ok_snoc|].
  destruct Hp as [->| ->]; [by apply pending_ok_app|done].
Qed.

Lemma chat_step_conv : preserves chat_step (chat_conv (X := X)).
Proof. intros s. by apply chat_step_same. Qed.
Lemma chat_step_mod f : (∀ c, cs_pending_approval (f c) = cs_pending_approval c) →
  preserves chat_step (mod_chat (X := X) f).
Proof. intros Hf s. apply chat_step_same; [done|apply Hf]. Qed.
Lemma chat_step_plain e : plain_event e → preserves chat_step (chat_event (X := X) e).
Proof.
  intros He s. apply (chat_step_event _ _ e); [done| |by left]. intros _. exact (plain_event_ok _ _ He).
Qed.
Lemma chat_step_world {A} (m : M X exn A) : preserves chat_step (chat_world m).
Proof. intros s. unfold chat_world. destruct (m (ch_world s)). by apply chat_step_same. Qed.
Lemma chat_step_from_world {A} (f : X → A * X) : preserves chat_step (chat_from_world f).
Proof. intros s. unfold chat_from_world. destruct (f (ch_world s)). by apply chat_step_same. Qed.

Lemma chat_step_in_chat {A} (m : M (Ag X) exn A) : preserves proposes m → preserves chat_step (in_chat m).
Proof.
  intros Hm s. unfold in_chat. set (a0 := mk_ag _ _ _ _). specialize (Hm a0).
  destruct (m a0) as [r a]. cbn in Hm |- *. destruct Hm as (new & Et & Hn & Hp). cbn in Et, Hp.
  split; [by exists new|]. intros [Hs1 Hs2]. unfold chat_ok, chat_pending in *. cbn. rewrite Et.
  split; [by apply trace_ok_plain|]. destruct Hp as [->|(p & -> & Hin)]; [by apply pending_ok_app|].
  intros q [= <-]. split; [apply elem_of_app; by right|].
  rewrite Forall_forall in Hn. by apply (Hn _ Hin).
Qed.
End chat_step.
#[export] Hint Resolve chat_step_conv chat_step_world chat_step_from_world chat_step_in_chat : numi.
#[export] Hint Extern 2 (preserves chat_step (chat_event _)) => apply chat_step_plain; exact I : numi.

Ltac chat_walk_step :=
  match goal with
  | |- preserves chat_step (mod_chat _) => apply chat_step_mod; intros ?; repeat case_match; done
  | |- preserves chat_step (mod_investigation _) => apply chat_step_mod; done
  | |- preserves chat_step (in_chat _) => apply chat_step_in_chat; walk
  | |- preserves chat_step _ => walk_step
  end.
Ltac chat_walk := repeat chat_walk_step.

Section chats.
Context {X : Type} `{GatewayClient X} `{LLMProvider X} `{AgentRuntime X}.
Context (cfg : Settings).

Lemma step_servers_command : preserves chat_step (handle_servers_command (X := X)).
Proof. unfold handle_servers_command. chat_walk. Qed.
Lemma step_catalog_command id : preserves chat_step (handle_catalog_command (X := X) id).
Proof. unfold handle_catalog_command. chat_walk. Qed.
Lemma step_discover_command id ch a : preserves chat_step (handle_discover_command (X := X) id ch a).
Proof. unfold handle_discover_command. chat_walk. Qed.
Lemma step_model_command text : preserves chat_step (handle_model_command cfg (X := X) text).
Proof. unfold handle_model_command, switch_model, set_model. chat_walk. Qed.
Hint Resolve step_servers_command step_catalog_command step_discover_command step_model_command : numi.

Lemma chat_conv_bind {A} (k : ConversationState → M (Chat X) exn A) s :
  (chat_conv ≫= k) s = k (ch_conv s) s.
Proof. done. Qed.
Lemma mod_chat_bind {A} f (k : unit → M (Chat X) exn A) s :
  (mod_chat f ≫= k) s = k tt (s <| ch_conv ::= f |>).
Proof. done. Qed.
Lemma chat_answer_bind {A B} e (m : M X exn A) (k : A → M (Chat X) exn B) s :
  (chat_answer e m ≫= k) s =
  let '(r, x) := m (ch_world s) in
  let s' := mk_chat (ch_conv s) x (ch_trace s ++ [e r]) in
  match r with Ok a => k a s' | Err er => (Err er, s') end.
Proof. unfold chat_answer, mbind, M_bind. by destruct (m (ch_world s)) as [[a|er] x]. Qed.

(** the request is submitted once, and the approval is no longer pending *)
Lemma resubmit_run pending (s : Chat X) :
  let request := with_approval (pa_request pending) (pa_approval_id pending) in
  let s' := (resubmit_approved pending s).2 in
  ch_trace s' = ch_trace s ++ [EvSubmit request] ∧ chat_pending s' = None ∧
  ch_world s' = (gc_submit request (ch_world s)).2.
Proof.
  unfold resubmit_approved. rewrite mod_chat_bind.
  unfold chat_submit, chat_event, modify, chat_world, try_except, mbind, M_bind, mret, M_ret. cbn.
  destruct (gc_submit _ (ch_world s)) as [[response|e] x]; cbn; [|done]. case_match; done.
Qed.

(** the run of a decision *)
Lemma decision_run decision ch a (s : Chat X) pending : chat_pending s = Some pending →
  let id := pa_approval_id pending in
  handle_approval_decision decision ch a s =
  if bool_decide (decision = "reject") then
    let '(r, x) := gc_reject id ch a (ch_world s) in
    let s' := mk_chat (ch_conv s) x (ch_trace s ++ [EvReject id r]) in
    match r with
    | Ok _ => (Ok (text_reply "Understood — action rejected and will not run."),
               s' <| ch_conv ::= λ c, c <| cs_pending_approval := None |> |>)
    | Err e => (Err e, s')
    end
  else
    let '(r, x) := gc_approve id ch a (ch_world s) in
    let s' := mk_chat (ch_conv s) x (ch_trace s ++ [EvApprove id r]) in
    match r with
    | Ok result =>
        if bool_decide (aa_status result = "ERROR") then
          (Ok ((error_reply ("Approval failed: " +:+ aa_detail result))
                 <| rp_approval_still_pending := true |>), s')
        else if bool_decide (aa_status result = "AWAITING_SECOND_APPROVAL") then
          (Ok ((text_reply "Recorded — this critical action also needs a second approver.")
                 <| rp_approval_still_pending := true |>), s')
        else resubmit_approved pending s'
    | Err e => (Err e, s')
    end.
Proof.
  intros Hp. unfold handle_approval_decision. rewrite chat_conv_bind.
  change (cs_pending_approval (ch_conv s)) with (chat_pending s). rewrite Hp. cbv zeta.
  destruct (bool_decide (decision = "reject")); rewrite chat_answer_bind.
  - by destruct (gc_reject _ _ _ (ch_world s)) as [[r|e] x].
  - destruct (gc_approve _ _ _ (ch_world s)) as [[r|e] x]; [|done].
    destruct (bool_decide (aa_status r = "ERROR")); [done|].
    by destruct (bool_decide (aa_status r = "AWAITING_SECOND_APPROVAL")).
Qed.

Lemma step_decision decision ch a : preserves chat_step (handle_approval_decision (X := X) decision ch a).
Proof.
  intros s. destruct (chat_pending s) as [pending|] eqn:Hp.
  2:{ unfold handle_approval_decision. rewrite chat_conv_bind. unfold chat_pending in Hp. by rewrite Hp. }
  rewrite (decision_run decision ch a s pending Hp). cbv zeta.
  destruct (bool_decide (decision = "reject")).
  - destruct (gc_reject _ _ _ _) as [[r|e] x]; (eapply chat_step_event; [done|by intros _ ? ?|]); auto.
  - destruct (gc_approve _ _ _ _) as [[r|e] x]; [|eapply chat_step_event; [done|by intros _ ? ?|by left]].
    set (s1 := mk_chat _ _ _).
    assert (chat_step s s1) as Hs1 by (eapply chat_step_event; [done|by intros _ ? ?|by left]).
    case_bool_decide as Herr; [done|]. case_bool_decide as Haw; [done|].
    etrans; [exact Hs1|]. destruct (resubmit_run pending s1) as (Et & Ep & _).
    eapply chat_step_event; [exact Et| |by right].
    intros [_ Hok] request id [= <-] [= <-]. destruct (Hok pending Hp) as [Hin Ha].
    exists (ch_trace s), (pa_request pending), (Ok r). split; [done|]. split; [by exists r|].
    cbn in Hin. rewrite elem_of_app list_elem_of_singleton in Hin. destruct Hin as [Hin|Hin]; [|done]. done.
Qed.
Hint Resolve step_decision : numi.

Lemma step_meta command intent ch a : preserves chat_step (handle_meta_command cfg (X := X) command intent ch a).
Proof. unfold handle_meta_command. chat_walk. Qed.
Lemma step_command message ch a : preserves chat_step (handle_command_if_any cfg (X := X) message ch a).
Proof. unfold handle_command_if_any, decide_command. chat_walk. Qed.
Hint Resolve step_meta step_command proposes_continue : numi.

Lemma step_intent message : preserves chat_step (extract_intent cfg (X := X) message).
Proof.
  unfold extract_intent, known_database_names, known_server_hints, list_servers_cached. chat_walk.
Qed.
Hint Resolve step_intent : numi.

Lemma step_fresh intent message ch a :
  preserves chat_step (start_fresh_investigation cfg (X := X) intent message ch a).
Proof.
  unfold start_fresh_investigation, open_investigation, start_investigation, remember_instance,
    remember_hints, environment_for_instance, find_matching_servers, list_servers_cached. chat_walk.
Qed.
Hint Resolve step_fresh : numi.

Lemma step_message message ch a : preserves chat_step (handle_message_in cfg (X := X) message ch a).
Proof.
  unfold handle_message_in, handle_message_inner, resume_investigation, classify_potential_topic_shift.
  chat_walk.
Qed.
End chats.

(* ------------------------------------------------------------------ *)
(** ** The process *)

Section process.
Context {X : Type} `{GatewayClient X} `{LLMProvider X} `{AgentRuntime X}.
Context (cfg : Settings).

(** what the process is asked to do; meanwhile the world moves on its own *)
Inductive desk_step : Desk X → Desk X → Prop :=
| ds_message d channel account conversation thread text :
    desk_step d (handle_message cfg channel account conversation thread text d).2
| ds_decision d conversation decision channel account :
    desk_step d (decide_in_conversation conversation decision channel account d).2
| ds_summary d server environment channel account :
    desk_step d (run_comprehensive_summary cfg server environment channel account d).2
| ds_triggered d server environment channel account problem :
    desk_step d (run_triggered_investigation cfg server environment channel account problem d).2
| ds_world d x : desk_step d (mk_desk (dk_conversations d) x (dk_trace d)).

(** a process that started without conversations *)
Inductive desk_reachable : Desk X → Prop :=
| dr_start x : desk_reachable (mk_desk ∅ x [])
| dr_step d d' : desk_reachable d → desk_step d d' → desk_reachable d'.

Definition desk_ok (d : Desk X) : Prop :=
  trace_ok (dk_trace d) ∧
  ∀ id c, dk_conversations d !! id = Some c → pending_ok (cs_pending_approval c) (dk_trace d).

Lemma in_conversation_ok {A} id ch th acc (m : M (Chat X) exn A) d :
  preserves chat_step m → desk_ok d → desk_ok (in_conversation id ch th acc m d).2.
Proof.
  intros Hm [Ht Hp]. unfold in_conversation, get_or_create.
  assert (∀ conv x, pending_ok (cs_pending_approval conv) (dk_trace d) →
    desk_ok (let '(r, c) := m (mk_chat conv x (dk_trace d)) in
      (r, mk_desk (<[id := ch_conv c]> (dk_conversations d)) (ch_world c) (ch_trace c))).2) as Hrun.
  { intros conv x Hc. specialize (Hm (mk_chat conv x (dk_trace d))).
    destruct (m _) as [r c]. destruct Hm as [[new En] Hok]. cbn in *.
    destruct Hok as [Ht' Hc']; [by split|]. split; [done|]. cbn. intros id' c'.
    rewrite lookup_insert_Some. intros [[<- <-]|[_ Hl]]; [done|]. rewrite En.
    by apply pending_ok_app, (Hp id'). }
  destruct (dk_conversations d !! id) as [c|] eqn:El; [by apply Hrun, (Hp id)|].
  destruct (utc_now (dk_world d)) as [now x]. by apply Hrun.
Qed.

Lemma run_unattended_ok kind srv env ch acc problem pb d :
  desk_ok d → desk_ok (run_unattended cfg kind srv env ch acc problem pb d).2.
Proof.
  intros [Ht Hp]. unfold run_unattended.
  pose proof (proposes_continue cfg ch acc (unattended_state kind srv env ch acc problem pb d)) as Hc.
  destruct (continue_investigation _ _ _ _) as [r a]. destruct Hc as (new & En & Hn & _).
  assert (ag_trace (unattended_state kind srv env ch acc problem pb d) = dk_trace d) as E0.
  { unfold unattended_state. destruct (new_ulid (dk_world d)) as [u x1]. destruct (utc_now x1) as [now x2].
    by destruct (new_ulid x2). }
  cbn in *. rewrite E0 in En. split; cbn; rewrite En; [by apply trace_ok_plain|].
  intros id c Hl. by apply pending_ok_app, (Hp id).
Qed.

Lemma comprehensive_ok srv env ch acc d :
  desk_ok d → desk_ok (run_comprehensive_summary cfg srv env ch acc d).2.
Proof.
  intros Hd. unfold run_comprehensive_summary.
  destruct (get_playbook (Some SCHEDULED_SUMMARY_PLAYBOOK_ID)); [|exact Hd].
  exact (run_unattended_ok _ srv env ch acc _ _ d Hd).
Qed.

Lemma reachable_ok d : desk_reachable d → desk_ok d.
Proof.
  induction 1 as [x|d d' _ IH Hs]; [split; [apply trace_ok_nil|done]|].
  destruct Hs as [d ch acc conv th text|d conv decision ch acc|d srv env ch acc|d srv env ch acc problem|d x].
  - exact (in_conversation_ok conv ch th acc _ d (step_message cfg text ch acc) IH).
  - exact (in_conversation_ok conv ch "" acc _ d (step_decision decision ch acc) IH).
  - exact (comprehensive_ok srv env ch acc d IH).
  - exact (run_unattended_ok _ srv env ch acc problem None d IH).
  - exact IH.
Qed.

(** C15: whatever messages, decisions, digests and alerts a process handles, a request that
    carries an approval is submitted only right after an approve call for that approval
    that was answered neither by an error nor by a wait for a second approver; and it is,
    field by field, a request that was submitted before without an approval: nothing the
    models say after the proposal can change what was approved *)
Theorem approved_request_is_the_proposed_one d t1 request approval_id t2 :
  desk_reachable d → dk_trace d = t1 ++ EvSubmit request :: t2 →
  tr_approval_id request = Some approval_id →
  ∃ t0 original answer, t1 = t0 ++ [EvApprove approval_id answer] ∧ approved answer ∧
    EvSubmit original ∈ t0 ∧ tr_approval_id original = None ∧
    request = with_approval original approval_id.
Proof.
  intros [Ht _]%reachable_ok Heq Ha. by apply (Ht t1 (EvSubmit request) t2 Heq).
Qed.
End process.

(** *** a conversation with an approval *)

Definition approve_desk : Desk Script := mk_desk ∅ approve_script [].
Definition desk_proposed : Desk Script :=
  (handle_message script_settings "slack" "u1" "c1" "t1" "please end session 51" approve_desk).2.
Definition desk_approved : Desk Script :=
  (handle_message script_settings "slack" "u2" "c1" "t1" "/approve apr_1" desk_proposed).2.

Lemma desk_approved_reachable : desk_reachable script_settings desk_approved.
Proof. eapply dr_step; [eapply dr_step; [apply dr_start|]|]; apply ds_message. Qed.

Definition approved_request : ToolCallRequest :=
  match last (dk_trace desk_approved) with Some (EvSubmit r) => r | _ => health_request end.

Lemma approved_request_is_the_proposed_one_witness :
  tr_approval_id approved_request = Some "apr_1" ∧
  dk_trace desk_approved = removelast (dk_trace desk_approved) ++ [EvSubmit approved_request] ∧
  ∃ t0 original answer, removelast (dk_trace desk_approved) = t0 ++ [EvApprove "apr_1" answer] ∧
    approved answer ∧ EvSubmit original ∈ t0 ∧ tr_approval_id original = None ∧
    approved_request = with_approval original "apr_1".
Proof.
  split; [vm_compute; reflexivity|]. split; [vm_compute; reflexivity|].
  apply (approved_request_is_the_proposed_one script_settings desk_approved _ _ _ []);
    [apply desk_approved_reachable|vm_compute; reflexivity|vm_compute; reflexivity].
Defined.

(* ------------------------------------------------------------------ *)
(** ** Unattended runs *)

(** the actions on record are executed calls: each came from a request that was
    submitted and answered EXECUTED *)
Definition executed_by {X} `{GatewayClient X} (t : list AgentEvent) (a : ExecutedAction) : Prop :=
  ∃ request response x x', EvSubmit request ∈ t ∧ gc_submit request x = (Ok response, x') ∧
    rs_status response = TC_EXECUTED ∧ ea_tool_id a = tr_tool_id request ∧
    ea_result a = rs_result response.
Definition acted {X} `{GatewayClient X} (s s' : Ag X) : Prop :=
  ∃ new, ag_trace s' = ag_trace s ++ new ∧
    ∀ a, a ∈ is_actions (ag_inv s') → a ∈ is_actions (ag_inv s) ∨ executed_by new a.

Section acted.
Context {X : Type} `{GatewayClient X} `{LLMProvider X} `{AgentRuntime X}.
Context (cfg : Settings) (la : LoopArgs).

Lemma executed_by_mono t t' a : t ⊆ t' → executed_by t a → executed_by t' a.
Proof.
  intros Ht (request & response & x & x' & Hin & Hrest). exists request, response, x, x'. auto.
Qed.

#[export] Instance acted_preorder : PreOrder (acted (X := X)).
Proof.
  split; [intros s; exists []; rewrite app_nil_r; auto|].
  intros s t u (n1 & E1 & H1') (n2 & E2 & H2'). exists (n1 ++ n2). split; [by rewrite E2 E1 app_assoc|].
  intros a Ha. destruct (H2' a Ha) as [Ha'|He]; [destruct (H1' a Ha') as [?|He]; [by left|]|];
    right; (eapply executed_by_mono; [|exact He]); set_solver.
Qed.

Lemma acted_same (s s' : Ag X) new : ag_trace s' = ag_trace s ++ new →
  is_actions (ag_inv s') = is_actions (ag_inv s) → acted s s'.
Proof. intros Ht Ha. exists new. rewrite Ha. auto. Qed.
Lemma acted_nil (s s' : Ag X) : ag_trace s' = ag_trace s →
  is_actions (ag_inv s') = is_actions (ag_inv s) → acted s s'.
Proof. intros Ht. apply (acted_same _ _ []). by rewrite app_nil_r. Qed.

Lemma acted_get_inv : preserves acted (get_inv (X := X)).
Proof. intros s. by apply acted_nil. Qed.
Lemma acted_get_conv : preserves acted (get_conv (X := X)).
Proof. intros s. by apply acted_nil. Qed.
Lemma acted_mod_inv f : (∀ i, is_actions (f i) = is_actions i) → preserves acted (mod_inv (X := X) f).
Proof. intros Hf s. apply acted_nil; [done|apply Hf]. Qed.
Lemma acted_on_world {A} (m : M X exn A) : preserves acted (on_world m).
Proof. intros s. unfold on_world. destruct (m (ag_world s)). by apply acted_nil. Qed.
Lemma acted_from_world {A} (f : X → A * X) : preserves acted (from_world f).
Proof. intros s. unfold from_world. destruct (f (ag_world s)). by apply acted_nil. Qed.
Lemma acted_in_world (f : X → X) : preserves acted (in_world f).
Proof. intros s. by apply acted_nil. Qed.
Lemma acted_call_llm {A} (c : llm_call X A) : preserves acted (call_llm c).
Proof. intros s. unfold call_llm. destruct (c (ag_world s)) as [[r l] x]. by apply acted_nil. Qed.
Lemma acted_event e : preserves acted (record_event (X := X) e).
Proof. intros s. by apply (acted_same _ _ [e]). Qed.
Hint Resolve acted_get_inv acted_get_conv acted_on_world acted_from_world acted_in_world acted_call_llm
  acted_event : numi.
Hint Extern 1 (preserves acted (mod_inv _)) =>
  apply acted_mod_inv; intros ?; unfold append_evidence_once; repeat case_match; done : numi.

Lemma acted_relay_denied action response : preserves acted (relay_denied (X := X) action response).
Proof. unfold relay_denied. walk. Qed.

Lemma actions_update a args r types i :
  is_actions (update_pending_verification a args r types i) = is_actions i.
Proof. unfold update_pending_verification. repeat case_match; done. Qed.

Lemma acted_submit action channel account allowed types :
  preserves acted (submit_and_relay (X := X) action channel account allowed types).
Proof.
  intros s. rewrite submit_and_relay_run.
  destruct (is_read_only (ag_inv s) && negb (is_confirmed_read_tool (tp_tool_id action) types));
    [by apply acted_nil|].
  destruct (new_ulid (ag_world s)) as [ulid x1]. cbv zeta.
  set (request := request_of action channel account allowed ulid s).
  destruct (gc_submit request x1) as [[response|e] x2] eqn:Es; [|by apply (acted_same _ _ [EvSubmit request])].
  unfold relay_response. rewrite mod_conv_bind get_inv_bind. set (s2 := _ <| ag_conv ::= _ |>).
  assert (acted s s2) as Hs2 by by apply (acted_same _ _ [EvSubmit request]).
  destruct (rs_status response) eqn:Est.
  - exists [EvSubmit request]. split; [done|]. intros a. cbn. unfold relay_executed. rewrite actions_update.
    cbn. rewrite elem_of_app list_elem_of_singleton. intros [Ha|Ha]; [by left|right]. subst a.
    exists request, response, x1, x2. split; [by left|done].
  - case_match; (etrans; [exact Hs2|]; by apply acted_nil).
  - etrans; [exact Hs2|]. apply acted_relay_denied.
  - etrans; [exact Hs2|]. by apply acted_nil.
Qed.
Hint Resolve acted_submit : numi.

Lemma acted_continue channel account : preserves acted (continue_investigation cfg (X := X) channel account).
Proof.
  unfold continue_investigation, bootstrap_investigation_memory, memory_server_id, canonical_server_id,
    find_matching_servers, list_servers_cached, run_investigation_loop, last_chance, investigation_pass,
    next_playbook_action, take_action, reply_or_again, relay, decide, clarify, finalize_conclude,
    reject_ungrounded, reject_unverified, reject_unsound, self_critique_conclude, log_event,
    conclude_without_root_cause.
  walk.
Qed.
End acted.

Lemma unattended_start {X} `{GatewayClient X, AgentRuntime X} kind srv env ch acc problem pb (d : Desk X) :
  let s := unattended_state kind srv env ch acc problem pb d in
  ag_trace s = dk_trace d ∧ is_read_only (ag_inv s) = true ∧ turns s = 0%nat ∧ is_actions (ag_inv s) = [].
Proof.
  unfold unattended_state. destruct (new_ulid (dk_world d)) as [u x1]. destruct (utc_now x1) as [now x2].
  by destruct (new_ulid x2).
Qed.

(** the entry points nobody watches *)
Definition unattended_entry {X} `{GatewayClient X, LLMProvider X, AgentRuntime X} (cfg : Settings)
    (server environment channel account : string) (run : M (Desk X) exn ScheduledSummary) : Prop :=
  run = run_comprehensive_summary cfg server environment channel account ∨
  ∃ problem, run = run_triggered_investigation cfg server environment channel account problem.

(** A scheduled or an alert-triggered run can only read: whatever the model proposes,
    no registered conversation is touched, nothing is approved or rejected, and every
    request carries no approval and names a tool the Gateway classified READ in the list
    fetched for this very run; and when its summary says ok, one of these requests was
    answered EXECUTED *)
Theorem unattended_run_reads_only {X} `{GatewayClient X, LLMProvider X, AgentRuntime X}
    (cfg : Settings) (server environment channel account : string)
    (run : M (Desk X) exn ScheduledSummary) (d : Desk X) :
  unattended_entry cfg server environment channel account run →
  let r := (run d).1 in let d' := (run d).2 in
  dk_conversations d' = dk_conversations d ∧
  ∃ x available x' new, gc_available_tools channel account x = (available, x') ∧
    acts (dk_trace d') = acts (dk_trace d) ++ new ∧
    Forall (λ e, match e with
                 | EvDecide _ => True
                 | EvSubmit request => ∃ l, available = Ok l ∧ read_request l request
                 | _ => False
                 end) new ∧
    ∀ summary, r = Ok summary → summary_ok summary = true →
      ∃ request response y y', EvSubmit request ∈ new ∧
        gc_submit request y = (Ok response, y') ∧ rs_status response = TC_EXECUTED.
Proof.
  cbv zeta. intros Hrun. assert (∃ kind problem pb,
    run d = run_unattended cfg kind server environment channel account problem pb d) as (kind & problem & pb & ->).
  { destruct Hrun as [->|[problem ->]]; unfold run_comprehensive_summary, run_triggered_investigation;
      by do 3 eexists. }
  unfold run_unattended.
  destruct (unattended_start kind server environment channel account problem pb d) as (Et & Hro & Htu & Hac).
  set (s := unattended_state _ _ _ _ _ _ _ d) in *.
  pose proof (unattended_reads cfg channel account s Hro ltac:(rewrite Htu; unfold MAX_INVESTIGATION_TURNS; lia)) as Hr.
  pose proof (acted_continue cfg channel account s) as (newt & Ent & Hacts).
  destruct (continue_investigation cfg channel account s) as [r a]. cbn in Hr, Hacts, Ent |- *.
  destruct Hr as (_ & x & available & x' & new & Ea & En & Hnew & _).
  split; [done|]. exists x, available, x', new. rewrite -Et. split_and!; [done..|].
  intros summary Hs Hok. destruct r as [reply|e]; [|done]. injection Hs as <-.
  unfold summary_ok in Hok. apply andb_true_iff in Hok as [_ Herr%negb_true_iff]. cbn in Herr.
  unfold unattended_error in Herr. destruct (is_actions (ag_inv a)) as [|act l] eqn:Eacts; [done|].
  destruct (Hacts act) as [Hin|(request & response & y & y' & Hin & Hsub & Hst & _)];
    [by left|by rewrite Hac in Hin; apply not_elem_of_nil in Hin|].
  exists request, response, y, y'. split_and!; [|done..].
  assert (acts newt = new) as <-.
  { rewrite Ent acts_app in En. by apply app_inv_head in En. }
  unfold acts. by apply filter_elem_of.
Qed.

Definition triggered : res exn ScheduledSummary * Desk Script :=
  run_triggered_investigation script_settings "db1" "uat" "alert" "scheduler" "lag"
    (mk_desk ∅ kill_script []).

Lemma unattended_run_reads_only_witness :
  map tr_tool_id (submissions (dk_trace triggered.2)) = ["database.get_sessions"] ∧
  match triggered.1 with Ok summary => summary_ok summary | Err _ => false end = true ∧
  dk_conversations triggered.2 = ∅.
Proof.
  split; [vm_compute; reflexivity|]. split; [vm_compute; reflexivity|].
  exact (proj1 (unattended_run_reads_only script_settings "db1" "uat" "alert" "scheduler"
    (run_triggered_investigation script_settings "db1" "uat" "alert" "scheduler" "lag")
    (mk_desk ∅ kill_script []) (or_intror (ex_intro _ "lag" eq_refl)))).
Defined.

(* ------------------------------------------------------------------ *)
(** ** Decisions *)

Section decisions.
Context {X : Type} `{GatewayClient X} `{LLMProvider X} `{AgentRuntime X}.



End decisions.


