(* ===== verification/Digest.v ===== *)
(** What the Agent does with nobody there: the daily digest of
    [agent/scheduled_report.py] and the alert-triggered investigation of
    [agent/alert_trigger.py].  Delivery through the Channels service is the class
    [DigestPublisher]; dates are rendered by a parameter. *)
From S2P Require Import Prelude ProgramLogic Json Text Models ToolCatalog Servers Policy RateLimit.
From S2P Require Import Approval DataPolicy Gateway Investigations Fallback Playbooks Conversation Config.
From S2P Require Import LLMRegistry AgentApi AgentScript Investigator InvestigatorFacts Orchestrator.
From S2P Require Import OrchestratorFacts.

(** [DigestPublisher.publish(channel_id=, text=)] *)
Class DigestPublisher (X : Type) : Type := {
  publish : string → string → M X exn unit
}.

(* ------------------------------------------------------------------ *)
(** ** scheduled_report.py: the digest *)

Definition DAILY_DIGEST_JOB_ID : string := "numi_daily_digest".
Definition MAX_CONCURRENT_RUNS : Z := 1.
Definition MISFIRE_GRACE_SECONDS : Z := 3600.

(** [select_servers] *)
Definition is_active (s : ServerSummary) : bool :=
  bool_decide (str_or (Some (ss_status s)) "active" = "active").
Definition wanted_servers (configured_subset : string) : list string :=
  map (λ part, str_lower (str_strip part))
    (List.filter (λ part, truthy (str_strip part)) (str_split ","%char configured_subset)).
Definition server_names (s : ServerSummary) : list string :=
  map str_lower (ss_id s :: ss_aliases s).
Definition select_servers (servers : list ServerSummary) (configured_subset : string)
    : list ServerSummary :=
  let active := List.filter is_active servers in
  match wanted_servers configured_subset with
  | [] => active
  | wanted => List.filter (λ s, intersects (server_names s) wanted) active
  end.

(** [_server_block] *)
(** [sorted({t for t in dropped_proposals if t})] *)
Definition proposed_names (s : ScheduledSummary) : string :=
  str_join ", " (sorted_set (List.filter truthy (su_dropped_proposals s))).
Definition server_block (s : ScheduledSummary) : string :=
  str_join (String newline "")
    (["*" +:+ su_server_id s +:+ "* (" +:+ su_environment s +:+ ")"; su_text s]
     ++ match su_dropped_proposals s with
        | [] => []
        | _ => ["(Numi would have proposed " +:+ proposed_names s +:+ " here. A scheduled sweep never "
                +:+ "executes an action — treat this as a recommendation to act on, not "
                +:+ "something that was done.)"]
        end).

(** [build_digest]; [stamp] is the time of the digest as text *)
Definition digest_header (stamp : string) : string := "Numi daily health digest — " +:+ stamp +:+ " UTC".
Definition blank_line : string := String newline (String newline "").
Definition failed_line (s : ScheduledSummary) : string :=
  "*" +:+ su_server_id s +:+ "* (" +:+ su_environment s +:+ ") — "
  +:+ str_or (Some (su_error s)) "the investigation did not complete".
Definition digest_sections (stamp : string) (summaries : list ScheduledSummary) : list string :=
  let checked := List.filter summary_ok summaries in
  let failed := List.filter (λ s, negb (summary_ok s)) summaries in
  let flagged := List.filter (λ s, negb (summary_is_clean s)) checked in
  let clean := List.filter summary_is_clean checked in
  [digest_header stamp;
   pretty (length summaries) +:+ " servers swept: " +:+ pretty (length checked) +:+ " checked, "
   +:+ pretty (length failed) +:+ " could not be checked."]
  ++ match flagged with [] => [] | _ => "*NEEDS ATTENTION*" :: map server_block flagged end
  ++ match failed with [] => [] | _ => "*COULD NOT BE CHECKED*" :: map failed_line failed end
  ++ match clean, flagged, failed with
     | [], [], [] => ["All other checks came back clean."]
     | [], _, _ => []
     | _, _, _ => ["All other checks came back clean: " +:+ str_join ", " (map su_server_id clean) +:+ "."]
     end.
Definition build_digest (stamp : string) (summaries : list ScheduledSummary) : string :=
  match summaries with
  | [] =>
      digest_header stamp +:+ blank_line +:+ "No servers were swept: no active registered server matched "
      +:+ "this digest's configuration. Check `config/servers.yaml` and "
      +:+ "`NUMI_DAILY_REPORT_SERVERS`."
  | _ => str_join blank_line (digest_sections stamp summaries)
  end.
Definition registry_unreachable (stamp : string) : string :=
  digest_header stamp +:+ blank_line
  +:+ "No servers could be swept: the server registry was unreachable, so "
  +:+ "nothing was checked this morning. This is a gap in coverage, not a "
  +:+ "clean bill of health.".

(** [schedule_daily_digest]: the job, when there is a channel to post to *)
Record DigestJob : Type := {
  dj_id : string;
  dj_hour : Z;
  dj_minute : Z;
  dj_coalesce : bool;
  dj_max_instances : Z;
  dj_misfire_grace_time : Z;
  dj_replace_existing : bool
}.
Definition schedule_daily_digest (cfg : Settings) : option DigestJob :=
  if truthy (st_daily_report_slack_channel cfg) then
    Some {| dj_id := DAILY_DIGEST_JOB_ID; dj_hour := st_daily_report_hour_utc cfg; dj_minute := 0;
            dj_coalesce := true; dj_max_instances := MAX_CONCURRENT_RUNS;
            dj_misfire_grace_time := MISFIRE_GRACE_SECONDS; dj_replace_existing := true |}
  else None.

Section digest.
Context {X : Type} `{GatewayClient X} `{LLMProvider X} `{AgentRuntime X} `{DigestPublisher X}.
Context (cfg : Settings) (strftime : Z → string).

Definition desk_world {A} (m : M X exn A) : M (Desk X) exn A := λ d,
  let '(r, x) := m (dk_world d) in (r, mk_desk (dk_conversations d) x (dk_trace d)).
Definition desk_now : M (Desk X) exn Z := desk_world (λ x, let '(t, x) := utc_now x in (Ok t, x)).

(** [DailyDigestRunner._summarize] *)
Definition sweep_failed (server : ServerSummary) : ScheduledSummary := {|
  su_server_id := ss_id server; su_environment := ss_environment server; su_investigation_id := "";
  su_status := "error"; su_text := ""; su_findings := []; su_recommendations := [];
  su_dropped_proposals := [];
  su_error := "the health sweep failed to run against this server" |}.
Definition summarize (server : ServerSummary) : M (Desk X) exn ScheduledSummary :=
  try_except
    (run_comprehensive_summary cfg (ss_id server) (ss_environment server)
       (st_daily_report_identity_channel cfg) (st_daily_report_identity_account cfg))
    (λ _, mret (sweep_failed server)).
Fixpoint summarize_all (servers : list ServerSummary) : M (Desk X) exn (list ScheduledSummary) :=
  match servers with
  | [] => mret []
  | server :: servers =>
      summary ← summarize server; rest ← summarize_all servers; mret (summary :: rest)
  end.

(** [DailyDigestRunner.run_once] *)
Definition sweep (stamp : string) : M (Desk X) exn string :=
  selected ← try_except
    (servers ← list_registered_servers;
     mret (Some (select_servers servers (st_daily_report_servers cfg))))
    (λ _, mret None);
  match selected with
  | None => mret (registry_unreachable stamp)
  | Some selected => summaries ← summarize_all selected; mret (build_digest stamp summaries)
  end.
Definition run_once : M (Desk X) exn (option string) :=
  let channel_id := st_daily_report_slack_channel cfg in
  if negb (truthy channel_id) then mret None
  else
    now ← desk_now;
    digest ← sweep (strftime now);
    _ ← try_except (desk_world (publish channel_id digest)) (λ _, mret tt);
    mret (Some digest).
End digest.

(* ------------------------------------------------------------------ *)
(** ** The digest reads, and leaves no server out *)

(** nothing but decisions and reads that the account was offered; no conversation touched *)
Definition reads_only {X} `{GatewayClient X} (channel account : string) (d d' : Desk X) : Prop :=
  dk_conversations d' = dk_conversations d ∧
  ∃ new, acts (dk_trace d') = acts (dk_trace d) ++ new ∧
    Forall (λ e, match e with
                 | EvDecide _ => True
                 | EvSubmit request => ∃ x l x', gc_available_tools channel account x = (Ok l, x') ∧
                                                 read_request l request
                 | _ => False
                 end) new.

Section digest_facts.
Context {X : Type} `{GatewayClient X} `{LLMProvider X} `{AgentRuntime X} `{DigestPublisher X}.
Context (cfg : Settings) (strftime : Z → string).

#[export] Instance reads_only_preorder channel account : PreOrder (reads_only (X := X) channel account).
Proof.
  split; [intros d; split; [done|]; exists []; by rewrite app_nil_r|].
  intros d1 d2 d3 (C1 & n1 & E1 & F1) (C2 & n2 & E2 & F2). split; [by rewrite C2|].
  exists (n1 ++ n2). split; [by rewrite E2 E1 app_assoc|by apply Forall_app].
Qed.

Lemma reads_only_world channel account (d : Desk X) x :
  reads_only channel account d (mk_desk (dk_conversations d) x (dk_trace d)).
Proof. split; [done|]. exists []. by rewrite app_nil_r. Qed.

Lemma reads_desk_world channel account {A} (m : M X exn A) :
  preserves (reads_only channel account) (desk_world m).
Proof. intros d. unfold desk_world. destruct (m (dk_world d)). apply reads_only_world. Qed.
Lemma reads_list_servers channel account :
  preserves (reads_only channel account) (list_registered_servers (X := X)).
Proof. intros d. unfold list_registered_servers. destruct (gc_list_servers _). apply reads_only_world. Qed.

Lemma reads_unattended kind server environment channel account problem pb :
  preserves (reads_only channel account)
    (run_unattended cfg (X := X) kind server environment channel account problem pb).
Proof.
  intros d. unfold run_unattended.
  destruct (unattended_start kind server environment channel account problem pb d) as (Et & Hro & Htu & _).
  set (s := unattended_state _ _ _ _ _ _ _ d) in *.
  pose proof (unattended_reads cfg channel account s Hro ltac:(rewrite Htu; unfold MAX_INVESTIGATION_TURNS; lia)) as Hr.
  destruct (continue_investigation cfg channel account s) as [r a]. cbn in Hr |- *.
  destruct Hr as (_ & x & available & x' & new & Ea & En & Hnew & _). split; [done|].
  exists new. cbn. rewrite -Et. split; [done|]. eapply Forall_impl; [exact Hnew|].
  intros [| | |request| |]; try done. intros (l & -> & Hl). by exists x, l, x'.
Qed.
Hint Resolve reads_desk_world reads_list_servers reads_unattended : numi.

Lemma reads_summarize server : preserves (reads_only (st_daily_report_identity_channel cfg)
  (st_daily_report_identity_account cfg)) (summarize cfg (X := X) server).
Proof. unfold summarize, run_comprehensive_summary. walk. Qed.
Hint Resolve reads_summarize : numi.
Lemma reads_summarize_all servers : preserves (reads_only (st_daily_report_identity_channel cfg)
  (st_daily_report_identity_account cfg)) (summarize_all cfg (X := X) servers).
Proof. induction servers as [|server l IH]; cbn [summarize_all]; walk. Qed.
Hint Resolve reads_summarize_all : numi.

(** a server always gets its summary *)
Lemma summarize_ok server (d : Desk X) :
  ∃ summary d', summarize cfg server d = (Ok summary, d') ∧ su_server_id summary = ss_id server ∧
    su_environment summary = ss_environment server.
Proof.
  unfold summarize, try_except.
  destruct (run_comprehensive_summary _ _ _ _ _ d) as [[summary|e] d'] eqn:E; [|by eexists _, _].
  exists summary, d'. split; [done|]. revert E. unfold run_comprehensive_summary.
  destruct (get_playbook _); [|done]. unfold run_unattended.
  destruct (continue_investigation _ _ _ _) as [[reply|e] a]; [|done]. by intros [= <- _].
Qed.
Lemma summarize_all_ok servers : ∀ d : Desk X,
  ∃ summaries d', summarize_all cfg servers d = (Ok summaries, d') ∧
    map su_server_id summaries = map ss_id servers.
Proof.
  induction servers as [|server l IH]; intros d; [by eexists _, _|]. cbn [summarize_all map].
  destruct (summarize_ok server d) as (summary & d1 & E1 & Hid & _).
  rewrite (M_bind_ok _ _ _ _ _ E1). destruct (IH d1) as (summaries & d2 & E2 & Hids).
  rewrite (M_bind_ok _ _ _ _ _ E2). eexists _, _. split; [done|]. cbn. by rewrite Hid Hids.
Qed.

(** where a summary ends up *)
Lemma digest_section_of stamp summaries s : s ∈ summaries →
  if summary_ok s then
    if summary_is_clean s then
      ∃ clean, s ∈ clean ∧
        "All other checks came back clean: " +:+ str_join ", " (map su_server_id clean) +:+ "."
          ∈ digest_sections stamp summaries
    else server_block s ∈ digest_sections stamp summaries
  else failed_line s ∈ digest_sections stamp summaries.
Proof.
  intros Hs. unfold digest_sections.
  set (checked := List.filter summary_ok summaries).
  set (failed := List.filter (λ s, negb (summary_ok s)) summaries).
  assert (∀ (l : list ScheduledSummary) (p : ScheduledSummary → bool), s ∈ l → p s = true →
    s ∈ List.filter p l) as Hin by (intros; by apply filter_elem_of).
  assert (∀ (f : ScheduledSummary → string) l title, s ∈ l →
    f s ∈ (match l with [] => [] | _ => title :: map f l end)) as Htitled.
  { intros f l title Hl. assert (f s ∈ map f l) by by apply list_elem_of_fmap_2.
    destruct l; [by apply not_elem_of_nil in Hl|]. by right. }
  destruct (summary_ok s) eqn:Eok; [destruct (summary_is_clean s) eqn:Ec|].
  - assert (s ∈ List.filter summary_is_clean checked) as Hclean by (apply Hin; [by apply Hin|done]).
    exists (List.filter summary_is_clean checked). split; [done|].
    rewrite !elem_of_app. do 3 right.
    destruct (List.filter summary_is_clean checked); [by apply not_elem_of_nil in Hclean|]. by left.
  - rewrite !elem_of_app. right. left. apply Htitled, Hin; [by apply Hin|by rewrite Ec].
  - rewrite !elem_of_app. do 2 right. left. apply Htitled, Hin; [done|by rewrite Eok].
Qed.
End digest_facts.

(** The daily digest only reads, never fails silently and leaves no server out: with a
    channel configured, [run_once] always returns the text it tried to publish, once, to that
    channel; when the registry answered, it has one summary for each selected server in
    registry order, and every summary appears: a failed one by name and error, one with
    findings as a block, a clean one in the closing line; otherwise it says nothing was
    checked *)
Theorem digest_leaves_no_server_out {X} `{GatewayClient X, LLMProvider X, AgentRuntime X, DigestPublisher X}
    cfg strftime (d : Desk X) :
  truthy (st_daily_report_slack_channel cfg) = true →
  ∃ digest d' y stamp, run_once cfg strftime d = (Ok (Some digest), d') ∧
    reads_only (st_daily_report_identity_channel cfg) (st_daily_report_identity_account cfg) d d' ∧
    dk_world d' = (publish (st_daily_report_slack_channel cfg) digest y).2 ∧
    (digest = registry_unreachable stamp ∨
     ∃ x x' servers summaries, gc_list_servers x = (Ok servers, x') ∧
       map su_server_id summaries = map ss_id (select_servers servers (st_daily_report_servers cfg)) ∧
       digest = build_digest stamp summaries ∧
       ∀ s, s ∈ summaries →
         if summary_ok s then
           if summary_is_clean s then
             ∃ clean, s ∈ clean ∧
               "All other checks came back clean: " +:+ str_join ", " (map su_server_id clean) +:+ "."
                 ∈ digest_sections stamp summaries
           else server_block s ∈ digest_sections stamp summaries
         else failed_line s ∈ digest_sections stamp summaries).
Proof.
  intros Hch.
  assert (preserves (reads_only (st_daily_report_identity_channel cfg) (st_daily_report_identity_account cfg))
    (run_once cfg (X := X) strftime)) as Hreads.
  { unfold run_once, sweep, desk_now.
    pose proof (reads_desk_world (X := X)); pose proof (reads_list_servers (X := X));
      pose proof (reads_summarize_all (X := X) cfg). walk. }
  specialize (Hreads d). revert Hreads. unfold run_once. rewrite Hch. cbn [negb].
  assert (∃ now d1, desk_now d = (Ok now, d1)) as (now & d1 & En).
  { unfold desk_now, desk_world. destruct (utc_now (dk_world d)) as [now x]. by eexists _, _. }
  rewrite (M_bind_ok _ _ _ _ _ En). set (stamp := strftime now).
  assert (∃ digest d2, sweep cfg stamp d1 = (Ok digest, d2) ∧
    (digest = registry_unreachable stamp ∨
     ∃ x x' servers summaries, gc_list_servers x = (Ok servers, x') ∧
       map su_server_id summaries = map ss_id (select_servers servers (st_daily_report_servers cfg)) ∧
       digest = build_digest stamp summaries)) as (digest & d2 & Es & Hd).
  { unfold sweep, try_except, mbind, M_bind, list_registered_servers.
    destruct (gc_list_servers (dk_world d1)) as [[servers|e] x] eqn:Eg; cbn.
    - destruct (summarize_all_ok cfg (select_servers servers (st_daily_report_servers cfg))
        (mk_desk (dk_conversations d1) x (dk_trace d1))) as (summaries & d2 & E2 & Hids).
      rewrite E2. eexists _, _. split; [done|]. right. by exists (dk_world d1), x, servers, summaries.
    - eexists _, _. split; [done|]. by left. }
  rewrite (M_bind_ok _ _ _ _ _ Es).
  assert (∃ x, try_except (desk_world (publish (st_daily_report_slack_channel cfg) digest))
    (λ _, mret tt) d2 = (Ok tt, mk_desk (dk_conversations d2) x (dk_trace d2)) ∧
    x = (publish (st_daily_report_slack_channel cfg) digest (dk_world d2)).2) as (x & Ep & Hx).
  { unfold try_except, desk_world. destruct (publish _ _ _) as [[[]|e] x]; by exists x. }
  rewrite (M_bind_ok _ _ _ _ _ Ep). intros Hreads. eexists digest, _, (dk_world d2), stamp.
  split_and!; [done|exact Hreads|exact Hx|].
  destruct Hd as [->|(y & y' & servers & summaries & Hl & Hids & ->)]; [by left|right].
  exists y, y', servers, summaries. split_and!; [done..|]. apply digest_section_of.
Qed.

(** *** A morning *)

#[export] Instance script_publisher : DigestPublisher Script := {| publish _ _ s := (Ok tt, s) |}.

Definition script_server (id : string) (status : string) : ServerSummary := {|
  ss_id := id; ss_aliases := []; ss_host := None; ss_environment := "uat"; ss_platform := "sqlserver";
  ss_criticality := "high"; ss_status := status; ss_catalog := None |}.
Definition morning_settings : Settings := script_settings <| st_daily_report_slack_channel := "C1" |>.
(** one server answers its checks, the next has no answers left, the third is retired *)
Definition morning : Desk Script :=
  mk_desk ∅ (kill_script <| sc_servers := [script_server "db1" "active"; script_server "db2" "";
                                           script_server "db3" "retired"] |>) [].

Lemma digest_leaves_no_server_out_witness :
  ∃ digest d', run_once morning_settings (λ _, "2024-01-01 06:00") morning = (Ok (Some digest), d') ∧
    str_contains "2 servers swept: 1 checked, 1 could not be checked." digest = true ∧
    str_contains "*db2* (uat)" digest = true ∧ dk_conversations d' = ∅.
Proof.
  destruct (digest_leaves_no_server_out morning_settings (λ _, "2024-01-01 06:00") morning eq_refl)
    as (digest & d' & y & stamp & Er & [Hc _] & _).
  exists digest, d'. split; [exact Er|].
  assert (fst (run_once morning_settings (λ _, "2024-01-01 06:00") morning) = Ok (Some digest)) as E
    by (rewrite Er; reflexivity).
  vm_compute in E. injection E as <-. split; [vm_compute; reflexivity|].
  split; [vm_compute; reflexivity|exact Hc].
Defined.
