(* ===== verification/Alerts.v ===== *)
(** The alert-triggered investigation: [agent/alert_trigger.py].  The cooldown runs on any
    [RateLimitBackend]; Python's [str.format] is written out as far as the text uses it. *)
From S2P Require Import Prelude ProgramLogic Json Text Models ToolCatalog Servers Policy RateLimit.
From S2P Require Import Approval DataPolicy Gateway Investigations Fallback Playbooks Conversation Config.
From S2P Require Import LLMRegistry AgentApi AgentScript Investigator InvestigatorFacts Orchestrator.
From S2P Require Import OrchestratorFacts Digest.

(* ------------------------------------------------------------------ *)
(** ** [str.format] with one keyword argument *)

(** attribute and index access, conversions and format specifications: from the text after
    the opening brace and the value, what the field becomes and the text after it *)
Class FieldFormatter : Type := {
  format_field : string → string → res exn (string * string);
  format_field_rest : ∀ s v o rest, format_field s v = Ok (o, rest) →
    (String.length rest < String.length s)%nat
}.

(** the field name, up to the first of [}], [{], [:], [!], [.], [[] *)
Fixpoint field_name (s : string) : string * string :=
  match s with
  | EmptyString => ("", "")
  | String c s' =>
      if mem c ["}"; "{"; ":"; "!"; "."; "["]%char then ("", s)
      else let '(n, r) := field_name s' in (String c n, r)
  end.
Lemma field_name_length s : (String.length (field_name s).2 ≤ String.length s)%nat.
Proof.
  induction s as [|c s IH]; [done|]. cbn. destruct (mem c _); [done|].
  destruct (field_name s) as [n r]. cbn in *. lia.
Qed.

Section format.
Context `{FieldFormatter} (name value : string).

Definition value_error (text : string) : exn := PyError "ValueError" text.

(** the replacement field after an opening brace: its value and the rest.  No argument but
    [name] is passed, so a position is an [IndexError] and another name a [KeyError]; of a
    field with two faults, which of the exceptions is raised is not distinguished. *)
Definition replacement_field (s : string) : res exn (string * string) :=
  let '(n, rest) := field_name s in
  match rest with
  | EmptyString => Err (value_error "expected '}' before end of string")
  | String c rest' =>
      if bool_decide (c = "{"%char) then Err (value_error "unexpected '{' in field name")
      else if bool_decide (n = name) then
        if bool_decide (c = "}"%char) then Ok (value, rest') else format_field s value
      else if bool_decide (n = "") || str_all is_digit n then
        Err (PyError "IndexError" "Replacement index out of range for positional args tuple")
      else Err (PyError "KeyError" n)
  end.

(** [text.format(name=value)]; every round consumes a character, so the length of the text is
    fuel enough *)
Fixpoint format_go (fuel : nat) (s : string) : res exn string :=
  match fuel with
  | O => Ok ""
  | S fuel =>
      match s with
      | EmptyString => Ok ""
      | String c s' =>
          if bool_decide (c = "{"%char) then
            match s' with
            | EmptyString => Err (value_error "Single '{' encountered in format string")
            | String c' s'' =>
                if bool_decide (c' = "{"%char) then String c <$> format_go fuel s''
                else
                  match replacement_field s' with
                  | Err e => Err e
                  | Ok (v, rest) => String.append v <$> format_go fuel rest
                  end
            end
          else if bool_decide (c = "}"%char) then
            match s' with
            | String c' s'' =>
                if bool_decide (c' = "}"%char) then String c <$> format_go fuel s''
                else Err (value_error "Single '}' encountered in format string")
            | EmptyString => Err (value_error "Single '}' encountered in format string")
            end
          else String c <$> format_go fuel s'
      end
  end.
Definition py_format (s : string) : res exn string := format_go (S (String.length s)) s.
End format.

(** one literal brace-free prefix at a time *)
Definition no_braces (s : string) : bool :=
  str_all (λ c, negb (mem c ["{"; "}"]%char)) s.

(* ------------------------------------------------------------------ *)
(** ** alert_trigger.py *)

Record AlertPayload : Type := {
  al_server : string;
  al_metric : string;
  al_current_value : string;
  al_threshold : string;
  al_severity : string;
  al_source : string;
  al_message : string
}.
Record AlertTriggerOutcome : Type := {
  ao_ok : bool;
  ao_text : string;
  ao_error : string;
  ao_suppressed : bool
}.
Definition alert_error (error : string) : AlertTriggerOutcome :=
  {| ao_ok := false; ao_text := ""; ao_error := error; ao_suppressed := false |}.

(** [resolve_server]: exactly one server with that id or alias, once normalized *)
Definition named_exactly (server_ref : string) (s : ServerSummary) : bool :=
  existsb (λ n, bool_decide (normalize_server_reference n = normalize_server_reference server_ref))
    (List.filter truthy (ss_id s :: ss_aliases s)).
Definition resolve_server (server_ref : string) (servers : list ServerSummary)
    : option ServerSummary :=
  match List.filter (named_exactly server_ref) servers with
  | [s] => Some s
  | _ => None
  end.

(** [build_problem_statement], with its placeholder *)
Definition alert_details (alert : AlertPayload) : list string :=
  (if truthy (al_metric alert) then
     ["metric `" +:+ al_metric alert +:+ "`"
      +:+ (if truthy (al_current_value alert) then " is currently " +:+ al_current_value alert else "")
      +:+ (if truthy (al_threshold alert) then " (threshold: " +:+ al_threshold alert +:+ ")" else "")]
   else [])
  ++ (if truthy (al_severity alert) then ["severity: " +:+ al_severity alert] else [])
  ++ (if truthy (al_source alert) then ["reported by: " +:+ al_source alert] else [])
  ++ (if truthy (al_message alert) then ["alert message: " +:+ al_message alert] else []).
Definition detail_text (alert : AlertPayload) : string :=
  match alert_details alert with
  | [] => "no further detail was provided by the alert"
  | details => str_join "; " details
  end.
Definition READ_ONLY_NOTICE : string :=
  ". This is an unattended, proactive investigation with no DBA in the "
  +:+ "conversation to answer a question or approve anything. Investigate this "
  +:+ "specific alert and report findings and a recommendation as text only: "
  +:+ "only read-only diagnostics are available to you here, and nothing you "
  +:+ "propose will be executed, approved, or acted on automatically. If this "
  +:+ "needs remediation, describe what you would recommend and why, for a DBA "
  +:+ "to decide on — never as an action you are taking. Do not ask a "
  +:+ "clarifying question; nobody is there to answer it.".
Definition ALERT_OPENING : string := "A monitoring alert fired for the ".
Definition ALERT_SERVER : string := " server — ".
Definition build_problem_statement (alert : AlertPayload) : string :=
  ALERT_OPENING +:+ "{server_id}" +:+ ALERT_SERVER +:+ detail_text alert +:+ READ_ONLY_NOTICE.

(** [_format_alert_result] *)
Definition format_alert_result (alert : AlertPayload) (s : ScheduledSummary) : string :=
  let header := "Numi alert-triggered investigation — " +:+ su_server_id s +:+ " ("
                +:+ su_environment s +:+ ")" in
  let trigger_line := "Triggered by: " +:+ str_or (Some (al_metric alert)) "monitoring alert"
                      +:+ (if truthy (al_source alert) then " via " +:+ al_source alert else "") in
  if negb (summary_ok s) then
    header +:+ String newline trigger_line +:+ blank_line +:+ "Could not complete the investigation: "
    +:+ str_or (Some (su_error s)) "unknown error" +:+ "."
  else
    str_join (String newline "")
      ([header; trigger_line; ""; su_text s]
       ++ match su_dropped_proposals s with
          | [] => []
          | _ => [String newline "(Numi would have proposed " +:+ proposed_names s
                  +:+ " here. An alert-triggered "
                  +:+ "investigation never executes an action — treat this as a "
                  +:+ "recommendation to act on, not something that was done.)"]
          end).

Definition cooldown_key (server_id metric : string) : string :=
  "alert-cooldown:" +:+ server_id +:+ ":" +:+ str_or (Some metric) "_".

Section alerts.
Context {X B : Type} `{GatewayClient X} `{LLMProvider X} `{AgentRuntime X} `{DigestPublisher X}.
Context `{RateLimitBackend B} `{FieldFormatter}.
Context (cfg : Settings).

(** the process' conversations and world, and the cooldowns *)
Definition on_desk {A} (m : M (Desk X) exn A) : M (Desk X * B) exn A := λ s,
  let '(r, d) := m s.1 in (r, (d, s.2)).
Definition on_cooldown (now : Z) (key : string) (window : Z) : M (Desk X * B) exn bool := λ s,
  let '(ok, b) := increment_and_check now key 1 window s.2 in (Ok ok, (s.1, b)).

(** whether the cooldown of a server and metric lets the alert through *)
Definition within_cooldown (now : Z) (server : ServerSummary) (metric : string)
    : M (Desk X * B) exn bool :=
  let cooldown_seconds := st_alert_webhook_cooldown_seconds cfg in
  if (0 <? cooldown_seconds)%Z
  then on_cooldown now (cooldown_key (ss_id server) metric) cooldown_seconds
  else mret true.

(** past the cooldown: investigate and deliver *)
Definition investigate_alert (alert : AlertPayload) (server : ServerSummary)
    : M (Desk X * B) exn AlertTriggerOutcome :=
  problem ← lift_res (py_format "server_id" (ss_id server) (build_problem_statement alert));
  summary ← on_desk (run_triggered_investigation cfg (ss_id server) (ss_environment server)
    (st_alert_webhook_identity_channel cfg) (st_alert_webhook_identity_account cfg) problem);
  let text := format_alert_result alert summary in
  try_except
    (_ ← on_desk (desk_world (publish (st_alert_webhook_slack_channel cfg) text));
     mret {| ao_ok := true; ao_text := text; ao_error := ""; ao_suppressed := false |})
    (λ _, mret {| ao_ok := false; ao_text := text;
                  ao_error := "Investigated, but could not deliver the result.";
                  ao_suppressed := false |}).

(** the server the alert is about, or the error to report *)
Definition alerted_server (alert : AlertPayload)
    : M (Desk X * B) exn (AlertTriggerOutcome + ServerSummary) :=
  try_except
    (servers ← on_desk list_registered_servers;
     mret (match resolve_server (al_server alert) servers with
           | Some server => inr server
           | None => inl (alert_error ("'" +:+ al_server alert
                       +:+ "' does not match exactly one registered server id or alias."))
           end))
    (λ _, mret (inl (alert_error "The server registry was unreachable."))).

(** [AlertTriggerRunner.handle_alert], with the reading of the cooldown's clock *)
Definition handle_alert (now : Z) (alert : AlertPayload) : M (Desk X * B) exn AlertTriggerOutcome :=
  if negb (truthy (st_alert_webhook_slack_channel cfg)) then
    mret (alert_error "Alert-triggered investigation is not configured.")
  else
    found ← alerted_server alert;
    match found with
    | inl outcome => mret outcome
    | inr server =>
        ok ← within_cooldown now server (al_metric alert);
        if negb ok then
          mret {| ao_ok := true; ao_text := ""; ao_error := ""; ao_suppressed := true |}
        else investigate_alert alert server
    end.
End alerts.

(* ------------------------------------------------------------------ *)
(** ** The text of the investigation *)

Section format_facts.
Context `{FieldFormatter} (name value : string).

Lemma replacement_field_rest s v rest : replacement_field name value s = Ok (v, rest) →
  (String.length rest < String.length s)%nat.
Proof.
  unfold replacement_field. pose proof (field_name_length s) as Hl.
  destruct (field_name s) as [n [|c rest']]; [done|]. cbn in Hl.
  repeat case_match; try done; [|by intros Hr%format_field_rest].
  intros [= _ <-]. lia.
Qed.

(** the fuel of [py_format] is never what ends it *)
Lemma format_fuel : ∀ fuel s, (String.length s < fuel)%nat →
  format_go name value fuel s = py_format name value s.
Proof.
  assert (∀ fuel fuel' s, (String.length s < fuel)%nat → (String.length s < fuel')%nat →
    format_go name value fuel s = format_go name value fuel' s) as Hany.
  { induction fuel as [|fuel IH]; intros [|fuel'] s Hs Hs'; [lia..|]. destruct s as [|c s]; [done|].
    cbn in Hs, Hs'. cbn [format_go]. case_bool_decide; [|case_bool_decide].
    - destruct s as [|c' s]; [done|]. cbn in Hs, Hs'.
      case_bool_decide; [f_equal; apply IH; lia|].
      destruct (replacement_field _ _ (String c' s)) as [[v rest]|e] eqn:Er; [|done].
      apply replacement_field_rest in Er. cbn in Er. f_equal. apply IH; lia.
    - destruct s as [|c' s]; [done|]. cbn in Hs, Hs'.
      case_bool_decide; [|done]. f_equal. apply IH; lia.
    - f_equal. apply IH; lia. }
  intros fuel s Hs. apply Hany; lia.
Qed.

Lemma fmap_append c s (r : res exn string) :
  String c <$> (String.append s <$> r) = String.append (String c s) <$> r.
Proof. by destruct r. Qed.

Lemma format_plain c s fuel : c ≠ "{"%char → c ≠ "}"%char →
  format_go name value (S fuel) (String c s) = String c <$> format_go name value fuel s.
Proof. intros H1 H2. cbn [format_go]. by rewrite (bool_decide_false _ H1) (bool_decide_false _ H2). Qed.

Lemma format_literal s t : no_braces s = true →
  py_format name value (s +:+ t) = String.append s <$> py_format name value t.
Proof.
  induction s as [|c s IH]; intros Hs;
    [change ("" +:+ t) with t; by destruct (py_format name value t)|].
  cbn in Hs. apply andb_true_iff in Hs as [Hc Hs]. rewrite negb_true_iff in Hc.
  apply bool_decide_eq_false in Hc. rewrite -fmap_append -(IH Hs). unfold py_format at 1.
  apply format_plain; intros ->; apply Hc; set_solver.
Qed.
Lemma format_literal_end s : no_braces s = true → py_format name value s = Ok s.
Proof. intros Hs. rewrite -{1}(str_app_nil_r s) format_literal //=. cbn. by rewrite str_app_nil_r. Qed.
End format_facts.

Lemma notice_no_braces : no_braces READ_ONLY_NOTICE = true.
Proof. vm_compute. reflexivity. Qed.
Lemma opening_no_braces : no_braces ALERT_OPENING = true ∧ no_braces ALERT_SERVER = true.
Proof. split; vm_compute; reflexivity. Qed.

#[local] Arguments py_format : simpl never.


Lemma format_server_id `{FieldFormatter} value t :
  py_format "server_id" value ("{server_id}" +:+ t) = String.append value <$> py_format "server_id" value t.
Proof.
  assert (∀ fuel, format_go "server_id" value (S fuel) ("{server_id}" +:+ t)
    = String.append value <$> format_go "server_id" value fuel t) as Hstep by reflexivity.
  unfold py_format at 1. rewrite Hstep. f_equal. apply format_fuel. cbn. lia.
Qed.

#[local] Opaque py_format READ_ONLY_NOTICE ALERT_OPENING ALERT_SERVER.
(** an alert without braces opens its investigation with the server's id in the text *)
Lemma problem_statement_text `{FieldFormatter} alert server_id :
  no_braces (detail_text alert) = true →
  py_format "server_id" server_id (build_problem_statement alert)
  = Ok (ALERT_OPENING +:+ server_id +:+ ALERT_SERVER +:+ detail_text alert +:+ READ_ONLY_NOTICE).
Proof.
  intros Hd. unfold build_problem_statement.
  rewrite (format_literal "server_id" server_id ALERT_OPENING _ (proj1 opening_no_braces)).
  rewrite format_server_id.
  rewrite (format_literal "server_id" server_id ALERT_SERVER _ (proj2 opening_no_braces)).
  rewrite (format_literal "server_id" server_id (detail_text alert) READ_ONLY_NOTICE Hd).
  by rewrite (format_literal_end "server_id" server_id _ notice_no_braces).
Qed.
#[local] Transparent py_format READ_ONLY_NOTICE ALERT_OPENING ALERT_SERVER.

(* ------------------------------------------------------------------ *)
(** ** Reads, and not too often *)

Section alert_facts.
Context {X B : Type} `{GatewayClient X} `{LLMProvider X} `{AgentRuntime X} `{DigestPublisher X}.
Context `{RateLimitBackend B} `{FieldFormatter}.
Context (cfg : Settings).

Abbreviation alert_reads := (λ s s' : Desk X * B, reads_only (st_alert_webhook_identity_channel cfg)
  (st_alert_webhook_identity_account cfg) s.1 s'.1).
#[local] Instance alert_reads_preorder : PreOrder alert_reads.
Proof. split; [by intros s|by intros s t u Hs Ht; etrans]. Qed.

Lemma alert_reads_on_desk {A} (m : M (Desk X) exn A) :
  preserves (reads_only (st_alert_webhook_identity_channel cfg) (st_alert_webhook_identity_account cfg)) m →
  preserves alert_reads (on_desk (B := B) m).
Proof. intros Hm s. unfold on_desk. specialize (Hm s.1). by destruct (m s.1). Qed.
Lemma alert_reads_cooldown now server metric :
  preserves alert_reads (within_cooldown (X := X) (B := B) cfg now server metric).
Proof.
  unfold within_cooldown. walk. intros s. unfold on_cooldown. by destruct (increment_and_check _ _ _ _ _).
Qed.
Lemma alert_reads_lift {A} (r : res exn A) : preserves alert_reads (lift_res (S := Desk X * B) r).
Proof. intros s. by destruct r. Qed.

Lemma alert_reads_investigate alert server :
  preserves alert_reads (investigate_alert (X := X) (B := B) cfg alert server).
Proof.
  pose proof @alert_reads_lift. unfold investigate_alert, run_triggered_investigation.
  pose proof (λ k sv e p pb, alert_reads_on_desk _ (reads_unattended (X := X) cfg k sv e
    (st_alert_webhook_identity_channel cfg) (st_alert_webhook_identity_account cfg) p pb)).
  pose proof (λ c t, alert_reads_on_desk _ (reads_desk_world (st_alert_webhook_identity_channel cfg)
    (st_alert_webhook_identity_account cfg) (publish (X := X) c t))).
  walk.
Qed.

(** deciding whether to investigate touches neither the conversations nor the trace, and
    leaves the cooldowns to the server's key *)
Lemma alerted_server_quiet alert (s : Desk X * B) :
  let s' := (alerted_server alert s).2 in
  s'.2 = s.2 ∧ dk_trace s'.1 = dk_trace s.1 ∧ dk_conversations s'.1 = dk_conversations s.1.
Proof.
  unfold alerted_server, try_except, on_desk, list_registered_servers, mbind, M_bind.
  destruct (gc_list_servers (dk_world s.1)) as [[servers|e] x]; by cbn.
Qed.

(** past every check: the key whose cooldown let the alert through *)
Definition started (now : Z) (alert : AlertPayload) (s : Desk X * B) : option string :=
  if truthy (st_alert_webhook_slack_channel cfg) then
    match alerted_server alert s with
    | (Ok (inr server), s1) =>
        match within_cooldown cfg now server (al_metric alert) s1 with
        | (Ok true, _) => Some (cooldown_key (ss_id server) (al_metric alert))
        | _ => None
        end
    | _ => None
    end
  else None.

Lemma investigate_keeps_cooldowns alert server (s : Desk X * B) :
  (investigate_alert cfg alert server s).2.2 = s.2.
Proof.
  unfold investigate_alert, mbind, M_bind, lift_res, try_except, on_desk.
  destruct (py_format _ _ _) as [problem|e]; [|done].
  destruct (run_triggered_investigation _ _ _ _ _ _ _) as [[summary|e] d]; [|done]. cbn.
  by destruct (desk_world _ d) as [[[]|e] d'].
Qed.

(** the three ways an alert goes *)
Lemma handle_alert_cases now alert (s : Desk X * B) :
  let s1 := (alerted_server alert s).2 in
  (started now alert s = None ∧ (handle_alert cfg now alert s).2 = s) ∨
  (started now alert s = None ∧ (handle_alert cfg now alert s).2 = s1) ∨
  (∃ server, alerted_server alert s = (Ok (inr server), s1) ∧
     let '(r, s2) := within_cooldown cfg now server (al_metric alert) s1 in
     (started now alert s = None ∧ r = Ok false ∧ (handle_alert cfg now alert s).2 = s2) ∨
     (started now alert s = Some (cooldown_key (ss_id server) (al_metric alert)) ∧ r = Ok true ∧
      handle_alert cfg now alert s = investigate_alert cfg alert server s2)).
Proof.
  cbv zeta. unfold started, handle_alert. destruct (truthy (st_alert_webhook_slack_channel cfg));
    [|by left]. cbn [negb]. right. unfold mbind, M_bind.
  destruct (alerted_server alert s) as [[[outcome|server]|e] s1]; [by left| |by left].
  right. exists server. split; [done|]. cbn [snd].
  assert (∃ ok s2, within_cooldown cfg now server (al_metric alert) s1 = (Ok ok, s2)) as (ok & s2 & Ew).
  { unfold within_cooldown, on_cooldown. case_match; [|by eexists _, _].
    destruct (increment_and_check _ _ _ _ _). by eexists _, _. }
  rewrite Ew. destruct ok; [by right|by left].
Qed.
End alert_facts.

(** *** With the in-memory cooldowns *)

Section rationed.
Context {X : Type} `{GatewayClient X} `{LLMProvider X} `{AgentRuntime X} `{DigestPublisher X}.
Context `{FieldFormatter}.
Context (cfg : Settings).
Abbreviation window := (st_alert_webhook_cooldown_seconds cfg).
Abbreviation state := (Desk X * InMemoryBuckets)%type.

(** the keys whose cooldown let an alert through, with the time, along a series of alerts *)
Fixpoint alert_starts (alerts : list (Z * AlertPayload)) (s : state) : list (string * Z) :=
  match alerts with
  | [] => []
  | (now, alert) :: alerts =>
      match started cfg now alert s with Some key => [(key, now)] | None => [] end
      ++ alert_starts alerts (handle_alert cfg now alert s).2
  end.
Definition starts_of (key : string) (starts : list (string * Z)) : list Z :=
  map snd (List.filter (λ kt, bool_decide (kt.1 = key)) starts).

(** every start is a window after the ones before *)
Definition spaced (w : Z) : list Z → Prop := Sorted.StronglySorted (λ t t', t + w ≤ t')%Z.

(** every bucket counts at least one call, as every bucket the limiter makes *)
Definition counted (b : InMemoryBuckets) : Prop :=
  ∀ key c t, im_buckets b !! key = Some (c, t) → (1 ≤ c)%Z.

Lemma in_memory_step now key w b : (0 < w)%Z → counted b →
  let '(ok, b') := in_memory_increment now key 1 w b in
  counted b' ∧
  (if ok then (∃ c, im_buckets b' !! key = Some (c, now)) ∧
              ∀ c t, im_buckets b !! key = Some (c, t) → (t + w ≤ now)%Z
   else ∃ c c' t, im_buckets b !! key = Some (c, t) ∧ im_buckets b' !! key = Some (c', t)).
Proof.
  intros Hw Hc. unfold in_memory_increment.
  assert (∀ c t, (1 ≤ c)%Z → counted {| im_buckets := <[key := (c, t)]> (im_buckets b) |}) as Hins.
  { intros c t Hge k' c' t'. cbn. destruct (base.decide (k' = key)) as [->|Hne].
    - rewrite lookup_insert_eq. intros [= <- <-]. done.
    - rewrite lookup_insert_ne //. apply Hc. }
  destruct (im_buckets b !! key) as [[c t]|] eqn:Eb; cbn.
  - specialize (Hc _ _ _ Eb). destruct (Z.leb_spec w (now - t)); cbn.
    + rewrite lookup_insert_eq. split; [by apply Hins|]. split; [by eexists|].
      intros c' t' [= <- <-]. lia.
    + destruct (Z.leb_spec (c + 1) 1); [lia|]. cbn. rewrite lookup_insert_eq.
      split; [apply Hins; lia|]. by exists c, (c + 1)%Z, t.
  - rewrite Z.sub_diag. destruct (Z.leb_spec w 0); [lia|]. cbn. rewrite lookup_insert_eq.
    split; [apply Hins; lia|]. split; [by eexists|done].
Qed.

(** one alert: its start, if any, is a window after the one its bucket remembers, and is
    remembered; no other alert changes what is remembered *)
Lemma alert_step now alert (s : state) key : (0 < window)%Z → counted s.2 →
  let s' := (handle_alert cfg now alert s).2 in
  counted s'.2 ∧
  (if bool_decide (started cfg now alert s = Some key)
   then (∃ c, im_buckets s'.2 !! key = Some (c, now)) ∧
        ∀ c t, im_buckets s.2 !! key = Some (c, t) → (t + window ≤ now)%Z
   else ∀ c t, im_buckets s.2 !! key = Some (c, t) → ∃ c', im_buckets s'.2 !! key = Some (c', t)).
Proof.
  intros Hw Hc. cbv zeta. destruct (alerted_server_quiet alert s) as (Hb & _ & _).
  pose proof (handle_alert_cases cfg now alert s) as Hcases. cbv zeta in Hcases, Hb.
  destruct Hcases as [[-> ->]|[[-> ->]|(server & Ea & Hcase)]].
  - rewrite bool_decide_false //. split; [done|]. eauto.
  - rewrite bool_decide_false // Hb. split; [done|]. eauto.
  - set (s1 := (alerted_server alert s).2) in *. clearbody s1.
    unfold within_cooldown in Hcase. rewrite (proj2 (Z.ltb_lt _ _) Hw) in Hcase. unfold on_cooldown in Hcase.
    set (key' := cooldown_key _ _) in Hcase. rewrite -Hb in Hc |- *.
    pose proof (in_memory_step now key' window s1.2 Hw Hc) as Hstep.
    pose proof (in_memory_other now key' key 1 window s1.2) as Hother.
    change (increment_and_check now key' 1 window s1.2) with (in_memory_increment now key' 1 window s1.2) in Hcase.
    destruct (in_memory_increment now key' 1 window s1.2) as [ok b'].
    destruct Hstep as [Hc' Hstep]. cbn [snd] in Hother.
    destruct Hcase as [(-> & [= ->] & ->)|(-> & [= ->] & ->)].
    + rewrite bool_decide_false //. cbn [snd]. split; [done|]. intros c t Hk.
      destruct (base.decide (key' = key)) as [->|Hne]; [|exists c; by rewrite Hother].
      destruct Hstep as (c0 & c' & t0 & Hk0 & Hk'). rewrite Hk in Hk0. injection Hk0 as <- <-. eauto.
    + rewrite investigate_keeps_cooldowns. cbn [snd]. split; [done|].
      case_bool_decide as Hkey; [injection Hkey as ->; exact Hstep|].
      intros c t Hk. exists c. rewrite Hother //. congruence.
Qed.

Lemma starts_spaced key alerts : (0 < window)%Z → ∀ s : state, counted s.2 →
  spaced window (starts_of key (alert_starts alerts s)) ∧
  ∀ c t, im_buckets s.2 !! key = Some (c, t) →
    Forall (λ t', t + window ≤ t')%Z (starts_of key (alert_starts alerts s)).
Proof.
  intros Hw. induction alerts as [|[now alert] alerts IH]; intros s Hc; cbn [alert_starts].
  { split; constructor. }
  destruct (alert_step now alert s key Hw Hc) as [Hc' Hstep].
  destruct (IH _ Hc') as [Hsp Hall]. clear IH.
  assert (starts_of key (match started cfg now alert s with Some key => [(key, now)] | None => [] end
      ++ alert_starts alerts (handle_alert cfg now alert s).2)
    = (if bool_decide (started cfg now alert s = Some key) then [now] else [])
      ++ starts_of key (alert_starts alerts (handle_alert cfg now alert s).2)) as ->.
  { unfold starts_of. rewrite List.filter_app map_app. f_equal.
    destruct (started cfg now alert s) as [k|]; [|done]. cbn.
    destruct (base.decide (k = key)) as [->|Hne]; [by rewrite !bool_decide_true|].
    rewrite !bool_decide_false //. congruence. }
  case_bool_decide.
  - destruct Hstep as [(c & Hk) Hold]. specialize (Hall _ _ Hk). split; [by constructor|].
    intros c' t Hk'. specialize (Hold _ _ Hk'). constructor; [done|].
    eapply Forall_impl; [exact Hall|]. cbn. lia.
  - split; [done|]. intros c t Hk. destruct (Hstep _ _ Hk) as [c' Hk']. by eapply Hall.
Qed.

Lemma no_start_no_work now alert (s : state) : started cfg now alert s = None →
  dk_trace (handle_alert cfg now alert s).2.1 = dk_trace s.1.
Proof.
  intros Hn. destruct (alerted_server_quiet alert s) as (_ & Ht & _).
  pose proof (handle_alert_cases cfg now alert s) as Hcases. cbv zeta in Hcases, Ht.
  destruct Hcases as [[_ ->]|[[_ ->]|(server & Ea & Hcase)]]; [done|done|].
  assert (∀ s1 : state, dk_trace (within_cooldown cfg now server (al_metric alert) s1).2.1 = dk_trace s1.1) as Hw.
  { intros s1. unfold within_cooldown, on_cooldown.
    destruct (0 <? _)%Z; [by destruct (increment_and_check _ _ _ _ _)|done]. }
  specialize (Hw (alerted_server alert s).2).
  destruct (within_cooldown _ _ _ _ _) as [r s2]. rewrite Hn in Hcase.
  destruct Hcase as [(_ & _ & ->)|([=] & _)]. cbn in Hw. by rewrite Hw.
Qed.

(** C29: alerts are read-only and rationed: handling an alert only reads, as the configured
    identity, and touches no conversation; an alert its cooldown does not let through makes
    the Agent do nothing at all; and over any series of alerts, at whatever times, those that
    are let through for one server and metric lie at least the configured cooldown apart *)
Theorem alerts_are_rationed_reads :
  (0 < window)%Z →
  (∀ now alert (s : state),
     let s' := (handle_alert cfg now alert s).2 in
     reads_only (st_alert_webhook_identity_channel cfg) (st_alert_webhook_identity_account cfg) s.1 s'.1 ∧
     (started cfg now alert s = None → dk_trace s'.1 = dk_trace s.1)) ∧
  (∀ alerts (s : state) key, counted s.2 →
     spaced window (starts_of key (alert_starts alerts s))).
Proof.
  intros Hw. split; [|by intros alerts s key Hc; apply starts_spaced].
  intros now alert s. split; [|apply no_start_no_work].
  pose proof (alerted_server_quiet alert s) as (_ & Ht & Hcv).
  pose proof (handle_alert_cases cfg now alert s) as Hcases. cbv zeta in Hcases, Ht, Hcv.
  assert (∀ d : Desk X, dk_trace d = dk_trace s.1 → dk_conversations d = dk_conversations s.1 →
    reads_only (st_alert_webhook_identity_channel cfg) (st_alert_webhook_identity_account cfg) s.1 d) as Hsame.
  { intros d E1 E2. split; [done|]. exists []. by rewrite app_nil_r E1. }
  destruct Hcases as [[_ ->]|[[_ ->]|(server & Ea & Hcase)]]; [done|by apply Hsame|].
  pose proof (alert_reads_cooldown cfg now server (al_metric alert) (alerted_server alert s).2) as Hr1.
  destruct (within_cooldown _ _ _ _ _) as [r s2]. cbn in Hr1.
  assert (reads_only (st_alert_webhook_identity_channel cfg) (st_alert_webhook_identity_account cfg) s.1 s2.1)
    as Hs2 by (etrans; [by apply Hsame|exact Hr1]).
  destruct Hcase as [(_ & _ & ->)|(_ & _ & ->)]; [exact Hs2|].
  etrans; [exact Hs2|]. apply alert_reads_investigate.
Qed.
End rationed.

(** an alert whose text is no format string is lost: its cooldown has been used up, no
    investigation is made, and the exception goes to the caller *)
Theorem malformed_alert_is_lost {X B} `{GatewayClient X, LLMProvider X, AgentRuntime X, DigestPublisher X}
    `{RateLimitBackend B} `{FieldFormatter} cfg now alert (s : Desk X * B) key e :
  started cfg now alert s = Some key →
  (∀ id, py_format "server_id" id (build_problem_statement alert) = Err e) →
  (handle_alert cfg now alert s).1 = Err e ∧
  dk_trace (handle_alert cfg now alert s).2.1 = dk_trace s.1.
Proof.
  intros Hs He. pose proof (handle_alert_cases cfg now alert s) as Hcases. cbv zeta in Hcases.
  destruct (alerted_server_quiet alert s) as (_ & Ht & _).
  destruct Hcases as [[Hn _]|[[Hn _]|(server & Ea & Hcase)]]; [congruence..|].
  assert (∀ s1 : Desk X * B, dk_trace (within_cooldown cfg now server (al_metric alert) s1).2.1 = dk_trace s1.1) as Hw.
  { intros s1. unfold within_cooldown, on_cooldown.
    destruct (0 <? _)%Z; [by destruct (increment_and_check _ _ _ _ _)|done]. }
  specialize (Hw (alerted_server alert s).2).
  destruct (within_cooldown _ _ _ _ _) as [r s2].
  destruct Hcase as [(Hn & _)|(_ & _ & ->)]; [congruence|].
  unfold investigate_alert, mbind, M_bind, lift_res. rewrite He. cbn in Hw |- *. by rewrite Hw.
Qed.

(** *** Alerts to handle *)

#[export] Instance no_field_formatter : FieldFormatter.
Proof. by refine {| format_field _ _ := Err (PyError "ValueError" "") |}. Defined.

Definition disk_alert (message : string) : AlertPayload := {|
  al_server := "DB-1"; al_metric := "disk"; al_current_value := "97%"; al_threshold := "90%";
  al_severity := "high"; al_source := "grafana"; al_message := message |}.
Definition alert_settings : Settings := script_settings <| st_alert_webhook_slack_channel := "C1" |>.
Definition alert_desk : Desk Script * InMemoryBuckets :=
  (mk_desk ∅ (kill_script <| sc_servers := [script_server "db1" "active"] |>) [], {| im_buckets := ∅ |}).
Definition three_alerts : list (Z * AlertPayload) :=
  [(0%Z, disk_alert "disk is full"); (100%Z, disk_alert "disk is full"); (900%Z, disk_alert "still")].

Example malformed_alert_ex :
  (handle_alert alert_settings 0 (disk_alert "{used: 97}") alert_desk).1 = Err (PyError "KeyError" "used").
Proof. vm_compute. reflexivity. Qed.

Lemma alerts_are_rationed_reads_witness :
  starts_of "alert-cooldown:db1:disk" (alert_starts alert_settings three_alerts alert_desk) = [0; 900]%Z ∧
  spaced 900 (starts_of "alert-cooldown:db1:disk" (alert_starts alert_settings three_alerts alert_desk)).
Proof.
  split; [vm_compute; reflexivity|].
  apply (proj2 (alerts_are_rationed_reads alert_settings eq_refl) three_alerts alert_desk).
  intros key c t. cbn. by rewrite lookup_empty.
Defined.
