(* ===== verification/ToolClient.v ===== *)
(** [agent/tool_client.py]: the Agent's client of the Gateway over HTTP.  A request is a
    [Route] with its typed body, sent with a fresh service token; the transport is the
    class [GatewayHttp].  [tool_client] discharges the interface [GatewayClient] of
    AgentApi.v from it. *)
From S2P Require Import Prelude ProgramLogic Json Models ToolCatalog Servers Policy Approval.
From S2P Require Import Gateway Identity Endpoints Investigations Conversation AgentApi.

(* ------------------------------------------------------------------ *)
(** ** Requests and replies *)

(** what the client asks, indexed by what a successful body is decoded to *)
Inductive Route : Type → Type :=
| GetTools (channel account : string) : Route (list OfferedTool)
| GetServers : Route (list ServerSummary)
| GetServerCatalog (server_id : string) : Route (string * option ServerCatalog)
| PostRefresh (channel account : string) : Route (list (string * string))
| PostRefreshServer (server_id channel account : string) : Route RefreshedOne
| PostToolCall (body : ToolCallRequest) : Route ToolCallResponse
| PostApprove (approval_id channel account : string) : Route ApprovalAnswer
| PostReject (approval_id channel account : string) : Route ApprovalAnswer
| PostInvestigation (body : InvestigationCreate) : Route unit
| PatchInvestigation (investigation_id : string) (body : InvestigationUpdate) : Route unit
| PostInvestigationEvent (investigation_id event_type : string) (payload : list (string * json))
    : Route unit
| GetMemory (server_id : string) (exclude_investigation_id : option string) (limit : Z)
    : Route (list MemoryEntry)
| GetCorrelate (playbook_id : string) (environment exclude_server_id : option string) (limit : Z)
    : Route (list MemoryEntry)
| PostDecisionEvent (body : DecisionEventRequest) : Route unit.

Inductive HttpMethod : Type := GET | HEAD | POST | PATCH.

(** the method and the path, and the timeout where the client sets one, in seconds *)
Definition route_line {A} (r : Route A) : HttpMethod * string :=
  match r with
  | GetTools _ _ => (GET, "/v1/tools")
  | GetServers => (GET, "/v1/catalog/servers")
  | GetServerCatalog id => (GET, "/v1/catalog/servers/" +:+ id)
  | PostRefresh _ _ => (POST, "/v1/catalog/refresh")
  | PostRefreshServer id _ _ => (POST, "/v1/catalog/refresh" +:+ ("/" +:+ id))
  | PostToolCall _ => (POST, "/v1/tool-calls")
  | PostApprove id _ _ => (POST, "/v1/approvals/" +:+ id +:+ "/approve")
  | PostReject id _ _ => (POST, "/v1/approvals/" +:+ id +:+ "/reject")
  | PostInvestigation _ => (POST, "/v1/investigations")
  | PatchInvestigation id _ => (PATCH, "/v1/investigations/" +:+ id)
  | PostInvestigationEvent id _ _ => (POST, "/v1/investigations/" +:+ id +:+ "/events")
  | GetMemory id _ _ => (GET, "/v1/investigations/memory/" +:+ id)
  | GetCorrelate _ _ _ _ => (GET, "/v1/investigations/correlate")
  | PostDecisionEvent _ => (POST, "/v1/decision-events")
  end.

Definition SUBMIT_TIMEOUT_SECONDS : Z := 15.
Definition route_timeout {A} (r : Route A) : option Z :=
  match r with
  | PostToolCall _ => Some SUBMIT_TIMEOUT_SECONDS
  | PostRefresh _ _ | PostRefreshServer _ _ _ => Some 300%Z
  | _ => None
  end.

(** the query, without the parameters that are [None] *)
Definition some_params (l : list (string * option json)) : list (string * json) :=
  omap (λ kv, (λ v, (kv.1, v)) <$> kv.2) l.
Definition memory_params (exclude_investigation_id : option string) (limit : Z)
    : list (string * json) :=
  some_params [("exclude_investigation_id", JStr <$> exclude_investigation_id);
               ("limit", Some (JInt limit))].
Definition pattern_params (playbook_id : string) (environment exclude_server_id : option string)
    (limit : Z) : list (string * json) :=
  some_params [("playbook_id", Some (JStr playbook_id)); ("environment", JStr <$> environment);
               ("exclude_server_id", JStr <$> exclude_server_id); ("limit", Some (JInt limit))].
Definition route_params {A} (r : Route A) : list (string * json) :=
  match r with
  | GetTools channel account => [("channel", JStr channel); ("channel_account_id", JStr account)]
  | GetMemory _ ex limit => memory_params ex limit
  | GetCorrelate pb env ex limit => pattern_params pb env ex limit
  | _ => []
  end.

(** a response: [response.json()] decoded, or what decoding raises; its ["detail"], if
    any; and the message [raise_for_status] gives *)
Record HttpReply (A : Type) : Type := {
  hr_status : Z;
  hr_json : res exn A;
  hr_detail : res exn (option string);
  hr_status_message : string
}.
Arguments hr_status {A}. Arguments hr_json {A}. Arguments hr_detail {A}.
Arguments hr_status_message {A}.

(** httpx: a reply, or the exception of the transport; and the clock of the tokens *)
Class GatewayHttp (X : Type) `{TimedSerializer} : Type := {
  http_send : ∀ {A}, Route A → ts_token → M X exn (HttpReply A);
  token_seconds : X → Z
}.

(** [raise_for_status] of httpx: only 2xx passes *)
Definition raise_for_status {A} (reply : HttpReply A) : res exn unit :=
  if (200 <=? hr_status reply)%Z && (hr_status reply <=? 299)%Z then Ok tt
  else Err (PyError "HTTPStatusError" (hr_status_message reply)).

(* ------------------------------------------------------------------ *)
(** ** The client *)

Section client.
Context {X : Type} `{GatewayHttp X}.
Context (secret issuer : string).

(** [_headers] *)
Definition headers : M X exn ts_token := λ x,
  (Ok (issue_token secret issuer (token_seconds x) "agent" "numi-gateway"), x).

Definition send {A} (r : Route A) : M X exn (HttpReply A) :=
  token ← headers; http_send r token.

(** a call whose body is the result *)
Definition fetch {A} (r : Route A) : M X exn A :=
  reply ← send r; _ ← lift_res (raise_for_status reply); lift_res (hr_json reply).

Definition available_tools (channel channel_account_id : string) : M X exn (list OfferedTool) :=
  fetch (GetTools channel channel_account_id).
Definition tc_list_servers : M X exn (list ServerSummary) := fetch GetServers.

(** [{}] is [None] *)
Definition tc_get_server_catalog (server_id : string)
    : M X exn (option (string * option ServerCatalog)) :=
  reply ← send (GetServerCatalog server_id);
  if (hr_status reply =? 404)%Z then mret None
  else _ ← lift_res (raise_for_status reply); body ← lift_res (hr_json reply); mret (Some body).

(** [{"status": "ERROR", "detail": ...}] on a status of 400 or more *)
Definition detail_or_body {A} (reply : HttpReply A) : M X exn (string + A) :=
  if (400 <=? hr_status reply)%Z then
    detail ← lift_res (hr_detail reply); mret (inl (default "error" detail))
  else body ← lift_res (hr_json reply); mret (inr body).

(** [refresh_catalog], with a server and without *)
Definition refresh_server_catalog (channel channel_account_id server_id : string)
    : M X exn (string + RefreshedOne) :=
  send (PostRefreshServer server_id channel channel_account_id) ≫= detail_or_body.
Definition refresh_whole_catalog (channel channel_account_id : string)
    : M X exn (string + list (string * string)) :=
  send (PostRefresh channel channel_account_id) ≫= detail_or_body.

Definition tc_submit (request : ToolCallRequest) : M X exn ToolCallResponse :=
  fetch (PostToolCall request).

Definition answer_or_error (r : Route ApprovalAnswer) : M X exn ApprovalAnswer :=
  answer ← send r ≫= detail_or_body;
  mret (match answer with
        | inl detail => {| aa_status := "ERROR"; aa_detail := detail |}
        | inr a => a
        end).
Definition tc_approve (approval_id channel channel_account_id : string) : M X exn ApprovalAnswer :=
  answer_or_error (PostApprove approval_id channel channel_account_id).
Definition tc_reject (approval_id channel channel_account_id : string) : M X exn ApprovalAnswer :=
  answer_or_error (PostReject approval_id channel channel_account_id).

(** *** Best effort: an exception gives [otherwise] *)

Definition best_effort {A} (otherwise : A) (m : M X exn A) : X → A * X := λ x,
  match m x with
  | (Ok a, x) => (a, x)
  | (Err _, x) => (otherwise, x)
  end.
Definition post_and_forget (r : Route unit) : X → X := λ x,
  (best_effort tt (reply ← send r; lift_res (raise_for_status reply)) x).2.

Definition tc_create_investigation (request : InvestigationCreate) : X → X :=
  post_and_forget (PostInvestigation request).
Definition tc_update_investigation (investigation_id : string) (request : InvestigationUpdate)
    : X → X :=
  post_and_forget (PatchInvestigation investigation_id request).
Definition append_investigation_event (investigation_id event_type : string)
    (payload : list (string * json)) : X → X :=
  post_and_forget (PostInvestigationEvent investigation_id event_type payload).
Definition tc_get_investigation_memory (server_id : string)
    (exclude_investigation_id : option string) (limit : Z) : X → list MemoryEntry * X :=
  best_effort [] (fetch (GetMemory server_id exclude_investigation_id limit)).
Definition tc_get_cross_server_patterns (playbook_id : string)
    (environment exclude_server_id : option string) (limit : Z) : X → list MemoryEntry * X :=
  best_effort [] (fetch (GetCorrelate playbook_id environment exclude_server_id limit)).
Definition tc_log_decision_event (request : DecisionEventRequest) : X → X :=
  post_and_forget (PostDecisionEvent request).

(** the interface the orchestrator is proved against *)
Definition tool_client : GatewayClient X := {|
  gc_available_tools := available_tools;
  gc_list_servers := tc_list_servers;
  gc_get_server_catalog := tc_get_server_catalog;
  gc_refresh_one := refresh_server_catalog;
  gc_refresh_all := refresh_whole_catalog;
  gc_submit := tc_submit;
  gc_approve := tc_approve;
  gc_reject := tc_reject;
  gc_create_investigation := tc_create_investigation;
  gc_update_investigation := tc_update_investigation;
  gc_get_investigation_memory server_id exclude limit :=
    tc_get_investigation_memory server_id (Some exclude) limit;
  gc_get_cross_server_patterns playbook_id environment exclude :=
    tc_get_cross_server_patterns playbook_id environment exclude 5;
  gc_log_decision_event := tc_log_decision_event
|}.
End client.
