(* ===== verification/Channels.v ===== *)
(** The Channels service: [channels/slack], [channels/teams], [channels/alerts] and the
    handlers of [channels/api/app.py].  The Agent is the class [AgentService], Slack and Teams
    are the class [MessagingApi]; HMAC, JSON parsing and JWT verification are parameters.  What the
    service does is recorded in a trace.  Times are in microseconds. *)
From S2P Require Import Prelude ProgramLogic Json Text Models Servers Policy Identity.
From S2P Require Import ToolCatalog Approval Gateway Endpoints Investigations Fallback Conversation Config.

(* ------------------------------------------------------------------ *)
(** ** Signatures *)

(** [hmac.new(key, message, sha256).hexdigest()] *)
Class Hmac : Type := { hmac_sha256_hex : string → string → string }.

Definition SECOND : Z := 1000000.
Definition MAX_CLOCK_SKEW_SECONDS : Z := 300.

Section signatures.
Context `{Hmac}.

Definition is_ascii (c : ascii) : bool := (Ascii.N_of_ascii c <? 128)%N.
(** what both schemes share: [hmac.compare_digest] takes ASCII texts only:
    a fresh timestamp, then the expected signature *)
Definition fresh_and_signed (error : string → exn) (expected : string → string)
    (timestamp_header signature_header : string) (now : Z) : res exn unit :=
  match py_int timestamp_header with
  | None => Err (error "Invalid timestamp header.")
  | Some ts =>
      if (MAX_CLOCK_SKEW_SECONDS * SECOND <? Z.abs (now - ts * SECOND))%Z
      then Err (error "Request timestamp is too old or too far in the future.")
      else if negb (str_all is_ascii signature_header) then
        Err (PyError "TypeError" "comparing strings with non-ASCII characters is not supported")
      else if bool_decide (expected timestamp_header = signature_header) then Ok tt
      else Err (error "Signature mismatch.")
  end.

(** [verify_slack_signature] *)
Definition slack_signature (signing_secret body timestamp : string) : string :=
  "v0=" +:+ hmac_sha256_hex signing_secret ("v0:" +:+ timestamp +:+ ":" +:+ body).
Definition verify_slack_signature (signing_secret body : string)
    (timestamp_header signature_header : option string) (now : Z) : res exn unit :=
  let error := PyError "SlackSignatureError" in
  if negb (opt_truthy timestamp_header) || negb (opt_truthy signature_header) then
    Err (error "Missing Slack signature headers.")
  else fresh_and_signed error (slack_signature signing_secret body) (default "" timestamp_header)
         (default "" signature_header) now.

(** [verify_alert_signature] *)
Definition alert_signature (secret body timestamp : string) : string :=
  "sha256=" +:+ hmac_sha256_hex secret (timestamp +:+ "." +:+ body).
Definition verify_alert_signature (secret body : string)
    (timestamp_header signature_header : option string) (now : Z) : res exn unit :=
  let error := PyError "AlertSignatureError" in
  if negb (truthy secret) then Err (error "Alert webhook is not configured (no secret set).")
  else if negb (opt_truthy timestamp_header) || negb (opt_truthy signature_header) then
    Err (error "Missing alert signature headers.")
  else fresh_and_signed error (alert_signature secret body) (default "" timestamp_header)
         (default "" signature_header) now.
End signatures.

(** *** Teams: bearer tokens *)

(** [jwt.decode] with the key, algorithm and issuer of the Bot Framework: the [appid] claim *)
Class BotFramework : Type := { jwt_appid : string → string → res exn string }.

Definition bot_bearer_token (authorization_header : option string) : res exn string :=
  match authorization_header with
  | Some h => if starts_with "Bearer " h then Ok (str_strip (String.substring 7 (String.length h) h))
              else Err (PyError "TeamsAuthError" "Missing bearer token.")
  | None => Err (PyError "TeamsAuthError" "Missing bearer token.")
  end.
(** [BotFrameworkJWTVerifier.verify] and [DevTeamsAuthVerifier.verify] *)
Definition bot_framework_verify `{BotFramework} (app_id : string) (authorization_header : option string)
    : res exn string :=
  token ← bot_bearer_token authorization_header;
  match jwt_appid token app_id with
  | Ok appid => Ok appid
  | Err e => Err (PyError "TeamsAuthError" ("Teams bot token validation failed: " +:+ exn_text e))
  end.
Definition dev_teams_verify (dev_shared_token : string) (authorization_header : option string)
    : res exn string :=
  token ← bot_bearer_token authorization_header;
  if negb (truthy dev_shared_token) || negb (bool_decide (token = dev_shared_token)) then
    Err (PyError "TeamsAuthError" "Invalid development bot token.")
  else Ok "dev-bot".
Definition teams_verify `{BotFramework} (cfg : Settings) : option string → res exn string :=
  if is_production cfg then bot_framework_verify (st_teams_app_id cfg)
  else dev_teams_verify (st_teams_app_password cfg).

(* ------------------------------------------------------------------ *)
(** ** Deliveries already seen *)

Definition SEEN_EVENT_TTL : Z := 300 * SECOND.

(** [_slack_event_already_seen] and [_alert_already_seen]: an id without a value is never seen;
    old ids are forgotten first *)
Definition already_seen (now : Z) (id : option string) (seen : list (string * Z))
    : bool * list (string * Z) :=
  if negb (opt_truthy id) then (false, seen)
  else
    let id := default "" id in
    let seen := List.filter (λ kv, negb (SEEN_EVENT_TTL <? now - kv.2)%Z) seen in
    match dict_get id seen with
    | Some _ => (true, seen)
    | None => (false, dict_set id now seen)
    end.

(* ------------------------------------------------------------------ *)
(** ** Rendering *)

Definition markdown_section (text : string) : json :=
  JObj [("type", JStr "section"); ("text", JObj [("type", JStr "mrkdwn"); ("text", JStr text)])].
Definition card_text (card : ApprovalCard) : string :=
  "*AI DBA ACTION REQUIRES APPROVAL*" +:+ String newline "*Operation:* `" +:+ card_tool_id card
  +:+ "`" +:+ String newline "*Target:* " +:+ card_target_summary card
  +:+ String newline "*Reason:* " +:+ card_reason card
  +:+ String newline "*Risk:* " +:+ card_risk_level card
  +:+ String newline "*Blast radius:* " +:+ card_blast_radius card
  +:+ String newline "*Expires in:* " +:+ pretty (card_expires_in_seconds card / 60)%Z +:+ " minutes".
Definition approval_block_id (approval_id : string) : string := "numi_approval_" +:+ approval_id.
Definition approval_button (style text action_id approval_id : string) : json :=
  JObj [("type", JStr "button"); ("style", JStr style);
        ("text", JObj [("type", JStr "plain_text"); ("text", JStr text)]);
        ("action_id", JStr action_id); ("value", JStr approval_id)].

(** [render_reply_blocks] *)
Definition render_reply_blocks (reply : AgentReply) : list json :=
  markdown_section (rp_text reply) ::
  match rp_approval_card reply with
  | None => []
  | Some card =>
      [JObj [("type", JStr "divider")]; markdown_section (card_text card);
       JObj [("type", JStr "actions"); ("block_id", JStr (approval_block_id (card_approval_id card)));
             ("elements", JArr [approval_button "primary" "Approve" "numi_approve" (card_approval_id card);
                                approval_button "danger" "Reject" "numi_reject" (card_approval_id card)])]]
  end.

(** [resolve_approval_blocks] *)
Definition resolved_line (decision decided_by : string) : json :=
  let approved := bool_decide (decision = "approve") in
  JObj [("type", JStr "context");
        ("elements", JArr [JObj [("type", JStr "mrkdwn");
           ("text", JStr ((if approved then "✅" else "❌") +:+ " *"
                          +:+ (if approved then "Approved" else "Rejected") +:+ "* by " +:+ decided_by))]])].
Definition block_key (k : string) (block : json) : option json :=
  match block with JObj d => dict_get k d | _ => None end.
Definition resolve_approval_blocks (original_blocks : list json) (approval_id decision decided_by : string)
    : list json :=
  map (λ block, if bool_decide (block_key "block_id" block = Some (JStr (approval_block_id approval_id)))
                then resolved_line decision decided_by else block) original_blocks.

(** [render_reply_card] *)
Definition fact (title value : string) : json := JObj [("title", JStr title); ("value", JStr value)].
Definition card_action (title action approval_id : string) : json :=
  JObj [("type", JStr "Action.Submit"); ("title", JStr title);
        ("data", JObj [("numi_action", JStr action); ("approval_id", JStr approval_id)])].
Definition render_reply_card (reply : AgentReply) : json :=
  JObj [("type", JStr "AdaptiveCard");
        ("$schema", JStr "http://adaptivecards.io/schemas/adaptive-card.json");
        ("version", JStr "1.4");
        ("body", JArr (JObj [("type", JStr "TextBlock"); ("text", JStr (rp_text reply)); ("wrap", JBool true)] ::
           match rp_approval_card reply with
           | None => []
           | Some card =>
               [JObj [("type", JStr "TextBlock"); ("text", JStr "AI DBA ACTION REQUIRES APPROVAL");
                      ("weight", JStr "bolder")];
                JObj [("type", JStr "FactSet");
                      ("facts", JArr [fact "Operation" (card_tool_id card);
                         fact "Target" (card_target_summary card); fact "Reason" (card_reason card);
                         fact "Risk" (card_risk_level card); fact "Blast radius" (card_blast_radius card);
                         fact "Expires in" (pretty (card_expires_in_seconds card / 60)%Z +:+ " minutes")])]]
           end));
        ("actions", JArr match rp_approval_card reply with
           | None => []
           | Some card => [card_action "Approve" "approve" (card_approval_id card);
                           card_action "Reject" "reject" (card_approval_id card)]
           end)].

(* ------------------------------------------------------------------ *)
(** ** Reading a payload *)

Definition dict : Type := list (string * json).
Definition attribute_error : exn := PyError "AttributeError" "get".
(** a value used as a dict, and [d.get(k, {})] used as one *)
Definition as_dict (v : json) : res exn dict :=
  match v with JObj d => Ok d | _ => Err attribute_error end.
Definition sub_dict (k : string) (d : dict) : res exn dict :=
  match dict_get k d with None => Ok [] | Some v => as_dict v end.
(** [d.get(k)] and [d.get(k, default)] for a value used as a text.  A value of another type
    is an error here; in the code it is one where the text is first used. *)
Definition not_a_text : exn := PyError "TypeError" "not a text".
Definition text_or_none (k : string) (d : dict) : res exn (option string) :=
  match dict_get k d with
  | None | Some JNull => Ok None
  | Some (JStr s) => Ok (Some s)
  | Some _ => Err not_a_text
  end.
Definition text_field (k default : string) (d : dict) : res exn string :=
  match dict_get k d with
  | None => Ok default
  | Some (JStr s) => Ok s
  | Some _ => Err not_a_text
  end.
(** [d[k]] for a value used as a text *)
Definition required_text (k : string) (d : dict) : res exn string :=
  match dict_get k d with
  | None => Err (PyError "KeyError" k)
  | Some (JStr s) => Ok s
  | Some _ => Err not_a_text
  end.
Definition field_truthy (k : string) (d : dict) : bool :=
  match dict_get k d with Some v => json_truthy v | None => false end.

(* ------------------------------------------------------------------ *)
(** ** The services it talks to *)

Record ChatRequest : Type := {
  cq_channel : string;
  cq_channel_account_id : string;
  cq_conversation_id : string;
  cq_channel_thread_id : string;
  cq_message : string
}.
Record ApprovalEventRequest : Type := {
  aq_channel : string;
  aq_channel_account_id : string;
  aq_conversation_id : string;
  aq_approval_id : string;
  aq_decision : string
}.
Record AlertTriggerRequest : Type := {
  ar_server : string;
  ar_metric : string;
  ar_current_value : string;
  ar_threshold : string;
  ar_severity : string;
  ar_source : string;
  ar_message : string
}.
Record AlertTriggerResponse : Type := { an_ok : bool; an_error : string }.

(** the Agent's three routes, with the service token; a status other than 200 raises *)
Class AgentService (X : Type) `{TimedSerializer} : Type := {
  post_chat : ts_token → ChatRequest → M X exn AgentReply;
  post_chat_event : ts_token → ApprovalEventRequest → M X exn AgentReply;
  post_alert_trigger : ts_token → AlertTriggerRequest → M X exn AlertTriggerResponse
}.
(** [chat.postMessage] and [chat.update] of Slack, and a reply to a Teams activity *)
Class MessagingApi (X : Type) : Type := {
  slack_chat_post : string → string → list json → M X exn unit;
  slack_chat_update : string → string → string → list json → M X exn unit;
  teams_post_activity : string → string → string → string → json → M X exn unit
}.

Inductive ChannelEvent : Type :=
| CeChat (request : ChatRequest)
| CeDecision (request : ApprovalEventRequest)
| CeAlert (request : AlertTriggerRequest)
| CePost (channel text : string) (blocks : list json)
| CeUpdate (channel ts text : string) (blocks : list json)
| CeTeamsReply (conversation_id : string) (card : json).

(** the identity provider, the deliveries seen, and the rest of the world *)
Record Channels (P X : Type) : Type := mk_channels {
  cn_identity : P;
  cn_slack_seen : list (string * Z);
  cn_alerts_seen : list (string * Z);
  cn_world : X;
  cn_trace : list ChannelEvent
}.
Arguments mk_channels {P X}. Arguments cn_identity {P X}. Arguments cn_slack_seen {P X}.
Arguments cn_alerts_seen {P X}. Arguments cn_world {P X}. Arguments cn_trace {P X}.

#[export] Instance Channels_rebuild {P X} : Rebuild (Channels P X) := λ c, {|
  cn_identity := cn_identity c; cn_slack_seen := cn_slack_seen c;
  cn_alerts_seen := cn_alerts_seen c; cn_world := cn_world c; cn_trace := cn_trace c |}.

(** [DevChatRequest], [NotifyRequest] *)
Record DevChatRequest : Type := { dq_user : string; dq_message : string; dq_conversation_id : string }.
Record NotifyRequest : Type := { nq_channel_id : string; nq_text : string }.

(** a field of a form: a text or an uploaded file *)
Inductive FormValue : Type := FormText (s : string) | FormFile.

(* ------------------------------------------------------------------ *)
(** ** api/app.py *)

(** [_slack_conversation_id] *)
Definition slack_conversation_id (channel slack_user_id thread_ts : string) : string :=
  "slack:" +:+ channel +:+ ":" +:+ (if truthy thread_ts then thread_ts else slack_user_id).

Definition OK_BODY : json := JObj [("ok", JBool true)].
Definition text_body (text : string) : json := JObj [("type", JStr "message"); ("text", JStr text)].
Definition NOT_RECOGNIZED : string := "This account isn't recognized as a DBA team member.".
Definition SORRY_NOT_RECOGNIZED : string :=
  "Sorry, this account isn't recognized as a DBA team member.".

Section channels_app.
Context {P X : Type} `{IdentityProvider P} `{TimedSerializer} `{!AgentService X} `{MessagingApi X}.
Context `{Hmac} `{BotFramework}.
(** [json.loads], which raises a [JSONDecodeError] on a malformed text and may raise others (on
    bytes that are no UTF-8, on an integer with too many digits, on deep nesting), and the
    printing of numbers *)
Context (json_loads : string → res exn json) (py_repr : json → string).
Context (cfg : Settings).
(** the clocks of a request: [time.time] and [time.monotonic], in microseconds *)
Context (now monotonic : Z).

Definition from_service {A} (m : M X exn A) : M (Channels P X) http_error A := λ s,
  let '(r, x) := m (cn_world s) in
  (match r with Ok a => Ok a | Err e => Err (Unhandled e) end, s <| cn_world := x |>).
Definition from_value {A} (r : res exn A) : M (Channels P X) http_error A :=
  match r with Ok a => mret a | Err e => raise (Unhandled e) end.
Definition note_event (e : ChannelEvent) : M (Channels P X) http_error unit :=
  modify (λ s, s <| cn_trace ::= λ t, t ++ [e] |>).

Definition identify (channel account : string)
    : M (Channels P X) http_error (option VerifiedIdentity) := λ s,
  let '(r, p) := resolve_by_external_account channel account (cn_identity s) in
  (match r with Ok i => Ok i | Err e => Err (Unhandled e) end, s <| cn_identity := p |>).
(** a known member of the DBA team *)
Definition dba (identity : option VerifiedIdentity) : option VerifiedIdentity :=
  match identity with Some i => if is_dba i then Some i else None | None => None end.

(** the token of a call to the Agent *)
Definition call_token : ts_token :=
  issue_token (st_service_jwt_secret cfg) (st_service_jwt_issuer cfg) (now / SECOND) "channels"
    "numi-agent".
(** [_call_agent_chat], [_call_agent_event] and [_call_agent_alert_trigger], with the
    validation of the reply *)
Definition call_agent_chat (request : ChatRequest) : M (Channels P X) http_error AgentReply :=
  _ ← note_event (CeChat request); from_service (post_chat call_token request).
Definition call_agent_event (request : ApprovalEventRequest)
    : M (Channels P X) http_error AgentReply :=
  _ ← note_event (CeDecision request); from_service (post_chat_event call_token request).
Definition call_agent_alert_trigger (request : AlertTriggerRequest)
    : M (Channels P X) http_error AlertTriggerResponse :=
  _ ← note_event (CeAlert request); from_service (post_alert_trigger call_token request).

(** [SlackMessageSender]: without a bot token a message is only logged *)
Definition post_message (channel text : string) (blocks : list json)
    : M (Channels P X) http_error unit :=
  if negb (truthy (st_slack_bot_token cfg)) then mret tt
  else _ ← note_event (CePost channel text blocks); from_service (slack_chat_post channel text blocks).
Definition update_message (channel ts text : string) (blocks : list json)
    : M (Channels P X) http_error unit :=
  if negb (truthy (st_slack_bot_token cfg)) then mret tt
  else _ ← note_event (CeUpdate channel ts text blocks);
       from_service (slack_chat_update channel ts text blocks).
(** [TeamsMessageSender] with [_no_connector_token] *)
Definition no_connector_token : option string := None.
Definition send_reply_to_activity (activity : dict) (conversation_id : string) (card : json)
    : M (Channels P X) http_error unit :=
  match no_connector_token with
  | Some token =>
      if truthy token then
        service_url ← from_value (text_field "serviceUrl" "" activity);
        activity_id ← from_value (text_field "id" "" activity);
        _ ← note_event (CeTeamsReply conversation_id card);
        from_service (teams_post_activity token service_url conversation_id activity_id card)
      else mret tt
  | None => mret tt
  end.

(** [_slack_event_already_seen], [_alert_already_seen] *)
Definition slack_event_already_seen (id : option string) : M (Channels P X) http_error bool := λ s,
  let '(b, seen) := already_seen monotonic id (cn_slack_seen s) in
  (Ok b, s <| cn_slack_seen := seen |>).
Definition alert_already_seen (id : option string) : M (Channels P X) http_error bool := λ s,
  let '(b, seen) := already_seen monotonic id (cn_alerts_seen s) in
  (Ok b, s <| cn_alerts_seen := seen |>).

(** [verifier.verify] failing as the handlers catch it: the named exception is a 401 *)
Definition or_401 (kind detail : string) (r : res exn unit) : M (Channels P X) http_error unit :=
  match r with
  | Ok _ => mret tt
  | Err (PyError k t) => if bool_decide (k = kind) then raise (HTTPException 401 detail)
                         else raise (Unhandled (PyError k t))
  | Err e => raise (Unhandled e)
  end.
(** [json.loads(raw_body or b"{}")] *)
Definition loads (raw_body : string) : res exn json := json_loads (if truthy raw_body then raw_body else "{}").

(** *** Slack *)

(** [event["channel"]] *)
Definition channel_of (event : dict) : res exn string := required_text "channel" event.

(** an [event_callback] that was not delivered before *)
Definition slack_event (event : dict) : M (Channels P X) http_error json :=
  slack_user_id ← from_value (text_or_none "user" event);
  if negb (bool_decide (dict_get "type" event = Some (JStr "message")))
     || field_truthy "bot_id" event || negb (opt_truthy slack_user_id)
  then mret OK_BODY
  else
    let user := default "" slack_user_id in
    identity ← identify "slack" user;
    match dba identity with
    | None =>
        channel ← from_value (channel_of event);
        _ ← post_message channel SORRY_NOT_RECOGNIZED [];
        mret OK_BODY
    | Some _ =>
        channel ← from_value (text_field "channel" "" event);
        thread_ts ← from_value (text_field "thread_ts" "" event);
        thread ← from_value (match dict_get "thread_ts" event with
                             | Some _ => text_field "thread_ts" "" event
                             | None => text_field "ts" "" event
                             end);
        text ← from_value (text_field "text" "" event);
        reply ← call_agent_chat {|
          cq_channel := "slack"; cq_channel_account_id := user;
          cq_conversation_id := slack_conversation_id channel user thread_ts;
          cq_channel_thread_id := thread; cq_message := text |};
        channel ← from_value (channel_of event);
        _ ← post_message channel (rp_text reply) (render_reply_blocks reply);
        mret OK_BODY
    end.

(** [slack_webhook] *)
Definition slack_webhook (raw_body : string) (timestamp signature : option string)
    : M (Channels P X) http_error json :=
  _ ← or_401 "SlackSignatureError" "Invalid Slack signature."
        (verify_slack_signature (st_slack_signing_secret cfg) raw_body timestamp signature now);
  payload ← from_value (v ← loads raw_body; as_dict v);
  if bool_decide (dict_get "type" payload = Some (JStr "url_verification")) then
    mret (JObj [("challenge", default (JStr "") (dict_get "challenge" payload))])
  else if bool_decide (dict_get "type" payload = Some (JStr "event_callback")) then
    event_id ← from_value (text_or_none "event_id" payload);
    seen ← slack_event_already_seen event_id;
    if seen : bool then mret OK_BODY
    else event ← from_value (sub_dict "event" payload); slack_event event
  else mret OK_BODY.

(** what collapses the buttons of a decided card; a failure is logged *)
Definition collapse_card (channel_id approval_id decision : string) (identity : VerifiedIdentity)
    (message : dict) : M (Channels P X) http_error unit :=
  match dict_get "blocks" message with
  | Some (JArr blocks) =>
      if forallb (λ b, match b with JObj _ => true | _ => false end) blocks then
        try_except
          (ts ← from_value (text_field "ts" "" message);
           text ← from_value (text_field "text" "" message);
           update_message channel_id ts text
             (resolve_approval_blocks blocks approval_id decision (vi_display_name identity)))
          (λ _, mret tt)
      else mret tt
  | _ => mret tt
  end.

(** the thread of a card: [container]'s, or [message]'s *)
Definition card_thread (payload : dict) : res exn string :=
  container ← sub_dict "container" payload;
  if field_truthy "thread_ts" container then text_field "thread_ts" "" container
  else message ← sub_dict "message" payload;
       t ← text_or_none "thread_ts" message; Ok (default "" t).

(** [slack_interactive] *)
Definition slack_interactive (payload_field : option FormValue) : M (Channels P X) http_error json :=
  raw ← match payload_field with
        | None => mret "{}"
        | Some (FormText s) => mret s
        | Some FormFile => raise (HTTPException 400 "Malformed interactive payload.")
        end;
  payload ← from_value (v ← json_loads raw; as_dict v);
  user ← from_value (sub_dict "user" payload);
  user_id ← from_value (text_field "id" "" user);
  if negb (field_truthy "actions" payload) then mret OK_BODY
  else
    action ← from_value (match dict_get "actions" payload with
                         | Some (JArr (a :: _)) => as_dict a
                         | _ => Err attribute_error
                         end);
    approval_id ← from_value (text_or_none "value" action);
    let decision := if bool_decide (dict_get "action_id" action = Some (JStr "numi_approve"))
                    then "approve" else "reject" in
    identity ← identify "slack" user_id;
    match dba identity with
    | None => mret (JObj [("text", JStr NOT_RECOGNIZED)])
    | Some identity =>
        channel ← from_value (sub_dict "channel" payload);
        channel_id ← from_value (text_field "id" "" channel);
        thread_ts ← from_value (card_thread payload);
        approval_id ← from_value (match approval_id with Some a => Ok a | None => Err not_a_text end);
        reply ← call_agent_event {|
          aq_channel := "slack"; aq_channel_account_id := user_id;
          aq_conversation_id := slack_conversation_id channel_id user_id thread_ts;
          aq_approval_id := approval_id; aq_decision := decision |};
        _ ← post_message channel_id (rp_text reply) (render_reply_blocks reply);
        message ← from_value (sub_dict "message" payload);
        _ ← (if field_truthy "ts" message && field_truthy "blocks" message && truthy approval_id
                && negb (rp_approval_still_pending reply)
             then collapse_card channel_id approval_id decision identity message else mret tt);
        mret OK_BODY
    end.

(** *** Teams *)

(** a message of a Teams conversation *)
Definition teams_chat (activity : dict) (account conversation : string)
    : M (Channels P X) http_error AgentReply :=
  text ← from_value (text_field "text" "" activity);
  call_agent_chat {| cq_channel := "teams"; cq_channel_account_id := account;
    cq_conversation_id := "teams:" +:+ conversation; cq_channel_thread_id := conversation;
    cq_message := text |}.
(** what an activity asks of the Agent: the click of a card, or a message *)
Definition teams_reply (activity : dict) (account conversation : string)
    : M (Channels P X) http_error AgentReply :=
  let conversation_id := "teams:" +:+ conversation in
  value ← from_value (if field_truthy "value" activity then sub_dict "value" activity else Ok []);
  match dict_get "numi_action" value with
  | Some (JStr action) =>
      if mem action ["approve"; "reject"] then
        approval_id ← from_value (text_field "approval_id" "" value);
        call_agent_event {| aq_channel := "teams"; aq_channel_account_id := account;
          aq_conversation_id := conversation_id; aq_approval_id := approval_id;
          aq_decision := action |}
      else teams_chat activity account conversation
  | _ => teams_chat activity account conversation
  end.

(** [teams_webhook] *)
Definition teams_webhook (body : string) (authorization : option string)
    : M (Channels P X) http_error json :=
  _ ← or_401 "TeamsAuthError" "Invalid Teams bot token." (_ ← teams_verify cfg authorization; Ok tt);
  activity ← from_value (v ← json_loads body; as_dict v);
  from ← from_value (sub_dict "from" activity);
  account ← from_value (if field_truthy "aadObjectId" from then text_field "aadObjectId" "" from
                        else text_field "id" "" from);
  identity ← identify "teams" account;
  match dba identity with
  | None => mret (text_body SORRY_NOT_RECOGNIZED)
  | Some _ =>
      conversation ← from_value (sub_dict "conversation" activity);
      conversation_id ← from_value (text_field "id" "" conversation);
      reply ← teams_reply activity account conversation_id;
      _ ← send_reply_to_activity activity conversation_id (render_reply_card reply);
      mret (text_body (rp_text reply))
  end.

(** *** Alerts *)

Definition printed_field (k : string) (d : dict) : string :=
  match dict_get k d with Some v => py_str py_repr v | None => "" end.
(** the request to the Agent *)
Definition alert_request (payload : dict) : res exn AlertTriggerRequest :=
  server ← text_field "server" "" payload;
  metric ← text_field "metric" "" payload;
  severity ← text_field "severity" "" payload;
  source ← text_field "source" "" payload;
  message ← text_field "message" "" payload;
  Ok {| ar_server := server; ar_metric := metric;
        ar_current_value := printed_field "current_value" payload;
        ar_threshold := printed_field "threshold" payload;
        ar_severity := severity; ar_source := source; ar_message := message |}.
(** [alerts_webhook] *)
Definition alerts_webhook (raw_body : string) (timestamp signature : option string)
    : M (Channels P X) http_error json :=
  _ ← or_401 "AlertSignatureError" "Invalid alert signature."
        (verify_alert_signature (st_alert_webhook_secret cfg) raw_body timestamp signature now);
  payload ← match loads raw_body with
            | Ok v => from_value (as_dict v)
            | Err (PyError kind text) =>
                if bool_decide (kind = "JSONDecodeError") then raise (HTTPException 400 "Malformed alert payload.")
                else raise (Unhandled (PyError kind text))
            | Err e => raise (Unhandled e)
            end;
  alert_id ← from_value (text_or_none "alert_id" payload);
  seen ← alert_already_seen alert_id;
  if seen : bool then mret OK_BODY
  else if negb (field_truthy "server" payload) then raise (HTTPException 400 "'server' is required.")
  else
    request ← from_value (alert_request payload);
    result ← call_agent_alert_trigger request;
    mret (if an_ok result then OK_BODY
          else JObj [("ok", JBool false); ("error", JStr (an_error result))]).

(** *** The other paths *)

(** [require_agent_service_token] and [notify] *)
Definition notify (token : option ts_token) (body : NotifyRequest) : M (Channels P X) http_error json :=
  match token with
  | None => raise (HTTPException 401 "Missing service token.")
  | Some t =>
      match verify_token (st_service_jwt_secret cfg) (st_service_jwt_issuer cfg) t "numi-channels"
              (now / SECOND) with
      | Err _ => raise (HTTPException 401 "Invalid service token.")
      | Ok _ =>
          let reply := agent_reply (nq_text body) "ok" None in
          _ ← post_message (nq_channel_id body) (rp_text reply) (render_reply_blocks reply);
          mret OK_BODY
      end
  end.

(** [dev_chat]: the reply itself, or the refusal *)
Definition dev_chat (body : DevChatRequest) : M (Channels P X) http_error (string + AgentReply) :=
  identity ← identify "dev" (dq_user body);
  match identity with
  | None => raise (HTTPException 401 "Unknown development user.")
  | Some i =>
      if negb (is_dba i) then mret (inl NOT_RECOGNIZED)
      else
        reply ← call_agent_chat {| cq_channel := "dev"; cq_channel_account_id := dq_user body;
          cq_conversation_id := dq_conversation_id body; cq_channel_thread_id := "";
          cq_message := dq_message body |};
        mret (inr reply)
  end.

(** [dev_chat_event] *)
Definition dev_chat_event (body : dict) : M (Channels P X) http_error AgentReply :=
  user ← from_value (required_text "user" body);
  conversation_id ← from_value (text_field "conversation_id" "dev-conversation" body);
  approval_id ← from_value (required_text "approval_id" body);
  decision ← from_value (required_text "decision" body);
  call_agent_event {| aq_channel := "dev"; aq_channel_account_id := user;
    aq_conversation_id := conversation_id; aq_approval_id := approval_id; aq_decision := decision |}.

(** *** Routing *)

(** the requests the service takes, with the headers their handlers read *)
Inductive Inbound : Type :=
| SlackEvents (raw_body : string) (timestamp signature : option string)
| SlackClick (payload_field : option FormValue)
| TeamsActivity (body : string) (authorization : option string)
| MonitoringAlert (raw_body : string) (timestamp signature : option string)
| Notify (token : option ts_token) (body : NotifyRequest)
| DevChat (body : DevChatRequest)
| DevChatEvent (body : dict).

Definition discard {A} (m : M (Channels P X) http_error A) : M (Channels P X) http_error unit :=
  _ ← m; mret tt.
Definition receive (r : Inbound) : M (Channels P X) http_error unit :=
  match r with
  | SlackEvents raw_body timestamp signature => discard (slack_webhook raw_body timestamp signature)
  | SlackClick payload_field => discard (slack_interactive payload_field)
  | TeamsActivity body authorization => discard (teams_webhook body authorization)
  | MonitoringAlert raw_body timestamp signature => discard (alerts_webhook raw_body timestamp signature)
  | Notify token body => discard (notify token body)
  | DevChat body => discard (dev_chat body)
  | DevChatEvent body => discard (dev_chat_event body)
  end.
End channels_app.
