(* ===== verification/ChannelFacts.v ===== *)
(** What the Channels service promises: the Agent is called at most once per request, after the
    checks of the request's own path, which are not the same on every path; a delivery acts once within its time to
    live; a decided card offers nothing to click. *)
From S2P Require Import Prelude ProgramLogic Json Text Models Servers Policy Identity.
From S2P Require Import ToolCatalog Approval Gateway Endpoints Investigations Fallback Conversation Config.
From S2P Require Import Channels.

(** the calls to the Agent *)
Definition is_agent_call (e : ChannelEvent) : bool :=
  match e with CeChat _ | CeDecision _ | CeAlert _ => true | _ => false end.
Definition agent_calls (t : list ChannelEvent) : list ChannelEvent := List.filter is_agent_call t.
Arguments agent_calls : simpl never.
Lemma agent_calls_app t u : agent_calls (t ++ u) = agent_calls t ++ agent_calls u.
Proof. apply List.filter_app. Qed.

Section reach.
Context {P X : Type} `{IdentityProvider P} `{TimedSerializer} `{!AgentService X} `{MessagingApi X}.
Context `{Hmac} `{BotFramework}.
Context (json_loads : string → res exn json) (py_repr : json → string) (cfg : Settings).

(* ------------------------------------------------------------------ *)
(** ** At most one call *)

(** no call to the Agent, no lookup of an identity *)
Definition silent (s s' : Channels P X) : Prop :=
  agent_calls (cn_trace s') = agent_calls (cn_trace s) ∧ cn_identity s' = cn_identity s.
#[local] Instance silent_preorder : PreOrder silent.
Proof. split; [done|]. intros s t u [A B] [C D]. split; congruence. Qed.

Lemma silent_same s s' : cn_trace s' = cn_trace s → cn_identity s' = cn_identity s → silent s s'.
Proof. by intros Ht Hi; split; [rewrite Ht|]. Qed.
Lemma silent_value {A} (r : res exn A) : preserves silent (from_value (P := P) (X := X) r).
Proof. by destruct r. Qed.
Lemma silent_service {A} (m : M X exn A) : preserves silent (from_service (P := P) m).
Proof. intros s. unfold from_service. destruct (m _). by apply silent_same. Qed.
Lemma silent_note e : is_agent_call e = false → preserves silent (note_event (P := P) (X := X) e).
Proof. intros He s. split; [|done]. cbn. by rewrite agent_calls_app {2}/agent_calls /= He app_nil_r. Qed.
Lemma silent_post channel text blocks : preserves silent (post_message (P := P) cfg channel text blocks).
Proof.
  unfold post_message. destruct (negb _); [done|].
  apply preserves_bind; [apply _|by apply silent_note|intros _; apply silent_service].
Qed.
Lemma silent_update channel ts text blocks :
  preserves silent (update_message (P := P) cfg channel ts text blocks).
Proof.
  unfold update_message. destruct (negb _); [done|].
  apply preserves_bind; [apply _|by apply silent_note|intros _; apply silent_service].
Qed.
Lemma silent_raise {A} (e : http_error) : preserves silent (raise e : M (Channels P X) http_error A).
Proof. by intros s. Qed.
Lemma silent_ret {A} (a : A) : preserves silent (mret a : M (Channels P X) http_error A).
Proof. by intros s. Qed.
Lemma silent_slack_seen monotonic id :
  preserves silent (slack_event_already_seen (P := P) (X := X) monotonic id).
Proof. intros s. unfold slack_event_already_seen. destruct (already_seen _ _ _). by apply silent_same. Qed.
Lemma silent_alert_seen monotonic id :
  preserves silent (alert_already_seen (P := P) (X := X) monotonic id).
Proof. intros s. unfold alert_already_seen. destruct (already_seen _ _ _). by apply silent_same. Qed.
Hint Resolve silent_value silent_service silent_post silent_update silent_raise silent_ret
  silent_slack_seen silent_alert_seen : numi.
Lemma silent_collapse channel_id approval_id decision identity message :
  preserves silent (collapse_card (P := P) cfg channel_id approval_id decision identity message).
Proof. unfold collapse_card. walk. Qed.
Hint Resolve silent_collapse : numi.

(** at most one call, of which [Q] holds with the identity provider as it was *)
Definition one_call {A} (Q : P → ChannelEvent → Prop) (m : M (Channels P X) http_error A) : Prop :=
  ∀ s, ∃ new, agent_calls (cn_trace (m s).2) = agent_calls (cn_trace s) ++ new ∧
    (length new ≤ 1)%nat ∧ Forall (Q (cn_identity s)) new.

Lemma one_call_silent {A} Q (m : M (Channels P X) http_error A) : preserves silent m → one_call Q m.
Proof. intros Hm s. destruct (Hm s) as [-> _]. exists []. rewrite app_nil_r. split_and!; [done|cbn; lia|done]. Qed.
Lemma one_call_weaken {A} (Q Q' : P → ChannelEvent → Prop) (m : M (Channels P X) http_error A) :
  (∀ p e, Q p e → Q' p e) → one_call Q m → one_call Q' m.
Proof.
  intros HQ Hm s. destruct (Hm s) as (new & ? & ? & Hf). exists new. split_and!; [done..|].
  eapply Forall_impl; [exact Hf|]. auto.
Qed.
Lemma one_call_after {A B} Q (m : M (Channels P X) http_error A) (k : A → M (Channels P X) http_error B) :
  preserves silent m → (∀ a, one_call Q (k a)) → one_call Q (m ≫= k).
Proof.
  intros Hm Hk s. destruct (Hm s) as [Ht Hi]. unfold mbind, M_bind.
  destruct (m s) as [[a|e] s']; cbn in *.
  - destruct (Hk a s') as (new & -> & ? & ?). exists new. by rewrite Ht -Hi.
  - exists []. rewrite Ht app_nil_r. split_and!; [done|cbn; lia|done].
Qed.
Lemma one_call_before {A B} Q (m : M (Channels P X) http_error A) (k : A → M (Channels P X) http_error B) :
  one_call Q m → (∀ a, preserves silent (k a)) → one_call Q (m ≫= k).
Proof.
  intros Hm Hk s. destruct (Hm s) as (new & Hn & ? & ?). exists new. split; [|done].
  unfold mbind, M_bind. destruct (m s) as [[a|e] s']; [|done]. by rewrite (proj1 (Hk a s')).
Qed.
Lemma one_call_identify {A} (Q : P → ChannelEvent → Prop) channel account
    (k : option VerifiedIdentity → M (Channels P X) http_error A) :
  (∀ p i p', resolve_by_external_account channel account p = (Ok i, p') → one_call (λ _, Q p) (k i)) →
  one_call Q (identify channel account ≫= k).
Proof.
  intros Hk s. unfold identify, mbind, M_bind. specialize (Hk (cn_identity s)).
  destruct (resolve_by_external_account _ _ _) as [[i|e] p']; cbn.
  - destruct (Hk i p' eq_refl (s <| cn_identity := p' |>)) as (new & Hn & Hl & Hf). by exists new.
  - exists []. rewrite app_nil_r. split_and!; [done|cbn; lia|done].
Qed.
Lemma one_call_event {A} (Q : P → ChannelEvent → Prop) (e : ChannelEvent)
    (k : unit → M (Channels P X) http_error A) :
  is_agent_call e = true → (∀ p, Q p e) → (∀ u, preserves silent (k u)) →
  one_call Q (note_event e ≫= k).
Proof.
  intros He HQ Hk. apply one_call_before; [|done]. intros s. exists [e]. cbn.
  rewrite agent_calls_app {2}/agent_calls /= He. split_and!; [done|cbn; lia|by repeat constructor].
Qed.

(* ------------------------------------------------------------------ *)
(** ** Who is behind a call *)

(** the provider knows the account as a member of the DBA team *)
Definition known_dba (p : P) (channel account : string) : Prop :=
  ∃ i p', resolve_by_external_account channel account p = (Ok (Some i), p') ∧ is_dba i = true.
(** the call a path makes and what it has checked by then, path by path: the two signatures are
    over the body with a fresh timestamp; the click of a Slack card is not signed; an alert
    names no account; the two development paths have no transport to check, and the one for
    decisions looks nobody up *)
Definition checked (now : Z) (r : Inbound) (p : P) (e : ChannelEvent) : Prop :=
  match r, e with
  | SlackEvents body timestamp signature, CeChat q =>
      verify_slack_signature (st_slack_signing_secret cfg) body timestamp signature now = Ok tt ∧
      cq_channel q = "slack" ∧ known_dba p "slack" (cq_channel_account_id q)
  | SlackClick _, CeDecision q => aq_channel q = "slack" ∧ known_dba p "slack" (aq_channel_account_id q)
  | TeamsActivity _ authorization, CeChat q =>
      is_ok (teams_verify cfg authorization) = true ∧
      cq_channel q = "teams" ∧ known_dba p "teams" (cq_channel_account_id q)
  | TeamsActivity _ authorization, CeDecision q =>
      is_ok (teams_verify cfg authorization) = true ∧
      aq_channel q = "teams" ∧ known_dba p "teams" (aq_channel_account_id q)
  | MonitoringAlert body timestamp signature, CeAlert q =>
      verify_alert_signature (st_alert_webhook_secret cfg) body timestamp signature now = Ok tt ∧
      ∃ d, loads json_loads body = Ok (JObj d) ∧ alert_request py_repr d = Ok q
  | DevChat body, CeChat q =>
      cq_channel q = "dev" ∧ cq_channel_account_id q = dq_user body ∧ known_dba p "dev" (dq_user body)
  | DevChatEvent body, CeDecision q =>
      aq_channel q = "dev" ∧ dict_get "user" body = Some (JStr (aq_channel_account_id q)) ∧
      dict_get "approval_id" body = Some (JStr (aq_approval_id q)) ∧
      dict_get "decision" body = Some (JStr (aq_decision q))
  | _, _ => False
  end.

Lemma dba_known channel account p i p' :
  resolve_by_external_account channel account p = (Ok i, p') → ∀ d, dba i = Some d →
  known_dba p channel account.
Proof.
  intros Hr d. unfold dba. destruct i as [i|]; [|done]. destruct (is_dba i) eqn:Hi; [|done]. intros _. by exists i, p'.
Qed.

Lemma one_call_value {A B} Q (r : res exn A) (k : A → M (Channels P X) http_error B) :
  (∀ a, r = Ok a → one_call Q (k a)) → one_call Q (from_value r ≫= k).
Proof. intros Hk. destruct r as [a|e]; [by apply (Hk a)|by apply one_call_silent]. Qed.

Ltac one_step :=
  match goal with
  | |- one_call _ (call_agent_chat _ _ _) => unfold call_agent_chat
  | |- one_call _ (call_agent_event _ _ _) => unfold call_agent_event
  | |- one_call _ (call_agent_alert_trigger _ _ _) => unfold call_agent_alert_trigger
  | |- one_call _ (note_event _ ≫= _) =>
      apply one_call_event; [reflexivity|intros ?; cbn; eauto using dba_known|intros ?; walk]
  | |- one_call _ (from_value _ ≫= _) => apply one_call_value; intros ? ?
  | |- one_call _ (identify _ _ ≫= _) => apply one_call_identify; intros ? ? ? ?
  | |- one_call _ (call_agent_chat _ _ _ ≫= _) => apply one_call_before; [|intros ?; walk]
  | |- one_call _ (call_agent_event _ _ _ ≫= _) => apply one_call_before; [|intros ?; walk]
  | |- one_call _ (call_agent_alert_trigger _ _ _ ≫= _) => apply one_call_before; [|intros ?; walk]
  | |- one_call _ (_ ≫= _) => apply one_call_after; [solve [walk]|intros ?]
  | |- one_call _ (match ?x with _ => _ end) => destruct x eqn:?
  | |- one_call _ _ => apply one_call_silent; solve [walk]
  end.

Lemma one_call_or_401 {A} Q kind detail (r : res exn unit) (k : unit → M (Channels P X) http_error A) :
  (r = Ok tt → one_call Q (k tt)) → one_call Q (or_401 kind detail r ≫= k).
Proof.
  intros Hk. destruct r as [[]|[|kind' t]]; [by apply Hk|by apply one_call_silent|].
  unfold or_401. case_bool_decide; by apply one_call_silent.
Qed.
Lemma one_call_discard {A} Q (m : M (Channels P X) http_error A) : one_call Q m → one_call Q (discard m).
Proof. intros Hm. unfold discard. apply one_call_before; [done|intros ?; walk]. Qed.

Lemma one_call_slack now monotonic body timestamp signature :
  one_call (checked now (SlackEvents body timestamp signature))
    (slack_webhook json_loads cfg now monotonic body timestamp signature).
Proof. apply one_call_or_401. intros Hv. unfold slack_event. repeat one_step. Qed.
Lemma one_call_click now payload_field :
  one_call (checked now (SlackClick payload_field)) (slack_interactive json_loads cfg now payload_field).
Proof. unfold slack_interactive. repeat one_step. Qed.
Lemma one_call_teams now body authorization :
  one_call (checked now (TeamsActivity body authorization)) (teams_webhook json_loads cfg now body authorization).
Proof.
  apply one_call_or_401. intros Hv.
  assert (is_ok (teams_verify cfg authorization) = true) by by destruct (teams_verify cfg authorization).
  unfold teams_webhook, send_reply_to_activity. cbn [no_connector_token]. repeat one_step.
  apply one_call_before; [|intros ?; walk]. unfold teams_reply, teams_chat. repeat one_step.
Qed.
Lemma as_dict_ok v d : as_dict v = Ok d → v = JObj d.
Proof. destruct v; by intros [= ->]. Qed.
Lemma one_call_alert now monotonic body timestamp signature :
  one_call (checked now (MonitoringAlert body timestamp signature))
    (alerts_webhook json_loads py_repr cfg now monotonic body timestamp signature).
Proof.
  apply one_call_or_401. intros Hv.
  destruct (loads json_loads body) as [v|[|kind text]] eqn:El; [|by apply one_call_silent|].
  2:{ case_bool_decide; by apply one_call_silent. }
  apply one_call_value. intros d ->%as_dict_ok. repeat one_step.
Qed.
Lemma required_ok k d t : required_text k d = Ok t → dict_get k d = Some (JStr t).
Proof. unfold required_text. repeat case_match; congruence. Qed.
Lemma one_call_dev_event now body :
  one_call (checked now (DevChatEvent body)) (dev_chat_event (P := P) cfg now body).
Proof. unfold dev_chat_event. repeat one_step. eauto 10 using required_ok. Qed.
Lemma one_call_dev now body : one_call (checked now (DevChat body)) (dev_chat (P := P) cfg now body).
Proof.
  unfold dev_chat. repeat one_step.
  match goal with Hd : negb (is_dba _) = false |- _ => apply negb_false_iff in Hd end.
  split_and!; [done..|]. by do 2 eexists.
Qed.

(** C11: The Channels service passes a request on to the Agent at most once, and only what the
    checks of the request's own path let through.  A Slack message carries a valid signature
    over its body with a fresh timestamp, a Teams activity an accepted bearer token, and each
    is passed on for an account the identity provider knows, at that moment, as a member of
    the DBA team; the click of a Slack card, which carries no signature, and a message on the
    development path are passed on for such an account too; an alert carries its own
    signature, names no account and is passed on as its body states it; and a decision on the
    development path is passed on in the name its body states, which is not looked up.  No
    path makes a call of another kind, and the notification path makes none. *)
Theorem agent_called_once_as_checked now monotonic r s :
  ∃ calls, agent_calls (cn_trace (receive json_loads py_repr cfg now monotonic r s).2)
           = agent_calls (cn_trace s) ++ calls ∧
    (length calls ≤ 1)%nat ∧ Forall (checked now r (cn_identity s)) calls.
Proof.
  revert s. change (one_call (checked now r) (receive json_loads py_repr cfg now monotonic r)).
  destruct r; cbn [receive]; apply one_call_discard.
  - apply one_call_slack.
  - apply one_call_click.
  - apply one_call_teams.
  - apply one_call_alert.
  - apply one_call_silent. unfold notify. walk.
  - apply one_call_dev.
  - apply one_call_dev_event.
Qed.

(** nobody is looked up on the development path for decisions: whoever the account is, and
    whatever the settings, a body with the three texts decides in its name *)
Theorem dev_decision_is_unchecked now monotonic body user approval_id decision s :
  dict_get "user" body = Some (JStr user) → dict_get "conversation_id" body = None →
  dict_get "approval_id" body = Some (JStr approval_id) → dict_get "decision" body = Some (JStr decision) →
  agent_calls (cn_trace (receive json_loads py_repr cfg now monotonic (DevChatEvent body) s).2)
  = agent_calls (cn_trace s) ++ [CeDecision {| aq_channel := "dev"; aq_channel_account_id := user;
      aq_conversation_id := "dev-conversation"; aq_approval_id := approval_id; aq_decision := decision |}].
Proof.
  intros Hu Hc Ha Hd. cbn [receive]. unfold discard, dev_chat_event, call_agent_event, required_text, text_field.
  rewrite Hu Hc Ha Hd. cbn. unfold mbind, M_bind, from_service. cbn.
  destruct (post_chat_event _ _ _) as [[r|e] x]; cbn; by rewrite agent_calls_app.
Qed.

(* ------------------------------------------------------------------ *)
(** ** A delivery acts once *)

(** the two kinds of deliveries that are repeated *)
Inductive Redelivered : Type := SlackEventId | AlertId.
Definition seen_of (k : Redelivered) (s : Channels P X) : list (string * Z) :=
  match k with SlackEventId => cn_slack_seen s | AlertId => cn_alerts_seen s end.
Definition id_in (k : string) (raw_body : string) : option string :=
  match loads json_loads raw_body with
  | Ok (JObj d) => match dict_get k d with
                   | Some (JStr id) => if truthy id then Some id else None
                   | _ => None
                   end
  | _ => None
  end.
(** the id a delivery carries *)
Definition delivery_id (r : Inbound) : option (Redelivered * string) :=
  match r with
  | SlackEvents raw_body _ _ => pair SlackEventId <$> id_in "event_id" raw_body
  | MonitoringAlert raw_body _ _ => pair AlertId <$> id_in "alert_id" raw_body
  | _ => None
  end.

(** what was seen within the time to live stays so *)
Definition remembers (monotonic : Z) (s s' : Channels P X) : Prop := ∀ k id t,
  dict_get id (seen_of k s) = Some t → (monotonic - t ≤ SEEN_EVENT_TTL)%Z →
  dict_get id (seen_of k s') = Some t.
#[local] Instance remembers_preorder monotonic : PreOrder (remembers monotonic).
Proof. split; [by intros s k id t|]. intros s t u Hst Htu k id v ? ?. eauto. Qed.

Lemma remembers_same monotonic s s' : cn_slack_seen s' = cn_slack_seen s →
  cn_alerts_seen s' = cn_alerts_seen s → remembers monotonic s s'.
Proof. intros Hs Ha [] id t; cbn; by rewrite ?Hs ?Ha. Qed.

Lemma dict_get_filter {V} (p : string * V → bool) k v (d : list (string * V)) :
  dict_get k d = Some v → p (k, v) = true → dict_get k (List.filter p d) = Some v.
Proof.
  intros Hk Hp. induction d as [|[k' v'] d IH]; [done|]. cbn in Hk |- *.
  destruct (decide (k = k')) as [<-|Hne].
  - simplify_eq. rewrite Hp. cbn. by rewrite decide_True.
  - destruct (p (k', v')); [cbn; rewrite decide_False //|]; by apply IH.
Qed.
Lemma fresh_kept monotonic id t (seen : list (string * Z)) :
  dict_get id seen = Some t → (monotonic - t ≤ SEEN_EVENT_TTL)%Z →
  dict_get id (List.filter (λ kv, negb (SEEN_EVENT_TTL <? monotonic - kv.2)%Z) seen) = Some t.
Proof. intros Hd Ht. apply dict_get_filter; [done|]. cbn. apply negb_true_iff, Z.ltb_ge. lia. Qed.

Lemma already_seen_keeps monotonic o id t seen :
  dict_get id seen = Some t → (monotonic - t ≤ SEEN_EVENT_TTL)%Z →
  dict_get id (already_seen monotonic o seen).2 = Some t.
Proof.
  intros Hd Ht. unfold already_seen. destruct (negb _); [done|].
  pose proof (fresh_kept _ _ _ _ Hd Ht) as Hf. destruct (dict_get (default "" o) _) as [t'|] eqn:Eo; [done|].
  cbn. rewrite dict_get_set_ne; [congruence|done].
Qed.
Lemma already_seen_again monotonic id t seen : truthy id = true →
  dict_get id seen = Some t → (monotonic - t ≤ SEEN_EVENT_TTL)%Z →
  (already_seen monotonic (Some id) seen).1 = true.
Proof.
  intros Hid Hd Ht. unfold already_seen. cbn [opt_truthy default]. rewrite Hid. cbn.
  by rewrite (fresh_kept _ _ _ _ Hd Ht).
Qed.
Lemma already_seen_first monotonic id seen : truthy id = true →
  (already_seen monotonic (Some id) seen).1 = false →
  dict_get id (already_seen monotonic (Some id) seen).2 = Some monotonic.
Proof.
  intros Hid. unfold already_seen. cbn [opt_truthy default]. rewrite Hid. cbn.
  destruct (dict_get id _); [done|]. intros _. apply dict_get_set_eq.
Qed.

Section remembering.
Context (monotonic : Z).
Lemma remembers_value {A} (r : res exn A) : preserves (remembers monotonic) (from_value (P := P) (X := X) r).
Proof. intros s. destruct r; by apply remembers_same. Qed.
Lemma remembers_service {A} (m : M X exn A) : preserves (remembers monotonic) (from_service (P := P) m).
Proof. intros s. unfold from_service. destruct (m _). by apply remembers_same. Qed.
Lemma remembers_note e : preserves (remembers monotonic) (note_event (P := P) (X := X) e).
Proof. intros s. by apply remembers_same. Qed.
Lemma remembers_identify channel account :
  preserves (remembers monotonic) (identify (P := P) (X := X) channel account).
Proof. intros s. unfold identify. destruct (resolve_by_external_account _ _ _). by apply remembers_same. Qed.
Lemma remembers_slack_seen id :
  preserves (remembers monotonic) (slack_event_already_seen (P := P) (X := X) monotonic id).
Proof.
  intros s k id' t Hd Ht. unfold slack_event_already_seen.
  pose proof (already_seen_keeps monotonic id id' t (cn_slack_seen s)) as Hk.
  destruct (already_seen _ _ _). destruct k; [by apply Hk|done].
Qed.
Lemma remembers_alert_seen id :
  preserves (remembers monotonic) (alert_already_seen (P := P) (X := X) monotonic id).
Proof.
  intros s k id' t Hd Ht. unfold alert_already_seen.
  pose proof (already_seen_keeps monotonic id id' t (cn_alerts_seen s)) as Hk.
  destruct (already_seen _ _ _). destruct k; [done|by apply Hk].
Qed.
Lemma remembers_401 kind detail r :
  preserves (remembers monotonic) (or_401 (P := P) (X := X) kind detail r).
Proof.
  intros s. destruct r as [[]|[|k t]]; [by apply remembers_same..|]. unfold or_401.
  case_bool_decide; by apply remembers_same.
Qed.
Lemma remembers_raise {A} (e : http_error) :
  preserves (remembers monotonic) (raise e : M (Channels P X) http_error A).
Proof. intros s. by apply remembers_same. Qed.
Lemma remembers_ret {A} (a : A) : preserves (remembers monotonic) (mret a : M (Channels P X) http_error A).
Proof. intros s. by apply remembers_same. Qed.
Hint Resolve remembers_raise remembers_ret remembers_value remembers_service remembers_note remembers_identify remembers_slack_seen
  remembers_alert_seen remembers_401 : numi.

Lemma remembers_slack_event now event :
  preserves (remembers monotonic) (slack_event (P := P) cfg now event).
Proof. unfold slack_event, call_agent_chat, post_message. walk. Qed.
Hint Resolve remembers_slack_event : numi.
Lemma remembers_receive now r :
  preserves (remembers monotonic) (receive (P := P) json_loads py_repr cfg now monotonic r).
Proof.
  destruct r; cbn [receive]; unfold discard, slack_webhook, slack_interactive, collapse_card,
    teams_webhook, teams_reply, teams_chat, alerts_webhook, notify, dev_chat, dev_chat_event,
    call_agent_chat, call_agent_event, call_agent_alert_trigger, post_message, update_message,
    send_reply_to_activity; walk.
Qed.

(** what runs after a delivery was looked up among the seen ones *)
Lemma lookup_then {A} k id (check : M (Channels P X) http_error bool)
    (after : bool → M (Channels P X) http_error A) s :
  (∀ s, ∃ s', check s = (Ok (already_seen monotonic (Some id) (seen_of k s)).1, s') ∧ silent s s' ∧
    seen_of k s' = (already_seen monotonic (Some id) (seen_of k s)).2) →
  truthy id = true → preserves silent (after true) → preserves (remembers monotonic) (after false) →
  agent_calls (cn_trace ((check ≫= after) s).2) ≠ agent_calls (cn_trace s) →
  (already_seen monotonic (Some id) (seen_of k s)).1 = false ∧
  dict_get id (seen_of k ((check ≫= after) s).2) = Some monotonic.
Proof.
  intros Hc Hid Ht Hf. destruct (Hc s) as (s' & Ec & [Es _] & Ek). rewrite (M_bind_ok _ _ _ _ _ Ec).
  destruct (already_seen monotonic (Some id) (seen_of k s)).1 eqn:Ea.
  - intros []. by rewrite (proj1 (Ht s')).
  - intros _. split; [done|]. apply Hf; [|unfold SEEN_EVENT_TTL, SECOND; lia].
    rewrite Ek. by apply already_seen_first.
Qed.

Lemma discard_state {A} (m : M (Channels P X) http_error A) s : (discard m s).2 = (m s).2.
Proof. unfold discard, mbind, M_bind. by destruct (m s) as [[a|e] s']. Qed.

Lemma id_in_dict k raw_body id : id_in k raw_body = Some id →
  ∃ d, loads json_loads raw_body = Ok (JObj d) ∧ text_or_none k d = Ok (Some id) ∧ truthy id = true.
Proof.
  unfold id_in, text_or_none. destruct (loads json_loads raw_body) as [[| | | | |d]|]; try done.
  intros Hi. exists d. repeat case_match; simplify_eq. done.
Qed.

Lemma M_bind_ret {A B} (a : A) (k : A → M (Channels P X) http_error B) : mret a ≫= k = k a.
Proof. done. Qed.

Lemma acting_delivery now r s k id : delivery_id r = Some (k, id) →
  agent_calls (cn_trace (receive json_loads py_repr cfg now monotonic r s).2) ≠ agent_calls (cn_trace s) →
  truthy id = true ∧ (already_seen monotonic (Some id) (seen_of k s)).1 = false ∧
  dict_get id (seen_of k (receive json_loads py_repr cfg now monotonic r s).2) = Some monotonic.
Proof.
  destruct r as [body timestamp signature| | |body timestamp signature| | |]; try done; cbn [delivery_id receive];
    rewrite discard_state; intros (i & Hid & [= -> ->])%fmap_Some;
    apply id_in_dict in Hid as (d & Hl & Hd & Ht).
  - unfold slack_webhook. destruct (verify_slack_signature _ _ _ _ _) as [[]|[|kind t]];
      cbn [or_401]; [|by intros []|case_bool_decide; by intros []].
    rewrite M_bind_ret Hl. cbn [mbind res_bind as_dict from_value]. rewrite M_bind_ret.
    case_bool_decide; [by intros []|]. case_bool_decide; [|by intros []].
    rewrite Hd M_bind_ret. intros Hgrow. split; [done|]. revert Hgrow.
    apply (lookup_then SlackEventId i); [clear s; intros s|done|walk|walk].
    unfold slack_event_already_seen. cbn [seen_of]. destruct (already_seen _ _ _). by eexists.
  - unfold alerts_webhook. destruct (verify_alert_signature _ _ _ _ _) as [[]|[|kind t]];
      cbn [or_401]; [|by intros []|case_bool_decide; by intros []].
    rewrite M_bind_ret Hl. cbn [as_dict from_value]. rewrite M_bind_ret.
    rewrite Hd M_bind_ret. intros Hgrow. split; [done|]. revert Hgrow.
    apply (lookup_then AlertId i); [clear s; intros s|done|walk|unfold call_agent_alert_trigger; walk].
    unfold alert_already_seen. cbn [seen_of]. destruct (already_seen _ _ _). by eexists.
Qed.
End remembering.

(** the requests of a run, each with its clocks *)
Definition receive_all (l : list (Z * Z * Inbound)) (s : Channels P X) : Channels P X :=
  foldl (λ s '(now, monotonic, r), (receive json_loads py_repr cfg now monotonic r s).2) s l.
Definition reaches_agent (now monotonic : Z) (r : Inbound) (s : Channels P X) : Prop :=
  agent_calls (cn_trace (receive json_loads py_repr cfg now monotonic r s).2) ≠ agent_calls (cn_trace s).

Lemma remembers_weaken m1 m2 s s' : (m1 ≤ m2)%Z → remembers m1 s s' → remembers m2 s s'.
Proof. intros Hm Hr k id t Hd Ht. apply Hr; [done|lia]. Qed.
Lemma remembers_all m l s : Forall (λ '(_, monotonic, _), (monotonic ≤ m)%Z) l →
  remembers m s (receive_all l s).
Proof.
  unfold receive_all. revert s. induction l as [|[[now mono] r] l IH]; intros s Hl; [cbn; reflexivity|].
  apply Forall_cons in Hl as [Hm Hl]. cbn. etrans; [|by apply IH].
  eapply remembers_weaken; [exact Hm|apply remembers_receive].
Qed.

(** C30: A delivery that its sender repeats acts once: in any run of the service, when two
    Slack deliveries of one event, or two alerts of one id, both reach the Agent, the second
    came more than five minutes after the first, whatever was received in between and
    whatever became of the first one's call. *)
Theorem deliveries_act_once now1 m1 r1 between now2 m2 r2 s k id :
  delivery_id r1 = Some (k, id) → delivery_id r2 = Some (k, id) →
  Forall (λ '(_, monotonic, _), (monotonic ≤ m2)%Z) between →
  let s1 := (receive json_loads py_repr cfg now1 m1 r1 s).2 in
  let s2 := receive_all between s1 in
  reaches_agent now1 m1 r1 s → reaches_agent now2 m2 r2 s2 →
  (m1 + SEEN_EVENT_TTL < m2)%Z.
Proof.
  intros D1 D2 Hb s1 s2 R1 R2.
  destruct (acting_delivery m1 now1 r1 s k id D1 R1) as (Hid & _ & Hs1).
  destruct (acting_delivery m2 now2 r2 s2 k id D2 R2) as (_ & Hs2 & _).
  destruct (decide (m1 + SEEN_EVENT_TTL < m2)%Z) as [|Hle]; [done|].
  assert (dict_get id (seen_of k s2) = Some m1) as Hd.
  { apply (remembers_all m2 between s1 Hb); [exact Hs1|lia]. }
  by rewrite (already_seen_again m2 id m1 _ Hid Hd ltac:(lia)) in Hs2.
Qed.
End reach.

(* ------------------------------------------------------------------ *)
(** ** Decided cards *)

(** the approvals the buttons of some blocks decide on *)
Definition button_value (element : json) : option json :=
  if bool_decide (block_key "type" element = Some (JStr "button")) then block_key "value" element
  else None.
Definition offered_by_buttons (blocks : list json) : list json :=
  blocks ≫= λ b, match block_key "elements" b with
                 | Some (JArr elements) => omap button_value elements
                 | _ => []
                 end.

(** Deciding an approval collapses its buttons and nothing else: in the blocks Slack sends
    back, the one with the approval's id becomes a line without a button and every other
    block stays as it was, in place; and a card the service itself rendered, which offers
    its approval and its rejection, offers nothing any more. *)
Theorem decided_card_offers_nothing blocks approval_id decision decided_by reply :
  Forall2 (λ b b', if bool_decide (block_key "block_id" b = Some (JStr (approval_block_id approval_id)))
                   then offered_by_buttons [b'] = [] else b' = b)
    blocks (resolve_approval_blocks blocks approval_id decision decided_by) ∧
  match rp_approval_card reply with
  | None => offered_by_buttons (render_reply_blocks reply) = []
  | Some card =>
      let id := card_approval_id card in
      offered_by_buttons (render_reply_blocks reply) = [JStr id; JStr id] ∧
      offered_by_buttons (resolve_approval_blocks (render_reply_blocks reply) id decision decided_by) = []
  end.
Proof.
  split.
  - unfold resolve_approval_blocks. induction blocks as [|b l IH]; [constructor|].
    constructor; [|exact IH]. by destruct (bool_decide _).
  - unfold render_reply_blocks. destruct (rp_approval_card reply) as [card|]; [|done].
    split; [done|]. unfold resolve_approval_blocks. cbn [map]. do 4 (case_bool_decide; try done).
Qed.

(* ------------------------------------------------------------------ *)
(** ** A concrete service *)

(** an Agent that greets, and an API that takes every message *)
#[local] Instance greeting_agent : @AgentService unit symbolic_serializer := {|
  post_chat _ _ x := (Ok (agent_reply "Hello." "ok" None), x);
  post_chat_event _ _ x := (Ok (agent_reply "Done." "ok" None), x);
  post_alert_trigger _ _ x := (Ok {| an_ok := true; an_error := "" |}, x)
|}.
#[local] Instance quiet_api : MessagingApi unit := {|
  slack_chat_post _ _ _ x := (Ok tt, x);
  slack_chat_update _ _ _ _ x := (Ok tt, x);
  teams_post_activity _ _ _ _ _ x := (Ok tt, x)
|}.
#[local] Instance one_signature : Hmac := {| hmac_sha256_hex _ _ := "5f" |}.
#[local] Instance no_bots : BotFramework := {| jwt_appid _ _ := Err (PyError "InvalidTokenError" "") |}.
#[local] Existing Instance mock_provider.
#[local] Existing Instance symbolic_serializer.
Definition slack_message : json :=
  JObj [("type", JStr "event_callback"); ("event_id", JStr "Ev1");
        ("event", JObj [("type", JStr "message"); ("user", JStr "U1"); ("channel", JStr "C1");
                        ("text", JStr "hello")])].
Definition slack_delivery (timestamp : string) : Inbound :=
  SlackEvents "..." (Some timestamp) (Some "v0=5f").
Definition quiet_channels : Channels MockIdentityProvider unit :=
  mk_channels example_directory [] [] tt [].

(** a form anyone can post, with the Slack account of a DBA in it *)
Definition forged_click : json := JObj [
  ("user", JObj [("id", JStr "U1")]); ("channel", JObj [("id", JStr "C1")]);
  ("actions", JArr [JObj [("action_id", JStr "numi_approve"); ("value", JStr "appr_1")]])].
(** under any settings, and so with any signing secret, it decides in the name of the DBA *)
Theorem unsigned_click_decides cfg now monotonic (at_ : string) :
  let provider := mock_provider at_ in
  agent_calls (cn_trace (receive (λ _, Ok forged_click) (λ _, "") cfg now monotonic
    (SlackClick (Some (FormText "..."))) quiet_channels).2)
  = [CeDecision {| aq_channel := "slack"; aq_channel_account_id := "U1"; aq_conversation_id := "slack:C1:U1";
                   aq_approval_id := "appr_1"; aq_decision := "approve" |}].
Proof.
  cbn [receive]. unfold discard, slack_interactive, post_message.
  destruct (truthy (st_slack_bot_token cfg)); reflexivity.
Qed.

Lemma deliveries_act_once_witness : (100 * SECOND + SEEN_EVENT_TTL < 401 * SECOND)%Z.
Proof.
  apply (@deliveries_act_once _ _ (mock_provider "now") symbolic_serializer greeting_agent quiet_api
    one_signature no_bots (λ _, Ok slack_message) (λ _, "") default_settings
    (100 * SECOND)%Z (100 * SECOND)%Z (slack_delivery "100")
    [((150 * SECOND)%Z, (150 * SECOND)%Z, slack_delivery "150")]
    (401 * SECOND)%Z (401 * SECOND)%Z (slack_delivery "401") quiet_channels SlackEventId "Ev1").
  - vm_compute. reflexivity.
  - vm_compute. reflexivity.
  - repeat constructor. vm_compute. discriminate.
  - vm_compute. discriminate.
  - vm_compute. discriminate.
Defined.
