(* ===== verification/EndToEnd.v ===== *)
(** The Agent and the Gateway together: the endpoints of [gateway/api/app.py] answer the
    requests of the Agent's client over a network that may lose any request or any reply,
    and the unattended runs of the orchestrator are followed to what the Gateway sends to
    the execution service. *)
From S2P Require Import Prelude ProgramLogic Json Text Models ToolCatalog Servers Policy RateLimit.
From S2P Require Import Approval DataPolicy Discovery Gateway Identity Endpoints Investigations Fallback.
From S2P Require Import Playbooks Config LLMRegistry Conversation AgentApi AgentScript StructuredLLM ToolClient.
From S2P Require Import Investigator InvestigatorFacts Orchestrator OrchestratorFacts Execution.
From S2P Require Import Digest Alerts.

(* ------------------------------------------------------------------ *)
(** ** What the endpoints answer, as the Agent decodes it *)

(** the JSON schema of an argument model names a field by its alias *)
Definition offered_tool (t : ToolDefinition) : OfferedTool :=
  let fields := default [] (dict_get (td_tool_id t) ARGUMENT_MODELS) in {|
  ot_tool_id := td_tool_id t;
  ot_operation_type := td_operation_type t;
  ot_required := map schema_key (List.filter (λ f, match af_default f with None => true | Some _ => false end) fields);
  ot_properties := map schema_key fields |}.

(** [list_servers]: no host *)
Definition catalog_summary (isoformat : Z → string) (c : ServerCatalog) : CatalogSummary := {|
  cm_database_count := Z.of_nat (length (sc_databases c));
  cm_databases := database_names c;
  cm_discovered_at := isoformat <$> sc_discovered_at c |}.
Definition server_summary (isoformat : Z → string) (s : ServerEntry * option ServerCatalog)
    : ServerSummary := {|
  ss_id := se_id s.1; ss_aliases := se_aliases s.1; ss_host := None;
  ss_environment := env_value (se_environment s.1);
  ss_platform := platform_value (se_platform s.1); ss_criticality := se_criticality s.1;
  ss_status := se_status s.1;
  ss_catalog := catalog_summary isoformat <$> s.2 |}.
Definition refreshed_one (v : RefreshView) : RefreshedOne :=
  {| ro_server_id := rv_server_id v; ro_databases := rv_databases v; ro_error := rv_error v |}.
Definition decided_answer (s : ApprovalStatus) : ApprovalAnswer :=
  {| aa_status := approval_status_value s; aa_detail := "" |}.

(** FastAPI: 200 with the body, the status and detail of an [HTTPException], or a plain
    text 500 *)
Definition http_reply {A B} (f : A → B) (r : res http_error A) : HttpReply B :=
  match r with
  | Ok a => {| hr_status := 200; hr_json := Ok (f a); hr_detail := Ok None; hr_status_message := "" |}
  | Err (HTTPException status detail) =>
      {| hr_status := status; hr_json := Err (PyError "ValidationError" "");
         hr_detail := Ok (Some detail); hr_status_message := pretty status |}
  | Err (Unhandled _) =>
      {| hr_status := 500; hr_json := Err (PyError "JSONDecodeError" "");
         hr_detail := Err (PyError "JSONDecodeError" ""); hr_status_message := "500" |}
  end.

(** what becomes of a request: served, lost on the way, or served with its reply lost *)
Inductive Delivery : Type :=
| Served
| NeverArrives (e : exn)
| ReplyLost (e : exn).

(** the Gateway's process and its two other stores, and the requests seen so far *)
Record Site (P B C : Type) : Type := mk_site {
  st_process : Process P B C;
  st_investigations : InvestigationDb;
  st_decisions : list DecisionEvent;
  st_requests : nat
}.
Arguments mk_site {P B C}. Arguments st_process {P B C}. Arguments st_investigations {P B C}.
Arguments st_decisions {P B C}. Arguments st_requests {P B C}.

Section site.
Context {P B C : Type} `{IdentityProvider P} `{RateLimitBackend B} `{CatalogStore C}.
Context `{PydanticLax} `{SqlGlot} `{SqlStatements} `{External} `{TimedSerializer}.
Context (gs : GatewayState) (secret issuer : string).
(** for the n-th request: its fate, the clock of the Gateway in microseconds and in
    seconds, the clock of the Agent, and the readings of a handled call *)
Context (delivery : nat → Delivery) (now now_seconds agent_seconds : nat → Z).
Context (inputs : nat → CallInputs) (correlation : bool) (lookback_days : Z).
Context (isoformat : Z → string).

Abbreviation site := (Site P B C).

Definition in_process {A} (m : M (Process P B C) http_error A) : M site http_error A := λ s,
  let '(r, p) := m (st_process s) in
  (r, mk_site p (st_investigations s) (st_decisions s) (st_requests s)).
Definition in_investigations {A} (m : M InvestigationDb exn A) : M site http_error A := λ s,
  let '(r, db) := m (st_investigations s) in
  (match r with Ok a => Ok a | Err e => Err (Unhandled e) end,
   mk_site (st_process s) db (st_decisions s) (st_requests s)).
Definition in_decisions {A} (m : M (list DecisionEvent) exn A) : M site http_error A := λ s,
  let '(r, l) := m (st_decisions s) in
  (match r with Ok a => Ok a | Err e => Err (Unhandled e) end,
   mk_site (st_process s) (st_investigations s) l (st_requests s)).

(** [limit: int = Query(ge=0, le=20)] *)
Definition checked_limit (limit : Z) : M site http_error unit :=
  if ((0 <=? limit) && (limit <=? 20))%Z then mret tt
  else raise (HTTPException 422 "Input should be between 0 and 20").
Definition found {A} (o : option A) : M site http_error unit :=
  match o with Some _ => mret tt | None => raise (HTTPException 404 "Investigation not found.") end.
Definition guarded {A} (n : nat) (token : ts_token) (m : M site http_error A)
    : M site http_error A :=
  _ ← lift_res (require_agent_service_token secret issuer (now_seconds n) (Some token)); m.

(** *** investigations.py and decision_events.py of the routers *)

Definition post_investigation (n : nat) (token : ts_token) (body : InvestigationCreate)
    : M site http_error InvestigationRecord :=
  guarded n token (in_investigations (store_create body (now n))).
Definition patch_investigation (n : nat) (token : ts_token) (id : string) (body : InvestigationUpdate)
    : M site http_error unit :=
  guarded n token (in_investigations (store_update id body (now n)) ≫= found).
Definition post_investigation_event (n : nat) (token : ts_token) (id event_type : string)
    (payload : list (string * json)) : M site http_error unit :=
  guarded n token (in_investigations (append_event id event_type payload)).
Definition read_memory (n : nat) (token : ts_token) (server_id : string) (exclude : option string)
    (limit : Z) : M site http_error (list MemoryEntry) :=
  guarded n token (_ ← checked_limit limit;
    in_investigations (Investigations.get_investigation_memory server_id exclude limit)).
Definition read_patterns (n : nat) (token : ts_token) (playbook_id : string)
    (environment exclude : option string) (limit : Z) : M site http_error (list MemoryEntry) :=
  guarded n token (_ ← checked_limit limit;
    in_investigations (Investigations.correlate_investigations correlation lookback_days (now n)
      playbook_id environment exclude limit)).
Definition post_decision_event (n : nat) (token : ts_token) (body : DecisionEventRequest)
    : M site http_error unit :=
  guarded n token (in_decisions (decision_append {|
    dv_event_type := de_type body; dv_conversation_id := de_conversation body;
    dv_investigation_id := de_investigation body; dv_provider := de_provider_name body;
    dv_model := de_model_name body; dv_payload := de_payload_json body;
    dv_created_at := now n |})).

(** the routers of the application *)
Definition serve {A} (n : nat) (r : Route A) (token : ts_token) : site → HttpReply A * site :=
  let answer {R A} (f : R → A) (m : M site http_error R) : site → HttpReply A * site :=
    λ s, let '(r, s) := m s in (http_reply f r, s) in
  let t := Some token in
  match r in Route A return site → HttpReply A * site with
  | GetTools c a =>
      answer (map offered_tool) (in_process
        (list_tools gs secret issuer (now_seconds n) t (Some c) (Some a)))
  | GetServers =>
      answer (map (server_summary isoformat)) (in_process
        (list_servers gs secret issuer (now_seconds n) t))
  | GetServerCatalog id =>
      answer (λ sc : ServerEntry * option ServerCatalog, (se_id sc.1, sc.2)) (in_process
        (get_server_catalog gs secret issuer (now_seconds n) t id))
  | PostRefresh c a =>
      answer id (in_process (refresh_all_endpoint gs secret issuer (now_seconds n) t c a))
  | PostRefreshServer sid c a =>
      answer refreshed_one (in_process
        (refresh_one_endpoint gs secret issuer (now_seconds n) t sid c a))
  | PostToolCall body =>
      answer id (in_process (submit_tool_call gs secret issuer (now_seconds n) (inputs n) t body))
  | PostApprove aid c a =>
      answer decided_answer (in_process
        (decide_approval gs secret issuer (now_seconds n) t aid c a APPROVE (now n)))
  | PostReject aid c a =>
      answer decided_answer (in_process
        (decide_approval gs secret issuer (now_seconds n) t aid c a REJECT (now n)))
  | PostInvestigation body => answer (λ _, tt) (post_investigation n token body)
  | PatchInvestigation iid body => answer id (patch_investigation n token iid body)
  | PostInvestigationEvent iid event_type payload =>
      answer id (post_investigation_event n token iid event_type payload)
  | GetMemory server_id exclude limit => answer id (read_memory n token server_id exclude limit)
  | GetCorrelate playbook_id environment exclude limit =>
      answer id (read_patterns n token playbook_id environment exclude limit)
  | PostDecisionEvent body => answer id (post_decision_event n token body)
  end.

(** the network; the agent's own world [L] holds its models, clock and identifiers *)
Definition tick (s : site) : site :=
  mk_site (st_process s) (st_investigations s) (st_decisions s) (S (st_requests s)).
Definition exchange {A} (r : Route A) (token : ts_token) : M site exn (HttpReply A) := λ s,
  match delivery (st_requests s) with
  | NeverArrives e => (Err e, tick s)
  | Served => let '(reply, s') := serve (st_requests s) r token s in (Ok reply, tick s')
  | ReplyLost e => let '(_, s') := serve (st_requests s) r token s in (Err e, tick s')
  end.

Context {L : Type} `{LLMProvider L} `{AgentRuntime L}.

#[local] Instance site_http : GatewayHttp (site * L) := {|
  http_send A r token := λ x, let '(reply, s) := exchange r token x.1 in (reply, (s, x.2));
  token_seconds x := agent_seconds (st_requests x.1)
|}.
#[local] Instance site_client : GatewayClient (site * L) := tool_client secret issuer.

Definition agent_side {A} (f : L → A * L) (x : site * L) : A * (site * L) :=
  let '(a, l) := f x.2 in (a, (x.1, l)).
#[local] Instance site_llm : LLMProvider (site * L) := {|
  llm_extract_intent c m d h := agent_side (llm_extract_intent c m d h);
  llm_decide_next_action c a := agent_side (llm_decide_next_action c a);
  llm_critique_conclusion c a := agent_side (llm_critique_conclusion c a);
  llm_provider_name := llm_provider_name (X := L);
  llm_model_name := llm_model_name (X := L);
  llm_vendor_models p := agent_side (llm_vendor_models p)
|}.
#[local] Instance site_runtime : AgentRuntime (site * L) := {|
  new_ulid := agent_side new_ulid;
  utc_now := agent_side utc_now
|}.

(** the requests the Gateway sent to the execution service *)
Definition executions (x : site * L) : list ExecutionRequest :=
  w_executions (ps_world (st_process x.1)).
End site.

(* ------------------------------------------------------------------ *)
(** ** What an investigation makes the Gateway execute *)

(** the promise of the Gateway to an unattended run: only a submitted request can reach the
    execution service, once, and for the tool it names; a listed tool has the operation
    type the catalog gives it.  The models and the clock execute nothing. *)
Class ExecutionLog (X : Type) `{GatewayClient X} `{LLMProvider X} `{AgentRuntime X} : Type := {
  ran : X → list ExecutionRequest;
  classified : string → OperationType → Prop;
  ran_submit : ∀ request x, ran (gc_submit request x).2 = ran x ∨
    ∃ e, ran (gc_submit request x).2 = ran x ++ [e] ∧ er_tool_id e = tr_tool_id request;
  ran_tools : ∀ c a x, ran (gc_available_tools c a x).2 = ran x;
  offered_classified : ∀ c a x l x' t, gc_available_tools c a x = (Ok l, x') → t ∈ l →
    classified (ot_tool_id t) (ot_operation_type t);
  ran_servers : ∀ x, ran (gc_list_servers x).2 = ran x;
  ran_create : ∀ r x, ran (gc_create_investigation r x) = ran x;
  ran_update : ∀ i r x, ran (gc_update_investigation i r x) = ran x;
  ran_memory : ∀ s i n x, ran (gc_get_investigation_memory s i n x).2 = ran x;
  ran_patterns : ∀ p e s x, ran (gc_get_cross_server_patterns p e s x).2 = ran x;
  ran_log : ∀ r x, ran (gc_log_decision_event r x) = ran x;
  ran_decide : ∀ c a x, ran (llm_decide_next_action c a x).2 = ran x;
  ran_critique : ∀ c a x, ran (llm_critique_conclusion c a x).2 = ran x;
  ran_ulid : ∀ x, ran (new_ulid x).2 = ran x;
  ran_now : ∀ x, ran (utc_now x).2 = ran x
}.

(** what was executed along a run was submitted in it *)
Definition ran_for {X} `{ExecutionLog X} (new : list AgentEvent) (e : ExecutionRequest) : Prop :=
  ∃ request, EvSubmit request ∈ new ∧ er_tool_id e = tr_tool_id request.
Definition executes {X} `{ExecutionLog X} (s s' : Ag X) : Prop :=
  ∃ new ex, ag_trace s' = ag_trace s ++ new ∧ ran (ag_world s') = ran (ag_world s) ++ ex ∧
    Forall (ran_for new) ex ∧ (length ex ≤ length (submissions new))%nat.

Section executes.
Context {X : Type} `{ExecutionLog X}.
Context (cfg : Settings) (la : LoopArgs).

#[export] Instance executes_preorder : PreOrder (executes (X := X)).
Proof.
  split; [intros s; exists [], []; rewrite !app_nil_r; split_and!; [done..|cbn; lia]|].
  intros s t u (n1 & e1 & T1 & R1 & F1 & L1) (n2 & e2 & T2 & R2 & F2 & L2).
  exists (n1 ++ n2), (e1 ++ e2). rewrite T2 T1 R2 R1 !app_assoc submissions_app !length_app.
  split_and!; [done..| |lia].
  assert (∀ n : list AgentEvent, n ⊆ n1 ++ n2 → ∀ e, ran_for n e → ran_for (n1 ++ n2) e) as Hm.
  { intros n Hn e (request & Hin & He). exists request. auto. }
  apply Forall_app; split; (eapply Forall_impl; [eassumption|]; apply Hm; set_solver).
Qed.

Lemma executes_quiet (s s' : Ag X) new : ag_trace s' = ag_trace s ++ new →
  ran (ag_world s') = ran (ag_world s) → executes s s'.
Proof. intros Ht Hr. exists new, []. rewrite app_nil_r. split_and!; [done..|cbn; lia]. Qed.
Lemma executes_same (s s' : Ag X) : ag_trace s' = ag_trace s →
  ran (ag_world s') = ran (ag_world s) → executes s s'.
Proof. intros Ht. apply (executes_quiet _ _ []). by rewrite app_nil_r. Qed.

Lemma executes_get_inv : preserves executes (get_inv (X := X)).
Proof. intros s. by apply executes_same. Qed.
Lemma executes_get_conv : preserves executes (get_conv (X := X)).
Proof. intros s. by apply executes_same. Qed.
Lemma executes_mod_inv f : preserves executes (mod_inv (X := X) f).
Proof. intros s. by apply executes_same. Qed.
Lemma executes_mod_conv f : preserves executes (mod_conv (X := X) f).
Proof. intros s. by apply executes_same. Qed.
Lemma executes_event e : preserves executes (record_event (X := X) e).
Proof. intros s. by apply (executes_quiet _ _ [e]). Qed.
Lemma executes_on_world {A} (m : M X exn A) : (∀ x, ran (m x).2 = ran x) → preserves executes (on_world m).
Proof. intros Hm s. unfold on_world. specialize (Hm (ag_world s)). destruct (m _). by apply executes_same. Qed.
Lemma executes_from_world {A} (f : X → A * X) : (∀ x, ran (f x).2 = ran x) →
  preserves executes (from_world f).
Proof. intros Hm s. unfold from_world. specialize (Hm (ag_world s)). destruct (f _). by apply executes_same. Qed.
Lemma executes_in_world (f : X → X) : (∀ x, ran (f x) = ran x) → preserves executes (in_world f).
Proof. intros Hf s. apply executes_same; [done|apply Hf]. Qed.
Lemma executes_call_llm {A} (c : llm_call X A) : (∀ x, ran (c x).2 = ran x) →
  preserves executes (call_llm c).
Proof.
  intros Hc s. unfold call_llm. specialize (Hc (ag_world s)).
  destruct (c _) as [[r l] x]. by apply executes_same.
Qed.
Lemma executes_submit request : preserves executes (agent_submit (X := X) request).
Proof.
  intros s. unfold agent_submit, record_event, on_world, modify, mbind, M_bind. cbn.
  pose proof (ran_submit request (ag_world s)) as Hr. destruct (gc_submit request _) as [r x]. cbn in *.
  destruct Hr as [Hr|(e & Hr & He)]; [by apply (executes_quiet _ _ [EvSubmit request])|].
  exists [EvSubmit request], [e]. split_and!; [done..| |cbn; lia]. apply Forall_singleton. exists request.
  split; [by left|done].
Qed.
Hint Resolve executes_get_inv executes_get_conv executes_mod_inv executes_mod_conv executes_event
  executes_on_world executes_from_world executes_in_world executes_call_llm executes_submit
  ran_tools ran_servers ran_create ran_update ran_memory ran_patterns ran_log ran_decide
  ran_critique ran_ulid ran_now : numi.

Lemma executes_submit_and_relay action channel account allowed types :
  preserves executes (submit_and_relay (X := X) action channel account allowed types).
Proof.
  unfold submit_and_relay, relay_response, relay_denied, relay_executed, relay_approval. walk.
Qed.
Hint Resolve executes_submit_and_relay : numi.

Lemma executes_continue channel account :
  preserves executes (continue_investigation cfg (X := X) channel account).
Proof.
  unfold continue_investigation, bootstrap_investigation_memory, memory_server_id, canonical_server_id,
    find_matching_servers, list_servers_cached, run_investigation_loop, last_chance, investigation_pass,
    next_playbook_action, take_action, reply_or_again, relay, decide, clarify, finalize_conclude,
    reject_ungrounded, reject_unverified, reject_unsound, self_critique_conclude, log_event,
    conclude_without_root_cause.
  walk.
Qed.
End executes.

Lemma submissions_acts t : submissions (acts t) = submissions t.
Proof.
  unfold submissions, acts. induction t as [|e t IH]; [done|]. cbn.
  destruct e; cbn; by rewrite IH.
Qed.

(** an unattended run makes the Gateway execute nothing but what the catalog calls READ *)
Lemma unattended_executes {X} `{ExecutionLog X} (cfg : Settings)
    (server environment channel account : string) (run : M (Desk X) exn ScheduledSummary) (d : Desk X) :
  unattended_entry cfg server environment channel account run →
  ∃ ex, ran (dk_world (run d).2) = ran (dk_world d) ++ ex ∧
    Forall (λ e, classified (er_tool_id e) READ) ex ∧ (length ex ≤ MAX_INVESTIGATION_TURNS)%nat.
Proof.
  intros Hrun. assert (∃ kind problem pb,
    run d = run_unattended cfg kind server environment channel account problem pb d) as (kind & problem & pb & ->).
  { destruct Hrun as [->|[problem ->]]; unfold run_comprehensive_summary, run_triggered_investigation;
      by do 3 eexists. }
  destruct (unattended_start kind server environment channel account problem pb d) as (_ & Hro & Htu & _).
  assert (ran (ag_world (unattended_state kind server environment channel account problem pb d))
            = ran (dk_world d)) as Hw.
  { unfold unattended_state. rewrite -(ran_ulid (dk_world d)). destruct (new_ulid (dk_world d)) as [u x1].
    cbn. rewrite -(ran_now x1). destruct (utc_now x1) as [n x2]. cbn. rewrite -(ran_ulid x2).
    by destruct (new_ulid x2). }
  unfold run_unattended. set (s := unattended_state _ _ _ _ _ _ _ d) in *.
  pose proof (unattended_reads cfg channel account s Hro ltac:(rewrite Htu; unfold MAX_INVESTIGATION_TURNS; lia)) as Hr.
  pose proof (executes_continue cfg channel account s) as (newt & ex & Ent & Eex & Hex & Hlen).
  destruct (continue_investigation cfg channel account s) as [r a]. cbn in Hr, Ent, Eex |- *.
  destruct Hr as (_ & x & available & x' & new & Ea & En & Hnew & Hcount). rewrite -Hw.
  assert (acts newt = new) as <- by (rewrite Ent acts_app in En; by apply app_inv_head in En).
  rewrite submissions_acts in Hcount. exists ex. split_and!; [done| |etrans; [exact Hlen|etrans; [exact Hcount|apply Nat.le_sub_l]]].
  eapply Forall_impl; [exact Hex|]. intros e (request & Hin & He).
  rewrite Forall_forall in Hnew. destruct (Hnew (EvSubmit request)) as (l & -> & _ & t & Ht & Hid & Hop).
  { unfold acts. by apply filter_elem_of. }
  rewrite He -Hid -Hop. eapply offered_classified; [exact Ea|exact Ht].
Qed.

(** *** The digest and the alerts *)

(** only reads are executed; and at most [n] of them *)
Definition reading {X} `{ExecutionLog X} (d d' : Desk X) : Prop :=
  ∃ ex, ran (dk_world d') = ran (dk_world d) ++ ex ∧ Forall (λ e, classified (er_tool_id e) READ) ex.

(** the deliveries of the digest execute nothing *)
Class QuietPublisher (X : Type) `{ExecutionLog X, DigestPublisher X} : Prop :=
  ran_publish : ∀ c t x, ran (publish c t x).2 = ran x.

Section unattended_work.
Context {X : Type} `{QuietPublisher X} `{FieldFormatter} {B : Type} `{RateLimitBackend B}.
Context (cfg : Settings) (strftime : Z → string).

#[local] Instance reading_preorder : PreOrder (reading (X := X)).
Proof.
  split; [intros d; exists []; by rewrite app_nil_r|].
  intros d1 d2 d3 (e1 & R1 & F1) (e2 & R2 & F2). exists (e1 ++ e2).
  split; [by rewrite R2 R1 app_assoc|by apply Forall_app].
Qed.
Lemma reading_same (d d' : Desk X) : ran (dk_world d') = ran (dk_world d) → reading d d'.
Proof. intros Hr. exists []. by rewrite app_nil_r. Qed.
Lemma reading_entry server environment channel account run :
  unattended_entry cfg server environment channel account run → preserves (reading (X := X)) run.
Proof. intros Hrun d. destruct (unattended_executes _ _ _ _ _ _ d Hrun) as (ex & He & Hf & _). by exists ex. Qed.
Lemma reading_summary server environment channel account :
  preserves (reading (X := X)) (run_comprehensive_summary cfg server environment channel account).
Proof. apply (reading_entry server environment channel account). by left. Qed.
Lemma reading_triggered server environment channel account problem :
  preserves (reading (X := X)) (run_triggered_investigation cfg server environment channel account problem).
Proof. apply (reading_entry server environment channel account). right. by exists problem. Qed.
Lemma reading_servers : preserves (reading (X := X)) list_registered_servers.
Proof.
  intros d. unfold list_registered_servers. pose proof (ran_servers (dk_world d)) as Hr.
  destruct (gc_list_servers _) as [r x]. by apply reading_same.
Qed.
Lemma reading_world {A} (m : M X exn A) : (∀ x, ran (m x).2 = ran x) →
  preserves (reading (X := X)) (desk_world m).
Proof. intros Hm d. unfold desk_world. specialize (Hm (dk_world d)). destruct (m _). by apply reading_same. Qed.
Hint Resolve reading_summary reading_triggered reading_servers : numi.

Lemma reading_summarize_all servers : preserves (reading (X := X)) (summarize_all cfg servers).
Proof. induction servers as [|server l IH]; cbn [summarize_all]; unfold summarize; walk. Qed.

Lemma reading_digest : preserves (reading (X := X)) (run_once cfg strftime).
Proof.
  pose proof reading_summarize_all. unfold run_once, sweep, desk_now.
  pose proof (λ c t, reading_world (publish c t) (ran_publish c t)).
  assert (preserves (reading (X := X)) (desk_world (λ x, let '(t, x) := utc_now x in (Ok t, x)))).
  { apply reading_world. intros x. pose proof (ran_now x) as Hn. by destruct (utc_now x). }
  walk.
Qed.

Abbreviation alert_reading := (λ s s' : Desk X * B, reading s.1 s'.1).
#[local] Instance alert_reading_preorder : PreOrder alert_reading.
Proof. split; [by intros s|by intros s t u Hs Ht; etrans]. Qed.
Lemma reading_on_desk {A} (m : M (Desk X) exn A) : preserves reading m → preserves alert_reading (on_desk m).
Proof. intros Hm s. unfold on_desk. specialize (Hm s.1). by destruct (m s.1). Qed.
Lemma reading_cooldown now server metric :
  preserves alert_reading (within_cooldown (X := X) cfg now server metric).
Proof.
  unfold within_cooldown. walk. intros s. unfold on_cooldown. by destruct (increment_and_check _ _ _ _ _).
Qed.
Lemma reading_lift {A} (r : res exn A) : preserves alert_reading (lift_res r).
Proof. intros s. by destruct r. Qed.
Hint Resolve reading_on_desk reading_cooldown reading_lift : numi.

Lemma reading_alert now alert : preserves alert_reading (handle_alert (X := X) cfg now alert).
Proof.
  pose proof (λ c t, reading_world (publish c t) (ran_publish c t)).
  unfold handle_alert, alerted_server, investigate_alert. walk.
Qed.
End unattended_work.

(* ------------------------------------------------------------------ *)
(** ** The Gateway keeps the promise *)

(** an operation that sends nothing to the execution service, and one that leaves every
    record of the control database as it was as well *)
Definition sends_nothing {P B C} : relation (Process P B C) := λ s s',
  w_executions (ps_world s') = w_executions (ps_world s).
#[export] Instance sends_nothing_preorder {P B C} : PreOrder (sends_nothing (P := P) (B := B) (C := C)).
Proof. split; unfold sends_nothing; [done|congruence]. Qed.
Definition only_reads {P B C} : relation (Process P B C) := λ s s',
  same_records (ps_world s) (ps_world s').
#[export] Instance only_reads_preorder {P B C} : PreOrder (only_reads (P := P) (B := B) (C := C)).
Proof. unfold only_reads. split; [by intros s|intros s t u Hst Htu; by transitivity (ps_world t)]. Qed.

Section gateway_side.
Context {P B C : Type} `{IdentityProvider P} `{RateLimitBackend B} `{CatalogStore C}.
Context `{PydanticLax} `{SqlGlot} `{SqlStatements} `{External} `{TimedSerializer}.
Context (gs : GatewayState) (secret issuer : string).

Abbreviation quiet m := (preserves (sends_nothing (P := P) (B := B) (C := C)) m).
Abbreviation still m := (preserves (only_reads (P := P) (B := B) (C := C)) m).

Lemma still_quiet {A} (m : M (Process P B C) http_error A) : still m → quiet m.
Proof. apply preserves_sub. by intros s s' (_ & _ & _ & ?). Qed.

Lemma still_lift {A} (r : res http_error A) : still (lift_res r).
Proof. by destruct r. Qed.
Lemma still_resolve c a : still (resolve_identity c a).
Proof. intros s. unfold resolve_identity. by destruct (resolve_by_external_account _ _ _). Qed.
Lemma still_on_store {A} (m : M C exn A) : still (on_store m).
Proof. intros s. unfold on_store. by destruct (m _). Qed.
Lemma still_view id : still (view_approval id).
Proof. by intros s. Qed.
Hint Resolve still_lift still_resolve still_on_store still_view : numi.

Lemma still_manager c a : still (require_manager c a).
Proof. unfold require_manager. walk. Qed.
Hint Resolve still_manager : numi.

Lemma still_tools n t c a : still (list_tools gs secret issuer n t c a).
Proof. unfold list_tools. walk. Qed.
Lemma still_servers n t : still (Endpoints.list_servers gs secret issuer n t).
Proof. unfold Endpoints.list_servers. walk. Qed.
Lemma still_catalog n t i : still (Endpoints.get_server_catalog gs secret issuer n t i).
Proof. unfold Endpoints.get_server_catalog. walk. Qed.
Lemma still_approval n t i : still (get_approval secret issuer n t i).
Proof. unfold get_approval. walk. Qed.
Lemma still_refresh_all n t c a : still (refresh_all_endpoint gs secret issuer n t c a).
Proof. unfold refresh_all_endpoint. walk. Qed.
Lemma still_refresh_one n t i c a : still (refresh_one_endpoint gs secret issuer n t i c a).
Proof. unfold refresh_one_endpoint. walk. Qed.

(** deciding an approval: the session's operations keep the sent requests *)
Definition sent_same : relation (World B C) := λ w w', w_executions w' = w_executions w.
#[local] Instance sent_same_preorder : PreOrder sent_same.
Proof. split; unfold sent_same; [done|congruence]. Qed.
Lemma sent_on_approvals {A} (m : M ApprovalDb exn A) : preserves sent_same (on_approvals m).
Proof. intros w. unfold on_approvals. by destruct (m _). Qed.
Lemma sent_on_catalog {A} (m : M C exn A) : preserves sent_same (on_catalog m).
Proof. intros w. unfold on_catalog. by destruct (m _). Qed.
Lemma sent_audit e : preserves sent_same (audit_record e).
Proof. by intros w. Qed.
Lemma sent_lift {A} (r : res exn A) : preserves sent_same (lift_res r).
Proof. by destruct r. Qed.
Hint Resolve sent_on_approvals sent_on_catalog sent_audit sent_lift : numi.
Lemma sent_decide id i d now : preserves sent_same (decide_inner gs id i d now).
Proof. unfold decide_inner, approver_check. walk. Qed.
Lemma quiet_decide n t id c a d now : quiet (decide_approval gs secret issuer n t id c a d now).
Proof.
  unfold decide_approval. apply preserves_bind; [apply _|apply still_quiet, still_lift|intros _].
  apply preserves_bind; [apply _|apply still_quiet, still_resolve|intros i]. intros s. unfold decide_in_session.
  case_match; [done|]. pose proof (sent_decide id i d now (ps_world s)) as Hd.
  by destruct (decide_inner _ _ _ _ _ _) as [[st|e] w].
Qed.
End gateway_side.

(** what a served request may have executed: a tool call at most the tool it names, and
    nothing else anything *)
Definition ran_tool (gs : GatewayState) (request : ToolCallRequest) (before after : list ExecutionRequest)
    : Prop :=
  after = before ∨ ∃ e t, after = before ++ [e] ∧ er_tool_id e = td_tool_id t ∧
    dict_get (tr_tool_id request) (gs_tools gs) = Some t.
Definition route_ran (gs : GatewayState) {A} (r : Route A) (before after : list ExecutionRequest) : Prop :=
  match r with PostToolCall body => ran_tool gs body before after | _ => after = before end.

Lemma registry_get_found tools id version t : registry_get tools id version = Ok t →
  dict_get id tools = Some t.
Proof. unfold registry_get. destruct (dict_get id tools); [|done]. by repeat case_match; intros [= ->]. Qed.

Section site_facts.
Context {P B C : Type} `{IdentityProvider P} `{RateLimitBackend B} `{CatalogStore C}.
Context `{PydanticLax} `{SqlGlot} `{SqlStatements} `{External} `{TimedSerializer}.
Context (gs : GatewayState) (secret issuer : string) (flags : ToolFlags).
Hypothesis catalog : gs_tools gs = registry_tools flags.
Context (delivery : nat → Delivery) (now now_seconds agent_seconds : nat → Z).
Context (inputs : nat → CallInputs) (correlation : bool) (lookback_days : Z).
Context (isoformat : Z → string).

Abbreviation sent s := (w_executions (ps_world (st_process s))).
Abbreviation served := (serve (P := P) (B := B) (C := C) gs secret issuer now now_seconds inputs
  correlation lookback_days isoformat).

Lemma submit_ran n ci t body (s : Process P B C) :
  ran_tool gs body (w_executions (ps_world s))
    (w_executions (ps_world (submit_tool_call gs secret issuer n ci t body s).2)).
Proof.
  unfold submit_tool_call, mbind, M_bind, lift_res.
  destruct (require_agent_service_token _ _ _ _); [|by left].
  destruct (resolve_identity _ _ s) as [[i|e] s1] eqn:Er;
    apply resolve_identity_inv in Er as [<- _]; [|by left].
  unfold handle_in_session.
  destruct (handle gs (tr_channel body) "agent/0.1.0" ci i body (ps_world s1)) as [r w] eqn:Eh.
  apply handle_execution in Eh as Hx.
  assert (ran_tool gs body (w_executions (ps_world s1)) (w_executions w)) as Hran.
  { destruct Hx as [->|(p & Hg & -> & _ & _ & _ & Hid & _)]; [by left|]. right.
    exists (exec_request ci p), (pr_tool p). split; [done|]. split; [exact Hid|]. eapply registry_get_found, gp_tool, Hg. }
  by destruct r.
Qed.

Lemma served_process {A} (m : M (Process P B C) http_error A) (s : Site P B C) r s' :
  preserves sends_nothing m → in_process m s = (r, s') → sent s' = sent s.
Proof.
  intros Hm. unfold in_process. specialize (Hm (st_process s)). destruct (m _) as [r' p].
  by intros [= _ <-].
Qed.

(** the other stores are not the process *)
Lemma in_investigations_process {A} (m : M InvestigationDb exn A) :
  preserves (λ s s' : Site P B C, st_process s' = st_process s) (in_investigations m).
Proof. intros s. unfold in_investigations. by destruct (m _). Qed.
Lemma in_decisions_process {A} (m : M (list DecisionEvent) exn A) :
  preserves (λ s s' : Site P B C, st_process s' = st_process s) (in_decisions m).
Proof. intros s. unfold in_decisions. by destruct (m _). Qed.
#[local] Instance same_process_preorder : PreOrder (λ s s' : Site P B C, st_process s' = st_process s).
Proof. split; [done|by intros ? ? ? <-]. Qed.
Lemma lift_process {A} (r : res http_error A) :
  preserves (λ s s' : Site P B C, st_process s' = st_process s) (lift_res r).
Proof. by destruct r. Qed.
Hint Resolve in_investigations_process in_decisions_process lift_process : numi.
Lemma served_elsewhere {A} (m : M (Site P B C) http_error A) (s : Site P B C) r s' :
  preserves (λ s s' : Site P B C, st_process s' = st_process s) m → m s = (r, s') → sent s' = sent s.
Proof. intros Hm E. specialize (Hm s). rewrite E in Hm. by rewrite -Hm. Qed.

Lemma serve_ran {A} n (r : Route A) token s : route_ran gs r (sent s) (sent (served n r token s).2).
Proof.
  destruct r; cbn;
    try (match goal with |- context [in_process ?m s] => destruct (in_process m s) as [r s'] eqn:E end;
         cbn; (eapply served_process; [|exact E]);
         first [apply quiet_decide|apply still_quiet;
           first [apply still_tools|apply still_servers|apply still_catalog|apply still_refresh_all
                 |apply still_refresh_one]]).
  { unfold in_process. pose proof (submit_ran (now_seconds n) (inputs n) (Some token) body (st_process s)) as Hs.
    destruct (submit_tool_call _ _ _ _ _ _ _ _) as [r p]. exact Hs. }
  all: unfold post_investigation, patch_investigation, post_investigation_event, read_memory,
    read_patterns, post_decision_event, guarded, found, checked_limit;
    match goal with |- context [match ?t with pair _ _ => _ end] => destruct t as [r' s'] eqn:E end;
    cbn; eapply served_elsewhere; [|exact E]; walk.
Qed.

(** *** Over the network *)

Context {L : Type} `{LLMProvider L} `{AgentRuntime L}.
Abbreviation world := (Site P B C * L)%type.
#[local] Instance http : GatewayHttp world :=
  site_http gs secret issuer delivery now now_seconds agent_seconds inputs correlation lookback_days
    isoformat.
#[local] Instance client : GatewayClient world := tool_client secret issuer.
#[local] Existing Instance site_llm.
#[local] Existing Instance site_runtime.

Lemma send_ran {A} (r : Route A) (x : world) :
  route_ran gs r (executions x) (executions (send secret issuer r x).2).
Proof.
  unfold send, headers, mbind, M_bind. cbn.
  set (token := issue_token _ _ _ _ _). clearbody token. unfold exchange, executions.
  pose proof (serve_ran (st_requests x.1) r token x.1) as Hs.
  destruct (delivery _); [| |]; try (destruct (served _ r token x.1) as [reply s']; exact Hs).
  destruct r; cbn; [by try left..].
Qed.

(** what a call does after the reply stays with the Agent *)
Lemma after_send_ran {A R} (r : Route A) (k : HttpReply A → M world exn R) (x : world) :
  (∀ reply y, (k reply y).2 = y) →
  route_ran gs r (executions x) (executions ((send secret issuer r ≫= k) x).2).
Proof.
  intros Hk. pose proof (send_ran r x) as Hs. unfold mbind, M_bind.
  destruct (send secret issuer r x) as [[reply|e] y]; [|exact Hs]. by rewrite Hk.
Qed.
Lemma fetch_ran {A} (r : Route A) (x : world) :
  route_ran gs r (executions x) (executions (fetch secret issuer r x).2).
Proof.
  unfold fetch. apply after_send_ran. intros reply y. unfold mbind, M_bind, lift_res.
  by destruct (raise_for_status reply).
Qed.
Lemma forget_ran (r : Route unit) (x : world) :
  route_ran gs r (executions x) (executions (post_and_forget secret issuer r x)).
Proof.
  unfold post_and_forget, best_effort.
  pose proof (after_send_ran r (λ reply, lift_res (raise_for_status reply)) x) as Hs.
  destruct ((send secret issuer r ≫= _) x) as [[[]|e] y]; apply Hs; done.
Qed.

Lemma best_effort_ran {A} (r : Route A) otherwise (x : world) :
  route_ran gs r (executions x) (executions (best_effort otherwise (fetch secret issuer r) x).2).
Proof. unfold best_effort. pose proof (fetch_ran r x) as Hs. by destruct (fetch _ _ _ _) as [[a|e] y]. Qed.

Lemma listed_in_catalog n token c a (s : Process P B C) l s' t :
  list_tools gs secret issuer n token c a s = (Ok l, s') → t ∈ l →
  dict_get (td_tool_id t) (gs_tools gs) = Some t.
Proof.
  intros Hl Ht. assert (t ∈ map snd (gs_tools gs)) as Hin.
  { revert Hl. unfold list_tools, mbind, M_bind, lift_res, mret, M_ret.
    destruct (require_agent_service_token _ _ _ _); [|done].
    assert (∀ role, t ∈ tools_for_role (gs_tools gs) role → t ∈ map snd (gs_tools gs)) as Hrole.
    { intros role. unfold tools_for_role. by intros [? _]%filter_elem_of. }
    repeat case_match; intros [= <-]; subst; try done; set_solver. }
  rewrite catalog registry_tools_eq map_map map_id in Hin. rewrite catalog. by apply registry_lookup.
Qed.

Lemma offered_from_catalog c a (x : world) l x' t :
  fetch secret issuer (GetTools c a) x = (Ok l, x') → t ∈ l →
  ∃ tool, dict_get (ot_tool_id t) (gs_tools gs) = Some tool ∧
    td_operation_type tool = ot_operation_type t.
Proof.
  unfold fetch, send, headers, mbind, M_bind, lift_res. cbn.
  set (token := issue_token _ _ _ _ _). clearbody token. unfold exchange.
  destruct (delivery _); [|done|by destruct (served _ _ _ _)]. cbn. unfold in_process.
  destruct (list_tools _ _ _ _ _ _ _ _) as [[tools|e] p] eqn:El; cbn;
    [|by destruct e; cbn; unfold raise_for_status; cbn; repeat case_match].
  intros [= <- _] Ht. apply list_elem_of_fmap in Ht as (tool & -> & Hin). exists tool.
  split; [|done]. eapply listed_in_catalog; [exact El|exact Hin].
Qed.

Lemma site_executes_named request (x : world) :
  let x' := (fetch secret issuer (PostToolCall request) x).2 in
  executions x' = executions x ∨
  ∃ e, executions x' = executions x ++ [e] ∧ er_tool_id e = tr_tool_id request.
Proof.
  cbv zeta. destruct (fetch_ran (PostToolCall request) x) as [?|(e & t & He & Hid & Ht)]; [by left|].
  right. exists e. split; [exact He|]. rewrite Hid. rewrite catalog in Ht.
  by apply registry_lookup in Ht as [_ ->].
Qed.

(** the deployed Gateway behind the Agent's client *)
#[local] Opaque registry_tools.
#[local] Instance site_log : ExecutionLog world.
Proof.
  refine {| ran := executions;
            classified id op := ∃ tool, dict_get id (registry_tools flags) = Some tool ∧
                                        td_operation_type tool = op;
            ran_submit := site_executes_named |}; cbn; intros.
  - apply (fetch_ran (GetTools c a)).
  - rename select (_ = (Ok _, _)) into Hf. rename select (_ ∈ _) into Ht.
    destruct (offered_from_catalog _ _ _ _ _ _ Hf Ht) as (tool & Hd & Ho). exists tool.
    by rewrite -catalog.
  - apply (fetch_ran GetServers).
  - apply (forget_ran (PostInvestigation r)).
  - apply (forget_ran (PatchInvestigation i r)).
  - apply (best_effort_ran (GetMemory s (Some i) n)).
  - apply (best_effort_ran (GetCorrelate p e s 5)).
  - apply (forget_ran (PostDecisionEvent r)).
  - unfold agent_side. by destruct (llm_decide_next_action c a x.2).
  - unfold agent_side. by destruct (llm_critique_conclusion c a x.2).
  - unfold agent_side. by destruct (new_ulid x.2).
  - unfold agent_side. by destruct (utc_now x.2).
Defined.

(** deliveries go through the Agent's own world *)
Context `{DigestPublisher L} `{FieldFormatter} {K : Type} `{RateLimitBackend K}.
#[local] Instance site_publisher : DigestPublisher world :=
  {| publish c t := λ x, let '(r, l) := publish c t x.2 in (r, (x.1, l)) |}.
#[local] Instance site_publisher_quiet : QuietPublisher world.
Proof. intros c t x. cbn. by destruct (publish c t x.2). Qed.

Definition catalog_read (e : ExecutionRequest) : Prop :=
  ∃ tool, dict_get (er_tool_id e) (registry_tools flags) = Some tool ∧ td_operation_type tool = READ.
(** what is sent to the execution service between two worlds *)
Definition sends (x x' : world) (ex : list ExecutionRequest) : Prop := executions x' = executions x ++ ex.

(** C6: end to end, what the Agent does with nobody there makes the databases execute reads
    only: whatever the model proposes and whatever the network loses, behind the Agent's
    client and the Gateway's endpoints serving the built-in catalog, a scheduled or
    triggered run makes the Gateway send at most six requests to the execution service, and
    a run, a digest of all servers or a handled alert only requests for tools the catalog
    classifies READ *)
Theorem unattended_run_executes_reads cfg (d : Desk world) :
  (∀ server environment channel account (run : M (Desk world) exn ScheduledSummary),
     unattended_entry cfg server environment channel account run →
     ∃ ex, sends (dk_world d) (dk_world (run d).2) ex ∧ (length ex ≤ 6)%nat ∧ Forall catalog_read ex) ∧
  (∀ strftime, ∃ ex, sends (dk_world d) (dk_world (run_once cfg strftime d).2) ex ∧
     Forall catalog_read ex) ∧
  (∀ instant alert (cooldowns : K), ∃ ex,
     sends (dk_world d) (dk_world (handle_alert cfg instant alert (d, cooldowns)).2.1) ex ∧
     Forall catalog_read ex).
Proof.
  split_and!.
  - intros server environment channel account run Hrun.
    destruct (unattended_executes cfg server environment channel account run d Hrun) as (ex & He & Hf & Hl).
    exists ex. by split_and!.
  - intros strftime. exact (reading_digest cfg strftime d).
  - intros instant alert cooldowns. exact (reading_alert cfg instant alert (d, cooldowns)).
Qed.
End site_facts.

(** *** A deployment to run *)

Definition deployed_site : Site MockIdentityProvider InMemoryBuckets InMemoryCatalog :=
  mk_site (example_process empty_world) {| idb_rows := []; idb_events := [] |} [] 0.
(** the model wants to kill a session, then asks for the top queries *)
Definition deployed_script : Script := empty_script
  <| sc_actions := [Ok (ProposeToolCall (proposal "database.kill_session" "51"));
                    Ok (ProposeToolCall {|
                      tp_tool_id := "database.get_top_queries"; tp_arguments := [("limit", JInt 5)];
                      tp_target := [("database", JStr "core")]; tp_reason := "slow" |});
                    Ok (Conclude (script_conclusion "one query dominates"))] |>.
#[local] Instance deployed_client
    : GatewayClient (Site MockIdentityProvider InMemoryBuckets InMemoryCatalog * Script) :=
  @client _ _ _ (mock_provider "now") in_memory_backend in_memory_catalog strict_lax no_sqlglot
    no_sql_statements (answering (Ok one_row)) symbolic_serializer catalog_gateway "k" "numi"
    (λ _, Served) (λ _, 0%Z) (λ _, 110%Z) (λ _, 100%Z) (λ _, ticks) true 30 (λ _, "") Script.
#[local] Existing Instance site_llm.
#[local] Existing Instance site_runtime.
Definition deployed_run : M (Desk (Site MockIdentityProvider InMemoryBuckets InMemoryCatalog * Script))
    exn ScheduledSummary :=
  run_triggered_investigation script_settings "sqlserver-prod-01" "production" "slack" "U1" "lag".
Definition deployed_desk
    : Desk (Site MockIdentityProvider InMemoryBuckets InMemoryCatalog * Script) :=
  mk_desk ∅ (deployed_site, deployed_script) [].

Lemma deployed_entry : unattended_entry script_settings "sqlserver-prod-01" "production" "slack" "U1"
  deployed_run.
Proof. right. by exists "lag". Qed.

Lemma unattended_run_executes_reads_witness :
  map er_tool_id (executions (dk_world (deployed_run deployed_desk).2)) = ["database.get_top_queries"] ∧
  ∃ ex, sends (dk_world deployed_desk) (dk_world (deployed_run deployed_desk).2) ex ∧
    (length ex ≤ 6)%nat ∧ Forall (catalog_read no_flags) ex.
Proof.
  split; [vm_compute; reflexivity|].
  exact (proj1 (@unattended_run_executes_reads _ _ _ (mock_provider "now") in_memory_backend
    in_memory_catalog strict_lax no_sqlglot no_sql_statements (answering (Ok one_row)) symbolic_serializer
    catalog_gateway "k" "numi" no_flags eq_refl (λ _, Served) (λ _, 0%Z) (λ _, 110%Z) (λ _, 100%Z)
    (λ _, ticks) true 30 (λ _, "") Script _ _ _ _ _ in_memory_backend script_settings deployed_desk)
    "sqlserver-prod-01" "production" "slack" "U1" deployed_run deployed_entry).
Defined.
