(* ===== verification/AgentApp.v ===== *)
(** The Agent's service: [agent/api/app.py] over the conversations of [Orchestrator] and the
    alerts of [Alerts], as the [AgentService] of [Channels]; the delivery of digests through
    [/v1/notify].  Composed with the Channels service and the Gateway: what an alert can make
    the execution service run, and what a click decides. *)
From S2P Require Import Prelude ProgramLogic Json Text Models ToolCatalog Servers Policy RateLimit.
From S2P Require Import Approval DataPolicy Discovery Gateway Identity Endpoints Execution Investigations Fallback.
From S2P Require Import Playbooks Conversation Config LLMRegistry AgentApi AgentScript Investigator.
From S2P Require Import InvestigatorFacts Orchestrator OrchestratorFacts Digest Alerts Channels.
From S2P Require Import ChannelFacts EndToEnd.

(* ------------------------------------------------------------------ *)
(** ** Delivery through the Channels service *)

(** [POST /v1/notify]: the status of the answer, or the failure of the connection *)
Class ChannelsHttp (X : Type) `{TimedSerializer} : Type := {
  notify_send : ts_token → NotifyRequest → M X exn Z;
  notify_seconds : X → Z
}.
(** [response.raise_for_status()] *)
Definition notify_accepted (status : Z) : res exn unit :=
  if (200 <=? status)%Z && (status <? 300)%Z then Ok tt
  else Err (PyError "HTTPStatusError" (pretty status)).

Section publisher.
Context {X : Type} `{ChannelsHttp X}.
Context (cfg : Settings).
(** [ChannelsDigestPublisher.publish] *)
Definition channels_publish (channel_id text : string) : M X exn unit := λ x,
  let token := issue_token (st_service_jwt_secret cfg) (st_service_jwt_issuer cfg) (notify_seconds x)
                 "agent" "numi-channels" in
  (status ← notify_send token {| nq_channel_id := channel_id; nq_text := text |};
   lift_res (notify_accepted status)) x.
Definition channels_publisher : DigestPublisher X := {| publish := channels_publish |}.
End publisher.

(* ------------------------------------------------------------------ *)
(** ** agent/api/app.py *)

Section agent_app.
Context {X B : Type} `{GatewayClient X} `{LLMProvider X} `{AgentRuntime X} `{DigestPublisher X}.
Context `{RateLimitBackend B} `{FieldFormatter} `{TimedSerializer}.
Context (cfg : Settings).

(** an exception nothing catches is a 500 *)
Definition in_handler {S A} (m : M S exn A) : M S http_error A := λ s,
  let '(r, s) := m s in (match r with Ok a => Ok a | Err e => Err (Unhandled e) end, s).

(** [require_channel_service_token] *)
Definition require_channel_service_token (now_seconds : Z) (x_service_token : option ts_token)
    : res http_error unit :=
  match x_service_token with
  | None => Err (HTTPException 401 "Missing service token.")
  | Some token =>
      match verify_token (st_service_jwt_secret cfg) (st_service_jwt_issuer cfg) token "numi-agent"
              now_seconds with
      | Ok _ => Ok tt
      | Err _ => Err (HTTPException 401 "Invalid service token.")
      end
  end.

(** the three routes *)
Definition chat (now_seconds : Z) (token : option ts_token) (body : ChatRequest)
    : M (Desk X * B) http_error AgentReply :=
  _ ← lift_res (require_channel_service_token now_seconds token);
  in_handler (on_desk (handle_message cfg (cq_channel body) (cq_channel_account_id body)
    (cq_conversation_id body) (cq_channel_thread_id body) (cq_message body))).
Definition chat_events (now_seconds : Z) (token : option ts_token) (body : ApprovalEventRequest)
    : M (Desk X * B) http_error AgentReply :=
  _ ← lift_res (require_channel_service_token now_seconds token);
  in_handler (on_desk (decide_in_conversation (aq_conversation_id body) (aq_decision body)
    (aq_channel body) (aq_channel_account_id body))).
Definition alert_payload (body : AlertTriggerRequest) : AlertPayload := {|
  al_server := ar_server body; al_metric := ar_metric body;
  al_current_value := ar_current_value body; al_threshold := ar_threshold body;
  al_severity := ar_severity body; al_source := ar_source body; al_message := ar_message body |}.
Definition alerts_trigger (now_seconds monotonic : Z) (token : option ts_token)
    (body : AlertTriggerRequest) : M (Desk X * B) http_error AlertTriggerResponse :=
  _ ← lift_res (require_channel_service_token now_seconds token);
  outcome ← in_handler (handle_alert cfg monotonic (alert_payload body));
  mret {| an_ok := ao_ok outcome; an_error := ao_error outcome |}.

(** the service as its clients see it: every failure is a status the client raises.  The
    clocks are read from the process. *)
Context (seconds monotonic : Desk X * B → Z).
Definition as_service {A} (m : M (Desk X * B) http_error A) : M (Desk X * B) exn A := λ s,
  let '(r, s) := m s in
  (match r with
   | Ok a => Ok a
   | Err (HTTPException status _) => Err (PyError "HTTPStatusError" (pretty status))
   | Err (Unhandled _) => Err (PyError "HTTPStatusError" "500")
   end, s).
Definition agent_service : AgentService (Desk X * B) := {|
  post_chat token body := λ s, as_service (chat (seconds s) (Some token) body) s;
  post_chat_event token body := λ s, as_service (chat_events (seconds s) (Some token) body) s;
  post_alert_trigger token body := λ s,
    as_service (alerts_trigger (seconds s) (monotonic s) (Some token) body) s
|}.
End agent_app.

(* ------------------------------------------------------------------ *)
(** ** A monitoring alert, from the webhook to the databases *)

Section alert_to_database.
Context {X P K : Type} `{QuietPublisher X} `{FieldFormatter} `{RateLimitBackend K}.
Context `{IdentityProvider P} `{TimedSerializer} `{Hmac} `{BotFramework}.
Context (cfg : Settings) (seconds monotonic : Desk X * K → Z).
Context (json_loads : string → res exn json) (py_repr : json → string).
Context `{!MessagingApi (Desk X * K)}.
#[local] Instance the_agent : AgentService (Desk X * K) := agent_service cfg seconds monotonic.

(** the Agent's world, in the state of the Channels service *)
Abbreviation world c := (dk_world (cn_world c).1).

Lemma reading_alert_post token body (s : Desk X * K) :
  reading s.1 (post_alert_trigger token body s).2.1.
Proof.
  cbn. unfold as_service, alerts_trigger, mbind, M_bind, lift_res.
  destruct (require_channel_service_token _ _ _) as [[]|e]; [|cbn; destruct e; cbn; by apply reading_same].
  unfold in_handler. pose proof (reading_alert cfg (monotonic s) (alert_payload body) s) as Hr.
  destruct (handle_alert _ _ _ _) as [[o|e] s']; exact Hr.
Qed.

#[local] Existing Instance reading_preorder.
Definition channels_reading (c c' : Channels P (Desk X * K)) : Prop :=
  reading (cn_world c).1 (cn_world c').1.
#[local] Instance channels_reading_preorder : PreOrder channels_reading.
Proof. split; unfold channels_reading; [intros c; reflexivity|intros c d e Hc Hd; etrans; [exact Hc|exact Hd]]. Qed.

Lemma reading_channel_value {A} (r : res exn A) :
  preserves channels_reading (from_value (P := P) (X := Desk X * K) r).
Proof. intros c. destruct r; unfold channels_reading; cbn; reflexivity. Qed.
Lemma reading_channel_401 kind detail r :
  preserves channels_reading (or_401 (P := P) (X := Desk X * K) kind detail r).
Proof.
  intros c. destruct r as [[]|[|k t]]; unfold or_401; [| |case_bool_decide];
    unfold channels_reading; cbn; reflexivity.
Qed.
Lemma reading_channel_seen mono id :
  preserves channels_reading (alert_already_seen (P := P) (X := Desk X * K) mono id).
Proof.
  intros c. unfold alert_already_seen, channels_reading. destruct (already_seen _ _ _). cbn. reflexivity.
Qed.
Lemma reading_channel_note e : preserves channels_reading (note_event (P := P) (X := Desk X * K) e).
Proof. intros c. unfold channels_reading. cbn. reflexivity. Qed.
Lemma reading_channel_alert token body :
  preserves channels_reading (from_service (P := P) (post_alert_trigger token body)).
Proof.
  intros c. pose proof (reading_alert_post token body (cn_world c)) as Hr.
  unfold from_service, channels_reading. by destruct (post_alert_trigger _ _ _).
Qed.
Hint Resolve reading_channel_value reading_channel_401 reading_channel_seen reading_channel_note
  reading_channel_alert : numi.

(** C8: whatever a monitoring system sends to the alert webhook, signed or not, repeated or
    not, and whatever the model then proposes, the requests that reach the execution service
    while it is handled are for tools the Gateway classifies READ. *)
Theorem alert_webhook_executes_reads now mono raw_body timestamp signature (c : Channels P (Desk X * K)) :
  ∃ executed,
    ran (world (alerts_webhook json_loads py_repr cfg now mono raw_body timestamp signature c).2)
    = ran (world c) ++ executed ∧
    Forall (λ e, classified (er_tool_id e) READ) executed.
Proof.
  revert c. change (preserves channels_reading
    (alerts_webhook json_loads py_repr cfg now mono raw_body timestamp signature)).
  unfold alerts_webhook, call_agent_alert_trigger, discard. walk.
Qed.
End alert_to_database.

(* ------------------------------------------------------------------ *)
(** ** A deployment that takes an alert *)

Abbreviation alert_world := (Site MockIdentityProvider InMemoryBuckets InMemoryCatalog * Script)%type.
#[local] Existing Instance deployed_client.
#[local] Existing Instance site_llm.
#[local] Existing Instance site_runtime.
#[local] Existing Instance site_publisher.
#[local] Instance example_provider : IdentityProvider MockIdentityProvider := mock_provider "now".
#[local] Existing Instance symbolic_serializer.
#[local] Existing Instance in_memory_backend.
#[local] Existing Instance one_signature.
#[local] Existing Instance no_bots.
#[local] Instance deployed_log : ExecutionLog alert_world :=
  @site_log _ _ _ (mock_provider "now") in_memory_backend in_memory_catalog strict_lax no_sqlglot
    no_sql_statements (answering (Ok one_row)) symbolic_serializer catalog_gateway "k" "numi" no_flags
    eq_refl (λ _, Served) (λ _, 0%Z) (λ _, 110%Z) (λ _, 100%Z) (λ _, ticks) true 30 (λ _, "") Script _ _.
#[local] Instance deployed_publisher : QuietPublisher alert_world :=
  site_publisher_quiet catalog_gateway "k" "numi" no_flags eq_refl (λ _, Served) (λ _, 0%Z) (λ _, 110%Z)
    (λ _, 100%Z) (λ _, ticks) true 30 (λ _, "").
#[local] Instance silent_messages {X} : MessagingApi X := {|
  slack_chat_post _ _ _ x := (Ok tt, x);
  slack_chat_update _ _ _ _ x := (Ok tt, x);
  teams_post_activity _ _ _ _ _ x := (Ok tt, x)
|}.

Definition alerting_settings : Settings := script_settings
  <| st_alert_webhook_slack_channel := "C1" |> <| st_alert_webhook_secret := "s" |>
  <| st_alert_webhook_identity_channel := "slack" |> <| st_alert_webhook_identity_account := "U1" |>.
Definition lag_alert : json := JObj [("server", JStr "sqlserver-prod-01"); ("metric", JStr "lag")].
Definition alerted_channels : Channels MockIdentityProvider (Desk alert_world * InMemoryBuckets) :=
  mk_channels example_directory [] [] (deployed_desk, {| im_buckets := ∅ |}) [].
Definition taken_alert : Channels MockIdentityProvider (Desk alert_world * InMemoryBuckets) :=
  (@alerts_webhook _ _ _ (agent_service alerting_settings (λ _, 100%Z) (λ _, 0%Z)) _
     (λ _, Ok lag_alert) (λ _, "") alerting_settings (100 * SECOND)%Z 0%Z "..."
     (Some "100") (Some "sha256=5f") alerted_channels).2.

Lemma alert_webhook_executes_reads_witness :
  map er_tool_id (executions (dk_world (cn_world taken_alert).1)) = ["database.get_top_queries"] ∧
  ∃ executed, ran (dk_world (cn_world taken_alert).1)
                = ran (dk_world (cn_world alerted_channels).1) ++ executed ∧
    Forall (λ e, classified (er_tool_id e) READ) executed.
Proof.
  split; [vm_compute; reflexivity|].
  apply (alert_webhook_executes_reads alerting_settings (λ _, 100%Z) (λ _, 0%Z) (λ _, Ok lag_alert)
    (λ _, "") (100 * SECOND)%Z 0%Z "..." (Some "100") (Some "sha256=5f") alerted_channels).
Defined.

(* ------------------------------------------------------------------ *)
(** ** What a click decides *)

Definition desk_with_pending (conversation_id approval_id : string) (approvals : list (res exn ApprovalAnswer))
    : Desk Script * InMemoryBuckets :=
  let conv := new_conversation conversation_id "slack" "" "U1" 0 in
  let pending := {| pa_approval_id := approval_id; pa_tool_id := "database.kill_session";
                    pa_summary := "kill"; pa_request := top_request |} in
  (mk_desk {[ conversation_id := conv <| cs_pending_approval := Some pending |> ]}
     (empty_script <| sc_approvals := approvals |>) [], {| im_buckets := ∅ |}).
Definition script_token : @ts_token symbolic_serializer :=
  @issue_token symbolic_serializer (st_service_jwt_secret script_settings)
    (st_service_jwt_issuer script_settings) 100 "channels" "numi-agent".
Definition two_approvers : ApprovalAnswer :=
  {| aa_status := "AWAITING_SECOND_APPROVAL"; aa_detail := "" |}.
Definition approve_click (approval_id : string) : ApprovalEventRequest :=
  {| aq_channel := "slack"; aq_channel_account_id := "U1"; aq_conversation_id := "c";
     aq_approval_id := approval_id; aq_decision := "approve" |}.
Definition approve_text (approval_id : string) : ChatRequest :=
  {| cq_channel := "slack"; cq_channel_account_id := "U1"; cq_conversation_id := "c";
     cq_channel_thread_id := ""; cq_message := "/approve " +:+ approval_id |}.

(** the click on an old card approves the action that is pending now, where the command with
    the old card's id is refused *)
Theorem stale_card_approves_the_pending_action :
  let desk := desk_with_pending "c" "A2" [Ok two_approvers] in
  dk_trace (chat_events script_settings 100 (Some script_token) (approve_click "A1") desk).2.1
  = [EvApprove "A2" (Ok two_approvers)] ∧
  dk_trace (chat script_settings 100 (Some script_token) (approve_text "A1") desk).2.1 = [].
Proof. split; vm_compute; reflexivity. Qed.

(** a second DBA clicks Approve on a card posted outside a thread: the click goes to a
    conversation of their own, which has nothing pending; no approval is decided, the action
    stays pending where it was, and the card is collapsed to "Approved by" its clicker *)
Definition kim : DirectoryEntry :=
  {| di_subject_id := "kim"; di_email := "kim@example.com"; di_display_name := "Kim";
     di_channel_accounts := [("slack", "U2")]; di_groups := ["dba"; "dba-l1"]; di_mfa := true |}.
Definition posted_card : ApprovalCard := {|
  card_approval_id := "A1"; card_tool_id := "database.kill_session"; card_target_summary := "core";
  card_reason := "blocked"; card_risk_level := "HIGH"; card_blast_radius := "one session";
  card_expires_in_seconds := 600 |}.
Definition card_blocks : list json :=
  render_reply_blocks ((agent_reply "Approval needed." "approval_required" None)
    <| rp_approval_card := Some posted_card |>).
Definition click_payload (user : string) : json := JObj
  [("user", JObj [("id", JStr user)]); ("channel", JObj [("id", JStr "C1")]);
   ("actions", JArr [JObj [("action_id", JStr "numi_approve"); ("value", JStr "A1")]]);
   ("message", JObj [("ts", JStr "1.0"); ("text", JStr "Approval needed."); ("blocks", JArr card_blocks)])].
Definition clicked (user : string) : Channels MockIdentityProvider (Desk Script * InMemoryBuckets) :=
  let cfg := script_settings <| st_slack_bot_token := "xoxb" |> in
  (@slack_interactive _ _ _ _ (agent_service cfg (λ _, 100%Z) (λ _, 0%Z)) _
     (λ _, Ok (click_payload user)) cfg (100 * SECOND)%Z (Some (FormText "..."))
     (mk_channels {| mk_roles := mk_roles example_directory; mk_directory := [lou; kim] |} [] []
        (desk_with_pending "slack:C1:U1" "A1" [Ok two_approvers]) [])).2.

Theorem foreign_click_collapses_a_pending_card :
  let c := clicked "U2" in
  dk_trace (cn_world c).1 = [] ∧
  (pa_approval_id <$> (dk_conversations (cn_world c).1 !! "slack:C1:U1" ≫= cs_pending_approval)) = Some "A1" ∧
  List.filter (λ e, match e with CeUpdate _ _ _ _ => true | _ => false end) (cn_trace c)
  = [CeUpdate "C1" "1.0" "Approval needed." (resolve_approval_blocks card_blocks "A1" "approve" "Kim")] ∧
  dk_trace (cn_world (clicked "U1")).1 = [EvApprove "A1" (Ok two_approvers)].
Proof. split_and!; vm_compute; reflexivity. Qed.
