(* ===== verification/Credentials.v ===== *)
(** The credentials of the databases: [execution/credentials/provider.py].  A secrets manager
    is the class [SecretSdk]: importing its package, building a client, reading a secret. *)
From S2P Require Import Prelude ProgramLogic Json Text Models Fallback Conversation Config.

(* ------------------------------------------------------------------ *)
(** ** Values *)

(** what a secrets manager or [json.loads] hands back: [json.loads] takes [Infinity] and
    [NaN]; a finite float is known by its integral part and its text *)
Inductive py_float : Type := Finite (truncated : Z) (text : string) | Infinite (text : string) | NotANumber.
Inductive pyval : Type :=
| PNone
| PBool (b : bool)
| PInt (n : Z)
| PFloat (f : py_float)
| PStr (s : string)
| PBytes (s : string)
| PList (l : list pyval)
| PDict (d : list (string * pyval)).

Definition is_none (v : pyval) : bool := match v with PNone => true | _ => false end.
(** [d.get(k)] *)
Definition pget (k : string) (d : list (string * pyval)) : pyval := default PNone (dict_get k d).
Definition pyval_truthy (v : pyval) : bool :=
  match v with
  | PNone => false
  | PBool b => b
  | PInt n => negb (n =? 0)%Z
  | PFloat (Finite n text) => negb ((n =? 0)%Z && mem text ["0.0"; "-0.0"])
  | PFloat _ => true
  | PStr s | PBytes s => truthy s
  | PList l => negb (Nat.eqb (length l) 0)
  | PDict d => negb (Nat.eqb (length d) 0)
  end.

(** [int(v)] *)
Definition int_of (v : pyval) : res exn Z :=
  match v with
  | PBool b => Ok (Z.b2z b)
  | PInt n => Ok n
  | PFloat (Finite n _) => Ok n
  | PFloat (Infinite _) => Err (PyError "OverflowError" "cannot convert float infinity to integer")
  | PFloat NotANumber => Err (PyError "ValueError" "cannot convert float NaN to integer")
  | PStr s | PBytes s => match py_int s with
                         | Some n => Ok n
                         | None => Err (PyError "ValueError" "invalid literal for int() with base 10")
                         end
  | PNone | PList _ | PDict _ => Err (PyError "TypeError" "int() argument must be a string or a number")
  end.

(* ------------------------------------------------------------------ *)
(** ** Credentials *)

Record DatabaseCredentials : Type := {
  dc_host : string;
  dc_port : Z;
  dc_username : string;
  dc_password : string;
  dc_database : string;
  dc_options : list (string * pyval)
}.
#[export] Instance DatabaseCredentials_rebuild : Rebuild DatabaseCredentials := λ c, {|
  dc_host := dc_host c; dc_port := dc_port c; dc_username := dc_username c;
  dc_password := dc_password c; dc_database := dc_database c; dc_options := dc_options c |}.

(** [DatabaseCredentials.__repr__] *)
Definition credentials_repr (py_repr : string → string) (c : DatabaseCredentials) : string :=
  "DatabaseCredentials(host=" +:+ py_repr (dc_host c) +:+ ", username=" +:+ py_repr (dc_username c)
  +:+ ", password=***)".

Definition REQUIRED_SECRET_FIELDS : list string := ["host"; "port"; "username"; "password"; "database"].

(** [_NON_NAME_SAFE.sub("-", name)] *)
Definition name_safe (c : ascii) : bool := is_alnum (ascii_lower c) || bool_decide (c = "-"%char).
Definition non_name_safe_sub : string → string := str_map (λ c, if name_safe c then c else "-"%char).

Section errors.
(** [repr(exc)] *)
Context (repr_exn : exn → string).

(** [_sdk_missing_error] *)
Definition sdk_missing_error (provider_name package extra : string) (exc : exn) : exn :=
  NumiError DEPENDENCY_UNAVAILABLE
    ("The '" +:+ provider_name +:+ "' secrets manager integration requires the '" +:+ package
     +:+ "' package, which is not installed in this deployment. Install it with `pip install -e "
     +:+ String dquote (".[" +:+ extra +:+ "]" +:+ String dquote "` and restart the Execution Service."))
    ("ImportError importing SDK for '" +:+ provider_name +:+ "': " +:+ repr_exn exc).
(** [_backend_error] *)
Definition backend_error (provider_name database_id : string) (exc : exn) : exn :=
  NumiError DEPENDENCY_UNAVAILABLE
    ("Could not retrieve the database credential for '" +:+ database_id +:+ "' from the '"
     +:+ provider_name +:+ "' secrets manager. Refusing to execute rather than falling "
     +:+ "back to a less secure credential source.")
    (provider_name +:+ " get_credentials('" +:+ database_id +:+ "') failed: " +:+ repr_exn exc).
End errors.
(** [_malformed_secret_error] *)
Definition malformed_secret_error (provider_name database_id reason : string) : exn :=
  NumiError DEPENDENCY_UNAVAILABLE
    ("The '" +:+ provider_name +:+ "' secret for '" +:+ database_id +:+ "' is not a usable database "
     +:+ "credential (" +:+ reason +:+ "). Refusing to execute with an incomplete credential.")
    (provider_name +:+ " secret for '" +:+ database_id +:+ "' malformed: " +:+ reason).
(** [_UnconfiguredSecretsManagerProvider.get_credentials] *)
Definition unconfigured_error (name : string) : exn :=
  numi_error DEPENDENCY_UNAVAILABLE
    ("The '" +:+ name +:+ "' secrets manager integration is not configured in this "
     +:+ "deployment. Refusing to execute rather than falling back to a less secure "
     +:+ "credential source.").

Section payload.
(** [json.loads], [bytes.decode("utf-8")], and [str] of a list, a dict or bytes.  [json.loads]
    raises [JSONDecodeError] on what is not JSON, and a plain [ValueError] or [RecursionError] on
    an integer with too many digits or on too deep a nesting. *)
Context (json_loads : string → res exn pyval) (utf8_decode : string → option string).
Context (str_of_container : pyval → string).
Context (provider_name database_id : string).

Definition malformed {A} (reason : string) : res exn A :=
  Err (malformed_secret_error provider_name database_id reason).

(** [_decode_secret_json]: [JSONDecodeError] is caught, and nothing else [json.loads] raises *)
Definition decode_secret_json (raw : pyval) : res exn pyval :=
  raw ← match raw with
        | PBytes b => match utf8_decode b with
                      | Some s => Ok (PStr s)
                      | None => malformed "secret is not UTF-8 text"
                      end
        | _ => Ok raw
        end;
  match raw with
  | PStr s =>
      match json_loads s with
      | Err (PyError kind text) =>
          if bool_decide (kind = "JSONDecodeError") then malformed "secret is not a JSON object"
          else Err (PyError kind text)
      | r => r
      end
  | _ => Ok raw
  end.

(** [str(v)] *)
Definition str_of (v : pyval) : string :=
  match v with
  | PNone => "None"
  | PBool b => if b then "True" else "False"
  | PInt n => pretty n
  | PFloat (Finite _ text) | PFloat (Infinite text) => text
  | PFloat NotANumber => "nan"
  | PStr s => s
  | _ => str_of_container v
  end.

(** [payload.get(f) in (None, "")] *)
Definition is_missing (payload : list (string * pyval)) (f : string) : bool :=
  match pget f payload with PNone => true | PStr s => negb (truthy s) | _ => false end.
Definition missing_reason (missing : list string) : string :=
  "missing required field(s): " +:+ str_join ", " missing.

(** the credential of a secret with every field *)
Definition complete_credentials (payload options : list (string * pyval)) : res exn DatabaseCredentials :=
  match int_of (pget "port" payload) with
  | Ok port => Ok {| dc_host := str_of (pget "host" payload); dc_port := port;
                     dc_username := str_of (pget "username" payload);
                     dc_password := str_of (pget "password" payload);
                     dc_database := str_of (pget "database" payload); dc_options := options |}
  | Err (PyError kind text) =>
      if mem kind ["TypeError"; "ValueError"] then malformed "'port' is not an integer"
      else Err (PyError kind text)
  | Err e => Err e
  end.
(** [_credentials_from_payload] *)
Definition credentials_from_payload (payload : pyval) : res exn DatabaseCredentials :=
  match payload with
  | PDict payload =>
      match List.filter (is_missing payload) REQUIRED_SECRET_FIELDS with
      | (_ :: _) as missing => malformed (missing_reason missing)
      | [] =>
          match pget "options" payload, pyval_truthy (pget "options" payload) with
          | v, true =>
              match v with
              | PDict options => complete_credentials payload options
              | _ => malformed "'options' is present but is not an object"
              end
          | _, false => complete_credentials payload []
          end
      end
  | _ => malformed "secret is not a JSON object"
  end.
End payload.

(* ------------------------------------------------------------------ *)
(** ** The secrets managers *)

(** the packages of one manager: an import, the client built from the settings, and the
    reading of a secret by its name.  An object is the dict of its attributes. *)
Class SecretSdk (C : Type) : Type := {
  import_module : string → res exn unit;
  make_client : list (string * string) → res exn C;
  read_secret : C → list (string * string) → res exn pyval
}.

Record VaultCredentialProvider : Type := {
  va_addr : string; va_token : string; va_mount_point : string; va_path_prefix : string
}.
Record AWSSecretsManagerCredentialProvider : Type := { aw_region : string; aw_name_prefix : string }.
Record AzureKeyVaultCredentialProvider : Type := { az_vault_url : string; az_name_prefix : string }.
Record GCPSecretManagerCredentialProvider : Type := {
  gc_project_id : string; gc_name_prefix : string; gc_version : string
}.
Inductive CredentialProvider : Type :=
| LocalDev (config_path : string)
| Vault (p : VaultCredentialProvider)
| Aws (p : AWSSecretsManagerCredentialProvider)
| Azure (p : AzureKeyVaultCredentialProvider)
| Gcp (p : GCPSecretManagerCredentialProvider).

(** [path_prefix.strip("/")] and [name_prefix.rstrip("/")] *)
Fixpoint strip_slashes_left (s : string) : string :=
  match s with
  | String c s' => if bool_decide (c = "/"%char) then strip_slashes_left s' else s
  | EmptyString => EmptyString
  end.
Fixpoint strip_slashes_right (s : string) : string :=
  match s with
  | EmptyString => EmptyString
  | String c s => match strip_slashes_right s with
                  | EmptyString => if bool_decide (c = "/"%char) then EmptyString else String c EmptyString
                  | t => String c t
                  end
  end.

(** the constructors with their defaults, and [build_credential_provider] *)
Definition build_credential_provider (cfg : Settings) : res exn CredentialProvider :=
  let provider := st_secrets_provider cfg in
  if bool_decide (provider = "local_dev") then Ok (LocalDev "config/dev_credentials.yaml")
  else if bool_decide (provider = "vault") then
    Ok (Vault {| va_addr := st_vault_addr cfg; va_token := st_vault_token cfg; va_mount_point := "secret";
                 va_path_prefix := strip_slashes_right (strip_slashes_left "numi/db") |})
  else if bool_decide (provider = "aws_secrets_manager") then
    Ok (Aws {| aw_region := st_aws_region cfg; aw_name_prefix := strip_slashes_right "numi/db" |})
  else if bool_decide (provider = "azure_key_vault") then
    Ok (Azure {| az_vault_url := st_azure_key_vault_url cfg; az_name_prefix := "numi-db" |})
  else if bool_decide (provider = "gcp_secret_manager") then
    Ok (Gcp {| gc_project_id := st_gcp_project_id cfg; gc_name_prefix := "numi-db"; gc_version := "latest" |})
  else Err (numi_error DEPENDENCY_UNAVAILABLE ("Unknown secrets provider '" +:+ provider +:+ "'.")).

(** [name] *)
Definition provider_name (p : CredentialProvider) : string :=
  match p with
  | LocalDev _ => "local_dev"
  | Vault _ => "vault"
  | Aws _ => "aws_secrets_manager"
  | Azure _ => "azure_key_vault"
  | Gcp _ => "gcp_secret_manager"
  end.

(** [secret_path], [secret_name] and [secret_version_name] *)
Definition vault_secret_path (p : VaultCredentialProvider) (database_id : string) : string :=
  va_path_prefix p +:+ "/" +:+ database_id.
Definition aws_secret_name (p : AWSSecretsManagerCredentialProvider) (database_id : string) : string :=
  aw_name_prefix p +:+ "/" +:+ database_id.
Definition azure_secret_name (p : AzureKeyVaultCredentialProvider) (database_id : string) : string :=
  non_name_safe_sub (az_name_prefix p +:+ "-" +:+ database_id).
Definition gcp_secret_id (p : GCPSecretManagerCredentialProvider) (database_id : string) : string :=
  non_name_safe_sub (gc_name_prefix p +:+ "-" +:+ database_id).
Definition secret_version_name (p : GCPSecretManagerCredentialProvider) (database_id : string) : string :=
  "projects/" +:+ gc_project_id p +:+ "/secrets/" +:+ gcp_secret_id p database_id
  +:+ "/versions/" +:+ gc_version p.

Section providers.
Context {C : Type} `{SecretSdk C}.
Context (json_loads : string → res exn pyval) (utf8_decode : string → option string).
Context (str_of_container : pyval → string) (repr_exn : exn → string).
(** the entries of [dev_credentials.yaml], and [DatabaseCredentials] called with one of them *)
Context (dev_entries : list (string * pyval)) (dev_credentials : pyval → res exn DatabaseCredentials).

(** [_load_sdk]: [ImportError] and its subclass *)
Definition load_sdk (name module package extra : string) : res exn unit :=
  match import_module module with
  | Err (PyError kind text) =>
      if mem kind ["ImportError"; "ModuleNotFoundError"] then
        Err (sdk_missing_error repr_exn name package extra (PyError kind text))
      else Err (PyError kind text)
  | r => r
  end.

(** the modules of [_get_client] with their packages and extras, and what the client is
    built from *)
Definition sdk_modules (p : CredentialProvider) : list (string * string * string) :=
  match p with
  | LocalDev _ => []
  | Vault _ => [("hvac", "hvac", "secrets-vault")]
  | Aws _ => [("boto3", "boto3", "secrets-aws")]
  | Azure _ => [("azure.keyvault.secrets", "azure-keyvault-secrets", "secrets-azure");
                ("azure.identity", "azure-identity", "secrets-azure")]
  | Gcp _ => [("google.cloud.secretmanager", "google-cloud-secret-manager", "secrets-gcp")]
  end.
Definition client_arguments (p : CredentialProvider) : list (string * string) :=
  match p with
  | LocalDev _ | Gcp _ => []
  | Vault v => [("url", va_addr v); ("token", va_token v)]
  | Aws a => [("region_name", aw_region a)]
  | Azure z => [("vault_url", az_vault_url z)]
  end.
Fixpoint load_modules (name : string) (l : list (string * string * string)) : res exn unit :=
  match l with
  | [] => Ok tt
  | (module, package, extra) :: l => _ ← load_sdk name module package extra; load_modules name l
  end.
(** [_get_client]: the client is built once *)
Definition get_client (p : CredentialProvider) : M (option C) exn C := λ client,
  match client with
  | Some c => (Ok c, client)
  | None =>
      match (_ ← load_modules (provider_name p) (sdk_modules p); make_client (client_arguments p)) with
      | Ok c => (Ok c, Some c)
      | Err e => (Err e, None)
      end
  end.

(** whether the operator gave what the manager needs *)
Definition configured (p : CredentialProvider) : bool :=
  match p with
  | LocalDev _ => true
  | Vault v => truthy (va_addr v) && truthy (va_token v)
  | Aws a => truthy (aw_region a)
  | Azure z => truthy (az_vault_url z)
  | Gcp g => truthy (gc_project_id g)
  end.
(** the arguments of the reading call *)
Definition secret_address (p : CredentialProvider) (database_id : string) : list (string * string) :=
  match p with
  | LocalDev _ => []
  | Vault v => [("path", vault_secret_path v database_id); ("mount_point", va_mount_point v)]
  | Aws a => [("SecretId", aws_secret_name a database_id)]
  | Azure z => [("name", azure_secret_name z database_id)]
  | Gcp g => [("name", secret_version_name g database_id)]
  end.

(** *** What a response carries *)

(** [(response or {}).get("data", {}).get("data")] *)
Definition vault_payload (database_id : string) (response : pyval) : res exn pyval :=
  payload ← match response with
            | PDict d =>
                match dict_get "data" d with
                | None => Ok PNone
                | Some (PDict data) => Ok (pget "data" data)
                | Some _ => Err (PyError "AttributeError" "get")
                end
            | _ => Ok PNone
            end;
  if is_none payload then malformed "vault" database_id "response had no data.data object" else Ok payload.
(** [SecretString] or [SecretBinary] *)
Definition aws_payload (database_id : string) (response : pyval) : res exn pyval :=
  let name := "aws_secrets_manager" in
  match response with
  | PDict d =>
      let raw := if is_none (pget "SecretString" d) then pget "SecretBinary" d else pget "SecretString" d in
      if is_none raw then malformed name database_id "response had neither SecretString nor SecretBinary"
      else decode_secret_json json_loads utf8_decode name database_id raw
  | _ => malformed name database_id "response was not a mapping"
  end.
(** [getattr(v, k, None)] *)
Definition attribute (k : string) (v : pyval) : pyval :=
  match v with PDict d => pget k d | _ => PNone end.
Definition azure_payload (database_id : string) (secret : pyval) : res exn pyval :=
  let raw := attribute "value" secret in
  if is_none raw then malformed "azure_key_vault" database_id "secret had no value"
  else decode_secret_json json_loads utf8_decode "azure_key_vault" database_id raw.
Definition gcp_payload (database_id : string) (response : pyval) : res exn pyval :=
  let raw := attribute "data" (attribute "payload" response) in
  if is_none raw then malformed "gcp_secret_manager" database_id "response had no payload.data"
  else decode_secret_json json_loads utf8_decode "gcp_secret_manager" database_id raw.
Definition response_payload (p : CredentialProvider) (database_id : string) (response : pyval) : res exn pyval :=
  match p with
  | LocalDev _ => Ok response
  | Vault _ => vault_payload database_id response
  | Aws _ => aws_payload database_id response
  | Azure _ => azure_payload database_id response
  | Gcp _ => gcp_payload database_id response
  end.

(** *** [get_credentials] *)

(** of [LocalDevCredentialProvider] *)
Definition local_dev_credentials (database_id : string) : res exn DatabaseCredentials :=
  match pget database_id dev_entries with
  | PNone => Err (numi_error DEPENDENCY_UNAVAILABLE
                    ("No development credentials configured for '" +:+ database_id +:+ "'."))
  | entry => dev_credentials entry
  end.
(** of the four managers: the same steps in the same order.  Only the reading is guarded. *)
Definition managed_credentials (p : CredentialProvider) (database_id : string)
    : M (option C) exn DatabaseCredentials :=
  if negb (configured p) then raise (unconfigured_error (provider_name p))
  else
    client ← get_client p;
    lift_res
      (response ← match read_secret client (secret_address p database_id) with
                  | Ok response => Ok response
                  | Err e => Err (backend_error repr_exn (provider_name p) database_id e)
                  end;
       payload ← response_payload p database_id response;
       credentials_from_payload str_of_container (provider_name p) database_id payload).
Definition provider_credentials (p : CredentialProvider) (database_id : string)
    : M (option C) exn DatabaseCredentials :=
  match p with
  | LocalDev _ => lift_res (local_dev_credentials database_id)
  | _ => managed_credentials p database_id
  end.
End providers.

(* ------------------------------------------------------------------ *)
(** ** What a failure says *)

Fixpoint sublists {A} (l : list A) : list (list A) :=
  match l with
  | [] => [[]]
  | x :: l => map (cons x) (sublists l) ++ sublists l
  end.
Lemma filter_sublist {A} (p : A → bool) l : List.filter p l ∈ sublists l.
Proof.
  induction l as [|x l IH]; cbn; [by left|]. apply elem_of_app.
  destruct (p x); [left; by apply list_elem_of_fmap_2|by right].
Qed.

(** the reasons a secret is refused for: field names, never a value *)
Definition refusal_reasons : list string :=
  ["secret is not UTF-8 text"; "secret is not a JSON object"; "response had no data.data object";
   "response was not a mapping"; "response had neither SecretString nor SecretBinary";
   "secret had no value"; "response had no payload.data"; "'options' is present but is not an object";
   "'port' is not an integer"] ++ map missing_reason (sublists REQUIRED_SECRET_FIELDS).
Section facts.
Context {C : Type} `{SecretSdk C}.
Context (json_loads : string → res exn pyval) (utf8_decode : string → option string).
Context (str_of_container : pyval → string) (repr_exn : exn → string).
Context (dev_entries : list (string * pyval)) (dev_credentials : pyval → res exn DatabaseCredentials).

(** what escapes the reading of a response: [.get] of a [data] that is no mapping, [int] of an
    infinite port, and what [json.loads] raises besides [JSONDecodeError] *)
Inductive reading_fault : exn → Prop :=
| data_without_get : reading_fault (PyError "AttributeError" "get")
| infinite_port : reading_fault (PyError "OverflowError" "cannot convert float infinity to integer")
| loads_raises text e : json_loads text = Err e → (∀ said, e ≠ PyError "JSONDecodeError" said) → reading_fault e.
(** the failures of a secret that was read: a reason of the list, or one of those *)
Inductive secret_failure (p : CredentialProvider) (database_id : string) : exn → Prop :=
| refused_for reason : reason ∈ refusal_reasons →
    secret_failure p database_id (malformed_secret_error (provider_name p) database_id reason)
| faulted e : reading_fault e → secret_failure p database_id e.
#[local] Hint Constructors secret_failure reading_fault : core.

Lemma malformed_failure {A} p database_id reason e : reason ∈ refusal_reasons →
  malformed (A := A) (provider_name p) database_id reason = Err e → secret_failure p database_id e.
Proof. intros Hr [= <-]. by apply refused_for. Qed.
Lemma reason_known (n : nat) reason : refusal_reasons !! n = Some reason → reason ∈ refusal_reasons.
Proof. apply list_elem_of_lookup_2. Qed.

Lemma loads_failure p database_id text e :
  decode_secret_json json_loads utf8_decode (provider_name p) database_id (PStr text) = Err e →
  secret_failure p database_id e.
Proof.
  cbn. destruct (json_loads text) as [v|[code safe detail|kind said]] eqn:Ej; cbn; [done| |].
  - intros [= <-]. by apply faulted, (loads_raises text).
  - case_bool_decide as Hk; [by apply malformed_failure, (reason_known 1)|].
    intros [= <-]. apply faulted, (loads_raises text); [done|]. intros ? [= -> _]. done.
Qed.
Lemma decode_failure p database_id raw e :
  decode_secret_json json_loads utf8_decode (provider_name p) database_id raw = Err e →
  secret_failure p database_id e.
Proof.
  destruct raw; try done; [apply loads_failure|].
  unfold decode_secret_json. destruct (utf8_decode s) as [t|]; cbn; [|by apply malformed_failure, (reason_known 0)].
  apply (loads_failure _ _ t).
Qed.
Lemma payload_failure p database_id response e :
  response_payload json_loads utf8_decode p database_id response = Err e →
  secret_failure p database_id e.
Proof.
  assert (secret_failure p database_id (PyError "AttributeError" "get")) as Hattr.
  { eauto. }
  destruct p as [|v|a|z|g]; cbn -[is_none decode_secret_json]; [done| | | |].
  - unfold vault_payload. destruct response; cbn -[is_none];
      try by apply (malformed_failure (Vault v)), (reason_known 2).
    destruct (dict_get "data" d) as [[]|]; cbn -[is_none]; try (by intros [= <-]);
      [|by apply (malformed_failure (Vault v)), (reason_known 2)].
    destruct (is_none _); [by apply (malformed_failure (Vault v)), (reason_known 2)|done].
  - unfold aws_payload. destruct response; try by apply (malformed_failure (Aws a)), (reason_known 3).
    case_match; [by apply (malformed_failure (Aws a)), (reason_known 4)|].
    apply (decode_failure (Aws a)).
  - unfold azure_payload. destruct (is_none _); [by apply (malformed_failure (Azure z)), (reason_known 5)|].
    apply (decode_failure (Azure z)).
  - unfold gcp_payload. destruct (is_none _); [by apply (malformed_failure (Gcp g)), (reason_known 6)|].
    apply (decode_failure (Gcp g)).
Qed.

Lemma int_of_fault v e : int_of v = Err e → e = PyError "OverflowError" "cannot convert float infinity to integer" ∨
  ∃ kind text, e = PyError kind text ∧ kind ∈ ["TypeError"; "ValueError"].
Proof.
  destruct v as [|b|n|[n t|t|]|s|s|l|d]; cbn; try done; try (intros [= <-]; right; do 2 eexists; split; [done|set_solver]).
  - intros [= <-]. by left.
  - destruct (py_int s); [done|]. intros [= <-]. right. do 2 eexists. split; [done|set_solver].
  - destruct (py_int s); [done|]. intros [= <-]. right. do 2 eexists. split; [done|set_solver].
Qed.
Lemma complete_failure p database_id payload options e :
  complete_credentials str_of_container (provider_name p) database_id payload options = Err e →
  secret_failure p database_id e.
Proof.
  unfold complete_credentials. destruct (int_of _) as [port|e'] eqn:Ei; [done|].
  destruct (int_of_fault _ _ Ei) as [->|(kind & text & -> & Hk)].
  - intros [= <-]. eauto.
  - unfold mem. rewrite bool_decide_true //. by apply malformed_failure, (reason_known 8).
Qed.
Lemma from_payload_failure p database_id payload e :
  credentials_from_payload str_of_container (provider_name p) database_id payload = Err e →
  secret_failure p database_id e.
Proof.
  unfold credentials_from_payload.
  destruct payload as [| | | | | | |d]; try by apply malformed_failure, (reason_known 1).
  pose proof (filter_sublist (is_missing d) REQUIRED_SECRET_FIELDS) as Hs.
  destruct (List.filter _ _) as [|f missing].
  - destruct (pyval_truthy _); [|apply complete_failure].
    destruct (pget "options" d); try by apply malformed_failure, (reason_known 7). apply complete_failure.
  - apply malformed_failure. unfold refusal_reasons. apply elem_of_app. right.
    exact (list_elem_of_fmap_2 missing_reason _ _ Hs).
Qed.

(** what lets an exception out unmapped: the packages and the client are loaded outside the
    guarded call *)
Definition sdk_escape (p : CredentialProvider) (client : option C) (e : exn) : Prop :=
  client = None ∧ ((∃ module, import_module module = Err e) ∨ make_client (client_arguments p) = Err e).

Lemma load_modules_failure name l e : load_modules repr_exn name l = Err e →
  exn_code e = Some DEPENDENCY_UNAVAILABLE ∨ ∃ module, import_module module = Err e.
Proof.
  induction l as [|[[module package] extra] l IH]; [done|]. cbn. unfold load_sdk.
  destruct (import_module module) as [u|e'] eqn:Em; [apply IH|].
  destruct e' as [|kind text]; cbn; [intros [= <-]; right; by exists module|].
  destruct (mem kind _); intros [= <-]; [by left|right; by exists module].
Qed.
Lemma get_client_failure p client e client' : get_client repr_exn p client = (Err e, client') →
  exn_code e = Some DEPENDENCY_UNAVAILABLE ∨ sdk_escape p client e.
Proof.
  unfold get_client, sdk_escape. destruct client as [c|]; [done|].
  destruct (load_modules _ _ _) as [u|e'] eqn:El; cbn.
  - destruct (make_client _) as [c|e'] eqn:Em; [done|]. intros [= <- _]. right. by split; [|right].
  - intros [= <- _]. destruct (load_modules_failure _ _ _ El); [by left|]. right. by split; [|left].
Qed.

Abbreviation managed := (managed_credentials json_loads utf8_decode str_of_container repr_exn).

(** the credential of a secret: every required field is there, none is empty, each is that of
    the secret, and so are the options, which are an object or absent *)
Definition credential_of (payload : list (string * pyval)) (c : DatabaseCredentials) : Prop :=
  Forall (λ f, is_missing payload f = false) REQUIRED_SECRET_FIELDS ∧
  dc_host c = str_of str_of_container (pget "host" payload) ∧
  int_of (pget "port" payload) = Ok (dc_port c) ∧
  dc_username c = str_of str_of_container (pget "username" payload) ∧
  dc_password c = str_of str_of_container (pget "password" payload) ∧
  dc_database c = str_of str_of_container (pget "database" payload) ∧
  (pget "options" payload = PDict (dc_options c) ∨
   pyval_truthy (pget "options" payload) = false ∧ dc_options c = []).

Lemma filter_nil_Forall {A} (f : A → bool) l : List.filter f l = [] → Forall (λ x, f x = false) l.
Proof. induction l as [|x l IH]; cbn; [done|]. destruct (f x) eqn:E; [done|]. intros. constructor; auto. Qed.
Lemma from_payload_ok name database_id payload c :
  credentials_from_payload str_of_container name database_id payload = Ok c →
  ∃ d, payload = PDict d ∧ credential_of d c.
Proof.
  unfold credentials_from_payload. destruct payload as [| | | | | | |d]; try done.
  destruct (List.filter _ _) eqn:Ef; [|done]. apply filter_nil_Forall in Ef.
  assert (∀ options, (pget "options" d = PDict options ∨
                      pyval_truthy (pget "options" d) = false ∧ options = []) →
    complete_credentials str_of_container name database_id d options = Ok c →
    ∃ d', PDict d = PDict d' ∧ credential_of d' c) as Hc.
  { intros options Ho. unfold complete_credentials.
    destruct (int_of _) as [port|[]] eqn:Ei; [|done|by case_match].
    intros [= <-]. exists d. by repeat split. }
  destruct (pyval_truthy _) eqn:Et; [|apply Hc; by right].
  destruct (pget "options" d) eqn:Eo; try done. apply Hc. by left.
Qed.

(** what is made of a response, whatever it is *)
Lemma response_outcome p database_id response :
  match (payload ← response_payload json_loads utf8_decode p database_id response;
         credentials_from_payload str_of_container (provider_name p) database_id payload) with
  | Ok c => ∃ payload, response_payload json_loads utf8_decode p database_id response = Ok (PDict payload) ∧
              credential_of payload c
  | Err e => secret_failure p database_id e
  end.
Proof.
  destruct (response_payload _ _ _ _ _) as [payload|e] eqn:Ep; cbn.
  - destruct (credentials_from_payload _ _ _ _) as [c|e] eqn:Ec; [|by apply from_payload_failure in Ec].
    apply from_payload_ok in Ec as (d & -> & Hd). by exists d.
  - by apply payload_failure in Ep.
Qed.
Lemma secret_failure_code p database_id e : secret_failure p database_id e →
  exn_code e = Some DEPENDENCY_UNAVAILABLE ∨ reading_fault e.
Proof. intros []; [by left|by right]. Qed.

(** C32: What the provider of any of the four managers answers for a server, from any state of
    its client.  A credential is read at the address computed for the id of the server, in a
    payload where every required field is present and not empty: each of its fields and its
    options are those of that payload.  An exception is DEPENDENCY_UNAVAILABLE, except for three
    things the code leaves uncaught: what loading the package or building the client raises, two
    faults of reading a response ([data] that is no mapping, an infinite port), and what
    [json.loads] raises besides [JSONDecodeError].  Once the secret was read, an exception is one
    of these last two or a refusal taken from a finite list, made of the names of the manager,
    the server and the fields: a refusal has no value of the secret in it. *)
Theorem managed_credentials_fail_closed p database_id client :
  match (managed p database_id client).1 with
  | Ok c =>
      configured p = true ∧
      ∃ sdk response payload, (get_client repr_exn p client).1 = Ok sdk ∧
        read_secret sdk (secret_address p database_id) = Ok response ∧
        response_payload json_loads utf8_decode p database_id response = Ok (PDict payload) ∧
        credential_of payload c
  | Err e =>
      exn_code e = Some DEPENDENCY_UNAVAILABLE ∨ sdk_escape p client e ∨ reading_fault e
  end ∧
  ∀ sdk response, configured p = true → (get_client repr_exn p client).1 = Ok sdk →
    read_secret sdk (secret_address p database_id) = Ok response →
    match (managed p database_id client).1 with
    | Ok _ => True
    | Err e => secret_failure p database_id e
    end.
Proof.
  unfold managed_credentials. destruct (configured p); [|split; [by left|done]].
  unfold negb, mbind, M_bind.
  destruct (get_client repr_exn p client) as [[sdk|e] client'] eqn:Eg; cbn.
  - destruct (read_secret _ _) as [response|e] eqn:Er; cbn.
    + pose proof (response_outcome p database_id response) as Hr. unfold mbind in Hr.
      destruct (res_bind _ _ _ _) as [c|e].
      * split; [|done]. destruct Hr as (payload & ? & ?). split; [done|]. by exists sdk, response, payload.
      * split; [|by intros]. destruct (secret_failure_code _ _ _ Hr); auto.
    + split; [by left|]. intros ? ? _ [= <-]. by rewrite Er.
  - split; [|by intros]. destruct (get_client_failure _ _ _ _ Eg); auto.
Qed.
End facts.

(* ------------------------------------------------------------------ *)
(** ** The names of the secrets *)

Lemma str_map_app f (s t : string) : str_map f (s +:+ t) = str_map f s +:+ str_map f t.
Proof. induction s as [|c s IH]; [done|]. cbn. by rewrite -IH. Qed.

(** Vault and AWS keep the server's id; Key Vault and Secret Manager keep it up to the
    characters a name may not have, which all become dashes: two servers whose ids differ only
    there share one secret, and with it its host and its login *)
Theorem secret_names_by_id v a z g id id' :
  (vault_secret_path v id = vault_secret_path v id' ↔ id = id') ∧
  (aws_secret_name a id = aws_secret_name a id' ↔ id = id') ∧
  (azure_secret_name z id = azure_secret_name z id' ↔ non_name_safe_sub id = non_name_safe_sub id') ∧
  (gcp_secret_id g id = gcp_secret_id g id' ↔ non_name_safe_sub id = non_name_safe_sub id') ∧
  azure_secret_name z "pg.prod" = azure_secret_name z "pg-prod".
Proof.
  unfold vault_secret_path, aws_secret_name, azure_secret_name, gcp_secret_id, non_name_safe_sub.
  rewrite !str_map_app. repeat split; try (by intros ->); try (intros Hs; by simplify_eq).
Qed.

(* ------------------------------------------------------------------ *)
(** ** A manager to ask *)

Definition example_secret (port : pyval) : pyval :=
  PDict [("host", PStr "db1.internal"); ("port", port); ("username", PStr "numi_diag");
         ("password", PStr "hunter2"); ("database", PStr "postgres");
         ("options", PDict [("sslmode", PStr "require")])].
(** a Vault that answers every path with one response *)
Definition vault_with (response : res exn pyval) (client : res exn unit) : SecretSdk unit := {|
  import_module _ := Ok tt; make_client _ := client; read_secret _ _ := response |}.
Definition kv (payload : pyval) : pyval := PDict [("data", PDict [("data", payload)])].
Definition example_vault : CredentialProvider :=
  Vault {| va_addr := "https://vault"; va_token := "t"; va_mount_point := "secret";
           va_path_prefix := "numi/db" |}.
(** what [json.loads] raises for a text that is not JSON *)
Definition not_json (_ : string) : res exn pyval := Err (PyError "JSONDecodeError" "Expecting value").
Definition ask (response : res exn pyval) (client : res exn unit) : res exn DatabaseCredentials :=
  (@managed_credentials unit (vault_with response client) not_json Some (λ _, "") exn_text
     example_vault "pg-prod-01" None).1.

(** an AWS secret, with a [json.loads] *)
Definition ask_aws (json_loads : string → res exn pyval) (text : string) : res exn DatabaseCredentials :=
  (@managed_credentials unit (vault_with (Ok (PDict [("SecretString", PStr text)])) (Ok tt)) json_loads Some
     (λ _, "") exn_text (Aws {| aw_region := "eu-west-1"; aw_name_prefix := "numi/db" |}) "pg-prod-01" None).1.

Example vault_answers :
  dc_port <$> ask (Ok (kv (example_secret (PStr "5432")))) (Ok tt) = Ok 5432%Z ∧
  ask (Ok (kv (PDict [("host", PStr "h"); ("port", PInt 1); ("password", PStr "")]))) (Ok tt)
  = Err (malformed_secret_error "vault" "pg-prod-01"
           "missing required field(s): username, password, database") ∧
  dc_options <$> ask_aws (λ _, Ok (example_secret (PInt 5432))) "{...}" = Ok [("sslmode", PStr "require")] ∧
  ask_aws not_json "hunter2"
  = Err (malformed_secret_error "aws_secrets_manager" "pg-prod-01" "secret is not a JSON object").
Proof. split_and!; vm_compute; reflexivity. Qed.

(** the exceptions that are not mapped: a port that is an infinite float, a response whose
    [data] is null, whatever building the client raises, and whatever [json.loads] raises besides
    [JSONDecodeError]: a secret with an integer of more than 4,300 digits raises a plain
    [ValueError], one nested too deep [RecursionError] *)
Theorem raw_exceptions_escape :
  ask (Ok (kv (example_secret (PFloat (Infinite "inf"))))) (Ok tt)
  = Err (PyError "OverflowError" "cannot convert float infinity to integer") ∧
  ask (Ok (PDict [("data", PNone)])) (Ok tt) = Err (PyError "AttributeError" "get") ∧
  (∀ response e, ask response (Err e) = Err e) ∧
  ask_aws (λ _, Err (PyError "RecursionError" "maximum recursion depth exceeded")) "[[[["
  = Err (PyError "RecursionError" "maximum recursion depth exceeded") ∧
  ∀ text, ask_aws (λ _, Err (PyError "ValueError" text)) text = Err (PyError "ValueError" text).
Proof. split_and!; try (vm_compute; reflexivity); intros; reflexivity. Qed.

Definition good_vault : SecretSdk unit := vault_with (Ok (kv (example_secret (PStr "5432")))) (Ok tt).
Definition good_credential : DatabaseCredentials := {|
  dc_host := "db1.internal"; dc_port := 5432; dc_username := "numi_diag"; dc_password := "hunter2";
  dc_database := "postgres"; dc_options := [("sslmode", PStr "require")] |}.
(** a credential, and the refusal of a secret that was read *)
Definition blank_secret : pyval := PDict [("host", PStr "db1.internal"); ("password", PStr "")].
Definition blank_vault : SecretSdk unit := vault_with (Ok (kv blank_secret)) (Ok tt).
Lemma managed_credentials_fail_closed_witness :
  ask (Ok (kv (example_secret (PStr "5432")))) (Ok tt) = Ok good_credential ∧
  (configured example_vault = true ∧
   ∃ sdk response payload,
     (@get_client unit good_vault exn_text example_vault None).1 = Ok sdk ∧
     @read_secret unit good_vault sdk (secret_address example_vault "pg-prod-01") = Ok response ∧
     response_payload not_json Some example_vault "pg-prod-01" response = Ok (PDict payload) ∧
     credential_of (λ _, "") payload good_credential) ∧
  match ask (Ok (kv blank_secret)) (Ok tt) with
  | Ok _ => False
  | Err e => secret_failure not_json example_vault "pg-prod-01" e
  end.
Proof.
  split; [vm_compute; reflexivity|]. split.
  - exact (proj1 (@managed_credentials_fail_closed unit good_vault not_json Some (λ _, "") exn_text
      example_vault "pg-prod-01" None)).
  - exact (proj2 (@managed_credentials_fail_closed unit blank_vault not_json Some (λ _, "") exn_text
      example_vault "pg-prod-01" None) tt (kv blank_secret) eq_refl eq_refl eq_refl).
Defined.
