(* ===== verification/AdapterSql.v ===== *)
(** The texts of the read-only statements of the three engine adapters:
    [execution/adapters/sqlserver.py], [postgresql.py] and [mysql.py], as they are sent.  The
    one text that varies, of [top_queries], takes the column it orders by. *)
From S2P Require Import Prelude.

(* ------------------------------------------------------------------ *)
(** ** sqlserver.py *)

Definition mssql_health_sql : string := "
            SELECT
                (SELECT COUNT(*) FROM sys.dm_exec_sessions WHERE is_user_process = 1) AS active_sessions,
                (SELECT cntr_value FROM sys.dm_os_performance_counters
                    WHERE counter_name = 'Processor Time' ) AS cpu_counter,
                (SELECT SUM(size) * 8 / 1024 FROM sys.master_files) AS total_size_mb,
                (SELECT DATEDIFF(SECOND, sqlserver_start_time, GETUTCDATE())
                    FROM sys.dm_os_sys_info) AS uptime_seconds
        ".
Definition mssql_version_sql : string := "SELECT @@VERSION AS version, SERVERPROPERTY('ProductVersion') AS product_version, SERVERPROPERTY('Edition') AS edition".
Definition mssql_sessions_sql : string := "
            SELECT session_id, login_name, host_name, program_name, status,
                   cpu_time, memory_usage, last_request_start_time
            FROM sys.dm_exec_sessions
            WHERE is_user_process = 1
            ORDER BY last_request_start_time DESC
        ".
Definition mssql_blocking_sql : string := "
            SELECT
                r.session_id AS blocked_session_id,
                r.blocking_session_id,
                r.wait_type, r.wait_time, r.wait_resource,
                t.text AS blocked_query_text
            FROM sys.dm_exec_requests r
            CROSS APPLY sys.dm_exec_sql_text(r.sql_handle) t
            WHERE r.blocking_session_id != 0
        ".
Definition mssql_deadlocks_sql : string := "
            SELECT xed.value('@timestamp', 'datetime2') AS deadlock_time,
                   xed.query('.') AS deadlock_graph
            FROM (
                SELECT CAST(target_data AS XML) AS target_data
                FROM sys.dm_xe_session_targets st
                JOIN sys.dm_xe_sessions s ON s.address = st.event_session_address
                WHERE s.name = 'system_health'
            ) AS data
            CROSS APPLY target_data.nodes('RingBufferTarget/event[@name=" +:+ String dquote ("xml_deadlock_report" +:+ String dquote ("]')
                AS xed_table(xed)
        ")).
Definition mssql_running_queries_sql : string := "
            SELECT r.session_id, r.status, r.command, r.wait_type, r.wait_time,
                   r.cpu_time, r.total_elapsed_time, t.text AS query_text
            FROM sys.dm_exec_requests r
            CROSS APPLY sys.dm_exec_sql_text(r.sql_handle) t
            WHERE r.session_id > 50
            ORDER BY r.total_elapsed_time DESC
        ".
Definition mssql_waits_sql : string := "
            SELECT wait_type, waiting_tasks_count, wait_time_ms, signal_wait_time_ms
            FROM sys.dm_os_wait_stats
            WHERE wait_time_ms > 0
            ORDER BY wait_time_ms DESC
        ".
Definition mssql_query_plan_sql : string := "
            SELECT qsp.plan_id, qsp.query_plan, qsq.query_hash
            FROM sys.query_store_plan qsp
            JOIN sys.query_store_query qsq ON qsq.query_id = qsp.query_id
            WHERE qsq.query_id = %(query_id)s
        ".
Definition mssql_top_queries_sql (order_column : string) : string := "
            SELECT TOP (%(limit)s) qsq.query_id, qsrs.avg_cpu_time, qsrs.avg_duration,
                   qsrs.avg_logical_io_reads, qsrs.avg_logical_io_writes, qsrs.count_executions
            FROM sys.query_store_query qsq
            JOIN sys.query_store_runtime_stats qsrs ON qsrs.plan_id = qsq.query_id
            ORDER BY " +:+ order_column +:+ " DESC
        ".
Definition mssql_indexes_sql : string := "
            SELECT i.name AS index_name, i.type_desc,
                   us.user_seeks, us.user_scans, us.user_lookups, us.user_updates
            FROM sys.indexes i
            JOIN sys.tables tb ON tb.object_id = i.object_id
            JOIN sys.schemas s ON s.schema_id = tb.schema_id
            LEFT JOIN sys.dm_db_index_usage_stats us
                ON us.object_id = i.object_id AND us.index_id = i.index_id
            WHERE s.name = %(schema)s AND tb.name = %(table)s
        ".
Definition mssql_statistics_sql : string := "
            SELECT st.name AS statistics_name, sp.last_updated, sp.rows, sp.rows_sampled,
                   sp.modification_counter
            FROM sys.stats st
            JOIN sys.tables tb ON tb.object_id = st.object_id
            JOIN sys.schemas s ON s.schema_id = tb.schema_id
            CROSS APPLY sys.dm_db_stats_properties(st.object_id, st.stats_id) sp
            WHERE s.name = %(schema)s AND tb.name = %(table)s
        ".
Definition mssql_tables_sql : string := "
            SELECT s.name AS schema_name, t.name AS table_name, p.rows AS row_estimate
            FROM sys.tables t
            JOIN sys.schemas s ON s.schema_id = t.schema_id
            JOIN sys.partitions p ON p.object_id = t.object_id AND p.index_id IN (0, 1)
            ORDER BY s.name, t.name
        ".
Definition mssql_storage_sql : string := "
            SELECT d.name AS database_name, mf.name AS file_name, mf.type_desc,
                   mf.size * 8 / 1024 AS size_mb, mf.max_size, mf.growth
            FROM sys.master_files mf
            JOIN sys.databases d ON d.database_id = mf.database_id
        ".
Definition mssql_transaction_log_sql : string := "SELECT * FROM sys.dm_db_log_space_usage".
Definition mssql_replication_sql : string := "
            SELECT ag.name AS availability_group, drs.database_id,
                   drs.synchronization_state_desc, drs.is_suspended, drs.log_send_queue_size
            FROM sys.dm_hadr_database_replica_states drs
            JOIN sys.availability_groups ag ON ag.group_id = drs.group_id
        ".
Definition mssql_backups_sql : string := "
            SELECT TOP (20) database_name, backup_start_date, backup_finish_date,
                   type, is_copy_only
            FROM msdb.dbo.backupset
            ORDER BY backup_start_date DESC
        ".
Definition mssql_configuration_sql : string := "SELECT name, CAST(value AS NVARCHAR(4000)) AS value, CAST(value_in_use AS NVARCHAR(4000)) AS value_in_use, description FROM sys.configurations ORDER BY name".
Definition mssql_error_logs_sql : string := "
            EXEC sys.xp_readerrorlog 0, 1, NULL, NULL,
                 %(since)s, NULL, N'desc'
        ".

(* ------------------------------------------------------------------ *)
(** ** postgresql.py *)

Definition pg_health_sql : string := "
            select
                (select count(*) from pg_stat_activity) as active_connections,
                (select setting from pg_settings where name = 'max_connections') as max_connections,
                current_database() as connected_database,
                pg_database_size(current_database()) as database_size_bytes,
                (select extract(epoch from now() - pg_postmaster_start_time())) as uptime_seconds,
                (select count(*) from pg_stat_activity where state = 'active') as active_queries
        ".
Definition pg_version_sql : string := "select version() as version".
Definition pg_sessions_sql : string := "
            select datname as database_name, pid as session_id, usename as user_name,
                   application_name, client_addr, backend_start, state, wait_event_type,
                   wait_event, query_start, left(query, 200) as query_text
            from pg_stat_activity
            order by backend_start
        ".
Definition pg_blocking_sql : string := "
            select blocked.datname as database_name,
                   blocked.pid as blocked_session_id, blocked.query as blocked_query,
                   blocking.pid as blocking_session_id, blocking.query as blocking_query,
                   blocked.wait_event_type, blocked.wait_event
            from pg_stat_activity blocked
            join pg_locks bl on bl.pid = blocked.pid and not bl.granted
            join pg_locks gl on gl.locktype = bl.locktype
                and gl.database is not distinct from bl.database
                and gl.relation is not distinct from bl.relation
                and gl.granted
            join pg_stat_activity blocking on blocking.pid = gl.pid
            where blocked.pid != blocking.pid
        ".
Definition pg_deadlocks_sql : string := "select datname, deadlocks from pg_stat_database".
Definition pg_running_queries_sql : string := "
            select datname as database_name, pid as session_id,
                   now() - query_start as duration, state, left(query, 500) as query_text
            from pg_stat_activity
            where state != 'idle'
            order by query_start
        ".
Definition pg_waits_sql : string := "
            select datname as database_name, wait_event_type, wait_event,
                   count(*) as waiting_sessions
            from pg_stat_activity
            where wait_event is not null
            group by datname, wait_event_type, wait_event
            order by waiting_sessions desc
        ".
Definition pg_query_plan_sql : string := "
            select queryid, query, calls, total_exec_time, mean_exec_time, rows
            from pg_stat_statements
            where queryid = %(query_id)s
        ".
Definition pg_top_queries_sql (order_column : string) : string := "
            select queryid, left(query, 300) as query_text, calls, total_exec_time,
                   mean_exec_time, rows
            from pg_stat_statements
            order by " +:+ order_column +:+ " desc
            limit %(limit)s
        ".
Definition pg_indexes_sql : string := "
            select indexrelname as index_name, idx_scan, idx_tup_read, idx_tup_fetch
            from pg_stat_user_indexes
            where schemaname = %(schema)s and relname = %(table)s
        ".
Definition pg_statistics_sql : string := "
            select last_vacuum, last_autovacuum, last_analyze, last_autoanalyze,
                   n_live_tup, n_dead_tup
            from pg_stat_user_tables
            where schemaname = %(schema)s and relname = %(table)s
        ".
Definition pg_tables_sql : string := "
            select schemaname as schema_name, relname as table_name, n_live_tup as row_estimate
            from pg_stat_user_tables
            order by schemaname, relname
        ".
Definition pg_storage_sql : string := "
            select datname as database_name, pg_database_size(datname) as database_size_bytes
            from pg_database
            where datistemplate = false
            order by database_size_bytes desc
        ".
Definition pg_transaction_log_sql : string := "
            select pg_current_wal_lsn() as current_wal_lsn,
                   pg_walfile_name(pg_current_wal_lsn()) as current_wal_file
        ".
Definition pg_replication_sql : string := "
            select application_name, client_addr, state, sync_state,
                   pg_wal_lsn_diff(sent_lsn, replay_lsn) as replay_lag_bytes
            from pg_stat_replication
        ".
Definition pg_backups_sql : string := "
            select archived_count, failed_count, last_archived_wal, last_archived_time,
                   last_failed_wal, last_failed_time
            from pg_stat_archiver
        ".
Definition pg_configuration_sql : string := "select name, setting, unit, category from pg_settings order by category, name".
Definition pg_error_logs_sql : string := "select datname, xact_rollback, deadlocks, stats_reset from pg_stat_database".

(* ------------------------------------------------------------------ *)
(** ** mysql.py *)

Definition mysql_health_sql : string := "
            SELECT
              (SELECT VARIABLE_VALUE FROM performance_schema.global_status
                 WHERE VARIABLE_NAME = 'THREADS_CONNECTED') AS active_connections,
              (SELECT VARIABLE_VALUE FROM performance_schema.global_variables
                 WHERE VARIABLE_NAME = 'MAX_CONNECTIONS') AS max_connections,
              (SELECT VARIABLE_VALUE FROM performance_schema.global_status
                 WHERE VARIABLE_NAME = 'THREADS_RUNNING') AS active_queries,
              (SELECT VARIABLE_VALUE FROM performance_schema.global_status
                 WHERE VARIABLE_NAME = 'UPTIME') AS uptime_seconds,
              (SELECT SUM(data_length + index_length) FROM information_schema.tables
                 WHERE table_schema = DATABASE()) AS database_size_bytes
        ".
Definition mysql_version_sql : string := "SELECT VERSION() AS version, @@version_comment AS edition, @@version_compile_os AS os".
Definition mysql_sessions_sql : string := "
            SELECT ID AS session_id, USER AS user_name, HOST AS host, DB AS database_name,
                   COMMAND AS command, TIME AS seconds, STATE AS state,
                   LEFT(INFO, 200) AS query_text
            FROM information_schema.PROCESSLIST
            ORDER BY TIME DESC
        ".
Definition mysql_blocking_sql : string := "
            SELECT
                rt.trx_mysql_thread_id AS blocked_session_id,
                LEFT(rt.trx_query, 200) AS blocked_query,
                bt.trx_mysql_thread_id AS blocking_session_id,
                LEFT(bt.trx_query, 200) AS blocking_query,
                w.OBJECT_SCHEMA AS object_schema,
                w.OBJECT_NAME AS object_name,
                w.LOCK_TYPE AS lock_type
            FROM performance_schema.data_lock_waits w
            JOIN information_schema.INNODB_TRX rt
                ON rt.trx_id = w.REQUESTING_ENGINE_TRANSACTION_ID
            JOIN information_schema.INNODB_TRX bt
                ON bt.trx_id = w.BLOCKING_ENGINE_TRANSACTION_ID
        ".
Definition mysql_deadlocks_sql : string := "SHOW ENGINE INNODB STATUS".
Definition mysql_running_queries_sql : string := "
            SELECT ID AS session_id, TIME AS duration_seconds, STATE AS state,
                   LEFT(INFO, 500) AS query_text
            FROM information_schema.PROCESSLIST
            WHERE COMMAND NOT IN ('Sleep', 'Daemon') AND INFO IS NOT NULL
            ORDER BY TIME DESC
        ".
Definition mysql_waits_sql : string := "
            SELECT EVENT_NAME AS wait_event, COUNT_STAR AS waiting_events,
                   SUM_TIMER_WAIT AS total_wait_picoseconds
            FROM performance_schema.events_waits_summary_global_by_event_name
            WHERE COUNT_STAR > 0
            ORDER BY SUM_TIMER_WAIT DESC
        ".
Definition mysql_query_plan_sql : string := "
            SELECT DIGEST AS query_id, LEFT(DIGEST_TEXT, 500) AS query_text,
                   COUNT_STAR AS executions, SUM_TIMER_WAIT AS total_latency_picoseconds,
                   SUM_ROWS_EXAMINED AS rows_examined, SUM_ROWS_SENT AS rows_sent,
                   SUM_CREATED_TMP_DISK_TABLES AS tmp_disk_tables, SUM_NO_INDEX_USED AS no_index_used
            FROM performance_schema.events_statements_summary_by_digest
            WHERE DIGEST = %(query_id)s
        ".
Definition mysql_top_queries_sql (order_column : string) : string := "
            SELECT DIGEST AS query_id, LEFT(DIGEST_TEXT, 300) AS query_text,
                   COUNT_STAR AS executions, SUM_TIMER_WAIT AS total_latency_picoseconds,
                   AVG_TIMER_WAIT AS avg_latency_picoseconds, SUM_ROWS_EXAMINED AS rows_examined,
                   SUM_ROWS_SENT AS rows_sent, SUM_ROWS_AFFECTED AS rows_affected
            FROM performance_schema.events_statements_summary_by_digest
            WHERE DIGEST IS NOT NULL
            ORDER BY " +:+ order_column +:+ " DESC
            LIMIT %(limit)s
        ".
Definition mysql_indexes_sql : string := "
            SELECT s.INDEX_NAME AS index_name, s.NON_UNIQUE AS non_unique,
                   s.SEQ_IN_INDEX AS seq_in_index, s.COLUMN_NAME AS column_name,
                   s.CARDINALITY AS cardinality, s.INDEX_TYPE AS index_type,
                   u.COUNT_READ AS reads, u.COUNT_WRITE AS writes,
                   u.COUNT_FETCH AS fetches
            FROM information_schema.STATISTICS s
            LEFT JOIN performance_schema.table_io_waits_summary_by_index_usage u
                ON u.OBJECT_SCHEMA = s.TABLE_SCHEMA AND u.OBJECT_NAME = s.TABLE_NAME
               AND u.INDEX_NAME = s.INDEX_NAME
            WHERE s.TABLE_SCHEMA = %(schema)s AND s.TABLE_NAME = %(table)s
            ORDER BY s.INDEX_NAME, s.SEQ_IN_INDEX
        ".
Definition mysql_statistics_sql : string := "
            SELECT t.TABLE_ROWS AS row_estimate, t.AVG_ROW_LENGTH AS avg_row_length,
                   t.DATA_LENGTH AS data_length, t.INDEX_LENGTH AS index_length,
                   t.DATA_FREE AS data_free, t.UPDATE_TIME AS last_update_time,
                   t.CREATE_TIME AS create_time, t.ENGINE AS engine
            FROM information_schema.TABLES t
            WHERE t.TABLE_SCHEMA = %(schema)s AND t.TABLE_NAME = %(table)s
        ".
Definition mysql_tables_sql : string := "
            SELECT TABLE_SCHEMA AS schema_name, TABLE_NAME AS table_name,
                   TABLE_ROWS AS row_estimate,
                   (DATA_LENGTH + INDEX_LENGTH) AS size_bytes
            FROM information_schema.TABLES
            WHERE TABLE_SCHEMA = DATABASE() AND TABLE_TYPE = 'BASE TABLE'
            ORDER BY (DATA_LENGTH + INDEX_LENGTH) DESC
        ".
Definition mysql_storage_sql : string := "
            SELECT TABLE_SCHEMA AS schema_name,
                   SUM(DATA_LENGTH) AS data_bytes, SUM(INDEX_LENGTH) AS index_bytes,
                   SUM(DATA_FREE) AS free_bytes,
                   SUM(DATA_LENGTH + INDEX_LENGTH) AS database_size_bytes
            FROM information_schema.TABLES
            GROUP BY TABLE_SCHEMA
        ".
Definition mysql_transaction_log_sql : string := "
            SELECT VARIABLE_NAME AS name, VARIABLE_VALUE AS value
            FROM performance_schema.global_status
            WHERE VARIABLE_NAME IN (
                'INNODB_OS_LOG_WRITTEN', 'INNODB_OS_LOG_PENDING_WRITES',
                'INNODB_LOG_WAITS', 'INNODB_LOG_WRITE_REQUESTS', 'INNODB_LOG_WRITES'
            )
        ".
Definition mysql_replication_sql : string := "
            SELECT c.CHANNEL_NAME AS channel, c.SERVICE_STATE AS io_state,
                   c.SOURCE_UUID AS source_uuid, c.LAST_ERROR_MESSAGE AS io_last_error,
                   a.SERVICE_STATE AS sql_state
            FROM performance_schema.replication_connection_status c
            LEFT JOIN performance_schema.replication_applier_status a
                ON a.CHANNEL_NAME = c.CHANNEL_NAME
        ".
Definition mysql_configuration_sql : string := "
            SELECT VARIABLE_NAME AS name, VARIABLE_VALUE AS value
            FROM performance_schema.global_variables
            ORDER BY VARIABLE_NAME
        ".
Definition mysql_error_logs_sql : string := "
            SELECT LOGGED AS logged_at, PRIO AS priority, ERROR_CODE AS error_code,
                   SUBSYSTEM AS subsystem, DATA AS message
            FROM performance_schema.error_log
            WHERE LOGGED > (NOW() - INTERVAL %(since)s MINUTE)
            ORDER BY LOGGED DESC
        ".
