(* ===== verification/Adapters.v ===== *)
(** The engine adapters of the Execution Service: [execution/adapters/sqlserver.py],
    [postgresql.py] and [mysql.py], and the parameter translation of [connections.py].  A
    connection is the class [QueryExecutor]; the statements an adapter sends are recorded. *)
From S2P Require Import Prelude ProgramLogic Json Text Models ToolCatalog Servers Policy RateLimit.
From S2P Require Import Approval DataPolicy Discovery Gateway Identity Fallback Conversation Cells Execution AdapterSql.

(* ------------------------------------------------------------------ *)
(** ** Statements *)

Inductive StatementKind : Type := FetchAll | Execute.
Record Statement : Type := {
  sm_kind : StatementKind;
  sm_sql : string;
  sm_params : list (string * json)
}.

(** [QueryExecutor]: the time a statement takes, and its rows or the fields of its result *)
Class QueryExecutor (X : Type) : Type := {
  fetch_all : X → string → list (string * json) → Z * res exn (list db_row);
  execute_statement : X → string → list (string * json) → Z * res exn db_row
}.

(** the time spent and the statements sent so far *)
Definition Sent : Type := Z * list Statement.

Section executor.
Context {X : Type} `{QueryExecutor X} (conn : X).
Definition fetch_rows (sql : string) (params : list (string * json)) : M Sent exn (list db_row) := λ '(t, sent),
  let '(elapsed, r) := fetch_all conn sql params in
  (r, ((t + elapsed)%Z, sent ++ [{| sm_kind := FetchAll; sm_sql := sql; sm_params := params |}])).
Definition execute (sql : string) (params : list (string * json)) : M Sent exn db_row :=
  λ '(t, sent),
  let '(elapsed, r) := execute_statement conn sql params in
  (r, ((t + elapsed)%Z, sent ++ [{| sm_kind := Execute; sm_sql := sql; sm_params := params |}])).
End executor.

(** [{**base, **result}] *)
Definition merge_fields (base result : db_row) : db_row :=
  foldl (λ d '(k, v), dict_set k v d) base result.

(* ------------------------------------------------------------------ *)
(** ** Quoting *)

(** [_quote_ident] of SQL Server and of MySQL: the closing character is doubled *)
Definition quote_doubling (open close : ascii) (identifier : string) : string :=
  String open (str_replace close (String close (String close "")) identifier +:+ String close "").
Definition mssql_quote_ident : string → string := quote_doubling "["%char "]"%char.
Definition mysql_quote_ident : string → string := quote_doubling "`"%char "`"%char.
(** [_quote_ident] of PostgreSQL: embedded quotes are dropped *)
Definition pg_quote_ident (identifier : string) : string :=
  String dquote (str_replace dquote "" identifier +:+ String dquote "").
(** [_quote_ident_literal] *)
Definition quote_ident_literal : string → string := quote_doubling "'"%char "'"%char.

(** [int(session_id)] *)
Definition session_number (session_id : json) : res exn Z :=
  match session_id with
  | JStr text =>
      match py_int text with
      | Some n => Ok n
      | None => Err (PyError "ValueError" "invalid literal for int() with base 10")
      end
  | JInt n => Ok n
  | JBool b => Ok (Z.b2z b)
  | JNull | JArr _ | JObj _ => Err type_error
  end.

(** [{...}.get(order_by, default)]; a list or a dict is no key *)
Definition column_for (columns : list (string * string)) (default_column : string) (order_by : json)
    : option string :=
  match order_by with
  | JStr name => Some (default default_column (dict_get name columns))
  | JArr _ | JObj _ => None
  | _ => Some default_column
  end.
(** [timedelta(minutes=...)] takes a number *)
Definition minutes (v : json) : option Z :=
  match v with JInt n => Some n | JBool b => Some (Z.b2z b) | _ => None end.
Definition mssql_order_columns : list (string * string) :=
  [("cpu", "avg_cpu_time"); ("duration", "avg_duration"); ("reads", "avg_logical_io_reads");
   ("writes", "avg_logical_io_writes"); ("executions", "count_executions")].
Definition pg_order_columns : list (string * string) :=
  [("cpu", "total_exec_time"); ("duration", "mean_exec_time"); ("reads", "shared_blks_read");
   ("writes", "shared_blks_written"); ("executions", "calls")].
Definition mysql_order_columns : list (string * string) :=
  [("cpu", "SUM_TIMER_WAIT"); ("duration", "AVG_TIMER_WAIT"); ("reads", "SUM_ROWS_EXAMINED");
   ("writes", "SUM_ROWS_AFFECTED"); ("executions", "COUNT_STAR")].

(* ------------------------------------------------------------------ *)
(** ** Read-only diagnostics *)

(** the statement of a read method that only fetches: its text and its parameters *)
Definition schema_and_table (schema table : json) : list (string * json) :=
  [("schema", schema); ("table", table)].
(** the two reads of a table and the two reads with a limit *)
Definition table_read (method indexes_sql statistics_sql : string) (schema table : json)
    : option (string * list (string * json)) :=
  if bool_decide (method = "indexes") then Some (indexes_sql, schema_and_table schema table)
  else if bool_decide (method = "statistics") then Some (statistics_sql, schema_and_table schema table)
  else None.
Definition top_read (top_sql : string → string) (column : option string) (limit : json)
    : option (string * list (string * json)) :=
  column ← column; Some (top_sql column, [("limit", limit)]).

Definition mssql_static_reads : list (string * string) :=
  [("health", mssql_health_sql); ("version", mssql_version_sql); ("sessions", mssql_sessions_sql);
   ("blocking", mssql_blocking_sql); ("deadlocks", mssql_deadlocks_sql);
   ("running_queries", mssql_running_queries_sql); ("waits", mssql_waits_sql);
   ("tables", mssql_tables_sql); ("storage", mssql_storage_sql);
   ("transaction_log", mssql_transaction_log_sql); ("replication", mssql_replication_sql);
   ("backups", mssql_backups_sql); ("configuration", mssql_configuration_sql)].
Section sqlserver_reads.
(** the start of the last minutes, as [error_logs] prints it *)
Context (since_text : Z → string).
Definition mssql_read (method : string) (args : list json) : option (string * list (string * json)) :=
  match args with
  | [] => (λ sql, (sql, [])) <$> dict_get method mssql_static_reads
  | [query_id] =>
      if bool_decide (method = "query_plan") then Some (mssql_query_plan_sql, [("query_id", query_id)]) else None
  | [a; b] =>
      if bool_decide (method = "top_queries") then
        top_read mssql_top_queries_sql (column_for mssql_order_columns "avg_cpu_time" a) b
      else if bool_decide (method = "error_logs") then 
        since ← minutes a; Some (mssql_error_logs_sql, [("since", JStr (since_text since))])
      else table_read method mssql_indexes_sql mssql_statistics_sql a b
  | _ => None
  end.
End sqlserver_reads.

Definition pg_static_reads : list (string * string) :=
  [("health", pg_health_sql); ("version", pg_version_sql); ("sessions", pg_sessions_sql);
   ("blocking", pg_blocking_sql); ("deadlocks", pg_deadlocks_sql);
   ("running_queries", pg_running_queries_sql); ("waits", pg_waits_sql); ("tables", pg_tables_sql);
   ("storage", pg_storage_sql); ("transaction_log", pg_transaction_log_sql);
   ("replication", pg_replication_sql); ("backups", pg_backups_sql);
   ("configuration", pg_configuration_sql)].
Definition pg_read (method : string) (args : list json) : option (string * list (string * json)) :=
  match args with
  | [] => (λ sql, (sql, [])) <$> dict_get method pg_static_reads
  | [query_id] =>
      if bool_decide (method = "query_plan") then Some (pg_query_plan_sql, [("query_id", query_id)]) else None
  | [a; b] =>
      if bool_decide (method = "top_queries") then
        top_read pg_top_queries_sql (column_for pg_order_columns "total_exec_time" a) b
      else if bool_decide (method = "error_logs") then Some (pg_error_logs_sql, [])
      else table_read method pg_indexes_sql pg_statistics_sql a b
  | _ => None
  end.

Definition mysql_static_reads : list (string * string) :=
  [("health", mysql_health_sql); ("version", mysql_version_sql); ("sessions", mysql_sessions_sql);
   ("blocking", mysql_blocking_sql); ("deadlocks", mysql_deadlocks_sql);
   ("running_queries", mysql_running_queries_sql); ("waits", mysql_waits_sql);
   ("tables", mysql_tables_sql); ("storage", mysql_storage_sql);
   ("transaction_log", mysql_transaction_log_sql); ("replication", mysql_replication_sql);
   ("configuration", mysql_configuration_sql)].
Definition mysql_read (method : string) (args : list json) : option (string * list (string * json)) :=
  match args with
  | [] => (λ sql, (sql, [])) <$> dict_get method mysql_static_reads
  | [query_id] =>
      if bool_decide (method = "query_plan") then Some (mysql_query_plan_sql, [("query_id", query_id)]) else None
  | [a; b] =>
      if bool_decide (method = "top_queries") then
        top_read mysql_top_queries_sql (column_for mysql_order_columns "SUM_TIMER_WAIT" a) b
      else if bool_decide (method = "error_logs") then Some (mysql_error_logs_sql, [("since", a)])
      else table_read method mysql_indexes_sql mysql_statistics_sql a b
  | _ => None
  end.

(* ------------------------------------------------------------------ *)
(** ** Operations that change something *)

(** the texts of the write statements *)
Definition kill_sql (n : Z) : string := "KILL " +:+ pretty n.
Definition kill_query_sql (n : Z) : string := "KILL QUERY " +:+ pretty n.
Definition quoted_columns (quote : string → string) (columns : list string) : string :=
  str_join ", " (map quote columns).
Definition mssql_update_statistics_sql (schema table : string) : string :=
  "UPDATE STATISTICS " +:+ mssql_quote_ident schema +:+ "." +:+ mssql_quote_ident table.
Definition mssql_create_index_sql (schema table : string) (columns : list string) (name : string)
    (unique : bool) : string :=
  "CREATE " +:+ (if unique then "UNIQUE " else "") +:+ "NONCLUSTERED INDEX " +:+ mssql_quote_ident name
  +:+ " ON " +:+ mssql_quote_ident schema +:+ "." +:+ mssql_quote_ident table +:+ " ("
  +:+ quoted_columns mssql_quote_ident columns +:+ ") WITH (ONLINE = ON)".
Definition mssql_rebuild_index_sql (schema table index_name : string) : string :=
  "ALTER INDEX " +:+ mssql_quote_ident index_name +:+ " ON " +:+ mssql_quote_ident schema +:+ "."
  +:+ mssql_quote_ident table +:+ " REBUILD WITH (ONLINE = ON)".
Definition mssql_modify_configuration_sql (parameter : string) : string :=
  "EXEC sp_configure " +:+ quote_ident_literal parameter +:+ ", %(value)s; RECONFIGURE".
Definition pg_update_statistics_sql (schema table : string) : string :=
  "analyze " +:+ pg_quote_ident schema +:+ "." +:+ pg_quote_ident table.
Definition pg_create_index_sql (schema table : string) (columns : list string) (name : string)
    (unique : bool) : string :=
  "create " +:+ (if unique then "unique " else "") +:+ "index concurrently " +:+ pg_quote_ident name
  +:+ " on " +:+ pg_quote_ident schema +:+ "." +:+ pg_quote_ident table +:+ " ("
  +:+ quoted_columns pg_quote_ident columns +:+ ")".
Definition pg_rebuild_index_sql (schema index_name : string) : string :=
  "reindex index concurrently " +:+ pg_quote_ident schema +:+ "." +:+ pg_quote_ident index_name.
Definition pg_modify_configuration_sql (parameter : string) : string :=
  "alter system set " +:+ pg_quote_ident parameter +:+ " = %(value)s".
Definition mysql_update_statistics_sql (schema table : string) : string :=
  "ANALYZE TABLE " +:+ mysql_quote_ident schema +:+ "." +:+ mysql_quote_ident table.
Definition mysql_create_index_sql (schema table : string) (columns : list string) (name : string)
    (unique : bool) : string :=
  "CREATE " +:+ (if unique then "UNIQUE " else "") +:+ "INDEX " +:+ mysql_quote_ident name
  +:+ " ON " +:+ mysql_quote_ident schema +:+ "." +:+ mysql_quote_ident table +:+ " ("
  +:+ quoted_columns mysql_quote_ident columns +:+ ") ALGORITHM=INPLACE, LOCK=NONE".
Definition mysql_rebuild_index_sql (schema table : string) : string :=
  "ALTER TABLE " +:+ mysql_quote_ident schema +:+ "." +:+ mysql_quote_ident table +:+ " ENGINE=InnoDB".
Definition mysql_modify_configuration_sql (parameter : string) : string :=
  "SET GLOBAL " +:+ mysql_quote_ident parameter +:+ " = %(value)s".

Definition mysql_rebuild_note : string :=
  "MySQL/MariaDB rebuild all indexes on the table, not just this one.".
Definition pg_stat_statements_note : string :=
  "The pg_stat_statements extension is not installed/enabled on "
  +:+ "this server, so per-query statistics aren't available. Run "
  +:+ "`CREATE EXTENSION pg_stat_statements;` (after adding it to "
  +:+ "shared_preload_libraries and restarting) to enable this.".

Section adapters.
Context {X : Type} `{QueryExecutor X} (conn : X).

Abbreviation fields := db_row.
Abbreviation params := (list (string * json)).
Abbreviation method_of A := (option (M Sent exn A)).

(** [int(session_id)], then one statement *)
Definition on_session {A} (session_id : json) (k : Z → M Sent exn A) : M Sent exn A :=
  n ← lift_res (session_number session_id); k n.
(** an operation whose result is merged into its description *)
Definition run_and_report (sql : string) (bound : params) (base : list (string * json)) : M Sent exn fields :=
  result ← execute conn sql bound; mret (merge_fields (prod_map id Plain <$> base) result).
Definition unavailable_method {A} (text : string) : M Sent exn A :=
  raise (PyError "NotImplementedError" text).
(** the columns of an index: a list of texts (what else can be iterated raises here) *)
Definition columns_arg (l : list json) : option (list string) :=
  mapM (λ v, match v with JStr s => Some s | _ => None end) l.

Definition mssql_write (method : string) (args : list json) : method_of fields :=
  match args with
  | [] =>
      if bool_decide (method = "restart_instance") then Some (unavailable_method
        ("restart_instance requires an out-of-band infrastructure action "
         +:+ "(e.g. SQL Server Agent job, Windows service control, or cloud-managed "
         +:+ "instance API), not a T-SQL statement; wire this to your platform's "
         +:+ "instance-management API.")) else None
  | [_] =>
      if bool_decide (method = "failover") then Some (unavailable_method
        ("failover must target a specific, inventory-resolved Availability Group and "
         +:+ "is intentionally not auto-executed from generic adapter code; wire this to "
         +:+ "your platform's Always On failover runbook/API.")) else None
  | [a; b] =>
      if bool_decide (method = "cancel_query") then Some (on_session a (λ n,
        run_and_report (kill_sql n) [] [("cancelled", JBool true); ("session_id", a)]))
      else if bool_decide (method = "kill_session") then Some (on_session a (λ n,
        run_and_report (kill_sql n) [] [("terminated", JBool true); ("session_id", a)]))
      else
        match a with
        | JStr a =>
            if bool_decide (method = "update_statistics") then
              match b with JStr b => Some (run_and_report (mssql_update_statistics_sql a b) []
                [("updated", JBool true); ("schema", JStr a); ("table", JStr b)]) | _ => None end
            else if bool_decide (method = "modify_configuration") then Some
              (run_and_report (mssql_modify_configuration_sql a) [("value", b)]
                 [("parameter", JStr a); ("value", b)])
            else None
        | _ => None
        end
  | [JStr schema; JStr table; JStr index_name] =>
      if bool_decide (method = "rebuild_index") then Some
        (run_and_report (mssql_rebuild_index_sql schema table index_name) []
           [("rebuilt", JBool true); ("index_name", JStr index_name)]) else None
  | [JStr schema; JStr table; JArr columns; JStr name; unique] =>
      if bool_decide (method = "create_index") then
        columns ← columns_arg columns;
        Some (run_and_report (mssql_create_index_sql schema table columns name (json_truthy unique)) []
                [("created", JBool true); ("index_name", JStr name)]) else None
  | _ => None
  end.

(** [{"cancelled": result.get("cancelled", False), "session_id": session_id}] *)
Definition pg_signal (sql flag : string) (session_id : json) : M Sent exn fields :=
  on_session session_id (λ n,
    result ← execute conn sql [("pid", JInt n)];
    mret [(flag, default (Plain (JBool false)) (dict_get flag result)); ("session_id", Plain session_id)]).
Definition pg_write (method : string) (args : list json) : method_of fields :=
  match args with
  | [] =>
      if bool_decide (method = "restart_instance") then Some (unavailable_method
        ("restart_instance requires an out-of-band infrastructure action "
         +:+ "(e.g. orchestrator/systemd/managed-service API call), not a SQL statement; "
         +:+ "wire this to your platform's instance-management API.")) else None
  | [_] =>
      if bool_decide (method = "failover") then Some (unavailable_method
        ("failover requires the replication manager's control-plane API "
         +:+ "(e.g. Patroni/repmgr/cloud-managed failover), not a SQL statement.")) else None
  | [a; b] =>
      if bool_decide (method = "cancel_query") then
        Some (pg_signal "select pg_cancel_backend(%(pid)s) as cancelled" "cancelled" a)
      else if bool_decide (method = "kill_session") then
        Some (pg_signal "select pg_terminate_backend(%(pid)s) as terminated" "terminated" a)
      else
        match a with
        | JStr a =>
            if bool_decide (method = "update_statistics") then
              match b with JStr b => Some (run_and_report (pg_update_statistics_sql a b) []
                [("analyzed", JBool true); ("schema", JStr a); ("table", JStr b)]) | _ => None end
            else if bool_decide (method = "modify_configuration") then Some
              (result ← execute conn (pg_modify_configuration_sql a) [("value", b)];
               _ ← execute conn "select pg_reload_conf()" [];
               mret (merge_fields [("parameter", Plain (JStr a)); ("value", Plain b);
                                   ("reload_triggered", Plain (JBool true))] result))
            else None
        | _ => None
        end
  | [JStr schema; _; JStr index_name] =>
      if bool_decide (method = "rebuild_index") then Some
        (run_and_report (pg_rebuild_index_sql schema index_name) []
           [("rebuilt", JBool true); ("index_name", JStr index_name)]) else None
  | [JStr schema; JStr table; JArr columns; JStr name; unique] =>
      if bool_decide (method = "create_index") then
        columns ← columns_arg columns;
        Some (run_and_report (pg_create_index_sql schema table columns name (json_truthy unique)) []
                [("created", JBool true); ("index_name", JStr name)]) else None
  | _ => None
  end.

Definition mysql_write (method : string) (args : list json) : method_of fields :=
  match args with
  | [] =>
      if bool_decide (method = "restart_instance") then Some (unavailable_method
        ("restart_instance requires an out-of-band infrastructure action "
         +:+ "(systemd / mysqladmin shutdown + supervisor / managed-service API), "
         +:+ "not a SQL statement; wire this to your platform's instance-management API.")) else None
  | [_] =>
      if bool_decide (method = "failover") then Some (unavailable_method
        ("failover requires the replication topology manager's control-plane "
         +:+ "API (Orchestrator / MHA / Group Replication / managed-service failover), "
         +:+ "not a SQL statement.")) else None
  | [a; b] =>
      if bool_decide (method = "cancel_query") then Some (on_session a (λ n,
        run_and_report (kill_query_sql n) [] [("cancelled", JBool true); ("session_id", a)]))
      else if bool_decide (method = "kill_session") then Some (on_session a (λ n,
        run_and_report (kill_sql n) [] [("terminated", JBool true); ("session_id", a)]))
      else
        match a with
        | JStr a =>
            if bool_decide (method = "update_statistics") then
              match b with JStr b => Some (run_and_report (mysql_update_statistics_sql a b) []
                [("analyzed", JBool true); ("schema", JStr a); ("table", JStr b)]) | _ => None end
            else if bool_decide (method = "modify_configuration") then Some
              (run_and_report (mysql_modify_configuration_sql a) [("value", b)]
                 [("parameter", JStr a); ("value", b); ("persisted_across_restart", JBool false)])
            else None
        | _ => None
        end
  | [JStr schema; JStr table; index_name] =>
      if bool_decide (method = "rebuild_index") then Some
        (run_and_report (mysql_rebuild_index_sql schema table) []
           [("rebuilt", JBool true); ("index_name", index_name); ("note", JStr mysql_rebuild_note)])
      else None
  | [JStr schema; JStr table; JArr columns; JStr name; unique] =>
      if bool_decide (method = "create_index") then
        columns ← columns_arg columns;
        Some (run_and_report (mysql_create_index_sql schema table columns name (json_truthy unique)) []
                [("created", JBool true); ("index_name", JStr name)]) else None
  | _ => None
  end.
End adapters.

(* ------------------------------------------------------------------ *)
(** ** The latest deadlock of InnoDB *)

(** a run of dashes: its length and the text after it *)
Fixpoint dash_run (s : string) : nat * string :=
  match s with
  | String c s' => if bool_decide (c = "-"%char) then let '(n, r) := dash_run s' in (S n, r) else (0, s)
  | EmptyString => (0, EmptyString)
  end.
(** at least [n] dashes and a newline *)
Definition dashed_line (n : nat) (s : string) : option string :=
  let '(k, rest) := dash_run s in
  match rest with
  | String c rest => if (n <=? k) && bool_decide (c = newline) then Some rest else None
  | EmptyString => None
  end.
(** [(.*?)(?:\n-{10,}\n|\Z)] *)
Fixpoint until_dashed_line (s : string) : string :=
  match s with
  | EmptyString => EmptyString
  | String c s' =>
      if bool_decide (c = newline) && negb (bool_decide (dashed_line 10 s' = None)) then EmptyString
      else String c (until_dashed_line s')
  end.
(** [_DEADLOCK_SECTION.search(status)], with its group *)
Fixpoint deadlock_section (s : string) : option string :=
  match after_prefix ("LATEST DETECTED DEADLOCK" +:+ String newline "") s ≫= dashed_line 1 with
  | Some body => Some (until_dashed_line body)
  | None => match s with String _ s => deadlock_section s | EmptyString => None end
  end.

Example deadlock_ex :
  let line s := s +:+ String newline "" in
  deadlock_section (line "x" +:+ line "LATEST DETECTED DEADLOCK" +:+ line "------" +:+ line "a"
                    +:+ line "-- b" +:+ line "----------" +:+ "TRANSACTIONS")
  = Some (line "a" +:+ "-- b").
Proof. vm_compute. reflexivity. Qed.

Section adapter.
Context {X : Type} `{QueryExecutor X} (conn : X).
Context (since_text : Z → string) (py_repr : json → string).

(** [MySQLAdapter.deadlocks] on the rows of [SHOW ENGINE INNODB STATUS] *)
Definition latest_deadlock (rows : list db_row) : list db_row :=
  let status := match rows with
                | [] => ""
                | r :: _ =>
                    let first := default (Plain (JStr "")) (head (map snd r)) in
                    cell_str py_repr
                      (match dict_get "Status" r with
                       | Some v => if cell_truthy v then v else first
                       | None => first
                       end)
                end in
  [[("latest_detected_deadlock",
     Plain (match deadlock_section status with Some s => JStr (str_strip s) | None => JNull end))]].

(** [_pg_stat_statements_query] *)
Definition pg_stat_statements_query (sql : string) (params : list (string * json))
    : M Sent exn (list db_row) :=
  try_except (fetch_rows conn sql params) (λ e,
    if negb (str_contains "pg_stat_statements" (exn_text e)) then raise e
    else mret [[("note", Plain (JStr pg_stat_statements_note))]]).

Definition read_statement (cls : AdapterClass) (method : string) (args : list json)
    : option (string * list (string * json)) :=
  match cls with
  | SQLServerAdapter => mssql_read since_text method args
  | PostgreSQLAdapter => pg_read method args
  | MySQLAdapter => mysql_read method args
  end.
Definition read_method (cls : AdapterClass) (method : string) (args : list json)
    : option (M Sent exn (list db_row)) :=
  match cls, read_statement cls method args with
  | PostgreSQLAdapter, Some (sql, params) =>
      if mem method ["query_plan"; "top_queries"] then Some (pg_stat_statements_query sql params)
      else Some (fetch_rows conn sql params)
  | MySQLAdapter, Some (sql, params) =>
      if bool_decide (method = "deadlocks") then
        Some (rows ← fetch_rows conn sql params; mret (latest_deadlock rows))
      else Some (fetch_rows conn sql params)
  | _, Some (sql, params) => Some (fetch_rows conn sql params)
  | MySQLAdapter, None =>
      if bool_decide (method = "backups") && bool_decide (args = []) then Some (unavailable_method
        ("MySQL/MariaDB have no built-in backup catalog — backup history "
         +:+ "lives in your backup tool (mysqldump / Percona XtraBackup / "
         +:+ "mariabackup / a managed-service snapshot API). Wire get_backup_status "
         +:+ "to that tool's catalog."))
      else None
  | _, None => None
  end.
Definition write_method (cls : AdapterClass) : string → list json → option (M Sent exn db_row) :=
  match cls with
  | SQLServerAdapter => mssql_write conn
  | PostgreSQLAdapter => pg_write conn
  | MySQLAdapter => mysql_write conn
  end.

(** [execute_readonly_sql], where it is overridden *)
Definition readonly_sql_method (cls : AdapterClass) (method : string) (args : list json)
    : option (M Sent exn (list db_row)) :=
  match cls, args with
  | MySQLAdapter, _ => None
  | _, [JStr validated_sql] =>
      if bool_decide (method = "execute_readonly_sql") then Some (fetch_rows conn validated_sql []) else None
  | _, _ => None
  end.

(** a method of an adapter by its name.  Arguments no method takes raise: a wrong number of
    them, a text that is no [str], an [order_by] that is no key; the exception is a
    [TypeError] here where the code may raise an [AttributeError], and both are answered as
    [EXECUTION_FAILED] *)
Definition adapter_method (cls : AdapterClass) (method : string) (args : list json)
    : M Sent exn AdapterValue :=
  match read_method cls method args with
  | Some m => rows ← m; mret (Rows rows)
  | None =>
      match readonly_sql_method cls method args with
      | Some m => rows ← m; mret (Rows rows)
      | None =>
          match write_method cls method args with
          | Some m => fields ← m; mret (Affected fields)
          | None => raise type_error
          end
      end
  end.
End adapter.
