(* ===== verification/AdapterFacts.v ===== *)
(** What the engine adapters send: constant texts, numbers, and templates with quoted
    identifiers, whatever the arguments are; values are bound, never written into the text. *)
From S2P Require Import Prelude ProgramLogic Json Text Models ToolCatalog Servers Policy RateLimit.
From S2P Require Import Approval DataPolicy Discovery Gateway Identity Cells Execution AdapterSql Adapters.

(* ------------------------------------------------------------------ *)
(** ** The quoting of the engines *)

(** a statement as its characters and its quoted parts *)
Inductive token : Type := TChar (c : ascii) | TQuoted (s : string).

(** the closing quote of an opening one *)
Definition closing (cls : AdapterClass) (c : ascii) : option ascii :=
  match cls with
  | SQLServerAdapter => if bool_decide (c = "["%char) then Some "]"%char
                        else if bool_decide (c = "'"%char) then Some "'"%char else None
  | PostgreSQLAdapter => if mem c [dquote; "'"%char] then Some c else None
  | MySQLAdapter => if mem c ["`"; "'"; dquote]%char then Some c else None
  end.

(** outside quotes, or inside with the closing quote and the text so far; a doubled closing
    quote stands for itself, and an unclosed quote is no statement *)
Fixpoint lex (cls : AdapterClass) (mode : option (ascii * string)) (s : string) : option (list token) :=
  match mode, s with
  | None, EmptyString => Some []
  | Some _, EmptyString => None
  | None, String c s =>
      match closing cls c with
      | Some close => lex cls (Some (close, "")) s
      | None => cons (TChar c) <$> lex cls None s
      end
  | Some (close, acc), String c s =>
      if bool_decide (c = close) then
        match s with
        | String d s' =>
            if bool_decide (d = close) then lex cls (Some (close, acc +:+ String c "")) s'
            else cons (TQuoted acc) <$> lex cls None s
        | EmptyString => Some [TQuoted acc]
        end
      else lex cls (Some (close, acc +:+ String c "")) s
  end.
Definition hole (t : token) : token := match t with TQuoted _ => TQuoted "" | TChar c => TChar c end.
Definition skeleton (toks : list token) : list token := map hole toks.
Definition identifiers (toks : list token) : list string :=
  omap (λ t, match t with TQuoted s => Some s | TChar _ => None end) toks.

(** *** Templates *)

Inductive part : Type := Txt (s : string) | Quoted (open close : ascii) (s : string).
Definition render_part (p : part) : string :=
  match p with Txt s => s | Quoted open close s => quote_doubling open close s end.
Definition render (l : list part) : string := foldr (λ p r, render_part p +:+ r) "" l.
Fixpoint chars (s : string) : list token :=
  match s with EmptyString => [] | String c s => TChar c :: chars s end.
Definition part_tokens (p : part) : list token :=
  match p with Txt s => chars s | Quoted _ _ s => [TQuoted s] end.

(** texts have no quote; a quoted part is followed by a text that does not go on with its
    closing quote, or by nothing *)
Definition plain (cls : AdapterClass) (s : string) : Prop := str_all (λ c, bool_decide (closing cls c = None)) s = true.
Fixpoint well_formed (cls : AdapterClass) (l : list part) : Prop :=
  match l with
  | [] => True
  | Txt s :: l => plain cls s ∧ well_formed cls l
  | Quoted open close _ :: l =>
      closing cls open = Some close ∧ well_formed cls l ∧
      match l with [] => True | Txt (String c _) :: _ => c ≠ close | _ => False end
  end.

Lemma lex_chars cls s r : plain cls s → lex cls None (s +:+ r) = app (chars s) <$> lex cls None r.
Proof.
  unfold plain. induction s as [|c s IH]; intros Hs.
  - change ("" +:+ r) with r. cbn. by destruct (lex cls None r).
  - cbn in Hs. apply andb_true_iff in Hs as [Hc%bool_decide_eq_true Hs].
    cbn. rewrite Hc. fold (s +:+ r). rewrite (IH Hs). by destruct (lex cls None r).
Qed.

Lemma lex_quoted cls close s : ∀ acc r, match r with EmptyString => True | String c _ => c ≠ close end →
  lex cls (Some (close, acc)) (str_replace close (String close (String close "")) s +:+ String close r)
  = cons (TQuoted (acc +:+ s)) <$> lex cls None r.
Proof.
  induction s as [|c s IH]; intros acc r Hr.
  - cbn. rewrite bool_decide_true // str_app_nil_r. destruct r as [|d r]; [done|]. by rewrite bool_decide_false.
  - cbn [str_replace]. case_bool_decide as Hc.
    + subst c. cbn. rewrite !bool_decide_true //. rewrite (IH _ _ Hr) str_app_assoc. done.
    + cbn. rewrite bool_decide_false //. rewrite (IH _ _ Hr) str_app_assoc. done.
Qed.

Lemma lex_render cls l : well_formed cls l → lex cls None (render l) = Some (l ≫= part_tokens).
Proof.
  induction l as [|[s|open close s] l IH]; [done| |].
  - intros [Hs Hl]. cbn. fold (render l). by rewrite (lex_chars _ _ _ Hs) (IH Hl).
  - intros (Ho & Hl & Hnext). cbn. fold (render l). rewrite Ho. 
    rewrite str_app_assoc. change (String close "" +:+ render l) with (String close (render l)).
    rewrite lex_quoted; [|by rewrite (IH Hl)].
    destruct l as [|[[|c t]|] l]; done.
Qed.

(** the quoted parts of a template, and the template without them *)
Definition blank (p : part) : part :=
  match p with Quoted open close _ => Quoted open close "" | Txt s => Txt s end.
Definition quoted_texts (l : list part) : list string :=
  omap (λ p, match p with Quoted _ _ s => Some s | Txt _ => None end) l.

Lemma identifiers_parts l : identifiers (l ≫= part_tokens) = quoted_texts l.
Proof.
  assert (∀ s, identifiers (chars s) = []) as Hc by (by induction s).
  assert (∀ t u, identifiers (t ++ u) = identifiers t ++ identifiers u) as Ha.
  { intros t u. unfold identifiers. by rewrite omap_app. }
  induction l as [|[s|o c s] l IH]; [done| |].
  - cbn [mbind list_bind part_tokens]. by rewrite Ha Hc IH.
  - cbn [mbind list_bind part_tokens]. by rewrite Ha IH.
Qed.
Lemma skeleton_parts l : skeleton (l ≫= part_tokens) = map blank l ≫= part_tokens.
Proof.
  assert (∀ s, skeleton (chars s) = chars s) as Hc.
  { induction s as [|c s IH]; [done|]. cbn. by rewrite -{2}IH. }
  unfold skeleton in *. induction l as [|[s|o c s] l IH]; [done| |].
  - cbn [mbind list_bind part_tokens map blank]. by rewrite map_app Hc IH.
  - cbn [mbind list_bind part_tokens map blank]. by rewrite map_app IH.
Qed.

(** *** The write statements as templates *)

(** an identifier of an engine, and what is written of it *)
Definition written (cls : AdapterClass) (s : string) : string :=
  match cls with PostgreSQLAdapter => str_replace dquote "" s | _ => s end.
Definition ident (cls : AdapterClass) (s : string) : part :=
  match cls with
  | SQLServerAdapter => Quoted "["%char "]"%char s
  | PostgreSQLAdapter => Quoted dquote dquote (str_replace dquote "" s)
  | MySQLAdapter => Quoted "`"%char "`"%char s
  end.
Definition quote_of (cls : AdapterClass) : string → string :=
  match cls with
  | SQLServerAdapter => mssql_quote_ident
  | PostgreSQLAdapter => pg_quote_ident
  | MySQLAdapter => mysql_quote_ident
  end.

Lemma no_quotes_left s t : str_replace dquote t (str_replace dquote "" s) = str_replace dquote "" s.
Proof.
  induction s as [|c s IH]; [done|]. cbn [str_replace]. case_bool_decide as Hc; [exact IH|].
  cbn [str_replace]. by rewrite bool_decide_false // IH.
Qed.
Lemma render_ident cls s : render_part (ident cls s) = quote_of cls s.
Proof. destruct cls; [done| |done]. cbn. unfold quote_doubling. by rewrite no_quotes_left. Qed.

Fixpoint column_parts (cls : AdapterClass) (columns : list string) : list part :=
  match columns with
  | [] => []
  | [c] => [ident cls c]
  | c :: l => ident cls c :: Txt ", " :: column_parts cls l
  end.
Lemma render_columns cls columns : render (column_parts cls columns) = quoted_columns (quote_of cls) columns.
Proof.
  unfold quoted_columns, str_join. induction columns as [|c [|d l] IH]; [done| |].
  - cbn. by rewrite render_ident str_app_nil_r.
  - change (column_parts cls (c :: d :: l)) with (ident cls c :: Txt ", " :: column_parts cls (d :: l)).
    cbn [render foldr map String.concat]. fold (render (column_parts cls (d :: l))). rewrite IH render_ident.
    by rewrite /render_part.
Qed.
Lemma render_app l m : render (l ++ m) = render l +:+ render m.
Proof. induction l as [|p l IH]; [done|]. cbn. by rewrite -/(render _) IH str_app_assoc. Qed.

(** the four kinds of texts of an engine *)
Definition statistics_parts (cls : AdapterClass) (schema table : string) : list part :=
  [Txt (match cls with SQLServerAdapter => "UPDATE STATISTICS " | PostgreSQLAdapter => "analyze "
                  | MySQLAdapter => "ANALYZE TABLE " end); ident cls schema; Txt "."; ident cls table].
Definition rebuild_parts (cls : AdapterClass) (schema table index_name : string) : list part :=
  match cls with
  | SQLServerAdapter => [Txt "ALTER INDEX "; ident cls index_name; Txt " ON "; ident cls schema; Txt ".";
                         ident cls table; Txt " REBUILD WITH (ONLINE = ON)"]
  | PostgreSQLAdapter => [Txt "reindex index concurrently "; ident cls schema; Txt "."; ident cls index_name]
  | MySQLAdapter => [Txt "ALTER TABLE "; ident cls schema; Txt "."; ident cls table; Txt " ENGINE=InnoDB"]
  end.
Definition configuration_parts (cls : AdapterClass) (parameter : string) : list part :=
  match cls with
  | SQLServerAdapter => [Txt "EXEC sp_configure "; Quoted "'"%char "'"%char parameter;
                         Txt ", %(value)s; RECONFIGURE"]
  | PostgreSQLAdapter => [Txt "alter system set "; ident cls parameter; Txt " = %(value)s"]
  | MySQLAdapter => [Txt "SET GLOBAL "; ident cls parameter; Txt " = %(value)s"]
  end.
Definition index_head (cls : AdapterClass) (unique : bool) : string :=
  match cls with
  | SQLServerAdapter => "CREATE " +:+ (if unique then "UNIQUE " else "") +:+ "NONCLUSTERED INDEX "
  | PostgreSQLAdapter => "create " +:+ (if unique then "unique " else "") +:+ "index concurrently "
  | MySQLAdapter => "CREATE " +:+ (if unique then "UNIQUE " else "") +:+ "INDEX "
  end.
Definition index_tail (cls : AdapterClass) : string :=
  match cls with
  | SQLServerAdapter => ") WITH (ONLINE = ON)"
  | PostgreSQLAdapter => ")"
  | MySQLAdapter => ") ALGORITHM=INPLACE, LOCK=NONE"
  end.
Definition index_parts (cls : AdapterClass) (schema table : string) (columns : list string)
    (name : string) (unique : bool) : list part :=
  [Txt (index_head cls unique); ident cls name;
   Txt (match cls with PostgreSQLAdapter => " on " | _ => " ON " end);
   ident cls schema; Txt "."; ident cls table; Txt " ("]
  ++ column_parts cls columns ++ [Txt (index_tail cls)].

Definition statistics_sql (cls : AdapterClass) : string → string → string :=
  match cls with
  | SQLServerAdapter => mssql_update_statistics_sql
  | PostgreSQLAdapter => pg_update_statistics_sql
  | MySQLAdapter => mysql_update_statistics_sql
  end.
Definition rebuild_sql (cls : AdapterClass) (schema table index_name : string) : string :=
  match cls with
  | SQLServerAdapter => mssql_rebuild_index_sql schema table index_name
  | PostgreSQLAdapter => pg_rebuild_index_sql schema index_name
  | MySQLAdapter => mysql_rebuild_index_sql schema table
  end.
Definition configuration_sql (cls : AdapterClass) : string → string :=
  match cls with
  | SQLServerAdapter => mssql_modify_configuration_sql
  | PostgreSQLAdapter => pg_modify_configuration_sql
  | MySQLAdapter => mysql_modify_configuration_sql
  end.
Definition index_sql (cls : AdapterClass) : string → string → list string → string → bool → string :=
  match cls with
  | SQLServerAdapter => mssql_create_index_sql
  | PostgreSQLAdapter => pg_create_index_sql
  | MySQLAdapter => mysql_create_index_sql
  end.

Lemma statistics_render cls schema table :
  statistics_sql cls schema table = render (statistics_parts cls schema table).
Proof. destruct cls; cbn -[ident]; rewrite !render_ident str_app_nil_r; reflexivity. Qed.
Lemma rebuild_render cls schema table index_name :
  rebuild_sql cls schema table index_name = render (rebuild_parts cls schema table index_name).
Proof. destruct cls; cbn -[ident]; rewrite !render_ident ?str_app_nil_r; reflexivity. Qed.
Lemma configuration_render cls parameter :
  configuration_sql cls parameter = render (configuration_parts cls parameter).
Proof. destruct cls; cbn -[ident]; rewrite ?render_ident; reflexivity. Qed.
Lemma index_render cls schema table columns name unique :
  index_sql cls schema table columns name unique = render (index_parts cls schema table columns name unique).
Proof.
  unfold index_parts. rewrite !render_app render_columns. cbn -[ident index_head index_tail String.append].
  rewrite !render_ident str_app_nil_r.
  destruct cls; cbn -[String.append quoted_columns mssql_quote_ident pg_quote_ident mysql_quote_ident];
    unfold mssql_create_index_sql, pg_create_index_sql, mysql_create_index_sql;
    rewrite ?str_app_assoc ?str_app_nil_r; reflexivity.
Qed.

Lemma closing_ident cls s : ∃ open close t, ident cls s = Quoted open close t ∧
  closing cls open = Some close ∧ close ≠ " "%char ∧ close ≠ "."%char ∧ close ≠ ","%char ∧ close ≠ ")"%char.
Proof. destruct cls; do 3 eexists; (split; [reflexivity|]); vm_compute; repeat split; discriminate. Qed.
Lemma well_formed_ident cls s c t l : plain cls (String c t) → mem c [" "; "."; ","; ")"]%char = true →
  well_formed cls l → well_formed cls (ident cls s :: Txt (String c t) :: l).
Proof.
  intros Hp Hc Hl. destruct (closing_ident cls s) as (o & q & u & -> & Ho & H1 & H2 & H3 & H4).
  cbn. split_and!; [done..|]. intros ->. apply bool_decide_eq_true in Hc. set_solver.
Qed.
Lemma well_formed_txt cls s l : plain cls s → well_formed cls l → well_formed cls (Txt s :: l).
Proof. by split. Qed.
Lemma well_formed_last cls s : well_formed cls [ident cls s].
Proof. destruct (closing_ident cls s) as (o & q & u & -> & Ho & _). by repeat split. Qed.
Lemma well_formed_columns cls columns tail : mem tail [") WITH (ONLINE = ON)"; ")"; ") ALGORITHM=INPLACE, LOCK=NONE"] = true →
  well_formed cls (column_parts cls columns ++ [Txt tail]).
Proof.
  intros Ht. assert (∃ t, tail = String ")" t ∧ plain cls tail) as (t & -> & Hp).
  { apply bool_decide_eq_true in Ht. repeat (apply elem_of_cons in Ht as [->|Ht]; [destruct cls; by eexists|]).
    by apply elem_of_nil in Ht. }
  induction columns as [|c [|d l] IH]; [exact (conj Hp I)|by apply well_formed_ident|].
  change (column_parts cls (c :: d :: l) ++ [Txt (String ")" t)])
    with (ident cls c :: Txt ", " :: (column_parts cls (d :: l) ++ [Txt (String ")" t)])).
  apply well_formed_ident; [by destruct cls|done|]. exact IH.
Qed.

Ltac template :=
  repeat first
    [ apply well_formed_last | apply well_formed_ident; [reflexivity|reflexivity|]
    | apply well_formed_txt; [reflexivity|] | exact I ].

Lemma statistics_formed cls schema table : well_formed cls (statistics_parts cls schema table).
Proof. destruct cls; unfold statistics_parts; template. Qed.
Lemma rebuild_formed cls schema table index_name : well_formed cls (rebuild_parts cls schema table index_name).
Proof. destruct cls; unfold rebuild_parts; template. Qed.
Lemma configuration_formed cls parameter : well_formed cls (configuration_parts cls parameter).
Proof. destruct cls; unfold configuration_parts; template. vm_compute. by repeat split. Qed.
Lemma index_formed cls schema table columns name unique :
  well_formed cls (index_parts cls schema table columns name unique).
Proof.
  pose proof (well_formed_columns cls columns (index_tail cls) ltac:(by destruct cls)) as Hc.
  unfold index_parts. apply well_formed_txt; [by destruct cls, unique|].
  by destruct cls; do 3 (apply well_formed_ident; [reflexivity..|]).
Qed.

(* ------------------------------------------------------------------ *)
(** ** What is sent *)

(** the texts of the reads; [top_queries] has one per column *)
Definition order_columns (cls : AdapterClass) : list string :=
  map snd (match cls with SQLServerAdapter => mssql_order_columns | PostgreSQLAdapter => pg_order_columns
                     | MySQLAdapter => mysql_order_columns end).
Definition read_texts (cls : AdapterClass) : list string :=
  match cls with
  | SQLServerAdapter => map snd mssql_static_reads
      ++ [mssql_query_plan_sql; mssql_indexes_sql; mssql_statistics_sql; mssql_error_logs_sql]
      ++ map mssql_top_queries_sql (order_columns cls)
  | PostgreSQLAdapter => map snd pg_static_reads
      ++ [pg_query_plan_sql; pg_indexes_sql; pg_statistics_sql; pg_error_logs_sql]
      ++ map pg_top_queries_sql (order_columns cls)
  | MySQLAdapter => map snd mysql_static_reads
      ++ [mysql_query_plan_sql; mysql_indexes_sql; mysql_statistics_sql; mysql_error_logs_sql]
      ++ map mysql_top_queries_sql (order_columns cls)
  end.
(** a text that reads: its first word *)
Definition reading_text (sql : string) : bool :=
  let word := str_lower (default "" (head (ws_split1 (str_lstrip sql)))) in
  mem word ["select"; "show"] || starts_with "exec sys.xp_readerrorlog " (str_lower (str_lstrip sql)).

Lemma read_texts_read cls sql : sql ∈ read_texts cls → reading_text sql = true.
Proof.
  assert (forallb reading_text (read_texts cls) = true) as Hf by (destruct cls; vm_compute; reflexivity).
  intros Hs. rewrite List.forallb_forall in Hf. by apply Hf, list_elem_of_In.
Qed.

Lemma column_known columns dflt order_by c : dflt ∈ map snd columns →
  column_for columns dflt order_by = Some c → c ∈ map snd columns.
Proof.
  intros Hd. unfold column_for. destruct order_by as [| | |name| |]; try done; intros [= <-]; try done.
  destruct (dict_get name columns) as [c|] eqn:Ec; [|done].
  apply dict_get_elem in Ec. exact (list_elem_of_fmap_2 snd _ _ Ec).
Qed.
Lemma static_known method (l : list (string * string)) sql params (rest : list string) :
  (λ sql, (sql, [] : list (string * json))) <$> dict_get method l = Some (sql, params) →
  sql ∈ map snd l ++ rest.
Proof.
  intros (s & Hd & [= -> ->])%fmap_Some. apply dict_get_elem in Hd. apply elem_of_app. left.
  exact (list_elem_of_fmap_2 snd _ _ Hd).
Qed.
Lemma top_known (texts extra : list string) (f : string → string) columns c : c ∈ columns →
  f c ∈ texts ++ extra ++ map f columns.
Proof. intros Hc. do 2 (apply elem_of_app; right). exact (list_elem_of_fmap_2 f _ _ Hc). Qed.
Lemma extra_known (texts extra rest : list string) (n : nat) s : extra !! n = Some s → s ∈ texts ++ extra ++ rest.
Proof. intros Hs. apply elem_of_app. right. apply elem_of_app. left. by apply list_elem_of_lookup_2 in Hs. Qed.

#[local] Opaque mssql_static_reads mssql_query_plan_sql mssql_indexes_sql mssql_statistics_sql
  mssql_error_logs_sql mssql_top_queries_sql pg_static_reads pg_query_plan_sql pg_indexes_sql
  pg_statistics_sql pg_error_logs_sql pg_top_queries_sql mysql_static_reads mysql_query_plan_sql
  mysql_indexes_sql mysql_statistics_sql mysql_error_logs_sql mysql_top_queries_sql.
Lemma top_read_known top_sql columns dflt order_by limit sql params texts extra : dflt ∈ map snd columns →
  top_read top_sql (column_for columns dflt order_by) limit = Some (sql, params) →
  sql ∈ texts ++ extra ++ map top_sql (map snd columns).
Proof.
  unfold top_read. intros Hd (c & Hc & [= <- _])%bind_Some. apply top_known.
  by eapply column_known.
Qed.
Lemma table_read_known method indexes_sql statistics_sql a b sql params :
  table_read method indexes_sql statistics_sql a b = Some (sql, params) →
  sql = indexes_sql ∨ sql = statistics_sql.
Proof. unfold table_read. repeat case_match; intros [= <- _]; auto. Qed.
(** the text of a read is one of them, whatever the arguments *)
Lemma read_statement_known since_text cls method args sql params :
  read_statement since_text cls method args = Some (sql, params) → sql ∈ read_texts cls.
Proof.
  destruct cls; cbn [read_statement]; unfold mssql_read, pg_read, mysql_read;
    (destruct args as [|a1 [|a2 [|a3 args]]]; [apply static_known| | |done]);
    (case_match; [|try done]);
    try (apply top_read_known; vm_compute; repeat (first [left|right])).
  1,3,5: intros [= <- _]; by apply (extra_known _ _ _ 0).
  all: case_match; [|intros [->| ->]%table_read_known; [by apply (extra_known _ _ _ 1)|by apply (extra_known _ _ _ 2)]].
  all: first [intros [= <- _]; by apply (extra_known _ _ _ 3)
             |intros (m & _ & [= <- _])%bind_Some; by apply (extra_known _ _ _ 3)].
Qed.

(** the texts of the writes, with every identifier empty: as many as the operation has
    columns *)
Definition blank_texts (cls : AdapterClass) (args : list json) : list string :=
  [statistics_sql cls "" ""; rebuild_sql cls "" "" ""; configuration_sql cls ""]
  ++ match args with
     | [_; _; JArr columns; _; unique] =>
         [index_sql cls "" "" (map (λ _, "") columns) "" (json_truthy unique)]
     | _ => []
     end.
(** the texts among the arguments *)
Definition argument_texts (args : list json) : list string :=
  args ≫= λ a, match a with
               | JStr s => [s]
               | JArr l => omap (λ v, match v with JStr s => Some s | _ => None end) l
               | _ => []
               end.
Definition signal_texts (cls : AdapterClass) (n : Z) : list string :=
  match cls with
  | PostgreSQLAdapter => ["select pg_cancel_backend(%(pid)s) as cancelled";
                          "select pg_terminate_backend(%(pid)s) as terminated"; "select pg_reload_conf()"]
  | SQLServerAdapter => [kill_sql n]
  | MySQLAdapter => [kill_sql n; kill_query_sql n]
  end.

(** a statement the engines may be sent for these arguments *)
Inductive templated (cls : AdapterClass) (args : list json) (st : Statement) : Prop :=
| TmRead : sm_kind st = FetchAll → sm_sql st ∈ read_texts cls → templated cls args st
| TmValidated sql : sm_kind st = FetchAll → args = [JStr sql] → sm_sql st = sql → templated cls args st
| TmSignal n : sm_kind st = Execute → sm_sql st ∈ signal_texts cls n → templated cls args st
| TmWrite toks : sm_kind st = Execute → lex cls None (sm_sql st) = Some toks →
    Some (skeleton toks) ∈ map (λ t, skeleton <$> lex cls None t) (blank_texts cls args) →
    Forall (λ i, ∃ s, s ∈ argument_texts args ∧ (i = s ∨ i = written cls s)) (identifiers toks) →
    templated cls args st.

(** what a method adds to the sent statements satisfies [P] *)
Definition sends_all (P : Statement → Prop) (s s' : Sent) : Prop :=
  ∃ new, s'.2 = s.2 ++ new ∧ Forall P new.
#[local] Instance sends_all_preorder P : PreOrder (sends_all P).
Proof.
  split; [intros s; exists []; by rewrite app_nil_r|].
  intros s t u (n1 & E1 & F1) (n2 & E2 & F2). exists (n1 ++ n2).
  split; [by rewrite E2 E1 app_assoc|by apply Forall_app].
Qed.
Abbreviation sends_templated cls args := (sends_all (templated cls args)).

Section sending.
Context {X : Type} `{QueryExecutor X} (conn : X) (P : Statement → Prop).

Lemma sends_fetch sql params :
  P {| sm_kind := FetchAll; sm_sql := sql; sm_params := params |} →
  preserves (sends_all P) (fetch_rows conn sql params).
Proof.
  intros Ht [t sent]. unfold fetch_rows. destruct (fetch_all conn sql params).
  eexists. split; [reflexivity|by apply Forall_singleton].
Qed.
Lemma sends_execute sql params :
  P {| sm_kind := Execute; sm_sql := sql; sm_params := params |} →
  preserves (sends_all P) (execute conn sql params).
Proof.
  intros Ht [t sent]. unfold execute. destruct (execute_statement conn sql params).
  eexists. split; [reflexivity|by apply Forall_singleton].
Qed.
Lemma sends_quietly {A} (r : res exn A) : preserves (sends_all P) (lift_res r).
Proof. intros s. cbn. reflexivity. Qed.
Lemma sends_unavailable {A} text : preserves (sends_all P) (unavailable_method (A := A) text).
Proof. intros s. cbn. reflexivity. Qed.
Lemma sends_report sql params base :
  P {| sm_kind := Execute; sm_sql := sql; sm_params := params |} →
  preserves (sends_all P) (run_and_report conn sql params base).
Proof. intros Ht. apply preserves_bind; [apply _|by apply sends_execute|intros r s; cbn; reflexivity]. Qed.
Lemma sends_session {A} session (k : Z → M Sent exn A) :
  (∀ n, preserves (sends_all P) (k n)) → preserves (sends_all P) (on_session session k).
Proof. intros Hk. apply preserves_bind; [apply _|apply sends_quietly|exact Hk]. Qed.
Lemma sends_then {A B} (m : M Sent exn A) (f : A → B) :
  preserves (sends_all P) m → preserves (sends_all P) (a ← m; mret (f a)).
Proof. intros Hm. apply preserves_bind; [apply _|exact Hm|intros a s; cbn; reflexivity]. Qed.

(** a read method sends its one statement *)
Lemma read_method_all (since_text : Z → string) py_repr cls method args m :
  (∀ sql params, read_statement since_text cls method args = Some (sql, params) →
     P {| sm_kind := FetchAll; sm_sql := sql; sm_params := params |}) →
  read_method conn since_text py_repr cls method args = Some m → preserves (sends_all P) m.
Proof.
  intros Hp. assert (∀ sql params, read_statement since_text cls method args = Some (sql, params) →
    preserves (sends_all P) (fetch_rows conn sql params)) as Hf by (intros; by apply sends_fetch, Hp).
  unfold read_method.
  destruct cls; destruct (read_statement _ _ _ _) as [[sql params]|];
    repeat case_match; intros [= <-]; try by apply Hf.
  - unfold pg_stat_statements_query. apply preserves_try; [apply _|by apply Hf|].
    intros e. case_match; intros s; cbn; reflexivity.
  - by apply sends_then, Hf.
  - apply sends_unavailable.
Qed.
End sending.

(** a text that renders a template of the engine *)
Lemma write_templated cls args sql parts kind params : kind = Execute →
  sql = render parts → well_formed cls parts →
  (∃ blanks, render blanks ∈ blank_texts cls args ∧ well_formed cls blanks ∧ map blank parts = blanks) →
  Forall (λ i, ∃ s, s ∈ argument_texts args ∧ (i = s ∨ i = written cls s)) (quoted_texts parts) →
  templated cls args {| sm_kind := kind; sm_sql := sql; sm_params := params |}.
Proof.
  intros -> -> Hp (blanks & Hb & Hwb & <-) Hi. eapply TmWrite; [done|by apply lex_render| |].
  - apply list_elem_of_fmap. exists (render (map blank parts)). split; [|done].
    rewrite (lex_render _ _ Hwb). change (skeleton <$> Some ?x) with (Some (skeleton x)).
    rewrite !skeleton_parts map_map. do 2 f_equal. apply map_ext. by intros [].
  - by rewrite identifiers_parts.
Qed.

Lemma ident_blank cls s : blank (ident cls s) = ident cls "".
Proof. by destruct cls. Qed.
Lemma columns_blank cls columns :
  map blank (column_parts cls columns) = column_parts cls (map (λ _, "") columns).
Proof.
  induction columns as [|c [|d l] IH]; [done|cbn; by rewrite ident_blank|].
  change (column_parts cls (c :: d :: l)) with (ident cls c :: Txt ", " :: column_parts cls (d :: l)).
  cbn [map]. rewrite IH ident_blank. done.
Qed.
Lemma ident_quoted cls s l : quoted_texts (ident cls s :: l) = written cls s :: quoted_texts l.
Proof. by destruct cls. Qed.
Lemma text_quoted s l : quoted_texts (Txt s :: l) = quoted_texts l.
Proof. done. Qed.
Lemma columns_quoted cls columns : quoted_texts (column_parts cls columns) = map (written cls) columns.
Proof.
  induction columns as [|c [|d l] IH]; [done|exact (ident_quoted cls c [])|].
  change (column_parts cls (c :: d :: l)) with (ident cls c :: Txt ", " :: column_parts cls (d :: l)).
  by rewrite ident_quoted text_quoted IH.
Qed.

Definition from_args (cls : AdapterClass) (args : list json) (i : string) : Prop :=
  ∃ s, s ∈ argument_texts args ∧ (i = s ∨ i = written cls s).
Lemma from_arg cls args s : s ∈ argument_texts args → from_args cls args s.
Proof. intros Hs. exists s. auto. Qed.
Lemma from_written cls args s : s ∈ argument_texts args → from_args cls args (written cls s).
Proof. intros Hs. exists s. auto. Qed.
Lemma arg_here s args : s ∈ argument_texts (JStr s :: args).
Proof. by left. Qed.
Lemma arg_later s a args : s ∈ argument_texts args → s ∈ argument_texts (a :: args).
Proof. intros Hs. unfold argument_texts. cbn. apply elem_of_app. by right. Qed.
#[local] Hint Resolve from_arg from_written arg_here arg_later : numi.

Lemma statistics_templated cls params a b args :
  templated cls (JStr a :: JStr b :: args)
    {| sm_kind := Execute; sm_sql := statistics_sql cls a b; sm_params := params |}.
Proof.
  apply (write_templated _ _ _ (statistics_parts cls a b)); [done|apply statistics_render|apply statistics_formed| |].
  - exists (statistics_parts cls "" ""). split_and!; [rewrite -statistics_render; by left|apply statistics_formed|].
    unfold statistics_parts. cbn [map]. by rewrite !ident_blank.
  - change (Forall (from_args cls (JStr a :: JStr b :: args)) (quoted_texts (statistics_parts cls a b))).
    unfold statistics_parts. rewrite !(text_quoted, ident_quoted). repeat constructor; eauto 8 with numi.
Qed.
Lemma configuration_templated cls params a args :
  templated cls (JStr a :: args)
    {| sm_kind := Execute; sm_sql := configuration_sql cls a; sm_params := params |}.
Proof.
  apply (write_templated _ _ _ (configuration_parts cls a)); [done|apply configuration_render|apply configuration_formed| |].
  - exists (configuration_parts cls ""). split_and!; [rewrite -configuration_render; by do 2 right; left|apply configuration_formed|].
    unfold configuration_parts. destruct cls; cbn [map]; by rewrite ?ident_blank.
  - change (Forall (from_args cls (JStr a :: args)) (quoted_texts (configuration_parts cls a))).
    unfold configuration_parts. destruct cls; rewrite !text_quoted ?ident_quoted; repeat constructor; eauto 8 with numi.
Qed.
Lemma rebuild_templated cls params a b c args :
  Forall (from_args cls args) (quoted_texts (rebuild_parts cls a b c)) →
  templated cls args {| sm_kind := Execute; sm_sql := rebuild_sql cls a b c; sm_params := params |}.
Proof.
  intros Hq. apply (write_templated _ _ _ (rebuild_parts cls a b c));
    [done|apply rebuild_render|apply rebuild_formed| |exact Hq].
  exists (rebuild_parts cls "" "" ""). split_and!; [rewrite -rebuild_render; by right; left|apply rebuild_formed|].
  unfold rebuild_parts. destruct cls; cbn [map]; by rewrite !ident_blank.
Qed.
Ltac rebuilt := unfold rebuild_parts; rewrite !(text_quoted, ident_quoted); repeat constructor; eauto 8 with numi.
Lemma mssql_rebuild_templated params a b c :
  templated SQLServerAdapter [JStr a; JStr b; JStr c]
    {| sm_kind := Execute; sm_sql := mssql_rebuild_index_sql a b c; sm_params := params |}.
Proof. apply (rebuild_templated SQLServerAdapter). rebuilt. Qed.
Lemma pg_rebuild_templated params a b c :
  templated PostgreSQLAdapter [JStr a; b; JStr c]
    {| sm_kind := Execute; sm_sql := pg_rebuild_index_sql a c; sm_params := params |}.
Proof. apply (rebuild_templated PostgreSQLAdapter params a "" c). rebuilt. Qed.
Lemma mysql_rebuild_templated params a b c :
  templated MySQLAdapter [JStr a; JStr b; c]
    {| sm_kind := Execute; sm_sql := mysql_rebuild_index_sql a b; sm_params := params |}.
Proof. apply (rebuild_templated MySQLAdapter params a b ""). rebuilt. Qed.

Lemma columns_read columns cs : columns_arg columns = Some cs →
  omap (λ v, match v with JStr s => Some s | _ => None end) columns = cs ∧ length cs = length columns.
Proof.
  unfold columns_arg. intros Hc%mapM_Some. induction Hc as [|v c l cs Hv _ [IH1 IH2]]; [done|].
  destruct v; try done. injection Hv as ->. cbn. by rewrite IH1 IH2.
Qed.
Lemma index_templated cls params a b columns cs name unique : columns_arg columns = Some cs →
  templated cls [JStr a; JStr b; JArr columns; JStr name; unique]
    {| sm_kind := Execute; sm_sql := index_sql cls a b cs name (json_truthy unique); sm_params := params |}.
Proof.
  intros [Hcs Hlen]%columns_read. set (args := [_; _; _; _; _]).
  assert (∀ c, c ∈ cs → c ∈ argument_texts args) as Hin.
  { intros c Hc. unfold args, argument_texts. cbn -[omap]. do 2 right.
    apply elem_of_app. left. by rewrite Hcs. }
  assert (map (λ _, "") columns = map (λ _ : string, "") cs) as Hblank.
  { clear -Hlen. revert columns Hlen. induction cs as [|c cs IH]; intros [|d columns]; try done.
    intros [= Hlen]. cbn. by rewrite (IH _ Hlen). }
  apply (write_templated _ _ _ (index_parts cls a b cs name (json_truthy unique))); [done|apply index_render|apply index_formed| |].
  - exists (index_parts cls "" "" (map (λ _, "") cs) "" (json_truthy unique)).
    split_and!; [rewrite -index_render -Hblank; by do 3 right; left|apply index_formed|].
    unfold index_parts. by rewrite !map_app columns_blank /= !ident_blank.
  - change (Forall (from_args cls args) (quoted_texts (index_parts cls a b cs name (json_truthy unique)))).
    unfold index_parts, quoted_texts. rewrite !omap_app. fold quoted_texts.
    repeat apply Forall_app_2.
    + change (omap _ ?l) with (quoted_texts l). rewrite !(text_quoted, ident_quoted).
      unfold args. repeat constructor; eauto 8 with numi.
    + change (omap _ ?l) with (quoted_texts l). rewrite columns_quoted.
      apply Forall_fmap, Forall_forall. intros c Hc. by apply from_written, Hin.
    + constructor.
Qed.
Lemma read_templated since_text cls args method sql params :
  read_statement since_text cls method args = Some (sql, params) →
  templated cls args {| sm_kind := FetchAll; sm_sql := sql; sm_params := params |}.
Proof. intros Hr. apply TmRead; [done|by eapply read_statement_known]. Qed.
Lemma signal_templated cls args n sql params : sql ∈ signal_texts cls n →
  templated cls args {| sm_kind := Execute; sm_sql := sql; sm_params := params |}.
Proof. intros Hs. by eapply TmSignal. Qed.

(* ------------------------------------------------------------------ *)
(** ** Every method of every engine *)

Section methods.
Context {X : Type} `{QueryExecutor X} (conn : X) (since_text : Z → string) (py_repr : json → string).
Context (args : list json).
Abbreviation sends cls := (preserves (sends_templated cls args)).

Lemma read_method_sends cls method m :
  read_method conn since_text py_repr cls method args = Some m → sends cls m.
Proof. apply read_method_all. intros sql params. apply read_templated. Qed.
Lemma readonly_method_sends cls method m :
  readonly_sql_method conn cls method args = Some m → sends cls m.
Proof.
  unfold readonly_sql_method. destruct cls; repeat case_match; intros [= <-];
    subst; apply sends_fetch; by eapply TmValidated.
Qed.

Lemma pg_signal_sends sql flag session : sql ∈ signal_texts PostgreSQLAdapter 0 →
  sends PostgreSQLAdapter (pg_signal conn sql flag session).
Proof.
  intros Hs. apply sends_session. intros n. apply preserves_bind; [apply _| |].
  - by eapply sends_execute, signal_templated.
  - intros r s. cbn. reflexivity.
Qed.
Lemma statement_sends cls sql params (k : db_row → M Sent exn db_row) :
  templated cls args {| sm_kind := Execute; sm_sql := sql; sm_params := params |} →
  (∀ r, sends cls (k r)) → sends cls (result ← execute conn sql params; k result).
Proof. intros Ht Hk. apply preserves_bind; [apply _|by apply sends_execute|exact Hk]. Qed.
End methods.

Section writes.
Context {X : Type} `{QueryExecutor X} (conn : X).
#[local] Ltac sends_write :=
  repeat first
    [ apply sends_unavailable
    | apply sends_session; intros ?
    | apply sends_report
    | apply (statistics_templated SQLServerAdapter) | apply (statistics_templated PostgreSQLAdapter)
    | apply (statistics_templated MySQLAdapter)
    | apply (configuration_templated SQLServerAdapter) | apply (configuration_templated PostgreSQLAdapter)
    | apply (configuration_templated MySQLAdapter)
    | apply mssql_rebuild_templated | apply pg_rebuild_templated | apply mysql_rebuild_templated
    | solve [apply (index_templated SQLServerAdapter); assumption
            |apply (index_templated PostgreSQLAdapter); assumption
            |apply (index_templated MySQLAdapter); assumption]
    | solve [eapply signal_templated; cbn; repeat (first [by left|right])] ].
#[local] Ltac every_write :=
  repeat case_match; subst; try done;
  first [intros [= <-]; sends_write | intros (cs & Hc & [= <-])%bind_Some; sends_write].

Lemma mssql_write_sends method args m : mssql_write conn method args = Some m →
  preserves (sends_templated SQLServerAdapter args) m.
Proof. unfold mssql_write. every_write. Qed.
Lemma mysql_write_sends method args m : mysql_write conn method args = Some m →
  preserves (sends_templated MySQLAdapter args) m.
Proof. unfold mysql_write. every_write. Qed.
Lemma pg_write_sends method args m : pg_write conn method args = Some m →
  preserves (sends_templated PostgreSQLAdapter args) m.
Proof.
  unfold pg_write. repeat case_match; subst; try done.
  all: first [intros (cs & Hc & [= <-])%bind_Some; by sends_write|intros [= <-]].
  all: first [by apply pg_signal_sends; left|by apply pg_signal_sends; right; left|idtac].
  all: first [by sends_write|idtac].
  all: apply statement_sends; [apply (configuration_templated PostgreSQLAdapter)|intros r];
    (apply statement_sends; [|intros _ st; cbn; reflexivity]);
    apply (signal_templated _ _ 0); by do 2 right; left.
Qed.
Lemma write_method_sends cls method args m : write_method conn cls method args = Some m →
  preserves (sends_templated cls args) m.
Proof. destruct cls; [apply mssql_write_sends|apply pg_write_sends|apply mysql_write_sends]. Qed.

Lemma adapter_method_sends since_text py_repr cls method args :
  preserves (sends_templated cls args) (adapter_method conn since_text py_repr cls method args).
Proof.
  unfold adapter_method.
  destruct (read_method _ _ _ _ _ _) as [m|] eqn:Er.
  { by eapply sends_then, read_method_sends. }
  destruct (readonly_sql_method _ _ _ _) as [m|] eqn:Ev.
  { by eapply sends_then, readonly_method_sends. }
  destruct (write_method _ _ _ _) as [m|] eqn:Ew; [|intros s; cbn; reflexivity].
  by eapply sends_then, write_method_sends.
Qed.
End writes.

Lemma fetched_text cls args st : templated cls args st → sm_kind st = FetchAll →
  reading_text (sm_sql st) = true ∨ args = [JStr (sm_sql st)].
Proof.
  intros [Hk Hs|sql Hk -> <-|n Hk Hs|toks Hk] Hf; [left; by eapply read_texts_read|by right|congruence|congruence].
Qed.

(** *** The read tools *)

Lemma no_write_method {X} `{QueryExecutor X} (conn : X) cls method args :
  mem method (map (fst ∘ snd) WRITE_METHODS) = false → write_method conn cls method args = None.
Proof.
  intros Hm. unfold mem in Hm. apply bool_decide_eq_false in Hm.
  assert (∀ w, w ∈ map (fst ∘ snd) WRITE_METHODS → bool_decide (method = w) = false) as Hw.
  { intros w Hw. apply bool_decide_eq_false. by intros ->. }
  destruct cls; cbn [write_method]; unfold mssql_write, pg_write, mysql_write; repeat case_match; try done;
    match goal with Hb : bool_decide (method = _) = true |- _ => rewrite Hw in Hb end;
    first [done|apply (bool_decide_eq_true_1 _); reflexivity].
Qed.
Lemma read_methods_differ tool method names : dict_get tool READ_METHODS = Some (method, names) →
  mem method (map (fst ∘ snd) WRITE_METHODS) = false ∧ method ≠ "execute_readonly_sql".
Proof.
  intros Hd%dict_get_elem. assert (forallb (λ '(_, (m, _)), negb (mem m (map (fst ∘ snd) WRITE_METHODS))
    && negb (bool_decide (m = "execute_readonly_sql"))) READ_METHODS = true) as Hf by reflexivity.
  rewrite List.forallb_forall in Hf. specialize (Hf _ (proj1 (list_elem_of_In _ _) Hd)). cbn in Hf.
  apply andb_true_iff in Hf as [Hf%negb_true_iff Hr%negb_true_iff%bool_decide_eq_false]. done.
Qed.

(** a query of an engine's own constant diagnostic texts *)
Definition diagnostic (cls : AdapterClass) (st : Statement) : Prop :=
  sm_kind st = FetchAll ∧ sm_sql st ∈ read_texts cls ∧ reading_text (sm_sql st) = true.

Lemma read_tools_send_diagnostics {X} `{QueryExecutor X} (conn : X) since_text py_repr cls tool method names args :
  dict_get tool READ_METHODS = Some (method, names) →
  preserves (sends_all (diagnostic cls)) (adapter_method conn since_text py_repr cls method args).
Proof.
  intros [Hw Hv]%read_methods_differ. unfold adapter_method.
  destruct (read_method _ _ _ _ _ _) as [m|] eqn:Em.
  - eapply sends_then, read_method_all; [|exact Em]. intros sql params Hs%read_statement_known.
    split; [done|]. split; [done|by eapply read_texts_read].
  - assert (readonly_sql_method conn cls method args = None) as ->.
    { unfold readonly_sql_method. destruct cls; [| |done];
        repeat case_match; try done; case_bool_decide; done. }
    rewrite no_write_method //. intros s. cbn. reflexivity.
Qed.

(** A tool of the Execution Service's read table only reads: whatever the engine and the
    arguments, its method sends nothing but queries, each one of the engine's constant
    diagnostic texts. *)
Theorem read_tools_only_read {X} `{QueryExecutor X} (conn : X) since_text py_repr
    cls tool method names args t sent r t' sent' :
  dict_get tool READ_METHODS = Some (method, names) →
  adapter_method conn since_text py_repr cls method args (t, sent) = (r, (t', sent')) →
  ∃ new, sent' = sent ++ new ∧ Forall (diagnostic cls) new.
Proof.
  intros Hr Er. pose proof (read_tools_send_diagnostics conn since_text py_repr cls _ _ _ args Hr (t, sent)) as Hp.
  by rewrite Er in Hp.
Qed.

(** the text of [execute_readonly_sql], which its engines run as it is *)
Definition validated_query (args : list json) (st : Statement) : Prop :=
  sm_kind st = FetchAll ∧ args = [JStr (sm_sql st)].
Lemma readonly_sql_sends {X} `{QueryExecutor X} (conn : X) since_text py_repr cls args :
  preserves (sends_all (validated_query args))
    (adapter_method conn since_text py_repr cls "execute_readonly_sql" args).
Proof.
  unfold adapter_method. assert (read_method conn since_text py_repr cls "execute_readonly_sql" args = None) as ->.
  { assert (read_statement since_text cls "execute_readonly_sql" args = None) as Hn.
    { destruct args as [|[] [|[] [|]]], cls; reflexivity. }
    unfold read_method. destruct cls; rewrite Hn; done. }
  destruct (readonly_sql_method _ _ _ _) as [m|] eqn:Em.
  - apply sends_then. unfold readonly_sql_method in Em. destruct cls; [| |done];
      repeat case_match; try done; injection Em as <-; by apply sends_fetch.
  - rewrite no_write_method //. intros s. cbn. reflexivity.
Qed.

(** the tools the catalog classifies READ *)
Lemma catalog_reads_dispatch flags tool_id tool entry :
  dict_get tool_id (registry_tools flags) = Some tool → td_operation_type tool = READ →
  dispatch_entry tool_id = Some entry →
  dict_get tool_id READ_METHODS = Some entry ∨
  tool_id = "database.execute_readonly_sql" ∧ entry = ("execute_readonly_sql", ["sql"]).
Proof.
  intros [Hin <-]%registry_lookup Hop. revert entry.
  assert (forallb (λ t, negb (bool_decide (td_operation_type t = READ)) ||
      match dict_get (td_tool_id t) READ_METHODS with
      | Some _ => true
      | None => bool_decide (td_tool_id t = "database.execute_readonly_sql")
      end) (build_tool_catalog flags) = true) as Hf by (destruct flags; vm_compute; reflexivity).
  rewrite List.forallb_forall in Hf. specialize (Hf _ (proj1 (list_elem_of_In _ _) Hin)).
  rewrite bool_decide_true // in Hf. cbn [negb orb] in Hf. unfold dispatch_entry.
  intros entry. destruct (dict_get (td_tool_id tool) READ_METHODS) as [e|]; [by left|].
  apply bool_decide_eq_true in Hf as ->. intros He. right. split; [done|]. by vm_compute in He; injection He.
Qed.

(** C7: what the Gateway's catalog classifies READ is a read in every engine: whatever the
    arguments, the method the Execution Service runs for such a tool sends nothing but
    queries, each one of the engine's constant diagnostic texts, or, for
    [execute_readonly_sql], the text of its argument, which the Gateway has validated. *)
Theorem catalog_reads_only_read {X} `{QueryExecutor X} (conn : X) since_text py_repr
    flags tool_id tool method names cls args t sent :
  dict_get tool_id (registry_tools flags) = Some tool → td_operation_type tool = READ →
  dispatch_entry tool_id = Some (method, names) →
  ∃ new, (adapter_method conn since_text py_repr cls method args (t, sent)).2.2 = sent ++ new ∧
    (Forall (diagnostic cls) new ∨
     tool_id = "database.execute_readonly_sql" ∧ Forall (validated_query args) new).
Proof.
  intros Ht Hop Hd. destruct (catalog_reads_dispatch _ _ _ _ Ht Hop Hd) as [Hr|[-> [= -> ->]]].
  - destruct (read_tools_send_diagnostics conn since_text py_repr cls _ _ _ args Hr (t, sent)) as (new & E & Hf).
    exists new. by split; [|left].
  - destruct (readonly_sql_sends conn since_text py_repr cls args (t, sent)) as (new & E & Hf).
    exists new. by split; [|right].
Qed.

(** C10: whatever the arguments, an engine is sent nothing but: one of its constant diagnostic
    texts (each of them a SELECT or a SHOW, or the error-log procedure of SQL Server); the
    validated text of [execute_readonly_sql]; a constant signal with a number; or a text that
    reads, in the quoting rules of the engine, as one of its four write templates, every
    quoted identifier of which is one of the operation's own arguments.  An identifier cannot
    close its quotes and go on as SQL, and the values are bound as parameters. *)
Theorem adapter_statements_are_templates {X} `{QueryExecutor X} (conn : X) since_text py_repr
    cls method args t sent r t' sent' :
  adapter_method conn since_text py_repr cls method args (t, sent) = (r, (t', sent')) →
  ∃ new, sent' = sent ++ new ∧ Forall (templated cls args) new ∧
    Forall (λ st, sm_kind st = FetchAll →
                  reading_text (sm_sql st) = true ∨ args = [JStr (sm_sql st)]) new.
Proof.
  intros Er. pose proof (adapter_method_sends conn since_text py_repr cls method args (t, sent)) as Hs.
  rewrite Er in Hs. destruct Hs as (new & Es & Hf). exists new.
  split_and!; [done..|]. eapply Forall_impl; [exact Hf|]. intros st Ht. by apply (fetched_text cls).
Qed.

(* ------------------------------------------------------------------ *)
(** ** Concrete runs *)

(** a connection that accepts everything *)
#[local] Instance accepting_executor : QueryExecutor unit := {
  fetch_all := λ _ _ _, (1%Z, Ok []);
  execute_statement := λ _ _ _, (1%Z, Ok [("rowcount", Plain (JInt (-1)))])
}.
Definition hostile_table : string := "x]; DROP TABLE y --".
Lemma adapter_statements_are_templates_witness :
  let run := adapter_method tt (λ _, "") (λ _, "") SQLServerAdapter "update_statistics"
               [JStr "dbo"; JStr hostile_table] (0%Z, []) in
  map sm_sql run.2.2 = ["UPDATE STATISTICS [dbo].[x]]; DROP TABLE y --]"] ∧
  identifiers <$> lex SQLServerAdapter None "UPDATE STATISTICS [dbo].[x]]; DROP TABLE y --]"
    = Some ["dbo"; hostile_table] ∧
  ∃ new, run.2.2 = [] ++ new ∧
    Forall (templated SQLServerAdapter [JStr "dbo"; JStr hostile_table]) new ∧
    Forall (λ st, sm_kind st = FetchAll →
                  reading_text (sm_sql st) = true ∨ [JStr "dbo"; JStr hostile_table] = [JStr (sm_sql st)]) new.
Proof.
  split_and!; [vm_compute; reflexivity..|].
  eapply (adapter_statements_are_templates tt (λ _, "") (λ _, "") SQLServerAdapter "update_statistics"
            [JStr "dbo"; JStr hostile_table] 0 []).
  reflexivity.
Defined.

Lemma read_tools_only_read_witness :
  dict_get "database.get_version" READ_METHODS = Some ("version", []) ∧
  ∃ new, (adapter_method tt (λ _, "") (λ _, "") MySQLAdapter "version" [] (0%Z, [])).2.2 = [] ++ new ∧
    Forall (diagnostic MySQLAdapter) new.
Proof.
  split; [reflexivity|].
  eapply (read_tools_only_read tt (λ _, "") (λ _, "") MySQLAdapter "database.get_version" "version" [] [] 0 []);
    reflexivity.
Defined.
Lemma catalog_reads_only_read_witness :
  (td_operation_type <$> dict_get "database.get_version" (registry_tools no_flags)) = Some READ ∧
  ∃ new, (adapter_method tt (λ _, "") (λ _, "") MySQLAdapter "version" [] (0%Z, [])).2.2 = [] ++ new ∧
    (Forall (diagnostic MySQLAdapter) new ∨
     "database.get_version" = "database.execute_readonly_sql" ∧ Forall (validated_query []) new).
Proof.
  assert (Hr : (td_operation_type <$> dict_get "database.get_version" (registry_tools no_flags)) = Some READ)
    by (vm_compute; reflexivity).
  split; [exact Hr|].
  destruct (dict_get "database.get_version" (registry_tools no_flags)) as [tool|] eqn:Et; [|discriminate Hr].
  injection Hr as Hr.
  exact (catalog_reads_only_read tt (λ _, "") (λ _, "") no_flags "database.get_version" tool "version" []
    MySQLAdapter [] 0 [] Et Hr eq_refl).
Defined.

(** PostgreSQL's quoting is not injective: two names are written alike, so an operation
    approved for one table runs on another *)
Theorem pg_identifiers_collide :
  let sent table := map sm_sql (adapter_method tt (λ _, "") (λ _, "") PostgreSQLAdapter
                      "update_statistics" [JStr "public"; JStr table] (0%Z, [])).2.2 in
  let odd := "or" +:+ String dquote "ders" in
  odd ≠ "orders" ∧ sent odd = sent "orders".
Proof. split; [discriminate|vm_compute; reflexivity]. Qed.
