(* ===== verification/Connections.v ===== *)
(** The connections of the Execution Service: [execution/adapters/connections.py], an executor
    per engine over its driver, and the service composed of the credentials, the connections
    and the adapters.  A driver is the class [DatabaseDriver]. *)
From S2P Require Import Prelude ProgramLogic Json Text Models ToolCatalog Servers Policy RateLimit.
From S2P Require Import Approval DataPolicy Discovery Gateway Identity Fallback Conversation Config.
From S2P Require Import Cells Execution Credentials AdapterSql Adapters.

(* ------------------------------------------------------------------ *)
(** ** Drivers *)

Inductive CursorParams : Type :=
| NoParams
| Named (params : list (string * json))
| Positional (params : list json).
(** a cursor after a statement: [fetchall] as tuples, or as dicts where it is a [DictCursor];
    its cells are whatever values the driver makes of a column *)
Record Cursor : Type := {
  cr_rowcount : Z;
  cr_description : option (list string);
  cr_fetchall : res exn (list (list cell));
  cr_fetchall_dicts : res exn (list db_row);
  cr_fetchone : res exn (option (list cell))
}.
(** psycopg, asyncmy and pyodbc; a statement takes some time *)
Class DatabaseDriver (D : Type) : Type := {
  driver_connect : AdapterClass → list (string * pyval) → res exn D;
  driver_close : D → res exn unit;
  cursor_execute : D → string → CursorParams → Z * res exn Cursor
}.

(** what the driver is asked on a connection *)
Inductive DriverCall : Type :=
| QueryTimeout (seconds : Z)
| CursorExecute (sql : string) (params : CursorParams).
Definition Calls : Type := Z * list DriverCall.

(** [dict(zip(columns, row, strict=False))] *)
Definition zip_row (columns : list string) (cells : list cell) : db_row := merge_fields [] (zip columns cells).

(** the default timeout of a statement: the adapters pass none *)
Definition DEFAULT_TIMEOUT : Z := 30.

(* ------------------------------------------------------------------ *)
(** ** Named parameters as positional ones *)

(** the longest prefix of word characters *)
Fixpoint word_prefix (s : string) : string :=
  match s with
  | String c s => if is_word c then String c (word_prefix s) else ""
  | EmptyString => ""
  end.
(** [%\((\w+)\)s] at the start of a text: its name *)
Definition named_param (s : string) : option string :=
  rest ← after_prefix "%(" s;
  let name := word_prefix rest in
  if truthy name && negb (bool_decide (after_prefix (name +:+ ")s") rest = None)) then Some name else None.

Section positional.
Context (params : list (string * json)).
(** [_to_positional]: [skip] characters of the parameter just replaced are left *)
Fixpoint to_positional_go (skip : nat) (s : string) : res exn (string * list json) :=
  match s with
  | EmptyString => Ok ("", [])
  | String c s' =>
      match skip with
      | S skip => to_positional_go skip s'
      | O =>
          match named_param s with
          | Some name =>
              match dict_get name params with
              | Some v => '(converted, ordered) ← to_positional_go (String.length name + 3) s';
                          Ok (String "?" converted, v :: ordered)
              | None => Err (PyError "KeyError" name)
              end
          | None => '(converted, ordered) ← to_positional_go 0 s'; Ok (String c converted, ordered)
          end
      end
  end.
Definition to_positional : string → res exn (string * list json) := to_positional_go 0.
End positional.

Example to_positional_ex :
  to_positional [("b", JInt 2); ("a", JInt 1)] "x = %(a)s and y = %(b)s and %(a)s %s" 
  = Ok ("x = ? and y = ? and ? %s", [JInt 1; JInt 2; JInt 1]).
Proof. reflexivity. Qed.

(* ------------------------------------------------------------------ *)
(** ** The executors *)

Section executors.
Context {D : Type} `{DatabaseDriver D} (conn : D).

Definition cursor (sql : string) (params : CursorParams) : M Calls exn Cursor := λ '(t, calls),
  let '(elapsed, r) := cursor_execute conn sql params in
  (r, ((t + elapsed)%Z, calls ++ [CursorExecute sql params])).
(** [self._conn.timeout = timeout] *)
Definition set_query_timeout (timeout : Z) : M Calls exn unit := λ '(t, calls),
  (Ok tt, (t, calls ++ [QueryTimeout timeout])).

(** the fields of a result: its row count, and its first row where it has one *)
Definition result_fields (cur : Cursor) : res exn db_row :=
  let result := [("rowcount", Plain (JInt (cr_rowcount cur)))] in
  match cr_description cur with
  | None => Ok result
  | Some columns =>
      first ← cr_fetchone cur;
      Ok (match first with Some cells => merge_fields result (zip_row columns cells) | None => result end)
  end.
Definition tuple_rows (cur : Cursor) : res exn (list db_row) :=
  rows ← cr_fetchall cur; Ok (map (zip_row (default [] (cr_description cur))) rows).

(** *** PostgreSQL *)
Definition pg_set_timeouts (timeout : Z) : M Calls exn unit :=
  _ ← cursor ("SET statement_timeout = " +:+ pretty (timeout * 1000)%Z) NoParams;
  _ ← cursor ("SET lock_timeout = " +:+ pretty (Z.min timeout 5 * 1000)%Z) NoParams;
  mret tt.
Definition pg_fetch_all (timeout : Z) (sql : string) (params : list (string * json)) : M Calls exn (list db_row) :=
  _ ← pg_set_timeouts timeout;
  cur ← cursor sql (Named params); lift_res (tuple_rows cur).
Definition pg_execute (timeout : Z) (sql : string) (params : list (string * json))
    : M Calls exn db_row :=
  _ ← pg_set_timeouts timeout;
  cur ← cursor sql (Named params); lift_res (result_fields cur).

(** *** MySQL and MariaDB *)
(** a failing [SET] is passed over: each engine knows one of the two variables *)
Definition mysql_set_timeout (timeout : Z) : M Calls exn unit :=
  let set sql := try_except (_ ← cursor sql NoParams; mret tt) (λ _, mret tt) in
  _ ← set ("SET SESSION max_execution_time = " +:+ pretty (timeout * 1000)%Z);
  set ("SET SESSION max_statement_time = " +:+ pretty timeout).
(** [params or None] *)
Definition params_or_none (params : list (string * json)) : CursorParams :=
  match params with [] => NoParams | _ => Named params end.
Definition mysql_fetch_all (timeout : Z) (sql : string) (params : list (string * json)) : M Calls exn (list db_row) :=
  _ ← mysql_set_timeout timeout;
  cur ← cursor sql (params_or_none params); lift_res (cr_fetchall_dicts cur).
Definition mysql_execute (timeout : Z) (sql : string) (params : list (string * json))
    : M Calls exn db_row :=
  _ ← mysql_set_timeout timeout;
  cur ← cursor sql (params_or_none params); lift_res (result_fields cur).

(** *** SQL Server *)
(** [cursor.execute(converted, ordered) if ordered else cursor.execute(converted)] *)
Definition positional_or_none (ordered : list json) : CursorParams :=
  match ordered with [] => NoParams | _ => Positional ordered end.
Definition mssql_run (timeout : Z) (sql : string) (params : list (string * json)) : M Calls exn Cursor :=
  '(converted, ordered) ← lift_res (to_positional params sql);
  _ ← set_query_timeout timeout;
  cursor converted (positional_or_none ordered).
Definition mssql_fetch_all (timeout : Z) (sql : string) (params : list (string * json)) : M Calls exn (list db_row) :=
  cur ← mssql_run timeout sql params; lift_res (tuple_rows cur).
Definition mssql_execute (timeout : Z) (sql : string) (params : list (string * json))
    : M Calls exn db_row :=
  cur ← mssql_run timeout sql params; lift_res (result_fields cur).

(** the executor of an engine *)
Definition engine_fetch (cls : AdapterClass) : string → list (string * json) → M Calls exn (list db_row) :=
  match cls with
  | SQLServerAdapter => mssql_fetch_all DEFAULT_TIMEOUT
  | PostgreSQLAdapter => pg_fetch_all DEFAULT_TIMEOUT
  | MySQLAdapter => mysql_fetch_all DEFAULT_TIMEOUT
  end.
Definition engine_execute (cls : AdapterClass) : string → list (string * json) → M Calls exn db_row :=
  match cls with
  | SQLServerAdapter => mssql_execute DEFAULT_TIMEOUT
  | PostgreSQLAdapter => pg_execute DEFAULT_TIMEOUT
  | MySQLAdapter => mysql_execute DEFAULT_TIMEOUT
  end.
End executors.

(** an open connection with the class of its executor *)
Record Connection (D : Type) : Type := { cn_class : AdapterClass; cn_driver : D }.
Arguments Build_Connection {D}. Arguments cn_class {D}. Arguments cn_driver {D}.
Definition timed {A} (m : M Calls exn A) : Z * res exn A :=
  let '(r, (elapsed, _)) := m (0%Z, []) in (elapsed, r).
#[export] Instance connection_executor {D} `{DatabaseDriver D} : QueryExecutor (Connection D) := {
  fetch_all c sql params := timed (engine_fetch (cn_driver c) (cn_class c) sql params);
  execute_statement c sql params := timed (engine_execute (cn_driver c) (cn_class c) sql params)
}.

(* ------------------------------------------------------------------ *)
(** ** Connecting *)

Section connecting.
Context (str_of_container : pyval → string).
Definition option_or (key : string) (dflt : pyval) (opts : list (string * pyval)) : pyval :=
  default dflt (dict_get key opts).
Definition yes_no (v : pyval) : string := if pyval_truthy v then "yes" else "no".

(** [_connection_string]: the values are not escaped *)
Definition connection_string (c : DatabaseCredentials) : string :=
  let opts := dc_options c in
  "DRIVER={" +:+ str_of str_of_container (option_or "driver" (PStr "ODBC Driver 18 for SQL Server") opts)
  +:+ "};SERVER=" +:+ dc_host c +:+ "," +:+ pretty (dc_port c) +:+ ";DATABASE=" +:+ dc_database c
  +:+ ";UID=" +:+ dc_username c +:+ ";PWD=" +:+ dc_password c
  +:+ ";Encrypt=" +:+ yes_no (option_or "encrypt" (PBool true) opts)
  +:+ ";TrustServerCertificate=" +:+ yes_no (option_or "trust_server_certificate" (PBool false) opts) +:+ ";".

Definition login (c : DatabaseCredentials) (database_key : string) : list (string * pyval) :=
  [("host", PStr (dc_host c)); ("port", PInt (dc_port c)); ("user", PStr (dc_username c));
   ("password", PStr (dc_password c)); (database_key, PStr (dc_database c));
   ("autocommit", PBool true); ("connect_timeout", PInt 10)].
(** an option passed on where it is set *)
Definition passed_option (key : string) (c : DatabaseCredentials) : list (string * pyval) :=
  let v := pget key (dc_options c) in if pyval_truthy v then [(key, v)] else [].
Definition connect_arguments (cls : AdapterClass) (c : DatabaseCredentials) : list (string * pyval) :=
  match cls with
  | PostgreSQLAdapter => login c "dbname" ++ passed_option "sslmode" c
  | MySQLAdapter => login c "database" ++ passed_option "ssl" c
  | SQLServerAdapter => [("connstring", PStr (connection_string c)); ("timeout", PInt 10);
                         ("autocommit", PBool true)]
  end.

Context {D : Type} `{DatabaseDriver D}.
Definition engine_connect (cls : AdapterClass) (c : DatabaseCredentials) : res exn (Connection D) :=
  d ← driver_connect cls (connect_arguments cls c); Ok (Build_Connection cls d).
End connecting.

(* ------------------------------------------------------------------ *)
(** ** The service over its own parts *)

Section composed.
Context {D : Type} `{DatabaseDriver D}.
Context (str_of_container : pyval → string) (since_text : Z → string) (py_repr : json → string).
(** the credential provider *)
Context (provider : string → res exn DatabaseCredentials).

Definition engine_backend : ExecutionBackend := {|
  credentials := DatabaseCredentials;
  connection := Connection D;
  get_credentials := provider;
  with_database database c := c <| dc_database := database |>;
  connect := engine_connect str_of_container;
  close c := driver_close (cn_driver c);
  adapter_call cls c _ method args :=
    let '(r, (elapsed, _)) := adapter_method c since_text py_repr cls method args (0%Z, []) in (elapsed, r)
|}.
End composed.

(* ------------------------------------------------------------------ *)
(** ** Marks and values *)

(** a statement written as texts, each followed by a named parameter, and a last text *)
Definition named_text (segments : list (string * string)) (tail : string) : string :=
  foldr (λ '(text, name) s, text +:+ "%(" +:+ name +:+ ")s" +:+ s) tail segments.
Definition marked_text (segments : list (string * string)) (tail : string) : string :=
  foldr (λ '(text, _) s, text +:+ "?" +:+ s) tail segments.
Definition parameter_name (name : string) : bool := truthy name && str_all is_word name.
(** a text in which no parameter starts *)
Fixpoint no_marker (s : string) : bool :=
  match s with
  | String c s' => negb (bool_decide (c = "%"%char) && bool_decide (str_head s' = Some "("%char)) && no_marker s'
  | EmptyString => true
  end.

Lemma word_prefix_app name rest : str_all is_word name = true → opt_word (str_head rest) = false →
  word_prefix (name +:+ rest) = name.
Proof.
  intros Hn Hr. induction name as [|c name IH].
  - destruct rest as [|c rest]; [done|]. cbn in *. by rewrite Hr.
  - cbn in Hn |- *. apply andb_true_iff in Hn as [-> Hn]. f_equal. by apply IH.
Qed.
Lemma after_prefix_app p s : after_prefix p (p +:+ s) = Some s.
Proof. induction p as [|c p IH]; [done|]. cbn. by rewrite bool_decide_true. Qed.
Lemma named_param_here name rest : parameter_name name = true →
  named_param ("%(" +:+ name +:+ ")s" +:+ rest) = Some name.
Proof.
  intros [Ht Hw]%andb_true_iff. unfold named_param. rewrite after_prefix_app.
  change (Some ?x ≫= ?f) with (f x). cbv beta zeta. rewrite word_prefix_app //.
  replace (name +:+ ")s" +:+ rest) with ((name +:+ ")s") +:+ rest) by apply str_app_assoc.
  rewrite after_prefix_app bool_decide_false // Ht. done.
Qed.
Lemma named_param_absent c s :
  bool_decide (c = "%"%char) && bool_decide (str_head s = Some "("%char) = false →
  named_param (String c s) = None.
Proof.
  intros Hn. unfold named_param.
  assert (after_prefix "%(" (String c s) = None) as ->; [|done].
  destruct (decide ("%"%char = c)) as [<-|Hp]; [|cbn; by rewrite bool_decide_false].
  destruct s as [|d s]; [done|].
  destruct (decide ("("%char = d)) as [<-|Hd]; [discriminate Hn|].
  cbn. rewrite (bool_decide_false _ Hd). by case_match.
Qed.

Lemma str_length_app s t : String.length (s +:+ t) = String.length s + String.length t.
Proof. induction s as [|c s IH]; [done|]. cbn. by rewrite IH. Qed.

Section scanning.
Context (params : list (string * json)).
Abbreviation scan := (to_positional_go params).

Lemma scan_skip t s : scan (String.length t) (t +:+ s) = scan 0 s.
Proof. induction t as [|c t IH]; [done|]. exact IH. Qed.
Lemma scan_text t s : no_marker t = true → str_head s ≠ Some "("%char →
  scan 0 (t +:+ s) = '(converted, ordered) ← scan 0 s; Ok (t +:+ converted, ordered).
Proof.
  intros Ht Hs. induction t as [|c t IH]; [cbn; by destruct (scan 0 s) as [[]|]|].
  cbn in Ht. apply andb_true_iff in Ht as [Hc%negb_true_iff Ht].
  change (String c t +:+ s) with (String c (t +:+ s)). cbn [to_positional_go].
  rewrite named_param_absent.
  - destruct t as [|d t]; [|exact Hc]. change ("" +:+ s) with s.
    apply andb_false_iff. right. by apply bool_decide_eq_false.
  - rewrite (IH Ht). by destruct (scan 0 s) as [[]|].
Qed.
Lemma scan_param name v s : parameter_name name = true → dict_get name params = Some v →
  scan 0 ("%(" +:+ name +:+ ")s" +:+ s) = '(converted, ordered) ← scan 0 s; Ok ("?" +:+ converted, v :: ordered).
Proof.
  intros Hn Hv. pose proof (named_param_here name s Hn) as Hp.
  assert (∀ r, scan 0 (String "%" r) = match named_param (String "%" r) with
    | Some name => match dict_get name params with
                   | Some v => '(converted, ordered) ← scan (String.length name + 3) r;
                               Ok (String "?" converted, v :: ordered)
                   | None => Err (PyError "KeyError" name)
                   end
    | None => '(converted, ordered) ← scan 0 r; Ok (String "%" converted, ordered)
    end) as Hscan by reflexivity.
  change ("%(" +:+ name +:+ ")s" +:+ s) with (String "%" (String "(" (name +:+ ")s" +:+ s))) in *.
  rewrite Hscan Hp Hv.
  assert (String "(" (name +:+ ")s" +:+ s) = String "(" (name +:+ ")s") +:+ s) as ->
    by (cbn; by rewrite str_app_assoc).
  replace (String.length name + 3) with (String.length (String "(" (name +:+ ")s")));
    [by rewrite scan_skip|cbn; rewrite str_length_app; cbn; lia].
Qed.
End scanning.

(** The translation of named parameters into the marks of pyodbc binds every value in its
    place: a statement made of texts in which no parameter starts and of named parameters, in
    any order and repeated or not, is sent with one mark per parameter and its value at the
    same rank. *)
Theorem to_positional_binds params segments tail values :
  Forall (λ '(text, name), no_marker text = true ∧ parameter_name name = true) segments →
  no_marker tail = true →
  mapM (λ '(_, name), dict_get name params) segments = Some values →
  to_positional params (named_text segments tail) = Ok (marked_text segments tail, values).
Proof.
  intros Hs Ht. revert values. unfold to_positional.
  induction Hs as [|[text name] segments [Hx Hn] _ IH]; intros values Hv.
  - injection Hv as <-. cbn. rewrite -{1}(str_app_nil_r tail) scan_text //. cbn. by rewrite str_app_nil_r.
  - apply mapM_Some in Hv. inversion Hv as [|? v ? values' Hg Hv']; subst.
    apply mapM_Some in Hv'. specialize (IH _ Hv').
    change (named_text ((text, name) :: segments) tail)
      with (text +:+ "%(" +:+ name +:+ ")s" +:+ named_text segments tail).
    rewrite scan_text // (scan_param _ _ v) // IH. done.
Qed.
Lemma to_positional_binds_witness :
  let params := [("schema", JStr "dbo"); ("table", JStr "t]")] in
  let segments := [("select 1 where s = ", "schema"); (" and t = ", "table"); (" or s = ", "schema")] in
  named_text segments "" = "select 1 where s = %(schema)s and t = %(table)s or s = %(schema)s" ∧
  to_positional params (named_text segments "")
  = Ok ("select 1 where s = ? and t = ? or s = ?", [JStr "dbo"; JStr "t]"; JStr "dbo"]).
Proof.
  intros params segments. split; [reflexivity|].
  apply (to_positional_binds params segments "" [JStr "dbo"; JStr "t]"; JStr "dbo"]);
    [repeat constructor|reflexivity|reflexivity].
Defined.

(** a parameter is replaced inside quotes too: an index whose name looks like one cannot be
    made, and a setting whose name does is sent the value in its place *)
Theorem quoted_identifiers_are_scanned :
  let index name := mssql_create_index_sql "dbo" "t" ["c"] name false in
  to_positional [] (index "%(x)s") = Err (PyError "KeyError" "x") ∧
  to_positional [("value", JStr "1")] (mssql_modify_configuration_sql "%(value)s")
  = Ok ("EXEC sp_configure '?', ?; RECONFIGURE", [JStr "1"; JStr "1"]).
Proof. split; vm_compute; reflexivity. Qed.

(** two different logins have one connection string *)
Theorem connection_strings_collide f c :
  let a := c <| dc_database := "d" |> <| dc_username := "e;UID=u" |> in
  let b := c <| dc_database := "d;UID=e" |> <| dc_username := "u" |> in
  a ≠ b ∧ connection_string f a = connection_string f b.
Proof. destruct c. split; [discriminate|]. unfold connection_string. cbn. reflexivity. Qed.

(* ------------------------------------------------------------------ *)
(** ** Every statement is timed *)

(** what the driver is asked for one statement: the timeouts, then the statement *)
Definition timed_statement (cls : AdapterClass) (timeout : Z) (sql : string) (params : list (string * json))
    : list DriverCall :=
  match cls with
  | SQLServerAdapter =>
      match to_positional params sql with
      | Ok (converted, ordered) =>
          [QueryTimeout timeout; CursorExecute converted (positional_or_none ordered)]
      | Err _ => []
      end
  | PostgreSQLAdapter =>
      [CursorExecute ("SET statement_timeout = " +:+ pretty (timeout * 1000)%Z) NoParams;
       CursorExecute ("SET lock_timeout = " +:+ pretty (Z.min timeout 5 * 1000)%Z) NoParams;
       CursorExecute sql (Named params)]
  | MySQLAdapter =>
      [CursorExecute ("SET SESSION max_execution_time = " +:+ pretty (timeout * 1000)%Z) NoParams;
       CursorExecute ("SET SESSION max_statement_time = " +:+ pretty timeout) NoParams;
       CursorExecute sql (params_or_none params)]
  end.

Section timing.
Context {D : Type} `{DatabaseDriver D} (conn : D).
(** the calls made are the first of [expected], all of them when the run succeeds *)
Definition asks {A} (expected : list DriverCall) (m : M Calls exn A) : Prop :=
  ∀ t calls, ∃ made rest, expected = made ++ rest ∧ (m (t, calls)).2.2 = calls ++ made ∧
    match (m (t, calls)).1 with Ok _ => rest = [] | Err _ => True end.

Lemma asks_cursor sql params : asks [CursorExecute sql params] (cursor conn sql params).
Proof.
  intros t calls. unfold cursor. destruct (cursor_execute conn sql params) as [e r].
  exists [CursorExecute sql params], []. by destruct r.
Qed.
Lemma asks_lift {A} (r : res exn A) : asks [] (lift_res r).
Proof. intros t calls. exists [], []. cbn. rewrite app_nil_r. by destruct r. Qed.
Lemma asks_ret {A} (a : A) : asks [] (mret a).
Proof. apply (asks_lift (Ok a)). Qed.
Lemma asks_bind {A B} l1 l2 (m : M Calls exn A) (k : A → M Calls exn B) :
  asks l1 m → (∀ a, asks l2 (k a)) → asks (l1 ++ l2) (m ≫= k).
Proof.
  intros Hm Hk t calls. destruct (Hm t calls) as (made & rest & El & Ec & Er).
  unfold mbind, M_bind. destruct (m (t, calls)) as [[a|e] [t' calls']]; cbn in *; subst.
  - destruct (Hk a t' (calls ++ made)) as (made' & rest' & -> & Ec' & Er').
    exists (made ++ made'), rest'. rewrite app_nil_r. by rewrite Ec' !app_assoc.
  - exists made, (rest ++ l2). by rewrite app_assoc.
Qed.
(** a [SET] that may fail *)
Lemma asks_passed_over sql :
  asks [CursorExecute sql NoParams] (try_except (_ ← cursor conn sql NoParams; mret tt) (λ _, mret tt)).
Proof.
  intros t calls. unfold try_except, mbind, M_bind, cursor. destruct (cursor_execute conn sql NoParams) as [e [c|x]];
    by exists [CursorExecute sql NoParams], [].
Qed.

Lemma asks_statement {A} cls timeout sql params (k : Cursor → M Calls exn A) : (∀ cur, asks [] (k cur)) →
  asks (timed_statement cls timeout sql params)
    match cls with
    | SQLServerAdapter => mssql_run conn timeout sql params ≫= k
    | PostgreSQLAdapter => _ ← pg_set_timeouts conn timeout; cursor conn sql (Named params) ≫= k
    | MySQLAdapter => _ ← mysql_set_timeout conn timeout; cursor conn sql (params_or_none params) ≫= k
    end.
Proof.
  intros Hk. destruct cls; cbn [timed_statement].
  - unfold mssql_run. destruct (to_positional params sql) as [[converted ordered]|e].
    + apply (asks_bind [_; _] []); [|exact Hk].
      change (asks [QueryTimeout timeout; CursorExecute converted (positional_or_none ordered)]
        (_ ← set_query_timeout timeout; cursor conn converted (positional_or_none ordered))).
      apply (asks_bind [_] [_]); [|intros _; apply asks_cursor].
      intros t calls. by exists [QueryTimeout timeout], [].
    + intros t calls. exists [], []. cbn. by rewrite app_nil_r.
  - apply (asks_bind [_; _] [_]); [|intros _; apply (asks_bind [_] []); [apply asks_cursor|exact Hk]].
    apply (asks_bind [_] [_]); [apply asks_cursor|intros _].
    apply (asks_bind [_] []); [apply asks_cursor|intros _; apply asks_ret].
  - apply (asks_bind [_; _] [_]); [|intros _; apply (asks_bind [_] []); [apply asks_cursor|exact Hk]].
    apply (asks_bind [_] [_]); [apply asks_passed_over|intros _; apply asks_passed_over].
Qed.

(** No statement of an adapter reaches a driver without its timeouts: for a query and for
    an operation of every engine the driver is asked the first of: the engine's timeouts of
    30 seconds, in milliseconds where the engine counts them, and then the statement, once; all
    of them when the call succeeds, and where a timeout cannot be set on PostgreSQL the
    statement is not sent. *)
Theorem statements_are_timed cls sql params :
  asks (timed_statement cls 30 sql params) (engine_fetch conn cls sql params) ∧
  asks (timed_statement cls 30 sql params) (engine_execute conn cls sql params) ∧
  (cls = PostgreSQLAdapter → ∀ t calls e,
     (pg_set_timeouts conn 30 (t, calls)).1 = Err e →
     (engine_execute conn cls sql params (t, calls)).1 = Err e ∧
     ∀ n, (engine_execute conn cls sql params (t, calls)).2.2 = calls ++ n →
          length n < length (timed_statement cls 30 sql params)).
Proof.
  split_and!.
  - destruct cls; [apply (asks_statement SQLServerAdapter)|apply (asks_statement PostgreSQLAdapter)
                  |apply (asks_statement MySQLAdapter)]; intros cur; apply asks_lift.
  - destruct cls; [apply (asks_statement SQLServerAdapter)|apply (asks_statement PostgreSQLAdapter)
                  |apply (asks_statement MySQLAdapter)]; intros cur; apply asks_lift.
  - intros -> t calls e He.
    assert (asks [CursorExecute ("SET statement_timeout = 30000") NoParams;
                  CursorExecute ("SET lock_timeout = 5000") NoParams] (pg_set_timeouts conn 30)) as Ha.
    { apply (asks_bind [_] [_]); [apply asks_cursor|intros _].
      apply (asks_bind [_] []); [apply asks_cursor|intros _; apply asks_ret]. }
    destruct (Ha t calls) as (made & rest & Em & Ec & _).
    unfold engine_execute, pg_execute, mbind, M_bind, DEFAULT_TIMEOUT.
    destruct (pg_set_timeouts conn 30 (t, calls)) as [[a|e'] [t' calls']]; [done|].
    cbn in He, Ec |- *. injection He as ->. split; [done|]. intros n. subst calls'. intros Hn%app_inv_head.
    subst n. apply (f_equal length) in Em. rewrite length_app in Em. cbn in Em. lia.
Qed.
End timing.

(** a driver that refuses every statement *)
#[local] Instance refusing_driver : DatabaseDriver unit := {|
  driver_connect _ _ := Ok tt; driver_close _ := Ok tt;
  cursor_execute _ _ _ := (1%Z, Err (PyError "QueryCanceled" "")) |}.
Lemma statements_are_timed_witness :
  PostgreSQLAdapter = PostgreSQLAdapter ∧
  (engine_execute tt PostgreSQLAdapter "reindex" [] (0%Z, [])).2.2
    = [CursorExecute "SET statement_timeout = 30000" NoParams] ∧
  (engine_execute tt PostgreSQLAdapter "reindex" [] (0%Z, [])).1 = Err (PyError "QueryCanceled" "").
Proof.
  split; [reflexivity|]. split; [vm_compute; reflexivity|].
  exact (proj1 (proj2 (proj2 (@statements_are_timed unit refusing_driver tt PostgreSQLAdapter "reindex" [])) eq_refl 0%Z []
    (PyError "QueryCanceled" "") ltac:(vm_compute; reflexivity))).
Defined.

(* ------------------------------------------------------------------ *)
(** ** A request through the whole service *)

(** a PostgreSQL server that knows one version *)
#[local] Instance one_version_driver : DatabaseDriver unit := {|
  driver_connect _ _ := Ok tt; driver_close _ := Ok tt;
  cursor_execute _ sql _ := (1%Z, Ok {|
    cr_rowcount := 1; cr_description := Some ["version"]; cr_fetchall := Ok [[Plain (JStr "PostgreSQL 16")]];
    cr_fetchall_dicts := Ok []; cr_fetchone := Ok None |}) |}.
Example version_row :
  let backend := @engine_backend unit one_version_driver (λ _, "") (λ _, "") (λ _, "")
                   (λ _, Ok {| dc_host := "h"; dc_port := 5432; dc_username := "u"; dc_password := "p";
                               dc_database := "postgres"; dc_options := [] |}) in
  @adapter_call backend PostgreSQLAdapter (Build_Connection PostgreSQLAdapter tt) "orders" "version" []
  = (3%Z, Ok (Rows [[("version", Plain (JStr "PostgreSQL 16"))]])).
Proof. reflexivity. Qed.
