(* ===== verification/DiscoverySql.v ===== *)
(** The texts of the discovery queries: [execution/discovery/sqlserver.py], [postgresql.py] and
    [mysql.py], as they are sent.  Those of SQL Server that read one database take its quoted
    name. *)
From S2P Require Import Prelude.

(* ------------------------------------------------------------------ *)
(** ** sqlserver.py *)

Definition mssql_least_privilege_sql : string :=
  "
    SELECT TOP (%(limit)s) s.name AS schema_name, o.name AS object_name
    FROM sys.objects o
    JOIN sys.schemas s ON s.schema_id = o.schema_id
    WHERE o.type IN ('U', 'V')
      AND o.is_ms_shipped = 0
      AND s.name NOT IN ('sys', 'INFORMATION_SCHEMA')
      AND HAS_PERMS_BY_NAME(
            QUOTENAME(s.name) + '.' + QUOTENAME(o.name), 'OBJECT', 'SELECT') = 1
    ORDER BY s.name, o.name
".
Definition mssql_crawl_properties_sql : string :=
  "SELECT CAST(SERVERPROPERTY('ProductVersion') AS NVARCHAR(128)) AS version, "
  +:+ "CAST(SERVERPROPERTY('Edition') AS NVARCHAR(128)) AS edition, "
  +:+ "CAST(SERVERPROPERTY('ProductLevel') AS NVARCHAR(128)) AS level, "
  +:+ "CAST(SERVERPROPERTY('IsHadrEnabled') AS INT) AS hadr_enabled, (SELECT cpu_count FROM "
  +:+ "sys.dm_os_sys_info) AS cpu_count".
Definition mssql_crawl_configurations_sql : string :=
  "SELECT name, CAST(value_in_use AS NVARCHAR(4000)) AS value FROM sys.configurations "
  +:+ "ORDER BY name".
Definition mssql_crawl_databases_sql : string :=
  "SELECT d.name, d.state_desc, d.recovery_model_desc, d.compatibility_level, "
  +:+ "d.is_read_only, d.is_encrypted, d.collation_name, (SELECT SUM(CAST(mf.size AS BIGINT)) "
  +:+ "* 8 * 1024 FROM sys.master_files mf  WHERE mf.database_id = d.database_id) AS "
  +:+ "size_bytes FROM sys.databases d WHERE d.name <> 'tempdb' ORDER BY d.name".
Definition mssql_crawl_tables_sql (q : string) : string :=
  "SELECT TOP (%(limit)s) s.name AS schema_name, t.name AS name, 'table' AS kind,        "
  +:+ "p.rows AS row_estimate,        SUM(CAST(a.total_pages AS BIGINT)) * 8 * 1024 AS "
  +:+ "size_bytes FROM "
  +:+ q
  +:+ ".sys.tables t JOIN "
  +:+ q
  +:+ ".sys.schemas s ON s.schema_id = t.schema_id JOIN "
  +:+ q
  +:+ ".sys.partitions p ON p.object_id = t.object_id AND p.index_id IN (0,1) JOIN "
  +:+ q
  +:+ ".sys.allocation_units a ON a.container_id = p.partition_id GROUP BY s.name, t.name, "
  +:+ "p.rows ORDER BY p.rows DESC".
Definition mssql_crawl_views_sql (q : string) : string :=
  "SELECT TOP (%(limit)s) s.name AS schema_name, v.name AS name, 'view' AS kind FROM "
  +:+ q
  +:+ ".sys.views v JOIN "
  +:+ q
  +:+ ".sys.schemas s ON s.schema_id = v.schema_id ORDER BY v.name".
Definition mssql_crawl_indexes_sql (q : string) : string :=
  "SELECT TOP (%(limit)s) s.name AS schema_name,        i.name AS name, 'index' AS kind,   "
  +:+ "     i.type_desc AS index_type, t.name AS table_name,        us.user_seeks, "
  +:+ "us.user_scans, us.user_lookups, us.user_updates FROM "
  +:+ q
  +:+ ".sys.indexes i JOIN "
  +:+ q
  +:+ ".sys.tables t ON t.object_id = i.object_id JOIN "
  +:+ q
  +:+ ".sys.schemas s ON s.schema_id = t.schema_id LEFT JOIN "
  +:+ q
  +:+ ".sys.dm_db_index_usage_stats us        ON us.object_id = i.object_id AND us.index_id = "
  +:+ "i.index_id WHERE i.name IS NOT NULL ORDER BY i.name".
Definition mssql_crawl_routines_sql (q : string) : string :=
  "SELECT TOP (%(limit)s) s.name AS schema_name, o.name AS name,   CASE o.type WHEN 'P' "
  +:+ "THEN 'procedure' ELSE 'function' END AS kind FROM "
  +:+ q
  +:+ ".sys.objects o JOIN "
  +:+ q
  +:+ ".sys.schemas s ON s.schema_id = o.schema_id WHERE o.type IN ('P','FN','IF','TF','AF') "
  +:+ "ORDER BY o.name".

(* ------------------------------------------------------------------ *)
(** ** postgresql.py *)

Definition pg_least_privilege_sql : string :=
  "
    select n.nspname as schema_name, c.relname as object_name
    from pg_catalog.pg_class c
    join pg_catalog.pg_namespace n on n.oid = c.relnamespace
    where c.relkind in ('r', 'p', 'v', 'm', 'f')
      and n.nspname not in ('pg_catalog', 'information_schema')
      and n.nspname not like 'pg_toast%%'
      and n.nspname not like 'pg_temp%%'
      and pg_catalog.has_table_privilege(current_user, c.oid, 'SELECT')
    order by n.nspname, c.relname
    limit %(limit)s
".
Definition pg_crawl_version_sql : string :=
  "SHOW server_version".
Definition pg_crawl_settings_sql : string :=
  "SELECT name, setting, unit FROM pg_settings ORDER BY name".
Definition pg_crawl_databases_sql : string :=
  "SELECT datname, pg_get_userbyid(datdba) AS owner, pg_encoding_to_char(encoding) AS "
  +:+ "encoding, datcollate FROM pg_database WHERE datistemplate = false AND datallowconn "
  +:+ "ORDER BY datname".
Definition pg_crawl_size_sql : string :=
  "SELECT pg_database_size(current_database()) AS s".
Definition pg_crawl_tables_sql : string :=
  "SELECT n.nspname AS schema_name, c.relname AS name,   CASE c.relkind WHEN 'r' THEN "
  +:+ "'table' WHEN 'p' THEN 'table'                  WHEN 'v' THEN 'view' WHEN 'm' THEN "
  +:+ "'view' END AS kind,   s.n_live_tup AS row_estimate,   pg_total_relation_size(c.oid) AS "
  +:+ "size_bytes FROM pg_class c JOIN pg_namespace n ON n.oid = c.relnamespace LEFT JOIN "
  +:+ "pg_stat_user_tables s ON s.relid = c.oid WHERE c.relkind IN ('r','p','v','m')   AND "
  +:+ "n.nspname NOT IN ('pg_catalog','information_schema') ORDER BY "
  +:+ "pg_total_relation_size(c.oid) DESC NULLS LAST LIMIT %(limit)s".
Definition pg_crawl_indexes_sql : string :=
  "SELECT s.schemaname AS schema_name, s.indexrelname AS name, 'index' AS kind,   "
  +:+ "s.relname AS table_name, s.idx_scan, s.idx_tup_read, s.idx_tup_fetch,   "
  +:+ "pg_relation_size(s.indexrelid) AS size_bytes FROM pg_stat_user_indexes s ORDER BY "
  +:+ "s.idx_scan DESC LIMIT %(limit)s".
Definition pg_crawl_routines_sql : string :=
  "SELECT n.nspname AS schema_name, p.proname AS name,   CASE p.prokind WHEN 'p' THEN "
  +:+ "'procedure' ELSE 'function' END AS kind FROM pg_proc p JOIN pg_namespace n ON n.oid = "
  +:+ "p.pronamespace WHERE n.nspname NOT IN ('pg_catalog','information_schema') ORDER BY "
  +:+ "p.proname LIMIT %(limit)s".
Definition pg_crawl_extensions_sql : string :=
  "SELECT ae.name, ae.default_version, ae.installed_version, ae.comment FROM "
  +:+ "pg_available_extensions ae ORDER BY ae.name".

(* ------------------------------------------------------------------ *)
(** ** mysql.py *)

Definition mysql_least_privilege_sql : string :=
  "
    SELECT schema_name, object_name FROM (
        SELECT '*' AS schema_name, '*' AS object_name
          FROM information_schema.USER_PRIVILEGES
         WHERE PRIVILEGE_TYPE = 'SELECT'
           AND GRANTEE = CONCAT(" +:+ String dquote ("'" +:+ String dquote (", REPLACE(CURRENT_USER(), '@', " +:+ String dquote ("'@'" +:+ String dquote ("), " +:+ String dquote ("'" +:+ String dquote (")
        UNION ALL
        SELECT TABLE_SCHEMA AS schema_name, '*' AS object_name
          FROM information_schema.SCHEMA_PRIVILEGES
         WHERE PRIVILEGE_TYPE = 'SELECT'
           AND GRANTEE = CONCAT(" +:+ String dquote ("'" +:+ String dquote (", REPLACE(CURRENT_USER(), '@', " +:+ String dquote ("'@'" +:+ String dquote ("), " +:+ String dquote ("'" +:+ String dquote (")
           AND TABLE_SCHEMA NOT IN
               ('information_schema', 'performance_schema', 'mysql', 'sys')
        UNION ALL
        SELECT TABLE_SCHEMA AS schema_name, TABLE_NAME AS object_name
          FROM information_schema.TABLE_PRIVILEGES
         WHERE PRIVILEGE_TYPE = 'SELECT'
           AND GRANTEE = CONCAT(" +:+ String dquote ("'" +:+ String dquote (", REPLACE(CURRENT_USER(), '@', " +:+ String dquote ("'@'" +:+ String dquote ("), " +:+ String dquote ("'" +:+ String dquote (")
           AND TABLE_SCHEMA NOT IN
               ('information_schema', 'performance_schema', 'mysql', 'sys')
    ) g
    ORDER BY schema_name, object_name
    LIMIT %(limit)s
")))))))))))))))))).
Definition mysql_crawl_version_sql : string :=
  "SELECT VERSION() AS version, @@version_comment AS edition".
Definition mysql_crawl_plugins_sql : string :=
  "SELECT PLUGIN_NAME AS name, PLUGIN_VERSION AS version, PLUGIN_STATUS AS status, "
  +:+ "PLUGIN_TYPE AS type FROM information_schema.PLUGINS ORDER BY PLUGIN_NAME".
Definition mysql_crawl_variables_sql : string :=
  "SELECT VARIABLE_NAME AS name, VARIABLE_VALUE AS value FROM "
  +:+ "performance_schema.global_variables WHERE VARIABLE_NAME IN "
  +:+ "('innodb_buffer_pool_size','innodb_version','max_connections','version_compile_os',"
  +:+ "'datadir','character_set_server')".
Definition mysql_crawl_schemata_sql : string :=
  "SELECT SCHEMA_NAME AS name, DEFAULT_CHARACTER_SET_NAME AS charset, "
  +:+ "DEFAULT_COLLATION_NAME AS collation FROM information_schema.SCHEMATA ORDER BY "
  +:+ "SCHEMA_NAME".
Definition mysql_crawl_size_sql : string :=
  "SELECT SUM(DATA_LENGTH + INDEX_LENGTH) AS size_bytes FROM information_schema.TABLES "
  +:+ "WHERE TABLE_SCHEMA = %(s)s".
Definition mysql_crawl_tables_sql : string :=
  "SELECT TABLE_NAME AS name, TABLE_TYPE AS table_type, TABLE_ROWS AS row_estimate, "
  +:+ "(DATA_LENGTH + INDEX_LENGTH) AS size_bytes, ENGINE AS engine FROM "
  +:+ "information_schema.TABLES WHERE TABLE_SCHEMA = %(s)s ORDER BY (DATA_LENGTH + "
  +:+ "INDEX_LENGTH) DESC LIMIT %(limit)s".
Definition mysql_crawl_indexes_sql : string :=
  "SELECT DISTINCT INDEX_NAME AS name, TABLE_NAME AS table_name, NON_UNIQUE AS non_unique, "
  +:+ "INDEX_TYPE AS index_type FROM information_schema.STATISTICS WHERE TABLE_SCHEMA = %(s)s "
  +:+ "ORDER BY TABLE_NAME, INDEX_NAME LIMIT %(limit)s".
Definition mysql_crawl_routines_sql : string :=
  "SELECT ROUTINE_NAME AS name, ROUTINE_TYPE AS routine_type FROM "
  +:+ "information_schema.ROUTINES WHERE ROUTINE_SCHEMA = %(s)s ORDER BY ROUTINE_NAME LIMIT "
  +:+ "%(limit)s".
