(* ===== verification/Crawlers.v ===== *)
(** The crawlers of the Execution Service: [execution/discovery/base.py], [engine.py],
    [sqlserver.py], [postgresql.py] and [mysql.py], over the connections of [Connections.v].
    The events of a crawl and the database being filled are its state. *)
From S2P Require Import Prelude ProgramLogic Json Text Models ToolCatalog Servers Policy RateLimit.
From S2P Require Import Approval DataPolicy Discovery Gateway Identity Fallback Conversation Config.
From S2P Require Import Cells Execution Credentials AdapterSql Adapters Connections DiscoverySql.

(* ------------------------------------------------------------------ *)
(** ** The state of a crawl *)

Inductive CrawlEvent : Type :=
| Opened (cls : AdapterClass) (database : string)
| Asked (sql : string) (params : list (string * json))
| Closed.
(** what is cataloged, before it is carried to the Gateway *)
Abbreviation RawObject := (DiscoveredObjectOf cell).
Abbreviation RawDatabase := (DiscoveredDatabaseOf cell).
(** the events, and the database the fill mutates *)
Record Crawl : Type := { cw_events : list CrawlEvent; cw_database : RawDatabase }.
#[export] Instance Crawl_rebuild : Rebuild Crawl := λ s, {|
  cw_events := cw_events s; cw_database := cw_database s |}.
#[export] Instance DiscoveredDatabase_rebuild : Rebuild RawDatabase := λ d, {|
  dd_name := dd_name d; dd_state := dd_state d; dd_size_bytes := dd_size_bytes d;
  dd_options := dd_options d; dd_objects := dd_objects d; dd_extensions := dd_extensions d |}.

#[export] Instance pyobject_rebuild : Rebuild pyobject := λ o, {|
  po_str := po_str o; po_truth := po_truth o; po_cased := po_cased o; po_as_str := po_as_str o;
  po_as_int := po_as_int o; po_json := po_json o |}.
Definition event (e : CrawlEvent) : M Crawl exn unit := modify (λ s, s <| cw_events ::= λ l, l ++ [e] |>).
(** [db.field = ...] on the database being filled *)
Definition update_database (f : RawDatabase → RawDatabase) : M Crawl exn unit :=
  modify (λ s, s <| cw_database ::= f |>).
(** [try: m finally: last] *)
Definition try_finally {A} (m : M Crawl exn A) (last : M Crawl exn unit) : M Crawl exn A := λ s,
  let '(r, s) := m s in
  match last s with
  | (Ok _, s) => (r, s)
  | (Err e, s) => (Err e, s)
  end.

Definition new_database (name state : string) (size : option Z) (options : db_row) : RawDatabase :=
  {| dd_name := name; dd_state := state; dd_size_bytes := size; dd_options := options; dd_objects := [];
     dd_extensions := [] |}.

(* ------------------------------------------------------------------ *)
(** ** Rows *)

(** [r[k]], [r.get(k)] and [rows[0]] *)
Definition get_cell (k : string) (r : db_row) : res exn cell :=
  match dict_get k r with Some v => Ok v | None => Err (PyError "KeyError" k) end.
Definition null : cell := Plain JNull.
Definition text (s : string) : cell := Plain (JStr s).
Definition cell_or_none (k : string) (r : db_row) : cell := default null (dict_get k r).
Definition first_row (rows : list db_row) : res exn db_row :=
  match rows with r :: _ => Ok r | [] => Err (PyError "IndexError" "list index out of range") end.

(** the size a database is assigned, which is not validated: null, an integer, or the
    [Decimal] of a sum of MySQL, kept as the integer it is read as *)
Definition assigned_size (v : cell) : option Z :=
  match v with Plain (JInt n) => Some n | Plain _ => None | Obj o => po_as_int o end.

(** *** The least-privilege finding *)

Definition LEAST_PRIVILEGE_SCAN_LIMIT : Z := 200.
Definition SAMPLE_OBJECT_COUNT : nat := 5.

Section crawl.
(** [str] of a cell, [int] of a numeric text, and what a validation error prints *)
Context (py_repr : json → string) (int_of_text : string → option Z).
Context (invalid_text : db_row → string).

Definition str_of_cell : cell → string := cell_str py_repr.
(** [x or ""], printed *)
Definition printed_or_empty (v : cell) : string := if cell_truthy v then str_of_cell v else "".

(** [f"{schema}.{obj}" if schema else str(obj)] *)
Definition sample_name (r : db_row) : string :=
  let schema := cell_or_none "schema_name" r in
  if cell_truthy schema then str_of_cell schema +:+ "." +:+ printed_or_empty (cell_or_none "object_name" r)
  else printed_or_empty (cell_or_none "object_name" r).
Definition build_least_privilege_finding (rows : list db_row) (login scope_note : string) : LeastPrivilegeFinding :=
  {| lp_checked := true; lp_login := login;
     lp_has_user_table_select := negb (Nat.eqb (length rows) 0);
     lp_granted_object_count := Z.of_nat (length rows);
     lp_count_is_lower_bound := (LEAST_PRIVILEGE_SCAN_LIMIT <=? Z.of_nat (length rows))%Z;
     lp_sample_objects := map sample_name (take SAMPLE_OBJECT_COUNT rows);
     lp_scope_note := scope_note |}.
Definition unchecked_finding : LeastPrivilegeFinding :=
  {| lp_checked := false; lp_login := ""; lp_has_user_table_select := false; lp_granted_object_count := 0;
     lp_count_is_lower_bound := false; lp_sample_objects := [];
     lp_scope_note := "privilege check could not run" |}.

(** *** Validation *)

Definition validated_fields {A} (fields : db_row) (o : option A) : res exn A :=
  match o with Some a => Ok a | None => Err (PyError "ValidationError" (invalid_text fields)) end.
Definition required_str (v : cell) : option string :=
  match v with Plain (JStr s) => Some s | Plain _ => None | Obj o => po_as_str o end.
Definition optional_str (v : cell) : option (option string) :=
  match v with Plain JNull => Some None | _ => Some <$> required_str v end.
Definition optional_int (v : cell) : option (option Z) :=
  match v with
  | Plain JNull => Some None
  | Plain (JInt n) => Some (Some n)
  | Plain (JBool b) => Some (Some (Z.b2z b))
  | Plain (JStr s) => Some <$> int_of_text s
  | Plain (JArr _) | Plain (JObj _) => None
  | Obj o => Some <$> po_as_int o
  end.
Definition discovered_object (schema name kind row_estimate size : cell) (properties : db_row)
    : res exn RawObject :=
  validated_fields [("schema_name", schema); ("name", name); ("kind", kind); ("row_estimate", row_estimate);
             ("size_bytes", size)]
    (schema ← required_str schema; name ← required_str name; kind ← required_str kind;
     row_estimate ← optional_int row_estimate; size ← optional_int size;
     Some {| do_schema_name := schema; do_name := name; do_kind := kind; do_row_estimate := row_estimate;
             do_size_bytes := size; do_properties := properties |}).
Definition discovered_extension (r : db_row) : res exn DiscoveredExtension :=
  name ← get_cell "name" r;
  let installed := cell_or_none "installed_version" r in
  let dflt := cell_or_none "default_version" r in
  validated_fields [("name", name); ("default_version", dflt); ("installed_version", installed)]
    (name ← required_str name; dflt ← optional_str dflt; installed ← optional_str installed;
     Some {| de_name := name; de_installed_version := installed; de_default_version := dflt;
             de_available := true |}).

(** [properties={key: r.get(column), ...}] *)
Definition properties_of (columns : list (string * string)) (r : db_row) : db_row :=
  map (λ '(key, column), (key, cell_or_none column r)) columns.

(** a dict comprehension over rows; its keys are strings *)
Definition dict_of_rows (value : db_row → res exn cell) (rows : list db_row) : res exn db_row :=
  foldl (λ acc r, d ← acc; k ← get_cell "name" r; v ← value r;
                  match k with Plain (JStr k) => Ok (dict_set k v d) | _ => Err (PyError "TypeError" "unhashable type") end)
    (Ok []) rows.

Context (now : Z).
(** [ServerCatalog(...)] *)
Definition server_catalog (server_id : string) (version edition : cell) (properties : list (string * property))
    (databases : list RawDatabase) (warnings : list string) (finding : LeastPrivilegeFinding)
    : res exn RawCatalog :=
  validated_fields [("engine_version", version); ("engine_edition", edition)]
    (version ← required_str version; edition ← required_str edition;
     Some {| sc_server_id := server_id; sc_discovered_at := Some now; sc_engine_version := version;
             sc_engine_edition := edition; sc_instance_properties := properties; sc_databases := databases;
             sc_warnings := warnings; sc_least_privilege := Some finding |}).

(* ------------------------------------------------------------------ *)
(** ** Connections *)

Context {D : Type} `{DatabaseDriver D}.
Context (str_of_container : pyval → string).
Context (creds : DatabaseCredentials) (max_objects : Z).

Definition open_connection (cls : AdapterClass) (c : DatabaseCredentials) : M Crawl exn (Connection D) :=
  conn ← lift_res (engine_connect str_of_container cls c);
  _ ← event (Opened cls (dc_database c));
  mret conn.
Definition close_connection (conn : Connection D) : M Crawl exn unit :=
  _ ← event Closed; lift_res (driver_close (cn_driver conn)).
(** [_fetch] *)
Definition crawl_fetch (conn : Connection D) (sql : string) (params : list (string * json)) : M Crawl exn (list db_row) :=
  _ ← event (Asked sql params); lift_res (fetch_all conn sql params).2.
Definition limit_param : list (string * json) := [("limit", JInt max_objects)].

(** [_check_least_privilege] and [run_least_privilege_check] *)
Definition least_privilege_sql (cls : AdapterClass) : string :=
  match cls with
  | SQLServerAdapter => mssql_least_privilege_sql
  | PostgreSQLAdapter => pg_least_privilege_sql
  | MySQLAdapter => mysql_least_privilege_sql
  end.
Definition scope_note (cls : AdapterClass) : string :=
  match cls with
  | SQLServerAdapter => "checked against the '" +:+ dc_database creds +:+ "' database "
                        +:+ "(SQL Server scopes object permissions per database)"
  | PostgreSQLAdapter => "checked against the '" +:+ dc_database creds +:+ "' database "
                         +:+ "(PostgreSQL scopes relation visibility per connection)"
  | MySQLAdapter => "checked instance-wide (MySQL privilege views span every schema)"
  end.
Definition check_least_privilege (cls : AdapterClass) (conn : Connection D) : M Crawl exn LeastPrivilegeFinding :=
  rows ← crawl_fetch conn (least_privilege_sql cls) [("limit", JInt LEAST_PRIVILEGE_SCAN_LIMIT)];
  mret (build_least_privilege_finding rows (dc_username creds) (scope_note cls)).
Definition run_least_privilege_check (cls : AdapterClass) (conn : Connection D)
    : M Crawl exn LeastPrivilegeFinding :=
  try_except (check_least_privilege cls conn) (λ _, mret unchecked_finding).

(** the loop over the databases: what each one adds to the catalog and to the warnings *)
Fixpoint crawl_databases (one : db_row → M Crawl exn (list RawDatabase * list string)) (rows : list db_row)
    : M Crawl exn (list RawDatabase * list string) :=
  match rows with
  | [] => mret ([], [])
  | r :: rows =>
      '(databases, warnings) ← one r;
      '(databases', warnings') ← crawl_databases one rows;
      mret (databases ++ databases', warnings ++ warnings')
  end.
(** [db.objects.append(...)] per row *)
Fixpoint append_objects (build : db_row → res exn RawObject) (rows : list db_row) : M Crawl exn unit :=
  match rows with
  | [] => mret tt
  | r :: rows =>
      o ← lift_res (build r);
      _ ← update_database (λ d, d <| dd_objects ::= λ l, l ++ [o] |>);
      append_objects build rows
  end.
(** a database and what could not be read of it *)
Definition filled (prefix name : string) (fill : M Crawl exn unit) : M Crawl exn (list RawDatabase * list string) :=
  warnings ← try_except (_ ← fill; mret []) (λ e, mret [prefix +:+ name +:+ ": " +:+ exn_text e]);
  s ← get_state;
  mret ([cw_database s], warnings).

(* ------------------------------------------------------------------ *)
(** ** PostgreSQL *)

Definition pg_table_object (r : db_row) : res exn RawObject :=
  schema ← get_cell "schema_name" r; name ← get_cell "name" r; kind ← get_cell "kind" r;
  discovered_object schema name (if cell_truthy kind then kind else text "table")
    (cell_or_none "row_estimate" r) (cell_or_none "size_bytes" r) [].
Definition pg_index_object (r : db_row) : res exn RawObject :=
  schema ← get_cell "schema_name" r; name ← get_cell "name" r;
  discovered_object schema name (text "index") null (cell_or_none "size_bytes" r)
    (properties_of [("table", "table_name"); ("idx_scan", "idx_scan"); ("idx_tup_read", "idx_tup_read");
                    ("idx_tup_fetch", "idx_tup_fetch")] r).
(** a routine: its kind is the query's *)
Definition routine_object (r : db_row) : res exn RawObject :=
  schema ← get_cell "schema_name" r; name ← get_cell "name" r; kind ← get_cell "kind" r;
  discovered_object schema name kind null null [].

(** [_fill_database]: a connection of its own *)
Definition pg_fill_database (name : string) : M Crawl exn unit :=
  conn ← open_connection PostgreSQLAdapter (creds <| dc_database := name |>);
  try_finally
    (size_rows ← crawl_fetch conn pg_crawl_size_sql [];
     size_row ← lift_res (first_row size_rows);
     _ ← update_database (λ d, d <| dd_size_bytes := assigned_size (cell_or_none "s" size_row) |>);
     tables ← crawl_fetch conn pg_crawl_tables_sql limit_param;
     indexes ← crawl_fetch conn pg_crawl_indexes_sql limit_param;
     routines ← crawl_fetch conn pg_crawl_routines_sql limit_param;
     ext_rows ← crawl_fetch conn pg_crawl_extensions_sql [];
     _ ← append_objects pg_table_object tables;
     _ ← append_objects pg_index_object indexes;
     _ ← append_objects routine_object routines;
     extensions ← lift_res (mapM discovered_extension ext_rows);
     update_database (λ d, d <| dd_extensions := extensions |>))
    (close_connection conn).
Definition pg_database (r : db_row) : M Crawl exn (list RawDatabase * list string) :=
  name ← lift_res (get_cell "datname" r);
  name ← lift_res (validated_fields [("name", name)] (required_str name));
  _ ← update_database (λ _, new_database name "online" None
        (properties_of [("owner", "owner"); ("encoding", "encoding"); ("collation", "datcollate")] r));
  filled "could not read database " name (pg_fill_database name).

(** [f"{setting}{unit}" if unit else setting] *)
Definition pg_setting (r : db_row) : res exn cell :=
  setting ← get_cell "setting" r;
  let unit := cell_or_none "unit" r in
  Ok (if cell_truthy unit then text (str_of_cell setting +:+ str_of_cell unit) else setting).
Definition pg_discover (server_id : string) : M Crawl exn RawCatalog :=
  boot ← open_connection PostgreSQLAdapter creds;
  '(version, properties, db_rows, finding) ← try_finally
    (version_rows ← crawl_fetch boot pg_crawl_version_sql [];
     version_row ← lift_res (first_row version_rows);
     settings_rows ← crawl_fetch boot pg_crawl_settings_sql [];
     settings ← lift_res (dict_of_rows pg_setting settings_rows);
     db_rows ← crawl_fetch boot pg_crawl_databases_sql [];
     finding ← run_least_privilege_check PostgreSQLAdapter boot;
     mret (default (text "") (dict_get "server_version" version_row), [("settings", Table settings)],
           db_rows, finding))
    (close_connection boot);
  '(databases, warnings) ← crawl_databases pg_database db_rows;
  lift_res (server_catalog server_id version (text "PostgreSQL") properties databases warnings finding).

(* ------------------------------------------------------------------ *)
(** ** SQL Server *)

Definition mssql_table_object (r : db_row) : res exn RawObject :=
  schema ← get_cell "schema_name" r; name ← get_cell "name" r;
  discovered_object schema name (text "table") (cell_or_none "row_estimate" r) (cell_or_none "size_bytes" r) [].
Definition mssql_view_object (r : db_row) : res exn RawObject :=
  schema ← get_cell "schema_name" r; name ← get_cell "name" r;
  discovered_object schema name (text "view") null null [].
Definition mssql_index_object (r : db_row) : res exn RawObject :=
  schema ← get_cell "schema_name" r; name ← get_cell "name" r;
  discovered_object schema name (text "index") null null
    (properties_of [("type", "index_type"); ("table", "table_name"); ("user_seeks", "user_seeks");
                    ("user_scans", "user_scans"); ("user_lookups", "user_lookups");
                    ("user_updates", "user_updates")] r).
(** [_objects] *)
Definition mssql_objects (conn : Connection D) (name : string) : M Crawl exn (list RawObject) :=
  let q := mssql_quote_ident name in
  tables ← crawl_fetch conn (mssql_crawl_tables_sql q) limit_param;
  views ← crawl_fetch conn (mssql_crawl_views_sql q) limit_param;
  indexes ← crawl_fetch conn (mssql_crawl_indexes_sql q) limit_param;
  routines ← crawl_fetch conn (mssql_crawl_routines_sql q) limit_param;
  lift_res (tables ← mapM mssql_table_object tables;
            views ← mapM mssql_view_object views;
            indexes ← mapM mssql_index_object indexes;
            routines ← mapM routine_object routines;
            Ok (tables ++ views ++ indexes ++ routines)).
(** [lower()] of a byte string, as the text it is read as *)
Definition lowered (o : pyobject) : cell := Obj (o <| po_as_str ::= fmap str_lower |>).
(** [(row.get("state_desc") or "unknown").lower()] *)
Definition database_state (r : db_row) : res exn cell :=
  let state := cell_or_none "state_desc" r in
  if cell_truthy state then
    match state with
    | Plain (JStr s) => Ok (text (str_lower s))
    | Obj o => if po_cased o then Ok (lowered o) else Err (PyError "AttributeError" "lower")
    | _ => Err (PyError "AttributeError" "lower")
    end
  else Ok (text "unknown").
Definition flag_of (column : string) (r : db_row) : cell := Plain (JBool (cell_truthy (cell_or_none column r))).
Definition mssql_database (conn : Connection D) (r : db_row) : M Crawl exn (list RawDatabase * list string) :=
  name ← lift_res (get_cell "name" r);
  state ← lift_res (database_state r);
  let size := cell_or_none "size_bytes" r in
  '(name, state, size) ← lift_res (validated_fields [("name", name); ("state", state); ("size_bytes", size)]
      (name ← required_str name; state ← required_str state; size ← optional_int size; Some (name, state, size)));
  _ ← update_database (λ _, new_database name state size
        [("recovery_model", cell_or_none "recovery_model_desc" r);
         ("compatibility_level", cell_or_none "compatibility_level" r);
         ("read_only", flag_of "is_read_only" r); ("encrypted", flag_of "is_encrypted" r);
         ("collation", cell_or_none "collation_name" r)]);
  filled "could not read objects in " name
    (if bool_decide (state = "online") then
       objects ← mssql_objects conn name; update_database (λ d, d <| dd_objects := objects |>)
     else mret tt).
Definition mssql_discover (server_id : string) : M Crawl exn RawCatalog :=
  conn ← open_connection SQLServerAdapter creds;
  try_finally
    (props_rows ← crawl_fetch conn mssql_crawl_properties_sql [];
     props ← lift_res (first_row props_rows);
     configs ← crawl_fetch conn mssql_crawl_configurations_sql [];
     configuration ← lift_res (dict_of_rows (get_cell "value") configs);
     let properties := [("cpu_count", Value (cell_or_none "cpu_count" props)); ("hadr_enabled", Value (flag_of "hadr_enabled" props));
                        ("product_level", Value (cell_or_none "level" props)); ("configuration", Table configuration)] in
     db_rows ← crawl_fetch conn mssql_crawl_databases_sql [];
     '(databases, warnings) ← crawl_databases (mssql_database conn) db_rows;
     finding ← run_least_privilege_check SQLServerAdapter conn;
     lift_res (server_catalog server_id (default (text "") (dict_get "version" props))
                 (default (text "") (dict_get "edition" props)) properties databases warnings finding))
    (close_connection conn).

(* ------------------------------------------------------------------ *)
(** ** MySQL and MariaDB *)

Definition SYSTEM_SCHEMAS : list string := ["information_schema"; "performance_schema"; "mysql"; "sys"].

(** [(r.get(k) or "").upper() == value] *)
Definition upper_is (k value : string) (r : db_row) : res exn bool :=
  let v := cell_or_none k r in
  if cell_truthy v then
    match v with
    | Plain (JStr s) => Ok (bool_decide (str_upper s = value))
    | Obj o => if po_cased o then Ok false else Err (PyError "AttributeError" "upper")
    | _ => Err (PyError "AttributeError" "upper")
    end
  else Ok (bool_decide ("" = value)).
Definition mysql_table_object (schema : string) (r : db_row) : res exn RawObject :=
  is_view ← upper_is "table_type" "VIEW" r;
  name ← get_cell "name" r;
  let engine := cell_or_none "engine" r in
  discovered_object (text schema) name (text (if (is_view : bool) then "view" else "table"))
    (cell_or_none "row_estimate" r) (cell_or_none "size_bytes" r)
    (if cell_truthy engine then [("engine", engine)] else []).
Definition mysql_index_object (schema : string) (r : db_row) : res exn RawObject :=
  name ← get_cell "name" r;
  discovered_object (text schema) name (text "index") null null
    [("table", cell_or_none "table_name" r); ("unique", Plain (JBool (negb (cell_truthy (cell_or_none "non_unique" r)))));
     ("type", cell_or_none "index_type" r)].
Definition mysql_routine_object (schema : string) (r : db_row) : res exn RawObject :=
  name ← get_cell "name" r;
  is_procedure ← upper_is "routine_type" "PROCEDURE" r;
  discovered_object (text schema) name (text (if (is_procedure : bool) then "procedure" else "function")) null null [].
Definition mysql_fill_database (conn : Connection D) (schema : string) : M Crawl exn unit :=
  size_row ← crawl_fetch conn mysql_crawl_size_sql [("s", JStr schema)];
  _ ← update_database (λ d, d <| dd_size_bytes := match size_row with
                                                   | r :: _ => assigned_size (cell_or_none "size_bytes" r)
                                                   | [] => None
                                                   end |>);
  let limits := [("s", JStr schema); ("limit", JInt max_objects)] in
  tables ← crawl_fetch conn mysql_crawl_tables_sql limits;
  indexes ← crawl_fetch conn mysql_crawl_indexes_sql limits;
  routines ← crawl_fetch conn mysql_crawl_routines_sql limits;
  _ ← append_objects (mysql_table_object schema) tables;
  _ ← append_objects (mysql_index_object schema) indexes;
  append_objects (mysql_routine_object schema) routines.
(** [name in _SYSTEM_SCHEMAS] *)
Definition system_schema (name : cell) : bool :=
  match name with Plain (JStr s) => mem s SYSTEM_SCHEMAS | _ => false end.
Definition mysql_database (conn : Connection D) (r : db_row) : M Crawl exn (list RawDatabase * list string) :=
  name ← lift_res (get_cell "name" r);
  if system_schema name then mret ([], [])
  else
    name ← lift_res (validated_fields [("name", name)] (required_str name));
    _ ← update_database (λ _, new_database name "online" None
          (properties_of [("charset", "charset"); ("collation", "collation")] r));
    filled "could not read objects in " name (mysql_fill_database conn name).
Definition mysql_discover (server_id : string) : M Crawl exn RawCatalog :=
  conn ← open_connection MySQLAdapter creds;
  '(ver, properties, schema_rows) ← try_except
    (ver_rows ← crawl_fetch conn mysql_crawl_version_sql [];
     ver ← lift_res (first_row ver_rows);
     plugins ← crawl_fetch conn mysql_crawl_plugins_sql [];
     variables ← crawl_fetch conn mysql_crawl_variables_sql [];
     plugins ← lift_res (dict_of_rows (λ p, Ok (cell_or_none "status" p)) plugins);
     variables ← lift_res (dict_of_rows (get_cell "value") variables);
     schema_rows ← crawl_fetch conn mysql_crawl_schemata_sql [];
     mret (ver, [("plugins", Table plugins); ("variables", Table variables)], schema_rows))
    (λ e, _ ← close_connection conn; raise e);
  '(finding, databases, warnings) ← try_finally
    (finding ← run_least_privilege_check MySQLAdapter conn;
     '(databases, warnings) ← crawl_databases (mysql_database conn) schema_rows;
     mret (finding, databases, warnings))
    (close_connection conn);
  lift_res (server_catalog server_id (default (text "") (dict_get "version" ver))
              (default (text "MySQL") (dict_get "edition" ver)) properties databases warnings finding).

(* ------------------------------------------------------------------ *)
(** ** The dispatcher *)

Definition discover_with (cls : AdapterClass) : string → M Crawl exn RawCatalog :=
  match cls with
  | SQLServerAdapter => mssql_discover
  | PostgreSQLAdapter => pg_discover
  | MySQLAdapter => mysql_discover
  end.
(** [_discoverer_for] *)
Definition discoverer_for (p : Platform) : res exn AdapterClass :=
  match p with
  | SQLSERVER => Ok SQLServerAdapter
  | POSTGRESQL => Ok PostgreSQLAdapter
  | MYSQL | MARIADB => Ok MySQLAdapter
  | ORACLE => Err (PyError "NotImplementedError"
      ("No discoverer for platform '" +:+ platform_value p +:+ "'. Adding an engine means "
       +:+ "implementing ServerDiscoverer and registering it here."))
  end.
Definition unreachable_catalog (server_id : string) : RawCatalog :=
  {| sc_server_id := server_id; sc_discovered_at := None; sc_engine_version := ""; sc_engine_edition := "";
     sc_instance_properties := []; sc_databases := [];
     sc_warnings := ["Could not connect to the server. See server-side logs for detail."];
     sc_least_privilege := None |}.
Definition run_discovery (server_id : string) (platform : Platform) : M Crawl exn RawCatalog :=
  cls ← lift_res (discoverer_for platform);
  try_except (discover_with cls server_id) (λ _, mret (unreachable_catalog server_id)).
End crawl.
