(* ===== verification/CrawlerFacts.v ===== *)
(** What a crawl asks and what it catalogs: its connections are opened and closed in turn, its
    queries are those of the engine, and every database the server lists is in the catalog. *)
From S2P Require Import Prelude ProgramLogic Json Text Models ToolCatalog Servers Policy RateLimit.
From S2P Require Import Approval DataPolicy Discovery Gateway Identity Fallback Conversation Config.
From S2P Require Import Cells Execution Credentials AdapterSql Adapters AdapterFacts Connections DiscoverySql Crawlers.

(* ------------------------------------------------------------------ *)
(** ** Sessions *)

(** whether a connection is open after some events; [None] where they are out of order: a
    query or a close with none open, a second connection while one is *)
Fixpoint sessions (is_open : bool) (l : list CrawlEvent) : option bool :=
  match l with
  | [] => Some is_open
  | Opened _ _ :: l => if is_open then None else sessions true l
  | Asked _ _ :: l => if is_open then sessions true l else None
  | Closed :: l => if is_open then sessions false l else None
  end.
Lemma sessions_app b l m : sessions b (l ++ m) = (sessions b l ≫= λ b', sessions b' m).
Proof. revert b. induction l as [|[] l IH]; intros b; [done|..]; destruct b; cbn; auto. Qed.

Section moves.
(** what every event of the crawl satisfies *)
Context (P : CrawlEvent → Prop).
(** [m] adds events of [P], and takes the connection from [b] to [ok] when it returns and to
    [err] when it raises *)
Definition moves {A} (b ok err : bool) (m : M Crawl exn A) : Prop := ∀ s, ∃ new,
  cw_events (m s).2 = cw_events s ++ new ∧ Forall P new ∧
  sessions b new = Some (match (m s).1 with Ok _ => ok | Err _ => err end).

Lemma moves_quiet {A} b (m : M Crawl exn A) : (∀ s, cw_events (m s).2 = cw_events s) → moves b b b m.
Proof. intros Hm s. exists []. rewrite app_nil_r. split_and!; [apply Hm|done|by case_match]. Qed.
Lemma moves_ret {A} b err (a : A) : moves b b err (mret a).
Proof. intros s. exists []. by rewrite app_nil_r. Qed.
Lemma moves_lift {A} b (r : res exn A) : moves b b b (lift_res r).
Proof. by apply moves_quiet. Qed.
Lemma moves_raise {A} b ok e : moves (A := A) b ok b (raise e).
Proof. intros s. exists []. by rewrite app_nil_r. Qed.
Lemma moves_bind {A B} b1 b2 b3 err (m : M Crawl exn A) (k : A → M Crawl exn B) :
  moves b1 b2 err m → (∀ a, moves b2 b3 err (k a)) → moves b1 b3 err (m ≫= k).
Proof.
  intros Hm Hk s. destruct (Hm s) as (l & El & Fl & Sl). unfold mbind, M_bind.
  destruct (m s) as [[a|e] s']; cbn in *; [|by exists l].
  destruct (Hk a s') as (l' & El' & Fl' & Sl'). exists (l ++ l').
  rewrite El' El app_assoc sessions_app Sl. split_and!; [done|by apply Forall_app|done].
Qed.
Lemma moves_try {A} b ok err err' (m : M Crawl exn A) (h : exn → M Crawl exn A) :
  moves b ok err m → (∀ e, moves err ok err' (h e)) → moves b ok err' (try_except m h).
Proof.
  intros Hm Hh s. destruct (Hm s) as (l & El & Fl & Sl). unfold try_except.
  destruct (m s) as [[a|e] s']; cbn in *; [by exists l|].
  destruct (Hh e s') as (l' & El' & Fl' & Sl'). exists (l ++ l').
  rewrite El' El app_assoc sessions_app Sl. split_and!; [done|by apply Forall_app|done].
Qed.
Lemma moves_finally {A} b1 b2 b3 (m : M Crawl exn A) (last : M Crawl exn unit) :
  moves b1 b2 b2 m → moves b2 b3 b3 last → moves b1 b3 b3 (try_finally m last).
Proof.
  intros Hm Hl s. destruct (Hm s) as (l & El & Fl & Sl). unfold try_finally.
  destruct (m s) as [r s']. destruct (Hl s') as (l' & El' & Fl' & Sl'). exists (l ++ l').
  assert (sessions b1 (l ++ l') = Some b3) as Sll.
  { rewrite sessions_app. destruct r; cbn in Sl; rewrite Sl; cbn; by destruct (last s') as [[] ?]. }
  destruct (last s') as [[u|e] s'']; cbn in *; rewrite El' El app_assoc Sll;
    (split; [done|split; [by apply Forall_app|by destruct r]]).
Qed.
Lemma moves_update b f : moves b b b (update_database f).
Proof. by apply moves_quiet. Qed.
Lemma moves_get b : moves b b b get_state.
Proof. by apply moves_quiet. Qed.
Lemma moves_append b build rows : moves b b b (append_objects build rows).
Proof.
  induction rows as [|r rows IH]; [apply moves_ret|].
  eapply moves_bind; [apply moves_lift|intros o]. by eapply moves_bind; [apply moves_update|intros _].
Qed.
Lemma moves_databases b one rows : (∀ r, moves b b b (one r)) → moves b b b (crawl_databases one rows).
Proof.
  intros Ho. induction rows as [|r rows IH]; [apply moves_ret|].
  eapply moves_bind; [apply Ho|intros [databases warnings]].
  eapply moves_bind; [apply IH|intros [databases' warnings']]. apply moves_ret.
Qed.
Lemma moves_filled b prefix name fill : moves b b b fill → moves b b b (filled prefix name fill).
Proof.
  intros Hf. eapply moves_bind.
  - eapply moves_try; [eapply moves_bind; [exact Hf|intros _; apply moves_ret]|intros e; apply moves_ret].
  - intros warnings. eapply moves_bind; [apply moves_get|intros s; apply moves_ret].
Qed.
End moves.

(* ------------------------------------------------------------------ *)
(** ** The queries *)

(** the queries of an engine, and those SQL Server makes with the quoted name of a database *)
Definition crawl_texts (cls : AdapterClass) : list string :=
  match cls with
  | SQLServerAdapter => [mssql_least_privilege_sql; mssql_crawl_properties_sql; mssql_crawl_configurations_sql;
                         mssql_crawl_databases_sql]
  | PostgreSQLAdapter => [pg_least_privilege_sql; pg_crawl_version_sql; pg_crawl_settings_sql; pg_crawl_databases_sql;
                          pg_crawl_size_sql; pg_crawl_tables_sql; pg_crawl_indexes_sql; pg_crawl_routines_sql;
                          pg_crawl_extensions_sql]
  | MySQLAdapter => [mysql_least_privilege_sql; mysql_crawl_version_sql; mysql_crawl_plugins_sql;
                     mysql_crawl_variables_sql; mysql_crawl_schemata_sql; mysql_crawl_size_sql;
                     mysql_crawl_tables_sql; mysql_crawl_indexes_sql; mysql_crawl_routines_sql]
  end.
Definition object_texts (cls : AdapterClass) (name : string) : list string :=
  match cls with
  | SQLServerAdapter => map (λ f, f (mssql_quote_ident name))
      [mssql_crawl_tables_sql; mssql_crawl_views_sql; mssql_crawl_indexes_sql; mssql_crawl_routines_sql]
  | _ => []
  end.
Definition crawl_event (cls : AdapterClass) (e : CrawlEvent) : Prop :=
  match e with
  | Opened c _ => c = cls
  | Asked sql _ => sql ∈ crawl_texts cls ∨ ∃ name, sql ∈ object_texts cls name
  | Closed => True
  end.

#[local] Ltac known := cbn; repeat (first [by left|right]).

Section crawls.
Context (py_repr : json → string) (int_of_text : string → option Z).
Context (invalid_text : db_row → string) (now : Z).
Context {D : Type} `{DatabaseDriver D}.
Context (str_of_container : pyval → string) (creds : DatabaseCredentials) (max_objects : Z).
Abbreviation moving cls := (moves (crawl_event cls)).

Lemma moves_open cls c : moving cls false true false (open_connection (D := D) str_of_container cls c).
Proof.
  intros s. unfold open_connection, mbind, M_bind, lift_res. destruct (engine_connect _ _ _) as [conn|e]; cbn.
  - exists [Opened cls (dc_database c)]. by repeat constructor.
  - exists []. by rewrite app_nil_r.
Qed.
Lemma moves_close cls (conn : Connection D) : moving cls true false false (close_connection conn).
Proof.
  intros s. exists [Closed]. unfold close_connection, mbind, M_bind, lift_res. cbn.
  split_and!; [done|by repeat constructor|by case_match].
Qed.
Lemma moves_ask cls (conn : Connection D) sql params :
  sql ∈ crawl_texts cls ∨ (∃ name, sql ∈ object_texts cls name) → moving cls true true true (crawl_fetch conn sql params).
Proof.
  intros Hs s. exists [Asked sql params]. unfold crawl_fetch, mbind, M_bind, lift_res. cbn.
  split_and!; [done|by apply Forall_singleton|by case_match].
Qed.

#[local] Ltac crawling :=
  repeat first
    [ progress intros
    | case_match
    | apply moves_lift | apply moves_ret | apply moves_update | apply moves_append
    | eapply moves_bind; [solve [apply moves_lift|apply moves_update|apply moves_append|apply moves_open
                                |apply moves_ask; left; known]|]
    | apply moves_ask; left; known ].

Lemma moves_check cls (conn : Connection D) :
  moving cls true true true (run_least_privilege_check py_repr creds cls conn).
Proof.
  eapply moves_try; [|intros e; apply moves_ret].
  eapply moves_bind; [apply moves_ask; left; destruct cls; by left|intros rows; apply moves_ret].
Qed.
Lemma moves_open_then {A} cls c ok (k : Connection D → M Crawl exn A) :
  (∀ conn, moving cls true ok false (k conn)) →
  moving cls false ok false (conn ← open_connection str_of_container cls c; k conn).
Proof. intros Hk. eapply moves_bind; [apply moves_open|exact Hk]. Qed.
Lemma moves_within {A} cls (conn : Connection D) (m : M Crawl exn A) :
  moving cls true true true m → moving cls true false false (try_finally m (close_connection conn)).
Proof. intros Hm. eapply moves_finally; [exact Hm|apply moves_close]. Qed.

Lemma pg_fill_moves name :
  moving PostgreSQLAdapter false false false
    (pg_fill_database int_of_text invalid_text str_of_container creds max_objects name).
Proof. apply moves_open_then. intros conn. apply moves_within. crawling. Qed.
Lemma pg_database_moves r :
  moving PostgreSQLAdapter false false false
    (pg_database int_of_text invalid_text str_of_container creds max_objects r).
Proof. unfold pg_database. crawling. apply moves_filled, pg_fill_moves. Qed.
Lemma pg_discover_moves server_id :
  moving PostgreSQLAdapter false false false
    (pg_discover py_repr int_of_text invalid_text now str_of_container creds max_objects server_id).
Proof.
  apply moves_open_then. intros conn. eapply moves_bind.
  - apply moves_within. crawling. eapply moves_bind; [apply moves_check|intros finding; apply moves_ret].
  - intros [[[version properties] db_rows] finding].
    eapply moves_bind; [apply moves_databases, pg_database_moves|intros []; apply moves_lift].
Qed.

Lemma mssql_objects_moves (conn : Connection D) name :
  moving SQLServerAdapter true true true (mssql_objects int_of_text invalid_text max_objects conn name).
Proof.
  unfold mssql_objects. repeat (eapply moves_bind; [apply moves_ask; right; exists name; known|intros ?]).
  apply moves_lift.
Qed.
Lemma mssql_database_moves (conn : Connection D) r :
  moving SQLServerAdapter true true true (mssql_database int_of_text invalid_text max_objects conn r).
Proof.
  unfold mssql_database. crawling. apply moves_filled. crawling.
  eapply moves_bind; [apply mssql_objects_moves|intros objects; apply moves_update].
Qed.
Lemma mssql_discover_moves server_id :
  moving SQLServerAdapter false false false
    (mssql_discover py_repr int_of_text invalid_text now str_of_container creds max_objects server_id).
Proof.
  apply moves_open_then. intros conn. apply moves_within. crawling.
  eapply moves_bind; [apply moves_databases, mssql_database_moves|intros []].
  eapply moves_bind; [apply moves_check|intros finding; apply moves_lift].
Qed.

Lemma mysql_database_moves (conn : Connection D) r :
  moving MySQLAdapter true true true (mysql_database int_of_text invalid_text max_objects conn r).
Proof. unfold mysql_database. crawling. apply moves_filled. unfold mysql_fill_database. crawling. Qed.
Lemma mysql_discover_moves server_id :
  moving MySQLAdapter false false false
    (mysql_discover py_repr int_of_text invalid_text now str_of_container creds max_objects server_id).
Proof.
  apply moves_open_then. intros conn. eapply moves_bind.
  - apply moves_try with (err := true).
    + crawling.
    + intros e. eapply moves_bind; [apply moves_close|intros _; apply moves_raise].
  - intros [[ver properties] schema_rows]. eapply moves_bind.
    + apply moves_within. eapply moves_bind; [apply moves_check|intros finding].
      eapply moves_bind; [apply moves_databases, mysql_database_moves|intros []; apply moves_ret].
    + intros [[finding databases] warnings]. apply moves_lift.
Qed.
Lemma discover_with_moves cls server_id :
  moving cls false false false
    (discover_with py_repr int_of_text invalid_text now str_of_container creds max_objects cls server_id).
Proof. destruct cls; [apply mssql_discover_moves|apply pg_discover_moves|apply mysql_discover_moves]. Qed.
End crawls.

(** *** The queries read *)

Lemma crawl_texts_read cls sql : sql ∈ crawl_texts cls → reading_text sql = true.
Proof.
  assert (forallb reading_text (crawl_texts cls) = true) as Hf by (destruct cls; vm_compute; reflexivity).
  intros Hs. rewrite List.forallb_forall in Hf. by apply Hf, list_elem_of_In.
Qed.
Lemma object_texts_read cls name sql : sql ∈ object_texts cls name → reading_text sql = true.
Proof.
  destruct cls; cbn; try by intros ?%elem_of_nil. intros Hs.
  repeat (apply elem_of_cons in Hs as [->|Hs]; [reflexivity|]). by apply elem_of_nil in Hs.
Qed.

(* ------------------------------------------------------------------ *)
(** ** The catalog *)

(** a database being filled keeps its name *)
Definition same_name (s s' : Crawl) : Prop := dd_name (cw_database s') = dd_name (cw_database s).
#[local] Instance same_name_preorder : PreOrder same_name.
Proof. split; unfold same_name; [done|congruence]. Qed.

Lemma same_name_update f : (∀ d, dd_name (f d) = dd_name d) → preserves same_name (update_database f).
Proof. intros Hf s. apply Hf. Qed.
Lemma same_name_append build rows : preserves same_name (append_objects build rows).
Proof.
  induction rows as [|r rows IH]; [by intros s|].
  apply preserves_bind; [apply _|by intros s|intros o].
  by apply preserves_bind; [apply _|by apply same_name_update|intros _].
Qed.
Lemma same_name_ask {D} `{DatabaseDriver D} (conn : Connection D) sql params : preserves same_name (crawl_fetch conn sql params).
Proof. by intros s. Qed.
Lemma same_name_finally {A} (m : M Crawl exn A) last :
  preserves same_name m → preserves same_name last → preserves same_name (try_finally m last).
Proof.
  intros Hm Hl s. specialize (Hm s). unfold try_finally. destruct (m s) as [r s1]. specialize (Hl s1).
  destruct (last s1) as [[u|e] s2]; cbn in *; by etrans.
Qed.

Lemma try_finally_ok {A} (m : M Crawl exn A) last s a s' :
  try_finally m last s = (Ok a, s') → ∃ s1, m s = (Ok a, s1).
Proof.
  unfold try_finally. destruct (m s) as [r s1]. destruct (last s1) as [[u|e] s2]; [|done].
  intros [= -> ->]. by exists s1.
Qed.
(** a handler that raises again *)
Lemma try_reraise_ok {A} (m : M Crawl exn A) h s a s' :
  try_except m h s = (Ok a, s') → (∀ e s1 a' s2, h e s1 ≠ (Ok a', s2)) → m s = (Ok a, s').
Proof. unfold try_except. destruct (m s) as [[b|e] s1]; [done|]. intros Hr Hh. by destruct (Hh _ _ _ _ Hr). Qed.
Lemma crawl_fetch_ok {D} `{DatabaseDriver D} (conn : Connection D) sql params s rows s' :
  crawl_fetch conn sql params s = (Ok rows, s') → (fetch_all conn sql params).2 = Ok rows.
Proof. unfold crawl_fetch, mbind, M_bind, lift_res. cbn. congruence. Qed.
Lemma lift_ok {S A} (r : res exn A) (s : S) a s' : lift_res r s = (Ok a, s') → r = Ok a ∧ s' = s.
Proof. unfold lift_res. by intros [= -> ->]. Qed.
Lemma validated_fields_ok {A} invalid_text fields (o : option A) a : validated_fields invalid_text fields o = Ok a → o = Some a.
Proof. unfold validated_fields. by destruct o; intros [= ->]. Qed.
Lemma cell_ok k r v : get_cell k r = Ok v → cell_or_none k r = v.
Proof. unfold get_cell, cell_or_none. destruct (dict_get k r); by intros [= ->]. Qed.

Lemma crawl_databases_names one rows names :
  (∀ r s dbs ws s', one r s = (Ok (dbs, ws), s') → map (λ d, Some (dd_name d)) dbs = names r) →
  ∀ s dbs ws s', crawl_databases one rows s = (Ok (dbs, ws), s') →
  map (λ d, Some (dd_name d)) dbs = rows ≫= names.
Proof.
  intros Ho. induction rows as [|r rows IH]; cbn; intros s dbs ws s' Hc; [by injection Hc as <- _ _|].
  apply M_bind_inv_ok in Hc as ([dbs1 ws1] & s1 & H1 & Hc).
  apply M_bind_inv_ok in Hc as ([dbs2 ws2] & s2 & H2 & Hc). injection Hc as <- _ _.
  rewrite map_app (Ho _ _ _ _ _ H1). f_equal. by eapply IH.
Qed.
Lemma filled_names prefix name fill s dbs ws s' : preserves same_name fill →
  filled prefix name fill s = (Ok (dbs, ws), s') →
  map (λ d, Some (dd_name d)) dbs = [Some (dd_name (cw_database s))].
Proof.
  intros Hf Hs. unfold filled in Hs. apply M_bind_inv_ok in Hs as (ws' & s1 & H1 & Hs).
  assert (same_name s s1) as Hn.
  { assert (preserves same_name (try_except (_ ← fill; mret []) (λ e, mret [prefix +:+ name +:+ ": " +:+ exn_text e]))) as Hp.
    { apply preserves_try; [apply _| |by intros e s2]. by apply preserves_bind; [apply _| |intros _ s2]. }
    specialize (Hp s). by rewrite H1 in Hp. }
  injection Hs as <- _ _. cbn. by rewrite Hn.
Qed.

(** the databases a listing names: the texts of the cells *)
Definition databases_sql (cls : AdapterClass) : string :=
  match cls with
  | SQLServerAdapter => mssql_crawl_databases_sql
  | PostgreSQLAdapter => pg_crawl_databases_sql
  | MySQLAdapter => mysql_crawl_schemata_sql
  end.
Definition listed_names (cls : AdapterClass) (r : db_row) : list (option string) :=
  match cls with
  | SQLServerAdapter => [required_str (cell_or_none "name" r)]
  | PostgreSQLAdapter => [required_str (cell_or_none "datname" r)]
  | MySQLAdapter => if system_schema (cell_or_none "name" r) then [] else [required_str (cell_or_none "name" r)]
  end.

Section cataloging.
Context (py_repr : json → string) (int_of_text : string → option Z).
Context (invalid_text : db_row → string) (now : Z).
Context {D : Type} `{DatabaseDriver D}.
Context (str_of_container : pyval → string) (creds : DatabaseCredentials) (max_objects : Z).

(** the finding of a connection: what the scan says, or that it did not run *)
Definition finding_of (cls : AdapterClass) (conn : Connection D) : LeastPrivilegeFinding :=
  match (fetch_all conn (least_privilege_sql cls) [("limit", JInt LEAST_PRIVILEGE_SCAN_LIMIT)]).2 with
  | Ok rows => build_least_privilege_finding py_repr rows (dc_username creds) (scope_note creds cls)
  | Err _ => unchecked_finding
  end.
Lemma check_finding cls conn s r s' :
  run_least_privilege_check py_repr creds cls conn s = (r, s') → r = Ok (finding_of cls conn).
Proof.
  unfold run_least_privilege_check, check_least_privilege, try_except, finding_of, crawl_fetch, mbind, M_bind, lift_res, event, modify.
  destruct (fetch_all _ _ _).2; intros Hr; by injection Hr as <- _.
Qed.
Lemma catalog_ok server_id version edition properties databases warnings finding c :
  server_catalog invalid_text now server_id version edition properties databases warnings finding = Ok c →
  sc_server_id c = server_id ∧ sc_databases c = databases ∧ sc_least_privilege c = Some finding ∧
  sc_discovered_at c = Some now ∧ sc_warnings c = warnings.
Proof.
  intros Hc%validated_fields_ok. destruct (required_str version); [|done]. destruct (required_str edition); [|done].
  by injection Hc as <-.
Qed.

Lemma pg_fill_same_name name :
  preserves same_name (pg_fill_database int_of_text invalid_text str_of_container creds max_objects name).
Proof.
  apply preserves_bind; [apply _|intros s; unfold open_connection, mbind, M_bind, lift_res; by case_match|].
  intros conn. apply same_name_finally; [|by intros s].
  repeat (apply preserves_bind; [apply _|first [apply same_name_ask|apply same_name_append|by intros s]|intros ?]).
  by intros s.
Qed.
Lemma mysql_fill_same_name conn schema :
  preserves same_name (mysql_fill_database int_of_text invalid_text max_objects conn schema).
Proof.
  unfold mysql_fill_database.
  repeat (apply preserves_bind; [apply _|first [apply same_name_ask|apply same_name_append|by intros s]|intros ?]).
  apply same_name_append.
Qed.
Lemma mssql_fill_same_name (conn : Connection D) state name : preserves same_name
  (if bool_decide (state = "online") then
     objects ← mssql_objects int_of_text invalid_text max_objects conn name;
     update_database (λ d, d <| dd_objects := objects |>)
   else mret tt).
Proof.
  case_match; [|by intros s]. apply preserves_bind; [apply _| |intros objects; by apply same_name_update].
  unfold mssql_objects. repeat (apply preserves_bind; [apply _|apply same_name_ask|intros ?]). by intros s.
Qed.

(** a row that becomes a database *)
Lemma database_row_names name fill prefix v db_name state size options r s dbs ws s' :
  preserves same_name fill → get_cell name r = Ok v → required_str v = Some db_name →
  (_ ← update_database (λ _, new_database db_name state size options);
   filled prefix db_name fill) s = (Ok (dbs, ws), s') →
  map (λ d, Some (dd_name d)) dbs = [required_str (cell_or_none name r)].
Proof.
  intros Hf Hc%cell_ok Hv Hr.
  apply M_bind_inv_ok in Hr as (u & s1 & Hu & Hr). apply filled_names in Hr; [|exact Hf].
  unfold update_database, modify in Hu. injection Hu as <- <-. by rewrite Hr Hc Hv.
Qed.
Lemma lift_bind {S A B} (r : res exn A) (k : A → M S exn B) (s : S) b s' :
  (a ← lift_res r; k a) s = (Ok b, s') → ∃ a, r = Ok a ∧ k a s = (Ok b, s').
Proof. intros (a & s1 & [-> ->]%lift_ok & Hk)%M_bind_inv_ok. by exists a. Qed.
Lemma pg_database_names r s dbs ws s' :
  pg_database int_of_text invalid_text str_of_container creds max_objects r s = (Ok (dbs, ws), s') →
  map (λ d, Some (dd_name d)) dbs = listed_names PostgreSQLAdapter r.
Proof.
  intros Hr. apply lift_bind in Hr as (name & Hn & Hr).
  apply lift_bind in Hr as (db_name & Hv%validated_fields_ok & Hr).
  eapply database_row_names; [apply pg_fill_same_name|exact Hn|exact Hv|exact Hr].
Qed.
Lemma mssql_database_names conn r s dbs ws s' :
  mssql_database int_of_text invalid_text max_objects conn r s = (Ok (dbs, ws), s') →
  map (λ d, Some (dd_name d)) dbs = listed_names SQLServerAdapter r.
Proof.
  intros Hr. apply lift_bind in Hr as (name & Hn & Hr). apply lift_bind in Hr as (state & _ & Hr).
  apply lift_bind in Hr as ([[db_name st] size] & Hv & Hr).
  apply validated_fields_ok, bind_Some in Hv as (n & Hname & Hv).
  apply bind_Some in Hv as (st' & _ & (z & _ & [= -> -> ->])%bind_Some).
  eapply database_row_names; [apply mssql_fill_same_name|exact Hn|exact Hname|exact Hr].
Qed.
Lemma mysql_database_names conn r s dbs ws s' :
  mysql_database int_of_text invalid_text max_objects conn r s = (Ok (dbs, ws), s') →
  map (λ d, Some (dd_name d)) dbs = listed_names MySQLAdapter r.
Proof.
  intros Hr. apply lift_bind in Hr as (name & Hn & Hr). unfold listed_names. rewrite (cell_ok _ _ _ Hn).
  destruct (system_schema name); [by injection Hr as <- _ _|].
  apply lift_bind in Hr as (db_name & Hv%validated_fields_ok & Hr).
  rewrite -(cell_ok _ _ _ Hn). eapply database_row_names; [apply mysql_fill_same_name|exact Hn|exact Hv|exact Hr].
Qed.

(** a crawl that succeeds on a connection *)
Definition crawl_result (cls : AdapterClass) (server_id : string) (c : RawCatalog) : Prop :=
  ∃ conn rows, engine_connect str_of_container cls creds = Ok conn ∧
    (fetch_all conn (databases_sql cls) []).2 = Ok rows ∧
    map (λ d, Some (dd_name d)) (sc_databases c) = rows ≫= listed_names cls ∧
    sc_server_id c = server_id ∧ sc_discovered_at c = Some now ∧
    sc_least_privilege c = Some (finding_of cls conn).
Lemma crawl_result_intro cls server_id c conn rows version edition properties databases warnings :
  engine_connect str_of_container cls creds = Ok conn →
  (fetch_all conn (databases_sql cls) []).2 = Ok rows →
  map (λ d, Some (dd_name d)) databases = rows ≫= listed_names cls →
  server_catalog invalid_text now server_id version edition properties databases warnings (finding_of cls conn) = Ok c →
  crawl_result cls server_id c.
Proof. intros Hc Hr Hd (E1 & E2 & E3 & E4 & _)%catalog_ok. exists conn, rows. by rewrite E2. Qed.
Lemma open_ok cls c s conn s' :
  open_connection str_of_container cls c s = (Ok conn, s') → engine_connect str_of_container cls c = Ok conn.
Proof. by intros (a & Ha & [= -> _])%lift_bind. Qed.

Lemma pg_discover_result server_id s c s' :
  pg_discover py_repr int_of_text invalid_text now str_of_container creds max_objects server_id s = (Ok c, s') →
  crawl_result PostgreSQLAdapter server_id c.
Proof.
  intros Hs. apply M_bind_inv_ok in Hs as (boot & s1 & Hb%open_ok & Hs).
  apply M_bind_inv_ok in Hs as ([[[version properties] db_rows] finding] & s2 & Hq & Hs).
  apply try_finally_ok in Hq as (s3 & Hq).
  do 2 (apply M_bind_inv_ok in Hq as (? & ? & ? & Hq)). do 2 (apply M_bind_inv_ok in Hq as (? & ? & ? & Hq)).
  apply M_bind_inv_ok in Hq as (rows & ? & Hr%crawl_fetch_ok & Hq).
  apply M_bind_inv_ok in Hq as (f & ? & Hf%check_finding & Hq). injection Hq as <- <- -> -> _. injection Hf as ->.
  apply M_bind_inv_ok in Hs as ([databases warnings] & ? & Hd & Hs). apply lift_ok in Hs as [Hs _].
  eapply crawl_result_intro; [exact Hb|exact Hr| |exact Hs].
  eapply crawl_databases_names; [|exact Hd]. apply pg_database_names.
Qed.
Lemma mssql_discover_result server_id s c s' :
  mssql_discover py_repr int_of_text invalid_text now str_of_container creds max_objects server_id s = (Ok c, s') →
  crawl_result SQLServerAdapter server_id c.
Proof.
  intros Hs. apply M_bind_inv_ok in Hs as (conn & s1 & Hb%open_ok & Hs). apply try_finally_ok in Hs as (s3 & Hs).
  do 4 (apply M_bind_inv_ok in Hs as (? & ? & ? & Hs)).
  apply M_bind_inv_ok in Hs as (rows & ? & Hr%crawl_fetch_ok & Hs).
  apply M_bind_inv_ok in Hs as ([databases warnings] & ? & Hd & Hs).
  apply M_bind_inv_ok in Hs as (f & ? & Hf%check_finding & Hs). injection Hf as ->. apply lift_ok in Hs as [Hs _].
  eapply crawl_result_intro; [exact Hb|exact Hr| |exact Hs].
  eapply crawl_databases_names; [|exact Hd]. apply mssql_database_names.
Qed.
Lemma mysql_discover_result server_id s c s' :
  mysql_discover py_repr int_of_text invalid_text now str_of_container creds max_objects server_id s = (Ok c, s') →
  crawl_result MySQLAdapter server_id c.
Proof.
  intros Hs. apply M_bind_inv_ok in Hs as (conn & s1 & Hb%open_ok & Hs).
  apply M_bind_inv_ok in Hs as ([[ver properties] rows] & s2 & Hq & Hs).
  assert ((fetch_all conn mysql_crawl_schemata_sql []).2 = Ok rows) as Hr.
  { apply try_reraise_ok in Hq.
    - do 6 (apply M_bind_inv_ok in Hq as (? & ? & ? & Hq)).
      apply M_bind_inv_ok in Hq as (rows' & ? & Hr%crawl_fetch_ok & Hq). by injection Hq as _ _ -> _.
    - intros e s3 a s4 (u & s5 & _ & [=])%M_bind_inv_ok. }
  apply M_bind_inv_ok in Hs as ([[finding databases] warnings] & s3 & Hd & Hs). apply lift_ok in Hs as [Hs _].
  apply try_finally_ok in Hd as (s4 & Hd).
  apply M_bind_inv_ok in Hd as (f & ? & Hf%check_finding & Hd). injection Hf as ->.
  apply M_bind_inv_ok in Hd as ([databases' warnings'] & ? & Hd & He). injection He as <- -> -> _.
  eapply crawl_result_intro; [exact Hb|exact Hr| |exact Hs].
  eapply crawl_databases_names; [|exact Hd]. apply mysql_database_names.
Qed.
End cataloging.

(* ------------------------------------------------------------------ *)
(** ** A discovery *)

Section discovery.
Context (py_repr : json → string) (int_of_text : string → option Z).
Context (invalid_text : db_row → string) (now : Z).
Context {D : Type} `{DatabaseDriver D}.
Context (str_of_container : pyval → string) (creds : DatabaseCredentials) (max_objects : Z).
Abbreviation discovery :=
  (run_discovery py_repr int_of_text invalid_text now str_of_container creds max_objects).

(** C31: a discovery, whatever the server answers and wherever it fails, opens its connections
    one at a time, asks only on the open one and closes every one it opened; all of them are
    of the engine of the platform; and it only asks queries that read: the constant catalog
    queries of the engine and, on SQL Server, four more that name one database, quoted. *)
Theorem discovery_sessions_are_closed_reads server_id platform s :
  ∃ new, cw_events (discovery server_id platform s).2 = cw_events s ++ new ∧
    sessions false new = Some false ∧
    Forall (λ e, ∃ cls, discoverer_for platform = Ok cls ∧ crawl_event cls e ∧
                 match e with Asked sql _ => reading_text sql = true | _ => True end) new.
Proof.
  unfold run_discovery, mbind, M_bind, lift_res.
  destruct (discoverer_for platform) as [cls|e]; [|exists []; by rewrite app_nil_r].
  pose proof (discover_with_moves py_repr int_of_text invalid_text now str_of_container creds max_objects
    cls server_id s) as (new & En & Fn & Sn).
  exists new. unfold try_except.
  split_and!; [by destruct (discover_with _ _ _ _ _ _ _ _ _ s) as [[] ?]
              |by destruct (discover_with _ _ _ _ _ _ _ _ _ s) as [[] ?]|].
  eapply Forall_impl; [exact Fn|]. intros e He. exists cls. split_and!; [done..|].
  destruct e as [| sql params |]; [done| |done].
  destruct He as [Hs|[name Hs]]; [by eapply crawl_texts_read|by eapply object_texts_read].
Qed.

(** The catalog of a discovery.  On a supported platform it never fails: it gives either
    the empty catalog with a warning, or a catalog of this server in which every database the
    server lists is there, in the order and under the name it is listed with (less the system
    schemas of MySQL), whatever could not be read of it, and whose least-privilege finding is
    what the scan of the connection says: unchecked when the scan failed, and otherwise the
    login, the number of readable objects and whether that number is only a bound. *)
Theorem discovery_catalogs_what_is_listed server_id platform cls s :
  discoverer_for platform = Ok cls →
  ∃ c, (discovery server_id platform s).1 = Ok c ∧
    (c = unreachable_catalog server_id ∨
     crawl_result py_repr now str_of_container creds cls server_id c) ∧
    (∀ e, engine_connect (D := D) str_of_container cls creds = Err e → c = unreachable_catalog server_id).
Proof.
  intros Hp. unfold run_discovery, mbind, M_bind, lift_res, try_except. rewrite Hp.
  assert (∀ c s', discover_with py_repr int_of_text invalid_text now str_of_container creds max_objects cls
    server_id s = (Ok c, s') → crawl_result py_repr now str_of_container creds cls server_id c) as Hr.
  { destruct cls; cbn; [apply mssql_discover_result|apply pg_discover_result|apply mysql_discover_result]. }
  destruct (discover_with _ _ _ _ _ _ _ _ _ s) as [[c|e] s'].
  - specialize (Hr c s' eq_refl). exists c. split_and!; [done|by right|].
    intros e He. destruct Hr as (conn & rows & Hc & _). congruence.
  - exists (unreachable_catalog server_id). split_and!; [done|by left|done].
Qed.

Definition unreachable (server_id : string) : ServerCatalog :=
  {| sc_server_id := server_id; sc_discovered_at := None; sc_engine_version := ""; sc_engine_edition := "";
     sc_instance_properties := []; sc_databases := [];
     sc_warnings := ["Could not connect to the server. See server-side logs for detail."];
     sc_least_privilege := None |}.
(** a server that cannot be reached is crawled to the empty catalog, and the Gateway stores
    it: what was known of the server is gone, and the refresh counts as a success *)
Theorem unreachable_server_loses_its_catalog {C} `{CatalogStoreLaws C} entries id server cls e s cw :
  registry_by_id entries id = Some server → discoverer_for (se_platform server) = Ok cls →
  engine_connect (D := D) str_of_container cls creds = Err e →
  let discover sid platform (_ : Z) := carried catalog_json (discovery sid platform cw).1 in
  let '(answer, s') := refresh_server (C := C) discover max_objects entries id s in
  answer = Ok (unreachable (se_id server)) ∧
  (store_get (se_id server) s').1 = Some (unreachable (se_id server)) ∧
  (refresh_one discover max_objects entries id s).1 = Ok "ok (0 databases)".
Proof.
  intros Hr Hp He. cbn zeta. unfold refresh_one, refresh_server. rewrite Hr. unfold mbind, M_bind, lift_res.
  destruct (discovery_catalogs_what_is_listed (se_id server) (se_platform server) cls cw Hp) as (c & Hc & _ & Hu).
  specialize (Hu e He). subst c. rewrite Hc. cbn.
  rewrite get_put. by rewrite decide_True.
Qed.
End discovery.

(* ------------------------------------------------------------------ *)
(** ** A concrete crawl *)

(** a MySQL server with a system schema, an application schema and one table *)
Definition answer_of (sql : string) : list db_row :=
  if bool_decide (sql = mysql_crawl_version_sql) then
    [[("version", text "8.4.0"); ("edition", text "MySQL Community Server")]]
  else if bool_decide (sql = mysql_crawl_schemata_sql) then
    [[("name", text "mysql"); ("charset", text "utf8mb4")]; [("name", text "orders"); ("charset", text "utf8mb4")]]
  else if bool_decide (sql = mysql_crawl_size_sql) then [[("size_bytes", decimal 16384)]]
  else if bool_decide (sql = mysql_crawl_tables_sql) then
    [[("name", text "invoice"); ("table_type", text "BASE TABLE"); ("row_estimate", Plain (JInt 12));
      ("size_bytes", text "many")]]
  else [].
#[local] Instance answering_driver : DatabaseDriver unit := {|
  driver_connect _ _ := Ok tt; driver_close _ := Ok tt;
  cursor_execute _ sql _ := (1%Z, Ok {|
    cr_rowcount := 0; cr_description := None; cr_fetchall := Ok [];
    cr_fetchall_dicts := Ok (answer_of sql); cr_fetchone := Ok None |}) |}.
Definition example_login : DatabaseCredentials := {|
  dc_host := "h"; dc_port := 3306; dc_username := "numi"; dc_password := "p"; dc_database := "mysql";
  dc_options := [] |}.
Definition example_crawl : Crawl := {| cw_events := []; cw_database := new_database "" "" None [] |}.
Lemma discovery_catalogs_what_is_listed_witness :
  let c := (run_discovery (λ _, "") (λ _, None) (λ _, "bad size") 0 (λ _, "") example_login 100
              "mysql-1" MARIADB example_crawl).1 in
  map (λ d, (dd_name d, dd_size_bytes d)) ∘ sc_databases <$> c = Ok [("orders", Some 16384%Z)] ∧
  sc_warnings <$> c = Ok ["could not read objects in orders: bad size"] ∧
  ∃ cat, c = Ok cat ∧
    (cat = unreachable_catalog "mysql-1" ∨ crawl_result (λ _, "") 0 (λ _, "") example_login MySQLAdapter "mysql-1" cat) ∧
    (∀ e, engine_connect (D := unit) (λ _, "") MySQLAdapter example_login = Err e → cat = unreachable_catalog "mysql-1").
Proof.
  split; [vm_compute; reflexivity|]. split; [vm_compute; reflexivity|].
  apply (discovery_catalogs_what_is_listed (λ _, "") (λ _, None) (λ _, "bad size") 0 (λ _, "") example_login 100
    "mysql-1" MARIADB MySQLAdapter example_crawl). reflexivity.
Defined.
