(* ===== verification/Gemini.v ===== *)
(** The Gemini provider: [agent/llm/gemini_provider.py], the flattening of a schema to the
    subset Gemini reads, the versions it offers, and the walk over its models when one does
    not answer.  Time is a rational number of seconds; a call of the SDK is a parameter. *)
From S2P Require Import Prelude ProgramLogic Json Text Models ToolCatalog Servers Policy DataPolicy Fallback Conversation.
From Stdlib Require Import QArith Qminmax Lqa.

#[local] Open Scope Q_scope.

Definition MIN_MAJOR_VERSION : Z := 3.
Definition GEMINI_DEFAULT_MODEL : string := "gemini-3.6-flash".
Definition GEMINI_KNOWN_MODELS : list string :=
  ["gemini-3.6-flash"; "gemini-3.7-flash"; "gemini-3.8-flash"; "gemini-3.5-flash"].
Definition MODEL_FALLBACK_CHAIN : list string :=
  ["gemini-3.6-flash"; "gemini-3.7-flash"; "gemini-3.8-flash"; "gemini-3.5-flash"; "gemini-3.1-flash-lite";
   "gemini-3.1-pro-preview"; "gemini-3-flash-preview"].

(* ------------------------------------------------------------------ *)
(** ** The patterns *)

(** the first position where [at_] gives something *)
Fixpoint search_text {A} (at_ : string → option A) (s : string) : option A :=
  match at_ s, s with
  | Some a, _ => Some a
  | None, String _ s' => search_text at_ s'
  | None, EmptyString => None
  end.
(** a run of digits: its value, the number of digits, and the text after it *)
Fixpoint digit_value_run (acc : Z) (n : nat) (s : string) : Z * nat * string :=
  match s with
  | String c s' => if is_digit c then digit_value_run (acc * 10 + Z.of_N (Ascii.N_of_ascii c - 48)) (S n) s'
                   else (acc, n, s)
  | EmptyString => (acc, n, s)
  end.
Definition digits1 (s : string) : option (Z * nat * string) :=
  match digit_value_run 0 0 s with (_, O, _) => None | r => Some r end.

(** [gemini-(\d+)] *)
Definition version_at (s : string) : option Z :=
  rest ← after_prefix "gemini-" s; '(n, _, _) ← digits1 rest; Some n.
Definition meets_min_version (model_name : string) : bool :=
  match search_text version_at model_name with
  | None => false
  | Some major => (MIN_MAJOR_VERSION <=? major)%Z
  end.

(** an optional and a required quote *)
Definition is_quote (c : ascii) : bool := bool_decide (c = "'"%char) || bool_decide (c = dquote).
Definition quote_at (s : string) : option string :=
  match s with String c s => if is_quote c then Some s else None | EmptyString => None end.
(** [retryDelay['\"]?\s*:\s*['\"](\d+(?:\.\d+)?)s] *)
Definition retry_delay_at (s : string) : option Q :=
  rest ← after_prefix "retryDelay" s;
  let rest := default rest (quote_at rest) in
  rest ← after_prefix ":" (str_lstrip rest);
  rest ← quote_at (str_lstrip rest);
  '(whole, _, rest) ← digits1 rest;
  match after_prefix "." rest ≫= digits1 with
  | Some (frac, places, rest') =>
      _ ← after_prefix "s" rest'; Some (inject_Z whole + inject_Z frac / inject_Z (10 ^ Z.of_nat places))
  | None => _ ← after_prefix "s" rest; Some (inject_Z whole)
  end.

Example retry_delay_ex :
  search_text retry_delay_at ("503 {'error': {'retryDelay': '24.8s'}}") = Some (24 + 8 / 10) ∧
  search_text retry_delay_at "retryDelay: 24s" = None.
Proof. split; reflexivity. Qed.

(** [_is_model_unavailable_error] *)
Definition is_model_unavailable_error (e : exn) : bool :=
  match e with
  | PyError "TimeoutError" _ => true
  | _ =>
      let text := exn_text e in
      str_contains "RESOURCE_EXHAUSTED" text || str_contains "429" text
      || str_contains "quota" (str_lower text) || str_contains "UNAVAILABLE" text
      || str_contains "503" text || str_contains "high demand" (str_lower text)
  end.

Definition DEFAULT_COOLDOWN_SECONDS : Q := 60.
Definition MAX_COOLDOWN_SECONDS : Q := 120.
Definition cooldown_seconds (e : exn) : Q :=
  match search_text retry_delay_at (exn_text e) with
  | Some delay => Qmin delay MAX_COOLDOWN_SECONDS
  | None => DEFAULT_COOLDOWN_SECONDS
  end.

(* ------------------------------------------------------------------ *)
(** ** [_clean_schema] *)

Definition ALLOWED_KEYS : list string := ["type"; "properties"; "required"; "enum"; "items"; "nullable"].

(** the type of a variant is null; a variant is an object *)
Definition null_variant (v : list (string * json)) : bool := bool_decide (dict_get "type" v = Some (JStr "null")).
Definition object_of_json (v : json) : res exn (list (string * json)) :=
  match v with JObj o => Ok o | _ => Err (PyError "AttributeError" "get") end.
Definition merged {V} (d v : list (string * V)) : list (string * V) := foldl (λ d '(k, x), dict_set k x d) d v.
(** the optional field: the one variant that is not null, with its nullability *)
Definition flatten_any_of (schema : list (string * json)) : res exn (list (string * json)) :=
  match dict_get "anyOf" schema with
  | None => Ok schema
  | Some (JArr variants) =>
      variants ← mapM object_of_json variants;
      match List.filter (λ v, negb (null_variant v)) variants with
      | [v] =>
          let schema := dict_pop "anyOf" (merged schema v) in
          Ok (if existsb null_variant variants then dict_set "nullable" (JBool true) schema else schema)
      | _ => Ok schema
      end
  | Some (JStr "") | Some (JObj []) => Ok schema
  | Some (JStr _) | Some (JObj _) => Err (PyError "AttributeError" "get")
  | Some _ => Err (PyError "TypeError" "not iterable")
  end.

Section clean.
(** the cleaning of a nested schema *)
Context (clean : list (string * json) → res exn (list (string * json))).
(** [_clean_schema(pv) if isinstance(pv, dict) else pv] *)
Definition clean_nested (v : json) : res exn json :=
  match v with JObj o => JObj <$> clean o | _ => Ok v end.
Definition clean_entry (kv : string * json) : res exn (string * json) :=
  let '(k, v) := kv in
  if bool_decide (k = "properties") then
    match v with
    | JObj fields => fields ← mapM (λ '(pk, pv), pv ← clean_nested pv; Ok (pk, pv)) fields; Ok (k, JObj fields)
    | _ => Ok kv
    end
  else if bool_decide (k = "items") then v ← clean_nested v; Ok (k, v)
  else Ok kv.
Definition clean_step (schema : list (string * json)) : res exn (list (string * json)) :=
  schema ← flatten_any_of schema;
  mapM clean_entry (List.filter (λ kv, mem kv.1 ALLOWED_KEYS) schema).
End clean.
(** [fuel] is the recursion Python allows *)
Fixpoint clean_schema (fuel : nat) : list (string * json) → res exn (list (string * json)) :=
  match fuel with
  | O => λ _, Err (PyError "RecursionError" "maximum recursion depth exceeded")
  | S fuel => clean_step (clean_schema fuel)
  end.

(* ------------------------------------------------------------------ *)
(** ** The provider *)

Record GeminiLLMProvider : Type := {
  gm_model : string;
  gm_unavailable_until : list (string * Q);
  gm_now : Q;
  (** the models asked so far *)
  gm_asked : list string
}.
#[export] Instance GeminiLLMProvider_rebuild : Rebuild GeminiLLMProvider := λ g, {|
  gm_model := gm_model g; gm_unavailable_until := gm_unavailable_until g; gm_now := gm_now g;
  gm_asked := gm_asked g |}.
Definition REQUEST_TIMEOUT_SECONDS : Q := 8.
Definition MAX_FALLBACK_SWITCHES : nat := 2.

(** [_next_fallback_model] *)
Definition off_cooldown (g : GeminiLLMProvider) (candidate : string) : bool :=
  negb (bool_decide (candidate = gm_model g))
  && Qle_bool (default 0 (dict_get candidate (gm_unavailable_until g))) (gm_now g).
Definition next_fallback_model (g : GeminiLLMProvider) : option string :=
  first_where (off_cooldown g) MODEL_FALLBACK_CHAIN.

Section calls.
Context {A : Type}.
(** the request to a model, sent after some others: how long it takes and what it gives *)
Context (call : string → nat → Q * res exn A).

(** one call under [asyncio.wait_for] *)
Definition timed_request : M GeminiLLMProvider exn A := λ g,
  let '(took, answer) := call (gm_model g) (length (gm_asked g)) in
  let g := g <| gm_asked ::= λ l, l ++ [gm_model g] |> in
  if Qle_bool took REQUEST_TIMEOUT_SECONDS then (answer, g <| gm_now ::= λ t, t + took |>)
  else (Err (PyError "TimeoutError" ""), g <| gm_now ::= λ t, t + REQUEST_TIMEOUT_SECONDS |>).
Definition mark_unavailable (e : exn) : M GeminiLLMProvider exn unit :=
  modify (λ g, g <| gm_unavailable_until ::= dict_set (gm_model g) (gm_now g + cooldown_seconds e) |>).
(** [_with_model_fallback], with the switches left *)
Fixpoint with_model_fallback_go (switches_left : nat) : M GeminiLLMProvider exn A :=
  try_except timed_request (λ e,
    if negb (is_model_unavailable_error e) then raise e
    else
      _ ← mark_unavailable e;
      match switches_left with
      | O => raise e
      | S switches_left =>
          g ← get_state;
          match next_fallback_model g with
          | None => raise e
          | Some next_model =>
              _ ← modify (λ g, g <| gm_model := next_model |>);
              with_model_fallback_go switches_left
          end
      end).
Definition with_model_fallback : M GeminiLLMProvider exn A := with_model_fallback_go MAX_FALLBACK_SWITCHES.
End calls.

(** *** The models a key can use *)

(** a model of the vendor's list: its name, and its supported actions or none *)
Record ListedModel : Type := { lm_name : option string; lm_actions : option (list string) }.
Definition usable_model (m : ListedModel) : list string :=
  let actions := default [] (lm_actions m) in
  if mem "generateContent" actions || Nat.eqb (length actions) 0 then
    let name := default "" (lm_name m) in
    let name := default name (after_prefix "models/" name) in
    if starts_with "gemini" name && meets_min_version name then [name] else []
  else [].
Definition gemini_list_models (listing : res exn (list ListedModel)) : list string :=
  match listing with
  | Ok models => match sorted_set (models ≫= usable_model) with
                 | [] => GEMINI_KNOWN_MODELS
                 | l => l
                 end
  | Err _ => GEMINI_KNOWN_MODELS
  end.

(* ------------------------------------------------------------------ *)
(** ** Schemas *)

Lemma mapM_ok_elem {E A B} (f : A → res E B) l l' : mapM f l = Ok l' → Forall2 (λ x y, f x = Ok y) l l'.
Proof.
  revert l'. induction l as [|x l IH]; cbn; intros l'; [intros [= <-]; constructor|].
  destruct (f x) as [y|] eqn:Ef; [|done]. cbn. destruct (mapM f l) as [m|]; [|done]. cbn. intros [= <-].
  constructor; [done|by apply IH].
Qed.
Lemma mapM_ok_intro {E A B} (f : A → res E B) l l' : Forall2 (λ x y, f x = Ok y) l l' → mapM f l = Ok l'.
Proof. induction 1 as [|x y l l' Hx _ IH]; [done|]. cbn. by rewrite Hx /= IH. Qed.
Lemma Forall2_right {A B} (P : B → Prop) (R : A → B → Prop) l l' :
  Forall2 R l l' → (∀ x y, x ∈ l → R x y → P y) → Forall P l'.
Proof.
  induction 1 as [|x y l l' Hx _ IH]; intros Hp; constructor; [by apply (Hp x); [left|]|].
  apply IH. intros. apply (Hp x0); [by right|done].
Qed.

(** a schema in the subset: at every level only the keys Gemini reads *)
Inductive gemini_schema : list (string * json) → Prop :=
| GeminiSchema d :
    (∀ k v, (k, v) ∈ d → k ∈ ALLOWED_KEYS) →
    (∀ fields pk f, ("properties", JObj fields) ∈ d → (pk, JObj f) ∈ fields → gemini_schema f) →
    (∀ f, ("items", JObj f) ∈ d → gemini_schema f) →
    gemini_schema d.

Section cleaned.
Context (clean : list (string * json) → res exn (list (string * json))).
Lemma clean_entry_key kv kv' : clean_entry clean kv = Ok kv' → kv'.1 = kv.1.
Proof.
  destruct kv as [k v]. cbn. repeat case_match; intros; simplify_eq/=; try done.
  - destruct (mapM _ _); by simplify_eq/=.
  - destruct (clean_nested _ _); by simplify_eq/=.
Qed.
Lemma clean_entry_other k v kv' : k ≠ "properties" → k ≠ "items" → clean_entry clean (k, v) = Ok kv' → kv' = (k, v).
Proof. intros H1 H2. cbn. rewrite !bool_decide_false //. by intros [= <-]. Qed.
Lemma clean_entry_properties v kv : clean_entry clean ("properties", v) = Ok kv →
  (∃ fields fs, v = JObj fields ∧ kv = ("properties", JObj fs) ∧
     Forall2 (λ x y : string * json, x.1 = y.1 ∧ clean_nested clean x.2 = Ok y.2) fields fs) ∨
  ((∀ fields, v ≠ JObj fields) ∧ kv = ("properties", v)).
Proof.
  destruct v; try (intros [= <-]; right; by split).
  unfold clean_entry. rewrite bool_decide_true //. destruct (mapM _ l) as [fs|] eqn:Em; [|done].
  intros [= <-]. left. exists l, fs. split_and!; [done..|]. apply mapM_ok_elem in Em.
  eapply Forall2_impl; [exact Em|]. intros [a x] [b y]. destruct (clean_nested clean x) as [z|] eqn:Ez; [|done].
  by intros [= <- <-].
Qed.
Lemma clean_entry_items v kv : clean_entry clean ("items", v) = Ok kv →
  ∃ w, kv = ("items", w) ∧ clean_nested clean v = Ok w.
Proof.
  unfold clean_entry. rewrite bool_decide_false // bool_decide_true //.
  destruct (clean_nested clean v) as [w|]; [|done]. intros [= <-]. by exists w.
Qed.
Lemma clean_nested_ok (P : list (string * json) → Prop) v w :
  (∀ d o, clean d = Ok o → P o) → clean_nested clean v = Ok w → ∀ f, w = JObj f → P f.
Proof.
  intros Hc. destruct v; cbn; try (intros [= <-]; done). destruct (clean l) as [o|] eqn:Eo; [|done].
  intros [= <-] f [= <-]. by eapply Hc.
Qed.
Lemma clean_step_subset d o :
  (∀ d o, clean d = Ok o → gemini_schema o) → clean_step clean d = Ok o → gemini_schema o.
Proof.
  intros Hc. unfold clean_step. destruct (flatten_any_of d) as [d'|]; [|done]. cbn. intros Hm%mapM_ok_elem.
  assert (Forall (λ kv : string * json, kv.1 ∈ ALLOWED_KEYS ∧
    (∀ fields pk f, kv = ("properties", JObj fields) → (pk, JObj f) ∈ fields → gemini_schema f) ∧
    (∀ f, kv = ("items", JObj f) → gemini_schema f)) o) as Ho.
  { eapply Forall2_right; [exact Hm|]. intros [k v] [k' w] Hin He. pose proof (clean_entry_key _ _ He) as Hk.
    cbn in Hk. subst k'. apply list_elem_of_In, filter_In in Hin as [_ Hk]. cbn in Hk.
    unfold mem in Hk. apply bool_decide_eq_true in Hk. cbn in He |- *.
    split_and!; [done| |].
    - intros fields pk f [= -> ->] Hf. apply clean_entry_properties in He as [(gs & fs & -> & [= ->] & Em)|[Hn [= <-]]];
        [|by destruct (Hn fields)].
      eapply (Forall2_right (λ pf : string * json, ∀ g, pf.2 = JObj g → gemini_schema g)) in Em.
      + rewrite Forall_forall in Em. by apply (Em (pk, JObj f)).
      + intros [a x] [b y] _ [_ Hx] g. cbn in Hx |- *. by apply (clean_nested_ok gemini_schema x y).
    - intros f [= -> ->]. apply clean_entry_items in He as (w & [= <-] & Hw). by eapply (clean_nested_ok gemini_schema). }
  rewrite Forall_forall in Ho. constructor.
  - intros k v Hin. by destruct (Ho _ Hin).
  - intros fields pk f Hin. destruct (Ho _ Hin) as (_ & Hp & _). by eapply Hp.
  - intros f Hin. destruct (Ho _ Hin) as (_ & _ & Hi). by eapply Hi.
Qed.
End cleaned.
Lemma clean_schema_subset fuel d o : clean_schema fuel d = Ok o → gemini_schema o.
Proof. revert d o. induction fuel as [|fuel IH]; intros d o; [done|]. apply clean_step_subset, IH. Qed.

(** cleaning a clean schema changes nothing *)
Lemma flatten_clean d : (∀ k v, (k, v) ∈ d → k ∈ ALLOWED_KEYS) → flatten_any_of d = Ok d.
Proof.
  intros Hk. unfold flatten_any_of. destruct (dict_get "anyOf" d) as [v|] eqn:Ea; [|done].
  apply dict_get_elem, Hk in Ea. by apply (bool_decide_eq_false_1 ("anyOf" ∈ ALLOWED_KEYS)) in Ea.
Qed.
Lemma filter_all {A} (f : A → bool) l : Forall (λ x, f x = true) l → List.filter f l = l.
Proof. induction 1 as [|x l Hx _ IH]; [done|]. cbn. by rewrite Hx IH. Qed.
Lemma clean_schema_idempotent fuel d o : clean_schema fuel d = Ok o → clean_schema fuel o = Ok o.
Proof.
  revert d o. induction fuel as [|fuel IH]; intros d o Hd; [done|].
  pose proof (clean_schema_subset (S fuel) _ _ Hd) as Hs. inversion Hs as [? Hk _ _]; subst.
  cbn [clean_schema] in Hd |- *. unfold clean_step. rewrite flatten_clean //. cbn.
  assert (List.filter (λ kv : string * json, mem kv.1 ALLOWED_KEYS) o = o) as ->.
  { apply filter_all, Forall_forall. intros [k v] Hin. unfold mem. cbn. by eapply bool_decide_eq_true, Hk. }
  unfold clean_step in Hd. destruct (flatten_any_of d) as [d'|]; [|done]. cbn in Hd. apply mapM_ok_elem in Hd.
  assert (∀ v w, clean_nested (clean_schema fuel) v = Ok w → clean_nested (clean_schema fuel) w = Ok w) as Hn.
  { intros v w. destruct v; cbn; try by intros [= <-]. destruct (clean_schema fuel l) as [m|] eqn:El; [|done].
    intros [= <-]. cbn. by rewrite (IH _ _ El). }
  apply mapM_ok_intro. clear Hs Hk.
  induction Hd as [|[k v] [k' w] l l' He _ IHl]; constructor; [clear IHl|exact IHl].
  pose proof (clean_entry_key _ _ _ He) as Hkk. cbn in Hkk. subst k'.
  destruct (decide (k = "properties")) as [->|Hp].
  - apply clean_entry_properties in He as [(gs & fs & -> & [= ->] & Em)|[Hnv [= ->]]].
    + unfold clean_entry. rewrite bool_decide_true //.
      assert (mapM (λ '(pk, pv), pv ← clean_nested (clean_schema fuel) pv; Ok (pk, pv)) fs = Ok fs) as ->; [|done].
      apply mapM_ok_intro. clear -Em Hn. induction Em as [|[a x] [b y] l l' [_ Hx] _ IHl]; constructor; [|exact IHl].
      cbn in Hx. by rewrite (Hn _ _ Hx).
    + destruct v; try reflexivity. by destruct (Hnv l0).
  - destruct (decide (k = "items")) as [->|Hi].
    + apply clean_entry_items in He as (z & [= ->] & Hz). unfold clean_entry.
      rewrite bool_decide_false // bool_decide_true //. by rewrite (Hn _ _ Hz).
    + unfold clean_entry. by rewrite !bool_decide_false.
Qed.

(** the nesting of a schema, which bounds the recursion *)
Fixpoint json_depth (v : json) : nat :=
  match v with
  | JArr l => S (foldr (λ x n, Nat.max (json_depth x) n) O l)
  | JObj l => S (foldr (λ kv n, Nat.max (json_depth kv.2) n) O l)
  | _ => O
  end.
Definition dict_depth (d : list (string * json)) : nat := foldr (λ kv n, Nat.max (json_depth kv.2) n) O d.
Definition shallow (n : nat) (d : list (string * json)) : Prop := Forall (λ kv, (json_depth kv.2 <= n)%nat) d.
Lemma dict_depth_shallow n d : (dict_depth d <= n)%nat ↔ shallow n d.
Proof.
  unfold shallow. induction d as [|kv d IH]; [split; [constructor|cbn; lia]|].
  change (dict_depth (kv :: d)) with (Nat.max (json_depth kv.2) (dict_depth d)). rewrite Forall_cons -IH. lia.
Qed.
Definition arr_max (l : list json) : nat := foldr (λ x n, Nat.max (json_depth x) n) O l.
Lemma arr_depth l x n : x ∈ l → (json_depth (JArr l) <= n)%nat → (json_depth x < n)%nat.
Proof.
  change (json_depth (JArr l)) with (S (arr_max l)). intros Hx Hn.
  assert (json_depth x <= arr_max l)%nat; [|lia]. clear Hn. induction Hx as [x l|x y l _ IH];
    [change (arr_max (x :: l)) with (Nat.max (json_depth x) (arr_max l))
    |change (arr_max (y :: l)) with (Nat.max (json_depth y) (arr_max l))]; lia.
Qed.
Lemma shallow_set n k v d : (json_depth v <= n)%nat → shallow n d → shallow n (dict_set k v d).
Proof.
  intros Hv. induction 1 as [|[k' v'] d Hd Hf IH]; cbn; [by repeat constructor|].
  destruct (decide (k = k')); by constructor.
Qed.
Lemma shallow_merged n d v : shallow n d → shallow n v → shallow n (merged d v).
Proof.
  intros Hd Hv. revert d Hd. induction Hv as [|[k x] v Hx _ IH]; intros d Hd; [exact Hd|].
  apply (IH (dict_set k x d)). by apply shallow_set.
Qed.
Lemma shallow_filter n f d : shallow n d → shallow n (List.filter f d).
Proof. induction 1 as [|kv d Hd Hf IH]; cbn; [constructor|]. by destruct (f kv); [constructor|]. Qed.
Lemma flatten_shallow n d d' : shallow n d → flatten_any_of d = Ok d' → shallow n d'.
Proof.
  intros Hd. unfold flatten_any_of. destruct (dict_get "anyOf" d) as [v|] eqn:Ea; [|by intros [= <-]].
  apply dict_get_elem in Ea. unfold shallow in Hd. pose proof (proj1 (Forall_forall _ _) Hd _ Ea) as Hv. cbn [snd] in Hv.
  destruct v as [| | |[]|l|[]]; try (by intros [= <-]); try done.
  destruct (mapM object_of_json l) as [vs|] eqn:Em; [|done]. cbn [mbind res_bind].
  apply mapM_ok_elem in Em. destruct (List.filter _ vs) as [|w [|w' ws]] eqn:Ef; try by intros [= <-].
  assert (shallow n w) as Hw.
  { assert (In w (List.filter (λ v, negb (null_variant v)) vs)) as Hin by (rewrite Ef; by left).
    apply filter_In in Hin as [Hin _]. clear -Em Hin Hv. induction Em as [|x y l l' Hx _ IH]; [done|].
    destruct Hin as [->|Hin].
    - destruct x; try done. injection Hx as ->. pose proof (arr_depth _ (JObj w) _ ltac:(by left) Hv) as Hlt.
      apply dict_depth_shallow. change (json_depth (JObj w)) with (S (dict_depth w)) in Hlt. lia.
    - apply IH; [|exact Hin]. change (json_depth (JArr (x :: l))) with (S (Nat.max (json_depth x) (arr_max l))) in Hv.
      change (json_depth (JArr l)) with (S (arr_max l)). lia. }
  assert (shallow n (dict_pop "anyOf" (merged d w))) as Hm by by apply shallow_filter, shallow_merged.
  destruct (existsb null_variant vs); intros [= <-]; [|exact Hm]. by apply shallow_set; [cbn; lia|].
Qed.
Definition too_deep : exn := PyError "RecursionError" "maximum recursion depth exceeded".
Lemma mapM_not_deep {A B} (f : A → res exn B) l :
  Forall (λ x, f x ≠ Err too_deep) l → mapM f l ≠ Err too_deep.
Proof.
  induction 1 as [|x l Hx _ IH]; [done|]. cbn. destruct (f x) as [y|e]; cbn; [|congruence].
  destruct (mapM f l) as [m|e]; cbn; [done|congruence].
Qed.
Lemma flatten_not_deep d : flatten_any_of d ≠ Err too_deep.
Proof.
  unfold flatten_any_of. destruct (dict_get "anyOf" d) as [[| | |[]|l|[]]|]; try done.
  assert (mapM object_of_json l ≠ Err too_deep) as Hm.
  { apply mapM_not_deep, Forall_forall. intros [] _; done. }
  destruct (mapM object_of_json l) as [vs|e]; cbn [mbind res_bind]; [|congruence].
  by destruct (List.filter _ vs) as [|w [|w' ws]].
Qed.
Lemma nested_not_deep clean n v : (∀ d, (dict_depth d < n)%nat → clean d ≠ Err too_deep) →
  (json_depth v <= n)%nat → clean_nested clean v ≠ Err too_deep.
Proof.
  intros Hc Hv. destruct v; try done. unfold clean_nested. assert (clean l ≠ Err too_deep) as Hl.
  { apply Hc. change (json_depth (JObj l)) with (S (dict_depth l)) in Hv. lia. }
  destruct (clean l); [done|]. cbn. congruence.
Qed.
Lemma fmap_not_deep {A B} (f : A → B) (r : res exn A) : r ≠ Err too_deep → (a ← r; Ok (f a)) ≠ Err too_deep.
Proof. destruct r; cbn; [done|congruence]. Qed.
Lemma clean_schema_ends fuel d : (dict_depth d < fuel)%nat → clean_schema fuel d ≠ Err too_deep.
Proof.
  revert d. induction fuel as [|fuel IH]; intros d Hd; [lia|].
  assert (shallow fuel d) as Hs by (apply dict_depth_shallow; lia).
  cbn [clean_schema]. unfold clean_step. pose proof (flatten_not_deep d) as Hf.
  destruct (flatten_any_of d) as [d'|e] eqn:Ef; cbn [mbind res_bind]; [|congruence].
  apply (flatten_shallow fuel) in Ef; [|exact Hs].
  apply mapM_not_deep. eapply Forall_impl; [apply shallow_filter, Ef|]. intros [k v] Hv. cbn [snd] in Hv.
  unfold clean_entry. repeat case_match; try done; apply fmap_not_deep.
  - apply mapM_not_deep, Forall_forall. intros [pk pv] Hin. apply fmap_not_deep, (nested_not_deep _ fuel); [done|].
    change (json_depth (JObj l)) with (S (dict_depth l)) in Hv.
    assert (shallow (dict_depth l) l) as Hl by by apply dict_depth_shallow.
    pose proof (proj1 (Forall_forall _ _) Hl _ Hin) as Hp. cbn [snd] in Hp. lia.
  - by apply (nested_not_deep _ fuel).
Qed.

(** an optional field keeps what is said of its value *)
Lemma dict_get_kept {V} k (f : string → bool) (d : list (string * V)) : f k = true →
  dict_get k (List.filter (λ kv, f kv.1) d) = dict_get k d.
Proof.
  intros Hf. induction d as [|[k' v] d IH]; [done|]. cbn. destruct (f k') eqn:E; cbn.
  - by destruct (decide (k = k')).
  - destruct (decide (k = k')) as [->|]; [congruence|exact IH].
Qed.
Lemma dict_get_pop_ne {V} k k' (d : list (string * V)) : k ≠ k' → dict_get k (dict_pop k' d) = dict_get k d.
Proof.
  intros Hne. induction d as [|[k1 v] d IH]; [done|]. cbn. case_bool_decide as Hk; cbn.
  - subst k1. by rewrite decide_False.
  - by destruct (decide (k = k1)).
Qed.
Lemma dict_get_merged_absent {V} k (d v : list (string * V)) : k ∉ v.*1 → dict_get k (merged d v) = dict_get k d.
Proof.
  revert d. induction v as [|[k' x] v IH]; intros d Hk; [done|]. cbn in Hk. apply not_elem_of_cons in Hk as [Hne Hk].
  change (merged d ((k', x) :: v)) with (merged (dict_set k' x d) v). rewrite IH // dict_get_set_ne //.
Qed.
Lemma dict_get_merged {V} k x (d v : list (string * V)) : NoDup v.*1 → dict_get k v = Some x →
  dict_get k (merged d v) = Some x.
Proof.
  revert d. induction v as [|[k' y] v IH]; intros d; [done|]. cbn. intros [Hk Hd]%NoDup_cons.
  change (merged d ((k', y) :: v)) with (merged (dict_set k' y d) v).
  destruct (decide (k = k')) as [->|]; [|by apply IH].
  intros [= ->]. rewrite dict_get_merged_absent //. apply dict_get_set_eq.
Qed.
Lemma dict_get_entries clean k d o : k ≠ "properties" → k ≠ "items" →
  mapM (clean_entry clean) d = Ok o → dict_get k o = dict_get k d.
Proof.
  intros Hp Hi Hm%mapM_ok_elem. induction Hm as [|[k1 v1] [k2 v2] d o He _ IH]; [done|].
  pose proof (clean_entry_key _ _ _ He) as Hk. cbn in Hk. subst k2. cbn.
  destruct (decide (k = k1)) as [->|]; [|exact IH]. by apply clean_entry_other in He as [= ->].
Qed.
Lemma optional_kept fuel d v o k x :
  dict_get "anyOf" d = Some (JArr [JObj v; JObj [("type", JStr "null")]]) → NoDup v.*1 → null_variant v = false →
  clean_schema (S fuel) d = Ok o →
  dict_get "nullable" o = Some (JBool true) ∧ (k ∈ ["type"; "enum"] → dict_get k v = Some x → dict_get k o = Some x).
Proof.
  intros Ha Hnd Hv. cbn [clean_schema]. unfold clean_step, flatten_any_of. rewrite Ha.
  change (mapM object_of_json [JObj v; JObj [("type", JStr "null")]]) with (@Ok exn _ [v; [("type", JStr "null")]]).
  cbn [mbind res_bind List.filter]. rewrite Hv. cbn [negb existsb].
  change (null_variant [("type", JStr "null")]) with true. cbn [negb]. rewrite orb_true_r. cbn [mbind res_bind].
  intros Hm. assert (∀ k, k ≠ "properties" → k ≠ "items" → mem k ALLOWED_KEYS = true →
    dict_get k o = dict_get k (dict_set "nullable" (JBool true) (dict_pop "anyOf" (merged d v)))) as Hget.
  { intros k' Hp Hi Hk. rewrite (dict_get_entries _ _ _ _ Hp Hi Hm).
    by rewrite (dict_get_kept k' (λ k, mem k ALLOWED_KEYS)). }
  split; [by rewrite Hget // dict_get_set_eq|]. intros Hk Hx.
  assert (k ≠ "nullable" ∧ k ≠ "anyOf" ∧ k ≠ "properties" ∧ k ≠ "items" ∧ mem k ALLOWED_KEYS = true) as (H1 & H2 & H3 & H4 & H5).
  { apply elem_of_cons in Hk as [->|Hk]; [by repeat split|]. by apply list_elem_of_singleton in Hk as ->. }
  rewrite Hget // dict_get_set_ne // dict_get_pop_ne //. by apply dict_get_merged.
Qed.

(** The schemas Gemini is sent.  Cleaning a schema gives, at every level, only the keys
    Gemini reads; cleaning it again changes nothing; it ends on every schema no deeper than the
    recursion the language allows; and an optional field, which pydantic writes as a choice
    between its type and null, keeps its type and its enumeration and becomes nullable. *)
Theorem clean_schema_fits_gemini fuel d :
  (∀ o, clean_schema fuel d = Ok o → gemini_schema o ∧ clean_schema fuel o = Ok o) ∧
  ((dict_depth d < fuel)%nat → clean_schema fuel d ≠ Err too_deep) ∧
  (∀ o v k x, dict_get "anyOf" d = Some (JArr [JObj v; JObj [("type", JStr "null")]]) →
     NoDup v.*1 → null_variant v = false → clean_schema fuel d = Ok o →
     dict_get "nullable" o = Some (JBool true) ∧
     (k ∈ ["type"; "enum"] → dict_get k v = Some x → dict_get k o = Some x)).
Proof.
  split_and!.
  - intros o Ho. split; [by eapply clean_schema_subset|by eapply clean_schema_idempotent].
  - apply clean_schema_ends.
  - intros o v k x Ha Hn Hv Ho. destruct fuel as [|fuel]; [done|]. by eapply optional_kept.
Qed.

(** [environment_hint: Literal[...] | None] as pydantic writes it *)
Definition environment_hint_schema : list (string * json) :=
  [("anyOf", JArr [JObj [("enum", JArr [JStr "development"; JStr "uat"; JStr "production"]); ("type", JStr "string")];
                   JObj [("type", JStr "null")]]);
   ("default", JNull); ("title", JStr "Environment Hint")].
Lemma clean_schema_fits_gemini_witness :
  let o := [("enum", JArr [JStr "development"; JStr "uat"; JStr "production"]); ("type", JStr "string");
            ("nullable", JBool true)] in
  clean_schema 5 environment_hint_schema = Ok o ∧ gemini_schema o ∧ clean_schema 5 o = Ok o.
Proof.
  split; [reflexivity|].
  apply (clean_schema_fits_gemini 5 environment_hint_schema). reflexivity.
Defined.

(* ------------------------------------------------------------------ *)
(** ** The walk over the models *)

Section walk.
Context {A : Type} (call : string → nat → Q * res exn A).
Context (call_takes_time : ∀ model n, 0 <= (call model n).1).

(** the models asked from [m] on, each from the chain and other than the one before *)
Fixpoint switched (m : string) (l : list string) : Prop :=
  match l with
  | [] => True
  | m' :: l => m' ∈ MODEL_FALLBACK_CHAIN ∧ m' ≠ m ∧ switched m' l
  end.
(** how a walk with some switches left ends: the models it asked, the time it took, and why
    it gave up *)
Definition walk_result (switches : nat) (g : GeminiLLMProvider) (r : res exn A) (g' : GeminiLLMProvider) : Prop :=
  ∃ later, gm_asked g' = gm_asked g ++ gm_model g :: later ∧ (length later <= switches)%nat ∧
    switched (gm_model g) later ∧ gm_model g' = default (gm_model g) (last later) ∧
    gm_now g <= gm_now g' ∧ gm_now g' <= gm_now g + inject_Z (Z.of_nat (S (length later))) * REQUEST_TIMEOUT_SECONDS ∧
    match r with
    | Ok _ => True
    | Err e => is_model_unavailable_error e = false ∨
        (dict_get (gm_model g') (gm_unavailable_until g') = Some (gm_now g' + cooldown_seconds e) ∧
         (length later = switches ∨ next_fallback_model g' = None))
    end.

Lemma timed_request_spec g r g' : timed_request call g = (r, g') →
  gm_asked g' = gm_asked g ++ [gm_model g] ∧ gm_model g' = gm_model g ∧
  gm_now g <= gm_now g' ∧ gm_now g' <= gm_now g + REQUEST_TIMEOUT_SECONDS.
Proof.
  unfold timed_request. pose proof (call_takes_time (gm_model g) (length (gm_asked g))) as Ht.
  destruct (call _ _) as [took answer]. cbn in Ht. destruct (Qle_bool took _) eqn:Et; intros [= <- <-]; cbn.
  - apply Qle_bool_iff in Et. split_and!; [done|done|lra|lra].
  - unfold REQUEST_TIMEOUT_SECONDS. split_and!; [done|done|lra|lra].
Qed.
Lemma next_model_spec g m : next_fallback_model g = Some m → m ∈ MODEL_FALLBACK_CHAIN ∧ m ≠ gm_model g.
Proof.
  intros [Hin Ho]%first_where_some. split; [done|]. apply andb_true_iff in Ho as [Ho _].
  by apply negb_true_iff, bool_decide_eq_false in Ho.
Qed.
Lemma one_request (a b : Q) : a <= b + REQUEST_TIMEOUT_SECONDS →
  a <= b + inject_Z (Z.of_nat (S (@length string []))) * REQUEST_TIMEOUT_SECONDS.
Proof. change (inject_Z (Z.of_nat (S (@length string [])))) with 1. unfold REQUEST_TIMEOUT_SECONDS. lra. Qed.
Lemma asked_once switches g r g' : timed_request call g = (r, g') →
  (match r with Ok _ => True | Err e => is_model_unavailable_error e = false end) →
  walk_result switches g r g'.
Proof.
  intros (Ha & Hm & Hlo & Hhi)%timed_request_spec Hr. exists [].
  split_and!; [exact Ha|cbn; lia|done|done|exact Hlo|by apply one_request|]. destruct r; [done|by left].
Qed.
Lemma walk_spec switches g r g' : with_model_fallback_go call switches g = (r, g') → walk_result switches g r g'.
Proof.
  revert g r g'. induction switches as [|switches IH]; intros g r g'; cbn [with_model_fallback_go];
    unfold try_except; destruct (timed_request call g) as [[a|e] g1] eqn:Et;
    try (intros [= <- <-]; by apply asked_once);
    (destruct (is_model_unavailable_error e) eqn:Eu; cbn [negb];
       [|intros [= <- <-]; by apply asked_once]);
    apply timed_request_spec in Et as (Ha & Hm & Hlo & Hhi); unfold mark_unavailable, modify, mbind, M_bind, get_state;
    set (g2 := g1 <| gm_unavailable_until ::= _ |>).
  - intros [= <- <-]. exists []. split_and!; [exact Ha|cbn; lia|done|done|exact Hlo|by apply one_request|].
    right. split; [apply dict_get_set_eq|by left].
  - destruct (next_fallback_model g2) as [m|] eqn:En.
    + apply next_model_spec in En as [Hin Hne]. set (g3 := g2 <| gm_model := m |>).
      intros (later & Ha' & Hl & Hs & Hm' & Hlo' & Hhi' & Hr)%IH. cbn in Ha', Hs, Hm', Hlo', Hhi'.
      exists (m :: later). split_and!.
      * by rewrite Ha' Ha -app_assoc.
      * cbn. lia.
      * cbn in Hne |- *. by rewrite -Hm.
      * rewrite Hm' last_cons. by destruct (last later).
      * lra.
      * cbn [length]. rewrite (Nat2Z.inj_succ (S (length later))). unfold Z.succ. rewrite inject_Z_plus.
        change (inject_Z 1) with 1. unfold REQUEST_TIMEOUT_SECONDS in *. lra.
      * destruct r as [a|e']; [done|]. destruct Hr as [Hr|[Hd [Hr|Hr]]]; [by left|right..]; (split; [done|]);
          [left; cbn; lia|by right].
    + intros [= <- <-]. exists []. split_and!; [exact Ha|cbn; lia|done|done|exact Hlo|by apply one_request|].
      right. split; [apply dict_get_set_eq|by right].
Qed.

(** C28: A request to Gemini.  It asks the current model first and then at most two others of
    the chain, each other than the one before, within eight seconds each; it stays on the model
    asked last; and it raises only an error that is not about the model, or one after which the
    model asked last is marked with its cooldown and either both switches were used or no other
    model of the chain is off its cooldown. *)
Theorem gemini_walk_is_bounded g r g' :
  with_model_fallback call g = (r, g') → walk_result 2 g r g'.
Proof. apply walk_spec. Qed.
End walk.

(** a Gemini whose first model is over its quota and whose second answers *)
Definition quota_call (model : string) (n : nat) : Q * res exn Z :=
  if bool_decide (model = GEMINI_DEFAULT_MODEL) then (1, Err (PyError "ClientError" "429 RESOURCE_EXHAUSTED"))
  else (2, Ok 42%Z).
Definition fresh_gemini : GeminiLLMProvider :=
  {| gm_model := GEMINI_DEFAULT_MODEL; gm_unavailable_until := []; gm_now := 100; gm_asked := [] |}.
Lemma gemini_walk_is_bounded_witness :
  let run := with_model_fallback quota_call fresh_gemini in
  run.1 = Ok 42%Z ∧ gm_asked run.2 = ["gemini-3.6-flash"; "gemini-3.7-flash"] ∧
  walk_result 2 fresh_gemini run.1 run.2.
Proof.
  split; [vm_compute; reflexivity|]. split; [vm_compute; reflexivity|].
  apply (gemini_walk_is_bounded quota_call); [|by destruct (with_model_fallback quota_call fresh_gemini)].
  intros model n. unfold quota_call. case_bool_decide; discriminate.
Defined.

(** the cooldown never exceeds two minutes *)
Lemma cooldown_bounded e : cooldown_seconds e <= MAX_COOLDOWN_SECONDS.
Proof.
  unfold cooldown_seconds. destruct (search_text _ _); [apply Q.le_min_r|]. vm_compute. discriminate.
Qed.

Lemma insert_sorted_elem x y l : y ∈ insert_sorted x l → y = x ∨ y ∈ l.
Proof.
  induction l as [|z l IH]; cbn; [intros ?%list_elem_of_singleton; by left|].
  repeat case_match; rewrite ?elem_of_cons; tauto.
Qed.
Lemma sorted_set_elem y l : y ∈ sorted_set l → y ∈ l.
Proof.
  induction l as [|x l IH]; [done|]. intros [->|Hy]%insert_sorted_elem; [by left|right; by apply IH].
Qed.
(** what is offered for a key is never empty, and is of major version 3 at least *)
Lemma gemini_models_offered listing :
  gemini_list_models listing ≠ [] ∧ Forall (λ m, meets_min_version m = true) (gemini_list_models listing).
Proof.
  assert (Forall (λ m, meets_min_version m = true) GEMINI_KNOWN_MODELS) as Hk by by repeat constructor.
  unfold gemini_list_models. destruct listing as [models|e]; [|done].
  destruct (sorted_set (models ≫= usable_model)) as [|m l] eqn:Es; [done|]. split; [done|]. rewrite -Es.
  apply Forall_forall. intros x Hx. apply sorted_set_elem in Hx.
  apply list_elem_of_bind in Hx as (lm & Hx & _). unfold usable_model in Hx. repeat case_match; try by apply elem_of_nil in Hx.
  apply list_elem_of_singleton in Hx as ->. by apply andb_true_iff in H0 as [_ ?].
Qed.
