(* ===== verification/Vendors.v ===== *)
(** The vendors behind the structured calls: [agent/llm/anthropic_provider.py],
    [openai_provider.py] (OpenAI, and DeepSeek on the same wire) and the requests of
    [gemini_provider.py].  A request is the keyword arguments of the SDK's call, as JSON; the
    SDK is a parameter that gives the time a request takes and a response or an exception.
    Each of them is a vendor of StructuredLLM.v. *)
From S2P Require Import Prelude ProgramLogic Json Text Models ToolCatalog Servers Policy.
From S2P Require Import Investigations Fallback Conversation Approval Gateway Config LLMRegistry AgentApi.
From S2P Require Import StructuredLLM Gemini Prompts.
From Stdlib Require Import QArith Qminmax Lqa.

#[local] Open Scope Q_scope.

Definition python_error {A} (kind : string) : res exn A := Err (PyError kind "").
(** [dict(v)] of a tool's input, which the SDK decodes from an object *)
Definition dict_of (v : json) : res exn completion :=
  match v with JObj d => Ok d | _ => python_error "TypeError" end.

(** an SDK: the arguments of the client and of the request, and the requests before it *)
Definition Sdk (Response : Type) : Type :=
  list (string * json) → list (string * json) → nat → Q * res exn Response.

(** the request of a vendor, timed, and what is read off its response *)
Definition asked {R A} (sdk : Sdk R) (client request : list (string * json)) (n : nat) (read : R → res exn A)
    : Q * res exn A :=
  let '(took, response) := sdk client request n in (took, r ← response; read r).

Definition message (role content : string) : json := JObj [("role", JStr role); ("content", JStr content)].

(* ------------------------------------------------------------------ *)
(** ** Anthropic *)

Definition ANTHROPIC_DEFAULT_MODEL : string := "claude-sonnet-5".
Definition ANTHROPIC_KNOWN_MODELS : list string :=
  ["claude-opus-5"; "claude-sonnet-5"; "claude-fable-5-1"; "claude-haiku-4-5-20251001"].
(** a block of a response: its type, its text and its tool input *)
Record ContentBlock : Type := { cb_type : string; cb_text : string; cb_input : json }.

Definition anthropic_tool_request (model system user : string) (schema : list (string * json)) (tool_name : string)
    : list (string * json) :=
  [("model", JStr model); ("max_tokens", JInt 1024); ("system", JStr system);
   ("tools", JArr [JObj [("name", JStr tool_name); ("description", JStr "Submit your answer.");
                         ("input_schema", JObj schema)]]);
   ("tool_choice", JObj [("type", JStr "tool"); ("name", JStr tool_name)]);
   ("messages", JArr [message "user" user])].
(** [next(...)] without a default raises inside a coroutine *)
Definition anthropic_tool_input (content : list ContentBlock) : res exn completion :=
  match first_where (λ b, bool_decide (cb_type b = "tool_use")) content with
  | Some b => dict_of (cb_input b)
  | None => Err (PyError "RuntimeError" "coroutine raised StopIteration")
  end.
Definition anthropic_text_request (model system user : string) : list (string * json) :=
  [("model", JStr model); ("max_tokens", JInt 512); ("system", JStr system);
   ("messages", JArr [message "user" user])].
Definition anthropic_text (content : list ContentBlock) : string :=
  str_join "" (map cb_text (List.filter (λ b, bool_decide (cb_type b = "text")) content)).
Definition anthropic_list_models (listing : res exn (list string)) : list string :=
  match listing with Ok ids => ids | Err _ => ANTHROPIC_KNOWN_MODELS end.

(* ------------------------------------------------------------------ *)
(** ** OpenAI and DeepSeek *)

(** the class attributes of the two classes *)
Record OpenAIClass : Type := {
  oa_provider_name : string; oa_default_model : string; oa_base_url : option string; oa_known_models : list string }.
Definition OpenAILLMProvider : OpenAIClass := {|
  oa_provider_name := "openai"; oa_default_model := "gpt-4o"; oa_base_url := None;
  oa_known_models := ["gpt-4o"; "gpt-4o-mini"; "gpt-4.1"; "o3"; "o4-mini"] |}.
Definition DeepSeekLLMProvider : OpenAIClass := {|
  oa_provider_name := "deepseek"; oa_default_model := "deepseek-chat";
  oa_base_url := Some "https://api.deepseek.com"; oa_known_models := ["deepseek-chat"; "deepseek-reasoner"] |}.

(** a choice: the arguments of its tool calls, and its content *)
Record Choice : Type := { chc_tool_calls : option (list string); chc_content : option string }.

Definition openai_client (cls : OpenAIClass) (api_key : string) : list (string * json) :=
  ("api_key", JStr api_key) ::
  (if opt_truthy (oa_base_url cls) then [("base_url", json_opt (oa_base_url cls))] else []).
Definition openai_messages (system user : string) : json := JArr [message "system" system; message "user" user].
Definition openai_tool_request (model system user : string) (schema : list (string * json)) (tool_name : string)
    : list (string * json) :=
  [("model", JStr model); ("max_tokens", JInt 1024); ("messages", openai_messages system user);
   ("tools", JArr [JObj [("type", JStr "function");
      ("function", JObj [("name", JStr tool_name); ("description", JStr "Submit your answer.");
                         ("parameters", JObj schema)])]]);
   ("tool_choice", JObj [("type", JStr "function"); ("function", JObj [("name", JStr tool_name)])])].
Definition openai_text_request (model system user : string) : list (string * json) :=
  [("model", JStr model); ("max_tokens", JInt 512); ("messages", openai_messages system user)].
Definition first_choice (choices : list Choice) : res exn Choice :=
  match choices with c :: _ => Ok c | [] => python_error "IndexError" end.

Section openai.
(** [json.loads], and whatever it raises *)
Context (json_loads : string → res exn json).
(** [json.loads(call.function.arguments)]: a value that is no object fails the validation of
    the answer as the empty object does; null counts as no answer *)
Definition openai_tool_input (choices : list Choice) : res exn completion :=
  choice ← first_choice choices;
  match chc_tool_calls choice with
  | None => python_error "TypeError"
  | Some [] => python_error "IndexError"
  | Some (arguments :: _) =>
      match json_loads arguments with
      | Err e => Err e
      | Ok (JObj d) => Ok d
      | Ok JNull => python_error "AttributeError"
      | Ok _ => Ok []
      end
  end.
End openai.
Definition openai_text (choices : list Choice) : res exn string :=
  choice ← first_choice choices; Ok (default "" (chc_content choice)).
Definition CHAT_PREFIXES : list string := ["gpt-"; "o1"; "o3"; "o4"; "chatgpt"; "deepseek"].
Definition chat_models (ids : list string) : list string :=
  List.filter (λ i, existsb (λ p, starts_with p i) CHAT_PREFIXES) ids.
(** [sorted]: duplicates stay *)
Fixpoint insert_in_order (x : string) (l : list string) : list string :=
  match l with
  | [] => [x]
  | y :: l' => if String.leb x y then x :: l else y :: insert_in_order x l'
  end.
Definition openai_list_models (cls : OpenAIClass) (listing : res exn (list string)) : list string :=
  match listing with
  | Ok ids => foldr insert_in_order [] (match chat_models ids with [] => ids | chat => chat end)
  | Err _ => oa_known_models cls
  end.

(* ------------------------------------------------------------------ *)
(** ** Gemini *)

(** a response: the function calls of the parts of each candidate, and its text *)
Record GeminiResponse : Type := { gr_candidates : list (list (option json)); gr_text : option string }.

(** how deep the interpreter lets [_clean_schema] recurse *)
Definition RECURSION_LIMIT : nat := 900.
Definition gemini_tool_request (system user : string) (parameters : list (string * json)) (tool_name model : string)
    : list (string * json) :=
  [("model", JStr model); ("contents", JStr user);
   ("config", JObj [("system_instruction", JStr system);
      ("tools", JArr [JObj [("function_declarations", JArr [JObj [("name", JStr tool_name);
         ("description", JStr "Submit your answer."); ("parameters", JObj parameters)]])]]);
      ("tool_config", JObj [("function_calling_config", JObj [("mode", JStr "ANY");
         ("allowed_function_names", JArr [JStr tool_name])])])])].
Definition gemini_text_request (system user model : string) : list (string * json) :=
  [("model", JStr model); ("contents", JStr user); ("config", JObj [("system_instruction", JStr system)])].
Definition gemini_tool_input (r : GeminiResponse) : res exn completion :=
  match gr_candidates r with
  | [] => python_error "IndexError"
  | parts :: _ =>
      match first_where (λ p : option json, bool_decide (is_Some p)) parts with
      | Some (Some args) => dict_of args
      | _ => Err (PyError "ValueError" "Gemini returned no function call.")
      end
  end.

(* ------------------------------------------------------------------ *)
(** ** The providers as vendors *)

Section vendors.
Context {R : Type} (sdk : Sdk R) (intent_schema : list (string * json)).
Context (takes_time : ∀ client request n, 0 <= (sdk client request n).1).

Lemma asked_time {A} client request n (read : R → res exn A) : 0 <= (asked sdk client request n read).1.
Proof. unfold asked. pose proof (takes_time client request n) as Ht. by destruct (sdk client request n). Qed.
(** a prompt in the request of a vendor *)
Definition prompted (request : string → string → list (string * json) → string → list (string * json))
    (prompt : ToolPrompt) : list (string * json) :=
  request (system_text (tq_system prompt)) (tq_user prompt) (prompt_schema intent_schema (tq_system prompt))
    (tq_tool_name prompt).
Definition api_client (api_key : string) : list (string * json) := [("api_key", JStr api_key)].
Definition model_or_default (model dflt : string) : string := if truthy model then model else dflt.
End vendors.

Section anthropic.
Context (sdk : Sdk (list ContentBlock)) (intent_schema : list (string * json)) (api_key model : string).
Context (takes_time : ∀ client request n, 0 <= (sdk client request n).1).
Definition anthropic_call_tool (prompt : ToolPrompt) (n : nat) : Q * res exn completion :=
  asked sdk (api_client api_key)
    (prompted intent_schema (anthropic_tool_request (model_or_default model ANTHROPIC_DEFAULT_MODEL)) prompt)
    n anthropic_tool_input.
Definition anthropic_call_text (system user : string) (n : nat) : Q * res exn string :=
  asked sdk (api_client api_key)
    (anthropic_text_request (model_or_default model ANTHROPIC_DEFAULT_MODEL) system user) n
    (λ content, Ok (anthropic_text content)).
Definition anthropic_vendor : Vendor := {|
  vd_name := "anthropic"; vd_call_tool := anthropic_call_tool;
  vd_takes_time prompt n := asked_time sdk takes_time _ _ _ _ |}.
End anthropic.

Section openai_vendor.
Context (sdk : Sdk (list Choice)) (intent_schema : list (string * json)) (json_loads : string → res exn json).
Context (cls : OpenAIClass) (api_key model : string).
Context (takes_time : ∀ client request n, 0 <= (sdk client request n).1).
Definition openai_call_tool (prompt : ToolPrompt) (n : nat) : Q * res exn completion :=
  asked sdk (openai_client cls api_key)
    (prompted intent_schema (openai_tool_request (model_or_default model (oa_default_model cls))) prompt)
    n (openai_tool_input json_loads).
Definition openai_call_text (system user : string) (n : nat) : Q * res exn string :=
  asked sdk (openai_client cls api_key)
    (openai_text_request (model_or_default model (oa_default_model cls)) system user) n openai_text.
Definition openai_vendor : Vendor := {|
  vd_name := oa_provider_name cls; vd_call_tool := openai_call_tool;
  vd_takes_time prompt n := asked_time sdk takes_time _ _ _ _ |}.
End openai_vendor.

Section gemini_vendor.
Context (sdk : Sdk GeminiResponse) (intent_schema : list (string * json)) (api_key : string).
Context (takes_time : ∀ client request n, 0 <= (sdk client request n).1).
(** the provider when the prompt is first sent *)
Context (g0 : GeminiLLMProvider).

(** [_call_tool]: the schema is cleaned once, the walk sends the request of each model *)
Definition gemini_call_tool (prompt : ToolPrompt) : M GeminiLLMProvider exn completion :=
  parameters ← lift_res (clean_schema RECURSION_LIMIT (prompt_schema intent_schema (tq_system prompt)));
  with_model_fallback (λ model n,
    asked sdk (api_client api_key)
      (gemini_tool_request (system_text (tq_system prompt)) (tq_user prompt) parameters (tq_tool_name prompt) model)
      n gemini_tool_input).
Definition gemini_call_text (system user : string) : M GeminiLLMProvider exn string :=
  with_model_fallback (λ model n,
    asked sdk (api_client api_key) (gemini_text_request system user model) n
      (λ r, Ok (default "" (gr_text r)))).

(** the provider when the n-th attempt starts: a second after the attempt before *)
Fixpoint gemini_before (prompt : ToolPrompt) (n : nat) : GeminiLLMProvider :=
  match n with
  | O => g0
  | S n => (gemini_call_tool prompt (gemini_before prompt n)).2
             <| gm_now ::= λ t, t + CALL_RETRY_DELAY_SECONDS |>
  end.
Definition gemini_attempt (prompt : ToolPrompt) (n : nat) : Q * res exn completion :=
  let g := gemini_before prompt n in
  let '(r, g') := gemini_call_tool prompt g in (gm_now g' - gm_now g, r).

Lemma gemini_attempt_time prompt n : 0 <= (gemini_attempt prompt n).1.
Proof.
  unfold gemini_attempt, gemini_call_tool, mbind, M_bind, lift_res. set (g := gemini_before prompt n).
  destruct (clean_schema _ _) as [parameters|e]; [|cbn; lra].
  destruct (with_model_fallback _ g) as [r g'] eqn:Ew. cbn.
  apply walk_spec in Ew as (later & _ & _ & _ & _ & Hlo & _); [lra|].
  intros model k. apply asked_time, takes_time.
Qed.
Definition gemini_vendor : Vendor := {|
  vd_name := "gemini"; vd_call_tool := gemini_attempt; vd_takes_time := gemini_attempt_time |}.
End gemini_vendor.

(* ------------------------------------------------------------------ *)
(** ** Every vendor is asked the same *)

(** what a request says, whatever the vendor: the two texts, the tools it offers with their
    schemas, and the tool it forces *)
Record Exchange : Type := {
  xc_system : string; xc_user : string; xc_tools : list (string * list (string * json)); xc_forced : string }.

(** a value inside a request *)
Inductive path_step : Type := Key (k : string) | Index (n : nat).
Fixpoint at_path (path : list path_step) (v : json) : option json :=
  match path with
  | [] => Some v
  | Key k :: path => match v with JObj d => dict_get k d ≫= at_path path | _ => None end
  | Index n :: path => match v with JArr l => l !! n ≫= at_path path | _ => None end
  end.
Definition text_at (path : list path_step) (v : json) : option string :=
  match at_path path v with Some (JStr s) => Some s | _ => None end.
Definition tool_at (name schema : string) (v : json) : option (string * list (string * json)) :=
  name ← text_at [Key name] v;
  match at_path [Key schema] v with Some (JObj d) => Some (name, d) | _ => None end.
(** how each vendor reads its request *)
Definition read_exchange (system user forced tools : list path_step) (tool : json → option (string * list (string * json)))
    (request : list (string * json)) : option Exchange :=
  let v := JObj request in
  system ← text_at system v; user ← text_at user v; forced ← text_at forced v;
  match at_path tools v with
  | Some (JArr l) => tools ← mapM tool l;
      Some {| xc_system := system; xc_user := user; xc_tools := tools; xc_forced := forced |}
  | _ => None
  end.
Definition read_anthropic : list (string * json) → option Exchange :=
  read_exchange [Key "system"] [Key "messages"; Index 0; Key "content"] [Key "tool_choice"; Key "name"] [Key "tools"]
    (tool_at "name" "input_schema").
Definition read_openai : list (string * json) → option Exchange :=
  read_exchange [Key "messages"; Index 0; Key "content"] [Key "messages"; Index 1; Key "content"]
    [Key "tool_choice"; Key "function"; Key "name"] [Key "tools"]
    (λ v, at_path [Key "function"] v ≫= tool_at "name" "parameters").
Definition read_gemini : list (string * json) → option Exchange :=
  read_exchange [Key "config"; Key "system_instruction"] [Key "contents"]
    [Key "config"; Key "tool_config"; Key "function_calling_config"; Key "allowed_function_names"; Index 0]
    [Key "config"; Key "tools"; Index 0; Key "function_declarations"] (tool_at "name" "parameters").

Definition exchange_of (prompt : ToolPrompt) (schema : list (string * json)) : Exchange := {|
  xc_system := system_text (tq_system prompt); xc_user := tq_user prompt;
  xc_tools := [(tq_tool_name prompt, schema)]; xc_forced := tq_tool_name prompt |}.

(** some request that says [said] got a response of which [taken] is an answer *)
Definition answers_forced {R} (sdk : Sdk R) (read : list (string * json) → option Exchange) (said : Exchange)
    (taken : R → Prop) : Prop :=
  ∃ client request n response, read request = Some said ∧ (sdk client request n).2 = Ok response ∧ taken response.

Lemma asked_answer {R A} (sdk : Sdk R) client request n (read : R → res exn A) a :
  (asked sdk client request n read).2 = Ok a →
  ∃ response, (sdk client request n).2 = Ok response ∧ read response = Ok a.
Proof.
  unfold asked. destruct (sdk client request n) as [t [response|e]]; cbn; [|done]. eauto.
Qed.
Lemma dict_of_ok v d : dict_of v = Ok d → v = JObj d.
Proof. by destruct v; cbn; try done; intros [= ->]. Qed.

(** a walk over the models answers what one of its requests did *)
Lemma walk_answer {A} (call : string → nat → Q * res exn A) switches g a g' :
  with_model_fallback_go call switches g = (Ok a, g') → ∃ model n, (call model n).2 = Ok a.
Proof.
  assert (∀ g a g', timed_request call g = (Ok a, g') → ∃ model n, (call model n).2 = Ok a) as Hone.
  { intros g1 a1 g1'. unfold timed_request. destruct (call (gm_model g1) _) as [took answer] eqn:Ec.
    destruct (Qle_bool took _); [|done]. intros [= -> _]. exists (gm_model g1), (length (gm_asked g1)). by rewrite Ec. }
  revert g g'. induction switches as [|switches IH]; intros g g'; cbn [with_model_fallback_go];
    unfold try_except; destruct (timed_request call g) as [[b|e] g1] eqn:Et;
    try (intros [= <- <-]; by eapply Hone);
    (destruct (is_model_unavailable_error e); [|done]); cbn [negb];
    unfold mark_unavailable, modify, mbind, M_bind, get_state; [done|].
  destruct (next_fallback_model _); [|done]. apply IH.
Qed.

(** C16: every vendor is asked the same, and an answer is one to it.  Whatever a structured call
    gives, with Anthropic, OpenAI, DeepSeek or any model of Gemini and after any number of
    attempts, is the input of a tool call in the response to a request that, in the vendor's
    own wire format, says exactly the prompt's two texts, offers the prompt's tool alone, with
    its schema, for Gemini the cleaned one, and forces it. *)
Theorem vendors_are_asked_the_same intent_schema prompt n d :
  let schema := prompt_schema intent_schema (tq_system prompt) in
  (∀ sdk api_key model takes_time,
     (vd_call_tool (anthropic_vendor sdk intent_schema api_key model takes_time) prompt n).2 = Ok d →
     answers_forced sdk read_anthropic (exchange_of prompt schema)
       (λ content, ∃ b, b ∈ content ∧ cb_type b = "tool_use" ∧ cb_input b = JObj d)) ∧
  (∀ sdk json_loads cls api_key model takes_time,
     (vd_call_tool (openai_vendor sdk intent_schema json_loads cls api_key model takes_time) prompt n).2 = Ok d →
     answers_forced sdk read_openai (exchange_of prompt schema)
       (λ choices, ∃ choice arguments rest v, head choices = Some choice ∧
          chc_tool_calls choice = Some (arguments :: rest) ∧ json_loads arguments = Ok v ∧
          (v = JObj d ∨ d = [] ∧ v ≠ JNull))) ∧
  (∀ sdk api_key takes_time g,
     (vd_call_tool (gemini_vendor sdk intent_schema api_key takes_time g) prompt n).2 = Ok d →
     ∃ cleaned, clean_schema RECURSION_LIMIT schema = Ok cleaned ∧ gemini_schema cleaned ∧
       answers_forced sdk read_gemini (exchange_of prompt cleaned)
         (λ response, ∃ parts, head (gr_candidates response) = Some parts ∧ Some (JObj d) ∈ parts)).
Proof.
  cbn zeta. split_and!.
  - intros sdk api_key model takes_time (content & Hs & Hr)%asked_answer.
    do 3 eexists. exists content. split; [|split; [exact Hs|]]; [reflexivity|].
    unfold anthropic_tool_input in Hr. destruct (first_where _ content) as [b|] eqn:Eb; [|done].
    apply first_where_some in Eb as [Hin Ht%bool_decide_eq_true]. exists b. by apply dict_of_ok in Hr.
  - intros sdk json_loads cls api_key model takes_time (choices & Hs & Hr)%asked_answer.
    do 3 eexists. exists choices. split; [|split; [exact Hs|]]; [reflexivity|].
    unfold openai_tool_input in Hr. destruct choices as [|choice choices]; [done|]. cbn in Hr.
    destruct (chc_tool_calls choice) as [[|arguments rest]|] eqn:Ec; try done.
    destruct (json_loads arguments) as [v|] eqn:Ej; [|done]. exists choice, arguments, rest, v.
    split_and!; try done. destruct v; try done; injection Hr as <-; [by right..|by left].
  - intros sdk api_key takes_time g Ha. cbn in Ha. unfold gemini_attempt, gemini_call_tool in Ha.
    unfold mbind, M_bind, lift_res in Ha.
    destruct (clean_schema _ _) as [cleaned|e] eqn:Ec; [|done].
    destruct (with_model_fallback _ _) as [r g'] eqn:Ew. cbn in Ha. subst r.
    exists cleaned. split; [done|]. split; [by eapply clean_schema_subset|].
    apply walk_answer in Ew as (model & k & (response & Hs & Hr)%asked_answer).
    do 3 eexists. exists response. split; [|split; [exact Hs|]]; [reflexivity|].
    unfold gemini_tool_input in Hr. destruct (gr_candidates response) as [|parts rest]; [done|].
    exists parts. split; [done|].
    destruct (first_where _ parts) as [[args|]|] eqn:Ep; try done.
    apply dict_of_ok in Hr as ->. by apply first_where_some in Ep as [? _].
Qed.

(** *** Gemini, whose first model hangs, answers a decision *)
Definition slow_model_sdk : Sdk GeminiResponse := λ _ request _,
  if bool_decide (dict_get "model" request = Some (JStr GEMINI_DEFAULT_MODEL)) then (60, python_error "TimeoutError")
  else (2, Ok {| gr_candidates := [[None; Some (JObj [("action", JStr "conclude"); ("summary", JStr "fine")])]];
                 gr_text := None |}).
Lemma slow_model_time client request n : 0 <= (slow_model_sdk client request n).1.
Proof. unfold slow_model_sdk. case_bool_decide; discriminate. Qed.
Definition decision_prompt : ToolPrompt :=
  {| tq_system := ACTION_SYSTEM; tq_user := "Problem: slow"; tq_tool_name := "submit_decision" |}.
Definition slow_gemini : Vendor := gemini_vendor slow_model_sdk [] "k" slow_model_time fresh_gemini.
Lemma vendors_are_asked_the_same_witness :
  vd_call_tool slow_gemini decision_prompt 0
    = (10, Ok [("action", JStr "conclude"); ("summary", JStr "fine")]) ∧
  ∃ cleaned, clean_schema RECURSION_LIMIT FLAT_ACTION_SCHEMA = Ok cleaned ∧ gemini_schema cleaned ∧
    answers_forced slow_model_sdk read_gemini (exchange_of decision_prompt cleaned)
      (λ response, ∃ parts, head (gr_candidates response) = Some parts ∧
         Some (JObj [("action", JStr "conclude"); ("summary", JStr "fine")]) ∈ parts).
Proof.
  assert (vd_call_tool slow_gemini decision_prompt 0
    = (10, Ok [("action", JStr "conclude"); ("summary", JStr "fine")])) as E by (vm_compute; reflexivity).
  split; [exact E|].
  apply (proj2 (proj2 (vendors_are_asked_the_same [] decision_prompt 0
    [("action", JStr "conclude"); ("summary", JStr "fine")])) slow_model_sdk "k" slow_model_time fresh_gemini).
  exact (f_equal snd E).
Defined.
