(* ===== verification/Wire.v ===== *)
(** What travels between the Gateway and the Execution Service: the pydantic models of
    [common/models/execution.py] and [common/models/catalog.py] as JSON.  A class of types
    that are written and read back, with its instances for the types of the fields, and the
    models as objects over them: required fields, fields with a default, and what becomes of
    a key no field has.  What the service writes holds the values of its drivers: it is
    written through the JSON form of every cell ([Cells.v]), and not at all where one has none. *)
From S2P Require Import Prelude Json Models ToolCatalog Servers Policy Discovery Cells.

(* ------------------------------------------------------------------ *)
(** ** Fields *)

(** [model_dump(mode="json")] and [model_validate] at a type; [None] is a [ValidationError] *)
Class Wire (A : Type) : Type := { dump : A → json; parse : json → option A }.
(** what was written is read back *)
Class WireLaws (A : Type) `{Wire A} : Prop := parse_dump : ∀ a : A, parse (dump a) = Some a.
Class NotNull (A : Type) `{Wire A} : Prop := dump_not_null : ∀ a : A, dump a ≠ JNull.

(** pydantic's text of a [datetime] and what it reads as one: a text it wrote is read back *)
Class IsoDatetime : Type := {
  dt_dump : Z → string;
  dt_parse : json → option Z;
  dt_parse_dump : ∀ t, dt_parse (JStr (dt_dump t)) = Some t
}.

#[export] Instance wire_string : Wire string :=
  {| dump := JStr; parse v := match v with JStr s => Some s | _ => None end |}.
(** an object whose values are JSON already *)
#[export] Instance wire_dict : Wire (list (string * json)) :=
  {| dump := JObj; parse v := match v with JObj d => Some d | _ => None end |}.
#[export] Instance wire_bool `{PydanticLax} : Wire bool := {| dump := JBool; parse := lax_bool |}.
#[export] Instance wire_int `{PydanticLax} : Wire Z := {| dump := JInt; parse := lax_int |}.
#[export] Instance wire_list {A} `{Wire A} : Wire (list A) | 10 :=
  {| dump l := JArr (map dump l); parse v := match v with JArr l => mapM parse l | _ => None end |}.
#[export] Instance wire_option {A} `{Wire A} : Wire (option A) := {|
  dump o := match o with Some a => dump a | None => JNull end;
  parse v := match v with JNull => Some None | _ => Some <$> parse v end |}.
#[export] Instance wire_platform : Wire Platform := {|
  dump p := JStr (platform_value p);
  parse v := match v with JStr s => platform_of_value s | _ => None end |}.

#[export] Instance wire_string_laws : WireLaws string.
Proof. done. Qed.
#[export] Instance wire_dict_laws : WireLaws (list (string * json)).
Proof. done. Qed.
#[export] Instance wire_bool_laws `{PydanticLax} : WireLaws bool.
Proof. intros b. apply lax_bool_bool. Qed.
#[export] Instance wire_int_laws `{PydanticLax} : WireLaws Z.
Proof. intros n. apply lax_int_int. Qed.
#[export] Instance wire_list_laws {A} `{WireLaws A} : WireLaws (list A).
Proof.
  intros l. cbn. induction l as [|a l IH]; [done|]. cbn. by rewrite parse_dump /= IH.
Qed.
#[export] Instance wire_option_laws {A} `{WireLaws A, !NotNull A} : WireLaws (option A).
Proof.
  intros [a|]; [|done]. cbn. pose proof (dump_not_null a) as Hn. rewrite parse_dump. by destruct (dump a).
Qed.
#[export] Instance wire_platform_laws : WireLaws Platform.
Proof. intros p. apply platform_of_value_value. Qed.
#[export] Instance not_null_string : NotNull string.
Proof. done. Qed.
#[export] Instance not_null_int `{PydanticLax} : NotNull Z.
Proof. done. Qed.

(** a required field and one with a default, by name *)
Definition field {A} `{Wire A} (k : string) (d : list (string * json)) : option A := dict_get k d ≫= parse.
Definition field_or {A} `{Wire A} (k : string) (dflt : A) (d : list (string * json)) : option A :=
  match dict_get k d with Some v => parse v | None => Some dflt end.
(** [extra="ignore"] and [extra="forbid"] *)
Definition object_ignoring {A} (f : list (string * json) → option A) (v : json) : option A :=
  match v with JObj d => f d | _ => None end.
Definition object_forbidding {A} (keys : list string) (f : list (string * json) → option A) (v : json)
    : option A :=
  match v with JObj d => if forallb (λ kv, mem kv.1 keys) d then f d else None | _ => None end.

(* ------------------------------------------------------------------ *)
(** ** common/models/execution.py *)

Section execution.
Context `{PydanticLax}.

Definition execution_request_keys : list string :=
  ["execution_id"; "tool_id"; "tool_version"; "platform"; "server_id"; "database"; "schema_name";
   "object_name"; "session_id"; "query_id"; "arguments"; "max_execution_time"; "max_result_rows"].
Definition dump_execution_request (r : ExecutionRequest) : json := JObj [
  ("execution_id", dump (er_execution_id r)); ("tool_id", dump (er_tool_id r));
  ("tool_version", dump (er_tool_version r)); ("platform", dump (er_platform r));
  ("server_id", dump (er_server_id r)); ("database", dump (er_database r));
  ("schema_name", dump (er_schema_name r)); ("object_name", dump (er_object_name r));
  ("session_id", dump (er_session_id r)); ("query_id", dump (er_query_id r));
  ("arguments", dump (er_arguments r)); ("max_execution_time", dump (er_max_execution_time r));
  ("max_result_rows", dump (er_max_result_rows r))].
Definition parse_execution_request : json → option ExecutionRequest :=
  object_forbidding execution_request_keys (λ d,
    execution_id ← field "execution_id" d; tool_id ← field "tool_id" d;
    tool_version ← field "tool_version" d; platform ← field "platform" d;
    server_id ← field "server_id" d; database ← field "database" d;
    schema_name ← field_or "schema_name" None d; object_name ← field_or "object_name" None d;
    session_id ← field_or "session_id" None d; query_id ← field_or "query_id" None d;
    arguments ← field "arguments" d; max_execution_time ← field "max_execution_time" d;
    max_result_rows ← field "max_result_rows" d;
    Some {| er_execution_id := execution_id; er_tool_id := tool_id; er_tool_version := tool_version;
            er_platform := platform; er_server_id := server_id; er_database := database;
            er_schema_name := schema_name; er_object_name := object_name; er_session_id := session_id;
            er_query_id := query_id; er_arguments := arguments;
            er_max_execution_time := max_execution_time; er_max_result_rows := max_result_rows |}).
#[export] Instance wire_execution_request : Wire ExecutionRequest :=
  {| dump := dump_execution_request; parse := parse_execution_request |}.

Definition execution_result_keys : list string :=
  ["execution_id"; "success"; "columns"; "rows"; "row_count"; "truncated"; "affected"; "error_code";
   "error_detail"; "verification_status"; "verification_detail"; "duration_ms"].
Definition dump_execution_result (r : ExecutionResult) : json := JObj [
  ("execution_id", dump (ex_execution_id r)); ("success", dump (ex_success r));
  ("columns", dump (ex_columns r)); ("rows", dump (ex_rows r)); ("row_count", dump (ex_row_count r));
  ("truncated", dump (ex_truncated r)); ("affected", dump (ex_affected r));
  ("error_code", dump (ex_error_code r)); ("error_detail", dump (ex_error_detail r));
  ("verification_status", dump (ex_verification_status r));
  ("verification_detail", dump (ex_verification_detail r)); ("duration_ms", dump (ex_duration_ms r))].
Definition parse_execution_result : json → option ExecutionResult :=
  object_forbidding execution_result_keys (λ d,
    execution_id ← field "execution_id" d; success ← field "success" d;
    columns ← field_or "columns" [] d; rows ← field_or "rows" [] d;
    row_count ← field_or "row_count" 0%Z d; truncated ← field_or "truncated" false d;
    affected ← field_or "affected" [] d; error_code ← field_or "error_code" None d;
    error_detail ← field_or "error_detail" None d;
    verification_status ← field_or "verification_status" "NOT_APPLICABLE" d;
    verification_detail ← field_or "verification_detail" "" d; duration_ms ← field_or "duration_ms" 0%Z d;
    Some {| ex_execution_id := execution_id; ex_success := success; ex_columns := columns; ex_rows := rows;
            ex_row_count := row_count; ex_truncated := truncated; ex_affected := affected;
            ex_error_code := error_code; ex_error_detail := error_detail;
            ex_verification_status := verification_status; ex_verification_detail := verification_detail;
            ex_duration_ms := duration_ms |}).
#[export] Instance wire_execution_result : Wire ExecutionResult :=
  {| dump := dump_execution_result; parse := parse_execution_result |}.

(** [result.model_dump(mode="json")] in the service: every cell of the rows and of [affected] in
    its JSON form; [None] is a [PydanticSerializationError] *)
Definition write_result_json (r : RawResult) : option json := dump_execution_result <$> result_json r.

Record DiscoveryRequest : Type := {
  dq_server_id : string; dq_platform : Platform; dq_max_objects_per_database : Z }.
Definition dump_discovery_request (r : DiscoveryRequest) : json := JObj [
  ("server_id", dump (dq_server_id r)); ("platform", dump (dq_platform r));
  ("max_objects_per_database", dump (dq_max_objects_per_database r))].
Definition parse_discovery_request : json → option DiscoveryRequest :=
  object_forbidding ["server_id"; "platform"; "max_objects_per_database"] (λ d,
    server_id ← field "server_id" d; platform ← field "platform" d;
    max_objects ← field_or "max_objects_per_database" 5000%Z d;
    Some {| dq_server_id := server_id; dq_platform := platform; dq_max_objects_per_database := max_objects |}).
#[export] Instance wire_discovery_request : Wire DiscoveryRequest :=
  {| dump := dump_discovery_request; parse := parse_discovery_request |}.
End execution.

(* ------------------------------------------------------------------ *)
(** ** common/models/catalog.py *)

Section catalog.
Context `{PydanticLax} `{IsoDatetime}.

Definition dump_discovered_object (o : DiscoveredObject) : json := JObj [
  ("schema_name", dump (do_schema_name o)); ("name", dump (do_name o)); ("kind", dump (do_kind o));
  ("row_estimate", dump (do_row_estimate o)); ("size_bytes", dump (do_size_bytes o));
  ("properties", dump (do_properties o))].
Definition parse_discovered_object : json → option DiscoveredObject := object_ignoring (λ d,
  schema_name ← field "schema_name" d; name ← field "name" d; kind ← field "kind" d;
  row_estimate ← field_or "row_estimate" None d; size_bytes ← field_or "size_bytes" None d;
  properties ← field_or "properties" [] d;
  Some {| do_schema_name := schema_name; do_name := name; do_kind := kind; do_row_estimate := row_estimate;
          do_size_bytes := size_bytes; do_properties := properties |}).
#[export] Instance wire_discovered_object : Wire DiscoveredObject :=
  {| dump := dump_discovered_object; parse := parse_discovered_object |}.

Definition dump_discovered_extension (e : DiscoveredExtension) : json := JObj [
  ("name", dump (de_name e)); ("installed_version", dump (de_installed_version e));
  ("default_version", dump (de_default_version e)); ("available", dump (de_available e))].
Definition parse_discovered_extension : json → option DiscoveredExtension := object_ignoring (λ d,
  name ← field "name" d; installed ← field_or "installed_version" None d;
  dflt ← field_or "default_version" None d; available ← field_or "available" true d;
  Some {| de_name := name; de_installed_version := installed; de_default_version := dflt;
          de_available := available |}).
#[export] Instance wire_discovered_extension : Wire DiscoveredExtension :=
  {| dump := dump_discovered_extension; parse := parse_discovered_extension |}.

Definition dump_discovered_database (b : DiscoveredDatabase) : json := JObj [
  ("name", dump (dd_name b)); ("state", dump (dd_state b)); ("size_bytes", dump (dd_size_bytes b));
  ("options", dump (dd_options b)); ("objects", dump (dd_objects b)); ("extensions", dump (dd_extensions b))].
Definition parse_discovered_database : json → option DiscoveredDatabase := object_ignoring (λ d,
  name ← field "name" d; state ← field_or "state" "unknown" d; size_bytes ← field_or "size_bytes" None d;
  options ← field_or "options" [] d; objects ← field_or "objects" [] d; extensions ← field_or "extensions" [] d;
  Some {| dd_name := name; dd_state := state; dd_size_bytes := size_bytes; dd_options := options;
          dd_objects := objects; dd_extensions := extensions |}).
#[export] Instance wire_discovered_database : Wire DiscoveredDatabase :=
  {| dump := dump_discovered_database; parse := parse_discovered_database |}.

Definition dump_least_privilege (f : LeastPrivilegeFinding) : json := JObj [
  ("checked", dump (lp_checked f)); ("login", dump (lp_login f));
  ("has_user_table_select", dump (lp_has_user_table_select f));
  ("granted_object_count", dump (lp_granted_object_count f));
  ("count_is_lower_bound", dump (lp_count_is_lower_bound f));
  ("sample_objects", dump (lp_sample_objects f)); ("scope_note", dump (lp_scope_note f))].
Definition parse_least_privilege : json → option LeastPrivilegeFinding := object_ignoring (λ d,
  checked ← field_or "checked" false d; login ← field_or "login" "" d;
  select ← field_or "has_user_table_select" false d; count ← field_or "granted_object_count" 0%Z d;
  lower ← field_or "count_is_lower_bound" false d; sample ← field_or "sample_objects" [] d;
  note ← field_or "scope_note" "" d;
  Some {| lp_checked := checked; lp_login := login; lp_has_user_table_select := select;
          lp_granted_object_count := count; lp_count_is_lower_bound := lower; lp_sample_objects := sample;
          lp_scope_note := note |}).
#[export] Instance wire_least_privilege : Wire LeastPrivilegeFinding :=
  {| dump := dump_least_privilege; parse := parse_least_privilege |}.

Definition dump_datetime (o : option Z) : json := match o with Some t => JStr (dt_dump t) | None => JNull end.
Definition datetime_field (k : string) (d : list (string * json)) : option (option Z) :=
  match dict_get k d with None | Some JNull => Some None | Some v => Some <$> dt_parse v end.
Definition dump_server_catalog (c : ServerCatalog) : json := JObj [
  ("server_id", dump (sc_server_id c)); ("discovered_at", dump_datetime (sc_discovered_at c));
  ("engine_version", dump (sc_engine_version c)); ("engine_edition", dump (sc_engine_edition c));
  ("instance_properties", dump (sc_instance_properties c)); ("databases", dump (sc_databases c));
  ("warnings", dump (sc_warnings c)); ("least_privilege", dump (sc_least_privilege c))].
Definition parse_server_catalog : json → option ServerCatalog := object_ignoring (λ d,
  server_id ← field "server_id" d; discovered_at ← datetime_field "discovered_at" d;
  version ← field_or "engine_version" "" d; edition ← field_or "engine_edition" "" d;
  properties ← field_or "instance_properties" [] d; databases ← field_or "databases" [] d;
  warnings ← field_or "warnings" [] d; finding ← field_or "least_privilege" None d;
  Some {| sc_server_id := server_id; sc_discovered_at := discovered_at; sc_engine_version := version;
          sc_engine_edition := edition; sc_instance_properties := properties; sc_databases := databases;
          sc_warnings := warnings; sc_least_privilege := finding |}).
#[export] Instance wire_server_catalog : Wire ServerCatalog :=
  {| dump := dump_server_catalog; parse := parse_server_catalog |}.
(** [catalog.model_dump(mode="json")] in the service *)
Definition write_catalog_json (c : RawCatalog) : option json := dump_server_catalog <$> catalog_json c.
(** the codec of the catalog store *)
#[export] Instance wire_codec : CatalogCodec :=
  {| catalog_dump := dump_server_catalog; catalog_validate := parse_server_catalog |}.
End catalog.

(* ------------------------------------------------------------------ *)
(** ** What was written is read back *)

Lemma dict_get_here {V} (k : string) (v : V) d : dict_get k ((k, v) :: d) = Some v.
Proof. cbn. by rewrite decide_True. Qed.
Lemma dict_get_skip {V} (k k' : string) (v : V) d : String.eqb k k' = false →
  dict_get k ((k', v) :: d) = dict_get k d.
Proof. intros Hk%String.eqb_neq. cbn. by rewrite decide_False. Qed.
Lemma field_here {A} `{WireLaws A} k (a : A) d : field k ((k, dump a) :: d) = Some a.
Proof. unfold field. rewrite dict_get_here. apply parse_dump. Qed.
Lemma field_or_here {A} `{WireLaws A} k dflt (a : A) d : field_or k dflt ((k, dump a) :: d) = Some a.
Proof. unfold field_or. rewrite dict_get_here. apply parse_dump. Qed.
Lemma field_skip {A} `{Wire A} k k' v d : String.eqb k k' = false →
  field (A := A) k ((k', v) :: d) = field k d.
Proof. intros Hk. unfold field. by rewrite dict_get_skip. Qed.
Lemma field_or_skip {A} `{Wire A} k k' (dflt : A) v d : String.eqb k k' = false →
  field_or k dflt ((k', v) :: d) = field_or k dflt d.
Proof. intros Hk. unfold field_or. by rewrite dict_get_skip. Qed.
Lemma option_bind_some {A B} (a : A) (f : A → option B) : Some a ≫= f = f a.
Proof. done. Qed.

(** read the fields of an object in the order they were written *)
Ltac read_fields :=
  repeat first
    [ rewrite option_bind_some
    | rewrite field_here | rewrite field_or_here
    | rewrite field_skip; [reflexivity|] | rewrite field_or_skip; [reflexivity|] ].

Lemma forbidding_none {A} keys (f : list (string * json) → option A) d :
  forallb (λ kv, mem kv.1 keys) d = true → object_forbidding keys f (JObj d) = f d.
Proof. intros Hd. cbn. by rewrite Hd. Qed.
Lemma datetime_here `{IsoDatetime} k o d : datetime_field k ((k, dump_datetime o) :: d) = Some o.
Proof. unfold datetime_field. rewrite dict_get_here. destruct o as [t|]; [|done]. cbn. by rewrite dt_parse_dump. Qed.
Lemma datetime_skip `{IsoDatetime} k k' v d : String.eqb k k' = false →
  datetime_field k ((k', v) :: d) = datetime_field k d.
Proof. intros Hk. unfold datetime_field. by rewrite dict_get_skip. Qed.

Section round_trips.
Context `{PydanticLax} `{IsoDatetime}.
#[export] Instance execution_request_laws : WireLaws ExecutionRequest.
Proof.
  intros []. cbn [parse dump wire_execution_request]. unfold parse_execution_request, dump_execution_request.
  rewrite forbidding_none; [reflexivity|]. by read_fields.
Qed.
#[export] Instance execution_result_laws : WireLaws ExecutionResult.
Proof.
  intros []. cbn [parse dump wire_execution_result]. unfold parse_execution_result, dump_execution_result.
  rewrite forbidding_none; [reflexivity|]. by read_fields.
Qed.
#[export] Instance discovery_request_laws : WireLaws DiscoveryRequest.
Proof.
  intros []. cbn [parse dump wire_discovery_request]. unfold parse_discovery_request, dump_discovery_request.
  rewrite forbidding_none; [reflexivity|]. by read_fields.
Qed.
#[export] Instance discovered_object_laws : WireLaws DiscoveredObject.
Proof.
  intros []. cbn [parse dump wire_discovered_object].
  unfold parse_discovered_object, dump_discovered_object, object_ignoring. by read_fields.
Qed.
#[export] Instance discovered_extension_laws : WireLaws DiscoveredExtension.
Proof.
  intros []. cbn [parse dump wire_discovered_extension].
  unfold parse_discovered_extension, dump_discovered_extension, object_ignoring. by read_fields.
Qed.
#[export] Instance discovered_database_laws : WireLaws DiscoveredDatabase.
Proof.
  intros []. cbn [parse dump wire_discovered_database].
  unfold parse_discovered_database, dump_discovered_database, object_ignoring. by read_fields.
Qed.
#[export] Instance least_privilege_laws : WireLaws LeastPrivilegeFinding.
Proof.
  intros []. cbn [parse dump wire_least_privilege].
  unfold parse_least_privilege, dump_least_privilege, object_ignoring. by read_fields.
Qed.
#[export] Instance not_null_least_privilege : NotNull LeastPrivilegeFinding.
Proof. done. Qed.
#[export] Instance server_catalog_laws : WireLaws ServerCatalog.
Proof.
  intros []. cbn [parse dump wire_server_catalog].
  unfold parse_server_catalog, dump_server_catalog, object_ignoring.
  repeat first [progress read_fields | rewrite datetime_here | rewrite datetime_skip; [reflexivity|]]. done.
Qed.
End round_trips.

(** C33: what the Gateway and the Execution Service exchange survives its JSON.  A request and
    a discovery request are read back exactly as they were written, and so is a catalog the
    Gateway stores.  A result of the service is written unless one of the values in its rows
    or in [affected] has no JSON form, and is then read back with every other field as it was,
    and with every value in its place in its JSON form: a value that is JSON already as it is,
    a datetime or a [Decimal] as its text.  A catalog of the service likewise. *)
Theorem wire_round_trip `{PydanticLax} `{IsoDatetime} request discovery stored
    (result : RawResult) (catalog : RawCatalog) :
  parse_execution_request (dump_execution_request request) = Some request ∧
  parse_discovery_request (dump_discovery_request discovery) = Some discovery ∧
  parse_server_catalog (dump_server_catalog stored) = Some stored ∧
  match write_result_json result with
  | Some v => ∃ read, parse_execution_result v = Some read ∧ carries_result cell_json result read
  | None => ∃ c, c ∈ result_cells result ∧ cell_json c = None
  end ∧
  match write_catalog_json catalog with
  | Some v => ∃ read, parse_server_catalog v = Some read ∧ carries_catalog catalog read
  | None => ∃ c, c ∈ catalog_cells catalog ∧ cell_json c = None
  end.
Proof.
  split_and!; [exact (parse_dump request)|exact (parse_dump discovery)|exact (parse_dump stored)| |].
  - unfold write_result_json. destruct (result_json result) as [read|] eqn:Er; cbn.
    + exists read. split; [exact (parse_dump read)|by apply carry_result_some].
    + by apply carry_result_none.
  - unfold write_catalog_json. destruct (catalog_json catalog) as [read|] eqn:Ec; cbn.
    + exists read. split; [exact (parse_dump read)|by apply catalog_json_some].
    + by apply catalog_json_none.
Qed.

(** a row with a [Decimal] and a datetime is read back with their texts, and one with bytes
    that are no text is not written *)
Definition answer_with (affected : list (string * cell)) : RawResult := {|
  ex_execution_id := "exec_1"; ex_success := true; ex_columns := []; ex_rows := []; ex_row_count := 0;
  ex_truncated := false; ex_affected := affected; ex_error_code := None; ex_error_detail := None;
  ex_verification_status := "NOT_APPLICABLE"; ex_verification_detail := ""; ex_duration_ms := 0 |}.
Lemma written_is_read `{PydanticLax} r read :
  result_json r = Some read → write_result_json r ≫= parse_execution_result = Some read.
Proof. intros Hr. unfold write_result_json. rewrite Hr. exact (parse_dump read). Qed.
Example values_become_texts `{PydanticLax} :
  let r := answer_with [("rows", decimal 12); ("at", timestamp "2024-01-01T00:00:00"); ("n", Plain (JInt 3))] in
  ex_affected <$> (write_result_json r ≫= parse_execution_result)
  = Some [("rows", JStr "12"); ("at", JStr "2024-01-01T00:00:00"); ("n", JInt 3)].
Proof. cbn zeta. erewrite written_is_read; [|vm_compute; reflexivity]. reflexivity. Qed.
Example bytes_are_not_written `{PydanticLax} : write_result_json (answer_with [("query_hash", binary "b'...'")]) = None.
Proof. reflexivity. Qed.

(** the hypothesis of the catalog store's restart theorem holds for its own codec *)
Corollary stored_catalog_survives `{PydanticLax} `{IsoDatetime} c s :
  (store_get (sc_server_id c) (restart (store_put c s))).1 = Some c.
Proof. rewrite catalog_survives_restart; [exact (parse_dump c)|]. by rewrite decide_True. Qed.

(** what a model refuses: a key it has no field for, and a request without its arguments *)
Example forbidden_key `{PydanticLax} :
  parse_discovery_request (JObj [("server_id", JStr "s"); ("platform", JStr "mysql"); ("dsn", JStr "x")]) = None.
Proof. reflexivity. Qed.
Example missing_field `{PydanticLax} : parse_execution_request (JObj [("execution_id", JStr "e")]) = None.
Proof. reflexivity. Qed.
