(* ===== verification/ExecutionApi.v ===== *)
(** The hop between the Gateway and the Execution Service: the service's two endpoints of
    [execution/api/app.py], with the service token they require, and the Gateway's clients of
    [gateway/infrastructure/execution_client.py], over HTTP and in the process.  The state of
    the service is the log of the operations it ran.  A response that does not come in time,
    or a connection that fails, are what the link does with a call. *)
From S2P Require Import Prelude ProgramLogic Json Models ToolCatalog Servers Policy RateLimit Approval.
From S2P Require Import DataPolicy Discovery Gateway Identity Endpoints Config Cells Execution Credentials.
From S2P Require Import Adapters AdapterFacts Connections Crawlers Wire.

(** what the service ran *)
Inductive Operation : Type :=
| Executed (request : ExecutionRequest)
| Discovered (request : DiscoveryRequest).

(** the link during one call: a failure before the request arrives, or the seconds until the
    response has come back *)
Record Link : Type := { ln_connect : res exn unit; ln_elapsed : Z }.

Section hop.
Context `{PydanticLax} `{IsoDatetime} `{TimedSerializer}.
(** the drivers and the credentials of the service *)
Context {D : Type} `{DatabaseDriver D} (provider : string → res exn DatabaseCredentials).
Context (py_repr : json → string) (int_of_text : string → option Z).
Context (invalid_text : db_row → string) (str_of_container : pyval → string).
Context (since_text : Z → string).

(* ------------------------------------------------------------------ *)
(** ** execution/api/app.py *)

Section app.
Context (cfg : Settings) (now_seconds now duration_ms : Z).
#[local] Instance service_backend : ExecutionBackend :=
  engine_backend (D := D) str_of_container since_text py_repr provider.

(** [require_gateway_service_token] *)
Definition require_gateway_service_token (x_service_token : option ts_token) : res http_error unit :=
  match x_service_token with
  | None => Err (HTTPException 401 "Missing service token.")
  | Some token =>
      match verify_token (st_service_jwt_secret cfg) (st_service_jwt_issuer cfg) token
              (st_execution_service_token_audience cfg) now_seconds with
      | Ok _ => Ok tt
      | Err _ => Err (HTTPException 401 "Invalid service token.")
      end
  end.

(** a route: the token, then the body, then the operation, then the response; an exception is
    a 500, one of the operation as well as one of writing its answer *)
Definition route {A B} `{Wire A} (operation : A → Operation) (written : B → option json)
    (serve : A → res exn B) (token : option ts_token) (body : json) : M (list Operation) http_error json :=
  _ ← lift_res (require_gateway_service_token token);
  match parse body with
  | None => raise (HTTPException 422 "")
  | Some request =>
      _ ← modify (λ log, log ++ [operation request]);
      lift_res (match carried written (serve request) with Ok v => Ok v | Err e => Err (Unhandled e) end)
  end.

(** [discover] outside of a test *)
Definition serve_discovery (request : DiscoveryRequest) : res exn RawCatalog :=
  creds ← provider (dq_server_id request);
  (run_discovery py_repr int_of_text invalid_text now str_of_container creds
     (dq_max_objects_per_database request) (dq_server_id request) (dq_platform request)
     {| cw_events := []; cw_database := new_database "" "" None [] |}).1.

Definition post_execute : option ts_token → json → M (list Operation) http_error json :=
  route Executed write_result_json (service_execute duration_ms).
Definition post_discover : option ts_token → json → M (list Operation) http_error json :=
  route Discovered write_catalog_json serve_discovery.

(** [InProcessExecutionClient] *)
Definition in_process_execute (request : ExecutionRequest) : M (list Operation) exn RawResult :=
  _ ← modify (λ log, log ++ [Executed request]); lift_res (service_execute duration_ms request).
Definition in_process_discover (request : DiscoveryRequest) : M (list Operation) exn RawCatalog :=
  _ ← modify (λ log, log ++ [Discovered request]); lift_res (serve_discovery request).
End app.

(* ------------------------------------------------------------------ *)
(** ** HttpExecutionClient *)

Definition http_status (e : http_error) : Z := match e with HTTPException s _ => s | Unhandled _ => 500 end.
(** [raise_for_status] and [model_validate(response.json())] *)
Definition http_answer {A} `{Wire A} (response : res http_error json) : res exn A :=
  match response with
  | Err e => Err (PyError "HTTPStatusError" (pretty (http_status e)))
  | Ok v => match parse v with Some a => Ok a | None => Err (PyError "ValidationError" "") end
  end.
(** one POST under a timeout: the service runs it whether or not the response is in time *)
Definition http_post {A} `{Wire A} (link : Link) (timeout : Z) (handler : M (list Operation) http_error json)
    : M (list Operation) exn A := λ log,
  match ln_connect link with
  | Err e => (Err e, log)
  | Ok _ =>
      let '(response, log) := handler log in
      if (timeout <? ln_elapsed link)%Z then (Err (PyError "ReadTimeout" ""), log)
      else (http_answer response, log)
  end.

(** the Gateway's settings and the service's; the seconds when a token is issued and verified *)
Section client.
Context (gateway service : Settings) (issued now_seconds now duration_ms : Z) (link : Link).
Definition execution_token : ts_token :=
  issue_token (st_service_jwt_secret gateway) (st_service_jwt_issuer gateway) issued "gateway"
    (st_execution_service_token_audience gateway).
Definition http_execute (request : ExecutionRequest) : M (list Operation) exn ExecutionResult :=
  http_post link (er_max_execution_time request + 5)
    (post_execute service now_seconds duration_ms (Some execution_token) (dump request)).
Definition http_discover (request : DiscoveryRequest) : M (list Operation) exn ServerCatalog :=
  http_post link 300 (post_discover service now_seconds now (Some execution_token) (dump request)).
End client.

(* ------------------------------------------------------------------ *)
(** ** Facts *)

(** the settings of the two processes that have to agree *)
Definition same_service_keys (a b : Settings) : Prop :=
  st_service_jwt_secret a = st_service_jwt_secret b ∧ st_service_jwt_issuer a = st_service_jwt_issuer b ∧
  st_execution_service_token_audience a = st_execution_service_token_audience b.
Definition link_delivers (link : Link) (timeout : Z) : Prop :=
  ln_connect link = Ok tt ∧ (ln_elapsed link ≤ timeout)%Z.

Lemma fresh_token_accepted gateway service issued now_seconds :
  same_service_keys gateway service → (issued ≤ now_seconds ≤ issued + MAX_TOKEN_AGE)%Z →
  require_gateway_service_token service now_seconds (Some (execution_token gateway issued)) = Ok tt.
Proof.
  intros (Hs & Hi & Ha) Hn. unfold require_gateway_service_token, execution_token, verify_token, issue_token.
  rewrite Hs Ha Hi ts_fresh //. cbn. by rewrite !bool_decide_true.
Qed.

(** a route runs one operation at most, the one of the body, and only for a token it accepts *)
Definition route_log {A} `{Wire A} (cfg : Settings) (now_seconds : Z) (operation : A → Operation)
    (token : option ts_token) (body : json) (log log' : list Operation) : Prop :=
  log' = log ∨ ∃ request, log' = log ++ [operation request] ∧ parse body = Some request ∧
    require_gateway_service_token cfg now_seconds token = Ok tt.
Lemma route_runs {A B} `{Wire A} cfg now_seconds (operation : A → Operation) (written : B → option json)
    (serve : A → res exn B) token body log :
  route_log cfg now_seconds operation token body log
    (route cfg now_seconds operation written serve token body log).2.
Proof.
  unfold route, mbind, M_bind, lift_res.
  destruct (require_gateway_service_token cfg now_seconds token) as [[]|e] eqn:Et; [|by left].
  cbn. destruct (parse body) as [request|] eqn:Ep; [|by left]. right. by exists request.
Qed.

(** An operation reaches the databases only with a service token: whatever is posted to the
    service and by whom, an endpoint runs at most one operation, the one its body parses to, and
    runs it only if the token is one this service accepts; in particular a token made for
    another audience, with another secret or by another issuer, more than a minute ago, or none,
    runs nothing and is client_view 401. *)
Theorem execution_needs_a_service_token cfg now_seconds now duration_ms token body log :
  let executed := post_execute cfg now_seconds duration_ms token body log in
  let discovered := post_discover cfg now_seconds now token body log in
  route_log cfg now_seconds Executed token body log executed.2 ∧
  route_log cfg now_seconds Discovered token body log discovered.2 ∧
  (∀ secret issuer issued name audience, (issued ≤ now_seconds)%Z →
     token = None ∨
     token = Some (issue_token secret issuer issued name audience) ∧
       ((st_service_jwt_secret cfg, st_execution_service_token_audience cfg) ≠ (secret, audience) ∨
        (issued + MAX_TOKEN_AGE < now_seconds)%Z ∨ st_service_jwt_issuer cfg ≠ issuer) →
     ∃ detail, executed = (Err (HTTPException 401 detail), log) ∧
               discovered = (Err (HTTPException 401 detail), log)).
Proof.
  cbn zeta. split_and!; [apply route_runs..|].
  intros secret issuer issued name audience Hi Hbad.
  enough (∃ detail, require_gateway_service_token cfg now_seconds token = Err (HTTPException 401 detail)) as (detail & Hr).
  { exists detail. unfold post_execute, post_discover, route, mbind, M_bind, lift_res. by rewrite Hr. }
  destruct Hbad as [->|[-> Hbad]]; [by eexists|]. cbn.
  destruct (verify_token _ _ _ _ _) as [identity|e] eqn:Ev; [|by eexists]. exfalso.
  unfold verify_token, issue_token in Ev.
  destruct (decide ((st_service_jwt_secret cfg, st_execution_service_token_audience cfg) = (secret, audience)))
    as [[= <- <-]|Hne]; [|by rewrite ts_foreign in Ev].
  destruct Hbad as [?|[Hold|Hiss]]; [done|by rewrite ts_old in Ev|].
  destruct (decide (now_seconds ≤ issued + MAX_TOKEN_AGE)%Z).
  - rewrite ts_fresh // in Ev. cbn in Ev. rewrite (bool_decide_false (Some issuer = _)) in Ev; [|done]. intros [= ->]. by apply Hiss.
  - rewrite ts_old // in Ev. lia.
Qed.

(** what the client makes of what the service gives *)
Definition client_view {A} (r : res exn A) : res exn A :=
  match r with Ok a => Ok a | Err _ => Err (PyError "HTTPStatusError" "500") end.

Lemma http_post_delivers {A B C} `{WireLaws A, WireLaws C} service now_seconds (operation : A → Operation)
    (form : B → option C) (serve : A → res exn B) gateway issued link timeout request log :
  same_service_keys gateway service → (issued ≤ now_seconds ≤ issued + MAX_TOKEN_AGE)%Z →
  link_delivers link timeout →
  http_post link timeout (route service now_seconds operation (λ b, dump <$> form b) serve
    (Some (execution_token gateway issued)) (dump request)) log
  = (client_view (carried form (serve request)), log ++ [operation request]).
Proof.
  intros Hk Hn [Hc Ht]. unfold http_post. rewrite Hc. unfold route, mbind, M_bind, lift_res.
  rewrite fresh_token_accepted //. cbn. rewrite parse_dump. cbn.
  destruct (Z.ltb_spec timeout (ln_elapsed link)); [lia|].
  destruct (serve request) as [b|e]; cbn; [|done]. destruct (form b) as [c|]; cbn; [by rewrite parse_dump|done].
Qed.

(** at most the call's own operation, and an answer only of that operation: the JSON form of
    what it gave *)
Definition at_most_once {A B C} (operation : A → Operation) (form : B → option C) (serve : A → res exn B)
    (request : A) (log : list Operation) (r : res exn C * list Operation) : Prop :=
  (r.2 = log ∧ ∃ e, r.1 = Err e) ∨
  (r.2 = log ++ [operation request] ∧ ∀ c, r.1 = Ok c → ∃ b, serve request = Ok b ∧ form b = Some c).
Lemma http_post_at_most_once {A B C} `{WireLaws A, WireLaws C} service now_seconds (operation : A → Operation)
    (form : B → option C) (serve : A → res exn B) token link timeout request log :
  at_most_once operation form serve request log
    (http_post link timeout
       (route service now_seconds operation (λ b, dump <$> form b) serve (Some token) (dump request)) log).
Proof.
  unfold at_most_once, http_post. destruct (ln_connect link) as [u|e]; [|left; by eauto].
  unfold route, mbind, M_bind, lift_res.
  destruct (require_gateway_service_token _ _ _) as [[]|e]; cbn;
    [|left; destruct (_ <? _)%Z; by eauto].
  rewrite parse_dump. cbn. right. destruct (_ <? _)%Z; [done|]. split; [done|]. cbn.
  destruct (serve request) as [b|e]; cbn; [|done]. destruct (form b) as [c|] eqn:Ef; cbn; [|done].
  rewrite parse_dump. intros c' [= <-]. by exists b.
Qed.

(** C9: the HTTP client of the Gateway refines the call in the process.  With the same keys, a
    token verified within its minute and a response in time, it runs the operation once and
    gives the result of the call in the process in its JSON form: every field as it is, and
    every value a driver put in a cell as JSON carries it; an exception of the service, and a
    result one value of which has no JSON form, are a 500 of an operation that was run.  And
    whatever the keys, the delays and the link, a call runs its operation at most once, an
    answer is the JSON form of what that one run gave, and a failure never invents one. *)
Theorem http_execution_refines_in_process gateway service issued now_seconds now duration_ms link
    request discovery log :
  (same_service_keys gateway service → (issued ≤ now_seconds ≤ issued + MAX_TOKEN_AGE)%Z →
   (link_delivers link (er_max_execution_time request + 5) →
      http_execute gateway service issued now_seconds duration_ms link request log
      = (client_view (carried result_json (in_process_execute duration_ms request log).1), (in_process_execute duration_ms request log).2)) ∧
   (link_delivers link 300 →
      http_discover gateway service issued now_seconds now link discovery log
      = (client_view (carried catalog_json (in_process_discover now discovery log).1), (in_process_discover now discovery log).2))) ∧
  at_most_once Executed result_json (service_execute (H := service_backend) duration_ms) request log
    (http_execute gateway service issued now_seconds duration_ms link request log) ∧
  at_most_once Discovered catalog_json (serve_discovery now) discovery log
    (http_discover gateway service issued now_seconds now link discovery log).
Proof.
  split_and!; [|exact (http_post_at_most_once service now_seconds Executed result_json _ _ link _ request log)
              |exact (http_post_at_most_once service now_seconds Discovered catalog_json _ _ link _ discovery log)].
  intros Hk Hn.
  split; intros Hl.
  - exact (http_post_delivers service now_seconds Executed result_json _ gateway issued link _ request log Hk Hn Hl).
  - exact (http_post_delivers service now_seconds Discovered catalog_json _ gateway issued link _ discovery log Hk Hn Hl).
Qed.

(** an operation that succeeded is lost to the Gateway when one value of its answer has no JSON
    form: the bytes of [query_hash] in a plan of SQL Server, for one *)
Theorem unwritable_answer_is_a_500 gateway service issued now_seconds duration_ms link request log result c :
  same_service_keys gateway service → (issued ≤ now_seconds ≤ issued + MAX_TOKEN_AGE)%Z →
  link_delivers link (er_max_execution_time request + 5) →
  service_execute (H := service_backend) duration_ms request = Ok result →
  c ∈ result_cells result → cell_json c = None →
  http_execute gateway service issued now_seconds duration_ms link request log
  = (Err (PyError "HTTPStatusError" "500"), log ++ [Executed request]).
Proof.
  intros Hk Hn Hl Hr Hc Hj.
  etrans; [exact (http_post_delivers service now_seconds Executed result_json _ gateway issued link _ request log Hk Hn Hl)|].
  assert (result_json result = None) as Hnone by (apply carry_result_none; eauto).
  unfold carried. rewrite Hr. cbn -[result_json]. by rewrite Hnone.
Qed.
End hop.

(* ------------------------------------------------------------------ *)
(** ** A call over HTTP *)

#[local] Existing Instance symbolic_serializer.
#[local] Existing Instance strict_lax.
(** times as binary texts *)
Fixpoint bits_of (p : positive) : string :=
  match p with xH => "" | xO p => String "0" (bits_of p) | xI p => String "1" (bits_of p) end.
Fixpoint of_bits (s : string) : positive :=
  match s with
  | EmptyString => xH
  | String c s => if bool_decide (c = "0"%char) then xO (of_bits s) else xI (of_bits s)
  end.
Lemma of_bits_of p : of_bits (bits_of p) = p.
Proof. induction p as [p IH|p IH|]; cbn; [by rewrite IH..|done]. Qed.
#[local] Instance binary_datetimes : IsoDatetime.
Proof.
  refine {| dt_dump t := bits_of (encode t);
            dt_parse v := match v with JStr s => decode (of_bits s) | _ => None end |}.
  intros t. rewrite of_bits_of. apply decode_encode.
Defined.

(** a PostgreSQL server that knows its version, and when it started *)
#[local] Instance version_driver : DatabaseDriver unit := {|
  driver_connect _ _ := Ok tt; driver_close _ := Ok tt;
  cursor_execute _ sql _ := (1%Z, Ok {|
    cr_rowcount := 1; cr_description := Some ["version"; "started"];
    cr_fetchall := Ok [[Plain (JStr "PostgreSQL 16"); timestamp "2024-01-01T00:00:00Z"]];
    cr_fetchall_dicts := Ok []; cr_fetchone := Ok None |}) |}.
Definition one_login (server_id : string) : res exn DatabaseCredentials :=
  Ok {| dc_host := "h"; dc_port := 5432; dc_username := "u"; dc_password := "p"; dc_database := "postgres";
        dc_options := [] |}.
Definition version_request : ExecutionRequest := request_for "database.get_version" POSTGRESQL.
Definition crawl_request : DiscoveryRequest :=
  {| dq_server_id := "s"; dq_platform := ORACLE; dq_max_objects_per_database := 10 |}.
Definition quick_link : Link := {| ln_connect := Ok tt; ln_elapsed := 1 |}.
Definition slow_link : Link := {| ln_connect := Ok tt; ln_elapsed := 60 |}.
Definition posted_version (link : Link) : res exn ExecutionResult * list Operation :=
  http_execute one_login (λ _, "") (λ _, "") (λ _, "") default_settings default_settings 100 130 0 link
    version_request [].

Lemma http_execution_refines_in_process_witness :
  ex_rows <$> (posted_version quick_link).1 = Ok [[("version", JStr "PostgreSQL 16"); ("started", JStr "2024-01-01T00:00:00Z")]] ∧
  posted_version quick_link
  = (client_view (carried result_json (in_process_execute one_login (λ _, "") (λ _, "") (λ _, "") 0 version_request []).1),
     (in_process_execute one_login (λ _, "") (λ _, "") (λ _, "") 0 version_request []).2).
Proof.
  split; [vm_compute; reflexivity|].
  apply (proj1 (http_execution_refines_in_process one_login (λ _, "") (λ _, None) (λ _, "") (λ _, "") (λ _, "")
    default_settings default_settings 100 130 0 0 quick_link version_request crawl_request [])).
  - by split.
  - unfold MAX_TOKEN_AGE. lia.
  - split; [reflexivity|]. cbn. lia.
Defined.

(** a SQL Server with one plan, whose [query_hash] is [binary(8)] *)
Module Plans.
#[local] Instance plan_driver : DatabaseDriver unit := {|
  driver_connect _ _ := Ok tt; driver_close _ := Ok tt;
  cursor_execute _ sql _ := (1%Z, Ok {|
    cr_rowcount := 1; cr_description := Some ["plan_id"; "query_hash"];
    cr_fetchall := Ok [[Plain (JInt 7); binary "b'óÁ'"]]; cr_fetchall_dicts := Ok []; cr_fetchone := Ok None |}) |}.
Definition plan_request : ExecutionRequest :=
  {| er_execution_id := "exec_1"; er_tool_id := "database.get_query_plan"; er_tool_version := "1.0.0";
     er_platform := SQLSERVER; er_server_id := "s"; er_database := "d"; er_schema_name := None;
     er_object_name := None; er_session_id := None; er_query_id := None;
     er_arguments := [("query_id", JStr "7")]; er_max_execution_time := 30; er_max_result_rows := 2 |}.
Lemma unwritable_answer_is_a_500_witness :
  let served := service_execute (H := engine_backend (λ _, "") (λ _, "") (λ _, "") one_login) 0 plan_request in
  ex_success <$> served = Ok true ∧
  http_execute one_login (λ _, "") (λ _, "") (λ _, "") default_settings default_settings 100 130 0 quick_link
    plan_request [] = (Err (PyError "HTTPStatusError" "500"), [Executed plan_request]).
Proof.
  cbn zeta. split; [vm_compute; reflexivity|].
  eapply (unwritable_answer_is_a_500 one_login (λ _, "") (λ _, "") (λ _, "") default_settings default_settings
    100 130 0 quick_link plan_request [] _ (binary "b'óÁ'")).
  - by split.
  - unfold MAX_TOKEN_AGE. lia.
  - split; [reflexivity|]. cbn. lia.
  - vm_compute. reflexivity.
  - right. left.
  - reflexivity.
Defined.
End Plans.

(** a response that comes too late is a failure of an operation that was run *)
Example late_response :
  posted_version slow_link = (Err (PyError "ReadTimeout" ""), [Executed version_request]).
Proof. vm_compute. reflexivity. Qed.

Lemma execution_needs_a_service_token_witness :
  let token := issue_token (st_service_jwt_secret default_settings) (st_service_jwt_issuer default_settings)
                 100 "channels" "numi-agent" in
  ∃ detail, post_execute one_login (λ _, "") (λ _, "") (λ _, "") default_settings 130 0 (Some token)
              (dump version_request) [] = (Err (HTTPException 401 detail), []).
Proof.
  cbn zeta.
  destruct (proj2 (proj2 (execution_needs_a_service_token one_login (λ _, "") (λ _, None) (λ _, "") (λ _, "")
    (λ _, "") default_settings 130 0 0
    (Some (issue_token (st_service_jwt_secret default_settings) (st_service_jwt_issuer default_settings)
             100 "channels" "numi-agent")) (dump version_request) []))
    (st_service_jwt_secret default_settings) (st_service_jwt_issuer default_settings) 100%Z "channels" "numi-agent")
    as (detail & He & _); [lia|right; split; [reflexivity|left; discriminate]|].
  by exists detail.
Defined.
