(* ===== verification/Startup.v ===== *)
(** Starting a process: what [common/identity/factory.py], the [create_app] of the Gateway and of
    the Execution Service and [gateway/api/state.py] build from the settings, the discovery a
    Gateway may begin with, and the redaction of log lines of [common/observability.py]. *)
From S2P Require Import Prelude ProgramLogic Json Text Models ToolCatalog Servers Policy RateLimit Approval.
From S2P Require Import DataPolicy Discovery Gateway Identity Endpoints Config Execution Credentials OfflinePlanner.

(* ------------------------------------------------------------------ *)
(** ** factory.py *)

Inductive IdentityChoice : Type :=
| MockDirectory (identity_config_path : string)
| OidcDirectory (issuer client_id client_secret identity_config_path : string).

(** [build_identity_provider] *)
Definition build_identity_provider (s : Settings) : res exn IdentityChoice :=
  let name := str_lower (str_strip (st_identity_provider s)) in
  if bool_decide (name = "mock") then Ok (MockDirectory (st_identity_config_path s))
  else if bool_decide (name = "oidc") then
    if negb (truthy (st_oidc_issuer s)) then
      Err (numi_error DEPENDENCY_UNAVAILABLE
        ("IDENTITY_PROVIDER=oidc but OIDC_ISSUER is not set. Refusing to start "
         +:+ "with an identity provider that could never resolve anyone."))
    else Ok (OidcDirectory (st_oidc_issuer s) (st_oidc_client_id s) (st_oidc_client_secret s)
               (st_identity_config_path s))
  else Err (numi_error DEPENDENCY_UNAVAILABLE
    ("Unknown identity provider '" +:+ st_identity_provider s +:+ "'. Expected one of: mock | oidc.")).

(* ------------------------------------------------------------------ *)
(** ** The processes *)

(** [_build_rate_limit_backend] *)
Inductive BackendChoice : Type := RedisBackend (url : string) | InMemoryBackend.
Definition build_rate_limit_backend (s : Settings) : BackendChoice :=
  if bool_decide (st_rate_limit_backend s = "redis") then RedisBackend (st_redis_url s) else InMemoryBackend.

(** what [GatewayState.build] chooses by the settings *)
Record GatewayWiring : Type := {
  gw_identity : IdentityChoice;
  gw_rate_limits : BackendChoice;
  gw_execution_base_url : string;
  gw_execution_audience : string;
  gw_jwt : string * string
}.
Definition build_gateway (s : Settings) : res exn GatewayWiring :=
  identity ← build_identity_provider s;
  Ok {| gw_identity := identity; gw_rate_limits := build_rate_limit_backend s;
        gw_execution_base_url := st_execution_base_url s;
        gw_execution_audience := st_execution_service_token_audience s;
        gw_jwt := (st_service_jwt_secret s, st_service_jwt_issuer s) |}.

(** [create_app] of the Gateway and of the Execution Service *)
Definition start_gateway (s : Settings) : res exn GatewayWiring :=
  _ ← validate_for_production s; build_gateway s.
Definition start_execution (s : Settings) : res exn CredentialProvider :=
  _ ← validate_for_production s; build_credential_provider s.

(** [_startup_discovery]: the report, or nothing when it failed *)
Definition startup_discovery {C} `{CatalogStore C} (discover : string → Platform → Z → res exn ServerCatalog)
    (max_objects : Z) (entries : list ServerEntry) : M C exn (option (list (string * string))) :=
  try_except (results ← refresh_all discover max_objects entries; mret (Some results)) (λ _, mret None).

(* ------------------------------------------------------------------ *)
(** ** observability.py *)

Definition dash_or_underscore : regex := ROpt (RChars ["_"%char; "-"%char]).
Definition SENSITIVE_KEYS : regex := ralts
  [rlit "password"; rlit "secret"; rlit "token"; rseqs [rlit "api"; dash_or_underscore; rlit "key"];
   rlit "credential"; rseqs [rlit "connection"; dash_or_underscore; rlit "string"]; rlit "authorization";
   rseqs [rlit "access"; dash_or_underscore; rlit "key"]].
Definition REDACTED : json := JStr "***REDACTED***".
(** [_redact_sensitive] *)
Definition redact_sensitive (event_dict : list (string * json)) : list (string * json) :=
  map (λ '(key, v), (key, if rsearch SENSITIVE_KEYS key then REDACTED else v)) event_dict.

Example sensitive_keys : map (rsearch SENSITIVE_KEYS) ["db_Password"; "x-api-key"; "ACCESSKEY"; "apikey"; "user"; "host"]
  = [true; true; true; true; false; false].
Proof. vm_compute. reflexivity. Qed.

(* ------------------------------------------------------------------ *)
(** ** Facts *)

Lemma no_violation_app {A} (l m : list A) : l ++ m = [] → l = [] ∧ m = [].
Proof. apply app_eq_nil. Qed.
(** what a production process that starts has passed *)
Lemma production_checked s : is_production s = true → validate_for_production s = Ok tt →
  st_identity_provider s ≠ "mock" ∧ st_secrets_provider s ≠ "local_dev" ∧
  st_service_jwt_secret s ≠ "dev-only-insecure-secret-change-me" ∧ st_rate_limit_backend s = "redis".
Proof.
  intros Hp. unfold validate_for_production, production_violations. rewrite Hp. cbn [negb].
  destruct (_ ++ _) eqn:Ev; [|done]. intros _. apply no_violation_app in Ev as [_ Ev].
  repeat case_bool_decide; cbn in Ev; done.
Qed.

Definition MANAGED_PROVIDERS : list string :=
  ["vault"; "aws_secrets_manager"; "azure_key_vault"; "gcp_secret_manager"].

(** C34: what a production process starts with.  A Gateway counts its rate limits in Redis, signs
    with a secret of its own and finds people through OIDC with an issuer, unless the setting
    names the mock directory in another spelling; an Execution Service reads its credentials
    from one of the four managers; and a setting that names neither provider starts nothing, in
    any environment. *)
Theorem production_starts_are_real s :
  (∀ w, is_production s = true → start_gateway s = Ok w →
     gw_rate_limits w = RedisBackend (st_redis_url s) ∧ (gw_jwt w).1 ≠ "dev-only-insecure-secret-change-me" ∧
     match gw_identity w with
     | OidcDirectory issuer _ _ _ => issuer ≠ "" ∧ issuer = st_oidc_issuer s
     | MockDirectory _ => st_identity_provider s ≠ "mock" ∧
                          str_lower (str_strip (st_identity_provider s)) = "mock"
     end) ∧
  (∀ p, is_production s = true → start_execution s = Ok p → provider_name p ∈ MANAGED_PROVIDERS) ∧
  (str_lower (str_strip (st_identity_provider s)) ∉ ["mock"; "oidc"] → ∃ e, start_gateway s = Err e).
Proof.
  split_and!.
  - intros w Hp. unfold start_gateway. destruct (validate_for_production s) as [[]|] eqn:Ev; [|done]. cbn.
    pose proof (production_checked s Hp Ev) as (Hi & _ & Hj & Hr).
    unfold build_gateway, build_identity_provider, build_rate_limit_backend. rewrite (bool_decide_true _ Hr).
    case_bool_decide as Hm; cbn [mbind res_bind]; [intros [= <-]; cbn; by split_and!|].
    case_bool_decide; cbn [mbind res_bind]; [|done].
    destruct (truthy (st_oidc_issuer s)) eqn:Et; cbn; [|done]. intros [= <-]. cbn.
    by apply truthy_spec in Et.
  - intros p Hp. unfold start_execution. destruct (validate_for_production s) as [[]|] eqn:Ev; [|done]. cbn.
    pose proof (production_checked s Hp Ev) as (_ & Hs & _ & _).
    unfold build_credential_provider, MANAGED_PROVIDERS. repeat case_bool_decide; try done; intros [= <-]; cbn; set_solver.
  - intros Hn. unfold start_gateway, build_gateway, build_identity_provider.
    destruct (validate_for_production s) as [[]|e]; cbn; [|by eexists].
    rewrite !bool_decide_false; [set_solver|set_solver|by eexists].
Qed.

(** the gate compares the exact spelling, the factory a normalised one: a production Gateway
    starts on the mock directory *)
Definition production_settings : Settings := default_settings
  <| st_numi_env := "production" |> <| st_openai_api_key := "k" |> <| st_secrets_provider := "vault" |>
  <| st_service_jwt_secret := "a real one" |> <| st_rate_limit_backend := "redis" |>.
Theorem mock_directory_in_production :
  start_gateway (production_settings <| st_identity_provider := "mock" |>) ≠
    start_gateway (production_settings <| st_identity_provider := "Mock" |>) ∧
  gw_identity <$> start_gateway (production_settings <| st_identity_provider := "Mock" |>)
    = Ok (MockDirectory (st_identity_config_path default_settings)).
Proof. split; vm_compute; [discriminate|reflexivity]. Qed.

Lemma production_starts_are_real_witness :
  let s := production_settings <| st_identity_provider := "oidc" |> <| st_oidc_issuer := "https://idp" |> in
  ∃ w, start_gateway s = Ok w ∧ gw_rate_limits w = RedisBackend (st_redis_url s).
Proof.
  cbn zeta. eexists. split; [vm_compute; reflexivity|].
  eapply (proj1 (production_starts_are_real
    (production_settings <| st_identity_provider := "oidc" |> <| st_oidc_issuer := "https://idp" |>)));
    vm_compute; reflexivity.
Defined.

(** the discovery at start-up never stops the Gateway *)
Lemma startup_discovery_total {C} `{CatalogStore C} discover max_objects entries :
  total (startup_discovery (C := C) discover max_objects entries).
Proof. apply total_try. intros e. apply total_ret. Qed.

(** Log lines.  Redaction keeps the keys of an event and their order, replaces every value
    under a key that names a secret, keeps every other value, and done twice does no more. *)
Theorem log_redaction event_dict :
  (redact_sensitive event_dict).*1 = event_dict.*1 ∧
  Forall2 (λ before after, after.2 = if rsearch SENSITIVE_KEYS before.1 then REDACTED else before.2)
    event_dict (redact_sensitive event_dict) ∧
  redact_sensitive (redact_sensitive event_dict) = redact_sensitive event_dict.
Proof.
  split_and!.
  - induction event_dict as [|[k v] d IH]; [done|]. cbn. by f_equal.
  - induction event_dict as [|[k v] d IH]; by constructor.
  - unfold redact_sensitive. rewrite map_map. apply map_ext. intros [k v].
    by destruct (rsearch SENSITIVE_KEYS k) eqn:E; rewrite ?E.
Qed.
(** a secret inside a value is printed *)
Theorem nested_secrets_are_logged :
  redact_sensitive [("raw_response", JObj [("password", JStr "hunter2")])]
  = [("raw_response", JObj [("password", JStr "hunter2")])].
Proof. vm_compute. reflexivity. Qed.
