(* ===== verification/Migrations.v ===== *)
(** The control database: the tables of [gateway/infrastructure/db/models.py] and the revisions
    of [migrations/versions] that bring a deployed database to them.  A schema is the tables by
    name, each with its columns and its indexes by name, so that equal schemas are equal maps
    whatever the order things were created in. *)
From S2P Require Import Prelude ProgramLogic Models.

(* ------------------------------------------------------------------ *)
(** ** Schemas *)

Inductive ColumnType : Type := TString | TText | TJson | TBoolean | TInteger | TDateTime (timezone : bool).
Record ColumnDef : Type := {
  cd_type : ColumnType; cd_nullable : bool; cd_primary_key : bool; cd_unique : bool; cd_references : option string }.
(** an index: its columns, and whether it is unique *)
Record Table : Type := { tb_columns : gmap string ColumnDef; tb_indexes : gmap string (list string * bool) }.
Abbreviation Schema := (gmap string Table).

#[export] Instance ColumnType_eq_dec : EqDecision ColumnType.
Proof. solve_decision. Defined.
#[export] Instance ColumnDef_eq_dec : EqDecision ColumnDef.
Proof. solve_decision. Defined.
#[export] Instance Table_eq_dec : EqDecision Table.
Proof. solve_decision. Defined.

(** *** What a revision does to a schema; the database refuses what is already there, and what
    is not there *)
Definition refused (what name : string) : exn := PyError "OperationalError" (what +:+ " " +:+ name).
Definition get_table (name : string) : M Schema exn Table := λ db,
  (match db !! name with Some t => Ok t | None => Err (refused "no such table" name) end, db).
Definition create_table (name : string) (columns : list (string * ColumnDef)) : M Schema exn unit := λ db,
  match db !! name with
  | Some _ => (Err (refused "table exists" name), db)
  | None => (Ok tt, <[name := {| tb_columns := list_to_map columns; tb_indexes := ∅ |}]> db)
  end.
Definition drop_table (name : string) : M Schema exn unit := λ db,
  match db !! name with
  | Some _ => (Ok tt, delete name db)
  | None => (Err (refused "no such table" name), db)
  end.
Definition set_table (name : string) (t : Table) : M Schema exn unit := modify (λ db, <[name := t]> db).
Definition add_column (table name : string) (c : ColumnDef) : M Schema exn unit :=
  t ← get_table table;
  match tb_columns t !! name with
  | Some _ => raise (refused "duplicate column" name)
  | None => set_table table {| tb_columns := <[name := c]> (tb_columns t); tb_indexes := tb_indexes t |}
  end.
Definition drop_column (table name : string) : M Schema exn unit :=
  t ← get_table table;
  match tb_columns t !! name with
  | Some _ => set_table table {| tb_columns := delete name (tb_columns t); tb_indexes := tb_indexes t |}
  | None => raise (refused "no such column" name)
  end.
Definition create_index (name table : string) (columns : list string) (is_unique : bool) : M Schema exn unit :=
  t ← get_table table;
  match tb_indexes t !! name with
  | Some _ => raise (refused "index exists" name)
  | None => set_table table {| tb_columns := tb_columns t;
                               tb_indexes := <[name := (columns, is_unique)]> (tb_indexes t) |}
  end.
Definition drop_index (name table : string) : M Schema exn unit :=
  t ← get_table table;
  match tb_indexes t !! name with
  | Some _ => set_table table {| tb_columns := tb_columns t; tb_indexes := delete name (tb_indexes t) |}
  | None => raise (refused "no such index" name)
  end.

(** the inspector *)
Definition has_table (name : string) : M Schema exn bool := λ db, (Ok (bool_decide (is_Some (db !! name))), db).
Definition has_column (table name : string) : M Schema exn bool :=
  t ← get_table table; mret (bool_decide (is_Some (tb_columns t !! name))).
Definition unless (b : bool) (m : M Schema exn unit) : M Schema exn unit := if b then mret tt else m.

(* ------------------------------------------------------------------ *)
(** ** models.py *)

(** a mapped column, as it is declared; what a row gets by default is the application's *)
Record MappedColumn : Type := {
  mc_name : string; mc_type : ColumnType; mc_nullable : bool; mc_primary_key : bool; mc_unique : bool;
  mc_index : bool; mc_references : option string }.
#[export] Instance MappedColumn_rebuild : Rebuild MappedColumn := λ c, {|
  mc_name := mc_name c; mc_type := mc_type c; mc_nullable := mc_nullable c; mc_primary_key := mc_primary_key c;
  mc_unique := mc_unique c; mc_index := mc_index c; mc_references := mc_references c |}.
Record ModelTable : Type := {
  mt_name : string; mt_columns : list MappedColumn; mt_indexes : list (string * list string * bool) }.

Definition required (name : string) (t : ColumnType) : MappedColumn :=
  {| mc_name := name; mc_type := t; mc_nullable := false; mc_primary_key := false; mc_unique := false;
     mc_index := false; mc_references := None |}.
Definition nullable (name : string) (t : ColumnType) : MappedColumn := (required name t) <| mc_nullable := true |>.
Definition primary_key (name : string) : MappedColumn := (required name TString) <| mc_primary_key := true |>.
Definition unique (c : MappedColumn) : MappedColumn := c <| mc_unique := true |>.
Definition indexed (c : MappedColumn) : MappedColumn := c <| mc_index := true |>.
Definition references (column : string) (c : MappedColumn) : MappedColumn := c <| mc_references := Some column |>.

Definition UserRecord : ModelTable := {|
  mt_name := "users";
  mt_columns := [
    primary_key "subject_id";
    indexed (required "email" TString);
    required "display_name" TString;
    required "last_seen_groups" TJson;
    required "last_seen_roles" TJson;
    required "created_at" (TDateTime true);
    required "updated_at" (TDateTime true)];
  mt_indexes := [] |}.

Definition IdentityGroupRecord : ModelTable := {|
  mt_name := "identity_groups";
  mt_columns := [
    primary_key "id";
    unique (required "name" TString);
    required "description" TString];
  mt_indexes := [] |}.

Definition RoleRecord : ModelTable := {|
  mt_name := "roles";
  mt_columns := [
    primary_key "id";
    unique (required "name" TString);
    required "description" TString];
  mt_indexes := [] |}.

Definition RoleBindingRecord : ModelTable := {|
  mt_name := "role_bindings";
  mt_columns := [
    primary_key "id";
    indexed (required "group_name" TString);
    indexed (required "role_name" TString)];
  mt_indexes := [] |}.

Definition ServerCatalogRecord : ModelTable := {|
  mt_name := "server_catalogs";
  mt_columns := [
    primary_key "server_id";
    nullable "discovered_at" (TDateTime true);
    required "engine_version" TString;
    required "engine_edition" TString;
    required "catalog" TJson;
    required "updated_at" (TDateTime true)];
  mt_indexes := [] |}.

Definition ToolRecord : ModelTable := {|
  mt_name := "tools";
  mt_columns := [
    primary_key "tool_id";
    required "latest_version" TString;
    required "enabled" TBoolean];
  mt_indexes := [] |}.

Definition ToolVersionRecord : ModelTable := {|
  mt_name := "tool_versions";
  mt_columns := [
    primary_key "id";
    required "tool_id" TString;
    required "version" TString;
    required "definition" TJson;
    required "created_at" (TDateTime true)];
  mt_indexes := [("ix_tool_versions_tool_id_version", ["tool_id"; "version"], true)] |}.

Definition ConversationRecord : ModelTable := {|
  mt_name := "conversations";
  mt_columns := [
    primary_key "conversation_id";
    required "channel" TString;
    required "channel_thread_id" TString;
    indexed (required "user_subject_id" TString);
    required "created_at" (TDateTime true);
    required "updated_at" (TDateTime true)];
  mt_indexes := [] |}.

Definition AgentSessionRecord : ModelTable := {|
  mt_name := "agent_sessions";
  mt_columns := [
    primary_key "agent_session_id";
    references "conversations.conversation_id" (required "conversation_id" TString);
    required "database_context" TJson;
    nullable "investigation_id" TString;
    required "created_at" (TDateTime true);
    required "updated_at" (TDateTime true)];
  mt_indexes := [] |}.

Definition InvestigationTable : ModelTable := {|
  mt_name := "investigations";
  mt_columns := [
    primary_key "investigation_id";
    indexed (required "conversation_id" TString);
    required "user_subject_id" TString;
    indexed (nullable "server_id" TString);
    indexed (nullable "playbook_id" TString);
    indexed (nullable "environment" TString);
    required "target" TJson;
    required "problem" TText;
    required "status" TString;
    required "evidence" TJson;
    required "hypotheses" TJson;
    required "findings" TJson;
    required "recommendations" TJson;
    required "actions" TJson;
    required "created_at" (TDateTime true);
    required "updated_at" (TDateTime true)];
  mt_indexes := [] |}.

Definition InvestigationEventRecord : ModelTable := {|
  mt_name := "investigation_events";
  mt_columns := [
    primary_key "id";
    indexed (required "investigation_id" TString);
    required "event_type" TString;
    required "payload" TJson;
    required "created_at" (TDateTime true)];
  mt_indexes := [] |}.

Definition LlmDecisionEventRecord : ModelTable := {|
  mt_name := "llm_decision_events";
  mt_columns := [
    primary_key "id";
    indexed (nullable "conversation_id" TString);
    indexed (nullable "investigation_id" TString);
    indexed (required "event_type" TString);
    required "provider" TString;
    required "model" TString;
    required "payload" TJson;
    required "created_at" (TDateTime true)];
  mt_indexes := [] |}.

Definition ToolRequestRecord : ModelTable := {|
  mt_name := "tool_requests";
  mt_columns := [
    primary_key "request_id";
    indexed (required "conversation_id" TString);
    nullable "investigation_id" TString;
    indexed (required "user_subject_id" TString);
    required "tool_id" TString;
    required "tool_version" TString;
    required "target" TJson;
    required "arguments" TJson;
    required "reason" TText;
    required "policy_decision" TString;
    required "risk" TJson;
    nullable "approval_id" TString;
    required "status" TString;
    required "created_at" (TDateTime true)];
  mt_indexes := [] |}.

Definition ToolExecutionRecord : ModelTable := {|
  mt_name := "tool_executions";
  mt_columns := [
    primary_key "execution_id";
    indexed (required "request_id" TString);
    required "tool_id" TString;
    required "started_at" (TDateTime false);
    nullable "finished_at" (TDateTime false);
    nullable "success" TBoolean;
    required "result_summary" TJson;
    required "verification_status" TString;
    nullable "error_code" TString];
  mt_indexes := [] |}.

Definition ApprovalTable : ModelTable := {|
  mt_name := "approvals";
  mt_columns := [
    primary_key "approval_id";
    indexed (required "request_id" TString);
    required "actor_subject_id" TString;
    required "tool_id" TString;
    required "tool_version" TString;
    required "target" TJson;
    required "normalized_arguments" TJson;
    required "risk" TJson;
    required "policy" TJson;
    required "action_hash" TString;
    required "requires_dual_approval" TBoolean;
    nullable "approver_1_subject_id" TString;
    nullable "approver_2_subject_id" TString;
    required "status" TString;
    required "created_at" (TDateTime true);
    required "expires_at" (TDateTime true);
    nullable "decided_at" (TDateTime true)];
  mt_indexes := [] |}.

Definition ApprovalEventRecord : ModelTable := {|
  mt_name := "approval_events";
  mt_columns := [
    primary_key "id";
    indexed (required "approval_id" TString);
    required "event_type" TString;
    required "actor_subject_id" TString;
    required "detail" TJson;
    required "created_at" (TDateTime true)];
  mt_indexes := [] |}.

Definition AuditEventRecord : ModelTable := {|
  mt_name := "audit_events";
  mt_columns := [
    primary_key "audit_event_id";
    required "correlation_ids" TJson;
    required "actor_subject_id" TString;
    required "identity_provider" TString;
    required "channel" TString;
    required "agent_version" TString;
    required "tool_id" TString;
    required "tool_version" TString;
    required "target" TJson;
    required "arguments_hash" TString;
    required "policy_decision" TString;
    required "risk" TJson;
    nullable "approval_id" TString;
    required "execution_result" TString;
    nullable "error_code" TString;
    nullable "duration_ms" TInteger;
    required "event_type" TString;
    required "created_at" (TDateTime true)];
  mt_indexes := [] |}.

Definition ChangeRequestRecord : ModelTable := {|
  mt_name := "change_requests";
  mt_columns := [
    primary_key "change_id";
    required "change_type" TString;
    required "requested_by" TString;
    required "approved_by" TString;
    nullable "scheduled_start" (TDateTime false);
    nullable "scheduled_end" (TDateTime false);
    required "affected_database" TString;
    required "affected_objects" TJson;
    required "status" TString;
    required "created_at" (TDateTime true)];
  mt_indexes := [] |}.

Definition IncidentRecord : ModelTable := {|
  mt_name := "incidents";
  mt_columns := [
    primary_key "incident_id";
    nullable "investigation_id" TString;
    required "title" TString;
    required "status" TString;
    required "severity" TString;
    required "created_at" (TDateTime true);
    required "updated_at" (TDateTime true)];
  mt_indexes := [] |}.

Definition KnowledgeDocumentRecord : ModelTable := {|
  mt_name := "knowledge_documents";
  mt_columns := [
    primary_key "id";
    required "doc_type" TString;
    required "title" TString;
    required "content" TText;
    required "tags" TJson;
    required "created_at" (TDateTime true)];
  mt_indexes := [] |}.

Definition SecurityEventRecord : ModelTable := {|
  mt_name := "security_events";
  mt_columns := [
    primary_key "id";
    required "event_type" TString;
    required "actor_subject_id" TString;
    required "detail" TJson;
    required "severity" TString;
    required "created_at" (TDateTime true)];
  mt_indexes := [] |}.

(** [Base.metadata] *)
Definition metadata : list ModelTable := [
  UserRecord; IdentityGroupRecord; RoleRecord; RoleBindingRecord;
  ServerCatalogRecord; ToolRecord; ToolVersionRecord; ConversationRecord;
  AgentSessionRecord; InvestigationTable; InvestigationEventRecord; LlmDecisionEventRecord;
  ToolRequestRecord; ToolExecutionRecord; ApprovalTable; ApprovalEventRecord;
  AuditEventRecord; ChangeRequestRecord; IncidentRecord; KnowledgeDocumentRecord;
  SecurityEventRecord].

(** *** What SQLAlchemy creates of them *)
Definition column_def (c : MappedColumn) : string * ColumnDef :=
  (mc_name c, {| cd_type := mc_type c; cd_nullable := mc_nullable c; cd_primary_key := mc_primary_key c;
                 cd_unique := mc_unique c; cd_references := mc_references c |}).
Definition index_name (table column : string) : string := "ix_" +:+ table +:+ "_" +:+ column.
Definition table_of (t : ModelTable) : Table := {|
  tb_columns := list_to_map (map column_def (mt_columns t));
  tb_indexes := list_to_map
    (map (λ c, (index_name (mt_name t) (mc_name c), ([mc_name c], false))) (List.filter mc_index (mt_columns t))
     ++ map (λ '(name, columns, u), (name, (columns, u))) (mt_indexes t)) |}.
(** [create_all] and [drop_all]: only the tables that are missing, or there *)
Fixpoint create_all (tables : list ModelTable) : M Schema exn unit :=
  match tables with
  | [] => mret tt
  | t :: tables =>
      there ← has_table (mt_name t);
      _ ← unless there (set_table (mt_name t) (table_of t));
      create_all tables
  end.
Fixpoint drop_all (tables : list ModelTable) : M Schema exn unit :=
  match tables with
  | [] => mret tt
  | t :: tables =>
      there ← has_table (mt_name t);
      _ ← unless (negb there) (drop_table (mt_name t));
      drop_all tables
  end.

(* ------------------------------------------------------------------ *)
(** ** migrations/versions *)

(** [sa.Column(name, type, nullable=...)] and [sa.Column(name, sa.String(), primary_key=True)] *)
Definition sa_column (name : string) (t : ColumnType) (is_nullable : bool) : string * ColumnDef :=
  (name, {| cd_type := t; cd_nullable := is_nullable; cd_primary_key := false; cd_unique := false;
            cd_references := None |}).
Definition sa_primary_key (name : string) : string * ColumnDef :=
  (name, {| cd_type := TString; cd_nullable := false; cd_primary_key := true; cd_unique := false;
            cd_references := None |}).

Record Revision : Type := {
  rv_revision : string; rv_down_revision : option string;
  rv_upgrade : M Schema exn unit; rv_downgrade : M Schema exn unit }.

Definition initial_schema : Revision := {|
  rv_revision := "0001"; rv_down_revision := None;
  rv_upgrade := create_all metadata; rv_downgrade := drop_all metadata |}.

Definition ORPHANED : list string := ["database_environments"; "database_inventory"; "database_policies"].
(** tables that are dropped if the inspector saw them *)
Fixpoint drop_existing (names : list string) (existing : Schema) : M Schema exn unit :=
  match names with
  | [] => mret tt
  | name :: names =>
      _ ← unless (negb (bool_decide (is_Some (existing !! name)))) (drop_table name);
      drop_existing names existing
  end.
Definition server_catalogs : Revision := {|
  rv_revision := "0002"; rv_down_revision := Some "0001";
  rv_upgrade :=
    existing ← get_state;
    _ ← unless (bool_decide (is_Some (existing !! "server_catalogs")))
      (create_table "server_catalogs" [
         sa_primary_key "server_id"; sa_column "discovered_at" (TDateTime true) true;
         sa_column "engine_version" TString false; sa_column "engine_edition" TString false;
         sa_column "catalog" TJson false; sa_column "updated_at" (TDateTime true) false]);
    drop_existing ORPHANED existing;
  rv_downgrade := drop_table "server_catalogs" |}.

(** a nullable text column of the investigations with its index, unless the inspector saw it *)
Definition add_indexed (name : string) (there : bool) : M Schema exn unit :=
  unless there
    (_ ← add_column "investigations" name (sa_column name TString true).2;
     create_index ("ix_investigations_" +:+ name) "investigations" [name] false).
Definition drop_indexed (name : string) : M Schema exn unit :=
  _ ← drop_index ("ix_investigations_" +:+ name) "investigations"; drop_column "investigations" name.
Definition investigation_server_id : Revision := {|
  rv_revision := "0003"; rv_down_revision := Some "0002";
  rv_upgrade := there ← has_column "investigations" "server_id"; add_indexed "server_id" there;
  rv_downgrade := drop_indexed "server_id" |}.

Definition llm_decision_events : Revision := {|
  rv_revision := "0004"; rv_down_revision := Some "0003";
  rv_upgrade :=
    there ← has_table "llm_decision_events";
    unless there
      (_ ← create_table "llm_decision_events" [
         sa_primary_key "id"; sa_column "conversation_id" TString true;
         sa_column "investigation_id" TString true; sa_column "event_type" TString false;
         sa_column "provider" TString false; sa_column "model" TString false; sa_column "payload" TJson false;
         sa_column "created_at" (TDateTime true) false];
       _ ← create_index "ix_llm_decision_events_conversation_id" "llm_decision_events" ["conversation_id"] false;
       _ ← create_index "ix_llm_decision_events_investigation_id" "llm_decision_events" ["investigation_id"] false;
       create_index "ix_llm_decision_events_event_type" "llm_decision_events" ["event_type"] false);
  rv_downgrade := drop_table "llm_decision_events" |}.

Definition investigation_correlation_columns : Revision := {|
  rv_revision := "0005"; rv_down_revision := Some "0004";
  rv_upgrade :=
    playbook ← has_column "investigations" "playbook_id"; environment ← has_column "investigations" "environment";
    _ ← add_indexed "playbook_id" playbook; add_indexed "environment" environment;
  rv_downgrade := _ ← drop_indexed "environment"; drop_indexed "playbook_id" |}.

Definition revisions : list Revision :=
  [initial_schema; server_catalogs; investigation_server_id; llm_decision_events; investigation_correlation_columns].

(** [alembic upgrade head] on a database stamped with the first [n] revisions, and
    [alembic downgrade] from the head to the first [n] *)
Fixpoint run_all (ms : list (M Schema exn unit)) : M Schema exn unit :=
  match ms with [] => mret tt | m :: ms => _ ← m; run_all ms end.
Definition upgrade_head (n : nat) : M Schema exn unit := run_all (map rv_upgrade (drop n revisions)).
Definition downgrade_to (n : nat) : M Schema exn unit := run_all (map rv_downgrade (rev (drop n revisions))).

(* ------------------------------------------------------------------ *)
(** ** Every deployed database reaches the models *)

Definition head_schema : Schema := list_to_map (map (λ t, (mt_name t, table_of t)) metadata).

(** what a database that was created by an earlier version of the models has by now: the tables
    and columns that were added since, each or not, and the tables the models no longer have *)
Record History : Type := {
  hs_catalogs : bool; hs_events : bool; hs_server_id : bool; hs_playbook_id : bool; hs_environment : bool;
  hs_orphans : bool * bool * bool }.
Definition without_column (name : string) (there : bool) (db : Schema) : Schema :=
  if there then db
  else alter (λ t, {| tb_columns := delete name (tb_columns t);
                      tb_indexes := delete ("ix_investigations_" +:+ name) (tb_indexes t) |}) "investigations" db.
Definition without_table (name : string) (there : bool) (db : Schema) : Schema :=
  if there then db else delete name db.
Definition with_orphan (old : Table) (name : string) (there : bool) (db : Schema) : Schema :=
  if there then <[name := old]> db else db.
Definition past_schema (old : Table) (h : History) : Schema :=
  let '(o1, o2, o3) := hs_orphans h in
  with_orphan old "database_environments" o1 $ with_orphan old "database_inventory" o2 $
  with_orphan old "database_policies" o3 $
  without_table "server_catalogs" (hs_catalogs h) $ without_table "llm_decision_events" (hs_events h) $
  without_column "server_id" (hs_server_id h) $ without_column "playbook_id" (hs_playbook_id h) $
  without_column "environment" (hs_environment h) head_schema.
(** the first [n] revisions did their work on it *)
Definition stamped (n : nat) (h : History) : bool :=
  let '(o1, o2, o3) := hs_orphans h in
  (1 <=? n) && (n <=? 5)
  && ((n <? 2) || (hs_catalogs h && negb (o1 || o2 || o3)))
  && ((n <? 3) || hs_server_id h) && ((n <? 4) || hs_events h)
  && ((n <? 5) || (hs_playbook_id h && hs_environment h)).

(** schemas are compared by the decision procedure of maps *)
Lemma reaches (m : M Schema exn unit) db target :
  (match m db with (Ok _, db') => bool_decide (db' = target) | _ => false end) = true → m db = (Ok tt, target).
Proof. destruct (m db) as [[[]|e] db']; [|done]. by intros ->%bool_decide_eq_true. Qed.

Lemma returns (m : M Schema exn unit) db :
  match (m db).1 with Ok _ => true | Err _ => false end = true → m db = (Ok tt, (m db).2).
Proof. by destruct (m db) as [[[]|e] db']. Qed.
Lemma stamped_bounds n h : stamped n h = true → n ∈ [1; 2; 3; 4; 5].
Proof.
  unfold stamped. destruct (hs_orphans h) as [[o1 o2] o3]. rewrite !andb_true_iff.
  intros [[[[[H1%Nat.leb_le H5%Nat.leb_le] _] _] _] _]. assert (n ∈ seq 1 5) as Hn by (apply elem_of_seq; lia). exact Hn.
Qed.

(** C20: migrations reach the models.  The revisions build exactly the tables, columns and
    indexes of the models on an empty database; and they bring to exactly the same schema every
    database an earlier version of the models created, whichever of the tables and columns added
    since it already has and whichever abandoned tables it still has, from every revision it may
    be stamped with; and a downgrade to any revision, followed by an upgrade, restores it. *)
Theorem migrations_reach_the_models :
  upgrade_head 0 ∅ = (Ok tt, head_schema) ∧
  (∀ n h old, stamped n h = true → upgrade_head n (past_schema old h) = (Ok tt, head_schema)) ∧
  (∀ n, n ≤ 5 → ∃ db, downgrade_to n head_schema = (Ok tt, db) ∧ upgrade_head n db = (Ok tt, head_schema)).
Proof.
  split_and!.
  - apply reaches. vm_compute. reflexivity.
  - intros n h old Hs. pose proof (stamped_bounds _ _ Hs) as Hn. apply reaches. revert Hs.
    destruct h as [c e s p v [[o1 o2] o3]].
    repeat (apply elem_of_cons in Hn as [->|Hn]); [..|by apply elem_of_nil in Hn];
      destruct c, e, s, p, v, o1, o2, o3; try discriminate; intros _; vm_compute; reflexivity.
  - intros n Hn. assert (n ∈ seq 0 6) as Hin by (apply elem_of_seq; lia). cbn in Hin.
    exists (downgrade_to n head_schema).2.
    repeat (apply elem_of_cons in Hin as [->|Hin]); [..|by apply elem_of_nil in Hin];
      (split; [apply returns|apply reaches]; vm_compute; reflexivity).
Qed.

(** a database from before the catalog, with one abandoned table *)
Definition first_deployment : History := {|
  hs_catalogs := false; hs_events := false; hs_server_id := false; hs_playbook_id := false;
  hs_environment := false; hs_orphans := (false, true, false) |}.
Lemma migrations_reach_the_models_witness :
  stamped 1 first_deployment = true ∧
  past_schema (table_of UserRecord) first_deployment !! "server_catalogs" = None ∧
  upgrade_head 1 (past_schema (table_of UserRecord) first_deployment) = (Ok tt, head_schema).
Proof.
  split; [reflexivity|]. split; [vm_compute; reflexivity|].
  apply (proj1 (proj2 migrations_reach_the_models)). reflexivity.
Defined.
