(* ===== verification/Routing.v ===== *)
(** Routing as the web framework documents it: a route is a method and a path template
    whose parameters each stand for one non-empty segment, and the first route that fits a
    request is called.  The matching itself is the class [PathRouting], with its documented
    law; [segment_routing] is an instance, for evaluation.  The tables of the applications
    are in GatewayApp.v and Services.v. *)
From S2P Require Import Prelude Json Text Endpoints ToolClient.

(* ------------------------------------------------------------------ *)
(** ** Paths and templates *)

Inductive Seg : Type := Lit (s : string) | Param (name : string).

Definition no_slash : string → bool := str_all (λ c, negb (Ascii.eqb c "/")).

(** the path of a list of segments *)
Fixpoint path_of (segs : list string) : string :=
  match segs with
  | [] => ""
  | s :: segs => String "/" (s +:+ path_of segs)
  end.

(** the arguments of a template on the segments of a path *)
Fixpoint fits (t : list Seg) (segs : list string) : option (list string) :=
  match t, segs with
  | [], [] => Some []
  | Lit l :: t, s :: segs => if String.eqb l s then fits t segs else None
  | Param _ :: t, s :: segs => if truthy s then cons s <$> fits t segs else None
  | _, _ => None
  end.

(** the matching of a template against a path: on a path made of slash-free segments it is
    [fits], and it accepts no other path *)
Class PathRouting : Type := {
  path_match : list Seg → string → option (list string);
  path_match_segments : ∀ t segs, forallb no_slash segs = true →
    path_match t (path_of segs) = fits t segs;
  path_match_only : ∀ t p args, path_match t p = Some args →
    ∃ segs, p = path_of segs ∧ forallb no_slash segs = true
}.

(** the segments of a path that starts with a slash *)
Fixpoint segments_go (cur p : string) : list string :=
  match p with
  | "" => [cur]
  | String "/" p => cur :: segments_go "" p
  | String c p => segments_go (cur +:+ String c "") p
  end.
Definition segments (p : string) : option (list string) :=
  match p with
  | "" => Some []
  | String "/" p => Some (segments_go "" p)
  | _ => None
  end.


Lemma segments_go_char cur c p : Ascii.eqb c "/" = false →
  segments_go cur (String c p) = segments_go (cur +:+ String c "") p.
Proof. by destruct c as [[] [] [] [] [] [] [] []]. Qed.
Lemma segments_go_segment s cur p : no_slash s = true →
  segments_go cur (s +:+ p) = segments_go (cur +:+ s) p.
Proof.
  revert cur. induction s as [|c s IH]; intros cur Hs; [by rewrite str_app_nil_r|].
  apply andb_true_iff in Hs as [Hc Hs]. rewrite str_app_cons.
  transitivity (segments_go (cur +:+ String c "") (s +:+ p)).
  - by apply segments_go_char, negb_true_iff.
  - by rewrite IH // str_app_assoc.
Qed.
Lemma segments_go_path s segs : no_slash s = true → forallb no_slash segs = true →
  segments_go "" (s +:+ path_of segs) = s :: segs.
Proof.
  revert s. induction segs as [|s' segs IH]; intros s Hs Hl; rewrite segments_go_segment //=.
  apply andb_true_iff in Hl as [Hs' Hl]. by rewrite IH.
Qed.

(** a path has exactly one reading as slash-free segments *)
Lemma segments_path segs : forallb no_slash segs = true → segments (path_of segs) = Some segs.
Proof.
  destruct segs as [|s segs]; intros Hl; [done|]. apply andb_true_iff in Hl as [Hs Hl].
  cbn. by rewrite segments_go_path.
Qed.

Lemma segments_go_inv cur p : no_slash cur = true →
  ∃ s segs, segments_go cur p = s :: segs ∧ cur +:+ p = s +:+ path_of segs ∧
    forallb no_slash (s :: segs) = true.
Proof.
  revert cur. induction p as [|c p IH]; intros cur Hcur.
  - exists cur, []. cbn [forallb path_of segments_go]. by rewrite Hcur.
  - destruct (Ascii.eqb_spec c "/") as [->|Hc].
    + destruct (IH "" eq_refl) as (s & segs & E & Hp & Hl). exists cur, (s :: segs).
      cbn [segments_go]. rewrite E. cbn [path_of]. rewrite -Hp. split_and!; [done..|].
      cbn [forallb] in *. by rewrite Hcur.
    + destruct (IH (cur +:+ String c "")) as (s & segs & E & Hp & Hl).
      { unfold no_slash in *. rewrite str_all_app Hcur. cbn. by rewrite (proj2 (Ascii.eqb_neq _ _) Hc). }
      exists s, segs. rewrite segments_go_char; [by apply Ascii.eqb_neq|].
      rewrite -Hp str_app_assoc. by split_and!.
Qed.
Lemma segments_inv p segs : segments p = Some segs → p = path_of segs ∧ forallb no_slash segs = true.
Proof.
  destruct p as [|c p]; cbn; [by intros [= <-]|].
  destruct (Ascii.eqb_spec c "/") as [->|Hc]; [|by destruct c as [[|] [|] [|] [|] [|] [|] [|] [|]]].
  destruct (segments_go_inv "" p eq_refl) as (s & l & E & Hp & Hl). intros [= <-].
  cbn in Hp. by rewrite E /= -Hp.
Qed.

Definition segment_routing : PathRouting.
Proof.
  refine {| path_match t p := segments p ≫= fits t |}.
  - intros t segs Hl. by rewrite segments_path.
  - intros t p args Hm. destruct (segments p) as [segs|] eqn:E; [|done].
    exists segs. by apply segments_inv.
Defined.

(** a template without parameters fits one path *)
Lemma fits_literals ls segs args : fits (map Lit ls) segs = Some args → segs = ls ∧ args = [].
Proof.
  revert segs. induction ls as [|l ls IH]; intros [|s segs]; cbn; try done; [by intros [= <-]|].
  destruct (String.eqb_spec l s) as [->|]; [|done]. by intros [-> ->]%IH.
Qed.
Lemma literal_route `{PathRouting} ls p args : path_match (map Lit ls) p = Some args →
  p = path_of ls ∧ args = [].
Proof.
  intros Hm. destruct (path_match_only _ _ _ Hm) as (segs & -> & Hl).
  rewrite path_match_segments // in Hm. by apply fits_literals in Hm as [-> ->].
Qed.

(** the pages of [FastAPI.setup] *)
Inductive DocsPage : Type := OpenApiJson | SwaggerUi | SwaggerRedirect | ReDocUi.
#[export] Instance DocsPage_eq_dec : EqDecision DocsPage.
Proof. solve_decision. Defined.
Definition all_pages : list DocsPage := [OpenApiJson; SwaggerUi; SwaggerRedirect; ReDocUi].
Definition docs_segments (page : DocsPage) : list string :=
  match page with
  | OpenApiJson => ["openapi.json"]
  | SwaggerUi => ["docs"]
  | SwaggerRedirect => ["docs"; "oauth2-redirect"]
  | ReDocUi => ["redoc"]
  end.

(* ------------------------------------------------------------------ *)
(** ** Tables *)

(** a route: whether the dependency on a service token guards it, and what it calls *)
Record RouteEntry (E : Type) : Type := {
  re_method : HttpMethod;
  re_path : list Seg;
  re_guarded : bool;
  re_endpoint : E
}.
Arguments re_method {E}. Arguments re_path {E}. Arguments re_guarded {E}. Arguments re_endpoint {E}.

#[export] Instance Seg_eq_dec : EqDecision Seg.
Proof. solve_decision. Defined.
#[export] Instance HttpMethod_eq_dec : EqDecision HttpMethod.
Proof. solve_decision. Defined.

Section tables.
Context {E : Type} `{PathRouting}.

Definition entry (guarded : bool) (m : HttpMethod) (path : list Seg) (e : E) : RouteEntry E :=
  {| re_method := m; re_path := path; re_guarded := guarded; re_endpoint := e |}.

(** [APIRouter(prefix=..., dependencies=[Depends(...)])]: every path operation of the router
    is under the prefix and behind the dependency *)
Definition api_router (prefix : list Seg) (l : list (HttpMethod * list Seg * E)) : list (RouteEntry E) :=
  map (λ '(m, path, e), entry true m (prefix ++ path) e) l.

(** the documentation [FastAPI(title=...)] registers before any other route, open to everyone:
    the schema of the API and the pages that show it, for GET and for HEAD *)
Definition docs_router (docs : DocsPage → E) : list (RouteEntry E) :=
  all_pages ≫= λ page, map (λ m, entry false m (map Lit (docs_segments page)) (docs page)) [GET; HEAD].

(** the first route of the table that fits the method and the path *)
Fixpoint find_route (m : HttpMethod) (p : string) (table : list (RouteEntry E))
    : option (RouteEntry E * list string) :=
  match table with
  | [] => None
  | r :: table =>
      match (if bool_decide (re_method r = m) then path_match (re_path r) p else None) with
      | Some args => Some (r, args)
      | None => find_route m p table
      end
  end.

(** the same search on segments *)
Fixpoint find_fitting (m : HttpMethod) (segs : list string) (table : list (RouteEntry E))
    : option (RouteEntry E * list string) :=
  match table with
  | [] => None
  | r :: table =>
      match (if bool_decide (re_method r = m) then fits (re_path r) segs else None) with
      | Some args => Some (r, args)
      | None => find_fitting m segs table
      end
  end.

Lemma find_route_segments m segs table : forallb no_slash segs = true →
  find_route m (path_of segs) table = find_fitting m segs table.
Proof.
  intros Hl. induction table as [|r table IH]; [done|]. cbn. rewrite IH path_match_segments //.
Qed.
Lemma find_route_elem m p table r args : find_route m p table = Some (r, args) →
  r ∈ table ∧ re_method r = m ∧ path_match (re_path r) p = Some args.
Proof.
  induction table as [|r' table IH]; [done|]. cbn.
  case_bool_decide as Hm; [destruct (path_match (re_path r') p) as [a|] eqn:E0|].
  - intros [= <- <-]. split_and!; [left|done..].
  - intros Hf. destruct (IH Hf) as (? & ? & ?). split_and!; [by right|done..].
  - intros Hf. destruct (IH Hf) as (? & ? & ?). split_and!; [by right|done..].
Qed.
End tables.

(* ------------------------------------------------------------------ *)
(** ** Applications *)

(** a reply, or no route fits the request and none of the code runs *)
Inductive Reply (A : Type) : Type := Unrouted | Replied (r : res http_error A).
Arguments Unrouted {A}. Arguments Replied {A} r.

Section applications.
Context {S E A : Type} `{PathRouting}.
Context (table : list (RouteEntry E)) (guard : res http_error unit).
Context (endpoint : E → list string → M S http_error A).

(** a request to an application: the first route that fits, the dependency that guards it,
    then its endpoint on the arguments of the path *)
Definition app_request (m : HttpMethod) (p : string) (s : S) : Reply A * S :=
  match find_route m p table with
  | None => (Unrouted, s)
  | Some (route, args) =>
      let '(r, s) :=
        (_ ← (if re_guarded route then lift_res guard else mret tt);
         endpoint (re_endpoint route) args) s in
      (Replied r, s)
  end.

(** the ways a request can go *)
Lemma app_request_cases m p s reply s' : app_request m p s = (reply, s') →
  reply = Unrouted ∧ s' = s ∨
  ∃ route args, route ∈ table ∧ re_method route = m ∧ path_match (re_path route) p = Some args ∧
    (re_guarded route = true ∧ (∃ e, guard = Err e ∧ reply = Replied (Err e)) ∧ s' = s ∨
     (re_guarded route = false ∨ guard = Ok tt) ∧
       ∃ r, endpoint (re_endpoint route) args s = (r, s') ∧ reply = Replied r).
Proof.
  unfold app_request. destruct (find_route m p table) as [[route args]|] eqn:Ef.
  2:{ intros [= <- <-]. by left. }
  apply find_route_elem in Ef as (Hin & Hm & Hp). intros Hr. right. exists route, args.
  split_and!; [done..|]. revert Hr. unfold mbind, M_bind, lift_res.
  destruct (re_guarded route) eqn:Eg; [destruct guard as [[]|e] eqn:Ee|].
  - destruct (endpoint _ args s) as [r s1] eqn:Ec. intros [= <- <-]. eauto 10.
  - intros [= <- <-]. left. eauto.
  - cbn. destruct (endpoint _ args s) as [r s1] eqn:Ec. intros [= <- <-]. eauto 10.
Qed.
Lemma app_request_preserves (R : relation S) `{!PreOrder R} m p s :
  (∀ route args, route ∈ table → re_method route = m → preserves R (endpoint (re_endpoint route) args)) →
  R s (app_request m p s).2.
Proof.
  intros He. destruct (app_request m p s) as [reply s'] eqn:Er.
  apply app_request_cases in Er as [[_ ->]|(route & args & Hin & Hm & _ & [(_ & _ & ->)|(_ & r & Hc & _)])];
    [reflexivity..|].
  specialize (He route args Hin Hm s). by rewrite Hc in He.
Qed.
End applications.

(* ------------------------------------------------------------------ *)
(** ** What a client's path becomes *)

(** the characters that no part of a URL reserves, and the segments a URL keeps as they are *)
Definition unreserved (c : ascii) : bool :=
  is_alnum (ascii_lower c) || mem c ["-"; "."; "_"; "~"]%char.
Definition plain_segment (s : string) : bool :=
  str_all unreserved s && truthy s && negb (mem s ["."; ".."]).

(** the path the server receives for a path the client gives: one of plain segments stays *)
Class ClientPaths : Type := {
  sent_path : string → string;
  sent_path_plain : ∀ segs, forallb plain_segment segs = true →
    sent_path (path_of segs) = path_of segs
}.
Definition verbatim_paths : ClientPaths := {| sent_path p := p; sent_path_plain _ _ := eq_refl |}.

Lemma unreserved_no_slash c : unreserved c = true → negb (Ascii.eqb c "/") = true.
Proof. by destruct c as [[] [] [] [] [] [] [] []]. Qed.
Lemma plain_no_slash s : plain_segment s = true → no_slash s = true.
Proof.
  unfold plain_segment. intros [[Ha _]%andb_true_iff _]%andb_true_iff. revert Ha.
  apply str_all_impl, unreserved_no_slash.
Qed.
Lemma plain_segments_no_slash segs : forallb plain_segment segs = true → forallb no_slash segs = true.
Proof. rewrite !forallb_forall. intros Hl s Hs. by apply plain_no_slash, Hl. Qed.
Lemma plain_truthy s : plain_segment s = true → truthy s = true.
Proof. unfold plain_segment. by intros [[_ ?]%andb_true_iff _]%andb_true_iff. Qed.

(* ------------------------------------------------------------------ *)
(** ** Integers of a query *)

(** an integer in a query: pydantic reads back what [str] writes *)
Class QueryInts : Type := {
  query_int : string → option Z;
  query_int_pretty : ∀ z : Z, query_int (pretty z) = Some z
}.

Lemma py_digits_char a d s : (d < 10)%N →
  py_digits (Some a) (String (pretty_N_char d) s) = py_digits (Some (a * 10 + Z.of_N d)%Z) s.
Proof.
  intros Hd. destruct d as [|p]; [done|].
  do 4 (try (destruct p as [p|p|]; try lia)); done.
Qed.
Lemma py_digits_pretty x s : ∃ m, ∀ a,
  py_digits (Some a) (pretty_N_go x s) = py_digits (Some (a * m + Z.of_N x)%Z) s.
Proof.
  revert s. induction (N.lt_wf_0 x) as [x _ IH]; intros s.
  destruct (decide (x = 0)%N) as [->|Hx].
  - exists 1%Z. intros a. rewrite pretty_N_go_0. do 2 f_equal. lia.
  - rewrite pretty_N_go_step; [lia|].
    destruct (IH (x `div` 10)%N ltac:(apply N.div_lt; lia) (String (pretty_N_char (x `mod` 10)) s)) as [m Hm].
    exists (10 * m)%Z. intros a. rewrite Hm py_digits_char; [by apply N.mod_lt|]. do 2 f_equal.
    pose proof (N.div_mod x 10 ltac:(done)). lia.
Qed.
Lemma py_digits_start c s : is_digit c = true → py_digits None (String c s) = py_digits (Some 0%Z) (String c s).
Proof. intros Hc. cbn. by rewrite Hc. Qed.
Lemma digit_char d : (d < 10)%N → is_digit (pretty_N_char d) = true.
Proof.
  intros Hd. destruct d as [|p]; [done|].
  do 4 (try (destruct p as [p|p|]; try lia)); done.
Qed.
Lemma pretty_head x c s : is_digit c = true →
  ∃ c' s', pretty_N_go x (String c s) = String c' s' ∧ is_digit c' = true.
Proof.
  revert c s. induction (N.lt_wf_0 x) as [x _ IH]; intros c s Hc.
  destruct (decide (x = 0)%N) as [->|Hx]; [rewrite pretty_N_go_0; eauto|].
  rewrite pretty_N_go_step; [lia|]. apply IH; [apply N.div_lt; lia|]. by apply digit_char, N.mod_lt.
Qed.

(** [int] of a text without spaces or a plus sign *)
Definition int_text (s : string) : option Z :=
  match s with String "-" s => Z.opp <$> py_digits None s | s => py_digits None s end.
Lemma digits_not_minus c s : is_digit c = true → int_text (String c s) = py_digits None (String c s).
Proof. by destruct c as [[] [] [] [] [] [] [] []]. Qed.
Lemma py_digits_positive p : ∃ c s, pretty (N.pos p) = String c s ∧ is_digit c = true ∧
  py_digits None (String c s) = Some (Z.pos p).
Proof.
  assert (pretty (N.pos p) = pretty_N_go (N.pos p) "") as E by done.
  destruct (py_digits_pretty (N.pos p) "") as [m Hm]. specialize (Hm 0%Z). rewrite -E in Hm.
  rewrite pretty_N_go_step in E; [done|].
  destruct (pretty_head (N.pos p `div` 10) (pretty_N_char (N.pos p `mod` 10)) "") as (c & s & Ep & Hc).
  { by apply digit_char, N.mod_lt. }
  rewrite Ep in E. exists c, s. rewrite E in Hm. split_and!; [done..|]. by rewrite py_digits_start.
Qed.
Lemma int_text_pretty (z : Z) : int_text (pretty z) = Some z.
Proof.
  destruct z as [|p|p]; [done|..]; destruct (py_digits_positive p) as (c & s & E & Hc & Hd);
    change (pretty (Z.pos p)) with (pretty (N.pos p)) || change (pretty (Z.neg p)) with ("-" +:+ pretty (N.pos p));
    rewrite E.
  - by rewrite digits_not_minus.
  - cbn [String.append int_text]. change (int_text (String "-" (String c s))) with (Z.opp <$> py_digits None (String c s)).
    by rewrite Hd.
Qed.
Definition text_query_ints : QueryInts := {| query_int := int_text; query_int_pretty := int_text_pretty |}.
