(* ===== verification/GatewayApp.v ===== *)
(** The application of [gateway/api/app.py] as its clients see it: the table of routes the
    framework and the routers register, in their order, the call of the endpoint a request fits, and the two
    read endpoints EndToEnd.v leaves out, the audit events ([routers/audit.py]) and the
    investigations.  Requests are raw: a method, a path, the texts of the query, and the
    request model pydantic makes of the body. *)
From S2P Require Import Prelude ProgramLogic Json Text Models ToolCatalog Servers Policy RateLimit Approval.
From S2P Require Import DataPolicy Discovery Gateway Identity Endpoints Investigations Conversation.
From S2P Require Import AgentApi ToolClient EndToEnd Routing.

(* ------------------------------------------------------------------ *)
(** ** The routes *)

Inductive Endpoint : Type :=
| submit_tool_call_ | list_tools_ | get_tool_ | get_approval_ | approve_ | reject_
| get_investigation_memory_ | correlate_investigations_ | get_investigation_
| create_investigation_ | update_investigation_ | append_investigation_event_
| create_decision_event_ | decision_event_summary_ | get_audit_event_
| list_servers_ | get_server_catalog_ | refresh_all_ | refresh_one_ | health_ | ready_
| docs_ (page : DocsPage).
#[export] Instance Endpoint_eq_dec : EqDecision Endpoint.
Proof. solve_decision. Defined.

Definition under (name : string) : list Seg := [Lit "v1"; Lit name].

Definition tool_calls_router : list (RouteEntry Endpoint) :=
  api_router (under "tool-calls") [(POST, [], submit_tool_call_)].
Definition tools_router : list (RouteEntry Endpoint) :=
  api_router (under "tools") [(GET, [], list_tools_); (GET, [Param "tool_id"], get_tool_)].
Definition approvals_router : list (RouteEntry Endpoint) :=
  api_router (under "approvals")
    [(GET, [Param "approval_id"], get_approval_);
     (POST, [Param "approval_id"; Lit "approve"], approve_);
     (POST, [Param "approval_id"; Lit "reject"], reject_)].
Definition investigations_router : list (RouteEntry Endpoint) :=
  api_router (under "investigations")
    [(GET, [Lit "memory"; Param "server_id"], get_investigation_memory_);
     (GET, [Lit "correlate"], correlate_investigations_);
     (GET, [Param "investigation_id"], get_investigation_);
     (POST, [], create_investigation_);
     (PATCH, [Param "investigation_id"], update_investigation_);
     (POST, [Param "investigation_id"; Lit "events"], append_investigation_event_)].
Definition decision_events_router : list (RouteEntry Endpoint) :=
  api_router (under "decision-events")
    [(POST, [], create_decision_event_); (GET, [Lit "summary"], decision_event_summary_)].
Definition audit_router : list (RouteEntry Endpoint) :=
  api_router (under "audit") [(GET, [Param "audit_event_id"], get_audit_event_)].
Definition catalog_router : list (RouteEntry Endpoint) :=
  api_router (under "catalog")
    [(GET, [Lit "servers"], list_servers_);
     (GET, [Lit "servers"; Param "server_id"], get_server_catalog_);
     (POST, [Lit "refresh"], refresh_all_);
     (POST, [Lit "refresh"; Param "server_id"], refresh_one_)].

(** [create_app]: the framework's documentation, the routers as they are included, then the two
    open routes *)
Definition gateway_routes : list (RouteEntry Endpoint) :=
  docs_router docs_ ++ tool_calls_router ++ tools_router ++ approvals_router ++ investigations_router ++
  decision_events_router ++ audit_router ++ catalog_router ++
  [entry false GET [Lit "health"] health_; entry false GET [Lit "ready"] ready_].

(* ------------------------------------------------------------------ *)
(** ** Requests and answers *)

(** the request models of the bodies; [ApprovalActionRequest] and [RefreshRequest] both
    name an account *)
Inductive Body : Type :=
| ToolCallBody (body : ToolCallRequest)
| AccountBody (channel channel_account_id : string)
| InvestigationBody (body : InvestigationCreate)
| InvestigationPatch (body : InvestigationUpdate)
| EventBody (event_type : string) (payload : list (string * json))
| DecisionBody (body : DecisionEventRequest).

(** what an endpoint returns: a dict, a value of its response model, or a page the framework
    makes of the routes *)
Inductive Answered : Type :=
| ADict (d : list (string * json))
| ATools (l : list ToolDefinition)
| ATool (t : ToolDefinition)
| AToolCall (r : ToolCallResponse)
| AApproval (v : ApprovalView)
| ADecided (approval_id : string) (status : ApprovalStatus)
| AServers (l : list (ServerEntry * option ServerCatalog))
| AServer (s : ServerEntry * option ServerCatalog)
| ARefreshed (l : list (string * string))
| ARefreshedOne (v : RefreshView)
| AEntries (l : list MemoryEntry)
| ADocs (page : DocsPage).

Section requests.
Context `{TimedSerializer}.

Record RawRequest : Type := {
  rq_method : HttpMethod;
  rq_path : string;
  rq_query : list (string * string);
  rq_body : option Body;
  rq_token : option ts_token
}.
End requests.

(* ------------------------------------------------------------------ *)
(** ** The dicts of the read endpoints *)

Definition opt_json (o : option string) : json := match o with Some s => JStr s | None => JNull end.

Section dicts.
Context (isoformat : Z → string).

(** [_serialize] of the investigations router *)
Definition serialize_investigation (r : InvestigationRecord) : list (string * json) := [
  ("investigation_id", JStr (iv_investigation_id r));
  ("conversation_id", JStr (iv_conversation_id r));
  ("server_id", opt_json (iv_server_id r)); ("playbook_id", opt_json (iv_playbook_id r));
  ("environment", opt_json (iv_environment r)); ("target", JObj (iv_target r));
  ("problem", JStr (iv_problem r)); ("status", JStr (iv_status r));
  ("evidence", JArr (iv_evidence r)); ("hypotheses", JArr (iv_hypotheses r));
  ("findings", JArr (iv_findings r)); ("recommendations", JArr (iv_recommendations r));
  ("actions", JArr (iv_actions r)); ("created_at", JStr (isoformat (iv_created_at r)));
  ("updated_at", JStr (isoformat (iv_updated_at r)))].

(** the body of [get_audit_event]; the row has its key and its time of creation beside what
    the audit log records, and the identity provider and the agent's version are not shown *)
Definition audit_dict (audit_event_id : string) (created_at : Z) (e : AuditEvent)
    : list (string * json) := [
  ("audit_event_id", JStr audit_event_id); ("event_type", JStr (au_event_type e));
  ("correlation_ids", JObj (map (λ kv, (kv.1, JStr kv.2)) (au_correlation_ids e)));
  ("actor_subject_id", JStr (au_actor_subject_id e)); ("channel", JStr (au_channel e));
  ("tool_id", JStr (au_tool_id e)); ("tool_version", JStr (au_tool_version e));
  ("target", JObj (au_target e)); ("arguments_hash", JStr (au_arguments_hash e));
  ("policy_decision", JStr (au_policy_decision e)); ("risk", JObj (au_risk e));
  ("approval_id", opt_json (au_approval_id e));
  ("execution_result", JStr (au_execution_result e)); ("error_code", opt_json (au_error_code e));
  ("duration_ms", match au_duration_ms e with Some ms => JInt ms | None => JNull end);
  ("created_at", JStr (isoformat created_at))].
End dicts.

(* ------------------------------------------------------------------ *)
(** ** The endpoints behind the routes *)

Section app.
Context {P B C : Type} `{IdentityProvider P} `{RateLimitBackend B} `{CatalogStore C}.
Context `{PydanticLax} `{SqlGlot} `{SqlStatements} `{External} `{TimedSerializer}.
Context `{PathRouting} `{QueryInts}.
Context (gs : GatewayState) (secret issuer : string).
Context (now now_seconds : nat → Z) (inputs : nat → CallInputs).
Context (correlation : bool) (lookback_days : Z) (isoformat : Z → string).
(** the key and the time of creation of the n-th audit row that was committed *)
Context (audit_ids : nat → string) (audit_times : nat → Z).

Abbreviation site := (Site P B C).

(** the framework's refusal of a request, its list of errors abridged to a text *)
Definition unprocessable {A} (detail : string) : M site http_error A :=
  raise (HTTPException 422 detail).

(** an integer of the query with a default; [Query(ge=, le=)] is checked by who uses it *)
Definition query_limit (name : string) (dflt : Z) (q : list (string * string)) : M site http_error Z :=
  match dict_get name q with
  | None => mret dflt
  | Some text =>
      match query_int text with
      | Some n => mret n
      | None => unprocessable "Input should be a valid integer, unable to parse string as an integer"
      end
  end.

(** *** audit.py: [session.get(AuditEventRecord, audit_event_id)] and its dict *)

Fixpoint audit_row (n : nat) (id : string) (rows : list AuditEvent) : option (nat * AuditEvent) :=
  match rows with
  | [] => None
  | e :: rows => if String.eqb (audit_ids n) id then Some (n, e) else audit_row (S n) id rows
  end.
Definition audit_rows (s : site) : list AuditEvent := w_audit (ps_world (st_process s)).
Definition get_audit_event (audit_event_id : string) : M site http_error (list (string * json)) := λ s,
  (match audit_row 0 audit_event_id (audit_rows s) with
   | None => Err (HTTPException 404 "Audit event not found.")
   | Some (n, e) => Ok (audit_dict isoformat audit_event_id (audit_times n) e)
   end, s).

(** *** investigations.py and decision_events.py: the two reads without a client *)

Definition get_investigation (investigation_id : string) : M site http_error (list (string * json)) :=
  record ← in_investigations (store_find investigation_id);
  match record with
  | None => raise (HTTPException 404 "Investigation not found.")
  | Some record => mret (serialize_investigation isoformat record)
  end.

Definition HOURS : Z := 3600 * 1000000.
Definition decision_event_summary (n : nat) (since_hours : Z) : M site http_error (list (string * json)) := λ s,
  if ((1 <=? since_hours) && (since_hours <=? 24 * 90))%Z then
    (Ok [("since_hours", JInt since_hours);
         ("counts", JObj (map (λ kv, (kv.1, JInt kv.2))
            (counts_by_type (now n - since_hours * HOURS) (st_decisions s))))], s)
  else (Err (HTTPException 422 "Input should be between 1 and 2160"), s).

Definition status_dict (status : string) : Answered := ADict [("status", JStr status)].

(** the endpoint of a route on the arguments of the path, the query and the body; a request
    that lacks one of them is refused by the framework.  The functions of Endpoints.v and
    EndToEnd.v repeat the check of the token. *)
Definition call (n : nat) (e : Endpoint) (args : list string) (rq : RawRequest)
    : M site http_error Answered :=
  let q := rq_query rq in
  let t := rq_token rq in
  let ns := now_seconds n in
  let seen {A} (f : A → Answered) (m : M site http_error A) : M site http_error Answered :=
    a ← m; mret (f a) in
  let missing := unprocessable "Field required" in
  match e, args with
  | submit_tool_call_, [] =>
      match rq_body rq with
      | Some (ToolCallBody body) =>
          seen AToolCall (in_process (submit_tool_call gs secret issuer ns (inputs n) t body))
      | _ => missing
      end
  | list_tools_, [] =>
      seen ATools (in_process (list_tools gs secret issuer ns t
        (dict_get "channel" q) (dict_get "channel_account_id" q)))
  | get_tool_, [tool_id] =>
      seen ATool (lift_res (Endpoints.get_tool gs secret issuer ns t tool_id))
  | get_approval_, [approval_id] =>
      seen AApproval (in_process (get_approval secret issuer ns t approval_id))
  | approve_, [approval_id] =>
      match rq_body rq with
      | Some (AccountBody c a) => seen (ADecided approval_id)
          (in_process (decide_approval gs secret issuer ns t approval_id c a APPROVE (now n)))
      | _ => missing
      end
  | reject_, [approval_id] =>
      match rq_body rq with
      | Some (AccountBody c a) => seen (ADecided approval_id)
          (in_process (decide_approval gs secret issuer ns t approval_id c a REJECT (now n)))
      | _ => missing
      end
  | get_investigation_memory_, [server_id] =>
      limit ← query_limit "limit" 3 q; _ ← checked_limit limit;
      seen AEntries (in_investigations (Investigations.get_investigation_memory server_id
        (dict_get "exclude_investigation_id" q) limit))
  | correlate_investigations_, [] =>
      match dict_get "playbook_id" q with
      | None => missing
      | Some playbook_id =>
          limit ← query_limit "limit" 5 q; _ ← checked_limit limit;
          seen AEntries (in_investigations (Investigations.correlate_investigations correlation
            lookback_days (now n) playbook_id (dict_get "environment" q)
            (dict_get "exclude_server_id" q) limit))
      end
  | get_investigation_, [investigation_id] => seen ADict (get_investigation investigation_id)
  | create_investigation_, [] =>
      match rq_body rq with
      | Some (InvestigationBody body) =>
          seen (λ r, ADict (serialize_investigation isoformat r)) (in_investigations (store_create body (now n)))
      | _ => missing
      end
  | update_investigation_, [investigation_id] =>
      match rq_body rq with
      | Some (InvestigationPatch body) =>
          record ← in_investigations (store_update investigation_id body (now n));
          match record with
          | None => raise (HTTPException 404 "Investigation not found.")
          | Some r => mret (ADict (serialize_investigation isoformat r))
          end
      | _ => missing
      end
  | append_investigation_event_, [investigation_id] =>
      match rq_body rq with
      | Some (EventBody event_type payload) =>
          seen (λ _, status_dict "ok") (in_investigations (append_event investigation_id event_type payload))
      | _ => missing
      end
  | create_decision_event_, [] =>
      match rq_body rq with
      | Some (DecisionBody body) =>
          seen (λ _, status_dict "ok") (in_decisions (decision_append {|
            dv_event_type := de_type body; dv_conversation_id := de_conversation body;
            dv_investigation_id := de_investigation body; dv_provider := de_provider_name body;
            dv_model := de_model_name body; dv_payload := de_payload_json body;
            dv_created_at := now n |}))
      | _ => missing
      end
  | decision_event_summary_, [] =>
      hours ← query_limit "since_hours" 24 q; seen ADict (decision_event_summary n hours)
  | get_audit_event_, [audit_event_id] => seen ADict (get_audit_event audit_event_id)
  | list_servers_, [] => seen AServers (in_process (Endpoints.list_servers gs secret issuer ns t))
  | get_server_catalog_, [server_id] =>
      seen AServer (in_process (Endpoints.get_server_catalog gs secret issuer ns t server_id))
  | refresh_all_, [] =>
      match rq_body rq with
      | Some (AccountBody c a) =>
          seen ARefreshed (in_process (refresh_all_endpoint gs secret issuer ns t c a))
      | _ => missing
      end
  | refresh_one_, [server_id] =>
      match rq_body rq with
      | Some (AccountBody c a) =>
          seen ARefreshedOne (in_process (refresh_one_endpoint gs secret issuer ns t server_id c a))
      | _ => missing
      end
  | health_, [] => mret (status_dict "ok")
  | ready_, [] => mret (status_dict "ready")
  | docs_ page, [] => mret (ADocs page)
  | _, _ => missing
  end.

(** the application on its n-th request *)
Definition gateway_call (n : nat) (rq : RawRequest) : site → Reply Answered * site :=
  app_request gateway_routes
    (require_agent_service_token secret issuer (now_seconds n) (rq_token rq))
    (λ e args, call n e args rq) (rq_method rq) (rq_path rq).
End app.

(* ------------------------------------------------------------------ *)
(** ** Who is answered *)

(** the request carries a token of the Agent for the Gateway, signed with this secret at
    most a minute ago *)
Definition from_the_agent `{TimedSerializer} (secret issuer : string) (now_seconds : Z) (rq : RawRequest)
    : Prop :=
  ∃ token claims, rq_token rq = Some token ∧
    ts_loads secret "numi-gateway" token now_seconds MAX_TOKEN_AGE = Payload claims ∧
    dict_get "iss" claims = Some issuer ∧ dict_get "aud" claims = Some "numi-gateway".

(** a route without the dependency: its endpoint, its path and its methods *)
Definition open_route (r : RouteEntry Endpoint) : bool :=
  match re_endpoint r with
  | health_ => bool_decide (re_method r = GET ∧ re_path r = map Lit ["health"])
  | ready_ => bool_decide (re_method r = GET ∧ re_path r = map Lit ["ready"])
  | docs_ page => bool_decide (re_method r ∈ [GET; HEAD] ∧ re_path r = map Lit (docs_segments page))
  | _ => false
  end.
Lemma routes_guarded : forallb (λ r, re_guarded r || open_route r) gateway_routes = true.
Proof. reflexivity. Qed.

(** what an open route answers, by its path and its method *)
Definition open_answer (m : HttpMethod) (segs : list string) (v : Answered) : Prop :=
  m = GET ∧ segs = ["health"] ∧ v = status_dict "ok" ∨
  m = GET ∧ segs = ["ready"] ∧ v = status_dict "ready" ∨
  ∃ page, m ∈ [GET; HEAD] ∧ segs = docs_segments page ∧ v = ADocs page.
(** an open route answers a constant and changes nothing *)
Lemma open_route_spec {P B C} `{IdentityProvider P} `{RateLimitBackend B} `{CatalogStore C} `{PydanticLax}
    `{SqlGlot} `{SqlStatements} `{External} `{TimedSerializer} `{PathRouting} `{QueryInts} gs secret issuer
    now now_seconds inputs correlation lookback isoformat audit_ids audit_times n rq route args :
  route ∈ gateway_routes → re_guarded route = false → path_match (re_path route) (rq_path rq) = Some args →
  ∃ segs v, rq_path rq = path_of segs ∧ open_answer (re_method route) segs v ∧
    ∀ s : Site P B C, call gs secret issuer now now_seconds inputs correlation lookback isoformat audit_ids
      audit_times n (re_endpoint route) args rq s = (Ok v, s).
Proof.
  intros Hin Hg Hp. pose proof routes_guarded as Hall. rewrite forallb_forall in Hall.
  apply list_elem_of_In, Hall in Hin. rewrite Hg in Hin. cbn in Hin. unfold open_route in Hin.
  unfold open_answer. destruct (re_endpoint route) as [| | | | | | | | | | | | | | | | | | | | |page]; try done;
    apply bool_decide_eq_true in Hin as [Hm Ep]; rewrite Ep in Hp; apply literal_route in Hp as [Hp ->];
    do 2 eexists; (split; [exact Hp|]); split; [|reflexivity| |reflexivity| |reflexivity]; eauto 10.
Qed.

(** C4: the Gateway answers nobody but the Agent: a request that changes anything, or is
    answered with anything but an error or a constant, carries a service token issued for the
    Gateway within the last minute.  Whatever the path, method, query and body are, a request
    without one leaves the process and every store as they were, and is refused with 401
    before any endpoint runs, unless it asks for one of the two health checks or for one of
    the four documentation pages the framework serves to everyone ([/openapi.json], [/docs],
    [/docs/oauth2-redirect], [/redoc]), which read nothing of the process. *)
Theorem gateway_answers_only_the_agent {P B C} `{IdentityProvider P} `{RateLimitBackend B}
    `{CatalogStore C} `{PydanticLax} `{SqlGlot} `{SqlStatements} `{External} `{TimedSerializer}
    `{PathRouting} `{QueryInts} gs secret issuer now now_seconds inputs correlation lookback isoformat
    audit_ids audit_times n rq (s : Site P B C) reply s' :
  gateway_call gs secret issuer now now_seconds inputs correlation lookback isoformat
    audit_ids audit_times n rq s = (reply, s') →
  from_the_agent secret issuer (now_seconds n) rq ∨
  s' = s ∧
    (reply = Unrouted ∨
     (∃ detail, reply = Replied (Err (HTTPException 401 detail))) ∨
     (∃ key, reply = Replied (Err (Unhandled (PyError "KeyError" key)))) ∨
     rq_method rq = GET ∧
       (rq_path rq = "/health" ∧ reply = Replied (Ok (status_dict "ok")) ∨
        rq_path rq = "/ready" ∧ reply = Replied (Ok (status_dict "ready"))) ∨
     ∃ page, rq_method rq ∈ [GET; HEAD] ∧ rq_path rq = path_of (docs_segments page) ∧
       reply = Replied (Ok (ADocs page))).
Proof.
  intros Hc. apply app_request_cases in Hc
    as [[-> ->]|(route & args & Hin & Hm & Hp & [(_ & (e & Er & ->) & ->)|(Hok & r & Hcall & ->)])].
  - auto.
  - right. split; [done|]. right.
    unfold require_agent_service_token, verify_token in Er. repeat case_match; simplify_eq; eauto.
  - destruct Hok as [Hg|Hok]; [|left; by apply require_token_ok]. right.
    destruct (open_route_spec gs secret issuer now now_seconds inputs correlation lookback isoformat audit_ids
      audit_times n rq _ _ Hin Hg Hp) as (segs & v & Epath & Hv & Hquiet).
    rewrite Hquiet in Hcall. injection Hcall as <- <-. split; [done|]. rewrite -Hm Epath.
    destruct Hv as [(-> & -> & ->)|[(-> & -> & ->)|(page & Hget & -> & ->)]]; eauto 10.
Qed.

(* ------------------------------------------------------------------ *)
(** ** The Agent's requests *)

(** the parts of the path that are not constant *)
Definition route_ids {A} (r : Route A) : list string :=
  match r with
  | GetServerCatalog id | PostRefreshServer id _ _ | PostApprove id _ _ | PostReject id _ _
  | PatchInvestigation id _ | PostInvestigationEvent id _ _ | GetMemory id _ _ => [id]
  | _ => []
  end.
(** the JSON the client sends, as the request model the endpoint reads *)
Definition route_body {A} (r : Route A) : option Body :=
  match r with
  | PostRefresh c a | PostRefreshServer _ c a | PostApprove _ c a | PostReject _ c a =>
      Some (AccountBody c a)
  | PostToolCall body => Some (ToolCallBody body)
  | PostInvestigation body => Some (InvestigationBody body)
  | PatchInvestigation _ body => Some (InvestigationPatch body)
  | PostInvestigationEvent _ event_type payload => Some (EventBody event_type payload)
  | PostDecisionEvent body => Some (DecisionBody body)
  | _ => None
  end.
(** a parameter of the query as a text; the client gives texts and integers *)
Definition param_text (v : json) : string :=
  match v with JStr s => s | JInt n => pretty n | _ => "" end.

Section client_requests.
Context `{TimedSerializer} `{ClientPaths}.

Definition raw_request {A} (r : Route A) (token : ts_token) : RawRequest := {|
  rq_method := (route_line r).1;
  rq_path := sent_path (route_line r).2;
  rq_query := map (λ kv, (kv.1, param_text kv.2)) (route_params r);
  rq_body := route_body r;
  rq_token := Some token
|}.
End client_requests.

(** what the client decodes of an answer to its route *)
Definition read_answer (isoformat : Z → string) {A} (r : Route A) (v : Answered) : option A :=
  match r in Route A return option A with
  | GetTools _ _ => match v with ATools l => Some (map offered_tool l) | _ => None end
  | GetServers => match v with AServers l => Some (map (server_summary isoformat) l) | _ => None end
  | GetServerCatalog _ => match v with AServer sc => Some (se_id sc.1, sc.2) | _ => None end
  | PostRefresh _ _ => match v with ARefreshed l => Some l | _ => None end
  | PostRefreshServer _ _ _ => match v with ARefreshedOne w => Some (refreshed_one w) | _ => None end
  | PostToolCall _ => match v with AToolCall w => Some w | _ => None end
  | PostApprove _ _ _ | PostReject _ _ _ =>
      match v with ADecided _ status => Some (decided_answer status) | _ => None end
  | GetMemory _ _ _ | GetCorrelate _ _ _ _ => match v with AEntries l => Some l | _ => None end
  | PostInvestigation _ | PatchInvestigation _ _ | PostInvestigationEvent _ _ _
  | PostDecisionEvent _ => Some tt
  end.

(** the application's reply is the one of the routers of EndToEnd.v *)
Definition same_reply (isoformat : Z → string) {A} (r : Route A) (reply : Reply Answered) (h : HttpReply A) : Prop :=
  match reply with
  | Unrouted => False
  | Replied (Ok v) => hr_status h = 200%Z ∧ ∃ a, read_answer isoformat r v = Some a ∧ hr_json h = Ok a
  | Replied (Err (HTTPException status detail)) =>
      hr_status h = status ∧ hr_detail h = Ok (Some detail)
  | Replied (Err (Unhandled _)) => hr_status h = 500%Z
  end.

Definition route_segments {A} (r : Route A) : list string :=
  match r with
  | GetTools _ _ => ["v1"; "tools"]
  | GetServers => ["v1"; "catalog"; "servers"]
  | GetServerCatalog id => ["v1"; "catalog"; "servers"; id]
  | PostRefresh _ _ => ["v1"; "catalog"; "refresh"]
  | PostRefreshServer id _ _ => ["v1"; "catalog"; "refresh"; id]
  | PostToolCall _ => ["v1"; "tool-calls"]
  | PostApprove id _ _ => ["v1"; "approvals"; id; "approve"]
  | PostReject id _ _ => ["v1"; "approvals"; id; "reject"]
  | PostInvestigation _ => ["v1"; "investigations"]
  | PatchInvestigation id _ => ["v1"; "investigations"; id]
  | PostInvestigationEvent id _ _ => ["v1"; "investigations"; id; "events"]
  | GetMemory id _ _ => ["v1"; "investigations"; "memory"; id]
  | GetCorrelate _ _ _ _ => ["v1"; "investigations"; "correlate"]
  | PostDecisionEvent _ => ["v1"; "decision-events"]
  end.
Lemma route_line_path {A} (r : Route A) : (route_line r).2 = path_of (route_segments r).
Proof. destruct r; cbn; rewrite ?str_app_nil_r; reflexivity. Qed.
Lemma route_segments_plain {A} (r : Route A) : forallb plain_segment (route_ids r) = true →
  forallb plain_segment (route_segments r) = true.
Proof. destruct r; cbn; by rewrite ?andb_true_r. Qed.

(** the endpoint the routers of EndToEnd.v stand for *)
Definition route_endpoint {A} (r : Route A) : Endpoint :=
  match r with
  | GetTools _ _ => list_tools_ | GetServers => list_servers_
  | GetServerCatalog _ => get_server_catalog_ | PostRefresh _ _ => refresh_all_
  | PostRefreshServer _ _ _ => refresh_one_ | PostToolCall _ => submit_tool_call_
  | PostApprove _ _ _ => approve_ | PostReject _ _ _ => reject_
  | PostInvestigation _ => create_investigation_ | PatchInvestigation _ _ => update_investigation_
  | PostInvestigationEvent _ _ _ => append_investigation_event_
  | GetMemory _ _ _ => get_investigation_memory_ | GetCorrelate _ _ _ _ => correlate_investigations_
  | PostDecisionEvent _ => create_decision_event_
  end.

(** no route of the table shadows the one the client means *)
Lemma raw_request_route `{TimedSerializer} `{ClientPaths} `{PathRouting} {A} (r : Route A) token :
  forallb plain_segment (route_ids r) = true →
  ∃ route, find_route (rq_method (raw_request r token)) (rq_path (raw_request r token)) gateway_routes
      = Some (route, route_ids r) ∧ re_guarded route = true ∧ re_endpoint route = route_endpoint r.
Proof.
  intros Hp. cbn [raw_request rq_method rq_path]. rewrite route_line_path sent_path_plain;
    [by apply route_segments_plain|].
  rewrite find_route_segments; [by apply plain_segments_no_slash, route_segments_plain|].
  destruct r; cbn in Hp |- *; rewrite ?andb_true_r in Hp; rewrite ?(plain_truthy _ Hp); cbn; eauto.
Qed.

Section reach.
Context {P B C : Type} `{IdentityProvider P} `{RateLimitBackend B} `{CatalogStore C}.
Context `{PydanticLax} `{SqlGlot} `{SqlStatements} `{External} `{TimedSerializer}.
Context `{PathRouting} `{QueryInts} `{ClientPaths}.
Context (gs : GatewayState) (secret issuer : string).
Context (now now_seconds : nat → Z) (inputs : nat → CallInputs).
Context (correlation : bool) (lookback : Z) (isoformat : Z → string).
Context (audit_ids : nat → string) (audit_times : nat → Z).

Abbreviation site := (Site P B C).
Abbreviation raw_call := (gateway_call gs secret issuer now now_seconds inputs correlation lookback
  isoformat audit_ids audit_times).
Abbreviation endpoint_call := (call gs secret issuer now now_seconds inputs correlation lookback
  isoformat audit_ids audit_times).
Abbreviation served := (serve gs secret issuer now now_seconds inputs correlation lookback isoformat).

(** a reply and the state it leaves, against those of the routers *)
Definition same_outcome {A} (r : Route A) (x : res http_error Answered * site) (y : HttpReply A * site)
    : Prop := same_reply isoformat r (Replied x.1) y.1 ∧ x.2 = y.2.

Lemma same_outcome_of {R A} (r : Route A) (m : M site http_error R) (f : R → Answered) (g : R → A) s :
  (∀ x, read_answer isoformat r (f x) = Some (g x)) →
  same_outcome r ((a ← m; mret (f a)) s) (let '(x, s) := m s in (http_reply g x, s)).
Proof.
  intros Hf. unfold mbind, M_bind. destruct (m s) as [[x|[status detail|e]] s']; repeat split; eauto.
Qed.

(** a refused token is refused by both *)
Lemma served_refuses {A} n (r : Route A) token e s :
  require_agent_service_token secret issuer (now_seconds n) (Some token) = Err e →
  same_outcome r (Err e, s) (served n r token s).
Proof.
  intros He. destruct r, s, e; cbn;
    unfold serve, submit_tool_call, list_tools, Endpoints.list_servers, Endpoints.get_server_catalog,
      refresh_all_endpoint, refresh_one_endpoint, decide_approval, post_investigation,
      patch_investigation, post_investigation_event, read_memory, read_patterns, post_decision_event,
      guarded, in_process, mbind, M_bind, lift_res; cbn [EndToEnd.st_process];
    rewrite He; repeat split.
Qed.

Lemma query_limit_text name dflt limit q : dict_get name q = Some (pretty limit) →
  query_limit name dflt q = (mret limit : M site http_error Z).
Proof. intros Hq. unfold query_limit. by rewrite Hq query_int_pretty. Qed.

(** an accepted token is no longer looked at *)
Lemma guarded_ok {A} n token (m : M site http_error A) s :
  require_agent_service_token secret issuer (now_seconds n) (Some token) = Ok tt →
  guarded secret issuer now_seconds n token m s = m s.
Proof. intros He. unfold guarded, mbind, M_bind, lift_res. by rewrite He. Qed.

Lemma memory_query exclude limit :
  let q := map (λ kv, (kv.1, param_text kv.2)) (memory_params exclude limit) in
  dict_get "limit" q = Some (pretty limit) ∧ dict_get "exclude_investigation_id" q = exclude.
Proof. by destruct exclude. Qed.
Lemma pattern_query playbook_id environment exclude limit :
  let q := map (λ kv, (kv.1, param_text kv.2)) (pattern_params playbook_id environment exclude limit) in
  dict_get "playbook_id" q = Some playbook_id ∧ dict_get "environment" q = environment ∧
  dict_get "exclude_server_id" q = exclude ∧ dict_get "limit" q = Some (pretty limit).
Proof. by destruct environment, exclude. Qed.

(** a bound on the limit before both *)
Lemma limited_outcome {R A} (r : Route A) limit (m : M site http_error R) f g s :
  (∀ x, read_answer isoformat r (f x) = Some (g x)) →
  same_outcome r ((_ ← checked_limit limit; a ← m; mret (f a)) s)
    (let '(x, s) := (_ ← checked_limit limit; m) s in (http_reply g x, s)).
Proof.
  intros Hf. unfold checked_limit. destruct (_ && _)%Z; [|by repeat split].
  by apply same_outcome_of.
Qed.

(** the same computation behind both: the reads of the query, then the endpoint *)
Lemma call_served {A} n (r : Route A) token s :
  require_agent_service_token secret issuer (now_seconds n) (Some token) = Ok tt →
  same_outcome r (endpoint_call n (route_endpoint r) (route_ids r) (raw_request r token) s)
    (served n r token s).
Proof.
  intros He.
  destruct r; cbn [route_endpoint route_ids call raw_request rq_query rq_body rq_token route_body
    route_params map]; unfold serve, post_investigation, patch_investigation, post_investigation_event,
    read_memory, read_patterns, post_decision_event; rewrite ?(guarded_ok _ _ _ _ He).
  all: try (apply (same_outcome_of _ _ _ _); by try intros []).
  - unfold mbind, M_bind. destruct (in_investigations _ _) as [[[x|]|[]] s']; repeat split; eauto.
  - destruct (memory_query exclude_investigation_id limit) as [El Ex].
    rewrite (query_limit_text _ 3 _ _ El) Ex. by apply limited_outcome.
  - destruct (pattern_query playbook_id environment exclude_server_id limit) as (Ep & Ee & Ex & El).
    rewrite Ep (query_limit_text _ 5 _ _ El) Ee Ex. by apply limited_outcome.
Qed.
End reach.

(** C14: The Agent's requests reach the endpoints they mean: sent as a method, a path, the texts
    of a query and a body, every route of the client whose identifiers are plain path
    segments finds, through the table of the routers and its order, the endpoint it names
    with exactly its identifiers and parameters, and gets the status, the body and the
    effects that the routers of the end-to-end model give it. *)
Theorem client_requests_reach_their_endpoints {P B C} `{IdentityProvider P} `{RateLimitBackend B}
    `{CatalogStore C} `{PydanticLax} `{SqlGlot} `{SqlStatements} `{External} `{TimedSerializer}
    `{PathRouting} `{QueryInts} `{ClientPaths} gs secret issuer now now_seconds inputs correlation
    lookback isoformat audit_ids audit_times {A} n (r : Route A) token (s : Site P B C) :
  forallb plain_segment (route_ids r) = true →
  let raw := gateway_call gs secret issuer now now_seconds inputs correlation lookback isoformat
               audit_ids audit_times n (raw_request r token) s in
  let modelled := serve gs secret issuer now now_seconds inputs correlation lookback isoformat
                    n r token s in
  same_reply isoformat r raw.1 modelled.1 ∧ raw.2 = modelled.2.
Proof.
  intros Hp. destruct (raw_request_route r token Hp) as (route & Ef & Hg & Ee). cbn zeta.
  unfold gateway_call, app_request. rewrite Ef Hg Ee. unfold mbind, M_bind, lift_res.
  destruct (require_agent_service_token secret issuer (now_seconds n) (Some token)) as [[]|e] eqn:Er.
  - pose proof (call_served gs secret issuer now now_seconds inputs correlation lookback isoformat
      audit_ids audit_times n r token s Er) as Hc.
    cbn [rq_token raw_request] in *. rewrite Er. by destruct (call _ _ _ _ _ _ _ _ _ _ _ _ _ _ _ _).
  - cbn [rq_token raw_request]. rewrite Er. exact (served_refuses gs secret issuer now now_seconds inputs correlation lookback isoformat
      n r token e s Er).
Qed.

(* ------------------------------------------------------------------ *)
(** ** The audit log *)

(** the audit events of before are a prefix of those of after *)
Definition log_grows {B C} : relation (World B C) := λ w w', ∃ new, w_audit w' = w_audit w ++ new.
#[export] Instance log_grows_preorder {B C} : PreOrder (log_grows (B := B) (C := C)).
Proof.
  split; unfold log_grows; [intros w; exists []; by rewrite app_nil_r|].
  intros w w1 w2 [a ->] [b ->]. exists (a ++ b). by rewrite app_assoc.
Qed.
Definition site_log_grows {P B C} : relation (Site P B C) := λ s s',
  log_grows (ps_world (st_process s)) (ps_world (st_process s')).
#[export] Instance site_log_grows_preorder {P B C} : PreOrder (site_log_grows (P := P) (B := B) (C := C)).
Proof. unfold site_log_grows. split; [by intros s|intros s t u Hst Htu; by etransitivity]. Qed.

(** what every read leaves as it was: the control database and the executions *)
Definition records_of {P B C} (s : Site P B C) :=
  let w := ps_world (st_process s) in
  (w_approvals w, w_audit w, w_security w, w_executions w, st_investigations s, st_decisions s).
Definition site_reads {P B C} : relation (Site P B C) := λ s s', records_of s' = records_of s.
#[export] Instance site_reads_preorder {P B C} : PreOrder (site_reads (P := P) (B := B) (C := C)).
Proof. unfold site_reads. split; [done|by intros s t u <-]. Qed.

Section logs.
Context {P B C : Type} `{IdentityProvider P} `{RateLimitBackend B} `{CatalogStore C}.
Context `{PydanticLax} `{SqlGlot} `{SqlStatements} `{External} `{TimedSerializer}.
Context `{PathRouting} `{QueryInts}.
Context (gs : GatewayState) (secret issuer : string).
Context (now now_seconds : nat → Z) (inputs : nat → CallInputs).
Context (correlation : bool) (lookback : Z) (isoformat : Z → string).
Context (audit_ids : nat → string) (audit_times : nat → Z).

Abbreviation site := (Site P B C).
Abbreviation grows m := (preserves (site_log_grows (P := P) (B := B) (C := C)) m).
Abbreviation reads m := (preserves (site_reads (P := P) (B := B) (C := C)) m).

Lemma log_same (w w' : World B C) : w_audit w' = w_audit w → log_grows w w'.
Proof. intros E. exists []. by rewrite app_nil_r. Qed.
Lemma records_logs w w' : same_records (B := B) (C := C) w w' → log_grows w w'.
Proof. intros (_ & ? & _). by apply log_same. Qed.

(** *** Deciding and handling *)

Lemma grows_on_approvals {A} (m : M ApprovalDb exn A) : preserves (log_grows (B := B) (C := C)) (on_approvals m).
Proof. intros w. unfold on_approvals. destruct (m _). by apply log_same. Qed.
Lemma grows_on_catalog {A} (m : M C exn A) : preserves (log_grows (B := B)) (on_catalog m).
Proof. intros w. apply records_logs, preserves_on_catalog. Qed.
Lemma grows_audit e : preserves (log_grows (B := B) (C := C)) (audit_record e).
Proof. intros w. by exists [e]. Qed.
Lemma grows_lift {A} (r : res exn A) : preserves (log_grows (B := B) (C := C)) (lift_res r).
Proof. intros w. reflexivity. Qed.
Hint Resolve grows_on_approvals grows_on_catalog grows_audit grows_lift : numi.
Lemma grows_decide id i d at_ : preserves (log_grows (B := B)) (decide_inner gs id i d at_).
Proof. unfold decide_inner, approver_check. walk. Qed.

Definition process_grows : relation (Process P B C) := λ p p', log_grows (ps_world p) (ps_world p').
#[local] Instance process_grows_preorder : PreOrder process_grows.
Proof. unfold process_grows. split; [by intros s|intros s t u Hst Htu; by etransitivity]. Qed.
Lemma still_grows {A} (m : M (Process P B C) http_error A) : preserves only_reads m → preserves process_grows m.
Proof. apply preserves_sub. intros p p'. apply records_logs. Qed.

Lemma decided_grows t id c a d n at_ :
  preserves process_grows (decide_approval gs secret issuer n t id c a d at_).
Proof.
  unfold decide_approval. apply preserves_bind; [apply _|apply still_grows, still_lift|intros _].
  apply preserves_bind; [apply _|apply still_grows, still_resolve|intros i]. intros p.
  unfold decide_in_session. case_match; [reflexivity|].
  pose proof (grows_decide id i d at_ (ps_world p)) as Hd.
  destruct (decide_inner _ _ _ _ _ _) as [[st|e] w]; [done|]. by apply log_same.
Qed.
Lemma submitted_grows n ci t body : preserves process_grows (submit_tool_call gs secret issuer n ci t body).
Proof.
  unfold submit_tool_call. apply preserves_bind; [apply _|apply still_grows, still_lift|intros _].
  apply preserves_bind; [apply _|apply still_grows, still_resolve|intros i]. intros p.
  unfold handle_in_session. pose proof (handle_logs gs (tr_channel body) "agent/0.1.0" ci i body (ps_world p)) as Hl.
  destruct (handle _ _ _ _ _ _ _) as [[resp|e] w].
  - destruct Hl as [(ev & Hw & _) _]. by exists [ev].
  - apply log_same. by destruct Hl as (_ & ? & _).
Qed.

(** *** Through the application *)

Lemma site_process {A} (m : M (Process P B C) http_error A) : preserves process_grows m → grows (in_process m).
Proof. intros Hm s. unfold in_process. specialize (Hm (st_process s)). by destruct (m _). Qed.
Lemma site_still {A} (m : M (Process P B C) http_error A) : preserves only_reads m → reads (in_process m).
Proof.
  intros Hm s. unfold in_process, site_reads, records_of. specialize (Hm (st_process s)) as (H1' & H2' & H3' & H4').
  destruct (m _) as [r p]. cbn in *. by rewrite H1' H2' H3' H4'.
Qed.
Lemma site_elsewhere {A} (m : M site http_error A) :
  preserves (λ s s', st_process s' = st_process s) m → grows m.
Proof. apply preserves_sub. intros s s' E. unfold site_log_grows. by rewrite E. Qed.
Lemma reads_grows {A} (m : M site http_error A) : reads m → grows m.
Proof.
  apply preserves_sub. intros s s' [=]. apply records_logs. by split_and!.
Qed.
Lemma reads_lift {A} (r : res http_error A) : reads (lift_res r).
Proof. by intros s. Qed.

Abbreviation endpoint_call := (call gs secret issuer now now_seconds inputs correlation lookback
  isoformat audit_ids audit_times).

Lemma reads_same {A} (m : M site http_error A) : (∀ s, (m s).2 = s) → reads m.
Proof. intros Hm s. unfold site_reads. by rewrite Hm. Qed.
Lemma reads_query name dflt q : reads (query_limit name dflt q).
Proof. apply reads_same. intros ?. unfold query_limit. by repeat case_match. Qed.
Lemma reads_limit limit : reads (checked_limit limit).
Proof. apply reads_same. intros ?. unfold checked_limit. by case_match. Qed.
Lemma reads_unprocessable {A} detail : reads (unprocessable (A := A) detail).
Proof. by apply reads_same. Qed.
Lemma reads_investigations {A} (m : M InvestigationDb exn A) : (∀ db, (m db).2 = db) → reads (in_investigations m).
Proof.
  intros Hm s. unfold in_investigations, site_reads, records_of. specialize (Hm (st_investigations s)).
  destruct (m _) as [r db]. cbn in *. by rewrite Hm.
Qed.
Lemma reads_summary n hours : reads (decision_event_summary now n hours).
Proof. apply reads_same. intros ?. unfold decision_event_summary. by case_match. Qed.
Lemma reads_audit id : reads (get_audit_event isoformat audit_ids audit_times id).
Proof. by apply reads_same. Qed.
Lemma reads_find id : reads (in_investigations (store_find id)).
Proof. by apply reads_investigations. Qed.
Lemma reads_memory server exclude limit :
  reads (in_investigations (Investigations.get_investigation_memory server exclude limit)).
Proof.
  apply reads_investigations. intros db. unfold Investigations.get_investigation_memory, recall.
  by case_match.
Qed.
Lemma reads_correlated at_ playbook environment exclude limit :
  reads (in_investigations (Investigations.correlate_investigations correlation lookback at_ playbook
    environment exclude limit)).
Proof.
  apply reads_investigations. intros db. unfold Investigations.correlate_investigations, correlate.
  by repeat case_match.
Qed.
Hint Resolve reads_query reads_limit reads_unprocessable reads_summary reads_audit reads_find
  reads_memory reads_correlated reads_lift still_tools still_servers still_catalog still_approval
  site_still : numi.

(** the endpoints behind a GET *)
Definition endpoint_reads (e : Endpoint) : bool :=
  match e with
  | list_tools_ | get_tool_ | get_approval_ | get_investigation_memory_ | correlate_investigations_
  | get_investigation_ | decision_event_summary_ | get_audit_event_ | list_servers_
  | get_server_catalog_ | health_ | ready_ | docs_ _ => true
  | _ => false
  end.
Lemma gets_read : forallb (λ r, negb (bool_decide (re_method r = GET)) || endpoint_reads (re_endpoint r))
  gateway_routes = true.
Proof. reflexivity. Qed.

Lemma call_reads n e args rq : endpoint_reads e = true → reads (endpoint_call n e args rq).
Proof.
  destruct e; try done; intros _; destruct args as [|a [|b args]]; cbn;
    unfold get_investigation, Endpoints.get_tool; walk.
Qed.
Lemma grows_investigations {A} (m : M InvestigationDb exn A) : grows (in_investigations m).
Proof. apply site_elsewhere, in_investigations_process. Qed.
Lemma grows_decisions {A} (m : M (list DecisionEvent) exn A) : grows (in_decisions m).
Proof. apply site_elsewhere, in_decisions_process. Qed.
Hint Resolve grows_investigations grows_decisions site_process submitted_grows decided_grows
  still_grows still_refresh_all still_refresh_one : numi.
Lemma call_grows n e args rq : grows (endpoint_call n e args rq).
Proof.
  destruct (endpoint_reads e) eqn:He; [by apply reads_grows, call_reads|].
  destruct e; try done; destruct args as [|a [|b args]]; cbn; walk.
Qed.

Abbreviation raw_call := (gateway_call gs secret issuer now now_seconds inputs correlation lookback
  isoformat audit_ids audit_times).

Lemma raw_call_grows n rq s : site_log_grows s (raw_call n rq s).2.
Proof.
  unfold gateway_call. apply (app_request_preserves _ _ _ site_log_grows).
  intros route args _ _. apply call_grows.
Qed.
Lemma raw_call_reads n rq s : rq_method rq = GET → site_reads s (raw_call n rq s).2.
Proof.
  intros Hm. unfold gateway_call. apply (app_request_preserves _ _ _ site_reads).
  intros route args Hin Hmr. apply call_reads.
  pose proof gets_read as Hall. rewrite forallb_forall in Hall. apply list_elem_of_In, Hall in Hin.
  by rewrite Hmr Hm in Hin.
Qed.

Lemma audit_row_app k id rows new x : audit_row audit_ids k id rows = Some x →
  audit_row audit_ids k id (rows ++ new) = Some x.
Proof.
  revert k. induction rows as [|e rows IH]; intros k; [done|]. cbn. case_match; [done|]. apply IH.
Qed.
Lemma audit_row_last k rows e : (∀ i j, audit_ids i = audit_ids j → i = j) →
  audit_row audit_ids k (audit_ids (k + length rows)) (rows ++ [e]) = Some (k + length rows, e)%nat.
Proof.
  intros Hinj. revert k. induction rows as [|x rows IH]; intros k; cbn.
  - by rewrite Nat.add_0_r String.eqb_refl.
  - destruct (String.eqb_spec (audit_ids k) (audit_ids (k + S (length rows)))) as [E|_].
    + apply Hinj in E. lia.
    + by rewrite Nat.add_succ_r -Nat.add_succ_l IH.
Qed.
End logs.

(** C12: The audit log is append-only through the whole application: whatever the request, its
    path, method, body and token, every event that could be read before it is read
    afterwards with the same body, the events of before are a prefix of those of after, and
    a request with the method GET leaves the approvals, the audit and security logs, the
    requests sent for execution, the investigations and the decision events as they were. *)
Theorem audit_log_is_append_only {P B C} `{IdentityProvider P} `{RateLimitBackend B}
    `{CatalogStore C} `{PydanticLax} `{SqlGlot} `{SqlStatements} `{External} `{TimedSerializer}
    `{PathRouting} `{QueryInts} gs secret issuer now now_seconds inputs correlation lookback isoformat
    audit_ids audit_times n rq (s : Site P B C) :
  let s' := (gateway_call gs secret issuer now now_seconds inputs correlation lookback isoformat
               audit_ids audit_times n rq s).2 in
  (∃ new, audit_rows s' = audit_rows s ++ new) ∧
  (∀ id body, (get_audit_event isoformat audit_ids audit_times id s).1 = Ok body →
     (get_audit_event isoformat audit_ids audit_times id s').1 = Ok body) ∧
  (rq_method rq = GET → records_of s' = records_of s).
Proof.
  intros s'. destruct (raw_call_grows gs secret issuer now now_seconds inputs correlation lookback
    isoformat audit_ids audit_times n rq s) as [new Hnew].
  change (audit_rows s' = audit_rows s ++ new) in Hnew. split_and!; [by exists new| |apply raw_call_reads].
  intros id body. unfold get_audit_event. cbn [fst]. rewrite Hnew.
  destruct (audit_row audit_ids 0 id (audit_rows s)) as [[k e]|] eqn:Ea; [|done].
  by rewrite (audit_row_app _ _ _ _ new _ Ea).
Qed.

(** C13: What the Agent is told is what the audit log answers: when a posted tool call is
    answered, GET /v1/audit/{id} with the key of the next row answers an event of the type
    of the answered status, with the request's correlation ids and the failure code it was
    answered, and as its actor the identity its account resolves to. *)
Theorem answered_call_can_be_audited {P B C} `{IdentityProvider P} `{RateLimitBackend B}
    `{CatalogStore C} `{PydanticLax} `{SqlGlot} `{SqlStatements} `{External} `{TimedSerializer}
    `{PathRouting} `{QueryInts} `{ClientPaths} gs secret issuer now now_seconds inputs correlation
    lookback isoformat audit_ids audit_times n body token (s s' : Site P B C) resp :
  (∀ i j, audit_ids i = audit_ids j → i = j) →
  gateway_call gs secret issuer now now_seconds inputs correlation lookback isoformat
    audit_ids audit_times n (raw_request (PostToolCall body) token) s
    = (Replied (Ok (AToolCall resp)), s') →
  ∃ d who,
    (get_audit_event isoformat audit_ids audit_times (audit_ids (length (audit_rows s))) s').1 = Ok d ∧
    (resolve_by_external_account (tr_channel body) (tr_channel_account_id body)
       (ps_identity (st_process s))).1 = Ok (Some who) ∧
    dict_get "event_type" d = Some (JStr (status_event (rs_status resp))) ∧
    dict_get "actor_subject_id" d = Some (JStr (vi_subject_id who)) ∧
    dict_get "correlation_ids" d =
      Some (JObj (map (λ kv, (kv.1, JStr kv.2)) (correlation_of body))) ∧
    dict_get "error_code" d = Some (opt_json (rs_failure_code resp)).
Proof.
  intros Hinj. destruct (raw_request_route (PostToolCall body) token eq_refl) as (route & Ef & Hg & Ee).
  unfold gateway_call, app_request. rewrite Ef Hg Ee. cbn [route_endpoint route_ids call raw_request rq_body rq_token
    route_body]. unfold in_process, submit_tool_call, mbind, M_bind, lift_res.
  destruct (require_agent_service_token _ _ _ _) as [[]|]; [|done].
  destruct (resolve_identity _ _ (st_process s)) as [[who|e] p] eqn:Er; [|done].
  apply resolve_identity_inv in Er as [Hworld Hwho]. unfold handle_in_session.
  pose proof (handle_logs gs (tr_channel body) "agent/0.1.0" (inputs n) who body (ps_world p)) as Hl.
  destruct (handle _ _ _ _ _ _ _) as [[resp'|e] w]; [|done].
  destruct Hl as [(ev & Hw & Ht & Ha & Hc & Hf) _]. intros [= -> <-]. rewrite Hworld in Hw.
  exists (audit_dict isoformat (audit_ids (length (audit_rows s))) (audit_times (length (audit_rows s))) ev), who.
  split_and!; [|by apply Hwho|cbn; by rewrite ?Ht ?Ha ?Hc ?Hf..].
  unfold get_audit_event, audit_rows. cbn [fst EndToEnd.st_process ps_world]. rewrite Hw.
  by rewrite (audit_row_last _ 0 _ ev Hinj).
Qed.

(* ------------------------------------------------------------------ *)
(** ** A deployment to call *)

Definition row_id (n : nat) : string := "aud_" +:+ pretty n.
Lemma row_id_inj i j : row_id i = row_id j → i = j.
Proof. by intros [= E%(inj pretty)]. Qed.

#[local] Existing Instances segment_routing text_query_ints verbatim_paths symbolic_serializer.
Abbreviation example_site := (Site MockIdentityProvider InMemoryBuckets InMemoryCatalog).
Definition app_call (rq : RawRequest) (s : example_site) : Reply Answered * example_site :=
  @gateway_call _ _ _ (mock_provider "now") in_memory_backend in_memory_catalog strict_lax no_sqlglot
    no_sql_statements (answering (Ok one_row)) _ _ _ example_gateway "k" "numi" (λ _, 0%Z) (λ _, 110%Z)
    (λ _, ticks) true 30 (λ _, "then") row_id Z.of_nat 0 rq s.
Definition posted_call : RawRequest := raw_request (PostToolCall health_request) agent_token.
Definition read_event (id : string) : RawRequest := {|
  rq_method := GET; rq_path := path_of ["v1"; "audit"; id]; rq_query := []; rq_body := None;
  rq_token := Some agent_token |}.

(** the same call without its token, and a read without one, are refused *)
Example unsigned_refused :
  map (λ rq : RawRequest, (app_call {| rq_method := rq_method rq; rq_path := rq_path rq;
         rq_query := rq_query rq; rq_body := rq_body rq; rq_token := None |} deployed_site).1)
    [posted_call; read_event "aud_0"]
  = [Replied (Err (HTTPException 401 "Missing service token."));
     Replied (Err (HTTPException 401 "Missing service token."))].
Proof. vm_compute. reflexivity. Qed.

(** the documentation is open to anyone *)
Example docs_are_open :
  map (λ path, (app_call {| rq_method := GET; rq_path := path; rq_query := []; rq_body := None;
                            rq_token := None |} deployed_site).1)
    ["/docs"; "/openapi.json"; "/docs/oauth2-redirect"; "/redoc"]
  = map (λ page, Replied (Ok (ADocs page))) [SwaggerUi; OpenApiJson; SwaggerRedirect; ReDocUi].
Proof. vm_compute. reflexivity. Qed.

Lemma gateway_answers_only_the_agent_witness : from_the_agent "k" "numi" 110 posted_call.
Proof.
  destruct (app_call posted_call deployed_site) as [reply s'] eqn:E.
  pose proof (f_equal fst E) as Er. vm_compute in Er. cbn [fst] in Er.
  destruct (@gateway_answers_only_the_agent _ _ _ _ _ _ _ _ _ _ _ _ _ _ _ _ _ _ _ _ _ _ _ _ _ _ _
    reply s' E) as [Hf|(_ & [->|[[d ->]|[[k ->]|[(Hg & _)|(page & _ & _ & ->)]]]])];
    [exact Hf|discriminate Er..|discriminate Hg|discriminate Er].
Defined.

Lemma client_requests_reach_their_endpoints_witness :
  let r := GetServerCatalog "sqlserver-prod-01" in
  forallb plain_segment (route_ids r) = true ∧
  same_reply (λ _, "then") r (app_call (raw_request r agent_token) deployed_site).1
    (@serve _ _ _ (mock_provider "now") in_memory_backend in_memory_catalog strict_lax no_sqlglot
       no_sql_statements (answering (Ok one_row)) _ example_gateway "k" "numi" (λ _, 0%Z) (λ _, 110%Z)
       (λ _, ticks) true 30 (λ _, "then") _ 0 r agent_token deployed_site).1.
Proof.
  split; [reflexivity|]. eapply client_requests_reach_their_endpoints. reflexivity.
Defined.

(** the posted call, then the audit event it left, over the same table of routes *)
Example posted_then_read :
  let '(reply, s) := app_call posted_call deployed_site in
  match reply, (app_call (read_event "aud_0") s).1, (app_call (read_event "aud_1") s).1 with
  | Replied (Ok (AToolCall resp)), Replied (Ok (ADict d)), Replied (Err e) =>
      rs_status resp = TC_EXECUTED ∧ dict_get "event_type" d = Some (JStr "TOOL_CALL_EXECUTED") ∧
      dict_get "created_at" d = Some (JStr "then") ∧ e = HTTPException 404 "Audit event not found."
  | _, _, _ => False
  end.
Proof. vm_compute. split_and!; reflexivity. Qed.

Lemma answered_call_can_be_audited_witness :
  ∃ d, (get_audit_event (λ _, "then") row_id Z.of_nat "aud_0" (app_call posted_call deployed_site).2).1 = Ok d ∧
    dict_get "event_type" d = Some (JStr "TOOL_CALL_EXECUTED") ∧
    dict_get "actor_subject_id" d = Some (JStr "lou").
Proof.
  destruct (app_call posted_call deployed_site) as [reply s'] eqn:E.
  pose proof (f_equal fst E) as Er. vm_compute in Er. cbn [fst] in Er. subst reply.
  destruct (answered_call_can_be_audited _ _ _ _ _ _ _ _ _ row_id Z.of_nat _ health_request agent_token
    deployed_site s' _ row_id_inj E) as (d & who_ & Hd & Hw & He & Ha & _).
  exists d. vm_compute in Hw. injection Hw as <-. by split_and!.
Defined.
