(* ===== verification/Services.v ===== *)
(** The four processes side by side: what each [create_app] builds from the settings, its
    table of routes with the dependency that guards them, the service tokens of the hops
    between them, the control database's engine of [infrastructure/db/session.py], and the
    lifespans of the Gateway and the Agent. *)
From S2P Require Import Prelude ProgramLogic Json Text Models ToolCatalog Servers Policy RateLimit Approval.
From S2P Require Import DataPolicy Discovery Gateway Identity Endpoints Config Cells Execution Credentials LLMRegistry.
From S2P Require Import Investigations Conversation AgentApi AgentScript Orchestrator ToolClient Digest Alerts Channels.
From S2P Require Import ChannelFacts EndToEnd AgentApp Connections Wire ExecutionApi Startup Routing GatewayApp.

(* ------------------------------------------------------------------ *)
(** ** What the processes are built from *)

(** [_build_cooldown_backend] of [alert_trigger.py] *)
Definition build_cooldown_backend (s : Settings) : BackendChoice :=
  if bool_decide (st_rate_limit_backend s = "redis") then RedisBackend (st_redis_url s) else InMemoryBackend.
(** it mirrors the one of the Gateway, as its comment says *)
Lemma cooldown_mirrors_rate_limits s : build_cooldown_backend s = build_rate_limit_backend s.
Proof. done. Qed.

(** [create_app] of the Agent: the client of the Gateway, the default model, the digest's job,
    the delivery through Channels and the backend of the alert cooldown *)
Record AgentWiring : Type := {
  aw_gateway_base_url : string;
  aw_channels_base_url : string;
  aw_jwt : string * string;
  aw_default_llm : string * string;
  aw_digest : option DigestJob;
  aw_cooldown : BackendChoice
}.
Definition build_agent (s : Settings) : AgentWiring := {|
  aw_gateway_base_url := st_gateway_base_url s;
  aw_channels_base_url := st_channels_base_url s;
  aw_jwt := (st_service_jwt_secret s, st_service_jwt_issuer s);
  aw_default_llm := effective_default_llm s;
  aw_digest := schedule_daily_digest s;
  aw_cooldown := build_cooldown_backend s |}.
Definition start_agent (s : Settings) : res exn AgentWiring :=
  _ ← validate_for_production s; Ok (build_agent s).

(** [create_app] of Channels *)
Inductive TeamsVerifier : Type :=
| BotFrameworkVerifier (app_id : string)
| DevTeamsVerifier (dev_shared_token : string).
Record ChannelsWiring : Type := {
  cw_identity : IdentityChoice;
  cw_agent_base_url : string;
  cw_jwt : string * string;
  cw_slack_bot_token : string;
  cw_teams : TeamsVerifier
}.
Definition start_channels (s : Settings) : res exn ChannelsWiring :=
  _ ← validate_for_production s;
  identity ← build_identity_provider s;
  Ok {| cw_identity := identity; cw_agent_base_url := st_agent_base_url s;
        cw_jwt := (st_service_jwt_secret s, st_service_jwt_issuer s);
        cw_slack_bot_token := st_slack_bot_token s;
        cw_teams := if is_production s then BotFrameworkVerifier (st_teams_app_id s)
                    else DevTeamsVerifier (st_teams_app_password s) |}.

(** no process starts on settings the production gate refuses *)
Lemma refused_settings_start_nothing s e : validate_for_production s = Err e →
  start_gateway s = Err e ∧ start_execution s = Err e ∧ start_agent s = Err e ∧ start_channels s = Err e.
Proof. intros He. unfold start_gateway, start_execution, start_agent, start_channels. by rewrite He. Qed.

(* ------------------------------------------------------------------ *)
(** ** The hops and their tokens *)

Inductive Service : Type := TheChannels | TheAgent | TheGateway | TheExecution.
#[export] Instance Service_eq_dec : EqDecision Service.
Proof. solve_decision. Defined.

Inductive Hop : Type :=
| ChatHop       (** Channels to Agent: a message, a click or an alert *)
| ToolHop       (** Agent to Gateway *)
| NotifyHop     (** Agent to Channels: a digest or an alert's report *)
| ExecutionHop. (** Gateway to Execution Service *)

Definition hop_from (h : Hop) : Service :=
  match h with ChatHop => TheChannels | ToolHop | NotifyHop => TheAgent | ExecutionHop => TheGateway end.
Definition hop_to (h : Hop) : Service :=
  match h with ChatHop => TheAgent | ToolHop => TheGateway | NotifyHop => TheChannels
             | ExecutionHop => TheExecution end.

Definition service_name (s : Service) : string :=
  match s with TheChannels => "channels" | TheAgent => "agent" | TheGateway => "gateway"
             | TheExecution => "execution" end.
(** the audience a service expects of the tokens shown to it *)
Definition door (cfg : Settings) (s : Service) : string :=
  match s with
  | TheChannels => "numi-channels" | TheAgent => "numi-agent" | TheGateway => "numi-gateway"
  | TheExecution => st_execution_service_token_audience cfg
  end.

Section tokens.
Context `{TimedSerializer}.
Context (cfg : Settings).

(** the token the client of a hop sends: each client names itself and its destination *)
Definition hop_token (h : Hop) (now_seconds : Z) : ts_token :=
  issue_token (st_service_jwt_secret cfg) (st_service_jwt_issuer cfg) now_seconds
    (service_name (hop_from h)) (door cfg (hop_to h)).
Definition door_accepts (s : Service) (now_seconds : Z) (token : ts_token) : bool :=
  match verify_token (st_service_jwt_secret cfg) (st_service_jwt_issuer cfg) token (door cfg s)
          now_seconds with
  | Ok _ => true
  | Err _ => false
  end.

(** the tokens of the clients modelled elsewhere *)
Lemma chat_token now : call_token cfg now = hop_token ChatHop (now / SECOND).
Proof. done. Qed.
Lemma tool_token {X} `{!GatewayHttp X} (x : X) :
  headers (st_service_jwt_secret cfg) (st_service_jwt_issuer cfg) x = (Ok (hop_token ToolHop (token_seconds x)), x).
Proof. done. Qed.
Lemma notify_token {X} `{!ChannelsHttp X} channel_id text (x : X) :
  channels_publish cfg channel_id text x =
    (status ← notify_send (hop_token NotifyHop (notify_seconds x)) {| nq_channel_id := channel_id; nq_text := text |};
     lift_res (notify_accepted status)) x.
Proof. done. Qed.
Lemma execution_hop_token now : execution_token cfg now = hop_token ExecutionHop now.
Proof. done. Qed.
End tokens.

(** the audience of the Execution Service is none of the three fixed ones *)
Definition own_audience (cfg : Settings) : Prop :=
  st_execution_service_token_audience cfg ∉ ["numi-channels"; "numi-agent"; "numi-gateway"].
Lemma door_inj cfg s s' : own_audience cfg → door cfg s = door cfg s' → s = s'.
Proof. unfold own_audience. intros Ha He. destruct s, s'; cbn in He; try done; set_solver. Qed.

Lemma door_accepts_spec `{TimedSerializer} cfg h s issued now : own_audience cfg → (issued ≤ now)%Z →
  door_accepts cfg s now (hop_token cfg h issued) = true ↔ s = hop_to h ∧ (now ≤ issued + MAX_TOKEN_AGE)%Z.
Proof.
  intros Ha Ht. unfold door_accepts, hop_token. rewrite service_token_scope //.
  destruct (decide (s = hop_to h)) as [->|Hne].
  - rewrite decide_True //. destruct (decide (now ≤ issued + MAX_TOKEN_AGE)%Z); [|naive_solver].
    by rewrite decide_True.
  - rewrite decide_False; [|naive_solver]. intros [= He]. by apply Hne, (door_inj cfg).
Qed.

(* ------------------------------------------------------------------ *)
(** ** The applications of the Agent, the Execution Service and Channels *)

(** *** agent/api/app.py *)

Inductive AgentEndpoint : Type :=
| agent_health | agent_chat | agent_chat_events | agent_alerts_trigger | agent_docs (page : DocsPage).
Definition agent_routes : list (RouteEntry AgentEndpoint) := docs_router agent_docs ++ [
  entry false GET [Lit "health"] agent_health;
  entry true POST [Lit "v1"; Lit "chat"] agent_chat;
  entry true POST [Lit "v1"; Lit "chat"; Lit "events"] agent_chat_events;
  entry true POST [Lit "v1"; Lit "alerts"; Lit "trigger"] agent_alerts_trigger].
(** the request models of the bodies, and the replies *)
Inductive AgentBody : Type :=
| ChatBody (body : ChatRequest)
| DecisionClick (body : ApprovalEventRequest)
| AlertBody (body : AlertTriggerRequest).
Inductive AgentAnswer : Type :=
| AgentStatus (status : string)
| AgentReplied (reply : AgentReply)
| AlertTaken (response : AlertTriggerResponse)
| AgentPage (page : DocsPage).

Section agent.
Context {X B : Type} `{GatewayClient X} `{LLMProvider X} `{AgentRuntime X} `{DigestPublisher X}.
Context `{RateLimitBackend B} `{FieldFormatter} `{TimedSerializer} `{PathRouting}.
Context (cfg : Settings) (now_seconds monotonic : Z).

Definition agent_endpoint (token : option ts_token) (body : option AgentBody) (e : AgentEndpoint)
    (args : list string) : M (Desk X * B) http_error AgentAnswer :=
  match e, body with
  | agent_health, _ => mret (AgentStatus "ok")
  | agent_docs page, _ => mret (AgentPage page)
  | agent_chat, Some (ChatBody b) => reply ← chat cfg now_seconds token b; mret (AgentReplied reply)
  | agent_chat_events, Some (DecisionClick b) =>
      reply ← chat_events cfg now_seconds token b; mret (AgentReplied reply)
  | agent_alerts_trigger, Some (AlertBody b) =>
      response ← alerts_trigger cfg now_seconds monotonic token b; mret (AlertTaken response)
  | _, _ => raise (HTTPException 422 "Field required")
  end.
Definition agent_call (token : option ts_token) (body : option AgentBody)
    : HttpMethod → string → Desk X * B → Reply AgentAnswer * (Desk X * B) :=
  app_request agent_routes (require_channel_service_token cfg now_seconds token)
    (agent_endpoint token body).
End agent.

(** *** execution/api/app.py *)

Inductive ExecutionEndpoint : Type :=
| execution_health | execution_ready | execution_execute | execution_discover | execution_docs (page : DocsPage).
Inductive ExecutionAnswer : Type := ExecutionJson (v : json) | ExecutionPage (page : DocsPage).
Definition execution_routes : list (RouteEntry ExecutionEndpoint) := docs_router execution_docs ++ [
  entry false GET [Lit "health"] execution_health;
  entry false GET [Lit "ready"] execution_ready;
  entry true POST [Lit "v1"; Lit "execute"] execution_execute;
  entry true POST [Lit "v1"; Lit "discover"] execution_discover].

Section execution.
Context `{PydanticLax} `{IsoDatetime} `{TimedSerializer} `{PathRouting}.
Context {D : Type} `{DatabaseDriver D} (provider : string → res exn DatabaseCredentials).
Context (py_repr : json → string) (int_of_text : string → option Z).
Context (invalid_text : db_row → string) (str_of_container : pyval → string).
Context (since_text : Z → string) (cfg : Settings) (now_seconds now duration_ms : Z).

Definition execution_endpoint (token : option ts_token) (body : json) (e : ExecutionEndpoint)
    (args : list string) : M (list Operation) http_error ExecutionAnswer :=
  let answered (m : M (list Operation) http_error json) := v ← m; mret (ExecutionJson v) in
  match e with
  | execution_health => answered (mret (JObj [("status", JStr "ok")]))
  | execution_ready => answered (mret (JObj [("status", JStr "ready")]))
  | execution_docs page => mret (ExecutionPage page)
  | execution_execute => answered
      (post_execute provider py_repr str_of_container since_text cfg now_seconds duration_ms token body)
  | execution_discover => answered
      (post_discover provider py_repr int_of_text invalid_text str_of_container cfg now_seconds now token body)
  end.
Definition execution_call (token : option ts_token) (body : json)
    : HttpMethod → string → list Operation → Reply ExecutionAnswer * list Operation :=
  app_request execution_routes (require_gateway_service_token cfg now_seconds token)
    (execution_endpoint token body).
End execution.

(** *** channels/api/app.py *)

Inductive ChannelsEndpoint : Type :=
| channels_health | channels_notify | channels_slack | channels_slack_interactive | channels_teams
| channels_alerts | channels_dev_chat | channels_dev_chat_events | channels_docs (page : DocsPage).
(** only the path another service calls is behind a service token; the webhooks check what
    their own transport signs *)
Definition channels_routes : list (RouteEntry ChannelsEndpoint) := docs_router channels_docs ++ [
  entry false GET [Lit "health"] channels_health;
  entry true POST [Lit "v1"; Lit "notify"] channels_notify;
  entry false POST [Lit "webhooks"; Lit "slack"] channels_slack;
  entry false POST [Lit "webhooks"; Lit "slack"; Lit "interactive"] channels_slack_interactive;
  entry false POST [Lit "webhooks"; Lit "teams"] channels_teams;
  entry false POST [Lit "webhooks"; Lit "alerts"] channels_alerts;
  entry false POST [Lit "dev"; Lit "chat"] channels_dev_chat;
  entry false POST [Lit "dev"; Lit "chat"; Lit "events"] channels_dev_chat_events].

Section channels.
Context {P X : Type} `{IdentityProvider P} `{TimedSerializer} `{!AgentService X} `{MessagingApi X}.
Context `{Hmac} `{BotFramework} `{PathRouting}.
Context (json_loads : string → res exn json) (py_repr : json → string).
Context (cfg : Settings) (now monotonic : Z).

(** a request: the raw body, the headers the handlers read, and what the framework makes of
    the form and of the bodies with a model *)
Record ChannelsRequest : Type := {
  cr_raw_body : string;
  cr_slack_timestamp : option string; cr_slack_signature : option string;
  cr_alert_timestamp : option string; cr_alert_signature : option string;
  cr_authorization : option string;
  cr_service_token : option ts_token;
  cr_form_payload : option FormValue;
  cr_notify : option NotifyRequest;
  cr_dev_chat : option DevChatRequest;
  cr_dict : option dict
}.

(** the handler's inputs *)
Definition inbound (rq : ChannelsRequest) (e : ChannelsEndpoint) : option Inbound :=
  match e with
  | channels_health | channels_docs _ => None
  | channels_notify => Notify (cr_service_token rq) <$> cr_notify rq
  | channels_slack => Some (SlackEvents (cr_raw_body rq) (cr_slack_timestamp rq) (cr_slack_signature rq))
  | channels_slack_interactive => Some (SlackClick (cr_form_payload rq))
  | channels_teams => Some (TeamsActivity (cr_raw_body rq) (cr_authorization rq))
  | channels_alerts => Some (MonitoringAlert (cr_raw_body rq) (cr_alert_timestamp rq) (cr_alert_signature rq))
  | channels_dev_chat => DevChat <$> cr_dev_chat rq
  | channels_dev_chat_events => DevChatEvent <$> cr_dict rq
  end.

(** [require_agent_service_token] *)
Definition require_notify_token (token : option ts_token) : res http_error unit :=
  match token with
  | None => Err (HTTPException 401 "Missing service token.")
  | Some t => if door_accepts cfg TheChannels (now / SECOND) t then Ok tt
              else Err (HTTPException 401 "Invalid service token.")
  end.
Definition channels_endpoint (rq : ChannelsRequest) (e : ChannelsEndpoint) (args : list string)
    : M (Channels P X) http_error unit :=
  match e, inbound rq e with
  | channels_health, _ | channels_docs _, _ => mret tt
  | _, Some r => receive json_loads py_repr cfg now monotonic r
  | _, None => raise (HTTPException 422 "Field required")
  end.
Definition channels_call (rq : ChannelsRequest)
    : HttpMethod → string → Channels P X → Reply unit * Channels P X :=
  app_request channels_routes (require_notify_token (cr_service_token rq)) (channels_endpoint rq).
End channels.

(* ------------------------------------------------------------------ *)
(** ** A token opens one door *)

(** a refused guard leaves an application whose open routes change nothing as it was *)
Lemma refused_request_moves_nothing {S E A} `{PathRouting} (table : list (RouteEntry E)) guard e
    (endpoint : E → list string → M S http_error A) m p s :
  guard = Err e →
  (∀ route args, route ∈ table → re_guarded route = false → path_match (re_path route) p = Some args →
     ∀ s, (endpoint (re_endpoint route) args s).2 = s) →
  (app_request table guard endpoint m p s).2 = s.
Proof.
  intros Hg Hopen. destruct (app_request table guard endpoint m p s) as [reply s'] eqn:Er.
  apply app_request_cases in Er
    as [[_ ->]|(route & args & Hin & _ & Hp & [(_ & _ & ->)|([Ho|Hok] & r & Hc & _)])]; [done..| |congruence].
  specialize (Hopen route args Hin Ho Hp s). by rewrite Hc in Hopen.
Qed.

Lemma door_refuses `{TimedSerializer} cfg h s issued now : own_audience cfg → (issued ≤ now)%Z → s ≠ hop_to h →
  ∃ e, verify_token (st_service_jwt_secret cfg) (st_service_jwt_issuer cfg) (hop_token cfg h issued)
         (door cfg s) now = Err (numi_error AUTHENTICATION_FAILED e).
Proof.
  intros Ha Ht Hs. unfold hop_token. rewrite service_token_scope //.
  rewrite decide_False; [|eauto]. intros [= He]. by apply Hs, (door_inj cfg).
Qed.

Section one_door.
Context `{TimedSerializer} `{PathRouting} (cfg : Settings) (h : Hop) (issued now_seconds : Z).
Hypothesis Haudience : own_audience cfg.
Hypothesis Hissued : (issued ≤ now_seconds)%Z.

Abbreviation token := (hop_token cfg h issued).

Lemma agent_stands {X B} `{GatewayClient X} `{LLMProvider X} `{AgentRuntime X} `{DigestPublisher X}
    `{RateLimitBackend B} `{FieldFormatter} monotonic body m p (d : Desk X * B) :
  h ≠ ChatHop → (agent_call cfg now_seconds monotonic (Some token) body m p d).2 = d.
Proof.
  intros Hh. assert (TheAgent ≠ hop_to h) as Hs by by destruct h.
  destruct (door_refuses cfg h TheAgent issued now_seconds Haudience Hissued Hs) as [e He]. cbn [door] in He.
  unfold agent_call. eapply refused_request_moves_nothing.
  - unfold require_channel_service_token. by rewrite He.
  - intros route args Hin Hg _ d'. cbn in Hin.
    repeat (apply elem_of_cons in Hin as [->|Hin]; [by try discriminate Hg|]). by apply elem_of_nil in Hin.
Qed.

Lemma execution_stands `{PydanticLax} `{IsoDatetime} {D} `{DatabaseDriver D} provider py_repr int_of_text
    invalid_text str_of_container since_text now duration_ms body m p log :
  h ≠ ExecutionHop →
  (execution_call (D := D) provider py_repr int_of_text invalid_text str_of_container since_text cfg
     now_seconds now duration_ms (Some token) body m p log).2 = log.
Proof.
  intros Hh. assert (TheExecution ≠ hop_to h) as Hs by by destruct h.
  destruct (door_refuses cfg h TheExecution issued now_seconds Haudience Hissued Hs) as [e He].
  cbn [door] in He. unfold execution_call. eapply refused_request_moves_nothing.
  - unfold require_gateway_service_token. by rewrite He.
  - intros route args Hin Hg _ log'. cbn in Hin.
    repeat (apply elem_of_cons in Hin as [->|Hin]; [by try discriminate Hg|]). by apply elem_of_nil in Hin.
Qed.

Lemma gateway_stands {P B C} `{IdentityProvider P} `{RateLimitBackend B} `{CatalogStore C} `{PydanticLax}
    `{SqlGlot} `{SqlStatements} `{External} `{QueryInts} gs now inputs correlation lookback isoformat
    audit_ids audit_times n rq (s : Site P B C) :
  h ≠ ToolHop → rq_token rq = Some token →
  (gateway_call gs (st_service_jwt_secret cfg) (st_service_jwt_issuer cfg) now (λ _, now_seconds) inputs
     correlation lookback isoformat audit_ids audit_times n rq s).2 = s.
Proof.
  intros Hh Ht. assert (TheGateway ≠ hop_to h) as Hs by by destruct h.
  destruct (door_refuses cfg h TheGateway issued now_seconds Haudience Hissued Hs) as [e He]. cbn [door] in He.
  unfold gateway_call. eapply refused_request_moves_nothing.
  - rewrite Ht. unfold require_agent_service_token. by rewrite He.
  - intros route args Hin Hg Hp s'.
    by destruct (open_route_spec gs (st_service_jwt_secret cfg) (st_service_jwt_issuer cfg) now (λ _, now_seconds)
      inputs correlation lookback isoformat audit_ids audit_times n rq _ _ Hin Hg Hp) as (_ & v & _ & _ & ->).
Qed.

Lemma notify_stands {P X} `{IdentityProvider P} `{!AgentService X} `{MessagingApi X} `{Hmac} `{BotFramework}
    json_loads py_repr now monotonic (rq : ChannelsRequest) (c : Channels P X) :
  h ≠ NotifyHop → cr_service_token rq = Some token → (now / SECOND)%Z = now_seconds →
  (channels_call json_loads py_repr cfg now monotonic rq POST (path_of ["v1"; "notify"]) c).2 = c.
Proof.
  intros Hh Ht Hn. assert (TheChannels ≠ hop_to h) as Hs by by destruct h.
  destruct (door_refuses cfg h TheChannels issued now_seconds Haudience Hissued Hs) as [e He].
  unfold channels_call. eapply refused_request_moves_nothing.
  - rewrite Ht. unfold require_notify_token, door_accepts. by rewrite Hn He.
  - intros route args Hin Hg Hp c'. rewrite path_match_segments // in Hp. cbn in Hin.
    repeat (apply elem_of_cons in Hin as [->|Hin]; [by try discriminate Hg; try discriminate Hp|]).
    by apply elem_of_nil in Hin.
Qed.
End one_door.

(** C5: A service token opens one door: with an audience of its own for the Execution Service,
    the token a client sends on one of the four hops between the services is accepted by
    the service at the end of that hop, for a minute, and by no other; shown anywhere else
    it moves nothing, whatever the method, the path and the body are: the Agent neither
    reads nor writes a conversation, the Execution Service runs nothing, the Gateway keeps
    every record and Channels delivers nothing.  Nothing the Agent holds executes. *)
Theorem tokens_open_one_door `{TimedSerializer} `{PathRouting} `{PydanticLax} `{IsoDatetime}
    {X Y B K P C D} `{GatewayClient X} `{LLMProvider X} `{AgentRuntime X} `{DigestPublisher X}
    `{RateLimitBackend K} `{FieldFormatter} `{IdentityProvider P} `{RateLimitBackend B} `{CatalogStore C}
    `{SqlGlot} `{SqlStatements} `{External} `{QueryInts} `{DatabaseDriver D} `{!AgentService Y}
    `{MessagingApi Y} `{Hmac} `{BotFramework}
    cfg h issued now_seconds :
  own_audience cfg → (issued ≤ now_seconds)%Z →
  let token := hop_token cfg h issued in
  (∀ s, door_accepts cfg s now_seconds token = true ↔
     s = hop_to h ∧ (now_seconds ≤ issued + MAX_TOKEN_AGE)%Z) ∧
  (h ≠ ChatHop → ∀ monotonic body m p (d : Desk X * K),
     (agent_call cfg now_seconds monotonic (Some token) body m p d).2 = d) ∧
  (h ≠ ExecutionHop → ∀ provider py_repr int_of_text invalid_text str_of_container since_text now
     duration_ms body m p log,
     (execution_call (D := D) provider py_repr int_of_text invalid_text str_of_container since_text cfg
        now_seconds now duration_ms (Some token) body m p log).2 = log) ∧
  (h ≠ ToolHop → ∀ gs now inputs correlation lookback isoformat audit_ids audit_times n rq (s : Site P B C),
     rq_token rq = Some token →
     (gateway_call gs (st_service_jwt_secret cfg) (st_service_jwt_issuer cfg) now (λ _, now_seconds)
        inputs correlation lookback isoformat audit_ids audit_times n rq s).2 = s) ∧
  (h ≠ NotifyHop → ∀ json_loads py_repr now monotonic (rq : ChannelsRequest) (c : Channels P Y),
     cr_service_token rq = Some token → (now / SECOND)%Z = now_seconds →
     (channels_call json_loads py_repr cfg now monotonic rq POST (path_of ["v1"; "notify"]) c).2 = c).
Proof.
  intros Ha Ht token. split_and!.
  - intros s. by apply door_accepts_spec.
  - intros. by apply (agent_stands cfg h issued now_seconds).
  - intros. by apply (execution_stands cfg h issued now_seconds).
  - intros. by apply (gateway_stands cfg h issued now_seconds).
  - intros. by apply (notify_stands cfg h issued now_seconds).
Qed.

(** *** The Agent's token at the Execution Service *)

#[local] Existing Instances symbolic_serializer segment_routing strict_lax binary_datetimes version_driver
  mock_provider in_memory_backend in_memory_catalog no_sqlglot no_sql_statements text_query_ints
  greeting_agent quiet_api one_signature no_bots.
Definition execute_version (h : Hop) : Reply ExecutionAnswer * list Operation :=
  execution_call one_login (λ _, "") (λ _, None) (λ _, "") (λ _, "") (λ _, "") default_settings 130 0 0
    (Some (hop_token default_settings h 100)) (dump version_request) POST (path_of ["v1"; "execute"]) [].
(** the Gateway's token runs the operation *)
Example execution_hop_executes : (execute_version ExecutionHop).2 = [Executed version_request].
Proof. vm_compute. reflexivity. Qed.

Lemma tokens_open_one_door_witness :
  map (λ s, door_accepts default_settings s 130 (hop_token default_settings ToolHop 100))
    [TheChannels; TheAgent; TheGateway; TheExecution] = [false; false; true; false] ∧
  (execute_version ToolHop).2 = [].
Proof.
  split; [vm_compute; reflexivity|].
  assert (own_audience default_settings) as Ha.
  { unfold own_audience. cbn. intros Hin. repeat (apply elem_of_cons in Hin as [Hin|Hin]; [done|]).
    by apply elem_of_nil in Hin. }
  apply (@tokens_open_one_door _ _ _ _ Script unit InMemoryBuckets InMemoryBuckets MockIdentityProvider
    InMemoryCatalog unit _ _ _ _ _ _ (mock_provider "now") _ _ _ _ (answering (Ok one_row)) _ _ _ _ _ _
    default_settings ToolHop 100 130 Ha); [lia|done].
Defined.

(** with a shared audience the hops are no longer apart: the Agent's own token then opens the
    Execution Service, and the production gate accepts the setting *)
Definition shared_audience : Settings :=
  production_settings <| st_execution_service_token_audience := "numi-gateway" |>
    <| st_identity_provider := "oidc" |> <| st_oidc_issuer := "https://idp" |>.
Example shared_audience_opens_two_doors :
  is_ok (start_execution shared_audience) = true ∧
  map (λ s, @door_accepts symbolic_serializer shared_audience s 110
              (@hop_token symbolic_serializer shared_audience ToolHop 100)) [TheGateway; TheExecution; TheAgent]
    = [true; true; false].
Proof. vm_compute. by split. Qed.

(* ------------------------------------------------------------------ *)
(** ** session.py and the lifespans *)

(** [make_engine]: the driver's arguments *)
Definition is_sqlite (database_url : string) : bool := starts_with "sqlite" database_url.
Definition connect_args (database_url : string) : list (string * bool) :=
  if is_sqlite database_url then [("check_same_thread", false)] else [].

(** the task that crawls the estate when the Gateway starts; cancelled, it was asked to stop *)
Inductive Task : Type := NoTask | TaskRunning | TaskEnded | TaskCancelled.
(** a Gateway process: before, during and after it serves; the tables it created itself, its
    discovery task, and its engine *)
Inductive Phase : Type := Built | Serving | Stopped.
Record GatewayRun : Type := {
  gr_phase : Phase;
  gr_created_tables : bool;
  gr_discovery : Task;
  gr_engine_open : bool
}.
Definition built_gateway : GatewayRun :=
  {| gr_phase := Built; gr_created_tables := false; gr_discovery := NoTask; gr_engine_open := true |}.

(** [lifespan]: up to its [yield], and after it *)
Definition gateway_starts (cfg : Settings) (g : GatewayRun) : GatewayRun := {|
  gr_phase := Serving;
  gr_created_tables := is_sqlite (st_control_db_url cfg);
  gr_discovery := if st_discovery_on_startup cfg then TaskRunning else NoTask;
  gr_engine_open := gr_engine_open g |}.
Definition cancel (t : Task) : Task := match t with TaskRunning => TaskCancelled | t => t end.
Definition gateway_stops (g : GatewayRun) : GatewayRun := {|
  gr_phase := Stopped; gr_created_tables := gr_created_tables g;
  gr_discovery := cancel (gr_discovery g); gr_engine_open := false |}.

Inductive gateway_step (cfg : Settings) : GatewayRun → GatewayRun → Prop :=
| gateway_start g : gr_phase g = Built → gateway_step cfg g (gateway_starts cfg g)
| gateway_discovered g : gr_discovery g = TaskRunning →
    gateway_step cfg g {| gr_phase := gr_phase g; gr_created_tables := gr_created_tables g;
                          gr_discovery := TaskEnded; gr_engine_open := gr_engine_open g |}
| gateway_stop g : gr_phase g = Serving → gateway_step cfg g (gateway_stops g).

(** what holds of a process in each phase *)
Definition gateway_sound (cfg : Settings) (g : GatewayRun) : Prop :=
  match gr_phase g with
  | Built => g = built_gateway
  | Serving => gr_engine_open g = true ∧ gr_created_tables g = is_sqlite (st_control_db_url cfg) ∧
      (gr_discovery g = NoTask ↔ st_discovery_on_startup cfg = false) ∧ gr_discovery g ≠ TaskCancelled
  | Stopped => gr_engine_open g = false ∧ gr_discovery g ≠ TaskRunning
  end.
Lemma gateway_step_sound cfg g g' : gateway_step cfg g g' → gateway_sound cfg g → gateway_sound cfg g'.
Proof.
  intros [g0 Hp|g0 Ht|g0 Hp]; unfold gateway_sound; cbn.
  - rewrite Hp. intros ->. cbn. split_and!; try done; by destruct (st_discovery_on_startup cfg).
  - destruct (gr_phase g0); [by intros ->| |by intros [? ?]].
    intros (? & ? & Hn & ?). split_and!; try done. rewrite Ht in Hn. naive_solver.
  - rewrite Hp. intros _. split; [done|]. by destruct (gr_discovery g0).
Qed.

(** however a Gateway runs, it serves with its engine open, creates tables only in a local
    SQLite file, crawls at the start exactly when it is told to, and stops with the engine
    disposed and no crawl left that was not asked to stop *)
Theorem gateway_lifespan_sound cfg g : rtc (gateway_step cfg) built_gateway g → gateway_sound cfg g.
Proof.
  assert (gateway_sound cfg built_gateway) as H0 by done. revert H0. generalize built_gateway.
  intros g0 H0 Hr. induction Hr as [|g1 g2 g3 Hs Hr IH]; [done|]. by apply IH, (gateway_step_sound cfg g1).
Qed.
