(* ===== verification/Histories.v ===== *)
(** Histories of the Gateway: any sequence of raw requests to the application of
    GatewayApp.v, over a control database that starts without approvals.  Whatever was sent
    to the execution service is traced back to the requests it stems from: the tool call
    that was posted, the call that asked for its approval, and the people who approved it. *)
From S2P Require Import Prelude ProgramLogic Json Text Models ToolCatalog Servers Policy RateLimit Approval.
From S2P Require Import DataPolicy Discovery Gateway Identity Endpoints Investigations Conversation.
From S2P Require Import AgentApi ToolClient EndToEnd Routing GatewayApp.

Section histories.
Context {P B C : Type} `{IdentityProvider P} `{RateLimitBackend B} `{CatalogStore C}.
Context `{PydanticLax} `{SqlGlot} `{SqlStatements} `{External} `{TimedSerializer}.
Context `{PathRouting} `{QueryInts}.
Context (gs : GatewayState) (secret issuer : string).
Context (now now_seconds : nat → Z) (inputs : nat → CallInputs).
Context (correlation : bool) (lookback : Z) (isoformat : Z → string).
Context (audit_ids : nat → string) (audit_times : nat → Z).

Abbreviation site := (Site P B C).
Abbreviation raw_call := (gateway_call gs secret issuer now now_seconds inputs correlation lookback
  isoformat audit_ids audit_times).
Abbreviation endpoint_call := (call gs secret issuer now now_seconds inputs correlation lookback
  isoformat audit_ids audit_times).

(** the requests one after the other, from the n-th on *)
Fixpoint served_all (n : nat) (rqs : list RawRequest) (s : site) : site :=
  match rqs with
  | [] => s
  | rq :: rqs => served_all (S n) rqs (raw_call n rq s).2
  end.

(* ------------------------------------------------------------------ *)
(** ** Where a sent request comes from *)

(** the states of the identity provider the deployment can be in, and the requests *)
Context (directory : P → Prop) (requests : list RawRequest).

(** the m-th request fits the route of the endpoint, with these arguments and this body,
    and carries a token of the Agent *)
Definition asked (m : nat) (e : Endpoint) (args : list string) (body : Body) : Prop :=
  ∃ rq route, requests !! m = Some rq ∧
    find_route (rq_method rq) (rq_path rq) gateway_routes = Some (route, args) ∧
    re_endpoint route = e ∧ rq_body rq = Some body ∧
    from_the_agent secret issuer (now_seconds m) rq.

(** the provider knows the account as this person *)
Definition account_of (channel account : string) (who : VerifiedIdentity) : Prop :=
  ∃ p, directory p ∧ (resolve_by_external_account channel account p).1 = Ok (Some who).

(** the m-th request is a tool call of this person that passed every gate *)
Record call_made (m : nat) (body : ToolCallRequest) (who : VerifiedIdentity) (p : Prepared) : Prop := {
  cm_asked : asked m submit_tool_call_ [] (ToolCallBody body);
  cm_who : account_of (tr_channel body) (tr_channel_account_id body) who;
  cm_gates : gates_passed (B := B) gs (inputs m) who body p
}.
Definition action_of (body : ToolCallRequest) (who : VerifiedIdentity) (p : Prepared) : string :=
  action_hash sha256 (approval_context who body p).

(** before the n-th request, the record was asked for by a tool call for its very action *)
Definition requested (n : nat) (id : string) (r : ApprovalRecord) : Prop :=
  ∃ k body who p, (k < n)%nat ∧ call_made k body who p ∧
    id = new_id "appr" (ci_approval_ulid (inputs k)) ∧ ar_approval_id r = id ∧
    ar_actor_subject_id r = vi_subject_id who ∧ ar_action_hash r = action_of body who p ∧
    ar_requires_dual_approval r = pe_requires_dual_approval (pr_evaluation p) ∧
    ar_expires_at r = (ci_now_approval (inputs k) + gs_approval_ttl gs * US)%Z.

(** before the n-th request, a DBA with this subject asked to approve this record *)
Definition approved_by (n : nat) (id subject : string) : Prop :=
  ∃ k c a who, (k < n)%nat ∧ asked k approve_ [id] (AccountBody c a) ∧ account_of c a who ∧
    is_dba who = true ∧ vi_subject_id who = subject.

Definition approver_of (r : ApprovalRecord) (a : string) : Prop :=
  ar_approver_1_subject_id r = Some a ∨ ar_approver_2_subject_id r = Some a.

(** what was sent to the execution service is a call that passed every gate and, where the
    policy asks for approval, names an unexpired record of an earlier call for the same
    action, granted by DBAs who asked to approve it before *)
Definition accounted_for (n : nat) (e : ExecutionRequest) : Prop :=
  ∃ m body who p, (m < n)%nat ∧ call_made m body who p ∧ e = exec_request (inputs m) p ∧
    pe_decision (pr_evaluation p) ≠ DENY ∧
    (pe_decision (pr_evaluation p) = REQUIRES_APPROVAL → ∃ id r,
       tr_approval_id body = Some id ∧ requested m id r ∧
       ar_action_hash r = action_of body who p ∧
       (ci_now_approval (inputs m) ≤ ar_expires_at r)%Z ∧ granted r ∧
       ∀ a, approver_of r a → approved_by m id a).

Lemma requested_later n n' id r : (n ≤ n')%nat → requested n id r → requested n' id r.
Proof. intros ? (k & body & who & p & ? & ?). exists k, body, who, p. split; [lia|done]. Qed.
Lemma approved_later n n' id a : (n ≤ n')%nat → approved_by n id a → approved_by n' id a.
Proof. intros ? (k & c & acc & who & ? & ?). exists k, c, acc, who. split; [lia|done]. Qed.
Lemma accounted_later n n' e : (n ≤ n')%nat → accounted_for n e → accounted_for n' e.
Proof. intros ? (m & body & who & p & ? & ?). exists m, body, who, p. split; [lia|done]. Qed.

(* ------------------------------------------------------------------ *)
(** ** The approvals table *)

(** every record was asked for, has the approvals its status claims, and has them only
    from DBAs who asked to approve it *)
Record sound_table (n : nat) (db : ApprovalDb) : Prop := {
  st_requested : ∀ id r, db_approvals db !! id = Some r → requested n id r;
  st_wf : ∀ id r, db_approvals db !! id = Some r → wf_record r;
  st_people : ∀ id r a, db_approvals db !! id = Some r → approver_of r a → approved_by n id a
}.

Lemma table_later n n' db : (n ≤ n')%nat → sound_table n db → sound_table n' db.
Proof.
  intros Hn [Hq Hw Hp]. constructor; [|done|]; intros.
  - eapply requested_later; eauto.
  - eapply approved_later; eauto.
Qed.
Lemma table_keyed n db id r : sound_table n db → db_approvals db !! id = Some r → ar_approval_id r = id.
Proof. intros Hd Hr. by destruct (st_requested _ _ Hd id r Hr) as (k & body & who & p & _ & _ & _ & ? & _). Qed.

(** one record goes on to a later state of itself *)
Lemma table_update n db db' id r r' : sound_table n db → db_approvals db !! id = Some r →
  db_approvals db' = <[id := r']> (db_approvals db) → same_action r r' → wf_record r' →
  (∀ a, approver_of r' a → approver_of r a ∨ approved_by n id a) → sound_table n db'.
Proof.
  intros [Hq Hw Hp] Hr Hdb Hs Hw' Hp'. constructor; rewrite Hdb.
  - intros id' r1 [[<- <-]|[_ ?]]%lookup_insert_Some; [|by apply Hq].
    destruct (Hq id r Hr) as (k & body & who & p & ? & ? & ? & Hid & Ha & Hh & Hd).
    destruct Hs as (Es & Ea & _ & _ & _ & Eh & Ed & _ & Ex).
    exists k, body, who, p. by rewrite Es Ea Eh Ed Ex.
  - intros id' r1 [[_ <-]|[_ ?]]%lookup_insert_Some; [done|by eapply Hw].
  - intros id' r1 a [[<- <-]|[_ ?]]%lookup_insert_Some Ha; [|by eapply Hp].
    destruct (Hp' a Ha) as [?|?]; [by eapply Hp|done].
Qed.

Lemma settle_approver r at_ a : approver_of (settle r at_) a → approver_of r a.
Proof. unfold settle. by case_match. Qed.
Lemma table_settle n db db' id r at_ : sound_table n db → db_approvals db !! id = Some r →
  db_approvals db' = <[id := settle r at_]> (db_approvals db) → sound_table n db'.
Proof.
  intros Hd Hr Hdb. eapply table_update; [exact Hd|exact Hr|exact Hdb|apply settle_same| |].
  - eapply settle_wf, st_wf; eauto.
  - intros a Ha. left. by eapply settle_approver.
Qed.

Lemma decided_approver r a d at_ r' x : decide_pure r a d at_ = Ok r' →
  approver_of r' x → approver_of r x ∨ d = APPROVE ∧ x = vi_subject_id a.
Proof.
  unfold approver_of. intros (_ & _ & _ & Hc)%decide_pure_cases.
  destruct Hc as [[-> ->]|[(-> & _ & _ & _ & ->)|[(-> & _ & _ & f & Hf & _ & ->)|(-> & _ & ->)]]]; cbn;
    naive_solver congruence.
Qed.
Lemma table_decide n id a d at_ db : sound_table n db →
  (d = APPROVE → approved_by n id (vi_subject_id a)) →
  sound_table n (approval_decide id a d at_ db).2.
Proof.
  intros Hd Ha. destruct (db_approvals db !! id) as [r|] eqn:Er.
  - destruct (approval_decide_spec id a d at_ db r Er (table_keyed _ _ _ _ Hd Er)) as [ev ->].
    destruct (decide_pure (settle r at_) a d at_) as [r'|e] eqn:Ed; cbn; [|by eapply table_settle].
    eapply table_update; [exact Hd|exact Er|reflexivity| | |].
    + transitivity (settle r at_); [apply settle_same|by eapply decide_same].
    + eapply decide_wf; [|exact Ed]. eapply settle_wf, st_wf; eauto.
    + intros x Hx. destruct (decided_approver _ _ _ _ _ _ Ed Hx) as [?|[? ->]];
        [left; by eapply settle_approver|right; by apply Ha].
  - unfold approval_decide, approval_get, mbind, M_bind. by rewrite Er.
Qed.

Lemma table_verify n id h at_ db res db' : sound_table n db →
  verify_for_execution id h at_ db = (res, db') → sound_table n db'.
Proof.
  intros Hd Ev. destruct (db_approvals db !! id) as [r|] eqn:Er.
  - destruct (verify_spec id h at_ db r Er (table_keyed _ _ _ _ Hd Er)) as [ev Hv].
    eapply table_settle; [exact Hd|exact Er|]. rewrite Hv in Ev. by injection Ev as _ <-.
  - unfold verify_for_execution, approval_get, mbind, M_bind in Ev. rewrite Er in Ev. by injection Ev as _ <-.
Qed.

Lemma table_mark n id at_ db r : sound_table n db → db_approvals db !! id = Some r → granted r →
  sound_table n (mark_executed id at_ db).2.
Proof.
  intros Hd Hr Hg. destruct (mark_spec id at_ db r Hr (table_keyed _ _ _ _ Hd Hr)) as [ev ->]. cbn.
  eapply table_update; [exact Hd|exact Hr|reflexivity|by split_and!| |by left].
  apply mark_wf; [by eapply st_wf|done].
Qed.

(* ------------------------------------------------------------------ *)
(** ** A tool call *)

(** the world between the requests n - 1 and n *)
Record accountable (n : nat) (w : World B C) : Prop := {
  ac_table : sound_table n (w_approvals w);
  ac_sent : ∀ e, e ∈ w_executions w → accounted_for n e
}.
Lemma accountable_later n n' w : (n ≤ n')%nat → accountable n w → accountable n' w.
Proof.
  intros Hn [Ht Hs]. constructor; [by eapply table_later|]. intros e He. eapply accounted_later; eauto.
Qed.
Lemma accountable_same n w w' : same_records w w' → accountable n w → accountable n w'.
Proof. intros (Ea & _ & _ & Ee) [Ht Hs]. constructor; [by rewrite Ea|by rewrite Ee]. Qed.

Section one_call.
Context (n : nat) (body : ToolCallRequest) (who : VerifiedIdentity) (channel version : string).
Hypothesis posted : asked n submit_tool_call_ [] (ToolCallBody body).
Hypothesis known : account_of (tr_channel body) (tr_channel_account_id body) who.

Lemma made p : gates_passed (B := B) gs (inputs n) who body p → call_made n body who p.
Proof. by constructor. Qed.

(** step 8: the record a call asks for *)
Lemma table_create p db r db' :
  approval_create sha256 (gs_approval_ttl gs) (approval_context who body p)
    (pe_requires_dual_approval (pr_evaluation p)) (ci_now_approval (inputs n))
    (ci_approval_ulid (inputs n)) db = (r, db') →
  gates_passed (B := B) gs (inputs n) who body p → sound_table n db → sound_table (S n) db'.
Proof.
  intros Hc Hg Hd. destruct (create_spec sha256 (gs_approval_ttl gs) (approval_context who body p)
      (pe_requires_dual_approval (pr_evaluation p)) (ci_now_approval (inputs n))
      (ci_approval_ulid (inputs n)) db)
    as (r0 & ev & Hc' & Hid & Hst & H1' & H2' & Ha & Hh & Hdu & _ & Hex). rewrite Hc' in Hc. injection Hc as <- <-.
  apply (table_later n (S n)) in Hd; [|lia]. destruct Hd as [Hq Hw Hp]. constructor; cbn.
  - intros id r1 [[<- <-]|[_ ?]]%lookup_insert_Some; [|by apply Hq].
    exists n, body, who, p. split; [lia|]. by split; [apply made|].
  - intros id r1 [[_ <-]|[_ ?]]%lookup_insert_Some; [|by eapply Hw].
    split; [rewrite Hst; by intros [?|?]|]. intros _ a. by rewrite H1'.
  - intros id r1 a [[_ <-]|[_ ?]]%lookup_insert_Some Hx; [|by eapply Hp].
    unfold approver_of in Hx. rewrite H1' H2' in Hx. by destruct Hx.
Qed.

(** steps 9 to 11 *)
Lemma table_execute p (w : World B C) r w' :
  execute_call gs channel version (inputs n) who body p w = (r, w') →
  (needs_approval p = true → approval_in_force (inputs n) who body p (w_approvals w)) →
  sound_table n (w_approvals w) → sound_table n (w_approvals w').
Proof.
  intros He Hf Hd. apply execute_cases in He as (_ & _ & [(e & _ & _ & -> & _)|(res & _ & _ & _ & _ & ->)]);
    [done|]. destruct (needs_approval p); [|done].
  destruct (Hf eq_refl) as (id & r0 & -> & Hr & Hs & _). eapply table_mark; [done|exact Hr|].
  destruct (st_wf _ _ Hd _ _ Hr) as [Hg _]. auto.
Qed.

Lemma table_inner (w : World B C) r w' :
  handle_inner gs channel version (inputs n) who body w = (r, w') →
  sound_table n (w_approvals w) → sound_table (S n) (w_approvals w').
Proof.
  unfold handle_inner. pose proof (prepare_frame gs (inputs n) who body w) as Hfr.
  destruct (prepare gs (inputs n) who body w) as [[p|e] w1] eqn:Ep; cbn in Hfr; destruct Hfr as (Ea & _).
  2:{ rewrite (M_bind_err _ _ _ _ _ Ep). intros [= _ <-] Hd. rewrite Ea. by eapply table_later; [|exact Hd]; lia. }
  rewrite (M_bind_ok _ _ _ _ _ Ep). apply prepare_ok in Ep as Hg. rewrite -Ea. clear Ea Ep.
  destruct (needs_approval p) eqn:Hn.
  2:{ intros He Hd. apply (table_later n); [lia|]. eapply table_execute; [exact He|by rewrite Hn|done]. }
  destruct (opt_truthy (tr_approval_id body)) eqn:Ht; cbn [negb].
  - unfold mbind, M_bind, on_approvals.
    destruct (tr_approval_id body) as [id|] eqn:Hid; [|done]. cbn [default].
    destruct (verify_for_execution _ _ _ _) as [res db'] eqn:Ev.
    intros He Hd. eapply table_verify in Hd as Hd'; [|exact Ev]. apply (table_later n); [lia|].
    destruct res as [r0|e]; [|by injection He as _ <-].
    eapply table_execute; [exact He| |exact Hd'].
    intros _. apply verify_inv in Ev as (Hr & Ha & Hx & Hh & ->). exists id, r0. by split_and!.
  - unfold request_approval, mbind, M_bind, on_approvals.
    destruct (approval_create _ _ _ _ _ _ _) as [res db'] eqn:Ec.
    intros He Hd. eapply table_create in Hd; [|exact Ec|done].
    destruct res as [r0|e]; by injection He as _ <-.
Qed.

Lemma table_handle (w : World B C) r w' :
  handle gs channel version (inputs n) who body w = (r, w') →
  sound_table n (w_approvals w) → sound_table (S n) (w_approvals w').
Proof.
  unfold handle, try_except. destruct (handle_inner _ _ _ _ _ _ w) as [r0 w0] eqn:Ei.
  intros Hh Hd. eapply table_inner in Hd; [|exact Ei]. destruct r0 as [resp|[code detail i|k t]].
  - by injection Hh as _ <-.
  - pose proof (log_refusal_spec gs channel version (inputs n) who body code detail w0) as Hl.
    unfold mbind, M_bind in Hh. destruct (log_refusal _ _ _ _ _ _ _ _ _) as [[[]|e] w2];
      injection Hh as _ <-; cbn in Hl; destruct Hl as (? & ? & ? & ?); congruence.
  - by injection Hh as _ <-.
Qed.

(** whatever is sent is accounted for by this very call *)
Lemma sent_accounted (w : World B C) r w' :
  handle gs channel version (inputs n) who body w = (r, w') →
  accountable n w → ∀ e, e ∈ w_executions w' → accounted_for (S n) e.
Proof.
  intros Hh [Hd Hs] e.
  apply handle_execution in Hh as [->|(p & Hg & -> & Hden & _ & Hf & _)].
  { intros He. eapply accounted_later, Hs; [|done]. lia. }
  rewrite elem_of_app list_elem_of_singleton. intros [He| ->].
  { eapply accounted_later, Hs; [|done]. lia. }
  exists n, body, who, p. split; [lia|]. split; [by apply made|]. split; [done|]. split; [done|].
  intros Hra. destruct (Hf Hra) as (id & r0 & Hid & Hr & Hst & Hx & Hh). exists id, r0.
  split; [done|]. split; [by eapply st_requested|]. split; [done|]. split; [done|].
  split; [destruct (st_wf _ _ Hd _ _ Hr) as [Hgr _]; auto|]. intros a. by eapply st_people.
Qed.
End one_call.

(* ------------------------------------------------------------------ *)
(** ** The endpoints *)

Hypothesis directory_resolve : ∀ c a p, directory p → directory (resolve_by_external_account c a p).2.

Definition in_order (n : nat) (p : Process P B C) : Prop :=
  directory (ps_identity p) ∧ accountable n (ps_world p).
Definition keeps (n : nat) : relation (Process P B C) := λ p p', in_order n p → in_order n p'.
#[local] Instance keeps_preorder n : PreOrder (keeps n).
Proof. unfold keeps. split; [by intros p|by intros p q r; auto]. Qed.
Abbreviation kept n m := (preserves (keeps n) m).

Lemma kept_lift {A} n (r : res http_error A) : kept n (lift_res r).
Proof. by intros p Hp. Qed.
Lemma resolve_known n c a p who p' : resolve_identity c a p = (Ok who, p') → in_order n p →
  in_order n p' ∧ account_of c a who.
Proof.
  unfold resolve_identity. pose proof (directory_resolve c a (ps_identity p)) as Hp.
  destruct (resolve_by_external_account c a (ps_identity p)) as [[[i|]|e] q] eqn:Er; try done.
  intros [= <- <-] [Hd Ha]. split; [split; cbn in *; auto|]. exists (ps_identity p). by rewrite Er.
Qed.
Lemma kept_resolve n c a : kept n (resolve_identity c a).
Proof.
  intros p [Hd Ha]. unfold resolve_identity. specialize (directory_resolve c a (ps_identity p) Hd) as Hp.
  by destruct (resolve_by_external_account _ _ _).
Qed.
Lemma kept_on_store {A} n (m : M C exn A) : kept n (on_store m).
Proof.
  intros p [Hd Ha]. unfold on_store. destruct (m _). split; [done|]. by eapply accountable_same; [|exact Ha].
Qed.
Lemma kept_view n id : kept n (view_approval id).
Proof. by intros p Hp. Qed.
Hint Resolve kept_lift kept_resolve kept_on_store kept_view : numi.
Lemma kept_manager n c a : kept n (require_manager c a).
Proof. unfold require_manager. walk. Qed.
Hint Resolve kept_manager : numi.
Lemma kept_reads n t : (∀ c a ns, kept n (list_tools gs secret issuer ns t c a)) ∧
  (∀ ns, kept n (Endpoints.list_servers gs secret issuer ns t)) ∧
  (∀ i ns, kept n (Endpoints.get_server_catalog gs secret issuer ns t i)) ∧
  (∀ i ns, kept n (get_approval secret issuer ns t i)) ∧
  (∀ c a ns, kept n (refresh_all_endpoint gs secret issuer ns t c a)) ∧
  (∀ i c a ns, kept n (refresh_one_endpoint gs secret issuer ns t i c a)).
Proof.
  unfold list_tools, Endpoints.list_servers, Endpoints.get_server_catalog, get_approval,
    refresh_all_endpoint, refresh_one_endpoint.
  split_and!; [intros ? ? ?|intros ?|intros ? ?|intros ? ?|intros ? ? ?|intros ? ? ? ?]; walk.
Qed.

(** *** approve and reject *)

Definition table_kept (n : nat) : relation (World B C) := λ w w',
  sound_table n (w_approvals w) → sound_table n (w_approvals w').
#[local] Instance table_kept_preorder n : PreOrder (table_kept n).
Proof. unfold table_kept. split; [by intros p|by intros p q r; auto]. Qed.
Lemma table_records {A} n (m : M (World B C) exn A) : preserves same_records m → preserves (table_kept n) m.
Proof. apply preserves_sub. by intros w w' [E _] ?; rewrite E. Qed.
Lemma table_on_catalog {A} n (m : M C exn A) : preserves (table_kept n) (on_catalog m).
Proof. apply table_records, preserves_on_catalog. Qed.
Lemma table_lift {A} n (r : res exn A) : preserves (table_kept n) (lift_res r).
Proof. by intros w Hw. Qed.
Lemma table_audit n e : preserves (table_kept n) (audit_record (B := B) (C := C) e).
Proof. by intros w Hw. Qed.
Lemma table_get n id : preserves (table_kept n) (on_approvals (B := B) (C := C) (approval_get id)).
Proof. intros w Hw. unfold on_approvals, approval_get. by destruct (_ !! _). Qed.
Hint Resolve table_on_catalog table_lift table_audit table_get : numi.
Lemma table_decide_inner n id who d at_ : (d = APPROVE → approved_by n id (vi_subject_id who)) →
  preserves (table_kept n) (decide_inner gs id who d at_).
Proof.
  intros Ha. assert (preserves (table_kept n) (on_approvals (B := B) (C := C) (approval_decide id who d at_))) as Hd.
  { intros w Hw. unfold on_approvals. pose proof (table_decide n id who d at_ (w_approvals w) Hw Ha) as Hd.
    by destruct (approval_decide _ _ _ _ _). }
  unfold decide_inner, approver_check. walk.
Qed.

(** [n] is the n-th request: an approval given in it is on record from the next one on *)
Lemma kept_decide n t id c a d : (d = APPROVE → ∀ ns, require_agent_service_token secret issuer ns t = Ok tt →
    ns = now_seconds n → asked n approve_ [id] (AccountBody c a)) →
  preserves (keeps (S n)) (decide_approval gs secret issuer (now_seconds n) t id c a d (now n)).
Proof.
  intros Ha p. unfold decide_approval, mbind, M_bind, lift_res.
  destruct (require_agent_service_token _ _ _ _) as [[]|e] eqn:Et; [|by intros ?].
  destruct (resolve_identity c a p) as [[who|e] p1] eqn:Er.
  2:{ pose proof (kept_resolve (S n) c a p) as Hk. by rewrite Er in Hk. }
  intros Hp. destruct (resolve_known _ _ _ _ _ _ Er Hp) as [[Hd Hac] Hk]. unfold decide_in_session.
  destruct (is_dba who) eqn:Hdba; cbn [negb]; [|done].
  pose proof (sent_decide gs id who d (now n) (ps_world p1)) as Hs.
  pose proof (table_decide_inner (S n) id who d (now n)) as Ht.
  assert (d = APPROVE → approved_by (S n) id (vi_subject_id who)) as Hby.
  { intros Hd'. exists n, c, a, who. split; [lia|]. by split; [eapply Ha|]. }
  specialize (Ht Hby (ps_world p1)). destruct (decide_inner _ _ _ _ _ _) as [[st|e] w]; cbn in Hs, Ht.
  - split; [done|]. destruct Hac as [Htab Hsent]. constructor; [by apply Ht|by rewrite Hs].
  - split; [done|]. destruct Hac as [Htab Hsent]. constructor; [done|]. cbn. by rewrite Hs.
Qed.

(** *** tool calls *)

Lemma submit_in_order n t body p :
  (require_agent_service_token secret issuer (now_seconds n) t = Ok tt →
     asked n submit_tool_call_ [] (ToolCallBody body)) →
  in_order n p → in_order (S n) (submit_tool_call gs secret issuer (now_seconds n) (inputs n) t body p).2.
Proof.
  intros Ha Hp. assert (∀ q, in_order n q → in_order (S n) q) as Hlater.
  { intros q [Hd Hac]. split; [done|]. eapply accountable_later; [|done]. lia. }
  unfold submit_tool_call, mbind, M_bind, lift_res.
  destruct (require_agent_service_token _ _ _ _) as [[]|e] eqn:Et; [|by apply Hlater].
  destruct (resolve_identity _ _ p) as [[who|e] p1] eqn:Er.
  2:{ pose proof (kept_resolve n (tr_channel body) (tr_channel_account_id body) p Hp) as Hk.
      rewrite Er in Hk. by apply Hlater. }
  destruct (resolve_known _ _ _ _ _ _ Er Hp) as [[Hd Hac] Hk]. unfold handle_in_session.
  destruct (handle _ _ _ _ _ _ (ps_world p1)) as [r w] eqn:Eh.
  pose proof (sent_accounted _ _ _ _ _ (Ha eq_refl) Hk _ _ _ Eh Hac) as Hs.
  pose proof (table_handle _ _ _ _ _ (Ha eq_refl) Hk _ _ _ Eh (ac_table _ _ Hac)) as Ht.
  destruct r as [resp|e]; (split; [done|]); constructor; try done.
  cbn. eapply table_later; [|apply (ac_table _ _ Hac)]. lia.
Qed.

(* ------------------------------------------------------------------ *)
(** ** The application *)

Definition site_keeps (n : nat) : relation site := λ s s',
  in_order n (st_process s) → in_order n (st_process s').
#[local] Instance site_keeps_preorder n : PreOrder (site_keeps n).
Proof. unfold site_keeps. split; [by intros p|by intros p q r; auto]. Qed.
Abbreviation site_kept n m := (preserves (site_keeps n) m).

Lemma site_process_kept {A} n (m : M (Process P B C) http_error A) : kept n m → site_kept n (in_process m).
Proof. intros Hm s Hs. unfold in_process. specialize (Hm (st_process s) Hs). by destruct (m _). Qed.
Lemma site_elsewhere_kept {A} n (m : M site http_error A) :
  preserves (λ s s', st_process s' = st_process s) m → site_kept n m.
Proof. apply preserves_sub. intros s s' E Hs. by rewrite E. Qed.
Lemma site_same_kept {A} n (m : M site http_error A) : (∀ s, (m s).2 = s) → site_kept n m.
Proof. intros Hm s Hs. by rewrite Hm. Qed.
Lemma kept_query n name dflt q : site_kept n (query_limit name dflt q).
Proof. apply site_same_kept. intros ?. unfold query_limit. by repeat case_match. Qed.
Lemma kept_limit n limit : site_kept n (checked_limit limit).
Proof. apply site_same_kept. intros ?. unfold checked_limit. by case_match. Qed.
Lemma kept_summary n k hours : site_kept n (decision_event_summary now k hours).
Proof. apply site_same_kept. intros ?. unfold decision_event_summary. by case_match. Qed.
Lemma kept_unprocessable {A} n detail : site_kept n (unprocessable (A := A) detail).
Proof. by apply site_same_kept. Qed.
Lemma kept_audit n id : site_kept n (get_audit_event isoformat audit_ids audit_times id).
Proof. by apply site_same_kept. Qed.
Lemma kept_res {A} n (r : res http_error A) : site_kept n (lift_res r).
Proof. by apply site_same_kept. Qed.
Lemma kept_investigations {A} n (m : M InvestigationDb exn A) : site_kept n (in_investigations m).
Proof. apply site_elsewhere_kept, in_investigations_process. Qed.
Lemma kept_decisions {A} n (m : M (list DecisionEvent) exn A) : site_kept n (in_decisions m).
Proof. apply site_elsewhere_kept, in_decisions_process. Qed.
Hint Resolve kept_query kept_limit kept_summary kept_unprocessable kept_audit kept_res
  kept_investigations kept_decisions site_process_kept kept_decide : numi.

(** an endpoint on the n-th request, every one but the tool calls *)
Lemma call_kept n e args rq : e ≠ submit_tool_call_ →
  (∀ body, rq_body rq = Some body → require_agent_service_token secret issuer (now_seconds n) (rq_token rq) = Ok tt →
     asked n e args body) →
  site_kept (S n) (endpoint_call n e args rq).
Proof.
  intros He Ha. destruct (kept_reads (S n) (rq_token rq)) as (Hk1 & Hk2 & Hk3 & Hk4 & Hk5 & Hk6).
  assert (∀ id c a, e = approve_ → args = [id] → rq_body rq = Some (AccountBody c a) →
    kept (S n) (decide_approval gs secret issuer (now_seconds n) (rq_token rq) id c a APPROVE (now n))) as Happrove.
  { intros id c a -> -> Eb. apply kept_decide. intros _ ns Ht ->. by apply Ha. }
  assert (∀ id c a,
    kept (S n) (decide_approval gs secret issuer (now_seconds n) (rq_token rq) id c a REJECT (now n))) as Hreject.
  { intros id c a. by apply kept_decide. }
  destruct e; try done; destruct args as [|x [|y args]]; cbn;
    unfold get_investigation, Endpoints.get_tool; walk.
Qed.

Lemma call_in_order n e args rq s :
  (∀ body, rq_body rq = Some body → require_agent_service_token secret issuer (now_seconds n) (rq_token rq) = Ok tt →
     asked n e args body) →
  in_order n (st_process s) → in_order (S n) (st_process (endpoint_call n e args rq s).2).
Proof.
  intros Ha Hs. assert (in_order (S n) (st_process s)) as Hs'.
  { destruct Hs as [Hd Hac]. split; [done|]. eapply accountable_later; [|done]. lia. }
  destruct (decide (e = submit_tool_call_)) as [->|He]; [|by apply call_kept].
  destruct args as [|x args]; cbn; [|by destruct (rq_body rq) as [[]|]].
  destruct (rq_body rq) as [[body| | | | |]|] eqn:Eb; try done.
  unfold mbind, M_bind, in_process.
  pose proof (submit_in_order n (rq_token rq) body (st_process s) (Ha _ eq_refl) Hs) as Hp.
  by destruct (submit_tool_call _ _ _ _ _ _ _ _) as [[r|e] p].
Qed.

Lemma raw_call_in_order n rq s : requests !! n = Some rq →
  in_order n (st_process s) → in_order (S n) (st_process (raw_call n rq s).2).
Proof.
  intros Hrq Hs. assert (in_order (S n) (st_process s)) as Hs'.
  { destruct Hs as [Hd Hac]. split; [done|]. eapply accountable_later; [|done]. lia. }
  unfold gateway_call, app_request.
  destruct (find_route _ _ _) as [[route args]|] eqn:Ef; [|done]. unfold mbind, M_bind, lift_res.
  pose proof (call_in_order n (re_endpoint route) args rq s) as Hc.
  assert (in_order (S n) (st_process (endpoint_call n (re_endpoint route) args rq s).2)) as Hn.
  { apply Hc; [|done]. intros body Eb Ht. exists rq, route. split_and!; try done. by apply require_token_ok. }
  clear Hc. destruct (re_guarded route); [destruct (require_agent_service_token _ _ _ _) as [[]|e]; [|done]|];
    cbn; by destruct (endpoint_call n (re_endpoint route) args rq s) as [r s'].
Qed.

Lemma served_in_order rqs n s : (∀ i rq, rqs !! i = Some rq → requests !! (n + i)%nat = Some rq) →
  in_order n (st_process s) → in_order (n + length rqs) (st_process (served_all n rqs s)).
Proof.
  revert n s. induction rqs as [|rq rqs IH]; intros n s Hr Hs; cbn; [by rewrite Nat.add_0_r|].
  rewrite Nat.add_succ_r -Nat.add_succ_l. apply IH.
  - intros i rq' Hi. rewrite Nat.add_succ_l -Nat.add_succ_r. by apply Hr.
  - apply raw_call_in_order; [|done]. specialize (Hr 0%nat rq eq_refl). by rewrite Nat.add_0_r in Hr.
Qed.

(** an execution that was approved, by the requests alone *)
Definition same_action_text (ctx ctx' : ApprovalContext) : Prop :=
  vi_subject_id (ac_actor ctx) = vi_subject_id (ac_actor ctx') ∧
  td_tool_id (ac_tool ctx) = td_tool_id (ac_tool ctx') ∧
  ac_target ctx = ac_target ctx' ∧ ac_environment ctx = ac_environment ctx' ∧
  ac_database_id ctx = ac_database_id ctx' ∧
  json_canon (JObj (ac_normalized_arguments ctx)) = json_canon (JObj (ac_normalized_arguments ctx')).
Definition collision_free (ctx ctx' : ApprovalContext) : Prop :=
  action_hash sha256 ctx = action_hash sha256 ctx' → json_dumps (context_json ctx) = json_dumps (context_json ctx').

Definition approved_call (m : nat) (body : ToolCallRequest) (who : VerifiedIdentity) (p : Prepared) : Prop :=
  ∃ id k body0 who0 p0, (k < m)%nat ∧ call_made k body0 who0 p0 ∧
    id = new_id "appr" (ci_approval_ulid (inputs k)) ∧ tr_approval_id body = Some id ∧
    (ci_now_approval (inputs m) ≤ ci_now_approval (inputs k) + gs_approval_ttl gs * US)%Z ∧
    let ctx0 := approval_context who0 body0 p0 in
    let ctx := approval_context who body p in
    action_hash sha256 ctx0 = action_hash sha256 ctx ∧
    (collision_free ctx0 ctx → same_action_text ctx0 ctx) ∧
    if pe_requires_dual_approval (pr_evaluation p0) then
      ∃ a b, a ≠ b ∧ a ≠ vi_subject_id who0 ∧ b ≠ vi_subject_id who0 ∧
        approved_by m id a ∧ approved_by m id b
    else ∃ a, approved_by m id a.

Lemma accounted_approved n e : accounted_for n e →
  ∃ m body who p, (m < n)%nat ∧ call_made m body who p ∧ e = exec_request (inputs m) p ∧
    pe_decision (pr_evaluation p) ≠ DENY ∧
    (pe_decision (pr_evaluation p) = REQUIRES_APPROVAL → approved_call m body who p).
Proof.
  intros (m & body & who & p & Hm & Hc & He & Hd & Ha). exists m, body, who, p.
  split; [done|]. split; [done|]. split; [done|]. split; [done|].
  intros Hr. destruct (Ha Hr) as (id & r & Hid & Hq & Hh & Hx & Hg & Hp).
  destruct Hq as (k & body0 & who0 & p0 & Hk & Hc0 & Ei & _ & Hact & Hh0 & Hdu & Hex).
  rewrite Hex in Hx. rewrite Hh0 in Hh. unfold action_of in Hh.
  exists id, k, body0, who0, p0. split; [done|]. split; [done|]. split; [done|]. split; [done|].
  split; [done|]. split; [done|]. split.
  - intros Hinj. apply Hinj in Hh. apply json_dumps_inj, context_json_inj in Hh.
    by destruct Hh as (? & ? & _ & ? & ? & ? & _ & ?).
  - unfold granted in Hg. rewrite Hdu Hact in Hg. destruct (pe_requires_dual_approval _).
    + destruct Hg as (a & b & H1' & H2' & Hab & Ha' & Hb'). exists a, b.
      split_and!; try done; apply Hp; unfold approver_of; auto.
    + destruct Hg as (a & H1'). exists a. apply Hp. by left.
Qed.
End histories.

(** C1: Whatever the Agent and anybody else send to the Gateway, in any order, everything the
    Gateway has had executed answers to people.  Along any sequence of raw requests, from a
    control database without approvals, every request to the execution service stems from a
    tool call that the Agent posted with a valid token, for an account the identity provider
    knows, and that passed every gate; and where the policy asks for approval, that call
    cites the approval that an earlier posted call asked for, for an action of the same
    digest (the same requester, tool, target and arguments, unless SHA-256 collides), no
    older than the approvals' time to live, and DBAs had asked to approve that very
    approval before: one, or where dual approval was asked, two different ones, neither of
    them the requester. *)
Theorem executions_answer_to_people {P B C} `{IdentityProvider P} `{RateLimitBackend B}
    `{CatalogStore C} `{PydanticLax} `{SqlGlot} `{SqlStatements} `{External} `{TimedSerializer}
    `{PathRouting} `{QueryInts} gs secret issuer now now_seconds inputs correlation lookback isoformat
    audit_ids audit_times (directory : P → Prop) requests (s : Site P B C) :
  (∀ c a p, directory p → directory (resolve_by_external_account c a p).2) →
  directory (ps_identity (st_process s)) →
  db_approvals (w_approvals (ps_world (st_process s))) = ∅ →
  w_executions (ps_world (st_process s)) = [] →
  let s' := served_all gs secret issuer now now_seconds inputs correlation lookback isoformat
              audit_ids audit_times 0 requests s in
  ∀ e, e ∈ w_executions (ps_world (st_process s')) →
  ∃ m body who p, (m < length requests)%nat ∧
    call_made gs secret issuer now_seconds inputs directory requests m body who p ∧
    e = exec_request (inputs m) p ∧
    pe_decision (pr_evaluation p) ≠ DENY ∧
    (pe_decision (pr_evaluation p) = REQUIRES_APPROVAL →
     approved_call gs secret issuer now_seconds inputs directory requests m body who p).
Proof.
  intros Hdir Hs Ha He s' e Hin. apply accounted_approved.
  pose proof (served_in_order gs secret issuer now now_seconds inputs correlation lookback isoformat
    audit_ids audit_times directory requests Hdir requests 0 s (λ i rq Hi, Hi)) as Hs'.
  eapply ac_sent; [apply Hs'|exact Hin]. split; [done|]. constructor.
  - constructor; rewrite Ha; intros id r; [|..|intros a]; by rewrite lookup_empty.
  - rewrite He. by intros x ?%elem_of_nil.
Qed.

(* ------------------------------------------------------------------ *)
(** ** A history *)

#[local] Existing Instances segment_routing text_query_ints verbatim_paths symbolic_serializer.

Definition colleague (name account : string) (group : string) : DirectoryEntry :=
  {| di_subject_id := name; di_email := ""; di_display_name := name;
     di_channel_accounts := [("slack", account)]; di_groups := ["dba"; group]; di_mfa := true |}.
Definition team : MockIdentityProvider :=
  {| mk_roles := {| dba_team_groups := ["dba"];
                    role_group_map := [(DBA_L3, ["dba-l3"]); (DBA_MANAGER, ["dba-managers"])] |};
     mk_directory := [colleague "alice" "UA" "dba-l3"; colleague "bob" "UB" "dba-l3";
                      colleague "carol" "UC" "dba-managers"] |}.
Definition team_site : Site MockIdentityProvider InMemoryBuckets InMemoryCatalog :=
  mk_site (mk_process team empty_world) {| idb_rows := []; idb_events := [] |} [] 0.
Definition nth_inputs (n : nat) : CallInputs :=
  {| ci_now_discovery := 3; ci_now_rate := 3; ci_now_policy := 3; ci_now_approval := Z.of_nat n;
     ci_now_executed := 4; ci_approval_ulid := pretty n; ci_execution_ulid := pretty n;
     ci_duration_ms := 5 |}.

Definition restart_call (account : string) (approval_id : option string) : RawRequest :=
  raw_request (PostToolCall {|
    tr_tool_id := "database.restart_instance"; tr_tool_version := None;
    tr_arguments := [("reason", JStr "hung scheduler")];
    tr_target := [("environment", JStr "production"); ("instance", JStr "sqlserver-prod-01")];
    tr_reason := "hung scheduler"; tr_conversation_id := "conv_1"; tr_investigation_id := None;
    tr_request_id := "req_1"; tr_channel := "slack"; tr_channel_account_id := account;
    tr_approval_id := approval_id; tr_change_id := None |}) agent_token.
Definition approve_call (id account : string) : RawRequest :=
  raw_request (PostApprove id "slack" account) agent_token.

(** alice asks for a restart and tries to approve it herself, bob approves it, alice tries
    too early, carol approves it, alice tries again; and last an unsigned request *)
Definition restart_history : list RawRequest :=
  [restart_call "UA" None; approve_call "appr_0" "UA"; approve_call "appr_0" "UB";
   restart_call "UA" (Some "appr_0"); approve_call "appr_0" "UC"; restart_call "UA" (Some "appr_0");
   {| rq_method := POST; rq_path := "/v1/tool-calls"; rq_query := []; rq_body := None; rq_token := None |}].
Abbreviation team_after requests :=
  (@served_all _ _ _ (mock_provider "now") in_memory_backend in_memory_catalog strict_lax no_sqlglot
    no_sql_statements (answering (Ok one_row)) _ _ _ example_gateway "k" "numi" (λ _, 0%Z) (λ _, 110%Z)
    nth_inputs true 30 (λ _, "then") row_id Z.of_nat 0 requests team_site).

Example restarted_once :
  map (λ n, length (w_executions (ps_world (st_process (team_after (firstn n restart_history)))))) (seq 0 8)
  = [0; 0; 0; 0; 0; 0; 1; 1]%nat.
Proof. vm_compute. reflexivity. Qed.

Lemma executions_answer_to_people_witness :
  ∃ e m body who p, w_executions (ps_world (st_process (team_after restart_history))) = [e] ∧ (m < 7)%nat ∧
    @call_made _ _ (mock_provider "now") in_memory_backend strict_lax no_sql_statements
      (answering (Ok one_row)) _ _ example_gateway "k" "numi" (λ _, 110%Z) nth_inputs (eq team)
      restart_history m body who p ∧
    er_tool_id e = "database.restart_instance" ∧ e = exec_request (nth_inputs m) p.
Proof.
  destruct (w_executions (ps_world (st_process (team_after restart_history)))) as [|e [|e' l]] eqn:E.
  - apply (f_equal length) in E. vm_compute in E. discriminate E.
  - destruct (@executions_answer_to_people _ _ _ (mock_provider "now") in_memory_backend in_memory_catalog
      strict_lax no_sqlglot no_sql_statements (answering (Ok one_row)) _ _ _ example_gateway "k" "numi"
      (λ _, 0%Z) (λ _, 110%Z) nth_inputs true 30 (λ _, "then") row_id Z.of_nat (eq team) restart_history
      team_site (λ c a p Hp, Hp) eq_refl eq_refl eq_refl e) as (m & body & who & p & Hm & Hc & He & _).
    + rewrite E. by left.
    + exists e, m, body, who, p. split; [reflexivity|]. split; [exact Hm|]. split; [exact Hc|].
      split; [|exact He].
      assert (map er_tool_id (w_executions (ps_world (st_process (team_after restart_history))))
              = ["database.restart_instance"]) as Et by (vm_compute; reflexivity).
      rewrite E in Et. by injection Et.
  - apply (f_equal length) in E. vm_compute in E. discriminate E.
Defined.
